(* ===== verification/_CoqProject ===== *)
-Q . S2P
Prelude.v
VTTypes.v
StateMachine.v
ParserFacts.v
ParserSafety.v
ParserRoundtrip.v
ParserStrings.v
ParserEquiv.v
ParserWitness.v
StringUtils.v
Colors.v
Base64.v
MacroBuffer.v
ParserMacros.v
TermDispatch.v
ActionCodes.v
OutputEngine.v
OutputFacts.v
OutputWitness.v
Rle.v
RleFacts.v
RleReplace.v
RleRefine.v
TextAttribute.v
AttributeFacts.v
SgrStack.v
Graphics.v
GraphicsFacts.v
GraphicsTyped.v
TicketLock.v
InputRecords.v
InputEngine.v
TerminalInput.v
InputFacts.v
InputRoundtrip.v
InputKeys.v
InputMouse.v
Charsets.v
TerminalOutput.v
CharsetFacts.v
Cursor.v
Pages.v
RenderSettings.v
Adapter.v
AdapterReports.v
AdapterColors.v
ColorFacts.v
Presentation.v
AdapterFacts.v
AdapterMoves.v
CursorReport.v
CursorRestore.v
AdapterWitness.v
Graphemes.v
GraphemeFacts.v
Row.v
RowWrite.v
RowFacts.v
RowInit.v
RowFinish.v
RowWrites.v
RowTheorems.v
RowCopy.v
RowWitness.v
Hash.v
Geometry.v
TextBuffer.v
TextBufferFacts.v
TextBufferTheorems.v
TextBufferWitness.v
Cells.v
Editing.v
Areas.v
Printing.v
Modes.v
EditingFacts.v
AreaFacts.v
ScrollFacts.v
ModeFacts.v
EditingWitness.v
