(* ===== verification/Prelude.v ===== *)
(** * A verification of the core of a terminal

    The program is a fork of Windows Terminal and its console host.  This
    development models its portable core: the path of the text an application
    writes, from the parser of control sequences through the terminal to the
    rows of the text buffer, and the path of keys and mouse events back.
    Paths below are relative to the repository's [src/src].

    ** The program

    - [terminal/parser/stateMachine.cpp] is the parser.  It receives UTF-16
      code units in strings of any length, passes printable text on in one
      piece, and drives a state machine with twenty states for everything
      else.  It calls an engine ([IStateMachineEngine.hpp]), which can ask it
      for a change of mode, for an injection, or for a callback when the
      current sequence is complete.
    - [terminal/parser/OutputStateMachineEngine.cpp] is the engine for output:
      it maps what was parsed to the methods of a terminal
      ([terminal/adapter/ITermDispatch.hpp]).  [InputStateMachineEngine.cpp] is
      the engine for input: it turns what a terminal sends for keys and the
      mouse into input records ([types/inc/IInputEvent.hpp]).
    - [terminal/adapter/adaptDispatch.cpp] and [adaptDispatchGraphics.cpp] are
      the terminal, with [PageManager.cpp], [terminalOutput.cpp] (character
      sets), [MacroBuffer.cpp], [types/sgrStack.cpp] and
      [renderer/base/RenderSettings.cpp].  It reaches the console through
      [ITerminalApi.hpp].
    - [buffer/out] is the text buffer: [textBuffer.cpp], [Row.cpp],
      [cursor.cpp], [TextAttribute.cpp], [TextColor.cpp] and the cell
      iterators; [types/CodepointWidthDetector.cpp] cuts text into graphemes.
    - [terminal/input/terminalInput.cpp], [mouseInput.cpp] and
      [mouseInputState.cpp] encode keys and mouse events.
    - [inc/til] ([rle.h], [hash.h], [ticket_lock.h], [point.h], [rect.h],
      [string.h], [color.h], [static_map.h]), [types/viewport.cpp],
      [types/utils.cpp], [types/colorTable.cpp] and
      [terminal/parser/base64.cpp] are the structures and helpers below these.

    ** The files, by component

    - [Prelude.v]: strings, record update, machine integers, the monad
      [outcome] of code that can throw or leave its data, tactics.
    - The parser: [VTTypes.v] (identifiers and parameters), [StateMachine.v]
      (the class), [ParserFacts.v], [ParserSafety.v] (C1),
      [ParserRoundtrip.v] (C2, C9), [ParserStrings.v], [ParserEquiv.v] (C3,
      C31), [ParserWitness.v].
    - Helpers: [StringUtils.v], [Colors.v], [Base64.v].
    - Macros: [MacroBuffer.v] (C30), [ParserMacros.v] (C29).
    - The output engine: [TermDispatch.v], [ActionCodes.v], [OutputEngine.v],
      [OutputFacts.v] (C23, C24), [OutputWitness.v].
    - Run length encoding: [Rle.v], [RleFacts.v], [RleReplace.v],
      [RleRefine.v] (C10).
    - Attributes and renditions: [TextAttribute.v], [AttributeFacts.v],
      [SgrStack.v] (C32), [Graphics.v], [GraphicsFacts.v] (C18),
      [GraphicsTyped.v] (C33).
    - The lock: [TicketLock.v] (C20, C21).
    - Input: [InputRecords.v], [InputEngine.v], [TerminalInput.v],
      [InputFacts.v] (C19), [InputRoundtrip.v] (C25), [InputKeys.v] (C7),
      [InputMouse.v] (C17).
    - Character sets: [Charsets.v], [TerminalOutput.v], [CharsetFacts.v]
      (C35).
    - The cursor, pages, settings and requests of the terminal: [Cursor.v],
      [Pages.v], [RenderSettings.v], [Adapter.v], [AdapterReports.v],
      [AdapterColors.v], [ColorFacts.v] (C39), [Presentation.v],
      [AdapterFacts.v], [AdapterMoves.v] (C34), [CursorReport.v],
      [CursorRestore.v] (C8), [AdapterWitness.v] (C6, C40).
    - Graphemes: [Graphemes.v], [GraphemeFacts.v] (C22).
    - Rows: [Row.v], [RowWrite.v], [RowFacts.v], [RowInit.v] (C36),
      [RowFinish.v], [RowWrites.v], [RowTheorems.v] (C4), [RowCopy.v] (C11),
      [RowWitness.v].
    - Hashing and geometry: [Hash.v] (C37), [Geometry.v] (C27, C28).
    - The text buffer: [TextBuffer.v], [TextBufferFacts.v],
      [TextBufferTheorems.v] (C5, C16, C26), [TextBufferWitness.v], [Cells.v].
    - The terminal on top of it: [Editing.v], [Areas.v], [Printing.v],
      [Modes.v], [EditingFacts.v], [AreaFacts.v] (C14, C15), [ScrollFacts.v]
      (C12, C13), [ModeFacts.v] (C38), [EditingWitness.v].

    ** Interfaces

    [IStateMachineEngine] is what the parser asks of an engine, and
    [EngineLaws] what C3 needs of one; [ITermDispatch] is what the output
    engine asks of a terminal, and [DispatchLaws] gives [EngineLaws] for the
    output engine (C23).  [IInteractDispatch] is what the input engine asks of
    the console.  [RowStorage] is what pages and cursor movements ask of a
    text buffer, [ITerminalApi], [IScreenApi] and [IModeApi] what the terminal
    asks of the console, with the laws [TerminalApiLaws], [ScreenApiLaws] and
    [ModeApiLaws] that a host which keeps what it is given meets.  [Machine]
    collects what rows depend on: the vector instructions, the memory, the
    renderer's measure of a glyph.

    ** What the theorems show

    - Invariants: the limits, ranges and handlers of the parser (C1), the
      cursor on its page (C6), the caches of the input encoder (C19), the
      space of the macro buffer (C30), the attributes (C33).
    - Refinement: runs against lists (C10), glyphs against offsets (C4, C11),
      the circular buffer against a list of rows (C16), the stack of
      renditions (C32), the output engine against the contract of an engine
      (C23).
    - Round trips through printer, parser and engine: control sequences and
      operating system commands (C2, C9), renditions (C18), keys (C7, C25),
      mouse events (C17), cursor information (C8), saved cursors (C34), colours
      (C39).
    - Exact effects: scrolling rows and dropping the scrollback (C5, C26),
      line feeds (C12), inserted and deleted lines (C13), erased areas and
      changed attributes (C14, C15), numeric sequences (C24), the modes and
      their reports (C38), viewports (C27, C28), character sets (C35).
    - Optimised against plain code: the SSE2 and NEON scans (C31), the AVX2,
      SSE2 and NEON initialisation of rows (C36), batches and cuts of text
      (C3).
    - Concurrency: exclusion, order and progress of the lock under every
      interleaving (C20, C21).
    - Termination and bounds: graphemes (C22), macros (C29), hashing (C37).
    - C40, and theorems without a number in the witness files, record what
      the code does where it looks unintended.

    The conditions of a theorem are in its comment.  Those on rows are the
    common ones: [lines] and [scrollable] ask for rows of single width that are
    not padded for a wide glyph which did not fit, because a padded row is not
    copied whole ([padded_row_copied_stale]).

    ** Modelling

    A [wchar_t] and every integer is a [Z]; wrap-around is written out with
    [u8] to [u64] where the source can reach it, and shifts and masks use the
    bit operations.  Containers are lists, and a view is the list it shows; a
    pointer into a buffer is an offset.  Members are fields of a record,
    updated with [r <| f := v |>].  Where code can throw, or read outside of
    its data, its result is [Done], [Throws] or [Undefined]; an exception ends
    the engine call it occurs in, as [_SafeExecute] sees it.  Allocation
    failures, tracing and the waking of the renderer are left out.

    Fuel: the loop of [ProcessString] takes a character per iteration and has
    one more unit than there are characters, and C3 shows that this is the
    same as feeding all of them.  [FlushToTerminal] has a fuel that does not
    matter for an engine which accepts what it is passed ([flush_terminates]).
    [runMacro] has the nesting of macros as fuel, and sixteen for each buffer
    is enough (C29).  Loops over text, rows and columns have their length as
    fuel, and the theorems about them say that they return.

    Parameters, for code outside of these sources or in floating point: the
    conversion from UTF-8, the keyboard layout and state of the system, the
    clock, the renderer's measure of ambiguous glyphs, the colour model HLS and
    [ColorFix::GetPerceivableColor], and the engine, terminal, host and
    callbacks wherever a theorem does not fix them.

    ** Not modelled

    Of the terminal: sixel images, soft fonts, audio, the OSC actions of
    ConEmu, iTerm and the shells, image slices and accessibility
    notifications.  Of the text buffer: words, selections, text export,
    search, reflow and image slices.  A hard reset from inside a macro
    overwrites the text of the running macro in the source; here the running
    text is a copy.  A row copy that throws while rows are scrolled leaves the
    target row as it is.  The renderers, the console API and its server, the
    WinRT application and its settings, and the AI features of the fork are
    interfaces to the system and stay out. *)

From Stdlib Require Export ZArith Lia Bool Ascii String.
From stdpp Require Export base list numbers option.

#[global] Set Warnings "-postfix-notation-not-level-1".

(** ** Scopes and strings

    A [wchar_t] of the source is a 16-bit code unit; it is a [Z] here, and a
    [std::wstring] or [std::wstring_view] is a [list Z].  [wstr] turns an
    ASCII literal of the source into such a list. *)

Declare Scope term_scope.
Delimit Scope term_scope with term.
#[global] Open Scope Z_scope.
#[global] Open Scope term_scope.

Definition wchar (c : ascii) : Z := Z.of_N (N_of_ascii c).

Fixpoint wstr (s : string) : list Z :=
  match s with
  | EmptyString => []
  | String c s' => wchar c :: wstr s'
  end.

(** ** Functional record update

    [r <| f := v |>] is the record [r] with the field [f] replaced by [v].
    A record opts in with an [Eta] instance that rebuilds it from its own
    projections; the update function of each field is then derived from that
    expansion by abstracting the projection. *)

Class Eta (R : Type) := eta : R -> R.
Class Setter {R T : Type} (p : R -> T) := setter : (T -> T) -> R -> R.
Arguments setter {R T} p {_} _ _ : assert.

Ltac derive_setter :=
  match goal with
  | |- @Setter ?R ?T ?p =>
      let e := eval hnf in (_ : Eta R) in
      let b := eval pattern p in e in
      match b with
      | ?F _ =>
          let t := eval cbv beta in (fun (f : T -> T) (r : R) => F (fun x => f (p x)) r) in
          exact t
      end
  end.

#[global] Hint Extern 1 (Setter _) => derive_setter : typeclass_instances.

Notation "r <| p := v |>" := (setter p (fun _ => v) r)
  (at level 1, left associativity, p at level 9, v at level 200,
   format "r <|  p  :=  v  |>") : term_scope.

(** ** Unsigned machine integers

    [uN z] is the value a [w]-bit unsigned variable holds after [z] has been
    stored into it. *)

Definition u8 (z : Z) : Z := z mod 2 ^ 8.
Definition u16 (z : Z) : Z := z mod 2 ^ 16.
Definition u32 (z : Z) : Z := z mod 2 ^ 32.
Definition u64 (z : Z) : Z := z mod 2 ^ 64.

Lemma u8_small z : 0 <= z < 256 -> u8 z = z.
Proof. intros ?. unfold u8. apply Z.mod_small. lia. Qed.

Lemma u16_small z : 0 <= z < 65536 -> u16 z = z.
Proof. intros ?. unfold u16. apply Z.mod_small. lia. Qed.

Lemma u32_small z : 0 <= z < 2 ^ 32 -> u32 z = z.
Proof. intros ?. unfold u32. apply Z.mod_small. lia. Qed.

Lemma u64_small z : 0 <= z < 2 ^ 64 -> u64 z = z.
Proof. intros ?. unfold u64. apply Z.mod_small. lia. Qed.

(** ** Boolean case analysis

    The guards of the source are boolean expressions over integers; these
    tactics turn a guard of the goal into the corresponding linear facts. *)

Ltac bool_cases :=
  repeat match goal with
  | |- context [if ?b then _ else _] =>
      let H := fresh "Hb" in destruct b eqn:H
  end.

Ltac step_if :=
  match goal with
  | |- context [if ?b then _ else _] =>
      let H := fresh "Hb" in destruct b eqn:H
  end.

Create HintDb term discriminated.
Create HintDb chars discriminated.

(** ** Lists

    [std::vector::back] and its assignment, on the vectors of the source,
    which are never empty where the code calls them. *)

Section Back.
Context {A : Type}.

Definition back (d : A) (l : list A) : A := List.last l d.

Definition set_back (l : list A) (x : A) : list A := removelast l ++ [x].

Lemma back_snoc d l (x : A) : back d (l ++ [x]) = x.
Proof. apply List.last_last. Qed.

Lemma set_back_snoc l (x y : A) : set_back (l ++ [x]) y = l ++ [y].
Proof. unfold set_back. by rewrite removelast_last. Qed.

Lemma length_set_back l (x : A) : l <> [] -> length (set_back l x) = length l.
Proof.
  intros H. destruct (exists_last H) as (l' & y & ->).
  by rewrite set_back_snoc, !length_app.
Qed.
End Back.
#[global] Arguments back : simpl never.
#[global] Arguments set_back : simpl never.

(** [substr off len s] is [s.substr(off, len)]. *)
Definition substr {A} (off len : nat) (s : list A) : list A := take len (drop off s).

Lemma substr_prefix {A} (s t : list A) : substr 0 (length s) (s ++ t) = s.
Proof. unfold substr. rewrite drop_0. by rewrite take_app_length. Qed.

Lemma fold_left_cons {A B} (f : A -> B -> A) x l a : fold_left f (x :: l) a = fold_left f l (f a x).
Proof. done. Qed.

(** ** Outcomes

    What a call of the container classes of [inc/til] can come to: a result,
    an exception, the termination of the process by a failed [Expects], or an
    access the language leaves undefined (a dereference past the end).  The
    last one is a value of its own, so that a theorem that gives [Done] also
    says that the call stays inside its storage. *)

Inductive outcome (A : Type) :=
| Done (a : A)
| Throws
| FailFast
| Undefined.
#[global] Arguments Done {A} _.
#[global] Arguments Throws {A}.
#[global] Arguments FailFast {A}.
#[global] Arguments Undefined {A}.

Definition obind {A B} (x : outcome A) (f : A -> outcome B) : outcome B :=
  match x with
  | Done a => f a
  | Throws => Throws
  | FailFast => FailFast
  | Undefined => Undefined
  end.

Notation "'let*' x := e 'in' k" := (obind e (fun x => k))
  (at level 10, x pattern, e at level 200, k at level 200,
   format "'[hv' 'let*'  x  :=  e  'in'  '//' k ']'") : term_scope.

(** The element an iterator or an index points at. *)
Definition deref {A} (l : list A) (i : nat) : outcome A :=
  match l !! i with
  | Some x => Done x
  | None => Undefined
  end.

Lemma deref_app {A} (l k : list A) (x : A) : deref (l ++ x :: k) (length l) = Done x.
Proof. unfold deref. by rewrite list_lookup_middle. Qed.
