(* ===== verification/VTTypes.v ===== *)
(** * Data exchanged between the parser and its engines

    Models [src/src/terminal/adapter/DispatchTypes.hpp] (identifiers and
    parameter lists of a control sequence) and
    [src/src/terminal/parser/ascii.hpp] (the control characters). *)

From S2P Require Import Prelude.
#[local] Open Scope Z_scope.

(** ** [enum AsciiChars] *)

Definition NUL : Z := 0x0.
Definition ENQ : Z := 0x5.
Definition BEL : Z := 0x7.
Definition BS : Z := 0x8.
Definition TAB : Z := 0x9.
Definition LF : Z := 0xA.
Definition VT : Z := 0xB.
Definition FF : Z := 0xC.
Definition CR : Z := 0xD.
Definition SO : Z := 0xE.
Definition SI : Z := 0xF.
Definition ETB : Z := 0x17.
Definition CAN : Z := 0x18.
Definition EM : Z := 0x19.
Definition SUB : Z := 0x1A.
Definition ESC : Z := 0x1B.
Definition FS : Z := 0x1C.
Definition US : Z := 0x1F.
Definition SPC : Z := 0x20.
Definition DEL : Z := 0x7F.

#[export] Hint Unfold NUL ENQ BEL BS TAB LF VT FF CR SO SI ETB CAN EM SUB ESC FS US SPC DEL : chars.

(** ** [union VTID]

    An identifier packs the intermediates and the final character of a
    sequence, one byte each, least significant byte first.  The constructor
    from a [uint64_t] keeps the low 56 bits. *)

Definition CHAR_BIT : Z := 8.
Definition VTID_mask : Z := 0x00FFFFFFFFFFFFFF.

Definition VTID_of_u64 (value : Z) : Z := Z.land value VTID_mask.

Definition VTID_FromString (s : list Z) : Z :=
  fold_right (fun c value => u64 (u64 (Z.shiftl value CHAR_BIT) + c)) 0 s.

Definition VTID_SubSequence (id offset : Z) : Z :=
  VTID_of_u64 (Z.shiftr id (CHAR_BIT * offset)).

Definition VTID_at (id offset : Z) : Z := Z.land (VTID_SubSequence id offset) 0xFF.

(** ** [class VTIDBuilder] *)

Record VTIDBuilder := mkVTIDBuilder {
  _idAccumulator : Z;
  _idShift : Z;
}.

#[export] Instance eta_VTIDBuilder : Eta VTIDBuilder :=
  fun b => mkVTIDBuilder (_idAccumulator b) (_idShift b).

Definition VTIDBuilder_Clear : VTIDBuilder := mkVTIDBuilder 0 0.

Definition AddIntermediate (intermediateChar : Z) (b : VTIDBuilder) : VTIDBuilder :=
  if _idShift b + CHAR_BIT * 2 >=? 8 * CHAR_BIT
  then b <| _idAccumulator := 0 |>
  else b <| _idAccumulator :=
              u64 (_idAccumulator b + u64 (Z.shiftl intermediateChar (_idShift b))) |>
         <| _idShift := _idShift b + CHAR_BIT |>.

Definition Finalize (finalChar : Z) (b : VTIDBuilder) : Z :=
  VTID_of_u64 (u64 (_idAccumulator b + u64 (Z.shiftl finalChar (_idShift b)))).

(** ** [class VTParameter]

    A [VTInt]; a negative value is an omitted parameter. *)

Definition VTParameter_default : Z := -1.
Definition has_value (p : Z) : bool := 0 <=? p.
Definition value_or (p defaultValue : Z) : Z := if p <? 0 then defaultValue else p.
(** [operator VTInt]: both 0 and an omitted value read as 1. *)
Definition as_VTInt (p : Z) : Z := if p <=? 0 then 1 else p.
(** [operator T] for an enumeration [T]: an omitted value reads as 0. *)
Definition as_enum (p : Z) : Z := value_or p 0.

(** ** [class VTSubParameters] and [class VTParameters] *)

Definition VTSubParameters := list Z.

Definition subparam_at (ps : VTSubParameters) (index : nat) : Z :=
  default VTParameter_default (ps !! index).

Record VTParameters := mkVTParameters {
  vp_params : list Z;
  vp_subParams : VTSubParameters;
  vp_subParamRanges : list (Z * Z);
}.

(** The two-argument constructor, for sequences without sub parameters. *)
Definition VTParameters_plain (params : list Z) : VTParameters := mkVTParameters params [] [].

Definition param_at (ps : VTParameters) (index : nat) : Z :=
  default VTParameter_default (vp_params ps !! index).

Definition params_empty (ps : VTParameters) : bool :=
  match vp_params ps with [] => true | _ => false end.

Definition params_size (ps : VTParameters) : nat := Nat.max (length (vp_params ps)) 1.

Definition params_subspan (ps : VTParameters) (offset : nat) : VTParameters :=
  mkVTParameters (drop (Nat.min offset (length (vp_params ps))) (vp_params ps))
                 (vp_subParams ps)
                 (drop (Nat.min offset (length (vp_subParamRanges ps))) (vp_subParamRanges ps)).

Definition subParamsFor (ps : VTParameters) (index : nat) : VTSubParameters :=
  match vp_subParamRanges ps !! index with
  | Some (first, second) => substr (Z.to_nat first) (Z.to_nat (second - first)) (vp_subParams ps)
  | None => []
  end.

Definition hasSubParams (ps : VTParameters) : bool :=
  match vp_subParams ps with [] => false | _ => true end.

Definition hasSubParamsFor (ps : VTParameters) (index : nat) : bool :=
  match vp_subParamRanges ps !! index with
  | Some (first, second) => second >? first
  | None => false
  end.

(** [for_each] visits the parameters in order, and the single default
    parameter when there is none. *)
Definition params_list (ps : VTParameters) : list Z :=
  match vp_params ps with [] => [VTParameter_default] | l => l end.

Definition params_for_each {S : Type} (ps : VTParameters) (f : Z -> S -> S) (s : S) : S :=
  fold_left (fun s v => f v s) (params_list ps) s.
