(* ===== verification/StateMachine.v ===== *)
(** * The VT parser

    Models [src/src/terminal/parser/stateMachine.{hpp,cpp}]: the class
    [StateMachine], its character predicates, its actions, its state entries,
    its event handlers and the entry points [ProcessCharacter] and
    [ProcessString].  The engine that receives the decoded actions is an
    interface ([IStateMachineEngine.hpp]), a type class here.  Tracing
    ([_trace]) has no effect on the machine and is left out. *)

From S2P Require Import Prelude VTTypes.
#[local] Open Scope Z_scope.

(** ** Limits *)

Definition MAX_PARAMETER_VALUE : Z := 65535.
Definition MAX_PARAMETER_COUNT : Z := 32.
Definition MAX_SUBPARAMETER_COUNT : Z := 6.

(** ** Character predicates *)

Definition _isNumericParamValue (wch : Z) : bool := (0x30 <=? wch) && (wch <=? 0x39).
Definition _isC0Code (wch : Z) : bool :=
  ((NUL <=? wch) && (wch <=? ETB)) || (wch =? EM) || ((FS <=? wch) && (wch <=? US)).
Definition _isC1ControlCharacter (wch : Z) : bool := (0x80 <=? wch) && (wch <=? 0x9F).
Definition _c1To7Bit (wch : Z) : Z := u16 (wch - 0x40).
Definition _isIntermediate (wch : Z) : bool := (0x20 <=? wch) && (wch <=? 0x2F).
Definition _isDelete (wch : Z) : bool := wch =? DEL.
Definition _isEscape (wch : Z) : bool := wch =? ESC.
Definition _isParameterDelimiter (wch : Z) : bool := wch =? 0x3B (* ; *).
Definition _isSubParameterDelimiter (wch : Z) : bool := wch =? 0x3A (* : *).
Definition _isCsiIndicator (wch : Z) : bool := wch =? 0x5B (* [ *).
Definition _isCsiPrivateMarker (wch : Z) : bool :=
  (wch =? 0x3C) || (wch =? 0x3D) || (wch =? 0x3E) || (wch =? 0x3F).
Definition _isIntermediateInvalid (wch : Z) : bool :=
  _isNumericParamValue wch || _isSubParameterDelimiter wch
  || _isParameterDelimiter wch || _isCsiPrivateMarker wch.
Definition _isParameterInvalid (wch : Z) : bool := _isCsiPrivateMarker wch.
Definition _isStringTerminatorIndicator (wch : Z) : bool := wch =? 0x5C (* \ *).
Definition _isSs3Indicator (wch : Z) : bool := wch =? 0x4F (* O *).
Definition _isVt52CursorAddress (wch : Z) : bool := wch =? 0x59 (* Y *).
Definition _isOscIndicator (wch : Z) : bool := wch =? 0x5D (* ] *).
Definition _isOscDelimiter (wch : Z) : bool := wch =? 0x3B (* ; *).
Definition _isOscInvalid (wch : Z) : bool :=
  (wch <=? 0x17) || (wch =? 0x19) || ((0x1C <=? wch) && (wch <=? 0x1F)).
Definition _isOscTerminator (wch : Z) : bool := wch =? BEL.
Definition _isDcsIndicator (wch : Z) : bool := wch =? 0x50 (* P *).
Definition _isDcsPassThroughValid (wch : Z) : bool := (SPC <=? wch) && (wch <? DEL).
Definition _isSosIndicator (wch : Z) : bool := wch =? 0x58 (* X *).
Definition _isPmIndicator (wch : Z) : bool := wch =? 0x5E (* ^ *).
Definition _isApcIndicator (wch : Z) : bool := wch =? 0x5F (* _ *).

#[export] Hint Unfold _isNumericParamValue _isC0Code _isC1ControlCharacter _isIntermediate
  _isDelete _isEscape _isParameterDelimiter _isSubParameterDelimiter _isCsiIndicator
  _isCsiPrivateMarker _isIntermediateInvalid _isParameterInvalid
  _isStringTerminatorIndicator _isSs3Indicator _isVt52CursorAddress _isOscIndicator
  _isOscDelimiter _isOscInvalid _isOscTerminator _isDcsIndicator _isDcsPassThroughValid
  _isSosIndicator _isPmIndicator _isApcIndicator : chars.

(** ** [Utils::FindActionableControlCharacter]

    The scan for the end of a printable run.  [findActionable] is its plain
    loop; [findActionable_sse] is its SSE2 path, which tests eight characters
    at a time with saturating 16-bit subtractions and falls back on the plain
    loop for the last few; [findActionable_neon] is its ARM path, which looks
    at the two halves of a block in turn.  The build chooses one of the paths;
    [FindActionableControlCharacter] is the one for x86. *)

Definition isActionableFromGround (wch : Z) : bool :=
  (wch <=? 0x1F) || (u16 (wch - 0x7F) <=? 0x20).

Fixpoint findActionable (s : list Z) : nat :=
  match s with
  | [] => 0
  | c :: s' => if isActionableFromGround c then 0 else S (findActionable s')
  end.

(** [_mm_subs_epu16] on one lane. *)
Definition subs_epu16 (a b : Z) : Z := Z.max 0 (a - b).

Definition sse_lane (wch : Z) : bool :=
  (subs_epu16 wch 0x1F =? 0) || (subs_epu16 (u16 (wch + 0xFF81)) 0x20 =? 0).

(** The index of the lowest set lane of a block, [_BitScanForward] on the
    byte mask divided by two. *)
Fixpoint sse_first (block : list Z) : option nat :=
  match block with
  | [] => None
  | c :: b => if sse_lane c then Some 0%nat else S <$> sse_first b
  end.

Fixpoint findActionable_sse (blocks : nat) (s : list Z) : nat :=
  match blocks with
  | O => findActionable s
  | S n =>
      match sse_first (take 8 s) with
      | Some off => off
      | None => 8 + findActionable_sse n (drop 8 s)
      end
  end.

Definition neon_lane (wch : Z) : bool := (wch <=? 0x1F) || (u16 (wch - 0x7F) <=? 0x20).

(** The index of the lowest lane of the four that is set: a lane is sixteen
    bits of the mask, so [_BitScanForward64] divided by sixteen. *)
Fixpoint neon_first (half : list Z) : option nat :=
  match half with
  | [] => None
  | c :: h => if neon_lane c then Some 0%nat else S <$> neon_first h
  end.

Fixpoint findActionable_neon (blocks : nat) (s : list Z) : nat :=
  match blocks with
  | O => findActionable s
  | S n =>
      let wch := take 8 s in
      match neon_first (take 4 wch) with
      | Some off => off
      | None =>
          match neon_first (drop 4 wch) with
          | Some off => 4 + off
          | None => 8 + findActionable_neon n (drop 8 s)
          end
      end
  end.

Definition FindActionableControlCharacter_neon (s : list Z) : nat :=
  findActionable_neon (length s / 8) s.

Definition FindActionableControlCharacter (s : list Z) : nat :=
  findActionable_sse (length s / 8) s.

(** ** States, modes and injections *)

Inductive VTStates :=
| Ground | Escape | EscapeIntermediate | CsiEntry | CsiIntermediate | CsiIgnore
| CsiParam | CsiSubParam | OscParam | OscString | OscTermination | Ss3Entry
| Ss3Param | Vt52Param | DcsEntry | DcsIgnore | DcsIntermediate | DcsParam
| DcsPassThrough | SosPmApcString.

#[export] Instance VTStates_eq_dec : EqDecision VTStates.
Proof. solve_decision. Defined.

Inductive Mode := AcceptC1 | Ansi.

Inductive InjectionType := RIS | DECSET_FOCUS | W32IM.

Record Injection := mkInjection { inj_type : InjectionType; inj_offset : nat }.

(** ** The engine interface

    [IStateMachineEngine].  An engine call changes the engine, and either
    returns or throws.  While it runs it may call back into the public
    interface of the machine that invoked it; those calls only touch the
    parser modes, the injection list and the pending callback, none of which
    the call itself can observe, so they are returned as a list of requests
    in the order they were made. *)

Section Engine.
Context {CB : Type}.

Inductive ParserRequest :=
| ReqSetParserMode (mode : Mode) (enabled : bool)
| ReqInjectSequence (type : InjectionType)
| ReqOnCsiComplete (callback : CB).

(** [er_result] is [None] when the call threw. *)
Record EngineResult (E R : Type) := mkEngineResult {
  er_engine : E;
  er_result : option R;
  er_requests : list ParserRequest;
}.
End Engine.
Arguments ParserRequest : clear implicits.
Arguments EngineResult : clear implicits.
Arguments mkEngineResult {CB E R} _ _ _.
Arguments er_engine {CB E R} _.
Arguments er_result {CB E R} _.
Arguments er_requests {CB E R} _.

(** [E] is the engine, [CB] the callbacks it can register with
    [OnCsiComplete], [H] its [StringHandler]s.  A string handler returns
    whether it wants more data; the state its closure captured is part of
    [E]. *)
Class IStateMachineEngine (E CB H : Type) := {
  EncounteredWin32InputModeSequence : E -> bool;
  ActionExecute : Z -> E -> EngineResult CB E bool;
  ActionExecuteFromEscape : Z -> E -> EngineResult CB E bool;
  ActionPrint : Z -> E -> EngineResult CB E bool;
  ActionPrintString : list Z -> E -> EngineResult CB E bool;
  ActionPassThroughString : list Z -> E -> EngineResult CB E bool;
  ActionEscDispatch : Z -> E -> EngineResult CB E bool;
  ActionVt52EscDispatch : Z -> VTParameters -> E -> EngineResult CB E bool;
  ActionCsiDispatch : Z -> VTParameters -> E -> EngineResult CB E bool;
  ActionDcsDispatch : Z -> VTParameters -> E -> EngineResult CB E (option H);
  ActionOscDispatch : Z -> list Z -> E -> EngineResult CB E bool;
  ActionSs3Dispatch : Z -> VTParameters -> E -> EngineResult CB E bool;
  StringHandler_call : H -> Z -> E -> E * bool * list (ParserRequest CB);
}.

(** ** The machine

    One field per member of [class StateMachine]; [_parserMode], a set of
    [Mode]s, is the pair of its two flags. *)

Record StateMachine (E CB H : Type) := mkStateMachine {
  _engine : E;
  _isEngineForInput : bool;
  _state : VTStates;
  _parserMode_AcceptC1 : bool;
  _parserMode_Ansi : bool;
  _currentString : list Z;
  _runOffset : nat;
  _runSize : nat;
  _identifier : VTIDBuilder;
  _parameters : list Z;
  _parameterLimitOverflowed : bool;
  _subParameters : list Z;
  _subParameterRanges : list (Z * Z);
  _subParameterLimitOverflowed : bool;
  _subParameterCounter : Z;
  _oscString : list Z;
  _oscParameter : Z;
  _dcsStringHandler : option H;
  _cachedSequence : option (list Z);
  _injections : list Injection;
  _processingLastCharacter : bool;
  _onCsiCompleteCallback : option CB;
}.
Arguments mkStateMachine {E CB H}.
Arguments _engine {E CB H}. Arguments _isEngineForInput {E CB H}. Arguments _state {E CB H}.
Arguments _parserMode_AcceptC1 {E CB H}. Arguments _parserMode_Ansi {E CB H}.
Arguments _currentString {E CB H}. Arguments _runOffset {E CB H}. Arguments _runSize {E CB H}.
Arguments _identifier {E CB H}. Arguments _parameters {E CB H}.
Arguments _parameterLimitOverflowed {E CB H}. Arguments _subParameters {E CB H}.
Arguments _subParameterRanges {E CB H}. Arguments _subParameterLimitOverflowed {E CB H}.
Arguments _subParameterCounter {E CB H}. Arguments _oscString {E CB H}.
Arguments _oscParameter {E CB H}. Arguments _dcsStringHandler {E CB H}.
Arguments _cachedSequence {E CB H}. Arguments _injections {E CB H}.
Arguments _processingLastCharacter {E CB H}. Arguments _onCsiCompleteCallback {E CB H}.

#[export] Instance eta_StateMachine {E CB H} : Eta (StateMachine E CB H) :=
  fun s => mkStateMachine (_engine s) (_isEngineForInput s) (_state s)
    (_parserMode_AcceptC1 s) (_parserMode_Ansi s) (_currentString s) (_runOffset s) (_runSize s)
    (_identifier s) (_parameters s) (_parameterLimitOverflowed s) (_subParameters s)
    (_subParameterRanges s) (_subParameterLimitOverflowed s) (_subParameterCounter s)
    (_oscString s) (_oscParameter s) (_dcsStringHandler s) (_cachedSequence s) (_injections s)
    (_processingLastCharacter s) (_onCsiCompleteCallback s).

(** [f ;> g] runs the statement [f], then [g]. *)
Definition seq_step {S : Type} (f g : S -> S) (s : S) : S := g (f s).
Notation "f ;> g" := (seq_step f g) (at level 64, right associativity) : term_scope.

Section Machine.
Context {E CB H : Type} `{Eng : !IStateMachineEngine E CB H}.
Abbreviation SM := (StateMachine E CB H).

(** [_CurrentRun] *)
Definition _CurrentRun (sm : SM) : list Z :=
  substr (_runOffset sm) (_runSize sm) (_currentString sm).

Definition SetParserMode (mode : Mode) (enabled : bool) (sm : SM) : SM :=
  match mode with
  | AcceptC1 => sm <| _parserMode_AcceptC1 := enabled |>
  | Ansi => sm <| _parserMode_Ansi := enabled |>
  end.

Definition GetParserMode (mode : Mode) (sm : SM) : bool :=
  match mode with
  | AcceptC1 => _parserMode_AcceptC1 sm
  | Ansi => _parserMode_Ansi sm
  end.

Definition InjectSequence (type : InjectionType) (sm : SM) : SM :=
  sm <| _injections := _injections sm ++ [mkInjection type (_runOffset sm + _runSize sm)] |>.

Definition OnCsiComplete (callback : CB) (sm : SM) : SM :=
  sm <| _onCsiCompleteCallback := Some callback |>.

Definition apply_request (r : ParserRequest CB) (sm : SM) : SM :=
  match r with
  | ReqSetParserMode mode enabled => SetParserMode mode enabled sm
  | ReqInjectSequence type => InjectSequence type sm
  | ReqOnCsiComplete cb => OnCsiComplete cb sm
  end.

Definition apply_requests (rs : list (ParserRequest CB)) (sm : SM) : SM :=
  fold_left (fun sm r => apply_request r sm) rs sm.

(** ** [_SafeExecute] and [FlushToTerminal]

    A call that returns [false] makes the machine pass the text of the
    sequence through to the engine, with [_SafeExecute] again: the two
    functions are mutually recursive in the source, and do not terminate
    when the engine keeps refusing.  [fuel] bounds the nesting; no engine
    of the repository ever refuses a pass-through string, and then one
    level is all there is ([FlushToTerminal_fuel]). *)

Definition engine_call {R} (call : E -> EngineResult CB E R) (sm : SM) : SM * option R :=
  let r := call (_engine sm) in
  (apply_requests (er_requests r) (sm <| _engine := er_engine r |>), er_result r).

Definition SafeExecute_with (flush : SM -> SM) (call : E -> EngineResult CB E bool)
    (sm : SM) : SM * bool :=
  match engine_call call sm with
  | (sm', Some true) => (sm', true)
  | (sm', Some false) => (flush sm', false)
  | (sm', None) => (sm', false)
  end.

Fixpoint FlushToTerminal_fuel (fuel : nat) (sm : SM) : SM * bool :=
  match fuel with
  | O => (sm, false)
  | S n =>
      let exec := SafeExecute_with (fun sm => fst (FlushToTerminal_fuel n sm)) in
      let '(sm1, success) :=
        match _cachedSequence sm with
        | Some cached =>
            let '(sm', ok) := exec (ActionPassThroughString cached) sm in
            (sm' <| _cachedSequence := None |>, ok)
        | None => (sm, true)
        end in
      if success
      then exec (fun e => ActionPassThroughString (_CurrentRun sm1) e) sm1
      else (sm1, success)
  end.

Definition flushFuel : nat := 4.

Definition FlushToTerminal (sm : SM) : SM * bool := FlushToTerminal_fuel flushFuel sm.

Definition _SafeExecute (call : E -> EngineResult CB E bool) (sm : SM) : SM * bool :=
  SafeExecute_with (fun sm => fst (FlushToTerminal sm)) call sm.

(** A dispatch whose result is only traced. *)
Definition safely (call : E -> EngineResult CB E bool) (sm : SM) : SM :=
  fst (_SafeExecute call sm).

(** ** Actions *)

Definition _ActionExecute (wch : Z) : SM -> SM := safely (ActionExecute wch).
Definition _ActionExecuteFromEscape (wch : Z) : SM -> SM := safely (ActionExecuteFromEscape wch).
Definition _ActionPrint (wch : Z) : SM -> SM := safely (ActionPrint wch).
Definition _ActionPrintString (s : list Z) : SM -> SM := safely (ActionPrintString s).

Definition _ActionEscDispatch (wch : Z) (sm : SM) : SM :=
  safely (ActionEscDispatch (Finalize wch (_identifier sm))) sm.

Definition _ActionVt52EscDispatch (wch : Z) (sm : SM) : SM :=
  safely (ActionVt52EscDispatch (Finalize wch (_identifier sm))
            (VTParameters_plain (_parameters sm))) sm.

Definition _ActionCsiDispatch (wch : Z) (sm : SM) : SM :=
  safely (ActionCsiDispatch (Finalize wch (_identifier sm))
            (mkVTParameters (_parameters sm) (_subParameters sm) (_subParameterRanges sm))) sm.

Definition _ActionCollect (wch : Z) (sm : SM) : SM :=
  sm <| _identifier := AddIntermediate wch (_identifier sm) |>.

Definition _AccumulateTo (wch value : Z) : Z :=
  let digit := wch - 0x30 in
  let value := value * 10 + digit in
  if value >? MAX_PARAMETER_VALUE then MAX_PARAMETER_VALUE else value.

(** Appends an omitted parameter and its empty sub parameter range. *)
Definition push_parameter (sm : SM) : SM :=
  let rangeStart := u8 (Z.of_nat (length (_subParameters sm))) in
  sm <| _parameters := _parameters sm ++ [VTParameter_default] |>
     <| _subParameterRanges := _subParameterRanges sm ++ [(rangeStart, rangeStart)] |>.

Definition ensure_parameter (sm : SM) : SM :=
  match _parameters sm with [] => push_parameter sm | _ => sm end.

Definition _ActionParam (wch : Z) (sm : SM) : SM :=
  if _parameterLimitOverflowed sm then sm
  else
    let sm := ensure_parameter sm in
    if _isParameterDelimiter wch
    then
      if Z.of_nat (length (_parameters sm)) >=? MAX_PARAMETER_COUNT
      then sm <| _parameterLimitOverflowed := true |>
      else push_parameter (sm <| _subParameterCounter := 0 |>
                              <| _subParameterLimitOverflowed := false |>)
    else
      let currentParameter := value_or (back VTParameter_default (_parameters sm)) 0 in
      sm <| _parameters := set_back (_parameters sm) (_AccumulateTo wch currentParameter) |>.

(** [_subParameterRanges.back().second++] on a pair of bytes. *)
Definition bump_range (ranges : list (Z * Z)) : list (Z * Z) :=
  let '(first, second) := back (0, 0) ranges in
  set_back ranges (first, u8 (second + 1)).

Definition _ActionSubParam (wch : Z) (sm : SM) : SM :=
  if _subParameterLimitOverflowed sm then sm
  else
    let sm := ensure_parameter sm in
    if _isSubParameterDelimiter wch
    then
      if _subParameterCounter sm >=? MAX_SUBPARAMETER_COUNT
      then sm <| _subParameterLimitOverflowed := true |>
      else sm <| _subParameters := _subParameters sm ++ [VTParameter_default] |>
              <| _subParameterRanges := bump_range (_subParameterRanges sm) |>
              <| _subParameterCounter := u8 (_subParameterCounter sm + 1) |>
    else
      let currentSubParameter := value_or (back VTParameter_default (_subParameters sm)) 0 in
      sm <| _subParameters := set_back (_subParameters sm) (_AccumulateTo wch currentSubParameter) |>.

Definition _ActionClear (sm : SM) : SM :=
  sm <| _identifier := VTIDBuilder_Clear |>
     <| _parameters := [] |>
     <| _parameterLimitOverflowed := false |>
     <| _subParameters := [] |>
     <| _subParameterRanges := [] |>
     <| _subParameterCounter := 0 |>
     <| _subParameterLimitOverflowed := false |>
     <| _oscString := [] |>
     <| _oscParameter := 0 |>
     <| _dcsStringHandler := None |>.

Definition _ActionIgnore (sm : SM) : SM := sm.

(** A call of [_dcsStringHandler].  Calling an empty [std::function] would
    throw; [parser_wf] shows that the handler is set in the only state
    that calls it. *)
Definition call_dcsStringHandler (wch : Z) (sm : SM) : SM * bool :=
  match _dcsStringHandler sm with
  | Some h =>
      let '(e, more, reqs) := StringHandler_call h wch (_engine sm) in
      (apply_requests reqs (sm <| _engine := e |>), more)
  | None => (sm, false)
  end.

Definition _ActionInterrupt (sm : SM) : SM :=
  match _state sm with
  | DcsPassThrough => (fst (call_dcsStringHandler ESC sm)) <| _dcsStringHandler := None |>
  | _ => sm
  end.

Definition _ActionOscParam (wch : Z) (sm : SM) : SM :=
  sm <| _oscParameter := _AccumulateTo wch (_oscParameter sm) |>.

Definition _ActionOscPut (wch : Z) (sm : SM) : SM :=
  sm <| _oscString := _oscString sm ++ [wch] |>.

Definition _ActionOscDispatch (sm : SM) : SM :=
  safely (ActionOscDispatch (_oscParameter sm) (_oscString sm)) sm.

Definition _ActionSs3Dispatch (wch : Z) (sm : SM) : SM :=
  safely (ActionSs3Dispatch wch (VTParameters_plain (_parameters sm))) sm.

(** ** State entries *)

Definition _EnterGround (sm : SM) : SM := sm <| _state := Ground |> <| _cachedSequence := None |>.
Definition _EnterEscape (sm : SM) : SM := _ActionClear (sm <| _state := Escape |>).
Definition _EnterEscapeIntermediate (sm : SM) : SM := sm <| _state := EscapeIntermediate |>.
Definition _EnterCsiEntry (sm : SM) : SM := _ActionClear (sm <| _state := CsiEntry |>).
Definition _EnterCsiParam (sm : SM) : SM := sm <| _state := CsiParam |>.
Definition _EnterCsiSubParam (sm : SM) : SM := sm <| _state := CsiSubParam |>.
Definition _EnterCsiIgnore (sm : SM) : SM := sm <| _state := CsiIgnore |>.
Definition _EnterCsiIntermediate (sm : SM) : SM := sm <| _state := CsiIntermediate |>.
Definition _EnterOscParam (sm : SM) : SM := sm <| _state := OscParam |>.
Definition _EnterOscString (sm : SM) : SM := sm <| _state := OscString |>.
Definition _EnterOscTermination (sm : SM) : SM := sm <| _state := OscTermination |>.
Definition _EnterSs3Entry (sm : SM) : SM := _ActionClear (sm <| _state := Ss3Entry |>).
Definition _EnterSs3Param (sm : SM) : SM := sm <| _state := Ss3Param |>.
Definition _EnterVt52Param (sm : SM) : SM := sm <| _state := Vt52Param |>.
Definition _EnterDcsEntry (sm : SM) : SM := _ActionClear (sm <| _state := DcsEntry |>).
Definition _EnterDcsParam (sm : SM) : SM := sm <| _state := DcsParam |>.
Definition _EnterDcsIgnore (sm : SM) : SM :=
  sm <| _state := DcsIgnore |> <| _cachedSequence := None |>.
Definition _EnterDcsIntermediate (sm : SM) : SM := sm <| _state := DcsIntermediate |>.
Definition _EnterDcsPassThrough (sm : SM) : SM :=
  sm <| _state := DcsPassThrough |> <| _cachedSequence := None |>.
Definition _EnterSosPmApcString (sm : SM) : SM :=
  sm <| _state := SosPmApcString |> <| _cachedSequence := None |>.

(** The handler the engine returns is stored unless the call threw. *)
Definition _ActionDcsDispatch (wch : Z) (sm : SM) : SM :=
  let '(sm1, r) :=
    engine_call (ActionDcsDispatch (Finalize wch (_identifier sm))
                   (VTParameters_plain (_parameters sm))) sm in
  let sm2 := match r with Some h => sm1 <| _dcsStringHandler := h |> | None => sm1 end in
  match _dcsStringHandler sm2 with
  | Some _ => _EnterDcsPassThrough sm2
  | None => _EnterDcsIgnore sm2
  end.

(** [ResetState] *)
Definition ResetState (sm : SM) : SM := _EnterGround sm.

(** ** Event handlers

    [runCallback cb] is the effect of calling the function [cb] that an
    engine registered with [OnCsiComplete]. *)

Section Events.
Variable runCallback : CB -> SM -> SM.

Definition _ExecuteCsiCompleteCallback (sm : SM) : SM :=
  match _onCsiCompleteCallback sm with
  | Some callback =>
      let sm' := runCallback callback (sm <| _onCsiCompleteCallback := None |>) in
      sm' <| _currentString := _currentString sm |>
          <| _runOffset := _runOffset sm |>
          <| _runSize := _runSize sm |>
  | None => sm
  end.

Definition _EventGround (wch : Z) : SM -> SM :=
  if _isC0Code wch || _isDelete wch then _ActionExecute wch else _ActionPrint wch.

Definition _EventEscape (wch : Z) (sm : SM) : SM :=
  if _isC0Code wch then
    if _isEngineForInput sm
    then (_ActionExecuteFromEscape wch ;> _EnterGround) sm
    else _ActionExecute wch sm
  else if _isDelete wch then _ActionIgnore sm
  else if _isIntermediate wch then
    if _isEngineForInput sm
    then (_ActionEscDispatch wch ;> _EnterGround) sm
    else (_ActionCollect wch ;> _EnterEscapeIntermediate) sm
  else if _parserMode_Ansi sm then
    if _isCsiIndicator wch then _EnterCsiEntry sm
    else if _isOscIndicator wch then _EnterOscParam sm
    else if _isSs3Indicator wch && _isEngineForInput sm then _EnterSs3Entry sm
    else if _isDcsIndicator wch then _EnterDcsEntry sm
    else if _isSosIndicator wch || _isPmIndicator wch || _isApcIndicator wch
    then _EnterSosPmApcString sm
    else (_ActionEscDispatch wch ;> _EnterGround) sm
  else if _isVt52CursorAddress wch then _EnterVt52Param sm
  else (_ActionVt52EscDispatch wch ;> _EnterGround) sm.

Definition _EventEscapeIntermediate (wch : Z) (sm : SM) : SM :=
  if _isC0Code wch then _ActionExecute wch sm
  else if _isIntermediate wch then _ActionCollect wch sm
  else if _isDelete wch then _ActionIgnore sm
  else if _parserMode_Ansi sm then (_ActionEscDispatch wch ;> _EnterGround) sm
  else if _isVt52CursorAddress wch then _EnterVt52Param sm
  else (_ActionVt52EscDispatch wch ;> _EnterGround) sm.

Definition _EventCsiEntry (wch : Z) : SM -> SM :=
  if _isC0Code wch then _ActionExecute wch
  else if _isDelete wch then _ActionIgnore
  else if _isIntermediate wch then _ActionCollect wch ;> _EnterCsiIntermediate
  else if _isNumericParamValue wch || _isParameterDelimiter wch
  then _ActionParam wch ;> _EnterCsiParam
  else if _isSubParameterDelimiter wch then _ActionSubParam wch ;> _EnterCsiSubParam
  else if _isCsiPrivateMarker wch then _ActionCollect wch ;> _EnterCsiParam
  else _ActionCsiDispatch wch ;> _EnterGround ;> _ExecuteCsiCompleteCallback.

Definition _EventCsiIntermediate (wch : Z) : SM -> SM :=
  if _isC0Code wch then _ActionExecute wch
  else if _isIntermediate wch then _ActionCollect wch
  else if _isDelete wch then _ActionIgnore
  else if _isIntermediateInvalid wch then _EnterCsiIgnore
  else _ActionCsiDispatch wch ;> _EnterGround ;> _ExecuteCsiCompleteCallback.

Definition _EventCsiIgnore (wch : Z) : SM -> SM :=
  if _isC0Code wch then _ActionExecute wch
  else if _isDelete wch then _ActionIgnore
  else if _isIntermediate wch then _ActionIgnore
  else if _isIntermediateInvalid wch then _ActionIgnore
  else _EnterGround.

Definition _EventCsiParam (wch : Z) : SM -> SM :=
  if _isC0Code wch then _ActionExecute wch
  else if _isDelete wch then _ActionIgnore
  else if _isNumericParamValue wch || _isParameterDelimiter wch then _ActionParam wch
  else if _isSubParameterDelimiter wch then _ActionSubParam wch ;> _EnterCsiSubParam
  else if _isIntermediate wch then _ActionCollect wch ;> _EnterCsiIntermediate
  else if _isParameterInvalid wch then _EnterCsiIgnore
  else _ActionCsiDispatch wch ;> _EnterGround ;> _ExecuteCsiCompleteCallback.

Definition _EventCsiSubParam (wch : Z) : SM -> SM :=
  if _isC0Code wch then _ActionExecute wch
  else if _isDelete wch then _ActionIgnore
  else if _isNumericParamValue wch || _isSubParameterDelimiter wch then _ActionSubParam wch
  else if _isParameterDelimiter wch then _ActionParam wch ;> _EnterCsiParam
  else if _isIntermediate wch then _ActionCollect wch ;> _EnterCsiIntermediate
  else if _isParameterInvalid wch then _EnterCsiIgnore
  else _ActionCsiDispatch wch ;> _EnterGround ;> _ExecuteCsiCompleteCallback.

Definition _EventOscParam (wch : Z) : SM -> SM :=
  if _isOscTerminator wch then _ActionOscDispatch ;> _EnterGround
  else if _isEscape wch then _EnterOscTermination
  else if _isNumericParamValue wch then _ActionOscParam wch
  else if _isOscDelimiter wch then _EnterOscString
  else _ActionIgnore.

Definition _EventOscString (wch : Z) : SM -> SM :=
  if _isOscTerminator wch then _ActionOscDispatch ;> _EnterGround
  else if _isEscape wch then _EnterOscTermination
  else if _isOscInvalid wch then _ActionIgnore
  else _ActionOscPut wch.

Definition _EventOscTermination (wch : Z) : SM -> SM :=
  if _isStringTerminatorIndicator wch then _ActionOscDispatch ;> _EnterGround
  else _EnterEscape ;> _EventEscape wch.

Definition _EventSs3Entry (wch : Z) : SM -> SM :=
  if _isC0Code wch then _ActionExecute wch
  else if _isDelete wch then _ActionIgnore
  else if _isSubParameterDelimiter wch then _EnterCsiIgnore
  else if _isNumericParamValue wch || _isParameterDelimiter wch
  then _ActionParam wch ;> _EnterSs3Param
  else _ActionSs3Dispatch wch ;> _EnterGround.

Definition _EventSs3Param (wch : Z) : SM -> SM :=
  if _isC0Code wch then _ActionExecute wch
  else if _isDelete wch then _ActionIgnore
  else if _isNumericParamValue wch || _isParameterDelimiter wch then _ActionParam wch
  else if _isParameterInvalid wch || _isSubParameterDelimiter wch then _EnterCsiIgnore
  else _ActionSs3Dispatch wch ;> _EnterGround.

Definition _EventVt52Param (wch : Z) (sm : SM) : SM :=
  if _isC0Code wch then _ActionExecute wch sm
  else if _isDelete wch then _ActionIgnore sm
  else
    let sm := sm <| _parameters := _parameters sm ++ [wch] |> in
    if (length (_parameters sm) =? 2)%nat
    then (_ActionVt52EscDispatch 0x59 (* Y *) ;> _EnterGround) sm
    else sm.

Definition _EventDcsEntry (wch : Z) : SM -> SM :=
  if _isC0Code wch then _ActionIgnore
  else if _isDelete wch then _ActionIgnore
  else if _isSubParameterDelimiter wch then _EnterDcsIgnore
  else if _isNumericParamValue wch || _isParameterDelimiter wch
  then _ActionParam wch ;> _EnterDcsParam
  else if _isIntermediate wch then _ActionCollect wch ;> _EnterDcsIntermediate
  else _ActionDcsDispatch wch.

Definition _EventDcsIgnore : SM -> SM := _ActionIgnore.

Definition _EventDcsIntermediate (wch : Z) : SM -> SM :=
  if _isC0Code wch then _ActionIgnore
  else if _isDelete wch then _ActionIgnore
  else if _isIntermediate wch then _ActionCollect wch
  else if _isIntermediateInvalid wch then _EnterDcsIgnore
  else _ActionDcsDispatch wch.

(** The second [if] of this handler is not an [else if] in the source. *)
Definition _EventDcsParam (wch : Z) : SM -> SM :=
  (if _isC0Code wch then _ActionIgnore
   else if _isDelete wch then _ActionIgnore
   else fun sm => sm) ;>
  (if _isNumericParamValue wch || _isParameterDelimiter wch then _ActionParam wch
   else if _isIntermediate wch then _ActionCollect wch ;> _EnterDcsIntermediate
   else if _isParameterInvalid wch || _isSubParameterDelimiter wch then _EnterDcsIgnore
   else _ActionDcsDispatch wch).

Definition _EventDcsPassThrough (wch : Z) (sm : SM) : SM :=
  if _isC0Code wch || _isDcsPassThroughValid wch then
    let '(sm', more) := call_dcsStringHandler wch sm in
    if more then sm' else _EnterDcsIgnore sm'
  else _ActionIgnore sm.

Definition _EventSosPmApcString (wch : Z) : SM -> SM := _ActionIgnore.

(** ** [ProcessCharacter]

    A C1 control is processed as ESC and its 7-bit equivalent, by a
    recursive call of the same function; neither is a C1 control itself,
    so the recursion is one level deep ([ProcessCharacter_unfold]). *)

Definition dispatch_event (wch : Z) (sm : SM) : SM :=
  match _state sm with
  | Ground => _EventGround wch sm
  | Escape => _EventEscape wch sm
  | EscapeIntermediate => _EventEscapeIntermediate wch sm
  | CsiEntry => _EventCsiEntry wch sm
  | CsiIntermediate => _EventCsiIntermediate wch sm
  | CsiIgnore => _EventCsiIgnore wch sm
  | CsiParam => _EventCsiParam wch sm
  | CsiSubParam => _EventCsiSubParam wch sm
  | OscParam => _EventOscParam wch sm
  | OscString => _EventOscString wch sm
  | OscTermination => _EventOscTermination wch sm
  | Ss3Entry => _EventSs3Entry wch sm
  | Ss3Param => _EventSs3Param wch sm
  | Vt52Param => _EventVt52Param wch sm
  | DcsEntry => _EventDcsEntry wch sm
  | DcsIgnore => _EventDcsIgnore sm
  | DcsIntermediate => _EventDcsIntermediate wch sm
  | DcsParam => _EventDcsParam wch sm
  | DcsPassThrough => _EventDcsPassThrough wch sm
  | SosPmApcString => _EventSosPmApcString wch sm
  end.

Definition isState (s : VTStates) (sm : SM) : bool := bool_decide (_state sm = s).

Definition processCharacter_step (rec : Z -> SM -> SM) (wch : Z) (sm : SM) : SM :=
  let isFromAnywhereChar := (wch =? CAN) || (wch =? SUB) in
  if isFromAnywhereChar && negb (isState Escape sm && _isEngineForInput sm)
  then (_ActionInterrupt ;> _ActionExecute wch ;> _EnterGround) sm
  else if _isC1ControlCharacter wch then
    if _parserMode_AcceptC1 sm
    then (rec ESC ;> rec (_c1To7Bit wch)) sm
    else sm
  else if _isEscape wch && negb (isState OscString sm) && negb (isState OscParam sm)
  then (_ActionInterrupt ;> _EnterEscape) sm
  else dispatch_event wch sm.

Definition ProcessCharacter : Z -> SM -> SM :=
  processCharacter_step (processCharacter_step (fun _ sm => sm)).

(** ** [ProcessString] *)

(** The [do ... while] loop: characters are processed one by one until
    the machine is back in the ground state.  Returns the characters
    that remain. *)
Fixpoint processString_vt (size i : nat) (rest : list Z) (sm : SM) : nat * list Z * SM :=
  match rest with
  | [] => (i, [], sm)
  | c :: rest' =>
      let sm := sm <| _runSize := S (_runSize sm) |>
                   <| _processingLastCharacter := (size <=? i + 1)%nat |> in
      let sm := ProcessCharacter c sm in
      match rest' with
      | [] => (S i, [], sm)
      | _ => if isState Ground sm then (S i, rest', sm)
             else processString_vt size (S i) rest' sm
      end
  end.

(** The outer [while] loop; every iteration consumes a character. *)
Fixpoint processString_loop (fuel size i : nat) (rest : list Z) (sm : SM) : SM :=
  match fuel with
  | O => sm
  | S fuel =>
      match rest with
      | [] => sm
      | _ =>
          let n := FindActionableControlCharacter rest in
          let sm := sm <| _runOffset := i |> <| _runSize := n |> in
          let '(i, sm) :=
            if (n =? 0)%nat then (i, sm)
            else
              let sm := _ActionPrintString (_CurrentRun sm) sm in
              ((i + n)%nat, sm <| _runOffset := (i + n)%nat |> <| _runSize := 0%nat |>) in
          match drop n rest with
          | [] => sm
          | rest =>
              let '(i, rest, sm) := processString_vt size i rest sm in
              processString_loop fuel size i rest sm
          end
      end
  end.

Definition appendToCachedSequence (run : list Z) (sm : SM) : SM :=
  let cached := default [] (_cachedSequence sm) in
  sm <| _cachedSequence := Some (cached ++ run) |>.

(** What follows the loop: an unfinished sequence is resolved (a lone
    ESC or ESC plus one character of the input engine) or cached.  The run is
    never empty here unless [ProcessString] was called with an empty string
    while a sequence was unfinished; for the input engine the source then
    evaluates [run.front()] of an empty view, which is undefined, and this
    definition takes the view not to start with ESC. *)
Definition processString_tail (sm : SM) : SM :=
  if isState Ground sm then sm
  else
    let run := _CurrentRun sm in
    if _isEngineForInput sm then
      let win32 := EncounteredWin32InputModeSequence (_engine sm) in
      if negb win32 && (length run <=? 2)%nat
         && (match run with c :: _ => c =? 0x1B | [] => false end)
      then
        ((if (length run =? 1)%nat
          then _EnterGround ;> _ActionExecute 0x1B
          else _EnterGround ;> _EnterEscape ;> _ActionEscDispatch (back 0 run))
         ;> _EnterGround) sm
      else appendToCachedSequence run sm
    else if isState SosPmApcString sm || isState DcsPassThrough sm || isState DcsIgnore sm
    then sm
    else appendToCachedSequence run sm.

Definition ProcessString (string : list Z) (sm : SM) : SM :=
  let size := length string in
  let sm := sm <| _currentString := string |> <| _runOffset := 0%nat |>
               <| _runSize := 0%nat |> <| _injections := [] |> in
  let sm :=
    if isState Ground sm
    then processString_loop (S size) size 0 string sm
    else
      match string with
      | [] => sm
      | _ =>
          let '(i, rest, sm) := processString_vt size 0 string sm in
          processString_loop (S size) size i rest sm
      end in
  processString_tail sm.
End Events.

(** ** Construction *)

Definition new_StateMachine (engine : E) (isEngineForInput : bool) : SM :=
  _ActionClear {|
    _engine := engine; _isEngineForInput := isEngineForInput; _state := Ground;
    _parserMode_AcceptC1 := isEngineForInput; _parserMode_Ansi := true;
    _currentString := []; _runOffset := 0; _runSize := 0;
    _identifier := mkVTIDBuilder 0 0; _parameters := []; _parameterLimitOverflowed := false;
    _subParameters := []; _subParameterRanges := []; _subParameterLimitOverflowed := false;
    _subParameterCounter := 0; _oscString := []; _oscParameter := 0;
    _dcsStringHandler := None; _cachedSequence := None; _injections := [];
    _processingLastCharacter := false; _onCsiCompleteCallback := None |}.
End Machine.

(** Proofs unfold these by name. *)
#[global] Arguments engine_call : simpl never.
#[global] Arguments SafeExecute_with : simpl never.
#[global] Arguments safely : simpl never.
#[global] Arguments apply_requests : simpl never.
#[global] Arguments call_dcsStringHandler : simpl never.
#[global] Arguments seq_step : simpl never.
#[global] Arguments ProcessCharacter : simpl never.
#[global] Arguments FindActionableControlCharacter : simpl never.
#[global] Arguments _CurrentRun : simpl never.
