(* ===== verification/ParserFacts.v ===== *)
(** * Invariants of the VT parser

    The frame of an engine call, the abstract view of the parameter lists of
    a control sequence and the refinement of it by [_ActionParam] and
    [_ActionSubParam], and the well-formedness invariant that every entry
    point of the parser preserves. *)

From S2P Require Import Prelude VTTypes StateMachine.
#[local] Open Scope Z_scope.

(** ** Frame of an engine call

    [core] collects the members that no engine call can change. *)

Section Frame.
Context {E CB H : Type} `{Eng : !IStateMachineEngine E CB H}.
Abbreviation SM := (StateMachine E CB H).

Record Core := mkCore {
  c_state : VTStates; c_input : bool; c_string : list Z; c_offset : nat; c_size : nat;
  c_id : VTIDBuilder; c_params : list Z; c_overflow : bool; c_subs : list Z;
  c_ranges : list (Z * Z); c_suboverflow : bool; c_counter : Z; c_osc : list Z;
  c_oscParam : Z; c_handler : option H; c_last : bool;
}.

Definition core (sm : SM) : Core :=
  mkCore (_state sm) (_isEngineForInput sm) (_currentString sm) (_runOffset sm) (_runSize sm)
    (_identifier sm) (_parameters sm) (_parameterLimitOverflowed sm) (_subParameters sm)
    (_subParameterRanges sm) (_subParameterLimitOverflowed sm) (_subParameterCounter sm)
    (_oscString sm) (_oscParameter sm) (_dcsStringHandler sm) (_processingLastCharacter sm).

#[global] Arguments core : simpl never.

Lemma core_apply_requests rs (sm : SM) : core (apply_requests rs sm) = core sm.
Proof.
  unfold apply_requests. revert sm. induction rs as [|r rs IH]; intros sm; [done|].
  cbn. rewrite IH. by destruct r as [[]| |].
Qed.

Lemma core_engine_call {R} (call : E -> EngineResult CB E R) (sm : SM) :
  core (fst (engine_call call sm)) = core sm.
Proof. unfold engine_call. cbn. by rewrite core_apply_requests. Qed.

Lemma core_SafeExecute_with flush call (sm : SM) :
  (forall sm, core (flush sm) = core sm) ->
  core (fst (SafeExecute_with flush call sm)) = core sm.
Proof.
  intros Hf. unfold SafeExecute_with.
  pose proof (core_engine_call call sm) as Hc.
  destruct (engine_call call sm) as [sm' [[]|]]; cbn in *; by rewrite ?Hf.
Qed.

Lemma core_FlushToTerminal_fuel n (sm : SM) :
  core (fst (FlushToTerminal_fuel n sm)) = core sm.
Proof.
  revert sm. induction n as [|n IH]; intros sm; [done|].
  cbn [FlushToTerminal_fuel].
  destruct (_cachedSequence sm) as [cached|].
  - pose proof (core_SafeExecute_with (fun sm => fst (FlushToTerminal_fuel n sm))
      (ActionPassThroughString cached) sm IH) as Hc.
    destruct (SafeExecute_with _ _ sm) as [sm' []]; cbn in *; [|by rewrite <- Hc].
    rewrite core_SafeExecute_with by done. by rewrite <- Hc.
  - by rewrite core_SafeExecute_with.
Qed.

Lemma core_safely call (sm : SM) : core (safely call sm) = core sm.
Proof.
  unfold safely, _SafeExecute. apply core_SafeExecute_with.
  intros; apply core_FlushToTerminal_fuel.
Qed.

Lemma core_call_handler wch (sm : SM) : core (fst (call_dcsStringHandler wch sm)) = core sm.
Proof.
  unfold call_dcsStringHandler. destruct (_dcsStringHandler sm) as [h|] eqn:Hh; [|done].
  destruct (StringHandler_call h wch (_engine sm)) as [[e more] reqs]. cbn.
  by rewrite core_apply_requests.
Qed.

(** One more level of fuel changes nothing once the engine never refuses a
    pass-through string. *)
Lemma FlushToTerminal_fuel_enough n (sm : SM) :
  (forall s e, er_result (ActionPassThroughString s e) <> Some false) ->
  (1 <= n)%nat -> FlushToTerminal_fuel n sm = FlushToTerminal_fuel 1 sm.
Proof.
  intros Hpt Hn. destruct n as [|n]; [lia|].
  assert (Hx : forall f g s (sm : SM),
    SafeExecute_with f (ActionPassThroughString s) sm
    = SafeExecute_with g (ActionPassThroughString s) sm).
  { intros f g s sm'. unfold SafeExecute_with, engine_call.
    specialize (Hpt s (_engine sm')).
    by destruct (er_result _) as [[]|]. }
  cbn [FlushToTerminal_fuel].
  destruct (_cachedSequence sm) as [cached|].
  - rewrite (Hx _ (fun sm0 => fst (sm0, false)) cached sm).
    destruct (SafeExecute_with _ _ sm) as [sm' []]; [apply Hx|done].
  - apply Hx.
Qed.
End Frame.
Arguments Core : clear implicits.

(** ** Parameter lists, abstractly

    A list of parameters, each with its own sub parameters.  The machine
    keeps the parameters, the concatenated sub parameters and, per
    parameter, the bounds of its slice as a pair of bytes. *)

Abbreviation ParamGroups := (list (Z * list Z)).

Fixpoint ranges_of (start : Z) (gs : ParamGroups) : list (Z * Z) :=
  match gs with
  | [] => []
  | (_, subs) :: gs' =>
      let stop := start + Z.of_nat (length subs) in
      (start, stop) :: ranges_of stop gs'
  end.

Definition subs_of (gs : ParamGroups) : list Z := concat (map snd gs).
Definition subs_total (gs : ParamGroups) : Z := Z.of_nat (length (subs_of gs)).
Definition last_subs (gs : ParamGroups) : list Z := snd (back (VTParameter_default, []) gs).

(** The values a parameter can take: omitted, or at most the maximum. *)
Definition param_value (v : Z) : Prop := v = -1 \/ 0 <= v <= MAX_PARAMETER_VALUE.

Definition groups_ok (gs : ParamGroups) : Prop :=
  Z.of_nat (length gs) <= MAX_PARAMETER_COUNT /\
  Forall (fun g => param_value (fst g) /\
                   Z.of_nat (length (snd g)) <= MAX_SUBPARAMETER_COUNT /\
                   Forall param_value (snd g)) gs.

(** What [_ActionParam] and [_ActionSubParam] do to that list, while no limit
    has been exceeded. *)
Definition groups_ensure (gs : ParamGroups) : ParamGroups :=
  match gs with [] => [(VTParameter_default, [])] | _ => gs end.

Definition groups_param (wch : Z) (gs : ParamGroups) : ParamGroups :=
  let gs := groups_ensure gs in
  if _isParameterDelimiter wch
  then if Z.of_nat (length gs) >=? MAX_PARAMETER_COUNT then gs else gs ++ [(VTParameter_default, [])]
  else let g := back (VTParameter_default, []) gs in
       set_back gs (_AccumulateTo wch (value_or (fst g) 0), snd g).

Definition groups_subparam (wch : Z) (gs : ParamGroups) : ParamGroups :=
  let gs := groups_ensure gs in
  let g := back (VTParameter_default, []) gs in
  if _isSubParameterDelimiter wch
  then if Z.of_nat (length (snd g)) >=? MAX_SUBPARAMETER_COUNT then gs
       else set_back gs (fst g, snd g ++ [VTParameter_default])
  else set_back gs (fst g, set_back (snd g) (_AccumulateTo wch (value_or (back VTParameter_default (snd g)) 0))).

Lemma subs_of_app gs gs' : subs_of (gs ++ gs') = subs_of gs ++ subs_of gs'.
Proof. unfold subs_of. by rewrite map_app, concat_app. Qed.

Lemma subs_of_single g : subs_of [g] = snd g.
Proof. unfold subs_of. cbn. by rewrite app_nil_r. Qed.

Lemma subs_total_app gs gs' : subs_total (gs ++ gs') = subs_total gs + subs_total gs'.
Proof. unfold subs_total. rewrite subs_of_app, length_app. lia. Qed.

Lemma subs_total_single g : subs_total [g] = Z.of_nat (length (snd g)).
Proof. unfold subs_total. by rewrite subs_of_single. Qed.

Lemma subs_total_nonneg gs : 0 <= subs_total gs.
Proof. unfold subs_total. lia. Qed.

Lemma ranges_of_app k gs gs' :
  ranges_of k (gs ++ gs') = ranges_of k gs ++ ranges_of (k + subs_total gs) gs'.
Proof.
  revert k. induction gs as [|[p s] gs IH]; intros k; cbn.
  - by rewrite Z.add_0_r.
  - rewrite IH. do 3 f_equal. unfold subs_total, subs_of. cbn.
    rewrite length_app. lia.
Qed.

Lemma groups_ok_app gs gs' :
  groups_ok (gs ++ gs') ->
  groups_ok gs /\ Z.of_nat (length gs + length gs') <= MAX_PARAMETER_COUNT.
Proof.
  intros [Hl Hf]. rewrite length_app in Hl. apply Forall_app in Hf as [Hf _].
  repeat split; try done; lia.
Qed.

Lemma subs_total_bound gs :
  groups_ok gs -> subs_total gs <= MAX_SUBPARAMETER_COUNT * Z.of_nat (length gs).
Proof.
  intros [_ Hf]. induction Hf as [|[p s] gs [_ [Hs _]] _ IH]; [done|].
  change ((p, s) :: gs) with ([(p, s)] ++ gs).
  rewrite subs_total_app, subs_total_single, length_app. cbn [length snd] in *. lia.
Qed.

(** The bound the byte-sized ranges rely on. *)
Lemma subs_total_byte gs : groups_ok gs -> subs_total gs < 256.
Proof.
  intros Hok. pose proof (subs_total_bound gs Hok). destruct Hok as [Hl _].
  unfold MAX_SUBPARAMETER_COUNT, MAX_PARAMETER_COUNT in *. lia.
Qed.

Lemma AccumulateTo_bounds wch v :
  _isNumericParamValue wch = true -> 0 <= v <= MAX_PARAMETER_VALUE ->
  0 <= _AccumulateTo wch v <= MAX_PARAMETER_VALUE.
Proof.
  autounfold with chars. unfold _AccumulateTo, MAX_PARAMETER_VALUE. intros ? ?.
  bool_cases; lia.
Qed.

Lemma value_or_bounds v : param_value v -> 0 <= value_or v 0 <= MAX_PARAMETER_VALUE.
Proof. unfold param_value, value_or, MAX_PARAMETER_VALUE. intros ?. bool_cases; lia. Qed.

Lemma param_value_default : param_value VTParameter_default.
Proof. by left. Qed.
#[export] Hint Resolve param_value_default : term.

Lemma zero_subs_ok : Z.of_nat (@length Z []) <= MAX_SUBPARAMETER_COUNT.
Proof. done. Qed.
#[export] Hint Resolve zero_subs_ok : term.

Lemma param_value_accumulate wch v :
  _isNumericParamValue wch = true -> param_value v -> param_value (_AccumulateTo wch (value_or v 0)).
Proof. intros ? ?. right. by apply AccumulateTo_bounds, value_or_bounds. Qed.
#[export] Hint Resolve param_value_accumulate : term.

(** ** Refinement of the parameter actions *)

Section Params.
Context {E CB H : Type} `{Eng : !IStateMachineEngine E CB H}.
Abbreviation SM := (StateMachine E CB H).

(** The machine [sm] holds the parameter groups [gs]. *)
Definition params_repr (gs : ParamGroups) (sm : SM) : Prop :=
  _parameters sm = map fst gs /\
  _subParameters sm = subs_of gs /\
  _subParameterRanges sm = ranges_of 0 gs /\
  _subParameterCounter sm = Z.of_nat (length (last_subs gs)).

Lemma push_parameter_repr gs (sm : SM) :
  groups_ok gs -> params_repr gs sm ->
  params_repr (gs ++ [(VTParameter_default, [])])
    (push_parameter (sm <| _subParameterCounter := 0 |> <| _subParameterLimitOverflowed := false |>)).
Proof.
  intros Hok (Hp & Hs & Hr & Hc). unfold push_parameter, params_repr. cbn.
  rewrite Hp, Hs, Hr, map_app, subs_of_app, ranges_of_app, subs_of_single.
  change (Z.of_nat (length (subs_of gs))) with (subs_total gs).
  rewrite u8_small by (pose proof (subs_total_byte gs Hok); pose proof (subs_total_nonneg gs); lia).
  cbn. rewrite app_nil_r, Z.add_0_r. unfold last_subs. rewrite back_snoc. done.
Qed.

Lemma ensure_parameter_repr gs (sm : SM) :
  params_repr gs sm -> params_repr (groups_ensure gs) (ensure_parameter sm).
Proof.
  intros (Hp & Hs & Hr & Hc). unfold ensure_parameter, params_repr, push_parameter.
  rewrite Hp. destruct gs as [|g gs]; cbn; [|done].
  rewrite Hs, Hr, Hc. done.
Qed.

Lemma groups_ensure_ok gs : groups_ok gs -> groups_ok (groups_ensure gs).
Proof.
  destruct gs; [|done]. intros _. split; [done|].
  apply Forall_singleton; cbn; auto with term.
Qed.

Lemma groups_ensure_ne gs : groups_ensure gs <> [].
Proof. by destruct gs. Qed.

Lemma groups_ensure_last gs : last_subs (groups_ensure gs) = last_subs gs.
Proof. by destruct gs. Qed.

Lemma groups_split (gs : ParamGroups) : gs <> [] -> exists gs' p s, gs = gs' ++ [(p, s)].
Proof. intros Hne. destruct (exists_last Hne) as (gs' & [p s] & ->). eauto. Qed.

Lemma ensure_overflow (sm : SM) :
  _parameterLimitOverflowed (ensure_parameter sm) = _parameterLimitOverflowed sm /\
  _subParameterLimitOverflowed (ensure_parameter sm) = _subParameterLimitOverflowed sm.
Proof. unfold ensure_parameter. by destruct (_parameters sm). Qed.

(** While no limit is exceeded, [_ActionParam] maintains the machine's
    three vectors as a faithful encoding of the parameter groups. *)
Lemma ActionParam_refines wch gs (sm : SM) :
  groups_ok gs -> params_repr gs sm -> _parameterLimitOverflowed sm = false ->
  params_repr (groups_param wch gs) (_ActionParam wch sm).
Proof.
  intros Hok Hrep Ho. unfold _ActionParam, groups_param. rewrite Ho.
  apply ensure_parameter_repr in Hrep as He.
  apply groups_ensure_ok in Hok as Hok'.
  set (sm' := ensure_parameter sm) in *. set (gs' := groups_ensure gs) in *.
  destruct He as (Hp & Hs & Hr & Hc) eqn:HE.
  rewrite Hp, length_map. destruct (_isParameterDelimiter wch).
  - destruct (_ >=? _); [done|]. by apply push_parameter_repr.
  - destruct (groups_split gs' (groups_ensure_ne gs)) as (g0 & p & s & Hg).
    unfold params_repr. cbn. rewrite Hs, Hr, Hc, Hg, map_app. cbn.
    rewrite !back_snoc, !set_back_snoc, !map_app, !subs_of_app, !ranges_of_app.
    unfold last_subs. rewrite !back_snoc. done.
Qed.

(** Likewise for [_ActionSubParam]; a digit needs a sub parameter of the
    current parameter to add to. *)
Lemma ActionSubParam_refines wch gs (sm : SM) :
  groups_ok gs -> params_repr gs sm -> _subParameterLimitOverflowed sm = false ->
  (_isSubParameterDelimiter wch = false -> last_subs gs <> []) ->
  params_repr (groups_subparam wch gs) (_ActionSubParam wch sm).
Proof.
  intros Hok Hrep Ho Hne. unfold _ActionSubParam, groups_subparam. rewrite Ho.
  apply ensure_parameter_repr in Hrep as He.
  apply groups_ensure_ok in Hok as Hok'.
  rewrite <- (groups_ensure_last gs) in Hne.
  set (sm' := ensure_parameter sm) in *. set (gs' := groups_ensure gs) in *.
  destruct (groups_split gs' (groups_ensure_ne gs)) as (g0 & p & s & Hg).
  assert (Hl : last_subs gs' = s) by (unfold last_subs; by rewrite Hg, back_snoc).
  rewrite Hl in Hne. destruct He as (Hp & Hs & Hr & Hc).
  rewrite Hc, Hl, Hg, back_snoc. cbn [fst snd].
  pose proof (subs_total_byte _ Hok') as Hb. rewrite Hg, subs_total_app, subs_total_single in Hb.
  cbn [snd] in Hb. pose proof (subs_total_nonneg g0).
  destruct (_isSubParameterDelimiter wch).
  - destruct (_ >=? _) eqn:Hge.
    + unfold params_repr. cbn. rewrite Hp, Hs, Hr, Hc, Hl, Hg. unfold last_subs.
      by rewrite back_snoc.
    + unfold params_repr. cbn. rewrite Hp, Hs, Hr, Hg.
      unfold bump_range. rewrite set_back_snoc.
      rewrite !map_app, !subs_of_app, !ranges_of_app, !subs_of_single.
      cbn [ranges_of]. rewrite back_snoc, set_back_snoc.
      unfold last_subs. rewrite back_snoc. cbn [map fst snd].
      assert (Hle : Z.of_nat (length s) < MAX_SUBPARAMETER_COUNT) by lia.
      assert (subs_total g0 + Z.of_nat (length s) + 1 < 256).
      { destruct Hok' as [Hlen Hf]. rewrite Hg in Hlen, Hf.
        apply Forall_app in Hf as [Hf _]. rewrite length_app in Hlen. cbn in Hlen.
        assert (Hg0 : groups_ok g0) by (split; [lia|done]).
        pose proof (subs_total_bound g0 Hg0).
        unfold MAX_SUBPARAMETER_COUNT, MAX_PARAMETER_COUNT in *. lia. }
      rewrite !u8_small, !length_app by (unfold MAX_SUBPARAMETER_COUNT in *; lia).
      cbn [length]. rewrite app_assoc. repeat split; try done; [|lia].
      do 3 f_equal; lia.
  - specialize (Hne eq_refl). destruct (exists_last Hne) as (s0 & x & Hs0).
    unfold params_repr. cbn. rewrite Hp, Hs, Hr, Hc, Hl, Hg, Hs0.
    rewrite !set_back_snoc, !back_snoc, !map_app, !subs_of_app, !ranges_of_app, !subs_of_single.
    cbn [snd]. rewrite app_assoc, back_snoc, set_back_snoc, <- app_assoc.
    unfold last_subs. rewrite back_snoc. cbn. by rewrite !length_app.
Qed.
End Params.

(** ** The abstract operations keep the limits *)

Lemma groups_ok_set_back gs g :
  groups_ok gs -> gs <> [] -> param_value (fst g) ->
  Z.of_nat (length (snd g)) <= MAX_SUBPARAMETER_COUNT -> Forall param_value (snd g) ->
  groups_ok (set_back gs g).
Proof.
  intros [Hl Hf] Hne Hv Hn Hs. split; [by rewrite length_set_back|].
  destruct (exists_last Hne) as (gs' & x & ->). rewrite set_back_snoc.
  apply Forall_app in Hf as [Hf _]. apply Forall_app; split; [done|]. by apply Forall_singleton.
Qed.

Lemma groups_ok_back gs :
  groups_ok gs ->
  param_value (fst (back (VTParameter_default, []) gs)) /\
  Z.of_nat (length (last_subs gs)) <= MAX_SUBPARAMETER_COUNT /\
  Forall param_value (last_subs gs).
Proof.
  intros [_ Hf]. unfold last_subs. destruct (decide (gs = [])) as [->|Hne].
  - cbn. auto with term.
  - destruct (exists_last Hne) as (gs' & x & ->). rewrite back_snoc.
    apply Forall_app in Hf as [_ Hf]. by inversion Hf.
Qed.

Lemma groups_param_ok wch gs :
  groups_ok gs -> _isNumericParamValue wch || _isParameterDelimiter wch = true ->
  groups_ok (groups_param wch gs).
Proof.
  intros Hok Hw. unfold groups_param. apply groups_ensure_ok in Hok as Hok'.
  destruct (_isParameterDelimiter wch) eqn:Hd.
  - destruct (_ >=? _) eqn:Hge; [done|]. destruct Hok' as [Hl Hf]. split.
    + rewrite length_app. cbn. lia.
    + apply Forall_app; split; [done|]. apply Forall_singleton; cbn; auto with term.
  - rewrite orb_false_r in Hw. destruct (groups_ok_back _ Hok') as (? & ? & ?).
    apply groups_ok_set_back; cbn; auto using groups_ensure_ne with term.
Qed.

Lemma Forall_set_back {A} (P : A -> Prop) l x : Forall P l -> P x -> Forall P (set_back l x).
Proof.
  intros Hl Hx. destruct (decide (l = [])) as [->|Hne]; [by apply Forall_singleton|].
  destruct (exists_last Hne) as (l' & y & ->). rewrite set_back_snoc.
  apply Forall_app in Hl as [Hl _]. apply Forall_app; split; [done|]. by apply Forall_singleton.
Qed.

Lemma Forall_back {A} (P : A -> Prop) d l : Forall P l -> P d -> P (back d l).
Proof.
  intros Hl Hd. destruct (decide (l = [])) as [->|Hne]; [done|].
  destruct (exists_last Hne) as (l' & y & ->). rewrite back_snoc.
  apply Forall_app in Hl as [_ Hl]. by inversion Hl.
Qed.

Lemma groups_subparam_ok wch gs :
  groups_ok gs -> _isNumericParamValue wch || _isSubParameterDelimiter wch = true ->
  (_isSubParameterDelimiter wch = false -> last_subs gs <> []) ->
  groups_ok (groups_subparam wch gs).
Proof.
  intros Hok Hw Hne. unfold groups_subparam. apply groups_ensure_ok in Hok as Hok'.
  destruct (groups_ok_back _ Hok') as (? & Hn & ?). rewrite <- (groups_ensure_last gs) in Hne.
  unfold last_subs in *. destruct (_isSubParameterDelimiter wch) eqn:Hd.
  - destruct (_ >=? _) eqn:Hge; [done|]. apply groups_ok_set_back; cbn; auto using groups_ensure_ne.
    + rewrite length_app. cbn. lia.
    + apply Forall_app; split; [done|]. apply Forall_singleton; auto with term.
  - rewrite orb_false_r in Hw. specialize (Hne eq_refl).
    apply groups_ok_set_back; cbn; auto using groups_ensure_ne.
    + by rewrite length_set_back.
    + apply Forall_set_back; [done|]. apply param_value_accumulate; [done|].
      apply Forall_back; auto with term.
Qed.

Lemma length_groups_param_max wch gs :
  Z.of_nat (length gs) = MAX_PARAMETER_COUNT ->
  Z.of_nat (length (groups_param wch gs)) = MAX_PARAMETER_COUNT.
Proof.
  intros Hl. unfold groups_param.
  assert (groups_ensure gs = gs) as -> by (destruct gs; done).
  destruct (_isParameterDelimiter wch).
  - destruct (_ >=? _) eqn:Hge; [done|]. lia.
  - rewrite length_set_back; [done|]. by destruct gs.
Qed.

(** ** Well-formedness *)

Definition collecting (s : VTStates) : bool :=
  match s with Ground | Vt52Param => false | _ => true end.

Section Wf.
Context {E CB H : Type} `{Eng : !IStateMachineEngine E CB H}.
Abbreviation SM := (StateMachine E CB H).

(** The parameter vectors encode some groups within the limits, and a
    limit flag is only raised when its limit has been reached. *)
Definition params_inv (gs : ParamGroups) (sm : SM) : Prop :=
  groups_ok gs /\ params_repr gs sm /\
  (_parameterLimitOverflowed sm = true -> Z.of_nat (length gs) = MAX_PARAMETER_COUNT) /\
  (_subParameterLimitOverflowed sm = true ->
     Z.of_nat (length (last_subs gs)) = MAX_SUBPARAMETER_COUNT).

Definition id_ok (b : VTIDBuilder) : Prop :=
  0 <= _idShift b <= 48 /\ (8 | _idShift b) /\ 0 <= _idAccumulator b < 2 ^ _idShift b.

(** The condition the machine meets in the state [s]. *)
Record wf_at (s : VTStates) (sm : SM) : Prop := {
  wf_params : collecting s = true -> exists gs, params_inv gs sm /\
                (s = CsiSubParam -> last_subs gs <> []);
  wf_escape : s = Escape \/ s = EscapeIntermediate -> _parameters sm = [];
  wf_vt52 : s = Vt52Param -> (length (_parameters sm) < 2)%nat /\
              Forall (fun v => 0 <= v <= MAX_PARAMETER_VALUE) (_parameters sm);
  wf_handler : s = DcsPassThrough -> _dcsStringHandler sm <> None;
  wf_osc : 0 <= _oscParameter sm <= MAX_PARAMETER_VALUE;
  wf_id : id_ok (_identifier sm);
}.

Definition parser_wf (sm : SM) : Prop := wf_at (_state sm) sm.

Lemma wf_at_core s (a b : SM) : core a = core b -> wf_at s a -> wf_at s b.
Proof.
  intros Heq Hwf. unfold core in Heq.
  injection Heq as ? ? ? ? ? Hid Hp Ho Hs Hr Hso Hc ? Hosc Hh ?.
  assert (Hi : forall gs, params_inv gs a -> params_inv gs b).
  { intros gs (? & (? & ? & ? & ?) & ? & ?). unfold params_inv, params_repr.
    rewrite <- Hp, <- Ho, <- Hs, <- Hr, <- Hso, <- Hc. done. }
  destruct Hwf as [W1 W2 W3 W4 W5 W6]. split; rewrite <- ?Hp, <- ?Hosc, <- ?Hid, <- ?Hh; try done.
  intros Hcol. destruct (W1 Hcol) as (gs & ? & ?). eauto.
Qed.

Lemma wf_at_safely s call (sm : SM) : wf_at s sm -> wf_at s (safely call sm).
Proof. apply wf_at_core. symmetry. apply core_safely. Qed.

Lemma state_safely call (sm : SM) : _state (safely call sm) = _state sm.
Proof. exact (f_equal c_state (core_safely call sm)). Qed.

Lemma wf_safely call (sm : SM) : parser_wf sm -> parser_wf (safely call sm).
Proof. unfold parser_wf. rewrite state_safely. apply wf_at_safely. Qed.

Lemma id_ok_add wch b : 0 <= wch < 256 -> id_ok b -> id_ok (AddIntermediate wch b).
Proof.
  intros Hw (Hs & [k Hk] & Ha). unfold AddIntermediate, CHAR_BIT.
  destruct (_ >=? _) eqn:Hge; unfold id_ok; cbn.
  - repeat split; try (by exists k); try lia; apply Z.pow_pos_nonneg; lia.
  - rewrite Z.shiftl_mul_pow2 by lia.
    assert (Hp : 0 < 2 ^ _idShift b) by (apply Z.pow_pos_nonneg; lia).
    assert (Hq : 2 ^ (_idShift b + 8) = 256 * 2 ^ _idShift b)
      by (rewrite Z.pow_add_r by lia; lia).
    assert (2 ^ (_idShift b + 8) <= 2 ^ 48) by (apply Z.pow_le_mono_r; lia).
    assert (Hb : 0 <= wch * 2 ^ _idShift b <= 255 * 2 ^ _idShift b) by nia.
    rewrite !u64_small by (rewrite ?u64_small; lia).
    rewrite Hq. repeat split; try lia. exists (k + 1). lia.
Qed.
End Wf.

(** ** Preservation by the actions *)

Definition plain (s : VTStates) : bool :=
  match s with
  | CsiSubParam | Escape | EscapeIntermediate | Vt52Param | DcsPassThrough => false
  | _ => true
  end.

Section Actions.
Context {E CB H : Type} `{Eng : !IStateMachineEngine E CB H}.
Abbreviation SM := (StateMachine E CB H).

Lemma ActionParam_inv wch gs (sm : SM) :
  _isNumericParamValue wch || _isParameterDelimiter wch = true ->
  params_inv gs sm -> exists gs', params_inv gs' (_ActionParam wch sm).
Proof.
  intros Hw (Hok & Hrep & Ho & Hso).
  destruct (_parameterLimitOverflowed sm) eqn:Hov.
  { exists gs. unfold _ActionParam. rewrite Hov. unfold params_inv. rewrite Hov. done. }
  exists (groups_param wch gs). split; [by apply groups_param_ok|].
  split; [by apply ActionParam_refines|].
  pose proof (groups_ensure_ok gs Hok) as [Hl _].
  destruct (ensure_parameter_repr gs sm Hrep) as (Hp & _).
  destruct (ensure_overflow sm) as [He1 He2].
  unfold _ActionParam, groups_param. rewrite Hov, Hp, length_map.
  destruct (_isParameterDelimiter wch).
  - destruct (_ >=? _) eqn:Hge; cbn; [|rewrite He1, Hov; done].
    rewrite He2, groups_ensure_last. split; [intros _; lia|done].
  - cbn. rewrite He1, He2, Hov. unfold last_subs. split; [done|].
    destruct (groups_split _ (groups_ensure_ne gs)) as (g0 & p & s & Hg).
    rewrite Hg, set_back_snoc, !back_snoc. cbn.
    rewrite <- (groups_ensure_last gs) in Hso. unfold last_subs in Hso.
    by rewrite Hg, back_snoc in Hso.
Qed.

Lemma ActionSubParam_inv wch gs (sm : SM) :
  _isNumericParamValue wch || _isSubParameterDelimiter wch = true ->
  (_isSubParameterDelimiter wch = false -> last_subs gs <> []) ->
  params_inv gs sm ->
  exists gs', params_inv gs' (_ActionSubParam wch sm) /\ last_subs gs' <> [].
Proof.
  intros Hw Hne (Hok & Hrep & Ho & Hso).
  destruct (_subParameterLimitOverflowed sm) eqn:Hov.
  { exists gs. unfold _ActionSubParam. rewrite Hov. unfold params_inv. rewrite Hov.
    repeat split; try done; try apply Hok; try apply Hrep.
    specialize (Hso eq_refl). by destruct (last_subs gs). }
  exists (groups_subparam wch gs).
  destruct (groups_split _ (groups_ensure_ne gs)) as (g0 & p & s & Hg).
  assert (Hs : last_subs gs = s).
  { rewrite <- (groups_ensure_last gs). unfold last_subs. by rewrite Hg, back_snoc. }
  destruct (ensure_parameter_repr gs sm Hrep) as (_ & _ & _ & Hc).
  rewrite groups_ensure_last, Hs in Hc. rewrite Hs in Hne.
  destruct (ensure_overflow sm) as [He1 He2].
  assert (Hlen : length (groups_ensure gs) = length gs \/ length gs = 0%nat)
    by (destruct gs; auto).
  split.
  - split; [apply groups_subparam_ok; rewrite ?Hs; done|].
    split; [apply ActionSubParam_refines; rewrite ?Hs; done|].
    unfold _ActionSubParam, groups_subparam, last_subs. rewrite Hov, Hc, Hg, back_snoc.
    rewrite Hg in Hlen. cbn [fst snd].
    assert (Ho' : _parameterLimitOverflowed sm = true ->
                  Z.of_nat (length (g0 ++ [(p, s)])) = MAX_PARAMETER_COUNT).
    { intros Hx. specialize (Ho Hx). unfold MAX_PARAMETER_COUNT in *. lia. }
    destruct (_isSubParameterDelimiter wch).
    + destruct (_ >=? _) eqn:Hge; cbn; rewrite ?He1, ?He2, ?Hov.
      * rewrite back_snoc. cbn. split; [done|]. intros _.
        destruct (groups_ok_back gs Hok) as (_ & Hx & _). rewrite Hs in Hx. lia.
      * rewrite set_back_snoc, length_app. rewrite length_app in Ho'. done.
    + cbn. rewrite He1, He2, Hov, set_back_snoc, length_app. rewrite length_app in Ho'. done.
  - unfold groups_subparam, last_subs. rewrite Hg, back_snoc. cbn [fst snd].
    destruct (_isSubParameterDelimiter wch).
    + destruct (_ >=? _) eqn:Hge.
      * rewrite back_snoc. cbn. intros ->. done.
      * rewrite set_back_snoc, back_snoc. cbn. by destruct s.
    + rewrite set_back_snoc, back_snoc. cbn. unfold set_back. by destruct (removelast s).
Qed.

Lemma wf_ActionParam s s' wch (sm : SM) :
  _isNumericParamValue wch || _isParameterDelimiter wch = true ->
  collecting s = true -> plain s' = true ->
  wf_at s sm -> wf_at s' (_ActionParam wch sm).
Proof.
  intros Hw Hc Hp [W1 W2 W3 W4 W5 W6].
  destruct (W1 Hc) as (gs & Hi & _). destruct (ActionParam_inv wch gs sm Hw Hi) as (gs' & Hi').
  assert (Hf : _oscParameter (_ActionParam wch sm) = _oscParameter sm
            /\ _identifier (_ActionParam wch sm) = _identifier sm).
  { unfold _ActionParam, ensure_parameter, push_parameter.
    repeat case_match; done. }
  destruct Hf as [Hf1 Hf2]. split; rewrite ?Hf1, ?Hf2; try done; try (by intros ->).
  - intros _. exists gs'. split; [done|]. by intros ->.
  - by intros [-> | ->].
Qed.

Lemma wf_ActionSubParam s wch (sm : SM) :
  _isNumericParamValue wch || _isSubParameterDelimiter wch = true ->
  collecting s = true -> (_isSubParameterDelimiter wch = false -> s = CsiSubParam) ->
  wf_at s sm -> wf_at CsiSubParam (_ActionSubParam wch sm).
Proof.
  intros Hw Hc Hd [W1 W2 W3 W4 W5 W6].
  destruct (W1 Hc) as (gs & Hi & Hl).
  destruct (ActionSubParam_inv wch gs sm Hw ltac:(auto) Hi) as (gs' & Hi' & Hl').
  assert (Hf : _oscParameter (_ActionSubParam wch sm) = _oscParameter sm
            /\ _identifier (_ActionSubParam wch sm) = _identifier sm).
  { unfold _ActionSubParam, ensure_parameter, push_parameter.
    repeat case_match; done. }
  destruct Hf as [Hf1 Hf2]. split; rewrite ?Hf1, ?Hf2; try done; eauto.
  by intros [|].
Qed.

Lemma wf_ActionCollect s wch (sm : SM) :
  0 <= wch < 256 -> wf_at s sm -> wf_at s (_ActionCollect wch sm).
Proof.
  intros Hw [W1 W2 W3 W4 W5 W6]. split; try done. cbn. by apply id_ok_add.
Qed.

Lemma wf_at_plain s s' (sm : SM) :
  collecting s = true -> plain s' = true -> wf_at s sm -> wf_at s' sm.
Proof.
  intros Hc Hp [W1 W2 W3 W4 W5 W6]. split; try done; try (by intros ->).
  - intros _. destruct (W1 Hc) as (gs & ? & _). exists gs. split; [done|]. by intros ->.
  - by intros [-> | ->].
Qed.

Lemma wf_at_ground s (sm : SM) : wf_at s sm -> wf_at Ground sm.
Proof. intros [W1 W2 W3 W4 W5 W6]. split; try done. by intros [|]. Qed.

(** Changing the state and dropping the cache keeps what holds at the new state. *)
Lemma wf_set_state s (sm : SM) : wf_at s sm -> parser_wf (sm <| _state := s |>).
Proof. intros [W1 W2 W3 W4 W5 W6]. by split. Qed.

Lemma wf_drop_cache (sm : SM) : parser_wf sm -> parser_wf (sm <| _cachedSequence := None |>).
Proof. intros [W1 W2 W3 W4 W5 W6]. by split. Qed.

Lemma wf_clear s (sm : SM) : s <> DcsPassThrough -> s <> CsiSubParam -> wf_at s (_ActionClear sm).
Proof.
  intros Hs Hs'. split; cbn; try done.
  - intros _. exists []. split; [|done]. repeat split; done.
  - intros _. split; [lia|constructor].
  - repeat split; try done. by exists 0.
Qed.
End Actions.

(** ** Preservation by the event handlers *)

Create HintDb wf discriminated.

Section Events.
Context {E CB H : Type} `{Eng : !IStateMachineEngine E CB H}.
Abbreviation SM := (StateMachine E CB H).
Variable runCallback : CB -> SM -> SM.
Hypothesis runCallback_wf : forall cb sm, parser_wf sm -> parser_wf (runCallback cb sm).

Lemma state_ActionParam wch (sm : SM) : _state (_ActionParam wch sm) = _state sm.
Proof. unfold _ActionParam, ensure_parameter, push_parameter. repeat case_match; done. Qed.

Lemma state_ActionSubParam wch (sm : SM) : _state (_ActionSubParam wch sm) = _state sm.
Proof. unfold _ActionSubParam, ensure_parameter, push_parameter. repeat case_match; done. Qed.

Lemma wf_EnterGround s (sm : SM) : wf_at s sm -> parser_wf (_EnterGround sm).
Proof. intros Hw. apply wf_drop_cache, wf_set_state. by eapply wf_at_ground. Qed.

Lemma wf_goto s s' (sm : SM) :
  wf_at s sm -> collecting s = true -> plain s' = true -> parser_wf (sm <| _state := s' |>).
Proof. intros. apply wf_set_state. by eapply wf_at_plain. Qed.

Lemma wf_cleared s (sm : SM) :
  s <> DcsPassThrough -> s <> CsiSubParam -> parser_wf (_ActionClear (sm <| _state := s |>)).
Proof. intros ? ?. change (wf_at s (_ActionClear (sm <| _state := s |>))). by apply wf_clear. Qed.

Lemma wf_EscDispatch s wch (sm : SM) : wf_at s sm -> wf_at s (_ActionEscDispatch wch sm).
Proof. apply wf_at_safely. Qed.
Lemma wf_Vt52EscDispatch s wch (sm : SM) : wf_at s sm -> wf_at s (_ActionVt52EscDispatch wch sm).
Proof. apply wf_at_safely. Qed.
Lemma wf_CsiDispatch s wch (sm : SM) : wf_at s sm -> wf_at s (_ActionCsiDispatch wch sm).
Proof. apply wf_at_safely. Qed.
Lemma wf_OscDispatch s (sm : SM) : wf_at s sm -> wf_at s (_ActionOscDispatch sm).
Proof. apply wf_at_safely. Qed.
Lemma wf_Ss3Dispatch s wch (sm : SM) : wf_at s sm -> wf_at s (_ActionSs3Dispatch wch sm).
Proof. apply wf_at_safely. Qed.
Lemma wf_ExecuteFromEscape s wch (sm : SM) : wf_at s sm -> wf_at s (_ActionExecuteFromEscape wch sm).
Proof. apply wf_at_safely. Qed.
Lemma wf_Execute wch (sm : SM) : parser_wf sm -> parser_wf (_ActionExecute wch sm).
Proof. apply wf_safely. Qed.
Lemma wf_Print wch (sm : SM) : parser_wf sm -> parser_wf (_ActionPrint wch sm).
Proof. apply wf_safely. Qed.

Lemma wf_callback (sm : SM) :
  parser_wf sm -> parser_wf (_ExecuteCsiCompleteCallback runCallback sm).
Proof.
  intros Hw. unfold _ExecuteCsiCompleteCallback.
  destruct (_onCsiCompleteCallback sm) as [cb|]; [|done].
  assert (Hw' : parser_wf (sm <| _onCsiCompleteCallback := None |>))
    by (destruct Hw; by split).
  destruct (runCallback_wf cb _ Hw'). by split.
Qed.

Lemma wf_DcsDispatch s wch (sm : SM) :
  wf_at s sm -> collecting s = true -> parser_wf (_ActionDcsDispatch wch sm).
Proof.
  intros Hw Hc. unfold _ActionDcsDispatch.
  set (call := ActionDcsDispatch _ _). pose proof (core_engine_call call sm) as Hcore.
  destruct (engine_call call sm) as [sm1 r]. cbn [fst] in Hcore.
  assert (Hw1 : wf_at s sm1) by (eapply wf_at_core; [|done]; by symmetry).
  set (sm2 := match r with Some h => _ | None => _ end).
  assert (Hw2 : wf_at DcsIgnore sm2).
  { apply (wf_at_plain s DcsIgnore) in Hw1; try done. unfold sm2.
    destruct r as [h|]; [|done]. destruct Hw1; by split. }
  destruct (_dcsStringHandler sm2) eqn:Hh.
  - apply wf_drop_cache, wf_set_state. destruct Hw2 as [W1 W2 W3 W4 W5 W6].
    split; try done; [|by intros [|]|by rewrite Hh].
    intros _. destruct (W1 eq_refl) as (gs & ? & _). by exists gs.
  - apply wf_drop_cache, wf_set_state, Hw2.
Qed.

Hint Resolve wf_EscDispatch wf_Vt52EscDispatch wf_CsiDispatch wf_OscDispatch wf_Ss3Dispatch
  wf_ExecuteFromEscape wf_Execute wf_Print wf_callback wf_EnterGround wf_DcsDispatch
  wf_ActionCollect : wf.

(** Splits a handler into its branches, and closes those that only make
    an engine call, ignore the character or start a new sequence. *)
Ltac wf_branches Hs Hw :=
  repeat step_if; unfold seq_step, _ActionIgnore; try done;
  try (by eauto with wf);
  try (by eapply wf_cleared);
  try (apply wf_drop_cache; by eapply wf_goto);
  try (by eapply wf_goto).

Ltac wf_start sm Hs :=
  let Hw := fresh "Hw" in
  intros Hs Hw; assert (wf_at (_state sm) sm) as Hat by done;
  rewrite Hs in Hat.

Definition wide (wch : Z) : Prop := 0 <= wch < 65536.

Lemma wf_EventGround wch (sm : SM) : parser_wf sm -> parser_wf (_EventGround wch sm).
Proof. intros Hw. unfold _EventGround. wf_branches Hs Hw. Qed.

Lemma intermediate_byte wch : _isIntermediate wch = true -> 0 <= wch < 256.
Proof. autounfold with chars. lia. Qed.

Lemma marker_byte wch : _isCsiPrivateMarker wch = true -> 0 <= wch < 256.
Proof. autounfold with chars. lia. Qed.
Hint Resolve intermediate_byte marker_byte : wf.

Lemma wf_to_vt52 s (sm : SM) :
  wf_at s sm -> s = Escape \/ s = EscapeIntermediate -> parser_wf (_EnterVt52Param sm).
Proof.
  intros [W1 W2 W3 W4 W5 W6] Hs. apply wf_set_state. split; try done; [by intros [|]|].
  intros _. rewrite (W2 Hs). split; [cbn; lia|constructor].
Qed.
Hint Resolve wf_to_vt52 : wf.

Lemma wf_to_escape_intermediate wch (sm : SM) :
  wf_at Escape sm -> _isIntermediate wch = true ->
  parser_wf (_EnterEscapeIntermediate (_ActionCollect wch sm)).
Proof.
  intros Hw Hi. apply wf_set_state. apply (wf_ActionCollect _ wch) in Hw; auto with wf.
  destruct Hw as [W1 W2 W3 W4 W5 W6]. split; try done; [|auto].
  intros _. destruct (W1 eq_refl) as (gs & ? & _). by exists gs.
Qed.

Lemma wf_EventEscape wch (sm : SM) :
  _state sm = Escape -> parser_wf sm -> parser_wf (_EventEscape wch sm).
Proof.
  wf_start sm Hs. unfold _EventEscape. wf_branches Hs Hw.
  by apply wf_to_escape_intermediate.
Qed.

Lemma wf_at_state s (sm : SM) : _state sm = s -> wf_at s sm -> parser_wf sm.
Proof. unfold parser_wf. by intros ->. Qed.

Lemma wf_EventEscapeIntermediate wch (sm : SM) :
  _state sm = EscapeIntermediate -> parser_wf sm -> parser_wf (_EventEscapeIntermediate wch sm).
Proof.
  wf_start sm Hs. unfold _EventEscapeIntermediate. wf_branches Hs Hw.
  eapply wf_at_state; eauto with wf.
Qed.

(** Collecting a parameter, a sub parameter or an intermediate. *)
Lemma wf_param_enter s s' wch (sm : SM) :
  wf_at s sm -> collecting s = true -> plain s' = true ->
  _isNumericParamValue wch || _isParameterDelimiter wch = true ->
  parser_wf ((_ActionParam wch sm) <| _state := s' |>).
Proof. intros. apply wf_set_state. by eapply wf_ActionParam. Qed.

Lemma wf_param_stay s wch (sm : SM) :
  _state sm = s -> wf_at s sm -> collecting s = true -> plain s = true ->
  _isNumericParamValue wch || _isParameterDelimiter wch = true ->
  parser_wf (_ActionParam wch sm).
Proof.
  intros Hs. intros. apply (wf_at_state s); [by rewrite state_ActionParam|].
  by eapply wf_ActionParam.
Qed.

Lemma wf_subparam_enter s wch (sm : SM) :
  wf_at s sm -> collecting s = true -> _isSubParameterDelimiter wch = true ->
  parser_wf (_EnterCsiSubParam (_ActionSubParam wch sm)).
Proof.
  intros Hw Hc Hd. apply wf_set_state. eapply wf_ActionSubParam; try done.
  - rewrite Hd. apply orb_true_r.
  - by rewrite Hd.
Qed.

Lemma wf_subparam_stay wch (sm : SM) :
  _state sm = CsiSubParam -> wf_at CsiSubParam sm ->
  _isNumericParamValue wch || _isSubParameterDelimiter wch = true ->
  parser_wf (_ActionSubParam wch sm).
Proof.
  intros Hs Hw Hc. apply (wf_at_state CsiSubParam); [by rewrite state_ActionSubParam|].
  by apply (wf_ActionSubParam CsiSubParam).
Qed.

Lemma wf_collect_enter s s' wch (sm : SM) :
  wf_at s sm -> collecting s = true -> plain s' = true ->
  _isIntermediate wch || _isCsiPrivateMarker wch = true ->
  parser_wf ((_ActionCollect wch sm) <| _state := s' |>).
Proof.
  intros Hw Hc Hp Hi. eapply wf_goto; [|done|done]. apply wf_ActionCollect; [|done].
  apply orb_prop in Hi as [Hi|Hi]; auto with wf.
Qed.

Lemma wf_collect_stay s wch (sm : SM) :
  _state sm = s -> wf_at s sm -> _isIntermediate wch = true ->
  parser_wf (_ActionCollect wch sm).
Proof. intros. eapply wf_at_state; eauto with wf. Qed.

Lemma orb_l b c : b = true -> b || c = true.
Proof. by intros ->. Qed.
Lemma orb_r b c : c = true -> b || c = true.
Proof. intros ->. apply orb_true_r. Qed.
Hint Resolve orb_l orb_r wf_subparam_enter wf_subparam_stay wf_param_stay wf_collect_stay : wf.

Ltac wf_collects :=
  first [ eapply wf_collect_enter | eapply wf_param_enter ]; by eauto with wf.

Lemma wf_EventCsiEntry wch (sm : SM) :
  _state sm = CsiEntry -> parser_wf sm -> parser_wf (_EventCsiEntry runCallback wch sm).
Proof. wf_start sm Hs. unfold _EventCsiEntry. wf_branches Hs Hw; wf_collects. Qed.

Lemma wf_EventCsiIntermediate wch (sm : SM) :
  _state sm = CsiIntermediate -> parser_wf sm ->
  parser_wf (_EventCsiIntermediate runCallback wch sm).
Proof. wf_start sm Hs. unfold _EventCsiIntermediate. wf_branches Hs Hw; wf_collects. Qed.

Lemma wf_EventCsiIgnore wch (sm : SM) :
  _state sm = CsiIgnore -> parser_wf sm -> parser_wf (_EventCsiIgnore wch sm).
Proof. wf_start sm Hs. unfold _EventCsiIgnore. wf_branches Hs Hw. Qed.

Lemma wf_EventCsiParam wch (sm : SM) :
  _state sm = CsiParam -> parser_wf sm -> parser_wf (_EventCsiParam runCallback wch sm).
Proof. wf_start sm Hs. unfold _EventCsiParam. wf_branches Hs Hw; wf_collects. Qed.

Lemma wf_EventCsiSubParam wch (sm : SM) :
  _state sm = CsiSubParam -> parser_wf sm -> parser_wf (_EventCsiSubParam runCallback wch sm).
Proof. wf_start sm Hs. unfold _EventCsiSubParam. wf_branches Hs Hw; wf_collects. Qed.

Lemma wf_EventOscParam wch (sm : SM) :
  _state sm = OscParam -> parser_wf sm -> parser_wf (_EventOscParam wch sm).
Proof.
  wf_start sm Hs. unfold _EventOscParam. wf_branches Hs Hw.
  apply (wf_at_state OscParam); [done|]. destruct Hat. split; try done.
  by apply AccumulateTo_bounds.
Qed.

Lemma wf_EventOscString wch (sm : SM) :
  _state sm = OscString -> parser_wf sm -> parser_wf (_EventOscString wch sm).
Proof.
  wf_start sm Hs. unfold _EventOscString. wf_branches Hs Hw.
  apply (wf_at_state OscString); [done|]. by destruct Hat.
Qed.

Lemma wf_EventOscTermination wch (sm : SM) :
  _state sm = OscTermination -> parser_wf sm -> parser_wf (_EventOscTermination wch sm).
Proof.
  wf_start sm Hs. unfold _EventOscTermination. wf_branches Hs Hw.
  apply wf_EventEscape; [done|]. by apply wf_cleared.
Qed.

Lemma wf_EventSs3Entry wch (sm : SM) :
  _state sm = Ss3Entry -> parser_wf sm -> parser_wf (_EventSs3Entry wch sm).
Proof. wf_start sm Hs. unfold _EventSs3Entry. wf_branches Hs Hw; wf_collects. Qed.

Lemma wf_EventSs3Param wch (sm : SM) :
  _state sm = Ss3Param -> parser_wf sm -> parser_wf (_EventSs3Param wch sm).
Proof. wf_start sm Hs. unfold _EventSs3Param. wf_branches Hs Hw; wf_collects. Qed.

Lemma wf_EventVt52Param wch (sm : SM) :
  wide wch -> _state sm = Vt52Param -> parser_wf sm -> parser_wf (_EventVt52Param wch sm).
Proof.
  intros Hwch. wf_start sm Hs. unfold _EventVt52Param. cbv zeta.
  assert (Hg : wf_at Ground (sm <| _parameters := _parameters sm ++ [wch] |>)).
  { destruct Hat. split; try done. by intros [|]. }
  wf_branches Hs Hw. apply (wf_at_state Vt52Param); [done|].
  destruct Hat as [W1 W2 W3 W4 W5 W6]. destruct (W3 eq_refl) as [Hl Hf].
  split; try done; [by intros [|]|]. intros _. cbn in *.
  rewrite length_app in *. cbn in *. apply Nat.eqb_neq in Hb1. split; [lia|].
  apply Forall_app; split; [done|]. apply Forall_singleton.
  unfold wide, MAX_PARAMETER_VALUE in *. lia.
Qed.

Lemma wf_EventDcsEntry wch (sm : SM) :
  _state sm = DcsEntry -> parser_wf sm -> parser_wf (_EventDcsEntry wch sm).
Proof. wf_start sm Hs. unfold _EventDcsEntry. wf_branches Hs Hw; wf_collects. Qed.

Lemma wf_EventDcsIntermediate wch (sm : SM) :
  _state sm = DcsIntermediate -> parser_wf sm -> parser_wf (_EventDcsIntermediate wch sm).
Proof. wf_start sm Hs. unfold _EventDcsIntermediate. wf_branches Hs Hw. Qed.

Lemma wf_EventDcsParam wch (sm : SM) :
  _state sm = DcsParam -> parser_wf sm -> parser_wf (_EventDcsParam wch sm).
Proof.
  wf_start sm Hs. unfold _EventDcsParam, seq_step.
  replace ((if _isC0Code wch then _ActionIgnore else
           if _isDelete wch then _ActionIgnore else fun sm => sm) sm) with sm
    by (by destruct (_isC0Code wch), (_isDelete wch)).
  wf_branches Hs Hw; wf_collects.
Qed.

Lemma wf_call_handler wch (sm : SM) :
  parser_wf sm -> parser_wf (fst (call_dcsStringHandler wch sm)).
Proof.
  pose proof (core_call_handler wch sm) as Hc. unfold parser_wf. intros Hw.
  replace (_state (fst (call_dcsStringHandler wch sm))) with (_state sm)
    by (symmetry; exact (f_equal c_state Hc)).
  eapply wf_at_core; [|done]. by symmetry.
Qed.

Lemma wf_EventDcsPassThrough wch (sm : SM) :
  _state sm = DcsPassThrough -> parser_wf sm -> parser_wf (_EventDcsPassThrough wch sm).
Proof.
  wf_start sm Hs. unfold _EventDcsPassThrough. step_if; [|done].
  pose proof (wf_call_handler wch sm Hw) as Hh. pose proof (core_call_handler wch sm) as Hc.
  destruct (call_dcsStringHandler wch sm) as [sm' []]; [done|]. cbn in *.
  apply wf_drop_cache. eapply (wf_goto DcsPassThrough); try done.
  eapply wf_at_core; [|exact Hat]. by symmetry.
Qed.
End Events.
