(* ===== verification/ParserSafety.v ===== *)
(** * Safety of the VT parser

    Every state of the parser that can be reached through its public
    interface, with any engine and any input, is well formed. *)

From S2P Require Import Prelude VTTypes StateMachine ParserFacts.
#[local] Open Scope Z_scope.

Section Safety.
Context {E CB H : Type} `{Eng : !IStateMachineEngine E CB H}.
Abbreviation SM := (StateMachine E CB H).

Lemma wf_ActionInterrupt (sm : SM) : parser_wf sm -> wf_at Ground (_ActionInterrupt sm).
Proof.
  intros Hw. unfold _ActionInterrupt.
  destruct (_state sm) eqn:Hs; try (by eapply wf_at_ground; exact Hw).
  pose proof (wf_call_handler ESC sm Hw) as Hh. apply wf_at_ground in Hh.
  destruct Hh as [W1 W2 W3 W4 W5 W6]. by split.
Qed.

Section WithCallback.
Variable runCallback : CB -> SM -> SM.
Hypothesis runCallback_wf : forall cb sm, parser_wf sm -> parser_wf (runCallback cb sm).

Lemma wf_dispatch_event wch (sm : SM) :
  wide wch -> parser_wf sm -> parser_wf (dispatch_event runCallback wch sm).
Proof.
  intros Hc Hw. unfold dispatch_event. destruct (_state sm) eqn:Hs;
    auto using wf_EventGround, wf_EventEscape, wf_EventEscapeIntermediate, wf_EventCsiEntry,
      wf_EventCsiIntermediate, wf_EventCsiIgnore, wf_EventCsiParam, wf_EventCsiSubParam,
      wf_EventOscParam, wf_EventOscString, wf_EventOscTermination, wf_EventSs3Entry,
      wf_EventSs3Param, wf_EventVt52Param, wf_EventDcsEntry, wf_EventDcsIntermediate,
      wf_EventDcsParam, wf_EventDcsPassThrough.
Qed.

Lemma wf_processCharacter_step rec wch (sm : SM) :
  (forall w sm, wide w -> parser_wf sm -> parser_wf (rec w sm)) ->
  wide wch -> parser_wf sm -> parser_wf (processCharacter_step runCallback rec wch sm).
Proof.
  intros Hrec Hc Hw. unfold processCharacter_step, seq_step. cbv zeta.
  destruct (_ && negb _).
  { eapply wf_EnterGround, wf_at_safely, wf_ActionInterrupt, Hw. }
  destruct (_isC1ControlCharacter wch).
  { destruct (_parserMode_AcceptC1 sm); [|done]. apply Hrec; [|apply Hrec; [|done]].
    - unfold wide, _c1To7Bit, u16. apply Z.mod_pos_bound. lia.
    - by unfold wide, ESC. }
  destruct (_ && negb _); [by apply wf_cleared|]. by apply wf_dispatch_event.
Qed.

Lemma wf_ProcessCharacter wch (sm : SM) :
  wide wch -> parser_wf sm -> parser_wf (ProcessCharacter runCallback wch sm).
Proof. intros. apply wf_processCharacter_step; try done. intros. by apply wf_processCharacter_step. Qed.

Lemma wf_processString_vt size i rest (sm : SM) :
  Forall wide rest -> parser_wf sm ->
  let '(_, rest', sm') := processString_vt runCallback size i rest sm in
  Forall wide rest' /\ parser_wf sm'.
Proof.
  intros Hf. revert i sm. induction Hf as [|c rest Hc Hf IH]; intros i sm Hw; [done|].
  cbn. set (sm1 := ProcessCharacter _ _ _).
  assert (Hw1 : parser_wf sm1).
  { apply wf_ProcessCharacter; [done|]. destruct Hw. by split. }
  destruct rest as [|c' rest]; [done|]. destruct (isState Ground sm1); [done|]. by apply IH.
Qed.

Lemma wf_processString_loop fuel size i rest (sm : SM) :
  Forall wide rest -> parser_wf sm ->
  parser_wf (processString_loop runCallback fuel size i rest sm).
Proof.
  revert i rest sm. induction fuel as [|fuel IH]; intros i rest sm Hf Hw; [done|].
  cbn [processString_loop]. destruct rest as [|c rest]; [done|].
  set (n := FindActionableControlCharacter (c :: rest)). cbv zeta.
  set (p := if (n =? 0)%nat then _ else _).
  assert (Hp : parser_wf (snd p)).
  { unfold p. destruct (n =? 0)%nat; cbn [snd].
    - destruct Hw. by split.
    - set (sm1 := _ActionPrintString _ _).
      assert (Hw1 : parser_wf sm1) by (apply wf_safely; destruct Hw; by split).
      destruct Hw1. by split. }
  destruct p as [i' sm'].
  assert (Hd : Forall wide (drop n (c :: rest))) by (by apply Forall_drop).
  destruct (drop n (c :: rest)) as [|c' rest']; [done|].
  pose proof (wf_processString_vt size i' (c' :: rest') sm' Hd Hp) as Hv.
  destruct (processString_vt _ _ _ _ _) as [[i2 rest2] sm2]. destruct Hv. by apply IH.
Qed.

Lemma wf_appendToCachedSequence run (sm : SM) :
  parser_wf sm -> parser_wf (appendToCachedSequence run sm).
Proof. intros []. by split. Qed.

Lemma wf_processString_tail (sm : SM) : parser_wf sm -> parser_wf (processString_tail sm).
Proof.
  intros Hw. unfold processString_tail. cbv zeta. destruct (isState Ground sm); [done|].
  destruct (_isEngineForInput sm).
  - destruct (_ && _); [|by apply wf_appendToCachedSequence].
    unfold seq_step. destruct (length _ =? 1)%nat.
    + eapply wf_EnterGround, wf_at_safely. by apply (wf_EnterGround (_state sm)).
    + eapply wf_EnterGround, wf_EscDispatch, (wf_clear Escape); done.
  - destruct (_ || _); [done|]. by apply wf_appendToCachedSequence.
Qed.

Lemma wf_ProcessString s (sm : SM) :
  Forall wide s -> parser_wf sm -> parser_wf (ProcessString runCallback s sm).
Proof.
  intros Hf Hw. unfold ProcessString. cbv zeta. apply wf_processString_tail.
  set (sm1 := setter _ _ _).
  assert (Hw1 : parser_wf sm1) by (destruct Hw; by split).
  destruct (isState Ground sm1); [by apply wf_processString_loop|].
  destruct s as [|c s]; [done|].
  pose proof (wf_processString_vt (length (c :: s)) 0 (c :: s) sm1 Hf Hw1) as Hv.
  destruct (processString_vt _ _ _ _ _) as [[i2 rest2] sm2]. destruct Hv.
  by apply wf_processString_loop.
Qed.
End WithCallback.

Lemma wf_new (e : E) b : parser_wf (new_StateMachine e b : SM).
Proof. by apply (wf_clear Ground). Qed.

Lemma wf_FlushToTerminal (sm : SM) : parser_wf sm -> parser_wf (fst (FlushToTerminal sm)).
Proof.
  pose proof (core_FlushToTerminal_fuel flushFuel sm) as Hc. unfold parser_wf, FlushToTerminal.
  intros Hw. replace (_state (fst (FlushToTerminal_fuel flushFuel sm))) with (_state sm)
    by (symmetry; exact (f_equal c_state Hc)).
  eapply wf_at_core; [|done]. by symmetry.
Qed.

(** ** Reachability

    [reachable cb sm]: [sm] results from a new machine by calls of its
    public interface, where [cb] runs the callbacks of its engine. *)

Inductive reachable (cb : CB -> SM -> SM) : SM -> Prop :=
| reach_new e b : reachable cb (new_StateMachine e b)
| reach_string s sm : Forall wide s -> reachable cb sm -> reachable cb (ProcessString cb s sm)
| reach_char c sm : wide c -> reachable cb sm -> reachable cb (ProcessCharacter cb c sm)
| reach_flush sm : reachable cb sm -> reachable cb (fst (FlushToTerminal sm))
| reach_reset sm : reachable cb sm -> reachable cb (ResetState sm)
| reach_mode m b sm : reachable cb sm -> reachable cb (SetParserMode m b sm)
| reach_inject t sm : reachable cb sm -> reachable cb (InjectSequence t sm)
| reach_callback f sm : reachable cb sm -> reachable cb (OnCsiComplete f sm).

(** C1: in every reachable state of the parser the parameter vectors encode
    at most 32 parameters of at most 6 sub parameters each, all of them
    omitted or within 0..65535; the byte-sized sub parameter ranges have not
    wrapped and cut the sub parameters into consecutive slices; the state
    that appends a digit to a sub parameter has one; the VT52 parameter
    state has at most one parameter; the OSC number is in range; the
    identifier has room for a final character; and the DCS pass-through
    state has a string handler to call. *)
Theorem parser_safe (cb : CB -> SM -> SM) (sm : SM) :
  (forall f sm, parser_wf sm -> parser_wf (cb f sm)) -> reachable cb sm -> parser_wf sm.
Proof.
  intros Hcb Hr. induction Hr; auto using wf_new, wf_ProcessString, wf_ProcessCharacter,
    wf_FlushToTerminal; try (by destruct IHHr; split).
  - eapply wf_EnterGround; exact IHHr.
  - destruct IHHr, m; by split.
Qed.
End Safety.
