(* ===== verification/ParserRoundtrip.v ===== *)
(** * What the parser decodes

    Control sequences, operating system commands and device control strings
    printed in their canonical form are decoded to exactly what was printed,
    with one dispatch, for any engine. *)

From S2P Require Import Prelude VTTypes StateMachine ParserFacts.
#[local] Open Scope Z_scope.

(** ** Decimal numbers *)

Fixpoint digits_aux (fuel : nat) (n : Z) (acc : list Z) : list Z :=
  match fuel with
  | O => acc
  | S fuel =>
      let acc := (0x30 + n mod 10) :: acc in
      if n <? 10 then acc else digits_aux fuel (n / 10) acc
  end.

(** The decimal text of [n]; five digits hold every 16-bit value. *)
Definition digits (n : Z) : list Z := digits_aux 5 n [].

(** The value of a digit string, and the value the parser keeps. *)
Definition decimal (ds : list Z) : Z := fold_left (fun v c => v * 10 + (c - 0x30)) ds 0.
Definition accumulate (v : Z) (ds : list Z) : Z := fold_left (fun v c => _AccumulateTo c v) ds v.

Definition is_digit (c : Z) : Prop := _isNumericParamValue c = true.

Lemma AccumulateTo_min c v :
  _AccumulateTo c v = Z.min MAX_PARAMETER_VALUE (v * 10 + (c - 0x30)).
Proof. unfold _AccumulateTo, MAX_PARAMETER_VALUE. bool_cases; lia. Qed.

Lemma accumulate_saturates ds v :
  Forall is_digit ds -> 0 <= v ->
  accumulate (Z.min MAX_PARAMETER_VALUE v) ds
  = Z.min MAX_PARAMETER_VALUE (fold_left (fun v c => v * 10 + (c - 0x30)) ds v).
Proof.
  intros Hd. revert v. induction Hd as [|c ds Hc _ IH]; intros v Hv; [done|].
  cbn [fold_left]. rewrite <- IH.
  - unfold accumulate. cbn [fold_left]. rewrite AccumulateTo_min. unfold is_digit in Hc.
    autounfold with chars in Hc. f_equal. unfold MAX_PARAMETER_VALUE. lia.
  - unfold is_digit in Hc. autounfold with chars in Hc. lia.
Qed.

Lemma accumulate_decimal ds :
  Forall is_digit ds -> accumulate 0 ds = Z.min MAX_PARAMETER_VALUE (decimal ds).
Proof. intros Hd. exact (accumulate_saturates ds 0 Hd (Z.le_refl 0)). Qed.

Lemma digits_aux_digit fuel n acc :
  0 <= n -> Forall is_digit acc -> Forall is_digit (digits_aux fuel n acc).
Proof.
  revert n acc. induction fuel as [|fuel IH]; intros n acc Hn Ha; [done|]. cbn.
  assert (is_digit (0x30 + n mod 10)).
  { unfold is_digit. autounfold with chars. pose proof (Z.mod_pos_bound n 10). lia. }
  destruct (n <? 10); [by constructor|]. apply IH; [|by constructor].
  apply Z.div_pos; lia.
Qed.

Lemma digits_digit n : 0 <= n -> Forall is_digit (digits n).
Proof. intros. by apply digits_aux_digit. Qed.

Lemma digits_aux_decimal fuel n acc v0 :
  0 <= n < 10 ^ Z.of_nat fuel -> (0 < fuel)%nat -> v0 = 0 ->
  fold_left (fun v c => v * 10 + (c - 0x30)) (digits_aux fuel n acc) v0
  = fold_left (fun v c => v * 10 + (c - 0x30)) acc n.
Proof.
  intros Hn Hf ->. revert n acc Hn. induction fuel as [|fuel IH]; intros n acc Hn; [lia|].
  cbn [digits_aux]. destruct (n <? 10) eqn:Hlt.
  - cbn. f_equal. rewrite Z.mod_small by lia. lia.
  - destruct fuel as [|fuel]; [cbn in Hn; lia|].
    assert (Hp : 10 ^ Z.of_nat (S (S fuel)) = 10 * 10 ^ Z.of_nat (S fuel)).
    { rewrite (Nat2Z.inj_succ (S fuel)), Z.pow_succ_r by lia. lia. }
    rewrite IH; [|lia|].
    + cbn. f_equal. pose proof (Z.div_mod n 10). lia.
    + split; [apply Z.div_pos; lia|]. apply Z.div_lt_upper_bound; lia.
Qed.

Lemma digits_decimal n : 0 <= n < 100000 -> decimal (digits n) = n.
Proof. intros Hn. unfold decimal, digits.
  rewrite digits_aux_decimal; [done| |lia|done].
  change (10 ^ Z.of_nat 5) with 100000. lia.
Qed.

Lemma digits_accumulate n : 0 <= n <= MAX_PARAMETER_VALUE -> accumulate 0 (digits n) = n.
Proof.
  unfold MAX_PARAMETER_VALUE. intros Hn. rewrite accumulate_decimal by (apply digits_digit; lia).
  rewrite digits_decimal by lia. unfold MAX_PARAMETER_VALUE. lia.
Qed.

Lemma digits_ne n : digits n <> [].
Proof.
  unfold digits. cbn [digits_aux]. repeat case_match; done.
Qed.

(** ** Printed parameter lists *)

Definition SEMI : Z := 0x3B.
Definition COLON : Z := 0x3A.

Definition encode_value (v : Z) : list Z := if v <? 0 then [] else digits v.

Definition encode_subs (s : list Z) : list Z := concat (map (fun v => COLON :: encode_value v) s).

Definition encode_group (g : Z * list Z) : list Z := encode_value (fst g) ++ encode_subs (snd g).

Fixpoint encode_groups (gs : ParamGroups) : list Z :=
  match gs with
  | [] => []
  | [g] => encode_group g
  | g :: gs' => encode_group g ++ SEMI :: encode_groups gs'
  end.

(** ** The parameter grammar as an automaton

    The states that collect parameters, on the abstract parameter groups;
    a transition that would exceed a limit is undefined. *)

Definition params_trans (c : Z) (q : VTStates * ParamGroups) : option (VTStates * ParamGroups) :=
  let '(st, gs) := q in
  let param :=
    if _isParameterDelimiter c && (Z.of_nat (length (groups_ensure gs)) >=? MAX_PARAMETER_COUNT)
    then None else Some (CsiParam, groups_param c gs) in
  let subdelim :=
    if Z.of_nat (length (last_subs gs)) >=? MAX_SUBPARAMETER_COUNT
    then None else Some (CsiSubParam, groups_subparam c gs) in
  match st with
  | CsiEntry | CsiParam =>
      if _isNumericParamValue c || _isParameterDelimiter c then param
      else if _isSubParameterDelimiter c then subdelim
      else None
  | CsiSubParam =>
      if _isNumericParamValue c
      then match last_subs gs with [] => None | _ => Some (CsiSubParam, groups_subparam c gs) end
      else if _isSubParameterDelimiter c then subdelim
      else if _isParameterDelimiter c then param
      else None
  | _ => None
  end.

Fixpoint params_run (s : list Z) (q : VTStates * ParamGroups) : option (VTStates * ParamGroups) :=
  match s with
  | [] => Some q
  | c :: s' => match params_trans c q with Some q' => params_run s' q' | None => None end
  end.

Lemma params_run_app s t q q' :
  params_run s q = Some q' -> params_run (s ++ t) q = params_run t q'.
Proof.
  revert q. induction s as [|c s IH]; intros q; cbn; [by intros [= ->]|].
  destruct (params_trans c q); [apply IH|done].
Qed.

Lemma digit_class c :
  is_digit c -> _isParameterDelimiter c = false /\ _isSubParameterDelimiter c = false.
Proof. unfold is_digit. autounfold with chars. lia. Qed.

Lemma run_param_digits ds gs v :
  Forall is_digit ds -> ds <> [] ->
  params_run ds (CsiParam, gs ++ [(v, [])])
  = Some (CsiParam, gs ++ [(accumulate (value_or v 0) ds, [])]).
Proof.
  intros Hd Hne.
  assert (Hens : forall g, groups_ensure (gs ++ [g]) = gs ++ [g]) by (by destruct gs).
  assert (Hgo : forall v, 0 <= v -> params_run ds (CsiParam, gs ++ [(v, [])])
                 = Some (CsiParam, gs ++ [(accumulate v ds, [])])).
  { clear Hne v. induction Hd as [|c ds Hc Hd IH]; intros v Hv; [done|].
    destruct (digit_class c Hc) as [Hc1 _]. cbn. unfold is_digit in Hc. rewrite Hc, Hc1. cbn.
    unfold groups_param. rewrite Hens, Hc1, back_snoc, set_back_snoc. cbn.
    assert (Hvo : value_or v 0 = v) by (unfold value_or; bool_cases; lia). rewrite Hvo.
    rewrite IH; [done|]. autounfold with chars in Hc. rewrite AccumulateTo_min.
    unfold MAX_PARAMETER_VALUE. lia. }
  destruct Hd as [|c ds Hc Hd]; [done|].
  specialize (Hgo (value_or v 0) ltac:(unfold value_or; bool_cases; lia)).
  destruct (digit_class c Hc) as [Hc1 _]. cbn in *. unfold is_digit in Hc. rewrite Hc, Hc1 in *.
  cbn in *. unfold groups_param in *. rewrite Hens, Hc1, back_snoc, set_back_snoc in *. cbn in *.
  replace (value_or (value_or v 0) 0) with (value_or v 0) in Hgo
    by (unfold value_or; bool_cases; lia). done.
Qed.

Lemma groups_ensure_snoc (gs : ParamGroups) g : groups_ensure (gs ++ [g]) = gs ++ [g].
Proof. by destruct gs. Qed.

Lemma last_subs_snoc (gs : ParamGroups) g : last_subs (gs ++ [g]) = snd g.
Proof. unfold last_subs. by rewrite back_snoc. Qed.

Lemma run_sub_digits ds gs p s v :
  Forall is_digit ds -> 0 <= v ->
  params_run ds (CsiSubParam, gs ++ [(p, s ++ [v])])
  = Some (CsiSubParam, gs ++ [(p, s ++ [accumulate v ds])]).
Proof.
  intros Hd. revert v. induction Hd as [|c ds Hc Hd IH]; intros v Hv; [done|].
  destruct (digit_class c Hc) as [_ Hc2]. cbn. unfold is_digit in Hc. rewrite Hc, last_subs_snoc.
  cbn [snd]. destruct (s ++ [v]) as [|x y] eqn:Hsv; [by destruct s|]. rewrite <- Hsv. clear x y Hsv.
  unfold groups_subparam. rewrite groups_ensure_snoc, Hc2, back_snoc, set_back_snoc. cbn.
  rewrite back_snoc, set_back_snoc.
  replace (value_or v 0) with v by (unfold value_or; bool_cases; lia).
  rewrite IH; [done|]. autounfold with chars in Hc. rewrite AccumulateTo_min.
  unfold MAX_PARAMETER_VALUE. lia.
Qed.

(** The first digit of an omitted value acts on zero. *)
Lemma run_sub_value gs p s v :
  param_value v ->
  params_run (encode_value v) (CsiSubParam, gs ++ [(p, s ++ [VTParameter_default])])
  = Some (CsiSubParam, gs ++ [(p, s ++ [v])]).
Proof.
  unfold param_value, encode_value, MAX_PARAMETER_VALUE. intros Hv.
  destruct (v <? 0) eqn:Hlt; [cbn; by replace v with (-1) by lia|].
  assert (Hd : Forall is_digit (digits v)) by (apply digits_digit; lia).
  pose proof (run_sub_digits (digits v) gs p s 0 Hd (Z.le_refl 0)) as Hr.
  rewrite digits_accumulate in Hr by (unfold MAX_PARAMETER_VALUE; lia). rewrite <- Hr.
  pose proof (digits_ne v). destruct Hd as [|c ds Hc Hd]; [done|].
  destruct (digit_class c Hc) as [_ Hc2]. cbn. unfold is_digit in Hc. rewrite Hc, !last_subs_snoc.
  cbn [snd]. unfold groups_subparam.
  rewrite !groups_ensure_snoc, Hc2, !back_snoc, !set_back_snoc. cbn.
  rewrite !back_snoc, !set_back_snoc. by destruct (s ++ [-1]) eqn:?, (s ++ [0]) eqn:?; destruct s.
Qed.

Lemma run_colon st gs p s :
  st = CsiParam \/ st = CsiSubParam -> Z.of_nat (length s) < MAX_SUBPARAMETER_COUNT ->
  params_trans COLON (st, gs ++ [(p, s)])
  = Some (CsiSubParam, gs ++ [(p, s ++ [VTParameter_default])]).
Proof.
  intros Hst Hl. unfold params_trans. rewrite last_subs_snoc. cbn [snd].
  assert ((Z.of_nat (length s) >=? MAX_SUBPARAMETER_COUNT) = false) as Hge by lia.
  rewrite Hge. cbn. unfold groups_subparam.
  rewrite groups_ensure_snoc, back_snoc, set_back_snoc. cbn [fst snd]. rewrite Hge.
  by destruct Hst as [-> | ->].
Qed.

Lemma run_subs subs st gs p s :
  st = CsiParam \/ st = CsiSubParam -> Forall param_value subs ->
  Z.of_nat (length s + length subs) <= MAX_SUBPARAMETER_COUNT ->
  exists st', (st' = CsiParam \/ st' = CsiSubParam) /\
    params_run (encode_subs subs) (st, gs ++ [(p, s)]) = Some (st', gs ++ [(p, s ++ subs)]).
Proof.
  intros Hst Hf. revert st s Hst. induction Hf as [|v subs Hv Hf IH]; intros st s Hst Hl.
  { exists st. by rewrite app_nil_r. }
  cbn [length] in Hl.
  destruct (IH CsiSubParam (s ++ [v])) as (st' & Hst' & Hr); [by right|rewrite length_app; cbn; lia|].
  exists st'. split; [done|]. unfold encode_subs. cbn [map concat].
  rewrite <- app_comm_cons. cbn [params_run].
  rewrite run_colon by (try done; lia).
  rewrite (params_run_app _ _ _ _ (run_sub_value gs p s v Hv)).
  rewrite <- app_assoc in Hr. exact Hr.
Qed.

Lemma run_group g gs :
  param_value (fst g) -> Z.of_nat (length (snd g)) <= MAX_SUBPARAMETER_COUNT ->
  Forall param_value (snd g) ->
  exists st', (st' = CsiParam \/ st' = CsiSubParam) /\
    params_run (encode_group g) (CsiParam, gs ++ [(VTParameter_default, [])])
    = Some (st', gs ++ [g]).
Proof.
  destruct g as [p subs]. cbn. intros Hp Hl Hf.
  destruct (run_subs subs CsiParam gs p [] ltac:(by left) Hf Hl) as (st' & Hst & Hr).
  exists st'. split; [done|]. unfold encode_group. cbn [fst snd].
  assert (Hv : params_run (encode_value p) (CsiParam, gs ++ [(VTParameter_default, [])])
               = Some (CsiParam, gs ++ [(p, [])])).
  { unfold encode_value, param_value, MAX_PARAMETER_VALUE in *.
    destruct (p <? 0) eqn:Hlt; [cbn; by replace p with (-1) by lia|].
    rewrite run_param_digits; [|apply digits_digit; lia|apply digits_ne].
    change (value_or VTParameter_default 0) with 0.
    by rewrite digits_accumulate by (unfold MAX_PARAMETER_VALUE; lia). }
  by rewrite (params_run_app _ _ _ _ Hv).
Qed.

Lemma run_semi st gs :
  st = CsiParam \/ st = CsiSubParam -> gs <> [] -> Z.of_nat (length gs) < MAX_PARAMETER_COUNT ->
  params_trans SEMI (st, gs) = Some (CsiParam, gs ++ [(VTParameter_default, [])]).
Proof.
  intros Hst Hne Hl. unfold params_trans.
  assert (He : groups_ensure gs = gs) by (by destruct gs).
  assert ((Z.of_nat (length gs) >=? MAX_PARAMETER_COUNT) = false) as Hge by lia.
  unfold groups_param. rewrite He, Hge. cbn. by destruct Hst as [-> | ->].
Qed.

Lemma run_groups gs done :
  Forall (fun g => param_value (fst g) /\ Z.of_nat (length (snd g)) <= MAX_SUBPARAMETER_COUNT /\
                   Forall param_value (snd g)) gs ->
  gs <> [] -> Z.of_nat (length done + length gs) <= MAX_PARAMETER_COUNT ->
  exists st', (st' = CsiParam \/ st' = CsiSubParam) /\
    params_run (encode_groups gs) (CsiParam, done ++ [(VTParameter_default, [])])
    = Some (st', done ++ gs).
Proof.
  intros Hf. revert done. induction Hf as [|g gs (Hv & Hn & Hs) Hf IH]; [done|].
  intros dn _ Hl. destruct (run_group g dn Hv Hn Hs) as (st & Hst & Hr).
  destruct gs as [|g' gs]; [by exists st|].
  cbn [length] in Hl.
  destruct (IH (dn ++ [g])) as (st' & Hst' & Hr'); [done|rewrite length_app; cbn; lia|].
  exists st'. split; [done|]. change (encode_groups (g :: g' :: gs))
    with (encode_group g ++ SEMI :: encode_groups (g' :: gs)).
  rewrite (params_run_app _ _ _ _ Hr). cbn [params_run].
  rewrite run_semi; [|done|by destruct dn|rewrite length_app; cbn; lia].
  rewrite Hr'. by rewrite <- app_assoc.
Qed.

(** From the entry state the first character creates the first parameter. *)
Lemma run_entry s :
  s <> [] -> params_run s (CsiEntry, []) = params_run s (CsiParam, [(VTParameter_default, [])]).
Proof. by destruct s. Qed.

Lemma run_encode gs :
  groups_ok gs -> encode_groups gs <> [] ->
  exists st', (st' = CsiParam \/ st' = CsiSubParam) /\
    params_run (encode_groups gs) (CsiEntry, []) = Some (st', gs).
Proof.
  intros [Hl Hf] Hne. rewrite run_entry by done.
  apply (run_groups gs []); [done| |done]. by intros ->.
Qed.

(** ** The parser implements the automaton *)

Section Refinement.
Context {E CB H : Type} `{Eng : !IStateMachineEngine E CB H}.
Abbreviation SM := (StateMachine E CB H).
Variable runCallback : CB -> SM -> SM.

(** Characters processed one at a time. *)
Definition feed (s : list Z) (sm : SM) : SM :=
  fold_left (fun sm c => ProcessCharacter runCallback c sm) s sm.

Lemma feed_app s t (sm : SM) : feed (s ++ t) sm = feed t (feed s sm).
Proof. apply fold_left_app. Qed.

Lemma feed_cons c s (sm : SM) : feed (c :: s) sm = feed s (ProcessCharacter runCallback c sm).
Proof. done. Qed.

(** Neither CAN, SUB, ESC nor a C1 control. *)
Definition ordinary (c : Z) : bool :=
  negb (c =? CAN) && negb (c =? SUB) && negb (_isEscape c) && negb (_isC1ControlCharacter c).

Lemma ProcessCharacter_ordinary c (sm : SM) :
  ordinary c = true -> ProcessCharacter runCallback c sm = dispatch_event runCallback c sm.
Proof.
  unfold ordinary. rewrite !andb_true_iff, !negb_true_iff. intros [[[H1 H2] H3] H4].
  unfold ProcessCharacter, processCharacter_step. by rewrite H1, H2, H3, H4.
Qed.

(** A recursive call of [ProcessCharacter] is never itself on a C1 control. *)
Lemma ProcessCharacter_unfold c (sm : SM) :
  ProcessCharacter runCallback c sm
  = processCharacter_step runCallback (ProcessCharacter runCallback) c sm.
Proof.
  unfold ProcessCharacter at 1. unfold processCharacter_step at 1.
  unfold processCharacter_step at 3. cbv zeta.
  destruct (_ && negb _); [done|]. destruct (_isC1ControlCharacter c) eqn:Hc; [|done].
  destruct (_parserMode_AcceptC1 sm); [|done]. unfold seq_step.
  assert (Hrec : forall w f g (sm : SM), _isC1ControlCharacter w = false ->
            processCharacter_step runCallback f w sm = processCharacter_step runCallback g w sm).
  { intros w f g sm' Hw. unfold processCharacter_step. by rewrite Hw. }
  assert (Hw : _isC1ControlCharacter (_c1To7Bit c) = false).
  { autounfold with chars in *. unfold _c1To7Bit. rewrite u16_small by lia. lia. }
  unfold ProcessCharacter. by rewrite (Hrec ESC _ (processCharacter_step runCallback (fun _ sm => sm))),
    (Hrec (_c1To7Bit c) _ (processCharacter_step runCallback (fun _ sm => sm))) by done.
Qed.

(** Everything but the state and the parameters. *)
Definition unparam (sm : SM) : SM :=
  sm <| _state := Ground |> <| _parameters := [] |> <| _parameterLimitOverflowed := false |>
     <| _subParameters := [] |> <| _subParameterRanges := [] |>
     <| _subParameterLimitOverflowed := false |> <| _subParameterCounter := 0 |>.

Record collects (sm0 : SM) (q : VTStates * ParamGroups) (sm : SM) : Prop := {
  col_state : _state sm = fst q;
  col_ok : groups_ok (snd q);
  col_repr : params_repr (snd q) sm;
  col_over : _parameterLimitOverflowed sm = false;
  col_subover : _subParameterLimitOverflowed sm = false;
  col_rest : unparam sm = unparam sm0;
}.

Lemma unparam_ActionParam c (sm : SM) : unparam (_ActionParam c sm) = unparam sm.
Proof. unfold _ActionParam, ensure_parameter, push_parameter. repeat case_match; done. Qed.

Lemma unparam_ActionSubParam c (sm : SM) : unparam (_ActionSubParam c sm) = unparam sm.
Proof. unfold _ActionSubParam, ensure_parameter, push_parameter. repeat case_match; done. Qed.

Lemma collects_enter sm0 gs st st' (sm : SM) :
  collects sm0 (st, gs) sm -> collects sm0 (st', gs) (sm <| _state := st' |>).
Proof. intros [? ? ? ? ? Hr]. by split. Qed.

Lemma collects_param sm0 st gs c (sm : SM) :
  collects sm0 (st, gs) sm -> _isNumericParamValue c || _isParameterDelimiter c = true ->
  _isParameterDelimiter c && (Z.of_nat (length (groups_ensure gs)) >=? MAX_PARAMETER_COUNT) = false ->
  collects sm0 (st, groups_param c gs) (_ActionParam c sm).
Proof.
  intros [Hs Hok Hrep Ho Hso Hrest] Hc Hlim. cbn [fst snd] in *. split; cbn [fst snd].
  - by rewrite state_ActionParam.
  - by apply groups_param_ok.
  - by apply ActionParam_refines.
  - destruct (ensure_parameter_repr gs sm Hrep) as (Hp & _). destruct (ensure_overflow sm) as [He _].
    unfold _ActionParam. rewrite Ho, Hp, length_map.
    destruct (_isParameterDelimiter c); [cbn in Hlim; rewrite Hlim|]; cbn; by rewrite He.
  - destruct (ensure_parameter_repr gs sm Hrep) as (Hp & _). destruct (ensure_overflow sm) as [_ He].
    unfold _ActionParam. rewrite Ho, Hp, length_map.
    destruct (_isParameterDelimiter c); [cbn in Hlim; rewrite Hlim|]; cbn; by rewrite ?He.
  - by rewrite unparam_ActionParam.
Qed.

Lemma collects_subparam sm0 st gs c (sm : SM) :
  collects sm0 (st, gs) sm -> _isNumericParamValue c || _isSubParameterDelimiter c = true ->
  (_isSubParameterDelimiter c = false -> last_subs gs <> []) ->
  (_isSubParameterDelimiter c = true ->
     (Z.of_nat (length (last_subs gs)) >=? MAX_SUBPARAMETER_COUNT) = false) ->
  collects sm0 (st, groups_subparam c gs) (_ActionSubParam c sm).
Proof.
  intros [Hs Hok Hrep Ho Hso Hrest] Hc Hne Hlim. cbn [fst snd] in *.
  destruct (ensure_parameter_repr gs sm Hrep) as (_ & _ & _ & Hcnt).
  rewrite groups_ensure_last in Hcnt. destruct (ensure_overflow sm) as [He1 He2].
  split; cbn [fst snd].
  - by rewrite state_ActionSubParam.
  - by apply groups_subparam_ok.
  - by apply ActionSubParam_refines.
  - unfold _ActionSubParam. rewrite Hso, Hcnt. repeat case_match; cbn; by rewrite He1.
  - unfold _ActionSubParam. rewrite Hso, Hcnt.
    destruct (_isSubParameterDelimiter c); [rewrite Hlim by done|]; cbn; by rewrite He2.
  - by rewrite unparam_ActionSubParam.
Qed.

Lemma param_char_classes c :
  _isNumericParamValue c || _isParameterDelimiter c || _isSubParameterDelimiter c = true ->
  ordinary c = true /\ _isC0Code c = false /\ _isDelete c = false /\ _isIntermediate c = false.
Proof. unfold ordinary. autounfold with chars. lia. Qed.

(** One character of a parameter list moves the parser as the automaton
    says, and touches nothing but the state and the parameters. *)
Lemma ProcessCharacter_collects sm0 c q q' (sm : SM) :
  params_trans c q = Some q' -> collects sm0 q sm ->
  collects sm0 q' (ProcessCharacter runCallback c sm).
Proof.
  destruct q as [st gs]. intros Ht Hcol. unfold params_trans in Ht.
  assert (Hst := col_state _ _ _ Hcol). cbn in Hst.
  assert (Hc : _isNumericParamValue c || _isParameterDelimiter c
               || _isSubParameterDelimiter c = true).
  { destruct st; try done; repeat case_match; simplify_eq; rewrite ?orb_true_iff in *; tauto. }
  destruct (param_char_classes c Hc) as (Hor & Hc0 & Hd & Hi).
  rewrite ProcessCharacter_ordinary by done. unfold dispatch_event. rewrite Hst.
  destruct st; try done.
  - unfold _EventCsiEntry. rewrite Hc0, Hd, Hi.
    destruct (_isNumericParamValue c || _isParameterDelimiter c) eqn:Hnd.
    + destruct (_ && _) eqn:Hlim; simplify_eq. eapply collects_enter, collects_param; done.
    + destruct (_isSubParameterDelimiter c) eqn:Hsd; [|done].
      destruct (_ >=? _) eqn:Hge; simplify_eq.
      eapply collects_enter, collects_subparam; [done|by rewrite Hsd, orb_true_r|congruence|done].
  - unfold _EventCsiParam. rewrite Hc0, Hd.
    destruct (_isNumericParamValue c || _isParameterDelimiter c) eqn:Hnd.
    + destruct (_ && _) eqn:Hlim; simplify_eq. by apply collects_param.
    + destruct (_isSubParameterDelimiter c) eqn:Hsd; [|done].
      destruct (_ >=? _) eqn:Hge; simplify_eq.
      eapply collects_enter, collects_subparam; [done|by rewrite Hsd, orb_true_r|congruence|done].
  - unfold _EventCsiSubParam. rewrite Hc0, Hd.
    destruct (_isNumericParamValue c) eqn:Hn; cbn [orb].
    + destruct (digit_class c Hn) as [_ Hsd].
      destruct (last_subs gs) eqn:Hls; simplify_eq. apply collects_subparam; try done.
      * by rewrite Hn.
      * by rewrite Hls.
      * congruence.
    + destruct (_isSubParameterDelimiter c) eqn:Hsd.
      * destruct (_ >=? _) eqn:Hge; simplify_eq.
        apply collects_subparam; [done|by rewrite Hsd, orb_true_r|congruence|done].
      * destruct (_isParameterDelimiter c) eqn:Hpd; [|done].
        destruct (_ && _) eqn:Hlim; simplify_eq.
        eapply collects_enter, collects_param; [done|by rewrite Hpd, orb_true_r|by rewrite Hpd].
Qed.

Lemma feed_collects sm0 s q q' (sm : SM) :
  params_run s q = Some q' -> collects sm0 q sm -> collects sm0 q' (feed s sm).
Proof.
  revert q sm. induction s as [|c s IH]; intros q sm; cbn; [by intros [= ->]|].
  destruct (params_trans c q) as [q1|] eqn:Ht; [|done]. intros Hr Hc.
  by eapply IH, ProcessCharacter_collects.
Qed.
End Refinement.

(** ** Identifiers

    [VTIDBuilder] packs the characters of an identifier as
    [VTID_FromString] does, as long as they fit; and different identifiers
    of non-null bytes are different numbers. *)

Fixpoint le_value (s : list Z) : Z :=
  match s with
  | [] => 0
  | c :: s' => c + 256 * le_value s'
  end.

Definition byte (c : Z) : Prop := 0 <= c < 256.

Lemma le_value_bound s : Forall byte s -> 0 <= le_value s < 256 ^ Z.of_nat (length s).
Proof.
  unfold byte. induction 1 as [|c s Hc _ IH]; [done|]. cbn [le_value length].
  rewrite Nat2Z.inj_succ, Z.pow_succ_r by lia. lia.
Qed.

Lemma le_value_app s t :
  le_value (s ++ t) = le_value s + 256 ^ Z.of_nat (length s) * le_value t.
Proof.
  induction s as [|c s IH]; cbn [app le_value length]; [lia|].
  rewrite IH, Nat2Z.inj_succ, Z.pow_succ_r by lia. ring.
Qed.

Lemma pow256_le n m : (n <= m)%nat -> 256 ^ Z.of_nat n <= 256 ^ Z.of_nat m.
Proof. intros. apply Z.pow_le_mono_r; lia. Qed.

Lemma VTID_FromString_le s :
  Forall byte s -> (length s <= 7)%nat -> VTID_FromString s = le_value s.
Proof.
  intros Hf. induction Hf as [|c s Hc Hf IH]; [done|]. cbn [length]. intros Hl.
  cbn [VTID_FromString fold_right le_value]. fold (VTID_FromString s).
  rewrite IH by lia. unfold CHAR_BIT. rewrite Z.shiftl_mul_pow2 by lia.
  pose proof (le_value_bound s Hf). pose proof (pow256_le (length s) 6 ltac:(lia)).
  change (256 ^ Z.of_nat 6) with (2 ^ 48) in *. unfold byte in Hc.
  rewrite (u64_small (le_value s * _)) by lia. rewrite u64_small by lia. lia.
Qed.

Lemma AddIntermediate_le s b :
  Forall byte s -> 0 <= _idShift b -> _idShift b + 8 * Z.of_nat (length s) <= 48 ->
  0 <= _idAccumulator b < 2 ^ _idShift b ->
  fold_left (fun b c => AddIntermediate c b) s b
  = mkVTIDBuilder (_idAccumulator b + 2 ^ _idShift b * le_value s)
      (_idShift b + 8 * Z.of_nat (length s)).
Proof.
  intros Hf. revert b. induction Hf as [|c s Hc Hf IH]; intros b Hs Hl Ha.
  { cbn. rewrite Z.mul_0_r, !Z.add_0_r. by destruct b. }
  cbn [fold_left length le_value] in *. unfold byte in Hc.
  assert (Hadd : AddIntermediate c b
     = mkVTIDBuilder (_idAccumulator b + c * 2 ^ _idShift b) (_idShift b + 8)).
  { unfold AddIntermediate, CHAR_BIT.
    destruct (_ >=? _) eqn:Hge; [lia|]. rewrite Z.shiftl_mul_pow2 by lia.
    assert (2 ^ (_idShift b + 8) <= 2 ^ 48) by (apply Z.pow_le_mono_r; lia).
    assert (Hq : 2 ^ (_idShift b + 8) = 256 * 2 ^ _idShift b) by (rewrite Z.pow_add_r by lia; lia).
    assert (0 <= c * 2 ^ _idShift b <= 255 * 2 ^ _idShift b) by nia.
    rewrite !u64_small by (rewrite ?u64_small; lia). by destruct b. }
  rewrite Hadd, IH; cbn [_idShift _idAccumulator]; [|lia|lia|].
  - rewrite Z.pow_add_r by lia. f_equal; [ring|lia].
  - rewrite Z.pow_add_r by lia. nia.
Qed.

Lemma VTID_of_u64_small v : 0 <= v < 2 ^ 56 -> VTID_of_u64 v = v.
Proof.
  intros Hv. unfold VTID_of_u64. change VTID_mask with (Z.ones 56).
  rewrite Z.land_ones by lia. by apply Z.mod_small.
Qed.

(** The identifier of a sequence with up to six intermediates. *)
Lemma Finalize_FromString s f :
  Forall byte s -> (length s <= 6)%nat -> byte f ->
  Finalize f (fold_left (fun b c => AddIntermediate c b) s VTIDBuilder_Clear)
  = VTID_FromString (s ++ [f]).
Proof.
  intros Hs Hl Hf.
  rewrite AddIntermediate_le by (cbn; try done; lia). cbn [_idAccumulator _idShift VTIDBuilder_Clear].
  rewrite VTID_FromString_le by (try (apply Forall_app; split; [done|by apply Forall_singleton]);
    rewrite length_app; cbn; lia).
  rewrite le_value_app. cbn [le_value]. unfold Finalize. cbn [_idAccumulator _idShift].
  rewrite Z.shiftl_mul_pow2 by lia. rewrite !Z.add_0_l, Z.mul_1_l, Z.mul_0_r, Z.add_0_r.
  replace (2 ^ (8 * Z.of_nat (length s))) with (256 ^ Z.of_nat (length s))
    by (change 256 with (2 ^ 8); by rewrite <- Z.pow_mul_r by lia).
  pose proof (le_value_bound s Hs). pose proof (pow256_le (length s) 6 Hl).
  change (256 ^ Z.of_nat 6) with (2 ^ 48) in *. unfold byte in Hf.
  assert (0 <= f * 256 ^ Z.of_nat (length s) <= 255 * 256 ^ Z.of_nat (length s)) by nia.
  rewrite (u64_small (f * _)) by lia. rewrite u64_small by lia.
  rewrite VTID_of_u64_small by lia. lia.
Qed.

Definition nonnull (c : Z) : Prop := 0 < c < 256.

Lemma nonnull_bytes s : Forall nonnull s -> Forall byte s.
Proof. apply Forall_impl. unfold nonnull, byte. intros. lia. Qed.

Lemma le_value_inj s t :
  Forall nonnull s -> Forall nonnull t -> le_value s = le_value t -> s = t.
Proof.
  intros Hs. revert t.
  induction Hs as [|c s Hc Hs IH]; intros t Ht; destruct Ht as [|d t Hd Ht]; cbn [le_value];
    try done; unfold nonnull in *.
  - pose proof (le_value_bound t (nonnull_bytes t Ht)). lia.
  - pose proof (le_value_bound s (nonnull_bytes s Hs)). lia.
  - intros Heq. assert (le_value s = le_value t) by nia.
    assert (c = d) as -> by lia. f_equal. by apply IH.
Qed.

Lemma VTID_FromString_inj s t :
  Forall nonnull s -> Forall nonnull t -> (length s <= 7)%nat -> (length t <= 7)%nat ->
  VTID_FromString s = VTID_FromString t -> s = t.
Proof.
  intros Hs Ht Hls Hlt. rewrite !VTID_FromString_le by auto using nonnull_bytes.
  by apply le_value_inj.
Qed.

(** ** Control sequences *)

Section Csi.
Context {E CB H : Type} `{Eng : !IStateMachineEngine E CB H}.
Abbreviation SM := (StateMachine E CB H).
Variable runCallback : CB -> SM -> SM.
#[local] Abbreviation Feed := (feed runCallback).

Definition marker_ok (marker : list Z) : Prop :=
  (length marker <= 1)%nat /\ Forall (fun c => _isCsiPrivateMarker c = true) marker.

(** The text of a control sequence: an optional private marker, the
    parameters, the intermediates and the final character. *)
Definition csi_text (marker : list Z) (gs : ParamGroups) (inters : list Z) (f : Z) : list Z :=
  ESC :: 0x5B :: marker ++ encode_groups gs ++ inters ++ [f].

(** The parameters as the engine receives them. *)
Definition params_of (gs : ParamGroups) : VTParameters :=
  mkVTParameters (map fst gs) (subs_of gs) (ranges_of 0 gs).

(** What the engine reads back through the accessors of [VTParameters]. *)
Definition groups_read (ps : VTParameters) : ParamGroups :=
  imap (fun i p => (p, subParamsFor ps i)) (vp_params ps).

Lemma ESC_starts (sm : SM) :
  _state sm <> OscString -> _state sm <> OscParam -> _state sm <> DcsPassThrough ->
  ProcessCharacter runCallback ESC sm = _EnterEscape sm.
Proof.
  intros H1 H2 H3. rewrite ProcessCharacter_unfold. unfold processCharacter_step, isState, seq_step.
  cbn. rewrite !bool_decide_eq_false_2 by done. cbn. unfold _ActionInterrupt. by destruct (_state sm).
Qed.

Lemma CSI_enters (sm : SM) :
  _state sm = Escape -> _parserMode_Ansi sm = true ->
  ProcessCharacter runCallback 0x5B sm = _EnterCsiEntry sm.
Proof.
  intros Hs Ha. rewrite ProcessCharacter_ordinary by done. unfold dispatch_event. rewrite Hs.
  unfold _EventEscape. cbn. by rewrite Ha.
Qed.

Definition csi_open (sm : SM) : SM := _EnterCsiEntry (_EnterEscape sm).

Definition collect_all (s : list Z) (sm : SM) : SM :=
  sm <| _identifier := fold_left (fun b c => AddIntermediate c b) s (_identifier sm) |>.

Lemma setter_id (sm : SM) : sm <| _identifier := _identifier sm |> = sm.
Proof. by destruct sm. Qed.

Lemma collects_open (sm : SM) : collects (csi_open sm) (CsiEntry, []) (csi_open sm).
Proof. unfold csi_open. generalize (_EnterEscape sm). intros x. by split. Qed.

Lemma csi_open_state (sm : SM) : _state (csi_open sm) = CsiEntry.
Proof. done. Qed.

Lemma csi_open_eq (sm : SM) : _EnterCsiEntry (_EnterEscape sm) = csi_open sm.
Proof. done. Qed.

Lemma csi_open_frame (sm : SM) :
  _engine (csi_open sm) = _engine sm /\ _identifier (csi_open sm) = VTIDBuilder_Clear /\
  _onCsiCompleteCallback (csi_open sm) = _onCsiCompleteCallback sm.
Proof. done. Qed.

#[local] Opaque csi_open.

Lemma enter_collect m (sm : SM) :
  _EnterCsiParam (_ActionCollect m sm) = (collect_all [m] sm) <| _state := CsiParam |>.
Proof. done. Qed.

Lemma unparam_collect_all s st (sm : SM) :
  unparam ((collect_all s sm) <| _state := st |>) = collect_all s (unparam sm).
Proof. done. Qed.

Lemma unparam_collect_all' s (sm : SM) : unparam (collect_all s sm) = collect_all s (unparam sm).
Proof. done. Qed.

Lemma collects_collect_all s sm0 st st' gs (sm : SM) :
  collects sm0 (st, gs) sm ->
  collects (collect_all s sm0) (st', gs) ((collect_all s sm) <| _state := st' |>).
Proof.
  intros [? ? ? ? ? Hr]. split; [done..|].
  transitivity (collect_all s (unparam sm)); [apply unparam_collect_all|].
  rewrite Hr. reflexivity.
Qed.

Lemma marker_collects marker (sm : SM) :
  marker_ok marker ->
  exists st, (st = CsiEntry \/ st = CsiParam) /\
    collects (collect_all marker (csi_open sm)) (st, []) (Feed marker (csi_open sm)).
Proof.
  intros [Hl Hf]. destruct marker as [|m [|]]; [|  |cbn in Hl; lia].
  - exists CsiEntry. split; [by left|].
    unfold collect_all, feed. cbn [fold_left]. rewrite setter_id. exact (collects_open sm).
  - exists CsiParam. split; [by right|]. apply Forall_inv in Hf.
    cbn [feed fold_left]. rewrite ProcessCharacter_ordinary
      by (unfold ordinary; autounfold with chars in *; lia).
    unfold dispatch_event. rewrite csi_open_state.
    unfold _EventCsiEntry, seq_step. rewrite Hf.
    assert (_isC0Code m = false /\ _isDelete m = false /\ _isIntermediate m = false /\
            _isNumericParamValue m = false /\ _isParameterDelimiter m = false /\
            _isSubParameterDelimiter m = false) as (-> & -> & -> & -> & -> & ->)
      by (autounfold with chars in *; lia).
    cbn [orb]. rewrite enter_collect. exact (collects_collect_all [m] _ _ _ _ _ (collects_open sm)).
Qed.

Lemma params_run_entry_param s gs :
  params_run s (CsiEntry, gs) = params_run s (CsiParam, gs) \/ s = [].
Proof. destruct s; [by right|by left]. Qed.

Lemma inters_collected inters (sm : SM) :
  Forall (fun c => _isIntermediate c = true) inters ->
  In (_state sm) [CsiEntry; CsiParam; CsiSubParam; CsiIntermediate] ->
  exists st, In st [CsiEntry; CsiParam; CsiSubParam; CsiIntermediate] /\
    Feed inters sm = (collect_all inters sm) <| _state := st |>.
Proof.
  intros Hf. revert sm. induction Hf as [|c inters Hc Hf IH]; intros sm Hst.
  { exists (_state sm). split; [done|]. by destruct sm. }
  assert (Hp : ProcessCharacter runCallback c sm = (_ActionCollect c sm) <| _state := CsiIntermediate |>).
  { assert (_isC0Code c = false /\ _isDelete c = false /\ _isNumericParamValue c = false /\
            _isParameterDelimiter c = false /\ _isSubParameterDelimiter c = false /\
            ordinary c = true) as (H1 & H2 & H3 & H4 & H5 & H6)
      by (unfold ordinary; autounfold with chars in *; lia).
    rewrite ProcessCharacter_ordinary by done. unfold dispatch_event.
    destruct Hst as [Hs|[Hs|[Hs|[Hs|[]]]]]; rewrite <- Hs; unfold _EventCsiEntry, _EventCsiParam,
      _EventCsiSubParam, _EventCsiIntermediate, seq_step; rewrite H1, ?H2, ?H3, ?H4, ?H5, Hc; try done.
    destruct sm; cbn in *; subst; done. }
  rewrite feed_cons, Hp. destruct (IH ((_ActionCollect c sm) <| _state := CsiIntermediate |>))
    as (st & Hst' & Hr); [cbn; tauto|].
  exists st. split; [done|]. by rewrite Hr.
Qed.

Lemma encode_groups_nil gs :
  groups_ok gs -> gs <> [(VTParameter_default, [])] -> encode_groups gs = [] -> gs = [].
Proof.
  intros [_ Hf] Hne. destruct gs as [|[p subs] [|g gs]]; [done| |].
  - cbn. unfold encode_group, encode_value. cbn. intros Happ. apply app_eq_nil in Happ as [Hp Hs].
    apply Forall_inv in Hf as [Hv _]. cbn in Hv. exfalso. apply Hne.
    destruct subs; [|done]. destruct (p <? 0) eqn:Hlt.
    + unfold param_value in Hv. replace p with (-1) by lia. done.
    + by apply digits_ne in Hp.
  - cbn. intros Happ. by apply app_eq_nil in Happ as [_ ?].
Qed.

Lemma groups_collected gs st sm0 (sm : SM) :
  groups_ok gs -> gs <> [(VTParameter_default, [])] -> st = CsiEntry \/ st = CsiParam ->
  collects sm0 (st, []) sm ->
  exists st', (In st' [CsiEntry; CsiParam; CsiSubParam; CsiIntermediate]) /\
    collects sm0 (st', gs) (Feed (encode_groups gs) sm).
Proof.
  intros Hok Hne Hst Hc. destruct (decide (encode_groups gs = [])) as [Hn|Hn].
  - apply encode_groups_nil in Hn as Hg; [|done..]. subst gs. exists st. cbn. split; [|done].
    destruct Hst; subst; tauto.
  - destruct (run_encode gs Hok Hn) as (st' & Hst' & Hr). exists st'. split.
    + cbn. destruct Hst'; subst; tauto.
    + eapply feed_collects; [|done]. destruct Hst as [-> | ->]; [done|].
      by destruct (params_run_entry_param (encode_groups gs) []) as [<-|].
Qed.

Lemma final_dispatches f (sm : SM) :
  0x40 <= f <= 0x7E -> In (_state sm) [CsiEntry; CsiParam; CsiSubParam; CsiIntermediate] ->
  ProcessCharacter runCallback f sm
  = (_ActionCsiDispatch f ;> _EnterGround ;> _ExecuteCsiCompleteCallback runCallback) sm.
Proof.
  intros Hf Hst.
  assert (_isC0Code f = false /\ _isDelete f = false /\ _isNumericParamValue f = false /\
          _isParameterDelimiter f = false /\ _isSubParameterDelimiter f = false /\
          _isIntermediate f = false /\ _isCsiPrivateMarker f = false /\ ordinary f = true)
    as (H1 & H2 & H3 & H4 & H5 & H6 & H7 & H8) by (unfold ordinary; autounfold with chars; lia).
  rewrite ProcessCharacter_ordinary by done. unfold dispatch_event.
  destruct Hst as [Hs|[Hs|[Hs|[Hs|[]]]]]; rewrite <- Hs;
    unfold _EventCsiEntry, _EventCsiParam, _EventCsiSubParam, _EventCsiIntermediate,
      _isIntermediateInvalid, _isParameterInvalid; by rewrite H1, H2, ?H3, ?H4, ?H5, H6, H7.
Qed.

Lemma csi_decoded marker gs inters f (sm : SM) :
  _state sm <> OscString -> _state sm <> OscParam -> _state sm <> DcsPassThrough ->
  _parserMode_Ansi sm = true ->
  marker_ok marker -> groups_ok gs -> gs <> [(VTParameter_default, [])] ->
  Forall (fun c => _isIntermediate c = true) inters ->
  (length marker + length inters <= 6)%nat -> 0x40 <= f <= 0x7E ->
  exists sm', _engine sm' = _engine sm /\
    _onCsiCompleteCallback sm' = _onCsiCompleteCallback sm /\ _parserMode_Ansi sm' = true /\
    feed runCallback (csi_text marker gs inters f) sm
    = (safely (ActionCsiDispatch (VTID_FromString (marker ++ inters ++ [f])) (params_of gs))
       ;> _EnterGround ;> _ExecuteCsiCompleteCallback runCallback) sm'.
Proof.
  intros Hs1 Hs2 Hs3 Ha Hm Hok Hne Hi Hl Hf. unfold csi_text.
  rewrite !feed_cons, ESC_starts, CSI_enters by done.
  rewrite csi_open_eq, !feed_app.
  destruct (marker_collects marker sm Hm) as (st1 & Hst1 & Hc1).
  destruct (groups_collected gs st1 _ _ Hok Hne Hst1 Hc1) as (st2 & Hst2 & Hc2).
  set (sm2 := Feed (encode_groups gs) _) in *.
  assert (Hin : In (_state sm2) [CsiEntry; CsiParam; CsiSubParam; CsiIntermediate])
    by (rewrite (col_state _ _ _ Hc2); done).
  destruct (inters_collected inters sm2 Hi Hin) as (st3 & Hst3 & ->).
  destruct Hc2 as [_ _ (Hp & Hsu & Hr & _) _ _ Hrest]. cbn [snd] in *.
  destruct (csi_open_frame sm) as (Hx1 & Hx2 & Hx3).
  pose proof (f_equal _identifier Hrest) as Hid. pose proof (f_equal _engine Hrest) as Heng.
  pose proof (f_equal _onCsiCompleteCallback Hrest) as Hcb.
  pose proof (f_equal _parserMode_Ansi Hrest) as Hansi.
  cbn in Hid, Heng, Hcb, Hansi. rewrite Hx1 in Heng. rewrite Hx2 in Hid. rewrite Hx3 in Hcb.
  exists ((collect_all inters sm2) <| _state := st3 |>). split; [done|]. split; [done|].
  split; [cbn; by rewrite Hansi|].
  change (feed runCallback [f] ?x) with (ProcessCharacter runCallback f x).
  rewrite final_dispatches by done. unfold seq_step. do 2 f_equal.
  unfold _ActionCsiDispatch. cbn [_identifier _parameters _subParameters _subParameterRanges
    collect_all setter]. rewrite Hid, Hp, Hsu, Hr, <- fold_left_app.
  rewrite Finalize_FromString; [by rewrite <- app_assoc| | |].
  - apply Forall_app; split.
    + destruct Hm as [_ Hm]. eapply Forall_impl; [|exact Hm]. intros c Hc. by apply marker_byte.
    + eapply Forall_impl; [|exact Hi]. intros c Hc. by apply intermediate_byte.
  - rewrite length_app. lia.
  - unfold byte. lia.
Qed.

(** C2: a control sequence printed from an optional private marker, any
    list of parameters within the limits (omitted values included, up to
    six sub parameters each), intermediates and a final character is
    decoded by exactly one call of [ActionCsiDispatch], with the identifier
    of the printed characters and the printed parameters; nothing else
    reaches the engine, and the machine is back in the ground state before
    a pending callback runs. *)
Theorem csi_roundtrip marker gs inters f (sm : SM) :
  _state sm <> OscString -> _state sm <> OscParam -> _state sm <> DcsPassThrough ->
  _parserMode_Ansi sm = true ->
  marker_ok marker -> groups_ok gs -> gs <> [(VTParameter_default, [])] ->
  Forall (fun c => _isIntermediate c = true) inters ->
  (length marker + length inters <= 6)%nat -> 0x40 <= f <= 0x7E ->
  exists sm', _engine sm' = _engine sm /\
    _onCsiCompleteCallback sm' = _onCsiCompleteCallback sm /\
    feed runCallback (csi_text marker gs inters f) sm
    = (safely (ActionCsiDispatch (VTID_FromString (marker ++ inters ++ [f])) (params_of gs))
       ;> _EnterGround ;> _ExecuteCsiCompleteCallback runCallback) sm'.
Proof.
  intros. destruct (csi_decoded marker gs inters f sm) as (sm' & ? & ? & _ & ?); eauto.
Qed.
End Csi.

(** ** What the engine reads back *)

Lemma ranges_of_lookup k gs i p s :
  gs !! i = Some (p, s) ->
  ranges_of k gs !! i
  = Some (k + subs_total (take i gs), k + subs_total (take i gs) + Z.of_nat (length s)).
Proof.
  revert k i. induction gs as [|[p' s'] gs IH]; intros k i; [done|].
  destruct i as [|i]; cbn.
  - intros [= -> ->]. by rewrite Z.add_0_r.
  - intros Hi. rewrite (IH _ i Hi). change ((p', s') :: take i gs) with ([(p', s')] ++ take i gs).
    rewrite subs_total_app, subs_total_single. cbn [snd]. do 2 f_equal; lia.
Qed.

Lemma subParamsFor_params_of gs i p s :
  gs !! i = Some (p, s) -> subParamsFor (params_of gs) i = s.
Proof.
  intros Hi. unfold subParamsFor, params_of. cbn [vp_subParamRanges vp_subParams].
  rewrite (ranges_of_lookup 0 gs i p s Hi). rewrite Z.add_0_l.
  replace (subs_total (take i gs) + Z.of_nat (length s) - subs_total (take i gs))
    with (Z.of_nat (length s)) by lia.
  unfold subs_total. rewrite !Nat2Z.id.
  apply list_elem_of_split_length in Hi as (l1 & l2 & Hg & Hl). subst i.
  rewrite Hg, take_app_length, subs_of_app. unfold substr.
  rewrite drop_app_length. change ((p, s) :: l2) with ([(p, s)] ++ l2).
  rewrite subs_of_app, subs_of_single. cbn [snd]. by rewrite take_app_length.
Qed.

(** The parameter list that [csi_roundtrip] hands to the engine yields
    every printed parameter together with its own sub parameters through the
    accessors [at] and [subParamsFor]: slices are not mixed up. *)
Theorem params_readback gs : groups_read (params_of gs) = gs.
Proof.
  unfold groups_read, params_of. cbn [vp_params].
  apply list_eq. intros i. rewrite list_lookup_imap, list_lookup_fmap.
  destruct (gs !! i) as [[p s]|] eqn:Hi; [|done].
  change (Some (p, subParamsFor (params_of gs) i) = Some (p, s)).
  by rewrite (subParamsFor_params_of gs i p s Hi).
Qed.

(** ** Operating system commands and device control strings *)

Section Strings.
Context {E CB H : Type} `{Eng : !IStateMachineEngine E CB H}.
Abbreviation SM := (StateMachine E CB H).
Variable runCallback : CB -> SM -> SM.
#[local] Abbreviation Feed := (feed runCallback).

Definition osc_terminators : list (list Z) := [[BEL]; [ESC; 0x5C]].

Definition osc_sequence (ds text term : list Z) : list Z :=
  ESC :: 0x5D :: ds ++ 0x3B :: text ++ term.
Definition osc_text (n : Z) (text term : list Z) : list Z := osc_sequence (digits n) text term.

(** A character that can appear in the text of an OSC string. *)
Definition osc_char (c : Z) : Prop := ordinary c = true /\ _isOscTerminator c = false.

Definition osc_kept (text : list Z) : list Z :=
  List.filter (fun c => negb (_isOscInvalid c)) text.

Lemma digit_ordinary c : is_digit c -> ordinary c = true.
Proof. unfold is_digit, ordinary. autounfold with chars. lia. Qed.

Lemma osc_digits ds (sm : SM) :
  Forall is_digit ds -> _state sm = OscParam ->
  Feed ds sm = sm <| _oscParameter := accumulate (_oscParameter sm) ds |>.
Proof.
  intros Hd. revert sm. induction Hd as [|c ds Hc Hd IH]; intros sm Hs; [by destruct sm|].
  rewrite feed_cons, ProcessCharacter_ordinary by (by apply digit_ordinary).
  unfold dispatch_event. rewrite Hs. unfold _EventOscParam. unfold is_digit in Hc.
  assert (_isOscTerminator c = false /\ _isEscape c = false) as [-> ->]
    by (autounfold with chars in *; lia).
  rewrite Hc, IH by done. done.
Qed.

Lemma osc_string text (sm : SM) :
  Forall osc_char text -> _state sm = OscString ->
  Feed text sm = sm <| _oscString := _oscString sm ++ osc_kept text |>.
Proof.
  intros Hd. revert sm. induction Hd as [|c text [Hc Ht] Hd IH]; intros sm Hs.
  { unfold osc_kept. cbn. rewrite app_nil_r. by destruct sm. }
  rewrite feed_cons, ProcessCharacter_ordinary by done.
  unfold dispatch_event. rewrite Hs. unfold _EventOscString.
  assert (_isEscape c = false) as -> by (unfold ordinary in Hc; autounfold with chars in *; lia).
  rewrite Ht. unfold osc_kept. cbn [List.filter]. destruct (_isOscInvalid c); cbn [negb].
  - by apply IH.
  - rewrite IH by done. cbn. by rewrite <- app_assoc.
Qed.

Lemma osc_ends term (sm : SM) :
  In term osc_terminators -> _state sm = OscString ->
  exists sm', _engine sm' = _engine sm /\ _oscParameter sm' = _oscParameter sm /\
    _oscString sm' = _oscString sm /\ Feed term sm = (_ActionOscDispatch ;> _EnterGround) sm'.
Proof.
  intros Ht Hs. destruct Ht as [<-|[<-|[]]].
  - exists sm. repeat split. cbn. rewrite ProcessCharacter_ordinary by done.
    unfold dispatch_event. by rewrite Hs.
  - exists (_EnterOscTermination sm). repeat split. cbn [feed fold_left].
    assert (ProcessCharacter runCallback ESC sm = _EnterOscTermination sm) as ->.
    { rewrite ProcessCharacter_unfold. unfold processCharacter_step, isState. cbn.
      rewrite Hs. cbn. unfold dispatch_event. by rewrite Hs. }
    by rewrite ProcessCharacter_ordinary.
Qed.

Lemma osc_sequence_decoded ds text term (sm : SM) :
  _state sm <> OscString -> _state sm <> OscParam -> _state sm <> DcsPassThrough ->
  _parserMode_Ansi sm = true -> Forall is_digit ds ->
  Forall osc_char text -> In term osc_terminators ->
  exists sm', _engine sm' = _engine sm /\
    feed runCallback (osc_sequence ds text term) sm
    = (safely (ActionOscDispatch (Z.min MAX_PARAMETER_VALUE (decimal ds)) (osc_kept text)) ;> _EnterGround) sm'.
Proof.
  intros Hs1 Hs2 Hs3 Ha Hn Ht Hterm. unfold osc_sequence.
  rewrite !feed_cons, ESC_starts by done.
  assert (ProcessCharacter runCallback 0x5D (_EnterEscape sm) = _EnterOscParam (_EnterEscape sm)) as ->.
  { rewrite ProcessCharacter_ordinary by done. unfold dispatch_event, _EventEscape. cbn.
    by rewrite Ha. }
  rewrite feed_app, feed_cons, feed_app, (osc_digits ds) by done.
  set (sm1 := _EnterOscParam (_EnterEscape sm)).
  assert (_oscParameter sm1 = 0 /\ _oscString sm1 = [] /\ _engine sm1 = _engine sm /\ _state sm1 = OscParam)
    as (Hp & Hstr & Heng & Hst) by done.
  rewrite Hp, accumulate_decimal by done. set (n := Z.min _ _).
  assert (ProcessCharacter runCallback 0x3B (sm1 <| _oscParameter := n |>)
          = _EnterOscString (sm1 <| _oscParameter := n |>)) as ->
    by (rewrite ProcessCharacter_ordinary by done; done).
  clearbody sm1.
  rewrite (osc_string text) by done.
  set (sm2 := setter _oscString _ _).
  destruct (osc_ends term sm2 Hterm) as (sm' & He & Hp' & Hs' & ->); [done|].
  exists sm'. split; [by rewrite He|]. unfold seq_step, _ActionOscDispatch. f_equal.
  rewrite Hp', Hs'. cbn. by rewrite Hstr.
Qed.

Lemma osc_decoded n text term (sm : SM) :
  _state sm <> OscString -> _state sm <> OscParam -> _state sm <> DcsPassThrough ->
  _parserMode_Ansi sm = true -> 0 <= n <= MAX_PARAMETER_VALUE ->
  Forall osc_char text -> In term osc_terminators ->
  exists sm', _engine sm' = _engine sm /\
    feed runCallback (osc_text n text term) sm
    = (safely (ActionOscDispatch n (osc_kept text)) ;> _EnterGround) sm'.
Proof.
  intros Hs1 Hs2 Hs3 Ha Hn Ht Hterm.
  destruct (osc_sequence_decoded (digits n) text term sm) as (sm' & He & Hf); try done.
  { apply digits_digit. lia. }
  exists sm'. split; [done|]. unfold osc_text. rewrite Hf.
  rewrite <- accumulate_decimal by (apply digits_digit; lia). by rewrite digits_accumulate.
Qed.

(** C9: an operating system command, [ESC ] digits ; text] ended by BEL or
    by ESC \, makes exactly one engine call, [ActionOscDispatch], and returns
    to the ground state.  The call has the number the digits stand for in
    decimal, however many there are, or the largest parameter value if that
    is smaller, and the text without the control characters the parser
    ignores there.  It holds in ANSI mode, from every state but the three
    in which ESC ends a string that is already open. *)
Theorem osc_roundtrip ds text term (sm : SM) :
  _state sm <> OscString -> _state sm <> OscParam -> _state sm <> DcsPassThrough ->
  _parserMode_Ansi sm = true -> Forall is_digit ds ->
  Forall osc_char text -> In term osc_terminators ->
  exists sm', _engine sm' = _engine sm /\
    feed runCallback (osc_sequence ds text term) sm
    = (safely (ActionOscDispatch (Z.min MAX_PARAMETER_VALUE (decimal ds)) (osc_kept text)) ;> _EnterGround) sm'.
Proof. apply osc_sequence_decoded. Qed.

(** The characters of a data string that reach the handler. *)
Definition dcs_kept (data : list Z) : list Z :=
  List.filter (fun c => _isC0Code c || _isDcsPassThroughValid c) data.

(** The handler called on a list of characters in turn. *)
Definition deliver (data : list Z) (sm : SM) : SM :=
  fold_left (fun sm c => fst (call_dcsStringHandler c sm)) data sm.

Lemma call_handler_frame c (sm : SM) :
  _state (fst (call_dcsStringHandler c sm)) = _state sm /\
  _dcsStringHandler (fst (call_dcsStringHandler c sm)) = _dcsStringHandler sm.
Proof.
  pose proof (core_call_handler c sm) as Hc.
  split; [exact (f_equal c_state Hc)|exact (f_equal c_handler Hc)].
Qed.

Lemma dcs_data h data (sm : SM) :
  (forall c e, snd (fst (StringHandler_call h c e)) = true) ->
  Forall (fun c => ordinary c = true) data ->
  _state sm = DcsPassThrough -> _dcsStringHandler sm = Some h ->
  Feed data sm = deliver (dcs_kept data) sm /\
  _state (Feed data sm) = DcsPassThrough /\ _dcsStringHandler (Feed data sm) = Some h.
Proof.
  intros Hmore Hd. revert sm. induction Hd as [|c data Hc Hd IH]; intros sm Hs Hh; [done|].
  rewrite feed_cons, ProcessCharacter_ordinary by done. unfold dispatch_event. rewrite Hs.
  unfold _EventDcsPassThrough, dcs_kept. cbn [List.filter].
  destruct (_isC0Code c || _isDcsPassThroughValid c); [|by apply IH].
  destruct (call_handler_frame c sm) as [Hf1 Hf2].
  assert (Hm : snd (call_dcsStringHandler c sm) = true).
  { unfold call_dcsStringHandler. rewrite Hh. specialize (Hmore c (_engine sm)).
    by destruct (StringHandler_call h c (_engine sm)) as [[e m] rs]. }
  unfold deliver. cbn [fold_left]. destruct (call_dcsStringHandler c sm) as [sm' more].
  cbn in *. subst more. apply IH; congruence.
Qed.

(** In the pass-through state, a data string terminated by ESC is
    delivered to the handler of the sequence character by character, in
    order, without the characters outside C0 and 0x20..0x7E and followed by
    one ESC; the handler is then dropped and the ESC starts a new
    sequence. *)
Theorem dcs_delivery h data (sm : SM) :
  (forall c e, snd (fst (StringHandler_call h c e)) = true) ->
  Forall (fun c => ordinary c = true) data ->
  _state sm = DcsPassThrough -> _dcsStringHandler sm = Some h ->
  feed runCallback (data ++ [ESC]) sm
  = _EnterEscape ((deliver (dcs_kept data ++ [ESC]) sm) <| _dcsStringHandler := None |>).
Proof.
  intros Hmore Hd Hs Hh. destruct (dcs_data h data sm Hmore Hd Hs Hh) as (Hr & Hs' & Hh').
  rewrite feed_app. change (Feed [ESC] ?x) with (ProcessCharacter runCallback ESC x).
  rewrite ProcessCharacter_unfold. unfold processCharacter_step, isState.
  unfold deliver. rewrite fold_left_app. fold (deliver (dcs_kept data) sm). rewrite <- Hr.
  cbn. rewrite Hs'. cbn. unfold seq_step, _ActionInterrupt. by rewrite Hs'.
Qed.

(** ** Cancellation and C1 controls *)

(** CAN and SUB abandon whatever the parser of an output engine was
    doing: in any state, they reach the engine as an Execute action (after
    the end-of-data ESC for the handler of an open device control string)
    and the parser is in the ground state with nothing cached. *)
Theorem cancel_from_anywhere c (sm : SM) :
  c = CAN \/ c = SUB -> _isEngineForInput sm = false ->
  ProcessCharacter runCallback c sm = _EnterGround (safely (ActionExecute c) (_ActionInterrupt sm)) /\
  _state (ProcessCharacter runCallback c sm) = Ground /\
  _cachedSequence (ProcessCharacter runCallback c sm) = None.
Proof.
  intros Hc Hi.
  assert (Heq : ProcessCharacter runCallback c sm
                = _EnterGround (safely (ActionExecute c) (_ActionInterrupt sm))).
  { rewrite ProcessCharacter_unfold. unfold processCharacter_step. rewrite Hi, andb_false_r.
    by destruct Hc as [-> | ->]. }
  by rewrite Heq.
Qed.

(** A C1 control is processed exactly as ESC followed by its 7-bit
    equivalent when the parser accepts C1 controls, and has no effect at
    all otherwise. *)
Theorem c1_equivalence c (sm : SM) :
  _isC1ControlCharacter c = true ->
  ProcessCharacter runCallback c sm
  = if _parserMode_AcceptC1 sm then feed runCallback [ESC; c - 0x40] sm else sm.
Proof.
  intros Hc. rewrite ProcessCharacter_unfold. unfold processCharacter_step. rewrite Hc.
  assert ((c =? CAN) = false /\ (c =? SUB) = false) as [-> ->]
    by (autounfold with chars in *; lia). cbn [orb andb].
  destruct (_parserMode_AcceptC1 sm); [|done]. unfold seq_step, feed. cbn [fold_left].
  unfold _c1To7Bit. rewrite u16_small; [done|]. autounfold with chars in Hc. lia.
Qed.
End Strings.
