(* ===== verification/ParserStrings.v ===== *)
(** * A control sequence in one string

    [ProcessString] on a string that is one whole control sequence, for any
    engine: the members that describe the current run span exactly the
    sequence when it is dispatched.  That is what the parser passes through
    when the engine refuses it. *)

From S2P Require Import Prelude VTTypes StateMachine ParserFacts ParserRoundtrip.
#[local] Open Scope Z_scope.

Section Strings.
Context {E CB H : Type} `{Eng : !IStateMachineEngine E CB H}.
Abbreviation SM := (StateMachine E CB H).
Variable runCallback : CB -> SM -> SM.
Abbreviation PC := (ProcessCharacter runCallback).

(** ** One character of the loop *)

Definition advance (n : nat) (b : bool) (sm : SM) : SM :=
  sm <| _runSize := (n + _runSize sm)%nat |> <| _processingLastCharacter := b |>.

Lemma state_advance n b (sm : SM) : _state (advance n b sm) = _state sm.
Proof. done. Qed.

Definition vt_step (size i : nat) (c : Z) (sm : SM) : SM := PC c (advance 1 (size <=? i + 1)%nat sm).

Fixpoint vt_feed (size i : nat) (s : list Z) (sm : SM) : SM :=
  match s with [] => sm | c :: s => vt_feed size (S i) s (vt_step size i c sm) end.

(** No proper part of the string leads back to the ground state. *)
Fixpoint vt_moves (size i : nat) (s : list Z) (sm : SM) : Prop :=
  match s with [] => True | c :: s => _state (vt_step size i c sm) <> Ground /\ vt_moves size (S i) s (vt_step size i c sm) end.

Lemma vt_feed_app size i s t sm : vt_feed size i (s ++ t) sm = vt_feed size (i + length s) t (vt_feed size i s sm).
Proof. revert i sm. induction s as [|c s IH]; intros i sm; cbn; [by rewrite Nat.add_0_r|]. by rewrite IH, Nat.add_succ_r. Qed.

Lemma vt_moves_app size i s t sm :
  vt_moves size i (s ++ t) sm <-> vt_moves size i s sm /\ vt_moves size (i + length s) t (vt_feed size i s sm).
Proof.
  revert i sm. induction s as [|c s IH]; intros i sm; cbn; [rewrite Nat.add_0_r; tauto|].
  rewrite IH, Nat.add_succ_r. cbn. tauto.
Qed.

Lemma vt_loop size i s f sm : vt_moves size i s sm ->
  processString_vt runCallback size i (s ++ [f]) sm
  = (S (i + length s), [], vt_step size (i + length s) f (vt_feed size i s sm)).
Proof.
  revert i sm. induction s as [|c s IH]; intros i sm; cbn [vt_moves app].
  - intros _. cbn. unfold vt_step, advance. by rewrite Nat.add_0_r.
  - intros [Hg Hm]. specialize (IH _ _ Hm). cbn [processString_vt vt_feed length].
    change (ProcessCharacter runCallback c _) with (vt_step size i c sm).
    destruct (s ++ [f]) as [|c' s'] eqn:Hs; [by destruct s|].
    unfold isState. rewrite bool_decide_eq_false_2 by done. rewrite IH, <- Nat.add_succ_comm. done.
Qed.

(** ** The phases of a control sequence *)

Lemma collects_advance sm0 q n b (sm : SM) : collects sm0 q sm -> collects (advance n b sm0) q (advance n b sm).
Proof.
  intros [H1 H2 H3 H4 H5 H6]. split; try done. unfold advance.
  assert (Hr : _runSize sm = _runSize sm0) by exact (f_equal _runSize H6).
  unfold unparam in *. cbn in *. rewrite Hr. destruct sm, sm0. cbn in *. injection H6; intros; subst. done.
Qed.

Lemma advance_twice n m b b' (sm : SM) : advance n b (advance m b' sm) = advance (n + m) b sm.
Proof. unfold advance. cbn. by rewrite Nat.add_assoc. Qed.

Lemma collect_advance s n b (sm : SM) : collect_all s (advance n b sm) = advance n b (collect_all s sm).
Proof. done. Qed.

Lemma collect_collect s t (sm : SM) : collect_all s (collect_all t sm) = collect_all (t ++ s) sm.
Proof. unfold collect_all. cbn. by rewrite fold_left_app. Qed.

Definition csi_states : list VTStates := [CsiEntry; CsiParam; CsiSubParam; CsiIntermediate].

Lemma csi_states_ground st : In st csi_states -> st <> Ground.
Proof. intros Hin ->. repeat (destruct Hin as [Hin|Hin]; [done|]). done. Qed.

(** Between the introducer and the final character: the identifier has
    collected [ids], the parameters are [gs], and [n] characters have been
    read since [sm0]. *)
Definition in_csi (sm0 : SM) (n : nat) (ids : list Z) (st : VTStates) (gs : ParamGroups) (sm : SM) : Prop :=
  exists b, collects (advance n b (collect_all ids (csi_open sm0))) (st, gs) sm.

Lemma in_csi_params sm0 n ids q q' s size i sm : In (fst q') csi_states ->
  in_csi sm0 n ids (fst q) (snd q) sm -> params_run s q = Some q' ->
  vt_moves size i s sm /\ in_csi sm0 (n + length s) ids (fst q') (snd q') (vt_feed size i s sm).
Proof.
  intros Hq'. revert n q i sm. induction s as [|c s IH]; intros n q i sm Hin; cbn [params_run].
  { intros [= ->]. cbn. by rewrite Nat.add_0_r. }
  destruct (params_trans c q) as [q1|] eqn:Ht; [|done]. intros Hr. destruct Hin as [b Hc].
  rewrite <- surjective_pairing in Hc. cbn [vt_feed vt_moves length].
  pose proof (collects_advance _ _ 1 (size <=? i + 1)%nat _ Hc) as Ha. rewrite advance_twice in Ha.
  pose proof (ProcessCharacter_collects runCallback _ _ _ _ _ Ht Ha) as H1.
  change (ProcessCharacter _ _ _) with (vt_step size i c sm) in H1.
  assert (Hg : _state (vt_step size i c sm) <> Ground).
  { rewrite (col_state _ _ _ H1). destruct q as [st gs]. unfold params_trans in Ht.
    intros Hg. destruct st; try done; repeat case_match; simplify_eq. }
  destruct (IH (S n) q1 (S i) (vt_step size i c sm)) as [Hm Hf]; [|done|].
  { eexists. rewrite <- surjective_pairing. exact H1. }
  split; [done|]. by rewrite Nat.add_succ_r.
Qed.

Lemma in_csi_marker sm0 n marker size i sm : marker_ok marker -> in_csi sm0 n [] CsiEntry [] sm ->
  exists st, (st = CsiEntry \/ st = CsiParam) /\ vt_moves size i marker sm /\
    in_csi sm0 (n + length marker) marker st [] (vt_feed size i marker sm).
Proof.
  intros [Hl Hf] [b Hc]. destruct marker as [|m [|]]; [| |cbn in Hl; lia].
  { exists CsiEntry. split; [by left|]. split; [done|]. exists b. cbn. by rewrite Nat.add_0_r. }
  exists CsiParam. split; [by right|]. apply Forall_inv in Hf. cbn [vt_moves vt_feed length].
  assert (Hs : vt_step size i m sm
          = (collect_all [m] (advance 1 (size <=? i + 1)%nat sm)) <| _state := CsiParam |>).
  { unfold vt_step. rewrite ProcessCharacter_ordinary by (unfold ordinary; autounfold with chars in *; lia).
    unfold dispatch_event. change (_state (advance _ _ sm)) with (_state sm). rewrite (col_state _ _ _ Hc). cbn [fst].
    unfold _EventCsiEntry, seq_step. rewrite Hf.
    assert (_isC0Code m = false /\ _isDelete m = false /\ _isIntermediate m = false /\
            _isNumericParamValue m = false /\ _isParameterDelimiter m = false /\
            _isSubParameterDelimiter m = false) as (-> & -> & -> & -> & -> & ->)
      by (autounfold with chars in *; lia). done. }
  rewrite Hs. split; [done|]. exists (size <=? i + 1)%nat.
  pose proof (collects_advance _ _ 1 (size <=? i + 1)%nat _ Hc) as Ha. rewrite advance_twice in Ha.
  apply (collects_collect_all [m] _ _ CsiParam) in Ha. rewrite collect_advance, collect_collect in Ha.
  rewrite Nat.add_comm. exact Ha.
Qed.

Lemma in_csi_inters sm0 n ids st gs inters size i sm : Forall (fun c => _isIntermediate c = true) inters ->
  In st csi_states -> in_csi sm0 n ids st gs sm ->
  exists st', In st' csi_states /\ vt_moves size i inters sm /\
    in_csi sm0 (n + length inters) (ids ++ inters) st' gs (vt_feed size i inters sm).
Proof.
  intros Hf. revert n ids st i sm. induction Hf as [|c inters Hc Hf IH]; intros n ids st i sm Hst Hin.
  { exists st. cbn. by rewrite Nat.add_0_r, app_nil_r. }
  destruct Hin as [b Hcol]. cbn [vt_moves vt_feed length].
  assert (Hs : vt_step size i c sm
          = (collect_all [c] (advance 1 (size <=? i + 1)%nat sm)) <| _state := CsiIntermediate |>).
  { assert (_isC0Code c = false /\ _isDelete c = false /\ _isNumericParamValue c = false /\
            _isParameterDelimiter c = false /\ _isSubParameterDelimiter c = false /\
            ordinary c = true) as (H1 & H2 & H3 & H4 & H5 & H6)
      by (unfold ordinary; autounfold with chars in *; lia).
    unfold vt_step. rewrite ProcessCharacter_ordinary by done. unfold dispatch_event.
    assert (Hss : _state (advance 1 (size <=? i + 1)%nat sm) = st) by exact (col_state _ _ _ Hcol). rewrite Hss.
    destruct Hst as [<-|[<-|[<-|[<-|[]]]]]; unfold _EventCsiEntry, _EventCsiParam, _EventCsiSubParam,
      _EventCsiIntermediate, seq_step; rewrite H1, ?H2, ?H3, ?H4, ?H5, Hc; try done.
    clear -Hss. destruct sm; cbn in *; subst; done. }
  rewrite Hs. destruct (IH (n + 1)%nat (ids ++ [c]) CsiIntermediate (S i)
     ((collect_all [c] (advance 1 (size <=? i + 1)%nat sm)) <| _state := CsiIntermediate |>))
    as (st' & Hst' & Hm & Hr); [cbn; tauto| |].
  { exists (size <=? i + 1)%nat.
    pose proof (collects_advance _ _ 1 (size <=? i + 1)%nat _ Hcol) as Ha. rewrite advance_twice in Ha.
    apply (collects_collect_all [c] _ _ CsiIntermediate) in Ha. rewrite collect_advance, collect_collect in Ha.
    rewrite (Nat.add_comm n 1). exact Ha. }
  exists st'. split; [done|]. split; [done|].
  replace (n + S (length inters))%nat with (n + 1 + length inters)%nat by lia.
  by rewrite <- (app_assoc ids [c] inters) in Hr.
Qed.

(** ** The introducer *)

Lemma ProcessCharacter_CSI (sm : SM) : _parserMode_AcceptC1 sm = true -> PC 0x9B sm = PC 0x5B (PC ESC sm).
Proof. intros Ha. rewrite ProcessCharacter_unfold. unfold processCharacter_step. cbn. by rewrite Ha. Qed.

(** CSI, in two characters or in one if the parser accepts it. *)
Definition csi_introducer (intro : list Z) (sm : SM) : Prop :=
  intro = [ESC; 0x5B] \/ (intro = [0x9B] /\ _parserMode_AcceptC1 sm = true).

Lemma open_advance n b (sm : SM) : csi_open (advance n b sm) = advance n b (csi_open sm).
Proof. done. Qed.

Lemma escape_advance n b (sm : SM) : _EnterEscape (advance n b sm) = advance n b (_EnterEscape sm).
Proof. done. Qed.

Lemma step_escape b (sm : SM) : _state sm = Ground -> PC ESC (advance 1 b sm) = advance 1 b (_EnterEscape sm).
Proof. intros Hg. rewrite <- escape_advance. apply ESC_starts; by rewrite state_advance, Hg. Qed.

Lemma step_bracket n b (sm : SM) : _parserMode_Ansi sm = true ->
  PC 0x5B (advance n b (_EnterEscape sm)) = advance n b (csi_open sm).
Proof. intros Ha. rewrite <- escape_advance, CSI_enters by done. by rewrite csi_open_eq, open_advance. Qed.

Lemma collects_opened n b (sm : SM) :
  collects (advance n b (collect_all [] (csi_open sm))) (CsiEntry, []) (advance n b (csi_open sm)).
Proof. apply collects_advance. unfold collect_all. cbn [fold_left]. rewrite setter_id. apply collects_open. Qed.

Lemma opened_moves n b (sm : SM) : _state (advance n b (csi_open sm)) <> Ground.
Proof. by rewrite state_advance, csi_open_state. Qed.

Lemma escape_moves n b (sm : SM) : _state (advance n b (_EnterEscape sm)) <> Ground.
Proof. by rewrite state_advance. Qed.

Lemma in_csi_introducer intro size (sm : SM) : csi_introducer intro sm -> _state sm = Ground ->
  _parserMode_Ansi sm = true ->
  vt_moves size 0 intro sm /\ in_csi sm (length intro) [] CsiEntry [] (vt_feed size 0 intro sm).
Proof.
  intros [-> | [-> Hc1]] Hg Ha; cbn [vt_moves vt_feed length]; unfold vt_step.
  - rewrite step_escape, advance_twice, step_bracket by done.
    split; [split; [apply escape_moves|split; [apply opened_moves|done]]|]. eexists. apply collects_opened.
  - assert (H9 : forall b, PC 0x9B (advance 1 b sm) = advance 1 b (csi_open sm)).
    { intros b. rewrite (ProcessCharacter_CSI (advance 1 b sm) Hc1), step_escape, step_bracket by done. done. }
    rewrite H9. split; [split; [apply opened_moves|done]|]. eexists. apply collects_opened.
Qed.

(** ** The whole string *)

Lemma scan_stops c s : sse_lane c = true -> isActionableFromGround c = true ->
  FindActionableControlCharacter (c :: s) = 0%nat.
Proof.
  intros Hl Ha. unfold FindActionableControlCharacter. destruct (length (c :: s) / 8)%nat; cbn.
  - by rewrite Ha.
  - by rewrite Hl.
Qed.

Lemma advance_run n b (sm : SM) (s : list Z) : _currentString sm = s -> _runOffset sm = 0%nat ->
  _runSize sm = 0%nat -> (n = length s)%nat -> _CurrentRun (advance n b sm) = s.
Proof.
  intros Hc Ho Hr ->. unfold _CurrentRun, advance. cbn. rewrite Hc, Ho, Hr, Nat.add_0_r.
  unfold substr. by rewrite drop_0, take_ge.
Qed.

Lemma loop_nil fuel size i (sm : SM) : processString_loop runCallback fuel size i [] sm = sm.
Proof. by destruct fuel. Qed.

(** The machine at the dispatch, compared with the machine before. *)
Record at_dispatch (text : list Z) (sm sm' : SM) : Prop := {
  ad_engine : _engine sm' = _engine sm;
  ad_callback : _onCsiCompleteCallback sm' = _onCsiCompleteCallback sm;
  ad_cached : _cachedSequence sm' = _cachedSequence sm;
  ad_input : _isEngineForInput sm' = _isEngineForInput sm;
  ad_ansi : _parserMode_Ansi sm' = _parserMode_Ansi sm;
  ad_c1 : _parserMode_AcceptC1 sm' = _parserMode_AcceptC1 sm;
  ad_run : _CurrentRun sm' = text;
}.

(** The frame of [collects], with the fragment that is being processed. *)
Lemma collects_frame n b ids q (x sm : SM) : collects (advance n b (collect_all ids (csi_open x))) q sm ->
  _engine sm = _engine x /\ _onCsiCompleteCallback sm = _onCsiCompleteCallback x /\
  _cachedSequence sm = _cachedSequence x /\ _isEngineForInput sm = _isEngineForInput x /\
  _parserMode_Ansi sm = _parserMode_Ansi x /\ _parserMode_AcceptC1 sm = _parserMode_AcceptC1 x /\
  _CurrentRun sm = _CurrentRun (advance n b x) /\
  _identifier sm = fold_left (fun b c => AddIntermediate c b) ids VTIDBuilder_Clear.
Proof.
  intros [_ _ _ _ _ Hr]. pose proof (fun A (f : SM -> A) => f_equal f Hr) as Hf.
  pose proof (Hf _ _engine). pose proof (Hf _ _onCsiCompleteCallback). pose proof (Hf _ _cachedSequence).
  pose proof (Hf _ _isEngineForInput). pose proof (Hf _ _parserMode_Ansi). pose proof (Hf _ _parserMode_AcceptC1).
  pose proof (Hf _ _identifier). pose proof (Hf _ _CurrentRun). split_and!; assumption.
Qed.

(** The members for the string at its start. *)
Definition string_start (text : list Z) (sm : SM) : SM :=
  sm <| _currentString := text |> <| _runOffset := 0%nat |> <| _runSize := 0%nat |> <| _injections := [] |>.

(** A string of one sequence, whose last character is [f]. *)
Lemma string_of_sequence body f (sm : SM) : let text := body ++ [f] in let size := length text in
  let sm1 := string_start text sm in
  _state sm = Ground -> vt_moves size 0 body sm1 -> FindActionableControlCharacter text = 0%nat ->
  ProcessString runCallback text sm
  = processString_tail (PC f (advance 1 (size <=? length body + 1)%nat (vt_feed size 0 body sm1))).
Proof.
  intros text size sm1 Hg Hmoves Hscan. unfold ProcessString. fold size. fold (string_start text sm). fold sm1.
  change (isState Ground sm1) with (isState Ground sm). unfold isState at 1. rewrite Hg, bool_decide_eq_true_2 by done.
  destruct text as [|c0 rest0] eqn:Htext; [by destruct body|]. cbn [processString_loop].
  rewrite Hscan. cbn [Nat.eqb]. rewrite drop_0.
  change (sm1 <| _runOffset := 0%nat |> <| _runSize := 0%nat |>) with sm1. rewrite <- Htext.
  unfold text. rewrite vt_loop by done. cbn [Nat.add]. by rewrite loop_nil.
Qed.

(** The characters before the final one. *)
Lemma csi_body intro marker gs inters size (sm : SM) :
  csi_introducer intro sm -> _state sm = Ground -> _parserMode_Ansi sm = true ->
  marker_ok marker -> groups_ok gs -> gs <> [(VTParameter_default, [])] ->
  Forall (fun c => _isIntermediate c = true) inters ->
  let body := intro ++ marker ++ encode_groups gs ++ inters in
  vt_moves size 0 body sm /\ exists st, In st csi_states /\
    in_csi sm (length body) (marker ++ inters) st gs (vt_feed size 0 body sm).
Proof.
  intros Hin Hg Ha Hm Hok Hne Hi body.
  destruct (in_csi_introducer intro size sm) as [M1 I1]; [done..|].
  destruct (in_csi_marker sm _ marker size (length intro) _ Hm I1) as (st1 & Hst1 & M2 & I2).
  rewrite <- length_app in I2. set (sm2 := vt_feed size (length intro) marker _) in *.
  assert (H3 : exists st2, In st2 csi_states /\ vt_moves size (length (intro ++ marker)) (encode_groups gs) sm2 /\
     in_csi sm (length (intro ++ marker) + length (encode_groups gs)) marker st2 gs
       (vt_feed size (length (intro ++ marker)) (encode_groups gs) sm2)).
  { destruct (decide (encode_groups gs = [])) as [Hn|Hn].
    - apply encode_groups_nil in Hn as Hgs; [|done..]. subst gs. exists st1. cbn [encode_groups vt_moves vt_feed].
      rewrite Nat.add_0_r. split; [|done]. destruct Hst1; subst; cbn; tauto.
    - destruct (run_encode gs Hok Hn) as (st' & Hst' & Hr). exists st'.
      assert (Hin' : In st' csi_states) by (destruct Hst'; subst; cbn; tauto). split; [done|].
      apply (in_csi_params sm _ marker (st1, []) (st', gs)); [done|done|].
      destruct Hst1 as [-> | ->]; [done|]. by destruct (params_run_entry_param (encode_groups gs) []) as [<-|]. }
  destruct H3 as (st2 & Hst2 & M3 & I3).
  destruct (in_csi_inters sm _ marker st2 gs inters size
    (length (intro ++ marker) + length (encode_groups gs)) _ Hi Hst2 I3) as (st3 & Hst3 & M4 & I4).
  split.
  - unfold body. rewrite !app_assoc, !vt_moves_app, !vt_feed_app, !Nat.add_0_l, (length_app (intro ++ marker)). done.
  - exists st3. split; [done|].
    assert (Hlen : length body = (length (intro ++ marker) + length (encode_groups gs) + length inters)%nat)
      by (unfold body; rewrite !length_app; lia).
    rewrite Hlen. unfold body. rewrite !vt_feed_app, !Nat.add_0_l. rewrite length_app in I4 |- *. exact I4.
Qed.

Lemma csi_string intro marker gs inters f (sm : SM) :
  csi_introducer intro sm -> _state sm = Ground -> _parserMode_Ansi sm = true ->
  marker_ok marker -> groups_ok gs -> gs <> [(VTParameter_default, [])] ->
  Forall (fun c => _isIntermediate c = true) inters ->
  (length marker + length inters <= 6)%nat -> 0x40 <= f <= 0x7E ->
  let text := (intro ++ marker ++ encode_groups gs ++ inters) ++ [f] in
  exists sm', at_dispatch text sm sm' /\
    ProcessString runCallback text sm
    = processString_tail ((safely (ActionCsiDispatch (VTID_FromString (marker ++ inters ++ [f])) (params_of gs))
       ;> _EnterGround ;> _ExecuteCsiCompleteCallback runCallback) sm').
Proof.
  intros Hin Hg Ha Hm Hok Hne Hi Hl Hf text. set (size := length text). set (sm1 := string_start text sm).
  destruct (csi_body intro marker gs inters size sm1) as (Hmoves & st & Hst & [b Hcol]); [done..|].
  set (body := intro ++ marker ++ encode_groups gs ++ inters) in *.
  pose proof (collects_advance _ _ 1 (size <=? length body + 1)%nat _ Hcol) as Hlast. rewrite advance_twice in Hlast.
  set (sm' := advance 1 (size <=? length body + 1)%nat (vt_feed size 0 body sm1)) in *.
  destruct (collects_frame _ _ _ _ _ _ Hlast) as (F1 & F2 & F3 & F4 & F5 & F6 & F7 & F8).
  exists sm'. split.
  { split; try done. rewrite F7. apply advance_run; try done. unfold text. rewrite length_app. cbn. lia. }
  unfold text. rewrite string_of_sequence; [|done|exact Hmoves|].
  2:{ unfold body. destruct Hin as [-> | [-> _]]; by apply scan_stops. }
  fold text. fold size. fold sm1. fold sm'. f_equal. rewrite final_dispatches; [|done|by rewrite (col_state _ _ _ Hlast)].
  destruct Hlast as [_ _ (Hp & Hsu & Hr & _) _ _ _]. cbn [snd] in Hp, Hsu, Hr.
  unfold seq_step. do 2 f_equal. unfold _ActionCsiDispatch.
  rewrite Hp, Hsu, Hr, F8, Finalize_FromString; [by rewrite <- app_assoc| | |unfold byte; lia].
  - apply Forall_app. split.
    + destruct Hm as [_ Hm]. eapply Forall_impl; [|exact Hm]. intros c Hc. by apply marker_byte.
    + eapply Forall_impl; [|exact Hi]. intros c Hc. by apply intermediate_byte.
  - rewrite length_app. lia.
Qed.

(** ** SS3 and one character, for an input engine *)

Lemma ProcessCharacter_SS3 (sm : SM) : _parserMode_AcceptC1 sm = true -> PC 0x8F sm = PC 0x4F (PC ESC sm).
Proof. intros Ha. rewrite ProcessCharacter_unfold. unfold processCharacter_step. cbn. by rewrite Ha. Qed.

Definition ss3_introducer (intro : list Z) (sm : SM) : Prop :=
  intro = [ESC; 0x4F] \/ (intro = [0x8F] /\ _parserMode_AcceptC1 sm = true).

Definition ss3_open (sm : SM) : SM := _EnterSs3Entry (_EnterEscape sm).

Lemma step_ss3 n b (sm : SM) : _parserMode_Ansi sm = true -> _isEngineForInput sm = true ->
  PC 0x4F (advance n b (_EnterEscape sm)) = advance n b (ss3_open sm).
Proof.
  intros Ha Hi. unfold ss3_open. generalize (eq_refl : _state (_EnterEscape sm) = Escape).
  assert (Ha' : _parserMode_Ansi (_EnterEscape sm) = true) by exact Ha.
  assert (Hi' : _isEngineForInput (_EnterEscape sm) = true) by exact Hi. revert Ha' Hi'.
  generalize (_EnterEscape sm). intros x Hx1 Hx2 Hx3. rewrite ProcessCharacter_ordinary by done.
  unfold dispatch_event. rewrite state_advance, Hx3. unfold _EventEscape.
  change (_parserMode_Ansi (advance n b x)) with (_parserMode_Ansi x).
  change (_isEngineForInput (advance n b x)) with (_isEngineForInput x). rewrite Hx1, Hx2. done.
Qed.

Lemma ss3_frame n b (x : SM) : let sm := advance n b (ss3_open x) in
  _state sm = Ss3Entry /\ _parameters sm = [] /\
  _engine sm = _engine x /\ _onCsiCompleteCallback sm = _onCsiCompleteCallback x /\
  _cachedSequence sm = _cachedSequence x /\ _isEngineForInput sm = _isEngineForInput x /\
  _parserMode_Ansi sm = _parserMode_Ansi x /\ _parserMode_AcceptC1 sm = _parserMode_AcceptC1 x /\
  _CurrentRun sm = _CurrentRun (advance n b x).
Proof. by destruct x. Qed.

Lemma ss3_body intro size (sm : SM) : ss3_introducer intro sm -> _state sm = Ground ->
  _parserMode_Ansi sm = true -> _isEngineForInput sm = true ->
  vt_moves size 0 intro sm /\ exists b, vt_feed size 0 intro sm = advance (length intro) b (ss3_open sm).
Proof.
  intros [-> | [-> Hc1]] Hg Ha Hi; cbn [vt_moves vt_feed length]; unfold vt_step.
  - rewrite step_escape, advance_twice, step_ss3 by done.
    destruct (ss3_frame (1 + 1) (size <=? 1 + 1)%nat sm) as (Hs & _). rewrite Hs.
    split; [split; [apply escape_moves|done]|]. by eexists.
  - assert (H9 : forall b, PC 0x8F (advance 1 b sm) = advance 1 b (ss3_open sm)).
    { intros b. rewrite (ProcessCharacter_SS3 (advance 1 b sm) Hc1), step_escape, step_ss3 by done. done. }
    rewrite H9. destruct (ss3_frame 1 (size <=? 0 + 1)%nat sm) as (Hs & _). rewrite Hs. split; [done|]. by eexists.
Qed.

Lemma ss3_string intro f (sm : SM) : ss3_introducer intro sm -> _state sm = Ground ->
  _parserMode_Ansi sm = true -> _isEngineForInput sm = true -> 0x40 <= f <= 0x7E ->
  let text := intro ++ [f] in
  exists sm', at_dispatch text sm sm' /\
    ProcessString runCallback text sm
    = processString_tail ((safely (ActionSs3Dispatch f (VTParameters_plain [])) ;> _EnterGround) sm').
Proof.
  intros Hin Hg Ha Hi Hf text. set (size := length text). set (sm1 := string_start text sm).
  destruct (ss3_body intro size sm1) as (Hmoves & b & Hb); [done..|].
  exists (advance 1 (size <=? length intro + 1)%nat (vt_feed size 0 intro sm1)).
  rewrite Hb, advance_twice.
  destruct (ss3_frame (1 + length intro) (size <=? length intro + 1)%nat sm1)
    as (F0 & Fp & F1 & F2 & F3 & F4 & F5 & F6 & F7).
  split.
  { split; try done. rewrite F7. apply advance_run; try done. unfold text. rewrite length_app. cbn. lia. }
  unfold text. rewrite string_of_sequence; [|done|exact Hmoves|].
  2:{ destruct Hin as [-> | [-> _]]; by apply scan_stops. }
  fold text. fold size. fold sm1. rewrite Hb, advance_twice. f_equal.
  rewrite ProcessCharacter_ordinary by (unfold ordinary; autounfold with chars; lia). unfold dispatch_event.
  rewrite F0. unfold _EventSs3Entry.
  assert (_isC0Code f = false /\ _isDelete f = false /\ _isSubParameterDelimiter f = false /\
          _isNumericParamValue f = false /\ _isParameterDelimiter f = false) as (-> & -> & -> & -> & ->)
    by (autounfold with chars; lia).
  cbn [orb]. unfold seq_step, _ActionSs3Dispatch. by rewrite Fp.
Qed.
End Strings.
