(* ===== verification/ParserEquiv.v ===== *)
(** * Chunking

    The parser receives its input in fragments, and prints runs of plain
    text with one engine call instead of one per character.  Neither matters
    to an engine that never refuses an action and for which printing a
    string is printing its characters: [ProcessString] has the effect of
    processing the characters one by one, however the input is cut. *)

From S2P Require Import Prelude VTTypes StateMachine ParserFacts ParserRoundtrip.
From stdpp Require Import prelude.
#[local] Open Scope Z_scope.

(** ** The scan for the end of a run *)

Lemma isActionable_control c :
  0 <= c < 65536 -> isActionableFromGround c = true <-> c <= 0x1F \/ 0x7F <= c <= 0x9F.
Proof.
  intros Hc. unfold isActionableFromGround, u16.
  destruct (decide (c < 0x7F)).
  - rewrite (Z.mod_eq (c - 0x7F)) by lia.
    assert ((c - 0x7F) / 2 ^ 16 = -1) as -> by (symmetry; apply Z.div_unique with (c + 65409); lia). lia.
  - rewrite Z.mod_small by lia. lia.
Qed.

Lemma sse_lane_correct c : 0 <= c < 65536 -> sse_lane c = isActionableFromGround c.
Proof.
  intros Hc. unfold sse_lane, isActionableFromGround, subs_epu16.
  assert (u16 (c + 0xFF81) = u16 (c - 0x7F)) as ->
    by (unfold u16; replace (c + 0xFF81) with (c - 0x7F + 1 * 2 ^ 16) by lia; apply Z.mod_add; lia).
  apply eq_bool_prop_intro. rewrite !Is_true_true. lia.
Qed.

Lemma sse_first_correct b rest :
  Forall wide b ->
  findActionable (b ++ rest)
  = match sse_first b with Some n => n | None => (length b + findActionable rest)%nat end.
Proof.
  induction 1 as [|c b Hc _ IH]; [done|]. cbn. rewrite sse_lane_correct by exact Hc.
  destruct (isActionableFromGround c); [done|]. rewrite IH. by destruct (sse_first b).
Qed.

Lemma sse_scan_correct s :
  Forall wide s -> FindActionableControlCharacter s = findActionable s.
Proof.
  intros Hf. unfold FindActionableControlCharacter.
  assert (Hgo : forall n s, Forall wide s -> (8 * n <= length s)%nat ->
            findActionable_sse n s = findActionable s).
  { clear s Hf. induction n as [|n IH]; intros s Hf Hl; [done|]. cbn [findActionable_sse].
    rewrite IH by (try apply Forall_drop; try done; rewrite length_drop; lia).
    transitivity (findActionable (take 8 s ++ drop 8 s)); [|by rewrite take_drop].
    rewrite sse_first_correct by (by apply Forall_take).
    rewrite length_take. replace (8 `min` length s)%nat with 8%nat by lia. done. }
  apply Hgo; [done|]. pose proof (Nat.div_mod_eq (length s) 8). lia.
Qed.

Lemma findActionable_take s : Forall (fun c => isActionableFromGround c = false) (take (findActionable s) s).
Proof.
  induction s as [|c s IH]; cbn; [constructor|].
  destruct (isActionableFromGround c) eqn:Hc; cbn; by constructor.
Qed.

Lemma findActionable_le s : (findActionable s <= length s)%nat.
Proof. induction s as [|c s IH]; cbn; [lia|]. destruct (isActionableFromGround c); lia. Qed.

Lemma findActionable_stop s c :
  s !! findActionable s = Some c -> isActionableFromGround c = true.
Proof.
  induction s as [|d s IH]; cbn; [done|].
  destruct (isActionableFromGround d) eqn:Hd; cbn; [congruence|done].
Qed.

Lemma neon_first_correct h rest :
  findActionable (h ++ rest)
  = match neon_first h with Some n => n | None => (length h + findActionable rest)%nat end.
Proof.
  induction h as [|c h IH]; [done|]. cbn. change (neon_lane c) with (isActionableFromGround c).
  destruct (isActionableFromGround c); [done|]. rewrite IH. by destruct (neon_first h).
Qed.

Lemma neon_scan_correct s : FindActionableControlCharacter_neon s = findActionable s.
Proof.
  unfold FindActionableControlCharacter_neon.
  assert (Hgo : forall n s, (8 * n <= length s)%nat -> findActionable_neon n s = findActionable s).
  { clear s. induction n as [|n IH]; intros s Hl; [done|]. cbn [findActionable_neon].
    rewrite IH by (rewrite length_drop; lia).
    transitivity (findActionable (take 4 (take 8 s) ++ drop 4 (take 8 s) ++ drop 8 s));
      [|by rewrite app_assoc, !take_drop].
    rewrite !neon_first_correct, length_drop, !length_take.
    replace (8 `min` length s)%nat with 8%nat by lia.
    destruct (neon_first (take 4 _)); [done|].
    by destruct (neon_first (drop 4 _)). }
  apply Hgo. pose proof (Nat.div_mod_eq (length s) 8). lia.
Qed.

(** C31: the SSE2 scan for the end of a printable run, which looks at eight
    characters at a time with saturating arithmetic, and the NEON scan, which
    looks at two groups of four, stop at the same position as the plain loop:
    nothing before it is a C0 control, DEL or a C1 control, and the character
    at it, if there is one, is. *)
Theorem FindActionable_scalar s :
  Forall wide s ->
  let n := FindActionableControlCharacter s in
  n = findActionable s /\ n = FindActionableControlCharacter_neon s /\ (n <= length s)%nat /\
  Forall (fun c => 0x1F < c < 0x7F \/ 0x9F < c) (take n s) /\
  (forall c, s !! n = Some c -> c <= 0x1F \/ 0x7F <= c <= 0x9F).
Proof.
  intros Hf. cbn zeta. rewrite (sse_scan_correct s Hf).
  rewrite neon_scan_correct. do 2 (split; [done|]). split; [apply findActionable_le|]. split.
  - pose proof (Forall_take _ (findActionable s) s Hf) as Hw.
    eapply Forall_impl; [apply Forall_and; split; [exact Hw|apply findActionable_take]|].
    cbn. intros c [Hc Ha]. pose proof (isActionable_control c Hc) as Hi. rewrite Ha in Hi.
    destruct (decide (c <= 0x1F \/ 0x7F <= c <= 0x9F)) as [H'|]; [by apply Hi in H'|lia].
  - intros c Hc. apply isActionable_control; [|by eapply findActionable_stop].
    rewrite Forall_lookup in Hf. by eapply Hf.
Qed.

(** ** What an engine promises *)

Section Laws.
Context {E CB H : Type} `{Eng : !IStateMachineEngine E CB H}.

Definition accepts {R} (r : EngineResult CB E R) (bad : R) : Prop := er_result r <> Some bad.

(** The engine never refuses an action, and printing a run of printable
    characters is printing each of them. *)
Class EngineLaws : Prop := {
  acc_Execute c e : accepts (ActionExecute c e) false;
  acc_ExecuteFromEscape c e : accepts (ActionExecuteFromEscape c e) false;
  acc_Print c e : accepts (ActionPrint c e) false;
  acc_PrintString s e : accepts (ActionPrintString s e) false;
  acc_Esc id e : accepts (ActionEscDispatch id e) false;
  acc_Vt52 id ps e : accepts (ActionVt52EscDispatch id ps e) false;
  acc_Csi id ps e : accepts (ActionCsiDispatch id ps e) false;
  acc_Osc n s e : accepts (ActionOscDispatch n s e) false;
  acc_Ss3 c ps e : accepts (ActionSs3Dispatch c ps e) false;
  print_cons c s e :
    Forall (fun c => isActionableFromGround c = false) (c :: s) ->
    let r1 := ActionPrint c e in
    let r2 := ActionPrintString s (er_engine r1) in
    er_engine (ActionPrintString (c :: s) e) = (match s with [] => er_engine r1 | _ => er_engine r2 end) /\
    er_requests (ActionPrintString (c :: s) e)
    = (match s with [] => er_requests r1 | _ => er_requests r1 ++ er_requests r2 end);
}.
End Laws.
Arguments EngineLaws E CB H {Eng}.

(** ** Equivalence of machines

    Equality up to the members that describe the fragment being processed. *)

Section Equiv.
Context {E CB H : Type} `{Eng : !IStateMachineEngine E CB H}.
Abbreviation SM := (StateMachine E CB H).

Definition norm (sm : SM) : SM :=
  sm <| _currentString := [] |> <| _runOffset := 0%nat |> <| _runSize := 0%nat |>
     <| _cachedSequence := None |> <| _injections := [] |> <| _processingLastCharacter := false |>.

Definition sm_equiv (a b : SM) : Prop := norm a = norm b.

#[export] Instance sm_equiv_equivalence : Equivalence sm_equiv.
Proof. split; unfold sm_equiv; congruence. Qed.
End Equiv.
#[export] Hint Extern 0 (Equivalence sm_equiv) => apply sm_equiv_equivalence : typeclass_instances.

Infix "≈" := sm_equiv (at level 70) : term_scope.
#[global] Arguments norm : simpl never.

(** Two equivalent machines, seen as one with two fragments. *)
Ltac equiv_destruct Hab :=
  match type of Hab with
  | sm_equiv ?a ?b =>
      destruct a, b; unfold sm_equiv, norm in Hab; cbn in Hab; injection Hab; intros; subst; clear Hab
  end.

Section Respect.
Context {E CB H : Type} `{Eng : !IStateMachineEngine E CB H}.
Abbreviation SM := (StateMachine E CB H).

Definition respects (f : SM -> SM) : Prop := forall a b, a ≈ b -> f a ≈ f b.

Lemma respects_seq f g : respects f -> respects g -> respects (f ;> g).
Proof. intros Hf Hg a b Hab. by apply Hg, Hf. Qed.

Lemma respects_if (c : bool) f g :
  respects f -> respects g -> respects (if c then f else g).
Proof. by destruct c. Qed.

Ltac pure := let a := fresh in let b := fresh in let Hab := fresh in
  intros a b Hab; equiv_destruct Hab; done.

Lemma respects_request r : respects (apply_request r).
Proof. destruct r as [[]| |]; pure. Qed.

Lemma respects_requests rs : respects (apply_requests rs).
Proof.
  unfold apply_requests. induction rs as [|r rs IH]; intros a b Hab; [done|]. cbn.
  by apply IH, respects_request.
Qed.

Lemma equiv_engine (a b : SM) : a ≈ b -> _engine a = _engine b.
Proof. intros Hab. exact (f_equal _engine Hab). Qed.

Lemma equiv_state (a b : SM) : a ≈ b -> _state a = _state b.
Proof. intros Hab. exact (f_equal _state Hab). Qed.

Lemma respects_set_engine e : respects (fun sm => sm <| _engine := e |>).
Proof. pure. Qed.

Lemma safely_accepts call (sm : SM) :
  accepts (call (_engine sm)) false ->
  safely call sm = apply_requests (er_requests (call (_engine sm)))
                     (sm <| _engine := er_engine (call (_engine sm)) |>).
Proof.
  unfold safely, _SafeExecute, SafeExecute_with, engine_call, accepts.
  destruct (er_result _) as [[]|]; [done|congruence|done].
Qed.

Lemma respects_safely call :
  (forall e, accepts (call e) false) -> respects (safely call).
Proof.
  intros Hacc a b Hab. rewrite !safely_accepts by done. rewrite (equiv_engine a b Hab).
  by apply respects_requests, respects_set_engine.
Qed.
End Respect.

Create HintDb respects discriminated.

Section Events.
Context {E CB H : Type} `{Eng : !IStateMachineEngine E CB H} {Laws : EngineLaws E CB H}.
Abbreviation SM := (StateMachine E CB H).
Variable runCallback : CB -> SM -> SM.
Hypothesis runCallback_respects : forall cb, respects (runCallback cb).

(** A statement that changes members by a case analysis on members. *)
Ltac pure := let a := fresh in let b := fresh in let Hab := fresh in
  intros a b Hab; equiv_destruct Hab; cbn; repeat case_match; simplify_eq; done.

Lemma r_id : respects (fun sm : SM => sm). Proof. pure. Qed.
Lemma r_Ignore : respects (_ActionIgnore : SM -> SM). Proof. pure. Qed.
Lemma r_state s : respects (fun sm : SM => sm <| _state := s |>). Proof. pure. Qed.
Lemma r_cached c : respects (fun sm : SM => sm <| _cachedSequence := c |>). Proof. pure. Qed.
Lemma r_Collect c : respects (_ActionCollect c : SM -> SM). Proof. pure. Qed.
Lemma r_Clear : respects (_ActionClear : SM -> SM). Proof. pure. Qed.
Lemma r_OscParam c : respects (_ActionOscParam c : SM -> SM). Proof. pure. Qed.
Lemma r_OscPut c : respects (_ActionOscPut c : SM -> SM). Proof. pure. Qed.
Lemma r_handler h : respects (fun sm : SM => sm <| _dcsStringHandler := h |>). Proof. pure. Qed.
Lemma r_push c : respects (fun sm : SM => sm <| _parameters := _parameters sm ++ [c] |>).
Proof. pure. Qed.

Lemma r_ensure : respects (ensure_parameter : SM -> SM).
Proof. unfold ensure_parameter, push_parameter. pure. Qed.

Lemma equiv_params (a b : SM) :
  a ≈ b -> _parameters a = _parameters b /\ _subParameters a = _subParameters b /\
    _parameterLimitOverflowed a = _parameterLimitOverflowed b /\
    _subParameterLimitOverflowed a = _subParameterLimitOverflowed b /\
    _subParameterCounter a = _subParameterCounter b.
Proof. intros Hab. equiv_destruct Hab. done. Qed.

Lemma r_Param c : respects (_ActionParam c : SM -> SM).
Proof.
  intros a b Hab. unfold _ActionParam. destruct (equiv_params a b Hab) as (_ & _ & -> & _).
  destruct (_parameterLimitOverflowed b); [done|]. apply r_ensure in Hab.
  revert Hab. generalize (ensure_parameter a) (ensure_parameter b). clear a b. intros a b Hab.
  destruct (equiv_params a b Hab) as (-> & _).
  repeat step_if; unfold push_parameter; equiv_destruct Hab; done.
Qed.

Lemma r_SubParam c : respects (_ActionSubParam c : SM -> SM).
Proof.
  intros a b Hab. unfold _ActionSubParam. destruct (equiv_params a b Hab) as (_ & _ & _ & -> & _).
  destruct (_subParameterLimitOverflowed b); [done|]. apply r_ensure in Hab.
  revert Hab. generalize (ensure_parameter a) (ensure_parameter b). clear a b. intros a b Hab.
  destruct (equiv_params a b Hab) as (_ & -> & _ & _ & ->).
  repeat step_if; equiv_destruct Hab; done.
Qed.

Lemma r_EnterEscape : respects (_EnterEscape : SM -> SM).
Proof. intros a b Hab. by apply r_Clear, r_state. Qed.
Lemma r_EnterCsiEntry : respects (_EnterCsiEntry : SM -> SM).
Proof. intros a b Hab. by apply r_Clear, r_state. Qed.
Lemma r_EnterSs3Entry : respects (_EnterSs3Entry : SM -> SM).
Proof. intros a b Hab. by apply r_Clear, r_state. Qed.
Lemma r_EnterDcsEntry : respects (_EnterDcsEntry : SM -> SM).
Proof. intros a b Hab. by apply r_Clear, r_state. Qed.
Lemma r_EnterGround : respects (_EnterGround : SM -> SM).
Proof. intros a b Hab. by apply r_cached, r_state. Qed.
Lemma r_EnterDcsIgnore : respects (_EnterDcsIgnore : SM -> SM).
Proof. intros a b Hab. by apply r_cached, r_state. Qed.
Lemma r_EnterDcsPassThrough : respects (_EnterDcsPassThrough : SM -> SM).
Proof. intros a b Hab. by apply r_cached, r_state. Qed.
Lemma r_EnterSosPmApcString : respects (_EnterSosPmApcString : SM -> SM).
Proof. intros a b Hab. by apply r_cached, r_state. Qed.

Lemma r_Execute c : respects (_ActionExecute c : SM -> SM).
Proof. apply respects_safely. intros; apply acc_Execute. Qed.
Lemma r_ExecuteFromEscape c : respects (_ActionExecuteFromEscape c : SM -> SM).
Proof. apply respects_safely. intros; apply acc_ExecuteFromEscape. Qed.
Lemma r_Print c : respects (_ActionPrint c : SM -> SM).
Proof. apply respects_safely. intros; apply acc_Print. Qed.
Lemma r_PrintString s : respects (_ActionPrintString s : SM -> SM).
Proof. apply respects_safely. intros; apply acc_PrintString. Qed.

(** A dispatch of what the machine has collected. *)
Lemma respects_dispatch (g : SM -> E -> EngineResult CB E bool) :
  (forall a b, a ≈ b -> g a = g b) -> (forall a e, accepts (g a e) false) ->
  respects (fun sm => safely (g sm) sm).
Proof. intros Hg Hacc a b Hab. rewrite (Hg a b Hab). by apply respects_safely. Qed.

Ltac dispatch lem := apply respects_dispatch;
  [intros ? ? Hab; equiv_destruct Hab; done|intros; apply lem].

Lemma r_EscDispatch c : respects (_ActionEscDispatch c : SM -> SM).
Proof. dispatch acc_Esc. Qed.
Lemma r_Vt52EscDispatch c : respects (_ActionVt52EscDispatch c : SM -> SM).
Proof. dispatch acc_Vt52. Qed.
Lemma r_CsiDispatch c : respects (_ActionCsiDispatch c : SM -> SM).
Proof. dispatch acc_Csi. Qed.
Lemma r_OscDispatch : respects (_ActionOscDispatch : SM -> SM).
Proof. dispatch acc_Osc. Qed.
Lemma r_Ss3Dispatch c : respects (_ActionSs3Dispatch c : SM -> SM).
Proof. dispatch acc_Ss3. Qed.

Lemma r_DcsDispatch c : respects (_ActionDcsDispatch c : SM -> SM).
Proof.
  intros a b Hab. unfold _ActionDcsDispatch, engine_call.
  assert (Hs : _identifier a = _identifier b /\ _parameters a = _parameters b)
    by (equiv_destruct Hab; done).
  destruct Hs as [-> ->]. rewrite (equiv_engine a b Hab).
  set (r := ActionDcsDispatch _ _ _). cbv zeta.
  assert (Hr : apply_requests (er_requests r) (a <| _engine := er_engine r |>)
             ≈ apply_requests (er_requests r) (b <| _engine := er_engine r |>))
    by (by apply respects_requests, respects_set_engine).
  set (x := apply_requests _ (setter _ _ a)) in *. set (y := apply_requests _ (setter _ _ b)) in *.
  clearbody x y. clear Hab.
  destruct (er_result r) as [h|].
  - cbn [_dcsStringHandler setter].
    destruct h; [by apply r_EnterDcsPassThrough, r_handler|by apply r_EnterDcsIgnore, r_handler].
  - assert (_dcsStringHandler x = _dcsStringHandler y) as -> by (equiv_destruct Hr; done).
    destruct (_dcsStringHandler y); [by apply r_EnterDcsPassThrough|by apply r_EnterDcsIgnore].
Qed.

Lemma call_handler_respects c (a b : SM) :
  a ≈ b -> fst (call_dcsStringHandler c a) ≈ fst (call_dcsStringHandler c b) /\
           snd (call_dcsStringHandler c a) = snd (call_dcsStringHandler c b).
Proof.
  intros Hab. unfold call_dcsStringHandler.
  assert (_dcsStringHandler a = _dcsStringHandler b) as -> by (equiv_destruct Hab; done).
  rewrite (equiv_engine a b Hab). destruct (_dcsStringHandler b) as [h|]; [|done].
  destruct (StringHandler_call h c (_engine b)) as [[e m] rs]. cbn. split; [|done].
  by apply respects_requests, respects_set_engine.
Qed.

Lemma r_Interrupt : respects (_ActionInterrupt : SM -> SM).
Proof.
  intros a b Hab. unfold _ActionInterrupt. rewrite (equiv_state a b Hab).
  destruct (_state b); try done. apply r_handler. by apply call_handler_respects.
Qed.

Lemma r_callback : respects (_ExecuteCsiCompleteCallback runCallback).
Proof.
  intros a b Hab. unfold _ExecuteCsiCompleteCallback.
  assert (Hc : _onCsiCompleteCallback a = _onCsiCompleteCallback b) by (equiv_destruct Hab; done).
  rewrite Hc. destruct (_onCsiCompleteCallback b) as [cb|]; [|done].
  assert (Hn : a <| _onCsiCompleteCallback := None |> ≈ b <| _onCsiCompleteCallback := None |>)
    by (equiv_destruct Hab; done).
  apply (runCallback_respects cb) in Hn. equiv_destruct Hn. done.
Qed.

Hint Resolve r_id r_Ignore r_state r_Collect r_Clear r_OscParam r_OscPut r_Param r_SubParam
  r_EnterEscape r_EnterCsiEntry r_EnterSs3Entry r_EnterDcsEntry r_EnterGround r_EnterDcsIgnore
  r_EnterDcsPassThrough r_EnterSosPmApcString r_Execute r_ExecuteFromEscape r_Print
  r_EscDispatch r_Vt52EscDispatch r_CsiDispatch r_OscDispatch r_Ss3Dispatch r_DcsDispatch
  r_callback r_Interrupt respects_seq respects_if : respects.

Ltac event := auto 20 with respects.

Lemma r_EventGround c : respects (_EventGround c : SM -> SM).
Proof. unfold _EventGround. event. Qed.
Lemma r_EventCsiEntry c : respects (_EventCsiEntry runCallback c).
Proof. unfold _EventCsiEntry, _EnterCsiIntermediate, _EnterCsiParam, _EnterCsiSubParam. event. Qed.
Lemma r_EventCsiIntermediate c : respects (_EventCsiIntermediate runCallback c).
Proof. unfold _EventCsiIntermediate, _EnterCsiIgnore. event. Qed.
Lemma r_EventCsiIgnore c : respects (_EventCsiIgnore c : SM -> SM).
Proof. unfold _EventCsiIgnore. event. Qed.
Lemma r_EventCsiParam c : respects (_EventCsiParam runCallback c).
Proof. unfold _EventCsiParam, _EnterCsiIntermediate, _EnterCsiIgnore, _EnterCsiSubParam. event. Qed.
Lemma r_EventCsiSubParam c : respects (_EventCsiSubParam runCallback c).
Proof. unfold _EventCsiSubParam, _EnterCsiIntermediate, _EnterCsiIgnore, _EnterCsiParam. event. Qed.
Lemma r_EventOscParam c : respects (_EventOscParam c : SM -> SM).
Proof. unfold _EventOscParam, _EnterOscTermination, _EnterOscString. event. Qed.
Lemma r_EventOscString c : respects (_EventOscString c : SM -> SM).
Proof. unfold _EventOscString, _EnterOscTermination. event. Qed.
Lemma r_EventSs3Entry c : respects (_EventSs3Entry c : SM -> SM).
Proof. unfold _EventSs3Entry, _EnterCsiIgnore, _EnterSs3Param. event. Qed.
Lemma r_EventSs3Param c : respects (_EventSs3Param c : SM -> SM).
Proof. unfold _EventSs3Param, _EnterCsiIgnore. event. Qed.
Lemma r_EventDcsEntry c : respects (_EventDcsEntry c : SM -> SM).
Proof. unfold _EventDcsEntry, _EnterDcsParam, _EnterDcsIntermediate. event. Qed.
Lemma r_EventDcsIntermediate c : respects (_EventDcsIntermediate c : SM -> SM).
Proof. unfold _EventDcsIntermediate. event. Qed.
Lemma r_EventDcsParam c : respects (_EventDcsParam c : SM -> SM).
Proof. unfold _EventDcsParam, _EnterDcsIntermediate. event. Qed.

Lemma equiv_modes (a b : SM) :
  a ≈ b -> _isEngineForInput a = _isEngineForInput b /\ _parserMode_Ansi a = _parserMode_Ansi b /\
    _parserMode_AcceptC1 a = _parserMode_AcceptC1 b.
Proof. intros Hab. equiv_destruct Hab. done. Qed.

Lemma r_EnterEscapeIntermediate : respects (_EnterEscapeIntermediate : SM -> SM).
Proof. apply r_state. Qed.
Lemma r_EnterOscParam : respects (_EnterOscParam : SM -> SM).
Proof. apply r_state. Qed.
Lemma r_EnterVt52Param : respects (_EnterVt52Param : SM -> SM).
Proof. apply r_state. Qed.
Hint Resolve r_EnterEscapeIntermediate r_EnterOscParam r_EnterVt52Param : respects.

(** A handler whose guards read the modes: the guards agree, so the same
    branch is taken on both sides. *)
Ltac guarded a b Hab := repeat step_if; refine ((_ : respects _) a b Hab); clear -Laws; event.

Lemma r_EventEscape c : respects (_EventEscape c : SM -> SM).
Proof.
  intros a b Hab. unfold _EventEscape. destruct (equiv_modes a b Hab) as (-> & -> & _).
  guarded a b Hab.
Qed.

Lemma r_EventEscapeIntermediate c : respects (_EventEscapeIntermediate c : SM -> SM).
Proof.
  intros a b Hab. unfold _EventEscapeIntermediate. destruct (equiv_modes a b Hab) as (_ & -> & _).
  guarded a b Hab.
Qed.

Lemma r_EventOscTermination c : respects (_EventOscTermination c : SM -> SM).
Proof.
  unfold _EventOscTermination. apply respects_if; [event|].
  apply respects_seq; [event|apply r_EventEscape].
Qed.

Lemma r_EventVt52Param c : respects (_EventVt52Param c : SM -> SM).
Proof.
  intros a b Hab. unfold _EventVt52Param. step_if; [by apply r_Execute|].
  step_if; [done|]. apply (r_push c) in Hab.
  destruct (equiv_params _ _ Hab) as (Hp & _). cbv zeta. rewrite Hp.
  destruct (_ =? 2)%nat; [|done]. by apply r_EnterGround, r_Vt52EscDispatch.
Qed.

Lemma r_EventDcsPassThrough c : respects (_EventDcsPassThrough c : SM -> SM).
Proof.
  intros a b Hab. unfold _EventDcsPassThrough. step_if; [|done].
  destruct (call_handler_respects c a b Hab) as [Hf Hm].
  destruct (call_dcsStringHandler c a) as [a' m], (call_dcsStringHandler c b) as [b' m'].
  cbn in *. subst m'. destruct m; [done|]. by apply r_EnterDcsIgnore.
Qed.

Lemma r_dispatch_event c : respects (dispatch_event runCallback c).
Proof.
  intros a b Hab. unfold dispatch_event. rewrite (equiv_state a b Hab).
  destruct (_state b).
  - by apply r_EventGround.
  - by apply r_EventEscape.
  - by apply r_EventEscapeIntermediate.
  - by apply r_EventCsiEntry.
  - by apply r_EventCsiIntermediate.
  - by apply r_EventCsiIgnore.
  - by apply r_EventCsiParam.
  - by apply r_EventCsiSubParam.
  - by apply r_EventOscParam.
  - by apply r_EventOscString.
  - by apply r_EventOscTermination.
  - by apply r_EventSs3Entry.
  - by apply r_EventSs3Param.
  - by apply r_EventVt52Param.
  - by apply r_EventDcsEntry.
  - by apply r_Ignore.
  - by apply r_EventDcsIntermediate.
  - by apply r_EventDcsParam.
  - by apply r_EventDcsPassThrough.
  - by apply r_Ignore.
Qed.

Lemma equiv_isState s (a b : SM) : a ≈ b -> isState s a = isState s b.
Proof. intros Hab. unfold isState. by rewrite (equiv_state a b Hab). Qed.

Lemma r_step rec c :
  (forall c, respects (rec c)) -> respects (processCharacter_step runCallback rec c).
Proof.
  intros Hrec a b Hab. unfold processCharacter_step. rewrite !(equiv_isState _ a b Hab).
  destruct (equiv_modes a b Hab) as (-> & _ & ->). cbv zeta.
  destruct (_ && negb _); [by apply r_EnterGround, r_Execute, r_Interrupt|].
  destruct (_isC1ControlCharacter c).
  { destruct (_parserMode_AcceptC1 b); [by apply Hrec, Hrec|done]. }
  destruct (_ && negb _); [by apply r_EnterEscape, r_Interrupt|]. by apply r_dispatch_event.
Qed.

Lemma r_ProcessCharacter c : respects (ProcessCharacter runCallback c).
Proof. apply r_step. intros. apply r_step. intros. apply r_id. Qed.

Lemma r_feed s : respects (feed runCallback s).
Proof.
  unfold feed. induction s as [|c s IH]; intros a b Hab; [done|]. cbn.
  by apply IH, r_ProcessCharacter.
Qed.
End Events.

(** ** The members [ProcessCharacter] leaves alone *)

Create HintDb keeps discriminated.

Section Keeps.
Context {E CB H : Type} `{Eng : !IStateMachineEngine E CB H}.
Abbreviation SM := (StateMachine E CB H).
Variable runCallback : CB -> SM -> SM.
Hypothesis runCallback_input : forall cb sm, _isEngineForInput (runCallback cb sm) = _isEngineForInput sm.

Definition kept (a b : SM) : Prop :=
  _currentString b = _currentString a /\ _isEngineForInput b = _isEngineForInput a.

Definition keeps (f : SM -> SM) : Prop := forall sm, kept sm (f sm).

Lemma kept_trans a b c : kept a b -> kept b c -> kept a c.
Proof. unfold kept. intros [] []. split; congruence. Qed.

Lemma keeps_seq f g : keeps f -> keeps g -> keeps (f ;> g).
Proof.
  intros Hf Hg sm. unfold seq_step. eapply kept_trans; [apply Hf|apply Hg].
Qed.

Lemma keeps_if (c : bool) f g : keeps f -> keeps g -> keeps (if c then f else g).
Proof. by destruct c. Qed.

Lemma keeps_core f : (forall sm, core (f sm) = core sm) -> keeps f.
Proof.
  intros Hf sm. split; [exact (f_equal c_string (Hf sm))|exact (f_equal c_input (Hf sm))].
Qed.

Lemma keeps_safely call : keeps (safely call).
Proof. apply keeps_core, core_safely. Qed.

Lemma keeps_dispatch (g : SM -> E -> EngineResult CB E bool) : keeps (fun sm => safely (g sm) sm).
Proof. intros sm. apply keeps_safely. Qed.

Lemma keeps_handler c : keeps (fun sm => fst (call_dcsStringHandler c sm)).
Proof. apply keeps_core, core_call_handler. Qed.

Ltac kpure := intros ?; repeat case_match; done.

Lemma keeps_id : keeps (fun sm : SM => sm). Proof. kpure. Qed.
Lemma keeps_state s : keeps (fun sm : SM => sm <| _state := s |>). Proof. kpure. Qed.
Lemma keeps_state2 s c : keeps (fun sm : SM => sm <| _state := s |> <| _cachedSequence := c |>).
Proof. kpure. Qed.
Lemma keeps_clear s : keeps (fun sm : SM => _ActionClear (sm <| _state := s |>)). Proof. kpure. Qed.
Lemma keeps_Collect c : keeps (_ActionCollect c : SM -> SM). Proof. kpure. Qed.
Lemma keeps_OscParam c : keeps (_ActionOscParam c : SM -> SM). Proof. kpure. Qed.
Lemma keeps_OscPut c : keeps (_ActionOscPut c : SM -> SM). Proof. kpure. Qed.
Lemma keeps_push c : keeps (fun sm : SM => sm <| _parameters := _parameters sm ++ [c] |>).
Proof. kpure. Qed.

Lemma keeps_Param c : keeps (_ActionParam c : SM -> SM).
Proof. intros sm. unfold _ActionParam, ensure_parameter, push_parameter. repeat case_match; done. Qed.
Lemma keeps_SubParam c : keeps (_ActionSubParam c : SM -> SM).
Proof. intros sm. unfold _ActionSubParam, ensure_parameter, push_parameter. repeat case_match; done. Qed.

Lemma keeps_callback : keeps (_ExecuteCsiCompleteCallback runCallback).
Proof.
  intros sm. unfold _ExecuteCsiCompleteCallback. destruct (_onCsiCompleteCallback sm); [|done].
  split; [done|]. cbn. by rewrite runCallback_input.
Qed.

Lemma keeps_DcsDispatch c : keeps (_ActionDcsDispatch c : SM -> SM).
Proof.
  intros sm. unfold _ActionDcsDispatch. set (call := ActionDcsDispatch _ _).
  pose proof (core_engine_call call sm) as Hc. destruct (engine_call call sm) as [sm1 r]. cbn in Hc.
  pose proof (f_equal c_string Hc). pose proof (f_equal c_input Hc). unfold kept. cbn in *.
  destruct r; cbn; repeat case_match; done.
Qed.

Lemma keeps_Interrupt : keeps (_ActionInterrupt : SM -> SM).
Proof. intros sm. unfold _ActionInterrupt. destruct (_state sm); try done. apply (keeps_handler ESC). Qed.

Ltac keeps_tac :=
  repeat lazymatch goal with
  | |- keeps (if _ then _ else _) => apply keeps_if
  | |- keeps (_ ;> _) => apply keeps_seq
  | |- keeps (_ActionCollect _) => apply keeps_Collect
  | |- keeps (_ActionParam _) => apply keeps_Param
  | |- keeps (_ActionSubParam _) => apply keeps_SubParam
  | |- keeps (_ActionOscParam _) => apply keeps_OscParam
  | |- keeps (_ActionOscPut _) => apply keeps_OscPut
  | |- keeps (_ActionDcsDispatch _) => apply keeps_DcsDispatch
  | |- keeps (_ExecuteCsiCompleteCallback _) => apply keeps_callback
  | |- keeps (_ActionExecute _) => apply keeps_safely
  | |- keeps (_ActionExecuteFromEscape _) => apply keeps_safely
  | |- keeps (_ActionPrint _) => apply keeps_safely
  | |- keeps (_ActionEscDispatch _) => apply keeps_dispatch
  | |- keeps (_ActionVt52EscDispatch _) => apply keeps_dispatch
  | |- keeps (_ActionCsiDispatch _) => apply keeps_dispatch
  | |- keeps _ActionOscDispatch => apply keeps_dispatch
  | |- keeps (_ActionSs3Dispatch _) => apply keeps_dispatch
  | |- keeps _EnterGround => apply keeps_state2
  | |- keeps _EnterDcsIgnore => apply keeps_state2
  | |- keeps _EnterSosPmApcString => apply keeps_state2
  | |- keeps _EnterEscape => apply keeps_clear
  | |- keeps _EnterCsiEntry => apply keeps_clear
  | |- keeps _EnterSs3Entry => apply keeps_clear
  | |- keeps _EnterDcsEntry => apply keeps_clear
  | |- keeps _ActionIgnore => apply keeps_id
  | |- keeps (fun sm => sm) => apply keeps_id
  | |- keeps _ => apply keeps_state
  end.

Lemma keeps_EventEscape c : keeps (_EventEscape c).
Proof. intros sm. unfold _EventEscape. repeat step_if; refine ((_ : keeps _) sm); keeps_tac. Qed.

Lemma keeps_EventEscapeIntermediate c : keeps (_EventEscapeIntermediate c).
Proof.
  intros sm. unfold _EventEscapeIntermediate. repeat step_if; refine ((_ : keeps _) sm); keeps_tac.
Qed.

Lemma keeps_EventOscTermination c : keeps (_EventOscTermination c).
Proof.
  unfold _EventOscTermination. apply keeps_if; [keeps_tac|].
  apply keeps_seq; [keeps_tac|apply keeps_EventEscape].
Qed.

Lemma keeps_EventVt52Param c : keeps (_EventVt52Param c).
Proof.
  intros sm. unfold _EventVt52Param. step_if; [apply keeps_safely|]. step_if; [apply keeps_id|].
  cbv zeta. eapply kept_trans; [apply (keeps_push c)|].
  step_if; [refine ((_ : keeps _) _); keeps_tac|apply keeps_id].
Qed.

Lemma keeps_EventDcsPassThrough c : keeps (_EventDcsPassThrough c).
Proof.
  intros sm. unfold _EventDcsPassThrough. step_if; [|apply keeps_id].
  pose proof (keeps_handler c sm) as Hk. cbn in Hk.
  destruct (call_dcsStringHandler c sm) as [sm' []]; [done|].
  eapply kept_trans; [exact Hk|]. apply keeps_state2.
Qed.

Lemma keeps_EventCsiEntry c : keeps (_EventCsiEntry runCallback c).
Proof. unfold _EventCsiEntry. keeps_tac. Qed.
Lemma keeps_EventCsiIntermediate c : keeps (_EventCsiIntermediate runCallback c).
Proof. unfold _EventCsiIntermediate. keeps_tac. Qed.
Lemma keeps_EventCsiIgnore c : keeps (_EventCsiIgnore c).
Proof. unfold _EventCsiIgnore. keeps_tac. Qed.
Lemma keeps_EventCsiParam c : keeps (_EventCsiParam runCallback c).
Proof. unfold _EventCsiParam. keeps_tac. Qed.
Lemma keeps_EventCsiSubParam c : keeps (_EventCsiSubParam runCallback c).
Proof. unfold _EventCsiSubParam. keeps_tac. Qed.
Lemma keeps_EventOscParam c : keeps (_EventOscParam c).
Proof. unfold _EventOscParam. keeps_tac. Qed.
Lemma keeps_EventOscString c : keeps (_EventOscString c).
Proof. unfold _EventOscString. keeps_tac. Qed.
Lemma keeps_EventSs3Entry c : keeps (_EventSs3Entry c).
Proof. unfold _EventSs3Entry. keeps_tac. Qed.
Lemma keeps_EventSs3Param c : keeps (_EventSs3Param c).
Proof. unfold _EventSs3Param. keeps_tac. Qed.
Lemma keeps_EventDcsEntry c : keeps (_EventDcsEntry c).
Proof. unfold _EventDcsEntry. keeps_tac. Qed.
Lemma keeps_EventDcsIntermediate c : keeps (_EventDcsIntermediate c).
Proof. unfold _EventDcsIntermediate. keeps_tac. Qed.
Lemma keeps_EventDcsParam c : keeps (_EventDcsParam c).
Proof. unfold _EventDcsParam. keeps_tac. Qed.
Lemma keeps_EventGround c : keeps (_EventGround c).
Proof. unfold _EventGround. keeps_tac. Qed.

Lemma keeps_dispatch_event c : keeps (dispatch_event runCallback c).
Proof.
  intros sm. unfold dispatch_event. destruct (_state sm).
  - apply (keeps_EventGround c).
  - apply (keeps_EventEscape c).
  - apply (keeps_EventEscapeIntermediate c).
  - apply (keeps_EventCsiEntry c).
  - apply (keeps_EventCsiIntermediate c).
  - apply (keeps_EventCsiIgnore c).
  - apply (keeps_EventCsiParam c).
  - apply (keeps_EventCsiSubParam c).
  - apply (keeps_EventOscParam c).
  - apply (keeps_EventOscString c).
  - apply (keeps_EventOscTermination c).
  - apply (keeps_EventSs3Entry c).
  - apply (keeps_EventSs3Param c).
  - apply (keeps_EventVt52Param c).
  - apply (keeps_EventDcsEntry c).
  - apply keeps_id.
  - apply (keeps_EventDcsIntermediate c).
  - apply (keeps_EventDcsParam c).
  - apply (keeps_EventDcsPassThrough c).
  - apply keeps_id.
Qed.

Lemma keeps_step rec c : (forall c, keeps (rec c)) -> keeps (processCharacter_step runCallback rec c).
Proof.
  intros Hrec sm. unfold processCharacter_step. cbv zeta.
  destruct (_ && negb _).
  { refine ((_ : keeps _) sm). apply keeps_seq; [apply keeps_Interrupt|]. keeps_tac. }
  destruct (_isC1ControlCharacter c).
  { destruct (_parserMode_AcceptC1 sm); [|apply keeps_id].
    refine ((_ : keeps _) sm). by apply keeps_seq. }
  destruct (_ && negb _); [|apply keeps_dispatch_event].
  refine ((_ : keeps _) sm). apply keeps_seq; [apply keeps_Interrupt|]. keeps_tac.
Qed.

Lemma keeps_ProcessCharacter c : keeps (ProcessCharacter runCallback c).
Proof. apply keeps_step. intros. apply keeps_step. intros. apply keeps_id. Qed.
End Keeps.

(** ** [ProcessString] is [ProcessCharacter], character by character *)

Section Chunking.
Context {E CB H : Type} `{Eng : !IStateMachineEngine E CB H} {Laws : EngineLaws E CB H}.
Abbreviation SM := (StateMachine E CB H).
Variable runCallback : CB -> SM -> SM.
Hypothesis runCallback_respects : forall cb, respects (runCallback cb).
Hypothesis runCallback_input :
  forall cb sm, _isEngineForInput (runCallback cb sm) = _isEngineForInput sm.
#[local] Abbreviation Feed := (feed runCallback).

Lemma apply_requests_engine rs e (sm : SM) :
  (apply_requests rs sm) <| _engine := e |> = apply_requests rs (sm <| _engine := e |>).
Proof.
  unfold apply_requests. revert sm. induction rs as [|r rs IH]; intros sm; [done|].
  cbn [fold_left]. rewrite IH. f_equal. by destruct r as [[]| |].
Qed.

Lemma engine_apply_requests rs (sm : SM) : _engine (apply_requests rs sm) = _engine sm.
Proof.
  unfold apply_requests. revert sm. induction rs as [|r rs IH]; intros sm; [done|].
  cbn [fold_left]. rewrite IH. by destruct r as [[]| |].
Qed.

Lemma print_step c (sm : SM) :
  isActionableFromGround c = false -> _state sm = Ground ->
  ProcessCharacter runCallback c sm = _ActionPrint c sm.
Proof.
  intros Ha Hs.
  assert (Hc : ~ (c <= 0x1F \/ 0x7F <= c <= 0x9F)).
  { unfold isActionableFromGround in Ha. intros Hc. destruct (decide (c <= 0x1F)); [lia|].
    rewrite u16_small in Ha by lia. lia. }
  rewrite ProcessCharacter_ordinary by (unfold ordinary; autounfold with chars; lia).
  unfold dispatch_event. rewrite Hs. unfold _EventGround.
  assert (_isC0Code c || _isDelete c = false) as -> by (autounfold with chars; lia). done.
Qed.

(** Printing a run at once is printing its characters. *)
Lemma print_run run (sm : SM) :
  Forall (fun c => isActionableFromGround c = false) run -> run <> [] -> _state sm = Ground ->
  _ActionPrintString run sm = Feed run sm.
Proof.
  intros Hf. revert sm. induction Hf as [|c run Hc Hf IH]; intros sm Hne Hs; [done|].
  rewrite feed_cons, print_step by done.
  destruct (print_cons c run (_engine sm)) as [He Hr]; [by constructor|]. cbv zeta in He, Hr.
  unfold _ActionPrintString. rewrite safely_accepts by apply acc_PrintString. rewrite He, Hr.
  destruct run as [|c' run].
  - unfold _ActionPrint. cbn. by rewrite safely_accepts by apply acc_Print.
  - rewrite <- IH; [|done|]; [|unfold _ActionPrint; by rewrite state_safely].
    unfold _ActionPrintString, _ActionPrint.
    rewrite safely_accepts by apply acc_PrintString. rewrite safely_accepts by apply acc_Print.
    rewrite engine_apply_requests, apply_requests_engine. cbn [_engine setter].
    unfold apply_requests. by rewrite fold_left_app.
Qed.

Lemma equiv_run_fields o n l (sm : SM) :
  sm <| _runOffset := o |> <| _runSize := n |> ≈ sm /\
  sm <| _runSize := n |> <| _processingLastCharacter := l |> ≈ sm.
Proof. done. Qed.

Lemma vt_spec size i rest (sm : SM) :
  rest <> [] ->
  let '(i', rest', sm') := processString_vt runCallback size i rest sm in
  exists eaten, rest = eaten ++ rest' /\ i' = (i + length eaten)%nat /\ eaten <> [] /\
    sm' ≈ Feed eaten sm /\ kept sm sm' /\ (rest' <> [] -> _state sm' = Ground).
Proof.
  revert i sm. induction rest as [|c rest IH]; intros i sm Hne; [done|].
  cbn [processString_vt].
  set (sm0 := sm <| _runSize := _ |> <| _processingLastCharacter := _ |>).
  assert (H0 : sm0 ≈ sm) by done. assert (K0 : kept sm sm0) by done. clearbody sm0.
  pose proof (keeps_ProcessCharacter runCallback runCallback_input c sm0) as K1.
  pose proof (r_ProcessCharacter runCallback runCallback_respects c _ _ H0) as H1.
  set (sm1 := ProcessCharacter runCallback c sm0) in *. clearbody sm1.
  destruct rest as [|c' rest].
  - exists [c]. repeat split; try done; [cbn; lia|..]; apply (kept_trans _ _ _ K0 K1).
  - destruct (isState Ground sm1) eqn:Hg.
    + exists [c]. repeat split; try done; [cbn; lia|..]; try apply (kept_trans _ _ _ K0 K1).
      intros _. by apply bool_decide_eq_true in Hg.
    + specialize (IH (S i) sm1 ltac:(done)).
      destruct (processString_vt runCallback size (S i) (c' :: rest) sm1) as [[i' rest'] sm'].
      destruct IH as (eaten & Heq & Hi & Hn & Hs & Hk & Hgr).
      exists (c :: eaten). repeat split; try done.
      * cbn. by rewrite Heq.
      * cbn. lia.
      * etransitivity; [exact Hs|]. rewrite feed_cons. by apply r_feed.
      * apply (kept_trans _ _ _ (kept_trans _ _ _ K0 K1) Hk).
      * apply (kept_trans _ _ _ (kept_trans _ _ _ K0 K1) Hk).
Qed.

(** One printable run of the outer loop. *)
Lemma run_spec rest (sm sm1 : SM) :
  let n := findActionable rest in
  n <> 0%nat -> sm1 ≈ sm -> kept sm sm1 -> _state sm1 = Ground ->
  let x := _ActionPrintString (take n rest) sm1 in
  x ≈ Feed (take n rest) sm /\ kept sm x /\ _state x = Ground.
Proof.
  intros n Hn Heq Hk Hg x. split_and!.
  - unfold x. rewrite print_run; [by apply r_feed|apply findActionable_take| |done].
    destruct rest as [|c rest]; [done|]. by destruct n.
  - exact (kept_trans _ _ _ Hk (keeps_safely (ActionPrintString (take n rest)) sm1)).
  - unfold x, _ActionPrintString. by rewrite state_safely.
Qed.

Lemma loop_spec fuel size i rest string (sm : SM) :
  (length rest < fuel)%nat -> rest = drop i string -> Forall wide string ->
  _currentString sm = string -> (rest <> [] -> _state sm = Ground) ->
  processString_loop runCallback fuel size i rest sm ≈ Feed rest sm /\
  kept sm (processString_loop runCallback fuel size i rest sm).
Proof.
  revert i rest sm. induction fuel as [|fuel IH]; intros i rest sm Hfu Hr Hw Hc Hg; [lia|].
  cbn [processString_loop]. destruct rest as [|c0 rest0]; [done|].
  set (rest := c0 :: rest0) in *. specialize (Hg ltac:(done)).
  assert (Hwr : Forall wide rest) by (rewrite Hr; by apply Forall_drop).
  rewrite sse_scan_correct by done. set (n := findActionable rest).
  set (sm1 := sm <| _runOffset := i |> <| _runSize := n |>).
  assert (Hrun : _CurrentRun sm1 = take n rest).
  { unfold _CurrentRun, substr. cbn. by rewrite Hc, Hr. }
  set (p := if (n =? 0)%nat then _ else _).
  assert (Hp : fst p = (i + n)%nat /\ snd p ≈ Feed (take n rest) sm /\ kept sm (snd p) /\
               _state (snd p) = Ground).
  { unfold p. destruct (n =? 0)%nat eqn:Hn; cbn [fst snd].
    - apply Nat.eqb_eq in Hn. rewrite Hn, Nat.add_0_r. by repeat split.
    - apply Nat.eqb_neq in Hn. rewrite Hrun. split; [done|]. by apply (run_spec rest sm sm1). }
  destruct p as [i' sm2]. cbn [fst snd] in Hp. destruct Hp as (-> & H2 & K2 & G2).
  replace (Feed rest sm) with (Feed (drop n rest) (Feed (take n rest) sm))
    by (by rewrite <- feed_app, take_drop).
  destruct (drop n rest) as [|c' rest'] eqn:Hd; [done|].
  pose proof (vt_spec size (i + n) (c' :: rest') sm2 ltac:(done)) as Hv.
  destruct (processString_vt runCallback size (i + n) (c' :: rest') sm2) as [[i3 rest3] sm3].
  destruct Hv as (eaten & Heq & Hi & Hn & H3 & K3 & G3).
  assert (Hlen : (length rest3 < length rest)%nat).
  { assert (length (drop n rest) = (length rest - n)%nat) as Hl by apply length_drop.
    rewrite Hd, Heq, length_app in Hl. destruct eaten as [|e0 eaten]; [done|].
    change (length (e0 :: eaten)) with (S (length eaten)) in Hl. lia. }
  destruct (IH i3 rest3 sm3) as [HF HK].
  - lia.
  - subst i3. rewrite <- drop_drop. rewrite <- drop_drop, <- Hr, Hd, Heq.
    by rewrite drop_app_length.
  - done.
  - destruct K2 as [K2 _], K3 as [K3 _]. congruence.
  - done.
  - split; [|exact (kept_trans _ _ _ (kept_trans _ _ _ K2 K3) HK)].
    etransitivity; [exact HF|]. rewrite Heq, feed_app. apply r_feed; [done|].
    etransitivity; [exact H3|]. by apply r_feed.
Qed.

Lemma tail_equiv (sm : SM) : _isEngineForInput sm = false -> processString_tail sm ≈ sm.
Proof.
  intros Hi. unfold processString_tail. rewrite Hi. cbv zeta.
  destruct (isState Ground sm); [done|]. by destruct (_ || _).
Qed.

Lemma tail_input (sm : SM) :
  _isEngineForInput sm = false -> _isEngineForInput (processString_tail sm) = false.
Proof.
  intros Hi. unfold processString_tail. rewrite Hi. cbv zeta. by repeat step_if.
Qed.

(** The loops of [ProcessString], entered at the top or at the label. *)
Definition processString_loops (s : list Z) (sm : SM) : SM :=
  if isState Ground sm then processString_loop runCallback (S (length s)) (length s) 0 s sm
  else match s with
       | [] => sm
       | _ => let '(i, rest, sm) := processString_vt runCallback (length s) 0 s sm in
              processString_loop runCallback (S (length s)) (length s) i rest sm
       end.

Definition processString_start (s : list Z) (sm : SM) : SM :=
  sm <| _currentString := s |> <| _runOffset := 0%nat |> <| _runSize := 0%nat |> <| _injections := [] |>.

Lemma ProcessString_unfold s (sm : SM) :
  ProcessString runCallback s sm = processString_tail (processString_loops s (processString_start s sm)).
Proof. reflexivity. Qed.

Lemma loops_feed s (sm : SM) :
  Forall wide s -> _currentString sm = s ->
  processString_loops s sm ≈ Feed s sm /\ kept sm (processString_loops s sm).
Proof.
  intros Hw Hc1. unfold processString_loops. destruct (isState Ground sm) eqn:Hg.
  - apply bool_decide_eq_true in Hg. by apply (loop_spec _ _ _ _ s); try lia.
  - destruct s as [|c s']; [done|]. set (s := c :: s') in *.
    pose proof (vt_spec (length s) 0 s sm ltac:(done)) as Hv.
    destruct (processString_vt runCallback (length s) 0 s sm) as [[i3 rest3] sm3].
    destruct Hv as (eaten & Heq & Hi3 & Hn & H3 & K3 & G3).
    destruct (loop_spec (S (length s)) (length s) i3 rest3 s sm3) as [HF HK]; try done.
    + assert (length s = length (eaten ++ rest3)) as -> by (by rewrite Heq).
      rewrite length_app. lia.
    + rewrite Heq, Hi3. cbn [Nat.add]. by rewrite drop_app_length.
    + destruct K3 as [K3 _]. congruence.
    + split; [|exact (kept_trans _ _ _ K3 HK)].
      etransitivity; [exact HF|].
      replace (Feed s sm) with (Feed rest3 (Feed eaten sm)) by (by rewrite <- feed_app, <- Heq).
      by apply r_feed.
Qed.

Lemma ProcessString_feed s (sm : SM) :
  Forall wide s -> _isEngineForInput sm = false ->
  ProcessString runCallback s sm ≈ Feed s sm /\
  _isEngineForInput (ProcessString runCallback s sm) = false.
Proof.
  intros Hw Hi. rewrite ProcessString_unfold.
  assert (H1 : processString_start s sm ≈ sm) by done.
  destruct (loops_feed s (processString_start s sm) Hw eq_refl) as [H2 [_ K2]].
  change (_isEngineForInput (processString_start s sm)) with (_isEngineForInput sm) in K2.
  rewrite Hi in K2. split.
  - etransitivity; [by apply tail_equiv|]. etransitivity; [exact H2|]. by apply r_feed.
  - by apply tail_input.
Qed.

Definition ProcessStrings (chunks : list (list Z)) (sm : SM) : SM :=
  fold_left (fun sm s => ProcessString runCallback s sm) chunks sm.

Lemma ProcessStrings_cons s chunks (sm : SM) :
  ProcessStrings (s :: chunks) sm = ProcessStrings chunks (ProcessString runCallback s sm).
Proof. exact (fold_left_cons (fun sm s => ProcessString runCallback s sm) s chunks sm). Qed.

Lemma ProcessStrings_feed chunks (sm : SM) :
  Forall (Forall wide) chunks -> _isEngineForInput sm = false ->
  ProcessStrings chunks sm ≈ Feed (concat chunks) sm /\
  _isEngineForInput (ProcessStrings chunks sm) = false.
Proof.
  intros Hf. revert sm.
  induction Hf as [|s chunks Hs Hf IH]; intros sm Hi; [done|].
  rewrite ProcessStrings_cons, concat_cons, feed_app.
  destruct (ProcessString_feed s sm Hs Hi) as [Heq Hi'].
  destruct (IH _ Hi') as [HF HI]. split; [|exact HI].
  etransitivity; [exact HF|]. by apply r_feed.
Qed.

(** C3: the way the output is cut into fragments does not matter to a parser
    of output.  For an engine that never refuses an action and prints a string
    by printing its characters ([EngineLaws]), and a callback that neither
    looks at the members which describe the current fragment nor turns the
    machine into one for input, two sequences of [ProcessString] calls with
    the same concatenated text leave equivalent machines, and both are
    equivalent to feeding the characters one by one.  Equivalent machines have
    the same engine, state, modes, collected identifier, parameters, sub
    parameters and OSC string, string handler and callback; they may differ in
    the six members that only describe the fragments: the current string, the
    offset and size of the run, the text cached for passing on, the recorded
    injections and the mark of the last character. *)
Theorem chunking_irrelevant chunks1 chunks2 (sm : SM) :
  Forall (Forall wide) chunks1 -> Forall (Forall wide) chunks2 ->
  concat chunks1 = concat chunks2 -> _isEngineForInput sm = false ->
  ProcessStrings chunks1 sm ≈ ProcessStrings chunks2 sm /\
  ProcessStrings chunks1 sm ≈ feed runCallback (concat chunks1) sm.
Proof.
  intros H1 H2 Hc Hi.
  destruct (ProcessStrings_feed chunks1 sm H1 Hi) as [HF1 _].
  destruct (ProcessStrings_feed chunks2 sm H2 Hi) as [HF2 _].
  split; [|done]. etransitivity; [exact HF1|]. rewrite Hc. by symmetry.
Qed.
End Chunking.
