(* ===== verification/ParserWitness.v ===== *)
(** * Limits and corner cases of the VT parser

    What happens at the edges of the grammar: identifiers that do or do not
    collide, parameters beyond the limit, a control character inside the
    parameters of a device control string, and an engine that refuses
    pass-through strings; then a recording engine, and the theorems about the
    parser on concrete input. *)

From S2P Require Import Prelude VTTypes StateMachine ParserFacts ParserRoundtrip.
#[local] Open Scope Z_scope.

(** Two sequences get the same identifier only if they have the same
    marker and intermediates, in the same order, and the same final
    character, as long as the characters are non-null bytes and there are at
    most six intermediates. *)
Theorem identifier_injective s t f g :
  Forall nonnull s -> Forall nonnull t -> nonnull f -> nonnull g ->
  (length s <= 6)%nat -> (length t <= 6)%nat ->
  Finalize f (fold_left (fun b c => AddIntermediate c b) s VTIDBuilder_Clear)
  = Finalize g (fold_left (fun b c => AddIntermediate c b) t VTIDBuilder_Clear) ->
  s = t /\ f = g.
Proof.
  intros Hs Ht Hf Hg Hls Hlt.
  rewrite !Finalize_FromString by (auto using nonnull_bytes; unfold nonnull, byte in *; lia).
  intros Heq. apply VTID_FromString_inj in Heq.
  - by apply app_inj_tail in Heq.
  - apply Forall_app; split; [done|]. by apply Forall_singleton.
  - apply Forall_app; split; [done|]. by apply Forall_singleton.
  - rewrite length_app. cbn. lia.
  - rewrite length_app. cbn. lia.
Qed.

Section Limits.
Context {E CB H : Type} `{Eng : !IStateMachineEngine E CB H}.
Abbreviation SM := (StateMachine E CB H).
Variable runCallback : CB -> SM -> SM.

Lemma Finalize_wide i f :
  _isIntermediate i = true -> 0x40 <= f <= 0x7E ->
  Finalize (i + 256 * f) VTIDBuilder_Clear = VTID_FromString [i; f].
Proof.
  intros Hi Hf. autounfold with chars in Hi. unfold Finalize. cbn [_idAccumulator _idShift VTIDBuilder_Clear].
  rewrite Z.shiftl_mul_pow2 by lia. rewrite Z.mul_1_r, Z.add_0_l.
  rewrite !u64_small by (rewrite ?u64_small; lia).
  rewrite VTID_of_u64_small by lia.
  rewrite VTID_FromString_le; [cbn [le_value]; lia| |cbn; lia].
  constructor; [unfold byte; lia|]. constructor; [unfold byte; lia|]. constructor.
Qed.

(** The restriction to bytes in [identifier_injective] is needed: the
    parser takes any other character as the final one of a control
    sequence, and a character whose code is [256 * f + i] is dispatched
    with the very identifier of the intermediate [i] followed by [f] (so
    [CSI U+7120] is executed as [CSI SP q]). *)
Theorem wide_final_confused i f (sm : SM) :
  In (_state sm) [CsiEntry; CsiParam; CsiSubParam] -> _identifier sm = VTIDBuilder_Clear ->
  _isIntermediate i = true -> 0x40 <= f <= 0x7E ->
  ProcessCharacter runCallback (i + 256 * f) sm
  = (safely (ActionCsiDispatch (VTID_FromString [i; f])
              (mkVTParameters (_parameters sm) (_subParameters sm) (_subParameterRanges sm)))
     ;> _EnterGround ;> _ExecuteCsiCompleteCallback runCallback) sm.
Proof.
  intros Hs Hid Hi Hf. rewrite <- (Finalize_wide i f Hi Hf), <- Hid.
  set (w := i + 256 * f).
  assert (Hw : _isC0Code w = false /\ _isDelete w = false /\ _isNumericParamValue w = false /\
          _isParameterDelimiter w = false /\ _isSubParameterDelimiter w = false /\
          _isIntermediate w = false /\ _isCsiPrivateMarker w = false /\ ordinary w = true)
    by (unfold ordinary, w; autounfold with chars in *; lia).
  destruct Hw as (H1 & H2 & H3 & H4 & H5 & H6 & H7 & H8). clearbody w.
  rewrite ProcessCharacter_ordinary by done. unfold dispatch_event.
  destruct Hs as [Hs|[Hs|[Hs|[]]]]; rewrite <- Hs;
    unfold _EventCsiEntry, _EventCsiParam, _EventCsiSubParam, _isParameterInvalid;
    by rewrite H1, H2, ?H3, ?H4, ?H5, H6, H7.
Qed.

(** The handler of the DcsParam state ignores a C0 control and then
    falls through to the next test: the control is taken as the final
    character and the device control string is dispatched, whereas the
    DcsEntry and DcsIntermediate states ignore it as documented. *)
Theorem dcs_param_dispatches_c0 c (sm : SM) :
  _isC0Code c = true ->
  (_state sm = DcsParam -> ProcessCharacter runCallback c sm = _ActionDcsDispatch c sm) /\
  (_state sm = DcsEntry \/ _state sm = DcsIntermediate -> ProcessCharacter runCallback c sm = sm).
Proof.
  intros Hc.
  assert (_isNumericParamValue c = false /\ _isParameterDelimiter c = false /\
          _isSubParameterDelimiter c = false /\ _isIntermediate c = false /\
          _isCsiPrivateMarker c = false /\ ordinary c = true)
    as (H3 & H4 & H5 & H6 & H7 & H8) by (unfold ordinary; autounfold with chars in *; lia).
  rewrite ProcessCharacter_ordinary by done. unfold dispatch_event.
  split; [intros ->|intros [-> | ->]];
    unfold _EventDcsParam, _EventDcsEntry, _EventDcsIntermediate, _isParameterInvalid, seq_step;
    rewrite Hc; [|done|done]. by rewrite H3, H4, H5, H6, H7.
Qed.

(** A parameter beyond the thirty-second is dropped, but a sub
    parameter that follows it is not: it becomes the first sub parameter of
    the last parameter kept, which had none. *)
Theorem subparam_after_overflow gs p (sm : SM) :
  _state sm = CsiParam -> params_inv (gs ++ [(p, [])]) sm ->
  _parameterLimitOverflowed sm = true -> _subParameterLimitOverflowed sm = false ->
  _state (ProcessCharacter runCallback COLON sm) = CsiSubParam /\
  params_repr (gs ++ [(p, [VTParameter_default])]) (ProcessCharacter runCallback COLON sm) /\
  _parameters (ProcessCharacter runCallback COLON sm) = _parameters sm.
Proof.
  intros Hs (Hok & Hrep & _ & _) Ho Hso.
  rewrite ProcessCharacter_ordinary by done. unfold dispatch_event. rewrite Hs.
  unfold _EventCsiParam. cbn.
  assert (Hr : params_repr (groups_subparam COLON (gs ++ [(p, [])])) (_ActionSubParam COLON sm))
    by (apply ActionSubParam_refines; try done; discriminate).
  unfold groups_subparam in Hr. rewrite groups_ensure_snoc, back_snoc, set_back_snoc in Hr.
  change (params_repr (gs ++ [(p, [VTParameter_default])]) (_ActionSubParam COLON sm)) in Hr.
  unfold seq_step, _EnterCsiSubParam. split; [done|]. split; [exact Hr|].
  destruct Hr as [Hr _]. destruct Hrep as [Hrep _]. cbn. rewrite Hr, Hrep, !map_app. done.
Qed.

(** A refused action makes the machine pass the sequence through to
    the engine; if the engine never refuses a pass-through string the
    mutual recursion of [_SafeExecute] and [FlushToTerminal] is one level
    deep, and any bound on it gives the same result. *)
Theorem flush_terminates n (sm : SM) :
  (forall s e, er_result (ActionPassThroughString s e) <> Some false) ->
  (1 <= n)%nat -> FlushToTerminal_fuel n sm = FlushToTerminal sm.
Proof.
  intros Hp Hn. unfold FlushToTerminal.
  rewrite (FlushToTerminal_fuel_enough n) by done.
  by rewrite (FlushToTerminal_fuel_enough flushFuel) by (try done; unfold flushFuel; lia).
Qed.
End Limits.

(** * The parser at work

    A recording engine, and the theorems about the parser applied to it on
    concrete input. *)

From S2P Require Import ParserSafety.
From S2P Require Import ParserEquiv.

(** ** A recording engine

    It logs the actions it receives, one entry per printed character, accepts
    everything and hands out a string handler for every device control
    string. *)

Inductive Logged :=
| LExecute (c : Z) | LExecuteFromEscape (c : Z) | LPrint (c : Z) | LPassThrough (s : list Z)
| LEsc (id : Z) | LVt52 (id : Z) (ps : VTParameters) | LCsi (id : Z) (ps : VTParameters)
| LDcs (id : Z) (ps : VTParameters) | LData (c : Z) | LOsc (n : Z) (s : list Z)
| LSs3 (c : Z) (ps : VTParameters).

Definition Log := list Logged.

Definition logs (xs : list Logged) (log : Log) : EngineResult (list Z) Log bool :=
  mkEngineResult (log ++ xs) (Some true) [].

#[export] Instance Recorder : IStateMachineEngine Log (list Z) unit := {|
  EncounteredWin32InputModeSequence _ := false;
  ActionExecute c := logs [LExecute c];
  ActionExecuteFromEscape c := logs [LExecuteFromEscape c];
  ActionPrint c := logs [LPrint c];
  ActionPrintString s := logs (map LPrint s);
  ActionPassThroughString s := logs [LPassThrough s];
  ActionEscDispatch id := logs [LEsc id];
  ActionVt52EscDispatch id ps := logs [LVt52 id ps];
  ActionCsiDispatch id ps := logs [LCsi id ps];
  ActionDcsDispatch id ps log := mkEngineResult (log ++ [LDcs id ps]) (Some (Some tt)) [];
  ActionOscDispatch n s := logs [LOsc n s];
  ActionSs3Dispatch c ps := logs [LSs3 c ps];
  StringHandler_call _ c log := (log ++ [LData c], true, []);
|}.

#[export] Instance Recorder_laws : EngineLaws Log (list Z) unit.
Proof.
  split; try (intros; discriminate).
  intros c s e _. cbn. destruct s; [done|]. cbn. by rewrite <- app_assoc.
Qed.

Abbreviation RM := (StateMachine Log (list Z) unit).

Definition output_parser : RM := new_StateMachine [] false.
Definition no_callback (cb : list Z) (sm : RM) : RM := sm.

(** What the engine has received. *)
Definition received (s : string) : Log :=
  _engine (ProcessString no_callback (wstr s) output_parser).

Example hello :
  received "hi" = [LPrint 0x68; LPrint 0x69].
Proof. reflexivity. Qed.

Lemma parser_safe_witness :
  parser_wf (ProcessString no_callback (ESC :: wstr "[1;2:3") output_parser).
Proof.
  apply (parser_safe no_callback).
  - intros f sm Hw. exact Hw.
  - apply reach_string; [|apply reach_new]. repeat constructor; vm_compute; congruence.
Defined.

Lemma csi_roundtrip_witness :
  exists sm' : RM, _engine sm' = [] /\ _onCsiCompleteCallback sm' = None /\
    feed no_callback (csi_text [0x3F] [(25, []); (-1, []); (4, [3])] [0x24] 0x70) output_parser
    = (safely (ActionCsiDispatch (VTID_FromString (wstr "?$p"))
                (params_of [(25, []); (-1, []); (4, [3])]))
       ;> _EnterGround ;> _ExecuteCsiCompleteCallback no_callback) sm'.
Proof.
  apply (csi_roundtrip no_callback [0x3F] [(25, []); (-1, []); (4, [3])] [0x24] 0x70 output_parser);
    try (cbn; congruence); try reflexivity; try lia.
  - split; [cbn; lia|]. by repeat constructor.
  - split; [vm_compute; congruence|].
    repeat constructor; vm_compute; try congruence; right; split; congruence.
  - by repeat constructor.
  - cbn. lia.
Defined.

Lemma osc_roundtrip_witness :
  (exists sm' : RM, _engine sm' = [] /\
    feed no_callback (osc_sequence (wstr "2") (wstr "title") [ESC; 0x5C]) output_parser
    = (safely (ActionOscDispatch 2 (osc_kept (wstr "title"))) ;> _EnterGround) sm') /\
  (exists sm' : RM, _engine sm' = [] /\
    feed no_callback (osc_sequence (wstr "0099999") (wstr "title") [BEL]) output_parser
    = (safely (ActionOscDispatch MAX_PARAMETER_VALUE (osc_kept (wstr "title"))) ;> _EnterGround) sm').
Proof.
  split.
  - apply (osc_roundtrip no_callback (wstr "2") (wstr "title") [ESC; 0x5C] output_parser);
      try (cbn; congruence); try reflexivity; by repeat constructor.
  - apply (osc_roundtrip no_callback (wstr "0099999") (wstr "title") [BEL] output_parser);
      try (cbn; congruence); try reflexivity; by repeat constructor.
Defined.

(** A parser that has just received [ESC P 1 q]. *)
Definition in_sixel : RM := feed no_callback (ESC :: wstr "P1q") output_parser.

Lemma dcs_delivery_witness :
  feed no_callback (wstr "#0!5~" ++ [ESC]) in_sixel
  = _EnterEscape ((deliver (dcs_kept (wstr "#0!5~") ++ [ESC]) in_sixel) <| _dcsStringHandler := None |>).
Proof.
  apply (dcs_delivery no_callback tt (wstr "#0!5~") in_sixel); try reflexivity.
  repeat constructor.
Defined.

Lemma cancel_from_anywhere_witness :
  ProcessCharacter no_callback CAN in_sixel
  = _EnterGround (safely (ActionExecute CAN) (_ActionInterrupt in_sixel)) /\
  _state (ProcessCharacter no_callback CAN in_sixel) = Ground /\
  _cachedSequence (ProcessCharacter no_callback CAN in_sixel) = None.
Proof. apply (cancel_from_anywhere no_callback CAN in_sixel); [left; reflexivity|reflexivity]. Defined.

Definition c1_parser : RM := SetParserMode AcceptC1 true output_parser.

Lemma c1_equivalence_witness :
  ProcessCharacter no_callback 0x9B c1_parser
  = if _parserMode_AcceptC1 c1_parser then feed no_callback [ESC; 0x9B - 0x40] c1_parser else c1_parser.
Proof. apply (c1_equivalence no_callback 0x9B c1_parser). reflexivity. Defined.

Lemma FindActionable_scalar_witness :
  FindActionableControlCharacter (wstr "twelve chars" ++ [ESC]) = findActionable (wstr "twelve chars" ++ [ESC]).
Proof.
  apply (FindActionable_scalar (wstr "twelve chars" ++ [ESC])).
  repeat constructor; vm_compute; congruence.
Defined.

Lemma chunking_irrelevant_witness :
  ProcessStrings no_callback [wstr "ab" ++ [ESC]; wstr "[1mc"] output_parser
  ≈ ProcessStrings no_callback [wstr "a"; wstr "b" ++ ESC :: wstr "[1"; wstr "mc"] output_parser /\
  ProcessStrings no_callback [wstr "ab" ++ [ESC]; wstr "[1mc"] output_parser
  ≈ feed no_callback (concat [wstr "ab" ++ [ESC]; wstr "[1mc"]) output_parser.
Proof.
  apply (chunking_irrelevant no_callback).
  - intros cb a b Hab. exact Hab.
  - intros cb sm. reflexivity.
  - repeat constructor; vm_compute; congruence.
  - repeat constructor; vm_compute; congruence.
  - reflexivity.
  - reflexivity.
Defined.

Lemma identifier_injective_witness :
  [0x3F] = [0x3F] /\ 0x68 = 0x68.
Proof.
  apply (identifier_injective [0x3F] [0x3F] 0x68 0x68);
    try reflexivity; try (cbn; lia); try (repeat constructor; lia); split; reflexivity.
Defined.

(** A parser that has just received [ESC \[ ]. *)
Definition in_csi : RM := feed no_callback (ESC :: wstr "[") output_parser.

Lemma wide_final_confused_witness :
  ProcessCharacter no_callback (0x20 + 256 * 0x71) in_csi
  = (safely (ActionCsiDispatch (VTID_FromString (wstr " q"))
              (mkVTParameters (_parameters in_csi) (_subParameters in_csi) (_subParameterRanges in_csi)))
     ;> _EnterGround ;> _ExecuteCsiCompleteCallback no_callback) in_csi.
Proof.
  apply (wide_final_confused no_callback 0x20 0x71 in_csi);
    [left; reflexivity|reflexivity|reflexivity|lia].
Defined.

(** A parser that has just received [ESC P 1]. *)
Definition in_dcs_param : RM := feed no_callback (ESC :: wstr "P1") output_parser.

Lemma dcs_param_dispatches_c0_witness :
  ProcessCharacter no_callback LF in_dcs_param = _ActionDcsDispatch LF in_dcs_param.
Proof.
  refine (proj1 (dcs_param_dispatches_c0 no_callback LF in_dcs_param _) _); vm_compute; reflexivity.
Defined.

(** A parser that has received thirty-three parameters. *)
Definition past_limit : RM :=
  feed no_callback (ESC :: wstr "[1;2;3;4;5;6;7;8;9;10;11;12;13;14;15;16;17;18;19;20;21;22;23;24;25;26;27;28;29;30;31;4;32") output_parser.

Definition kept_groups : ParamGroups := map (fun v => (Z.of_nat v, [])) (seq 1 31).

Lemma kept_groups_ok : groups_ok (kept_groups ++ [(4, [])]).
Proof.
  split; [vm_compute; congruence|].
  unfold kept_groups. cbn [map seq app Z.of_nat].
  repeat (apply List.Forall_cons; [split; [right; cbv; split; congruence|split; [cbv; congruence|apply Forall_nil_2]]|]).
  apply Forall_nil_2.
Qed.

Lemma subparam_after_overflow_witness :
  _state (ProcessCharacter no_callback COLON past_limit) = CsiSubParam /\
  params_repr (kept_groups ++ [(4, [VTParameter_default])]) (ProcessCharacter no_callback COLON past_limit) /\
  _parameters (ProcessCharacter no_callback COLON past_limit) = _parameters past_limit.
Proof.
  refine (subparam_after_overflow no_callback kept_groups 4 past_limit _ _ _ _);
    try (vm_compute; reflexivity).
  split; [|split; [repeat split; vm_compute; reflexivity|split; vm_compute; congruence]].
  exact kept_groups_ok.
Defined.

Lemma flush_terminates_witness :
  FlushToTerminal_fuel 9 in_csi = FlushToTerminal in_csi.
Proof. apply (flush_terminates 9 in_csi); [intros; discriminate|lia]. Defined.
