(* ===== verification/StringUtils.v ===== *)
(** * String utilities

    Models the string helpers the engines are written with:
    [Utils::SplitString], [Utils::StringToUint], [Utils::HexToUint],
    [Utils::FilterStringForPaste] and [Utils::TrimPaste] of
    [src/src/types/utils.cpp], and [til::split_iterator] and
    [til::details::parse_u64] of [src/src/inc/til/string.h].  The theorems
    compare each with a reference definition: splitting is the inverse of
    joining, a number is parsed to its value or refused when it does not fit,
    a filtered paste contains no control code a terminal would act on. *)

From S2P Require Import Prelude.
#[local] Open Scope Z_scope.

(** ** Searching

    [wstring_view::find] for one character, and the search for the first or
    last character of a class. *)

Fixpoint find_if (p : Z -> bool) (s : list Z) : option nat :=
  match s with
  | [] => None
  | c :: s' => if p c then Some 0%nat else S <$> find_if p s'
  end.

Definition find_char (c : Z) (s : list Z) : option nat := find_if (fun d => d =? c) s.

Fixpoint find_last_if (p : Z -> bool) (s : list Z) : option nat :=
  match s with
  | [] => None
  | c :: s' =>
      match find_last_if p s' with
      | Some i => Some (S i)
      | None => if p c then Some 0%nat else None
      end
  end.

(** ** [Utils::SplitString]

    [current] advances past a part and its delimiter; [rest] is the string
    from [current] on. *)

Fixpoint SplitString_loop (fuel : nat) (delimiter : Z) (rest : list Z) : list (list Z) :=
  match fuel with
  | O => []
  | S fuel =>
      match rest with
      | [] => []
      | _ =>
          match find_char delimiter rest with
          | None => [rest]
          | Some length =>
              take length rest ::
              (match drop (length + 1) rest with
               | [] => [[]]
               | rest' => SplitString_loop fuel delimiter rest'
               end)
          end
      end
  end.

Definition SplitString (wstr : list Z) (delimiter : Z) : list (list Z) :=
  SplitString_loop (length wstr) delimiter wstr.

(** ** [til::split_iterator]

    The members [_it] and [_tok] are offsets into the string; [_end] is its
    length.  [split_tokens] is the range-based [for] loop over it. *)

Record split_iterator := mk_split_iterator {
  si_str : list Z; si_it : nat; si_tok : nat; si_value : list Z;
  si_needle : Z; si_advance : bool;
}.

Definition new_split_iterator (str : list Z) (needle : Z) : split_iterator :=
  mk_split_iterator str 0 0 [] needle true.

Definition si_valid (i : split_iterator) : bool := negb (si_tok i =? length (si_str i))%nat.

Definition si_next (i : split_iterator) : split_iterator :=
  let e := length (si_str i) in
  mk_split_iterator (si_str i) (if (si_tok i =? e)%nat then e else S (si_tok i))
    (si_tok i) (si_value i) (si_needle i) true.

Definition si_deref (i : split_iterator) : split_iterator :=
  if si_advance i
  then
    let tok := (match find_char (si_needle i) (drop (si_it i) (si_str i)) with
                | Some n => si_it i + n
                | None => length (si_str i)
                end)%nat in
    mk_split_iterator (si_str i) (si_it i) tok (substr (si_it i) (tok - si_it i) (si_str i))
      (si_needle i) false
  else i.

Fixpoint split_tokens_loop (fuel : nat) (i : split_iterator) : list (list Z) :=
  match fuel with
  | O => []
  | S fuel =>
      if si_valid i
      then let i := si_deref i in si_value i :: split_tokens_loop fuel (si_next i)
      else []
  end.

Definition split_tokens (str : list Z) (needle : Z) : list (list Z) :=
  split_tokens_loop (S (length str)) (new_split_iterator str needle).

(** ** Numbers *)

Definition _isNumber (wch : Z) : bool := (0x30 <=? wch) && (wch <=? 0x39).

Definition HexToUint (wch : Z) : option Z :=
  if (0x30 <=? wch) && (wch <=? 0x39) then Some (wch - 0x30)
  else if (0x41 <=? wch) && (wch <=? 0x46) then Some (wch - 0x41 + 10)
  else if (0x61 <=? wch) && (wch <=? 0x66) then Some (wch - 0x61 + 10)
  else None.

(** The result is a 32-bit [unsigned int] and wraps around. *)
Fixpoint StringToUint_loop (result : Z) (wstr : list Z) : option Z :=
  match wstr with
  | [] => Some result
  | wch :: wstr' =>
      if _isNumber wch
      then StringToUint_loop (u32 (u32 (result * 10) + (wch - 0x30))) wstr'
      else None
  end.

Definition StringToUint (wstr : list Z) : option Z :=
  match wstr with
  | [] => None
  | _ => StringToUint_loop 0 wstr
  end.

(** [til::details::parse_u64]: the digit of a character, with the arithmetic
    of [uint64_t], is above 35 for every character that is not a digit or a
    letter. *)
Definition u64_digit (ch : Z) : Z :=
  let sub := if (0x30 <=? ch) && (ch <=? 0x39)
             then Z.land (0x30 - 1) (Z.lnot 0x20)
             else Z.land (0x41 - 1) (Z.lnot 0x20) - 10 in
  u64 (Z.land (u64 (ch - 1)) (Z.lnot 0x20) - sub).

Definition UINT64_MAX : Z := 2 ^ 64 - 1.

Fixpoint parse_u64_loop (base accumulator : Z) (ptr : list Z) : option Z :=
  match ptr with
  | [] => None
  | ch :: ptr' =>
      let value := u64_digit ch in
      let acc := u64 (u64 (accumulator * base) + value) in
      if (base <=? value) || (UINT64_MAX / base <? accumulator) || (acc <? accumulator)
      then None
      else match ptr' with [] => Some acc | _ => parse_u64_loop base acc ptr' end
  end.

(** A base of zero or less asks for the base to be read from the prefix. *)
Definition parse_u64_base (base : Z) (str : list Z) : Z * list Z :=
  if base <=? 0 then
    match str with
    | c0 :: c1 :: rest =>
        if c0 =? 0x30 then
          let ch := Z.lor c1 0x20 in
          if ch =? 0x62 then (2, rest)
          else if ch =? 0x78 then (16, rest)
          else (8, c1 :: rest)
        else (10, str)
    | _ => (10, str)
    end
  else (base, str).

Definition parse_u64 (str : list Z) (base : Z) : option Z :=
  let '(base_uint64, ptr) := parse_u64_base base str in
  match ptr with
  | [] => None
  | _ => if 36 <? base_uint64 then None else parse_u64_loop base_uint64 0 ptr
  end.

(** [til::parse_unsigned<R>] and [til::parse_signed<R>], for a type [R] whose
    largest value is [max]. *)
Definition parse_unsigned (max : Z) (str : list Z) (base : Z) : option Z :=
  match parse_u64 str base with
  | Some v => if max <? v then None else Some v
  | None => None
  end.

Definition parse_signed (max : Z) (str : list Z) (base : Z) : option Z :=
  let hasSign := match str with c :: _ => c =? 0x2D | [] => false end in
  let str := if hasSign then drop 1 str else str in
  match parse_u64 str base with
  | Some v =>
      if max + (if hasSign then 1 else 0) <? v then None
      else Some (if hasSign then - v else v)
  | None => None
  end.

(** ** [Utils::FilterStringForPaste]

    [filtered] is the text copied so far; the characters from [begin] to
    [pos] have been scanned and not yet copied.  The two flags of
    [FilterOption] are two booleans. *)

Definition isControlCode (c : Z) : bool :=
  if (0x20 <=? c) && (c <? 0x7F) then false
  else if 0x9F <? c then false
  else negb (c =? 0x09) && negb (c =? 0x0A) && negb (c =? 0x0D).

Fixpoint filterPaste_loop (crnl ctl : bool) (wstr rest : list Z) (begin pos : nat)
    (filtered : list Z) : nat * list Z :=
  match rest with
  | [] => (begin, filtered)
  | c :: rest' =>
      if crnl && (c =? 0x0A) then
        let filtered := filtered ++ substr begin (pos - begin) wstr in
        let filtered :=
          if negb ((0 <? pos)%nat && (nth (pos - 1) wstr 0 =? 0x0D))
          then filtered ++ [0x0D] else filtered in
        filterPaste_loop crnl ctl wstr rest' (S pos) (S pos) filtered
      else if ctl && isControlCode c then
        filterPaste_loop crnl ctl wstr rest' (S pos) (S pos)
          (filtered ++ substr begin (pos - begin) wstr)
      else filterPaste_loop crnl ctl wstr rest' begin (S pos) filtered
  end.

Definition FilterStringForPaste (wstr : list Z) (crnl ctl : bool) : list Z :=
  let '(begin, filtered) := filterPaste_loop crnl ctl wstr wstr 0 0 [] in
  if (begin =? 0)%nat then wstr else filtered ++ drop begin wstr.

(** ** [Utils::TrimPaste]

    [npos] is larger than every position. *)

Definition isSpace (c : Z) : bool :=
  (c =? 0x09) || (c =? 0x0A) || (c =? 0x0B) || (c =? 0x0C) || (c =? 0x0D) || (c =? 0x20).
Definition isNewline (c : Z) : bool :=
  (c =? 0x0A) || (c =? 0x0B) || (c =? 0x0C) || (c =? 0x0D).

Definition npos : Z := 2 ^ 64 - 1.
Definition position (i : option nat) : Z := match i with Some n => Z.of_nat n | None => npos end.

Definition TrimPaste (textView : list Z) : list Z :=
  let lastNonSpace := position (find_last_if (fun c => negb (isSpace c)) textView) in
  let firstNewline := position (find_if isNewline textView) in
  let isOnlyWhitespace := lastNonSpace =? npos in
  let isMultiline := firstNewline <? lastNonSpace in
  if isOnlyWhitespace then []
  else if isMultiline then textView
  else take (Z.to_nat (lastNonSpace + 1)) textView.

(** ** Splitting is the inverse of joining *)

Fixpoint join (d : Z) (parts : list (list Z)) : list Z :=
  match parts with
  | [] => []
  | [p] => p
  | p :: ps => p ++ d :: join d ps
  end.

Fixpoint split_on (d : Z) (s : list Z) : list (list Z) :=
  match s with
  | [] => [[]]
  | c :: s' =>
      if c =? d then [] :: split_on d s'
      else match split_on d s' with
           | p :: ps => (c :: p) :: ps
           | [] => [[c]]
           end
  end.

Lemma split_on_ne d s : split_on d s <> [].
Proof. destruct s as [|c s]; cbn; [done|]. destruct (c =? d); [done|]. by destruct (split_on d s). Qed.

Lemma split_on_find d s :
  split_on d s = match find_char d s with
                 | None => [s]
                 | Some n => take n s :: split_on d (drop (n + 1) s)
                 end.
Proof.
  unfold find_char. induction s as [|c s IH]; [done|]. cbn.
  destruct (c =? d); [done|]. rewrite IH.
  by destruct (find_if (fun d0 => d0 =? d) s).
Qed.

Lemma find_char_lt d s n : find_char d s = Some n -> (n < length s)%nat.
Proof.
  unfold find_char. revert n. induction s as [|c s IH]; intros n; cbn; [done|].
  destruct (c =? d); [intros [= <-]; lia|].
  destruct (find_if _ s); cbn; [|done]. intros [= <-]. specialize (IH _ eq_refl). lia.
Qed.

Lemma SplitString_loop_ref fuel d s :
  (length s <= fuel)%nat ->
  SplitString_loop fuel d s = match s with [] => [] | _ => split_on d s end.
Proof.
  revert s. induction fuel as [|fuel IH]; intros s Hl; [by destruct s; cbn in *; [|lia]|].
  cbn [SplitString_loop]. destruct s as [|c s]; [done|]. set (cs := c :: s) in *.
  rewrite split_on_find. destruct (find_char d cs) as [n|] eqn:Hf; [|done].
  apply find_char_lt in Hf. f_equal.
  assert (Hr : (length (drop (n + 1) cs) <= fuel)%nat) by (rewrite length_drop; lia).
  destruct (drop (n + 1) cs) as [|c' s']; [done|]. by rewrite IH.
Qed.

Lemma SplitString_ref s d : SplitString s d = match s with [] => [] | _ => split_on d s end.
Proof. by apply SplitString_loop_ref. Qed.

Lemma join_cons d p ps : ps <> [] -> join d (p :: ps) = p ++ d :: join d ps.
Proof. by destruct ps. Qed.

Lemma join_split_on d s : join d (split_on d s) = s.
Proof.
  induction s as [|c s IH]; [done|]. cbn [split_on].
  pose proof (split_on_ne d s) as Hne. destruct (c =? d) eqn:Hc.
  - rewrite join_cons by done. cbn. rewrite IH. f_equal. lia.
  - destruct (split_on d s) as [|p ps]; [done|]. destruct ps as [|q qs].
    + cbn in *. congruence.
    + rewrite join_cons in IH by done. rewrite join_cons by done. cbn [app]. by rewrite IH.
Qed.

Lemma split_on_clean d s : Forall (fun p => d ∉ p) (split_on d s).
Proof.
  induction s as [|c s IH]; cbn; [constructor; [apply not_elem_of_nil|done]|].
  destruct (c =? d) eqn:Hc; [constructor; [apply not_elem_of_nil|done]|].
  destruct (split_on d s) as [|p ps]; [constructor; [|done]; apply not_elem_of_cons; split; [lia|apply not_elem_of_nil]|].
  inversion IH as [|? ? Hp Hps]; subst. constructor; [|done].
  rewrite not_elem_of_cons. split; [lia|done].
Qed.

Lemma split_on_part d p s :
  d ∉ p -> split_on d (p ++ d :: s) = p :: split_on d s.
Proof.
  induction p as [|c p IH]; cbn; [by rewrite Z.eqb_refl|].
  rewrite not_elem_of_cons. intros [Hc Hp].
  assert ((c =? d) = false) as -> by lia. by rewrite IH.
Qed.

Lemma split_on_single d p : d ∉ p -> split_on d p = [p].
Proof.
  induction p as [|c p IH]; cbn; [done|]. rewrite not_elem_of_cons. intros [Hc Hp].
  assert ((c =? d) = false) as -> by lia. by rewrite IH.
Qed.

Lemma split_on_join d parts :
  parts <> [] -> Forall (fun p => d ∉ p) parts -> split_on d (join d parts) = parts.
Proof.
  intros Hne Hf. induction Hf as [|p ps Hp Hps IH]; [done|].
  destruct ps as [|q qs]; [by apply split_on_single|].
  rewrite join_cons, split_on_part by done. by rewrite IH.
Qed.

Lemma split_tokens_loop_ref fuel d s it v :
  (it <= length s)%nat -> (length s - it < fuel)%nat ->
  let i := mk_split_iterator s it (if (it =? 0)%nat then 0 else it - 1)%nat v d true in
  s <> [] -> split_tokens_loop fuel i = split_on d (drop it s).
Proof.
  revert it v. induction fuel as [|fuel IH]; intros it v Hit Hf i Hs; [lia|].
  assert (Hl : (0 < length s)%nat) by (destruct s; cbn; [done|lia]).
  assert (Hv : si_valid i = true).
  { unfold si_valid, i. cbn. destruct (Nat.eqb_spec it 0); apply negb_true_iff, Nat.eqb_neq; lia. }
  cbn [split_tokens_loop]. rewrite Hv. unfold si_deref, i. cbn [si_advance si_str si_it si_needle].
  rewrite split_on_find. destruct (find_char d (drop it s)) as [n|] eqn:Hn; cbn [si_value].
  - pose proof (find_char_lt _ _ _ Hn) as Hlt. rewrite length_drop in Hlt. f_equal.
    + unfold substr. f_equal. lia.
    + unfold si_next. cbn [si_str si_tok si_needle si_value].
      assert ((it + n =? length s)%nat = false) as -> by (apply Nat.eqb_neq; lia).
      pose proof (IH (S (it + n)) (substr it (it + n - it) s) ltac:(lia) ltac:(lia) Hs) as Hi.
      cbn in Hi. rewrite Nat.sub_0_r in Hi.
      etransitivity; [exact Hi|]. rewrite drop_drop. by replace (it + (n + 1))%nat with (S (it + n)) by lia.
  - f_equal; [unfold substr; rewrite take_ge; [done|rewrite length_drop; lia]|].
    unfold si_next. cbn [si_str si_tok si_needle si_value]. rewrite Nat.eqb_refl.
    destruct fuel; [done|]. cbn [split_tokens_loop]. unfold si_valid. cbn. by rewrite Nat.eqb_refl.
Qed.

Lemma split_tokens_ref s d : split_tokens s d = SplitString s d.
Proof.
  rewrite SplitString_ref. destruct s as [|c s]; [done|].
  apply (split_tokens_loop_ref (S (length (c :: s))) d (c :: s) 0 []); [cbn; lia|cbn; lia|done].
Qed.

(** Splitting a string at a delimiter gives parts free of the delimiter
    that join back to the string, the only list of parts that does, and the
    lazy [split_iterator] visits the same parts; an empty string has no
    parts. *)
Theorem split_is_inverse_of_join s d :
  join d (SplitString s d) = s /\
  Forall (fun p => d ∉ p) (SplitString s d) /\
  split_tokens s d = SplitString s d /\
  (forall parts, s <> [] -> Forall (fun p => d ∉ p) parts -> join d parts = s ->
     SplitString s d = parts).
Proof.
  rewrite split_tokens_ref, SplitString_ref.
  destruct s as [|c s]; [split; [done|]; split; [constructor|]; split; [done|]; by intros ? ?|].
  split; [apply join_split_on|]. split; [apply split_on_clean|]. split; [done|].
  intros parts _ Hp Hj. rewrite <- Hj. apply split_on_join; [|done]. by intros ->.
Qed.

(** ** Numbers are parsed to their value *)

(** The reference reading of a numeral: the digit of a character, and the
    value of a string of digits of a base, without any width. *)
Definition digit_of (c : Z) : option Z :=
  if (0x30 <=? c) && (c <=? 0x39) then Some (c - 0x30)
  else if (0x41 <=? c) && (c <=? 0x5A) then Some (c - 0x41 + 10)
  else if (0x61 <=? c) && (c <=? 0x7A) then Some (c - 0x61 + 10)
  else None.

Fixpoint numeral (base acc : Z) (s : list Z) : option Z :=
  match s with
  | [] => Some acc
  | c :: s' =>
      match digit_of c with
      | Some d => if d <? base then numeral base (acc * base + d) s' else None
      | None => None
      end
  end.

(** Every 16-bit character, one by one. *)
Definition u64_digit_agrees (c : Z) : bool :=
  match digit_of c with
  | Some d => u64_digit c =? d
  | None => 35 <? u64_digit c
  end.

Fixpoint all_below (p : Z -> bool) (n : nat) (start : Z) : bool :=
  match n with
  | O => true
  | S n => p start && all_below p n (start + 1)
  end.

Lemma all_below_spec p n start c :
  all_below p n start = true -> start <= c < start + Z.of_nat n -> p c = true.
Proof.
  revert start. induction n as [|n IH]; intros start; cbn [all_below]; [lia|].
  intros [H1 H2]%andb_true_iff Hc. destruct (decide (c = start)) as [->|]; [done|].
  apply (IH (start + 1)); [done|lia].
Qed.

Lemma u64_digit_correct c :
  0 <= c < 65536 ->
  match digit_of c with Some d => u64_digit c = d | None => 35 < u64_digit c end.
Proof.
  intros Hc. assert (Ha : u64_digit_agrees c = true).
  { apply (all_below_spec u64_digit_agrees (Z.to_nat 65536) 0); [by vm_compute|lia]. }
  unfold u64_digit_agrees in Ha. destruct (digit_of c); lia.
Qed.

Lemma digit_of_bounds c d : digit_of c = Some d -> 0 <= d <= 35.
Proof. unfold digit_of. repeat step_if; intros [= <-]; lia. Qed.

Lemma numeral_ge base acc s v : 1 <= base -> 0 <= acc -> numeral base acc s = Some v -> acc <= v.
Proof.
  intros Hb. revert acc. induction s as [|c s IH]; intros acc Ha; cbn [numeral]; [intros [= <-]; lia|].
  destruct (digit_of c) as [d|] eqn:Hd; [|done]. apply digit_of_bounds in Hd.
  destruct (d <? base); [|done]. intros Hn. apply IH in Hn; nia.
Qed.

Lemma parse_u64_loop_spec base acc s :
  2 <= base <= 36 -> 0 <= acc < 2 ^ 64 -> s <> [] -> Forall (fun c => 0 <= c < 65536) s ->
  parse_u64_loop base acc s
  = match numeral base acc s with
    | Some v => if v <? 2 ^ 64 then Some v else None
    | None => None
    end.
Proof.
  intros Hb Ha Hne Hf. revert acc Ha Hne.
  induction Hf as [|c s Hc Hf IH]; intros acc Ha Hne; [done|].
  cbn [parse_u64_loop numeral]. pose proof (u64_digit_correct c Hc) as Hd.
  destruct (digit_of c) as [d|] eqn:Hdc.
  2:{ assert ((base <=? u64_digit c) = true) as -> by lia. done. }
  rewrite Hd. apply digit_of_bounds in Hdc.
  destruct (Z.ltb_spec d base) as [Hlt|Hge].
  2:{ assert ((base <=? d) = true) as -> by lia. done. }
  assert ((base <=? d) = false) as -> by lia. cbn [orb].
  assert (Hm : UINT64_MAX / base < acc <-> 2 ^ 64 <= acc * base).
  { unfold UINT64_MAX. pose proof (Z.div_mod (2 ^ 64 - 1) base ltac:(lia)).
    pose proof (Z.mod_pos_bound (2 ^ 64 - 1) base ltac:(lia)). nia. }
  destruct (Z.ltb_spec (UINT64_MAX / base) acc) as [Hov|Hov].
  - cbn [orb]. destruct (numeral base (acc * base + d) s) as [v|] eqn:Hn; [|done].
    apply numeral_ge in Hn; [|lia|nia]. destruct (Z.ltb_spec v (2 ^ 64)); [|done]. exfalso. lia.
  - assert (Hmul : acc * base < 2 ^ 64) by lia. cbn [orb].
    rewrite (u64_small (acc * base)) by nia.
    destruct (decide (acc * base + d < 2 ^ 64)) as [Hadd|Hadd].
    + rewrite u64_small by nia.
      assert ((acc * base + d <? acc) = false) as -> by nia.
      destruct s as [|c' s']; [cbn [numeral]; by assert ((acc * base + d <? 2 ^ 64) = true) as -> by lia|].
      apply IH; [nia|done].
    + assert (Hu : u64 (acc * base + d) = acc * base + d - 2 ^ 64).
      { unfold u64. symmetry. apply (Z.mod_unique _ _ 1); lia. }
      assert (36 <= acc) by nia. rewrite Hu. assert ((acc * base + d - 2 ^ 64 <? acc) = true) as -> by lia.
      destruct (numeral base (acc * base + d) s) as [v|] eqn:Hn; [|done].
      apply numeral_ge in Hn; [|lia|nia]. destruct (Z.ltb_spec v (2 ^ 64)); [|done]. exfalso. lia.
Qed.

(** [parse_u64] with an explicit base accepts exactly the non-empty
    strings of digits of that base whose value fits 64 bits, and returns that
    value: neither the character arithmetic nor the two overflow tests ever
    let a wrong value through. *)
Theorem parse_u64_exact base s :
  2 <= base <= 36 -> Forall (fun c => 0 <= c < 65536) s ->
  parse_u64 s base
  = match s with
    | [] => None
    | _ => match numeral base 0 s with
           | Some v => if v <? 2 ^ 64 then Some v else None
           | None => None
           end
    end.
Proof.
  intros Hb Hf. unfold parse_u64, parse_u64_base.
  assert ((base <=? 0) = false) as -> by lia.
  assert ((36 <? base) = false) as -> by lia.
  destruct s as [|c s]; [done|]. by apply parse_u64_loop_spec.
Qed.

(** ** What [StringToUint] reads *)

Lemma StringToUint_loop_spec r s :
  0 <= r ->
  StringToUint_loop (u32 r) s
  = (if forallb _isNumber s
     then Some (u32 (fold_left (fun v c => v * 10 + (c - 0x30)) s r)) else None).
Proof.
  revert r. induction s as [|c s IH]; intros r Hr; [done|]. cbn [StringToUint_loop forallb fold_left].
  destruct (_isNumber c) eqn:Hc; [|done]. cbn [andb]. unfold _isNumber in Hc.
  rewrite <- IH by lia. f_equal. unfold u32.
  by rewrite Zplus_mod_idemp_l, <- (Zplus_mod_idemp_l (r * 10)), <- (Zmult_mod_idemp_l r), Zplus_mod_idemp_l.
Qed.

(** [StringToUint] accepts exactly the non-empty strings of decimal
    digits; its result is their value modulo 2^32, so numbers that differ by
    a multiple of 2^32 are not told apart. *)
Theorem StringToUint_mod s :
  StringToUint s
  = match s with
    | [] => None
    | _ => if forallb _isNumber s
           then Some ((fold_left (fun v c => v * 10 + (c - 0x30)) s 0) mod 2 ^ 32) else None
    end.
Proof. destruct s as [|c s]; [done|]. exact (StringToUint_loop_spec 0 (c :: s) ltac:(lia)). Qed.

(** ** What a filtered paste contains *)

(** The reference: a line feed becomes a carriage return unless one precedes
    it, a control code is dropped, everything else is kept. *)
Fixpoint filter_ref (crnl ctl : bool) (prev : option Z) (s : list Z) : list Z :=
  match s with
  | [] => []
  | c :: s' =>
      (if crnl && (c =? 0x0A) then (if bool_decide (prev = Some 0x0D) then [] else [0x0D])
       else if ctl && isControlCode c then []
       else [c]) ++ filter_ref crnl ctl (Some c) s'
  end.

Lemma substr_snoc {A} (s s1 : list A) (c : A) b :
  (b <= length s1)%nat ->
  substr b (S (length s1) - b) (s1 ++ c :: s) = substr b (length s1 - b) (s1 ++ c :: s) ++ [c].
Proof.
  intros Hb. unfold substr. rewrite drop_app_le by done.
  rewrite !take_app, length_drop.
  rewrite (take_ge (drop b s1)) by (rewrite length_drop; lia).
  rewrite (take_ge (drop b s1) (length s1 - b)) by (rewrite length_drop; lia).
  replace (S (length s1) - b - (length s1 - b))%nat with 1%nat by lia.
  replace (length s1 - b - (length s1 - b))%nat with 0%nat by lia. cbn.
  by rewrite app_nil_r.
Qed.

Definition filter_done (wstr : list Z) (r : nat * list Z) : list Z := snd r ++ drop (fst r) wstr.

Lemma filter_loop_spec crnl ctl s1 s2 begin filtered :
  (begin <= length s1)%nat ->
  filter_done (s1 ++ s2) (filterPaste_loop crnl ctl (s1 ++ s2) s2 begin (length s1) filtered)
  = filtered ++ substr begin (length s1 - begin) (s1 ++ s2) ++ filter_ref crnl ctl (list.last s1) s2.
Proof.
  revert s1 begin filtered. induction s2 as [|c s2 IH]; intros s1 begin filtered Hb.
  - cbn. unfold filter_done. cbn. rewrite !app_nil_r. unfold substr.
    by rewrite take_ge by (rewrite length_drop; lia).
  - assert (Hs : s1 ++ c :: s2 = (s1 ++ [c]) ++ s2) by (by rewrite <- app_assoc).
    assert (Hl : S (length s1) = length (s1 ++ [c])) by (rewrite length_app; cbn; lia).
    assert (Hlast : list.last (s1 ++ [c]) = Some c) by apply last_snoc.
    assert (Hp : (0 <? length s1)%nat && (nth (length s1 - 1) (s1 ++ c :: s2) 0 =? 0x0D)
                 = bool_decide (list.last s1 = Some 0x0D)).
    { destruct s1 as [|x l _] using rev_ind; [done|].
      rewrite last_snoc, length_app. cbn [length].
      replace (length l + 1 - 1)%nat with (length l) by lia.
      assert ((0 <? length l + 1)%nat = true) as -> by (apply Nat.ltb_lt; lia).
      rewrite <- app_assoc, app_nth2, Nat.sub_diag by lia. cbn.
      destruct (Z.eqb_spec x 13) as [->|Hx]; [done|].
      symmetry. apply bool_decide_eq_false. congruence. }
    cbn [filterPaste_loop filter_ref]. rewrite Hp.
    destruct (crnl && (c =? 10)); [|destruct (ctl && isControlCode c)].
    + rewrite Hl, Hs, IH by lia. rewrite Hlast, Nat.sub_diag.
      destruct (bool_decide _); cbn [negb]; rewrite <- !app_assoc; done.
    + rewrite Hl, Hs, IH by lia. rewrite Hlast, Nat.sub_diag. by rewrite <- !app_assoc.
    + rewrite Hl, Hs, IH by lia. rewrite Hlast, <- Hl, <- Hs, substr_snoc by done.
      by rewrite <- !app_assoc.
Qed.

Lemma filterPaste_begin crnl ctl wstr rest begin pos filtered :
  begin = 0%nat -> filtered = [] ->
  fst (filterPaste_loop crnl ctl wstr rest begin pos filtered) = 0%nat ->
  filterPaste_loop crnl ctl wstr rest begin pos filtered = (0%nat, []).
Proof.
  intros -> ->. revert pos. induction rest as [|c rest IH]; intros pos; [done|].
  assert (Hpos : forall b p f, (0 < b)%nat -> (b <= p)%nat ->
            (0 < fst (filterPaste_loop crnl ctl wstr rest b p f))%nat).
  { clear IH. induction rest as [|c' rest IH]; intros b p f Hb Hp; [done|].
    cbn [filterPaste_loop]. repeat step_if; apply IH; lia. }
  cbn [filterPaste_loop].
  destruct (crnl && (c =? 10)); [|destruct (ctl && isControlCode c)]; [| |apply IH];
    match goal with |- fst (filterPaste_loop _ _ _ _ ?b ?p ?f) = _ -> _ =>
      pose proof (Hpos b p f ltac:(lia) ltac:(lia)) end; lia.
Qed.

Lemma filter_ref_eq wstr crnl ctl :
  FilterStringForPaste wstr crnl ctl = filter_ref crnl ctl None wstr.
Proof.
  pose proof (filter_loop_spec crnl ctl [] wstr 0 [] ltac:(cbn; lia)) as Hl.
  pose proof (filterPaste_begin crnl ctl wstr wstr 0 0 [] eq_refl eq_refl) as Hb.
  cbn [app length] in Hl. unfold FilterStringForPaste, filter_done in *.
  destruct (filterPaste_loop crnl ctl wstr wstr 0 0 []) as [b f]. cbn [fst snd] in *.
  destruct (Nat.eqb_spec b 0) as [->|]; [|exact Hl].
  injection (Hb eq_refl) as ->. exact Hl.
Qed.

Lemma filter_ref_safe prev s :
  Forall (fun c => (0x20 <= c < 0x7F \/ 0x9F < c) \/ c = 0x09 \/ c = 0x0D) (filter_ref true true prev s).
Proof.
  revert prev. induction s as [|c s IH]; intros prev; cbn [filter_ref]; [constructor|].
  apply Forall_app. split; [|apply IH]. cbn [andb].
  destruct (c =? 0x0A) eqn:Hlf; [destruct (bool_decide _); repeat constructor; lia|].
  destruct (isControlCode c) eqn:Hc; [constructor|]. constructor; [|constructor].
  unfold isControlCode in Hc. destruct ((0x20 <=? c) && (c <? 0x7F)) eqn:H1; [lia|].
  destruct (0x9F <? c) eqn:H2; lia.
Qed.

(** A filtered paste is the text with each line ending reduced to a
    carriage return and each control code removed, in order; with both
    filters on, whatever the clipboard held, no ESC, no C1 control and no
    other control code but HT and CR is left. *)
Theorem filter_paste_safe wstr :
  (forall crnl ctl, FilterStringForPaste wstr crnl ctl = filter_ref crnl ctl None wstr) /\
  Forall (fun c => (0x20 <= c < 0x7F \/ 0x9F < c) \/ c = 0x09 \/ c = 0x0D)
    (FilterStringForPaste wstr true true).
Proof. split; [apply filter_ref_eq|]. rewrite filter_ref_eq. apply filter_ref_safe. Qed.

(** ** What [TrimPaste] removes *)

Lemma find_last_none p s : forallb (fun c => negb (p c)) s = true -> find_last_if p s = None.
Proof.
  induction s as [|c s IH]; [done|]. cbn. intros [Hc Hs]%andb_true_iff.
  rewrite IH by done. by destruct (p c).
Qed.

Lemma find_last_app p s c t :
  p c = true -> find_last_if p t = None -> find_last_if p (s ++ c :: t) = Some (length s).
Proof. intros Hc Ht. induction s as [|d s IH]; cbn; [by rewrite Ht, Hc|by rewrite IH]. Qed.

Lemma find_if_app p s t :
  find_if p (s ++ t)
  = match find_if p s with Some n => Some n | None => (fun n => length s + n)%nat <$> find_if p t end.
Proof.
  induction s as [|c s IH]; cbn; [by destruct (find_if p t)|].
  destruct (p c); [done|]. rewrite IH. destruct (find_if p s); [done|]. by destruct (find_if p t).
Qed.

Lemma find_if_spec p s :
  match find_if p s with Some n => existsb p s = true /\ (n < length s)%nat | None => existsb p s = false end.
Proof.
  induction s as [|c s IH]; cbn; [done|]. destruct (p c); [split; [done|lia]|].
  destruct (find_if p s); cbn; [destruct IH; split; [done|lia]|done].
Qed.

Lemma newline_space c : isNewline c = true -> isSpace c = true.
Proof. unfold isNewline, isSpace. lia. Qed.

(** [TrimPaste] drops the white space after the last visible character
    of a text, unless a line break comes before that character, in which case
    the text is left alone; a text of white space only becomes empty. *)
Theorem trim_paste s c ws :
  isSpace c = false -> forallb isSpace ws = true -> Z.of_nat (length (s ++ c :: ws)) < npos ->
  TrimPaste ws = [] /\
  TrimPaste (s ++ c :: ws) = if existsb isNewline s then s ++ c :: ws else s ++ [c].
Proof.
  intros Hc Hws Hlen.
  assert (Hn : find_last_if (fun d => negb (isSpace d)) ws = None).
  { apply find_last_none. rewrite forallb_forall in *. intros d Hd. by rewrite Hws. }
  split; [unfold TrimPaste; by rewrite Hn|]. unfold TrimPaste.
  rewrite (find_last_app (fun d => negb (isSpace d))) by (by rewrite ?Hc). cbn [position].
  rewrite length_app in Hlen. cbn [length] in Hlen.
  assert ((Z.of_nat (length s) =? npos) = false) as -> by lia.
  rewrite find_if_app. pose proof (find_if_spec isNewline s) as Hf.
  destruct (find_if isNewline s) as [n|]; cbn [position].
  - destruct Hf as [-> Hlt]. by assert ((Z.of_nat n <? Z.of_nat (length s)) = true) as -> by lia.
  - rewrite Hf.
    assert ((position ((fun n => length s + n)%nat <$> find_if isNewline (c :: ws)) <? Z.of_nat (length s))
            = false) as ->
      by (apply Z.ltb_ge; destruct (find_if isNewline (c :: ws)); cbn -[npos Nat.add Z.of_nat]; lia).
    replace (Z.to_nat (Z.of_nat (length s) + 1)) with (length s + 1)%nat by lia.
    by rewrite take_app_add.
Qed.
