(* ===== verification/Colors.v ===== *)
(** * Colours

    Models [til::color] ([src/src/inc/til/color.h]) and the colour parsers of
    [src/src/types/utils.cpp]: [ColorFromXParseColorSpec], with its two
    formats, and the percentage conversions [ColorFromRGB100] and
    [ColorToRGB100].  The HLS conversions use floating point and are not
    modelled. *)

From S2P Require Import Prelude StringUtils.
#[local] Open Scope Z_scope.

Record color := mkColor { color_r : Z; color_g : Z; color_b : Z; color_a : Z }.

#[export] Instance color_eq_dec : EqDecision color.
Proof. solve_decision. Defined.

(** The three-component constructor: the colour is opaque. *)
Definition rgb (red green blue : Z) : color := mkColor red green blue 255.

(** [abgr] is the little-endian view of the four bytes. *)
Definition abgr (c : color) : Z := color_r c + 256 * color_g c + 65536 * color_b c + 16777216 * color_a c.

Definition color_of_COLORREF (c : Z) : color :=
  let v := Z.lor c 0xFF000000 in
  mkColor (Z.land v 0xFF) (Z.land (Z.shiftr v 8) 0xFF) (Z.land (Z.shiftr v 16) 0xFF)
    (Z.land (Z.shiftr v 24) 0xFF).

Definition COLORREF_of_color (c : color) : Z := Z.land (abgr c) 0x00FFFFFF.

Definition LOBYTE (v : Z) : Z := Z.land v 0xFF.

(** ** [ColorFromXParseColorSpec] *)

Definition tolower_prefix (x : Z) : Z := if (0x41 <=? x) && (x <=? 0x5A) then x + 0x20 else x.

(** The loop over the digits of one component, from digit [i] on, [n] of them
    at most.  [None] is the early return; otherwise the value, whether the
    component was found, the digit count and the rest of the string. *)
Fixpoint parseComponent (isSharpSignFormat : bool) (component n i rgbHexDigitCount : nat)
    (foundColor : bool) (parameterValue : Z) (curr : list Z)
    : option (Z * bool * nat * list Z) :=
  match n, curr with
  | S n, wch :: curr =>
      match HexToUint wch with
      | None => None
      | Some intVal =>
          let parameterValue := u32 (u32 (parameterValue * 16) + intVal) in
          if isSharpSignFormat then
            if (rgbHexDigitCount <=? i)%nat
            then Some (parameterValue, true, rgbHexDigitCount, curr)
            else parseComponent isSharpSignFormat component n (S i) rgbHexDigitCount true
                   parameterValue curr
          else
            let rgbHexDigitCount := S i in
            match curr with
            | [] => Some (parameterValue, true, rgbHexDigitCount, curr)
            | c :: curr' =>
                if (component <? 2)%nat && (c =? 0x2F)
                then Some (parameterValue, true, rgbHexDigitCount, curr')
                else parseComponent isSharpSignFormat component n (S i) rgbHexDigitCount foundColor
                       parameterValue curr
            end
      end
  | _, _ => Some (parameterValue, foundColor, rgbHexDigitCount, curr)
  end.

Definition scaleComponent (isSharpSignFormat : bool) (rgbHexDigitCount : nat) (parameterValue : Z) : Z :=
  let scaleMultiplier := if isSharpSignFormat then 0x10 else 0x11 in
  let scaleDivisor := Z.shiftr (Z.shiftl scaleMultiplier 8) (4 * (4 - Z.of_nat rgbHexDigitCount)) in
  u32 (parameterValue * scaleMultiplier) / scaleDivisor.

(** The three components in turn, and what is left of the string. *)
Fixpoint parseComponents (isSharpSignFormat : bool) (count component rgbHexDigitCount : nat)
    (curr : list Z) : option (list Z * list Z) :=
  match count with
  | O => Some ([], curr)
  | S count =>
      let iteration := if isSharpSignFormat then rgbHexDigitCount else 4%nat in
      match parseComponent isSharpSignFormat component iteration 0 rgbHexDigitCount false 0 curr with
      | Some (parameterValue, true, rgbHexDigitCount, curr) =>
          match parseComponents isSharpSignFormat count (S component) rgbHexDigitCount curr with
          | Some (values, curr) =>
              Some (scaleComponent isSharpSignFormat rgbHexDigitCount parameterValue :: values, curr)
          | None => None
          end
      | _ => None
      end
  end.

Definition finishColor (parsed : option (list Z * list Z)) : option color :=
  match parsed with
  | Some ([c0; c1; c2], []) => Some (rgb (LOBYTE c0) (LOBYTE c1) (LOBYTE c2))
  | _ => None
  end.

Definition ColorFromXParseColorSpec (string : list Z) : option color :=
  let stringSize := length string in
  if (4 <? stringSize)%nat && bool_decide (map tolower_prefix (take 4 string) = wstr "rgb:")
  then
    if (stringSize <? 9)%nat || (18 <? stringSize)%nat then None
    else finishColor (parseComponents false 3 0 0 (drop 4 string))
  else if (1 <? stringSize)%nat && (match string with c :: _ => c =? 0x23 | [] => false end)
  then
    if negb ((stringSize =? 4)%nat || (stringSize =? 7)%nat || (stringSize =? 10)%nat || (stringSize =? 13)%nat)
    then None
    else finishColor (parseComponents true 3 0 ((stringSize - 1) / 3) (drop 1 string))
  else None.

(** ** Percentages

    The lookup tables hold the rounded quotients; [std::min<unsigned>] makes
    a negative component a large one. *)

Definition scale100To255 (i : Z) : Z := u8 ((i * 255 + 50) / 100).
Definition scale255To100 (i : Z) : Z := u8 ((i * 100 + 128) / 255).

Definition ColorFromRGB100 (red green blue : Z) : color :=
  rgb (scale100To255 (Z.min (u32 red) 100)) (scale100To255 (Z.min (u32 green) 100))
    (scale100To255 (Z.min (u32 blue) 100)).

Definition ColorToRGB100 (c : color) : Z * Z * Z :=
  (scale255To100 (color_r c), scale255To100 (color_g c), scale255To100 (color_b c)).

(** ** What the two formats mean *)

Definition hex_digit (c : Z) : Prop := is_Some (HexToUint c).

Definition hex_value (ds : list Z) : Z :=
  fold_left (fun v c => v * 16 + default 0 (HexToUint c)) ds 0.

(** The value of a component: one digit [h] is scaled to [hh] in the [rgb:]
    format and to [h0] in the sharp sign format; of more digits the first two
    count. *)
Definition component_value (sharp : bool) (ds : list Z) : Z :=
  match length ds with
  | 1%nat => hex_value ds * (if sharp then 0x10 else 0x11)
  | n => hex_value ds / 16 ^ (Z.of_nat n - 2)
  end.

Lemma HexToUint_bounds c v : HexToUint c = Some v -> 0 <= v < 16.
Proof. unfold HexToUint. repeat step_if; intros [= <-]; lia. Qed.

Lemma hex_fold_bound ds v n :
  Forall hex_digit ds -> 0 <= v < 16 ^ Z.of_nat n ->
  0 <= fold_left (fun v c => v * 16 + default 0 (HexToUint c)) ds v < 16 ^ Z.of_nat (n + length ds).
Proof.
  intros Hf. revert v n. induction Hf as [|c ds [d Hd] Hf IH]; intros v n Hv; cbn [fold_left length].
  - by rewrite Nat.add_0_r.
  - rewrite Nat.add_succ_r, <- Nat.add_succ_l. apply IH. rewrite Hd. cbn.
    apply HexToUint_bounds in Hd. rewrite Nat2Z.inj_succ, Z.pow_succ_r by lia. lia.
Qed.

(** Reading the digits of a component that ends the string or is followed by
    a slash; [v] is the value of the [i] digits read before. *)
Lemma parseComponent_rgb component ds rest i v n k found :
  Forall hex_digit ds -> ds <> [] -> (length ds <= n)%nat -> (i + length ds <= 4)%nat ->
  0 <= v < 16 ^ Z.of_nat i ->
  (rest = [] \/ exists rest', rest = 0x2F :: rest' /\ (component < 2)%nat) ->
  parseComponent false component n i k found v (ds ++ rest)
  = Some (fold_left (fun v c => v * 16 + default 0 (HexToUint c)) ds v, true,
          (i + length ds)%nat, drop 1 rest).
Proof.
  intros Hf. revert i v n k found.
  induction Hf as [|c ds [d Hd] Hf IH]; intros i v n k found Hne Hn Hi Hv Hr; [done|].
  destruct n as [|n]; [cbn in Hn; lia|]. cbn [app parseComponent fold_left length]. rewrite Hd.
  pose proof (HexToUint_bounds _ _ Hd) as Hb.
  assert (Hv' : 0 <= v * 16 + d < 16 ^ Z.of_nat (S i))
    by (rewrite Nat2Z.inj_succ, Z.pow_succ_r by lia; lia).
  assert (Hp : 16 ^ Z.of_nat (S i) <= 16 ^ 4)
    by (apply Z.pow_le_mono_r; [lia|cbn [length] in Hi; lia]).
  rewrite (u32_small (v * 16)), u32_small by lia. cbn [default].
  destruct ds as [|c' ds'].
  - cbn [app fold_left length]. rewrite Nat.add_1_r.
    destruct Hr as [->|(rest' & -> & Hc)]; [done|].
    by assert ((component <? 2)%nat = true) as -> by (by apply Nat.ltb_lt).
  - inversion Hf as [|? ? [d' Hd'] _]; subst.
    assert ((c' =? 0x2F) = false) as Hs.
    { apply Z.eqb_neq. intros ->. discriminate. }
    cbn [app]. rewrite Hs, andb_false_r.
    change (c' :: ds' ++ rest) with ((c' :: ds') ++ rest).
    rewrite (IH (S i)); [|done|cbn [length] in *; lia|cbn [length] in *; lia|done|done].
    cbn [length]. by rewrite Nat.add_succ_l, <- Nat.add_succ_r.
Qed.

Lemma parseComponent_sharp component ds rest i v found :
  Forall hex_digit ds -> (i + length ds <= 4)%nat -> 0 <= v < 16 ^ Z.of_nat i ->
  (found = true \/ ds <> []) ->
  parseComponent true component (length ds) i (i + length ds) found v (ds ++ rest)
  = Some (fold_left (fun v c => v * 16 + default 0 (HexToUint c)) ds v, true,
          (i + length ds)%nat, rest).
Proof.
  intros Hf. revert i v found. induction Hf as [|c ds [d Hd] Hf IH]; intros i v found Hi Hv Hfo.
  - cbn. destruct rest; by destruct Hfo as [->|].
  - cbn [app parseComponent fold_left length]. rewrite Hd.
    pose proof (HexToUint_bounds _ _ Hd) as Hb.
    assert (Hv' : 0 <= v * 16 + d < 16 ^ Z.of_nat (S i))
      by (rewrite Nat2Z.inj_succ, Z.pow_succ_r by lia; lia).
    assert (Hp : 16 ^ Z.of_nat (S i) <= 16 ^ 4)
      by (apply Z.pow_le_mono_r; [lia|cbn [length] in Hi; lia]).
    rewrite (u32_small (v * 16)), u32_small by lia. cbn [default].
    assert ((i + S (length ds) <=? i)%nat = false) as -> by (apply Nat.leb_gt; lia).
    rewrite Nat.add_succ_r, <- Nat.add_succ_l. apply IH; [cbn [length] in Hi; lia|done|by left].
Qed.

Lemma component_scaled sharp ds :
  Forall hex_digit ds -> (1 <= length ds <= 4)%nat ->
  scaleComponent sharp (length ds) (hex_value ds) = component_value sharp ds /\
  0 <= component_value sharp ds < 256.
Proof.
  intros Hf Hl. pose proof (hex_fold_bound ds 0 0 Hf ltac:(cbn; lia)) as Hb.
  change (fold_left _ ds 0) with (hex_value ds) in Hb. rewrite Nat.add_0_l in Hb.
  unfold scaleComponent, component_value. set (v := hex_value ds) in *. clearbody v. clear Hf.
  set (m := if sharp then 0x10 else 0x11). assert (Hm : 0x10 <= m <= 0x11) by (by destruct sharp).
  assert (Hd : Z.shiftr (Z.shiftl m 8) (4 * (4 - Z.of_nat (length ds)))
               = if (length ds =? 1)%nat then 1 else 16 ^ (Z.of_nat (length ds) - 2) * m).
  { unfold m. by destruct (length ds) as [|[|[|[|[|n]]]]]; [lia|destruct sharp..|lia]. }
  assert (Hs : 16 ^ Z.of_nat (length ds) <= 16 ^ 4) by (apply Z.pow_le_mono_r; lia).
  rewrite Hd, u32_small by nia. clear Hd.
  destruct (length ds) as [|[|n]]; [lia| |].
  - cbn -[Z.mul Z.div] in *. rewrite Z.div_1_r. split; nia.
  - replace (S (S n) =? 1)%nat with false by done.
    assert (Hk : 0 < 16 ^ (Z.of_nat (S (S n)) - 2)) by (apply Z.pow_pos_nonneg; lia).
    split; [apply Z.div_mul_cancel_r; lia|].
    split; [apply Z.div_pos; lia|]. apply Z.div_lt_upper_bound; [lia|].
    replace (16 ^ Z.of_nat (S (S n))) with (16 ^ (Z.of_nat (S (S n)) - 2) * 16 ^ 2) in Hb; [lia|].
    rewrite <- Z.pow_add_r by lia. f_equal. lia.
Qed.

Lemma LOBYTE_small v : 0 <= v < 256 -> LOBYTE v = v.
Proof.
  intros Hv. unfold LOBYTE. change 0xFF with (Z.ones 8). rewrite Z.land_ones by lia.
  apply Z.mod_small. lia.
Qed.

Section Components.
Context (d1 d2 d3 : list Z).
Context (H1 : Forall hex_digit d1) (L1 : (1 <= length d1 <= 4)%nat).
Context (H2 : Forall hex_digit d2) (L2 : (1 <= length d2 <= 4)%nat).
Context (H3 : Forall hex_digit d3) (L3 : (1 <= length d3 <= 4)%nat).

Lemma digits_given : d1 <> [] /\ d2 <> [] /\ d3 <> [].
Proof. split_and!; intros Hd; rewrite Hd in *; cbn in *; lia. Qed.

Lemma rgb_spec_parsed p :
  In p [wstr "rgb:"; wstr "RGB:"] ->
  ColorFromXParseColorSpec (p ++ d1 ++ wstr "/" ++ d2 ++ wstr "/" ++ d3)
  = Some (rgb (component_value false d1) (component_value false d2) (component_value false d3)).
Proof.
  pose proof (component_scaled false d1 H1 L1) as [S1 B1].
  pose proof (component_scaled false d2 H2 L2) as [S2 B2].
  pose proof (component_scaled false d3 H3 L3) as [S3 B3].
  destruct digits_given as (N1 & N2 & N3). unfold hex_value in S1, S2, S3.
  intros Hp. set (tail := d1 ++ wstr "/" ++ d2 ++ wstr "/" ++ d3).
  assert (Hl : length tail = (length d1 + (1 + (length d2 + (1 + length d3))))%nat)
    by (unfold tail; by rewrite !length_app).
  assert (Hc : parseComponents false 3 0 0 tail
            = Some ([component_value false d1; component_value false d2; component_value false d3], [])).
  { unfold tail. cbn [parseComponents].
    rewrite (parseComponent_rgb 0 d1) by (first [done|lia|right; eexists; split; [reflexivity|lia]]).
    change (drop 1 (wstr "/" ++ ?x)) with x.
    rewrite (parseComponent_rgb 1 d2) by (first [done|lia|right; eexists; split; [reflexivity|lia]]).
    change (drop 1 (wstr "/" ++ ?x)) with x. rewrite <- (app_nil_r d3) at 1.
    rewrite (parseComponent_rgb 2 d3) by (first [done|lia|by left]).
    cbn [drop Nat.add]. by rewrite S1, S2, S3. }
  unfold ColorFromXParseColorSpec. rewrite length_app, Hl.
  destruct Hp as [<-|[<-|[]]];
    (assert ((4 <? _)%nat = true) as -> by (apply Nat.ltb_lt; cbn; lia));
    cbn [wstr app length take drop Nat.add];
    (rewrite bool_decide_eq_true_2 by done); cbn [andb];
    (assert ((_ <? 9)%nat = false) as -> by (apply Nat.ltb_ge; lia));
    (assert ((18 <? _)%nat = false) as -> by (apply Nat.ltb_ge; lia)); cbn [orb];
    rewrite drop_0, Hc; cbn [finishColor]; by rewrite !LOBYTE_small by done.
Qed.

Lemma sharp_spec_parsed :
  length d1 = length d2 -> length d2 = length d3 ->
  ColorFromXParseColorSpec (wstr "#" ++ d1 ++ d2 ++ d3)
  = Some (rgb (component_value true d1) (component_value true d2) (component_value true d3)).
Proof.
  pose proof (component_scaled true d1 H1 L1) as [S1 B1].
  pose proof (component_scaled true d2 H2 L2) as [S2 B2].
  pose proof (component_scaled true d3 H3 L3) as [S3 B3].
  destruct digits_given as (N1 & N2 & N3).
  intros E1 E2. set (tail := d1 ++ d2 ++ d3).
  assert (Hl : length tail = (3 * length d1)%nat) by (unfold tail; rewrite !length_app; lia).
  assert (Hc : parseComponents true 3 0 (length d1) tail
            = Some ([component_value true d1; component_value true d2; component_value true d3], [])).
  { unfold tail. cbn [parseComponents].
    pose proof (parseComponent_sharp 0 d1 (d2 ++ d3) 0 0 false H1) as P1.
    pose proof (parseComponent_sharp 1 d2 d3 0 0 false H2) as P2.
    pose proof (parseComponent_sharp 2 d3 [] 0 0 false H3) as P3.
    rewrite app_nil_r in P3. cbn [Nat.add] in P1, P2, P3.
    rewrite P1 by (first [lia|by right]). rewrite E1. rewrite P2 by (first [lia|by right]).
    rewrite E2. rewrite P3 by (first [lia|by right]).
    change (fold_left _ d1 0) with (hex_value d1). change (fold_left _ d2 0) with (hex_value d2).
    change (fold_left _ d3 0) with (hex_value d3).
    rewrite S3, <- E2, S2, <- E1. by rewrite S1. }
  unfold ColorFromXParseColorSpec. cbn [wstr app length]. rewrite Hl.
  replace (S (3 * length d1) - 1)%nat with (length d1 * 3)%nat by lia.
  rewrite Nat.div_mul by done. cbn [drop]. rewrite drop_0, Hc. cbn [finishColor].
  rewrite !LOBYTE_small by done.
  rewrite bool_decide_eq_false_2 by (cbn; destruct tail; discriminate). rewrite andb_false_r.
  assert (Hd : (length d1 = 1 \/ length d1 = 2 \/ length d1 = 3 \/ length d1 = 4)%nat) by lia.
  by destruct Hd as [-> |[-> |[-> | ->]]].
Qed.
End Components.

(** A colour specification in either format of [XParseColor] gives the
    colour it denotes.  Each component of [rgb:] may have one to four hex
    digits of its own, in either case of [RGB]; the three components of the
    sharp sign format have the same number of digits. *)
Theorem color_spec_parsed d1 d2 d3 :
  Forall hex_digit (d1 ++ d2 ++ d3) ->
  (1 <= length d1 <= 4)%nat -> (1 <= length d2 <= 4)%nat -> (1 <= length d3 <= 4)%nat ->
  (forall p, In p [wstr "rgb:"; wstr "RGB:"] ->
    ColorFromXParseColorSpec (p ++ d1 ++ wstr "/" ++ d2 ++ wstr "/" ++ d3)
    = Some (rgb (component_value false d1) (component_value false d2) (component_value false d3))) /\
  (length d1 = length d2 -> length d2 = length d3 ->
    ColorFromXParseColorSpec (wstr "#" ++ d1 ++ d2 ++ d3)
    = Some (rgb (component_value true d1) (component_value true d2) (component_value true d3))).
Proof.
  rewrite !Forall_app. intros (H1 & H2 & H3) L1 L2 L3. split; intros.
  - by apply rgb_spec_parsed.
  - by apply sharp_spec_parsed.
Qed.

(** Percentages survive the conversion to bytes and back, and a
    component outside 0 to 100, negative ones included, counts as 100. *)
Theorem rgb100_roundtrip x y z :
  - 2 ^ 31 <= x < 2 ^ 31 -> - 2 ^ 31 <= y < 2 ^ 31 -> - 2 ^ 31 <= z < 2 ^ 31 ->
  let pc v := if (0 <=? v) && (v <=? 100) then v else 100 in
  ColorToRGB100 (ColorFromRGB100 x y z) = (pc x, pc y, pc z).
Proof.
  assert (H : forall v, - 2 ^ 31 <= v < 2 ^ 31 ->
    scale255To100 (scale100To255 (Z.min (u32 v) 100)) = if (0 <=? v) && (v <=? 100) then v else 100).
  { intros v Hv. assert (Hm : Z.min (u32 v) 100 = if (0 <=? v) && (v <=? 100) then v else 100).
    { destruct (Z.leb_spec 0 v); cbn [andb].
      - rewrite u32_small by lia. destruct (Z.leb_spec v 100); lia.
      - assert (u32 v = v + 2 ^ 32) as -> by (unfold u32; symmetry; apply (Z.mod_unique _ _ (-1)); lia). lia. }
    rewrite Hm. set (w := if (0 <=? v) && (v <=? 100) then v else 100).
    assert (Hw : 0 <= w < 101) by (unfold w; step_if; lia).
    assert (Ha : (scale255To100 (scale100To255 w) =? w) = true); [|lia].
    apply (all_below_spec (fun w => scale255To100 (scale100To255 w) =? w) (Z.to_nat 101) 0); [|lia].
    by vm_compute. }
  intros Hx Hy Hz pc. unfold ColorToRGB100, ColorFromRGB100, pc. cbn. by rewrite !H.
Qed.

(** * Colour tables and colour names

    Models [src/src/types/colorTable.cpp]: the default tables, the 256-entry
    initialisation, and [ColorFromXOrgAppColorName] with its two tables of
    names, which are [til::presorted_static_map]s
    ([src/src/inc/til/static_map.h]): the names are looked up by a binary
    search whose answer is only right if the tables are sorted. *)


(** ** [til::static_map]

    Keys are strings, compared character by character. *)

Fixpoint str_ltb (x y : list Z) : bool :=
  match x, y with
  | _, [] => false
  | [], _ :: _ => true
  | c :: x', d :: y' => if c <? d then true else if c =? d then str_ltb x' y' else false
  end.

Section StaticMap.
Context {V : Type}.

(** [std::partition_point]: the search halves the range [\[first, first +
    count)]; [fuel] bounds the halvings. *)
Fixpoint partition_point (fuel : nat) (pred : list Z * V -> bool) (l : list (list Z * V))
    (first count : nat) : nat :=
  match fuel with
  | O => first
  | S fuel =>
      match count with
      | O => first
      | _ =>
          let half := (count / 2)%nat in
          match l !! (first + half)%nat with
          | Some p =>
              if pred p then partition_point fuel pred l (first + half + 1) (count - half - 1)
              else partition_point fuel pred l first half
          | None => first
          end
      end
  end.

Definition static_map_find (l : list (list Z * V)) (key : list Z) : option V :=
  let iter := partition_point (length l) (fun p => str_ltb (fst p) key) l 0 (length l) in
  match l !! iter with
  | Some (k, v) => if bool_decide (key = k) then Some v else None
  | None => None
  end.

(** The order the tables have to be in, and the lookup they stand for. *)
Fixpoint keys_sorted (l : list (list Z * V)) : bool :=
  match l with
  | p :: ((q :: _) as l') => str_ltb (fst p) (fst q) && keys_sorted l'
  | _ => true
  end.

Fixpoint assoc (l : list (list Z * V)) (key : list Z) : option V :=
  match l with
  | [] => None
  | (k, v) :: l' => if bool_decide (key = k) then Some v else assoc l' key
  end.
End StaticMap.

(** ** The tables *)

Definition campbellColorTable : list color :=
  [ rgb 0xC 0xC 0xC;
    rgb 0xC5 0xF 0x1F;
    rgb 0x13 0xA1 0xE;
    rgb 0xC1 0x9C 0x0;
    rgb 0x0 0x37 0xDA;
    rgb 0x88 0x17 0x98;
    rgb 0x3A 0x96 0xDD;
    rgb 0xCC 0xCC 0xCC;
    rgb 0x76 0x76 0x76;
    rgb 0xE7 0x48 0x56;
    rgb 0x16 0xC6 0xC;
    rgb 0xF9 0xF1 0xA5;
    rgb 0x3B 0x78 0xFF;
    rgb 0xB4 0x0 0x9E;
    rgb 0x61 0xD6 0xD6;
    rgb 0xF2 0xF2 0xF2 ].

Definition vt340ColorTable : list color :=
  [ rgb 0x0 0x0 0x0;
    rgb 0x33 0x33 0xCC;
    rgb 0xCC 0x24 0x24;
    rgb 0x33 0xCC 0x33;
    rgb 0xCC 0x33 0xCC;
    rgb 0x33 0xCC 0xCC;
    rgb 0xCC 0xCC 0x33;
    rgb 0x78 0x78 0x78;
    rgb 0x45 0x45 0x45;
    rgb 0x57 0x57 0x99;
    rgb 0x99 0x45 0x45;
    rgb 0x57 0x99 0x57;
    rgb 0x99 0x57 0x99;
    rgb 0x57 0x99 0x99;
    rgb 0x99 0x99 0x57;
    rgb 0xCC 0xCC 0xCC ].

Definition xorgAppVariantColorTable : list (list Z * list color) :=
  [ (wstr "antiquewhite", [rgb 250 235 215; rgb 255 239 219; rgb 238 223 204; rgb 205 192 176; rgb 139 131 120]);
    (wstr "aquamarine", [rgb 127 255 212; rgb 127 255 212; rgb 118 238 198; rgb 102 205 170; rgb 69 139 116]);
    (wstr "azure", [rgb 240 255 255; rgb 240 255 255; rgb 224 238 238; rgb 193 205 205; rgb 131 139 139]);
    (wstr "bisque", [rgb 255 228 196; rgb 255 228 196; rgb 238 213 183; rgb 205 183 158; rgb 139 125 107]);
    (wstr "blue", [rgb 0 0 255; rgb 0 0 255; rgb 0 0 238; rgb 0 0 205; rgb 0 0 139]);
    (wstr "brown", [rgb 165 42 42; rgb 255 64 64; rgb 238 59 59; rgb 205 51 51; rgb 139 35 35]);
    (wstr "burlywood", [rgb 222 184 135; rgb 255 211 155; rgb 238 197 145; rgb 205 170 125; rgb 139 115 85]);
    (wstr "cadetblue", [rgb 95 158 160; rgb 152 245 255; rgb 142 229 238; rgb 122 197 205; rgb 83 134 139]);
    (wstr "chartreuse", [rgb 127 255 0; rgb 127 255 0; rgb 118 238 0; rgb 102 205 0; rgb 69 139 0]);
    (wstr "chocolate", [rgb 210 105 30; rgb 255 127 36; rgb 238 118 33; rgb 205 102 29; rgb 139 69 19]);
    (wstr "coral", [rgb 255 127 80; rgb 255 114 86; rgb 238 106 80; rgb 205 91 69; rgb 139 62 47]);
    (wstr "cornsilk", [rgb 255 248 220; rgb 255 248 220; rgb 238 232 205; rgb 205 200 177; rgb 139 136 120]);
    (wstr "cyan", [rgb 0 255 255; rgb 0 255 255; rgb 0 238 238; rgb 0 205 205; rgb 0 139 139]);
    (wstr "darkgoldenrod", [rgb 184 134 11; rgb 255 185 15; rgb 238 173 14; rgb 205 149 12; rgb 139 101 8]);
    (wstr "darkolivegreen", [rgb 85 107 47; rgb 202 255 112; rgb 188 238 104; rgb 162 205 90; rgb 110 139 61]);
    (wstr "darkorange", [rgb 255 140 0; rgb 255 127 0; rgb 238 118 0; rgb 205 102 0; rgb 139 69 0]);
    (wstr "darkorchid", [rgb 153 50 204; rgb 191 62 255; rgb 178 58 238; rgb 154 50 205; rgb 104 34 139]);
    (wstr "darkseagreen", [rgb 143 188 143; rgb 193 255 193; rgb 180 238 180; rgb 155 205 155; rgb 105 139 105]);
    (wstr "darkslategray", [rgb 47 79 79; rgb 151 255 255; rgb 141 238 238; rgb 121 205 205; rgb 82 139 139]);
    (wstr "deeppink", [rgb 255 20 147; rgb 255 20 147; rgb 238 18 137; rgb 205 16 118; rgb 139 10 80]);
    (wstr "deepskyblue", [rgb 0 191 255; rgb 0 191 255; rgb 0 178 238; rgb 0 154 205; rgb 0 104 139]);
    (wstr "dodgerblue", [rgb 30 144 255; rgb 30 144 255; rgb 28 134 238; rgb 24 116 205; rgb 16 78 139]);
    (wstr "firebrick", [rgb 178 34 34; rgb 255 48 48; rgb 238 44 44; rgb 205 38 38; rgb 139 26 26]);
    (wstr "gold", [rgb 255 215 0; rgb 255 215 0; rgb 238 201 0; rgb 205 173 0; rgb 139 117 0]);
    (wstr "goldenrod", [rgb 218 165 32; rgb 255 193 37; rgb 238 180 34; rgb 205 155 29; rgb 139 105 20]);
    (wstr "green", [rgb 0 255 0; rgb 0 255 0; rgb 0 238 0; rgb 0 205 0; rgb 0 139 0]);
    (wstr "honeydew", [rgb 240 255 240; rgb 240 255 240; rgb 224 238 224; rgb 193 205 193; rgb 131 139 131]);
    (wstr "hotpink", [rgb 255 105 180; rgb 255 110 180; rgb 238 106 167; rgb 205 96 144; rgb 139 58 98]);
    (wstr "indianred", [rgb 205 92 92; rgb 255 106 106; rgb 238 99 99; rgb 205 85 85; rgb 139 58 58]);
    (wstr "ivory", [rgb 255 255 240; rgb 255 255 240; rgb 238 238 224; rgb 205 205 193; rgb 139 139 131]);
    (wstr "khaki", [rgb 240 230 140; rgb 255 246 143; rgb 238 230 133; rgb 205 198 115; rgb 139 134 78]);
    (wstr "lavenderblush", [rgb 255 240 245; rgb 255 240 245; rgb 238 224 229; rgb 205 193 197; rgb 139 131 134]);
    (wstr "lemonchiffon", [rgb 255 250 205; rgb 255 250 205; rgb 238 233 191; rgb 205 201 165; rgb 139 137 112]);
    (wstr "lightblue", [rgb 173 216 230; rgb 191 239 255; rgb 178 223 238; rgb 154 192 205; rgb 104 131 139]);
    (wstr "lightcyan", [rgb 224 255 255; rgb 224 255 255; rgb 209 238 238; rgb 180 205 205; rgb 122 139 139]);
    (wstr "lightgoldenrod", [rgb 238 221 130; rgb 255 236 139; rgb 238 220 130; rgb 205 190 112; rgb 139 129 76]);
    (wstr "lightpink", [rgb 255 182 193; rgb 255 174 185; rgb 238 162 173; rgb 205 140 149; rgb 139 95 101]);
    (wstr "lightsalmon", [rgb 255 160 122; rgb 255 160 122; rgb 238 149 114; rgb 205 129 98; rgb 139 87 66]);
    (wstr "lightskyblue", [rgb 135 206 250; rgb 176 226 255; rgb 164 211 238; rgb 141 182 205; rgb 96 123 139]);
    (wstr "lightsteelblue", [rgb 176 196 222; rgb 202 225 255; rgb 188 210 238; rgb 162 181 205; rgb 110 123 139]);
    (wstr "lightyellow", [rgb 255 255 224; rgb 255 255 224; rgb 238 238 209; rgb 205 205 180; rgb 139 139 122]);
    (wstr "magenta", [rgb 255 0 255; rgb 255 0 255; rgb 238 0 238; rgb 205 0 205; rgb 139 0 139]);
    (wstr "maroon", [rgb 176 48 96; rgb 255 52 179; rgb 238 48 167; rgb 205 41 144; rgb 139 28 98]);
    (wstr "mediumorchid", [rgb 186 85 211; rgb 224 102 255; rgb 209 95 238; rgb 180 82 205; rgb 122 55 139]);
    (wstr "mediumpurple", [rgb 147 112 219; rgb 171 130 255; rgb 159 121 238; rgb 137 104 205; rgb 93 71 139]);
    (wstr "mistyrose", [rgb 255 228 225; rgb 255 228 225; rgb 238 213 210; rgb 205 183 181; rgb 139 125 123]);
    (wstr "navajowhite", [rgb 255 222 173; rgb 255 222 173; rgb 238 207 161; rgb 205 179 139; rgb 139 121 94]);
    (wstr "olivedrab", [rgb 107 142 35; rgb 192 255 62; rgb 179 238 58; rgb 154 205 50; rgb 105 139 34]);
    (wstr "orange", [rgb 255 165 0; rgb 255 165 0; rgb 238 154 0; rgb 205 133 0; rgb 139 90 0]);
    (wstr "orangered", [rgb 255 69 0; rgb 255 69 0; rgb 238 64 0; rgb 205 55 0; rgb 139 37 0]);
    (wstr "orchid", [rgb 218 112 214; rgb 255 131 250; rgb 238 122 233; rgb 205 105 201; rgb 139 71 137]);
    (wstr "palegreen", [rgb 152 251 152; rgb 154 255 154; rgb 144 238 144; rgb 124 205 124; rgb 84 139 84]);
    (wstr "paleturquoise", [rgb 175 238 238; rgb 187 255 255; rgb 174 238 238; rgb 150 205 205; rgb 102 139 139]);
    (wstr "palevioletred", [rgb 219 112 147; rgb 255 130 171; rgb 238 121 159; rgb 205 104 137; rgb 139 71 93]);
    (wstr "peachpuff", [rgb 255 218 185; rgb 255 218 185; rgb 238 203 173; rgb 205 175 149; rgb 139 119 101]);
    (wstr "pink", [rgb 255 192 203; rgb 255 181 197; rgb 238 169 184; rgb 205 145 158; rgb 139 99 108]);
    (wstr "plum", [rgb 221 160 221; rgb 255 187 255; rgb 238 174 238; rgb 205 150 205; rgb 139 102 139]);
    (wstr "purple", [rgb 160 32 240; rgb 155 48 255; rgb 145 44 238; rgb 125 38 205; rgb 85 26 139]);
    (wstr "red", [rgb 255 0 0; rgb 255 0 0; rgb 238 0 0; rgb 205 0 0; rgb 139 0 0]);
    (wstr "rosybrown", [rgb 188 143 143; rgb 255 193 193; rgb 238 180 180; rgb 205 155 155; rgb 139 105 105]);
    (wstr "royalblue", [rgb 65 105 225; rgb 72 118 255; rgb 67 110 238; rgb 58 95 205; rgb 39 64 139]);
    (wstr "salmon", [rgb 250 128 114; rgb 255 140 105; rgb 238 130 98; rgb 205 112 84; rgb 139 76 57]);
    (wstr "seagreen", [rgb 46 139 87; rgb 84 255 159; rgb 78 238 148; rgb 67 205 128; rgb 46 139 87]);
    (wstr "seashell", [rgb 255 245 238; rgb 255 245 238; rgb 238 229 222; rgb 205 197 191; rgb 139 134 130]);
    (wstr "sienna", [rgb 160 82 45; rgb 255 130 71; rgb 238 121 66; rgb 205 104 57; rgb 139 71 38]);
    (wstr "skyblue", [rgb 135 206 235; rgb 135 206 255; rgb 126 192 238; rgb 108 166 205; rgb 74 112 139]);
    (wstr "slateblue", [rgb 106 90 205; rgb 131 111 255; rgb 122 103 238; rgb 105 89 205; rgb 71 60 139]);
    (wstr "slategray", [rgb 112 128 144; rgb 198 226 255; rgb 185 211 238; rgb 159 182 205; rgb 108 123 139]);
    (wstr "snow", [rgb 255 250 250; rgb 255 250 250; rgb 238 233 233; rgb 205 201 201; rgb 139 137 137]);
    (wstr "springgreen", [rgb 0 255 127; rgb 0 255 127; rgb 0 238 118; rgb 0 205 102; rgb 0 139 69]);
    (wstr "steelblue", [rgb 70 130 180; rgb 99 184 255; rgb 92 172 238; rgb 79 148 205; rgb 54 100 139]);
    (wstr "tan", [rgb 210 180 140; rgb 255 165 79; rgb 238 154 73; rgb 205 133 63; rgb 139 90 43]);
    (wstr "thistle", [rgb 216 191 216; rgb 255 225 255; rgb 238 210 238; rgb 205 181 205; rgb 139 123 139]);
    (wstr "tomato", [rgb 255 99 71; rgb 255 99 71; rgb 238 92 66; rgb 205 79 57; rgb 139 54 38]);
    (wstr "turquoise", [rgb 64 224 208; rgb 0 245 255; rgb 0 229 238; rgb 0 197 205; rgb 0 134 139]);
    (wstr "violetred", [rgb 208 32 144; rgb 255 62 150; rgb 238 58 140; rgb 205 50 120; rgb 139 34 82]);
    (wstr "wheat", [rgb 245 222 179; rgb 255 231 186; rgb 238 216 174; rgb 205 186 150; rgb 139 126 102]);
    (wstr "yellow", [rgb 255 255 0; rgb 255 255 0; rgb 238 238 0; rgb 205 205 0; rgb 139 139 0]) ].

Definition xorgAppColorTable : list (list Z * color) :=
  [ (wstr "aliceblue", rgb 240 248 255);
    (wstr "aqua", rgb 0 255 255);
    (wstr "beige", rgb 245 245 220);
    (wstr "black", rgb 0 0 0);
    (wstr "blanchedalmond", rgb 255 235 205);
    (wstr "blueviolet", rgb 138 43 226);
    (wstr "cornflowerblue", rgb 100 149 237);
    (wstr "crimson", rgb 220 20 60);
    (wstr "darkblue", rgb 0 0 139);
    (wstr "darkcyan", rgb 0 139 139);
    (wstr "darkgray", rgb 169 169 169);
    (wstr "darkgreen", rgb 0 100 0);
    (wstr "darkgrey", rgb 169 169 169);
    (wstr "darkkhaki", rgb 189 183 107);
    (wstr "darkmagenta", rgb 139 0 139);
    (wstr "darkred", rgb 139 0 0);
    (wstr "darksalmon", rgb 233 150 122);
    (wstr "darkslateblue", rgb 72 61 139);
    (wstr "darkslategrey", rgb 47 79 79);
    (wstr "darkturquoise", rgb 0 206 209);
    (wstr "darkviolet", rgb 148 0 211);
    (wstr "dimgray", rgb 105 105 105);
    (wstr "dimgrey", rgb 105 105 105);
    (wstr "floralwhite", rgb 255 250 240);
    (wstr "forestgreen", rgb 34 139 34);
    (wstr "fuchsia", rgb 255 0 255);
    (wstr "gainsboro", rgb 220 220 220);
    (wstr "ghostwhite", rgb 248 248 255);
    (wstr "gray", rgb 190 190 190);
    (wstr "greenyellow", rgb 173 255 47);
    (wstr "grey", rgb 190 190 190);
    (wstr "indigo", rgb 75 0 130);
    (wstr "lavender", rgb 230 230 250);
    (wstr "lawngreen", rgb 124 252 0);
    (wstr "lightcoral", rgb 240 128 128);
    (wstr "lightgoldenrodyellow", rgb 250 250 210);
    (wstr "lightgray", rgb 211 211 211);
    (wstr "lightgreen", rgb 144 238 144);
    (wstr "lightgrey", rgb 211 211 211);
    (wstr "lightseagreen", rgb 32 178 170);
    (wstr "lightslateblue", rgb 132 112 255);
    (wstr "lightslategray", rgb 119 136 153);
    (wstr "lightslategrey", rgb 119 136 153);
    (wstr "lime", rgb 0 255 0);
    (wstr "limegreen", rgb 50 205 50);
    (wstr "linen", rgb 250 240 230);
    (wstr "mediumaquamarine", rgb 102 205 170);
    (wstr "mediumblue", rgb 0 0 205);
    (wstr "mediumseagreen", rgb 60 179 113);
    (wstr "mediumslateblue", rgb 123 104 238);
    (wstr "mediumspringgreen", rgb 0 250 154);
    (wstr "mediumturquoise", rgb 72 209 204);
    (wstr "mediumvioletred", rgb 199 21 133);
    (wstr "midnightblue", rgb 25 25 112);
    (wstr "mintcream", rgb 245 255 250);
    (wstr "moccasin", rgb 255 228 181);
    (wstr "navy", rgb 0 0 128);
    (wstr "navyblue", rgb 0 0 128);
    (wstr "oldlace", rgb 253 245 230);
    (wstr "olive", rgb 128 128 0);
    (wstr "palegoldenrod", rgb 238 232 170);
    (wstr "papayawhip", rgb 255 239 213);
    (wstr "peru", rgb 205 133 63);
    (wstr "powderblue", rgb 176 224 230);
    (wstr "rebeccapurple", rgb 102 51 153);
    (wstr "saddlebrown", rgb 139 69 19);
    (wstr "sandybrown", rgb 244 164 96);
    (wstr "silver", rgb 192 192 192);
    (wstr "slategrey", rgb 112 128 144);
    (wstr "teal", rgb 0 128 128);
    (wstr "violet", rgb 238 130 238);
    (wstr "webgray", rgb 128 128 128);
    (wstr "webgreen", rgb 0 128 0);
    (wstr "webgrey", rgb 128 128 128);
    (wstr "webmaroon", rgb 128 0 0);
    (wstr "webpurple", rgb 128 0 128);
    (wstr "white", rgb 255 255 255);
    (wstr "whitesmoke", rgb 245 245 245);
    (wstr "x11gray", rgb 190 190 190);
    (wstr "x11green", rgb 0 255 0);
    (wstr "x11grey", rgb 190 190 190);
    (wstr "x11maroon", rgb 176 48 96);
    (wstr "x11purple", rgb 160 32 240);
    (wstr "yellowgreen", rgb 154 205 50) ].

(** ** [ColorFromXOrgAppColorName] *)

Definition is_blank (c : Z) : bool :=
  (c =? 0x20) || (c =? 0x0C) || (c =? 0x0A) || (c =? 0x0D) || (c =? 0x09) || (c =? 0x0B).

Definition tolower_ascii (c : Z) : Z := if (0x41 <=? c) && (c <=? 0x5A) then Z.lor c 0x20 else c.

(** The scan of the name: its stem, and the variant number at its end. *)
Fixpoint scanColorName (wstr stem : list Z) (variantIndex : Z) (foundVariant : bool)
    : option (list Z * Z * bool) :=
  match wstr with
  | [] => Some (stem, variantIndex, foundVariant)
  | c :: wstr' =>
      if 127 <? c then None
      else if (0x30 <=? c) && (c <=? 0x39) then
        scanColorName wstr' stem (u64 (u64 (variantIndex * 10) + (c - 0x30))) true
      else if is_blank c then scanColorName wstr' stem variantIndex foundVariant
      else if foundVariant then None
      else scanColorName wstr' (stem ++ [tolower_ascii c]) variantIndex foundVariant
  end.

Definition variantColor (stem : list Z) (variantIndex : Z) : option color :=
  match static_map_find xorgAppVariantColorTable stem with
  | Some colors =>
      if variantIndex <? Z.of_nat (length colors) then colors !! Z.to_nat variantIndex else None
  | None => None
  end.

Definition ColorFromXOrgAppColorName (name : list Z) : option color :=
  match scanColorName name [] 0 false with
  | None => None
  | Some (stem, variantIndex, foundVariant) =>
      match variantColor stem variantIndex with
      | Some c => Some c
      | None =>
          if (bool_decide (stem = wstr "gray") || bool_decide (stem = wstr "grey")) && foundVariant
          then
            if 100 <? variantIndex then None
            else let component := Z.min 255 ((variantIndex * 255 + 50) / 100) in
                 Some (rgb component component component)
          else static_map_find xorgAppColorTable stem
      end
  end.

(** [Utils::ColorFromXTermColor] of [utils.cpp]. *)
Definition ColorFromXTermColor (string : list Z) : option color :=
  match ColorFromXParseColorSpec string with
  | Some c => Some c
  | None => ColorFromXOrgAppColorName string
  end.

(** ** Initialisation of a colour table *)

Fixpoint copy_n (colors : list color) (i : nat) (table : list Z) : list Z :=
  match colors with
  | [] => table
  | c :: colors' => copy_n colors' (S i) (<[i := COLORREF_of_color c]> table)
  end.

Definition InitializeANSIColorTable (table : list Z) : list Z :=
  if (length campbellColorTable <=? length table)%nat then copy_n campbellColorTable 0 table else table.

Definition InitializeVT340ColorTable (table : list Z) : list Z :=
  if (length vt340ColorTable <=? length table)%nat then copy_n vt340ColorTable 0 table else table.

Definition cubeScale : list Z := [0; 0x5F; 0x87; 0xAF; 0xD7; 0xFF].

Definition cubeColor (monochrome : bool) (i : nat) : color :=
  let red := nth ((i / 36) mod 6) cubeScale 0 in
  let green := nth ((i / 6) mod 6) cubeScale 0 in
  let blue := nth (i mod 6) cubeScale 0 in
  if monochrome
  then let l := u8 ((red + green + blue) / 3) in rgb l l l
  else rgb red green blue.

Definition grayColor (i : nat) : color :=
  let l := u8 (Z.of_nat i * 10 + 8) in rgb l l l.

(** [for (i = 0; i < n; i++) table\[i + off\] = f(i)] *)
Fixpoint fillTable (n : nat) (off : nat) (f : nat -> color) (table : list Z) : list Z :=
  match n with
  | O => table
  | S n => <[(n + off)%nat := COLORREF_of_color (f n)]> (fillTable n off f table)
  end.

Definition InitializeExtendedColorTable (table : list Z) (monochrome : bool) : list Z :=
  if (256 <=? length table)%nat
  then fillTable 24 232 grayColor (fillTable 216 16 (cubeColor monochrome) table)
  else table.

Definition InitializeColorTable (table : list Z) : list Z :=
  InitializeExtendedColorTable (InitializeANSIColorTable table) false.

(** ** The binary search finds what a linear search would *)

Lemma str_ltb_irrefl x : str_ltb x x = false.
Proof. induction x as [|c x IH]; [done|]. cbn. by rewrite Z.ltb_irrefl, Z.eqb_refl. Qed.

Lemma str_ltb_trans x y z : str_ltb x y = true -> str_ltb y z = true -> str_ltb x z = true.
Proof.
  revert y z. induction x as [|c x IH]; intros [|d y] [|e z]; try done. cbn.
  destruct (Z.ltb_spec c d), (Z.ltb_spec d e), (Z.ltb_spec c e); try done; try lia;
    destruct (Z.eqb_spec c d), (Z.eqb_spec d e), (Z.eqb_spec c e); try done; try lia. apply IH.
Qed.

Section StaticMapFacts.
Context {V : Type}.
Implicit Types l : list (list Z * V).

Lemma keys_sorted_lookup l i j p q :
  keys_sorted l = true -> (i < j)%nat -> l !! i = Some p -> l !! j = Some q ->
  str_ltb (fst p) (fst q) = true.
Proof.
  revert i j p q. induction l as [|x l IH]; intros i j p q Hs Hij Hi Hj; [done|].
  destruct l as [|y l]; [destruct j as [|[|j]]; cbn in *; [lia|done..]|].
  cbn [keys_sorted] in Hs. apply andb_true_iff in Hs as [Hxy Hs].
  destruct j as [|j]; [lia|]. destruct i as [|i]; [|by apply (IH i j); [|lia|..]].
  cbn in Hi. injection Hi as <-. destruct j as [|j]; [cbn in Hj; by injection Hj as <-|].
  apply (str_ltb_trans _ (fst y)); [done|]. by apply (IH 0%nat (S j)); [|lia|..].
Qed.

(** The point the search returns: smaller keys before it, none at or after. *)
Lemma partition_point_spec l key fuel first count :
  keys_sorted l = true -> (count <= fuel)%nat -> (first + count <= length l)%nat ->
  (forall i p, (i < first)%nat -> l !! i = Some p -> str_ltb (fst p) key = true) ->
  (forall i p, (first + count <= i)%nat -> l !! i = Some p -> str_ltb (fst p) key = false) ->
  let n := partition_point fuel (fun p => str_ltb (fst p) key) l first count in
  (forall i p, (i < n)%nat -> l !! i = Some p -> str_ltb (fst p) key = true) /\
  (forall i p, (n <= i)%nat -> l !! i = Some p -> str_ltb (fst p) key = false).
Proof.
  intros Hs. revert first count. induction fuel as [|fuel IH]; intros first count Hc Hl Hlo Hhi.
  - cbn. split; [done|]. intros i p Hi. apply Hhi. lia.
  - cbn [partition_point]. destruct count as [|count'].
    { split; [done|]. intros i p Hi. apply Hhi. lia. }
    set (count := S count') in *. set (half := (count / 2)%nat).
    assert (Hh : (half < count)%nat) by (apply Nat.div_lt; lia).
    destruct (l !! (first + half)%nat) as [p|] eqn:Hp; [|apply lookup_ge_None in Hp; lia].
    destruct (str_ltb (fst p) key) eqn:Hlt.
    + apply IH; [lia|lia| |].
      * intros i q Hi Hq. destruct (decide (i = first + half)%nat) as [->|Hne]; [congruence|].
        apply (str_ltb_trans _ (fst p)); [|done].
        apply (keys_sorted_lookup l i (first + half)%nat); [done|lia|done|done].
      * intros i q Hi. apply Hhi. lia.
    + apply IH; [lia|lia|done|]. intros i q Hi Hq.
      destruct (decide (i = first + half)%nat) as [->|Hne]; [congruence|].
      destruct (str_ltb (fst q) key) eqn:Hqk; [|done].
      rewrite <- Hlt. symmetry. apply (str_ltb_trans _ (fst q)); [|done].
      apply (keys_sorted_lookup l (first + half)%nat i); [done|lia|done|done].
Qed.

Lemma assoc_sorted l i k v :
  keys_sorted l = true -> l !! i = Some (k, v) -> assoc l k = Some v.
Proof.
  revert i. induction l as [|[k' v'] l IH]; intros i Hs Hi; [done|]. cbn [assoc].
  destruct i as [|i]; [cbn in Hi; injection Hi as -> ->; by rewrite bool_decide_eq_true_2|].
  rewrite bool_decide_eq_false_2.
  - apply (IH i); [|done]. destruct l; [done|]. cbn [keys_sorted] in Hs. by apply andb_true_iff in Hs as [_ ?].
  - intros ->. pose proof (keys_sorted_lookup _ 0 (S i) _ _ Hs ltac:(lia) eq_refl Hi) as H.
    cbn in H. by rewrite str_ltb_irrefl in H.
Qed.

Lemma assoc_lookup l k v : assoc l k = Some v -> exists i, l !! i = Some (k, v).
Proof.
  induction l as [|[k' v'] l IH]; cbn; [done|]. case_bool_decide as Hk.
  - intros [= ->]. exists 0%nat. by rewrite Hk.
  - intros Ha. destruct (IH Ha) as [i Hi]. by exists (S i).
Qed.

Lemma static_map_find_assoc l key :
  keys_sorted l = true -> static_map_find l key = assoc l key.
Proof.
  intros Hs. unfold static_map_find.
  destruct (partition_point_spec l key (length l) 0 (length l) Hs) as [Hlo Hhi];
    [lia|lia|lia|intros i p Hi Hp; apply lookup_ge_None_2 in Hi; congruence|].
  set (n := partition_point _ _ _ _ _) in *.
  assert (Hn : forall v, assoc l key = Some v -> l !! n = Some (key, v)).
  { intros v Ha. destruct (assoc_lookup _ _ _ Ha) as [i Hi].
    destruct (decide (i < n)%nat) as [Hin|Hin].
    { specialize (Hlo i _ Hin Hi). cbn in Hlo. by rewrite str_ltb_irrefl in Hlo. }
    destruct (decide (i = n)) as [->|]; [done|].
    destruct (l !! n) as [p|] eqn:Hp.
    - pose proof (keys_sorted_lookup l n i _ _ Hs ltac:(lia) Hp Hi) as H. cbn in H.
      rewrite (Hhi n p) in H by (done || lia). done.
    - apply lookup_ge_None in Hp. apply lookup_lt_Some in Hi. lia. }
  destruct (assoc l key) as [v|] eqn:Ha.
  - rewrite (Hn v eq_refl). by rewrite bool_decide_eq_true_2.
  - destruct (l !! n) as [[k v]|] eqn:Hp; [|done]. case_bool_decide as Hk; [|done].
    subst k. apply (assoc_sorted l n) in Hp; [congruence|done].
Qed.
End StaticMapFacts.

(** Both tables of colour names are sorted, so the binary search of the
    static map finds a name exactly when it is in the table, and with the
    colours listed there. *)
Theorem color_names_found name :
  static_map_find xorgAppVariantColorTable name = assoc xorgAppVariantColorTable name /\
  static_map_find xorgAppColorTable name = assoc xorgAppColorTable name.
Proof. split; apply static_map_find_assoc; by vm_compute. Qed.

(** ** The extended table *)

Lemma fillTable_length n off f t : length (fillTable n off f t) = length t.
Proof. induction n as [|n IH]; [done|]. cbn. by rewrite length_insert. Qed.

Lemma fillTable_lookup n off f t i :
  (n + off <= length t)%nat ->
  fillTable n off f t !! i
  = if (off <=? i)%nat && (i <? n + off)%nat then Some (COLORREF_of_color (f (i - off)%nat)) else t !! i.
Proof.
  intros Hl. induction n as [|n IH]; cbn [fillTable].
  - destruct (Nat.leb_spec off i), (Nat.ltb_spec i (0 + off)); try done; lia.
  - destruct (decide (i = n + off)%nat) as [->|Hne].
    + rewrite list_lookup_insert_eq by (rewrite fillTable_length; lia).
      assert ((off <=? n + off)%nat && (n + off <? S n + off)%nat = true) as -> by
        (apply andb_true_iff; split; [apply Nat.leb_le|apply Nat.ltb_lt]; lia).
      do 3 f_equal. lia.
    + rewrite list_lookup_insert_ne, IH by lia.
      destruct (Nat.leb_spec off i), (Nat.ltb_spec i (n + off)), (Nat.ltb_spec i (S n + off));
        try done; lia.
Qed.

(** The extended initialisation of a table of at least 256 entries
    writes the 6x6x6 cube at 16 to 231 and the 24 greys at 232 to 255, and
    leaves every other entry, and any shorter table, as it was. *)
Theorem extended_table table monochrome :
  ((length table < 256)%nat -> InitializeExtendedColorTable table monochrome = table) /\
  ((256 <= length table)%nat ->
   (forall red green blue, (red < 6)%nat -> (green < 6)%nat -> (blue < 6)%nat -> monochrome = false ->
      InitializeExtendedColorTable table monochrome !! (16 + 36 * red + 6 * green + blue)%nat
      = Some (COLORREF_of_color (rgb (nth red cubeScale 0) (nth green cubeScale 0) (nth blue cubeScale 0)))) /\
   (forall l, (l < 24)%nat ->
      InitializeExtendedColorTable table monochrome !! (232 + l)%nat
      = Some (65793 * (Z.of_nat l * 10 + 8))) /\
   (forall i, (i < 16 \/ 256 <= i)%nat ->
      InitializeExtendedColorTable table monochrome !! i = table !! i)).
Proof.
  unfold InitializeExtendedColorTable. split; intros Hl.
  - by assert ((256 <=? length table)%nat = false) as -> by (apply Nat.leb_gt; lia).
  - assert ((256 <=? length table)%nat = true) as -> by (by apply Nat.leb_le).
    split_and!; intros; rewrite !fillTable_lookup by (rewrite ?fillTable_length; lia).
    + assert ((232 <=? 16 + 36 * red + 6 * green + blue)%nat = false) as -> by (apply Nat.leb_gt; lia).
      assert ((16 <=? 16 + 36 * red + 6 * green + blue)%nat = true) as -> by (apply Nat.leb_le; lia).
      assert ((16 + 36 * red + 6 * green + blue <? 216 + 16)%nat = true) as -> by (apply Nat.ltb_lt; lia).
      cbn [andb]. subst monochrome. unfold cubeColor.
      replace (16 + 36 * red + 6 * green + blue - 16)%nat with (blue + (green + red * 6) * 6)%nat by lia.
      replace 36%nat with (6 * 6)%nat by done. rewrite <- Nat.Div0.div_div, !Nat.div_add by lia.
      rewrite (Nat.div_small blue), Nat.add_0_l, Nat.div_add, (Nat.div_small green) by lia.
      by rewrite !Nat.Div0.mod_add, Nat.add_0_l, !Nat.mod_small by lia.
    + assert ((232 <=? 232 + l)%nat = true) as -> by (apply Nat.leb_le; lia).
      assert ((232 + l <? 24 + 232)%nat = true) as -> by (apply Nat.ltb_lt; lia). cbn [andb].
      replace (232 + l - 232)%nat with l by lia.
      by do 24 (destruct l as [|l]; [done|]); lia.
    + assert ((232 <=? i)%nat && (i <? 24 + 232)%nat = false) as ->
        by (apply andb_false_iff; rewrite Nat.leb_gt, Nat.ltb_ge; lia).
      by assert ((16 <=? i)%nat && (i <? 216 + 16)%nat = false) as ->
        by (apply andb_false_iff; rewrite Nat.leb_gt, Nat.ltb_ge; lia).
Qed.
