(* ===== verification/Base64.v ===== *)
(** * Base64

    Models [Base64::Decode] of [src/src/terminal/parser/base64.cpp], which
    reads both alphabets of RFC 4648 into a register [r], four characters at
    a time while more than five remain, and one by one at the end.  The
    conversion of the decoded bytes from UTF-8 to UTF-16 is the operating
    system's and a parameter, [u8u16]. *)

From S2P Require Import Prelude StringUtils.
#[local] Open Scope Z_scope.

Definition decodeTable : list Z :=
  [ 255; 255; 255; 255; 255; 255; 255; 255; 255; 255; 255; 255; 255; 255; 255; 255;
    255; 255; 255; 255; 255; 255; 255; 255; 255; 255; 255; 255; 255; 255; 255; 255;
    255; 255; 255; 255; 255; 255; 255; 255; 255; 255; 255; 62; 255; 62; 255; 63;
    52; 53; 54; 55; 56; 57; 58; 59; 60; 61; 255; 255; 255; 255; 255; 255;
    255; 0; 1; 2; 3; 4; 5; 6; 7; 8; 9; 10; 11; 12; 13; 14;
    15; 16; 17; 18; 19; 20; 21; 22; 23; 24; 25; 255; 255; 255; 255; 63;
    255; 26; 27; 28; 29; 30; 31; 32; 33; 34; 35; 36; 37; 38; 39; 40;
    41; 42; 43; 44; 45; 46; 47; 48; 49; 50; 51; 255; 255; 255; 255; 255 ].

Definition EQUALS : Z := 0x3D.

(** [r] and [error], both 32 bits wide, after one character. *)
Definition accumulate64 (st : Z * Z) (ch : Z) : Z * Z :=
  let '(r, error) := st in
  let n := nth (Z.to_nat (Z.land ch 0x7F)) decodeTable 0 in
  (Z.lor (u32 (Z.shiftl r 6)) n, Z.lor error (Z.land (Z.lor ch n) 0xFF80)).

(** [gsl::narrow_cast<char>(r >> k)] *)
Definition byte_at (r k : Z) : Z := u8 (Z.shiftr r k).

(** The batched loop; [size] is [src.size()].  Returns the register, the
    error flag, the bytes written and the characters left. *)
Fixpoint decode_batched (fuel size : nat) (st : Z * Z) (out src : list Z) : (Z * Z) * list Z * list Z :=
  match fuel with
  | O => (st, out, src)
  | S fuel =>
      if (Nat.min 5 size <? length src)%nat then
        match src with
        | ch0 :: ch1 :: ch2 :: ch3 :: src =>
            let st := fold_left accumulate64 [ch0; ch1; ch2; ch3] st in
            let r := fst st in
            decode_batched fuel size st (out ++ [byte_at r 16; byte_at r 8; byte_at r 0]) src
        | _ => (st, out, src)
        end
      else (st, out, src)
  end.

(** The loop over the last characters, which skips the padding and counts
    the others in an 8-bit [ri]. *)
Definition rest_step (s : (Z * Z) * Z) (ch : Z) : (Z * Z) * Z :=
  let '(st, ri) := s in if negb (ch =? EQUALS) then (accumulate64 st ch, u8 (ri + 1)) else (st, ri).

Definition decode_rest (st : Z * Z) (src : list Z) : (Z * Z) * Z := fold_left rest_step src (st, 0).

Definition decode_tail (st : Z * Z) (ri : Z) : list Z * Z :=
  let '(r, error) := st in
  if ri =? 2 then ([byte_at r 4], error)
  else if ri =? 3 then ([byte_at r 10; byte_at r 2], error)
  else if ri =? 4 then ([byte_at r 16; byte_at r 8; byte_at r 0], error)
  else ([], Z.lor error ri).

(** The bytes of [result], or [None] for [ERROR_INVALID_DATA]. *)
Definition DecodeBytes (src : list Z) : option (list Z) :=
  let '(st, out, rest) := decode_batched (length src) (length src) (0, 0) [] src in
  let '(st, ri) := decode_rest st rest in
  let '(tail, error) := decode_tail st ri in
  if negb (error =? 0) then None else Some (out ++ tail).

Section Decode.
Variable u8u16 : list Z -> option (list Z).

Definition Decode (src : list Z) : option (list Z) :=
  match DecodeBytes src with
  | Some bytes => u8u16 bytes
  | None => None
  end.
End Decode.

(** ** The reference encoder *)

(** The character of a 6-bit value, in the base64 or the base64url alphabet. *)
Definition encode6 (url : bool) (n : Z) : Z :=
  if n <? 26 then 0x41 + n
  else if n <? 52 then 0x61 + (n - 26)
  else if n <? 62 then 0x30 + (n - 52)
  else if n =? 62 then (if url then 0x2D else 0x2B)
  else (if url then 0x5F else 0x2F).

Definition sextets (url : bool) (ns : list Z) : list Z := map (encode6 url) ns.

Fixpoint encode64 (url : bool) (bs : list Z) : list Z :=
  match bs with
  | b0 :: b1 :: b2 :: bs =>
      sextets url [b0 / 4; b0 mod 4 * 16 + b1 / 16; b1 mod 16 * 4 + b2 / 64; b2 mod 64]
      ++ encode64 url bs
  | [b0; b1] => sextets url [b0 / 4; b0 mod 4 * 16 + b1 / 16; b1 mod 16 * 4]
  | [b0] => sextets url [b0 / 4; b0 mod 4 * 16]
  | [] => []
  end.

Definition bytes (bs : list Z) : Prop := Forall (fun b => 0 <= b < 256) bs.

(** ** One character *)

Definition agrees6 (url : bool) (n : Z) : bool :=
  let c := encode6 url n in
  (nth (Z.to_nat (Z.land c 0x7F)) decodeTable 0 =? n) && (Z.land (Z.lor c n) 0xFF80 =? 0) && negb (c =? EQUALS).

Lemma encode6_decodes url n :
  0 <= n < 64 ->
  nth (Z.to_nat (Z.land (encode6 url n) 0x7F)) decodeTable 0 = n /\
  Z.land (Z.lor (encode6 url n) n) 0xFF80 = 0 /\ (encode6 url n =? EQUALS) = false.
Proof.
  intros Hn. assert (Ha : agrees6 url n = true).
  { apply (all_below_spec (agrees6 url) 64 0); [by destruct url; vm_compute|lia]. }
  unfold agrees6 in Ha. rewrite !andb_true_iff, negb_true_iff in Ha. destruct Ha as [[H1 H2] H3].
  split_and!; [lia|lia|done].
Qed.

Lemma accumulate64_sextet url n r error :
  0 <= n < 64 -> 0 <= r ->
  accumulate64 (u32 r, error) (encode6 url n) = (u32 (r * 64 + n), error).
Proof.
  intros Hn Hr. destruct (encode6_decodes url n Hn) as (H1 & H2 & _).
  unfold accumulate64. rewrite H1, H2, Z.lor_0_r. f_equal.
  rewrite Z.shiftl_mul_pow2 by lia. change (2 ^ 6) with 64.
  unfold u32. rewrite Zmult_mod_idemp_l.
  assert (Hb : 0 <= (r * 64) mod 2 ^ 32 < 2 ^ 32) by (apply Z.mod_pos_bound; lia).
  set (q := (r * 64) mod 2 ^ 32) in *.
  assert (Hq : q = (q / 64) * 64).
  { assert (q mod 64 = 0).
    { unfold q. change (2 ^ 32) with (64 * 2 ^ 26).
      rewrite Z.mul_comm, Zmult_mod_distr_l, Z.mul_comm. apply Z.mod_mul. lia. }
    pose proof (Z.div_mod q 64). lia. }
  assert (Hl : Z.lor q n = q + n).
  { symmetry. rewrite Hq. change 64 with (2 ^ 6). rewrite <- Z.shiftl_mul_pow2 by lia.
    apply Z.add_nocarry_lor. apply Z.bits_inj'. intros i Hi. rewrite Z.land_spec, Z.bits_0.
    destruct (decide (i < 6)).
    - by rewrite Z.shiftl_spec_low.
    - rewrite (Z.bits_above_log2 n i), andb_false_r; [done|lia|].
      destruct (decide (n = 0)) as [->|]; [cbn; lia|]. apply Z.log2_lt_pow2; [lia|].
      apply Z.lt_le_trans with (2 ^ 6); [lia|]. apply Z.pow_le_mono_r; lia. }
  rewrite Hl. symmetry. rewrite <- Zplus_mod_idemp_l. fold q.
  apply Z.mod_small. pose proof (Z.div_mod (2 ^ 32) 64). nia.
Qed.

(** ** Groups of characters *)

Lemma byte_at_acc r v m k :
  0 <= r -> 0 <= k -> k + 8 <= m -> k + 8 <= 32 ->
  byte_at (u32 (r * 2 ^ m + v)) k = (v / 2 ^ k) mod 256.
Proof.
  intros Hr Hk Hm H32. unfold byte_at, u8, u32. rewrite Z.shiftr_div_pow2 by lia.
  rewrite (Z.mod_eq (r * 2 ^ m + v)) by lia. set (c := (r * 2 ^ m + v) / 2 ^ 32).
  replace (r * 2 ^ m + v - 2 ^ 32 * c)
    with (v + (r * 2 ^ (m - k - 8) - 2 ^ (32 - k - 8) * c) * 2 ^ 8 * 2 ^ k).
  - rewrite Z.div_add by lia. change (2 ^ 8) with 256. by rewrite Z.mod_add.
  - assert (Em : 2 ^ m = 2 ^ (m - k - 8) * 2 ^ 8 * 2 ^ k)
      by (rewrite <- !Z.pow_add_r by lia; f_equal; lia).
    assert (E32 : 2 ^ 32 = 2 ^ (32 - k - 8) * 2 ^ 8 * 2 ^ k)
      by (rewrite <- !Z.pow_add_r by lia; f_equal; lia).
    rewrite Em, E32. ring.
Qed.

Lemma accumulate64_sextets url ns r error :
  Forall (fun n => 0 <= n < 64) ns -> 0 <= r ->
  fold_left accumulate64 (sextets url ns) (u32 r, error)
  = (u32 (fold_left (fun r n => r * 64 + n) ns r), error).
Proof.
  intros Hf. revert r. induction Hf as [|n ns Hn Hf IH]; intros r Hr; [done|].
  cbn [sextets map fold_left]. rewrite accumulate64_sextet by done. apply IH. lia.
Qed.

(** What follows the batched loop. *)
Definition finish64 (st : Z * Z) (out rest : list Z) : option (list Z) :=
  let '(st, ri) := decode_rest st rest in
  let '(tail, error) := decode_tail st ri in
  if negb (error =? 0) then None else Some (out ++ tail).

Lemma decode_rest_sextets url ns pad r error k :
  Forall (fun n => 0 <= n < 64) ns -> 0 <= r -> 0 <= k -> k + Z.of_nat (length ns) < 256 ->
  fold_left rest_step (sextets url ns ++ repeat EQUALS pad) ((u32 r, error), k)
  = ((u32 (fold_left (fun r n => r * 64 + n) ns r), error), k + Z.of_nat (length ns)).
Proof.
  intros Hf. revert r k. induction Hf as [|n ns Hn Hf IH]; intros r k Hr Hk Hl.
  - cbn [sextets map app fold_left length]. replace (k + Z.of_nat 0) with k by lia.
    induction pad as [|pad IHp]; [done|]. exact IHp.
  - cbn [sextets map app fold_left length rest_step].
    destruct (encode6_decodes url n Hn) as (_ & _ & ->). cbn [negb].
    rewrite accumulate64_sextet by done. rewrite u8_small by (cbn [length] in Hl; lia).
    unfold sextets in IH. rewrite IH; [|lia|lia|cbn [length] in Hl; lia]. f_equal. lia.
Qed.

(** The number of characters of the last group. *)
Fixpoint last_chars (bs : list Z) : nat :=
  match bs with
  | _ :: _ :: _ :: ((_ :: _) as bs') => last_chars bs'
  | [_; _; _] => 4
  | [_; _] => 3
  | [_] => 2
  | [] => 0
  end.

Lemma sextet_bounds b0 b1 b2 :
  0 <= b0 < 256 -> 0 <= b1 < 256 -> 0 <= b2 < 256 ->
  Forall (fun n => 0 <= n < 64) [b0 / 4; b0 mod 4 * 16 + b1 / 16; b1 mod 16 * 4 + b2 / 64; b2 mod 64] /\
  ((b0 / 4 * 64 + (b0 mod 4 * 16 + b1 / 16)) * 64 + (b1 mod 16 * 4 + b2 / 64)) * 64 + b2 mod 64
  = b0 * 65536 + b1 * 256 + b2.
Proof.
  intros H0 H1 H2.
  pose proof (Z.div_mod b0 4). pose proof (Z.mod_pos_bound b0 4).
  pose proof (Z.div_mod b1 16). pose proof (Z.mod_pos_bound b1 16).
  pose proof (Z.div_mod b2 64). pose proof (Z.mod_pos_bound b2 64).
  split; [repeat constructor; lia|]. lia.
Qed.

(** The register after a group of three bytes gives them back. *)
Lemma group_bytes b0 b1 b2 r :
  0 <= b0 < 256 -> 0 <= b1 < 256 -> 0 <= b2 < 256 -> 0 <= r ->
  let v := u32 (r * 2 ^ 24 + (b0 * 65536 + b1 * 256 + b2)) in
  [byte_at v 16; byte_at v 8; byte_at v 0] = [b0; b1; b2].
Proof.
  intros H0 H1 H2 Hr v. unfold v. rewrite !byte_at_acc by lia.
  change (2 ^ 16) with 65536. change (2 ^ 8) with 256. change (2 ^ 0) with 1.
  assert ((b0 * 65536 + b1 * 256 + b2) / 65536 = b0) as ->
    by (symmetry; apply Z.div_unique with (b1 * 256 + b2); lia).
  assert ((b0 * 65536 + b1 * 256 + b2) / 256 = b0 * 256 + b1) as ->
    by (symmetry; apply Z.div_unique with b2; lia).
  rewrite Z.div_1_r, (Z.add_comm (b0 * 256)), Z.mod_add by lia.
  replace (b0 * 65536 + b1 * 256 + b2) with (b2 + (b0 * 256 + b1) * 256) by lia.
  rewrite Z.mod_add by lia. by rewrite !Z.mod_small by lia.
Qed.

Lemma finish64_group url b0 b1 b2 pad r out :
  0 <= b0 < 256 -> 0 <= b1 < 256 -> 0 <= b2 < 256 -> 0 <= r ->
  finish64 (u32 r, 0) out (encode64 url [b0; b1; b2] ++ repeat EQUALS pad) = Some (out ++ [b0; b1; b2]).
Proof.
  intros H0 H1 H2 Hr. destruct (sextet_bounds b0 b1 b2 H0 H1 H2) as [Hf Hv].
  unfold finish64, decode_rest. cbn [encode64]. rewrite app_nil_r.
  rewrite decode_rest_sextets by (first [done|lia|cbn; lia]). cbn [length fold_left].
  assert (Hs : (((r * 64 + b0 / 4) * 64 + (b0 mod 4 * 16 + b1 / 16)) * 64 + (b1 mod 16 * 4 + b2 / 64)) * 64
               + b2 mod 64 = r * 2 ^ 24 + (b0 * 65536 + b1 * 256 + b2))
    by (rewrite <- Hv; change (2 ^ 24) with (64 * 64 * 64 * 64); ring).
  rewrite Hs. unfold decode_tail. change (0 + Z.of_nat 4) with 4. cbn [Z.eqb Pos.eqb negb].
  by rewrite group_bytes by done.
Qed.

Lemma finish64_two url b0 b1 pad r out :
  0 <= b0 < 256 -> 0 <= b1 < 256 -> 0 <= r ->
  finish64 (u32 r, 0) out (encode64 url [b0; b1] ++ repeat EQUALS pad) = Some (out ++ [b0; b1]).
Proof.
  intros H0 H1 Hr. pose proof (Z.div_mod b0 4). pose proof (Z.mod_pos_bound b0 4).
  pose proof (Z.div_mod b1 16). pose proof (Z.mod_pos_bound b1 16).
  unfold finish64, decode_rest. cbn [encode64].
  rewrite decode_rest_sextets by (first [repeat constructor; lia|lia|cbn; lia]). cbn [length fold_left].
  assert (Hs : ((r * 64 + b0 / 4) * 64 + (b0 mod 4 * 16 + b1 / 16)) * 64 + b1 mod 16 * 4
               = r * 2 ^ 18 + (b0 * 1024 + b1 * 4)) by (change (2 ^ 18) with (64 * 64 * 64); lia).
  rewrite Hs. unfold decode_tail. change (0 + Z.of_nat 3) with 3. cbn [Z.eqb Pos.eqb negb].
  rewrite !byte_at_acc by lia. change (2 ^ 10) with 1024. change (2 ^ 2) with 4.
  assert ((b0 * 1024 + b1 * 4) / 1024 = b0) as -> by (symmetry; apply Z.div_unique with (b1 * 4); lia).
  assert ((b0 * 1024 + b1 * 4) / 4 = b1 + b0 * 256) as -> by (symmetry; apply Z.div_unique with 0; lia).
  rewrite Z.mod_add by lia. by rewrite !Z.mod_small by lia.
Qed.

Lemma finish64_one url b0 pad r out :
  0 <= b0 < 256 -> 0 <= r ->
  finish64 (u32 r, 0) out (encode64 url [b0] ++ repeat EQUALS pad) = Some (out ++ [b0]).
Proof.
  intros H0 Hr. pose proof (Z.div_mod b0 4). pose proof (Z.mod_pos_bound b0 4).
  unfold finish64, decode_rest. cbn [encode64].
  rewrite decode_rest_sextets by (first [repeat constructor; lia|lia|cbn; lia]). cbn [length fold_left].
  assert (Hs : (r * 64 + b0 / 4) * 64 + b0 mod 4 * 16 = r * 2 ^ 12 + b0 * 16)
    by (change (2 ^ 12) with (64 * 64); lia).
  rewrite Hs. unfold decode_tail. change (0 + Z.of_nat 2) with 2. cbn [Z.eqb Pos.eqb negb].
  rewrite byte_at_acc by lia. change (2 ^ 4) with 16. rewrite Z.div_mul, Z.mod_small by lia. done.
Qed.

Definition decode_from (fuel size : nat) (st : Z * Z) (out src : list Z) : option (list Z) :=
  let '(st, out, rest) := decode_batched fuel size st out src in finish64 st out rest.

Lemma decode_from_stop fuel size st out src :
  (length src <= 5)%nat -> (length src <= size)%nat ->
  decode_from fuel size st out src = finish64 st out src.
Proof.
  intros H5 Hs. unfold decode_from. destruct fuel as [|fuel]; [done|]. cbn [decode_batched].
  by assert ((Nat.min 5 size <? length src)%nat = false) as -> by (apply Nat.ltb_ge; lia).
Qed.

Lemma decode_from_batch fuel size st out ch0 ch1 ch2 ch3 src :
  (5 < length (ch0 :: ch1 :: ch2 :: ch3 :: src))%nat ->
  decode_from (S fuel) size st out (ch0 :: ch1 :: ch2 :: ch3 :: src)
  = let st := fold_left accumulate64 [ch0; ch1; ch2; ch3] st in
    decode_from fuel size st
      (out ++ [byte_at (fst st) 16; byte_at (fst st) 8; byte_at (fst st) 0]) src.
Proof.
  intros H5. unfold decode_from. cbn [decode_batched].
  by assert ((Nat.min 5 size <? length (ch0 :: ch1 :: ch2 :: ch3 :: src))%nat = true) as ->
    by (apply Nat.ltb_lt; lia).
Qed.

Lemma encode64_long url b bs : (2 <= length (encode64 url (b :: bs)))%nat.
Proof. destruct bs as [|b1 [|b2 bs]]; cbn; lia. Qed.

Lemma decode_run url pad bs r out fuel size :
  bytes bs -> (last_chars bs + pad <= 5)%nat -> 0 <= r ->
  let src := encode64 url bs ++ repeat EQUALS pad in
  (length src <= size)%nat -> (length src <= fuel)%nat ->
  decode_from fuel size (u32 r, 0) out src = Some (out ++ bs).
Proof.
  remember (length bs) as n eqn:Hn. revert bs r out fuel Hn.
  induction n as [n IH] using lt_wf_ind. intros bs r out fuel Hn Hb Hp Hr src Hs Hf. subst n.
  assert (Hl : length src = (length (encode64 url bs) + pad)%nat)
    by (unfold src; by rewrite length_app, repeat_length).
  unfold bytes in Hb. unfold src in *. clear src.
  destruct bs as [|b0 [|b1 [|b2 [|b3 bs]]]].
  - rewrite decode_from_stop by (cbn in *; lia).
    pose proof (decode_rest_sextets url [] pad r 0 0 ltac:(constructor) Hr ltac:(lia) ltac:(cbn; lia)) as Hd.
    unfold finish64, decode_rest. cbn [encode64]. cbn [sextets map] in Hd. rewrite Hd. done.
  - rewrite decode_from_stop by (cbn in *; lia).
    apply Forall_cons_1 in Hb as [H0 _]. by apply finish64_one.
  - rewrite decode_from_stop by (cbn in *; lia).
    apply Forall_cons_1 in Hb as [H0 [H1 _]%Forall_cons_1]. by apply finish64_two.
  - rewrite decode_from_stop by (cbn in *; lia).
    apply Forall_cons_1 in Hb as [H0 [H1 [H2 _]%Forall_cons_1]%Forall_cons_1].
    by apply finish64_group.
  - apply Forall_cons_1 in Hb as [H0 [H1 [H2 Hb3]%Forall_cons_1]%Forall_cons_1].
    destruct (sextet_bounds b0 b1 b2 H0 H1 H2) as [Hx Hv].
    pose proof (encode64_long url b3 bs) as He.
    set (rest := encode64 url (b3 :: bs)) in *.
    change (encode64 url (b0 :: b1 :: b2 :: b3 :: bs))
      with (sextets url [b0 / 4; b0 mod 4 * 16 + b1 / 16; b1 mod 16 * 4 + b2 / 64; b2 mod 64] ++ rest) in *.
    rewrite Hl in Hs, Hf. rewrite length_app in Hs, Hf. cbn [sextets map length Nat.add] in Hs, Hf.
    destruct fuel as [|fuel]; [lia|]. cbn [sextets map app].
    rewrite decode_from_batch by (cbn [length]; rewrite length_app, repeat_length; lia).
    change [encode6 url (b0 / 4); encode6 url (b0 mod 4 * 16 + b1 / 16);
            encode6 url (b1 mod 16 * 4 + b2 / 64); encode6 url (b2 mod 64)]
      with (sextets url [b0 / 4; b0 mod 4 * 16 + b1 / 16; b1 mod 16 * 4 + b2 / 64; b2 mod 64]).
    rewrite accumulate64_sextets by done. cbn [fold_left fst].
    replace ((((r * 64 + b0 / 4) * 64 + (b0 mod 4 * 16 + b1 / 16)) * 64 + (b1 mod 16 * 4 + b2 / 64)) * 64
             + b2 mod 64) with (r * 2 ^ 24 + (b0 * 65536 + b1 * 256 + b2))
      by (rewrite <- Hv; change (2 ^ 24) with (64 * 64 * 64 * 64); ring).
    rewrite group_bytes by done. unfold rest in *.
    rewrite (IH (length (b3 :: bs))); [by rewrite <- app_assoc|cbn; lia|done|done|done|lia| |];
      rewrite length_app, repeat_length; lia.
Qed.

(** Decoding inverts encoding, for both alphabets, with or without the
    padding of RFC 4648 and with up to five characters in the last group and
    its padding. *)
Theorem base64_roundtrip url pad bs :
  bytes bs -> (last_chars bs + pad <= 5)%nat ->
  DecodeBytes (encode64 url bs ++ repeat EQUALS pad) = Some bs.
Proof.
  intros Hb Hp. set (src := encode64 url bs ++ repeat EQUALS pad).
  apply (decode_run url pad bs 0 [] (length src) (length src) Hb Hp); [lia|done|done].
Qed.

(** ** Errors stay *)

Lemma accumulate64_error st c : snd st <> 0 -> snd (accumulate64 st c) <> 0.
Proof. destruct st as [r e]. cbn. intros He H. apply Z.lor_eq_0_iff in H as [H _]. done. Qed.

Lemma accumulate64_errors cs st : snd st <> 0 -> snd (fold_left accumulate64 cs st) <> 0.
Proof. revert st. induction cs as [|c cs IH]; intros st Hs; [done|]. by apply IH, accumulate64_error. Qed.

(** A character whose decoding raises the error flag. *)
Definition invalid64 (c : Z) : Prop :=
  Z.land (Z.lor c (nth (Z.to_nat (Z.land c 0x7F)) decodeTable 0)) 0xFF80 <> 0.

Lemma accumulate64_invalid st c : invalid64 c -> snd (accumulate64 st c) <> 0.
Proof. destruct st as [r e]. cbn. intros Hc H. by apply Z.lor_eq_0_iff in H as [_ H]. Qed.

Lemma accumulate64_any cs st c :
  In c cs -> invalid64 c -> snd (fold_left accumulate64 cs st) <> 0.
Proof.
  revert st. induction cs as [|d cs IH]; intros st; [done|]. cbn [fold_left]. intros [->|Hin] Hc.
  - by apply accumulate64_errors, accumulate64_invalid.
  - by apply IH.
Qed.

Lemma rest_errors cs s :
  snd (fst s) <> 0 \/ (exists c, In c cs /\ c <> EQUALS /\ invalid64 c) ->
  snd (fst (fold_left rest_step cs s)) <> 0.
Proof.
  revert s. induction cs as [|d cs IH]; intros [st ri]; cbn [fold_left fst].
  - by intros [?|(c & [] & _)].
  - intros H. apply IH. unfold rest_step. destruct H as [H|(c & [->|Hin] & Hne & Hc)].
    + left. destruct (negb (d =? EQUALS)); cbn [fst]; [by apply accumulate64_error|done].
    + left. assert ((c =? EQUALS) = false) as -> by lia. cbn [negb fst]. by apply accumulate64_invalid.
    + right. by exists c.
Qed.

Lemma finish64_error st out rest :
  snd st <> 0 \/ (exists c, In c rest /\ c <> EQUALS /\ invalid64 c) -> finish64 st out rest = None.
Proof.
  intros H. unfold finish64.
  pose proof (rest_errors rest (st, 0) H) as He.
  change (decode_rest st rest) with (fold_left rest_step rest (st, 0)).
  destruct (fold_left rest_step rest (st, 0)) as [[r e] ri]. cbn [fst snd] in He.
  assert (Ht : snd (decode_tail (r, e) ri) <> 0).
  { unfold decode_tail. repeat step_if; cbn [snd]; try done.
    intros [Hz _]%Z.lor_eq_0_iff. done. }
  destruct (decode_tail (r, e) ri) as [tl er]. cbn [snd] in Ht.
  by assert ((er =? 0) = false) as -> by lia.
Qed.

Lemma decode_from_error fuel size st out src :
  (length src <= fuel)%nat -> (length src <= size)%nat ->
  snd st <> 0 \/ (exists c, In c src /\ c <> EQUALS /\ invalid64 c) ->
  decode_from fuel size st out src = None.
Proof.
  revert st out src. induction fuel as [|fuel IH]; intros st out src Hf Hs H.
  - destruct src; [|cbn in Hf; lia]. by apply finish64_error.
  - destruct (decide (length src <= 5)%nat) as [Hl|Hl].
    { rewrite decode_from_stop by lia. by apply finish64_error. }
    destruct src as [|c0 [|c1 [|c2 [|c3 src]]]]; try (cbn in Hl; lia).
    rewrite decode_from_batch by (cbn in *; lia). apply IH; [cbn in *; lia|cbn in *; lia|].
    destruct H as [H|(c & Hin & Hne & Hc)]; [left; by apply accumulate64_errors|].
    destruct (decide (c ∈ [c0; c1; c2; c3])) as [Hi|Hi].
    + left. apply (accumulate64_any _ _ c); [by apply list_elem_of_In|done].
    + right. exists c. split; [|done].
      destruct Hin as [->|[->|[->|[->|Hin]]]]; [..|done]; exfalso; apply Hi;
        rewrite !elem_of_cons; tauto.
Qed.

Lemma EQUALS_invalid : invalid64 EQUALS.
Proof. by vm_compute. Qed.

(** A character outside both alphabets makes the decoding fail,
    wherever it is, and so do four or more padding characters after a
    single byte, although trailing padding is said not to be validated. *)
Theorem base64_rejects src c pad b url :
  (In c src -> c <> EQUALS -> invalid64 c -> DecodeBytes src = None) /\
  ((4 <= pad)%nat -> 0 <= b < 256 ->
     DecodeBytes (encode64 url [b] ++ repeat EQUALS pad) = None).
Proof.
  split.
  - intros Hin Hne Hc. apply (decode_from_error (length src) (length src) (0, 0) [] src); [lia|lia|].
    right. by exists c.
  - intros Hp Hb. destruct pad as [|[|[|[|pad]]]]; try lia.
    set (text := encode64 url [b] ++ _).
    assert (Hl : length text = (6 + pad)%nat) by (unfold text; rewrite length_app, repeat_length; done).
    change (decode_from (length text) (length text) (0, 0) [] text = None).
    rewrite Hl at 1. cbn [Nat.add]. unfold text at 2. cbn [encode64 sextets map app repeat].
    rewrite decode_from_batch by (cbn; lia).
    apply decode_from_error; [rewrite ?Hl; cbn; rewrite repeat_length; lia..|].
    left. apply (accumulate64_any _ _ EQUALS); [cbn; tauto|apply EQUALS_invalid].
Qed.
