(* ===== verification/MacroBuffer.v ===== *)
(** * Macros

    Models [src/src/terminal/adapter/MacroBuffer.{hpp,cpp}]: the 64 macros of
    DECDMAC and DECINVM, the parser of a macro definition (plain text, or hex
    pairs with repeats), the space they share and the limits on nested
    invocation.  Sizes are [size_t] values with their wrap-around.

    [InvokeMacro] processes the text of a macro in a state machine that may
    invoke further macros; here it works on any world [W] that contains a
    macro buffer, so that the parser can be put in its place.  A macro that
    resets the terminal while it runs overwrites its own text with NUL
    characters ([ClearMacrosIfInUse]); the text already handed to the state
    machine is a copy in this model, so that effect on the remaining
    characters of the running macro is not represented. *)

From S2P Require Import Prelude VTTypes StateMachine.
#[local] Open Scope Z_scope.

Definition MAX_SPACE : Z := 0x40000.
Definition MACRO_COUNT : nat := 64.

Inductive State := ExpectingText | ExpectingHexDigit | ExpectingSecondHexDigit | ExpectingRepeatCount.

(** The values of [DispatchTypes::MacroDeleteControl] and [MacroEncoding]. *)
Definition DeleteId : Z := 0.
Definition DeleteAll : Z := 1.
Definition EncodingText : Z := 0.
Definition EncodingHexPair : Z := 1.

Record MacroBuffer := mkMacroBuffer {
  _parseState : State;
  _decodedChar : Z;
  _repeatPending : bool;
  _repeatCount : Z;
  _repeatStart : Z;
  _macros : list (list Z);
  _activeMacroId : nat;
  _spaceUsed : Z;
  _invokedDepth : Z;
  _invokedSequenceLength : Z;
}.

#[export] Instance eta_MacroBuffer : Eta MacroBuffer :=
  fun m => mkMacroBuffer (_parseState m) (_decodedChar m) (_repeatPending m) (_repeatCount m)
    (_repeatStart m) (_macros m) (_activeMacroId m) (_spaceUsed m) (_invokedDepth m)
    (_invokedSequenceLength m).

Definition new_MacroBuffer : MacroBuffer :=
  mkMacroBuffer ExpectingText 0 false 0 0 (repeat [] MACRO_COUNT) 0 0 0 0.

Definition len64 (s : list Z) : Z := Z.of_nat (length s).

(** ** Operations *)

Definition GetSpaceAvailable (m : MacroBuffer) : Z := u64 (MAX_SPACE - _spaceUsed m).

Definition CalculateChecksum (m : MacroBuffer) : Z :=
  fold_left (fun checksum macro => fold_left (fun checksum ch => u16 (checksum - ch)) macro checksum)
    (_macros m) 0.

Definition macro_at (i : nat) (m : MacroBuffer) : list Z := default [] (_macros m !! i).

Definition _activeMacro (m : MacroBuffer) : list Z := macro_at (_activeMacroId m) m.

Definition set_activeMacro (text : list Z) (m : MacroBuffer) : MacroBuffer :=
  m <| _macros := <[_activeMacroId m := text]> (_macros m) |>.

Definition _deleteMacro (i : nat) (m : MacroBuffer) : MacroBuffer :=
  m <| _spaceUsed := u64 (_spaceUsed m - len64 (macro_at i m)) |>
    <| _macros := <[i := []]> (_macros m) |>.

(** [for (auto& macro : _macros) _deleteMacro(macro);] *)
Definition delete_all (m : MacroBuffer) : MacroBuffer :=
  fold_left (fun m i => _deleteMacro i m) (seq 0 (length (_macros m))) m.

Definition ClearMacrosIfInUse (m : MacroBuffer) : MacroBuffer :=
  if 0 <? _invokedDepth m
  then m <| _macros := map (map (fun _ => NUL)) (_macros m) |>
  else m.

Definition InitParser (macroId deleteControl encoding : Z) (m : MacroBuffer) : MacroBuffer * bool :=
  if (macroId <? Z.of_nat (length (_macros m))) && (_invokedDepth m =? 0) then
    let m := m <| _activeMacroId := Z.to_nat macroId |> <| _decodedChar := 0 |> <| _repeatPending := false |> in
    if (encoding =? EncodingHexPair) || (encoding =? EncodingText) then
      let m := m <| _parseState := if encoding =? EncodingHexPair then ExpectingHexDigit else ExpectingText |> in
      if deleteControl =? DeleteId then (_deleteMacro (_activeMacroId m) m, true)
      else if deleteControl =? DeleteAll then (delete_all m, true)
      else (m, false)
    else (m, false)
  else (m, false).

Definition _decodeHexDigit (ch : Z) (m : MacroBuffer) : MacroBuffer * bool :=
  let shifted := u16 (Z.shiftl (_decodedChar m) 4) in
  if (0x30 <=? ch) && (ch <=? 0x39) then (m <| _decodedChar := u16 (shifted + (ch - 0x30)) |>, true)
  else if (0x41 <=? ch) && (ch <=? 0x46) then (m <| _decodedChar := u16 (shifted + (ch - 0x41 + 10)) |>, true)
  else if (0x61 <=? ch) && (ch <=? 0x66) then (m <| _decodedChar := u16 (shifted + (ch - 0x61 + 10)) |>, true)
  else (m <| _decodedChar := shifted |>, false).

Definition _appendToActiveMacro (ch : Z) (m : MacroBuffer) : MacroBuffer * bool :=
  if 0 <? GetSpaceAvailable m
  then ((set_activeMacro (_activeMacro m ++ [ch]) m) <| _spaceUsed := u64 (_spaceUsed m + 1) |>, true)
  else (m, false).

(** The loop that appends a further copy of the repeated text, [n] times. *)
Fixpoint append_repeats (n : nat) (sequenceLength : Z) (m : MacroBuffer) : MacroBuffer :=
  match n with
  | O => m
  | S n =>
      let piece := substr (Z.to_nat (_repeatStart m)) (Z.to_nat sequenceLength) (_activeMacro m) in
      append_repeats n sequenceLength
        ((set_activeMacro (_activeMacro m ++ piece) m) <| _spaceUsed := u64 (_spaceUsed m + sequenceLength) |>)
  end.

Definition _applyPendingRepeat (m : MacroBuffer) : MacroBuffer * bool :=
  if 1 <? _repeatCount m then
    let sequenceLength := u64 (len64 (_activeMacro m) - _repeatStart m) in
    let spaceRequired := u64 (u64 (_repeatCount m - 1) * sequenceLength) in
    if GetSpaceAvailable m <? spaceRequired then (m, false)
    else ((append_repeats (Z.to_nat (_repeatCount m - 1)) sequenceLength m) <| _repeatPending := false |>, true)
  else (m <| _repeatPending := false |>, true).

(** One character of a definition, in the state it is expected in. *)
Definition parse_definition_state (ch : Z) (m : MacroBuffer) : MacroBuffer * bool :=
  match _parseState m with
  | ExpectingText => _appendToActiveMacro ch m
  | ExpectingHexDigit =>
      let '(m, isDigit) := _decodeHexDigit ch m in
      if isDigit then (m <| _parseState := ExpectingSecondHexDigit |>, true)
      else if (ch =? 0x21) && negb (_repeatPending m)
      then (m <| _parseState := ExpectingRepeatCount |> <| _repeatCount := 0 |>, true)
      else if (ch =? 0x3B) && _repeatPending m then _applyPendingRepeat m
      else (m, false)
  | ExpectingSecondHexDigit =>
      let '(m, isDigit) := _decodeHexDigit ch m in
      let '(m, success) := if isDigit then _appendToActiveMacro (_decodedChar m) m else (m, false) in
      (m <| _decodedChar := 0 |> <| _parseState := ExpectingHexDigit |>, success)
  | ExpectingRepeatCount =>
      if (0x30 <=? ch) && (ch <=? 0x39)
      then (m <| _repeatCount := Z.min (u64 (u64 (_repeatCount m * 10) + (ch - 0x30))) MAX_PARAMETER_VALUE |>, true)
      else if ch =? 0x3B
      then (m <| _repeatPending := true |> <| _repeatStart := len64 (_activeMacro m) |>
              <| _parseState := ExpectingHexDigit |>, true)
      else (m, false)
  end.

Definition ParseDefinition (ch : Z) (m : MacroBuffer) : MacroBuffer * bool :=
  if ch =? ESC then
    (if _repeatPending m
     then let '(m, ok) := _applyPendingRepeat m in
          if ok then m else _deleteMacro (_activeMacroId m) m
     else m, false)
  else if ch <? 0x20 then (m, true)
  else
    let '(m, success) := parse_definition_state ch m in
    (if success then m else _deleteMacro (_activeMacroId m) m, success).

(** ** Invocation *)

Definition MAX_DEPTH : Z := 16.

Definition invoke_allowed (macroId : Z) (m : MacroBuffer) : bool :=
  (macroId <? Z.of_nat (length (_macros m)))
  && (_invokedDepth m <? MAX_DEPTH)
  && (len64 (macro_at (Z.to_nat macroId) m) <? u64 (MAX_SPACE - _invokedSequenceLength m)).

Definition invoke_enter (macroId : Z) (m : MacroBuffer) : MacroBuffer :=
  m <| _invokedSequenceLength := u64 (_invokedSequenceLength m + len64 (macro_at (Z.to_nat macroId) m)) |>
    <| _invokedDepth := u64 (_invokedDepth m + 1) |>.

(** [resetInvokeDepth], run when the invocation is left. *)
Definition invoke_exit (m : MacroBuffer) : MacroBuffer :=
  let depth := u64 (_invokedDepth m - 1) in
  let m := m <| _invokedDepth := depth |> in
  if depth =? 0 then m <| _invokedSequenceLength := 0 |> else m.

Section Invoke.
Context {W : Type}.
Variable get : W -> MacroBuffer.
Variable put : MacroBuffer -> W -> W.
Variable ProcessString : list Z -> W -> W.

Definition InvokeMacro (macroId : Z) (w : W) : W :=
  if invoke_allowed macroId (get w) then
    let w1 := put (invoke_enter macroId (get w)) w in
    let w2 := ProcessString (macro_at (Z.to_nat macroId) (get w)) w1 in
    put (invoke_exit (get w2)) w2
  else w.
End Invoke.

(** * Macros: space, definition and nesting

    The space accounting of the macro buffer under every order of operations
    the terminal can perform, and the meaning of a macro definition. *)

From S2P Require Import ParserRoundtrip.

(** ** The space the macros take *)

Definition total (ms : list (list Z)) : Z := len64 (concat ms).

Lemma total_cons t ms : total (t :: ms) = len64 t + total ms.
Proof. unfold total, len64. cbn. rewrite length_app. lia. Qed.

Lemma len64_nonneg t : 0 <= len64 t.
Proof. unfold len64. lia. Qed.

Lemma len64_nat t : Z.to_nat (len64 t) = length t.
Proof. unfold len64. lia. Qed.

Lemma total_nonneg ms : 0 <= total ms.
Proof. apply len64_nonneg. Qed.

Lemma total_insert ms i t u :
  ms !! i = Some u -> total (<[i := t]> ms) = total ms - len64 u + len64 t.
Proof.
  revert i. induction ms as [|v ms IH]; intros [|i] Hi; try done; cbn in *.
  - injection Hi as ->. change (total (t :: ms) = total (u :: ms) - len64 u + len64 t).
    rewrite !total_cons. lia.
  - change (total (v :: <[i:=t]> ms) = total (v :: ms) - len64 u + len64 t).
    rewrite !total_cons, IH by done. lia.
Qed.

Lemma total_lookup ms i t : ms !! i = Some t -> len64 t <= total ms.
Proof.
  revert i. induction ms as [|v ms IH]; intros [|i] Hi; try done; cbn in Hi; rewrite total_cons;
    pose proof (total_nonneg ms); pose proof (len64_nonneg v).
  - injection Hi as ->. lia.
  - apply IH in Hi. lia.
Qed.

Lemma len64_app s t : len64 (s ++ t) = len64 s + len64 t.
Proof. unfold len64. rewrite length_app. lia. Qed.

(** ** The invariant *)

Definition space_ok (m : MacroBuffer) : Prop :=
  length (_macros m) = MACRO_COUNT /\ (_activeMacroId m < MACRO_COUNT)%nat /\
  _spaceUsed m = total (_macros m) /\ total (_macros m) <= MAX_SPACE.

(** What holds while a definition is being received. *)
Definition parse_ok (m : MacroBuffer) : Prop :=
  0 <= _repeatCount m <= MAX_PARAMETER_VALUE /\
  (_repeatPending m = true -> 0 <= _repeatStart m <= len64 (_activeMacro m)).

(** [_spaceUsed] is exact and never beyond the limit. *)
Lemma active_lookup m : space_ok m -> _macros m !! _activeMacroId m = Some (_activeMacro m).
Proof.
  intros (Hl & Ha & _). unfold _activeMacro, macro_at.
  destruct (_macros m !! _activeMacroId m) eqn:He; [done|]. apply lookup_ge_None in He. lia.
Qed.

Lemma space_available m : space_ok m -> GetSpaceAvailable m = MAX_SPACE - total (_macros m).
Proof.
  intros (_ & _ & Hs & Hm). unfold GetSpaceAvailable. rewrite Hs. pose proof (total_nonneg (_macros m)).
  apply u64_small. unfold MAX_SPACE in *. lia.
Qed.

(** The buffer with another text as the macro being defined. *)
Definition with_text (t : list Z) (m : MacroBuffer) : MacroBuffer :=
  (set_activeMacro t m) <| _spaceUsed := _spaceUsed m - len64 (_activeMacro m) + len64 t |>.

Lemma active_with_text t m : space_ok m -> _activeMacro (with_text t m) = t.
Proof.
  intros (Hl & Ha & _). unfold _activeMacro, macro_at, with_text, set_activeMacro. cbn.
  by rewrite list_lookup_insert_eq by lia.
Qed.

Lemma total_with_text t m :
  space_ok m -> total (_macros (with_text t m)) = total (_macros m) - len64 (_activeMacro m) + len64 t.
Proof. intros Hm. apply (total_insert _ _ t), active_lookup, Hm. Qed.

Lemma with_text_ok t m :
  space_ok m -> total (_macros m) - len64 (_activeMacro m) + len64 t <= MAX_SPACE ->
  space_ok (with_text t m).
Proof.
  intros Hm Ht. pose proof (total_with_text t m Hm) as E. destruct Hm as (Hl & Ha & Hs & _).
  unfold space_ok. rewrite E.
  change (_spaceUsed (with_text t m)) with (_spaceUsed m - len64 (_activeMacro m) + len64 t).
  split_and!; [|done|lia|lia]. cbn. by rewrite length_insert.
Qed.

Lemma with_text_twice t u m : space_ok m -> with_text u (with_text t m) = with_text u m.
Proof.
  intros Hm. pose proof (active_with_text t m Hm) as E. unfold with_text at 1. rewrite E.
  change (_spaceUsed (with_text t m)) with (_spaceUsed m - len64 (_activeMacro m) + len64 t).
  replace (_spaceUsed m - len64 (_activeMacro m) + len64 t - len64 t + len64 u)
    with (_spaceUsed m - len64 (_activeMacro m) + len64 u) by lia.
  unfold with_text. generalize (_spaceUsed m - len64 (_activeMacro m) + len64 u) as x. clear E Hm.
  intros x. destruct m. unfold set_activeMacro. cbn. by rewrite list_insert_insert_eq.
Qed.

Lemma with_text_id m : space_ok m -> with_text (_activeMacro m) m = m.
Proof.
  intros Hm. pose proof (active_lookup m Hm) as E. unfold with_text, set_activeMacro.
  replace (_spaceUsed m - len64 (_activeMacro m) + len64 (_activeMacro m)) with (_spaceUsed m) by lia.
  rewrite list_insert_id by done. by destruct m.
Qed.

Lemma append_is_with_text ch m :
  space_ok m -> total (_macros m) < MAX_SPACE ->
  _appendToActiveMacro ch m = (with_text (_activeMacro m ++ [ch]) m, true).
Proof.
  intros Hm Ht. unfold _appendToActiveMacro. rewrite space_available by done.
  assert ((0 <? MAX_SPACE - total (_macros m)) = true) as -> by lia.
  unfold with_text. rewrite len64_app. destruct Hm as (_ & _ & Hs & _).
  pose proof (total_nonneg (_macros m)). rewrite u64_small by (unfold MAX_SPACE in *; lia).
  change (len64 [ch]) with 1.
  by replace (_spaceUsed m - len64 (_activeMacro m) + (len64 (_activeMacro m) + 1)) with (_spaceUsed m + 1) by lia.
Qed.

Lemma append_full ch m :
  space_ok m -> total (_macros m) = MAX_SPACE -> _appendToActiveMacro ch m = (m, false).
Proof.
  intros Hm Ht. unfold _appendToActiveMacro. rewrite space_available, Ht by done. done.
Qed.

Lemma delete_is_with_text m :
  space_ok m -> _deleteMacro (_activeMacroId m) m = with_text [] m.
Proof.
  intros Hm. pose proof (active_lookup m Hm) as E. pose proof (total_lookup _ _ _ E).
  destruct Hm as (_ & _ & Hs & Ht). pose proof (len64_nonneg (_activeMacro m)).
  unfold _deleteMacro, with_text, set_activeMacro. fold (_activeMacro m).
  rewrite u64_small by (unfold MAX_SPACE in *; lia). change (len64 []) with 0.
  rewrite Z.add_0_r. by destruct m.
Qed.

(** ** Repeats *)

Lemma len64_concat_repeat k piece : len64 (concat (repeat piece k)) = Z.of_nat k * len64 piece.
Proof. induction k as [|k IH]; [done|]. cbn [repeat concat]. rewrite len64_app, IH. lia. Qed.

Lemma append_repeats_spec k pre piece more m :
  space_ok m -> _repeatStart m = len64 pre -> _activeMacro m = pre ++ piece ++ more ->
  total (_macros m) + Z.of_nat k * len64 piece <= MAX_SPACE ->
  append_repeats k (len64 piece) m = with_text (_activeMacro m ++ concat (repeat piece k)) m.
Proof.
  revert m more. induction k as [|k IH]; intros m more Hm Hs Ha Hk.
  - cbn [append_repeats repeat concat]. by rewrite app_nil_r, with_text_id.
  - cbn [append_repeats]. rewrite Hs, !len64_nat.
    assert (Hp : substr (length pre) (length piece) (_activeMacro m) = piece).
    { rewrite Ha. unfold substr. by rewrite drop_app_length, take_app_length. }
    rewrite Hp.
    pose proof (len64_nonneg piece). pose proof (total_nonneg (_macros m)).
    assert (Hs1 : (set_activeMacro (_activeMacro m ++ piece) m)
                    <| _spaceUsed := u64 (_spaceUsed m + len64 piece) |>
                  = with_text (_activeMacro m ++ piece) m).
    { unfold with_text. rewrite len64_app. destruct Hm as (_ & _ & Hu & _).
      rewrite u64_small by (unfold MAX_SPACE in *; lia).
      by replace (_spaceUsed m - len64 (_activeMacro m) + (len64 (_activeMacro m) + len64 piece))
        with (_spaceUsed m + len64 piece) by lia. }
    rewrite Hs1. set (m1 := with_text (_activeMacro m ++ piece) m).
    assert (Hm1 : space_ok m1) by (apply with_text_ok; [done|rewrite len64_app; lia]).
    assert (Ha1 : _activeMacro m1 = _activeMacro m ++ piece) by (by apply active_with_text).
    rewrite (IH m1 (more ++ piece)).
    + rewrite Ha1. unfold m1. rewrite with_text_twice by done. cbn [repeat concat]. by rewrite <- app_assoc.
    + done.
    + exact Hs.
    + by rewrite Ha1, Ha, <- !app_assoc.
    + unfold m1. rewrite total_with_text, len64_app by done. lia.
Qed.

(** The text after the repeat that is pending has been applied. *)
Definition repeated (m : MacroBuffer) : list Z :=
  _activeMacro m ++
  concat (repeat (drop (Z.to_nat (_repeatStart m)) (_activeMacro m)) (Z.to_nat (_repeatCount m - 1))).

Lemma applyPendingRepeat_spec m :
  space_ok m -> parse_ok m -> _repeatPending m = true ->
  _applyPendingRepeat m
  = if MAX_SPACE <? total (_macros m) + len64 (repeated m) - len64 (_activeMacro m)
    then (m, false) else ((with_text (repeated m) m) <| _repeatPending := false |>, true).
Proof.
  intros Hm [Hc Hst] Hp. specialize (Hst Hp). unfold _applyPendingRepeat, repeated.
  set (start := Z.to_nat (_repeatStart m)). set (A := _activeMacro m) in *.
  rewrite len64_app, len64_concat_repeat.
  assert (Hd : len64 (drop start A) = len64 A - _repeatStart m).
  { unfold len64 in *. rewrite length_drop. unfold start. lia. }
  pose proof (len64_nonneg (drop start A)) as Hn. pose proof (len64_nonneg A).
  pose proof (total_lookup _ _ _ (active_lookup m Hm)) as Hle. fold A in Hle.
  pose proof (space_available m Hm) as Hav. pose proof (proj2 (proj2 (proj2 Hm))) as Hmax.
  destruct (Z.ltb_spec 1 (_repeatCount m)) as [H1|H1].
  - rewrite (u64_small (len64 A - _repeatStart m)) by (unfold MAX_SPACE in *; lia).
    unfold MAX_PARAMETER_VALUE in Hc.
    rewrite (u64_small (_repeatCount m - 1)) by lia. rewrite <- Hd.
    rewrite u64_small by (unfold MAX_SPACE in *; nia).
    rewrite Hav, Z2Nat.id by lia.
    destruct (Z.ltb_spec (MAX_SPACE - total (_macros m)) ((_repeatCount m - 1) * len64 (drop start A)));
      destruct (Z.ltb_spec MAX_SPACE (total (_macros m) + (len64 A + (_repeatCount m - 1) * len64 (drop start A)) - len64 A));
      try done; try lia.
    rewrite (append_repeats_spec _ (take start A) (drop start A) []); [done|done| |by rewrite app_nil_r, take_drop|lia].
    unfold len64. rewrite length_take_le by (unfold len64 in *; lia). unfold start. lia.
  - replace (Z.to_nat (_repeatCount m - 1)) with 0%nat by lia. cbn [repeat concat].
    rewrite app_nil_r. unfold A. rewrite with_text_id by done.
    destruct (Z.ltb_spec MAX_SPACE (total (_macros m) + (len64 (_activeMacro m) + Z.of_nat 0 * len64 (drop start (_activeMacro m))) - len64 (_activeMacro m)));
      [lia|done].
Qed.

(** ** Every operation keeps the invariant *)

Lemma space_same m m' :
  _macros m' = _macros m -> _activeMacroId m' = _activeMacroId m -> _spaceUsed m' = _spaceUsed m ->
  space_ok m -> space_ok m'.
Proof. unfold space_ok. by intros -> -> ->. Qed.

Lemma decodeHexDigit_fields ch m :
  let m' := fst (_decodeHexDigit ch m) in m' = m <| _decodedChar := _decodedChar m' |>.
Proof. unfold _decodeHexDigit. repeat step_if; by destruct m. Qed.

Definition ok_step (r : MacroBuffer * bool) : Prop :=
  space_ok (fst r) /\ (snd r = true -> parse_ok (fst r)).

Lemma append_ok ch m : space_ok m -> parse_ok m -> ok_step (_appendToActiveMacro ch m).
Proof.
  intros Hm [Hc Hp]. pose proof (proj2 (proj2 (proj2 Hm))) as Hmax.
  destruct (decide (total (_macros m) = MAX_SPACE)) as [He|He].
  - by rewrite append_full.
  - rewrite append_is_with_text by (try done; lia).
    split; cbn [fst snd].
    + apply with_text_ok; [done|]. rewrite len64_app. change (len64 [ch]) with 1. lia.
    + intros _. split; [exact Hc|]. intros Hr. rewrite active_with_text, len64_app by done.
      specialize (Hp Hr). pose proof (len64_nonneg [ch]).
      change (_repeatStart (with_text (_activeMacro m ++ [ch]) m)) with (_repeatStart m). lia.
Qed.

Lemma applyPendingRepeat_ok m :
  space_ok m -> parse_ok m -> _repeatPending m = true -> ok_step (_applyPendingRepeat m).
Proof.
  intros Hm Hp Hr. rewrite applyPendingRepeat_spec by done.
  destruct (Z.ltb_spec MAX_SPACE (total (_macros m) + len64 (repeated m) - len64 (_activeMacro m))); [done|].
  split; cbn [fst snd].
  - apply (space_same (with_text (repeated m) m)); try done. apply with_text_ok; [done|lia].
  - intros _. destruct Hp as [Hc _]. split; [exact Hc|done].
Qed.

Lemma decodedChar_ok v m : space_ok m -> parse_ok m -> space_ok (m <| _decodedChar := v |>) /\ parse_ok (m <| _decodedChar := v |>).
Proof. intros Hm Hp. split; [by apply (space_same m)|exact Hp]. Qed.

Lemma parse_definition_state_ok ch m :
  space_ok m -> parse_ok m -> ok_step (parse_definition_state ch m).
Proof.
  intros Hm Hp. unfold parse_definition_state.
  pose proof (decodeHexDigit_fields ch m) as Hd. cbn zeta in Hd.
  destruct (_parseState m).
  - by apply append_ok.
  - destruct (_decodeHexDigit ch m) as [m1 isDigit]. cbn [fst] in Hd. rewrite Hd.
    destruct (decodedChar_ok (_decodedChar m1) m Hm Hp) as [Hm1 Hp1].
    destruct isDigit; [split; [by apply (space_same m)|intros _; exact Hp1]|].
    destruct ((ch =? 33) && negb _).
    { split; [by apply (space_same m)|]. intros _. destruct Hp1 as [_ Hs].
      split; [cbn; unfold MAX_PARAMETER_VALUE; lia|exact Hs]. }
    destruct ((ch =? 59) && _) eqn:Hr; [|by split].
    apply andb_true_iff in Hr as [_ Hr]. by apply applyPendingRepeat_ok.
  - destruct (_decodeHexDigit ch m) as [m1 isDigit]. cbn [fst] in Hd. rewrite Hd.
    destruct (decodedChar_ok (_decodedChar m1) m Hm Hp) as [Hm1 Hp1].
    set (m2 := m <| _decodedChar := _decodedChar m1 |>) in *. clearbody m2.
    assert (Hs : ok_step (if isDigit then _appendToActiveMacro (_decodedChar m2) m2 else (m2, false)))
      by (destruct isDigit; [by apply append_ok|by split]).
    destruct (if isDigit then _ else _) as [m3 success]. destruct Hs as [H1 H2]. cbn [fst snd] in *.
    split; [by apply (space_same m3)|exact H2].
  - destruct ((48 <=? ch) && (ch <=? 57)) eqn:Hdg.
    { split; [by apply (space_same m)|]. intros _. destruct Hp as [Hc Hs]. split; [|exact Hs]. cbn.
      unfold MAX_PARAMETER_VALUE in *. rewrite (u64_small (_ * 10)), u64_small by lia. lia. }
    destruct (ch =? 59); [|by split].
    split; [by apply (space_same m)|]. intros _. destruct Hp as [Hc Hs]. split; [exact Hc|]. intros _.
    change (0 <= len64 (_activeMacro m) <= len64 (_activeMacro m)). pose proof (len64_nonneg (_activeMacro m)). lia.
Qed.

Lemma delete_active_ok m : space_ok m -> space_ok (_deleteMacro (_activeMacroId m) m).
Proof.
  intros Hm. rewrite delete_is_with_text by done. apply with_text_ok; [done|]. change (len64 []) with 0.
  pose proof (len64_nonneg (_activeMacro m)). pose proof (proj2 (proj2 (proj2 Hm))). lia.
Qed.

Lemma ParseDefinition_ok ch m : space_ok m -> parse_ok m -> ok_step (ParseDefinition ch m).
Proof.
  intros Hm Hp. unfold ParseDefinition. destruct (ch =? ESC).
  - split; [|done]. cbn [fst]. destruct (_repeatPending m) eqn:Hr; [|done].
    destruct (applyPendingRepeat_ok m Hm Hp Hr) as [H1 _].
    destruct (_applyPendingRepeat m) as [m1 ok]. cbn in *. destruct ok; [done|]. by apply delete_active_ok.
  - destruct (ch <? 32); [by split|].
    destruct (parse_definition_state_ok ch m Hm Hp) as [H1 H2].
    destruct (parse_definition_state ch m) as [m1 success]. cbn [fst snd] in *.
    split; cbn [fst snd]; [|by intros ->; apply H2]. destruct success; [done|]. by apply delete_active_ok.
Qed.

Lemma delete_ok i m : space_ok m -> (i < MACRO_COUNT)%nat -> space_ok (_deleteMacro i m).
Proof.
  intros (Hl & Ha & Hs & Ht) Hi.
  destruct (lookup_lt_is_Some_2 (_macros m) i ltac:(lia)) as [t Hlk].
  assert (Hat : macro_at i m = t) by (unfold macro_at; by rewrite Hlk).
  pose proof (total_lookup _ _ _ Hlk). pose proof (len64_nonneg t).
  pose proof (total_insert (_macros m) i [] t Hlk) as Ei. change (len64 []) with 0 in Ei.
  unfold space_ok.
  change (_macros (_deleteMacro i m)) with (<[i := []]> (_macros m)).
  change (_activeMacroId (_deleteMacro i m)) with (_activeMacroId m).
  change (_spaceUsed (_deleteMacro i m)) with (u64 (_spaceUsed m - len64 (macro_at i m))).
  rewrite length_insert, Hat, u64_small by (unfold MAX_SPACE in *; lia).
  split_and!; [done|done|lia|lia].
Qed.

Lemma delete_all_ok m : space_ok m -> space_ok (delete_all m).
Proof.
  intros Hm. unfold delete_all.
  assert (Hf : Forall (fun i => (i < MACRO_COUNT)%nat) (seq 0 (length (_macros m)))).
  { apply Forall_seq. intros i Hi. rewrite (proj1 Hm) in Hi. lia. }
  revert Hf. generalize (seq 0 (length (_macros m))) as l. intros l Hf. revert m Hm.
  induction Hf as [|i l Hi Hf IH]; intros m Hm; [done|]. cbn [fold_left]. by apply IH, delete_ok.
Qed.

Lemma delete_all_fields l m :
  let m' := fold_left (fun m i => _deleteMacro i m) l m in
  _repeatCount m' = _repeatCount m /\ _repeatPending m' = _repeatPending m /\
  _invokedDepth m' = _invokedDepth m /\ _invokedSequenceLength m' = _invokedSequenceLength m.
Proof.
  revert m. induction l as [|i l IH]; intros m; [done|].
  cbn [fold_left]. destruct (IH (_deleteMacro i m)) as (-> & -> & -> & ->). done.
Qed.

Lemma init_delete_ok deleteControl m :
  space_ok m -> 0 <= _repeatCount m <= MAX_PARAMETER_VALUE -> _repeatPending m = false ->
  ok_step (if deleteControl =? DeleteId then (_deleteMacro (_activeMacroId m) m, true)
           else if deleteControl =? DeleteAll then (delete_all m, true) else (m, false)).
Proof.
  intros Hm Hc Hp.
  destruct (deleteControl =? DeleteId); [|destruct (deleteControl =? DeleteAll); [|by split]].
  - split; [by apply delete_active_ok|]. intros _. split; [exact Hc|].
    change (_repeatPending m = true -> 0 <= _repeatStart m <= len64 (_activeMacro (_deleteMacro (_activeMacroId m) m))).
    by rewrite Hp.
  - split; [by apply delete_all_ok|]. intros _. unfold delete_all, parse_ok. cbn [fst].
    destruct (delete_all_fields (seq 0 (length (_macros m))) m) as (-> & -> & _). by rewrite Hp.
Qed.

Lemma InitParser_ok macroId deleteControl encoding m :
  0 <= macroId -> space_ok m -> 0 <= _repeatCount m <= MAX_PARAMETER_VALUE ->
  ok_step (InitParser macroId deleteControl encoding m).
Proof.
  intros Hid Hm Hc. unfold InitParser.
  destruct ((macroId <? _) && _) eqn:Hg; [|by split].
  apply andb_true_iff in Hg as [Hg%Z.ltb_lt _]. rewrite (proj1 Hm) in Hg.
  assert (Hi : (Z.to_nat macroId < MACRO_COUNT)%nat) by lia.
  destruct Hm as (Hl & _ & Hs & Ht).
  destruct (_ || _); [|by split].
  by apply init_delete_ok.
Qed.

Lemma clear_ok m : space_ok m -> space_ok (ClearMacrosIfInUse m).
Proof.
  intros (Hl & Ha & Hs & Ht). unfold ClearMacrosIfInUse. destruct (0 <? _); [|done].
  assert (Hn : total (map (map (fun _ => NUL)) (_macros m)) = total (_macros m)).
  { unfold total, len64. by rewrite <- concat_map, length_map. }
  unfold space_ok.
  change (_macros (m <| _macros := map (map (fun _ => NUL)) (_macros m) |>))
    with (map (map (fun _ => NUL)) (_macros m)).
  by rewrite Hn, length_map.
Qed.

(** ** Any order of operations

    The terminal starts a definition, feeds it characters while the parser of
    the definition asks for more, and resets, invokes and leaves macros.  The
    boolean says whether a definition is being received. *)

Inductive macro_step : bool * MacroBuffer -> bool * MacroBuffer -> Prop :=
| step_define p m macroId deleteControl encoding m' ok :
    0 <= macroId -> InitParser macroId deleteControl encoding m = (m', ok) ->
    macro_step (p, m) (ok, m')
| step_char m ch m' ok : ParseDefinition ch m = (m', ok) -> macro_step (true, m) (ok, m')
| step_clear p m : macro_step (p, m) (p, ClearMacrosIfInUse m)
| step_enter p m macroId :
    0 <= macroId -> invoke_allowed macroId m = true -> macro_step (p, m) (p, invoke_enter macroId m)
| step_exit p m : 0 < _invokedDepth m -> macro_step (p, m) (p, invoke_exit m).

Inductive macro_reachable : bool * MacroBuffer -> Prop :=
| reach_new : macro_reachable (false, new_MacroBuffer)
| reach_step s s' : macro_reachable s -> macro_step s s' -> macro_reachable s'.

Definition invoke_ok (m : MacroBuffer) : Prop :=
  0 <= _invokedDepth m <= MAX_DEPTH /\ 0 <= _invokedSequenceLength m <= MAX_SPACE /\
  0 <= _repeatCount m <= MAX_PARAMETER_VALUE.

(** A definition does not touch the invocation counters. *)
Definition frame (m m' : MacroBuffer) : Prop :=
  _invokedDepth m' = _invokedDepth m /\ _invokedSequenceLength m' = _invokedSequenceLength m /\
  (0 <= _repeatCount m <= MAX_PARAMETER_VALUE -> 0 <= _repeatCount m' <= MAX_PARAMETER_VALUE).

#[local] Instance frame_preorder : PreOrder frame.
Proof.
  split; [by intros m|]. intros m1 m2 m3 (A1 & B1 & C1) (A2 & B2 & C2).
  split; [congruence|]. split; [congruence|]. intros H. by apply C2, C1.
Qed.

Lemma frame_repeats n l m : frame m (append_repeats n l m).
Proof.
  revert m. induction n as [|n IH]; intros m; [done|]. cbn [append_repeats].
  etransitivity; [|apply IH]. by split.
Qed.

Lemma frame_apply m : frame m (fst (_applyPendingRepeat m)).
Proof.
  unfold _applyPendingRepeat. step_if; [step_if|]; cbn [fst]; [done| |done].
  etransitivity; [apply frame_repeats|]. by split.
Qed.

Lemma frame_append ch m : frame m (fst (_appendToActiveMacro ch m)).
Proof. unfold _appendToActiveMacro. by step_if. Qed.

Lemma frame_hex ch m : frame m (fst (_decodeHexDigit ch m)).
Proof. unfold _decodeHexDigit. by repeat step_if. Qed.

Lemma frame_state ch m : frame m (fst (parse_definition_state ch m)).
Proof.
  unfold parse_definition_state. pose proof (frame_hex ch m) as Hh.
  destruct (_parseState m); [apply frame_append| | |].
  - destruct (_decodeHexDigit ch m) as [m1 isDigit]. cbn [fst] in Hh.
    etransitivity; [exact Hh|]. destruct isDigit; [done|]. step_if; [|step_if; [apply frame_apply|done]].
    by split; [|split; [|unfold MAX_PARAMETER_VALUE; cbn; lia]].
  - destruct (_decodeHexDigit ch m) as [m1 isDigit]. cbn [fst] in Hh. etransitivity; [exact Hh|].
    pose proof (frame_append (_decodedChar m1) m1) as Ha.
    destruct isDigit; [|done]. destruct (_appendToActiveMacro _ m1) as [m2 ok]. exact Ha.
  - step_if; [|by step_if]. split; [done|]. split; [done|]. cbn. unfold MAX_PARAMETER_VALUE. intros Hc.
    rewrite (u64_small (_ * 10)), u64_small by lia. lia.
Qed.

Lemma frame_ParseDefinition ch m : frame m (fst (ParseDefinition ch m)).
Proof.
  unfold ParseDefinition. step_if; [|step_if; [done|]]; cbn [fst].
  - destruct (_repeatPending m); [|done]. pose proof (frame_apply m) as Ha.
    destruct (_applyPendingRepeat m) as [m1 []]; exact Ha.
  - pose proof (frame_state ch m) as Hs. destruct (parse_definition_state ch m) as [m1 []]; exact Hs.
Qed.

Lemma frame_InitParser i d e m : frame m (fst (InitParser i d e m)).
Proof.
  unfold InitParser. destruct (_ && _); [|done]. destruct (_ || _); [|by split].
  destruct (d =? DeleteId); [by split|]. destruct (d =? DeleteAll); [|by split]. cbn [fst].
  match goal with |- frame m (delete_all ?m1) =>
    etransitivity; [|unfold delete_all;
      destruct (delete_all_fields (seq 0 (length (_macros m1))) m1) as (E1 & E2 & E3 & E4);
      split; [exact E3|split; [exact E4|by rewrite E1]]] end. by split.
Qed.

Lemma macro_invariant p m :
  macro_reachable (p, m) -> space_ok m /\ (p = true -> parse_ok m) /\ invoke_ok m.
Proof.
  intros Hr. remember (p, m) as s eqn:Es. revert p m Es. induction Hr as [|s s' Hr IH Hst]; intros p m Es.
  - injection Es as <- <-. split; [|split; [done|by vm_compute]].
    split; [done|]. split; [by vm_compute; lia|]. by vm_compute.
  - subst s'. destruct s as [p0 m0]. destruct (IH p0 m0 eq_refl) as (Hm & Hp & Hi). clear IH Hr.
    assert (Hfr : forall m1, frame m0 m1 -> invoke_ok m1).
    { intros m1 (E1 & E2 & E3). destruct Hi as (H1 & H2 & H3). unfold invoke_ok. rewrite E1, E2. auto. }
    inversion Hst; subst.
    + destruct (InitParser_ok macroId deleteControl encoding m0) as [W1 W2]; [done|done|apply Hi|].
      pose proof (frame_InitParser macroId deleteControl encoding m0) as Hf.
      match goal with H : InitParser _ _ _ _ = _ |- _ => rewrite H in W1, W2, Hf end. auto.
    + destruct (ParseDefinition_ok ch m0 Hm (Hp eq_refl)) as [W1 W2].
      pose proof (frame_ParseDefinition ch m0) as Hf.
      match goal with H : ParseDefinition _ _ = _ |- _ => rewrite H in W1, W2, Hf end. auto.
    + split; [by apply clear_ok|]. unfold ClearMacrosIfInUse. destruct (0 <? _invokedDepth m0); [|done].
      split; [|done]. intros Hpt. destruct (Hp Hpt) as [Hc Hs]. split; [exact Hc|]. intros Hrp.
      specialize (Hs Hrp).
      assert (El : len64 (_activeMacro (m0 <| _macros := map (map (fun _ => NUL)) (_macros m0) |>))
                   = len64 (_activeMacro m0)); [|by rewrite El].
      unfold _activeMacro, macro_at, len64. cbn. rewrite list_lookup_fmap.
      destruct (_macros m0 !! _activeMacroId m0); cbn; [by rewrite length_map|done].
    + split; [by apply (space_same m0)|]. split; [exact Hp|].
      unfold invoke_allowed in *. destruct Hi as ((I1 & I2) & I3 & I4).
      match goal with H : _ && _ && _ = true |- _ => rewrite !andb_true_iff in H; destruct H as [[_ Hd] Hl] end.
      unfold MAX_DEPTH, MAX_SPACE in *. set (t := macro_at (Z.to_nat macroId) m0) in *.
      pose proof (len64_nonneg t). rewrite u64_small in Hl by lia.
      unfold invoke_ok, invoke_enter. cbn. fold t. rewrite !u64_small by lia. unfold MAX_DEPTH, MAX_SPACE. lia.
    + destruct Hi as ((I1 & I2) & I3 & I4). unfold MAX_DEPTH in *.
      assert (E : u64 (_invokedDepth m0 - 1) = _invokedDepth m0 - 1) by (apply u64_small; lia).
      unfold invoke_exit. rewrite E.
      destruct (_ =? 0); (split; [by apply (space_same m0)|]; split; [exact Hp|]);
        unfold invoke_ok; cbn; unfold MAX_DEPTH, MAX_SPACE in *; lia.
Qed.

(** C30: whatever macros are defined, redefined, repeated, cleared and
    invoked, and in whatever order, the space counter is the exact size of
    the stored macros and stays within the limit, [GetSpaceAvailable] does
    not wrap around, and invocations nest at most sixteen deep over less text
    than the buffer holds. *)
Theorem macro_space_exact p m :
  macro_reachable (p, m) ->
  length (_macros m) = MACRO_COUNT /\ _spaceUsed m = total (_macros m) /\
  GetSpaceAvailable m = MAX_SPACE - total (_macros m) /\ 0 <= GetSpaceAvailable m /\
  0 <= _invokedDepth m <= MAX_DEPTH /\ 0 <= _invokedSequenceLength m <= MAX_SPACE.
Proof.
  intros Hr. destruct (macro_invariant p m Hr) as (Hm & _ & Hi & Hl & _).
  rewrite space_available by done. destruct Hm as (H1 & H2 & H3 & H4).
  do 3 (split; [done|]). split; [lia|]. by split.
Qed.

(** ** The meaning of a definition *)

(** A hex encoded definition is a sequence of literal bytes and repeats. *)
Inductive macro_item := Literal (bs : list Z) | Repeat (n : Z) (bs : list Z).

Definition hexd (n : Z) : Z := if n <? 10 then 0x30 + n else 0x41 + (n - 10).
Definition hex_byte (b : Z) : list Z := [hexd (b / 16); hexd (b mod 16)].
Definition hex_text (bs : list Z) : list Z := flat_map hex_byte bs.

Definition encode_item (it : macro_item) : list Z :=
  match it with
  | Literal bs => hex_text bs
  | Repeat n bs => [0x21] ++ digits n ++ [0x3B] ++ hex_text bs ++ [0x3B]
  end.

(** A repeat count of zero stands for one. *)
Definition expand_item (it : macro_item) : list Z :=
  match it with
  | Literal bs => bs
  | Repeat n bs => concat (repeat bs (Z.to_nat (Z.max 1 n)))
  end.

Definition item_ok (it : macro_item) : Prop :=
  match it with
  | Literal bs => Forall (fun b => 0 <= b < 256) bs
  | Repeat n bs => 0 <= n <= MAX_PARAMETER_VALUE /\ Forall (fun b => 0 <= b < 256) bs
  end.

Definition encode_items (its : list macro_item) : list Z := flat_map encode_item its.
Definition expand_items (its : list macro_item) : list Z := flat_map expand_item its.

(** The characters of a definition, until the parser wants no more. *)
Fixpoint parse_all (cs : list Z) (m : MacroBuffer) : MacroBuffer * bool :=
  match cs with
  | [] => (m, true)
  | c :: cs =>
      let '(m, ok) := ParseDefinition c m in
      if ok then parse_all cs m else (m, false)
  end.

Lemma parse_all_app cs ds m m' :
  parse_all cs m = (m', true) -> parse_all (cs ++ ds) m = parse_all ds m'.
Proof.
  revert m. induction cs as [|c cs IH]; intros m; cbn [parse_all app]; [by intros [= ->]|].
  destruct (ParseDefinition c m) as [m1 []]; [apply IH|done].
Qed.

Lemma hexd_ordinary n : 0 <= n < 16 -> (hexd n =? ESC) = false /\ (hexd n <? 0x20) = false.
Proof. unfold hexd, ESC. intros. step_if; lia. Qed.

Lemma decode_hexd n m :
  0 <= n < 16 -> 0 <= _decodedChar m < 16 ->
  _decodeHexDigit (hexd n) m = (m <| _decodedChar := _decodedChar m * 16 + n |>, true).
Proof.
  intros Hn Hd. unfold _decodeHexDigit, hexd. rewrite Z.shiftl_mul_pow2 by lia. change (2 ^ 4) with 16.
  rewrite (u16_small (_ * 16)) by lia.
  destruct (Z.ltb_spec n 10).
  - assert ((0x30 <=? 0x30 + n) && (0x30 + n <=? 0x39) = true) as -> by lia.
    replace (_decodedChar m * 16 + (0x30 + n - 0x30)) with (_decodedChar m * 16 + n) by lia.
    by rewrite u16_small by lia.
  - assert ((0x30 <=? 0x41 + (n - 10)) && (0x41 + (n - 10) <=? 0x39) = false) as -> by lia.
    assert ((0x41 <=? 0x41 + (n - 10)) && (0x41 + (n - 10) <=? 0x46) = true) as -> by lia.
    replace (_decodedChar m * 16 + (0x41 + (n - 10) - 0x41 + 10)) with (_decodedChar m * 16 + n) by lia.
    by rewrite u16_small by lia.
Qed.

(** Ready for the first digit of a pair. *)
Definition ready (m : MacroBuffer) : Prop := _parseState m = ExpectingHexDigit /\ _decodedChar m = 0.

Lemma parse_byte b m :
  space_ok m -> ready m -> total (_macros m) < MAX_SPACE -> 0 <= b < 256 ->
  parse_all (hex_byte b) m = (with_text (_activeMacro m ++ [b]) m, true).
Proof.
  intros Hm [Hst Hdc] Ht Hb. unfold hex_byte.
  pose proof (Z.div_mod b 16). pose proof (Z.mod_pos_bound b 16).
  destruct (hexd_ordinary (b / 16)) as [E1 E2]; [lia|].
  destruct (hexd_ordinary (b mod 16)) as [E3 E4]; [lia|].
  cbn [parse_all]. unfold ParseDefinition at 1. rewrite E1, E2. unfold parse_definition_state. rewrite Hst.
  rewrite decode_hexd by lia. rewrite Hdc. cbn [fst snd].
  set (m1 := setter _ _ _). cbn [negb].
  unfold ParseDefinition. rewrite E3, E4. unfold parse_definition_state.
  change (_parseState m1) with ExpectingSecondHexDigit. cbn beta iota.
  rewrite decode_hexd by (first [lia|change (0 <= 0 * 16 + b / 16 < 16); lia]).
  change (_decodedChar m1) with (0 * 16 + b / 16).
  replace ((0 * 16 + b / 16) * 16 + b mod 16) with b by lia.
  set (m2 := m1 <| _decodedChar := b |>).
  change (_decodedChar m2) with b.
  assert (Hm2 : space_ok m2) by (by apply (space_same m)).
  rewrite append_is_with_text by done. change (_activeMacro m2) with (_activeMacro m).
  unfold m2, m1. clear m1 m2 Hm2. destruct m. cbn in *. by subst.
Qed.

Lemma ready_with_text t m : ready m -> ready (with_text t m).
Proof. by intros [H1 H2]. Qed.

Lemma parse_bytes bs m :
  space_ok m -> ready m -> total (_macros m) + len64 bs <= MAX_SPACE -> Forall (fun b => 0 <= b < 256) bs ->
  parse_all (hex_text bs) m = (with_text (_activeMacro m ++ bs) m, true).
Proof.
  intros Hm Hr Ht Hb. revert m Hm Hr Ht. induction Hb as [|b bs Hb Hbs IH]; intros m Hm Hr Ht.
  - cbn. by rewrite app_nil_r, with_text_id.
  - change (hex_text (b :: bs)) with (hex_byte b ++ hex_text bs).
    change (b :: bs) with ([b] ++ bs) in Ht |- *. rewrite len64_app in Ht. change (len64 [b]) with 1 in Ht.
    pose proof (len64_nonneg bs).
    erewrite parse_all_app by (apply parse_byte; try done; lia).
    set (m1 := with_text (_activeMacro m ++ [b]) m).
    assert (Ha : _activeMacro m1 = _activeMacro m ++ [b]) by (by apply active_with_text).
    rewrite IH.
    + rewrite Ha, <- app_assoc. unfold m1. by rewrite with_text_twice.
    + apply with_text_ok; [done|]. rewrite len64_app. change (len64 [b]) with 1. lia.
    + by apply ready_with_text.
    + unfold m1. rewrite total_with_text, len64_app by done. change (len64 [b]) with 1. lia.
Qed.

Lemma parse_count ds c m :
  _parseState m = ExpectingRepeatCount -> 0 <= c <= MAX_PARAMETER_VALUE -> _repeatCount m = c ->
  Forall is_digit ds ->
  parse_all ds m = (m <| _repeatCount := accumulate c ds |>, true).
Proof.
  intros Hst Hc Hm Hd. revert m c Hst Hc Hm. induction Hd as [|d ds Hd Hds IH]; intros m c Hst Hc Hm.
  - cbn. subst c. by destruct m.
  - unfold is_digit, _isNumericParamValue in Hd.
    cbn [parse_all]. unfold ParseDefinition, ESC.
    assert ((d =? 0x1B) = false) as -> by lia. assert ((d <? 0x20) = false) as -> by lia.
    unfold parse_definition_state. rewrite Hst, Hm, Hd.
    unfold MAX_PARAMETER_VALUE in *. rewrite (u64_small (c * 10)), u64_small by lia.
    rewrite (IH _ (Z.min (c * 10 + (d - 0x30)) 65535)); [|done|lia|done].
    change (accumulate c (d :: ds)) with (accumulate (_AccumulateTo d c) ds).
    rewrite AccumulateTo_min. unfold MAX_PARAMETER_VALUE. by rewrite Z.min_comm.
Qed.

(** The buffer after [t] has been added to the macro being defined; the
    fields of a finished repeat may hold anything. *)
Definition defines (t : list Z) (m m' : MacroBuffer) : Prop :=
  space_ok m' /\ ready m' /\ _repeatPending m' = false /\ _activeMacroId m' = _activeMacroId m /\
  _macros m' = <[_activeMacroId m := _activeMacro m ++ t]> (_macros m).

Lemma concat_repeat_split n (bs : list Z) :
  bs ++ concat (repeat bs (Z.to_nat (n - 1))) = concat (repeat bs (Z.to_nat (Z.max 1 n))).
Proof.
  replace (Z.to_nat (Z.max 1 n)) with (S (Z.to_nat (n - 1))) by lia. done.
Qed.

(** The characters that start a repeat, in the state they find. *)
Lemma parse_bang m :
  ready m -> _repeatPending m = false ->
  ParseDefinition 0x21 m = (m <| _parseState := ExpectingRepeatCount |> <| _repeatCount := 0 |>, true).
Proof. intros [H1 H2] Hp. destruct m. cbn in *. subst. done. Qed.

Lemma parse_semicolon_count m :
  _parseState m = ExpectingRepeatCount ->
  ParseDefinition 0x3B m
  = (m <| _repeatPending := true |> <| _repeatStart := len64 (_activeMacro m) |>
       <| _parseState := ExpectingHexDigit |>, true).
Proof. intros Hs. unfold ParseDefinition, parse_definition_state. cbn. by rewrite Hs. Qed.

Lemma parse_semicolon_end m m' :
  ready m -> _repeatPending m = true -> _applyPendingRepeat m = (m', true) -> ParseDefinition 0x3B m = (m', true).
Proof.
  intros [H1 H2] Hp Ha.
  assert (Hd : _decodeHexDigit 0x3B m = (m, false)) by (destruct m; cbn in *; by subst).
  unfold ParseDefinition. change (0x3B =? ESC) with false. change (0x3B <? 0x20) with false. cbn beta iota.
  unfold parse_definition_state. rewrite H1, Hd, Hp. change ((0x3B =? 0x21) && negb true) with false.
  change ((0x3B =? 0x3B) && true) with true. cbn beta iota. by rewrite Ha.
Qed.

(** The text after a repeated group has been read once, and the copies that
    are still to be made of it. *)
Lemma repeat_applied n bs m :
  space_ok m -> 0 <= n <= MAX_PARAMETER_VALUE ->
  _repeatPending m = true -> _repeatStart m = len64 (_activeMacro m) -> _repeatCount m = n ->
  total (_macros m) + len64 (concat (repeat bs (Z.to_nat (Z.max 1 n)))) <= MAX_SPACE ->
  let m4 := with_text (_activeMacro m ++ bs) m in
  let t := _activeMacro m ++ concat (repeat bs (Z.to_nat (Z.max 1 n))) in
  _applyPendingRepeat m4 = ((with_text t m) <| _repeatPending := false |>, true).
Proof.
  intros Hm Hn F4 F5 F6 Ht m4 t.
  assert (Hlen : len64 bs <= len64 (concat (repeat bs (Z.to_nat (Z.max 1 n))))).
  { rewrite len64_concat_repeat. pose proof (len64_nonneg bs). nia. }
  assert (Ha4 : _activeMacro m4 = _activeMacro m ++ bs) by (unfold m4; by rewrite active_with_text by done).
  assert (Ht4 : total (_macros m4) = total (_macros m) + len64 bs)
    by (unfold m4; rewrite total_with_text, len64_app by done; lia).
  assert (Hm4 : space_ok m4) by (apply with_text_ok; [done|]; rewrite len64_app; lia).
  assert (Hrep : repeated m4 = t).
  { unfold repeated. rewrite Ha4. change (_repeatStart m4) with (_repeatStart m).
    change (_repeatCount m4) with (_repeatCount m).
    rewrite F5, F6, len64_nat, drop_app_length, <- app_assoc. unfold t. by rewrite concat_repeat_split. }
  rewrite applyPendingRepeat_spec by (first [done|split;
    [change (0 <= _repeatCount m <= MAX_PARAMETER_VALUE); by rewrite F6|intros _;
     change (_repeatStart m4) with (_repeatStart m); rewrite F5, Ha4, len64_app;
     pose proof (len64_nonneg (_activeMacro m)); pose proof (len64_nonneg bs); lia]]).
  rewrite Hrep, Ha4, len64_app, Ht4. unfold t. rewrite len64_app. fold t.
  destruct (Z.ltb_spec MAX_SPACE (total (_macros m) + len64 bs
    + (len64 (_activeMacro m) + len64 (concat (repeat bs (Z.to_nat (Z.max 1 n)))))
    - (len64 (_activeMacro m) + len64 bs))); [lia|].
  unfold m4. by rewrite with_text_twice by done.
Qed.

Lemma parse_repeat n bs m :
  space_ok m -> ready m -> _repeatPending m = false -> 0 <= n <= MAX_PARAMETER_VALUE ->
  Forall (fun b => 0 <= b < 256) bs ->
  total (_macros m) + len64 (expand_item (Repeat n bs)) <= MAX_SPACE ->
  exists m', parse_all (encode_item (Repeat n bs)) m = (m', true) /\ defines (expand_item (Repeat n bs)) m m'.
Proof.
  intros Hm Hr Hp Hn Hb Ht. cbn [encode_item expand_item] in *.
  assert (Hlen : len64 bs <= len64 (concat (repeat bs (Z.to_nat (Z.max 1 n))))).
  { rewrite len64_concat_repeat. pose proof (len64_nonneg bs). nia. }
  change ([0x21] ++ ?x) with (0x21 :: x). cbn [parse_all]. rewrite parse_bang by done.
  set (m1 := setter _ _ _).
  erewrite parse_all_app
    by (apply (parse_count (digits n) 0 m1); [done|unfold MAX_PARAMETER_VALUE; lia|done|apply digits_digit; lia]).
  rewrite digits_accumulate by done. set (m2 := m1 <| _repeatCount := n |>).
  change ([0x3B] ++ ?x) with (0x3B :: x). cbn [parse_all]. rewrite parse_semicolon_count by done.
  set (m3 := setter _ _ _).
  assert (Hm3 : space_ok m3) by (by apply (space_same m)).
  assert (Hr3 : ready m3) by (by destruct Hr). clear Hr.
  assert (Hf3 : _macros m3 = _macros m /\ _activeMacro m3 = _activeMacro m /\ _activeMacroId m3 = _activeMacroId m /\
                _repeatPending m3 = true /\ _repeatStart m3 = len64 (_activeMacro m3) /\ _repeatCount m3 = n) by done.
  clearbody m3. destruct Hf3 as (F1 & F2 & F3 & F4 & F5 & F6).
  erewrite parse_all_app by (apply parse_bytes; [done|done|rewrite F1; lia|done]).
  pose proof (repeat_applied n bs m3 Hm3 Hn F4 F5 F6 ltac:(by rewrite F1)) as Hap. cbv zeta in Hap.
  cbn [parse_all]. rewrite (parse_semicolon_end _ _ (ready_with_text _ _ Hr3) F4 Hap).
  eexists. split; [reflexivity|]. rewrite F2.
  set (t := _activeMacro m ++ concat (repeat bs (Z.to_nat (Z.max 1 n)))).
  split_and!; [|by destruct Hr3|done|done|].
  - apply (space_same (with_text t m3)); try done. apply with_text_ok; [done|].
    unfold t. rewrite len64_app, F1, F2. lia.
  - change (<[_activeMacroId m3 := t]> (_macros m3) = <[_activeMacroId m := t]> (_macros m)). by rewrite F1, F3.
Qed.

Lemma parse_item it m :
  space_ok m -> ready m -> _repeatPending m = false -> item_ok it ->
  total (_macros m) + len64 (expand_item it) <= MAX_SPACE ->
  exists m', parse_all (encode_item it) m = (m', true) /\ defines (expand_item it) m m'.
Proof.
  intros Hm Hr Hp Hi Ht. destruct it as [bs|n bs]; cbn [item_ok] in Hi.
  - eexists. split; [by apply parse_bytes|]. split; [|done].
    apply with_text_ok; [done|]. cbn [expand_item] in Ht. rewrite len64_app. lia.
  - destruct Hi. by apply parse_repeat.
Qed.

Lemma parse_items its m :
  space_ok m -> ready m -> _repeatPending m = false -> Forall item_ok its ->
  total (_macros m) + len64 (expand_items its) <= MAX_SPACE ->
  exists m', parse_all (encode_items its) m = (m', true) /\ defines (expand_items its) m m'.
Proof.
  intros Hm Hr Hp Hi. revert m Hm Hr Hp. induction Hi as [|it its Hit Hits IH]; intros m Hm Hr Hp Ht.
  - exists m. split; [done|]. split_and!; try done; try (by destruct Hr).
    cbn [expand_items flat_map]. rewrite app_nil_r. symmetry. by apply list_insert_id, active_lookup.
  - change (expand_items (it :: its)) with (expand_item it ++ expand_items its) in *.
    rewrite len64_app in Ht. pose proof (len64_nonneg (expand_items its)).
    destruct (parse_item it m Hm Hr Hp Hit) as (m1 & E1 & Hm1 & Hr1 & Hp1 & Hid1 & Hms1); [lia|].
    assert (Ha1 : _activeMacro m1 = _activeMacro m ++ expand_item it).
    { unfold _activeMacro, macro_at. rewrite Hms1, Hid1, list_lookup_insert_eq; [done|].
      destruct Hm as (Hl & Ha & _). lia. }
    assert (Ht1 : total (_macros m1) = total (_macros m) + len64 (expand_item it)).
    { rewrite Hms1, (total_insert _ _ _ _ (active_lookup m Hm)), len64_app. lia. }
    destruct (IH m1 Hm1 Hr1 Hp1) as (m2 & E2 & Hm2 & Hr2 & Hp2 & Hid2 & Hms2); [lia|].
    exists m2. split.
    + change (encode_items (it :: its)) with (encode_item it ++ encode_items its).
      by rewrite (parse_all_app _ _ _ _ E1).
    + split_and!; [done|by destruct Hr2..|done|congruence|].
      rewrite Hms2, Hms1, Ha1, Hid1, list_insert_insert_eq. by rewrite <- app_assoc.
Qed.

(** A hex encoded macro definition, literal pairs and repeats, that fits
    the space stores exactly the text it denotes under its number and leaves
    the other macros alone. *)
Theorem macro_definition p m macroId its :
  macro_reachable (p, m) -> 0 <= macroId < 64 -> _invokedDepth m = 0 -> Forall item_ok its ->
  total (_macros m) - len64 (macro_at (Z.to_nat macroId) m) + len64 (expand_items its) <= MAX_SPACE ->
  exists m1 m2,
    InitParser macroId DeleteId EncodingHexPair m = (m1, true) /\
    parse_all (encode_items its) m1 = (m2, true) /\
    ParseDefinition ESC m2 = (m2, false) /\
    _macros m2 = <[Z.to_nat macroId := expand_items its]> (_macros m).
Proof.
  intros Hreach Hid Hdep Hits Hfit. destruct (macro_invariant p m Hreach) as (Hm & _ & _).
  assert (Hl : length (_macros m) = 64%nat) by apply Hm.
  unfold InitParser. rewrite Hl, Hdep. change (Z.of_nat 64) with 64.
  assert ((macroId <? 64) && (0 =? 0) = true) as -> by lia. cbn [EncodingHexPair EncodingText Z.eqb orb].
  set (m0 := setter _ _ _).
  assert (Hm0 : space_ok m0).
  { destruct Hm as (_ & _ & Hs & Ht). split; [exact Hl|]. split; [|by split].
    change (Z.to_nat macroId < 64)%nat. lia. }
  assert (Hact : _activeMacro m0 = macro_at (Z.to_nat macroId) m) by done.
  assert (Hf0 : ready m0 /\ _repeatPending m0 = false /\ _macros m0 = _macros m /\ _activeMacroId m0 = Z.to_nat macroId)
    by done.
  clearbody m0. destruct Hf0 as (Hr0 & Hp0 & Hms0 & Hid0).
  rewrite delete_is_with_text by done.
  assert (Hm1 : space_ok (with_text [] m0)).
  { apply with_text_ok; [done|]. change (len64 []) with 0. pose proof (len64_nonneg (_activeMacro m0)).
    pose proof (proj2 (proj2 (proj2 Hm0))). lia. }
  destruct (parse_items its (with_text [] m0)) as (m2 & E & Hm2 & Hr2 & Hp2 & Hid2 & Hms2); [done|by apply ready_with_text|done|done| |].
  { rewrite total_with_text, Hact, Hms0 by done. change (len64 []) with 0. lia. }
  exists (with_text [] m0), m2. split; [done|]. split; [done|]. split.
  - unfold ParseDefinition. rewrite Z.eqb_refl. by rewrite Hp2.
  - rewrite Hms2, active_with_text by done.
    change (<[_activeMacroId m0 := expand_items its]> (<[_activeMacroId m0 := []]> (_macros m0))
            = <[Z.to_nat macroId := expand_items its]> (_macros m)).
    by rewrite list_insert_insert_eq, Hms0, Hid0.
Qed.
