(* ===== verification/ParserMacros.v ===== *)
(** * Macros inside the parser

    A macro is invoked by a control sequence of the text that is being
    parsed, and its own text is parsed by the same machine, so that
    [ProcessString], the callback it runs and [InvokeMacro] are mutually
    recursive in the source.  Here the recursion is cut by fuel
    ([runMacro]); the theorem shows that sixteen levels for each macro buffer
    are all there ever are, because a buffer refuses to nest deeper. *)

From stdpp Require Import finite.
From S2P Require Import Prelude VTTypes StateMachine ParserFacts MacroBuffer.
#[local] Open Scope Z_scope.

(** ** Two callbacks that agree are not told apart

    [P] is a property of the engine that its operations keep; the two
    callbacks agree on machines with that property, and keep it too. *)

Section Agree.
Context {E CB H : Type} `{Eng : !IStateMachineEngine E CB H}.
Abbreviation SM := (StateMachine E CB H).
Variable P : E -> Prop.

Class EnginePreserves : Prop := {
  pre_Execute c e : P e -> P (er_engine (ActionExecute c e));
  pre_ExecuteFromEscape c e : P e -> P (er_engine (ActionExecuteFromEscape c e));
  pre_Print c e : P e -> P (er_engine (ActionPrint c e));
  pre_PrintString s e : P e -> P (er_engine (ActionPrintString s e));
  pre_PassThrough s e : P e -> P (er_engine (ActionPassThroughString s e));
  pre_Esc id e : P e -> P (er_engine (ActionEscDispatch id e));
  pre_Vt52 id ps e : P e -> P (er_engine (ActionVt52EscDispatch id ps e));
  pre_Csi id ps e : P e -> P (er_engine (ActionCsiDispatch id ps e));
  pre_Dcs id ps e : P e -> P (er_engine (ActionDcsDispatch id ps e));
  pre_Osc n s e : P e -> P (er_engine (ActionOscDispatch n s e));
  pre_Ss3 c ps e : P e -> P (er_engine (ActionSs3Dispatch c ps e));
  pre_Handler h c e : P e -> P (fst (fst (StringHandler_call h c e)));
}.

Context {Pre : EnginePreserves}.
Variables rc1 rc2 : CB -> SM -> SM.
Hypothesis rc_agree :
  forall cb sm, P (_engine sm) -> rc1 cb sm = rc2 cb sm /\ P (_engine (rc1 cb sm)).

(** [agree f g]: [f] and [g] are the same on machines with [P], and keep it. *)
Definition agree (f g : SM -> SM) : Prop :=
  forall sm, P (_engine sm) -> f sm = g sm /\ P (_engine (f sm)).

Lemma agree_seq f1 g1 f2 g2 : agree f1 g1 -> agree f2 g2 -> agree (f1 ;> f2) (g1 ;> g2).
Proof.
  intros H1 H2 sm Hp. unfold seq_step. destruct (H1 sm Hp) as [E1 P1].
  destruct (H2 _ P1) as [E2 P2]. rewrite <- E1. by split.
Qed.

Lemma agree_if (c : bool) f1 g1 f2 g2 :
  agree f1 g1 -> agree f2 g2 -> agree (if c then f1 else f2) (if c then g1 else g2).
Proof. by destruct c. Qed.

(** Statements that leave the engine alone. *)
Lemma agree_pure f : (forall sm, _engine (f sm) = _engine sm) -> agree f f.
Proof. intros Hf sm Hp. split; [done|]. by rewrite Hf. Qed.

Lemma requests_engine rs (sm : SM) : _engine (apply_requests rs sm) = _engine sm.
Proof.
  unfold apply_requests. revert sm. induction rs as [|rq rs IH]; intros sm; [done|].
  cbn [fold_left]. rewrite IH. by destruct rq as [[]| |].
Qed.

Lemma engine_call_P {R} (call : E -> EngineResult CB E R) (sm : SM) :
  (forall e, P e -> P (er_engine (call e))) -> P (_engine sm) -> P (_engine (fst (engine_call call sm))).
Proof. intros Hc Hp. unfold engine_call. cbn. rewrite requests_engine. by apply Hc. Qed.

Lemma SafeExecute_P flush call (sm : SM) :
  (forall sm, P (_engine sm) -> P (_engine (flush sm))) -> (forall e, P e -> P (er_engine (call e))) ->
  P (_engine sm) -> P (_engine (fst (SafeExecute_with flush call sm))).
Proof.
  intros Hf Hc Hp. unfold SafeExecute_with. pose proof (engine_call_P call sm Hc Hp) as H1.
  destruct (engine_call call sm) as [sm1 [[]|]]; cbn in *; [done|by apply Hf|done].
Qed.

Lemma Flush_P n (sm : SM) : P (_engine sm) -> P (_engine (fst (FlushToTerminal_fuel n sm))).
Proof.
  revert sm. induction n as [|n IH]; intros sm Hp; [done|]. cbn [FlushToTerminal_fuel].
  set (exec := SafeExecute_with _).
  assert (Hx : forall s sm, P (_engine sm) -> P (_engine (fst (exec (ActionPassThroughString s) sm)))).
  { intros s sm0 Hp0. unfold exec. apply SafeExecute_P; [apply IH|apply pre_PassThrough|done]. }
  clearbody exec. destruct (_cachedSequence sm) as [cached|].
  - pose proof (Hx cached sm Hp) as H1. destruct (exec (ActionPassThroughString cached) sm) as [sm1 ok].
    cbn [fst] in H1. destruct ok; [|exact H1]. refine (Hx _ _ _). exact H1.
  - exact (Hx (_CurrentRun sm) sm Hp).
Qed.

Lemma agree_safely call :
  (forall e, P e -> P (er_engine (call e))) -> agree (safely call) (safely call).
Proof.
  intros Hc sm Hp. split; [done|]. unfold safely, _SafeExecute.
  apply SafeExecute_P; [|done|done]. intros sm0 Hp0. exact (Flush_P flushFuel sm0 Hp0).
Qed.

Lemma agree_dispatch (call : SM -> E -> EngineResult CB E bool) :
  (forall sm e, P e -> P (er_engine (call sm e))) ->
  agree (fun sm => safely (call sm) sm) (fun sm => safely (call sm) sm).
Proof. intros Hc sm. exact (agree_safely _ (Hc sm) sm). Qed.

Lemma handler_P c (sm : SM) : P (_engine sm) -> P (_engine (fst (call_dcsStringHandler c sm))).
Proof.
  intros Hp. unfold call_dcsStringHandler. destruct (_dcsStringHandler sm) as [h|]; [|done].
  pose proof (pre_Handler h c (_engine sm) Hp) as H1.
  destruct (StringHandler_call h c (_engine sm)) as [[e more] reqs]. cbn in *. by rewrite requests_engine.
Qed.

Lemma agree_DcsDispatch c : agree (_ActionDcsDispatch c) (_ActionDcsDispatch c).
Proof.
  intros sm Hp. split; [done|]. unfold _ActionDcsDispatch.
  set (call := ActionDcsDispatch _ _).
  pose proof (engine_call_P call sm (fun e => pre_Dcs _ _ e) Hp) as H1.
  destruct (engine_call call sm) as [sm1 r]. cbn [fst] in H1. destruct r; cbn; repeat case_match; exact H1.
Qed.

Lemma agree_callback : agree (_ExecuteCsiCompleteCallback rc1) (_ExecuteCsiCompleteCallback rc2).
Proof.
  intros sm Hp. unfold _ExecuteCsiCompleteCallback. destruct (_onCsiCompleteCallback sm) as [cb|]; [|done].
  cbv zeta. match goal with |- context [rc1 cb ?s] => destruct (rc_agree cb s Hp) as [E1 P1] end.
  rewrite <- E1. split; [done|exact P1].
Qed.

Lemma agree_Interrupt : agree _ActionInterrupt _ActionInterrupt.
Proof.
  intros sm Hp. split; [done|]. unfold _ActionInterrupt. destruct (_state sm); try done.
  by apply (handler_P ESC).
Qed.

Ltac apure :=
  apply agree_pure; intros ?;
  try unfold _ActionParam, _ActionSubParam, ensure_parameter, push_parameter;
  repeat case_match; done.

Ltac agree_tac :=
  repeat lazymatch goal with
  | |- agree (if _ then _ else _) _ => apply agree_if
  | |- agree (_ ;> _) _ => apply agree_seq
  | |- agree (_ActionDcsDispatch _) _ => apply agree_DcsDispatch
  | |- agree _ActionInterrupt _ => apply agree_Interrupt
  | |- agree (_ExecuteCsiCompleteCallback _) _ => apply agree_callback
  | |- agree (_ActionExecute _) _ => apply agree_safely; intros; by apply pre_Execute
  | |- agree (_ActionExecuteFromEscape _) _ => apply agree_safely; intros; by apply pre_ExecuteFromEscape
  | |- agree (_ActionPrint _) _ => apply agree_safely; intros; by apply pre_Print
  | |- agree (_ActionPrintString _) _ => apply agree_safely; intros; by apply pre_PrintString
  | |- agree (_ActionEscDispatch _) _ => apply agree_dispatch; intros; by apply pre_Esc
  | |- agree (_ActionVt52EscDispatch _) _ => apply agree_dispatch; intros; by apply pre_Vt52
  | |- agree (_ActionCsiDispatch _) _ => apply agree_dispatch; intros; by apply pre_Csi
  | |- agree _ActionOscDispatch _ => apply agree_dispatch; intros; by apply pre_Osc
  | |- agree (_ActionSs3Dispatch _) _ => apply agree_dispatch; intros; by apply pre_Ss3
  | |- agree _ _ => apure
  end.

Lemma agree_EventEscape c : agree (_EventEscape c) (_EventEscape c).
Proof.
  intros sm. unfold _EventEscape. repeat step_if;
    match goal with |- P (_engine sm) -> ?f sm = _ /\ _ => refine ((_ : agree f f) sm) end; agree_tac.
Qed.

Lemma agree_EventEscapeIntermediate c : agree (_EventEscapeIntermediate c) (_EventEscapeIntermediate c).
Proof.
  intros sm. unfold _EventEscapeIntermediate. repeat step_if;
    match goal with |- P (_engine sm) -> ?f sm = _ /\ _ => refine ((_ : agree f f) sm) end; agree_tac.
Qed.

Lemma agree_EventOscTermination c : agree (_EventOscTermination c) (_EventOscTermination c).
Proof.
  unfold _EventOscTermination. apply agree_if; [agree_tac|].
  apply agree_seq; [agree_tac|apply agree_EventEscape].
Qed.

Lemma agree_EventVt52Param c : agree (_EventVt52Param c) (_EventVt52Param c).
Proof.
  intros sm Hp. split; [done|]. unfold _EventVt52Param.
  step_if; [exact (proj2 (agree_safely _ (fun e => pre_Execute c e) sm Hp))|]. step_if; [exact Hp|].
  cbv zeta. step_if; [|exact Hp].
  match goal with |- P (_engine (?f ?s)) => refine (proj2 ((_ : agree f f) s Hp)) end. agree_tac.
Qed.

Lemma agree_EventDcsPassThrough c : agree (_EventDcsPassThrough c) (_EventDcsPassThrough c).
Proof.
  intros sm Hp. split; [done|]. unfold _EventDcsPassThrough. step_if; [|exact Hp].
  pose proof (handler_P c sm Hp) as Hk. destruct (call_dcsStringHandler c sm) as [sm' []]; exact Hk.
Qed.

Lemma agree_dispatch_event c : agree (dispatch_event rc1 c) (dispatch_event rc2 c).
Proof.
  intros sm. unfold dispatch_event. destruct (_state sm).
  - refine ((_ : agree (_EventGround c) _) sm). unfold _EventGround. agree_tac.
  - apply agree_EventEscape.
  - apply agree_EventEscapeIntermediate.
  - refine ((_ : agree (_EventCsiEntry rc1 c) _) sm). unfold _EventCsiEntry. agree_tac.
  - refine ((_ : agree (_EventCsiIntermediate rc1 c) _) sm). unfold _EventCsiIntermediate. agree_tac.
  - refine ((_ : agree (_EventCsiIgnore c) _) sm). unfold _EventCsiIgnore. agree_tac.
  - refine ((_ : agree (_EventCsiParam rc1 c) _) sm). unfold _EventCsiParam. agree_tac.
  - refine ((_ : agree (_EventCsiSubParam rc1 c) _) sm). unfold _EventCsiSubParam. agree_tac.
  - refine ((_ : agree (_EventOscParam c) _) sm). unfold _EventOscParam. agree_tac.
  - refine ((_ : agree (_EventOscString c) _) sm). unfold _EventOscString. agree_tac.
  - apply agree_EventOscTermination.
  - refine ((_ : agree (_EventSs3Entry c) _) sm). unfold _EventSs3Entry. agree_tac.
  - refine ((_ : agree (_EventSs3Param c) _) sm). unfold _EventSs3Param. agree_tac.
  - apply agree_EventVt52Param.
  - refine ((_ : agree (_EventDcsEntry c) _) sm). unfold _EventDcsEntry. agree_tac.
  - by intros Hp.
  - refine ((_ : agree (_EventDcsIntermediate c) _) sm). unfold _EventDcsIntermediate. agree_tac.
  - refine ((_ : agree (_EventDcsParam c) _) sm). unfold _EventDcsParam. agree_tac.
  - apply agree_EventDcsPassThrough.
  - by intros Hp.
Qed.

Lemma agree_step rec1 rec2 c :
  (forall c, agree (rec1 c) (rec2 c)) ->
  agree (processCharacter_step rc1 rec1 c) (processCharacter_step rc2 rec2 c).
Proof.
  intros Hrec sm. unfold processCharacter_step. cbv zeta.
  destruct (_ && negb _); [|destruct (_isC1ControlCharacter c); [|destruct (_ && negb _)]].
  - refine ((_ : agree (_ActionInterrupt ;> _ActionExecute c ;> _EnterGround) _) sm). agree_tac.
  - destruct (_parserMode_AcceptC1 sm); [|by intros Hp].
    exact (agree_seq _ _ _ _ (Hrec ESC) (Hrec (_c1To7Bit c)) sm).
  - refine ((_ : agree (_ActionInterrupt ;> _EnterEscape) _) sm). agree_tac.
  - apply agree_dispatch_event.
Qed.

Lemma agree_ProcessCharacter c : agree (ProcessCharacter rc1 c) (ProcessCharacter rc2 c).
Proof. apply agree_step. intros. apply agree_step. intros. by intros sm Hp. Qed.

Lemma agree_vt size i rest (sm : SM) :
  P (_engine sm) ->
  processString_vt rc1 size i rest sm = processString_vt rc2 size i rest sm /\
  P (_engine (snd (processString_vt rc1 size i rest sm))).
Proof.
  revert i sm. induction rest as [|c rest IH]; intros i sm Hp; [done|]. cbn [processString_vt].
  set (sm1 := setter _ _ _). destruct (agree_ProcessCharacter c sm1 Hp) as [E1 P1].
  rewrite <- E1. set (sm2 := ProcessCharacter rc1 c sm1) in *. clearbody sm2.
  destruct rest as [|c' rest']; [done|]. destruct (isState Ground sm2); [done|]. by apply IH.
Qed.

Lemma agree_loop fuel size i rest (sm : SM) :
  P (_engine sm) ->
  processString_loop rc1 fuel size i rest sm = processString_loop rc2 fuel size i rest sm /\
  P (_engine (processString_loop rc1 fuel size i rest sm)).
Proof.
  revert i rest sm. induction fuel as [|fuel IH]; intros i rest sm Hp; [done|].
  cbn [processString_loop]. destruct rest as [|c rest']; [done|]. set (rest := c :: rest') in *.
  set (n := FindActionableControlCharacter rest).
  set (p := if (n =? 0)%nat then _ else _).
  assert (Pp : P (_engine (snd p))).
  { unfold p. destruct (n =? 0)%nat; [exact Hp|]. cbn [snd].
    change (P (_engine (_ActionPrintString (_CurrentRun (sm <| _runOffset := i |> <| _runSize := n |>))
                          (sm <| _runOffset := i |> <| _runSize := n |>)))).
    apply agree_safely; [intros; by apply pre_PrintString|exact Hp]. }
  clearbody p. destruct p as [i1 sm1]. cbn [snd] in Pp.
  destruct (drop n rest) as [|c2 rest2]; [done|].
  destruct (agree_vt size i1 (c2 :: rest2) sm1 Pp) as [E2 P2]. rewrite <- E2.
  destruct (processString_vt rc1 size i1 (c2 :: rest2) sm1) as [[i3 rest3] sm3]. cbn [snd] in P2.
  by apply IH.
Qed.

Lemma agree_tail : agree processString_tail processString_tail.
Proof.
  intros sm Hp. split; [done|]. unfold processString_tail. destruct (isState Ground sm); [done|]. cbv zeta.
  destruct (_isEngineForInput sm).
  - step_if; [|exact Hp].
    match goal with |- P (_engine (?f sm)) => refine (proj2 ((_ : agree f f) sm Hp)) end. agree_tac.
  - by step_if.
Qed.

Lemma agree_ProcessString s : agree (ProcessString rc1 s) (ProcessString rc2 s).
Proof.
  intros sm Hp. unfold ProcessString. cbv zeta. set (sm1 := setter _ _ _).
  assert (P1 : P (_engine sm1)) by exact Hp. clearbody sm1. clear Hp sm.
  destruct (isState Ground sm1).
  - destruct (agree_loop (S (length s)) (length s) 0 s sm1 P1) as [E2 P2]. rewrite <- E2.
    by apply agree_tail.
  - destruct s as [|c s']; [by apply agree_tail|]. set (s := c :: s') in *.
    destruct (agree_vt (length s) 0 s sm1 P1) as [E2 P2]. rewrite <- E2.
    destruct (processString_vt rc1 (length s) 0 s sm1) as [[i3 rest3] sm3]. cbn [snd] in P2.
    destruct (agree_loop (S (length s)) (length s) i3 rest3 sm3 P2) as [E3 P3]. rewrite <- E3.
    by apply agree_tail.
Qed.
End Agree.

(** ** Nested macros

    Every buffer that is ever created is a [P]; the terminal holds a pointer
    to one of them, which a reset drops and the next definition sets to a new
    one.  The callback of an invocation captures the pointer it finds, so a
    callback is a buffer and the number of a macro in it. *)

Section Nested.
Context {E P H : Type} `{Eng : !IStateMachineEngine E (P * Z) H}.
Context `{!EqDecision P} `{!Finite P}.
Abbreviation SM := (StateMachine E (P * Z) H).

Variable buffer : P -> E -> MacroBuffer.
Variable set_buffer : P -> MacroBuffer -> E -> E.
Hypothesis buffer_set : forall p q m e, buffer q (set_buffer p m e) = if decide (q = p) then m else buffer q e.

Definition at_depth (d : P -> Z) (e : E) : Prop := forall p, _invokedDepth (buffer p e) = d p.

(** The engine leaves the nesting depths alone: definitions, which do not
    touch them, and resets, which only drop the pointer. *)
Hypothesis depth_kept : forall d, EnginePreserves (at_depth d).

Definition machine_buffer (p : P) (sm : SM) : MacroBuffer := buffer p (_engine sm).
Definition put_buffer (p : P) (m : MacroBuffer) (sm : SM) : SM :=
  sm <| _engine := set_buffer p m (_engine sm) |>.

Fixpoint runMacro (fuel : nat) (cb : P * Z) (sm : SM) : SM :=
  match fuel with
  | O => sm
  | S fuel =>
      InvokeMacro (machine_buffer cb.1) (put_buffer cb.1) (ProcessString (runMacro fuel)) cb.2 sm
  end.

(** The levels that are left in the buffers of a list, and in all of them. *)
Definition room_in (l : list P) (d : P -> Z) : Z := foldr (fun p acc => MAX_DEPTH - d p + acc) 0 l.
Definition room (d : P -> Z) : Z := room_in (enum P) d.
Definition depths_ok (d : P -> Z) : Prop := forall p, 0 <= d p <= MAX_DEPTH.
Definition deeper (p : P) (d : P -> Z) : P -> Z := fun q => if decide (q = p) then d p + 1 else d q.

Lemma room_in_nonneg l d : depths_ok d -> 0 <= room_in l d.
Proof. intros Hd. induction l as [|p l IH]; cbn; [lia|]. specialize (Hd p). fold (room_in l d). lia. Qed.

Lemma room_in_above p l d : depths_ok d -> p ∈ l -> MAX_DEPTH - d p <= room_in l d.
Proof.
  intros Hd. induction l as [|q l IH]; intros Hp; [by apply not_elem_of_nil in Hp|].
  cbn. fold (room_in l d). apply elem_of_cons in Hp as [->|Hp].
  - pose proof (room_in_nonneg l d Hd). lia.
  - specialize (Hd q). specialize (IH Hp). lia.
Qed.

Lemma room_in_deeper p l d :
  NoDup l -> room_in l (deeper p d) = room_in l d - (if decide (p ∈ l) then 1 else 0).
Proof.
  induction 1 as [|q l Hq Hl IH]; cbn; [done|]. fold (room_in l (deeper p d)) (room_in l d).
  rewrite IH. unfold deeper. pose proof (elem_of_cons l p q).
  destruct (decide (q = p)), (decide (p ∈ l)), (decide (p ∈ q :: l)); subst; first [lia|exfalso; tauto|idtac].
  exfalso. intuition congruence.
Qed.

Lemma room_deeper p d : room (deeper p d) = room d - 1.
Proof.
  unfold room. rewrite room_in_deeper by apply NoDup_enum.
  rewrite decide_True by apply elem_of_enum. done.
Qed.

Lemma room_le d : depths_ok d -> room d <= 16 * Z.of_nat (length (enum P)).
Proof.
  intros Hd. unfold room. induction (enum P) as [|p l IH]; cbn [room_in foldr length]; [done|].
  fold (room_in l d). specialize (Hd p). unfold MAX_DEPTH in *. lia.
Qed.

Lemma enter_deeper p macroId d (sm : SM) :
  depths_ok d -> at_depth d (_engine sm) -> invoke_allowed macroId (machine_buffer p sm) = true ->
  at_depth (deeper p d) (_engine (put_buffer p (invoke_enter macroId (machine_buffer p sm)) sm)) /\
  depths_ok (deeper p d).
Proof.
  intros Hok Hd Ha. unfold invoke_allowed in Ha. rewrite !andb_true_iff in Ha.
  unfold machine_buffer in *. rewrite Hd in Ha. pose proof (Hok p) as Hp. split; intros q.
  - cbn. rewrite buffer_set. unfold deeper. case_decide as Hq; [|by apply Hd]. cbn. rewrite Hd.
    apply u64_small. unfold MAX_DEPTH in *. lia.
  - unfold deeper. case_decide; [lia|apply Hok].
Qed.

Lemma exit_depth m : _invokedDepth (invoke_exit m) = u64 (_invokedDepth m - 1).
Proof. unfold invoke_exit. by destruct (_ =? 0). Qed.

Lemma exit_deeper p d (sm : SM) :
  depths_ok d -> at_depth (deeper p d) (_engine sm) ->
  at_depth d (_engine (put_buffer p (invoke_exit (machine_buffer p sm)) sm)).
Proof.
  intros Hok Hd q. cbn. rewrite buffer_set. specialize (Hok p). unfold MAX_DEPTH in *. case_decide as Hq.
  - subst q. rewrite exit_depth. unfold machine_buffer. rewrite Hd. unfold deeper. rewrite decide_True by done.
    rewrite u64_small; lia.
  - rewrite Hd. unfold deeper. by rewrite decide_False.
Qed.

(** The levels that are left are enough. *)
Lemma runMacro_enough n k cb d (sm : SM) :
  depths_ok d -> at_depth d (_engine sm) -> room d <= Z.of_nat n -> room d <= Z.of_nat k ->
  runMacro n cb sm = runMacro k cb sm /\ at_depth d (_engine (runMacro n cb sm)).
Proof.
  destruct cb as [p macroId]. revert k p macroId d sm.
  induction n as [|n IH]; intros k p macroId d sm Hok Hd Hn Hk.
  all: pose proof (room_in_above p (enum P) d Hok (elem_of_enum p)) as Hroom; fold (room d) in Hroom.
  - assert (Hno : invoke_allowed macroId (machine_buffer p sm) = false).
    { unfold invoke_allowed, machine_buffer. rewrite Hd.
      assert ((d p <? MAX_DEPTH) = false) as -> by (cbn in Hn; lia). by rewrite andb_false_r. }
    destruct k as [|k]; [done|]. cbn [runMacro]. unfold InvokeMacro. cbn [fst snd]. by rewrite Hno.
  - destruct (invoke_allowed macroId (machine_buffer p sm)) eqn:Ha.
    2:{ destruct k as [|k]; cbn [runMacro]; unfold InvokeMacro; cbn [fst snd]; by rewrite Ha. }
    destruct (enter_deeper p macroId d sm Hok Hd Ha) as [Hd1 Hok1].
    pose proof (room_deeper p d) as Hr. pose proof (room_in_nonneg (enum P) _ Hok1) as Hr0.
    fold (room (deeper p d)) in Hr0.
    destruct k as [|k]; [lia|]. cbn [runMacro]. unfold InvokeMacro. cbn [fst snd]. rewrite Ha. cbv zeta.
    destruct (agree_ProcessString (at_depth (deeper p d)) (runMacro n) (runMacro k)
      (Pre := depth_kept _)) with (s := macro_at (Z.to_nat macroId) (machine_buffer p sm)) (2 := Hd1) as [E1 P1].
    { intros [q id'] sm' Hsm'. apply IH; [done|done|lia|lia]. }
    rewrite <- E1. split; [done|]. by apply exit_deeper.
Qed.

(** C29: parsing a text whose control sequences invoke macros, which invoke
    further macros, always comes to an end: with the buffers [P], sixteen
    levels of recursion for each give the same result as any larger number,
    and every nesting depth is back where it was.  An invocation goes on in
    the buffer it started in, though the terminal be reset and start a new
    one meanwhile; the buffers that are ever created are finitely many, and
    the engine itself leaves the nesting depths alone. *)
Theorem macro_nesting_bounded n d s (sm : SM) :
  depths_ok d -> at_depth d (_engine sm) -> (16 * length (enum P) <= n)%nat ->
  ProcessString (runMacro n) s sm = ProcessString (runMacro (16 * length (enum P))) s sm /\
  at_depth d (_engine (ProcessString (runMacro n) s sm)).
Proof.
  intros Hok Hd Hn. pose proof (room_le d Hok).
  refine (agree_ProcessString (at_depth d) (runMacro n) (runMacro (16 * length (enum P))) _ s sm Hd).
  intros cb sm' Hsm'. apply runMacro_enough; [done|done|lia|lia].
Qed.
End Nested.
