(* ===== verification/TermDispatch.v ===== *)
(** * The terminal interface

    Models [src/src/terminal/adapter/ITermDispatch.hpp], the interface the
    output engine drives, the conversions of [DispatchTypes.hpp] that its
    callers go through, and [LineRendition.hpp].

    Every method that returns nothing is a constructor of [Call], every
    method that returns a string handler one of [StringCall].  Enumerations
    whose values arrive from the wire are kept as the integers they are cast
    from: the cast does not check that the value is named. *)

From S2P Require Import Prelude VTTypes StateMachine.
#[local] Open Scope Z_scope.

Inductive LineFeedType := WithReturn | WithoutReturn | DependsOnMode.
Inductive LineRendition := SingleWidth | DoubleWidth | DoubleHeightTop | DoubleHeightBottom.
Inductive OptionalFeature := ChecksumReport | ClipboardWrite.

(** ** The methods *)

Inductive Call :=
| Print (wchPrintable : Z) | PrintString (string : list Z) | CursorUp (distance : Z)
| CursorDown (distance : Z) | CursorForward (distance : Z) | CursorBackward (distance : Z)
| CursorNextLine (distance : Z) | CursorPrevLine (distance : Z)
| CursorHorizontalPositionAbsolute (column : Z) | VerticalLinePositionAbsolute (line : Z)
| HorizontalPositionRelative (distance : Z) | VerticalPositionRelative (distance : Z)
| CursorPosition (line column : Z) | CursorSaveState | CursorRestoreState
| InsertCharacter (count : Z) | DeleteCharacter (count : Z) | ScrollUp (distance : Z)
| ScrollDown (distance : Z) | NextPage (pageCount : Z) | PrecedingPage (pageCount : Z)
| PagePositionAbsolute (page : Z) | PagePositionRelative (pageCount : Z)
| PagePositionBack (pageCount : Z) | RequestDisplayedExtent | InsertLine (distance : Z)
| DeleteLine (distance : Z) | InsertColumn (distance : Z) | DeleteColumn (distance : Z)
| SetKeypadMode (applicationMode : bool) | SetAnsiMode (ansiMode : bool)
| SetTopBottomScrollingMargins (topMargin bottomMargin : Z)
| SetLeftRightScrollingMargins (leftMargin rightMargin : Z) | EnquireAnswerback | WarningBell
| CarriageReturn | LineFeed (lineFeedType : LineFeedType) | ReverseLineFeed | BackIndex
| ForwardIndex | SetWindowTitle (title : list Z) | HorizontalTabSet | ForwardTab (numTabs : Z)
| BackwardsTab (numTabs : Z) | TabClear (clearType : Z) | TabSet (setType : Z)
| SetColorTableEntry (tableIndex color : Z) | RequestColorTableEntry (tableIndex : Z)
| ResetColorTable | ResetColorTableEntry (tableIndex : Z)
| SetXtermColorResource (resource color : Z) | RequestXtermColorResource (resource : Z)
| ResetXtermColorResource (resource : Z) | AssignColor (item fgIndex bgIndex : Z)
| EraseInDisplay (eraseType : Z) | EraseInLine (eraseType : Z) | EraseCharacters (numChars : Z)
| SelectiveEraseInDisplay (eraseType : Z) | SelectiveEraseInLine (eraseType : Z)
| ChangeAttributesRectangularArea (top left bottom right : Z) (attrs : VTParameters)
| ReverseAttributesRectangularArea (top left bottom right : Z) (attrs : VTParameters)
| CopyRectangularArea (top left bottom right page dstTop dstLeft dstPage : Z)
| FillRectangularArea (ch top left bottom right : Z)
| EraseRectangularArea (top left bottom right : Z)
| SelectiveEraseRectangularArea (top left bottom right : Z)
| SelectAttributeChangeExtent (changeExtent : Z)
| RequestChecksumRectangularArea (id page top left bottom right : Z)
| SetGraphicsRendition (options : VTParameters) | SetLineRendition (rendition : LineRendition)
| SetCharacterProtectionAttribute (options : VTParameters)
| PushGraphicsRendition (options : VTParameters) | PopGraphicsRendition | SetMode (param : Z)
| ResetMode (param : Z) | RequestMode (param : Z) | DeviceStatusReport (statusType id : Z)
| DeviceAttributes | SecondaryDeviceAttributes | TertiaryDeviceAttributes | Vt52DeviceAttributes
| RequestTerminalParameters (permission : Z) | DesignateCodingSystem (codingSystem : Z)
| Designate94Charset (gsetNumber charset : Z) | Designate96Charset (gsetNumber charset : Z)
| LockingShift (gsetNumber : Z) | LockingShiftRight (gsetNumber : Z)
| SingleShift (gsetNumber : Z) | AcceptC1Controls (enabled : bool)
| SendC1Controls (enabled : bool) | AnnounceCodeStructure (ansiLevel : Z) | SoftReset | HardReset
| ScreenAlignmentPattern | SetCursorStyle (cursorStyle : Z) | SetClipboard (content : list Z)
| WindowManipulation (function parameter1 parameter2 : Z) | AddHyperlink (uri params : list Z)
| EndHyperlink | DoConEmuAction (string : list Z) | DoITerm2Action (string : list Z)
| DoFinalTermAction (string : list Z) | DoVsCodeAction (string : list Z)
| DoWTAction (string : list Z) | RequestUserPreferenceCharset | InvokeMacro (macroId : Z)
| RequestTerminalStateReport (format formatOption : Z)
| RequestPresentationStateReport (format : Z) | PlaySounds (parameters : VTParameters)
| SetOptionalFeatures (features : list OptionalFeature).

Inductive StringCall :=
| DefineSixelImage (macroParameter backgroundSelect backgroundColor : Z)
| DownloadDRCS (fontNumber startChar eraseControl cellMatrix fontSet fontUsage cellHeight charsetSize : Z)
| AssignUserPreferenceCharset (charsetSize : Z) | DefineMacro (macroId deleteControl encoding : Z)
| RestoreTerminalState (format : Z) | RequestSetting | RestorePresentationState (format : Z).

(** [D] is the implementation, [CB] the callbacks it can leave with the
    parser, [H] the string handlers it hands out.  A call may throw, may
    change the implementation and may ask the parser for something. *)
Class ITermDispatch (D CB H : Type) := {
  dispatch : Call -> D -> EngineResult CB D unit;
  dispatch_string : StringCall -> D -> EngineResult CB D (option H);
  handler_call : H -> Z -> D -> D * bool * list (ParserRequest CB);
}.

(** ** How arguments are read from a sequence

    [VTParameter] converts to [VTInt] with a default of 1 ([num]), to an
    enumeration with a default of 0 ([sel]), and [value_or(0)] is [val]. *)

Definition num (ps : VTParameters) (index : nat) : Z := as_VTInt (param_at ps index).
Definition sel (ps : VTParameters) (index : nat) : Z := as_enum (param_at ps index).
Definition val (ps : VTParameters) (index : nat) : Z := value_or (param_at ps index) 0.

(** ** [class FlaggedEnumValue]

    Built from a [VTParameter] through its conversion to [VTInt]. *)

Definition FlaggedEnumValue (mask value : Z) : Z := Z.lor value mask.
Definition ANSIStandardStatus (p : Z) : Z := FlaggedEnumValue 0x00000000 (as_VTInt p).
Definition DECPrivateStatus (p : Z) : Z := FlaggedEnumValue 0x01000000 (as_VTInt p).
Definition ANSIStandardMode (p : Z) : Z := FlaggedEnumValue 0x00000000 (as_VTInt p).
Definition DECPrivateMode (p : Z) : Z := FlaggedEnumValue 0x01000000 (as_VTInt p).

(** [ModeParams::DECANM_AnsiMode], [EraseType::ToEnd] and the two
    [CharacterSets] the engine names. *)
Definition DECANM_AnsiMode : Z := FlaggedEnumValue 0x01000000 2.
Definition ToEnd : Z := 0.
Definition DecSpecialGraphics : Z := VTID_FromString (wstr "0").
Definition ASCII : Z := VTID_FromString (wstr "B").
