(* ===== verification/ActionCodes.v ===== *)
(** * Identifiers of the sequences the output engine knows

    The enumerations [EscActionCodes], [CsiActionCodes], [DcsActionCodes],
    [Vt52ActionCodes] and [OscActionCodes] of
    [src/src/terminal/parser/OutputStateMachineEngine.hpp]. *)

From S2P Require Import Prelude VTTypes.
#[local] Open Scope Z_scope.

Module EscActionCodes.
Definition DECBI_BackIndex : Z := VTID_FromString (wstr "6").
Definition DECSC_CursorSave : Z := VTID_FromString (wstr "7").
Definition DECRC_CursorRestore : Z := VTID_FromString (wstr "8").
Definition DECFI_ForwardIndex : Z := VTID_FromString (wstr "9").
Definition DECKPAM_KeypadApplicationMode : Z := VTID_FromString (wstr "=").
Definition DECKPNM_KeypadNumericMode : Z := VTID_FromString (wstr ">").
Definition IND_Index : Z := VTID_FromString (wstr "D").
Definition NEL_NextLine : Z := VTID_FromString (wstr "E").
Definition HTS_HorizontalTabSet : Z := VTID_FromString (wstr "H").
Definition RI_ReverseLineFeed : Z := VTID_FromString (wstr "M").
Definition SS2_SingleShift : Z := VTID_FromString (wstr "N").
Definition SS3_SingleShift : Z := VTID_FromString (wstr "O").
Definition DECID_IdentifyDevice : Z := VTID_FromString (wstr "Z").
Definition ST_StringTerminator : Z := VTID_FromString (wstr "\").
Definition RIS_ResetToInitialState : Z := VTID_FromString (wstr "c").
Definition LS2_LockingShift : Z := VTID_FromString (wstr "n").
Definition LS3_LockingShift : Z := VTID_FromString (wstr "o").
Definition LS1R_LockingShift : Z := VTID_FromString (wstr "~").
Definition LS2R_LockingShift : Z := VTID_FromString (wstr "}").
Definition LS3R_LockingShift : Z := VTID_FromString (wstr "|").
Definition DECAC1_AcceptC1Controls : Z := VTID_FromString (wstr " 7").
Definition S7C1T_Send7bitC1Controls : Z := VTID_FromString (wstr " F").
Definition S8C1T_Send8bitC1Controls : Z := VTID_FromString (wstr " G").
Definition ACS_AnsiLevel1 : Z := VTID_FromString (wstr " L").
Definition ACS_AnsiLevel2 : Z := VTID_FromString (wstr " M").
Definition ACS_AnsiLevel3 : Z := VTID_FromString (wstr " N").
Definition DECDHL_DoubleHeightLineTop : Z := VTID_FromString (wstr "#3").
Definition DECDHL_DoubleHeightLineBottom : Z := VTID_FromString (wstr "#4").
Definition DECSWL_SingleWidthLine : Z := VTID_FromString (wstr "#5").
Definition DECDWL_DoubleWidthLine : Z := VTID_FromString (wstr "#6").
Definition DECALN_ScreenAlignmentPattern : Z := VTID_FromString (wstr "#8").
End EscActionCodes.

Module CsiActionCodes.
Definition ICH_InsertCharacter : Z := VTID_FromString (wstr "@").
Definition CUU_CursorUp : Z := VTID_FromString (wstr "A").
Definition CUD_CursorDown : Z := VTID_FromString (wstr "B").
Definition CUF_CursorForward : Z := VTID_FromString (wstr "C").
Definition CUB_CursorBackward : Z := VTID_FromString (wstr "D").
Definition CNL_CursorNextLine : Z := VTID_FromString (wstr "E").
Definition CPL_CursorPrevLine : Z := VTID_FromString (wstr "F").
Definition CHA_CursorHorizontalAbsolute : Z := VTID_FromString (wstr "G").
Definition CUP_CursorPosition : Z := VTID_FromString (wstr "H").
Definition CHT_CursorForwardTab : Z := VTID_FromString (wstr "I").
Definition ED_EraseDisplay : Z := VTID_FromString (wstr "J").
Definition DECSED_SelectiveEraseDisplay : Z := VTID_FromString (wstr "?J").
Definition EL_EraseLine : Z := VTID_FromString (wstr "K").
Definition DECSEL_SelectiveEraseLine : Z := VTID_FromString (wstr "?K").
Definition IL_InsertLine : Z := VTID_FromString (wstr "L").
Definition DL_DeleteLine : Z := VTID_FromString (wstr "M").
Definition DCH_DeleteCharacter : Z := VTID_FromString (wstr "P").
Definition SU_ScrollUp : Z := VTID_FromString (wstr "S").
Definition SD_ScrollDown : Z := VTID_FromString (wstr "T").
Definition NP_NextPage : Z := VTID_FromString (wstr "U").
Definition PP_PrecedingPage : Z := VTID_FromString (wstr "V").
Definition DECST8C_SetTabEvery8Columns : Z := VTID_FromString (wstr "?W").
Definition ECH_EraseCharacters : Z := VTID_FromString (wstr "X").
Definition CBT_CursorBackTab : Z := VTID_FromString (wstr "Z").
Definition HPA_HorizontalPositionAbsolute : Z := VTID_FromString (wstr "`").
Definition HPR_HorizontalPositionRelative : Z := VTID_FromString (wstr "a").
Definition REP_RepeatCharacter : Z := VTID_FromString (wstr "b").
Definition DA_DeviceAttributes : Z := VTID_FromString (wstr "c").
Definition DA2_SecondaryDeviceAttributes : Z := VTID_FromString (wstr ">c").
Definition DA3_TertiaryDeviceAttributes : Z := VTID_FromString (wstr "=c").
Definition VPA_VerticalLinePositionAbsolute : Z := VTID_FromString (wstr "d").
Definition VPR_VerticalPositionRelative : Z := VTID_FromString (wstr "e").
Definition HVP_HorizontalVerticalPosition : Z := VTID_FromString (wstr "f").
Definition TBC_TabClear : Z := VTID_FromString (wstr "g").
Definition SM_SetMode : Z := VTID_FromString (wstr "h").
Definition DECSET_PrivateModeSet : Z := VTID_FromString (wstr "?h").
Definition RM_ResetMode : Z := VTID_FromString (wstr "l").
Definition DECRST_PrivateModeReset : Z := VTID_FromString (wstr "?l").
Definition SGR_SetGraphicsRendition : Z := VTID_FromString (wstr "m").
Definition DSR_DeviceStatusReport : Z := VTID_FromString (wstr "n").
Definition DSR_PrivateDeviceStatusReport : Z := VTID_FromString (wstr "?n").
Definition DECSTBM_SetTopBottomMargins : Z := VTID_FromString (wstr "r").
Definition DECSLRM_SetLeftRightMargins : Z := VTID_FromString (wstr "s").
Definition DTTERM_WindowManipulation : Z := VTID_FromString (wstr "t").
Definition ANSISYSRC_CursorRestore : Z := VTID_FromString (wstr "u").
Definition DECREQTPARM_RequestTerminalParameters : Z := VTID_FromString (wstr "x").
Definition PPA_PagePositionAbsolute : Z := VTID_FromString (wstr " P").
Definition PPR_PagePositionRelative : Z := VTID_FromString (wstr " Q").
Definition PPB_PagePositionBack : Z := VTID_FromString (wstr " R").
Definition DECSCUSR_SetCursorStyle : Z := VTID_FromString (wstr " q").
Definition DECSTR_SoftReset : Z := VTID_FromString (wstr "!p").
Definition DECSCA_SetCharacterProtectionAttribute : Z := VTID_FromString (0x22 :: wstr "q").
Definition DECRQDE_RequestDisplayedExtent : Z := VTID_FromString (0x22 :: wstr "v").
Definition XT_PushSgrAlias : Z := VTID_FromString (wstr "#p").
Definition XT_PopSgrAlias : Z := VTID_FromString (wstr "#q").
Definition XT_PushSgr : Z := VTID_FromString (wstr "#{").
Definition XT_PopSgr : Z := VTID_FromString (wstr "#}").
Definition DECRQM_RequestMode : Z := VTID_FromString (wstr "$p").
Definition DECRQM_PrivateRequestMode : Z := VTID_FromString (wstr "?$p").
Definition DECCARA_ChangeAttributesRectangularArea : Z := VTID_FromString (wstr "$r").
Definition DECRARA_ReverseAttributesRectangularArea : Z := VTID_FromString (wstr "$t").
Definition DECRQTSR_RequestTerminalStateReport : Z := VTID_FromString (wstr "$u").
Definition DECCRA_CopyRectangularArea : Z := VTID_FromString (wstr "$v").
Definition DECRQPSR_RequestPresentationStateReport : Z := VTID_FromString (wstr "$w").
Definition DECFRA_FillRectangularArea : Z := VTID_FromString (wstr "$x").
Definition DECERA_EraseRectangularArea : Z := VTID_FromString (wstr "$z").
Definition DECSERA_SelectiveEraseRectangularArea : Z := VTID_FromString (wstr "${").
Definition DECSCPP_SetColumnsPerPage : Z := VTID_FromString (wstr "$|").
Definition DECRQUPSS_RequestUserPreferenceSupplementalSet : Z := VTID_FromString (wstr "&u").
Definition DECIC_InsertColumn : Z := VTID_FromString (wstr "'}").
Definition DECDC_DeleteColumn : Z := VTID_FromString (wstr "'~").
Definition DECSACE_SelectAttributeChangeExtent : Z := VTID_FromString (wstr "*x").
Definition DECRQCRA_RequestChecksumRectangularArea : Z := VTID_FromString (wstr "*y").
Definition DECINVM_InvokeMacro : Z := VTID_FromString (wstr "*z").
Definition DECAC_AssignColor : Z := VTID_FromString (wstr ",|").
Definition DECPS_PlaySound : Z := VTID_FromString (wstr ",~").
End CsiActionCodes.

Module DcsActionCodes.
Definition SIXEL_DefineImage : Z := VTID_FromString (wstr "q").
Definition DECDLD_DownloadDRCS : Z := VTID_FromString (wstr "{").
Definition DECAUPSS_AssignUserPreferenceSupplementalSet : Z := VTID_FromString (wstr "!u").
Definition DECDMAC_DefineMacro : Z := VTID_FromString (wstr "!z").
Definition DECRSTS_RestoreTerminalState : Z := VTID_FromString (wstr "$p").
Definition DECRQSS_RequestSetting : Z := VTID_FromString (wstr "$q").
Definition DECRSPS_RestorePresentationState : Z := VTID_FromString (wstr "$t").
End DcsActionCodes.

Module Vt52ActionCodes.
Definition CursorUp : Z := VTID_FromString (wstr "A").
Definition CursorDown : Z := VTID_FromString (wstr "B").
Definition CursorRight : Z := VTID_FromString (wstr "C").
Definition CursorLeft : Z := VTID_FromString (wstr "D").
Definition EnterGraphicsMode : Z := VTID_FromString (wstr "F").
Definition ExitGraphicsMode : Z := VTID_FromString (wstr "G").
Definition CursorToHome : Z := VTID_FromString (wstr "H").
Definition ReverseLineFeed : Z := VTID_FromString (wstr "I").
Definition EraseToEndOfScreen : Z := VTID_FromString (wstr "J").
Definition EraseToEndOfLine : Z := VTID_FromString (wstr "K").
Definition DirectCursorAddress : Z := VTID_FromString (wstr "Y").
Definition Identify : Z := VTID_FromString (wstr "Z").
Definition EnterAlternateKeypadMode : Z := VTID_FromString (wstr "=").
Definition ExitAlternateKeypadMode : Z := VTID_FromString (wstr ">").
Definition ExitVt52Mode : Z := VTID_FromString (wstr "<").
End Vt52ActionCodes.

Module OscActionCodes.
Definition SetIconAndWindowTitle : Z := 0.
Definition SetWindowIcon : Z := 1.
Definition SetWindowTitle : Z := 2.
Definition SetWindowProperty : Z := 3.
Definition SetColor : Z := 4.
Definition Hyperlink : Z := 8.
Definition ConEmuAction : Z := 9.
Definition SetForegroundColor : Z := 10.
Definition SetBackgroundColor : Z := 11.
Definition SetCursorColor : Z := 12.
Definition SetHighlightColor : Z := 17.
Definition DECSWT_SetWindowTitle : Z := 21.
Definition SetClipboard : Z := 52.
Definition ResetColor : Z := 104.
Definition ResetForegroundColor : Z := 110.
Definition ResetBackgroundColor : Z := 111.
Definition ResetCursorColor : Z := 112.
Definition ResetHighlightColor : Z := 117.
Definition FinalTermAction : Z := 133.
Definition VsCodeAction : Z := 633.
Definition ITerm2Action : Z := 1337.
Definition WTAction : Z := 9001.
End OscActionCodes.
