(* ===== verification/OutputEngine.v ===== *)
(** * The output engine

    Models [src/src/terminal/parser/OutputStateMachineEngine.{hpp,cpp}]: the
    engine that turns what the parser decodes into calls on the terminal
    ([ITermDispatch], [TermDispatch.v]).  [ActionPrint], [ActionExecute], the
    dispatchers of the five kinds of sequences and their helpers are the
    functions of the source; a [switch] is a list of cases. *)

From Stdlib Require Import Ascii String.
From S2P Require Import Prelude VTTypes StateMachine StringUtils Colors Base64.
From S2P Require Import TermDispatch ActionCodes.
#[local] Open Scope Z_scope.

(** ** Effects

    An action of the engine runs in the state of the engine, may end in an
    exception and collects the requests to the parser.  An exception skips
    the rest of the action. *)

Definition Act (CB E R : Type) : Type := E -> EngineResult CB E R.

#[export] Instance Act_ret {CB E} : MRet (Act CB E) := fun R x e => mkEngineResult e (Some x) [].
#[export] Instance Act_bind {CB E} : MBind (Act CB E) := fun R S f m e =>
  let r := m e in
  match er_result r with
  | Some x =>
      let r' := f x (er_engine r) in
      mkEngineResult (er_engine r') (er_result r') (er_requests r ++ er_requests r')
  | None => mkEngineResult (er_engine r) None (er_requests r)
  end.

(** The body of the first case that lists [id]. *)
Fixpoint switch {A} (id : Z) (cases : list (list Z * A)) (otherwise : A) : A :=
  match cases with
  | [] => otherwise
  | (labels, body) :: cases =>
      if existsb (Z.eqb id) labels then body else switch id cases otherwise
  end.

Definition COLOR_INQUIRY_COLOR : Z := 0xfeffffff.
Definition INVALID_COLOR : Z := 0xffffffff.
Definition MAX_URL_LENGTH : Z := 2 * 1048576.
Definition hyperlinkIDParameter : list Z := wstr "id=".

(** ** Helpers on the text of an operating system command *)

(** The loop over [i = 0, 2, ...] and [j = i + 1] of [_GetOscSetColorTable]. *)
Fixpoint color_pairs (parts : list (list Z)) : list (Z * Z) :=
  match parts with
  | index :: color :: parts =>
      match StringToUint index with
      | Some tableIndex =>
          if bool_decide (color = wstr "?") then [(tableIndex, COLOR_INQUIRY_COLOR)]
          else match ColorFromXTermColor color with
               | Some c => [(tableIndex, COLORREF_of_color c)]
               | None => []
               end
      | None => []
      end ++ color_pairs parts
  | _ => []
  end.

(** [None] when the function returns [false]; the two vectors it fills are
    kept as one list of pairs. *)
Definition _GetOscSetColorTable (string : list Z) : option (list (Z * Z)) :=
  let parts := SplitString string 0x3B in
  if (length parts <? 2)%nat then None
  else match color_pairs parts with [] => None | pairs => Some pairs end.

Definition osc_color (part : list Z) : Z :=
  if bool_decide (part = wstr "?") then COLOR_INQUIRY_COLOR
  else match ColorFromXTermColor part with
       | Some c => COLORREF_of_color c
       | None => INVALID_COLOR
       end.

Definition _GetOscSetColor (string : list Z) : option (list Z) :=
  match SplitString string 0x3B with
  | [] => None
  | parts => Some (map osc_color parts)
  end.

(** [part.find(needle)]. *)
Fixpoint find_sub (needle s : list Z) : option nat :=
  if bool_decide (take (length needle) s = needle) then Some 0%nat
  else match s with
       | [] => None
       | _ :: s => S <$> find_sub needle s
       end.

(** The value of the last part that has an id, [params] if there is none. *)
Fixpoint hyperlink_id (params : list Z) (paramParts : list (list Z)) : list Z :=
  match paramParts with
  | [] => params
  | part :: rest =>
      match find_sub hyperlinkIDParameter part with
      | Some idPos => hyperlink_id (drop (idPos + length hyperlinkIDParameter) part) rest
      | None => hyperlink_id params rest
      end
  end.

(** The parameters and the URI of a hyperlink. *)
Definition _ParseHyperlink (string : list Z) : option (list Z * list Z) :=
  if bool_decide (string = wstr ";") then Some ([], [])
  else match find_char 0x3B string with
       | Some midPos =>
           let rest := drop (S midPos) string in
           let uri := take (Z.to_nat (Z.min MAX_URL_LENGTH (Z.of_nat (length rest)))) rest in
           Some (hyperlink_id [] (SplitString (take midPos string) 0x3A), uri)
       | None => None
       end.

Definition _CanSeqAcceptSubParam (id : Z) (ps : VTParameters) : bool :=
  switch id
   [([CsiActionCodes.SGR_SetGraphicsRendition], true);
    ([CsiActionCodes.DECCARA_ChangeAttributesRectangularArea;
      CsiActionCodes.DECRARA_ReverseAttributesRectangularArea],
      negb (hasSubParamsFor ps 0) && negb (hasSubParamsFor ps 1)
      && negb (hasSubParamsFor ps 2) && negb (hasSubParamsFor ps 3))]
   false.

(** ** The engine *)

Record OutputStateMachineEngine (D : Type) := mkOutputEngine {
  _dispatch : D;
  _lastPrintedChar : Z;
}.
Arguments mkOutputEngine {D}. Arguments _dispatch {D}. Arguments _lastPrintedChar {D}.

#[export] Instance eta_OutputEngine {D} : Eta (OutputStateMachineEngine D) :=
  fun e => mkOutputEngine (_dispatch e) (_lastPrintedChar e).

Definition new_OutputEngine {D} (pDispatch : D) : OutputStateMachineEngine D :=
  mkOutputEngine pDispatch NUL.

Section Engine.
Context {D CB H : Type} `{Disp : !ITermDispatch D CB H}.
(** The conversion of decoded UTF-8 that [Base64::Decode] ends with, and the
    conversion failing. *)
Variable u8u16 : list Z -> option (list Z).
Abbreviation E := (OutputStateMachineEngine D).
Abbreviation act := (Act CB E).

Definition call (c : Call) : act unit := fun e =>
  let r := dispatch c (_dispatch e) in
  mkEngineResult (e <| _dispatch := er_engine r |>) (er_result r) (er_requests r).

Definition call_string (c : StringCall) : act (option H) := fun e =>
  let r := dispatch_string c (_dispatch e) in
  mkEngineResult (e <| _dispatch := er_engine r |>) (er_result r) (er_requests r).

Definition set_last (wch : Z) : act unit := fun e =>
  mkEngineResult (e <| _lastPrintedChar := wch |>) (Some tt) [].

Definition _ClearLastChar : act unit := set_last NUL.

Fixpoint calls (cs : list Call) : act unit :=
  match cs with
  | [] => mret tt
  | c :: cs => call c ;; calls cs
  end.

(** [parameters.for_each] with a method of the terminal. *)
Definition for_each (ps : VTParameters) (f : Z -> Call) : act unit := calls (map f (params_list ps)).

(** ** Printing and control characters *)

Definition output_Execute (wch : Z) : act bool :=
  switch wch
   [([ENQ], call EnquireAnswerback);
    ([BEL], call WarningBell);
    ([BS], call (CursorBackward 1));
    ([TAB], call (ForwardTab 1));
    ([CR], call CarriageReturn);
    ([LF; FF; VT], call (LineFeed DependsOnMode));
    ([SI], call (LockingShift 0));
    ([SO], call (LockingShift 1));
    ([SUB], call (Print 0x2426));
    ([DEL], call (Print wch))]
   (mret tt) ;;
  _ClearLastChar ;; mret true.

Definition output_Print (wch : Z) : act bool :=
  (if SPC <=? wch then set_last wch else mret tt) ;;
  call (Print wch) ;; mret true.

Definition output_PrintString (string : list Z) : act bool :=
  match string with
  | [] => mret true
  | _ =>
      let wch := back NUL string in
      (if SPC <=? wch then set_last wch else mret tt) ;;
      call (PrintString string) ;; mret true
  end.

(** The terminal is the last in line: a string that is not understood is
    dropped. *)
Definition output_PassThroughString (string : list Z) : act bool := mret true.

(** ** Escape sequences *)

Definition esc_default (id : Z) : act unit :=
  let commandChar := VTID_at id 0 in
  let commandParameter := VTID_SubSequence id 1 in
  switch commandChar
   [([0x25], call (DesignateCodingSystem commandParameter));
    ([0x28], call (Designate94Charset 0 commandParameter));
    ([0x29], call (Designate94Charset 1 commandParameter));
    ([0x2A], call (Designate94Charset 2 commandParameter));
    ([0x2B], call (Designate94Charset 3 commandParameter));
    ([0x2D], call (Designate96Charset 1 commandParameter));
    ([0x2E], call (Designate96Charset 2 commandParameter));
    ([0x2F], call (Designate96Charset 3 commandParameter))]
   (mret tt).

Definition output_EscDispatch (id : Z) : act bool :=
  switch id
   [([EscActionCodes.ST_StringTerminator], mret tt);
    ([EscActionCodes.DECBI_BackIndex], call BackIndex);
    ([EscActionCodes.DECSC_CursorSave], call CursorSaveState);
    ([EscActionCodes.DECRC_CursorRestore], call CursorRestoreState);
    ([EscActionCodes.DECFI_ForwardIndex], call ForwardIndex);
    ([EscActionCodes.DECKPAM_KeypadApplicationMode], call (SetKeypadMode true));
    ([EscActionCodes.DECKPNM_KeypadNumericMode], call (SetKeypadMode false));
    ([EscActionCodes.NEL_NextLine], call (LineFeed WithReturn));
    ([EscActionCodes.IND_Index], call (LineFeed WithoutReturn));
    ([EscActionCodes.RI_ReverseLineFeed], call ReverseLineFeed);
    ([EscActionCodes.HTS_HorizontalTabSet], call HorizontalTabSet);
    ([EscActionCodes.DECID_IdentifyDevice], call DeviceAttributes);
    ([EscActionCodes.RIS_ResetToInitialState], call HardReset);
    ([EscActionCodes.SS2_SingleShift], call (SingleShift 2));
    ([EscActionCodes.SS3_SingleShift], call (SingleShift 3));
    ([EscActionCodes.LS2_LockingShift], call (LockingShift 2));
    ([EscActionCodes.LS3_LockingShift], call (LockingShift 3));
    ([EscActionCodes.LS1R_LockingShift], call (LockingShiftRight 1));
    ([EscActionCodes.LS2R_LockingShift], call (LockingShiftRight 2));
    ([EscActionCodes.LS3R_LockingShift], call (LockingShiftRight 3));
    ([EscActionCodes.DECAC1_AcceptC1Controls], call (AcceptC1Controls true));
    ([EscActionCodes.S7C1T_Send7bitC1Controls], call (SendC1Controls false));
    ([EscActionCodes.S8C1T_Send8bitC1Controls], call (SendC1Controls true));
    ([EscActionCodes.ACS_AnsiLevel1], call (AnnounceCodeStructure 1));
    ([EscActionCodes.ACS_AnsiLevel2], call (AnnounceCodeStructure 2));
    ([EscActionCodes.ACS_AnsiLevel3], call (AnnounceCodeStructure 3));
    ([EscActionCodes.DECDHL_DoubleHeightLineTop], call (SetLineRendition DoubleHeightTop));
    ([EscActionCodes.DECDHL_DoubleHeightLineBottom], call (SetLineRendition DoubleHeightBottom));
    ([EscActionCodes.DECSWL_SingleWidthLine], call (SetLineRendition SingleWidth));
    ([EscActionCodes.DECDWL_DoubleWidthLine], call (SetLineRendition DoubleWidth));
    ([EscActionCodes.DECALN_ScreenAlignmentPattern], call ScreenAlignmentPattern)]
   (esc_default id) ;;
  _ClearLastChar ;; mret true.

Definition output_Vt52EscDispatch (id : Z) (ps : VTParameters) : act bool :=
  switch id
   [([Vt52ActionCodes.CursorUp], call (CursorUp 1));
    ([Vt52ActionCodes.CursorDown], call (CursorDown 1));
    ([Vt52ActionCodes.CursorRight], call (CursorForward 1));
    ([Vt52ActionCodes.CursorLeft], call (CursorBackward 1));
    ([Vt52ActionCodes.EnterGraphicsMode], call (Designate94Charset 0 DecSpecialGraphics));
    ([Vt52ActionCodes.ExitGraphicsMode], call (Designate94Charset 0 ASCII));
    ([Vt52ActionCodes.CursorToHome], call (CursorPosition 1 1));
    ([Vt52ActionCodes.ReverseLineFeed], call ReverseLineFeed);
    ([Vt52ActionCodes.EraseToEndOfScreen], call (EraseInDisplay ToEnd));
    ([Vt52ActionCodes.EraseToEndOfLine], call (EraseInLine ToEnd));
    ([Vt52ActionCodes.DirectCursorAddress],
      call (CursorPosition (param_at ps 0 - 0x20 + 1) (param_at ps 1 - 0x20 + 1)));
    ([Vt52ActionCodes.Identify], call Vt52DeviceAttributes);
    ([Vt52ActionCodes.EnterAlternateKeypadMode], call (SetKeypadMode true));
    ([Vt52ActionCodes.ExitAlternateKeypadMode], call (SetKeypadMode false));
    ([Vt52ActionCodes.ExitVt52Mode], call (SetMode DECANM_AnsiMode))]
   (mret tt) ;;
  _ClearLastChar ;; mret true.

(** ** Control sequences

    The cases of the switch in [ActionCsiDispatch], in the order of the
    source. *)

(** REP prints the last graphical character again. *)
Definition repeat_last (repeatCount : Z) : act unit := fun e =>
  (if negb (_lastPrintedChar e =? NUL)
   then call (PrintString (repeat (_lastPrintedChar e) (Z.to_nat repeatCount)))
   else mret tt) e.

Definition csi_cursor_cases (ps : VTParameters) : list (list Z * act unit) :=
   [([CsiActionCodes.CUU_CursorUp], call (CursorUp (num ps 0)));
    ([CsiActionCodes.CUD_CursorDown], call (CursorDown (num ps 0)));
    ([CsiActionCodes.CUF_CursorForward], call (CursorForward (num ps 0)));
    ([CsiActionCodes.CUB_CursorBackward], call (CursorBackward (num ps 0)));
    ([CsiActionCodes.CNL_CursorNextLine], call (CursorNextLine (num ps 0)));
    ([CsiActionCodes.CPL_CursorPrevLine], call (CursorPrevLine (num ps 0)));
    ([CsiActionCodes.CHA_CursorHorizontalAbsolute; CsiActionCodes.HPA_HorizontalPositionAbsolute],
      call (CursorHorizontalPositionAbsolute (num ps 0)));
    ([CsiActionCodes.VPA_VerticalLinePositionAbsolute],
      call (VerticalLinePositionAbsolute (num ps 0)));
    ([CsiActionCodes.HPR_HorizontalPositionRelative],
      call (HorizontalPositionRelative (num ps 0)));
    ([CsiActionCodes.VPR_VerticalPositionRelative], call (VerticalPositionRelative (num ps 0)));
    ([CsiActionCodes.CUP_CursorPosition; CsiActionCodes.HVP_HorizontalVerticalPosition],
      call (CursorPosition (num ps 0) (num ps 1)));
    ([CsiActionCodes.DECSTBM_SetTopBottomMargins],
      call (SetTopBottomScrollingMargins (val ps 0) (val ps 1)));
    ([CsiActionCodes.DECSLRM_SetLeftRightMargins],
      call (SetLeftRightScrollingMargins (val ps 0) (val ps 1)));
    ([CsiActionCodes.ICH_InsertCharacter], call (InsertCharacter (num ps 0)));
    ([CsiActionCodes.DCH_DeleteCharacter], call (DeleteCharacter (num ps 0)));
    ([CsiActionCodes.ED_EraseDisplay], for_each ps (fun v => EraseInDisplay (as_enum v)));
    ([CsiActionCodes.DECSED_SelectiveEraseDisplay],
      for_each ps (fun v => SelectiveEraseInDisplay (as_enum v)));
    ([CsiActionCodes.EL_EraseLine], for_each ps (fun v => EraseInLine (as_enum v)));
    ([CsiActionCodes.DECSEL_SelectiveEraseLine],
      for_each ps (fun v => SelectiveEraseInLine (as_enum v)))].

Definition csi_mode_cases (ps : VTParameters) : list (list Z * act unit) :=
   [([CsiActionCodes.SM_SetMode], for_each ps (fun v => SetMode (ANSIStandardMode v)));
    ([CsiActionCodes.DECSET_PrivateModeSet],
      for_each ps (fun v => SetMode (DECPrivateMode v)));
    ([CsiActionCodes.RM_ResetMode], for_each ps (fun v => ResetMode (ANSIStandardMode v)));
    ([CsiActionCodes.DECRST_PrivateModeReset],
      for_each ps (fun v => ResetMode (DECPrivateMode v)));
    ([CsiActionCodes.SGR_SetGraphicsRendition], call (SetGraphicsRendition ps));
    ([CsiActionCodes.DSR_DeviceStatusReport],
      call (DeviceStatusReport (ANSIStandardStatus (param_at ps 0)) (param_at ps 1)));
    ([CsiActionCodes.DSR_PrivateDeviceStatusReport],
      call (DeviceStatusReport (DECPrivateStatus (param_at ps 0)) (param_at ps 1)));
    ([CsiActionCodes.DA_DeviceAttributes],
      if val ps 0 =? 0 then call DeviceAttributes else mret tt);
    ([CsiActionCodes.DA2_SecondaryDeviceAttributes],
      if val ps 0 =? 0 then call SecondaryDeviceAttributes else mret tt);
    ([CsiActionCodes.DA3_TertiaryDeviceAttributes],
      if val ps 0 =? 0 then call TertiaryDeviceAttributes else mret tt);
    ([CsiActionCodes.DECREQTPARM_RequestTerminalParameters],
      call (RequestTerminalParameters (sel ps 0)))].

Definition csi_page_cases (ps : VTParameters) : list (list Z * act unit) :=
   [([CsiActionCodes.SU_ScrollUp], call (ScrollUp (num ps 0)));
    ([CsiActionCodes.SD_ScrollDown], call (ScrollDown (num ps 0)));
    ([CsiActionCodes.NP_NextPage], call (NextPage (num ps 0)));
    ([CsiActionCodes.PP_PrecedingPage], call (PrecedingPage (num ps 0)));
    ([CsiActionCodes.ANSISYSRC_CursorRestore], call CursorRestoreState);
    ([CsiActionCodes.IL_InsertLine], call (InsertLine (num ps 0)));
    ([CsiActionCodes.DL_DeleteLine], call (DeleteLine (num ps 0)));
    ([CsiActionCodes.CHT_CursorForwardTab], call (ForwardTab (num ps 0)));
    ([CsiActionCodes.CBT_CursorBackTab], call (BackwardsTab (num ps 0)));
    ([CsiActionCodes.TBC_TabClear], for_each ps (fun v => TabClear (as_enum v)));
    ([CsiActionCodes.DECST8C_SetTabEvery8Columns], for_each ps (fun v => TabSet v));
    ([CsiActionCodes.ECH_EraseCharacters], call (EraseCharacters (num ps 0)));
    ([CsiActionCodes.DTTERM_WindowManipulation],
      call (WindowManipulation (sel ps 0) (param_at ps 1) (param_at ps 2)));
    ([CsiActionCodes.REP_RepeatCharacter], repeat_last (num ps 0));
    ([CsiActionCodes.PPA_PagePositionAbsolute], call (PagePositionAbsolute (num ps 0)));
    ([CsiActionCodes.PPR_PagePositionRelative], call (PagePositionRelative (num ps 0)));
    ([CsiActionCodes.PPB_PagePositionBack], call (PagePositionBack (num ps 0)))].

Definition csi_area_cases (ps : VTParameters) : list (list Z * act unit) :=
   [([CsiActionCodes.DECSCUSR_SetCursorStyle], call (SetCursorStyle (sel ps 0)));
    ([CsiActionCodes.DECSTR_SoftReset], call SoftReset);
    ([CsiActionCodes.DECSCA_SetCharacterProtectionAttribute],
      call (SetCharacterProtectionAttribute ps));
    ([CsiActionCodes.DECRQDE_RequestDisplayedExtent], call RequestDisplayedExtent);
    ([CsiActionCodes.XT_PushSgr; CsiActionCodes.XT_PushSgrAlias],
      call (PushGraphicsRendition ps));
    ([CsiActionCodes.XT_PopSgr; CsiActionCodes.XT_PopSgrAlias], call PopGraphicsRendition);
    ([CsiActionCodes.DECRQM_RequestMode], call (RequestMode (ANSIStandardMode (param_at ps 0))));
    ([CsiActionCodes.DECRQM_PrivateRequestMode],
      call (RequestMode (DECPrivateMode (param_at ps 0))));
    ([CsiActionCodes.DECCARA_ChangeAttributesRectangularArea],
      call (ChangeAttributesRectangularArea (num ps 0) (num ps 1) (val ps 2) (val ps 3)
        (params_subspan ps 4)));
    ([CsiActionCodes.DECRARA_ReverseAttributesRectangularArea],
      call (ReverseAttributesRectangularArea (num ps 0) (num ps 1) (val ps 2) (val ps 3)
        (params_subspan ps 4)));
    ([CsiActionCodes.DECCRA_CopyRectangularArea],
      call (CopyRectangularArea (num ps 0) (num ps 1) (val ps 2) (val ps 3) (num ps 4)
        (num ps 5) (num ps 6) (num ps 7)));
    ([CsiActionCodes.DECRQTSR_RequestTerminalStateReport],
      call (RequestTerminalStateReport (sel ps 0) (param_at ps 1)));
    ([CsiActionCodes.DECRQPSR_RequestPresentationStateReport],
      call (RequestPresentationStateReport (sel ps 0)));
    ([CsiActionCodes.DECFRA_FillRectangularArea],
      call (FillRectangularArea (param_at ps 0) (num ps 1) (num ps 2) (val ps 3) (val ps 4)));
    ([CsiActionCodes.DECERA_EraseRectangularArea],
      call (EraseRectangularArea (num ps 0) (num ps 1) (val ps 2) (val ps 3)));
    ([CsiActionCodes.DECSERA_SelectiveEraseRectangularArea],
      call (SelectiveEraseRectangularArea (num ps 0) (num ps 1) (val ps 2) (val ps 3)));
    ([CsiActionCodes.DECRQUPSS_RequestUserPreferenceSupplementalSet],
      call RequestUserPreferenceCharset);
    ([CsiActionCodes.DECIC_InsertColumn], call (InsertColumn (num ps 0)));
    ([CsiActionCodes.DECDC_DeleteColumn], call (DeleteColumn (num ps 0)));
    ([CsiActionCodes.DECSACE_SelectAttributeChangeExtent],
      call (SelectAttributeChangeExtent (sel ps 0)));
    ([CsiActionCodes.DECRQCRA_RequestChecksumRectangularArea],
      call (RequestChecksumRectangularArea (val ps 0) (val ps 1) (num ps 2) (num ps 3)
        (val ps 4) (val ps 5)));
    ([CsiActionCodes.DECINVM_InvokeMacro], call (InvokeMacro (val ps 0)));
    ([CsiActionCodes.DECAC_AssignColor], call (AssignColor (sel ps 0) (val ps 1) (val ps 2)));
    ([CsiActionCodes.DECPS_PlaySound], call (PlaySounds ps))].

Definition csi_cases (ps : VTParameters) : list (list Z * act unit) :=
  csi_cursor_cases ps ++ csi_mode_cases ps ++ csi_page_cases ps ++ csi_area_cases ps.

Definition output_CsiDispatch (id : Z) (ps : VTParameters) : act bool :=
  if hasSubParams ps && negb (_CanSeqAcceptSubParam id ps) then mret true
  else switch id (csi_cases ps) (mret tt) ;; _ClearLastChar ;; mret true.

(** ** Device control strings *)

Definition output_DcsDispatch (id : Z) (ps : VTParameters) : act (option H) :=
  handler ← switch id
   [([DcsActionCodes.SIXEL_DefineImage],
      call_string (DefineSixelImage (num ps 0) (sel ps 1) (param_at ps 2)));
    ([DcsActionCodes.DECDLD_DownloadDRCS],
      call_string (DownloadDRCS (num ps 0) (param_at ps 1) (sel ps 2) (sel ps 3) (sel ps 4)
        (sel ps 5) (param_at ps 6) (sel ps 7)));
    ([DcsActionCodes.DECAUPSS_AssignUserPreferenceSupplementalSet],
      call_string (AssignUserPreferenceCharset (sel ps 0)));
    ([DcsActionCodes.DECDMAC_DefineMacro],
      call_string (DefineMacro (val ps 0) (sel ps 1) (sel ps 2)));
    ([DcsActionCodes.DECRSTS_RestoreTerminalState], call_string (RestoreTerminalState (sel ps 0)));
    ([DcsActionCodes.DECRQSS_RequestSetting], call_string RequestSetting);
    ([DcsActionCodes.DECRSPS_RestorePresentationState],
      call_string (RestorePresentationState (sel ps 0)))]
   (mret None) ;
  _ClearLastChar ;; mret handler.

(** ** Operating system commands *)

(** What the calls for a colour table are: one per pair, in order. *)
Definition color_table_call (p : Z * Z) : Call :=
  if snd p =? COLOR_INQUIRY_COLOR then RequestColorTableEntry (fst p)
  else SetColorTableEntry (fst p) (snd p).

Fixpoint color_resource_calls (resource : Z) (colors : list Z) : list Call :=
  match colors with
  | [] => []
  | color :: colors =>
      (if color =? COLOR_INQUIRY_COLOR then [RequestXtermColorResource resource]
       else if negb (color =? INVALID_COLOR) then [SetXtermColorResource resource color]
       else []) ++ color_resource_calls (u64 (resource + 1)) colors
  end.

(** The loop over the indexes of OSC 104 stops at the first that is none. *)
Fixpoint reset_color_calls (parts : list (list Z)) : list Call :=
  match parts with
  | [] => []
  | c :: parts =>
      match parse_unsigned UINT64_MAX c 10 with
      | Some index => ResetColorTableEntry index :: reset_color_calls parts
      | None => []
      end
  end.

(** The content for the clipboard, and whether it is asked for. *)
Definition _GetOscSetClipboard (string : list Z) : option (list Z * bool) :=
  match find_char 0x3B string with
  | None => None
  | Some pos =>
      let sub := drop (S pos) string in
      if bool_decide (sub = wstr "?") then Some ([], true)
      else (fun content => (content, false)) <$> Decode u8u16 sub
  end.

(** The calls an operating system command makes. *)
Definition osc_calls (parameter : Z) (string : list Z) : list Call :=
  switch parameter
   [([OscActionCodes.SetIconAndWindowTitle; OscActionCodes.SetWindowIcon;
      OscActionCodes.SetWindowTitle; OscActionCodes.DECSWT_SetWindowTitle], [SetWindowTitle string]);
    ([OscActionCodes.SetColor],
      match _GetOscSetColorTable string with
      | Some pairs => map color_table_call pairs
      | None => []
      end);
    ([OscActionCodes.SetForegroundColor; OscActionCodes.SetBackgroundColor;
      OscActionCodes.SetCursorColor; OscActionCodes.SetHighlightColor],
      match _GetOscSetColor string with
      | Some colors => color_resource_calls parameter colors
      | None => []
      end);
    ([OscActionCodes.SetClipboard],
      match _GetOscSetClipboard string with
      | Some (content, false) => [SetClipboard content]
      | _ => []
      end);
    ([OscActionCodes.ResetColor],
      match string with
      | [] => [ResetColorTable]
      | _ => reset_color_calls (split_tokens string 0x3B)
      end);
    ([OscActionCodes.ResetForegroundColor; OscActionCodes.ResetBackgroundColor;
      OscActionCodes.ResetCursorColor; OscActionCodes.ResetHighlightColor],
      match string with
      | [] => [ResetXtermColorResource (u64 (parameter - 100))]
      | _ => []
      end);
    ([OscActionCodes.Hyperlink],
      match _ParseHyperlink string with
      | Some (params, uri) =>
          match uri with
          | [] => [EndHyperlink]
          | _ => [AddHyperlink uri params]
          end
      | None => []
      end);
    ([OscActionCodes.ConEmuAction], [DoConEmuAction string]);
    ([OscActionCodes.ITerm2Action], [DoITerm2Action string]);
    ([OscActionCodes.FinalTermAction], [DoFinalTermAction string]);
    ([OscActionCodes.VsCodeAction], [DoVsCodeAction string]);
    ([OscActionCodes.WTAction], [DoWTAction string])]
   [].

Definition output_OscDispatch (parameter : Z) (string : list Z) : act bool :=
  calls (osc_calls parameter string) ;; _ClearLastChar ;; mret true.

Definition output_Ss3Dispatch (wch : Z) (ps : VTParameters) : act bool :=
  _ClearLastChar ;; mret true.

(** ** The engine as the parser sees it *)

#[export] Instance OutputEngine : IStateMachineEngine E CB H := {|
  EncounteredWin32InputModeSequence _ := false;
  ActionExecute := output_Execute;
  ActionExecuteFromEscape := output_Execute;
  ActionPrint := output_Print;
  ActionPrintString := output_PrintString;
  ActionPassThroughString := output_PassThroughString;
  ActionEscDispatch := output_EscDispatch;
  ActionVt52EscDispatch := output_Vt52EscDispatch;
  ActionCsiDispatch := output_CsiDispatch;
  ActionDcsDispatch := output_DcsDispatch;
  ActionOscDispatch := output_OscDispatch;
  ActionSs3Dispatch := output_Ss3Dispatch;
  StringHandler_call h c e :=
    let '(d, more, requests) := handler_call h c (_dispatch e) in
    (e <| _dispatch := d |>, more, requests);
|}.
End Engine.
