(* ===== verification/OutputFacts.v ===== *)
(** * What the output engine delivers

    The parser ([StateMachine.v]) with the output engine ([OutputEngine.v])
    on top of any terminal that implements [ITermDispatch]: from the
    characters of a sequence to the methods that are called. *)

From S2P Require Import Prelude VTTypes StateMachine ParserFacts ParserSafety ParserRoundtrip.
From S2P Require Import ParserEquiv StringUtils Colors Base64.
From S2P Require Import TermDispatch ActionCodes OutputEngine.
#[local] Open Scope Z_scope.

(** ** What a terminal promises

    Printing a run of printable characters is printing each of them. *)

Class DispatchLaws (D CB H : Type) `{Disp : !ITermDispatch D CB H} : Prop := {
  dispatch_print_one c d :
    isActionableFromGround c = false -> dispatch (PrintString [c]) d = dispatch (Print c) d;
  dispatch_print_cons c s d :
    Forall (fun c => isActionableFromGround c = false) (c :: s) -> s <> [] ->
    let r1 := dispatch (Print c) d in
    let r2 := dispatch (PrintString s) (er_engine r1) in
    er_engine (dispatch (PrintString (c :: s)) d) = er_engine r2 /\
    er_requests (dispatch (PrintString (c :: s)) d) = er_requests r1 ++ er_requests r2;
}.

Section Output.
Context {D CB H : Type} `{Disp : !ITermDispatch D CB H}.
Variable u8u16 : list Z -> option (list Z).
Abbreviation E := (OutputStateMachineEngine D).
#[local] Instance Out : IStateMachineEngine E CB H := OutputEngine u8u16.

(** ** Actions *)

(** An action that ends in [return true] never returns [false]. *)
Lemma finished_accepts {R} (m : Act CB E R) (k : R -> Act CB E bool) e :
  (forall x e, accepts (k x e) false) -> accepts ((x ← m; k x) e) false.
Proof.
  intros Hk. unfold accepts, mbind, Act_bind. destruct (er_result (m e)); [|done].
  cbn. apply Hk.
Qed.

Ltac finish_accepts := repeat (apply finished_accepts; intros); done.

(** Running a list of calls: an exception skips the rest. *)
Fixpoint run_calls (cs : list Call) (d : D) : D :=
  match cs with
  | [] => d
  | c :: cs =>
      let r := dispatch c d in
      match er_result r with
      | Some _ => run_calls cs (er_engine r)
      | None => er_engine r
      end
  end.

Lemma calls_run cs (e : E) : _dispatch (er_engine (calls cs e)) = run_calls cs (_dispatch e).
Proof.
  revert e. induction cs as [|c cs IH]; intros e; [done|].
  cbn [calls run_calls]. unfold mbind, Act_bind, call at 1. cbn.
  destruct (er_result (dispatch c (_dispatch e))); [|done]. cbn. by rewrite IH.
Qed.

Lemma call_calls c : forall e : E,
  er_engine (call c e) = er_engine (calls [c] e) /\ er_result (call c e) = er_result (calls [c] e).
Proof.
  intros e. cbn. unfold mbind, Act_bind. cbn.
  by destruct (er_result (dispatch c (_dispatch e))) as [[]|].
Qed.

(** The tail every dispatcher ends with leaves the terminal alone. *)
Lemma tail_dispatch (m : Act CB E unit) (e : E) :
  let r := (m ;; _ClearLastChar ;; mret true) e in
  _dispatch (er_engine r) = _dispatch (er_engine (m e)) /\
  (er_result (m e) = Some tt -> _lastPrintedChar (er_engine r) = NUL).
Proof.
  cbn zeta. unfold mbind, Act_bind. destruct (er_result (m e)); by cbn.
Qed.

#[export] Instance output_laws : DispatchLaws D CB H -> EngineLaws E CB H.
Proof.
  intros Laws. split; intros; cbn [Out OutputEngine ActionExecute ActionExecuteFromEscape ActionPrint
    ActionPrintString ActionEscDispatch ActionVt52EscDispatch ActionCsiDispatch
    ActionOscDispatch ActionSs3Dispatch]; try finish_accepts.
  - destruct s; [done|]. finish_accepts.
  - unfold output_CsiDispatch. step_if; [done|]. finish_accepts.
  - assert (Hspc : Forall (fun x => (SPC <=? x) = true) (c :: s)).
    { eapply Forall_impl; [|eassumption]. intros x. unfold isActionableFromGround, SPC. lia. }
    assert (Hb : (SPC <=? back NUL (c :: s)) = true).
    { rewrite Forall_forall in Hspc. apply Hspc.
      destruct (exists_last (l := c :: s)) as (l & x & ->); [done|].
      rewrite back_snoc. apply in_or_app. right. by left. }
    subst r1 r2. apply Forall_cons_1 in Hspc as [Hc Hs].
    cbn [Out OutputEngine ActionPrint ActionPrintString]. unfold output_PrintString, output_Print.
    rewrite Hc. cbv zeta. rewrite Hb. destruct s as [|c' s].
    + unfold mbind, Act_bind, call. cbn. rewrite dispatch_print_one by (by inversion H0).
      by destruct (er_result _).
    + assert (Hb' : (SPC <=? back NUL (c' :: s)) = true) by exact Hb. rewrite Hb'.
      destruct (dispatch_print_cons c (c' :: s) (_dispatch e) H0 ltac:(done)) as [He Hr].
      unfold mbind, Act_bind, call. cbn.
      repeat case_match; cbn in *; rewrite ?He, ?Hr, ?app_nil_r; done.
Qed.

Abbreviation SM := (StateMachine E CB H).
Variable runCallback : CB -> SM -> SM.
#[local] Abbreviation Feed := (feed runCallback).

(** A parser that starts a sequence at the next ESC. *)
Definition ready (sm : SM) : Prop :=
  _state sm <> OscString /\ _state sm <> OscParam /\ _state sm <> DcsPassThrough /\
  _parserMode_Ansi sm = true.

(** The parameters of a sequence without sub parameters. *)
Definition plain (vs : list Z) : ParamGroups := map (fun v => (v, [])) vs.
Definition values_ok (vs : list Z) : Prop :=
  Z.of_nat (length vs) <= MAX_PARAMETER_COUNT /\ Forall param_value vs /\ vs <> [VTParameter_default].

Lemma plain_ok vs : values_ok vs -> groups_ok (plain vs) /\ plain vs <> [(VTParameter_default, [])].
Proof.
  intros (Hl & Hv & Hn). split.
  - split; [unfold plain; by rewrite length_map|]. apply List.Forall_map.
    eapply Forall_impl; [|exact Hv]. intros v ?. by repeat split.
  - intros He. apply Hn. destruct vs as [|v [|]]; [done| |done]. cbn in He. congruence.
Qed.

Lemma params_of_plain vs :
  vp_params (params_of (plain vs)) = vs /\ vp_subParams (params_of (plain vs)) = [].
Proof.
  unfold params_of, plain, subs_of. cbn. split; [by rewrite map_map, map_id|].
  induction vs; [done|]. by cbn.
Qed.

Lemma no_subs_plain vs : hasSubParams (params_of (plain vs)) = false.
Proof. unfold hasSubParams. by rewrite (proj2 (params_of_plain vs)). Qed.

Definition first_value (vs : list Z) : Z := match vs with [] => VTParameter_default | v :: _ => v end.

Lemma num_plain vs : num (params_of (plain vs)) 0 = Z.max 1 (first_value vs).
Proof.
  unfold num, param_at, as_VTInt. rewrite (proj1 (params_of_plain vs)).
  destruct vs as [|v vs]; cbn; [done|]. step_if; lia.
Qed.

(** The machine when a control sequence has been handed to the engine, and a
    callback it left behind is about to run. *)
Lemma csi_received marker gs inters f (sm : SM) :
  ready sm -> marker_ok marker -> groups_ok gs -> gs <> [(VTParameter_default, [])] ->
  Forall (fun c => _isIntermediate c = true) inters ->
  (length marker + length inters <= 6)%nat -> 0x40 <= f <= 0x7E ->
  let r := output_CsiDispatch (VTID_FromString (marker ++ inters ++ [f])) (params_of gs) (_engine sm) in
  exists sm1, Feed (csi_text marker gs inters f) sm = _ExecuteCsiCompleteCallback runCallback sm1 /\
    _state sm1 = Ground /\ _engine sm1 = er_engine r.
Proof.
  intros (R1 & R2 & R3 & R4) Hm Hg Hn Hi Hl Hf r.
  destruct (csi_decoded runCallback marker gs inters f sm) as (sm' & He & _ & _ & ->); try done.
  eexists. split; [reflexivity|]. split; [done|].
  rewrite safely_accepts by (unfold accepts; cbn; unfold output_CsiDispatch; step_if; [done|];
    finish_accepts).
  unfold _EnterGround. cbn [_engine setter]. change (_engine (?x <| _state := _ |>)) with (_engine x).
  subst r. rewrite <- He. cbn.
  match goal with |- _engine (apply_requests ?rs ?x) = _ => by rewrite (engine_apply_requests rs x) end.
Qed.

(** ** Commands with a count or a position

    The control sequences whose first parameter is a number: intermediates,
    final character and method. *)
Definition numeric_csi : list (list Z * Z * (Z -> Call)) :=
  [([], 0x41, CursorUp); ([], 0x42, CursorDown); ([], 0x43, CursorForward);
   ([], 0x44, CursorBackward); ([], 0x45, CursorNextLine); ([], 0x46, CursorPrevLine);
   ([], 0x47, CursorHorizontalPositionAbsolute); ([], 0x60, CursorHorizontalPositionAbsolute);
   ([], 0x64, VerticalLinePositionAbsolute); ([], 0x61, HorizontalPositionRelative);
   ([], 0x65, VerticalPositionRelative); ([], 0x40, InsertCharacter); ([], 0x50, DeleteCharacter);
   ([], 0x53, ScrollUp); ([], 0x54, ScrollDown); ([], 0x55, NextPage); ([], 0x56, PrecedingPage);
   ([], 0x4C, InsertLine); ([], 0x4D, DeleteLine); ([], 0x49, ForwardTab); ([], 0x5A, BackwardsTab);
   ([], 0x58, EraseCharacters); ([0x20], 0x50, PagePositionAbsolute);
   ([0x20], 0x51, PagePositionRelative); ([0x20], 0x52, PagePositionBack);
   ([0x27], 0x7D, InsertColumn); ([0x27], 0x7E, DeleteColumn)].

Lemma numeric_csi_entry inters f mk :
  In (inters, f, mk) numeric_csi ->
  Forall (fun c => _isIntermediate c = true) inters /\ (length inters <= 6)%nat /\
  0x40 <= f <= 0x7E /\
  forall ps, switch (VTID_FromString (inters ++ [f])) (csi_cases ps) (mret tt)
             = (call (mk (num ps 0)) : Act CB E unit).
Proof.
  intros Hin. unfold numeric_csi in Hin.
  repeat (destruct Hin as [Hin|Hin];
    [injection Hin as <- <- <-; split_and!; [repeat constructor|cbn; lia|lia|lia|reflexivity]|]).
  destruct Hin.
Qed.

(** C24: a numeric command, from its characters to the terminal.  Fed with
    ESC [, any parameters (missing ones included) and the intermediates and
    final character of a command of the table, the parser ends in the ground
    state having called that method of the terminal exactly once, with the
    first parameter, where 0 and a missing one count as 1; the character REP
    would repeat is forgotten unless the method threw. *)
Theorem numeric_delivered inters f mk vs (sm : SM) :
  In (inters, f, mk) numeric_csi -> ready sm -> values_ok vs ->
  let c := mk (Z.max 1 (first_value vs)) in
  let d := _dispatch (_engine sm) in
  exists sm1,
    Feed (csi_text [] (plain vs) inters f) sm = _ExecuteCsiCompleteCallback runCallback sm1 /\
    _state sm1 = Ground /\ _dispatch (_engine sm1) = er_engine (dispatch c d) /\
    (er_result (dispatch c d) = Some tt -> _lastPrintedChar (_engine sm1) = NUL).
Proof.
  intros Hin Hr Hv c d. destruct (numeric_csi_entry _ _ _ Hin) as (Hi & Hl & Hf & Hs).
  destruct (plain_ok vs Hv) as [Hg Hn].
  destruct (csi_received [] (plain vs) inters f sm) as (sm1 & -> & Hst & He); try done.
  { by split; [cbn; lia|]. }
  exists sm1. split_and!; [done|done|rewrite He..];
    unfold output_CsiDispatch; rewrite no_subs_plain; cbn [andb app]; rewrite Hs, num_plain;
    destruct (tail_dispatch (call c) (_engine sm)) as [Hd Hc]; [exact Hd|exact Hc].
Qed.

(** ** Commands that apply to every parameter

    Private marker, final character and the call for one parameter: erasing,
    modes and tab stops. *)
Definition multi_csi : list (list Z * Z * (Z -> Call)) :=
  [([], 0x4A, fun p => EraseInDisplay (Z.max 0 p));
   ([0x3F], 0x4A, fun p => SelectiveEraseInDisplay (Z.max 0 p));
   ([], 0x4B, fun p => EraseInLine (Z.max 0 p));
   ([0x3F], 0x4B, fun p => SelectiveEraseInLine (Z.max 0 p));
   ([], 0x68, fun p => SetMode (Z.max 1 p));
   ([0x3F], 0x68, fun p => SetMode (2 ^ 24 + Z.max 1 p));
   ([], 0x6C, fun p => ResetMode (Z.max 1 p));
   ([0x3F], 0x6C, fun p => ResetMode (2 ^ 24 + Z.max 1 p));
   ([], 0x67, fun p => TabClear (Z.max 0 p));
   ([0x3F], 0x57, fun p => TabSet p)].

Lemma DECPrivateMode_add p : param_value p -> DECPrivateMode p = 2 ^ 24 + Z.max 1 p.
Proof.
  intros Hp. unfold DECPrivateMode, FlaggedEnumValue, as_VTInt.
  assert (exists v, (if p <=? 0 then 1 else p) = v /\ Z.max 1 p = v /\ 0 <= v < 2 ^ 24) as (v & -> & -> & Hv).
  { exists (Z.max 1 p). unfold param_value, MAX_PARAMETER_VALUE in Hp. split; [step_if; lia|lia]. }
  rewrite Z.lor_comm. pose proof (Z.add_lor_land 0x1000000 v) as Ha.
  enough (Z.land 0x1000000 v = 0) by lia.
  apply Z.bits_inj'. intros n Hn. rewrite Z.land_spec, Z.bits_0.
  destruct (Z.eqb_spec n 24) as [->|Hne].
  - rewrite andb_comm. assert (Z.testbit v 24 = false) as ->; [|done].
    apply Z.testbit_false; [lia|]. by rewrite Z.div_small.
  - assert (Z.testbit 0x1000000 n = false) as ->; [|done].
    change 0x1000000 with (2 ^ 24). by apply Z.pow2_bits_false.
Qed.

Lemma ANSIStandardMode_max p : param_value p -> ANSIStandardMode p = Z.max 1 p.
Proof.
  intros _. unfold ANSIStandardMode, FlaggedEnumValue, as_VTInt. rewrite Z.lor_0_r. step_if; lia.
Qed.

Lemma as_enum_max p : param_value p -> as_enum p = Z.max 0 p.
Proof. intros _. unfold as_enum, value_or. step_if; lia. Qed.

Lemma multi_csi_entry marker f g :
  In (marker, f, g) multi_csi ->
  marker_ok marker /\ 0x40 <= f <= 0x7E /\ exists h, (forall p, param_value p -> h p = g p) /\
  forall ps, switch (VTID_FromString (marker ++ [f])) (csi_cases ps) (mret tt)
             = (for_each ps h : Act CB E unit).
Proof.
  intros Hin. unfold multi_csi in Hin.
  repeat (destruct Hin as [Hin|Hin];
    [injection Hin as <- <- <-; split; [by repeat constructor|]; split; [lia|];
     eexists; split; [|reflexivity]; intros p Hp; cbn beta;
     by rewrite ?DECPrivateMode_add, ?ANSIStandardMode_max, ?as_enum_max|]).
  destruct Hin.
Qed.

(** A sequence without parameters stands for one with a single missing one. *)
Definition given_values (vs : list Z) : list Z :=
  match vs with [] => [VTParameter_default] | _ => vs end.

Lemma params_list_plain vs : params_list (params_of (plain vs)) = given_values vs.
Proof. unfold params_list, given_values. rewrite (proj1 (params_of_plain vs)). by destruct vs. Qed.

Lemma given_values_ok vs : values_ok vs -> Forall param_value (given_values vs).
Proof. intros (_ & Hv & _). destruct vs; [|done]. repeat constructor. Qed.

(** Erasing, modes and tab stops, from the characters to the terminal.
    Such a command calls its method once for every parameter, in their
    order, up to the first call that throws; without parameters it calls it
    once with the default.  A missing erase type counts as 0, but a missing
    mode and mode 0 count as mode 1, in the private modes of ? too. *)
Theorem multi_delivered marker f g vs (sm : SM) :
  In (marker, f, g) multi_csi -> ready sm -> values_ok vs ->
  exists sm1,
    Feed (csi_text marker (plain vs) [] f) sm = _ExecuteCsiCompleteCallback runCallback sm1 /\
    _state sm1 = Ground /\
    _dispatch (_engine sm1) = run_calls (map g (given_values vs)) (_dispatch (_engine sm)).
Proof.
  intros Hin Hr Hv. destruct (multi_csi_entry _ _ _ Hin) as (Hm & Hf & h & Hh & Hs).
  destruct (plain_ok vs Hv) as [Hg Hn].
  destruct (csi_received marker (plain vs) [] f sm) as (sm1 & -> & Hst & He); try done.
  { destruct Hm as [Hl _]. cbn. lia. }
  exists sm1. split_and!; [done|done|]. rewrite He. unfold output_CsiDispatch.
  rewrite no_subs_plain. cbn [andb app]. rewrite Hs.
  destruct (tail_dispatch (for_each (params_of (plain vs)) h) (_engine sm)) as [-> _].
  unfold for_each. rewrite calls_run, params_list_plain. f_equal.
  apply map_ext_Forall. eapply Forall_impl; [|exact (given_values_ok vs Hv)]. exact Hh.
Qed.

(** ** Sequences the engine does not act on *)

(** The sequences that take sub parameters. *)
Definition takes_subparams : list (list Z) := [wstr "m"; wstr "$r"; wstr "$t"].

Lemma refuses_subparams s ps :
  Forall nonnull s -> (length s <= 7)%nat -> ~ In s takes_subparams ->
  _CanSeqAcceptSubParam (VTID_FromString s) ps = false.
Proof.
  intros Hn Hl Hs. unfold _CanSeqAcceptSubParam. cbn [switch existsb].
  assert (Hne : forall t, In t takes_subparams -> (VTID_FromString s =? VTID_FromString t) = false).
  { intros t Ht. apply Z.eqb_neq. intros He. apply Hs.
    rewrite (VTID_FromString_inj s t); [done|..|done]; try done;
      destruct Ht as [<-|[<-|[<-|[]]]]; cbn; try lia; repeat constructor; lia. }
  unfold CsiActionCodes.SGR_SetGraphicsRendition,
    CsiActionCodes.DECCARA_ChangeAttributesRectangularArea,
    CsiActionCodes.DECRARA_ReverseAttributesRectangularArea.
  rewrite (Hne (wstr "m")), (Hne (wstr "$r")), (Hne (wstr "$t")) by (cbn; tauto). done.
Qed.

Lemma switch_unknown {A} id (cases : list (list Z * A)) dflt :
  ~ In id (concat (map fst cases)) -> switch id cases dflt = dflt.
Proof.
  induction cases as [|[ls b] cases IH]; cbn; [done|]. rewrite in_app_iff. intros Hn.
  destruct (existsb (Z.eqb id) ls) eqn:Hx; [|apply IH; tauto].
  apply existsb_exists in Hx as (x & Hx & Heq%Z.eqb_eq). subst. tauto.
Qed.

(** The identifiers of the cases, which do not depend on the parameters. *)
Definition csi_known : list Z :=
  concat (map fst (csi_cases (D := D) (CB := CB) (H := H) (VTParameters_plain []))).

(** A control sequence that carries sub parameters where none are
    accepted does not reach the terminal and changes nothing at all, and
    neither does one that is not known, except that it ends a run of
    printed characters for REP. *)
Theorem inert_sequences marker gs inters f (sm : SM) :
  ready sm -> marker_ok marker -> groups_ok gs -> gs <> [(VTParameter_default, [])] ->
  Forall (fun c => _isIntermediate c = true) inters ->
  (length marker + length inters <= 6)%nat -> 0x40 <= f <= 0x7E ->
  exists sm1,
    Feed (csi_text marker gs inters f) sm = _ExecuteCsiCompleteCallback runCallback sm1 /\
    _state sm1 = Ground /\
    (subs_of gs <> [] -> ~ In (marker ++ inters ++ [f]) takes_subparams ->
      _engine sm1 = _engine sm) /\
    (~ In (VTID_FromString (marker ++ inters ++ [f])) csi_known -> subs_of gs = [] ->
      _engine sm1 = (_engine sm) <| _lastPrintedChar := NUL |>).
Proof.
  intros Hr Hm Hg Hn Hi Hl Hf.
  destruct (csi_received marker gs inters f sm) as (sm1 & Hfd & Hst & He); try done.
  exists sm1. split_and!; [done|done|intros Hsub Hno|intros Hno Hsub]; rewrite He; unfold output_CsiDispatch.
  - rewrite refuses_subparams; [| | |done].
    + unfold hasSubParams, params_of. cbn. by destruct (subs_of gs).
    + apply Forall_app. split; [|apply Forall_app; split; [|repeat constructor; lia]].
      * eapply Forall_impl; [|apply Hm]. intros c Hc. unfold nonnull. autounfold with chars in Hc. lia.
      * eapply Forall_impl; [|exact Hi]. intros c Hc. unfold nonnull. autounfold with chars in Hc. lia.
    + rewrite !length_app. cbn. lia.
  - unfold hasSubParams, params_of. cbn [vp_subParams]. rewrite Hsub. cbn [andb].
    rewrite switch_unknown by exact Hno. done.
Qed.

(** ** Repeating the last character *)

(** A call that neither throws nor asks the parser for anything. *)
Definition quiet (c : Call) : Prop :=
  forall d : D, er_result (dispatch c d) = Some tt /\ er_requests (dispatch c d) = [].

(** A parser between sequences, with no callback left. *)
Definition idle (sm : SM) : Prop :=
  _state sm = Ground /\ _parserMode_Ansi sm = true /\ _onCsiCompleteCallback sm = None.

Lemma idle_ready sm : idle sm -> ready sm.
Proof. intros (Hs & Ha & _). unfold ready. by rewrite Hs. Qed.

Lemma csi_idle marker gs inters f (sm : SM) :
  idle sm -> marker_ok marker -> groups_ok gs -> gs <> [(VTParameter_default, [])] ->
  Forall (fun c => _isIntermediate c = true) inters ->
  (length marker + length inters <= 6)%nat -> 0x40 <= f <= 0x7E ->
  let r := output_CsiDispatch (VTID_FromString (marker ++ inters ++ [f])) (params_of gs) (_engine sm) in
  er_requests r = [] ->
  idle (Feed (csi_text marker gs inters f) sm) /\
  _engine (Feed (csi_text marker gs inters f) sm) = er_engine r.
Proof.
  intros Hid Hm Hg Hn Hi Hl Hf r Hrq. destruct (idle_ready sm Hid) as (R1 & R2 & R3 & R4).
  destruct (csi_decoded runCallback marker gs inters f sm) as (sm' & He & Hcb & Han & ->); try done.
  destruct Hid as (_ & _ & Hcn). unfold seq_step.
  rewrite safely_accepts by (unfold accepts; cbn; unfold output_CsiDispatch; step_if; [done|];
    finish_accepts).
  rewrite He. change (ActionCsiDispatch ?i ?ps ?e) with (output_CsiDispatch i ps e). fold r.
  rewrite Hrq. unfold apply_requests, _EnterGround, _ExecuteCsiCompleteCallback. cbn.
  rewrite Hcb, Hcn. split; [|done]. split_and!; [done|exact Han|cbn; congruence].
Qed.

Lemma print_idle c (sm : SM) :
  (forall x, quiet (Print x)) -> idle sm -> isActionableFromGround c = false ->
  idle (ProcessCharacter runCallback c sm) /\
  _engine (ProcessCharacter runCallback c sm)
  = mkOutputEngine (er_engine (dispatch (Print c) (_dispatch (_engine sm)))) c.
Proof.
  intros Hq (Hs & Ha & Hcn) Hc. rewrite (print_step runCallback) by done.
  destruct (Hq c (_dispatch (_engine sm))) as [Hr Hrq].
  assert (Hspc : (SPC <=? c) = true) by (unfold isActionableFromGround, SPC in *; lia).
  assert (Hp : output_Print c (_engine sm)
    = mkEngineResult (mkOutputEngine (er_engine (dispatch (Print c) (_dispatch (_engine sm)))) c) (Some true) []).
  { unfold output_Print. rewrite Hspc. unfold mbind, Act_bind, call. cbn. rewrite Hr. cbn.
    rewrite Hrq. done. }
  unfold _ActionPrint. change (ActionPrint c) with (output_Print c : Act CB E bool).
  rewrite safely_accepts by (unfold accepts; by rewrite Hp). rewrite Hp. cbn. done.
Qed.

Lemma rep_dispatched n (e : E) :
  (forall s, quiet (PrintString s)) ->
  let r := output_CsiDispatch (VTID_FromString ([] ++ [] ++ [0x62])) (params_of (plain [n])) e in
  er_requests r = [] /\
  er_engine r = mkOutputEngine
    (if _lastPrintedChar e =? NUL then _dispatch e
     else er_engine (dispatch (PrintString (repeat (_lastPrintedChar e) (Z.to_nat (Z.max 1 n)))) (_dispatch e)))
    NUL.
Proof.
  intros Hq r. subst r. unfold output_CsiDispatch. rewrite no_subs_plain. cbn [andb].
  assert (Hs : switch (VTID_FromString ([] ++ [] ++ [0x62])) (csi_cases (params_of (plain [n]))) (mret tt)
    = (repeat_last (num (params_of (plain [n])) 0) : Act CB E unit)) by reflexivity.
  rewrite Hs, num_plain. cbn [first_value]. unfold repeat_last, mbind, Act_bind.
  destruct (_lastPrintedChar e =? NUL); cbn; [done|].
  destruct (Hq (repeat (_lastPrintedChar e) (Z.to_nat (Z.max 1 n))) (_dispatch e)) as [Hr Hrq].
  rewrite Hr, Hrq. done.
Qed.

(** REP repeats the character printed just before it, as often as its
    parameter says and at least once; a second REP prints nothing, since
    the first one is not a printed character. *)
Theorem repeat_character c n m (sm : SM) :
  (forall x, quiet (Print x)) -> (forall s, quiet (PrintString s)) ->
  idle sm -> isActionableFromGround c = false -> values_ok [n] -> values_ok [m] ->
  let rep k := csi_text [] (plain [k]) [] 0x62 in
  let printed := er_engine (dispatch (Print c) (_dispatch (_engine sm))) in
  _engine (Feed (c :: rep n ++ rep m) sm)
  = mkOutputEngine (er_engine (dispatch (PrintString (repeat c (Z.to_nat (Z.max 1 n)))) printed)) NUL.
Proof.
  intros Hp Hq Hid Hc Hn Hm rep printed. rewrite feed_cons, feed_app.
  destruct (print_idle c sm Hp Hid Hc) as [Hid1 He1].
  destruct (plain_ok [n] Hn) as [Gn Nn]. destruct (plain_ok [m] Hm) as [Gm Nm].
  destruct (rep_dispatched n (_engine (ProcessCharacter runCallback c sm)) Hq) as [Q1 R1].
  destruct (csi_idle [] (plain [n]) [] 0x62 _ Hid1 ltac:(by split; [cbn; lia|]) Gn Nn
    ltac:(done) ltac:(cbn; lia) ltac:(lia) Q1) as [Hid2 He2].
  destruct (rep_dispatched m (_engine (Feed (rep n) (ProcessCharacter runCallback c sm))) Hq) as [Q2 R2].
  destruct (csi_idle [] (plain [m]) [] 0x62 _ Hid2 ltac:(by split; [cbn; lia|]) Gm Nm
    ltac:(done) ltac:(cbn; lia) ltac:(lia) Q2) as [_ He3].
  unfold rep in *. rewrite He3, R2, He2, R1, He1. cbn [_lastPrintedChar _dispatch].
  assert ((c =? NUL) = false) as -> by (unfold isActionableFromGround, NUL in *; lia). done.
Qed.

(** ** Fragments *)

(** C23: how the output of an application is cut into writes makes no
    difference to the terminal.  The output engine keeps the promises the
    parser asks of an engine whenever the terminal prints a run of
    characters as it prints them one by one; so two ways of cutting the same
    text leave the same terminal and equivalent parsers. *)
Theorem output_chunking (Laws : DispatchLaws D CB H) chunks1 chunks2 (sm : SM) :
  (forall cb, respects (runCallback cb)) ->
  (forall cb sm, _isEngineForInput (runCallback cb sm) = _isEngineForInput sm) ->
  Forall (Forall wide) chunks1 -> Forall (Forall wide) chunks2 ->
  concat chunks1 = concat chunks2 -> _isEngineForInput sm = false ->
  let sm1 := ProcessStrings runCallback chunks1 sm in
  let sm2 := ProcessStrings runCallback chunks2 sm in
  sm1 ≈ sm2 /\ _dispatch (_engine sm1) = _dispatch (_engine sm2) /\ _state sm1 = _state sm2.
Proof.
  intros Hcb Hin H1 H2 Hc Hi. cbn zeta.
  destruct (ProcessStrings_feed runCallback Hcb Hin chunks1 sm H1 Hi) as [F1 _].
  destruct (ProcessStrings_feed runCallback Hcb Hin chunks2 sm H2 Hi) as [F2 _].
  assert (Heq : ProcessStrings runCallback chunks1 sm ≈ ProcessStrings runCallback chunks2 sm).
  { etransitivity; [exact F1|]. rewrite Hc. by symmetry. }
  split; [exact Heq|]. split.
  - exact (f_equal (fun x => _dispatch (_engine x)) Heq).
  - exact (f_equal _state Heq).
Qed.
End Output.

(** * Operating system commands, from the characters to the terminal

    The colour table (OSC 4), the clipboard (OSC 52) and hyperlinks (OSC 8):
    the text of the command is written with the reference encoders of the
    development, and the calls the terminal receives are stated in terms of
    what was written. *)


(** ** Texts *)

(** A character that is neither a C0 control, DEL nor a C1 control. *)
Definition graphic (c : Z) : Prop := 0x20 <= c /\ ~ (0x7F <= c <= 0x9F).

Lemma graphic_osc text : Forall graphic text -> Forall osc_char text /\ osc_kept text = text.
Proof.
  intros Hf. split.
  - eapply Forall_impl; [|exact Hf]. intros c [H1 H2].
    unfold osc_char, ordinary. autounfold with chars. lia.
  - induction Hf as [|c text [H1 H2] Hf IH]; [done|]. unfold osc_kept in *. cbn.
    assert (_isOscInvalid c = false) as -> by (autounfold with chars; lia). cbn. by rewrite IH.
Qed.

Lemma digits_graphic n : 0 <= n -> Forall graphic (digits n).
Proof.
  intros Hn. eapply Forall_impl; [|by apply digits_digit]. intros c.
  unfold is_digit, graphic. autounfold with chars. lia.
Qed.

Lemma join_Forall (P : Z -> Prop) d parts : P d -> Forall (Forall P) parts -> Forall P (join d parts).
Proof.
  intros Hd. induction 1 as [|p ps Hp Hps IH]; [constructor|]. cbn.
  destruct ps; [done|]. apply Forall_app. split; [done|]. by constructor.
Qed.

Lemma SplitString_join d parts :
  join d parts <> [] -> Forall (fun p => d ∉ p) parts -> SplitString (join d parts) d = parts.
Proof.
  intros Hne Hf. rewrite SplitString_ref. destruct (join d parts) eqn:Hj; [done|].
  rewrite <- Hj. apply split_on_join; [|done]. by intros ->.
Qed.

Lemma find_char_app d s t : d ∉ s -> find_char d (s ++ d :: t) = Some (length s).
Proof.
  unfold find_char. induction s as [|c s IH]; cbn; [by rewrite Z.eqb_refl|].
  rewrite not_elem_of_cons. intros [Hc Hs]. assert ((c =? d) = false) as -> by lia.
  by rewrite IH.
Qed.

(** ** Colours

    An entry of OSC 4 is an index with three components, or with a question
    mark. *)

Definition ColorEntry : Type := Z * option (list Z * list Z * list Z).

Definition entry_spec (e : ColorEntry) : list Z :=
  match snd e with
  | Some (r, g, b) => wstr "rgb:" ++ r ++ wstr "/" ++ g ++ wstr "/" ++ b
  | None => wstr "?"
  end.

Definition entry_ok (e : ColorEntry) : Prop :=
  0 <= fst e <= MAX_PARAMETER_VALUE /\
  match snd e with
  | Some (r, g, b) => Forall (fun ds => Forall hex_digit ds /\ (1 <= length ds <= 4)%nat) [r; g; b]
  | None => True
  end.

Definition entry_parts (e : ColorEntry) : list (list Z) := [digits (fst e); entry_spec e].

(** The call an entry stands for, the colour as 0x00BBGGRR. *)
Definition entry_call (e : ColorEntry) : Call :=
  match snd e with
  | Some (r, g, b) =>
      SetColorTableEntry (fst e)
        (component_value false r + 256 * component_value false g + 65536 * component_value false b)
  | None => RequestColorTableEntry (fst e)
  end.

Lemma StringToUint_digits n : 0 <= n <= MAX_PARAMETER_VALUE -> StringToUint (digits n) = Some n.
Proof.
  unfold MAX_PARAMETER_VALUE. intros Hn. unfold StringToUint.
  assert (Hs : StringToUint_loop 0 (digits n) = Some n).
  { change 0 with (u32 0). rewrite StringToUint_loop_spec by lia.
    assert (forallb _isNumber (digits n) = true) as ->.
    { apply forallb_forall. apply Forall_forall. apply digits_digit. lia. }
    change (fold_left _ (digits n) 0) with (decimal (digits n)).
    rewrite digits_decimal by lia. by rewrite u32_small by lia. }
  pose proof (digits_ne n). by destruct (digits n).
Qed.

Lemma hex_graphic c : hex_digit c -> graphic c /\ c <> 0x3B.
Proof.
  intros [v Hv]. unfold HexToUint, graphic in *. repeat case_match; simplify_eq; lia.
Qed.

Lemma entry_parts_text e :
  entry_ok e -> Forall (fun p => Forall graphic p /\ 0x3B ∉ p) (entry_parts e).
Proof.
  destruct e as [n spec]. intros [Hn Hs]. cbn [fst snd] in *. repeat constructor.
  - apply digits_graphic. cbn. lia.
  - cbn. intros Hin. pose proof (digits_digit n ltac:(lia)) as Hd. rewrite Forall_forall in Hd.
    apply list_elem_of_In in Hin. specialize (Hd _ Hin). done.
  - unfold entry_spec. cbn. destruct spec as [[[r g] b]|]; [|apply Forall_singleton; unfold graphic, wchar; cbn; lia].
    apply Forall_cons_1 in Hs as [[Hr _] [[Hg _] [[Hb _] _]%Forall_cons_1]%Forall_cons_1].
    assert (Hh : forall ds, Forall hex_digit ds -> Forall graphic ds)
      by (intros ds Hds; eapply Forall_impl; [|exact Hds]; intros c Hc; by apply hex_graphic).
    repeat first [apply Forall_app; split; [by apply Hh|] | by apply Hh
                 | constructor; [unfold graphic, wchar; cbn; lia|]].
  - unfold entry_spec. cbn. destruct spec as [[[r g] b]|]; [|intros Hin; apply list_elem_of_singleton in Hin; discriminate].
    apply Forall_cons_1 in Hs as [[Hr _] [[Hg _] [[Hb _] _]%Forall_cons_1]%Forall_cons_1].
    assert (Hh : forall ds, Forall hex_digit ds -> 0x3B ∉ ds).
    { intros ds Hds Hin. rewrite Forall_forall in Hds. apply list_elem_of_In in Hin.
      by destruct (hex_graphic _ (Hds _ Hin)). }
    repeat (rewrite ?not_elem_of_cons, ?not_elem_of_app); repeat split; first [by apply Hh | intros Hx; vm_compute in Hx; discriminate].
Qed.

Lemma COLORREF_rgb r g b :
  0 <= r < 256 -> 0 <= g < 256 -> 0 <= b < 256 ->
  COLORREF_of_color (rgb r g b) = r + 256 * g + 65536 * b.
Proof.
  intros. unfold COLORREF_of_color, abgr, rgb. cbn [color_r color_g color_b color_a].
  change 0x00FFFFFF with (Z.ones 24). rewrite Z.land_ones by lia.
  symmetry. apply (Z.mod_unique _ _ 255); lia.
Qed.

(** ** Base64 text *)

Lemma encode6_char url n : 0 <= n -> graphic (encode6 url n) /\ encode6 url n <> 0x3F.
Proof. intros Hn. unfold encode6, graphic. destruct url; repeat case_match; lia. Qed.

Lemma encode64_chars url bs :
  bytes bs -> Forall (fun c => graphic c /\ c <> 0x3F) (encode64 url bs).
Proof.
  revert bs. fix IH 1. intros [|b0 [|b1 [|b2 bs]]] Hb.
  - constructor.
  - apply Forall_cons_1 in Hb as [H0 _].
    repeat constructor; apply encode6_char; Z.div_mod_to_equations; lia.
  - apply Forall_cons_1 in Hb as [H0 [H1 _]%Forall_cons_1].
    repeat constructor; apply encode6_char; Z.div_mod_to_equations; lia.
  - apply Forall_cons_1 in Hb as [H0 [H1 [H2 Hb]%Forall_cons_1]%Forall_cons_1].
    cbn [encode64]. apply Forall_app. split; [|by apply IH].
    repeat constructor; apply encode6_char; Z.div_mod_to_equations; lia.
Qed.

Lemma base64_text url pad bs :
  bytes bs ->
  let text := encode64 url bs ++ repeat EQUALS pad in Forall graphic text /\ text <> wstr "?".
Proof.
  intros Hb text. assert (Hf : Forall (fun c => graphic c /\ c <> 0x3F) text).
  { apply Forall_app. split; [by apply encode64_chars|]. apply Forall_forall.
    intros c Hc. apply repeat_spec in Hc as ->. unfold graphic, EQUALS. lia. }
  split; [eapply Forall_impl; [|exact Hf]; by intros ? []|].
  intros Heq. rewrite Heq in Hf. apply Forall_cons_1 in Hf as [[_ Hc] _]. by apply Hc.
Qed.

(** ** Hyperlink parameters

    Key and value of each; [id] is the only key with a meaning. *)

Definition link_part (p : list Z * list Z) : list Z := fst p ++ wstr "=" ++ snd p.

(** [needle] occurs in [s]. *)
Definition occurs (needle s : list Z) : Prop := exists a b, s = a ++ needle ++ b.

Definition link_part_ok (p : list Z * list Z) : Prop :=
  Forall graphic (link_part p) /\ (0x3A ∉ link_part p) /\ (0x3B ∉ link_part p) /\
  (fst p = wstr "id" \/ ~ occurs (wstr "id=") (link_part p)).

(** The value of the last [id]. *)
Fixpoint link_id (params : list Z) (ps : list (list Z * list Z)) : list Z :=
  match ps with
  | [] => params
  | (k, v) :: ps => link_id (if bool_decide (k = wstr "id") then v else params) ps
  end.

Lemma find_sub_none needle s : ~ occurs needle s -> find_sub needle s = None.
Proof.
  induction s as [|c s IH]; intros Hn; cbn [find_sub].
  - rewrite bool_decide_eq_false_2; [done|]. intros Ht. apply Hn. exists [], [].
    rewrite app_nil_r. rewrite take_nil in Ht. done.
  - rewrite bool_decide_eq_false_2.
    + rewrite IH; [done|]. intros (a & b & ->). apply Hn. by exists (c :: a), b.
    + intros Ht. apply Hn. exists [], (drop (length needle) (c :: s)). rewrite <- Ht at 1.
      symmetry. apply take_drop.
Qed.

Lemma hyperlink_id_parts params ps :
  Forall link_part_ok ps -> hyperlink_id params (map link_part ps) = link_id params ps.
Proof.
  intros Hf. revert params. induction Hf as [|[k v] ps (_ & _ & _ & Hk) Hf IH]; intros params; [done|].
  cbn [map hyperlink_id link_id]. cbn [fst] in Hk. destruct (decide (k = wstr "id")) as [->|Hne].
  - rewrite bool_decide_eq_true_2 by done. rewrite <- IH. done.
  - destruct Hk as [Hk|Hk]; [done|]. rewrite bool_decide_eq_false_2 by done.
    rewrite find_sub_none by exact Hk. apply IH.
Qed.

Lemma drop_S_app (s : list Z) c t : drop (S (length s)) (s ++ c :: t) = t.
Proof. rewrite cons_middle, app_assoc. apply drop_app_length'. rewrite length_app. cbn. lia. Qed.

Lemma hyperlink_parsed ps uri :
  Forall link_part_ok ps -> 0x3B ∉ join 0x3A (map link_part ps) ->
  Z.of_nat (length uri) <= MAX_URL_LENGTH ->
  let text := join 0x3A (map link_part ps) ++ 0x3B :: uri in
  _ParseHyperlink text = Some (link_id [] ps, uri) \/
  uri = [] /\ exists q, _ParseHyperlink text = Some (q, uri).
Proof.
  intros Hps Hj Hl text. unfold text, _ParseHyperlink. set (j := join 0x3A (map link_part ps)) in *.
  case_bool_decide as Hs.
  - destruct j as [|? j]; [|by destruct j]. cbn in Hs. injection Hs as ->. right. split; [done|]. by exists [].
  - left. rewrite find_char_app, drop_S_app, take_app_length by done.
    rewrite Z.min_r, Nat2Z.id, firstn_all by done. f_equal. f_equal.
    assert (SplitString j 0x3A = map link_part ps) as ->; [|by apply hyperlink_id_parts].
    destruct ps as [|p ps]; [done|]. apply SplitString_join.
    + cbn. destruct p as [[|c k] v]; destruct (map link_part ps); done.
    + apply List.Forall_map. eapply Forall_impl; [|exact Hps]. by intros q (_ & ? & _).
Qed.

Section Osc.
Context {D CB H : Type} `{Disp : !ITermDispatch D CB H}.
Variable u8u16 : list Z -> option (list Z).
Abbreviation E := (OutputStateMachineEngine D).
#[local] Instance OutOsc : IStateMachineEngine E CB H := OutputEngine u8u16.
Abbreviation SM := (StateMachine E CB H).
Variable runCallback : CB -> SM -> SM.
#[local] Abbreviation Feed := (feed runCallback).

Lemma osc_received n text term (sm : SM) :
  ready sm -> 0 <= n <= MAX_PARAMETER_VALUE -> Forall graphic text -> In term osc_terminators ->
  let sm1 := Feed (osc_text n text term) sm in
  _state sm1 = Ground /\
  _dispatch (_engine sm1) = run_calls (osc_calls u8u16 n text) (_dispatch (_engine sm)).
Proof.
  intros (R1 & R2 & R3 & R4) Hn Ht Hterm. destruct (graphic_osc text Ht) as [Hc Hk]. cbn zeta.
  destruct (osc_decoded runCallback n text term sm) as (sm' & He & ->); try done.
  split; [done|]. rewrite Hk. unfold seq_step, _EnterGround. cbn [_engine setter].
  set (act := ActionOscDispatch n text).
  rewrite safely_accepts by (unfold accepts; cbn; repeat (apply finished_accepts; intros); done).
  change (_engine (?x <| _state := _ |> <| _cachedSequence := _ |>)) with (_engine x).
  rewrite engine_apply_requests. cbn [_engine setter].
  change (_engine (?x <| _engine := ?y |>)) with y. rewrite He.
  change (act ?e) with (output_OscDispatch u8u16 n text e). unfold output_OscDispatch.
  destruct (tail_dispatch (calls (osc_calls u8u16 n text)) (_engine sm)) as [-> _].
  by rewrite calls_run.
Qed.

(** One pair of parts of OSC 4, after the text has been split. *)
Lemma color_pairs_entries es :
  Forall entry_ok es ->
  map color_table_call (color_pairs (concat (map entry_parts es))) = map entry_call es.
Proof.
  induction 1 as [|[n spec] es [Hn Hs] Hes IH]; [done|]. cbn [fst snd] in Hn, Hs.
  cbn [map concat]. change (entry_parts (n, spec)) with [digits n; entry_spec (n, spec)].
  cbn [app color_pairs]. rewrite StringToUint_digits by done. rewrite map_app, IH.
  change (entry_call (n, spec) :: ?l) with ([entry_call (n, spec)] ++ l). f_equal.
  destruct spec as [[[r g] b]|]; [|done].
  apply Forall_cons_1 in Hs as [[Hr Lr] [[Hg Lg] [[Hb Lb] _]%Forall_cons_1]%Forall_cons_1].
  change (entry_spec (n, Some (r, g, b))) with (wstr "rgb:" ++ r ++ wstr "/" ++ g ++ wstr "/" ++ b).
  rewrite bool_decide_eq_false_2 by done.
  unfold ColorFromXTermColor. rewrite rgb_spec_parsed by (done || by left).
  pose proof (proj2 (component_scaled false r Hr Lr)). pose proof (proj2 (component_scaled false g Hg Lg)).
  pose proof (proj2 (component_scaled false b Hb Lb)). rewrite COLORREF_rgb by done.
  unfold color_table_call, entry_call, COLOR_INQUIRY_COLOR. cbn [map fst snd].
  by destruct (Z.eqb_spec (component_value false r + 256 * component_value false g
    + 65536 * component_value false b) 0xfeffffff); [lia|].
Qed.

(** OSC 4, from its characters to the terminal.  A list of palette
    indexes with colours in the [rgb:] format or with question marks, joined
    by semicolons, becomes exactly one call per index, in order: setting the
    entry to the colour that was written, or asking for it. *)
Theorem color_table_delivered es term (sm : SM) :
  es <> [] -> Forall entry_ok es -> ready sm -> In term osc_terminators ->
  let text := join 0x3B (concat (map entry_parts es)) in
  _state (Feed (osc_text 4 text term) sm) = Ground /\
  _dispatch (_engine (Feed (osc_text 4 text term) sm))
  = run_calls (map entry_call es) (_dispatch (_engine sm)).
Proof.
  intros Hne He Hr Ht text. unfold text.
  assert (Hp : Forall (fun p => Forall graphic p /\ 0x3B ∉ p) (concat (map entry_parts es))).
  { apply Forall_concat. apply List.Forall_map. eapply Forall_impl; [|exact He]. apply entry_parts_text. }
  assert (Hg : Forall graphic (join 0x3B (concat (map entry_parts es)))).
  { apply join_Forall; [unfold graphic; lia|]. eapply Forall_impl; [|exact Hp]. by intros ? []. }
  destruct (osc_received 4 _ term sm Hr ltac:(vm_compute; split; congruence) Hg Ht) as [Hst Hd].
  split; [exact Hst|]. rewrite Hd. f_equal.
  unfold osc_calls. cbn [switch existsb]. cbn. unfold _GetOscSetColorTable.
  rewrite SplitString_join.
  - destruct es as [|e es]; [done|]. rewrite <- color_pairs_entries by done.
    cbn [map concat entry_parts app length Nat.ltb Nat.leb].
    by destruct (color_pairs _).
  - destruct es as [|e es]; [done|]. cbn [map concat entry_parts app join]. by intros [_ ?]%app_eq_nil.
  - eapply Forall_impl; [|exact Hp]. by intros ? [].
Qed.

(** OSC 52, from its characters to the terminal.  The base64 encoding
    of some bytes, in either alphabet, with or without padding, after any
    selection parameter, sets the clipboard to the text those bytes are the
    UTF-8 encoding of, and does nothing when they are not the encoding of
    any text. *)
Theorem clipboard_delivered pc url pad bs term (sm : SM) :
  Forall graphic pc -> 0x3B ∉ pc -> bytes bs -> (last_chars bs + pad <= 5)%nat ->
  ready sm -> In term osc_terminators ->
  let text := pc ++ 0x3B :: encode64 url bs ++ repeat EQUALS pad in
  _state (Feed (osc_text 52 text term) sm) = Ground /\
  _dispatch (_engine (Feed (osc_text 52 text term) sm))
  = match u8u16 bs with
    | Some content => er_engine (dispatch (SetClipboard content) (_dispatch (_engine sm)))
    | None => _dispatch (_engine sm)
    end.
Proof.
  intros Hg Hp Hb Hl Hr Ht text. unfold text.
  destruct (base64_text url pad bs Hb) as [Hg64 Hq]. set (src := encode64 url bs ++ repeat EQUALS pad) in *.
  assert (Hgt : Forall graphic (pc ++ 0x3B :: src)).
  { apply Forall_app. split; [done|]. constructor; [unfold graphic; lia|done]. }
  destruct (osc_received 52 _ term sm Hr ltac:(vm_compute; split; congruence) Hgt Ht) as [Hst Hd].
  split; [exact Hst|]. rewrite Hd.
  assert (Hdec : Decode u8u16 src = u8u16 bs).
  { unfold Decode. assert (DecodeBytes src = Some bs) as ->; [|done].
    apply (decode_run url pad bs 0 [] (length src) (length src) Hb Hl); [lia|done|done]. }
  unfold osc_calls. cbn [switch existsb]. cbn. unfold _GetOscSetClipboard.
  rewrite find_char_app, drop_S_app by done.
  rewrite bool_decide_eq_false_2, Hdec by done.
  destruct (u8u16 bs) as [content|]; cbn; [|done]. by destruct (er_result _).
Qed.

(** OSC 8, from its characters to the terminal.  A list of key=value
    parameters joined by colons, a semicolon and a URI, which may itself
    contain semicolons, starts a hyperlink to that URI with the value of the
    last id parameter, or none; an empty URI ends the hyperlink.  Keys and
    values must not contain [id=] other than as the key [id]: any key that
    ends in it is taken for an id. *)
Theorem hyperlink_delivered ps uri term (sm : SM) :
  Forall link_part_ok ps -> Forall graphic uri -> Z.of_nat (length uri) <= MAX_URL_LENGTH ->
  ready sm -> In term osc_terminators ->
  let text := join 0x3A (map link_part ps) ++ 0x3B :: uri in
  _state (Feed (osc_text 8 text term) sm) = Ground /\
  _dispatch (_engine (Feed (osc_text 8 text term) sm))
  = er_engine (dispatch (match uri with [] => EndHyperlink | _ => AddHyperlink uri (link_id [] ps) end)
                (_dispatch (_engine sm))).
Proof.
  intros Hps Hu Hl Hr Ht text. unfold text.
  assert (Hjg : Forall graphic (join 0x3A (map link_part ps))).
  { apply join_Forall; [unfold graphic; lia|]. apply List.Forall_map.
    eapply Forall_impl; [|exact Hps]. by intros p (? & _). }
  assert (Hjs : 0x3B ∉ join 0x3A (map link_part ps)).
  { intros Hin. assert (Hf : Forall (fun c => c <> 0x3B) (join 0x3A (map link_part ps))).
    { apply join_Forall; [lia|]. apply List.Forall_map. eapply Forall_impl; [|exact Hps].
      intros p (_ & _ & Hp & _). apply Forall_forall. intros c Hc ->. by apply Hp, list_elem_of_In. }
    rewrite Forall_forall in Hf. by apply (Hf 0x3B); [apply list_elem_of_In|]. }
  assert (Hgt : Forall graphic (join 0x3A (map link_part ps) ++ 0x3B :: uri)).
  { apply Forall_app. split; [done|]. constructor; [unfold graphic; lia|done]. }
  destruct (osc_received 8 _ term sm Hr ltac:(vm_compute; split; congruence) Hgt Ht) as [Hst Hd].
  split; [exact Hst|]. rewrite Hd.
  assert (Hh : _ParseHyperlink (join 0x3A (map link_part ps) ++ 0x3B :: uri) = Some (link_id [] ps, uri)
    \/ uri = [] /\ exists q, _ParseHyperlink (join 0x3A (map link_part ps) ++ 0x3B :: uri) = Some (q, uri)).
  { by apply hyperlink_parsed. }
  unfold osc_calls. cbn [switch existsb]. cbn.
  destruct Hh as [-> |[-> [q ->]]]; [destruct uri|]; cbn; by destruct (er_result _).
Qed.
End Osc.
