(* ===== verification/OutputWitness.v ===== *)
(** * The utilities and the macro buffer at work

    The theorems about strings, colours, base64 and macros that have
    hypotheses, applied to concrete input; then the output engine with a
    recording terminal and with one that has macros, and its theorems. *)

From stdpp Require Import finite.
From S2P Require Import Prelude VTTypes StateMachine StringUtils Colors Base64.
From S2P Require Import MacroBuffer.
#[local] Open Scope Z_scope.

Lemma parse_u64_exact_witness :
  parse_u64 (wstr "18446744073709551615") 10 = Some (2 ^ 64 - 1) /\
  parse_u64 (wstr "18446744073709551616") 10 = None.
Proof.
  split; rewrite (parse_u64_exact 10) by (first [lia|repeat constructor; vm_compute; congruence]); reflexivity.
Defined.

Lemma trim_paste_witness :
  TrimPaste (wstr "  ") = [] /\ TrimPaste (wstr "ls -l" ++ wstr "  ") = wstr "ls -l".
Proof. apply (trim_paste (wstr "ls -") 0x6C (wstr "  ")); reflexivity. Defined.

Lemma color_spec_parsed_witness :
  ColorFromXParseColorSpec (wstr "rgb:f/80/00") = Some (rgb 255 128 0).
Proof.
  destruct (color_spec_parsed (wstr "f") (wstr "80") (wstr "00")) as [Hp _].
  - repeat constructor; eexists; reflexivity.
  - cbn. lia.
  - cbn. lia.
  - cbn. lia.
  - exact (Hp (wstr "rgb:") (or_introl eq_refl)).
Defined.

Lemma rgb100_roundtrip_witness : ColorToRGB100 (ColorFromRGB100 33 100 (-5)) = (33, 100, 100).
Proof. apply (rgb100_roundtrip 33 100 (-5)); lia. Defined.

Lemma base64_roundtrip_witness :
  DecodeBytes (wstr "aGk=") = Some [0x68; 0x69].
Proof.
  apply (base64_roundtrip false 1 [0x68; 0x69]).
  - repeat constructor; lia.
  - cbn. lia.
Defined.

(** A buffer in which macro 3 is being defined as plain text. *)
Definition defining : MacroBuffer := fst (InitParser 3 DeleteId EncodingText new_MacroBuffer).
Definition defined : MacroBuffer := fst (ParseDefinition 0x41 defining).

Lemma macro_space_exact_witness :
  length (_macros defined) = MACRO_COUNT /\ _spaceUsed defined = total (_macros defined) /\
  GetSpaceAvailable defined = MAX_SPACE - 1.
Proof.
  destruct (macro_space_exact true defined) as (H1 & H2 & H3 & _).
  - apply (reach_step (true, defining)); [|by apply (step_char defining 0x41)].
    apply (reach_step (false, new_MacroBuffer)); [apply reach_new|].
    apply (step_define false new_MacroBuffer 3 DeleteId EncodingText); [lia|reflexivity].
  - split; [exact H1|]. split; [exact H2|exact H3].
Defined.

Lemma macro_definition_witness :
  exists m1 m2,
    InitParser 5 DeleteId EncodingHexPair new_MacroBuffer = (m1, true) /\
    parse_all (encode_items [Literal [0x41]; Repeat 3 [0x62]]) m1 = (m2, true) /\
    ParseDefinition ESC m2 = (m2, false) /\
    _macros m2 = <[5%nat := wstr "Abbb"]> (_macros new_MacroBuffer).
Proof.
  apply (macro_definition false new_MacroBuffer 5 [Literal [0x41]; Repeat 3 [0x62]]).
  - apply reach_new.
  - lia.
  - reflexivity.
  - constructor; [|constructor; [|constructor]].
    + constructor; [lia|constructor].
    + split; [unfold MAX_PARAMETER_VALUE; lia|]. constructor; [lia|constructor].
  - vm_compute. congruence.
Defined.

(** * Properties of the terminal the output engine keeps

    The parser's results about nested macros ([ParserMacros.v]) ask of an
    engine that its operations keep a property, the nesting depth of the
    macro buffer.  Here the output engine is shown to keep every property
    its terminal keeps, and a terminal with a macro buffer, with the
    [DefineMacro] and [InvokeMacro] of
    [src/src/terminal/adapter/adaptDispatch.cpp], is put under it. *)

From S2P Require Import ParserFacts ParserMacros.
From S2P Require Import TermDispatch ActionCodes OutputEngine.

Section Keeps.
Context {D CB H : Type} `{Disp : !ITermDispatch D CB H}.
Variable u8u16 : list Z -> option (list Z).
Abbreviation E := (OutputStateMachineEngine D).
#[local] Instance OutKeeps : IStateMachineEngine E CB H := OutputEngine u8u16.

Variable P : D -> Prop.

(** The terminal keeps [P]. *)
Class DispatchKeeps : Prop := {
  keeps_dispatch c d : P d -> P (er_engine (dispatch c d));
  keeps_string c d : P d -> P (er_engine (dispatch_string c d));
  keeps_handler h c d : P d -> P (fst (fst (handler_call h c d)));
}.
Context {Keeps : DispatchKeeps}.

Definition keeps {R} (m : Act CB E R) : Prop :=
  forall e, P (_dispatch e) -> P (_dispatch (er_engine (m e))).

Lemma keeps_ret {R} (x : R) : keeps (mret x).
Proof. by intros e. Qed.

Lemma keeps_bind {R S} (m : Act CB E R) (f : R -> Act CB E S) :
  keeps m -> (forall x, keeps (f x)) -> keeps (m ≫= f).
Proof.
  intros Hm Hf e He. unfold mbind, Act_bind. destruct (er_result (m e)) as [x|]; cbn; [|by apply Hm].
  by apply Hf, Hm.
Qed.

Lemma keeps_call c : keeps (call c).
Proof. intros e He. by apply keeps_dispatch. Qed.

Lemma keeps_call_string c : keeps (call_string c).
Proof. intros e He. by apply keeps_string. Qed.

Lemma keeps_set_last c : keeps (set_last c).
Proof. by intros e. Qed.

Lemma keeps_calls cs : keeps (calls cs).
Proof.
  induction cs; cbn; [apply keeps_ret|]. apply keeps_bind; [apply keeps_call|by intros].
Qed.

Lemma keeps_repeat_last n : keeps (repeat_last n).
Proof. intros e He. unfold repeat_last. step_if; [by apply keeps_call|done]. Qed.

Lemma keeps_switch {R} id (cases : list (list Z * Act CB E R)) dflt :
  Forall (fun c => keeps (snd c)) cases -> keeps dflt -> keeps (switch id cases dflt).
Proof. intros Hc Hd. induction Hc as [|[ls m] cases Hm Hc IH]; cbn; [done|]. by step_if. Qed.

#[local] Hint Resolve @keeps_ret keeps_call keeps_call_string keeps_set_last keeps_calls
  keeps_repeat_last : term.

Ltac solve_keeps :=
  repeat first
    [ solve [eauto with term]
    | apply keeps_bind; [|intros]
    | apply keeps_switch
    | apply List.Forall_cons; cbn [snd]
    | apply List.Forall_nil
    | apply Forall_app; split
    | step_if ].

Lemma csi_cases_keep ps : Forall (fun c => keeps (snd c)) (csi_cases ps).
Proof.
  unfold csi_cases, csi_cursor_cases, csi_mode_cases, csi_page_cases, csi_area_cases, for_each.
  solve_keeps.
Qed.

(** The engine keeps what its terminal keeps. *)
Lemma output_preserves : EnginePreserves (fun e : E => P (_dispatch e)).
Proof.
  split.
  - intros c. change (keeps (output_Execute c)). unfold output_Execute, _ClearLastChar. solve_keeps.
  - intros c. change (keeps (output_Execute c)). unfold output_Execute, _ClearLastChar. solve_keeps.
  - intros c. change (keeps (output_Print c)). unfold output_Print. solve_keeps.
  - intros s. change (keeps (output_PrintString s)). unfold output_PrintString. destruct s; solve_keeps.
  - intros s. change (keeps (output_PassThroughString s)). solve_keeps.
  - intros id. change (keeps (output_EscDispatch id)). unfold output_EscDispatch, esc_default, _ClearLastChar.
    solve_keeps.
  - intros id ps. change (keeps (output_Vt52EscDispatch id ps)).
    unfold output_Vt52EscDispatch, _ClearLastChar. solve_keeps.
  - intros id ps. change (keeps (output_CsiDispatch id ps)). unfold output_CsiDispatch, _ClearLastChar.
    step_if; [solve_keeps|]. apply keeps_bind; [|intros; solve_keeps].
    apply keeps_switch; [apply csi_cases_keep|solve_keeps].
  - intros id ps. change (keeps (output_DcsDispatch id ps)). unfold output_DcsDispatch, _ClearLastChar.
    solve_keeps.
  - intros n s. change (keeps (output_OscDispatch u8u16 n s)). unfold output_OscDispatch, _ClearLastChar.
    solve_keeps.
  - intros c ps. change (keeps (output_Ss3Dispatch c ps)). unfold output_Ss3Dispatch, _ClearLastChar.
    solve_keeps.
  - intros h c e He. cbn. pose proof (keeps_handler h c (_dispatch e) He) as Hk.
    destruct (handler_call h c (_dispatch e)) as [[d more] rs]. exact Hk.
Qed.
End Keeps.

(** ** A terminal with macros

    It records the calls it receives; [DefineMacro] creates the buffer when
    there is none, and [InvokeMacro] leaves a callback with the parser that
    runs when the control sequence is complete.  It has one buffer, so the
    pointer that a callback captures is a [unit]. *)

Record MacroTerminal := mkMacroTerminal {
  mt_calls : list Call;
  _macroBuffer : option MacroBuffer;
}.

#[export] Instance eta_MacroTerminal : Eta MacroTerminal :=
  fun t => mkMacroTerminal (mt_calls t) (_macroBuffer t).

Definition new_MacroTerminal : MacroTerminal := mkMacroTerminal [] None.

Definition macro_buffer (t : MacroTerminal) : MacroBuffer := default new_MacroBuffer (_macroBuffer t).

Definition AdaptDispatch_DefineMacro (macroId deleteControl encoding : Z) (t : MacroTerminal) :
    EngineResult (unit * Z) MacroTerminal (option unit) :=
  let '(m, ok) := InitParser macroId deleteControl encoding (macro_buffer t) in
  mkEngineResult (t <| _macroBuffer := Some m |>) (Some (if ok then Some tt else None)) [].

Definition AdaptDispatch_InvokeMacro (macroId : Z) (t : MacroTerminal) : EngineResult (unit * Z) MacroTerminal unit :=
  mkEngineResult t (Some tt)
    match _macroBuffer t with
    | Some _ => [ReqOnCsiComplete (tt, macroId)]
    | None => []
    end.

#[export] Instance MacroTerminal_dispatch : ITermDispatch MacroTerminal (unit * Z) unit := {|
  dispatch c t :=
    match c with
    | TermDispatch.InvokeMacro macroId => AdaptDispatch_InvokeMacro macroId t
    | _ => mkEngineResult (t <| mt_calls := mt_calls t ++ [c] |>) (Some tt) []
    end;
  dispatch_string c t :=
    match c with
    | DefineMacro macroId deleteControl encoding => AdaptDispatch_DefineMacro macroId deleteControl encoding t
    | _ => mkEngineResult t (Some None) []
    end;
  handler_call _ ch t :=
    let '(m, more) := ParseDefinition ch (macro_buffer t) in
    (t <| _macroBuffer := Some m |>, more, []);
|}.

Lemma InitParser_depth i d e m : _invokedDepth (fst (InitParser i d e m)) = _invokedDepth m.
Proof.
  assert (Hd : forall l m, _invokedDepth (fold_left (fun m i => _deleteMacro i m) l m) = _invokedDepth m).
  { induction l as [|x l IH]; intros m'; cbn [fold_left]; [done|]. by rewrite IH. }
  unfold InitParser. repeat case_match; simplify_eq; cbn; try done; unfold delete_all; by rewrite Hd.
Qed.

Lemma append_repeats_depth n len m : _invokedDepth (append_repeats n len m) = _invokedDepth m.
Proof. revert m. induction n as [|n IH]; intros m; cbn [append_repeats]; [done|]. by rewrite IH. Qed.

Lemma applyPendingRepeat_depth m : _invokedDepth (fst (_applyPendingRepeat m)) = _invokedDepth m.
Proof. unfold _applyPendingRepeat. repeat case_match; cbn; try done. apply append_repeats_depth. Qed.

Lemma ParseDefinition_depth ch m : _invokedDepth (fst (ParseDefinition ch m)) = _invokedDepth m.
Proof.
  assert (Hs : _invokedDepth (fst (parse_definition_state ch m)) = _invokedDepth m).
  { unfold parse_definition_state, _decodeHexDigit, _appendToActiveMacro.
    repeat (case_match; simplify_eq; cbn); try done; by rewrite applyPendingRepeat_depth. }
  pose proof (applyPendingRepeat_depth m) as Ha. unfold ParseDefinition.
  destruct (parse_definition_state ch m) as [m1 ok1]. destruct (_applyPendingRepeat m) as [m2 ok2].
  repeat case_match; simplify_eq; cbn in *; done.
Qed.

(** The nesting depth is kept by every call and every string handler. *)
Lemma MacroTerminal_keeps d : DispatchKeeps (fun t => _invokedDepth (macro_buffer t) = d).
Proof.
  split.
  - intros c t <-. by destruct c.
  - intros c t <-. destruct c; try done. cbn. unfold AdaptDispatch_DefineMacro.
    pose proof (InitParser_depth macroId deleteControl encoding (macro_buffer t)) as Hd.
    destruct (InitParser _ _ _ _). exact Hd.
  - intros h ch t <-. cbn. pose proof (ParseDefinition_depth ch (macro_buffer t)) as Hd.
    destruct (ParseDefinition _ _). exact Hd.
Qed.

(** * The output engine at work

    The theorems about the output engine and about macros in the parser,
    applied to a recording terminal on concrete input. *)

From S2P Require Import ParserSafety ParserRoundtrip.
From S2P Require Import ParserEquiv.
From S2P Require Import OutputFacts.

(** ** A recording terminal

    It prints a string as the characters it consists of. *)

Definition Calls := list Call.

Definition record_call (c : Call) : list Call :=
  match c with
  | PrintString s => map Print s
  | _ => [c]
  end.

#[export] Instance Recording : ITermDispatch Calls unit unit := {|
  dispatch c t := mkEngineResult (t ++ record_call c) (Some tt) [];
  dispatch_string _ t := mkEngineResult t (Some None) [];
  handler_call _ _ t := (t, false, []);
|}.

#[export] Instance Recording_laws : DispatchLaws Calls unit unit.
Proof. split; [done|]. intros c s d _ _. cbn. by rewrite <- app_assoc. Qed.

Lemma Recording_quiet c : quiet (D := Calls) (CB := unit) (H := unit) c.
Proof. by intros d. Qed.

(** The conversion from UTF-8, on ASCII. *)
Definition ascii_u8u16 (s : list Z) : option (list Z) :=
  if forallb (fun c => c <? 0x80) s then Some s else None.

#[export] Instance RecordingEngine : IStateMachineEngine (OutputStateMachineEngine Calls) unit unit :=
  OutputEngine ascii_u8u16.

Abbreviation TM := (StateMachine (OutputStateMachineEngine Calls) unit unit).
Definition terminal : TM := new_StateMachine (new_OutputEngine []) false.
Definition keep (cb : unit) (sm : TM) : TM := sm.

Lemma terminal_ready : ready terminal.
Proof. by repeat split. Qed.

Example recorded :
  _dispatch (_engine (ProcessString keep (wstr "ab" ++ ESC :: wstr "[2;5H" ++ [CR]) terminal))
  = [Print 0x61; Print 0x62; CursorPosition 2 5; CarriageReturn].
Proof. reflexivity. Qed.

Lemma one_value n : 0 <= n <= 65535 -> values_ok [n].
Proof.
  intros Hn. split; [vm_compute; congruence|]. split.
  - constructor; [|constructor]. right. exact Hn.
  - intros [= ->]. unfold VTParameter_default in Hn. lia.
Qed.

Lemma numeric_delivered_witness :
  exists sm1,
    feed keep (csi_text [] (plain [12]) [] 0x41) terminal = _ExecuteCsiCompleteCallback keep sm1 /\
    _state sm1 = Ground /\ _dispatch (_engine sm1) = [CursorUp 12] /\
    (Some tt = Some tt -> _lastPrintedChar (_engine sm1) = NUL).
Proof.
  destruct (numeric_delivered ascii_u8u16 keep [] 0x41 CursorUp [12] terminal)
    as (sm1 & H1 & H2 & H3 & H4).
  - left. reflexivity.
  - apply terminal_ready.
  - apply one_value. lia.
  - exists sm1. split_and!; [exact H1|exact H2|exact H3|exact H4].
Defined.

(** Private modes 25 and, since 0 is taken for it, 1. *)
Lemma multi_delivered_witness :
  exists sm1,
    feed keep (csi_text [0x3F] (plain [25; 0]) [] 0x68) terminal = _ExecuteCsiCompleteCallback keep sm1 /\
    _state sm1 = Ground /\
    _dispatch (_engine sm1) = [SetMode (DECPrivateMode 25); SetMode (DECPrivateMode 1)].
Proof.
  destruct (multi_delivered ascii_u8u16 keep [0x3F] 0x68 (fun p => SetMode (2 ^ 24 + Z.max 1 p))
    [25; 0] terminal) as (sm1 & H1 & H2 & H3).
  - right. right. right. right. right. left. reflexivity.
  - apply terminal_ready.
  - split; [vm_compute; congruence|]. split; [|discriminate].
    constructor; [|constructor; [|constructor]]; right; unfold MAX_PARAMETER_VALUE; lia.
  - exists sm1. split_and!; [exact H1|exact H2|exact H3].
Defined.

Lemma inert_sequences_witness :
  exists sm1,
    feed keep (csi_text [] [(1, [2])] [] 0x41) terminal = _ExecuteCsiCompleteCallback keep sm1 /\
    _engine sm1 = _engine terminal.
Proof.
  destruct (inert_sequences ascii_u8u16 keep [] [(1, [2])] [] 0x41 terminal)
    as (sm1 & H1 & _ & H2 & _).
  - apply terminal_ready.
  - split; [cbn; lia|constructor].
  - split; [vm_compute; congruence|]. constructor; [|constructor]. cbn.
    split; [right; unfold MAX_PARAMETER_VALUE; lia|]. split; [unfold MAX_SUBPARAMETER_COUNT; lia|].
    constructor; [|constructor]. right. unfold MAX_PARAMETER_VALUE. lia.
  - discriminate.
  - constructor.
  - cbn. lia.
  - lia.
  - exists sm1. split; [exact H1|]. apply H2; [discriminate|].
    intros [Hx|[Hx|[Hx|[]]]]; discriminate.
Defined.

Lemma repeat_character_witness :
  _engine (feed keep (0x78 :: csi_text [] (plain [3]) [] 0x62 ++ csi_text [] (plain [9]) [] 0x62) terminal)
  = mkOutputEngine (map Print (wstr "xxxx")) NUL.
Proof.
  etransitivity; [apply (repeat_character ascii_u8u16 keep 0x78 3 9 terminal)|reflexivity].
  - intros x. apply Recording_quiet.
  - intros x. apply Recording_quiet.
  - by repeat split.
  - reflexivity.
  - apply one_value. lia.
  - apply one_value. lia.
Defined.

Lemma color_table_delivered_witness :
  _state (feed keep (ESC :: wstr "]4;7;rgb:ff/80/0;200;?" ++ [BEL]) terminal) = Ground /\
  _dispatch (_engine (feed keep (ESC :: wstr "]4;7;rgb:ff/80/0;200;?" ++ [BEL]) terminal))
  = [SetColorTableEntry 7 0x0080ff; RequestColorTableEntry 200].
Proof.
  destruct (color_table_delivered ascii_u8u16 keep
    [(7, Some (wstr "ff", wstr "80", wstr "0")); (200, None)] [BEL] terminal) as [H1 H2].
  - discriminate.
  - constructor; [|constructor; [|constructor]].
    + split; [cbn; unfold MAX_PARAMETER_VALUE; lia|]. cbn [snd].
      repeat (apply List.Forall_cons; [split; [|cbn; lia]|]); try apply List.Forall_nil;
        repeat constructor; eexists; reflexivity.
    + split; [cbn; unfold MAX_PARAMETER_VALUE; lia|exact I].
  - apply terminal_ready.
  - left. reflexivity.
  - split; [exact H1|]. etransitivity; [exact H2|reflexivity].
Defined.

Lemma clipboard_delivered_witness :
  _state (feed keep (ESC :: wstr "]52;c;aGk=" ++ [ESC; 0x5C]) terminal) = Ground /\
  _dispatch (_engine (feed keep (ESC :: wstr "]52;c;aGk=" ++ [ESC; 0x5C]) terminal))
  = [SetClipboard (wstr "hi")].
Proof.
  destruct (clipboard_delivered ascii_u8u16 keep (wstr "c") false 1 (wstr "hi") [ESC; 0x5C] terminal) as [H1 H2].
  - constructor; [|constructor]. split; vm_compute; [congruence|intros []; congruence].
  - intros Hin. apply list_elem_of_singleton in Hin. discriminate.
  - repeat constructor; vm_compute; congruence.
  - cbn. lia.
  - apply terminal_ready.
  - right. left. reflexivity.
  - split; [exact H1|]. etransitivity; [exact H2|reflexivity].
Defined.

Lemma hyperlink_delivered_witness :
  _state (feed keep (ESC :: wstr "]8;id=7;http://a;b" ++ [BEL]) terminal) = Ground /\
  _dispatch (_engine (feed keep (ESC :: wstr "]8;id=7;http://a;b" ++ [BEL]) terminal))
  = [AddHyperlink (wstr "http://a;b") (wstr "7")].
Proof.
  assert (Hg : forall s, forallb (fun c => (0x20 <=? c) && (c <? 0x7F)) s = true -> Forall graphic s).
  { intros s Hs. apply Forall_forall. rewrite forallb_forall in Hs. intros c Hc.
    specialize (Hs c Hc). unfold graphic. lia. }
  destruct (hyperlink_delivered ascii_u8u16 keep [(wstr "id", wstr "7")] (wstr "http://a;b") [BEL] terminal) as [H1 H2].
  - constructor; [|constructor]. split_and!; [by apply Hg| | |by left];
      intros Hin; apply list_elem_of_In in Hin; vm_compute in Hin; intuition discriminate.
  - by apply Hg.
  - vm_compute. congruence.
  - apply terminal_ready.
  - left. reflexivity.
  - split; [exact H1|]. etransitivity; [exact H2|reflexivity].
Defined.

Lemma output_chunking_witness :
  _dispatch (_engine (ProcessStrings keep [wstr "ab" ++ [ESC]; wstr "[1mc"] terminal))
  = _dispatch (_engine (ProcessStrings keep [wstr "a"; wstr "b" ++ ESC :: wstr "[1"; wstr "mc"] terminal)).
Proof.
  apply (output_chunking ascii_u8u16 keep Recording_laws
    [wstr "ab" ++ [ESC]; wstr "[1mc"] [wstr "a"; wstr "b" ++ ESC :: wstr "[1"; wstr "mc"] terminal).
  - intros cb a b Hab. exact Hab.
  - intros cb sm. reflexivity.
  - repeat constructor; vm_compute; congruence.
  - repeat constructor; vm_compute; congruence.
  - reflexivity.
  - reflexivity.
Defined.

(** ** Macros *)

#[export] Instance MacroEngine : IStateMachineEngine (OutputStateMachineEngine MacroTerminal) (unit * Z) unit :=
  OutputEngine ascii_u8u16.

Abbreviation MM := (StateMachine (OutputStateMachineEngine MacroTerminal) (unit * Z) unit).
Abbreviation ME := (OutputStateMachineEngine MacroTerminal).
Definition engine_buffer (p : unit) (e : ME) : MacroBuffer := macro_buffer (_dispatch e).
Definition engine_set_buffer (p : unit) (m : MacroBuffer) (e : ME) : ME :=
  e <| _dispatch := (_dispatch e) <| _macroBuffer := Some m |> |>.

Definition macro_terminal : MM := new_StateMachine (new_OutputEngine new_MacroTerminal) false.
Definition run_macro (fuel : nat) : unit * Z -> MM -> MM := runMacro engine_buffer engine_set_buffer fuel.

(** Macro 1 prints [x] and invokes itself. *)
Definition recursive_macro : list Z :=
  ESC :: wstr "P1;0;1!z781b5b312a7a" ++ [ESC; 0x5C].
Definition invoke_1 : list Z := ESC :: wstr "[1*z".

(** Sixteen levels print sixteen characters. *)
Example recursive_macro_runs :
  mt_calls (_dispatch (_engine (ProcessString (run_macro 16) (recursive_macro ++ invoke_1) macro_terminal)))
  = repeat (PrintString (wstr "x")) 16.
Proof. vm_compute. reflexivity. Qed.

Lemma engine_depth_kept (d : unit -> Z) : EnginePreserves (at_depth engine_buffer d).
Proof.
  pose proof (output_preserves ascii_u8u16 _ (Keeps := MacroTerminal_keeps (d tt))) as [].
  unfold at_depth, engine_buffer. split; intros; match goal with p : unit |- _ => destruct p end; eauto.
Qed.

Lemma macro_nesting_bounded_witness :
  ProcessString (runMacro engine_buffer engine_set_buffer 40) (recursive_macro ++ invoke_1) macro_terminal
  = ProcessString (runMacro engine_buffer engine_set_buffer (16 * length (enum unit)))
      (recursive_macro ++ invoke_1) macro_terminal.
Proof.
  refine (proj1 (macro_nesting_bounded engine_buffer engine_set_buffer _ engine_depth_kept
    40 (fun _ => 0) (recursive_macro ++ invoke_1) macro_terminal _ _ _)).
  - by intros [] [] m e.
  - by intros [].
  - by intros [].
  - cbn. lia.
Defined.
