(* ===== verification/Rle.v ===== *)
(** * Run length encoding: [inc/til/rle.h]

    The attributes of a row of the text buffer are kept as runs.  This file
    has the class [basic_rle], its scanner and its iterator, on vectors of
    runs addressed by index: a C++ iterator over the vector is the index it
    points at, and a dereference outside the vector is [Undefined].  The
    in-place algorithm of [_replace_unchecked] is kept step by step, under
    the step numbers of the source.

    [RleFacts.v] relates all of it to plain lists of values. *)

From S2P Require Import Prelude.

#[local] Open Scope nat_scope.
#[local] Open Scope Z_scope.

Record rle_pair (T : Type) := mk_run { value : T; run_length : Z }.
#[global] Arguments mk_run {T} _ _.
#[global] Arguments value {T} _.
#[global] Arguments run_length {T} _.
#[global] Instance rle_pair_eta T : Eta (rle_pair T) := fun r => mk_run (value r) (run_length r).

Record basic_rle (T : Type) := mk_rle { _runs : list (rle_pair T); _total_length : Z }.
#[global] Arguments mk_rle {T} _ _.
#[global] Arguments _runs {T} _.
#[global] Arguments _total_length {T} _.
#[global] Instance basic_rle_eta T : Eta (basic_rle T) := fun r => mk_rle (_runs r) (_total_length r).

(** An iterator over the values: the run, and the position within it. *)
Record rle_iterator := mk_iter { _it : nat; _pos : Z }.

#[global] Instance rle_pair_eq_dec T `{EqDecision T} : EqDecision (rle_pair T).
Proof. solve_decision. Defined.

Section Rle.
(** [W] is the width of the unsigned [size_type]: 16 for the rows. *)
Context {T : Type} `{EqDecision T} `{Inhabited T} (W : Z).

Definition narrow (z : Z) : Z := z mod 2 ^ W.

Abbreviation run := (rle_pair T).
Abbreviation rle := (basic_rle T).

(** ** The vector of runs *)

(** [rle_type{}]: the value-initialised run. *)
Definition run_default : run := mk_run inhabitant 0.

Definition vec_update (runs : list run) (i : nat) (f : run -> run) : outcome (list run) :=
  let* r := deref runs i in
  Done (<[i := f r]> runs).

Definition set_length (n : Z) (r : run) : run := r <| run_length := narrow n |>.

Definition add_length (n : Z) (r : run) : run := set_length (run_length r + n) r.

Definition erase (runs : list run) (b e : nat) : outcome (list run) :=
  if ((b <=? e) && (e <=? length runs))%nat then Done (take b runs ++ drop e runs) else Undefined.

Definition insert_at (runs : list run) (b : nat) (xs : list run) : outcome (list run) :=
  if (b <=? length runs)%nat then Done (take b runs ++ xs ++ drop b runs) else Undefined.

(** [std::copy] over existing elements: the vector and the end of the copy. *)
Definition copy_to (runs : list run) (b : nat) (xs : list run) : outcome (list run * nat) :=
  if (b + length xs <=? length runs)%nat
  then Done (take b runs ++ xs ++ drop (b + length xs) runs, (b + length xs)%nat)
  else Undefined.

(** ** Constructors and size *)

Definition sum_lengths (runs : list run) : Z :=
  fold_left (fun total r => narrow (total + run_length r)) runs 0.

Definition rle_default : rle := mk_rle [] 0.

Definition rle_of_runs (runs : list run) : rle := mk_rle runs (sum_lengths runs).

Definition rle_of_value (length : Z) (v : T) : rle :=
  mk_rle (if negb (length =? 0) then [mk_run v length] else []) length.

Definition rle_empty (r : rle) : bool := _total_length r =? 0.

Definition rle_size (r : rle) : Z := _total_length r.

(** Moving out of [other]: what [other] is left with, for a container that
    empties its source and for one that copies it. *)
Definition rle_moved_from (container_empties : bool) (other : rle) : rle :=
  let runs := if container_empties then [] else _runs other in
  mk_rle runs (match runs with [] => 0 | _ => _total_length other end).

(** ** The scanner *)

Record rle_scanner := mk_scanner { sc_it : nat; sc_total : Z }.

Fixpoint scan_loop (rest : list run) (it : nat) (total index : Z) : rle_scanner * (nat * Z) :=
  match rest with
  | [] => (mk_scanner it total, (it, 0))
  | r :: rest' =>
      let new_total := narrow (total + run_length r) in
      if new_total >? index then (mk_scanner it total, (it, narrow (index - total)))
      else scan_loop rest' (S it) new_total index
  end.

Definition scanner_begin : rle_scanner := mk_scanner 0 0.

Definition scan (runs : list run) (s : rle_scanner) (index : Z) : rle_scanner * (nat * Z) :=
  scan_loop (drop (sc_it s) runs) (sc_it s) (sc_total s) index.

(** ** Reading *)

Definition rle_at (r : rle) (position : Z) : outcome T :=
  let '(_, (it, _)) := scan (_runs r) scanner_begin position in
  if (it =? length (_runs r))%nat then Throws
  else let* run := deref (_runs r) it in Done (value run).

Definition rle_slice (r : rle) (start_index end_index : Z) : outcome rle :=
  let end_index := if end_index >? _total_length r then _total_length r else end_index in
  if start_index >=? end_index then Done rle_default
  else
    let '(s, (begin_run, start_run_pos)) := scan (_runs r) scanner_begin start_index in
    let '(_, (end_run, end_run_pos)) := scan (_runs r) s (narrow (end_index - 1)) in
    if (end_run <? length (_runs r))%nat then
      let slice := drop begin_run (take (S end_run) (_runs r)) in
      let* slice := vec_update slice (length slice - 1) (set_length (end_run_pos + 1)) in
      let* slice := vec_update slice 0 (add_length (- start_run_pos)) in
      Done (mk_rle slice (narrow (end_index - start_index)))
    else Undefined.

Definition rle_eqb (a b : rle) : bool :=
  (_total_length a =? _total_length b) && bool_decide (_runs a = _runs b).

(** ** Replacing values, and [_compact] *)

Fixpoint compact_inner (fuel : nat) (runs : list run) (ref it : nat) : outcome (list run) :=
  match fuel with
  | O => Undefined
  | S fuel' =>
      if (it =? length runs)%nat then erase runs (S ref) (length runs)
      else
        let* x := deref runs ref in
        let* y := deref runs it in
        if bool_decide (value x = value y)
        then let* runs := vec_update runs ref (add_length (run_length y)) in
             compact_inner fuel' runs ref (S it)
        else let* runs := vec_update runs (S ref) (fun _ => y) in
             compact_inner fuel' runs (S ref) (S it)
  end.

Fixpoint compact_outer (fuel : nat) (runs : list run) (ref : nat) : outcome (list run) :=
  match fuel with
  | O => Undefined
  | S fuel' =>
      let it := S ref in
      if (it =? length runs)%nat then Done runs
      else
        let* x := deref runs ref in
        let* y := deref runs it in
        if bool_decide (value x = value y)
        then let* runs := vec_update runs ref (add_length (run_length y)) in
             compact_inner (length runs) runs ref (S it)
        else compact_outer fuel' runs it
  end.

Definition _compact (r : rle) : outcome rle :=
  match _runs r with
  | [] => Done r
  | runs => let* runs := compact_outer (length runs) runs 0 in Done (r <| _runs := runs |>)
  end.

Definition replace_values (r : rle) (old_value new_value : T) : outcome rle :=
  _compact (r <| _runs := map (fun x => if bool_decide (value x = old_value)
                                        then x <| value := new_value |> else x) (_runs r) |>).

(** ** Resizing *)

Definition resize_trailing_extent (r : rle) (new_size : Z) : outcome rle :=
  let* runs :=
    if new_size =? 0 then Done []
    else if new_size <? _total_length r then
      let '(_, (run, pos)) := scan (_runs r) scanner_begin (narrow (new_size - 1)) in
      let* runs := vec_update (_runs r) run (set_length (pos + 1)) in
      erase runs (S run) (length runs)
    else if new_size >? _total_length r then
      match _runs r with
      | [] => FailFast
      | _ => vec_update (_runs r) (length (_runs r) - 1) (add_length (new_size - _total_length r))
      end
    else Done (_runs r)
  in Done (mk_rle runs new_size).

(** ** Replacing a range *)

(** The clamped end, or an exception. *)
Definition _check_indices (r : rle) (start_index end_index : Z) : outcome Z :=
  let end_index := if end_index >? _total_length r then _total_length r else end_index in
  if start_index >? end_index then Throws else Done end_index.

(** [begin_pos ? begin : begin - 1] *)
Definition previous_run (begin : nat) (begin_pos : Z) : outcome nat :=
  if negb (begin_pos =? 0) then Done begin
  else match begin with
       | O => Undefined
       | S p => Done p
       end.

(** [Step3]: the lengths of the existing runs. *)
Definition replace_step3 (runs : list run) (begin : nat) (begin_pos : Z) (end_ : nat)
    (end_pos : Z) : outcome (list run * nat) :=
  let* (runs, begin) :=
    if negb (begin_pos =? 0)
    then let* runs := vec_update runs begin (set_length begin_pos) in Done (runs, S begin)
    else Done (runs, begin) in
  let* runs :=
    if negb (end_pos =? 0) then vec_update runs end_ (add_length (- end_pos)) else Done runs in
  Done (runs, begin).

(** The branch for pure removals; it adjusts the lengths as [Step3] does. *)
Definition replace_removal (r : rle) (start_index end_index : Z)
    (begin : nat) (begin_pos : Z) (end_ : nat) (end_pos : Z) : outcome rle :=
  let removed := narrow (end_index - start_index) in
  let* (runs, begin, begin_pos, end_pos) :=
    if negb (start_index =? 0) && negb (end_index =? _total_length r) then
      let* previous := previous_run begin begin_pos in
      let* p := deref (_runs r) previous in
      let* e := deref (_runs r) end_ in
      if bool_decide (value p = value e) then
        let* runs := vec_update (_runs r) end_
          (add_length (- (end_pos - (if negb (begin_pos =? 0) then begin_pos else run_length p)))) in
        Done (runs, previous, 0, 0)
      else Done (_runs r, begin, begin_pos, end_pos)
    else Done (_runs r, begin, begin_pos, end_pos) in
  let* (runs, begin) := replace_step3 runs begin begin_pos end_ end_pos in
  let* runs := erase runs begin end_ in
  Done (mk_rle runs (narrow (_total_length r - removed))).

(** [Step1], at the beginning: the additional length, and the new position. *)
Definition replace_step1_begin (runs : list run) (start_index : Z) (begin : nat) (begin_pos : Z)
    (front : run) : outcome (Z * nat * Z) :=
  if negb (start_index =? 0) then
    let* previous := previous_run begin begin_pos in
    let* p := deref runs previous in
    if bool_decide (value p = value front)
    then Done (if negb (begin_pos =? 0) then begin_pos else run_length p, previous, 0)
    else Done (0, begin, begin_pos)
  else Done (0, begin, begin_pos).

(** [Step1], at the end. *)
Definition replace_step1_end (r : rle) (end_index : Z) (end_ : nat) (end_pos : Z)
    (back : run) : outcome (Z * nat * Z) :=
  if negb (end_index =? _total_length r) then
    let* e := deref (_runs r) end_ in
    if bool_decide (value e = value back)
    then Done (narrow (run_length e - end_pos), S end_, 0)
    else Done (0, end_, end_pos)
  else Done (0, end_, end_pos).

(** [Step2]: the trailer of a run that is split, and the new end position. *)
Definition replace_step2 (runs : list run) (begin : nat) (begin_pos : Z) (end_ : nat)
    (end_pos : Z) : outcome (option run * Z) :=
  if (begin =? end_)%nat && negb (begin_pos =? 0) then
    let* b := deref runs begin in
    Done (Some (mk_run (value b) (narrow (run_length b - end_pos))), 0)
  else Done (None, end_pos).

(** [Step4] to [Step6.2]: the copy into the existing space, and the removal of
    what is left of it or the insertion of what did not fit. *)
Definition replace_step456 (runs : list run) (begin end_ : nat)
    (replacements : list run) (mid_insertion_trailer : option run) : outcome (list run) :=
  let available_space := (if (begin <? end_)%nat then end_ - begin else 0)%nat in
  let required_space :=
    (length replacements + (if mid_insertion_trailer is Some _ then 1 else 0))%nat in
  let begin_index := begin in
  let direct := (available_space `min` length replacements)%nat in
  let* (runs, begin) := copy_to runs begin (take direct replacements) in
  if (required_space <=? available_space)%nat then erase runs begin end_
  else
    match mid_insertion_trailer with
    | Some trailer =>
        let* runs := insert_at runs begin (replicate (required_space - available_space) run_default) in
        let* (runs, begin) := copy_to runs begin_index (drop direct replacements) in
        vec_update runs begin (fun _ => trailer)
    | None => insert_at runs begin (drop direct replacements)
    end.

(** [Step7]: the additional lengths of joined runs. *)
Definition replace_step7 (runs : list run) (begin_index required_space : nat)
    (begin_additional_length end_additional_length : Z) : outcome (list run) :=
  let* runs :=
    if negb (begin_additional_length =? 0)
    then vec_update runs begin_index (add_length begin_additional_length) else Done runs in
  if negb (end_additional_length =? 0)
  then vec_update runs (begin_index + required_space - 1) (add_length end_additional_length)
  else Done runs.

(** [Step8]: the new total. *)
Definition replace_step8 (total start_index end_index : Z) (replacements : list run) : Z :=
  fold_left (fun total r => narrow (total + run_length r)) replacements
    (narrow (total - (end_index - start_index))).

Definition _replace_unchecked (r : rle) (start_index end_index : Z)
    (replacements : list run) : outcome rle :=
  let '(s, (begin, begin_pos)) := scan (_runs r) scanner_begin start_index in
  let '(_, (end_, end_pos)) := scan (_runs r) s end_index in
  match replacements with
  | [] => replace_removal r start_index end_index begin begin_pos end_ end_pos
  | front :: _ =>
      let back := back front replacements in
      let* (begin_additional_length, begin, begin_pos) :=
        replace_step1_begin (_runs r) start_index begin begin_pos front in
      let* (end_additional_length, end_, end_pos) :=
        replace_step1_end r end_index end_ end_pos back in
      let* (mid_insertion_trailer, end_pos) :=
        replace_step2 (_runs r) begin begin_pos end_ end_pos in
      let* (runs, begin) := replace_step3 (_runs r) begin begin_pos end_ end_pos in
      let required_space :=
        (length replacements + (if mid_insertion_trailer is Some _ then 1 else 0))%nat in
      let* runs' := replace_step456 runs begin end_ replacements mid_insertion_trailer in
      let* runs' := replace_step7 runs' begin required_space
                      begin_additional_length end_additional_length in
      Done (mk_rle runs' (replace_step8 (_total_length r) start_index end_index replacements))
  end.

(** The overloads of [replace]: a value, a run, a span of runs, another
    encoded vector. *)
Definition replace_value (r : rle) (start_index end_index : Z) (v : T) : outcome rle :=
  let* end_index := _check_indices r start_index end_index in
  _replace_unchecked r start_index end_index [mk_run v (narrow (end_index - start_index))].

Definition replace (r : rle) (start_index end_index : Z) (replacements : list run) : outcome rle :=
  let* end_index := _check_indices r start_index end_index in
  _replace_unchecked r start_index end_index replacements.

Definition replace_run (r : rle) (start_index end_index : Z) (replacement : run) : outcome rle :=
  replace r start_index end_index [replacement].

Definition replace_rle (r : rle) (start_index end_index : Z) (replacements : rle) : outcome rle :=
  let* end_index := _check_indices r start_index end_index in
  _replace_unchecked r start_index end_index (_runs replacements).

(** ** The iterator over the values *)

Definition iter_begin : rle_iterator := mk_iter 0 0.

Definition iter_end (runs : list run) : rle_iterator := mk_iter (length runs) 0.

Definition iter_deref (runs : list run) (i : rle_iterator) : outcome T :=
  let* r := deref runs (_it i) in Done (value r).

Definition iter_incr (runs : list run) (i : rle_iterator) : outcome rle_iterator :=
  let* r := deref runs (_it i) in
  let pos := narrow (_pos i + 1) in
  Done (if pos =? run_length r then mk_iter (S (_it i)) 0 else mk_iter (_it i) pos).

Definition iter_decr (runs : list run) (i : rle_iterator) : outcome rle_iterator :=
  if _pos i =? 0 then
    match _it i with
    | O => Undefined
    | S p => let* r := deref runs p in Done (mk_iter p (narrow (run_length r - 1)))
    end
  else Done (mk_iter (_it i) (narrow (_pos i - 1))).

(** The postfix operators: the iterator afterwards, and the returned one. *)
Definition iter_post_incr (runs : list run) (i : rle_iterator) : outcome (rle_iterator * rle_iterator) :=
  let tmp := i in
  let* tmp := iter_incr runs tmp in
  Done (i, tmp).

Definition iter_post_decr (runs : list run) (i : rle_iterator) : outcome (rle_iterator * rle_iterator) :=
  let tmp := i in
  let* tmp := iter_decr runs tmp in
  Done (i, tmp).

Fixpoint advance_forward (rest : list run) (it : nat) (pos move : Z) : outcome rle_iterator :=
  if move >? 0 then
    match rest with
    | [] => Undefined
    | r :: rest' =>
        let space := run_length r - pos in
        if move <? space then Done (mk_iter it (narrow (pos + move)))
        else advance_forward rest' (S it) 0 (move - space)
    end
  else Done (mk_iter it pos).

Fixpoint advance_backward (runs : list run) (it : nat) (pos move : Z) : outcome rle_iterator :=
  if move >? 0 then
    let space := pos in
    if move <=? space then Done (mk_iter it (narrow (pos - move)))
    else
      match it with
      | O => Undefined
      | S it' =>
          let* r := deref runs it' in
          advance_backward runs it' (narrow (run_length r - 1)) (move - (pos + 1))
      end
  else Done (mk_iter it pos).

Definition iter_advance (runs : list run) (i : rle_iterator) (move : Z) : outcome rle_iterator :=
  if move >=? 0 then advance_forward (drop (_it i) runs) (_it i) (_pos i) move
  else advance_backward runs (_it i) (_pos i) (- move).

Definition iter_retreat (runs : list run) (i : rle_iterator) (offset : Z) : outcome rle_iterator :=
  iter_advance runs i (- offset).

Definition iter_eqb (a b : rle_iterator) : bool := (_it a =? _it b)%nat && (_pos a =? _pos b).

Definition iter_ltb (a b : rle_iterator) : bool :=
  (_it a <? _it b)%nat || ((_it a =? _it b)%nat && (_pos a <? _pos b)).

Definition iter_leb (a b : rle_iterator) : bool := negb (iter_ltb b a).

Definition iter_distance (runs : list run) (a b : rle_iterator) : outcome Z :=
  let negative := iter_ltb a b in
  let lower := if negative then a else b in
  let upper := if negative then b else a in
  if (_it upper <=? length runs)%nat then
    let distance := foldl (fun d r => d + run_length r) 0
                      (drop (_it lower) (take (_it upper) runs)) in
    let distance := distance - _pos lower + _pos upper in
    Done (if negative then - distance else distance)
  else Undefined.

Definition iter_index (runs : list run) (i : rle_iterator) (offset : Z) : outcome T :=
  let* j := iter_advance runs i offset in iter_deref runs j.
End Rle.
