(* ===== verification/RleFacts.v ===== *)
(** * Run length encoding against plain lists

    [runs_values] is the list of values that runs stand for.  The facts of
    this file relate every operation of [Rle.v] to the corresponding
    operation on that list.  The in-place replacement is first shown equal to
    [reference_replace], the "trivial algorithm" that the comment in the
    source describes: cut, append, join adjacent runs. *)

From Stdlib Require Import Sorted.
From S2P Require Import Prelude Rle.

(** ** Sorted lists, cut and joined *)

Lemma Sorted_app_inv {A} (R : A -> A -> Prop) l k : Sorted R (l ++ k) -> Sorted R l /\ Sorted R k.
Proof.
  induction l as [|a l IH]; cbn; [split; [constructor|done]|].
  intros [Hs Hr]%Sorted_inv. destruct (IH Hs) as [Hl Hk]. split; [|done].
  constructor; [done|]. destruct l; [constructor|]. inversion Hr. by constructor.
Qed.

Lemma Sorted_join {A} (R : A -> A -> Prop) l a k :
  Sorted R (l ++ [a]) -> Sorted R (a :: k) -> Sorted R (l ++ a :: k).
Proof.
  induction l as [|x l IH]; cbn; [done|].
  intros [Hs Hr]%Sorted_inv Hk. constructor; [by apply IH|].
  destruct l; inversion Hr; by constructor.
Qed.

Section Values.
Context {T : Type} `{EqDecision T} `{Inhabited T}.
Abbreviation run := (rle_pair T).

Fixpoint runs_values (runs : list run) : list T :=
  match runs with
  | [] => []
  | r :: runs' => replicate (Z.to_nat (run_length r)) (value r) ++ runs_values runs'
  end.

Fixpoint total (runs : list run) : Z :=
  match runs with
  | [] => 0
  | r :: runs' => run_length r + total runs'
  end.

Definition runs_ok (runs : list run) : Prop := Forall (fun r => 0 < run_length r) runs.

(** No two neighbours have the same value. *)
Definition canonical (runs : list run) : Prop := Sorted (fun a b => a <> b) (map value runs).

Fixpoint rle_take (n : Z) (runs : list run) : list run :=
  match runs with
  | [] => []
  | r :: runs' =>
      if n <=? 0 then []
      else if n <? run_length r then [mk_run (value r) n]
      else r :: rle_take (n - run_length r) runs'
  end.

Fixpoint rle_drop (n : Z) (runs : list run) : list run :=
  match runs with
  | [] => []
  | r :: runs' =>
      if n <=? 0 then r :: runs'
      else if n <? run_length r then mk_run (value r) (run_length r - n) :: runs'
      else rle_drop (n - run_length r) runs'
  end.

(** Append, and join the two runs that meet if they have the same value. *)
Fixpoint glue (l k : list run) : list run :=
  match l with
  | [] => k
  | [a] =>
      match k with
      | [] => [a]
      | b :: k' =>
          if bool_decide (value a = value b)
          then mk_run (value a) (run_length a + run_length b) :: k'
          else a :: b :: k'
      end
  | a :: l' => a :: glue l' k
  end.

Definition reference_replace (runs : list run) (start_index end_index : Z)
    (replacements : list run) : list run :=
  glue (glue (rle_take start_index runs) replacements) (rle_drop end_index runs).

(** ** Totals and values *)

Lemma total_app l k : total (l ++ k) = total l + total k.
Proof. induction l; cbn; lia. Qed.

Lemma runs_values_app l k : runs_values (l ++ k) = runs_values l ++ runs_values k.
Proof. induction l; cbn; [done|]. by rewrite IHl, app_assoc. Qed.

Lemma runs_ok_app l k : runs_ok (l ++ k) <-> runs_ok l /\ runs_ok k.
Proof. apply Forall_app. Qed.

Lemma runs_ok_cons r l : runs_ok (r :: l) <-> 0 < run_length r /\ runs_ok l.
Proof. apply Forall_cons_iff. Qed.

Lemma runs_total_nonneg l : runs_ok l -> 0 <= total l.
Proof. induction l; cbn; [lia|]. rewrite runs_ok_cons. intros [? Hl]. specialize (IHl Hl). lia. Qed.

Lemma length_runs_values l : runs_ok l -> length (runs_values l) = Z.to_nat (total l).
Proof.
  induction l as [|r l IH]; [done|]. rewrite runs_ok_cons. intros [Hr Hl].
  cbn. rewrite length_app, length_replicate, IH by done.
  pose proof (runs_total_nonneg l Hl). lia.
Qed.

Lemma rle_take_values n l : runs_ok l -> 0 <= n ->
  runs_values (rle_take n l) = take (Z.to_nat n) (runs_values l).
Proof.
  revert n. induction l as [|r l IH]; intros n; [intros; cbn; by rewrite take_nil|].
  rewrite runs_ok_cons. intros [Hr Hl] Hn. cbn.
  destruct (Z.leb_spec n 0); [by replace n with 0 by lia|].
  destruct (Z.ltb_spec n (run_length r)); cbn.
  - rewrite app_nil_r, take_app_le, take_replicate by (rewrite length_replicate; lia).
    f_equal. lia.
  - rewrite IH, take_app_ge, length_replicate by (rewrite ?length_replicate; lia || done).
    do 2 f_equal. lia.
Qed.

Lemma rle_drop_values n l : runs_ok l -> 0 <= n ->
  runs_values (rle_drop n l) = drop (Z.to_nat n) (runs_values l).
Proof.
  revert n. induction l as [|r l IH]; intros n; [intros; cbn; by rewrite drop_nil|].
  rewrite runs_ok_cons. intros [Hr Hl] Hn. cbn.
  destruct (Z.leb_spec n 0); [by replace n with 0 by lia|].
  destruct (Z.ltb_spec n (run_length r)); cbn.
  - rewrite drop_app_le, drop_replicate by (rewrite length_replicate; lia).
    do 2 f_equal. lia.
  - rewrite IH, drop_app_ge, length_replicate by (rewrite ?length_replicate; lia || done).
    f_equal. lia.
Qed.

Lemma rle_take_ok n l : runs_ok l -> runs_ok (rle_take n l).
Proof.
  revert n. induction l as [|r l IH]; intros n; [done|].
  rewrite runs_ok_cons. intros [Hr Hl]. cbn.
  destruct (Z.leb_spec n 0); [constructor|].
  destruct (Z.ltb_spec n (run_length r)); rewrite runs_ok_cons; [repeat constructor; done|].
  split; [done|by apply IH].
Qed.

Lemma rle_drop_ok n l : runs_ok l -> runs_ok (rle_drop n l).
Proof.
  revert n. induction l as [|r l IH]; intros n; [done|].
  rewrite runs_ok_cons. intros [Hr Hl]. cbn.
  destruct (Z.leb_spec n 0); [by apply runs_ok_cons|].
  destruct (Z.ltb_spec n (run_length r)); rewrite ?runs_ok_cons; cbn; [split; [lia|done]|by apply IH].
Qed.

(** ** Joining *)

Lemma glue_snoc l a k : glue (l ++ [a]) k = l ++ glue [a] k.
Proof.
  induction l as [|x l IH]; [done|]. cbn [app].
  destruct l as [|y l]; [done|]. cbn [app] in *.
  change (x :: glue (y :: l ++ [a]) k = x :: y :: l ++ glue [a] k). by rewrite IH.
Qed.

Lemma glue_nil_r l : glue l [] = l.
Proof.
  induction l as [|a [|b l] IH]; [done..|].
  change (a :: glue (b :: l) [] = a :: b :: l). by rewrite IH.
Qed.

Lemma glue_app l k m : k <> [] -> glue (l ++ k) m = l ++ glue k m.
Proof.
  intros Hk. destruct (exists_last Hk) as (k' & x & ->).
  by rewrite app_assoc, !glue_snoc, app_assoc.
Qed.

Lemma glue_join l v n m k :
  glue (l ++ [mk_run v n]) (mk_run v m :: k) = l ++ mk_run v (n + m) :: k.
Proof. rewrite glue_snoc. cbn. by rewrite bool_decide_eq_true_2. Qed.

Lemma glue_apart l a b k : value a <> value b -> glue (l ++ [a]) (b :: k) = (l ++ [a]) ++ b :: k.
Proof. intros Hab. rewrite glue_snoc. cbn. rewrite bool_decide_eq_false_2 by done. by rewrite <- app_assoc. Qed.

(** Every way two lists of runs can be glued. *)
Lemma glue_cases l k :
  (glue l k = l ++ k /\ forall l' a b k', l = l' ++ [a] -> k = b :: k' -> value a <> value b) \/
  exists l' k' v n m, l = l' ++ [mk_run v n] /\ k = mk_run v m :: k' /\ glue l k = l' ++ mk_run v (n + m) :: k'.
Proof.
  destruct l as [|x l _] using rev_ind; [left; split; [done|by intros []]|].
  destruct k as [|y k]; [left; by rewrite glue_nil_r, app_nil_r|].
  destruct x as [v n], y as [v' m], (decide (v = v')) as [->|Hne].
  - right. exists l, k, v', n, m. by rewrite glue_join.
  - left. split; [by apply glue_apart|]. intros l' a b k' [_ <-]%app_inj_tail [= <- _]. done.
Qed.

Lemma glue_ok l k : runs_ok l -> runs_ok k -> runs_ok (glue l k).
Proof.
  intros Hl Hk. destruct (glue_cases l k) as [[-> _]|(l' & k' & v & n & m & -> & -> & ->)].
  - by apply runs_ok_app.
  - rewrite runs_ok_app, runs_ok_cons in *. cbn in *. intuition lia.
Qed.

Lemma glue_total l k : total (glue l k) = total l + total k.
Proof.
  destruct (glue_cases l k) as [[-> _]|(l' & k' & v & n & m & -> & -> & ->)];
    rewrite !total_app; cbn; lia.
Qed.

Lemma glue_values l k : runs_ok l -> runs_ok k -> runs_values (glue l k) = runs_values l ++ runs_values k.
Proof.
  intros Hl Hk. destruct (glue_cases l k) as [[-> _]|(l' & k' & v & n & m & -> & -> & ->)].
  - apply runs_values_app.
  - rewrite runs_ok_app, runs_ok_cons in *. cbn in *.
    rewrite !runs_values_app. cbn. rewrite Z2Nat.inj_add, replicate_add by lia.
    by rewrite !app_nil_r, <- !app_assoc.
Qed.

(** ** Canonical runs *)

Lemma rle_take_map n l : exists i, map value (rle_take n l) = take i (map value l).
Proof.
  revert n. induction l as [|r l IH]; intros n; [by exists 0%nat|]. cbn.
  destruct (n <=? 0); [by exists 0%nat|]. destruct (n <? run_length r); [by exists 1%nat|].
  destruct (IH (n - run_length r)) as [i Hi]. exists (S i). cbn. by rewrite Hi.
Qed.

Lemma rle_drop_map n l : exists i, map value (rle_drop n l) = drop i (map value l).
Proof.
  revert n. induction l as [|r l IH]; intros n; [by exists 0%nat|]. cbn.
  destruct (n <=? 0); [by exists 0%nat|]. destruct (n <? run_length r); [by exists 0%nat|].
  destruct (IH (n - run_length r)) as [i Hi]. by exists (S i).
Qed.

Lemma rle_take_canonical n l : canonical l -> canonical (rle_take n l).
Proof.
  unfold canonical. destruct (rle_take_map n l) as [i ->].
  rewrite <- (take_drop i (map value l)) at 1. by intros []%Sorted_app_inv.
Qed.

Lemma rle_drop_canonical n l : canonical l -> canonical (rle_drop n l).
Proof.
  unfold canonical. destruct (rle_drop_map n l) as [i ->].
  rewrite <- (take_drop i (map value l)) at 1. by intros []%Sorted_app_inv.
Qed.

Lemma glue_canonical l k : canonical l -> canonical k -> canonical (glue l k).
Proof.
  unfold canonical. intros Hl Hk.
  destruct (glue_cases l k) as [[-> Hne]|(l' & k' & v & n & m & -> & -> & ->)].
  - rewrite map_app. destruct l as [|a l _] using rev_ind; [done|].
    rewrite map_app in *. cbn in *. rewrite <- app_assoc. apply Sorted_join; [done|].
    constructor; [done|]. destruct k as [|b k]; constructor. by eapply Hne.
  - rewrite map_app in *. by apply Sorted_join.
Qed.

Lemma canonical_cons r s l : canonical (r :: s :: l) -> value r <> value s /\ canonical (s :: l).
Proof. intros [Hs Hr]%Sorted_inv. inversion Hr. done. Qed.

(** The first run cannot be longer in one of two encodings of the same values. *)
Lemma canonical_head_le r l s k : runs_ok (r :: l) -> runs_ok (s :: k) -> canonical (r :: l) ->
  runs_values (r :: l) = runs_values (s :: k) -> run_length s <= run_length r.
Proof.
  intros [Hr Hl]%runs_ok_cons [Hs _]%runs_ok_cons Hc Heq.
  destruct (Z.le_gt_cases (run_length s) (run_length r)) as [|Hlt]; [done|exfalso].
  cbn in Heq.
  replace (Z.to_nat (run_length s)) with
    (Z.to_nat (run_length r) + S (Z.to_nat (run_length s - run_length r - 1)))%nat in Heq by lia.
  rewrite replicate_add, <- app_assoc in Heq.
  apply app_inj_1 in Heq as [Hv Heq]; [|by rewrite !length_replicate].
  replace (Z.to_nat (run_length r)) with (S (Z.to_nat (run_length r - 1))) in Hv by lia.
  cbn in Hv, Heq. injection Hv as Hv _.
  destruct l as [|x l]; [done|]. apply runs_ok_cons in Hl as [Hx _]. cbn in Heq.
  replace (Z.to_nat (run_length x)) with (S (Z.to_nat (run_length x - 1))) in Heq by lia.
  cbn in Heq. injection Heq as Hxv _. apply canonical_cons in Hc as [Hne _]. congruence.
Qed.

Lemma runs_values_nonempty r l : runs_ok (r :: l) ->
  runs_values (r :: l) = value r :: runs_values (mk_run (value r) (run_length r - 1) :: l).
Proof.
  intros [Hr _]%runs_ok_cons. cbn.
  replace (Z.to_nat (run_length r)) with (S (Z.to_nat (run_length r - 1))) by lia. done.
Qed.

Lemma canonical_unique l k : runs_ok l -> runs_ok k -> canonical l -> canonical k ->
  runs_values l = runs_values k -> l = k.
Proof.
  revert k. induction l as [|r l IH]; intros [|s k] Hl Hk Hcl Hck Heq; [done| | |].
  - by rewrite runs_values_nonempty in Heq.
  - by rewrite runs_values_nonempty in Heq.
  - assert (Hv : value r = value s)
      by (rewrite (runs_values_nonempty r l Hl), (runs_values_nonempty s k Hk) in Heq; congruence).
    assert (Hn : run_length r = run_length s).
    { apply Z.le_antisymm; eapply canonical_head_le; done. }
    destruct r as [v n], s as [v' m]. cbn in Hv, Hn. subst v' m. f_equal.
    cbn in Heq. apply app_inv_head in Heq.
    apply runs_ok_cons in Hl as [_ Hl], Hk as [_ Hk].
    apply IH; [done|done| | |done]; [by apply Sorted_inv in Hcl as []|by apply Sorted_inv in Hck as []].
Qed.

(** ** The reference replacement *)

Lemma reference_replace_ok l s e rs : runs_ok l -> runs_ok rs -> runs_ok (reference_replace l s e rs).
Proof. intros. unfold reference_replace. auto using glue_ok, rle_take_ok, rle_drop_ok. Qed.

Lemma reference_replace_canonical l s e rs :
  canonical l -> canonical rs -> canonical (reference_replace l s e rs).
Proof. intros. unfold reference_replace. auto using glue_canonical, rle_take_canonical, rle_drop_canonical. Qed.

Lemma reference_replace_values l s e rs : runs_ok l -> runs_ok rs -> 0 <= s -> 0 <= e ->
  runs_values (reference_replace l s e rs)
  = take (Z.to_nat s) (runs_values l) ++ runs_values rs ++ drop (Z.to_nat e) (runs_values l).
Proof.
  intros. unfold reference_replace.
  rewrite !glue_values, rle_take_values, rle_drop_values, <- app_assoc
    by auto using glue_ok, rle_take_ok, rle_drop_ok. done.
Qed.
End Values.
