(* ===== verification/RleReplace.v ===== *)
(** * The scanner and the in-place replacement of [Rle.v]

    [located] says where the scanner stops.  The steps of
    [_replace_unchecked] are taken two by two: [steps23_spec] gives the vector
    with the lengths adjusted, [step456_spec] the vector with the replacements
    in place, [step7_spec] the joined runs; together they are the reference
    replacement. *)

From S2P Require Import Prelude Rle RleFacts.

Section Replace.
Context {T : Type} `{EqDecision T} `{Inhabited T} (W : Z).
Abbreviation run := (rle_pair T).

Definition rle_wf (r : basic_rle T) : Prop :=
  runs_ok (_runs r) /\ total (_runs r) = _total_length r /\ _total_length r < 2 ^ W.

Lemma narrow_small z : 0 <= z < 2 ^ W -> narrow W z = z.
Proof. apply Z.mod_small. Qed.

Lemma set_length_small n (r : run) : 0 <= n < 2 ^ W -> set_length W n r = mk_run (value r) n.
Proof. intros Hn. unfold set_length. cbn. by rewrite narrow_small. Qed.

Lemma add_length_small n (r : run) : 0 <= run_length r + n < 2 ^ W ->
  add_length W n r = mk_run (value r) (run_length r + n).
Proof. apply set_length_small. Qed.

(** ** The vector *)

Lemma vec_update_app l (x : run) k f : vec_update (l ++ x :: k) (length l) f = Done (l ++ f x :: k).
Proof.
  unfold vec_update. rewrite deref_app. cbn. by rewrite insert_app_r_alt, Nat.sub_diag by lia.
Qed.

Lemma erase_app (l m k : list run) i j : i = length l -> j = (length l + length m)%nat ->
  erase (l ++ m ++ k) i j = Done (l ++ k).
Proof.
  intros -> ->. unfold erase. rewrite !length_app.
  rewrite (proj2 (Nat.leb_le _ _)), (proj2 (Nat.leb_le _ _)) by lia. cbn.
  rewrite take_app_length. by rewrite app_assoc, <- length_app, drop_app_length.
Qed.

Lemma insert_at_app (l k xs : list run) i : i = length l -> insert_at (l ++ k) i xs = Done (l ++ xs ++ k).
Proof.
  intros ->. unfold insert_at. rewrite length_app, (proj2 (Nat.leb_le _ _)) by lia.
  by rewrite take_app_length, drop_app_length.
Qed.

Lemma copy_to_app (l m k xs : list run) i : i = length l -> length xs = length m ->
  copy_to (l ++ m ++ k) i xs = Done (l ++ xs ++ k, (i + length xs)%nat).
Proof.
  intros -> Hm. unfold copy_to. rewrite !length_app, Hm, (proj2 (Nat.leb_le _ _)) by lia.
  rewrite take_app_length. do 4 f_equal. by rewrite app_assoc, <- length_app, drop_app_length.
Qed.

(** ** The scanner *)

(** The run and the position within it that hold the value at [index]. *)
Inductive located (runs : list run) (index : Z) : nat -> Z -> Prop :=
| located_in l r k pos :
    runs = l ++ r :: k -> index = total l + pos -> 0 <= pos < run_length r ->
    located runs index (length l) pos
| located_end : index = total runs -> located runs index (length runs) 0.

Lemma scan_loop_spec l rest index :
  runs_ok rest -> 0 <= total l -> total (l ++ rest) < 2 ^ W -> total l <= index <= total (l ++ rest) ->
  exists it pos, scan_loop W rest (length l) (total l) index = (mk_scanner it (index - pos), (it, pos))
    /\ located (l ++ rest) index it pos /\ (length l <= it)%nat.
Proof.
  revert l. induction rest as [|r rest IH]; intros l Hok Hl Hw Hi.
  - rewrite app_nil_r in *. exists (length l), 0. cbn. split; [do 2 f_equal; lia|].
    split; [|lia]. apply located_end. lia.
  - apply runs_ok_cons in Hok as [Hr Hok]. pose proof (runs_total_nonneg rest Hok).
    assert (Hsplit : l ++ r :: rest = (l ++ [r]) ++ rest) by by rewrite <- app_assoc.
    assert (Hlr : total (l ++ [r]) = total l + run_length r) by (rewrite total_app; cbn; lia).
    rewrite Hsplit, total_app, Hlr in Hw, Hi.
    cbn [scan_loop]. rewrite narrow_small by lia.
    destruct (Z.gtb_spec (total l + run_length r) index).
    + exists (length l), (index - total l). rewrite narrow_small by lia.
      split; [do 2 f_equal; lia|]. split; [|lia]. apply located_in with r rest; [done|lia|lia].
    + destruct (IH (l ++ [r])) as (it & pos & Hs & Hloc & Hle); [done|rewrite ?total_app; cbn; lia..|].
      rewrite length_app, Hlr in *. cbn [length] in *.
      replace (length l + 1)%nat with (S (length l)) in * by lia.
      exists it, pos. rewrite Hs, Hsplit. repeat split; [done|lia].
Qed.

Lemma scan_spec runs index : runs_ok runs -> total runs < 2 ^ W -> 0 <= index <= total runs ->
  exists it pos, scan W runs scanner_begin index = (mk_scanner it (index - pos), (it, pos))
    /\ located runs index it pos.
Proof.
  intros Hok Hw Hi. destruct (scan_loop_spec [] runs index) as (it & pos & Hs & Hl & _); [done..|].
  exists it, pos. split; [exact Hs|exact Hl].
Qed.

Lemma located_split runs index it pos : located runs index it pos ->
  exists l k, runs = l ++ k /\ it = length l /\ index = total l + pos /\
    match k with [] => pos = 0 | r :: _ => 0 <= pos < run_length r end.
Proof.
  intros [l r k p -> -> Hp| ->]; [by exists l, (r :: k)|].
  exists runs, []. rewrite app_nil_r. repeat split; lia.
Qed.

(** The scanner goes on from where it is. *)
Lemma scan_again runs i it pos j : runs_ok runs -> total runs < 2 ^ W ->
  located runs i it pos -> i <= j <= total runs ->
  exists it' pos', scan W runs (mk_scanner it (i - pos)) j = (mk_scanner it' (j - pos'), (it', pos'))
    /\ located runs j it' pos' /\ (it <= it')%nat.
Proof.
  intros Hok Hw Hloc Hj. destruct (located_split _ _ _ _ Hloc) as (l & k & -> & -> & -> & Hk).
  unfold scan. cbn [sc_it sc_total]. rewrite drop_app_length.
  apply runs_ok_app in Hok as [Hl Hok]. pose proof (runs_total_nonneg l Hl).
  replace (total l + pos - pos) with (total l) by lia.
  apply scan_loop_spec; [done|lia|done|].
  split; [|lia]. destruct k; lia.
Qed.

(** ** The cuts of the reference replacement *)

Definition tail_run (runs : list run) (b : nat) (bp : Z) : list run :=
  if bp =? 0 then [] else match runs !! b with Some r => [mk_run (value r) bp] | None => [] end.

Definition shorten (ep : Z) (runs : list run) : list run :=
  match runs with
  | [] => []
  | r :: k => mk_run (value r) (run_length r - ep) :: k
  end.

Lemma rle_take_app (l k : list run) n : runs_ok l -> 0 <= n -> rle_take (total l + n) (l ++ k) = l ++ rle_take n k.
Proof.
  induction l as [|r l IH]; [done|]. intros [Hr Hl]%runs_ok_cons Hn. cbn.
  pose proof (runs_total_nonneg l Hl).
  destruct (Z.leb_spec (run_length r + total l + n) 0); [lia|].
  destruct (Z.ltb_spec (run_length r + total l + n) (run_length r)); [lia|].
  f_equal. rewrite <- IH by done. f_equal. lia.
Qed.

Lemma rle_drop_app (l k : list run) n : runs_ok l -> 0 <= n -> rle_drop (total l + n) (l ++ k) = rle_drop n k.
Proof.
  induction l as [|r l IH]; [done|]. intros [Hr Hl]%runs_ok_cons Hn. cbn.
  pose proof (runs_total_nonneg l Hl).
  destruct (Z.leb_spec (run_length r + total l + n) 0); [lia|].
  destruct (Z.ltb_spec (run_length r + total l + n) (run_length r)); [lia|].
  rewrite <- IH by done. f_equal. lia.
Qed.

Lemma located_take runs i it pos : runs_ok runs -> located runs i it pos ->
  rle_take i runs = take it runs ++ tail_run runs it pos.
Proof.
  intros Hok Hloc. destruct (located_split _ _ _ _ Hloc) as (l & k & -> & -> & -> & Hk).
  apply runs_ok_app in Hok as [Hl _].
  rewrite rle_take_app by (destruct k; lia || done). rewrite take_app_length. f_equal.
  unfold tail_run. destruct k as [|r k].
  - by subst pos.
  - rewrite list_lookup_middle by done. cbn.
    destruct (Z.eqb_spec pos 0), (Z.leb_spec pos 0), (Z.ltb_spec pos (run_length r)); lia || done.
Qed.

Lemma located_drop runs i it pos : runs_ok runs -> located runs i it pos ->
  rle_drop i runs = shorten pos (drop it runs).
Proof.
  intros Hok Hloc. destruct (located_split _ _ _ _ Hloc) as (l & k & -> & -> & -> & Hk).
  apply runs_ok_app in Hok as [Hl _].
  rewrite rle_drop_app by (destruct k; lia || done). rewrite drop_app_length.
  destruct k as [|[v n] k]; [done|]. cbn in *.
  destruct (Z.leb_spec pos 0), (Z.ltb_spec pos n); try lia; try done.
  by replace (n - pos) with n by lia.
Qed.

Lemma shorten_0 (runs : list run) : shorten 0 runs = runs.
Proof. destruct runs as [|[v n] k]; cbn; by rewrite ?Z.sub_0_r. Qed.

(** ** The steps *)

Definition fits (runs : list run) : Prop := Forall (fun r => 0 < run_length r < 2 ^ W) runs.

Lemma fits_of_ok runs : runs_ok runs -> total runs < 2 ^ W -> fits runs.
Proof.
  induction runs as [|r l IH]; [constructor|]. intros [Hr Hl]%runs_ok_cons. cbn.
  intros Ht. pose proof (runs_total_nonneg l Hl). constructor; [lia|]. apply IH; [done|lia].
Qed.

(** What [Step2] and [Step3] leave: [L] before the range, [M] the space in
    it, and [K] after it, a split run being kept aside as trailer. *)
Inductive spliced (runs' : list run) (b' e : nat) (L R : list run) : option run -> Prop :=
| spliced_space M K :
    runs' = L ++ M ++ K -> b' = length L -> e = (length L + length M)%nat -> R = K ->
    spliced runs' b' e L R None
| spliced_trailer t K :
    runs' = L ++ K -> b' = length L -> (e < b')%nat -> R = t :: K ->
    spliced runs' b' e L R (Some t).

Lemma step3_end_spec (L : list run) k ep : fits k -> 0 <= ep ->
  match k with [] => ep = 0 | r :: _ => ep < run_length r end ->
  (if negb (ep =? 0) then vec_update (L ++ k) (length L) (add_length W (- ep)) else Done (L ++ k))
  = Done (L ++ shorten ep k).
Proof.
  intros Hf Hep Hk. destruct (Z.eqb_spec ep 0) as [->|]; cbn; [by rewrite shorten_0|].
  destruct k as [|r k]; [lia|]. apply Forall_cons_iff in Hf as [Hr _].
  rewrite vec_update_app, add_length_small by lia. done.
Qed.

Lemma steps23_spec l m k bp ep : fits (l ++ m ++ k) -> 0 <= bp -> 0 <= ep ->
  match m ++ k with [] => bp = 0 | r :: _ => bp < run_length r end ->
  match k with [] => ep = 0 | r :: _ => ep < run_length r end ->
  let runs := l ++ m ++ k in let b := length l in let e := (length l + length m)%nat in
  exists tr ep' runs' b',
    replace_step2 W runs b bp e ep = Done (tr, ep') /\
    replace_step3 W runs b bp e ep' = Done (runs', b') /\
    spliced runs' b' e (l ++ tail_run runs b bp) (shorten ep k) tr.
Proof.
  intros Hf Hbp Hep Hb He runs b e. unfold replace_step2, replace_step3, runs, b, e, tail_run.
  apply Forall_app in Hf as [_ [Hm Hk]%Forall_app].
  destruct (Z.eqb_spec bp 0) as [->|Hne]; cbn.
  - rewrite andb_false_r. exists None, ep, (l ++ m ++ shorten ep k), (length l).
    split; [done|]. rewrite !app_assoc, <- length_app, step3_end_spec by done.
    split; [done|]. apply spliced_space with m (shorten ep k); rewrite ?app_nil_r, ?length_app; try done.
    by rewrite <- app_assoc.
  - destruct m as [|r m].
    + cbn in *. rewrite Nat.add_0_r, Nat.eqb_refl. cbn. destruct k as [|r k]; [lia|].
      apply Forall_cons_iff in Hk as [Hr Hk].
      rewrite deref_app, list_lookup_middle by done. cbn. rewrite narrow_small by lia.
      exists (Some (mk_run (value r) (run_length r - ep))), 0, (l ++ mk_run (value r) bp :: k), (S (length l)).
      split; [done|]. rewrite vec_update_app, set_length_small by lia. cbn. split; [done|].
      apply spliced_trailer with k; rewrite <- ?app_assoc, ?length_app; cbn; lia || done.
    + cbn in *. apply Forall_cons_iff in Hm as [Hr Hm].
      rewrite (proj2 (Nat.eqb_neq _ _)) by lia. cbn.
      rewrite vec_update_app, set_length_small, list_lookup_middle by lia || done. cbn.
      exists None, ep, ((l ++ mk_run (value r) bp :: m) ++ shorten ep k), (S (length l)).
      split; [done|].
      replace (l ++ mk_run (value r) bp :: m ++ k) with ((l ++ mk_run (value r) bp :: m) ++ k)
        by by rewrite <- app_assoc.
      replace (length l + S (length m))%nat with (length (l ++ mk_run (value r) bp :: m))
        by by rewrite length_app.
      rewrite step3_end_spec by done. split; [done|].
      apply spliced_space with m (shorten ep k); rewrite <- ?app_assoc, ?length_app; cbn; lia || done.
Qed.

Lemma step456_spec runs' b' e L R tr repl : spliced runs' b' e L R tr ->
  replace_step456 runs' b' e repl tr = Done (L ++ repl ++ R).
Proof.
  intros [M K -> -> -> ->|t K -> -> He ->]; unfold replace_step456.
  - assert (Hav : (if (length L <? length L + length M)%nat then length L + length M - length L else 0)%nat
                  = length M) by (destruct (Nat.ltb_spec (length L) (length L + length M)); lia).
    rewrite Hav, Nat.add_0_r.
    remember (length M `min` length repl)%nat as d eqn:Hd.
    rewrite <- (take_drop d M) at 1. rewrite <- app_assoc.
    rewrite copy_to_app by (rewrite ?length_take; lia). cbn [obind].
    destruct (Nat.leb_spec (length repl) (length M)) as [Hle|Hgt].
    + rewrite (take_ge repl) by lia. rewrite app_assoc.
      rewrite erase_app; [by rewrite <- app_assoc|by rewrite length_app|].
      rewrite length_app, length_drop. lia.
    + rewrite (drop_ge M) by lia. cbn [app]. rewrite app_assoc.
      rewrite insert_at_app by by rewrite length_app.
      rewrite <- app_assoc, (app_assoc (take d repl)), take_drop. done.
  - rewrite (proj2 (Nat.ltb_ge _ _)) by lia. cbn [Nat.min].
    rewrite <- (app_nil_l K) at 1. rewrite copy_to_app by done. cbn [obind app take drop length].
    rewrite (proj2 (Nat.leb_gt _ _)), Nat.add_0_r, insert_at_app by lia. cbn [obind].
    rewrite take_0, drop_0, Nat.sub_0_r, replicate_add, <- app_assoc.
    rewrite copy_to_app by (rewrite ?length_replicate; lia). cbn [obind].
    rewrite app_assoc, <- length_app. cbn [replicate app]. rewrite vec_update_app.
    by rewrite <- !app_assoc.
Qed.

(** A position of the scanner within the vector. *)
Definition inside (runs : list run) (b : nat) (bp : Z) : Prop :=
  (b <= length runs)%nat /\ 0 <= bp /\ match drop b runs with [] => bp = 0 | r :: _ => bp < run_length r end.

Lemma located_inside runs i it pos : located runs i it pos -> inside runs it pos.
Proof.
  intros Hloc. destruct (located_split _ _ _ _ Hloc) as (l & k & -> & -> & -> & Hk).
  unfold inside. rewrite drop_app_length, length_app. destruct k; repeat split; lia.
Qed.

Lemma inside_0 runs b : runs_ok runs -> (b <= length runs)%nat -> inside runs b 0.
Proof.
  intros Hok Hb. repeat split; [done|done|]. pose proof (proj1 (Forall_forall _ _) Hok) as Hin.
  destruct (drop b runs) as [|r k] eqn:Hd; [done|]. apply Hin.
  rewrite <- (take_drop b runs), Hd. apply in_elt.
Qed.

Lemma tail_run_0 runs b : tail_run runs b 0 = [].
Proof. done. Qed.

Lemma tail_run_pos l (r : run) k p : p <> 0 -> tail_run (l ++ r :: k) (length l) p = [mk_run (value r) p].
Proof. intros Hp. unfold tail_run. rewrite list_lookup_middle by done. by rewrite (proj2 (Z.eqb_neq _ _) Hp). Qed.

(** [previous_run] is the last run of what is kept on the left. *)
Lemma previous_run_spec runs s b bp : runs_ok runs -> located runs s b bp -> s <> 0 ->
  exists p l r k, runs = l ++ r :: k /\ p = length l /\ previous_run b bp = Done p /\ (p <= b)%nat /\
    rle_take s runs = l ++ [mk_run (value r) (if negb (bp =? 0) then bp else run_length r)] /\
    0 < (if negb (bp =? 0) then bp else run_length r).
Proof.
  intros Hok Hloc Hs. rewrite (located_take _ _ _ _ Hok Hloc).
  destruct (located_split _ _ _ _ Hloc) as (l & k & -> & -> & -> & Hk).
  rewrite take_app_length. unfold previous_run. destruct (Z.eqb_spec bp 0) as [->|Hbp].
  - destruct l as [|r l _] using rev_ind; [cbn in Hs; lia|].
    apply runs_ok_app in Hok as [[_ [Hr _]%runs_ok_cons]%runs_ok_app _].
    exists (length l), l, r, k. rewrite length_app, Nat.add_1_r, tail_run_0, app_nil_r, <- app_assoc.
    destruct r. repeat split; cbn in *; lia || done.
  - destruct k as [|r k]; [lia|]. exists (length l), l, r, k.
    rewrite tail_run_pos by done. repeat split; cbn; lia || done.
Qed.

Lemma step1_begin_spec runs s b bp front rest : runs_ok runs -> located runs s b bp -> 0 <= s ->
  exists addb b1 bp1, replace_step1_begin runs s b bp front = Done (addb, b1, bp1) /\
    inside runs b1 bp1 /\ (b1 <= b)%nat /\ 0 <= addb /\ (bp1 <> 0 -> b1 = b /\ bp1 = bp) /\
    glue (rle_take s runs) (front :: rest)
    = (take b1 runs ++ tail_run runs b1 bp1) ++ mk_run (value front) (run_length front + addb) :: rest.
Proof.
  intros Hok Hloc Hs. unfold replace_step1_begin. destruct front as [fv fn]. cbn [value run_length].
  pose proof (located_inside _ _ _ _ Hloc) as Hin.
  destruct (Z.eqb_spec s 0) as [->|Hs0]; cbn [negb].
  - exists 0, b, bp. rewrite <- (located_take _ _ _ _ Hok Hloc), Z.add_0_r.
    assert (Ht : rle_take 0 runs = []) by by destruct runs. rewrite Ht. split_and!; lia || done.
  - destruct (previous_run_spec _ _ _ _ Hok Hloc Hs0) as (p & l & r & k & Hr & Hp & Hprev & Hle & Htake & Hpos).
    assert (Hd : deref runs p = Done r) by (rewrite Hr, Hp; apply deref_app).
    rewrite Hprev. cbn [obind]. rewrite Hd. cbn [obind]. subst p.
    destruct (bool_decide_reflect (value r = fv)) as [Hv|Hv].
    + exists (if negb (bp =? 0) then bp else run_length r), (length l), 0. split; [done|].
      split; [apply inside_0; [done|]; rewrite Hr, length_app; lia|].
      split_and!; try done; [lia|]. rewrite Htake, tail_run_0, app_nil_r, Hr, take_app_length, Hv, glue_join.
      by rewrite Z.add_comm.
    + exists 0, b, bp. rewrite <- (located_take _ _ _ _ Hok Hloc), Z.add_0_r, Htake, glue_apart by done.
      split_and!; lia || done.
Qed.

Lemma located_total runs e ep : runs_ok runs -> located runs (total runs) e ep -> shorten ep (drop e runs) = [].
Proof.
  intros Hok Hloc. destruct (located_split _ _ _ _ Hloc) as (l & k & -> & -> & Ht & Hk).
  rewrite drop_app_length. apply runs_ok_app in Hok as [_ Hk']. rewrite total_app in Ht.
  destruct k as [|r k]; [done|]. apply runs_ok_cons in Hk' as [Hr Hk'].
  pose proof (runs_total_nonneg k Hk'). cbn in Ht. lia.
Qed.

Lemma located_not_total runs i it pos : runs_ok runs -> located runs i it pos -> i <> total runs ->
  exists l r k, runs = l ++ r :: k /\ it = length l /\ 0 <= pos < run_length r.
Proof. intros Hok [l r k p -> -> Hp| ->] Hne; [by exists l, r, k|done]. Qed.

Lemma step1_end_spec r e en ep (back : run) : rle_wf r -> located (_runs r) e en ep ->
  exists adde e1 ep1, replace_step1_end W r e en ep back = Done (adde, e1, ep1) /\
    inside (_runs r) e1 ep1 /\ 0 <= adde /\ (adde <> 0 -> (en < e1)%nat) /\ (en <= e1)%nat /\
    (e1 = en -> ep1 = ep) /\
    (forall X x, value x = value back -> glue (X ++ [x]) (rle_drop e (_runs r))
       = X ++ mk_run (value x) (run_length x + adde) :: shorten ep1 (drop e1 (_runs r))).
Proof.
  intros (Hok & Ht & Hw) Hloc. unfold replace_step1_end. rewrite <- Ht.
  pose proof (located_inside _ _ _ _ Hloc) as Hin. rewrite (located_drop _ _ _ _ Hok Hloc).
  destruct (Z.eqb_spec e (total (_runs r))) as [->|He]; cbn [negb].
  - exists 0, en, ep. split_and!; try done. intros X [v n] _.
    rewrite (located_total _ _ _ Hok Hloc), glue_nil_r. cbn. by rewrite Z.add_0_r.
  - destruct (located_not_total _ _ _ _ Hok Hloc He) as (l & q & k & Hr & -> & Hp).
    pose proof (fits_of_ok _ Hok ltac:(lia)) as Hf. rewrite Hr in *. rewrite deref_app. cbn [obind].
    apply Forall_app in Hf as [_ [Hq _]%Forall_cons_iff].
    destruct (bool_decide_reflect (value q = value back)) as [Hv|Hv].
    + rewrite narrow_small by lia. exists (run_length q - ep), (S (length l)), 0.
      split; [done|]. split; [apply inside_0; [done|]; rewrite length_app; cbn; lia|].
      split_and!; try lia. intros X [v n] Hx. cbn in Hx. subst v.
      rewrite shorten_0, drop_app_length, drop_app_ge by lia.
      replace (S (length l) - length l)%nat with 1%nat by lia. cbn. rewrite <- Hv.
      by rewrite glue_join.
    + exists 0, (length l), ep. split_and!; try done.
      intros X [v n] Hx. cbn in Hx. subst v. cbn [value run_length]. rewrite Z.add_0_r, drop_app_length. cbn [shorten].
      rewrite glue_apart by (cbn; congruence). by rewrite <- app_assoc.
Qed.

(** ** Totals of the cuts *)

Lemma located_totals runs i it pos : runs_ok runs -> located runs i it pos ->
  total (rle_take i runs) = i /\ total (rle_drop i runs) = total runs - i.
Proof.
  intros Hok Hloc. rewrite (located_take _ _ _ _ Hok Hloc), (located_drop _ _ _ _ Hok Hloc).
  destruct (located_split _ _ _ _ Hloc) as (l & k & -> & -> & -> & Hk).
  rewrite take_app_length, drop_app_length, !total_app. unfold tail_run.
  destruct k as [|r k]; [subst pos; cbn; lia|]. rewrite list_lookup_middle by done.
  destruct (Z.eqb_spec pos 0); cbn; lia.
Qed.

Lemma reference_total runs s b bp e en ep repl : runs_ok runs ->
  located runs s b bp -> located runs e en ep ->
  total (glue (rle_take s runs) repl) = s + total repl /\
  total (reference_replace runs s e repl) = total runs - (e - s) + total repl.
Proof.
  intros Hok Hb He. unfold reference_replace. rewrite !glue_total.
  destruct (located_totals _ _ _ _ Hok Hb) as [-> _], (located_totals _ _ _ _ Hok He) as [_ ->]. lia.
Qed.

Lemma step8_spec t s e (repl : list run) : runs_ok repl -> 0 <= t - (e - s) -> t - (e - s) + total repl < 2 ^ W ->
  replace_step8 W t s e repl = t - (e - s) + total repl.
Proof.
  unfold replace_step8. generalize (t - (e - s)). clear t s e.
  induction repl as [|r l IH]; intros n Hok Hn Hw.
  - cbn in *. rewrite narrow_small by lia. lia.
  - apply runs_ok_cons in Hok as [Hr Hl]. pose proof (runs_total_nonneg l Hl). cbn in *.
    rewrite (narrow_small n) by lia. rewrite IH by (done || lia). lia.
Qed.

(** ** Joining the additional lengths *)

Lemma maybe_add_length L (x : run) k n : 0 <= n -> 0 <= run_length x + n < 2 ^ W ->
  (if negb (n =? 0) then vec_update (L ++ x :: k) (length L) (add_length W n) else Done (L ++ x :: k))
  = Done (L ++ mk_run (value x) (run_length x + n) :: k).
Proof.
  intros Hn Hx. destruct (Z.eqb_spec n 0) as [->|]; cbn [negb].
  - destruct x. cbn. by rewrite Z.add_0_r.
  - by rewrite vec_update_app, add_length_small.
Qed.

Lemma step7_spec L (front : run) rest X x R req addb adde :
  mk_run (value front) (run_length front + addb) :: rest = X ++ [x] ->
  0 <= addb -> 0 <= adde -> (adde <> 0 -> req = length (front :: rest)) ->
  0 <= run_length front + addb < 2 ^ W -> 0 <= run_length x + adde < 2 ^ W ->
  replace_step7 W (L ++ (front :: rest) ++ R) (length L) req addb adde
  = Done (L ++ X ++ mk_run (value x) (run_length x + adde) :: R).
Proof.
  intros HX Hb He Hreq Hbw Hew. unfold replace_step7. cbn [app].
  rewrite maybe_add_length by done. cbn [obind].
  assert (Hl : length (front :: rest) = S (length X)).
  { change (length (mk_run (value front) (run_length front + addb) :: rest) = S (length X)).
    rewrite HX, length_app. cbn. lia. }
  assert (Hs : L ++ mk_run (value front) (run_length front + addb) :: rest ++ R = (L ++ X) ++ x :: R).
  { rewrite app_comm_cons, HX, <- !app_assoc. done. }
  rewrite Hs. destruct (Z.eqb_spec adde 0) as [->|Hne].
  - cbn. destruct x. cbn. by rewrite Z.add_0_r, <- app_assoc.
  - replace (length L + req - 1)%nat with (length (L ++ X)) by (rewrite length_app, Hreq, Hl by done; lia).
    cbn [negb]. by rewrite vec_update_app, add_length_small, <- app_assoc.
Qed.

Lemma back_joined (front : run) rest X x n :
  mk_run (value front) n :: rest = X ++ [x] -> value x = value (back front (front :: rest)).
Proof.
  destruct rest as [|y rest _] using rev_ind.
  - destruct X as [|? [|]]; intros [=]; by subst.
  - intros Hx. rewrite app_comm_cons in Hx. apply app_inj_tail in Hx as [_ ->].
    by rewrite app_comm_cons, back_snoc.
Qed.

Lemma inside_parts runs b bp e ep : inside runs b bp -> inside runs e ep -> (b <= e)%nat ->
  exists l m k, runs = l ++ m ++ k /\ b = length l /\ e = (length l + length m)%nat /\
    take b runs = l /\ drop e runs = k /\ 0 <= bp /\ 0 <= ep /\
    match m ++ k with [] => bp = 0 | r :: _ => bp < run_length r end /\
    match k with [] => ep = 0 | r :: _ => ep < run_length r end.
Proof.
  intros (Hb & Hbp & Hb') (He & Hep & He') Hbe.
  exists (take b runs), (drop b (take e runs)), (drop e runs).
  assert (Hmk : drop b (take e runs) ++ drop e runs = drop b runs).
  { rewrite <- (take_drop e runs) at 3. by rewrite drop_app_le by (rewrite length_take; lia). }
  rewrite Hmk, take_drop, length_drop, !length_take. split_and!; lia || done.
Qed.

(** ** The replacement is the reference replacement *)

Lemma replace_nonempty_spec r s e b bp en ep front rest (repl := front :: rest) :
  rle_wf r -> runs_ok repl -> 0 <= s <= e ->
  located (_runs r) s b bp -> located (_runs r) e en ep -> (b <= en)%nat ->
  total (_runs r) - (e - s) + total repl < 2 ^ W ->
  (let* (addb, b, bp) := replace_step1_begin (_runs r) s b bp front in
   let* (adde, en, ep) := replace_step1_end W r e en ep (back front repl) in
   let* (tr, ep) := replace_step2 W (_runs r) b bp en ep in
   let* (runs, b) := replace_step3 W (_runs r) b bp en ep in
   let* runs' := replace_step456 runs b en repl tr in
   replace_step7 W runs' b (length repl + (if tr is Some _ then 1 else 0)) addb adde)
  = Done (reference_replace (_runs r) s e repl).
Proof.
  intros Hwf Hrepl Hs Hb He Hbe Hnew. pose proof Hwf as (Hok & Ht & Hw).
  destruct (reference_total _ _ _ _ _ _ _ repl Hok Hb He) as [Ht1 Ht2].
  destruct (step1_begin_spec _ _ _ _ front rest Hok Hb ltac:(lia))
    as (addb & b1 & bp1 & -> & Hin1 & Hb1 & Haddb & _ & Hg1).
  destruct (step1_end_spec _ _ _ _ (back front repl) Hwf He)
    as (adde & e1 & ep1 & -> & Hin2 & Hadde & Hlt & Hen & _ & Hg2).
  assert (Hokg : runs_ok (glue (rle_take s (_runs r)) repl)) by auto using glue_ok, rle_take_ok.
  assert (Hok2 : runs_ok (reference_replace (_runs r) s e repl)) by by apply reference_replace_ok.
  assert (He2 : e <= total (_runs r)).
  { pose proof (runs_total_nonneg _ (rle_drop_ok e _ Hok)). destruct (located_totals _ _ _ _ Hok He). lia. }
  assert (Hf1 : fits (glue (rle_take s (_runs r)) repl)) by (apply fits_of_ok; [done|lia]).
  assert (Hf2 : fits (reference_replace (_runs r) s e repl)) by (apply fits_of_ok; [done|lia]).
  unfold reference_replace in *. fold repl in Hg1. rewrite Hg1 in *.
  destruct (exists_last (l := mk_run (value front) (run_length front + addb) :: rest) ltac:(done))
    as (X & x & HX).
  rewrite HX, app_assoc, (Hg2 _ x) in * by by eapply back_joined.
  destruct (inside_parts _ _ _ _ _ Hin1 Hin2 ltac:(lia))
    as (l & m & k & Hr & Hbl & Hel & Htk & Hdk & Hp1 & Hp2 & Hm & Hk).
  pose proof (fits_of_ok _ Hok ltac:(lia)) as Hf. rewrite Hr in Hf.
  destruct (steps23_spec l m k bp1 ep1 Hf Hp1 Hp2 Hm Hk) as (tr & ep' & runs' & b' & H2 & H3 & Hsp).
  cbv zeta in H2, H3, Hsp. rewrite <- Hr, <- Hel, <- Hbl in H2, H3, Hsp. cbn [obind]. rewrite H2. cbn [obind]. rewrite H3. cbn [obind].
  rewrite (step456_spec _ _ _ _ _ _ _ Hsp). cbn [obind]. rewrite Htk, Hdk in *.
  replace b' with (length (l ++ tail_run (_runs r) b1 bp1)) by by destruct Hsp.
  rewrite <- (app_assoc _ X). apply step7_spec; try done.
  - intros Hne. destruct Hsp as [|t K HK Hb' Hlt' HR]; [apply Nat.add_0_r|]. exfalso. specialize (Hlt Hne).
    unfold tail_run in Hb'. revert Hb'. rewrite length_app, <- Hbl.
    destruct (_runs r !! b1); destruct (bp1 =? 0); cbn; lia.
  - rewrite <- app_assoc, <- HX in Hf1. apply Forall_app in Hf1 as [_ [Hf1 _]%Forall_cons_iff]. cbn in Hf1. lia.
  - apply Forall_app in Hf2 as [_ [Hf2 _]%Forall_cons_iff]. cbn in Hf2. lia.
Qed.

Lemma erase_updated (runs : list run) p en x : (p <= en < length runs)%nat ->
  erase (<[en := x]> runs) p en = Done (take p runs ++ x :: drop (S en) runs).
Proof.
  intros Hp. destruct (lookup_lt_is_Some_2 runs en ltac:(lia)) as [y Hy].
  assert (Hr : runs = take p runs ++ drop p (take en runs) ++ y :: drop (S en) runs).
  { rewrite <- (take_drop_middle runs en y Hy) at 1. rewrite app_assoc. f_equal.
    rewrite <- (take_drop p (take en runs)) at 1. by rewrite take_take, Nat.min_l by lia. }
  assert (Hl : length (take p runs ++ drop p (take en runs)) = en)
    by (rewrite length_app, length_drop, !length_take; lia).
  rewrite Hr at 1. rewrite app_assoc. rewrite <- Hl at 1.
  rewrite insert_app_r_alt, Nat.sub_diag by lia. cbn [insert list_insert]. rewrite <- app_assoc.
  apply erase_app; [rewrite length_take; lia|]. rewrite length_app in Hl. lia.
Qed.

Lemma removal_plain r s e b bp en ep : rle_wf r -> located (_runs r) s b bp -> located (_runs r) e en ep ->
  (b <= en)%nat -> (b = en -> bp = 0) ->
  exists runs b', replace_step3 W (_runs r) b bp en ep = Done (runs, b') /\
    erase runs b' en = Done (rle_take s (_runs r) ++ rle_drop e (_runs r)).
Proof.
  intros (Hok & Ht & Hw) Hb He Hbe Hne.
  pose proof (located_inside _ _ _ _ Hb) as Hin1. pose proof (located_inside _ _ _ _ He) as Hin2.
  destruct (inside_parts _ _ _ _ _ Hin1 Hin2 Hbe) as (l & m & k & Hr & Hbl & Hel & Htk & Hdk & Hp1 & Hp2 & Hm & Hk).
  pose proof (fits_of_ok _ Hok ltac:(lia)) as Hf. rewrite Hr in Hf.
  destruct (steps23_spec l m k bp ep Hf Hp1 Hp2 Hm Hk) as (tr & ep' & runs' & b' & H2 & H3 & Hsp).
  cbv zeta in H2, H3, Hsp. rewrite <- Hr, <- Hel, <- Hbl in H2, H3, Hsp.
  exists runs', b'. rewrite (located_take _ _ _ _ Hok Hb), (located_drop _ _ _ _ Hok He), Htk, Hdk.
  unfold replace_step2 in H2. destruct (Nat.eqb_spec b en) as [Heq|Heq];
    [specialize (Hne Heq); subst bp|]; cbn in H2; injection H2 as <- <-; (split; [done|]);
    inversion Hsp as [M K HK Hb' He' HR|]; rewrite HR, HK, Hb', He'; by apply erase_app.
Qed.

Lemma glue_no_join (l k : list run) : (l = [] \/ k = [] \/
    exists l' a b k', l = l' ++ [a] /\ k = b :: k' /\ value a <> value b) -> glue l k = l ++ k.
Proof.
  intros [-> |[-> |(l' & a & b & k' & -> & -> & Hne)]];
    [done|by rewrite glue_nil_r, app_nil_r|by apply glue_apart].
Qed.

Lemma replace_removal_spec r s e b bp en ep : rle_wf r -> 0 <= s <= e ->
  located (_runs r) s b bp -> located (_runs r) e en ep -> (b <= en)%nat ->
  replace_removal W r s e b bp en ep
  = Done (mk_rle (reference_replace (_runs r) s e []) (_total_length r - (e - s))).
Proof.
  intros Hwf Hs Hb He Hbe. pose proof Hwf as (Hok & Ht & Hw).
  destruct (reference_total _ _ _ _ _ _ _ [] Hok Hb He) as [_ Ht2].
  assert (Hokr : runs_ok (reference_replace (_runs r) s e [])) by (apply reference_replace_ok; [done|constructor]).
  assert (Hfr : fits (reference_replace (_runs r) s e [])) by (apply fits_of_ok; [done|cbn in Ht2; lia]).
  pose proof (runs_total_nonneg _ Hokr) as Hnn. cbn in Ht2.
  unfold replace_removal, reference_replace in *. rewrite glue_nil_r in *.
  rewrite (narrow_small (e - s)), (narrow_small (_total_length r - (e - s))) by lia.
  assert (Hplain : (b = en -> bp = 0) ->
    (rle_take s (_runs r) = [] \/ rle_drop e (_runs r) = [] \/ exists l' x y k',
      rle_take s (_runs r) = l' ++ [x] /\ rle_drop e (_runs r) = y :: k' /\ value x <> value y) ->
    (let* (runs, begin) := replace_step3 W (_runs r) b bp en ep in
     let* runs := erase runs begin en in Done (mk_rle runs (_total_length r - (e - s))))
    = Done (mk_rle (glue (rle_take s (_runs r)) (rle_drop e (_runs r))) (_total_length r - (e - s)))).
  { intros Hne Hg. destruct (removal_plain r s e b bp en ep Hwf Hb He Hbe Hne) as (runs & b' & -> & Her).
    cbn [obind]. rewrite Her, glue_no_join by done. done. }
  destruct (Z.eqb_spec s 0) as [Hs0|Hs0]; cbn [negb andb obind].
  { apply Hplain.
    - intros _. destruct (located_split _ _ _ _ Hb) as (l & k & Hr & _ & Hi & Hk).
      rewrite Hr in Hok. apply runs_ok_app in Hok as [Hl _]. pose proof (runs_total_nonneg l Hl). destruct k; lia.
    - left. subst s. by destruct (_runs r). }
  destruct (Z.eqb_spec e (_total_length r)) as [He0|He0]; cbn [negb andb obind].
  { rewrite <- Ht in He0. subst e. pose proof (located_total _ _ _ Hok He) as Hnil. apply Hplain.
    - intros <-. destruct (located_inside _ _ _ _ Hb) as (_ & _ & Hk). by destruct (drop b (_runs r)).
    - right. left. by rewrite (located_drop _ _ _ _ Hok He). }
  rewrite <- Ht in He0.
  destruct (previous_run_spec _ _ _ _ Hok Hb Hs0) as (p & l & x & k & Hr & Hp & -> & Hle & Htake & _).
  destruct (located_not_total _ _ _ _ Hok He He0) as (l2 & y & k2 & Hr2 & Hen & Hep).
  assert (Hdx : deref (_runs r) p = Done x) by (rewrite Hr, Hp; apply deref_app).
  assert (Hdy : deref (_runs r) en = Done y) by (rewrite Hr2, Hen; apply deref_app).
  assert (Hdrop : rle_drop e (_runs r) = mk_run (value y) (run_length y - ep) :: drop (S en) (_runs r)).
  { rewrite (located_drop _ _ _ _ Hok He), Hr2, Hen, drop_app_length. cbn. f_equal.
    rewrite drop_app_ge by lia. by replace (S (length l2) - length l2)%nat with 1%nat by lia. }
  cbn [obind]. rewrite Hdx, Hdy. cbn [obind].
  destruct (bool_decide_reflect (value x = value y)) as [Hv|Hv].
  - unfold vec_update. rewrite Hdy. cbn [obind]. unfold replace_step3. cbn [negb Z.eqb obind].
    rewrite Htake, Hdrop, Hv, glue_join in *. apply Forall_app in Hfr as [_ [Hfy _]%Forall_cons_iff]. cbn in Hfy.
    rewrite erase_updated by (rewrite Hr2, length_app; cbn; lia). cbn [obind].
    rewrite add_length_small by (destruct (bp =? 0); cbn in *; lia).
    do 3 f_equal; [rewrite Hr, Hp; by rewrite take_app_length|]. do 2 f_equal. lia.
  - cbn [obind]. apply Hplain.
    + intros <-. destruct (Z.eqb_spec bp 0) as [|Hbp]; [done|]. exfalso.
      rewrite (located_take _ _ _ _ Hok Hb), Hr2, Hen, tail_run_pos in Htake by done.
      apply app_inj_tail in Htake as [_ Heq%(f_equal value)]. cbn in Heq. congruence.
    + right. right. eexists _, _, _, _. split; [exact Htake|]. split; [exact Hdrop|]. done.
Qed.

(** The whole of [_replace_unchecked], on every branch. *)
Lemma replace_unchecked_spec r s e repl : rle_wf r -> runs_ok repl -> 0 <= s <= e -> e <= _total_length r ->
  _total_length r - (e - s) + total repl < 2 ^ W ->
  _replace_unchecked W r s e repl
  = Done (mk_rle (reference_replace (_runs r) s e repl) (_total_length r - (e - s) + total repl)).
Proof.
  intros Hwf Hrepl Hs He Hnew. pose proof Hwf as (Hok & Ht & Hw). unfold _replace_unchecked.
  destruct (scan_spec (_runs r) s Hok) as (b & bp & -> & Hb); [lia..|].
  destruct (scan_again (_runs r) s b bp e Hok) as (en & ep & -> & Hen & Hbe); [lia|done|lia|].
  destruct repl as [|front rest].
  - cbn [total]. rewrite Z.add_0_r. by apply replace_removal_spec.
  - rewrite step8_spec by (done || lia).
    pose proof (replace_nonempty_spec r s e b bp en ep front rest Hwf Hrepl Hs Hb Hen Hbe) as Hstep.
    cbv zeta in Hstep. rewrite <- Ht in Hnew. specialize (Hstep Hnew). revert Hstep.
    destruct (replace_step1_begin _ _ _ _ _) as [[[addb b1] bp1]| | |]; cbn [obind]; [|done..].
    destruct (replace_step1_end _ _ _ _ _ _) as [[[adde e1] ep1]| | |]; cbn [obind]; [|done..].
    destruct (replace_step2 _ _ _ _ _ _) as [[tr ep']| | |]; cbn [obind]; [|done..].
    destruct (replace_step3 _ _ _ _ _ _) as [[runs b']| | |]; cbn [obind]; [|done..].
    destruct (replace_step456 _ _ _ _ _) as [runs'| | |]; cbn [obind]; [|done..].
    intros ->. done.
Qed.
End Replace.
