(* ===== verification/RleRefine.v ===== *)
(** * What the run length encoding promises

    Reading, slicing, resizing, [_compact] and the iterator, each against the
    list of values; then the contract of the class as a whole: sequences of
    operations on the runs and on the plain list give the same results and
    the same exceptions. *)

From Stdlib Require Import Sorted.
From S2P Require Import Prelude Rle RleFacts RleReplace.

Section Spec.
Context {T : Type} `{EqDecision T} `{Inhabited T} (W : Z).
Abbreviation run := (rle_pair T).
Implicit Types l k runs rest m repl : list run.

(** ** Values by position *)

Lemma rle_take_run n (q : run) k : 0 < n <= run_length q -> rle_take n (q :: k) = [mk_run (value q) n].
Proof.
  intros Hn. cbn. destruct (Z.leb_spec n 0), (Z.ltb_spec n (run_length q)); try lia; [done|].
  replace n with (run_length q) by lia. rewrite Z.sub_diag. destruct q; by destruct k.
Qed.

Lemma lookup_in_run l (r : run) k pos : runs_ok l -> 0 <= pos < run_length r ->
  runs_values (l ++ r :: k) !! Z.to_nat (total l + pos) = Some (value r).
Proof.
  intros Hl Hp. pose proof (runs_total_nonneg l Hl). rewrite runs_values_app, lookup_app_r
    by (rewrite length_runs_values by done; lia).
  rewrite length_runs_values by done. cbn.
  rewrite lookup_app_l by (rewrite length_replicate; lia).
  apply lookup_replicate_2. lia.
Qed.

Lemma scan_past_end l (rest : list run) index :
  runs_ok rest -> 0 <= total l -> total (l ++ rest) < 2 ^ W -> total (l ++ rest) <= index ->
  snd (scan_loop W rest (length l) (total l) index) = (length (l ++ rest), 0).
Proof.
  revert l. induction rest as [|r rest IH]; intros l Hok Hl Hw Hi; [by rewrite app_nil_r|].
  apply runs_ok_cons in Hok as [Hr Hok]. pose proof (runs_total_nonneg rest Hok).
  specialize (IH (l ++ [r]) Hok). rewrite <- app_assoc, length_app in IH. cbn [app length] in IH.
  rewrite !total_app in *. cbn [total] in *. cbn [scan_loop]. rewrite narrow_small by lia.
  destruct (Z.gtb_spec (total l + run_length r) index); [lia|].
  replace (total l + run_length r) with (total l + (run_length r + 0)) by lia.
  replace (S (length l)) with (length l + 1)%nat by lia. apply IH; lia.
Qed.

(** [at] is the value at the position, or the exception. *)
Lemma rle_at_values (r : basic_rle T) position : rle_wf W r -> 0 <= position ->
  rle_at W r position
  = match runs_values (_runs r) !! Z.to_nat position with Some v => Done v | None => Throws end.
Proof.
  intros (Hok & Ht & Hw) Hp. unfold rle_at.
  destruct (Z.lt_ge_cases position (total (_runs r))) as [Hlt|Hge].
  - destruct (scan_spec W (_runs r) position Hok) as (it & pos & -> & Hloc); [lia..|].
    destruct (located_not_total _ _ _ _ Hok Hloc ltac:(lia)) as (l & q & k & Hr & -> & Hq).
    destruct (located_split _ _ _ _ Hloc) as (l' & k' & Hr' & Hl & -> & _).
    rewrite Hr in Hr'. apply app_inj_1 in Hr' as [<- _]; [|done].
    rewrite Hr, length_app, (proj2 (Nat.eqb_neq _ _)), deref_app by (cbn; lia). cbn [obind].
    rewrite lookup_in_run by (rewrite Hr in Hok; apply runs_ok_app in Hok as [? _]; done). done.
  - pose proof (scan_past_end [] (_runs r) position Hok) as Hs. cbn in Hs.
    unfold scan. cbn. destruct (scan_loop _ _ _ _ _) as [s [it pos]].
    specialize (Hs ltac:(lia) ltac:(lia) ltac:(lia)). injection Hs as -> ->. rewrite Nat.eqb_refl.
    rewrite lookup_ge_None_2; [done|]. rewrite length_runs_values by done. lia.
Qed.

(** ** Resizing *)

Lemma resize_shrink (r : basic_rle T) n : rle_wf W r -> 0 < n < _total_length r ->
  resize_trailing_extent W r n = Done (mk_rle (rle_take n (_runs r)) n).
Proof.
  intros (Hok & Ht & Hw) Hn. unfold resize_trailing_extent.
  rewrite (proj2 (Z.eqb_neq n 0)), (proj2 (Z.ltb_lt _ _)) by lia. rewrite narrow_small by lia.
  destruct (scan_spec W (_runs r) (n - 1) Hok) as (it & pos & -> & Hloc); [lia..|].
  destruct Hloc as [l q k pos Hr Hi Hq|]; [|lia].
  pose proof (fits_of_ok W _ Hok ltac:(lia)) as Hf. rewrite Hr in *.
  apply Forall_app in Hf as [_ [Hfq _]%Forall_cons_iff]. apply runs_ok_app in Hok as [Hl _].
  rewrite vec_update_app, set_length_small by lia. cbn [obind].
  replace (l ++ mk_run (value q) (pos + 1) :: k) with ((l ++ [mk_run (value q) (pos + 1)]) ++ k ++ [])
    by (rewrite <- app_assoc; cbn; by rewrite app_nil_r).
  rewrite erase_app by (rewrite !length_app; cbn; lia). cbn [obind]. rewrite app_nil_r.
  replace n with (total l + (pos + 1)) at 2 by lia. rewrite rle_take_app, rle_take_run by (done || lia). done.
Qed.

Lemma resize_grow (r : basic_rle T) n : rle_wf W r -> _total_length r < n < 2 ^ W ->
  resize_trailing_extent W r n
  = match list.last (runs_values (_runs r)) with
    | None => FailFast
    | Some v => Done (mk_rle (glue (_runs r) [mk_run v (n - _total_length r)]) n)
    end.
Proof.
  intros (Hok & Ht & Hw) Hn. unfold resize_trailing_extent. pose proof (runs_total_nonneg _ Hok).
  rewrite (proj2 (Z.eqb_neq n 0)), (proj2 (Z.ltb_ge _ _)) by lia.
  destruct (Z.gtb_spec n (_total_length r)); [|lia].
  destruct (_runs r) as [|q l _] eqn:Hr using rev_ind; [done|].
  pose proof (fits_of_ok W _ Hok ltac:(lia)) as Hf. rewrite total_app in Ht. cbn in Ht.
  apply runs_ok_app in Hok as [Hl [Hq _]%runs_ok_cons]. pose proof (runs_total_nonneg l Hl).
  rewrite runs_values_app. cbn [runs_values]. rewrite app_nil_r.
  assert (Hlast : list.last (runs_values l ++ replicate (Z.to_nat (run_length q)) (value q)) = Some (value q)).
  { replace (Z.to_nat (run_length q)) with (Z.to_nat (run_length q - 1) + 1)%nat by lia.
    rewrite replicate_add, app_assoc. apply last_snoc. }
  rewrite Hlast. destruct q as [v m]. rewrite glue_join. cbn [value run_length] in *.
  replace (length (l ++ [mk_run v m]) - 1)%nat with (length l) by (rewrite length_app; cbn; lia).
  assert (Hne : l ++ [mk_run v m] <> []) by by destruct l.
  destruct (l ++ [mk_run v m]) eqn:Hl'; [done|]. rewrite <- Hl'.
  rewrite vec_update_app, add_length_small by (cbn; lia). done.
Qed.

(** ** Slices *)

(** The runs [begin_run .. end_run], with both ends cut. *)
Lemma rle_slice_runs (r : basic_rle T) s e : rle_wf W r -> 0 <= s < e -> e <= _total_length r ->
  exists runs, rle_slice W r s e = Done (mk_rle runs (e - s)) /\
    runs = rle_take (e - s) (rle_drop s (_runs r)).
Proof.
  intros (Hok & Ht & Hw) Hs He. unfold rle_slice.
  destruct (Z.gtb_spec e (_total_length r)); [lia|]. destruct (Z.geb_spec s e); [lia|].
  rewrite !narrow_small by lia. pose proof (fits_of_ok W _ Hok ltac:(lia)) as Hf.
  destruct (scan_spec W (_runs r) s Hok) as (b & bp & -> & Hb); [lia..|].
  destruct (scan_again W (_runs r) s b bp (e - 1) Hok) as (en & ep & -> & Hen & Hbe); [lia|done|lia|].
  rewrite (located_drop _ _ _ _ Hok Hb).
  destruct (located_split _ _ _ _ Hb) as (l & k & Hr & -> & Hi & Hk).
  destruct Hen as [l2 q k2 ep Hr2 Hi2 Hq|]; [|lia].
  assert (Hm : exists m, l2 = l ++ m /\ k = m ++ q :: k2).
  { rewrite Hr in Hr2. exists (drop (length l) l2).
    assert (Hl2 : take (length l) l2 = l).
    { apply (f_equal (take (length l))) in Hr2. by rewrite take_app_length, take_app_le in Hr2 by lia. }
    rewrite <- (take_drop (length l) l2), Hl2, <- app_assoc in Hr2. apply app_inv_head in Hr2.
    split; [|done]. rewrite <- Hl2 at 1. by rewrite take_drop. }
  destruct Hm as (m & -> & ->). clear Hr2 Hbe Hb. rewrite Hr in *.
  apply Forall_app in Hf as [_ [Hfm [Hfq _]%Forall_cons_iff]%Forall_app].
  apply runs_ok_app in Hok as [Hl [Hokm [Hq0 _]%runs_ok_cons]%runs_ok_app].
  rewrite total_app in *. cbn [total] in *. rewrite total_app in *. cbn [total] in *.
  rewrite (proj2 (Nat.ltb_lt _ _)) by (rewrite !length_app; cbn; lia).
  assert (Hsl : drop (length l) (take (S (length (l ++ m))) (l ++ m ++ q :: k2)) = m ++ [q]).
  { rewrite (app_assoc l m), length_app, take_app_ge by (rewrite length_app; lia). rewrite length_app.
    replace (S (length l + length m) - (length l + length m))%nat with 1%nat by lia.
    cbn. by rewrite <- app_assoc, drop_app_length. }
  rewrite Hsl, drop_app_length.
  replace (length (m ++ [q]) - 1)%nat with (length m) by (rewrite length_app; cbn; lia).
  rewrite vec_update_app, set_length_small by lia. cbn [obind].
  destruct m as [|x m].
  - cbn [app length total shorten] in *. unfold vec_update. cbn [deref lookup list_lookup obind insert list_insert].
    rewrite add_length_small by (cbn; lia). eexists. split; [do 3 f_equal; lia|].
    rewrite rle_take_run by (cbn; lia). cbn. do 2 f_equal. lia.
  - apply Forall_cons_iff in Hfm as [Hfx _]. apply runs_ok_cons in Hokm as [_ Hokm]. cbn in *.
    unfold vec_update. cbn. rewrite add_length_small by lia.
    eexists. split; [do 3 f_equal; lia|]. pose proof (runs_total_nonneg m Hokm).
    destruct (Z.leb_spec (e - s) 0), (Z.ltb_spec (e - s) (run_length x - bp)); try lia. f_equal.
    replace (e - s - (run_length x - bp)) with (total m + (ep + 1)) by lia.
    by rewrite rle_take_app, rle_take_run by (done || lia).
Qed.

(** ** [_compact] *)

(** Joining neighbours from left to right, [x] being the run that grows. *)
Fixpoint merge_from (x : run) (l : list run) : list run :=
  match l with
  | [] => [x]
  | y :: l' =>
      if bool_decide (value x = value y)
      then merge_from (mk_run (value x) (run_length x + run_length y)) l'
      else x :: merge_from y l'
  end.

Lemma merge_from_ok x l : runs_ok (x :: l) -> runs_ok (merge_from x l).
Proof.
  revert x. induction l as [|y l IH]; intros x; [done|]. rewrite !runs_ok_cons. intros (Hx & Hy & Hl). cbn.
  case_bool_decide; [apply IH, runs_ok_cons; cbn; split; [lia|done]|].
  apply runs_ok_cons. split; [done|]. apply IH, runs_ok_cons. done.
Qed.

Lemma merge_from_total x l : total (merge_from x l) = total (x :: l).
Proof.
  revert x. induction l as [|y l IH]; intros x; [done|]. cbn. case_bool_decide.
  - rewrite IH. cbn. lia.
  - cbn. rewrite IH. cbn. lia.
Qed.

Lemma merge_from_values x l : runs_ok (x :: l) -> runs_values (merge_from x l) = runs_values (x :: l).
Proof.
  revert x. induction l as [|y l IH]; intros x; [done|]. rewrite !runs_ok_cons. intros (Hx & Hy & Hl). cbn.
  case_bool_decide as Hv.
  - rewrite IH by (apply runs_ok_cons; cbn; split; [lia|done]). cbn.
    rewrite Z2Nat.inj_add, replicate_add, Hv, <- app_assoc by lia. done.
  - cbn. rewrite IH by by apply runs_ok_cons. done.
Qed.

Lemma merge_from_canonical x l : canonical (merge_from x l).
Proof.
  unfold canonical.
  assert (Hh : Sorted (fun a b => a <> b) (map value (merge_from x l)) /\
               hd (value x) (map value (merge_from x l)) = value x); [|apply Hh].
  revert x. induction l as [|y l IH]; intros x; [repeat constructor|]. cbn.
  case_bool_decide as Hv; [apply (IH (mk_run (value x) (run_length x + run_length y)))|].
  destruct (IH y) as [Hs Hd]. split; [|done].
  change (Sorted (fun a b => a <> b) (value x :: map value (merge_from y l))). constructor; [done|].
  destruct (map value (merge_from y l)); constructor. cbn in Hd. congruence.
Qed.

Lemma compact_inner_spec fuel P x g G rest : runs_ok (x :: rest) -> total (x :: rest) < 2 ^ W ->
  (length rest < fuel)%nat ->
  compact_inner W fuel (P ++ x :: g :: G ++ rest) (length P) (length P + S (S (length G)))
  = Done (P ++ merge_from x rest).
Proof.
  revert P x g G rest. induction fuel as [|fuel IH]; intros P x g G rest Hok Hw Hf; [lia|].
  cbn [compact_inner].
  assert (Hlen : length (P ++ x :: g :: G ++ rest) = (length P + S (S (length G)) + length rest)%nat)
    by (rewrite length_app; cbn; rewrite length_app; lia).
  assert (Hcut : P ++ x :: g :: G ++ rest = (P ++ [x]) ++ (g :: G) ++ rest) by by rewrite <- app_assoc.
  destruct rest as [|y rest].
  - rewrite Hlen, (proj2 (Nat.eqb_eq _ _)), app_nil_r by (cbn; lia).
    replace (P ++ x :: g :: G) with ((P ++ [x]) ++ (g :: G) ++ []) by (rewrite <- app_assoc; cbn; by rewrite app_nil_r).
    rewrite erase_app by (rewrite ?length_app; cbn; lia). by rewrite app_nil_r.
  - rewrite Hlen, (proj2 (Nat.eqb_neq _ _)), deref_app by (cbn; lia). cbn [obind].
    rewrite !runs_ok_cons in Hok. destruct Hok as (Hx & Hy & Hok). pose proof (runs_total_nonneg _ Hok).
    cbn [total] in Hw.
    replace (deref _ (length P + S (S (length G)))) with (Done y); cycle 1.
    { replace (length P + S (S (length G)))%nat with (length (P ++ x :: g :: G)) by (rewrite length_app; done).
      rewrite app_comm_cons, app_comm_cons, app_assoc. by rewrite deref_app. }
    cbn [obind merge_from]. case_bool_decide as Hv.
    + rewrite vec_update_app, add_length_small by lia. cbn [obind].
      replace (G ++ y :: rest) with ((G ++ [y]) ++ rest) by by rewrite <- app_assoc.
      replace (S (length P + S (S (length G)))) with (length P + S (S (length (G ++ [y]))))%nat
        by (rewrite length_app; cbn; lia).
      apply IH; [apply runs_ok_cons; cbn; split; [lia|done]|cbn; lia|cbn in Hf; lia].
    + replace (P ++ x :: g :: G ++ y :: rest) with ((P ++ [x]) ++ g :: G ++ y :: rest) by by rewrite <- app_assoc.
      replace (S (length P)) with (length (P ++ [x])) by (rewrite length_app; cbn; lia).
      rewrite vec_update_app. cbn [obind].
      destruct (G ++ y :: rest) as [|g' G'] eqn:HG; [by destruct G|].
      assert (Hgap : exists G2, G ++ [y] = g' :: G2 /\ G' = G2 ++ rest).
      { destruct G; injection HG as <- <-; [by exists []|]. exists (G ++ [y]). by rewrite <- app_assoc. }
      destruct Hgap as (G2 & HG2 & ->). apply (f_equal length) in HG2. rewrite length_app in HG2. cbn in HG2.
      replace (S (length P + S (S (length G)))) with (length (P ++ [x]) + S (S (length G2)))%nat
        by (rewrite length_app; cbn; lia).
      rewrite IH; [by rewrite <- app_assoc|by apply runs_ok_cons|cbn; lia|cbn in Hf; lia].
Qed.

Lemma compact_outer_spec fuel P x rest : runs_ok (x :: rest) -> total (x :: rest) < 2 ^ W ->
  (length rest < fuel)%nat ->
  compact_outer W fuel (P ++ x :: rest) (length P) = Done (P ++ merge_from x rest).
Proof.
  revert P x rest. induction fuel as [|fuel IH]; intros P x rest Hok Hw Hf; [lia|].
  cbn [compact_outer]. destruct rest as [|y rest].
  - by rewrite length_app, (proj2 (Nat.eqb_eq _ _)) by (cbn; lia).
  - rewrite length_app, (proj2 (Nat.eqb_neq _ _)), deref_app by (cbn; lia). cbn [obind].
    rewrite !runs_ok_cons in Hok. destruct Hok as (Hx & Hy & Hok). pose proof (runs_total_nonneg _ Hok).
    cbn [total] in Hw.
    assert (Hcut : P ++ x :: y :: rest = (P ++ [x]) ++ y :: rest) by by rewrite <- app_assoc.
    assert (Hl : S (length P) = length (P ++ [x])) by (rewrite length_app; cbn; lia).
    rewrite Hcut, Hl, deref_app. cbn [obind merge_from]. case_bool_decide as Hv.
    + rewrite <- Hcut, vec_update_app, add_length_small by lia. cbn [obind].
      change (y :: rest) with (y :: [] ++ rest).
      replace (S (length (P ++ [x]))) with (length P + S (S (@length run [])))%nat by (rewrite <- Hl; cbn; lia).
      apply compact_inner_spec; [apply runs_ok_cons; cbn; split; [lia|done]|cbn; lia|].
      rewrite length_app. cbn. lia.
    + rewrite IH; [by rewrite <- app_assoc|by apply runs_ok_cons|cbn; lia|cbn in Hf; lia].
Qed.

Definition merge_runs (l : list run) : list run :=
  match l with [] => [] | x :: l' => merge_from x l' end.

Lemma compact_spec (r : basic_rle T) : rle_wf W r -> _compact W r = Done (mk_rle (merge_runs (_runs r)) (_total_length r)).
Proof.
  intros (Hok & Ht & Hw). unfold _compact. destruct r as [[|x l] n]; [done|]. cbn [_runs _total_length] in *.
  pose proof (compact_outer_spec (length (x :: l)) [] x l Hok ltac:(lia) ltac:(cbn; lia)) as Hc.
  cbn [app length] in Hc. cbn [length]. by rewrite Hc.
Qed.

(** ** The iterator

    An iterator stands for an index when it is where the scanner finds that
    index. *)

Definition iter_at (runs : list run) (i : Z) (x : rle_iterator) : Prop := located runs i (_it x) (_pos x).

Lemma iter_at_begin runs : runs_ok runs -> iter_at runs 0 iter_begin.
Proof.
  intros Hok. unfold iter_at. cbn. destruct runs as [|r l]; [by apply located_end|].
  apply runs_ok_cons in Hok as [Hr _]. apply (located_in (r :: l) 0 [] r l 0); [done..|lia].
Qed.

Lemma iter_at_end runs : iter_at runs (total runs) (iter_end runs).
Proof. by apply located_end. Qed.

(** Either inside a run, or at the front of the runs that are left. *)
Lemma located_front l k : runs_ok k -> located (l ++ k) (total l) (length l) 0.
Proof.
  intros Hk. destruct k as [|r k].
  - rewrite app_nil_r. by apply located_end.
  - apply runs_ok_cons in Hk as [Hr _]. apply located_in with r k; [done|lia..].
Qed.

Lemma iter_deref_spec runs i x : runs_ok runs -> iter_at runs i x -> i < total runs ->
  exists v, iter_deref runs x = Done v /\ runs_values runs !! Z.to_nat i = Some v.
Proof.
  intros Hok Hx Hi. destruct x as [it pos]. unfold iter_at, iter_deref in *. cbn in *.
  destruct Hx as [l r k p -> -> Hp|]; [|lia]. exists (value r). rewrite deref_app.
  split; [done|]. apply lookup_in_run; [|done]. by apply runs_ok_app in Hok as [].
Qed.

Lemma advance_forward_spec l k pos move : runs_ok k -> total k < 2 ^ W ->
  match k with [] => pos = 0 | r :: _ => 0 <= pos < run_length r end ->
  0 <= move -> pos + move <= total k ->
  exists x, advance_forward W k (length l) pos move = Done x /\ iter_at (l ++ k) (total l + pos + move) x.
Proof.
  revert l pos move. induction k as [|r k IH]; intros l pos move Hok Hw Hp Hm Hle.
  - cbn in *. subst pos. destruct (Z.gtb_spec move 0); [lia|]. eexists. split; [done|].
    rewrite app_nil_r. replace (total l + 0 + move) with (total l) by lia. by apply located_end.
  - apply runs_ok_cons in Hok as [Hr Hok]. pose proof (runs_total_nonneg k Hok). cbn [total] in *. cbn.
    destruct (Z.gtb_spec move 0); cycle 1.
    { eexists. split; [done|]. apply located_in with r k; cbn; [done|lia..]. }
    destruct (Z.ltb_spec move (run_length r - pos)).
    + eexists. split; [done|]. rewrite narrow_small by lia. apply located_in with r k; cbn; [done|lia..].
    + destruct (IH (l ++ [r]) 0 (move - (run_length r - pos))) as (x & Hx & Hat); [done|lia| |lia..|].
      { destruct k as [|r' k]; [done|]. apply runs_ok_cons in Hok as [? _]. lia. }
      exists x. rewrite length_app, Nat.add_1_r in Hx. split; [done|].
      rewrite total_app, <- app_assoc in Hat. cbn in Hat.
      by replace (total l + pos + move) with (total l + (run_length r + 0) + 0 + (move - (run_length r - pos))) by lia.
Qed.

Lemma advance_backward_spec runs i it pos move : runs_ok runs -> total runs < 2 ^ W ->
  located runs i it pos -> 0 <= move <= i ->
  exists x, advance_backward W runs it pos move = Done x /\ iter_at runs (i - move) x.
Proof.
  revert i pos move. induction it as [|it IH]; intros i pos move Hok Hw Hloc Hm;
    destruct (located_split _ _ _ _ Hloc) as (l & k & Hr & Hl & Hi & Hk); cbn [advance_backward];
    (destruct (Z.gtb_spec move 0); cycle 1; [eexists; split; [done|]; by replace (i - move) with i by lia|]);
    pose proof Hok as Hok'; rewrite Hr in Hok'; apply runs_ok_app in Hok' as [Hokl Hokk];
    pose proof (runs_total_nonneg l Hokl); pose proof (runs_total_nonneg k Hokk);
    assert (Hposle : 0 <= pos < 2 ^ W) by (rewrite Hr, total_app in Hw; destruct k as [|q k]; [lia|];
      apply runs_ok_cons in Hokk as [_ Hokk]; pose proof (runs_total_nonneg k Hokk); cbn in Hw; lia).
  - destruct l; [|done]. cbn in Hi. destruct (Z.leb_spec move pos); [|lia].
    eexists. split; [done|]. rewrite narrow_small by lia. destruct k as [|r k]; [lia|].
    apply (located_in runs (i - move) [] r k); cbn; [done|lia..].
  - destruct (Z.leb_spec move pos).
    + eexists. split; [done|]. rewrite narrow_small by lia. destruct k as [|r k]; [lia|].
      rewrite Hl. unfold iter_at. cbn [_it _pos]. apply located_in with r k; [done|lia..].
    + destruct l as [|r l _] using rev_ind; [done|]. rewrite length_app, Nat.add_1_r in Hl. injection Hl as ->.
      apply runs_ok_app in Hokl as [_ [Hrp _]%runs_ok_cons]. rewrite total_app in *. cbn in Hi.
      pose proof (fits_of_ok W _ Hok Hw) as Hf. rewrite <- app_assoc in Hr. rewrite Hr in Hf.
      apply Forall_app in Hf as [_ [Hfr _]%Forall_cons_iff].
      assert (Hd : deref runs (length l) = Done r) by (rewrite Hr; apply deref_app).
      rewrite Hd. cbn [obind]. rewrite narrow_small by lia.
      destruct (IH (i - (pos + 1)) (run_length r - 1) (move - (pos + 1)) Hok Hw) as (x & Hx & Hat); [|lia|].
      { apply located_in with r k; [done|lia..]. }
      exists x. split; [done|]. by replace (i - move) with (i - (pos + 1) - (move - (pos + 1))) by lia.
Qed.

Lemma iter_advance_spec runs i x move : runs_ok runs -> total runs < 2 ^ W ->
  iter_at runs i x -> 0 <= i + move <= total runs ->
  exists y, iter_advance W runs x move = Done y /\ iter_at runs (i + move) y.
Proof.
  intros Hok Hw Hx Hm. unfold iter_advance. destruct (Z.geb_spec move 0).
  - destruct (located_split _ _ _ _ Hx) as (l & k & -> & -> & -> & Hk). rewrite drop_app_length.
    apply runs_ok_app in Hok as [Hl Hokk]. pose proof (runs_total_nonneg l Hl). rewrite total_app in Hw, Hm.
    apply advance_forward_spec; [done|lia|done|lia..].
  - destruct (advance_backward_spec runs i (_it x) (_pos x) (- move)) as (y & Hy & Hat); [done..|lia|].
    exists y. split; [done|]. by replace (i + move) with (i - - move) by lia.
Qed.

Lemma iter_incr_spec runs i x : runs_ok runs -> total runs < 2 ^ W -> iter_at runs i x -> i < total runs ->
  exists y, iter_incr W runs x = Done y /\ iter_at runs (i + 1) y.
Proof.
  intros Hok Hw Hx Hi. destruct x as [it pos]. unfold iter_at, iter_incr in *. cbn [_it _pos] in *.
  pose proof (fits_of_ok W _ Hok Hw) as Hf. destruct Hx as [l r k p -> -> Hp|]; [|lia].
  apply Forall_app in Hf as [_ [Hfr _]%Forall_cons_iff]. apply runs_ok_app in Hok as [_ [_ Hk]%runs_ok_cons].
  rewrite deref_app. cbn [obind]. rewrite narrow_small by lia. eexists. split; [done|].
  destruct (Z.eqb_spec (p + 1) (run_length r)); cbn.
  - pose proof (located_front (l ++ [r]) k Hk) as Hloc. rewrite length_app, Nat.add_1_r, total_app, <- app_assoc in Hloc.
    cbn in Hloc. by replace (total l + p + 1) with (total l + (run_length r + 0)) by lia.
  - apply located_in with r k; [done|lia..].
Qed.

Lemma iter_decr_spec runs i x : runs_ok runs -> total runs < 2 ^ W -> iter_at runs i x -> 0 < i ->
  exists y, iter_decr W runs x = Done y /\ iter_at runs (i - 1) y.
Proof.
  intros Hok Hw Hx Hi. destruct x as [it pos]. unfold iter_at, iter_decr in *. cbn [_it _pos] in *.
  pose proof (fits_of_ok W _ Hok Hw) as Hf. destruct (located_split _ _ _ _ Hx) as (l & k & Hr & -> & Hi' & Hk).
  rewrite Hr in *. destruct (Z.eqb_spec pos 0) as [->|Hp].
  - destruct l as [|r l _] using rev_ind; [cbn in *; lia|]. rewrite length_app, Nat.add_1_r, total_app, <- app_assoc in *.
    cbn [app total] in *. rewrite deref_app. cbn [obind].
    apply Forall_app in Hf as [_ [Hfr _]%Forall_cons_iff].
    rewrite narrow_small by lia. eexists. split; [done|]. cbn. apply located_in with r k; [done|lia..].
  - destruct k as [|r k]; [lia|]. apply Forall_app in Hf as [_ [Hfr _]%Forall_cons_iff].
    rewrite narrow_small by lia. eexists. split; [done|]. apply located_in with r k; cbn; [done|lia..].
Qed.

(** ** The order of iterators, and their distance *)

Lemma total_take_mono runs a b : runs_ok runs -> (a <= b)%nat -> total (take a runs) <= total (take b runs).
Proof.
  intros Hok Hab. rewrite <- (take_drop a (take b runs)), take_take, Nat.min_l, total_app by done.
  assert (Hd : runs_ok (drop a (take b runs))) by by apply Forall_drop, Forall_take.
  pose proof (runs_total_nonneg _ Hd). lia.
Qed.

Lemma located_bounds runs i it pos : runs_ok runs -> located runs i it pos ->
  total (take it runs) + pos = i /\ 0 <= pos /\ (it <= length runs)%nat /\
  ((it < length runs)%nat -> i < total (take (S it) runs)).
Proof.
  intros Hok [l r k p -> -> Hp| ->].
  - rewrite take_app_length, length_app. replace (S (length l)) with (length l + 1)%nat by lia.
    rewrite take_app_add, total_app. cbn. rewrite take_0. cbn. split_and!; lia.
  - rewrite take_ge by lia. split_and!; lia.
Qed.

Lemma located_lt runs i j a p b q : runs_ok runs -> located runs i a p -> located runs j b q ->
  ((a < b)%nat \/ (a = b /\ p < q)) <-> i < j.
Proof.
  intros Hok Ha Hb.
  destruct (located_bounds _ _ _ _ Hok Ha) as (Hi & Hp & Hla & Hna), (located_bounds _ _ _ _ Hok Hb) as (Hj & Hq & Hlb & Hnb).
  destruct (Nat.lt_trichotomy a b) as [Hlt|[->|Hgt]]; [|lia|].
  - pose proof (total_take_mono runs (S a) b Hok Hlt). specialize (Hna ltac:(lia)). split; [lia|]. by left.
  - pose proof (total_take_mono runs (S b) a Hok Hgt). specialize (Hnb ltac:(lia)). split; [|lia].
    intros [|[]]; lia.
Qed.

Lemma iter_ltb_spec runs i j x y : runs_ok runs -> iter_at runs i x -> iter_at runs j y ->
  iter_ltb x y = (i <? j).
Proof.
  intros Hok Hx Hy. pose proof (located_lt _ _ _ _ _ _ _ Hok Hx Hy) as Hlt. unfold iter_ltb.
  destruct (Z.ltb_spec i j) as [Hij|Hij], (Nat.ltb_spec (_it x) (_it y)), (Nat.eqb_spec (_it x) (_it y)),
    (Z.ltb_spec (_pos x) (_pos y)); cbn; try done; lia.
Qed.

Lemma iter_eqb_spec runs i j x y : runs_ok runs -> iter_at runs i x -> iter_at runs j y ->
  iter_eqb x y = (i =? j).
Proof.
  intros Hok Hx Hy. pose proof (located_lt _ _ _ _ _ _ _ Hok Hx Hy) as Hlt.
  pose proof (located_lt _ _ _ _ _ _ _ Hok Hy Hx) as Hgt. unfold iter_eqb.
  destruct (located_bounds _ _ _ _ Hok Hx) as (Hi & _), (located_bounds _ _ _ _ Hok Hy) as (Hj & _).
  destruct (Z.eqb_spec i j) as [Hij|Hij], (Nat.eqb_spec (_it x) (_it y)) as [He|He],
    (Z.eqb_spec (_pos x) (_pos y)) as [Hp|Hp]; cbn; try done; try lia.
Qed.

Lemma foldl_lengths n l : foldl (fun d r => d + run_length r) n l = n + total l.
Proof. revert n. induction l as [|r l IH]; intros n; cbn; [lia|]. rewrite IH. lia. Qed.

Lemma total_between runs a b : (a <= b)%nat ->
  total (drop a (take b runs)) = total (take b runs) - total (take a runs).
Proof.
  intros Hab. rewrite <- (take_drop a (take b runs)) at 2. rewrite take_take, Nat.min_l, total_app by done. lia.
Qed.

Lemma iter_distance_spec runs i j x y : runs_ok runs -> iter_at runs i x -> iter_at runs j y ->
  iter_distance runs x y = Done (i - j).
Proof.
  intros Hok Hx Hy. unfold iter_distance. rewrite (iter_ltb_spec _ _ _ _ _ Hok Hx Hy).
  pose proof (located_lt _ _ _ _ _ _ _ Hok Hx Hy) as Hlt. pose proof (located_lt _ _ _ _ _ _ _ Hok Hy Hx) as Hgt.
  destruct (located_bounds _ _ _ _ Hok Hx) as (Hi & _ & Hlx & _), (located_bounds _ _ _ _ Hok Hy) as (Hj & _ & Hly & _).
  destruct (Z.ltb_spec i j); rewrite (proj2 (Nat.leb_le _ _)), foldl_lengths, total_between by lia; f_equal; lia.
Qed.
End Spec.

(** * The contract of the run length encoding

    [list_exec] is the contract: what each modifying operation of the class
    does to a plain list of values, its exceptions included.  The encoded
    vector follows it through every sequence of operations. *)


Section Refine.
Context {T : Type} `{EqDecision T} `{Inhabited T} (W : Z).
Abbreviation run := (rle_pair T).
Abbreviation rle := (basic_rle T).
Implicit Types r : rle.
Implicit Types runs repl : list run.

Inductive rle_op :=
| OpReplace (start_index end_index : Z) (replacements : list run)
| OpReplaceValue (start_index end_index : Z) (v : T)
| OpReplaceValues (old_value new_value : T)
| OpResize (new_size : Z)
| OpSlice (start_index end_index : Z).

Definition rle_exec (op : rle_op) (r : rle) : outcome rle :=
  match op with
  | OpReplace s e repl => replace W r s e repl
  | OpReplaceValue s e v => replace_value W r s e v
  | OpReplaceValues o n => replace_values W r o n
  | OpResize n => resize_trailing_extent W r n
  | OpSlice s e => rle_slice W r s e
  end.

(** The list with the range [s, e) replaced; the end is clamped, a start
    past it is an exception. *)
Definition list_replace (l : list T) (s e : Z) (middle : Z -> list T) : outcome (list T) :=
  let e := e `min` Z.of_nat (length l) in
  if s >? e then Throws else Done (take (Z.to_nat s) l ++ middle e ++ drop (Z.to_nat e) l).

Definition list_exec (op : rle_op) (l : list T) : outcome (list T) :=
  match op with
  | OpReplace s e repl => list_replace l s e (fun _ => runs_values repl)
  | OpReplaceValue s e v => list_replace l s e (fun e => replicate (Z.to_nat (e - s)) v)
  | OpReplaceValues o n => Done (map (fun v => if bool_decide (v = o) then n else v) l)
  | OpResize n =>
      if n <=? Z.of_nat (length l) then Done (take (Z.to_nat n) l)
      else match list.last l with
           | None => FailFast
           | Some v => Done (l ++ replicate (Z.to_nat (n - Z.of_nat (length l))) v)
           end
  | OpSlice s e => Done (drop (Z.to_nat s) (take (Z.to_nat e) l))
  end.

(** What the class asks of a call: arguments of its unsigned type, proper
    runs, and a result that the type can count.  A single value may not
    replace an empty range. *)
Definition op_ok (op : rle_op) (l : list T) : Prop :=
  match op with
  | OpReplace s e repl =>
      0 <= s /\ 0 <= e /\ runs_ok repl /\ canonical repl /\
      Z.of_nat (length l) - (e `min` Z.of_nat (length l) - s) + total repl < 2 ^ W
  | OpReplaceValue s e _ => 0 <= s /\ 0 <= e /\ s <> e `min` Z.of_nat (length l)
  | OpReplaceValues _ _ => True
  | OpResize n => 0 <= n < 2 ^ W
  | OpSlice s e => 0 <= s /\ 0 <= e
  end.

(** The encoded vector [r] stands for the list [l]. *)
Definition represents (r : rle) (l : list T) : Prop :=
  rle_wf W r /\ canonical (_runs r) /\ runs_values (_runs r) = l.

Inductive agree : outcome rle -> outcome (list T) -> Prop :=
| agree_done r l : represents r l -> agree (Done r) (Done l)
| agree_throws : agree Throws Throws
| agree_fail_fast : agree FailFast FailFast.

Fixpoint run_ops {A} (exec : rle_op -> A -> outcome A) (ops : list rle_op) (a : A) : outcome A :=
  match ops with
  | [] => Done a
  | op :: ops' => let* a := exec op a in run_ops exec ops' a
  end.

Fixpoint ops_ok (ops : list rle_op) (l : list T) : Prop :=
  match ops with
  | [] => True
  | op :: ops' => op_ok op l /\ match list_exec op l with Done l' => ops_ok ops' l' | _ => True end
  end.

(** ** One operation *)

Lemma represents_length r l : represents r l -> _total_length r = Z.of_nat (length l).
Proof.
  intros ((Hok & Ht & _) & _ & <-). rewrite length_runs_values by done.
  pose proof (runs_total_nonneg _ Hok). lia.
Qed.

Lemma represents_intro runs n l : runs_ok runs -> canonical runs -> runs_values runs = l ->
  n = Z.of_nat (length l) -> n < 2 ^ W -> represents (mk_rle runs n) l.
Proof.
  intros Hok Hc Hv Hn Hw. unfold represents, rle_wf. cbn. split_and!; try done.
  rewrite <- Hv, length_runs_values in Hn by done. pose proof (runs_total_nonneg _ Hok). lia.
Qed.

Lemma check_indices_spec r s e : _check_indices r s e
  = if s >? e `min` _total_length r then Throws else Done (e `min` _total_length r).
Proof.
  unfold _check_indices. destruct (Z.gtb_spec e (_total_length r)).
  - by rewrite Z.min_r by lia.
  - by rewrite Z.min_l by lia.
Qed.

Lemma replace_agree r l s e repl : represents r l -> 0 <= s -> 0 <= e -> runs_ok repl -> canonical repl ->
  Z.of_nat (length l) - (e `min` Z.of_nat (length l) - s) + total repl < 2 ^ W ->
  agree (let* e := _check_indices r s e in _replace_unchecked W r s e repl)
        (list_replace l s e (fun _ => runs_values repl)).
Proof.
  intros Hr Hs He Hrepl Hcrepl Hw. pose proof (represents_length _ _ Hr) as Hlen.
  destruct Hr as (Hwf & Hc & Hv). pose proof Hwf as (Hok & Ht & _).
  rewrite check_indices_spec. unfold list_replace. rewrite <- Hlen in *.
  destruct (Z.gtb_spec s (e `min` _total_length r)); [constructor|]. cbn [obind].
  rewrite replace_unchecked_spec by (done || lia). constructor. pose proof (runs_total_nonneg _ Hrepl).
  apply represents_intro.
  - by apply reference_replace_ok.
  - by apply reference_replace_canonical.
  - rewrite reference_replace_values by (done || lia). by rewrite Hv.
  - rewrite !length_app, length_take, length_drop, length_runs_values by done. lia.
  - lia.
Qed.

Lemma replace_value_agree r l s e v : represents r l -> op_ok (OpReplaceValue s e v) l ->
  agree (replace_value W r s e v) (list_exec (OpReplaceValue s e v) l).
Proof.
  intros Hr (Hs & He & Hne). pose proof (represents_length _ _ Hr) as Hlen.
  pose proof Hr as ((_ & _ & Hw) & _ & _). unfold replace_value. cbn [list_exec].
  pose proof (replace_agree r l s e [mk_run v (e `min` _total_length r - s)] Hr Hs He) as Hagree.
  rewrite check_indices_spec in *. unfold list_replace in *. rewrite <- Hlen in *.
  destruct (Z.gtb_spec s (e `min` _total_length r)); [constructor|]. cbn [obind total] in *.
  rewrite narrow_small by lia. cbn in Hagree. rewrite app_nil_r in Hagree. apply Hagree; [|by repeat constructor|lia].
  constructor; [cbn; lia|constructor].
Qed.

Lemma replace_values_agree r l o n : represents r l ->
  agree (replace_values W r o n) (list_exec (OpReplaceValues o n) l).
Proof.
  intros Hr. pose proof (represents_length _ _ Hr) as Hlen. destruct Hr as ((Hok & Ht & Hw) & _ & Hv).
  unfold replace_values. cbn [list_exec].
  set (f := fun x : run => if bool_decide (value x = o) then x <| value := n |> else x).
  assert (Hf : forall x, run_length (f x) = run_length x /\ value (f x) = if bool_decide (value x = o) then n else value x)
    by (intros x; unfold f; by case_bool_decide).
  assert (Hmap : runs_ok (map f (_runs r)) /\ total (map f (_runs r)) = total (_runs r) /\
    runs_values (map f (_runs r)) = map (fun v => if bool_decide (v = o) then n else v) (runs_values (_runs r))).
  { clear Ht Hv. induction (_runs r) as [|x k IH]; [repeat constructor|].
    apply runs_ok_cons in Hok as [Hx Hk]. destruct (IH Hk) as (IH1 & IH2 & IH3), (Hf x) as [Hl Hv]. cbn [map].
    split_and!; [apply runs_ok_cons; rewrite Hl; done|cbn; lia|]. cbn [runs_values].
    rewrite map_app, Hl, Hv, IH3. f_equal. symmetry. apply fmap_replicate. }
  destruct Hmap as (Hok' & Ht' & Hv').
  rewrite compact_spec by (split_and!; cbn; [done|lia|done]). cbn [_runs _total_length].
  change (_runs (r <| _runs := map f (_runs r) |>)) with (map f (_runs r)).
  change (_total_length (r <| _runs := map f (_runs r) |>)) with (_total_length r).
  constructor. rewrite Hv in Hv'. destruct (map f (_runs r)) as [|x k]; cbn [merge_runs].
  - apply represents_intro; [constructor|constructor|done|by rewrite length_map|done].
  - apply represents_intro; [by apply merge_from_ok|apply merge_from_canonical|by rewrite merge_from_values
      |by rewrite length_map|done].
Qed.

Lemma resize_agree r l n : represents r l -> 0 <= n < 2 ^ W ->
  agree (resize_trailing_extent W r n) (list_exec (OpResize n) l).
Proof.
  intros Hr Hn. pose proof (represents_length _ _ Hr) as Hlen. destruct Hr as (Hwf & Hc & Hv).
  pose proof Hwf as (Hok & Ht & Hw). cbn [list_exec]. rewrite <- Hlen.
  destruct (Z.leb_spec n (_total_length r)) as [Hle|Hgt].
  - destruct (Z.eqb_spec n 0) as [->|Hn0]; [apply agree_done, represents_intro; (constructor || cbn; lia)|].
    destruct (Z.eqb_spec n (_total_length r)) as [->|Hnt].
    + unfold resize_trailing_extent.
      rewrite (proj2 (Z.eqb_neq _ 0)), Z.ltb_irrefl by lia. destruct (Z.gtb_spec (_total_length r) (_total_length r)); [lia|].
      rewrite Hlen, Nat2Z.id, take_ge by done. constructor. by apply represents_intro; rewrite <- ?Hlen.
    + rewrite resize_shrink by (done || lia). constructor. apply represents_intro.
      * by apply rle_take_ok.
      * by apply rle_take_canonical.
      * by rewrite rle_take_values, Hv by (done || lia).
      * rewrite length_take. lia.
      * lia.
  - rewrite resize_grow, Hv by (done || lia). destruct (list.last l) as [v|]; [|constructor].
    constructor. assert (Hv1 : runs_ok [mk_run v (n - _total_length r)]) by (constructor; [cbn; lia|constructor]).
    apply represents_intro.
    + by apply glue_ok.
    + apply glue_canonical; [done|by repeat constructor].
    + rewrite glue_values, Hv by done. cbn. by rewrite app_nil_r.
    + rewrite length_app, length_replicate. lia.
    + lia.
Qed.

Lemma slice_agree r l s e : represents r l -> 0 <= s -> 0 <= e ->
  agree (rle_slice W r s e) (list_exec (OpSlice s e) l).
Proof.
  intros Hr Hs He. pose proof (represents_length _ _ Hr) as Hlen. destruct Hr as (Hwf & Hc & Hv).
  pose proof Hwf as (Hok & Ht & Hw). cbn [list_exec].
  assert (Hclamp : rle_slice W r s e = rle_slice W r s (e `min` _total_length r) /\
                   take (Z.to_nat e) l = take (Z.to_nat (e `min` _total_length r)) l).
  { unfold rle_slice. split.
    - destruct (Z.gtb_spec e (_total_length r)), (Z.gtb_spec (e `min` _total_length r) (_total_length r)); try lia;
        [by rewrite Z.min_r by lia|by rewrite Z.min_l by lia].
    - destruct (Z.min_spec e (_total_length r)) as [[_ ->]|[Hge ->]]; [done|]. by rewrite !take_ge by lia. }
  destruct Hclamp as [-> ->]. set (e' := e `min` _total_length r).
  destruct (Z.lt_ge_cases s e') as [Hlt|Hge].
  - destruct (rle_slice_runs W r s e' Hwf) as (runs & -> & ->); [lia..|]. constructor. apply represents_intro.
    + by apply rle_take_ok, rle_drop_ok.
    + by apply rle_take_canonical, rle_drop_canonical.
    + rewrite rle_take_values, rle_drop_values, Hv, firstn_skipn_comm by (lia || auto using rle_drop_ok).
      do 2 f_equal. lia.
    + rewrite length_drop, length_take. lia.
    + lia.
  - unfold rle_slice. destruct (Z.gtb_spec e' (_total_length r)); [lia|]. destruct (Z.geb_spec s e'); [|lia].
    rewrite drop_ge by (rewrite length_take; lia). constructor.
    apply represents_intro; try constructor. cbn. lia.
Qed.

Lemma exec_agree op r l : represents r l -> op_ok op l -> agree (rle_exec op r) (list_exec op l).
Proof.
  intros Hr Hop. destruct op as [s e repl|s e v|o n|n|s e]; cbn [rle_exec].
  - destruct Hop as (? & ? & ? & ? & ?). by apply replace_agree.
  - by apply replace_value_agree.
  - by apply replace_values_agree.
  - by apply resize_agree.
  - destruct Hop. by apply slice_agree.
Qed.

(** C10: the run length encoding refines the list of values it stands for.
    Every sequence of replacements, substitutions of values, resizings and
    slices that the class allows ([ops_ok]: a value does not replace an empty
    range, which would insert an empty run; runs that are put in are non-empty
    and no two neighbours of them equal; the size type can count the result)
    has the same outcome on the runs as on the plain list: the same
    exception, or runs that stand for the same list.  The in-place algorithms
    never leave the vector, the runs stay non-empty with an exact total below
    the width of the size type, and no two neighbours have the same value. *)
Theorem rle_refines_list ops r l : represents r l -> ops_ok ops l ->
  agree (run_ops rle_exec ops r) (run_ops list_exec ops l).
Proof.
  revert r l. induction ops as [|op ops IH]; intros r l Hr Hops; [by constructor|].
  destruct Hops as [Hop Hops]. cbn [run_ops].
  pose proof (exec_agree op r l Hr Hop) as Hagree. revert Hops.
  destruct Hagree as [r' l' Hr'| |]; intros Hops; cbn [obind]; [by apply IH|constructor..].
Qed.

(** What can be observed of an encoded vector is the list: its size, the
    value at a position (an exception past the end), and equality, which
    compares the runs, yet holds exactly for equal lists. *)
Theorem rle_observations r r2 l l2 i : represents r l -> represents r2 l2 -> 0 <= i ->
  rle_size r = Z.of_nat (length l) /\
  rle_empty r = bool_decide (l = []) /\
  rle_at W r i = match l !! Z.to_nat i with Some v => Done v | None => Throws end /\
  rle_eqb r r2 = bool_decide (l = l2).
Proof.
  intros Hr Hr2 Hi. pose proof (represents_length _ _ Hr) as Hlen. pose proof (represents_length _ _ Hr2) as Hlen2.
  destruct Hr as (Hwf & Hc & Hv), Hr2 as (Hwf2 & Hc2 & Hv2). split_and!.
  - done.
  - unfold rle_empty. rewrite Hlen. destruct l; case_bool_decide; done.
  - rewrite <- Hv. by apply rle_at_values.
  - unfold rle_eqb. rewrite Hlen, Hlen2. destruct (bool_decide_reflect (l = l2)) as [Hll|Hll].
    + rewrite Hll, Z.eqb_refl. apply bool_decide_eq_true. destruct Hwf as [Hok _], Hwf2 as [Hok2 _].
      by apply canonical_unique; [..|rewrite Hv, Hll].
    + apply andb_false_iff. right. apply bool_decide_eq_false. intros Heq. apply Hll. by rewrite <- Hv, <- Hv2, Heq.
Qed.

(** An iterator over the values behaves as an index.  From the beginning
    of the vector every position up to the end can be reached in one jump;
    there the iterator yields the value of the list, a further jump by any
    distance that stays in range lands on the right position, stepping is
    jumping by one, and comparison and difference are those of the indices. *)
Theorem rle_iterator_index r l i j : represents r l ->
  0 <= i <= Z.of_nat (length l) -> 0 <= j <= Z.of_nat (length l) ->
  exists x y,
    iter_advance W (_runs r) iter_begin i = Done x /\
    iter_advance W (_runs r) x (j - i) = Done y /\
    iter_advance W (_runs r) iter_begin j = Done y /\
    iter_distance (_runs r) y x = Done (j - i) /\
    iter_ltb x y = (i <? j) /\ iter_eqb x y = (i =? j) /\
    iter_eqb x (iter_end (_runs r)) = (i =? Z.of_nat (length l)) /\
    (forall v, l !! Z.to_nat i = Some v -> iter_deref (_runs r) x = Done v) /\
    (j = i + 1 -> iter_incr W (_runs r) x = Done y) /\
    (j = i - 1 -> iter_decr W (_runs r) x = Done y).
Proof.
  intros Hr Hi Hj. pose proof (represents_length _ _ Hr) as Hlen. destruct Hr as ((Hok & Ht & Hw) & _ & Hv).
  pose proof (iter_at_begin _ Hok) as H0. rewrite <- Hlen, <- Ht in *.
  assert (Huniq : forall a k x y, Done x = a -> iter_at (_runs r) k x -> iter_at (_runs r) k y -> a = Done y).
  { intros a k [a1 a2] [b1 b2] <- Hx Hy. pose proof (iter_eqb_spec _ _ _ _ _ Hok Hx Hy) as He.
    rewrite Z.eqb_refl in He. apply andb_true_iff in He as [H1%Nat.eqb_eq H2%Z.eqb_eq]. cbn in H1, H2. by subst. }
  destruct (iter_advance_spec W _ _ _ i Hok ltac:(lia) H0 ltac:(lia)) as (x & Hx & Hax).
  destruct (iter_advance_spec W _ _ _ j Hok ltac:(lia) H0 ltac:(lia)) as (y & Hy & Hay).
  rewrite Z.add_0_l in Hax, Hay. exists x, y. split_and!; try done.
  - destruct (iter_advance_spec W _ _ _ (j - i) Hok ltac:(lia) Hax ltac:(lia)) as (z & Hz & Haz).
    replace (i + (j - i)) with j in Haz by lia. by eapply Huniq.
  - by apply iter_distance_spec.
  - by eapply iter_ltb_spec.
  - by eapply iter_eqb_spec.
  - eapply iter_eqb_spec; [done|done|apply iter_at_end].
  - intros v Hl. rewrite <- Hv in Hl.
    assert (Hlt : i < total (_runs r)).
    { apply lookup_lt_Some in Hl. rewrite length_runs_values in Hl by done. lia. }
    destruct (iter_deref_spec _ _ _ Hok Hax Hlt) as (v' & -> & Hv'). congruence.
  - intros ->. destruct (iter_incr_spec W _ _ _ Hok ltac:(lia) Hax ltac:(lia)) as (z & Hz & Haz). by eapply Huniq.
  - intros ->. destruct (iter_decr_spec W _ _ _ Hok ltac:(lia) Hax ltac:(lia)) as (z & Hz & Haz). by eapply Huniq.
Qed.

(** ** Two behaviours to know about *)

(** The postfix operators leave the iterator where it is, and return the
    stepped copy. *)
Lemma post_increment_stays runs x : iter_post_incr W runs x = (let* y := iter_incr W runs x in Done (x, y)).
Proof. done. Qed.
End Refine.

(** A value that replaces an empty range leaves an empty run behind, which
    splits its neighbour and which an iterator does not skip. *)
Example replace_empty_range :
  replace_value 16 (rle_of_value 3 7) 1 1 9
  = Done (mk_rle [mk_run 7 1; mk_run 9 0; mk_run 7 2] 3).
Proof. reflexivity. Qed.

(** ** On concrete rows *)

Section Witness.
Definition sample_row : basic_rle Z := mk_rle [mk_run 1 3; mk_run 2 3; mk_run 3 3] 9.
Definition sample_list : list Z := [1; 1; 1; 2; 2; 2; 3; 3; 3].

Lemma sample_represents : represents 16 sample_row sample_list.
Proof. split_and!; [repeat constructor; cbn; lia|repeat constructor; cbn; lia|done]. Qed.

Lemma sample_canonical : canonical [mk_run 1 2; mk_run 4 1; mk_run 2 1].
Proof. repeat constructor; cbn; lia. Qed.

Lemma rle_refines_list_witness :
  agree 16 (Done (mk_rle [mk_run 1 4; mk_run 5 1; mk_run 2 6] 11))
           (Done [1; 1; 1; 1; 5; 2; 2; 2; 2; 2; 2]).
Proof.
  pose proof (rle_refines_list 16
    [OpReplace 2 4 [mk_run 1 2; mk_run 4 1; mk_run 2 1]; OpReplaceValues 4 5; OpResize 8; OpResize 11]
    sample_row sample_list sample_represents) as Hw.
  vm_compute run_ops in Hw. apply Hw. split; [|by cbn; split_and!; try lia].
  cbn. split_and!; [lia|lia| |apply sample_canonical|lia]. repeat apply Forall_cons; cbn; lia || constructor.
Defined.

Lemma rle_observations_witness : rle_at 16 sample_row 9 = Throws /\ rle_eqb sample_row sample_row = true.
Proof.
  destruct (rle_observations 16 sample_row sample_row sample_list sample_list 9
    sample_represents sample_represents ltac:(lia)) as (_ & _ & Ha & He).
  split; [exact Ha|exact He].
Defined.

Lemma rle_iterator_index_witness : exists x y,
  iter_advance 16 (_runs sample_row) iter_begin 8 = Done x /\
  iter_advance 16 (_runs sample_row) x (-6) = Done y /\ iter_distance (_runs sample_row) y x = Done (-6).
Proof.
  destruct (rle_iterator_index 16 sample_row sample_list 8 2 sample_represents) as (x & y & Hx & Hy & _ & Hd & _);
    [cbn; lia..|].
  exists x, y. split; [exact Hx|]. split; [exact Hy|exact Hd].
Defined.
End Witness.
