(* ===== verification/TextAttribute.v ===== *)
(** * Colours and attributes of text: [buffer/out/TextColor], [TextAttribute]

    A [TextColor] is four bytes: its type, and either an index or red, green
    and blue, the index sharing its byte with red.  A [TextAttribute] is a word
    of flags, a hyperlink, three colours and a mark.  The flag words are
    integers with the bit operations of the source.  The file has the whole
    of both classes, the static tables of the conversion to and from the
    attributes of the legacy console included. *)

From S2P Require Import Prelude.

(** ** [inc/conattrs.hpp], and the constants of the console API it names *)

Definition FOREGROUND_INTENSITY : Z := 0x08.
Definition COMMON_LVB_GRID_HORIZONTAL : Z := 0x400.
Definition COMMON_LVB_GRID_LVERTICAL : Z := 0x800.
Definition COMMON_LVB_GRID_RVERTICAL : Z := 0x1000.
Definition COMMON_LVB_REVERSE_VIDEO : Z := 0x4000.
Definition COMMON_LVB_UNDERSCORE : Z := 0x8000.
Definition COMMON_LVB_SBCSDBCS : Z := 0x300.
Definition FG_ATTRS : Z := 0x0F.
Definition BG_ATTRS : Z := 0xF0.
Definition META_ATTRS : Z :=
  Z.lor COMMON_LVB_SBCSDBCS (Z.lor COMMON_LVB_GRID_HORIZONTAL (Z.lor COMMON_LVB_GRID_LVERTICAL
    (Z.lor COMMON_LVB_GRID_RVERTICAL (Z.lor COMMON_LVB_REVERSE_VIDEO COMMON_LVB_UNDERSCORE)))).
Definition USED_META_ATTRS : Z := Z.ldiff META_ATTRS COMMON_LVB_SBCSDBCS.

Module CharacterAttributes.
Definition Normal : Z := 0x00.
Definition Intense : Z := 0x01.
Definition Italics : Z := 0x02.
Definition Blinking : Z := 0x04.
Definition Invisible : Z := 0x08.
Definition CrossedOut : Z := 0x10.
Definition Faint : Z := 0x20.
Definition UnderlineStyle : Z := 0x1C0.
Definition Unused1 : Z := 0x200.
Definition TopGridline : Z := COMMON_LVB_GRID_HORIZONTAL.
Definition LeftGridline : Z := COMMON_LVB_GRID_LVERTICAL.
Definition RightGridline : Z := COMMON_LVB_GRID_RVERTICAL.
Definition Protected : Z := 0x2000.
Definition ReverseVideo : Z := COMMON_LVB_REVERSE_VIDEO.
Definition BottomGridline : Z := COMMON_LVB_UNDERSCORE.
Definition All : Z := 0xFFFF.
Definition Rendition : Z := Z.ldiff All Protected.
End CharacterAttributes.

Definition UNDERLINE_STYLE_SHIFT : Z := 6.

(** [WI_IsFlagSet], [WI_UpdateFlag] and [WI_ToggleFlag] on a 16-bit word. *)
Definition is_flag_set (attrs flag : Z) : bool := negb (Z.land attrs flag =? 0).

Definition update_flag (attrs flag : Z) (isSet : bool) : Z :=
  if isSet then Z.lor attrs flag else Z.ldiff attrs flag.

Definition toggle_flag (attrs flag : Z) : Z := Z.lxor attrs flag.

(** ** [TextColor] *)

Inductive ColorType := IsDefault_ | IsIndex16_ | IsIndex256_ | IsRgb_.

#[global] Instance ColorType_eq_dec : EqDecision ColorType.
Proof. solve_decision. Defined.

Record TextColor := mk_TextColor { _red : Z; _green : Z; _blue : Z; _meta : ColorType }.

#[global] Instance TextColor_eq_dec : EqDecision TextColor.
Proof. solve_decision. Defined.

(** The index and the red component are one byte. *)
Definition _index (c : TextColor) : Z := _red c.

Definition GetRValue (rgb : Z) : Z := u8 rgb.
Definition GetGValue (rgb : Z) : Z := u8 (Z.shiftr rgb 8).
Definition GetBValue (rgb : Z) : Z := u8 (Z.shiftr rgb 16).
Definition RGB (r g b : Z) : Z := Z.lor r (Z.lor (Z.shiftl g 8) (Z.shiftl b 16)).

Definition TextColor_default : TextColor := mk_TextColor 0 0 0 IsDefault_.

Definition TextColor_index (index : Z) (isIndex256 : bool) : TextColor :=
  mk_TextColor index 0 0 (if isIndex256 then IsIndex256_ else IsIndex16_).

Definition TextColor_rgb (rgb : Z) : TextColor :=
  mk_TextColor (GetRValue rgb) (GetGValue rgb) (GetBValue rgb) IsRgb_.

Definition IsIndex16 (c : TextColor) : bool := bool_decide (_meta c = IsIndex16_).
Definition IsIndex256 (c : TextColor) : bool := bool_decide (_meta c = IsIndex256_).
Definition IsDefault (c : TextColor) : bool := bool_decide (_meta c = IsDefault_).
Definition IsRgb (c : TextColor) : bool := bool_decide (_meta c = IsRgb_).
Definition CanBeBrightened (c : TextColor) : bool := IsIndex16 c || IsDefault c.
Definition GetType (c : TextColor) : ColorType := _meta c.
Definition TextColor_IsLegacy (c : TextColor) : bool := (IsIndex16 c || IsIndex256 c) && (_index c <? 16).
Definition IsDefaultOrLegacy (c : TextColor) : bool := negb (IsRgb c) && (_index c <? 16).

(** The setters overwrite the whole of the colour. *)
Definition SetColor (rgbColor : Z) : TextColor := TextColor_rgb rgbColor.
Definition SetIndex (index : Z) (isIndex256 : bool) : TextColor := TextColor_index index isIndex256.
Definition SetDefault : TextColor := TextColor_default.

Definition GetIndex (c : TextColor) : Z := _index c.
Definition GetR (c : TextColor) : Z := _red c.
Definition GetG (c : TextColor) : Z := _green c.
Definition GetB (c : TextColor) : Z := _blue c.
Definition GetRGB (c : TextColor) : Z := RGB (_red c) (_green c) (_blue c).

Definition TABLE_SIZE : Z := 267.

Definition table_at (table : list Z) (i : Z) : Z := nth (Z.to_nat i) table 0.

(** *** The search for the bright counterpart of a default colour

    Eight 32-bit lanes are compared at once; the AVX2 version takes the sign
    of each lane, the SSE2 version packs the lanes to 16 bits with signed
    saturation and takes the sign of each byte. *)

Definition cmpeq_epi32 (a b : Z) : Z := if a =? b then 0xFFFFFFFF else 0.

Fixpoint movemask (width : Z) (lanes : list Z) : Z :=
  match lanes with
  | [] => 0
  | l :: lanes' => Z.lor (Z.land (Z.shiftr l (width - 1)) 1) (Z.shiftl (movemask width lanes') 1)
  end.

Definition signed32 (x : Z) : Z := if x <? 2 ^ 31 then x else x - 2 ^ 32.

Definition packs_epi32 (x : Z) : Z := u16 (Z.max (- 2 ^ 15) (Z.min (2 ^ 15 - 1) (signed32 x))).

Definition bytes_of_word (w : Z) : list Z := [u8 w; u8 (Z.shiftr w 8)].

Fixpoint bit_scan_loop (fuel : nat) (i mask : Z) : option Z :=
  match fuel with
  | O => None
  | S fuel' => if Z.testbit mask i then Some i else bit_scan_loop fuel' (i + 1) mask
  end.

(** [_BitScanForward]: the lowest set bit of a 32-bit word. *)
Definition BitScanForward (mask : Z) : option Z := bit_scan_loop 32 0 mask.

Definition brighten_avx2 (colorTable : list Z) (defaultColor : Z) : Z :=
  let result := map (fun h => cmpeq_epi32 h defaultColor) (map (table_at colorTable) [0; 1; 2; 3; 4; 5; 6; 7]) in
  match BitScanForward (movemask 32 result) with
  | Some index => table_at colorTable (index + 8)
  | None => defaultColor
  end.

Definition brighten_sse2 (colorTable : list Z) (defaultColor : Z) : Z :=
  let result1 := map (fun h => cmpeq_epi32 h defaultColor) (map (table_at colorTable) [0; 1; 2; 3]) in
  let result2 := map (fun h => cmpeq_epi32 h defaultColor) (map (table_at colorTable) [4; 5; 6; 7]) in
  let result := map packs_epi32 (result1 ++ result2) in
  match BitScanForward (movemask 8 (concat (map bytes_of_word result))) with
  | Some index => table_at colorTable (index / 2 + 8)
  | None => defaultColor
  end.

Fixpoint brighten_loop (n : nat) (i : Z) (colorTable : list Z) (defaultColor : Z) : Z :=
  match n with
  | O => defaultColor
  | S n' =>
      if table_at colorTable i =? defaultColor then table_at colorTable (i + 8)
      else brighten_loop n' (i + 1) colorTable defaultColor
  end.

(** [GetColor], over the version of the search that was compiled in. *)
Definition GetColor_with (search : list Z -> Z -> Z) (c : TextColor) (colorTable : list Z)
    (defaultIndex : Z) (brighten : bool) : Z :=
  if IsDefault c then
    let defaultColor := table_at colorTable defaultIndex in
    if brighten then search colorTable defaultColor else defaultColor
  else if IsRgb c then GetRGB c
  else if IsIndex16 c && brighten then table_at colorTable (Z.lor (_index c) 8)
  else table_at colorTable (_index c).

Definition GetColor : TextColor -> list Z -> Z -> bool -> Z := GetColor_with (brighten_loop 8 0).

(** *** The 16 legacy colours *)

Definition CompressedRgbToIndex16 : list Z :=
  [ 0; 1; 1; 9; 0; 0; 1; 1; 2; 1; 1; 1; 2; 8; 1; 9;
    2; 2; 3; 3; 2; 2; 11; 3; 10; 10; 11; 11; 10; 10; 10; 11;
    0; 5; 1; 1; 0; 0; 1; 1; 8; 1; 1; 1; 2; 8; 1; 9;
    2; 2; 3; 3; 2; 2; 11; 3; 10; 10; 10; 11; 10; 10; 10; 11;
    5; 5; 5; 1; 4; 5; 1; 1; 8; 8; 1; 9; 2; 8; 9; 9;
    2; 2; 3; 3; 2; 2; 11; 3; 10; 10; 11; 11; 10; 10; 10; 11;
    4; 5; 5; 1; 4; 5; 5; 1; 8; 5; 5; 1; 8; 8; 9; 9;
    2; 2; 8; 9; 10; 2; 11; 3; 10; 10; 11; 11; 10; 10; 10; 11;
    4; 13; 5; 5; 4; 13; 5; 5; 4; 13; 13; 13; 6; 8; 13; 9;
    6; 8; 8; 9; 10; 10; 11; 3; 10; 10; 11; 11; 10; 10; 10; 11;
    4; 13; 13; 13; 4; 13; 13; 13; 4; 12; 13; 13; 6; 12; 13; 13;
    6; 6; 8; 9; 6; 6; 7; 7; 10; 14; 14; 7; 10; 10; 14; 11;
    4; 12; 13; 13; 4; 12; 13; 13; 4; 12; 13; 13; 6; 12; 12; 13;
    6; 6; 12; 7; 6; 6; 7; 7; 6; 14; 14; 7; 14; 14; 14; 15;
    12; 12; 13; 13; 12; 12; 13; 13; 12; 12; 12; 13; 12; 12; 12; 13;
    6; 12; 12; 7; 6; 6; 7; 7; 6; 14; 14; 7; 14; 14; 14; 15 ].

Definition Index256ToIndex16 : list Z :=
  [ 0; 4; 2; 6; 1; 5; 3; 7; 8; 12; 10; 14; 9; 13; 11; 15;
    0; 1; 1; 1; 9; 9; 2; 1; 1; 1; 1; 1; 2; 2; 3; 3;
    3; 3; 2; 2; 11; 11; 3; 3; 10; 10; 11; 11; 11; 11; 10; 10;
    10; 10; 11; 11; 5; 5; 5; 5; 1; 1; 8; 8; 1; 1; 9; 9;
    2; 2; 3; 3; 3; 3; 2; 2; 11; 11; 3; 3; 10; 10; 11; 11;
    11; 11; 10; 10; 10; 10; 11; 11; 4; 13; 5; 5; 5; 5; 4; 13;
    13; 13; 13; 13; 6; 8; 8; 8; 9; 9; 10; 10; 11; 11; 3; 3;
    10; 10; 11; 11; 11; 11; 10; 10; 10; 10; 11; 11; 4; 13; 13; 13;
    13; 13; 4; 12; 13; 13; 13; 13; 6; 6; 8; 8; 9; 9; 6; 6;
    7; 7; 7; 7; 10; 14; 14; 14; 7; 7; 10; 10; 14; 14; 11; 11;
    4; 12; 13; 13; 13; 13; 4; 12; 13; 13; 13; 13; 6; 6; 12; 12;
    7; 7; 6; 6; 7; 7; 7; 7; 6; 14; 14; 14; 7; 7; 14; 14;
    14; 14; 15; 15; 12; 12; 13; 13; 13; 13; 12; 12; 12; 12; 13; 13;
    6; 12; 12; 12; 7; 7; 6; 6; 7; 7; 7; 7; 6; 14; 14; 14;
    7; 7; 14; 14; 14; 14; 15; 15; 0; 0; 0; 0; 0; 0; 8; 8;
    8; 8; 8; 8; 8; 8; 8; 8; 7; 7; 7; 7; 7; 7; 15; 15 ].

Definition GetLegacyIndex (c : TextColor) (defaultIndex : Z) : Z :=
  if IsDefault c then defaultIndex
  else if IsIndex16 c || IsIndex256 c then table_at Index256ToIndex16 (GetIndex c)
  else
    let compressedRgb := u8 (Z.land (_red c) 0xE0 + Z.land (Z.shiftr (_green c) 3) 0x1C
                             + Z.land (Z.shiftr (_blue c) 6) 0x03) in
    table_at CompressedRgbToIndex16 compressedRgb.

Definition TransposeLegacyIndex (index : Z) : Z :=
  let oneBitSet := Z.land (Z.lxor index (Z.shiftr index 2)) 1 in
  u8 (Z.lxor (Z.lxor index oneBitSet) (Z.shiftl oneBitSet 2)).

(** ** [TextAttribute] *)

Module UnderlineStyle.
Definition NoUnderline : Z := 0.
Definition SinglyUnderlined : Z := 1.
Definition DoublyUnderlined : Z := 2.
Definition CurlyUnderlined : Z := 3.
Definition DottedUnderlined : Z := 4.
Definition DashedUnderlined : Z := 5.
Definition Max : Z := DashedUnderlined.
End UnderlineStyle.

Inductive MarkKind := Mark_None | Mark_Prompt | Mark_Command | Mark_Output.

#[global] Instance MarkKind_eq_dec : EqDecision MarkKind.
Proof. solve_decision. Defined.

Record TextAttribute := mk_TextAttribute {
  _attrs : Z;
  _hyperlinkId : Z;
  _foreground : TextColor;
  _background : TextColor;
  _underlineColor : TextColor;
  _markKind : MarkKind }.

#[global] Instance TextAttribute_eq_dec : EqDecision TextAttribute.
Proof. solve_decision. Defined.

#[global] Instance TextAttribute_eta : Eta TextAttribute := fun a =>
  mk_TextAttribute (_attrs a) (_hyperlinkId a) (_foreground a) (_background a) (_underlineColor a) (_markKind a).

Definition INVALID_COLOR : Z := 0xFFFFFFFF.

Definition TextAttribute_default : TextAttribute :=
  mk_TextAttribute CharacterAttributes.Normal 0 TextColor_default TextColor_default TextColor_default Mark_None.

Definition TextAttribute_rgb (rgbForeground rgbBackground rgbUnderline : Z) : TextAttribute :=
  mk_TextAttribute CharacterAttributes.Normal 0 (TextColor_rgb rgbForeground) (TextColor_rgb rgbBackground)
    (TextColor_rgb rgbUnderline) Mark_None.

Definition TextAttribute_of (attrs : Z) (foreground background : TextColor) (hyperlinkId : Z)
    (underlineColor : TextColor) : TextAttribute :=
  mk_TextAttribute attrs hyperlinkId foreground background underlineColor Mark_None.

(** *** Flags *)

Definition IsTopHorizontalDisplayed (a : TextAttribute) : bool := is_flag_set (_attrs a) CharacterAttributes.TopGridline.
Definition IsBottomHorizontalDisplayed (a : TextAttribute) : bool := is_flag_set (_attrs a) CharacterAttributes.BottomGridline.
Definition IsLeftVerticalDisplayed (a : TextAttribute) : bool := is_flag_set (_attrs a) CharacterAttributes.LeftGridline.
Definition IsRightVerticalDisplayed (a : TextAttribute) : bool := is_flag_set (_attrs a) CharacterAttributes.RightGridline.
Definition IsIntense (a : TextAttribute) : bool := is_flag_set (_attrs a) CharacterAttributes.Intense.
Definition IsFaint (a : TextAttribute) : bool := is_flag_set (_attrs a) CharacterAttributes.Faint.
Definition IsItalic (a : TextAttribute) : bool := is_flag_set (_attrs a) CharacterAttributes.Italics.
Definition IsBlinking (a : TextAttribute) : bool := is_flag_set (_attrs a) CharacterAttributes.Blinking.
Definition IsInvisible (a : TextAttribute) : bool := is_flag_set (_attrs a) CharacterAttributes.Invisible.
Definition IsCrossedOut (a : TextAttribute) : bool := is_flag_set (_attrs a) CharacterAttributes.CrossedOut.
Definition IsOverlined (a : TextAttribute) : bool := is_flag_set (_attrs a) CharacterAttributes.TopGridline.
Definition IsReverseVideo (a : TextAttribute) : bool := is_flag_set (_attrs a) CharacterAttributes.ReverseVideo.
Definition IsProtected (a : TextAttribute) : bool := is_flag_set (_attrs a) CharacterAttributes.Protected.

Definition IsBold (a : TextAttribute) (intenseIsBold : bool) : bool :=
  IsIntense a && (intenseIsBold || negb (CanBeBrightened (_foreground a))).

Definition IsLegacy (a : TextAttribute) : bool :=
  TextColor_IsLegacy (_foreground a) && TextColor_IsLegacy (_background a).

Definition IsHyperlink (a : TextAttribute) : bool := negb (_hyperlinkId a =? 0).

Definition GetUnderlineStyle (a : TextAttribute) : Z :=
  Z.shiftr (Z.land (_attrs a) CharacterAttributes.UnderlineStyle) UNDERLINE_STYLE_SHIFT.

Definition IsUnderlined (a : TextAttribute) : bool := negb (GetUnderlineStyle a =? UnderlineStyle.NoUnderline).

Definition set_flag (flag : Z) (isSet : bool) (a : TextAttribute) : TextAttribute :=
  a <| _attrs := update_flag (_attrs a) flag isSet |>.

Definition SetLeftVerticalDisplayed : bool -> TextAttribute -> TextAttribute := set_flag CharacterAttributes.LeftGridline.
Definition SetRightVerticalDisplayed : bool -> TextAttribute -> TextAttribute := set_flag CharacterAttributes.RightGridline.
Definition SetIntense : bool -> TextAttribute -> TextAttribute := set_flag CharacterAttributes.Intense.
Definition SetFaint : bool -> TextAttribute -> TextAttribute := set_flag CharacterAttributes.Faint.
Definition SetItalic : bool -> TextAttribute -> TextAttribute := set_flag CharacterAttributes.Italics.
Definition SetBlinking : bool -> TextAttribute -> TextAttribute := set_flag CharacterAttributes.Blinking.
Definition SetInvisible : bool -> TextAttribute -> TextAttribute := set_flag CharacterAttributes.Invisible.
Definition SetCrossedOut : bool -> TextAttribute -> TextAttribute := set_flag CharacterAttributes.CrossedOut.
Definition SetOverlined : bool -> TextAttribute -> TextAttribute := set_flag CharacterAttributes.TopGridline.
Definition SetReverseVideo : bool -> TextAttribute -> TextAttribute := set_flag CharacterAttributes.ReverseVideo.
Definition SetProtected : bool -> TextAttribute -> TextAttribute := set_flag CharacterAttributes.Protected.

Definition Invert (a : TextAttribute) : TextAttribute :=
  a <| _attrs := toggle_flag (_attrs a) CharacterAttributes.ReverseVideo |>.

Definition SetUnderlineStyle (style : Z) (a : TextAttribute) : TextAttribute :=
  let shiftedStyle := u16 (Z.shiftl style UNDERLINE_STYLE_SHIFT) in
  a <| _attrs := Z.lor (Z.ldiff (_attrs a) CharacterAttributes.UnderlineStyle) shiftedStyle |>.

Definition SetCharacterAttributes (attrs : Z) (a : TextAttribute) : TextAttribute := a <| _attrs := attrs |>.
Definition SetMarkAttributes (k : MarkKind) (a : TextAttribute) : TextAttribute := a <| _markKind := k |>.
Definition SetDefaultRenditionAttributes (a : TextAttribute) : TextAttribute :=
  a <| _attrs := Z.ldiff (_attrs a) CharacterAttributes.Rendition |>.

(** *** Colours *)

Definition SetForeground (c : TextColor) (a : TextAttribute) : TextAttribute := a <| _foreground := c |>.
Definition SetBackground (c : TextColor) (a : TextAttribute) : TextAttribute := a <| _background := c |>.
(** The assertion against 16 colour indexes is compiled out of a release. *)
Definition SetUnderlineColor (c : TextColor) (a : TextAttribute) : TextAttribute := a <| _underlineColor := c |>.
Definition SetIndexedForeground (i : Z) (a : TextAttribute) : TextAttribute := a <| _foreground := TextColor_index i false |>.
Definition SetIndexedBackground (i : Z) (a : TextAttribute) : TextAttribute := a <| _background := TextColor_index i false |>.
Definition SetIndexedForeground256 (i : Z) (a : TextAttribute) : TextAttribute := a <| _foreground := TextColor_index i true |>.
Definition SetIndexedBackground256 (i : Z) (a : TextAttribute) : TextAttribute := a <| _background := TextColor_index i true |>.
Definition SetColor_ground (rgbColor : Z) (fIsForeground : bool) (a : TextAttribute) : TextAttribute :=
  if fIsForeground then SetForeground (TextColor_rgb rgbColor) a else SetBackground (TextColor_rgb rgbColor) a.
Definition SetHyperlinkId (id : Z) (a : TextAttribute) : TextAttribute := a <| _hyperlinkId := id |>.
Definition SetDefaultForeground (a : TextAttribute) : TextAttribute := a <| _foreground := TextColor_default |>.
Definition SetDefaultBackground (a : TextAttribute) : TextAttribute := a <| _background := TextColor_default |>.
Definition SetDefaultUnderlineColor (a : TextAttribute) : TextAttribute := a <| _underlineColor := TextColor_default |>.
Definition BackgroundIsDefault (a : TextAttribute) : bool := IsDefault (_background a).

Definition SetStandardErase (a : TextAttribute) : TextAttribute :=
  a <| _attrs := CharacterAttributes.Normal |> <| _hyperlinkId := 0 |> <| _markKind := Mark_None |>.

Definition IsAnyGridLineEnabled (a : TextAttribute) : bool :=
  is_flag_set (_attrs a) (Z.lor CharacterAttributes.TopGridline (Z.lor CharacterAttributes.LeftGridline
    (Z.lor CharacterAttributes.RightGridline CharacterAttributes.BottomGridline))).

Definition HasAnyVisualAttributes (a : TextAttribute) : bool :=
  negb (_attrs a =? CharacterAttributes.Normal) || negb (_hyperlinkId a =? 0).

Definition HasIdenticalVisualRepresentationForBlankSpace (a other : TextAttribute) (inverted : bool) : bool :=
  let checkForeground := xorb inverted (IsReverseVideo a) in
  negb (IsAnyGridLineEnabled a)
  && (negb (IsUnderlined a) && negb (is_flag_set (_attrs a) CharacterAttributes.CrossedOut))
  && negb (IsHyperlink a)
  && (_attrs a =? _attrs other)
  && ((checkForeground && bool_decide (_foreground a = _foreground other))
      || (negb checkForeground && bool_decide (_background a = _background other)))
  && eqb (IsHyperlink a) (IsHyperlink other).

(** *** The attributes of the legacy console

    The static members: the legacy colours that stand for the default
    colours, and the maps from legacy colours. *)

Record LegacyDefaults := mk_LegacyDefaults {
  s_legacyDefaultForeground : Z;
  s_legacyDefaultBackground : Z;
  s_ansiDefaultForeground : Z;
  s_ansiDefaultBackground : Z;
  s_legacyForegroundColorMap : list TextColor;
  s_legacyBackgroundColorMap : list TextColor }.

Definition s_initLegacyColorMap (defaultIndex : Z) : list TextColor :=
  map (fun i => if i =? defaultIndex then TextColor_default else TextColor_index (TransposeLegacyIndex i) true)
      [0; 1; 2; 3; 4; 5; 6; 7; 8; 9; 10; 11; 12; 13; 14; 15].

Definition initial_LegacyDefaults : LegacyDefaults :=
  mk_LegacyDefaults 7 0 7 0 (s_initLegacyColorMap 7) (s_initLegacyColorMap 0).

(** [gsl::at(map, i) = c], whose index is at most 15. *)
Definition map_set (m : list TextColor) (i : Z) (c : TextColor) : list TextColor := <[Z.to_nat i := c]> m.
Definition map_at (m : list TextColor) (i : Z) : TextColor := nth (Z.to_nat i) m TextColor_default.

Definition SetLegacyDefaultAttributes (defaultAttributes : Z) (s : LegacyDefaults) : LegacyDefaults :=
  let fg := map_set (s_legacyForegroundColorMap s) (s_legacyDefaultForeground s) (TextColor_index (s_ansiDefaultForeground s) true) in
  let bg := map_set (s_legacyBackgroundColorMap s) (s_legacyDefaultBackground s) (TextColor_index (s_ansiDefaultBackground s) true) in
  let legacyForeground := Z.land defaultAttributes FG_ATTRS in
  let legacyBackground := Z.shiftr (Z.land defaultAttributes BG_ATTRS) 4 in
  mk_LegacyDefaults legacyForeground legacyBackground
    (TransposeLegacyIndex legacyForeground) (TransposeLegacyIndex legacyBackground)
    (map_set fg legacyForeground TextColor_default)
    (map_set bg legacyBackground TextColor_default).

Definition TextAttribute_legacy (s : LegacyDefaults) (wLegacyAttr : Z) : TextAttribute :=
  mk_TextAttribute (Z.land wLegacyAttr USED_META_ATTRS) 0
    (map_at (s_legacyForegroundColorMap s) (Z.land wLegacyAttr FG_ATTRS))
    (map_at (s_legacyBackgroundColorMap s) (Z.shiftr (Z.land wLegacyAttr BG_ATTRS) 4))
    TextColor_default Mark_None.

Definition GetLegacyAttributes (s : LegacyDefaults) (a : TextAttribute) : Z :=
  let fgIndex := GetLegacyIndex (_foreground a) (s_legacyDefaultForeground s) in
  let bgIndex := GetLegacyIndex (_background a) (s_legacyDefaultBackground s) in
  let metaAttrs := Z.land (_attrs a) USED_META_ATTRS in
  let brighten := IsIntense a && CanBeBrightened (_foreground a) in
  Z.lor (Z.lor (Z.lor fgIndex (Z.shiftl bgIndex 4)) metaAttrs) (if brighten then FOREGROUND_INTENSITY else 0).
