(* ===== verification/AttributeFacts.v ===== *)
(** * Facts about colours and attributes

    Flag words bit by bit; the vector searches of [GetColor]; the conversion
    to and from the attributes of the legacy console. *)

From S2P Require Import Prelude TextAttribute.

(** ** Small ranges *)

Lemma range16 (P : Z -> Prop) :
  P 0 -> P 1 -> P 2 -> P 3 -> P 4 -> P 5 -> P 6 -> P 7 -> P 8 -> P 9 -> P 10 -> P 11 -> P 12 -> P 13 ->
  P 14 -> P 15 -> forall i, 0 <= i < 16 -> P i.
Proof.
  intros. assert (i = 0 \/ i = 1 \/ i = 2 \/ i = 3 \/ i = 4 \/ i = 5 \/ i = 6 \/ i = 7 \/ i = 8 \/ i = 9 \/
    i = 10 \/ i = 11 \/ i = 12 \/ i = 13 \/ i = 14 \/ i = 15) as Hi by lia.
  repeat destruct Hi as [->|Hi]; try done. by subst.
Qed.

(** ** Flag words *)

Lemma is_flag_set_bit attrs n : 0 <= n -> is_flag_set attrs (2 ^ n) = Z.testbit attrs n.
Proof.
  intros Hn. unfold is_flag_set. destruct (Z.testbit attrs n) eqn:Hb.
  - apply negb_true_iff, Z.eqb_neq. intros H0. apply (f_equal (fun z => Z.testbit z n)) in H0.
    rewrite Z.land_spec, Hb, Z.pow2_bits_true, Z.bits_0 in H0 by done. done.
  - apply negb_false_iff, Z.eqb_eq. apply Z.bits_inj'. intros m Hm.
    rewrite Z.land_spec, Z.bits_0, Z.pow2_bits_eqb by done.
    destruct (Z.eqb_spec n m) as [<-|]; [by rewrite Hb|by rewrite andb_false_r].
Qed.

Lemma update_flag_bit attrs n b m : 0 <= n -> 0 <= m ->
  Z.testbit (update_flag attrs (2 ^ n) b) m = if m =? n then b else Z.testbit attrs m.
Proof.
  intros Hn Hm. unfold update_flag. destruct b; rewrite ?Z.lor_spec, ?Z.ldiff_spec, Z.pow2_bits_eqb by done;
    rewrite (Z.eqb_sym m n); destruct (n =? m); cbn; rewrite ?orb_true_r, ?orb_false_r, ?andb_true_r, ?andb_false_r; done.
Qed.

Lemma underline_mask_bit m : Z.testbit 0x1C0 m = ((6 <=? m) && (m <=? 8)).
Proof.
  destruct (Z.leb_spec 6 m) as [H1|H1], (Z.leb_spec m 8) as [H2|H2]; cbn [andb].
  - assert (m = 6 \/ m = 7 \/ m = 8) as [->|[->| ->]] by lia; done.
  - apply Z.bits_above_log2; [lia|]. change (Z.log2 0x1C0) with 8. lia.
  - destruct (Z.lt_ge_cases m 0); [by apply Z.testbit_neg_r|].
    assert (m = 0 \/ m = 1 \/ m = 2 \/ m = 3 \/ m = 4 \/ m = 5) as Hm by lia.
    by destruct Hm as [->|[->|[->|[->|[->| ->]]]]].
  - lia.
Qed.

Lemma underline_style_bit s a m : 0 <= s < 8 -> 0 <= m ->
  Z.testbit (_attrs (SetUnderlineStyle s a)) m
  = if (6 <=? m) && (m <=? 8) then Z.testbit s (m - 6) else Z.testbit (_attrs a) m.
Proof.
  intros Hs Hm. unfold SetUnderlineStyle. cbn. rewrite Z.lor_spec, Z.ldiff_spec.
  unfold CharacterAttributes.UnderlineStyle, UNDERLINE_STYLE_SHIFT, u16.
  rewrite underline_mask_bit, Z.mod_small by (rewrite Z.shiftl_mul_pow2; lia).
  rewrite Z.shiftl_spec by done.
  destruct (Z.leb_spec 6 m), (Z.leb_spec m 8); cbn; rewrite ?andb_false_r, ?andb_true_r; cbn; [done| | |lia].
  - rewrite (Z.bits_above_log2 s (m - 6)), ?orb_false_r; [done|lia|].
    destruct (Z.eq_dec s 0) as [->|]; [cbn; lia|]. apply Z.log2_lt_pow2; [lia|].
    apply Z.lt_le_trans with (2 ^ 3); [lia|]. apply Z.pow_le_mono_r; lia.
  - rewrite (Z.testbit_neg_r s), ?orb_false_r by lia. done.
Qed.

Lemma underline_style_value a : GetUnderlineStyle a = Z.land (Z.shiftr (_attrs a) 6) 7.
Proof.
  unfold GetUnderlineStyle, UNDERLINE_STYLE_SHIFT. rewrite Z.shiftr_land. done.
Qed.

Lemma underline_style_range a : 0 <= GetUnderlineStyle a < 8.
Proof. rewrite underline_style_value. change 7 with (Z.ones 3). rewrite Z.land_ones by done. by apply Z.mod_pos_bound. Qed.

Lemma underline_set_get s a : 0 <= s < 8 -> GetUnderlineStyle (SetUnderlineStyle s a) = s.
Proof.
  intros Hs. rewrite underline_style_value. change 7 with (Z.ones 3). apply Z.bits_inj'. intros m Hm.
  rewrite Z.land_spec, Z.shiftr_spec, Z.testbit_ones, underline_style_bit by lia.
  destruct (Z.leb_spec 0 m), (Z.ltb_spec m 3), (Z.leb_spec 6 (m + 6)), (Z.leb_spec (m + 6) 8); try lia; cbn.
  - rewrite andb_true_r. f_equal. lia.
  - rewrite andb_false_r. symmetry. rewrite <- (Z.mod_small s (2 ^ 3)) by lia. apply Z.mod_pow2_bits_high. lia.
Qed.

Lemma underline_other a a' : (forall m, 6 <= m <= 8 -> Z.testbit (_attrs a) m = Z.testbit (_attrs a') m) ->
  GetUnderlineStyle a = GetUnderlineStyle a'.
Proof.
  intros Hm. rewrite !underline_style_value. change 7 with (Z.ones 3). apply Z.bits_inj'. intros m Hm0.
  rewrite !Z.land_spec, !Z.shiftr_spec, Z.testbit_ones by lia.
  destruct (Z.leb_spec 0 m), (Z.ltb_spec m 3); cbn; rewrite ?andb_false_r; try done. by rewrite Hm by lia.
Qed.

(** ** Each flag and its bit

    The data base [attr] has the bit of every flag a setter changes and a
    getter reads. *)

Lemma set_flag_bit n b a m : 0 <= n -> 0 <= m ->
  Z.testbit (_attrs (set_flag (2 ^ n) b a)) m = if m =? n then b else Z.testbit (_attrs a) m.
Proof. apply update_flag_bit. Qed.

Lemma SetIntense_bit b a m : 0 <= m -> Z.testbit (_attrs (SetIntense b a)) m = if m =? 0 then b else Z.testbit (_attrs a) m.
Proof. by apply (set_flag_bit 0). Qed.

Lemma IsIntense_bit a : IsIntense a = Z.testbit (_attrs a) 0.
Proof. by apply (is_flag_set_bit _ 0). Qed.

Lemma SetFaint_bit b a m : 0 <= m -> Z.testbit (_attrs (SetFaint b a)) m = if m =? 5 then b else Z.testbit (_attrs a) m.
Proof. by apply (set_flag_bit 5). Qed.

Lemma IsFaint_bit a : IsFaint a = Z.testbit (_attrs a) 5.
Proof. by apply (is_flag_set_bit _ 5). Qed.

Lemma SetItalic_bit b a m : 0 <= m -> Z.testbit (_attrs (SetItalic b a)) m = if m =? 1 then b else Z.testbit (_attrs a) m.
Proof. by apply (set_flag_bit 1). Qed.

Lemma IsItalic_bit a : IsItalic a = Z.testbit (_attrs a) 1.
Proof. by apply (is_flag_set_bit _ 1). Qed.

Lemma SetBlinking_bit b a m : 0 <= m -> Z.testbit (_attrs (SetBlinking b a)) m = if m =? 2 then b else Z.testbit (_attrs a) m.
Proof. by apply (set_flag_bit 2). Qed.

Lemma IsBlinking_bit a : IsBlinking a = Z.testbit (_attrs a) 2.
Proof. by apply (is_flag_set_bit _ 2). Qed.

Lemma SetInvisible_bit b a m : 0 <= m -> Z.testbit (_attrs (SetInvisible b a)) m = if m =? 3 then b else Z.testbit (_attrs a) m.
Proof. by apply (set_flag_bit 3). Qed.

Lemma IsInvisible_bit a : IsInvisible a = Z.testbit (_attrs a) 3.
Proof. by apply (is_flag_set_bit _ 3). Qed.

Lemma SetCrossedOut_bit b a m : 0 <= m -> Z.testbit (_attrs (SetCrossedOut b a)) m = if m =? 4 then b else Z.testbit (_attrs a) m.
Proof. by apply (set_flag_bit 4). Qed.

Lemma IsCrossedOut_bit a : IsCrossedOut a = Z.testbit (_attrs a) 4.
Proof. by apply (is_flag_set_bit _ 4). Qed.

Lemma SetOverlined_bit b a m : 0 <= m -> Z.testbit (_attrs (SetOverlined b a)) m = if m =? 10 then b else Z.testbit (_attrs a) m.
Proof. by apply (set_flag_bit 10). Qed.

Lemma IsOverlined_bit a : IsOverlined a = Z.testbit (_attrs a) 10.
Proof. by apply (is_flag_set_bit _ 10). Qed.

Lemma SetReverseVideo_bit b a m : 0 <= m -> Z.testbit (_attrs (SetReverseVideo b a)) m = if m =? 14 then b else Z.testbit (_attrs a) m.
Proof. by apply (set_flag_bit 14). Qed.

Lemma IsReverseVideo_bit a : IsReverseVideo a = Z.testbit (_attrs a) 14.
Proof. by apply (is_flag_set_bit _ 14). Qed.

Lemma SetProtected_bit b a m : 0 <= m -> Z.testbit (_attrs (SetProtected b a)) m = if m =? 13 then b else Z.testbit (_attrs a) m.
Proof. by apply (set_flag_bit 13). Qed.

Lemma IsProtected_bit a : IsProtected a = Z.testbit (_attrs a) 13.
Proof. by apply (is_flag_set_bit _ 13). Qed.

Lemma SetForeground_attrs c a : _attrs (SetForeground c a) = _attrs a.
Proof. done. Qed.

Lemma SetBackground_attrs c a : _attrs (SetBackground c a) = _attrs a.
Proof. done. Qed.

Create Rewrite HintDb attr.
#[export] Hint Rewrite SetIntense_bit SetFaint_bit SetItalic_bit SetBlinking_bit SetInvisible_bit SetCrossedOut_bit SetOverlined_bit SetReverseVideo_bit SetProtected_bit underline_style_bit
  using (lia) : attr.
#[export] Hint Rewrite IsIntense_bit IsFaint_bit IsItalic_bit IsBlinking_bit IsInvisible_bit IsCrossedOut_bit IsOverlined_bit IsReverseVideo_bit IsProtected_bit SetForeground_attrs SetBackground_attrs : attr.

(** ** The searches for a bright counterpart *)

Lemma brighten_unrolled table c : brighten_loop 8 0 table c =
    if table_at table 0 =? c then table_at table 8 else
    if table_at table 1 =? c then table_at table 9 else
    if table_at table 2 =? c then table_at table 10 else
    if table_at table 3 =? c then table_at table 11 else
    if table_at table 4 =? c then table_at table 12 else
    if table_at table 5 =? c then table_at table 13 else
    if table_at table 6 =? c then table_at table 14 else
    if table_at table 7 =? c then table_at table 15 else c.
Proof. reflexivity. Qed.

(** Functions of the eight comparisons. *)
Lemma brighten_searches table c :
  brighten_avx2 table c = brighten_loop 8 0 table c /\ brighten_sse2 table c = brighten_loop 8 0 table c.
Proof.
  rewrite brighten_unrolled. unfold brighten_avx2, brighten_sse2, cmpeq_epi32. cbn [map app].
  repeat match goal with |- context [table_at table ?i =? c] => destruct (table_at table i =? c) end;
    split; vm_compute; reflexivity.
Qed.

(** Whichever vector instructions the code was compiled for, the colour
    of a text is the one the plain loop gives. *)
Theorem get_color_vectorised c colorTable defaultIndex brighten :
  GetColor_with brighten_avx2 c colorTable defaultIndex brighten = GetColor c colorTable defaultIndex brighten /\
  GetColor_with brighten_sse2 c colorTable defaultIndex brighten = GetColor c colorTable defaultIndex brighten.
Proof.
  unfold GetColor, GetColor_with. destruct (IsDefault c), brighten; try done. apply brighten_searches.
Qed.

(** ** The attributes of the legacy console *)

(** The state in which [fg] and [bg] are the legacy default colours. *)
Definition defaults (fg bg : Z) : LegacyDefaults :=
  mk_LegacyDefaults fg bg (TransposeLegacyIndex fg) (TransposeLegacyIndex bg)
    (s_initLegacyColorMap fg) (s_initLegacyColorMap bg).

(** Moving the default of a map. *)
Lemma legacy_map_moved i j : 0 <= i < 16 -> 0 <= j < 16 ->
  map_set (map_set (s_initLegacyColorMap i) i (TextColor_index (TransposeLegacyIndex i) true)) j TextColor_default
  = s_initLegacyColorMap j.
Proof. intros Hi Hj. revert i Hi. apply range16; revert j Hj; apply range16; reflexivity. Qed.

(** A legacy colour survives the map and the table behind it. *)
Lemma legacy_index_back i j : 0 <= i < 16 -> 0 <= j < 16 ->
  GetLegacyIndex (map_at (s_initLegacyColorMap i) j) i = j.
Proof. intros Hi Hj. revert i Hi. apply range16; revert j Hj; apply range16; vm_compute; reflexivity. Qed.

Lemma low_nibble w : 0 <= Z.land w FG_ATTRS < 16.
Proof. change FG_ATTRS with (Z.ones 4). rewrite Z.land_ones by done. by apply Z.mod_pos_bound. Qed.

Lemma high_nibble w : Z.shiftr (Z.land w BG_ATTRS) 4 = Z.land (Z.shiftr w 4) 15.
Proof. by rewrite Z.shiftr_land. Qed.

Lemma high_nibble_range w : 0 <= Z.shiftr (Z.land w BG_ATTRS) 4 < 16.
Proof. rewrite high_nibble. change 15 with (Z.ones 4). rewrite Z.land_ones by done. by apply Z.mod_pos_bound. Qed.

(** The states that calls of [SetLegacyDefaultAttributes] lead to. *)
Definition after_defaults (words : list Z) : LegacyDefaults :=
  fold_left (fun s w => SetLegacyDefaultAttributes w s) words initial_LegacyDefaults.

Lemma defaults_set w fg bg : 0 <= fg < 16 -> 0 <= bg < 16 ->
  SetLegacyDefaultAttributes w (defaults fg bg)
  = defaults (Z.land w FG_ATTRS) (Z.shiftr (Z.land w BG_ATTRS) 4).
Proof.
  intros Hf Hb. unfold SetLegacyDefaultAttributes, defaults. cbn [s_legacyForegroundColorMap s_legacyBackgroundColorMap
    s_legacyDefaultForeground s_legacyDefaultBackground s_ansiDefaultForeground s_ansiDefaultBackground].
  by rewrite !legacy_map_moved by (done || apply low_nibble || apply high_nibble_range).
Qed.

Lemma after_defaults_shape words : exists fg bg, 0 <= fg < 16 /\ 0 <= bg < 16 /\ after_defaults words = defaults fg bg.
Proof.
  unfold after_defaults.
  assert (Hinit : exists fg bg, 0 <= fg < 16 /\ 0 <= bg < 16 /\ initial_LegacyDefaults = defaults fg bg)
    by (exists 7, 0; repeat split; done).
  revert Hinit. generalize initial_LegacyDefaults. induction words as [|w words IH]; intros s Hs; [done|].
  cbn [fold_left]. apply IH. destruct Hs as (fg & bg & Hf & Hb & ->).
  exists (Z.land w FG_ATTRS), (Z.shiftr (Z.land w BG_ATTRS) 4).
  rewrite defaults_set by done. split_and!; (done || apply low_nibble || apply high_nibble_range).
Qed.

(** The bits of a legacy attribute word that a text attribute can hold. *)
Definition LEGACY_BITS : Z := Z.lor (Z.lor FG_ATTRS BG_ATTRS) USED_META_ATTRS.

Lemma legacy_word_parts w :
  Z.lor (Z.lor (Z.land w FG_ATTRS) (Z.shiftl (Z.shiftr (Z.land w BG_ATTRS) 4) 4)) (Z.land w USED_META_ATTRS)
  = Z.land w LEGACY_BITS.
Proof.
  unfold LEGACY_BITS. rewrite !Z.land_lor_distr_r. do 2 f_equal.
  change BG_ATTRS with (Z.shiftl 15 4). apply Z.bits_inj'. intros n Hn.
  destruct (Z.lt_ge_cases n 4).
  - rewrite Z.shiftl_spec_low, Z.land_spec, Z.shiftl_spec_low by lia. by rewrite andb_false_r.
  - rewrite Z.shiftl_spec, Z.shiftr_spec by lia. f_equal. lia.
Qed.

(** A legacy attribute word survives its conversion to a text attribute
    and back, except for the two bits that mark the halves of a wide
    character, whatever colours were declared the defaults before, and as
    often as they were changed. *)
Theorem legacy_roundtrip words w :
  let s := after_defaults words in
  GetLegacyAttributes s (TextAttribute_legacy s w) = Z.land w LEGACY_BITS.
Proof.
  cbv zeta. destruct (after_defaults_shape words) as (fg & bg & Hf & Hb & ->).
  unfold GetLegacyAttributes, TextAttribute_legacy, defaults. cbn [_foreground _background _attrs s_legacyDefaultForeground
    s_legacyDefaultBackground s_legacyForegroundColorMap s_legacyBackgroundColorMap].
  rewrite !legacy_index_back by (done || apply low_nibble || apply high_nibble_range).
  assert (Hi : IsIntense (mk_TextAttribute (Z.land w USED_META_ATTRS) 0
     (map_at (s_initLegacyColorMap fg) (Z.land w FG_ATTRS))
     (map_at (s_initLegacyColorMap bg) (Z.shiftr (Z.land w BG_ATTRS) 4)) TextColor_default Mark_None) = false).
  { unfold IsIntense. change CharacterAttributes.Intense with (2 ^ 0). rewrite is_flag_set_bit by done.
    cbn [_attrs]. by rewrite Z.land_spec, andb_false_r. }
  rewrite Hi. cbn [andb]. rewrite Z.lor_0_r, <- Z.land_assoc. change (Z.land USED_META_ATTRS USED_META_ATTRS) with USED_META_ATTRS.
  apply legacy_word_parts.
Qed.
