(* ===== verification/SgrStack.v ===== *)
(** * Saved graphic renditions: [types/sgrStack.cpp]

    A ring of ten slots that behaves as a stack which forgets its oldest
    entries.  [til::enumset] is a word with one bit per option. *)

From S2P Require Import Prelude VTTypes TextAttribute AttributeFacts.

Module SgrSaveRestoreStackOptions.
Definition All : Z := 0.
Definition Intense : Z := 1.
Definition Faintness : Z := 2.
Definition Italics : Z := 3.
Definition Underline : Z := 4.
Definition Blink : Z := 5.
Definition Negative : Z := 7.
Definition Invisible : Z := 8.
Definition CrossedOut : Z := 9.
Definition DoublyUnderlined : Z := 21.
Definition SaveForegroundColor : Z := 30.
Definition SaveBackgroundColor : Z := 31.
Definition Max : Z := SaveBackgroundColor.
End SgrSaveRestoreStackOptions.
Import SgrSaveRestoreStackOptions.

(** [til::enumset], on the 64-bit word that holds it. *)
Definition enumset_mask (pos : Z) : Z := u64 (Z.shiftl 1 pos).
Definition enumset_set (data pos : Z) : Z := Z.lor data (enumset_mask pos).
Definition enumset_test (data pos : Z) : bool := negb (Z.land data (enumset_mask pos) =? 0).

Record SavedSgrAttributes := mk_Saved { TextAttributes : TextAttribute; ValidParts : Z }.

Record SgrStack := mk_SgrStack {
  _nextPushIndex : Z;
  _numSavedAttrs : Z;
  _storedSgrAttributes : list SavedSgrAttributes }.

Definition c_MaxStoredSgrPushes : Z := 10.

Definition saved_default : SavedSgrAttributes := mk_Saved TextAttribute_default 0.

Definition new_SgrStack : SgrStack :=
  mk_SgrStack 0 0 (replicate (Z.to_nat c_MaxStoredSgrPushes) saved_default).

(** The loop over the options of [Push]. *)
Fixpoint valid_parts_loop (n : nat) (i : nat) (options : VTParameters) (validParts : Z) : Z :=
  match n with
  | O => validParts
  | S n' =>
      let option := value_or (param_at options i) 0 in
      let validParts := if (option >? All) && (option <=? Max) then enumset_set validParts option else validParts in
      valid_parts_loop n' (S i) options validParts
  end.

Definition valid_parts (options : VTParameters) : Z :=
  if params_empty options then enumset_set 0 All
  else valid_parts_loop (params_size options) 0 options 0.

Definition Push (currentAttributes : TextAttribute) (options : VTParameters) (s : SgrStack) : SgrStack :=
  let size := Z.of_nat (length (_storedSgrAttributes s)) in
  mk_SgrStack ((_nextPushIndex s + 1) mod size)
    (if _numSavedAttrs s <? size then _numSavedAttrs s + 1 else _numSavedAttrs s)
    (<[Z.to_nat (_nextPushIndex s) := mk_Saved currentAttributes (valid_parts options)]> (_storedSgrAttributes s)).

(** The underline style that [Pop] leaves: singly and extended styles go by
    option 4, the double underline by option 21. *)
Definition combine_underline (validParts : Z) (saved result : TextAttribute) : TextAttribute :=
  let isUnderlinedValid := enumset_test validParts Underline in
  let isDoublyUnderlinedValid := enumset_test validParts DoublyUnderlined in
  let savedUl := GetUnderlineStyle saved in
  if isUnderlinedValid && isDoublyUnderlinedValid then SetUnderlineStyle savedUl result
  else if isUnderlinedValid then
    if negb (savedUl =? UnderlineStyle.NoUnderline) && negb (savedUl =? UnderlineStyle.DoublyUnderlined)
    then SetUnderlineStyle savedUl result
    else if negb (GetUnderlineStyle result =? UnderlineStyle.DoublyUnderlined)
    then SetUnderlineStyle UnderlineStyle.NoUnderline result
    else result
  else if isDoublyUnderlinedValid then
    if savedUl =? UnderlineStyle.DoublyUnderlined then SetUnderlineStyle UnderlineStyle.DoublyUnderlined result
    else if GetUnderlineStyle result =? UnderlineStyle.DoublyUnderlined
    then SetUnderlineStyle UnderlineStyle.NoUnderline result
    else result
  else result.

(** The [FAIL_FAST_IF] at its beginning cannot fire: [restore] below, the only
    caller, takes the branch without it when all parts are valid. *)
Definition _CombineWithCurrentAttributes (currentAttributes savedAttribute : TextAttribute) (validParts : Z) : TextAttribute :=
  let test := enumset_test validParts in
  let result := currentAttributes in
  let result := if test Intense then SetIntense (IsIntense savedAttribute) result else result in
  let result := if test Faintness then SetFaint (IsFaint savedAttribute) result else result in
  let result := if test Italics then SetItalic (IsItalic savedAttribute) result else result in
  let result := combine_underline validParts savedAttribute result in
  let result := if test Blink then SetBlinking (IsBlinking savedAttribute) result else result in
  let result := if test Negative then SetReverseVideo (IsReverseVideo savedAttribute) result else result in
  let result := if test Invisible then SetInvisible (IsInvisible savedAttribute) result else result in
  let result := if test CrossedOut then SetCrossedOut (IsCrossedOut savedAttribute) result else result in
  let result := if test SaveForegroundColor then SetForeground (_foreground savedAttribute) result else result in
  if test SaveBackgroundColor then SetBackground (_background savedAttribute) result else result.

(** What [Pop] makes of a slot. *)
Definition restore (saved : SavedSgrAttributes) (currentAttributes : TextAttribute) : TextAttribute :=
  if enumset_test (ValidParts saved) All then TextAttributes saved
  else _CombineWithCurrentAttributes currentAttributes (TextAttributes saved) (ValidParts saved).

Definition Pop (currentAttributes : TextAttribute) (s : SgrStack) : SgrStack * TextAttribute :=
  if _numSavedAttrs s >? 0 then
    let next := if _nextPushIndex s =? 0 then Z.of_nat (length (_storedSgrAttributes s)) - 1 else _nextPushIndex s - 1 in
    let restoreMe := nth (Z.to_nat next) (_storedSgrAttributes s) saved_default in
    (mk_SgrStack next (_numSavedAttrs s - 1) (_storedSgrAttributes s), restore restoreMe currentAttributes)
  else (s, currentAttributes).

(** ** The stack it stands for

    The entries, newest first. *)

Definition stack_of (s : SgrStack) : list SavedSgrAttributes :=
  map (fun k => nth (Z.to_nat ((_nextPushIndex s - 1 - Z.of_nat k) mod c_MaxStoredSgrPushes))
                    (_storedSgrAttributes s) saved_default)
      (seq 0 (Z.to_nat (_numSavedAttrs s))).

Definition stack_ok (s : SgrStack) : Prop :=
  0 <= _nextPushIndex s < 10 /\ 0 <= _numSavedAttrs s <= 10 /\ length (_storedSgrAttributes s) = 10%nat.

Definition abstract_push (x : SavedSgrAttributes) (l : list SavedSgrAttributes) : list SavedSgrAttributes :=
  take (Z.to_nat c_MaxStoredSgrPushes) (x :: l).

Definition abstract_pop (current : TextAttribute) (l : list SavedSgrAttributes) : list SavedSgrAttributes * TextAttribute :=
  match l with
  | [] => ([], current)
  | x :: l' => (l', restore x current)
  end.

Lemma range11 (P : Z -> Prop) :
  P 0 -> P 1 -> P 2 -> P 3 -> P 4 -> P 5 -> P 6 -> P 7 -> P 8 -> P 9 -> P 10 -> forall i, 0 <= i <= 10 -> P i.
Proof.
  intros. assert (i = 0 \/ i = 1 \/ i = 2 \/ i = 3 \/ i = 4 \/ i = 5 \/ i = 6 \/ i = 7 \/ i = 8 \/ i = 9 \/ i = 10)
    as Hi by lia.
  repeat destruct Hi as [->|Hi]; try done. by subst.
Qed.

(** Ten slots, spelt out. *)
Lemma ten_slots {A} (l : list A) : length l = 10%nat ->
  exists a b c d e f g h i j, l = [a; b; c; d; e; f; g; h; i; j].
Proof.
  intros H. do 10 (destruct l as [|? l]; [done|]). destruct l; [|done]. by repeat eexists.
Qed.

Lemma push_refines a options s : stack_ok s ->
  stack_ok (Push a options s) /\
  stack_of (Push a options s) = abstract_push (mk_Saved a (valid_parts options)) (stack_of s).
Proof.
  destruct s as [next num slots]. unfold stack_ok, Push. cbn [_nextPushIndex _numSavedAttrs _storedSgrAttributes].
  intros (Hn & Hm & Hl). rewrite Hl, length_insert, Hl. split.
  { change (Z.of_nat 10) with 10. pose proof (Z.mod_pos_bound (next + 1) 10).
    destruct (Z.ltb_spec num 10); repeat split; lia. }
  generalize (mk_Saved a (valid_parts options)). intros x.
  destruct (ten_slots slots Hl) as (? & ? & ? & ? & ? & ? & ? & ? & ? & ? & ->).
  assert (Hn' : 0 <= next < 16) by lia. revert next Hn' Hn.
  refine (range16 _ _ _ _ _ _ _ _ _ _ _ _ _ _ _ _ _); intros Hn; try lia;
    revert num Hm; apply range11; reflexivity.
Qed.

Lemma pop_refines current s : stack_ok s ->
  stack_ok (fst (Pop current s)) /\
  (stack_of (fst (Pop current s)), snd (Pop current s)) = abstract_pop current (stack_of s).
Proof.
  destruct s as [next num slots]. unfold stack_ok, Pop. cbn [_nextPushIndex _numSavedAttrs _storedSgrAttributes].
  intros (Hn & Hm & Hl). rewrite Hl.
  destruct (ten_slots slots Hl) as (? & ? & ? & ? & ? & ? & ? & ? & ? & ? & ->).
  assert (Hn' : 0 <= next < 16) by lia. revert next Hn' Hn.
  refine (range16 _ _ _ _ _ _ _ _ _ _ _ _ _ _ _ _ _); intros Hn; try lia;
    revert num Hm; apply range11; (split; [repeat split; cbn; lia|reflexivity]).
Qed.

(** ** Sequences of pushes and pops *)

Inductive SgrOp := OpPush (a : TextAttribute) (options : VTParameters) | OpPop (current : TextAttribute).

(** The attributes the pops return, in order. *)
Fixpoint run_stack (ops : list SgrOp) (s : SgrStack) : list TextAttribute :=
  match ops with
  | [] => []
  | OpPush a options :: ops' => run_stack ops' (Push a options s)
  | OpPop current :: ops' => let '(s', a) := Pop current s in a :: run_stack ops' s'
  end.

Fixpoint run_abstract (ops : list SgrOp) (l : list SavedSgrAttributes) : list TextAttribute :=
  match ops with
  | [] => []
  | OpPush a options :: ops' => run_abstract ops' (abstract_push (mk_Saved a (valid_parts options)) l)
  | OpPop current :: ops' => let '(l', a) := abstract_pop current l in a :: run_abstract ops' l'
  end.

(** C32: the ring of ten slots is a stack that drops its oldest entry when an
    eleventh is pushed, and whose pops are ignored when it is empty: any
    sequence of pushes and pops returns the same attributes on both. *)
Theorem sgr_stack_refines ops : run_stack ops new_SgrStack = run_abstract ops [].
Proof.
  assert (Hgen : forall s, stack_ok s -> run_stack ops s = run_abstract ops (stack_of s)).
  { induction ops as [|[a options|current] ops IH]; intros s Hs; cbn; [done| |].
    - destruct (push_refines a options s Hs) as [Hok <-]. by apply IH.
    - pose proof (pop_refines current s Hs) as [Hok Heq]. destruct (Pop current s) as [s' a].
      cbn in Hok, Heq. rewrite <- Heq. by rewrite IH. }
  apply (Hgen new_SgrStack). repeat split; cbn; lia.
Qed.

(** ** Which parts a pop restores *)

Definition has_option (options : VTParameters) (n : Z) : bool := existsb (Z.eqb n) (vp_params options).

Lemma enumset_mask_pow n : 0 <= n < 64 -> enumset_mask n = 2 ^ n.
Proof.
  intros Hn. unfold enumset_mask. rewrite Z.shiftl_mul_pow2, Z.mul_1_l by lia.
  apply u64_small. split; [lia|]. apply Z.pow_lt_mono_r; lia.
Qed.

Lemma enumset_test_bit data n : 0 <= n < 64 -> enumset_test data n = Z.testbit data n.
Proof. intros Hn. unfold enumset_test. rewrite enumset_mask_pow by done. apply is_flag_set_bit. lia. Qed.

Lemma enumset_set_bit data m n : 0 <= m < 64 -> 0 <= n -> Z.testbit (enumset_set data m) n = (m =? n) || Z.testbit data n.
Proof.
  intros Hm Hn. unfold enumset_set. rewrite enumset_mask_pow, Z.lor_spec, Z.pow2_bits_eqb by (done || lia).
  apply orb_comm.
Qed.

Lemma valid_parts_loop_bit k i options parts n : 0 < n <= 31 -> 
  Z.testbit (valid_parts_loop k i options parts) n
  = Z.testbit parts n || existsb (Z.eqb n) (take k (drop i (vp_params options))).
Proof.
  intros Hn. revert i parts. induction k as [|k IH]; intros i parts; cbn [valid_parts_loop].
  - by rewrite take_0, orb_false_r.
  - rewrite IH. unfold param_at. destruct (vp_params options !! i) as [p|] eqn:Hp; cbn [default].
    + rewrite (drop_S _ p i) by done. cbn [take existsb]. rewrite orb_assoc. f_equal. unfold value_or, All, Max, SaveBackgroundColor, id.
      destruct (Z.ltb_spec p 0) as [Hneg|Hpos]; cbn [andb].
      { destruct (Z.eqb_spec n p); [lia|]. by rewrite orb_false_r. }
      destruct (Z.gtb_spec p 0), (Z.leb_spec p 31), (Z.eqb_spec n p); subst; try lia; cbn [andb];
        rewrite ?enumset_set_bit, ?orb_false_r, ?orb_true_r by lia; try done; [by rewrite Z.eqb_refl|].
      destruct (Z.eqb_spec p n); [lia|done].
    + apply lookup_ge_None in Hp. by rewrite !drop_ge, !take_nil by lia.
Qed.

Lemma valid_parts_bit options n : params_empty options = false -> 0 < n <= 31 ->
  enumset_test (valid_parts options) n = has_option options n.
Proof.
  intros He Hn. unfold valid_parts. rewrite He, enumset_test_bit, valid_parts_loop_bit by lia.
  rewrite drop_0, Z.bits_0, take_ge by (unfold params_size; lia). done.
Qed.

Lemma valid_parts_loop_all k i options parts : Z.testbit parts 0 = false ->
  Z.testbit (valid_parts_loop k i options parts) 0 = false.
Proof.
  revert i parts. induction k as [|k IH]; intros i parts Hp; cbn [valid_parts_loop]; [done|]. apply IH.
  unfold All, Max, SaveBackgroundColor. destruct (Z.gtb_spec (value_or (param_at options i) 0) 0),
    (Z.leb_spec (value_or (param_at options i) 0) 31); cbn [andb]; try done.
  rewrite enumset_set_bit, Hp by lia. destruct (Z.eqb_spec (value_or (param_at options i) 0) 0); [lia|done].
Qed.

(** The options for single flags, and the bit of each flag. *)
Definition sgr_flags : list (Z * Z) := [(1, 0); (2, 5); (3, 1); (5, 2); (7, 14); (8, 3); (9, 4)].

(** The underline style after a pop. *)
Definition restored_underline (single double : bool) (saved current : Z) : Z :=
  match single, double with
  | true, true => saved
  | true, false => if (saved =? 0) || (saved =? 2) then (if current =? 2 then 2 else 0) else saved
  | false, true => if saved =? 2 then 2 else if current =? 2 then 0 else current
  | false, false => current
  end.

(** A flag that is restored under a condition, without repeating [a]. *)
Lemma restored_flag_bit n (t : bool) saved a m : 0 <= n -> 0 <= m ->
  Z.testbit (_attrs (if t then set_flag (2 ^ n) (is_flag_set (_attrs saved) (2 ^ n)) a else a)) m
  = if (m =? n) && t then Z.testbit (_attrs saved) m else Z.testbit (_attrs a) m.
Proof.
  intros Hn Hm. destruct t; [|by rewrite andb_false_r]. rewrite set_flag_bit, is_flag_set_bit, andb_true_r by done.
  by destruct (Z.eqb_spec m n) as [->|].
Qed.

Lemma restored_Intense (t : bool) saved a m : 0 <= m ->
  Z.testbit (_attrs (if t then SetIntense (IsIntense saved) a else a)) m
  = if (m =? 0) && t then Z.testbit (_attrs saved) m else Z.testbit (_attrs a) m.
Proof. by apply (restored_flag_bit 0). Qed.

Lemma restored_Faint (t : bool) saved a m : 0 <= m ->
  Z.testbit (_attrs (if t then SetFaint (IsFaint saved) a else a)) m
  = if (m =? 5) && t then Z.testbit (_attrs saved) m else Z.testbit (_attrs a) m.
Proof. by apply (restored_flag_bit 5). Qed.

Lemma restored_Italic (t : bool) saved a m : 0 <= m ->
  Z.testbit (_attrs (if t then SetItalic (IsItalic saved) a else a)) m
  = if (m =? 1) && t then Z.testbit (_attrs saved) m else Z.testbit (_attrs a) m.
Proof. by apply (restored_flag_bit 1). Qed.

Lemma restored_Blinking (t : bool) saved a m : 0 <= m ->
  Z.testbit (_attrs (if t then SetBlinking (IsBlinking saved) a else a)) m
  = if (m =? 2) && t then Z.testbit (_attrs saved) m else Z.testbit (_attrs a) m.
Proof. by apply (restored_flag_bit 2). Qed.

Lemma restored_Invisible (t : bool) saved a m : 0 <= m ->
  Z.testbit (_attrs (if t then SetInvisible (IsInvisible saved) a else a)) m
  = if (m =? 3) && t then Z.testbit (_attrs saved) m else Z.testbit (_attrs a) m.
Proof. by apply (restored_flag_bit 3). Qed.

Lemma restored_CrossedOut (t : bool) saved a m : 0 <= m ->
  Z.testbit (_attrs (if t then SetCrossedOut (IsCrossedOut saved) a else a)) m
  = if (m =? 4) && t then Z.testbit (_attrs saved) m else Z.testbit (_attrs a) m.
Proof. by apply (restored_flag_bit 4). Qed.

Lemma restored_ReverseVideo (t : bool) saved a m : 0 <= m ->
  Z.testbit (_attrs (if t then SetReverseVideo (IsReverseVideo saved) a else a)) m
  = if (m =? 14) && t then Z.testbit (_attrs saved) m else Z.testbit (_attrs a) m.
Proof. by apply (restored_flag_bit 14). Qed.

(** The underline styles of the two attributes decide the new one; the other
    bits stay. *)
Lemma combine_underline_spec parts saved a :
  GetUnderlineStyle (combine_underline parts saved a)
  = restored_underline (enumset_test parts Underline) (enumset_test parts DoublyUnderlined)
      (GetUnderlineStyle saved) (GetUnderlineStyle a) /\
  (forall m, 0 <= m -> ~ 6 <= m <= 8 ->
     Z.testbit (_attrs (combine_underline parts saved a)) m = Z.testbit (_attrs a) m).
Proof.
  pose proof (underline_style_range saved) as Hr. unfold combine_underline, restored_underline,
    UnderlineStyle.NoUnderline, UnderlineStyle.DoublyUnderlined.
  split.
  - repeat step_if; rewrite ?underline_set_get by lia; try done;
      repeat match goal with H : _ |- _ => rewrite Z.eqb_refl in H || rewrite andb_true_iff in H end; lia.
  - intros m Hm Hout. repeat step_if; rewrite ?underline_style_bit by lia; try done;
      destruct (Z.leb_spec 6 m), (Z.leb_spec m 8); cbn; lia || done.
Qed.

(** What a combination with the saved attributes does to each bit. *)
Lemma combine_bits options saved current m : params_empty options = false -> 0 <= m -> ~ 6 <= m <= 8 ->
  Z.testbit (_attrs (_CombineWithCurrentAttributes current saved (valid_parts options))) m
  = match find (fun p => snd p =? m) sgr_flags with
    | Some (option, _) => Z.testbit (_attrs (if has_option options option then saved else current)) m
    | None => Z.testbit (_attrs current) m
    end.
Proof.
  intros He Hm Hout. unfold _CombineWithCurrentAttributes.
  pose proof (fun n Hn => valid_parts_bit options n He Hn) as Hbit.
  rewrite (Hbit Intense), (Hbit Faintness), (Hbit Italics), (Hbit Blink), (Hbit Negative), (Hbit Invisible),
    (Hbit CrossedOut), (Hbit SaveForegroundColor), (Hbit SaveBackgroundColor) by (cbv; split; congruence).
  assert (Hcolors : forall (t u : bool) c d a, _attrs (if t then SetBackground c (if u then SetForeground d a else a)
    else if u then SetForeground d a else a) = _attrs a) by (by intros [] []).
  rewrite Hcolors. clear Hcolors.
  rewrite restored_CrossedOut, restored_Invisible, restored_ReverseVideo, restored_Blinking by done.
  rewrite (proj2 (combine_underline_spec _ _ _)) by done.
  rewrite restored_Italic, restored_Faint, restored_Intense by done.
  unfold Intense, Faintness, Italics, Blink, Negative, Invisible, CrossedOut. cbn [find sgr_flags snd].
  rewrite (Z.eqb_sym 0 m), (Z.eqb_sym 1 m), (Z.eqb_sym 2 m), (Z.eqb_sym 3 m), (Z.eqb_sym 4 m), (Z.eqb_sym 5 m), (Z.eqb_sym 14 m).
  destruct (Z.eqb_spec m 0); [subst m; cbn; by destruct (has_option options 1)|].
  destruct (Z.eqb_spec m 5); [subst m; cbn; by destruct (has_option options 2)|].
  destruct (Z.eqb_spec m 1); [subst m; cbn; by destruct (has_option options 3)|].
  destruct (Z.eqb_spec m 2); [subst m; cbn; by destruct (has_option options 5)|].
  destruct (Z.eqb_spec m 14); [subst m; cbn; by destruct (has_option options 7)|].
  destruct (Z.eqb_spec m 3); [subst m; cbn; by destruct (has_option options 8)|].
  destruct (Z.eqb_spec m 4); [subst m; cbn; by destruct (has_option options 9)|]. done.
Qed.

Lemma combine_underline_style options saved current : params_empty options = false ->
  GetUnderlineStyle (_CombineWithCurrentAttributes current saved (valid_parts options))
  = restored_underline (has_option options 4) (has_option options 21) (GetUnderlineStyle saved) (GetUnderlineStyle current).
Proof.
  intros He. unfold _CombineWithCurrentAttributes.
  rewrite <- (valid_parts_bit options 4 He), <- (valid_parts_bit options 21 He) by lia.
  set (r1 := if enumset_test (valid_parts options) Italics then _ else _).
  assert (Hr1 : GetUnderlineStyle r1 = GetUnderlineStyle current).
  { apply underline_other. intros m Hm. unfold r1.
    rewrite restored_Italic, restored_Faint, restored_Intense by lia.
    destruct (Z.eqb_spec m 0), (Z.eqb_spec m 5), (Z.eqb_spec m 1); try lia. done. }
  rewrite <- Hr1. etrans; [|exact (proj1 (combine_underline_spec (valid_parts options) saved r1))].
  apply underline_other. intros m Hm.
  assert (Hcolors : forall (t u : bool) c d a, _attrs (if t then SetBackground c (if u then SetForeground d a else a)
    else if u then SetForeground d a else a) = _attrs a) by (by intros [] []).
  rewrite Hcolors, restored_CrossedOut, restored_Invisible, restored_ReverseVideo, restored_Blinking by lia.
  destruct (Z.eqb_spec m 4), (Z.eqb_spec m 3), (Z.eqb_spec m 14), (Z.eqb_spec m 2); try lia. done.
Qed.

(** The fields beside the flags. *)
Lemma combine_fields parts saved current :
  let result := _CombineWithCurrentAttributes current saved parts in
  _foreground result = _foreground (if enumset_test parts SaveForegroundColor then saved else current) /\
  _background result = _background (if enumset_test parts SaveBackgroundColor then saved else current) /\
  _hyperlinkId result = _hyperlinkId current /\ _underlineColor result = _underlineColor current /\
  _markKind result = _markKind current.
Proof.
  assert (Hflag : forall (X : Type) (proj : TextAttribute -> X) f (t b : bool) a,
    (forall w, proj (a <| _attrs := w |>) = proj a) -> proj (if t then set_flag f b a else a) = proj a)
    by (intros X proj f [] b a Hp; [apply Hp|done]).
  assert (Hul : forall (X : Type) (proj : TextAttribute -> X) a,
    (forall w, proj (a <| _attrs := w |>) = proj a) -> proj (combine_underline parts saved a) = proj a).
  { intros X proj a Hp. unfold combine_underline, SetUnderlineStyle. repeat step_if; apply Hp || done. }
  cbv zeta. unfold _CombineWithCurrentAttributes, SetIntense, SetFaint, SetItalic, SetBlinking, SetReverseVideo,
    SetInvisible, SetCrossedOut.
  destruct (enumset_test parts SaveForegroundColor), (enumset_test parts SaveBackgroundColor);
    unfold SetForeground, SetBackground; cbn [_foreground _background _hyperlinkId _underlineColor _markKind setter];
    split_and!; try done; by rewrite ?Hflag, ?Hul, ?Hflag by done.
Qed.

(** A pop restores exactly the parts of the rendition that its push
    named, and leaves the rest as it was.  Each single flag is the saved one
    if its option was given; the colours go by 30 and 31; the underline style
    follows options 4 and 21; protection, grid lines, the hyperlink, the
    colour of the underline and the mark stay.  A push without options saves
    everything. *)
Theorem sgr_pop_restores saved options current s : stack_ok s ->
  let result := snd (Pop current (Push saved options s)) in
  (params_empty options = true -> result = saved) /\
  (params_empty options = false ->
    (forall option bit, In (option, bit) sgr_flags ->
       Z.testbit (_attrs result) bit
       = Z.testbit (_attrs (if has_option options option then saved else current)) bit) /\
    GetUnderlineStyle result
    = restored_underline (has_option options 4) (has_option options 21)
        (GetUnderlineStyle saved) (GetUnderlineStyle current) /\
    (forall bit, In bit [9; 10; 11; 12; 13; 15] -> Z.testbit (_attrs result) bit = Z.testbit (_attrs current) bit) /\
    _foreground result = _foreground (if has_option options 30 then saved else current) /\
    _background result = _background (if has_option options 31 then saved else current) /\
    _hyperlinkId result = _hyperlinkId current /\ _underlineColor result = _underlineColor current /\
    _markKind result = _markKind current).
Proof.
  intros Hs. destruct (push_refines saved options s Hs) as [Hok Hst].
  destruct (pop_refines current _ Hok) as [_ Hpop]. apply (f_equal snd) in Hpop. rewrite Hst in Hpop.
  change (snd (Pop current (Push saved options s)) = restore (mk_Saved saved (valid_parts options)) current) in Hpop.
  cbv zeta. rewrite Hpop. unfold restore. cbn [ValidParts TextAttributes]. split; intros He.
  - unfold valid_parts. by rewrite He.
  - assert (Hall : enumset_test (valid_parts options) All = false).
    { rewrite enumset_test_bit by (unfold All; lia). unfold valid_parts. rewrite He. by apply valid_parts_loop_all. }
    rewrite Hall. pose proof (combine_fields (valid_parts options) saved current) as Hf. cbv zeta in Hf.
    unfold SaveForegroundColor, SaveBackgroundColor in Hf. rewrite !valid_parts_bit in Hf by (done || lia).
    split_and!; try apply Hf.
    + intros option bit Hin. rewrite combine_bits by (done || cbn in Hin; intuition (simplify_eq; lia)).
      cbn in Hin. intuition simplify_eq; done.
    + by apply combine_underline_style.
    + intros bit Hin. rewrite combine_bits by (done || cbn in Hin; lia). cbn in Hin. intuition (subst; done).
Qed.

(** ** On concrete input *)

Lemma new_stack_ok : stack_ok new_SgrStack.
Proof. repeat split; cbn; lia. Qed.

Lemma sgr_pop_restores_witness :
  let saved := SetIntense true (SetUnderlineStyle 3 TextAttribute_default) in
  let current := SetItalic true TextAttribute_default in
  let result := snd (Pop current (Push saved (VTParameters_plain [1; 4]) new_SgrStack)) in
  Z.testbit (_attrs result) 0 = true /\ Z.testbit (_attrs result) 1 = true /\ GetUnderlineStyle result = 3.
Proof.
  intros saved current result.
  destruct (sgr_pop_restores saved (VTParameters_plain [1; 4]) current new_SgrStack new_stack_ok) as [_ Hp].
  destruct (Hp eq_refl) as (Hf & Hu & _).
  split; [exact (Hf 1 0 ltac:(by left))|]. split; [exact (Hf 3 1 ltac:(right; right; by left))|exact Hu].
Defined.
