(* ===== verification/Graphics.v ===== *)
(** * Graphic renditions: [terminal/adapter/adaptDispatchGraphics.cpp]

    SGR, DECSCA and the pushing and popping of renditions, on the attributes
    of the active page and the stack of saved ones; and the report of the
    current rendition from [terminal/adapter/adaptDispatch.cpp]. *)

From S2P Require Import Prelude VTTypes StateMachine ParserRoundtrip TextAttribute SgrStack TermDispatch.

(** ** [DispatchTypes::GraphicsOptions], and the 16 colours of [TextColor] *)

Module GraphicsOptions.
Definition Off : Z := 0.
Definition Intense : Z := 1.
Definition RGBColorOrFaint : Z := 2.
Definition Italics : Z := 3.
Definition Underline : Z := 4.
Definition BlinkOrXterm256Index : Z := 5.
Definition RapidBlink : Z := 6.
Definition Negative : Z := 7.
Definition Invisible : Z := 8.
Definition CrossedOut : Z := 9.
Definition DoublyUnderlined : Z := 21.
Definition NotIntenseOrFaint : Z := 22.
Definition NotItalics : Z := 23.
Definition NoUnderline : Z := 24.
Definition Steady : Z := 25.
Definition Positive : Z := 27.
Definition Visible : Z := 28.
Definition NotCrossedOut : Z := 29.
Definition ForegroundBlack : Z := 30.
Definition ForegroundRed : Z := 31.
Definition ForegroundGreen : Z := 32.
Definition ForegroundYellow : Z := 33.
Definition ForegroundBlue : Z := 34.
Definition ForegroundMagenta : Z := 35.
Definition ForegroundCyan : Z := 36.
Definition ForegroundWhite : Z := 37.
Definition ForegroundExtended : Z := 38.
Definition ForegroundDefault : Z := 39.
Definition BackgroundBlack : Z := 40.
Definition BackgroundRed : Z := 41.
Definition BackgroundGreen : Z := 42.
Definition BackgroundYellow : Z := 43.
Definition BackgroundBlue : Z := 44.
Definition BackgroundMagenta : Z := 45.
Definition BackgroundCyan : Z := 46.
Definition BackgroundWhite : Z := 47.
Definition BackgroundExtended : Z := 48.
Definition BackgroundDefault : Z := 49.
Definition Overline : Z := 53.
Definition NoOverline : Z := 55.
Definition UnderlineColor : Z := 58.
Definition UnderlineColorDefault : Z := 59.
Definition BrightForegroundBlack : Z := 90.
Definition BrightForegroundRed : Z := 91.
Definition BrightForegroundGreen : Z := 92.
Definition BrightForegroundYellow : Z := 93.
Definition BrightForegroundBlue : Z := 94.
Definition BrightForegroundMagenta : Z := 95.
Definition BrightForegroundCyan : Z := 96.
Definition BrightForegroundWhite : Z := 97.
Definition BrightBackgroundBlack : Z := 100.
Definition BrightBackgroundRed : Z := 101.
Definition BrightBackgroundGreen : Z := 102.
Definition BrightBackgroundYellow : Z := 103.
Definition BrightBackgroundBlue : Z := 104.
Definition BrightBackgroundMagenta : Z := 105.
Definition BrightBackgroundCyan : Z := 106.
Definition BrightBackgroundWhite : Z := 107.
End GraphicsOptions.

Definition DARK_BLACK : Z := 0.
Definition DARK_RED : Z := 1.
Definition DARK_GREEN : Z := 2.
Definition DARK_YELLOW : Z := 3.
Definition DARK_BLUE : Z := 4.
Definition DARK_MAGENTA : Z := 5.
Definition DARK_CYAN : Z := 6.
Definition DARK_WHITE : Z := 7.
Definition BRIGHT_BLACK : Z := 8.
Definition BRIGHT_RED : Z := 9.
Definition BRIGHT_GREEN : Z := 10.
Definition BRIGHT_YELLOW : Z := 11.
Definition BRIGHT_BLUE : Z := 12.
Definition BRIGHT_MAGENTA : Z := 13.
Definition BRIGHT_CYAN : Z := 14.
Definition BRIGHT_WHITE : Z := 15.

(** ** Colours and underlines with more than one parameter *)

Definition _SetUnderlineStyleHelper (option : Z) (attr : TextAttribute) : TextAttribute :=
  let style := value_or option 0 in
  if (style >=? 0) && (style <=? UnderlineStyle.Max) then SetUnderlineStyle style attr else attr.

Definition _SetRgbColorsHelper (options : VTParameters) (attr : TextAttribute) (isForeground : bool) :
    nat * TextAttribute :=
  let typeOpt := as_enum (param_at options 0) in
  if typeOpt =? GraphicsOptions.RGBColorOrFaint then
    let red := value_or (param_at options 1) 0 in
    let green := value_or (param_at options 2) 0 in
    let blue := value_or (param_at options 3) 0 in
    (4%nat, if (red <=? 255) && (green <=? 255) && (blue <=? 255)
            then SetColor_ground (RGB red green blue) isForeground attr else attr)
  else if typeOpt =? GraphicsOptions.BlinkOrXterm256Index then
    let tableIndex := value_or (param_at options 1) 0 in
    (2%nat, if tableIndex <=? 255
            then if isForeground then SetIndexedForeground256 (u8 tableIndex) attr
                 else SetIndexedBackground256 (u8 tableIndex) attr
            else attr)
  else (1%nat, attr).

Definition applyColor (colorItem : Z) (color : TextColor) (attr : TextAttribute) : TextAttribute :=
  if colorItem =? GraphicsOptions.ForegroundExtended then SetForeground color attr
  else if colorItem =? GraphicsOptions.BackgroundExtended then SetBackground color attr
  else if colorItem =? GraphicsOptions.UnderlineColor then SetUnderlineColor color attr
  else attr.

Definition _SetRgbColorsHelperFromSubParams (colorItem : Z) (options : VTSubParameters) (attr : TextAttribute) :
    TextAttribute :=
  let typeOpt := as_enum (subparam_at options 0) in
  if typeOpt =? GraphicsOptions.RGBColorOrFaint then
    let hasColorSpaceId := has_value (subparam_at options 1) in
    let red := value_or (subparam_at options 2) 0 in
    let green := value_or (subparam_at options 3) 0 in
    let blue := value_or (subparam_at options 4) 0 in
    if negb hasColorSpaceId && (red <=? 255) && (green <=? 255) && (blue <=? 255)
    then applyColor colorItem (TextColor_rgb (RGB red green blue)) attr else attr
  else if typeOpt =? GraphicsOptions.BlinkOrXterm256Index then
    let tableIndex := value_or (subparam_at options 1) 0 in
    if tableIndex <=? 255 then applyColor colorItem (TextColor_index (u8 tableIndex) true) attr else attr
  else attr.

(** The option comes in as a [VTParameter] and is switched on as a [VTInt]. *)
Definition _ApplyGraphicsOptionWithSubParams (option : Z) (subParams : VTSubParameters) (attr : TextAttribute) :
    TextAttribute :=
  let option := as_VTInt option in
  if option =? GraphicsOptions.Underline then _SetUnderlineStyleHelper (subparam_at subParams 0) attr
  else if (option =? GraphicsOptions.ForegroundExtended) || (option =? GraphicsOptions.BackgroundExtended)
          || (option =? GraphicsOptions.UnderlineColor)
  then _SetRgbColorsHelperFromSubParams option subParams attr
  else attr.

(** ** One option

    The cases of the switch that take one parameter. *)

Definition graphics_cases : list (list Z * (TextAttribute -> TextAttribute)) :=
  [
    ([GraphicsOptions.Off], fun a => SetDefaultRenditionAttributes (SetDefaultUnderlineColor (SetDefaultBackground (SetDefaultForeground a))));
    ([GraphicsOptions.ForegroundDefault], fun a => SetDefaultForeground a);
    ([GraphicsOptions.BackgroundDefault], fun a => SetDefaultBackground a);
    ([GraphicsOptions.UnderlineColorDefault], fun a => SetDefaultUnderlineColor a);
    ([GraphicsOptions.Intense], fun a => SetIntense true a);
    ([GraphicsOptions.RGBColorOrFaint], fun a => SetFaint true a);
    ([GraphicsOptions.NotIntenseOrFaint], fun a => SetFaint false (SetIntense false a));
    ([GraphicsOptions.Italics], fun a => SetItalic true a);
    ([GraphicsOptions.NotItalics], fun a => SetItalic false a);
    ([GraphicsOptions.BlinkOrXterm256Index; GraphicsOptions.RapidBlink], fun a => SetBlinking true a);
    ([GraphicsOptions.Steady], fun a => SetBlinking false a);
    ([GraphicsOptions.Invisible], fun a => SetInvisible true a);
    ([GraphicsOptions.Visible], fun a => SetInvisible false a);
    ([GraphicsOptions.CrossedOut], fun a => SetCrossedOut true a);
    ([GraphicsOptions.NotCrossedOut], fun a => SetCrossedOut false a);
    ([GraphicsOptions.Negative], fun a => SetReverseVideo true a);
    ([GraphicsOptions.Positive], fun a => SetReverseVideo false a);
    ([GraphicsOptions.Underline], fun a => SetUnderlineStyle UnderlineStyle.SinglyUnderlined a);
    ([GraphicsOptions.DoublyUnderlined], fun a => SetUnderlineStyle UnderlineStyle.DoublyUnderlined a);
    ([GraphicsOptions.NoUnderline], fun a => SetUnderlineStyle UnderlineStyle.NoUnderline a);
    ([GraphicsOptions.Overline], fun a => SetOverlined true a);
    ([GraphicsOptions.NoOverline], fun a => SetOverlined false a);
    ([GraphicsOptions.ForegroundBlack], fun a => SetIndexedForeground DARK_BLACK a);
    ([GraphicsOptions.ForegroundBlue], fun a => SetIndexedForeground DARK_BLUE a);
    ([GraphicsOptions.ForegroundGreen], fun a => SetIndexedForeground DARK_GREEN a);
    ([GraphicsOptions.ForegroundCyan], fun a => SetIndexedForeground DARK_CYAN a);
    ([GraphicsOptions.ForegroundRed], fun a => SetIndexedForeground DARK_RED a);
    ([GraphicsOptions.ForegroundMagenta], fun a => SetIndexedForeground DARK_MAGENTA a);
    ([GraphicsOptions.ForegroundYellow], fun a => SetIndexedForeground DARK_YELLOW a);
    ([GraphicsOptions.ForegroundWhite], fun a => SetIndexedForeground DARK_WHITE a);
    ([GraphicsOptions.BackgroundBlack], fun a => SetIndexedBackground DARK_BLACK a);
    ([GraphicsOptions.BackgroundBlue], fun a => SetIndexedBackground DARK_BLUE a);
    ([GraphicsOptions.BackgroundGreen], fun a => SetIndexedBackground DARK_GREEN a);
    ([GraphicsOptions.BackgroundCyan], fun a => SetIndexedBackground DARK_CYAN a);
    ([GraphicsOptions.BackgroundRed], fun a => SetIndexedBackground DARK_RED a);
    ([GraphicsOptions.BackgroundMagenta], fun a => SetIndexedBackground DARK_MAGENTA a);
    ([GraphicsOptions.BackgroundYellow], fun a => SetIndexedBackground DARK_YELLOW a);
    ([GraphicsOptions.BackgroundWhite], fun a => SetIndexedBackground DARK_WHITE a);
    ([GraphicsOptions.BrightForegroundBlack], fun a => SetIndexedForeground BRIGHT_BLACK a);
    ([GraphicsOptions.BrightForegroundBlue], fun a => SetIndexedForeground BRIGHT_BLUE a);
    ([GraphicsOptions.BrightForegroundGreen], fun a => SetIndexedForeground BRIGHT_GREEN a);
    ([GraphicsOptions.BrightForegroundCyan], fun a => SetIndexedForeground BRIGHT_CYAN a);
    ([GraphicsOptions.BrightForegroundRed], fun a => SetIndexedForeground BRIGHT_RED a);
    ([GraphicsOptions.BrightForegroundMagenta], fun a => SetIndexedForeground BRIGHT_MAGENTA a);
    ([GraphicsOptions.BrightForegroundYellow], fun a => SetIndexedForeground BRIGHT_YELLOW a);
    ([GraphicsOptions.BrightForegroundWhite], fun a => SetIndexedForeground BRIGHT_WHITE a);
    ([GraphicsOptions.BrightBackgroundBlack], fun a => SetIndexedBackground BRIGHT_BLACK a);
    ([GraphicsOptions.BrightBackgroundBlue], fun a => SetIndexedBackground BRIGHT_BLUE a);
    ([GraphicsOptions.BrightBackgroundGreen], fun a => SetIndexedBackground BRIGHT_GREEN a);
    ([GraphicsOptions.BrightBackgroundCyan], fun a => SetIndexedBackground BRIGHT_CYAN a);
    ([GraphicsOptions.BrightBackgroundRed], fun a => SetIndexedBackground BRIGHT_RED a);
    ([GraphicsOptions.BrightBackgroundMagenta], fun a => SetIndexedBackground BRIGHT_MAGENTA a);
    ([GraphicsOptions.BrightBackgroundYellow], fun a => SetIndexedBackground BRIGHT_YELLOW a);
    ([GraphicsOptions.BrightBackgroundWhite], fun a => SetIndexedBackground BRIGHT_WHITE a) ].

Fixpoint graphics_switch (opt : Z) (cases : list (list Z * (TextAttribute -> TextAttribute))) (attr : TextAttribute) :
    TextAttribute :=
  match cases with
  | [] => attr
  | (labels, f) :: cases' => if existsb (Z.eqb opt) labels then f attr else graphics_switch opt cases' attr
  end.

(** The number of parameters consumed, and the new attributes. *)
Definition _ApplyGraphicsOption (options : VTParameters) (optionIndex : nat) (attr : TextAttribute) :
    nat * TextAttribute :=
  let opt := as_enum (param_at options optionIndex) in
  if hasSubParamsFor options optionIndex then
    (1%nat, _ApplyGraphicsOptionWithSubParams opt (subParamsFor options optionIndex) attr)
  else if opt =? GraphicsOptions.ForegroundExtended then
    let '(n, attr) := _SetRgbColorsHelper (params_subspan options (optionIndex + 1)) attr true in (S n, attr)
  else if opt =? GraphicsOptions.BackgroundExtended then
    let '(n, attr) := _SetRgbColorsHelper (params_subspan options (optionIndex + 1)) attr false in (S n, attr)
  else (1%nat, graphics_switch opt graphics_cases attr).

(** The loop over the options; every turn consumes at least one. *)
Fixpoint apply_graphics_loop (fuel i : nat) (options : VTParameters) (attr : TextAttribute) : TextAttribute :=
  match fuel with
  | O => attr
  | S fuel' =>
      if (i <? params_size options)%nat then
        let '(n, attr) := _ApplyGraphicsOption options i attr in apply_graphics_loop fuel' (i + n) options attr
      else attr
  end.

Definition _ApplyGraphicsOptions (options : VTParameters) (attr : TextAttribute) : TextAttribute :=
  apply_graphics_loop (params_size options) 0 options attr.

(** ** The operations of the terminal

    The attributes of the active page, and the stack of saved ones. *)

Record GraphicsState := mk_GraphicsState { Attributes : TextAttribute; _sgrStack : SgrStack }.

#[global] Instance GraphicsState_eta : Eta GraphicsState := fun g => mk_GraphicsState (Attributes g) (_sgrStack g).

Definition new_GraphicsState : GraphicsState := mk_GraphicsState TextAttribute_default new_SgrStack.

Definition AdaptDispatch_SetGraphicsRendition (options : VTParameters) (g : GraphicsState) : GraphicsState :=
  g <| Attributes := _ApplyGraphicsOptions options (Attributes g) |>.

Module LogicalAttributeOptions.
Definition Default : Z := 0.
Definition Protected : Z := 1.
Definition Unprotected : Z := 2.
End LogicalAttributeOptions.

Definition protection_option (opt : Z) (attr : TextAttribute) : TextAttribute :=
  if opt =? LogicalAttributeOptions.Default then SetProtected false attr
  else if opt =? LogicalAttributeOptions.Protected then SetProtected true attr
  else if opt =? LogicalAttributeOptions.Unprotected then SetProtected false attr
  else attr.

Fixpoint protection_loop (n i : nat) (options : VTParameters) (attr : TextAttribute) : TextAttribute :=
  match n with
  | O => attr
  | S n' => protection_loop n' (S i) options (protection_option (as_enum (param_at options i)) attr)
  end.

Definition AdaptDispatch_SetCharacterProtectionAttribute (options : VTParameters) (g : GraphicsState) : GraphicsState :=
  g <| Attributes := protection_loop (params_size options) 0 options (Attributes g) |>.

Definition AdaptDispatch_PushGraphicsRendition (options : VTParameters) (g : GraphicsState) : GraphicsState :=
  g <| _sgrStack := Push (Attributes g) options (_sgrStack g) |>.

Definition AdaptDispatch_PopGraphicsRendition (g : GraphicsState) : GraphicsState :=
  let '(s, attr) := Pop (Attributes g) (_sgrStack g) in mk_GraphicsState attr s.

(** ** The report of the current rendition

    The text between DCS and ST.  [fmt] writes an integer in decimal. *)

Definition addAttribute (parameter : string) (enabled : bool) : list Z := if enabled then wstr parameter else [].

Definition addColor (base : Z) (color : TextColor) : list Z :=
  if IsIndex16 color then
    let index := GetIndex color in
    wstr ";" ++ digits (base + (if index >=? 8 then 60 else 0) + index mod 8)
  else if IsIndex256 color then
    wstr ";" ++ digits (base + 8) ++ wstr ":5:" ++ digits (GetIndex color)
  else if IsRgb color then
    let r := GetRValue (GetRGB color) in
    let g := GetGValue (GetRGB color) in
    let b := GetBValue (GetRGB color) in
    wstr ";" ++ digits (base + 8) ++ wstr ":2::" ++ digits r ++ wstr ":" ++ digits g ++ wstr ":" ++ digits b
  else [].

Definition sgr_parameters (attr : TextAttribute) : list Z :=
  let ulStyle := GetUnderlineStyle attr in
  wstr "0" ++
  addAttribute ";1" (IsIntense attr) ++
  addAttribute ";2" (IsFaint attr) ++
  addAttribute ";3" (IsItalic attr) ++
  addAttribute ";4" (ulStyle =? UnderlineStyle.SinglyUnderlined) ++
  addAttribute ";4:3" (ulStyle =? UnderlineStyle.CurlyUnderlined) ++
  addAttribute ";4:4" (ulStyle =? UnderlineStyle.DottedUnderlined) ++
  addAttribute ";4:5" (ulStyle =? UnderlineStyle.DashedUnderlined) ++
  addAttribute ";5" (IsBlinking attr) ++
  addAttribute ";7" (IsReverseVideo attr) ++
  addAttribute ";8" (IsInvisible attr) ++
  addAttribute ";9" (IsCrossedOut attr) ++
  addAttribute ";21" (ulStyle =? UnderlineStyle.DoublyUnderlined) ++
  addAttribute ";53" (IsOverlined attr) ++
  addColor 30 (_foreground attr) ++
  addColor 40 (_background attr) ++
  addColor 50 (_underlineColor attr).

Definition _ReportSGRSetting (attr : TextAttribute) : list Z :=
  wstr "1$r" ++ sgr_parameters attr ++ wstr "m".

Definition _ReportDECSCASetting (attr : TextAttribute) : list Z :=
  if IsProtected attr then wstr "1$r1" ++ [0x22] ++ wstr "q" else wstr "1$r0" ++ [0x22] ++ wstr "q".

(** [_ReturnDcsResponse], by the mode that selects C1 controls. *)
Definition dcs_response (sendC1 : bool) (response : list Z) : list Z :=
  (if sendC1 then [0x90] else [ESC; 0x50]) ++ response ++ (if sendC1 then [0x9C] else [ESC; 0x5C]).

(** ** The request for a setting

    The string handler of DECRQSS: its state, and the report it ends with. *)

Inductive SettingReport :=
| ReportSGR | ReportDECSTBM | ReportDECSLRM | ReportDECSCUSR | ReportDECSCA | ReportDECSACE
| ReportDECAC (item : Z) | ReportUnsupported.

Definition report_for (id parameter : Z) : SettingReport :=
  if id =? VTID_FromString (wstr "m") then ReportSGR
  else if id =? VTID_FromString (wstr "r") then ReportDECSTBM
  else if id =? VTID_FromString (wstr "s") then ReportDECSLRM
  else if id =? VTID_FromString (wstr " q") then ReportDECSCUSR
  else if id =? VTID_FromString (0x22 :: wstr "q") then ReportDECSCA
  else if id =? VTID_FromString (wstr "*x") then ReportDECSACE
  else if id =? VTID_FromString (wstr ",|") then ReportDECAC parameter
  else ReportUnsupported.

Definition RequestSetting_step (ch : Z) (st : Z * VTIDBuilder) : (Z * VTIDBuilder) * option SettingReport :=
  let '(parameter, idBuilder) := st in
  if (ch >=? 0x40) && (ch <=? 0x7E) then (st, Some (report_for (Finalize ch idBuilder) parameter))
  else
    let isParameterPrefix := (ch >=? 0x3C) && (ch <=? 0x3F) in
    let isParameter := (ch >=? 0x30) && (ch <? 0x39) in
    let isIntermediate := (ch >=? 0x20) && (ch <=? 0x2F) in
    if isParameterPrefix || isIntermediate then ((parameter, AddIntermediate ch idBuilder), None)
    else if isParameter then ((Z.min (parameter * 10 + (ch - 0x30)) MAX_PARAMETER_VALUE, idBuilder), None)
    else (st, None).

(** The characters of a request, up to the one that ends it. *)
Fixpoint RequestSetting (chars : list Z) (st : Z * VTIDBuilder) : option SettingReport :=
  match chars with
  | [] => None
  | ch :: chars' =>
      match RequestSetting_step ch st with
      | (_, Some report) => Some report
      | (st', None) => RequestSetting chars' st'
      end
  end.
