(* ===== verification/GraphicsFacts.v ===== *)
(** * What graphic renditions do

    Options are taken group by group; the report of a rendition, read back
    through the parser and the output engine, restores it. *)

From S2P Require Import Prelude VTTypes StateMachine ParserFacts ParserRoundtrip TextAttribute AttributeFacts SgrStack.
From S2P Require Import TermDispatch ActionCodes OutputEngine OutputFacts Graphics.

(** ** The loop *)

Lemma option_consumes options i attr : (1 <= fst (_ApplyGraphicsOption options i attr))%nat.
Proof.
  unfold _ApplyGraphicsOption, _SetRgbColorsHelper. repeat (case_match; simplify_eq; cbn; try lia).
Qed.

(** Any amount of fuel that covers the options left gives the same result. *)
Lemma graphics_loop_fuel options fuel fuel' i attr :
  (params_size options - i <= fuel)%nat -> (params_size options - i <= fuel')%nat ->
  apply_graphics_loop fuel i options attr = apply_graphics_loop fuel' i options attr.
Proof.
  revert fuel' i attr. induction fuel as [|fuel IH]; intros fuel' i attr Hf Hf'.
  - destruct fuel'; [done|]. cbn [apply_graphics_loop]. destruct (Nat.ltb_spec i (params_size options)); [lia|done].
  - destruct fuel' as [|fuel']; cbn [apply_graphics_loop].
    + destruct (Nat.ltb_spec i (params_size options)); [lia|done].
    + destruct (Nat.ltb_spec i (params_size options)); [|done].
      pose proof (option_consumes options i attr) as Hc.
      destruct (_ApplyGraphicsOption options i attr) as [n a]. cbn in Hc. apply IH; lia.
Qed.

(** ** Groups of parameters *)

Definition apply_group (g : Z * list Z) (attr : TextAttribute) : TextAttribute :=
  match snd g with
  | [] => graphics_switch (as_enum (fst g)) graphics_cases attr
  | subs => _ApplyGraphicsOptionWithSubParams (as_enum (fst g)) subs attr
  end.

(** No group that goes on in the following parameters. *)
Definition self_contained (g : Z * list Z) : Prop := snd g = [] -> fst g <> 38 /\ fst g <> 48.

Lemma hasSubParamsFor_params_of gs i p s : gs !! i = Some (p, s) ->
  hasSubParamsFor (params_of gs) i = negb (bool_decide (s = [])).
Proof.
  intros Hi. unfold hasSubParamsFor, params_of. cbn [vp_subParamRanges].
  rewrite (ranges_of_lookup 0 gs i p s Hi). destruct s as [|x s].
  - rewrite bool_decide_eq_true_2 by done. cbn [length negb].
    match goal with |- (?a >? ?b) = _ => destruct (Z.gtb_spec a b); [lia|done] end.
  - rewrite bool_decide_eq_false_2 by done. cbn [length negb].
    match goal with |- (?a >? ?b) = _ => destruct (Z.gtb_spec a b); [done|lia] end.
Qed.

Lemma apply_one_group gs i g attr : gs !! i = Some g -> self_contained g ->
  _ApplyGraphicsOption (params_of gs) i attr = (1%nat, apply_group g attr).
Proof.
  destruct g as [p s]. intros Hi Hg. unfold _ApplyGraphicsOption, apply_group. cbn [fst snd].
  rewrite (hasSubParamsFor_params_of gs i p s Hi), (subParamsFor_params_of gs i p s Hi).
  assert (Hp : param_at (params_of gs) i = p).
  { unfold param_at, params_of. cbn [vp_params]. rewrite list_lookup_fmap, Hi. done. }
  rewrite Hp. destruct s as [|x s].
  - rewrite bool_decide_eq_true_2 by done. cbn [negb].
    destruct (Hg eq_refl) as [H1 H2]. cbn in H1, H2. unfold as_enum, value_or.
    destruct (Z.ltb_spec p 0); [done|]. unfold GraphicsOptions.ForegroundExtended, GraphicsOptions.BackgroundExtended.
    rewrite !(proj2 (Z.eqb_neq _ _)) by done. done.
  - by rewrite bool_decide_eq_false_2 by done.
Qed.

Lemma apply_groups gs attr : gs <> [] -> Forall self_contained gs ->
  _ApplyGraphicsOptions (params_of gs) attr = fold_left (fun a g => apply_group g a) gs attr.
Proof.
  intros Hne Hgs. unfold _ApplyGraphicsOptions.
  assert (Hsize : params_size (params_of gs) = length gs).
  { unfold params_size, params_of. cbn. rewrite length_map. destruct gs; [done|]. cbn. lia. }
  rewrite Hsize. clear Hne.
  assert (Hgen : forall done_ rest a, gs = done_ ++ rest ->
    apply_graphics_loop (length rest) (length done_) (params_of gs) a = fold_left (fun a g => apply_group g a) rest a).
  { intros done_ rest. revert done_. induction rest as [|g rest IH]; intros done_ a Heq; [done|]. cbn [length apply_graphics_loop].
    rewrite Hsize, Heq, length_app, (proj2 (Nat.ltb_lt _ _)) by (cbn; lia). rewrite <- Heq.
    rewrite (apply_one_group gs (length done_) g).
    - cbn [fold_left]. rewrite <- (IH (done_ ++ [g])) by (by rewrite <- app_assoc). by rewrite length_app.
    - rewrite Heq. by apply list_lookup_middle.
    - rewrite Heq in Hgs. by apply Forall_app in Hgs as [_ [Hg _]%Forall_cons_iff]. }
  exact (Hgen [] gs attr eq_refl).
Qed.

(** ** The report as groups *)

Definition when (b : bool) (g : Z * list Z) : ParamGroups := if b then [g] else [].

Definition color_groups (base : Z) (c : TextColor) : ParamGroups :=
  match _meta c with
  | IsDefault_ => []
  | IsIndex16_ => [(base + (if _index c >=? 8 then 60 else 0) + _index c mod 8, [])]
  | IsIndex256_ => [(base + 8, [5; _index c])]
  | IsRgb_ => [(base + 8, [2; VTParameter_default; _red c; _green c; _blue c])]
  end.

Definition sgr_tail (a : TextAttribute) : ParamGroups :=
  let ul := GetUnderlineStyle a in
  when (IsIntense a) (1, []) ++ when (IsFaint a) (2, []) ++ when (IsItalic a) (3, []) ++
  when (ul =? 1) (4, []) ++ when (ul =? 3) (4, [3]) ++ when (ul =? 4) (4, [4]) ++ when (ul =? 5) (4, [5]) ++
  when (IsBlinking a) (5, []) ++ when (IsReverseVideo a) (7, []) ++ when (IsInvisible a) (8, []) ++
  when (IsCrossedOut a) (9, []) ++ when (ul =? 2) (21, []) ++ when (IsOverlined a) (53, []) ++
  color_groups 30 (_foreground a) ++ color_groups 40 (_background a) ++ color_groups 50 (_underlineColor a).

Definition sgr_groups (a : TextAttribute) : ParamGroups := (0, []) :: sgr_tail a.

(** A colour as the constructors make it. *)
Definition color_ok (c : TextColor) : Prop :=
  match _meta c with
  | IsDefault_ => c = TextColor_default
  | IsIndex16_ => 0 <= _index c < 16 /\ _green c = 0 /\ _blue c = 0
  | IsIndex256_ => 0 <= _index c < 256 /\ _green c = 0 /\ _blue c = 0
  | IsRgb_ => 0 <= _red c < 256 /\ 0 <= _green c < 256 /\ 0 <= _blue c < 256
  end.

Lemma encode_groups_tail g gs :
  encode_groups (g :: gs) = encode_group g ++ concat (map (fun g => SEMI :: encode_group g) gs).
Proof.
  revert g. induction gs as [|g' gs IH]; intros g; [cbn; by rewrite app_nil_r|].
  change (encode_groups (g :: g' :: gs)) with (encode_group g ++ SEMI :: encode_groups (g' :: gs)).
  rewrite IH. done.
Qed.

Lemma byte_high_bit r n : 0 <= r < 256 -> 8 <= n -> Z.testbit r n = false.
Proof. intros Hr Hn. rewrite <- (Z.mod_small r (2 ^ 8)) by lia. by apply Z.mod_pow2_bits_high; lia. Qed.

Lemma rgb_components r g b : 0 <= r < 256 -> 0 <= g < 256 -> 0 <= b < 256 ->
  GetRValue (RGB r g b) = r /\ GetGValue (RGB r g b) = g /\ GetBValue (RGB r g b) = b.
Proof.
  intros Hr Hg Hb. unfold GetRValue, GetGValue, GetBValue, RGB, u8.
  assert (Hbits : forall x y, 0 <= y < 256 -> (forall n, 0 <= n < 8 -> Z.testbit x n = Z.testbit y n) -> x mod 2 ^ 8 = y).
  { intros x y Hy Hx. apply Z.bits_inj'. intros n Hn. destruct (Z.lt_ge_cases n 8).
    - rewrite Z.mod_pow2_bits_low by lia. apply Hx. lia.
    - rewrite Z.mod_pow2_bits_high, byte_high_bit by lia. done. }
  split_and!; apply Hbits; try done; intros n Hn;
    rewrite ?Z.shiftr_spec, !Z.lor_spec, !Z.shiftl_spec by lia.
  - rewrite (Z.testbit_neg_r g), (Z.testbit_neg_r b) by lia. by rewrite !orb_false_r.
  - rewrite (byte_high_bit r), (Z.testbit_neg_r b), orb_false_r by lia. cbn. f_equal. lia.
  - rewrite (byte_high_bit r), (byte_high_bit g) by lia. cbn. f_equal. lia.
Qed.

Lemma encode_color base c : color_ok c -> 30 <= base <= 50 ->
  concat (map (fun g => SEMI :: encode_group g) (color_groups base c)) = addColor base c.
Proof.
  intros Hc Hb. unfold color_groups, addColor, color_ok, IsIndex16, IsIndex256, IsRgb in *.
  destruct c as [r g b []]; cbn [_meta _red _green _blue _index GetIndex] in *; cbn [map concat]; try done;
    unfold GetIndex, _index, encode_group, encode_subs, encode_value in *; cbn [_red fst snd map concat] in *.
  - destruct (Z.ltb_spec (base + (if r >=? 8 then 60 else 0) + r mod 8) 0) as [Hlt|].
    { pose proof (Z.mod_pos_bound r 8). destruct (r >=? 8); lia. }
    by rewrite !app_nil_r.
  - destruct (Z.ltb_spec (base + 8) 0), (Z.ltb_spec r 0); try lia. rewrite !app_nil_r. reflexivity.
  - unfold GetRGB. cbn [_red _green _blue]. destruct (rgb_components r g b) as (-> & -> & ->); try tauto.
    destruct (Z.ltb_spec (base + 8) 0), (Z.ltb_spec r 0), (Z.ltb_spec g 0), (Z.ltb_spec b 0); try lia.
    rewrite !app_nil_r. reflexivity.
Qed.

(** The report is the text of these groups. *)
Lemma sgr_report_groups a : color_ok (_foreground a) -> color_ok (_background a) -> color_ok (_underlineColor a) ->
  encode_groups (sgr_groups a) = sgr_parameters a.
Proof.
  intros Hf Hb Hu. unfold sgr_groups, sgr_tail, sgr_parameters. rewrite encode_groups_tail, !map_app, !concat_app.
  rewrite !encode_color by (done || lia). unfold when, addAttribute, UnderlineStyle.SinglyUnderlined,
    UnderlineStyle.CurlyUnderlined, UnderlineStyle.DottedUnderlined, UnderlineStyle.DashedUnderlined,
    UnderlineStyle.DoublyUnderlined.
  repeat (apply f_equal2; [first [reflexivity | step_if; reflexivity]|]). reflexivity.
Qed.

(** ** The report, applied *)

Lemma fold_when b g rest a :
  fold_left (fun a g => apply_group g a) (when b g ++ rest) a
  = fold_left (fun a g => apply_group g a) rest (if b then apply_group g a else a).
Proof. by destruct b. Qed.

Lemma when_flag_bit n (b : bool) x m : 0 <= n -> 0 <= m ->
  Z.testbit (_attrs (if b then set_flag (2 ^ n) true x else x)) m = ((m =? n) && b) || Z.testbit (_attrs x) m.
Proof.
  intros Hn Hm. destruct b; [|by rewrite andb_false_r]. rewrite set_flag_bit by done. by destruct (m =? n).
Qed.

Lemma when_Intense (b : bool) x m : 0 <= m ->
  Z.testbit (_attrs (if b then SetIntense true x else x)) m = ((m =? 0) && b) || Z.testbit (_attrs x) m.
Proof. by apply (when_flag_bit 0). Qed.

Lemma when_Faint (b : bool) x m : 0 <= m ->
  Z.testbit (_attrs (if b then SetFaint true x else x)) m = ((m =? 5) && b) || Z.testbit (_attrs x) m.
Proof. by apply (when_flag_bit 5). Qed.

Lemma when_Italic (b : bool) x m : 0 <= m ->
  Z.testbit (_attrs (if b then SetItalic true x else x)) m = ((m =? 1) && b) || Z.testbit (_attrs x) m.
Proof. by apply (when_flag_bit 1). Qed.

Lemma when_Blinking (b : bool) x m : 0 <= m ->
  Z.testbit (_attrs (if b then SetBlinking true x else x)) m = ((m =? 2) && b) || Z.testbit (_attrs x) m.
Proof. by apply (when_flag_bit 2). Qed.

Lemma when_Invisible (b : bool) x m : 0 <= m ->
  Z.testbit (_attrs (if b then SetInvisible true x else x)) m = ((m =? 3) && b) || Z.testbit (_attrs x) m.
Proof. by apply (when_flag_bit 3). Qed.

Lemma when_CrossedOut (b : bool) x m : 0 <= m ->
  Z.testbit (_attrs (if b then SetCrossedOut true x else x)) m = ((m =? 4) && b) || Z.testbit (_attrs x) m.
Proof. by apply (when_flag_bit 4). Qed.

Lemma when_Overlined (b : bool) x m : 0 <= m ->
  Z.testbit (_attrs (if b then SetOverlined true x else x)) m = ((m =? 10) && b) || Z.testbit (_attrs x) m.
Proof. by apply (when_flag_bit 10). Qed.

Lemma when_ReverseVideo (b : bool) x m : 0 <= m ->
  Z.testbit (_attrs (if b then SetReverseVideo true x else x)) m = ((m =? 14) && b) || Z.testbit (_attrs x) m.
Proof. by apply (when_flag_bit 14). Qed.

Lemma when_underline s (b : bool) x m : 0 <= s < 8 -> 0 <= m ->
  Z.testbit (_attrs (if b then SetUnderlineStyle s x else x)) m
  = if (6 <=? m) && (m <=? 8) && b then Z.testbit s (m - 6) else Z.testbit (_attrs x) m.
Proof.
  intros Hs Hm. destruct b; [|by rewrite andb_false_r]. rewrite underline_style_bit by done. by rewrite andb_true_r.
Qed.

(** What the groups for the flags leave of the attributes [x]. *)
Definition flags_applied (a x : TextAttribute) : TextAttribute :=
  let ul := GetUnderlineStyle a in
  let x := if IsIntense a then SetIntense true x else x in
  let x := if IsFaint a then SetFaint true x else x in
  let x := if IsItalic a then SetItalic true x else x in
  let x := if ul =? 1 then SetUnderlineStyle 1 x else x in
  let x := if ul =? 3 then SetUnderlineStyle 3 x else x in
  let x := if ul =? 4 then SetUnderlineStyle 4 x else x in
  let x := if ul =? 5 then SetUnderlineStyle 5 x else x in
  let x := if IsBlinking a then SetBlinking true x else x in
  let x := if IsReverseVideo a then SetReverseVideo true x else x in
  let x := if IsInvisible a then SetInvisible true x else x in
  let x := if IsCrossedOut a then SetCrossedOut true x else x in
  let x := if ul =? 2 then SetUnderlineStyle 2 x else x in
  if IsOverlined a then SetOverlined true x else x.

Definition reset_rendition (x : TextAttribute) : TextAttribute :=
  SetDefaultRenditionAttributes (SetDefaultUnderlineColor (SetDefaultBackground (SetDefaultForeground x))).

Lemma sgr_groups_applied a x :
  fold_left (fun a g => apply_group g a) (sgr_groups a) x
  = fold_left (fun a g => apply_group g a)
      (color_groups 30 (_foreground a) ++ color_groups 40 (_background a) ++ color_groups 50 (_underlineColor a))
      (flags_applied a (reset_rendition x)).
Proof.
  unfold sgr_groups, sgr_tail. cbn [fold_left]. rewrite !fold_when. reflexivity.
Qed.

(** The bits of the underline style. *)
Lemma underline_bits a m : 6 <= m <= 8 -> Z.testbit (_attrs a) m = Z.testbit (GetUnderlineStyle a) (m - 6).
Proof.
  intros Hm. rewrite underline_style_value. change 7 with (Z.ones 3).
  rewrite Z.land_spec, Z.shiftr_spec, Z.testbit_ones by lia.
  destruct (Z.leb_spec 0 (m - 6)), (Z.ltb_spec (m - 6) 3); try lia. rewrite andb_true_r. f_equal. lia.
Qed.

Lemma reset_bits x m : 0 <= m ->
  Z.testbit (_attrs (reset_rendition x)) m = Z.testbit (_attrs x) m && negb (Z.testbit CharacterAttributes.Rendition m).
Proof. intros Hm. unfold reset_rendition, SetDefaultRenditionAttributes. cbn [_attrs setter]. apply Z.ldiff_spec. Qed.

(** The flags a report carries, and no others. *)
Definition reported (a : TextAttribute) : Prop :=
  0 <= _attrs a < 65536 /\ GetUnderlineStyle a <= 5 /\
  Forall (fun m => Z.testbit (_attrs a) m = false) [9; 11; 12; 15].

Lemma word_high_bit w m : 0 <= w < 65536 -> 16 <= m -> Z.testbit w m = false.
Proof. intros Hw Hm. rewrite <- (Z.mod_small w (2 ^ 16)) by lia. apply Z.mod_pow2_bits_high. lia. Qed.

Lemma flags_restored a x : reported a -> 0 <= _attrs x < 65536 -> IsProtected x = IsProtected a ->
  _attrs (flags_applied a (reset_rendition x)) = _attrs a.
Proof.
  intros (Ha & Hul & Hclear) Hx Hp. rewrite !IsProtected_bit in Hp. apply Z.bits_inj'. intros m Hm.
  unfold flags_applied. cbv zeta.
  rewrite when_Overlined, when_underline, when_CrossedOut, when_Invisible, when_ReverseVideo, when_Blinking,
    !when_underline, when_Italic, when_Faint, when_Intense, reset_bits by lia.
  autorewrite with attr.
  destruct (Z.lt_ge_cases m 16) as [Hlt|Hge]; cycle 1.
  { rewrite (word_high_bit (_attrs a) m), (word_high_bit (_attrs x) m) by done.
    repeat match goal with |- context [m =? ?n] => rewrite (proj2 (Z.eqb_neq m n)) by lia end.
    rewrite (proj2 (Z.leb_gt m 8)), !andb_false_r by lia. done. }
  rewrite !Forall_cons_iff in Hclear. destruct Hclear as (H9 & H11 & H12 & H15 & _).
  pose proof (underline_style_range a) as Hur. pose proof (underline_bits a m) as Hub.
  set (f := Z.testbit (_attrs a)) in *. set (g := Z.testbit (_attrs x)) in *. clearbody f g.
  set (ul := GetUnderlineStyle a) in *. clearbody ul. clear Ha Hx a x.
  destruct (decide (6 <= m <= 8)) as [Hu|Hu].
  - rewrite Hub by done.
    assert (ul = 0 \/ ul = 1 \/ ul = 2 \/ ul = 3 \/ ul = 4 \/ ul = 5) as Hu5 by lia.
    assert (m = 6 \/ m = 7 \/ m = 8) as Hm3 by lia. clear Hub.
    destruct Hm3 as [->|[->| ->]]; destruct Hu5 as [->|[->|[->|[->|[->| ->]]]]]; cbn; by rewrite ?andb_false_r.
  - clear Hub Hur Hul. assert (Hr : 0 <= m < 16) by lia. clear Hm Hlt. revert m Hr Hu.
    refine (range16 _ _ _ _ _ _ _ _ _ _ _ _ _ _ _ _ _); intros Hu; cbn; try lia;
      rewrite ?andb_false_r, ?andb_true_r, ?orb_false_r, ?H9, ?H11, ?H12, ?H15; done.
Qed.

(** Updates of the flag word alone. *)
Definition same_fields (x y : TextAttribute) : Prop := exists w, y = x <| _attrs := w |>.

Lemma same_fields_refl x : same_fields x x.
Proof. exists (_attrs x). by destruct x. Qed.

Lemma same_fields_step (b : bool) F x y : same_fields x y -> (forall z, same_fields z (F z)) ->
  same_fields x (if b then F y else y).
Proof. intros [w ->] HF. destruct b; [|by exists w]. destruct (HF (x <| _attrs := w |>)) as [w' ->]. by exists w'. Qed.

Lemma flags_applied_fields a x : same_fields x (flags_applied a x).
Proof.
  unfold flags_applied. cbv zeta.
  repeat (apply (same_fields_step _ (set_flag _ true)) || apply (same_fields_step _ (SetUnderlineStyle _)));
    try apply same_fields_refl; intros z; by eexists.
Qed.

Lemma index16_foreground i x : 0 <= i < 16 ->
  apply_group (30 + (if i >=? 8 then 60 else 0) + i mod 8, []) x = SetIndexedForeground i x.
Proof. revert i. apply range16; reflexivity. Qed.

Lemma index16_background i x : 0 <= i < 16 ->
  apply_group (40 + (if i >=? 8 then 60 else 0) + i mod 8, []) x = SetIndexedBackground i x.
Proof. revert i. apply range16; reflexivity. Qed.

(** The extended colours, by sub parameters. *)
Lemma extended_color item c x : In item [38; 48; 58] -> color_ok c -> _meta c = IsIndex256_ \/ _meta c = IsRgb_ ->
  fold_left (fun a g => apply_group g a) (color_groups (item - 8) c) x = applyColor item c x.
Proof.
  intros Hin Hc Hm. unfold color_groups, color_ok in *. destruct c as [r g b []]; cbn in Hm, Hc; try (by destruct Hm);
    cbn [_meta _red _green _blue fold_left]; replace (item - 8 + 8) with item by lia.
  - destruct Hc as (Hr & -> & ->). unfold _index in *. cbn [_red] in *.
    assert (Hs : apply_group (item, [5; r]) x
      = (if value_or r 0 <=? 255 then applyColor item (TextColor_index (u8 (value_or r 0)) true) x else x))
      by (cbn in Hin; destruct Hin as [<-|[<-|[<-|[]]]]; reflexivity).
    rewrite Hs. unfold value_or. destruct (Z.ltb_spec r 0); [lia|]. destruct (Z.leb_spec r 255); [|lia].
    by rewrite u8_small by lia.
  - destruct Hc as (Hr & Hg & Hb).
    assert (Hs : apply_group (item, [2; VTParameter_default; r; g; b]) x
      = (if (value_or r 0 <=? 255) && (value_or g 0 <=? 255) && (value_or b 0 <=? 255)
         then applyColor item (TextColor_rgb (RGB (value_or r 0) (value_or g 0) (value_or b 0))) x else x))
      by (cbn in Hin; destruct Hin as [<-|[<-|[<-|[]]]]; reflexivity).
    rewrite Hs. unfold value_or. destruct (Z.ltb_spec r 0), (Z.ltb_spec g 0), (Z.ltb_spec b 0); try lia.
    destruct (Z.leb_spec r 255), (Z.leb_spec g 255), (Z.leb_spec b 255); try lia. cbn [andb].
    unfold TextColor_rgb. by destruct (rgb_components r g b) as (-> & -> & ->).
Qed.

Lemma foreground_applied c x : color_ok c -> _foreground x = TextColor_default ->
  fold_left (fun a g => apply_group g a) (color_groups 30 c) x = SetForeground c x.
Proof.
  intros Hc Hx. destruct (_meta c) eqn:Hm.
  - unfold color_groups, color_ok in *. rewrite Hm in *. subst c. destruct x. cbn in *. by subst.
  - unfold color_groups, color_ok in *. rewrite Hm in *. cbn [fold_left]. destruct Hc as (Hi & Hg & Hb).
    rewrite index16_foreground by done. destruct c as [r g b t]. cbn in *. by subst.
  - apply (extended_color 38); [cbn; tauto|done|by left].
  - apply (extended_color 38); [cbn; tauto|done|by right].
Qed.

Lemma background_applied c x : color_ok c -> _background x = TextColor_default ->
  fold_left (fun a g => apply_group g a) (color_groups 40 c) x = SetBackground c x.
Proof.
  intros Hc Hx. destruct (_meta c) eqn:Hm.
  - unfold color_groups, color_ok in *. rewrite Hm in *. subst c. destruct x. cbn in *. by subst.
  - unfold color_groups, color_ok in *. rewrite Hm in *. cbn [fold_left]. destruct Hc as (Hi & Hg & Hb).
    rewrite index16_background by done. destruct c as [r g b t]. cbn in *. by subst.
  - apply (extended_color 48); [cbn; tauto|done|by left].
  - apply (extended_color 48); [cbn; tauto|done|by right].
Qed.

Lemma underline_color_applied c x : color_ok c -> IsIndex16 c = false -> _underlineColor x = TextColor_default ->
  fold_left (fun a g => apply_group g a) (color_groups 50 c) x = SetUnderlineColor c x.
Proof.
  intros Hc Hn Hx. destruct (_meta c) eqn:Hm.
  - unfold color_groups, color_ok in *. rewrite Hm in *. subst c. destruct x. cbn in *. by subst.
  - unfold IsIndex16 in Hn. by rewrite Hm in Hn.
  - apply (extended_color 58); [cbn; tauto|done|by left].
  - apply (extended_color 58); [cbn; tauto|done|by right].
Qed.

(** A rendition the report can express. *)
Definition reportable (a : TextAttribute) : Prop :=
  reported a /\ color_ok (_foreground a) /\ color_ok (_background a) /\
  color_ok (_underlineColor a) /\ IsIndex16 (_underlineColor a) = false.

(** What SGR does not change. *)
Definition same_logical (x a : TextAttribute) : Prop :=
  IsProtected x = IsProtected a /\ _hyperlinkId x = _hyperlinkId a /\ _markKind x = _markKind a.

Lemma report_applied a x : reportable a -> 0 <= _attrs x < 65536 -> same_logical x a ->
  fold_left (fun a g => apply_group g a) (sgr_groups a) x = a.
Proof.
  intros (Hr & Hf & Hb & Hu & Hi) Hx (Hp & Hh & Hk). rewrite sgr_groups_applied, !fold_left_app.
  pose proof (flags_restored a x Hr Hx Hp) as Hw.
  destruct (flags_applied_fields a (reset_rendition x)) as [w Hy]. rewrite Hy in *. cbn [_attrs setter] in Hw.
  rewrite foreground_applied, background_applied, underline_color_applied by done.
  unfold SetForeground, SetBackground, SetUnderlineColor, reset_rendition. destruct a, x. cbn in *. by subst.
Qed.

(** ** A terminal with graphic renditions

    The four methods of this file on top of any other terminal, which keeps
    the rest. *)

Section Terminal.
Context {D CB H : Type} `{Base : !ITermDispatch D CB H}.

Record GraphicsTerminal := mk_GraphicsTerminal { gt_graphics : GraphicsState; gt_base : D }.

Definition graphics_done (g : GraphicsState) (t : GraphicsTerminal) : EngineResult CB GraphicsTerminal unit :=
  mkEngineResult (mk_GraphicsTerminal g (gt_base t)) (Some tt) [].

Definition on_base {R} (t : GraphicsTerminal) (r : EngineResult CB D R) : EngineResult CB GraphicsTerminal R :=
  mkEngineResult (mk_GraphicsTerminal (gt_graphics t) (er_engine r)) (er_result r) (er_requests r).

#[export] Instance GraphicsTerminal_dispatch : ITermDispatch GraphicsTerminal CB H := {|
  dispatch c t :=
    match c with
    | SetGraphicsRendition ps => graphics_done (AdaptDispatch_SetGraphicsRendition ps (gt_graphics t)) t
    | SetCharacterProtectionAttribute ps =>
        graphics_done (AdaptDispatch_SetCharacterProtectionAttribute ps (gt_graphics t)) t
    | PushGraphicsRendition ps => graphics_done (AdaptDispatch_PushGraphicsRendition ps (gt_graphics t)) t
    | PopGraphicsRendition => graphics_done (AdaptDispatch_PopGraphicsRendition (gt_graphics t)) t
    | _ => on_base t (dispatch c (gt_base t))
    end;
  dispatch_string c t := on_base t (dispatch_string c (gt_base t));
  handler_call h ch t :=
    let '(d, more, rs) := handler_call h ch (gt_base t) in (mk_GraphicsTerminal (gt_graphics t) d, more, rs);
|}.

Variable u8u16 : list Z -> option (list Z).
Abbreviation E := (OutputStateMachineEngine GraphicsTerminal).
#[local] Instance OutGraphics : IStateMachineEngine E CB H := OutputEngine u8u16.
Abbreviation SM := (@StateMachine E CB H).
Variable runCallback : CB -> SM -> SM.

Definition graphics_of (sm : SM) : GraphicsState := gt_graphics (_dispatch (_engine sm)).

Lemma sgr_dispatched gs (e : E) :
  let r := output_CsiDispatch (VTID_FromString ([] ++ [] ++ [0x6D])) (params_of gs) e in
  er_requests r = [] /\
  gt_graphics (_dispatch (er_engine r)) = AdaptDispatch_SetGraphicsRendition (params_of gs) (gt_graphics (_dispatch e)).
Proof.
  cbv zeta. unfold output_CsiDispatch.
  replace (_CanSeqAcceptSubParam (VTID_FromString ([] ++ [] ++ [0x6D])) (params_of gs)) with true by reflexivity.
  rewrite andb_false_r. split; reflexivity.
Qed.

Definition group_ok (g : Z * list Z) : Prop :=
  param_value (fst g) /\ Z.of_nat (length (snd g)) <= MAX_SUBPARAMETER_COUNT /\ Forall param_value (snd g).

Lemma small_value v : 0 <= v <= 1000 -> param_value v.
Proof. unfold param_value, MAX_PARAMETER_VALUE. lia. Qed.

Lemma group_ok_intro p s : 0 <= p <= 1000 -> (length s <= 6)%nat -> Forall param_value s -> group_ok (p, s).
Proof. intros Hp Hl Hs. split_and!; [by apply small_value|cbn; unfold MAX_SUBPARAMETER_COUNT; lia|done]. Qed.

Lemma when_ok b g : group_ok g -> Forall group_ok (when b g).
Proof. intros Hg. destruct b; [by constructor|constructor]. Qed.

Lemma color_groups_ok base c : 0 <= base <= 100 -> color_ok c -> Forall group_ok (color_groups base c).
Proof.
  intros Hb Hc. unfold color_groups, color_ok in *.
  destruct c as [r g b []]; cbn [_meta _red _green _blue] in *; unfold _index in *; cbn [_red] in *;
    [by constructor| | |]; (apply Forall_cons; [|constructor]); apply group_ok_intro; try (cbn; lia); try by constructor.
  - pose proof (Z.mod_pos_bound r 8). destruct (r >=? 8); lia.
  - repeat (apply Forall_cons; [apply small_value; lia|]). constructor.
  - apply Forall_cons; [apply small_value; lia|]. apply Forall_cons; [by left|].
    repeat (apply Forall_cons; [apply small_value; lia|]). constructor.
Qed.

Lemma report_groups_ok a : reportable a -> groups_ok (sgr_groups a).
Proof.
  intros (_ & Hf & Hb & Hu & _). split.
  - assert (Hwhen : forall b g, (length (when b g) <= 1)%nat) by (intros [] g; cbn; lia).
    assert (Hcol : forall n c, (length (color_groups n c) <= 1)%nat) by (intros n [r g b []]; cbn; lia).
    unfold sgr_groups, sgr_tail, MAX_PARAMETER_COUNT. cbn [length]. rewrite !length_app.
    repeat match goal with
    | |- context [length (when ?b ?g)] => lazymatch goal with
        | _ : (length (when b g) <= 1)%nat |- _ => fail | _ => pose proof (Hwhen b g) end
    | |- context [length (color_groups ?n ?c)] => lazymatch goal with
        | _ : (length (color_groups n c) <= 1)%nat |- _ => fail | _ => pose proof (Hcol n c) end
    end. lia.
  - change (Forall group_ok (sgr_groups a)). unfold sgr_groups, sgr_tail. constructor; [apply group_ok_intro; [lia|cbn; lia|constructor]|].
    repeat (apply Forall_app; split); try (apply color_groups_ok; [lia|done]);
      (apply when_ok, group_ok_intro; [lia|cbn; lia|]);
      repeat (apply Forall_cons; [apply small_value; lia|]); constructor.
Qed.

Lemma report_self_contained a : reportable a -> Forall self_contained (sgr_groups a).
Proof.
  intros (_ & Hf & Hb & Hu & Hi).
  assert (Hc : forall base c, In base [30; 40; 50] -> color_ok c -> Forall self_contained (color_groups base c)).
  { intros base c Hin Hc. unfold color_groups, color_ok in *. destruct c as [r g b []]; cbn [_meta] in *;
      [constructor| | |]; (apply Forall_cons; [intros Hs|constructor]); try done; cbn [fst]; unfold _index in *;
      cbn [_red] in *; pose proof (Z.mod_pos_bound r 8); destruct (r >=? 8); cbn in Hin; lia. }
  assert (Hw : forall b g, self_contained g -> Forall self_contained (when b g)).
  { intros [] g Hg; [by constructor|constructor]. }
  unfold sgr_groups, sgr_tail. constructor; [done|].
  repeat (apply Forall_app; split); try (apply Hc; [cbn; tauto|done]); apply Hw; intros Hs; done.
Qed.

(** C18: the report of the current rendition that DECRQSS returns, sent back
    as a control sequence through the parser and the output engine to a
    terminal with any rendition, restores the reported one: every flag, the
    underline style, and the three colours in each of their forms. *)
Theorem sgr_report_roundtrip a (sm : SM) : reportable a -> idle sm ->
  let x := Attributes (graphics_of sm) in
  0 <= _attrs x < 65536 -> same_logical x a ->
  let sm' := feed runCallback (ESC :: 0x5B :: sgr_parameters a ++ wstr "m") sm in
  idle sm' /\ Attributes (graphics_of sm') = a /\ _sgrStack (graphics_of sm') = _sgrStack (graphics_of sm).
Proof.
  intros Ha Hid x Hx Hl. cbv zeta. pose proof Ha as (_ & Hf & Hb & Hu & _).
  rewrite <- sgr_report_groups by done. change (wstr "m") with ([] ++ [0x6D]).
  change (ESC :: 0x5B :: encode_groups (sgr_groups a) ++ [] ++ [0x6D]) with (csi_text [] (sgr_groups a) [] 0x6D).
  destruct (sgr_dispatched (sgr_groups a) (_engine sm)) as [Hrq Hgr].
  destruct (csi_idle u8u16 runCallback [] (sgr_groups a) [] 0x6D sm Hid) as [Hid' He]; try done.
  { split; [cbn; lia|constructor]. }
  { by apply report_groups_ok. }
  { cbn; lia. }
  split; [done|].
  assert (Hg : graphics_of (feed runCallback (csi_text [] (sgr_groups a) [] 0x6D) sm)
    = AdaptDispatch_SetGraphicsRendition (params_of (sgr_groups a)) (graphics_of sm)).
  { etrans; [exact (f_equal (fun e => gt_graphics (_dispatch e)) He)|exact Hgr]. }
  rewrite Hg. unfold AdaptDispatch_SetGraphicsRendition. cbn [Attributes _sgrStack setter].
  split; [|done]. rewrite apply_groups by (done || by apply report_self_contained). by apply report_applied.
Qed.
End Terminal.
