(* ===== verification/GraphicsTyped.v ===== *)
(** * The attributes stay well formed

    Flag words of sixteen bits, underline styles that exist, colours with the
    components their type has, and no 16 colour index for an underline: kept
    by every operation on renditions, whatever the parameters. *)

From S2P Require Import Prelude VTTypes StateMachine ParserRoundtrip TextAttribute AttributeFacts SgrStack.
From S2P Require Import TermDispatch OutputEngine OutputFacts Graphics GraphicsFacts.

Definition attr_ok (a : TextAttribute) : Prop :=
  0 <= _attrs a < 65536 /\ GetUnderlineStyle a <= 5 /\
  color_ok (_foreground a) /\ color_ok (_background a) /\
  color_ok (_underlineColor a) /\ IsIndex16 (_underlineColor a) = false.

Definition graphics_ok (g : GraphicsState) : Prop :=
  attr_ok (Attributes g) /\ stack_ok (_sgrStack g) /\
  Forall (fun s => attr_ok (TextAttributes s)) (_storedSgrAttributes (_sgrStack g)).

(** ** Flag words *)

Lemma word_of_bits w : (forall m, 16 <= m -> Z.testbit w m = false) -> 0 <= w < 65536.
Proof.
  intros Hw. assert (Heq : w mod 2 ^ 16 = w).
  { apply Z.bits_inj'. intros m Hm. destruct (Z.lt_ge_cases m 16).
    - by rewrite Z.mod_pow2_bits_low by lia.
    - by rewrite Z.mod_pow2_bits_high, Hw by lia. }
  rewrite <- Heq. by apply Z.mod_pos_bound.
Qed.

Lemma set_flag_ok n b a : 0 <= n < 16 -> ~ 6 <= n <= 8 -> attr_ok a -> attr_ok (set_flag (2 ^ n) b a).
Proof.
  intros Hn Hu (Hw & Hs & Hrest). refine (conj _ (conj _ Hrest)).
  - apply word_of_bits. intros m Hm. rewrite set_flag_bit by lia.
    destruct (Z.eqb_spec m n); [lia|]. by apply word_high_bit.
  - rewrite (underline_other (set_flag (2 ^ n) b a) a); [done|]. intros m Hm.
    rewrite set_flag_bit by lia. by destruct (Z.eqb_spec m n); [lia|].
Qed.

Lemma underline_ok s a : 0 <= s <= 5 -> attr_ok a -> attr_ok (SetUnderlineStyle s a).
Proof.
  intros Hs (Hw & _ & Hrest). refine (conj _ (conj _ Hrest)).
  - apply word_of_bits. intros m Hm. rewrite underline_style_bit by lia.
    destruct (Z.leb_spec 6 m), (Z.leb_spec m 8); cbn; try lia; by apply word_high_bit.
  - rewrite underline_set_get by lia. lia.
Qed.

Lemma default_rendition_ok a : attr_ok a -> attr_ok (SetDefaultRenditionAttributes a).
Proof.
  intros (Hw & _ & Hrest). refine (conj _ (conj _ Hrest)).
  - apply word_of_bits. intros m Hm. unfold SetDefaultRenditionAttributes. cbn [_attrs setter].
    by rewrite Z.ldiff_spec, word_high_bit.
  - assert (H0 : GetUnderlineStyle (SetDefaultRenditionAttributes a) = GetUnderlineStyle TextAttribute_default).
    { apply underline_other. intros m Hm. unfold SetDefaultRenditionAttributes. cbn [_attrs setter TextAttribute_default].
      rewrite Z.ldiff_spec, Z.bits_0. assert (m = 6 \/ m = 7 \/ m = 8) as [->|[->| ->]] by lia; apply andb_false_r. }
    rewrite H0. done.
Qed.

(** ** Colours *)

Lemma default_color_ok : color_ok TextColor_default.
Proof. done. Qed.

Lemma index256_ok i : 0 <= i < 256 -> color_ok (TextColor_index i true).
Proof. done. Qed.

Lemma index16_ok i : 0 <= i < 16 -> color_ok (TextColor_index i false).
Proof. done. Qed.

Lemma rgb_ok rgb : color_ok (TextColor_rgb rgb).
Proof. unfold color_ok, TextColor_rgb, GetRValue, GetGValue, GetBValue, u8. cbn. split_and!; by apply Z.mod_pos_bound. Qed.

Lemma set_foreground_ok c a : color_ok c -> attr_ok a -> attr_ok (SetForeground c a).
Proof. intros Hc (Hw & Hs & Hf & Hrest). exact (conj Hw (conj Hs (conj Hc Hrest))). Qed.

Lemma set_background_ok c a : color_ok c -> attr_ok a -> attr_ok (SetBackground c a).
Proof. intros Hc (Hw & Hs & Hf & Hb & Hrest). exact (conj Hw (conj Hs (conj Hf (conj Hc Hrest)))). Qed.

Lemma set_underline_color_ok c a : color_ok c -> IsIndex16 c = false -> attr_ok a -> attr_ok (SetUnderlineColor c a).
Proof. intros Hc Hi (Hw & Hs & Hf & Hb & _). exact (conj Hw (conj Hs (conj Hf (conj Hb (conj Hc Hi))))). Qed.

Lemma apply_color_ok item c a : color_ok c -> IsIndex16 c = false -> attr_ok a -> attr_ok (applyColor item c a).
Proof.
  intros. unfold applyColor. repeat step_if; auto using set_foreground_ok, set_background_ok, set_underline_color_ok.
Qed.

Create HintDb attr_ok.
#[local] Hint Resolve default_color_ok index256_ok index16_ok rgb_ok set_foreground_ok set_background_ok
  set_underline_color_ok apply_color_ok underline_ok default_rendition_ok : attr_ok.

Lemma flag_cases_ok : forall a, attr_ok a -> forall b,
  attr_ok (SetIntense b a) /\ attr_ok (SetFaint b a) /\ attr_ok (SetItalic b a) /\ attr_ok (SetBlinking b a) /\
  attr_ok (SetInvisible b a) /\ attr_ok (SetCrossedOut b a) /\ attr_ok (SetReverseVideo b a) /\
  attr_ok (SetOverlined b a) /\ attr_ok (SetProtected b a).
Proof.
  intros a Ha b. split_and!; [apply (set_flag_ok 0)|apply (set_flag_ok 5)|apply (set_flag_ok 1)|apply (set_flag_ok 2)
    |apply (set_flag_ok 3)|apply (set_flag_ok 4)|apply (set_flag_ok 14)|apply (set_flag_ok 10)|apply (set_flag_ok 13)]; done || lia.
Qed.
Ltac flag_ok := repeat (apply flag_cases_ok; auto with attr_ok).

(** ** The options *)

Definition keeps_ok (f : TextAttribute -> TextAttribute) : Prop := forall a, attr_ok a -> attr_ok (f a).

Lemma graphics_cases_ok : Forall (fun c => keeps_ok (snd c)) graphics_cases.
Proof.
  unfold graphics_cases. repeat (apply Forall_cons; [cbn [snd]; intros a Ha|]); [..|constructor];
    try (apply underline_ok; [cbv; split; congruence|done]);
    try (by flag_ok);
    try (by apply set_foreground_ok); try (by apply set_background_ok); try (by apply set_underline_color_ok);
    try (apply set_foreground_ok; [apply index16_ok; cbv; split; congruence|done]);
    try (apply set_background_ok; [apply index16_ok; cbv; split; congruence|done]).
  apply default_rendition_ok. apply (set_underline_color_ok TextColor_default); [done..|].
  apply (set_background_ok TextColor_default); [done|]. by apply (set_foreground_ok TextColor_default).
Qed.

Lemma graphics_switch_ok opt cases : Forall (fun c => keeps_ok (snd c)) cases -> keeps_ok (graphics_switch opt cases).
Proof.
  induction 1 as [|[labels f] cases Hf Hc IH]; intros a Ha; cbn; [done|]. step_if; [by apply Hf|by apply IH].
Qed.

Lemma value_or_0 p : 0 <= value_or p 0.
Proof. unfold value_or. destruct (Z.ltb_spec p 0); lia. Qed.

Lemma rgb_helper_ok options fg : keeps_ok (fun a => snd (_SetRgbColorsHelper options a fg)).
Proof.
  intros a Ha. unfold _SetRgbColorsHelper, SetColor_ground. pose proof (value_or_0 (param_at options 1)) as Hv.
  repeat (step_if; cbn [snd]); try done;
    try (by apply set_foreground_ok; [apply rgb_ok|]); try (by apply set_background_ok; [apply rgb_ok|]);
    [apply (set_foreground_ok (TextColor_index _ true))|apply (set_background_ok (TextColor_index _ true))]; try done;
    apply index256_ok; rewrite u8_small by lia; lia.
Qed.

Lemma subparams_ok option subs : keeps_ok (_ApplyGraphicsOptionWithSubParams option subs).
Proof.
  intros a Ha. unfold _ApplyGraphicsOptionWithSubParams, _SetUnderlineStyleHelper, _SetRgbColorsHelperFromSubParams,
    UnderlineStyle.Max, UnderlineStyle.DashedUnderlined.
  pose proof (value_or_0 (subparam_at subs 1)) as Hv.
  repeat step_if; try done;
    first [apply underline_ok; [lia|done] | apply apply_color_ok; [apply rgb_ok|done|done]
          | apply apply_color_ok; [apply index256_ok; rewrite u8_small by lia; lia|done|done]].
Qed.

Lemma option_ok options i : keeps_ok (fun a => snd (_ApplyGraphicsOption options i a)).
Proof.
  intros a Ha. unfold _ApplyGraphicsOption.
  pose proof (rgb_helper_ok (params_subspan options (i + 1)) true a Ha) as H1.
  pose proof (rgb_helper_ok (params_subspan options (i + 1)) false a Ha) as H2.
  cbv beta in H1, H2. destruct (_SetRgbColorsHelper _ a true), (_SetRgbColorsHelper _ a false).
  repeat step_if; first [exact H1 | exact H2 | by apply subparams_ok
    | by apply (graphics_switch_ok _ _ graphics_cases_ok)].
Qed.

Lemma graphics_options_ok options : keeps_ok (_ApplyGraphicsOptions options).
Proof.
  unfold _ApplyGraphicsOptions. generalize (params_size options) at 1, 0%nat.
  intros fuel. induction fuel as [|fuel IH]; intros i a Ha; cbn [apply_graphics_loop]; [done|].
  pose proof (option_ok options i a Ha) as Ho. cbv beta in Ho. destruct (_ApplyGraphicsOption options i a) as [n a']. cbn in Ho.
  step_if; [by apply IH|done].
Qed.

Lemma protection_ok n i options : keeps_ok (protection_loop n i options).
Proof.
  revert i. induction n as [|n IH]; intros i a Ha; cbn [protection_loop]; [done|]. apply IH.
  unfold protection_option. repeat step_if; try done; by apply flag_cases_ok.
Qed.

(** ** Saved attributes *)

Lemma if_keeps (t : bool) f a : keeps_ok f -> attr_ok a -> attr_ok (if t then f a else a).
Proof. intros Hf Ha. destruct t; [by apply Hf|done]. Qed.

Lemma combine_ok parts saved current : attr_ok saved -> attr_ok current ->
  attr_ok (_CombineWithCurrentAttributes current saved parts).
Proof.
  intros Hs Hc. unfold _CombineWithCurrentAttributes.
  assert (Hflags : forall b, keeps_ok (SetIntense b) /\ keeps_ok (SetFaint b) /\ keeps_ok (SetItalic b) /\
    keeps_ok (SetBlinking b) /\ keeps_ok (SetInvisible b) /\ keeps_ok (SetCrossedOut b) /\ keeps_ok (SetReverseVideo b))
    by (intros b; split_and!; intros a Ha; by apply flag_cases_ok).
  assert (Hul : keeps_ok (combine_underline parts saved)).
  { intros a Ha. pose proof (underline_style_range saved). pose proof Hs as (_ & Hs5 & _).
    unfold combine_underline, UnderlineStyle.NoUnderline, UnderlineStyle.DoublyUnderlined.
    repeat step_if; try done; apply underline_ok; lia || done. }
  pose proof Hs as (_ & _ & Hf & Hb & _).
  apply (if_keeps _ (SetBackground (_background saved))); [intros a Ha; by apply set_background_ok|].
  apply (if_keeps _ (SetForeground (_foreground saved))); [intros a Ha; by apply set_foreground_ok|].
  do 4 (apply if_keeps; [apply Hflags|]). apply Hul. do 3 (apply if_keeps; [apply Hflags|]). done.
Qed.

Lemma push_ok a options s : attr_ok a -> stack_ok s ->
  Forall (fun x => attr_ok (TextAttributes x)) (_storedSgrAttributes s) ->
  stack_ok (Push a options s) /\ Forall (fun x => attr_ok (TextAttributes x)) (_storedSgrAttributes (Push a options s)).
Proof.
  intros Ha Hs Hf. split; [by apply push_refines|]. unfold Push. cbn [_storedSgrAttributes]. by apply Forall_insert.
Qed.

Lemma pop_ok a s : attr_ok a -> stack_ok s ->
  Forall (fun x => attr_ok (TextAttributes x)) (_storedSgrAttributes s) ->
  stack_ok (fst (Pop a s)) /\ Forall (fun x => attr_ok (TextAttributes x)) (_storedSgrAttributes (fst (Pop a s))) /\
  attr_ok (snd (Pop a s)).
Proof.
  intros Ha Hs Hf. split; [by apply pop_refines|]. unfold Pop. step_if; [|done]. cbn [fst snd _storedSgrAttributes].
  split; [done|]. set (i := Z.to_nat _). destruct (nth_in_or_default i (_storedSgrAttributes s) saved_default) as [Hin| ->].
  - pose proof (proj1 (List.Forall_forall _ _) Hf _ Hin) as Hx. unfold restore. step_if; [done|]. by apply combine_ok.
  - unfold restore. cbn [TextAttributes ValidParts saved_default]. step_if; [done|]. apply combine_ok; [|done].
    split_and!; cbn; lia || done.
Qed.

(** C33: the attributes stay well formed.  From a state with well formed
    attributes, SGR, DECSCA, XTPUSHSGR and XTPOPSGR with any parameters lead
    to such a state again: the flag word keeps its sixteen bits, the underline
    style is one that exists, the colours have the components their type has,
    and the underline colour is never a 16 colour index, which its setter
    asserts. *)
Theorem graphics_typed options g : graphics_ok g ->
  graphics_ok (AdaptDispatch_SetGraphicsRendition options g) /\
  graphics_ok (AdaptDispatch_SetCharacterProtectionAttribute options g) /\
  graphics_ok (AdaptDispatch_PushGraphicsRendition options g) /\
  graphics_ok (AdaptDispatch_PopGraphicsRendition g).
Proof.
  intros (Ha & Hs & Hf). destruct g as [a s]. cbn [Attributes _sgrStack] in *. split_and!.
  - refine (conj _ (conj Hs Hf)). by apply graphics_options_ok.
  - refine (conj _ (conj Hs Hf)). by apply protection_ok.
  - destruct (push_ok a options s Ha Hs Hf) as [H1 H2]. exact (conj Ha (conj H1 H2)).
  - unfold AdaptDispatch_PopGraphicsRendition. cbn [Attributes _sgrStack].
    destruct (pop_ok a s Ha Hs Hf) as (H1 & H2 & H3). destruct (Pop a s) as [s' a']. exact (conj H3 (conj H1 H2)).
Qed.

(** ** On concrete input *)

Lemma new_graphics_ok : graphics_ok new_GraphicsState.
Proof.
  split; [|split; [apply new_stack_ok|]].
  - split_and!; cbn; lia || done.
  - cbn. repeat (apply Forall_cons; [split_and!; cbn; lia || done|]). constructor.
Qed.

Lemma graphics_typed_witness :
  graphics_ok (AdaptDispatch_SetGraphicsRendition (VTParameters_plain [1; 38; 2; 10; 20; 30; 4]) new_GraphicsState).
Proof.
  exact (proj1 (graphics_typed (VTParameters_plain [1; 38; 2; 10; 20; 30; 4]) new_GraphicsState new_graphics_ok)).
Defined.

(** * Graphic renditions at work

    The round trip of the SGR report on a concrete terminal, and the request
    that asks for it. *)

From S2P Require Import OutputWitness.

Abbreviation GT := (@GraphicsTerminal Calls).
#[local] Instance GraphicsEngine : IStateMachineEngine (OutputStateMachineEngine GT) unit unit := OutputEngine ascii_u8u16.
Abbreviation GM := (StateMachine (OutputStateMachineEngine GT) unit unit).

Definition graphics_terminal : GM := new_StateMachine (new_OutputEngine (mk_GraphicsTerminal new_GraphicsState [])) false.
Definition keep_graphics (cb : unit) (sm : GM) : GM := sm.

(** Intense, curly underline, overline, a bright red foreground, a background
    from the 256 colours, and an underline in a colour of its own. *)
Definition sample_attr : TextAttribute :=
  SetIntense true (SetUnderlineStyle 3 (SetOverlined true
    (SetIndexedForeground BRIGHT_RED (SetIndexedBackground256 200
      (SetUnderlineColor (TextColor_rgb (RGB 1 2 3)) TextAttribute_default))))).

Example sample_report : sgr_parameters sample_attr = wstr "0;1;4:3;53;91;48:5:200;58:2::1:2:3".
Proof. reflexivity. Qed.

Lemma sgr_report_roundtrip_witness :
  Attributes (graphics_of (feed keep_graphics (ESC :: 0x5B :: sgr_parameters sample_attr ++ wstr "m") graphics_terminal))
  = sample_attr.
Proof.
  destruct (sgr_report_roundtrip ascii_u8u16 keep_graphics sample_attr graphics_terminal) as (_ & Ha & _).
  - split; [|split_and!; vm_compute; try congruence; split_and!; congruence].
    split; [vm_compute; split; congruence|]. split; [vm_compute; congruence|]. by repeat constructor.
  - by repeat split.
  - vm_compute. split; congruence.
  - by repeat split.
  - exact Ha.
Defined.

(** ** Requests for a setting *)

Definition request (s : list Z) : option SettingReport := RequestSetting s (0, VTIDBuilder_Clear).

Example request_sgr : request (wstr "m") = Some ReportSGR.
Proof. reflexivity. Qed.

Example request_unknown : request (wstr "?m") = Some ReportUnsupported.
Proof. reflexivity. Qed.

(** The digit 9 is not taken for a digit: item 19 is read as item 1. *)
Lemma request_drops_nine item : forall st, RequestSetting_step 0x39 st = (st, None) /\
  RequestSetting (wstr "19,|") (item, VTIDBuilder_Clear) = RequestSetting (wstr "1,|") (item, VTIDBuilder_Clear).
Proof. intros [p b]. split; reflexivity. Qed.
