(* ===== verification/TicketLock.v ===== *)
(** * The fair lock: [inc/til/ticket_lock.h]

    Threads call [lock] and [unlock] on one [ticket_lock].  An event is one
    atomic step of one thread: the increments, the load, the comparison with
    which [til::atomic_wait] goes to sleep, the notification.  Steps of
    different threads interleave in any order; a waiting thread may also wake
    up for no reason.  The model is sequentially consistent: the memory
    orders of the source, which order the accesses of the protected data, are
    not represented.

    A thread that is idle starts [lock] when it is scheduled, and one that
    holds the lock calls [unlock]. *)

From S2P Require Import Prelude.

(** Where a thread is within [lock] and [unlock]. *)
Inductive thread_pc :=
| Idle
| Spinning (ticket : Z)            (* before the load of [_now_serving] *)
| Checked (ticket current : Z)     (* before [atomic_wait] on [current] *)
| Sleeping (ticket current : Z)    (* inside [atomic_wait] *)
| Holding
| Notifying.                       (* between the two steps of [unlock] *)

Record ticket_lock := mk_ticket_lock {
  _next_ticket : Z;
  _now_serving : Z;
  threads : list thread_pc }.

#[global] Instance ticket_lock_eta : Eta ticket_lock := fun s => mk_ticket_lock (_next_ticket s) (_now_serving s) (threads s).

Inductive event := Step (t : nat) | SpuriousWake (t : nat).

(** What an observer of the lock sees. *)
Inductive observation := Requested (t : nat) | Acquired (t : nat) | Released (t : nat).

Definition set_pc (t : nat) (p : thread_pc) (s : ticket_lock) : ticket_lock := s <| threads := <[t := p]> (threads s) |>.

Definition woken (p : thread_pc) : thread_pc := match p with Sleeping ticket _ => Spinning ticket | _ => p end.

(** [lock]: take a ticket; load, compare, and go to sleep if the value is
    still the one that was loaded. *)
Definition lock_take (t : nat) (s : ticket_lock) : ticket_lock :=
  set_pc t (Spinning (_next_ticket s)) s <| _next_ticket := u32 (_next_ticket s + 1) |>.

Definition lock_load (t : nat) (ticket : Z) (s : ticket_lock) : ticket_lock :=
  let current := _now_serving s in
  set_pc t (if current =? ticket then Holding else Checked ticket current) s.

Definition lock_wait (t : nat) (ticket current : Z) (s : ticket_lock) : ticket_lock :=
  set_pc t (if _now_serving s =? current then Sleeping ticket current else Spinning ticket) s.

(** [unlock]: serve the next ticket, then wake everybody. *)
Definition unlock_serve (t : nat) (s : ticket_lock) : ticket_lock :=
  set_pc t Notifying s <| _now_serving := u32 (_now_serving s + 1) |>.

Definition unlock_notify (t : nat) (s : ticket_lock) : ticket_lock :=
  set_pc t Idle (s <| threads := map woken (threads s) |>).

Definition exec (e : event) (s : ticket_lock) : ticket_lock :=
  match e with
  | Step t =>
      match threads s !! t with
      | Some Idle => lock_take t s
      | Some (Spinning ticket) => lock_load t ticket s
      | Some (Checked ticket current) => lock_wait t ticket current s
      | Some Holding => unlock_serve t s
      | Some Notifying => unlock_notify t s
      | Some (Sleeping _ _) | None => s
      end
  | SpuriousWake t =>
      match threads s !! t with
      | Some (Sleeping ticket _) => set_pc t (Spinning ticket) s
      | _ => s
      end
  end.

Definition observe (e : event) (s : ticket_lock) : list observation :=
  match e with
  | Step t =>
      match threads s !! t with
      | Some Idle => [Requested t]
      | Some (Spinning ticket) => if _now_serving s =? ticket then [Acquired t] else []
      | Some Holding => [Released t]
      | _ => []
      end
  | SpuriousWake _ => []
  end.

Definition new_ticket_lock (n : nat) : ticket_lock := mk_ticket_lock 0 0 (replicate n Idle).

Fixpoint run_events (es : list event) (s : ticket_lock) : list observation * ticket_lock :=
  match es with
  | [] => ([], s)
  | e :: es' => let '(obs, s') := run_events es' (exec e s) in (observe e s ++ obs, s')
  end.

(** ** The queue behind the tickets

    [Q] are the threads with a ticket, in the order of their tickets, and [S]
    is the number of tickets served so far; the counters hold [S] and
    [S + length Q] modulo 2^32. *)

Definition pc_ok (S : Z) (i : nat) (p : thread_pc) : Prop :=
  match p with
  | Spinning ticket => ticket = u32 (S + Z.of_nat i)
  | Checked ticket current | Sleeping ticket current => ticket = u32 (S + Z.of_nat i) /\ current <> ticket
  | Holding => i = 0%nat
  | Idle | Notifying => False
  end.

Record lock_inv (s : ticket_lock) (Q : list nat) (S : Z) : Prop := {
  inv_serving : _now_serving s = u32 S;
  inv_next : _next_ticket s = u32 (S + Z.of_nat (length Q));
  inv_nodup : NoDup Q;
  inv_queued i t : Q !! i = Some t -> exists p, threads s !! t = Some p /\ pc_ok S i p;
  inv_active t p : threads s !! t = Some p -> p <> Idle -> p <> Notifying -> t ∈ Q;
  inv_pending t ticket current : threads s !! t = Some (Sleeping ticket current) -> current <> _now_serving s ->
    exists t', threads s !! t' = Some Notifying;
  inv_size : Z.of_nat (length (threads s)) <= 2 ^ 32;
}.

Lemma u32_add z n : u32 (u32 z + n) = u32 (z + n).
Proof. unfold u32. apply Z.add_mod_idemp_l. done. Qed.

Lemma queue_length s Q S : lock_inv s Q S -> (length Q <= length (threads s))%nat.
Proof.
  intros Hinv. transitivity (length (seq 0 (length (threads s)))); [|by rewrite length_seq].
  apply submseteq_length, NoDup_submseteq; [apply Hinv|].
  intros t Ht. apply list_elem_of_lookup_1 in Ht as [i Hi]. destruct (inv_queued _ _ _ Hinv i t Hi) as (p & Hp & _).
  apply lookup_lt_Some in Hp. apply elem_of_seq. lia.
Qed.

(** Only the first thread of the queue has the ticket that is served. *)
Lemma served_is_first s Q S i t ticket : lock_inv s Q S -> Q !! i = Some t ->
  ticket = u32 (S + Z.of_nat i) -> (_now_serving s = ticket <-> i = 0%nat).
Proof.
  intros Hinv Hi ->. rewrite (inv_serving _ _ _ Hinv). split; [|intros ->; by rewrite Z.add_0_r].
  pose proof (queue_length _ _ _ Hinv). pose proof (inv_size _ _ _ Hinv). apply lookup_lt_Some in Hi.
  unfold u32. intros Heq.
  assert (Hd : (S + Z.of_nat i - S) mod 2 ^ 32 = 0).
  { rewrite Zminus_mod, <- Heq, Z.sub_diag. done. }
  replace (S + Z.of_nat i - S) with (Z.of_nat i) in Hd by lia. rewrite Z.mod_small in Hd by lia. lia.
Qed.

(** ** Each step keeps it *)

Lemma lookup_set_pc t p s u q : threads (set_pc t p s) !! u = Some q ->
  (u = t /\ q = p) \/ (u <> t /\ threads s !! u = Some q).
Proof. cbn. intros Hu. apply list_lookup_insert_Some in Hu as [(<- & <- & _)|[Hne Hu]]; [by left|right; by split]. Qed.

Lemma lookup_set_pc_ne t p s u : u <> t -> threads (set_pc t p s) !! u = threads s !! u.
Proof. intros Hne. cbn. by apply list_lookup_insert_ne. Qed.

Lemma lookup_set_pc_eq t p s q : threads s !! t = Some q -> threads (set_pc t p s) !! t = Some p.
Proof. intros Ht. cbn. apply list_lookup_insert_eq. by eapply lookup_lt_Some. Qed.

(** A queued thread is queued once. *)
Lemma queue_position s Q S i j t : lock_inv s Q S -> Q !! i = Some t -> Q !! j = Some t -> i = j.
Proof. intros Hinv. apply list.NoDup_lookup, Hinv. Qed.

(** A thread of the queue moves on within [lock]. *)
Lemma inv_move s Q S i t p q : lock_inv s Q S -> Q !! i = Some t -> threads s !! t = Some q ->
  pc_ok S i p -> (forall ticket current, p = Sleeping ticket current -> current = _now_serving s) ->
  lock_inv (set_pc t p s) Q S.
Proof.
  intros Hinv Hi Hq Hp Hsleep. assert (Hact : q <> Notifying).
  { destruct (inv_queued _ _ _ Hinv i t Hi) as (p' & Hp' & Hok). rewrite Hq in Hp'. injection Hp' as <-. by destruct q. }
  split; try apply Hinv.
  - intros j u Hj. destruct (decide (u = t)) as [->|Hne].
    + rewrite (lookup_set_pc_eq t p s q Hq). exists p. split; [done|].
      by rewrite <- (queue_position _ _ _ _ _ _ Hinv Hi Hj).
    + rewrite lookup_set_pc_ne by done. by apply Hinv.
  - intros u p' Hu H1 H2. apply lookup_set_pc in Hu as [[-> ->]|[Hne Hu]]; [by eapply list_elem_of_lookup_2|].
    by apply (inv_active _ _ _ Hinv u p').
  - intros u ticket current Hu Hc. apply lookup_set_pc in Hu as [[-> Hs]|[Hne Hu]].
    { by rewrite (Hsleep ticket current) in Hc. }
    destruct (inv_pending _ _ _ Hinv u ticket current Hu Hc) as [t' Ht']. exists t'.
    rewrite lookup_set_pc_ne; [done|]. intros ->. rewrite Hq in Ht'. by injection Ht' as ->.
  - cbn. rewrite length_insert. apply Hinv.
Qed.

Lemma inv_take s Q S t : lock_inv s Q S -> threads s !! t = Some Idle -> lock_inv (lock_take t s) (Q ++ [t]) S.
Proof.
  intros Hinv Ht.
  assert (Hnew : t ∉ Q).
  { intros [i Hi]%list_elem_of_lookup_1. destruct (inv_queued _ _ _ Hinv i t Hi) as (p & Hp & Hok).
    rewrite Ht in Hp. by injection Hp as <-. }
  split.
  - apply Hinv.
  - cbn. rewrite (inv_next _ _ _ Hinv), u32_add, length_app. cbn. f_equal. lia.
  - apply list.NoDup_app. split; [apply Hinv|]. split; [|apply list.NoDup_singleton].
    intros u Hu ->%list_elem_of_singleton. done.
  - intros j u Hj. apply lookup_app_Some in Hj as [Hj|[Hle Hj]].
    + assert (u <> t) by (intros ->; apply Hnew; by eapply list_elem_of_lookup_2).
      change (threads (lock_take t s)) with (threads (set_pc t (Spinning (_next_ticket s)) s)).
      rewrite lookup_set_pc_ne by done. by apply Hinv.
    + apply list_lookup_singleton_Some in Hj as [Hj <-]. exists (Spinning (_next_ticket s)).
      split; [by apply (lookup_set_pc_eq t _ s Idle)|]. cbn. rewrite (inv_next _ _ _ Hinv). do 2 f_equal. lia.
  - intros u p Hu H1 H2. apply elem_of_app.
    apply (lookup_set_pc t (Spinning (_next_ticket s)) s) in Hu as [[-> ->]|[Hne Hu]]; [right; by apply list_elem_of_singleton|].
    left. by apply (inv_active _ _ _ Hinv u p).
  - intros u ticket current Hu Hc. apply (lookup_set_pc t (Spinning (_next_ticket s)) s) in Hu as [[-> [=]]|[Hne Hu]].
    destruct (inv_pending _ _ _ Hinv u ticket current Hu Hc) as [t' Ht']. exists t'.
    change (threads (set_pc t (Spinning (_next_ticket s)) s) !! t' = Some Notifying).
    rewrite lookup_set_pc_ne; [done|]. intros ->. by rewrite Ht in Ht'.
  - cbn. rewrite length_insert. apply Hinv.
Qed.

Lemma pc_ok_shift S i p : pc_ok S (Datatypes.S i) p -> pc_ok (S + 1) i p.
Proof.
  replace (S + 1 + Z.of_nat i) with (S + Z.of_nat (Datatypes.S i)) by lia.
  destruct p; cbn [pc_ok]; try done; replace (S + 1 + Z.of_nat i) with (S + Z.of_nat (Datatypes.S i)) by lia; done.
Qed.

Lemma inv_serve s Q S t : lock_inv s Q S -> threads s !! t = Some Holding ->
  exists Q', Q = t :: Q' /\ lock_inv (unlock_serve t s) Q' (S + 1).
Proof.
  intros Hinv Ht.
  assert (Hin : t ∈ Q) by by apply (inv_active _ _ _ Hinv t Holding).
  apply list_elem_of_lookup_1 in Hin as [i Hi].
  destruct (inv_queued _ _ _ Hinv i t Hi) as (p & Hp & Hok). rewrite Ht in Hp. injection Hp as <-. cbn in Hok. subst i.
  destruct Q as [|t' Q]; [done|]. injection Hi as ->. exists Q. split; [done|].
  pose proof (inv_nodup _ _ _ Hinv) as [Hnot Hnd]%list.NoDup_cons.
  split.
  - cbn. rewrite (inv_serving _ _ _ Hinv). apply u32_add.
  - cbn. rewrite (inv_next _ _ _ Hinv). cbn. f_equal. lia.
  - done.
  - intros j u Hj. change (threads (unlock_serve t s)) with (threads (set_pc t Notifying s)).
    assert (u <> t) by (intros ->; apply Hnot; by eapply list_elem_of_lookup_2).
    rewrite lookup_set_pc_ne by done. destruct (inv_queued _ _ _ Hinv (Datatypes.S j) u Hj) as (p & Hp & Hok).
    exists p. split; [done|]. by apply pc_ok_shift.
  - intros u p Hu H1 H2. apply (lookup_set_pc t Notifying s) in Hu as [[-> ->]|[Hne Hu]]; [done|].
    pose proof (inv_active _ _ _ Hinv u p Hu H1 H2) as Hin. by apply elem_of_cons in Hin as [->|].
  - intros u ticket current _ _. exists t. by apply (lookup_set_pc_eq t Notifying s Holding).
  - cbn. rewrite length_insert. apply Hinv.
Qed.

Lemma lookup_notified t s u p : threads (unlock_notify t s) !! u = Some p ->
  (u = t /\ p = Idle) \/ (u <> t /\ exists q, threads s !! u = Some q /\ p = woken q).
Proof.
  cbn. intros Hu. apply list_lookup_insert_Some in Hu as [(<- & <- & _)|[Hne Hu]]; [by left|right].
  rewrite list_lookup_fmap in Hu. split; [done|]. destruct (threads s !! u) as [q|]; [|done].
  exists q. by injection Hu as <-.
Qed.

Lemma inv_notify s Q S t : lock_inv s Q S -> threads s !! t = Some Notifying -> lock_inv (unlock_notify t s) Q S.
Proof.
  intros Hinv Ht. split; try apply Hinv.
  - intros i u Hi. destruct (inv_queued _ _ _ Hinv i u Hi) as (p & Hp & Hok).
    assert (u <> t) by (intros ->; rewrite Ht in Hp; by injection Hp as <-).
    exists (woken p). split; [|by destruct p; try apply Hok].
    cbn. rewrite list_lookup_insert_ne, list_lookup_fmap, Hp by done. done.
  - intros u p Hu H1 H2. apply lookup_notified in Hu as [[-> ->]|(Hne & q & Hq & ->)]; [done|].
    apply (inv_active _ _ _ Hinv u q Hq); intros ->; done.
  - intros u ticket current Hu _. apply lookup_notified in Hu as [[-> [=]]|(Hne & q & Hq & Hw)]. by destruct q.
  - cbn. rewrite length_insert, length_map. apply Hinv.
Qed.

(** ** What is observed *)

Definition requests (log : list observation) : list nat :=
  omap (fun o => match o with Requested t => Some t | _ => None end) log.
Definition acquisitions (log : list observation) : list nat :=
  omap (fun o => match o with Acquired t => Some t | _ => None end) log.
Definition releases (log : list observation) : list nat :=
  omap (fun o => match o with Released t => Some t | _ => None end) log.

(** The first of the queue, if it holds the lock. *)
Definition held (s : ticket_lock) (Q : list nat) : list nat :=
  match Q with
  | t :: _ => match threads s !! t with Some Holding => [t] | _ => [] end
  | [] => []
  end.

Lemma held_other s s' Q : (forall t, Q !! 0%nat = Some t -> threads s !! t = Some Holding <-> threads s' !! t = Some Holding) ->
  held s Q = held s' Q.
Proof.
  intros Hs. destruct Q as [|t Q]; [done|]. cbn. specialize (Hs t eq_refl).
  destruct (threads s !! t) as [[]|], (threads s' !! t) as [[]|]; try done; destruct Hs as [H1 H2];
    first [by specialize (H1 eq_refl) | by specialize (H2 eq_refl)].
Qed.

(** A thread that was not holding the lock and does not come to hold it. *)
Lemma held_set_pc t p q s Q : threads s !! t = Some q -> q <> Holding -> p <> Holding ->
  held (set_pc t p s) Q = held s Q.
Proof.
  intros Ht Hq Hp. symmetry. apply held_other. intros u _. destruct (decide (u = t)) as [->|Hne].
  - rewrite (lookup_set_pc_eq t p s q Ht), Ht. split; congruence.
  - by rewrite lookup_set_pc_ne.
Qed.

Definition step_ok (e : event) (s : ticket_lock) (Q : list nat) : Prop :=
  exists Q' S', lock_inv (exec e s) Q' S' /\
    Q ++ requests (observe e s) = releases (observe e s) ++ Q' /\
    held s Q ++ acquisitions (observe e s) = releases (observe e s) ++ held (exec e s) Q'.

Lemma step_silent e s Q S : observe e s = [] -> lock_inv (exec e s) Q S -> held (exec e s) Q = held s Q -> step_ok e s Q.
Proof.
  intros Ho Hinv Hh. exists Q, S. rewrite Ho, Hh. cbn. by rewrite !app_nil_r.
Qed.

Lemma queued_position s Q S t p : lock_inv s Q S -> threads s !! t = Some p -> p <> Idle -> p <> Notifying ->
  exists i, Q !! i = Some t /\ pc_ok S i p.
Proof.
  intros Hinv Ht H1 H2. pose proof (inv_active _ _ _ Hinv t p Ht H1 H2) as [i Hi]%list_elem_of_lookup_1.
  exists i. split; [done|]. destruct (inv_queued _ _ _ Hinv i t Hi) as (q & Hq & Hok). rewrite Ht in Hq. by injection Hq as <-.
Qed.

Lemma step_load s Q S t ticket : lock_inv s Q S -> threads s !! t = Some (Spinning ticket) -> step_ok (Step t) s Q.
Proof.
  intros Hinv Ht. destruct (queued_position _ _ _ _ _ Hinv Ht) as (i & Hi & Hok); [done..|].
  pose proof (served_is_first s Q S i t ticket Hinv Hi Hok) as Hfirst. cbn in Hok.
  assert (Hexec : exec (Step t) s = lock_load t ticket s) by (cbn; by rewrite ?Ht).
  unfold step_ok. rewrite Hexec. cbn [observe]. rewrite Ht. unfold lock_load.
  destruct (Z.eqb_spec (_now_serving s) ticket) as [He|He].
  - apply Hfirst in He. subst i. exists Q, S. split; [by apply (inv_move s Q S 0 t Holding (Spinning ticket))|].
    destruct Q as [|t' Q]; [done|]. injection Hi as ->. cbn. rewrite Ht, app_nil_r. split; [done|].
    by rewrite list_lookup_insert_eq by (by eapply lookup_lt_Some).
  - exists Q, S. split; [apply (inv_move s Q S i t _ (Spinning ticket)); done|]. cbn [requests releases acquisitions omap list_omap].
    rewrite (held_set_pc t _ (Spinning ticket)) by done. by rewrite !app_nil_r.
Qed.

Lemma exec_keeps e s Q S : lock_inv s Q S -> step_ok e s Q.
Proof.
  intros Hinv. destruct e as [t|t]; destruct (threads s !! t) as [p|] eqn:Ht;
    [|apply (step_silent _ _ _ S); cbn; by rewrite ?Ht| |apply (step_silent _ _ _ S); cbn; by rewrite ?Ht].
  - destruct p as [|ticket|ticket current|ticket current| |].
    + exists (Q ++ [t]), S. cbn. rewrite Ht. split; [by apply inv_take|]. split; [done|].
      rewrite app_nil_r. cbn. destruct Q as [|u Q]; cbn.
      * rewrite list_lookup_insert_eq by (by eapply lookup_lt_Some). done.
      * destruct (decide (u = t)) as [->|Hne]; [|by rewrite list_lookup_insert_ne].
        rewrite Ht, list_lookup_insert_eq by (by eapply lookup_lt_Some). done.
    + by apply (step_load s Q S t ticket).
    + destruct (queued_position _ _ _ _ _ Hinv Ht) as (i & Hi & Hok); [done..|].
      apply (step_silent _ _ _ S); cbn; rewrite Ht; [done| |].
      * apply (inv_move s Q S i t _ (Checked ticket current) Hinv Hi Ht); unfold lock_wait.
        -- destruct (Z.eqb_spec (_now_serving s) current); [exact Hok|apply Hok].
        -- intros k c. destruct (Z.eqb_spec (_now_serving s) current); [|done]. by intros [= _ <-].
      * apply (held_set_pc t _ (Checked ticket current)); [done..|]. by destruct (_now_serving s =? current).
    + apply (step_silent _ _ _ S); cbn; by rewrite ?Ht.
    + destruct (inv_serve _ _ _ _ Hinv Ht) as (Q' & -> & Hinv'). exists Q', (S + 1). cbn. rewrite Ht.
      split; [done|]. split; [by rewrite app_nil_r|]. rewrite app_nil_r. cbn.
      assert (Hempty : held (unlock_serve t s) Q' = []).
      { destruct Q' as [|u Q']; [done|]. cbn [held]. destruct (inv_queued _ _ _ Hinv 1 u eq_refl) as (p & Hp & Hok).
        assert (u <> t) by (intros ->; pose proof (inv_nodup _ _ _ Hinv) as [Hn _]%list.NoDup_cons; apply Hn; by left).
        change (threads (unlock_serve t s)) with (threads (set_pc t Notifying s)). rewrite lookup_set_pc_ne, Hp by done.
        destruct p; try done. }
      by rewrite Hempty.
    + apply (step_silent _ _ _ S); cbn; rewrite Ht; [done|by apply inv_notify|].
      symmetry. apply held_other. intros u _. destruct (decide (u = t)) as [->|Hne].
      * rewrite Ht. cbn. rewrite list_lookup_insert_eq by (rewrite length_map; by eapply lookup_lt_Some). split; congruence.
      * cbn. rewrite list_lookup_insert_ne, list_lookup_fmap by done. destruct (threads s !! u) as [[]|]; cbn; split; congruence.
  - destruct p as [|ticket|ticket current|ticket current| |]; try (apply (step_silent _ _ _ S); cbn; by rewrite ?Ht).
    destruct (queued_position _ _ _ _ _ Hinv Ht) as (i & Hi & Hok); [done..|].
    apply (step_silent _ _ _ S); cbn; rewrite ?Ht; [done| |by apply (held_set_pc t _ (Sleeping ticket current))].
    apply (inv_move s Q S i t _ (Sleeping ticket current) Hinv Hi Ht); [apply Hok|done].
Qed.

Lemma run_keeps es s Q S : lock_inv s Q S ->
  let '(log, s') := run_events es s in
  exists Q' S', lock_inv s' Q' S' /\ Q ++ requests log = releases log ++ Q' /\
    held s Q ++ acquisitions log = releases log ++ held s' Q'.
Proof.
  revert s Q S. induction es as [|e es IH]; intros s Q S Hinv; cbn.
  - exists Q, S. cbn. by rewrite !app_nil_r.
  - destruct (exec_keeps e s Q S Hinv) as (Q1 & S1 & Hinv1 & Hr1 & Ha1).
    specialize (IH (exec e s) Q1 S1 Hinv1). destruct (run_events es (exec e s)) as [log s'].
    destruct IH as (Q2 & S2 & Hinv2 & Hr2 & Ha2). exists Q2, S2. split; [done|].
    unfold requests, acquisitions, releases in *. rewrite !omap_app. split.
    + by rewrite app_assoc, Hr1, <- !app_assoc, Hr2.
    + by rewrite app_assoc, Ha1, <- !app_assoc, Ha2.
Qed.

Lemma new_inv n : Z.of_nat n <= 2 ^ 32 -> lock_inv (new_ticket_lock n) [] 0.
Proof.
  intros Hn. split; try done.
  - apply base.NoDup_nil_2.
  - intros t p Ht. apply lookup_replicate in Ht as [-> _]. done.
  - intros t k c Ht. by apply lookup_replicate in Ht as [? _].
  - cbn. by rewrite length_replicate.
Qed.

Lemma held_holding s Q S t : lock_inv s Q S -> threads s !! t = Some Holding <-> held s Q = [t].
Proof.
  intros Hinv. split.
  - intros Ht. destruct (queued_position _ _ _ _ _ Hinv Ht) as (i & Hi & Hok); [done..|]. cbn in Hok. subst i.
    destruct Q as [|u Q]; [done|]. injection Hi as ->. cbn. by rewrite Ht.
  - destruct Q as [|u Q]; [done|]. cbn. intros Hu. destruct (threads s !! u) as [[]|] eqn:Heq; try done. by injection Hu as ->.
Qed.

(** C20: the lock is exclusive and fair.  Under every interleaving of up to
    2^32 threads, with the 32-bit counters wrapping around, the lock is
    granted in the order in which it was requested, no thread overtakes
    another, and at every moment the threads that have been granted the lock
    are those that have released it, in that order, and at most one more: the
    only one that holds it. *)
Theorem ticket_lock_fair n es : Z.of_nat n <= 2 ^ 32 ->
  let '(log, s) := run_events es (new_ticket_lock n) in
  acquisitions log `prefix_of` requests log /\
  ((acquisitions log = releases log /\ forall t, threads s !! t <> Some Holding) \/
   (exists t, acquisitions log = releases log ++ [t] /\ forall u, threads s !! u = Some Holding <-> u = t)).
Proof.
  intros Hn. pose proof (run_keeps es _ _ _ (new_inv n Hn)) as Hrun. destruct (run_events es _) as [log s].
  destruct Hrun as (Q & S & Hinv & Hr & Ha). cbn in Hr, Ha. rewrite Hr, Ha.
  assert (Hcase : held s Q = [] \/ exists t Q', Q = t :: Q' /\ held s Q = [t]).
  { destruct Q as [|t Q]; [by left|]. cbn. destruct (threads s !! t) as [[]|]; try (by left). right. by exists t, Q. }
  destruct Hcase as [Hh|(t & Q' & -> & Hh)]; rewrite Hh.
  - split; [apply prefix_app, prefix_nil|]. left. split; [by rewrite app_nil_r|].
    intros t Ht. apply (held_holding s Q S t Hinv) in Ht. congruence.
  - split; [apply prefix_app, (prefix_app_r [t] [t] Q'); done|]. right. exists t. split; [done|].
    intros u. rewrite (held_holding s (t :: Q') S u Hinv), Hh. split; congruence.
Qed.

(** * Every thread that waits for the lock gets it

    Infinite schedules of the lock in [TicketLock.v].  A schedule is fair if
    every thread is scheduled again and again; a thread that holds the lock
    releases it when it is scheduled.  Progress is shown phase by phase: the
    first of the queue wakes up, loads its ticket, holds the lock and
    releases it, and the queue moves up. *)


Section Schedule.
Variable schedule : nat -> event.

Fixpoint state_at (s : ticket_lock) (n : nat) : ticket_lock :=
  match n with
  | O => s
  | S n' => exec (schedule n') (state_at s n')
  end.

Definition fair (threads_count : nat) : Prop :=
  forall t n, (t < threads_count)%nat -> exists m, (n <= m)%nat /\ schedule m = Step t.

Variable s0 : ticket_lock.
Variable count : nat.
Hypothesis Hfair : fair count.

Definition leads_to (P R : ticket_lock -> Prop) : Prop :=
  forall k, P (state_at s0 k) -> exists m, (k <= m)%nat /\ R (state_at s0 m).

Lemma leads_to_trans P Q R : leads_to P Q -> leads_to Q R -> leads_to P R.
Proof.
  intros H1 H2 k Hk. destruct (H1 k Hk) as (m & Hm & HQ). destruct (H2 m HQ) as (m' & Hm' & HR).
  exists m'. split; [lia|done].
Qed.

(** If [P] lasts until [R], and a step of thread [t] turns it into [R]. *)
Lemma ensures (P R : ticket_lock -> Prop) t : (t < count)%nat ->
  (forall e s, P s -> e <> Step t -> P (exec e s) \/ R (exec e s)) ->
  (forall s, P s -> R (exec (Step t) s)) -> leads_to P R.
Proof.
  intros Ht Hkeep Hstep k Hk. destruct (Hfair t k Ht) as (m & Hm & He).
  remember (m - k)%nat as d eqn:Hd. revert k Hk Hm Hd. induction d as [|d IH]; intros k Hk Hm Hd.
  - assert (m = k) as -> by lia. exists (S k). split; [lia|]. cbn. rewrite He. by apply Hstep.
  - destruct (schedule k) as [u|u] eqn:Hu; [destruct (decide (u = t)) as [->|Hne]|].
    + exists (S k). split; [lia|]. cbn. rewrite Hu. by apply Hstep.
    + destruct (Hkeep (Step u) (state_at s0 k) Hk) as [HP|HR]; [congruence| |].
      * destruct (IH (S k)) as (m' & Hm' & HR); [cbn; by rewrite Hu|lia|lia|]. exists m'. split; [lia|done].
      * exists (S k). split; [lia|]. cbn. by rewrite Hu.
    + destruct (Hkeep (SpuriousWake u) (state_at s0 k) Hk) as [HP|HR]; [done| |].
      * destruct (IH (S k)) as (m' & Hm' & HR); [cbn; by rewrite Hu|lia|lia|]. exists m'. split; [lia|done].
      * exists (S k). split; [lia|]. cbn. by rewrite Hu.
Qed.
End Schedule.

(** ** What the steps of the other threads leave alone *)

Lemma exec_other_pc e s h p : e <> Step h -> threads s !! h = Some p ->
  threads (exec e s) !! h = Some p \/ threads (exec e s) !! h = Some (woken p).
Proof.
  intros He Hp. destruct e as [u|u]; cbn [exec]; destruct (threads s !! u) as [q|] eqn:Hu; try (by left).
  - assert (u <> h) by congruence. unfold lock_take, lock_load, lock_wait, unlock_serve, unlock_notify.
    destruct q; cbn; rewrite ?list_lookup_insert_ne by done; try (by left).
    right. by rewrite list_lookup_fmap, Hp.
  - destruct q; cbn; try (by left). destruct (decide (u = h)) as [->|Hne].
    + rewrite Hp in Hu. injection Hu as ->. right. apply list_lookup_insert_eq. by eapply lookup_lt_Some.
    + left. by rewrite list_lookup_insert_ne.
Qed.

Lemma no_release e s Q S h : lock_inv s Q S -> Q !! 0%nat = Some h -> e <> Step h -> releases (observe e s) = [].
Proof.
  intros Hinv Hh He. destruct e as [u|u]; [|done]. cbn. destruct (threads s !! u) as [[]|] eqn:Hu; try done.
  - cbn. by destruct (_ =? _).
  - destruct (inv_serve _ _ _ _ Hinv Hu) as (Q' & -> & _). injection Hh as ->. done.
Qed.

Lemma exec_queue e s Q S h : lock_inv s Q S -> Q !! 0%nat = Some h -> e <> Step h ->
  exists Q' S', lock_inv (exec e s) Q' S' /\ forall i t, Q !! i = Some t -> Q' !! i = Some t.
Proof.
  intros Hinv Hh He. destruct (exec_keeps e s Q S Hinv) as (Q' & S' & Hinv' & Hr & _).
  rewrite (no_release e s Q S h) in Hr by done. cbn in Hr. subst Q'. exists (Q ++ requests (observe e s)), S'.
  split; [done|]. intros i t Hi. by apply lookup_app_l_Some.
Qed.

(** ** The phases of the first thread *)

(** [h] is first, at a place of [lock] given by [phase]; [t] is at position [i]. *)
Definition first_at (phase : thread_pc -> Prop) (h t i : nat) (s : ticket_lock) : Prop :=
  exists Q S p, lock_inv s Q S /\ Q !! 0%nat = Some h /\ Q !! i = Some t /\ threads s !! h = Some p /\ phase p.

Definition is_spinning (p : thread_pc) : Prop := exists k, p = Spinning k.
Definition is_checked (p : thread_pc) : Prop := exists k c, p = Checked k c.
Definition is_sleeping (p : thread_pc) : Prop := exists k c, p = Sleeping k c.
Definition is_holding (p : thread_pc) : Prop := p = Holding.

(** Steps of others keep the phase, or wake the first thread up. *)
Lemma first_other phase h t i e s : e <> Step h -> first_at phase h t i s ->
  first_at phase h t i (exec e s) \/ first_at (fun p => exists q, phase q /\ p = woken q) h t i (exec e s).
Proof.
  intros He (Q & S & p & Hinv & Hh & Ht & Hp & Hphase). destruct (exec_queue e s Q S h Hinv Hh He) as (Q' & S' & Hinv' & Hq).
  destruct (exec_other_pc e s h p He Hp) as [Hp'|Hp'].
  - left. exists Q', S', p. split_and!; auto.
  - right. exists Q', S', (woken p). split_and!; auto. by exists p.
Qed.

(** The ticket of the first thread is the one that is served. *)
Lemma first_served s Q S h p : lock_inv s Q S -> Q !! 0%nat = Some h -> threads s !! h = Some p ->
  match p with
  | Spinning k => _now_serving s = k
  | Checked k c | Sleeping k c => _now_serving s = k /\ c <> k
  | _ => True
  end.
Proof.
  intros Hinv Hh Hp. destruct (inv_queued _ _ _ Hinv 0 h Hh) as (q & Hq & Hok). rewrite Hp in Hq. injection Hq as <-.
  pose proof (inv_serving _ _ _ Hinv) as Hs. destruct p; cbn in Hok; rewrite ?Z.add_0_r in Hok; try done;
    [congruence|destruct Hok as [-> ?]; done..].
Qed.

(** A step of the first thread itself, when it does not release the lock. *)
Lemma first_self h t i s p p' Q S : lock_inv s Q S -> Q !! 0%nat = Some h -> Q !! i = Some t ->
  threads s !! h = Some p -> p <> Holding -> threads (exec (Step h) s) !! h = Some p' ->
  first_at (fun q => q = p') h t i (exec (Step h) s).
Proof.
  intros Hinv Hh Ht Hp Hne Hp'. destruct (exec_keeps (Step h) s Q S Hinv) as (Q' & S' & Hinv' & Hr & _).
  assert (Hno : releases (observe (Step h) s) = []).
  { cbn. rewrite Hp. destruct p; try done. cbn. by destruct (_ =? _). }
  rewrite Hno in Hr. cbn in Hr. subst Q'. exists (Q ++ requests (observe (Step h) s)), S', p'.
  split_and!; try done; by apply lookup_app_l_Some.
Qed.

Lemma length_exec e s : length (threads (exec e s)) = length (threads s).
Proof.
  destruct e as [u|u]; cbn [exec]; destruct (threads s !! u) as [[]|]; try done;
    unfold lock_take, lock_load, lock_wait, unlock_serve, unlock_notify; cbn; by rewrite ?length_insert, ?length_map.
Qed.

Section Progress.
Variable schedule : nat -> event.
Variable s0 : ticket_lock.
Abbreviation count := (length (threads s0)).
Hypothesis Hfair : fair schedule count.
Abbreviation leads := (leads_to schedule s0).

Lemma length_state k : length (threads (state_at schedule s0 k)) = count.
Proof. induction k as [|k IH]; [done|]. cbn [state_at]. by rewrite length_exec. Qed.

Lemma running_thread k h p : threads (state_at schedule s0 k) !! h = Some p -> (h < count)%nat.
Proof. intros Hp. apply lookup_lt_Some in Hp. by rewrite length_state in Hp. Qed.

(** A phase that ends with a step of the first thread. *)
Lemma phase_leads (phase next : thread_pc -> Prop) h t i :
  (forall p, phase p -> woken p = p) -> (forall p, phase p -> p <> Holding) ->
  (forall s Q S p, lock_inv s Q S -> Q !! 0%nat = Some h -> threads s !! h = Some p -> phase p ->
     exists p', threads (exec (Step h) s) !! h = Some p' /\ next p') ->
  leads (first_at phase h t i) (first_at next h t i).
Proof.
  intros Hwoken Hnot Hstep k Hk. pose proof Hk as (Q & S & p & _ & _ & _ & Hp & _).
  apply (ensures schedule s0 count Hfair (first_at phase h t i) _ h (running_thread k h p Hp)); [| |exact Hk].
  - intros e s Hs He. left. destruct (first_other phase h t i e s He Hs) as [Hf|Hf]; [done|].
    destruct Hf as (Q' & S' & p' & ? & ? & ? & ? & q & Hq & ->). exists Q', S', (woken q).
    split_and!; try done. by rewrite Hwoken.
  - intros s (Q' & S' & p' & Hinv & Hh & Ht & Hp' & Hph). destruct (Hstep s Q' S' p' Hinv Hh Hp' Hph) as (p2 & Hp2 & Hn).
    destruct (first_self h t i s p' p2 Q' S' Hinv Hh Ht Hp' (Hnot _ Hph) Hp2) as (Q2 & S2 & p3 & ? & ? & ? & ? & ->).
    exists Q2, S2, p2. by split_and!.
Qed.

Lemma spinning_leads h t i : leads (first_at is_spinning h t i) (first_at is_holding h t i).
Proof.
  apply phase_leads; [by intros p [k ->]|by intros p [k ->]|].
  intros s Q S p Hinv Hh Hp [k ->]. pose proof (first_served s Q S h _ Hinv Hh Hp) as Hk. cbn in Hk.
  exists Holding. split; [|done]. cbn. rewrite Hp. unfold lock_load. rewrite Hk, Z.eqb_refl. by apply (lookup_set_pc_eq h _ s (Spinning k)).
Qed.

Lemma checked_leads h t i : leads (first_at is_checked h t i) (first_at is_spinning h t i).
Proof.
  apply phase_leads; [by intros p (k & c & ->)|by intros p (k & c & ->)|].
  intros s Q S p Hinv Hh Hp (k & c & ->). pose proof (first_served s Q S h _ Hinv Hh Hp) as [Hk Hc].
  exists (Spinning k). split; [|by exists k]. cbn. rewrite Hp. unfold lock_wait.
  rewrite (proj2 (Z.eqb_neq _ _)) by congruence. by apply (lookup_set_pc_eq h _ s (Checked k c)).
Qed.

(** A sleeping first thread was left behind by a release whose notification is
    still to come. *)
Lemma sleeping_leads h t i : leads (first_at is_sleeping h t i) (first_at is_spinning h t i).
Proof.
  intros k (Q & S & p & Hinv & Hh & Ht & Hp & c1 & c2 & ->).
  pose proof (first_served _ Q S h _ Hinv Hh Hp) as [Hk Hc].
  destruct (inv_pending _ _ _ Hinv h c1 c2 Hp) as [u Hu]; [congruence|].
  apply (ensures schedule s0 count Hfair
    (fun s => first_at is_sleeping h t i s /\ threads s !! u = Some Notifying) _ u (running_thread k u _ Hu)).
  - clear. intros e s [Hs Hu] He. assert (Hself : e = Step h -> exec e s = s).
    { intros ->. destruct Hs as (Q & S & p & _ & _ & _ & Hp & c1 & c2 & ->). cbn. by rewrite Hp. }
    assert (Hu' : threads (exec e s) !! u = Some Notifying)
      by (by destruct (exec_other_pc e s u Notifying He Hu)).
    destruct e as [w|w]; [destruct (decide (w = h)) as [->|Hne]|].
    + left. rewrite Hself by done. done.
    + destruct (first_other is_sleeping h t i (Step w) s) as [Hf|Hf]; [congruence|done|by left|right].
      destruct Hf as (Q & S & p & ? & ? & ? & ? & q & (c1 & c2 & ->) & ->). exists Q, S, (Spinning c1).
      split_and!; try done. by exists c1.
    + destruct (first_other is_sleeping h t i (SpuriousWake w) s) as [Hf|Hf]; [done|done|by left|right].
      destruct Hf as (Q & S & p & ? & ? & ? & ? & q & (c1 & c2 & ->) & ->). exists Q, S, (Spinning c1).
      split_and!; try done. by exists c1.
  - clear. intros s [(Q & S & p & Hinv & Hh & Ht & Hp & c1 & c2 & ->) Hu].
    assert (u <> h) by congruence. destruct (exec_queue (Step u) s Q S h Hinv Hh) as (Q' & S' & Hinv' & Hq); [congruence|].
    exists Q', S', (Spinning c1). split_and!; auto; [|by exists c1].
    cbn. rewrite Hu. cbn. rewrite list_lookup_insert_ne, list_lookup_fmap, Hp by done. done.
  - split; [|done]. exists Q, S, (Sleeping c1 c2). split_and!; try done. by exists c1, c2.
Qed.

(** The first thread comes to hold the lock. *)
Lemma first_gets_lock h t i : leads (first_at (fun _ => True) h t i) (first_at is_holding h t i).
Proof.
  intros k (Q & S & p & Hinv & Hh & Ht & Hp & _).
  assert (Hat : forall phase : thread_pc -> Prop, phase p -> first_at phase h t i (state_at schedule s0 k))
    by (intros phase Hph; exists Q, S, p; by split_and!).
  destruct (inv_queued _ _ _ Hinv 0 h Hh) as (q & Hq & Hok). rewrite Hp in Hq. injection Hq as <-.
  destruct p as [|k1|k1 c1|k1 c1| |]; try done.
  - apply spinning_leads, Hat. by exists k1.
  - apply (leads_to_trans _ _ _ _ _ (checked_leads h t i) (spinning_leads h t i)), Hat. by exists k1, c1.
  - apply (leads_to_trans _ _ _ _ _ (sleeping_leads h t i) (spinning_leads h t i)), Hat. by exists k1, c1.
  - exists k. split; [lia|]. by apply Hat.
Qed.

(** And its release moves the queue up. *)
Lemma queue_moves h t i : leads (first_at is_holding h t (S i))
  (fun s => exists h', first_at (fun _ => True) h' t i s).
Proof.
  intros k Hk. pose proof Hk as (Q & S & p & _ & _ & _ & Hp & _).
  apply (ensures schedule s0 count Hfair (first_at is_holding h t (Datatypes.S i))
    (fun s => exists h', first_at (fun _ => True) h' t i s) h (running_thread k h p Hp)); [| |exact Hk].
  - intros e s Hs He. left. destruct (first_other is_holding h t _ e s He Hs) as [Hf|Hf]; [done|].
    destruct Hf as (Q' & S' & p' & ? & ? & ? & ? & q & -> & ->). exists Q', S', Holding. by split_and!.
  - clear. intros s (Q & S & p & Hinv & Hh & Ht & Hp & ->).
    destruct (inv_serve _ _ _ _ Hinv Hp) as (Q' & -> & Hinv').
    assert (Hex : exec (Step h) s = unlock_serve h s) by (cbn; by rewrite Hp). rewrite Hex. cbn in Ht.
    destruct Q' as [|h' Q']; [done|]. destruct (inv_queued _ _ _ Hinv' 0 h' eq_refl) as (p' & Hp' & _).
    exists h', (h' :: Q'), (S + 1), p'. by split_and!.
Qed.

Lemma queued_gets_lock i : forall h t, leads (first_at (fun _ => True) h t i)
  (fun s => threads s !! t = Some Holding).
Proof.
  induction i as [|i IH]; intros h t k Hk.
  - destruct (first_gets_lock h t 0 k Hk) as (m & Hm & Q & S & p & _ & Hh & Ht & Hp & ->).
    exists m. split; [done|]. congruence.
  - destruct (leads_to_trans _ _ _ _ _ (first_gets_lock h t (S i)) (queue_moves h t i) k Hk) as (m & Hm & h' & Hf).
    destruct (IH h' t m Hf) as (m' & Hm' & Hh). exists m'. split; [lia|done].
Qed.

Lemma state_inv k Q S : lock_inv s0 Q S -> exists Q' S', lock_inv (state_at schedule s0 k) Q' S'.
Proof.
  intros Hinv. induction k as [|k IH]; [by exists Q, S|]. destruct IH as (Q1 & S1 & H1). cbn [state_at].
  destruct (exec_keeps (schedule k) _ Q1 S1 H1) as (Q2 & S2 & H2 & _). by exists Q2, S2.
Qed.
End Progress.

(** A thread between its request and its acquisition. *)
Definition waiting (p : thread_pc) : Prop :=
  match p with Spinning _ | Checked _ _ | Sleeping _ _ => True | _ => False end.

(** C21: no thread starves.  Under every schedule that runs each thread again
    and again, a thread that has taken a ticket comes to hold the lock,
    whether it spins or sleeps, with wake-ups for no reason at any time, and
    however the steps of the others interleave with it; no notification is
    lost. *)
Theorem ticket_lock_live n schedule k t p : Z.of_nat n <= 2 ^ 32 -> fair schedule n ->
  threads (state_at schedule (new_ticket_lock n) k) !! t = Some p -> waiting p ->
  exists m, (k <= m)%nat /\ threads (state_at schedule (new_ticket_lock n) m) !! t = Some Holding.
Proof.
  intros Hn Hfair Ht Hp.
  destruct (state_inv schedule (new_ticket_lock n) k [] 0 (new_inv n Hn)) as (Q & S & Hinv).
  destruct (queued_position _ _ _ _ _ Hinv Ht) as (i & Hi & _); [by intros ->..|].
  destruct Q as [|h Q]; [done|]. destruct (inv_queued _ _ _ Hinv 0 h eq_refl) as (q & Hq & _).
  assert (Hfair' : fair schedule (length (threads (new_ticket_lock n)))) by (cbn; by rewrite length_replicate).
  apply (queued_gets_lock schedule (new_ticket_lock n) Hfair' i h t k). exists (h :: Q), S, q. by split_and!.
Qed.

(** ** Two threads in turn *)

Definition in_turn (n : nat) : event := Step (n mod 2).

Lemma in_turn_fair : fair in_turn 2.
Proof.
  intros t n Ht. exists (2 * n + t)%nat. split; [lia|]. unfold in_turn.
  rewrite (Nat.mul_comm 2 n), Nat.add_comm, Nat.Div0.mod_add, Nat.mod_small by lia. done.
Qed.

Lemma ticket_lock_live_witness :
  exists m, (4 <= m)%nat /\ threads (state_at in_turn (new_ticket_lock 2) m) !! 1%nat = Some Holding.
Proof.
  apply (ticket_lock_live 2 in_turn 4 1 (Checked 1 0)); [lia|apply in_turn_fair|vm_compute; reflexivity|exact I].
Defined.

Lemma ticket_lock_fair_witness :
  let '(log, s) := run_events (map in_turn (seq 0 12)) (new_ticket_lock 2) in
  acquisitions log `prefix_of` requests log.
Proof.
  pose proof (ticket_lock_fair 2 (map in_turn (seq 0 12)) ltac:(lia)) as Hf.
  destruct (run_events (map in_turn (seq 0 12)) (new_ticket_lock 2)) as [log s]. exact (proj1 Hf).
Defined.

Example in_turn_log : fst (run_events (map in_turn (seq 0 11)) (new_ticket_lock 2))
  = [Requested 0%nat; Requested 1%nat; Acquired 0%nat; Released 0%nat; Acquired 1%nat; Requested 0%nat; Released 1%nat; Acquired 0%nat].
Proof. reflexivity. Qed.
