(* ===== verification/InputRecords.v ===== *)
(** * Input records

    Models [src/src/types/inc/IInputEvent.hpp]: the records in which the
    console keeps key presses and mouse events, and their constructors, with
    the constants of the Windows headers that the input code uses. *)

From S2P Require Import Prelude.
#[local] Open Scope Z_scope.

(** ** Control key state *)

Definition RIGHT_ALT_PRESSED : Z := 0x0001.
Definition LEFT_ALT_PRESSED : Z := 0x0002.
Definition RIGHT_CTRL_PRESSED : Z := 0x0004.
Definition LEFT_CTRL_PRESSED : Z := 0x0008.
Definition SHIFT_PRESSED : Z := 0x0010.
Definition NUMLOCK_ON : Z := 0x0020.
Definition CAPSLOCK_ON : Z := 0x0080.
Definition ENHANCED_KEY : Z := 0x0100.
Definition ALT_PRESSED : Z := Z.lor RIGHT_ALT_PRESSED LEFT_ALT_PRESSED.
Definition CTRL_PRESSED : Z := Z.lor RIGHT_CTRL_PRESSED LEFT_CTRL_PRESSED.

(** The flag macros: [WI_IsAnyFlagSet] (which is [WI_IsFlagSet] for a single
    flag), [WI_AreAllFlagsSet], [WI_SetFlagIf] and [WI_ClearFlagIf]. *)
Definition IsAnyFlagSet (value flags : Z) : bool := negb (Z.land value flags =? 0).
Definition AreAllFlagsSet (value flags : Z) : bool := Z.land value flags =? flags.
Definition SetFlagIf (value flag : Z) (b : bool) : Z := if b then Z.lor value flag else value.
Definition ClearFlagIf (value flag : Z) (b : bool) : Z := if b then Z.ldiff value flag else value.
Definition UpdateFlag (value flag : Z) (b : bool) : Z :=
  if b then Z.lor value flag else Z.ldiff value flag.

(** ** Records *)

Record KEY_EVENT_RECORD := mk_KeyEvent {
  bKeyDown : bool;
  wRepeatCount : Z;
  wVirtualKeyCode : Z;
  wVirtualScanCode : Z;
  UnicodeChar : Z;
  dwControlKeyState : Z;
}.

#[export] Instance eta_KeyEvent : Eta KEY_EVENT_RECORD := fun k =>
  mk_KeyEvent (bKeyDown k) (wRepeatCount k) (wVirtualKeyCode k) (wVirtualScanCode k)
    (UnicodeChar k) (dwControlKeyState k).

Record MOUSE_EVENT_RECORD := mk_MouseEvent {
  dwMousePosition : Z * Z;
  dwButtonState : Z;
  mouse_ControlKeyState : Z;
  dwEventFlags : Z;
}.

Inductive INPUT_RECORD :=
| KeyEvent (key : KEY_EVENT_RECORD)
| MouseEvent (mouse : MOUSE_EVENT_RECORD)
| WindowBufferSizeEvent (width height : Z)
| MenuEvent (dwCommandId : Z)
| FocusEvent (bSetFocus : bool).

(** [base::saturated_cast<SHORT>] *)
Definition saturate_short (v : Z) : Z := Z.min 32767 (Z.max (-32768) v).
(** [base::saturated_cast] to an unsigned type of [w] bits. *)
Definition saturate_unsigned (w v : Z) : Z := Z.min (2 ^ w - 1) (Z.max 0 v).

(** The fields have the widths of the parameters. *)
Definition SynthesizeKeyEvent (keyDown : bool) (repeatCount virtualKeyCode virtualScanCode unicodeChar
    controlKeyState : Z) : INPUT_RECORD :=
  KeyEvent (mk_KeyEvent keyDown (u16 repeatCount) (u16 virtualKeyCode) (u16 virtualScanCode)
    (u16 unicodeChar) (u32 controlKeyState)).

Definition SynthesizeMouseEvent (mousePosition : Z * Z) (buttonState controlKeyState eventFlags : Z)
    : INPUT_RECORD :=
  MouseEvent (mk_MouseEvent (saturate_short (fst mousePosition), saturate_short (snd mousePosition))
    (u32 buttonState) (u32 controlKeyState) (u32 eventFlags)).

Definition SynthesizeWindowBufferSizeEvent (width height : Z) : INPUT_RECORD :=
  WindowBufferSizeEvent (saturate_short width) (saturate_short height).

Definition SynthesizeMenuEvent (commandId : Z) : INPUT_RECORD := MenuEvent (u32 commandId).

Definition SynthesizeFocusEvent (setFocus : bool) : INPUT_RECORD := FocusEvent setFocus.

(** ** Virtual keys *)

Definition VK_BACK : Z := 0x08.
Definition VK_TAB : Z := 0x09.
Definition VK_CLEAR : Z := 0x0C.
Definition VK_RETURN : Z := 0x0D.
Definition VK_SHIFT : Z := 0x10.
Definition VK_CONTROL : Z := 0x11.
Definition VK_MENU : Z := 0x12.
Definition VK_PAUSE : Z := 0x13.
Definition VK_CAPITAL : Z := 0x14.
Definition VK_ESCAPE : Z := 0x1B.
Definition VK_SPACE : Z := 0x20.
Definition VK_PRIOR : Z := 0x21.
Definition VK_NEXT : Z := 0x22.
Definition VK_END : Z := 0x23.
Definition VK_HOME : Z := 0x24.
Definition VK_LEFT : Z := 0x25.
Definition VK_UP : Z := 0x26.
Definition VK_RIGHT : Z := 0x27.
Definition VK_DOWN : Z := 0x28.
Definition VK_INSERT : Z := 0x2D.
Definition VK_DELETE : Z := 0x2E.
Definition VK_NUMPAD0 : Z := 0x60.
Definition VK_NUMPAD9 : Z := 0x69.
Definition VK_MULTIPLY : Z := 0x6A.
Definition VK_ADD : Z := 0x6B.
Definition VK_SEPARATOR : Z := 0x6C.
Definition VK_SUBTRACT : Z := 0x6D.
Definition VK_DECIMAL : Z := 0x6E.
Definition VK_DIVIDE : Z := 0x6F.
Definition VK_F1 : Z := 0x70.
Definition VK_F2 : Z := 0x71.
Definition VK_F3 : Z := 0x72.
Definition VK_F4 : Z := 0x73.
Definition VK_F5 : Z := 0x74.
Definition VK_F6 : Z := 0x75.
Definition VK_F7 : Z := 0x76.
Definition VK_F8 : Z := 0x77.
Definition VK_F9 : Z := 0x78.
Definition VK_F10 : Z := 0x79.
Definition VK_F11 : Z := 0x7A.
Definition VK_F12 : Z := 0x7B.
Definition VK_F13 : Z := 0x7C.
Definition VK_LSHIFT : Z := 0xA0.
Definition VK_LCONTROL : Z := 0xA2.
Definition VK_RCONTROL : Z := 0xA3.
Definition VK_LMENU : Z := 0xA4.
Definition VK_RMENU : Z := 0xA5.
Definition VK_PACKET : Z := 0xE7.

(** ** Mouse messages, buttons and flags *)

Definition WM_MOUSEMOVE : Z := 0x0200.
Definition WM_LBUTTONDOWN : Z := 0x0201.
Definition WM_LBUTTONUP : Z := 0x0202.
Definition WM_LBUTTONDBLCLK : Z := 0x0203.
Definition WM_RBUTTONDOWN : Z := 0x0204.
Definition WM_RBUTTONUP : Z := 0x0205.
Definition WM_RBUTTONDBLCLK : Z := 0x0206.
Definition WM_MBUTTONDOWN : Z := 0x0207.
Definition WM_MBUTTONUP : Z := 0x0208.
Definition WM_MBUTTONDBLCLK : Z := 0x0209.
Definition WM_MOUSEWHEEL : Z := 0x020A.
Definition WM_XBUTTONUP : Z := 0x020C.
Definition WM_MOUSEHWHEEL : Z := 0x020E.
Definition WHEEL_DELTA : Z := 120.
Definition SHORT_MAX : Z := 32767.

Definition FROM_LEFT_1ST_BUTTON_PRESSED : Z := 0x0001.
Definition RIGHTMOST_BUTTON_PRESSED : Z := 0x0002.
Definition FROM_LEFT_2ND_BUTTON_PRESSED : Z := 0x0004.
Definition MOUSE_MOVED : Z := 0x0001.
Definition DOUBLE_CLICK : Z := 0x0002.
Definition MOUSE_WHEELED : Z := 0x0004.
