(* ===== verification/InputEngine.v ===== *)
(** * The input engine

    Models [src/src/terminal/parser/InputStateMachineEngine.{hpp,cpp}]: the
    engine behind the parser of a console that is hosted by a terminal.  It
    turns the characters and sequences a terminal sends for keys and mouse
    events back into input records, and writes them through the interface
    [src/src/terminal/adapter/IInteractDispatch.hpp].  Whatever it refuses the
    parser passes through as text. *)

From S2P Require Import Prelude VTTypes StateMachine OutputEngine InputRecords.
#[local] Open Scope Z_scope.

(** ** [IInteractDispatch]

    The methods that change the console, as data.  The state of the console
    is [D]; the flag of the result is [false] when the method threw. *)

Inductive InteractCall :=
| WriteInput (inputEvents : list INPUT_RECORD)
| WriteCtrlKey (event : INPUT_RECORD)
| WriteString (string : list Z)
| WriteStringRaw (string : list Z)
| WindowManipulation (function parameter1 parameter2 : Z)
| MoveCursor (row col : Z)
| FocusChanged (focused : bool).

Class IInteractDispatch (D : Type) := {
  IsVtInputEnabled : D -> bool;
  interact : InteractCall -> D -> D * bool;
}.

(** The keyboard layout: [OneCoreSafeMapVirtualKeyW] and
    [OneCoreSafeVkKeyScanW], which returns a [SHORT]. *)
Class KeyboardLayout := {
  MapVirtualKeyW : Z -> Z -> Z;
  VkKeyScanW : Z -> Z;
}.

(** ** Codes *)

Definition KEYSCAN_SHIFT : Z := 1.
Definition KEYSCAN_CTRL : Z := 2.
Definition KEYSCAN_ALT : Z := 4.

Definition VT_SHIFT : Z := 1.
Definition VT_ALT : Z := 2.
Definition VT_CTRL : Z := 4.

Definition SCROLL_DELTA_BACKWARD : Z := 0xFF800000.
Definition SCROLL_DELTA_FORWARD : Z := 0x00800000.

Definition UNICODE_ETX : Z := 0x3.

Definition MAPVK_VK_TO_VSC : Z := 0.
Definition MAPVK_VK_TO_CHAR : Z := 2.

Module CsiInputCodes.
Definition ArrowUp : Z := VTID_FromString (wstr "A").
Definition ArrowDown : Z := VTID_FromString (wstr "B").
Definition ArrowRight : Z := VTID_FromString (wstr "C").
Definition ArrowLeft : Z := VTID_FromString (wstr "D").
Definition Home : Z := VTID_FromString (wstr "H").
Definition End_ : Z := VTID_FromString (wstr "F").
Definition FocusIn : Z := VTID_FromString (wstr "I").
Definition FocusOut : Z := VTID_FromString (wstr "O").
Definition MouseDown : Z := VTID_FromString (wstr "<M").
Definition MouseUp : Z := VTID_FromString (wstr "<m").
Definition Generic : Z := VTID_FromString (wstr "~").
Definition CSI_F1 : Z := VTID_FromString (wstr "P").
Definition CSI_F2 : Z := VTID_FromString (wstr "Q").
Definition CSI_F3 : Z := VTID_FromString (wstr "R").
Definition CSI_F4 : Z := VTID_FromString (wstr "S").
Definition DA_DeviceAttributes : Z := VTID_FromString (wstr "?c").
Definition CursorBackTab : Z := VTID_FromString (wstr "Z").
Definition Win32KeyboardInput : Z := VTID_FromString (wstr "_").
End CsiInputCodes.
Import CsiInputCodes.

Module CsiMouseButtonCodes.
Definition Left : Z := 0.
Definition Middle : Z := 1.
Definition Right : Z := 2.
Definition Released : Z := 3.
Definition ScrollForward : Z := 4.
Definition ScrollBack : Z := 5.
End CsiMouseButtonCodes.

Module CsiMouseModifierCodes.
Definition Shift : Z := 4.
Definition Meta : Z := 8.
Definition Ctrl : Z := 16.
Definition Drag : Z := 32.
End CsiMouseModifierCodes.

(** [GenericKeyIdentifiers::Next], the last of the keys of the editing keypad. *)
Definition GenericNext : Z := 6.

Definition s_csiMap : list (Z * Z) :=
  [(ArrowUp, VK_UP); (ArrowDown, VK_DOWN); (ArrowRight, VK_RIGHT); (ArrowLeft, VK_LEFT);
   (Home, VK_HOME); (End_, VK_END); (CSI_F1, VK_F1); (CSI_F2, VK_F2); (CSI_F3, VK_F3); (CSI_F4, VK_F4)].

Definition s_genericMap : list (Z * Z) :=
  [(1, VK_HOME); (2, VK_INSERT); (3, VK_DELETE); (4, VK_END); (5, VK_PRIOR); (6, VK_NEXT);
   (15, VK_F5); (17, VK_F6); (18, VK_F7); (19, VK_F8); (20, VK_F9); (21, VK_F10); (23, VK_F11);
   (24, VK_F12)].

Definition s_ss3Map : list (Z * Z) :=
  [(wchar "A", VK_UP); (wchar "B", VK_DOWN); (wchar "C", VK_RIGHT); (wchar "D", VK_LEFT);
   (wchar "F", VK_END); (wchar "H", VK_HOME); (wchar "P", VK_F1); (wchar "Q", VK_F2);
   (wchar "R", VK_F3); (wchar "S", VK_F4)].

(** [std::find] on one of the tables. *)
Definition table_find (table : list (Z * Z)) (code : Z) : option Z :=
  snd <$> List.find (fun entry => fst entry =? code) table.

Definition _GetGenericVkey (identifier : Z) : option Z := table_find s_genericMap identifier.
Definition _GetCursorKeysVkey (id : Z) : option Z := table_find s_csiMap id.
Definition _GetSs3KeysVkey (wch : Z) : option Z := table_find s_ss3Map wch.

(** ** Modifiers *)

Definition _GetModifier (modifierParam : Z) : Z :=
  let vtParam := u64 (modifierParam - 1) in
  let modifierState := SetFlagIf 0 SHIFT_PRESSED (IsAnyFlagSet vtParam VT_SHIFT) in
  let modifierState := SetFlagIf modifierState LEFT_ALT_PRESSED (IsAnyFlagSet vtParam VT_ALT) in
  SetFlagIf modifierState LEFT_CTRL_PRESSED (IsAnyFlagSet vtParam VT_CTRL).

Definition _GetCursorKeysModifierState (parameters : VTParameters) (id : Z) : Z :=
  let modifiers := _GetModifier (as_VTInt (param_at parameters 1)) in
  SetFlagIf modifiers ENHANCED_KEY ((id <? CSI_F1) || (id >? CSI_F4)).

Definition _GetGenericKeysModifierState (parameters : VTParameters) : Z :=
  let modifiers := _GetModifier (as_VTInt (param_at parameters 1)) in
  SetFlagIf modifiers ENHANCED_KEY (as_enum (param_at parameters 0) <=? GenericNext).

Definition _GetSGRMouseModifierState (modifierParam : Z) : Z :=
  let modifiers := SetFlagIf 0 SHIFT_PRESSED (IsAnyFlagSet modifierParam CsiMouseModifierCodes.Shift) in
  let modifiers := SetFlagIf modifiers LEFT_ALT_PRESSED (IsAnyFlagSet modifierParam CsiMouseModifierCodes.Meta) in
  SetFlagIf modifiers LEFT_CTRL_PRESSED (IsAnyFlagSet modifierParam CsiMouseModifierCodes.Ctrl).

(** ** Key presses *)

Section Keys.
Context `{Layout : !KeyboardLayout}.

Definition scan_code (vkey : Z) : Z := u16 (MapVirtualKeyW vkey MAPVK_VK_TO_VSC).

Definition _GetSingleKeypress (wch vkey modifierState : Z) : list INPUT_RECORD :=
  let sc := scan_code vkey in
  [SynthesizeKeyEvent true 1 vkey sc wch modifierState;
   SynthesizeKeyEvent false 1 vkey sc wch modifierState].

(** A press or release of a modifier key with the modifiers that are down
    after it. *)
Definition modifier_event (keyDown : bool) (vkey currentModifiers : Z) : INPUT_RECORD :=
  SynthesizeKeyEvent keyDown 1 vkey (scan_code vkey) 0 currentModifiers.

Definition _GenerateWrappedSequence (wch vkey modifierState : Z) : list INPUT_RECORD :=
  let shift := IsAnyFlagSet modifierState SHIFT_PRESSED in
  let ctrl := IsAnyFlagSet modifierState LEFT_CTRL_PRESSED in
  let alt := IsAnyFlagSet modifierState LEFT_ALT_PRESSED in
  let m0 := 0 in
  let m1 := SetFlagIf m0 SHIFT_PRESSED shift in
  let m2 := SetFlagIf m1 LEFT_ALT_PRESSED alt in
  let m3 := SetFlagIf m2 LEFT_CTRL_PRESSED ctrl in
  let m4 := ClearFlagIf m3 LEFT_CTRL_PRESSED ctrl in
  let m5 := ClearFlagIf m4 LEFT_ALT_PRESSED alt in
  let m6 := ClearFlagIf m5 SHIFT_PRESSED shift in
  (if shift then [modifier_event true VK_SHIFT m1] else []) ++
  (if alt then [modifier_event true VK_MENU m2] else []) ++
  (if ctrl then [modifier_event true VK_CONTROL m3] else []) ++
  _GetSingleKeypress wch vkey modifierState ++
  (if ctrl then [modifier_event false VK_CONTROL m4] else []) ++
  (if alt then [modifier_event false VK_MENU m5] else []) ++
  (if shift then [modifier_event false VK_SHIFT m6] else []).

(** The test for a character that is not on the keyboard compares two bytes
    with -1. *)
Definition _GenerateKeyFromChar (wch : Z) : option (Z * Z) :=
  let keyscan := VkKeyScanW wch in
  let key := Z.land keyscan 0xFF in
  let keyscanModifiers := Z.land (Z.shiftr keyscan 8) 0xFF in
  if (key =? -1) && (keyscanModifiers =? -1) then None
  else
    let modifierFlags :=
      Z.lor (Z.lor (if IsAnyFlagSet keyscanModifiers KEYSCAN_SHIFT then SHIFT_PRESSED else 0)
                   (if IsAnyFlagSet keyscanModifiers KEYSCAN_CTRL then LEFT_CTRL_PRESSED else 0))
            (if IsAnyFlagSet keyscanModifiers KEYSCAN_ALT then LEFT_ALT_PRESSED else 0) in
    Some (key, modifierFlags).
End Keys.

(** [Vk ; Sc ; Uc ; Kd ; Cs ; Rc] *)
Definition _GenerateWin32Key (parameters : VTParameters) : INPUT_RECORD :=
  SynthesizeKeyEvent
    (negb (value_or (param_at parameters 3) 0 =? 0))
    (saturate_unsigned 16 (value_or (param_at parameters 5) 1))
    (saturate_unsigned 16 (value_or (param_at parameters 0) 0))
    (saturate_unsigned 16 (value_or (param_at parameters 1) 0))
    (saturate_unsigned 16 (value_or (param_at parameters 2) 0))
    (saturate_unsigned 32 (value_or (param_at parameters 4) 0)).

(** ** The engine

    The members, and the number of times the clock was read. *)

Record InputStateMachineEngine (D : Type) := mkInputEngine {
  _pDispatch : D;
  _deviceAttributes : Z;
  _lookingForDSR : bool;
  _encounteredWin32InputModeSequence : bool;
  _expectingStringTerminator : bool;
  _mouseButtonState : Z;
  _doubleClickTime : Z;
  _lastMouseClickPos : option (Z * Z);
  _lastMouseClickTime : option Z;
  _lastMouseClickButton : option Z;
  clock_reads : nat;
}.
Arguments mkInputEngine {D}. Arguments _pDispatch {D}. Arguments _deviceAttributes {D}.
Arguments _lookingForDSR {D}. Arguments _encounteredWin32InputModeSequence {D}.
Arguments _expectingStringTerminator {D}. Arguments _mouseButtonState {D}.
Arguments _doubleClickTime {D}. Arguments _lastMouseClickPos {D}. Arguments _lastMouseClickTime {D}.
Arguments _lastMouseClickButton {D}. Arguments clock_reads {D}.

#[export] Instance eta_InputEngine {D} : Eta (InputStateMachineEngine D) := fun e =>
  mkInputEngine (_pDispatch e) (_deviceAttributes e) (_lookingForDSR e)
    (_encounteredWin32InputModeSequence e) (_expectingStringTerminator e) (_mouseButtonState e)
    (_doubleClickTime e) (_lastMouseClickPos e) (_lastMouseClickTime e) (_lastMouseClickButton e)
    (clock_reads e).

(** [doubleClickTime] is in the units of the clock. *)
Definition new_InputEngine {D} (pDispatch : D) (lookingForDSR : bool) (doubleClickTime : Z)
    : InputStateMachineEngine D :=
  mkInputEngine pDispatch 0 lookingForDSR false false 0 doubleClickTime None None None 0.

(** The button of an SGR mouse sequence: [None] when there is no such button,
    else its flag and what a wheel adds to the button state and the event
    flags. *)
Definition sgr_button (buttonID : Z) : option (Z * Z * Z) :=
  switch buttonID
   [([CsiMouseButtonCodes.Left], Some (FROM_LEFT_1ST_BUTTON_PRESSED, 0, 0));
    ([CsiMouseButtonCodes.Right], Some (RIGHTMOST_BUTTON_PRESSED, 0, 0));
    ([CsiMouseButtonCodes.Middle], Some (FROM_LEFT_2ND_BUTTON_PRESSED, 0, 0));
    ([CsiMouseButtonCodes.ScrollBack], Some (0, SCROLL_DELTA_BACKWARD, MOUSE_WHEELED));
    ([CsiMouseButtonCodes.ScrollForward], Some (0, SCROLL_DELTA_FORWARD, MOUSE_WHEELED));
    ([CsiMouseButtonCodes.Released], Some (0, 0, 0))]
   None.

Definition sgr_button_id (sgrEncoding : Z) : Z :=
  Z.lor (Z.land sgrEncoding 0x3) (Z.shiftr (Z.land sgrEncoding 0xC0) 4).

Section Engine.
Context {D : Type} `{Disp : !IInteractDispatch D} `{Layout : !KeyboardLayout}.
(** The [n]-th reading of [std::chrono::steady_clock]. *)
Variable steady_clock_now : nat -> Z.
Abbreviation E := (InputStateMachineEngine D).
Abbreviation act := (Act Empty_set E).

Definition interact_call (c : InteractCall) : act unit := fun e =>
  let '(d, ok) := interact c (_pDispatch e) in
  mkEngineResult (e <| _pDispatch := d |>) (if ok then Some tt else None) [].

Definition gets {A} (f : E -> A) : act A := fun e => mkEngineResult e (Some (f e)) [].
Definition modify (f : E -> E) : act unit := fun e => mkEngineResult (f e) (Some tt) [].

(** ** Writing keys *)

Definition _WriteSingleKey (wch vkey modifierState : Z) : act unit :=
  interact_call (WriteInput (_GenerateWrappedSequence wch vkey modifierState)).

(** The overload for a key whose character the layout gives. *)
Definition _WriteSingleKey_vk (vkey modifierState : Z) : act unit :=
  _WriteSingleKey (u16 (MapVirtualKeyW vkey MAPVK_VK_TO_CHAR)) vkey modifierState.

Definition _WriteMouseEvent (uiPos : Z * Z) (buttonState controlKeyState eventFlags : Z) : act unit :=
  interact_call (WriteInput [SynthesizeMouseEvent uiPos buttonState controlKeyState eventFlags]).

Definition input_Print (wch : Z) : act bool :=
  match _GenerateKeyFromChar wch with
  | Some (vkey, modifierState) => _WriteSingleKey wch vkey modifierState
  | None => mret tt
  end ;; mret true.

(** The switch on a C0 control: the character, the key with its modifiers,
    and whether Ctrl is pressed. *)
Definition control_key (wch : Z) : option (Z * Z * Z * bool) :=
  if wch =? 0x08 then
    (fun k => (0x7F, fst k, 0, true)) <$> _GenerateKeyFromChar 0x7F
  else if wch =? 0x0D then
    (fun k => (wch, fst k, 0, false)) <$> _GenerateKeyFromChar wch
  else if wch =? 0x1B then Some (wch, VK_ESCAPE, 0, false)
  else if wch =? 0x09 then
    (fun k => (wch, fst k, snd k, false)) <$> _GenerateKeyFromChar wch
  else (fun k => (wch, fst k, snd k, true)) <$> _GenerateKeyFromChar wch.

Definition _DoControlCharacter (wch : Z) (writeAlt : bool) : act bool :=
  (if (wch =? UNICODE_ETX) && negb writeAlt then
     interact_call (WriteCtrlKey (SynthesizeKeyEvent true 1 (wchar "C") 0 UNICODE_ETX LEFT_CTRL_PRESSED)) ;;
     interact_call (WriteCtrlKey (SynthesizeKeyEvent false 1 (wchar "C") 0 UNICODE_ETX LEFT_CTRL_PRESSED))
   else if (0 <=? wch) && (wch <? 0x20) then
     match control_key wch with
     | Some (actualChar, vkey, modifierState, writeCtrl) =>
         let modifierState := SetFlagIf modifierState LEFT_CTRL_PRESSED writeCtrl in
         let modifierState := SetFlagIf modifierState LEFT_ALT_PRESSED writeAlt in
         _WriteSingleKey actualChar vkey modifierState
     | None => mret tt
     end
   else if wch =? 0x7F then
     _WriteSingleKey 0x08 VK_BACK (if writeAlt then LEFT_ALT_PRESSED else 0)
   else input_Print wch ;; mret tt) ;;
  mret true.

Definition input_Execute (wch : Z) : act bool := _DoControlCharacter wch false.

Definition input_ExecuteFromEscape (wch : Z) : act bool := fun e =>
  (if IsVtInputEnabled (_pDispatch e) then mret false else _DoControlCharacter wch true) e.

Definition input_PrintString (string : list Z) : act bool :=
  match string with [] => mret tt | _ => interact_call (WriteString string) end ;; mret true.

Definition input_PassThroughString (string : list Z) : act bool :=
  match string with [] => mret tt | _ => interact_call (WriteStringRaw string) end ;; mret true.

(** ** Escape sequences *)

Definition input_EscDispatch (id : Z) : act bool := fun e =>
  (if _expectingStringTerminator e && (id =? VTID_FromString (wstr "\")) then
     modify (fun e => e <| _expectingStringTerminator := false |>) ;; mret false
   else if IsVtInputEnabled (_pDispatch e) then mret false
   else
     let wch := u16 id in
     (if wch =? 0x7F then _DoControlCharacter wch true ;; mret tt
      else match _GenerateKeyFromChar wch with
           | Some (vk, modifierState) =>
               _WriteSingleKey wch vk (Z.lor modifierState LEFT_ALT_PRESSED)
           | None => mret tt
           end) ;;
     mret true) e.

Definition input_Vt52EscDispatch (id : Z) (ps : VTParameters) : act bool := mret false.

(** ** The mouse *)

(** The trackers of the last click after a press at [uiPos], and whether it
    is the second click of a double click. *)
Definition track_click (buttonID currentTime : Z) (uiPos : Z * Z) (e : E) : E * bool :=
  let isDouble :=
    match _lastMouseClickPos e, _lastMouseClickTime e, _lastMouseClickButton e with
    | Some pos, Some time, Some button =>
        bool_decide (uiPos = pos) && (currentTime - time <? _doubleClickTime e) && (buttonID =? button)
    | _, _, _ => false
    end in
  if isDouble then
    (e <| _lastMouseClickPos := None |> <| _lastMouseClickTime := None |>
       <| _lastMouseClickButton := None |>, true)
  else if (buttonID =? CsiMouseButtonCodes.Left) || (buttonID =? CsiMouseButtonCodes.Right)
          || (buttonID =? CsiMouseButtonCodes.Middle) then
    (e <| _lastMouseClickPos := Some uiPos |> <| _lastMouseClickTime := Some currentTime |>
       <| _lastMouseClickButton := Some buttonID |>, false)
  else (e, false).

(** The new state with the button state and the event flags, or [None] when
    the function returns [false]. *)
Definition _UpdateSGRMouseButtonState (id sgrEncoding : Z) (uiPos : Z * Z) (e : E) : E * option (Z * Z) :=
  let buttonID := sgr_button_id sgrEncoding in
  let currentTime := steady_clock_now (clock_reads e) in
  let e := e <| clock_reads := S (clock_reads e) |> in
  match sgr_button buttonID with
  | None => (e, None)
  | Some (buttonFlag, wheelState, wheelFlags) =>
      let buttonState := Z.lor (_mouseButtonState e) wheelState in
      let step2 :=
        if id =? MouseDown then
          let '(e, double) := track_click buttonID currentTime uiPos e in
          Some (e, Z.lor buttonState buttonFlag, SetFlagIf wheelFlags DOUBLE_CLICK double)
        else if id =? MouseUp then Some (e, Z.ldiff buttonState buttonFlag, wheelFlags)
        else None in
      match step2 with
      | None => (e, None)
      | Some (e, buttonState, eventFlags) =>
          let eventFlags :=
            SetFlagIf eventFlags MOUSE_MOVED (IsAnyFlagSet sgrEncoding CsiMouseModifierCodes.Drag) in
          (e <| _mouseButtonState := Z.land buttonState 0xFFFF |>, Some (buttonState, eventFlags))
      end
  end.

Definition mouse_sequence (id : Z) (parameters : VTParameters) : act unit := fun e =>
  let firstParameter := value_or (param_at parameters 0) 0 in
  let uiPos := (as_VTInt (param_at parameters 1) - 1, as_VTInt (param_at parameters 2) - 1) in
  let '(e, result) := _UpdateSGRMouseButtonState id firstParameter uiPos e in
  match result with
  | Some (buttonState, eventFlags) =>
      _WriteMouseEvent uiPos buttonState (_GetSGRMouseModifierState firstParameter) eventFlags e
  | None => mkEngineResult e (Some tt) []
  end.

(** ** Control sequences *)

Definition cursor_key (id : Z) (parameters : VTParameters) : act unit :=
  match _GetCursorKeysVkey id with
  | Some vkey => _WriteSingleKey_vk vkey (_GetCursorKeysModifierState parameters id)
  | None => mret tt
  end.

Definition generic_key (parameters : VTParameters) : act unit :=
  match _GetGenericVkey (as_enum (param_at parameters 0)) with
  | Some vkey => _WriteSingleKey_vk vkey (_GetGenericKeysModifierState parameters)
  | None => mret tt
  end.

(** F3 shares its code with the report of the cursor position. *)
Definition f3_or_cursor_report (parameters : VTParameters) : act bool := fun e =>
  (if _lookingForDSR e then
     interact_call (MoveCursor (as_VTInt (param_at parameters 0)) (as_VTInt (param_at parameters 1))) ;;
     modify (fun e => e <| _lookingForDSR := false |>) ;; mret true
   else if _encounteredWin32InputModeSequence e then mret false
   else cursor_key CSI_F3 parameters ;; mret true) e.

(** The extensions that a device reports. *)
Definition device_extensions (parameters : VTParameters) : Z :=
  let len := params_size parameters in
  let some := 1 in
  if (2 <=? len)%nat && (param_at parameters 0 >=? 61) then
    fold_left (fun attributes i =>
        let value := param_at parameters i in
        if (value >? 0) && (value <? 64) then Z.lor attributes (Z.shiftl 1 value) else attributes)
      (seq 1 (len - 1)) some
  else some.

Definition device_attributes (parameters : VTParameters) : act bool := fun e =>
  (if _deviceAttributes e =? 0 then
     modify (fun e => e <| _deviceAttributes := Z.lor (_deviceAttributes e) (device_extensions parameters) |>
                        <| _lookingForDSR := false |>) ;; mret true
   else mret false) e.

Definition win32_key (parameters : VTParameters) : act bool :=
  interact_call (WriteCtrlKey (_GenerateWin32Key parameters)) ;;
  modify (fun e => e <| _encounteredWin32InputModeSequence := true |>) ;; mret true.

Definition csi_input_cases (id : Z) (parameters : VTParameters) : list (list Z * act bool) :=
  [([MouseDown; MouseUp], mouse_sequence id parameters ;; mret true);
   ([CSI_F3], f3_or_cursor_report parameters);
   ([ArrowUp; ArrowDown; ArrowRight; ArrowLeft; Home; End_; CSI_F1; CSI_F2; CSI_F4],
     cursor_key id parameters ;; mret true);
   ([Generic], generic_key parameters ;; mret true);
   ([CursorBackTab], _WriteSingleKey_vk VK_TAB SHIFT_PRESSED ;; mret true);
   ([FocusIn], interact_call (FocusChanged true) ;; mret true);
   ([FocusOut], interact_call (FocusChanged false) ;; mret true);
   ([DA_DeviceAttributes], device_attributes parameters);
   ([Win32KeyboardInput], win32_key parameters)].

Definition input_CsiDispatch (id : Z) (parameters : VTParameters) : act bool := fun e =>
  (if IsVtInputEnabled (_pDispatch e) && negb (id =? Win32KeyboardInput) && negb (id =? FocusIn)
      && negb (id =? FocusOut)
   then mret false
   else switch id (csi_input_cases id parameters) (mret false)) e.

(** ** The other kinds of sequences *)

Definition input_DcsDispatch (id : Z) (ps : VTParameters) : act (option Empty_set) :=
  modify (fun e => e <| _expectingStringTerminator := true |>) ;; mret None.

Definition input_Ss3Dispatch (wch : Z) (ps : VTParameters) : act bool := fun e =>
  (if IsVtInputEnabled (_pDispatch e) then mret false
   else match _GetSs3KeysVkey wch with
        | Some vkey => _WriteSingleKey_vk vkey 0
        | None => mret tt
        end ;; mret true) e.

Definition input_OscDispatch (parameter : Z) (string : list Z) : act bool := mret false.

#[export] Instance InputEngine : IStateMachineEngine E Empty_set Empty_set := {|
  EncounteredWin32InputModeSequence := _encounteredWin32InputModeSequence;
  ActionExecute := input_Execute;
  ActionExecuteFromEscape := input_ExecuteFromEscape;
  ActionPrint := input_Print;
  ActionPrintString := input_PrintString;
  ActionPassThroughString := input_PassThroughString;
  ActionEscDispatch := input_EscDispatch;
  ActionVt52EscDispatch := input_Vt52EscDispatch;
  ActionCsiDispatch := input_CsiDispatch;
  ActionDcsDispatch := input_DcsDispatch;
  ActionOscDispatch := input_OscDispatch;
  ActionSs3Dispatch := input_Ss3Dispatch;
  StringHandler_call h c e := match h : Empty_set with end;
|}.
End Engine.
