(* ===== verification/TerminalInput.v ===== *)
(** * Keyboard and mouse input

    Models [src/src/terminal/input/terminalInput.{hpp,cpp}],
    [mouseInput.cpp] and [mouseInputState.cpp]: the class [TerminalInput],
    which turns key and mouse events into the sequences an application
    reads.  What it asks of the system (the tick count and the translation of
    a key by the keyboard layout) is an argument of the call that asks. *)

From stdpp Require Import gmap.
From S2P Require Import Prelude InputRecords.
#[local] Open Scope Z_scope.

(** ** Modes: [til::enumset<Mode>] *)

Module InputMode.
Definition LineFeed : Z := 0.
Definition Ansi : Z := 1.
Definition AutoRepeat : Z := 2.
Definition Keypad : Z := 3.
Definition CursorKey : Z := 4.
Definition BackarrowKey : Z := 5.
Definition Win32 : Z := 6.
Definition SendC1 : Z := 7.
Definition Utf8MouseEncoding : Z := 8.
Definition SgrMouseEncoding : Z := 9.
Definition DefaultMouseTracking : Z := 10.
Definition ButtonEventMouseTracking : Z := 11.
Definition AnyEventMouseTracking : Z := 12.
Definition FocusEvent : Z := 13.
Definition AlternateScroll : Z := 14.
End InputMode.

Definition modes_of (positions : list Z) : Z :=
  fold_left (fun data pos => Z.lor data (Z.shiftl 1 pos)) positions 0.
Definition modes_test (data pos : Z) : bool := negb (Z.land data (modes_of [pos]) =? 0).
Definition modes_any (data : Z) (positions : list Z) : bool := negb (Z.land data (modes_of positions) =? 0).
Definition modes_reset (data : Z) (positions : list Z) : Z := Z.ldiff data (modes_of positions).
Definition modes_set (data pos : Z) (val : bool) : Z :=
  Z.lor (Z.ldiff data (modes_of [pos])) (if val then modes_of [pos] else 0).

(** ** The class *)

Abbreviation KeyMap := (gmap Z (list Z)).

Record MouseInputState := mk_MouseInputState {
  inAlternateBuffer : bool;
  lastPos : Z * Z;
  lastButton : Z;
  accumulatedDelta : Z;
}.

#[export] Instance eta_MouseInputState : Eta MouseInputState := fun m =>
  mk_MouseInputState (inAlternateBuffer m) (lastPos m) (lastButton m) (accumulatedDelta m).

Record TerminalInput := mk_TerminalInput {
  _leadingSurrogate : Z;
  _lastVirtualKeyCode : option Z;
  _lastControlKeyState : Z;
  _lastLeftCtrlTime : Z;
  _lastRightAltTime : Z;
  _keyMap : KeyMap;
  _focusInSequence : list Z;
  _focusOutSequence : list Z;
  _inputMode : Z;
  _forceDisableWin32InputMode : bool;
  _csi : list Z;
  _ss3 : list Z;
  _mouseInputState : MouseInputState;
}.

#[export] Instance eta_TerminalInput : Eta TerminalInput := fun t =>
  mk_TerminalInput (_leadingSurrogate t) (_lastVirtualKeyCode t) (_lastControlKeyState t)
    (_lastLeftCtrlTime t) (_lastRightAltTime t) (_keyMap t) (_focusInSequence t) (_focusOutSequence t)
    (_inputMode t) (_forceDisableWin32InputMode t) (_csi t) (_ss3 t) (_mouseInputState t).

(** ** Formatting *)

(** [fmt] of an [int] in decimal. *)
Fixpoint decimal_aux (fuel : nat) (n : Z) (acc : list Z) : list Z :=
  match fuel with
  | O => acc
  | S fuel =>
      let acc := (0x30 + n mod 10) :: acc in
      if n <? 10 then acc else decimal_aux fuel (n / 10) acc
  end.

Definition format_int (n : Z) : list Z :=
  if n <? 0 then wchar "-" :: decimal_aux 10 (- n) [] else decimal_aux 10 n [].

(** ** The key map *)

Definition VTModifier (m : Z) : Z := Z.shiftl m 8.
Definition Shift : Z := VTModifier 1.
Definition Alt : Z := VTModifier 2.
Definition Ctrl : Z := VTModifier 4.
Definition Enhanced : Z := VTModifier 8.

Definition defineKeyWithUnusedModifiers (keyCode : Z) (sequence : list Z) (map : KeyMap) : KeyMap :=
  fold_left (fun map m => <[VTModifier m + keyCode := sequence]> map) (seqZ 0 8) map.

Definition defineKeyWithAltModifier (keyCode : Z) (sequence : list Z) (map : KeyMap) : KeyMap :=
  <[Alt + keyCode := 0x1B :: sequence]> (<[keyCode := sequence]> map).

Definition defineKeypadKey (csi : list Z) (keyCode : Z) (prefix : list Z) (finalChar : Z) (map : KeyMap)
    : KeyMap :=
  fold_left (fun map m =>
      <[VTModifier m + keyCode := csi ++ wstr "1;" ++ format_int (m + 1) ++ [finalChar]]> map)
    (seqZ 1 7) (<[keyCode := prefix ++ [finalChar]]> map).

Definition defineEditingKey (csi : list Z) (keyCode parm : Z) (map : KeyMap) : KeyMap :=
  fold_left (fun map m =>
      <[VTModifier m + keyCode := csi ++ format_int parm ++ wstr ";" ++ format_int (m + 1) ++ wstr "~"]> map)
    (seqZ 1 7) (<[keyCode := csi ++ format_int parm ++ wstr "~"]> map).

Definition defineNumericKey (ss3 : list Z) (keyCode finalChar : Z) (map : KeyMap) : KeyMap :=
  fold_left (fun map m => <[VTModifier m + keyCode := ss3 ++ format_int (m + 1) ++ [finalChar]]> map)
    (seqZ 1 7) (<[keyCode := ss3 ++ [finalChar]]> map).

(** A sequence of definitions, in order. *)
Definition define_all (definitions : list (KeyMap -> KeyMap)) (map : KeyMap) : KeyMap :=
  fold_left (fun map define => define map) definitions map.

(** BACKSPACE, TAB and RETURN. *)
Definition define_control_keys (backarrow lineFeed : bool) (csi : list Z) : KeyMap -> KeyMap :=
  let backSequence := if backarrow then [0x08] else [0x7F] in
  let ctrlBackSequence := if backarrow then [0x7F] else [0x08] in
  let shiftTabSequence := csi ++ wstr "Z" in
  let returnSequence := if lineFeed then [0x0D; 0x0A] else [0x0D] in
  define_all
   [defineKeyWithUnusedModifiers VK_PAUSE [0x1A];
    defineKeyWithAltModifier VK_BACK backSequence;
    defineKeyWithAltModifier (Ctrl + VK_BACK) ctrlBackSequence;
    defineKeyWithAltModifier (Shift + VK_BACK) backSequence;
    defineKeyWithAltModifier (Ctrl + Shift + VK_BACK) ctrlBackSequence;
    defineKeyWithAltModifier VK_TAB [0x09];
    defineKeyWithAltModifier (Ctrl + VK_TAB) [0x09];
    defineKeyWithAltModifier (Shift + VK_TAB) shiftTabSequence;
    defineKeyWithAltModifier (Ctrl + Shift + VK_TAB) shiftTabSequence;
    defineKeyWithAltModifier VK_RETURN returnSequence;
    defineKeyWithAltModifier (Shift + VK_RETURN) returnSequence;
    defineKeyWithAltModifier (Ctrl + VK_RETURN) [0x0A];
    defineKeyWithAltModifier (Ctrl + Shift + VK_RETURN) [0x0A];
    defineKeyWithAltModifier (Enhanced + VK_RETURN) returnSequence;
    defineKeyWithAltModifier (Shift + Enhanced + VK_RETURN) returnSequence;
    defineKeyWithAltModifier (Ctrl + Enhanced + VK_RETURN) [0x0A];
    defineKeyWithAltModifier (Ctrl + Shift + Enhanced + VK_RETURN) [0x0A]].

(** The parameters of F5 to F20. *)
Definition function_parameters : list Z := [15; 17; 18; 19; 20; 21; 23; 24; 25; 26; 28; 29; 31; 32; 33; 34].

Definition keypad_keys : list (Z * Z) :=
  [(VK_MULTIPLY, wchar "j"); (VK_ADD, wchar "k"); (VK_SEPARATOR, wchar "l"); (VK_SUBTRACT, wchar "m");
   (VK_DECIMAL, wchar "n"); (VK_DIVIDE, wchar "o")]
  ++ List.map (fun i => (VK_NUMPAD0 + i, wchar "p" + i)) (seqZ 0 10)
  ++ [(Enhanced + VK_RETURN, wchar "M")].

Definition define_ansi_keys (cursorKey keypad : bool) (csi ss3 : list Z) : KeyMap -> KeyMap :=
  let ckIntroducer := if cursorKey then ss3 else csi in
  define_all
   ([defineKeypadKey csi VK_F1 ss3 (wchar "P"); defineKeypadKey csi VK_F2 ss3 (wchar "Q");
     defineKeypadKey csi VK_F3 ss3 (wchar "R"); defineKeypadKey csi VK_F4 ss3 (wchar "S")]
    ++ imap (fun i parm => defineEditingKey csi (VK_F5 + Z.of_nat i) parm) function_parameters
    ++ [defineKeypadKey csi VK_UP ckIntroducer (wchar "A"); defineKeypadKey csi VK_DOWN ckIntroducer (wchar "B");
        defineKeypadKey csi VK_RIGHT ckIntroducer (wchar "C"); defineKeypadKey csi VK_LEFT ckIntroducer (wchar "D");
        defineKeypadKey csi VK_CLEAR ckIntroducer (wchar "E"); defineKeypadKey csi VK_HOME ckIntroducer (wchar "H");
        defineKeypadKey csi VK_END ckIntroducer (wchar "F");
        defineEditingKey csi VK_INSERT 2; defineEditingKey csi VK_DELETE 3;
        defineEditingKey csi VK_PRIOR 5; defineEditingKey csi VK_NEXT 6]
    ++ if keypad then List.map (fun '(key, final) => defineNumericKey ss3 key final) keypad_keys else []).

Definition define_vt52_keys (keypad : bool) : KeyMap -> KeyMap :=
  define_all
   (List.map (fun '(key, sequence) => defineKeyWithUnusedModifiers key sequence)
     ([(VK_F1, 0x1B :: wstr "P"); (VK_F2, 0x1B :: wstr "Q"); (VK_F3, 0x1B :: wstr "R"); (VK_F4, 0x1B :: wstr "S");
       (VK_F11, [0x1B]); (VK_F12, [0x08]); (VK_F13, [0x0A]);
       (VK_UP, 0x1B :: wstr "A"); (VK_DOWN, 0x1B :: wstr "B"); (VK_RIGHT, 0x1B :: wstr "C");
       (VK_LEFT, 0x1B :: wstr "D"); (VK_CLEAR, 0x1B :: wstr "E"); (VK_HOME, 0x1B :: wstr "H");
       (VK_END, 0x1B :: wstr "F")]
      ++ if keypad then List.map (fun '(key, final) => (key, 0x1B :: wstr "?" ++ [final])) keypad_keys else [])).

Section Input.
(** [Feature_KeypadModeEnabled::IsEnabled()], which the build decides. *)
Variable keypadModeEnabled : bool.

Definition _initKeyboardMap (t : TerminalInput) : TerminalInput :=
  let test := modes_test (_inputMode t) in
  let csi := if test InputMode.SendC1 then [0x9B] else 0x1B :: wstr "[" in
  let ss3 := if test InputMode.SendC1 then [0x8F] else 0x1B :: wstr "O" in
  let map := define_control_keys (test InputMode.BackarrowKey) (test InputMode.LineFeed) csi ∅ in
  let keypad := keypadModeEnabled && test InputMode.Keypad in
  let map := if test InputMode.Ansi then define_ansi_keys (test InputMode.CursorKey) keypad csi ss3 map
             else define_vt52_keys keypad map in
  t <| _keyMap := map |> <| _csi := csi |> <| _ss3 := ss3 |>
    <| _focusInSequence := csi ++ wstr "I" |> <| _focusOutSequence := csi ++ wstr "O" |>.

Definition defaultModes : Z := modes_of [InputMode.Ansi; InputMode.AutoRepeat; InputMode.AlternateScroll].

Definition new_TerminalInput : TerminalInput :=
  _initKeyboardMap (mk_TerminalInput 0 None 0 0 0 ∅ [] [] defaultModes false (0x1B :: wstr "[") (0x1B :: wstr "O")
    (mk_MouseInputState false (-1, -1) 0 0)).

(** ** Modes *)

Definition forget_mouse (t : TerminalInput) : TerminalInput :=
  t <| _mouseInputState := (_mouseInputState t) <| lastPos := (-1, -1) |> <| lastButton := 0 |> |>.

Definition keyMapModes : Z :=
  modes_of [InputMode.LineFeed; InputMode.Ansi; InputMode.Keypad; InputMode.CursorKey;
            InputMode.BackarrowKey; InputMode.SendC1].

Definition trackingModes : list Z :=
  [InputMode.DefaultMouseTracking; InputMode.ButtonEventMouseTracking; InputMode.AnyEventMouseTracking].
Definition encodingModes : list Z := [InputMode.Utf8MouseEncoding; InputMode.SgrMouseEncoding].

Definition SetInputMode (mode : Z) (enabled : bool) (t : TerminalInput) : TerminalInput :=
  let t := if existsb (Z.eqb mode) trackingModes
           then forget_mouse (t <| _inputMode := modes_reset (_inputMode t) trackingModes |>) else t in
  let t := if existsb (Z.eqb mode) encodingModes && enabled
           then t <| _inputMode := modes_reset (_inputMode t) encodingModes |> else t in
  let t := t <| _inputMode := modes_set (_inputMode t) mode enabled |> in
  if modes_test keyMapModes mode then _initKeyboardMap t else t.

Definition GetInputMode (mode : Z) (t : TerminalInput) : bool := modes_test (_inputMode t) mode.

Definition ResetInputModes (t : TerminalInput) : TerminalInput :=
  _initKeyboardMap (forget_mouse (t <| _inputMode := defaultModes |>)).

Definition ForceDisableWin32InputMode (win32InputMode : bool) (t : TerminalInput) : TerminalInput :=
  t <| _forceDisableWin32InputMode := win32InputMode |>.

Definition UseAlternateScreenBuffer (t : TerminalInput) : TerminalInput :=
  t <| _mouseInputState := (_mouseInputState t) <| inAlternateBuffer := true |> |>.
Definition UseMainScreenBuffer (t : TerminalInput) : TerminalInput :=
  t <| _mouseInputState := (_mouseInputState t) <| inAlternateBuffer := false |> |>.

Definition HandleFocus (focused : bool) (t : TerminalInput) : option (list Z) :=
  if negb (GetInputMode InputMode.FocusEvent t) then None
  else Some (if focused then _focusInSequence t else _focusOutSequence t).
End Input.

(** ** Keys *)

(** What a call learns from the system: the tick count at its [n]-th reading,
    and [ToUnicodeEx] for the layout of the foreground window, which returns
    a count and fills a buffer. *)
Record KeyboardSystem := mk_KeyboardSystem {
  GetTickCount64 : nat -> Z;
  ToUnicodeEx : Z -> list Z -> Z * list Z;
}.

Definition is_leading_surrogate (wch : Z) : bool := Z.land wch 0xFC00 =? 0xD800.
Definition is_trailing_surrogate (wch : Z) : bool := Z.land wch 0xFC00 =? 0xDC00.

Definition _trackControlKeyState (sys : KeyboardSystem) (key : KEY_EVENT_RECORD) (t : TerminalInput)
    : TerminalInput :=
  let pressedKeyState := Z.ldiff (dwControlKeyState key) (_lastControlKeyState t) in
  let rightAltDown := bKeyDown key && (wVirtualKeyCode key =? VK_MENU)
                      && IsAnyFlagSet (dwControlKeyState key) ENHANCED_KEY in
  let t := t <| _lastControlKeyState :=
                  ClearFlagIf (dwControlKeyState key) RIGHT_ALT_PRESSED
                    (IsAnyFlagSet pressedKeyState RIGHT_ALT_PRESSED && negb rightAltDown) |> in
  if bKeyDown key then
    let leftCtrl := IsAnyFlagSet pressedKeyState LEFT_CTRL_PRESSED in
    let t := if leftCtrl then t <| _lastLeftCtrlTime := GetTickCount64 sys 0 |> else t in
    if IsAnyFlagSet pressedKeyState RIGHT_ALT_PRESSED
    then t <| _lastRightAltTime := GetTickCount64 sys (if leftCtrl then 1 else 0) |>
    else t
  else t.

(** The state of 256 keys, those that are not 0. *)
Definition _getKeyboardState (virtualKeyCode controlKeyState : Z) : list Z :=
  let flag f := if IsAnyFlagSet controlKeyState f then 0x80 else 0 in
  let put key v (keyState : list Z) := <[Z.to_nat key := v]> keyState in
  let keyState := replicate 256 0 in
  let keyState := if virtualKeyCode <? 256 then put virtualKeyCode 0x80 keyState else keyState in
  let lcontrol := flag LEFT_CTRL_PRESSED in
  let rcontrol := flag RIGHT_CTRL_PRESSED in
  let lmenu := flag LEFT_ALT_PRESSED in
  let rmenu := flag RIGHT_ALT_PRESSED in
  let shift := flag SHIFT_PRESSED in
  let keyState := put VK_LCONTROL lcontrol keyState in
  let keyState := put VK_RCONTROL rcontrol keyState in
  let keyState := put VK_CONTROL (Z.lor lcontrol rcontrol) keyState in
  let keyState := put VK_LMENU lmenu keyState in
  let keyState := put VK_RMENU rmenu keyState in
  let keyState := put VK_MENU (Z.lor lmenu rmenu) keyState in
  let keyState := put VK_SHIFT shift (put VK_LSHIFT shift keyState) in
  put VK_CAPITAL (if IsAnyFlagSet controlKeyState CAPSLOCK_ON then 1 else 0) keyState.

(** The keyboard state with Ctrl and Alt released. *)
Definition without_modifiers (keyState : list Z) : list Z :=
  fold_left (fun keyState key => <[Z.to_nat key := 0]> keyState)
    [VK_CONTROL; VK_LCONTROL; VK_RCONTROL; VK_MENU; VK_LMENU; VK_RMENU] keyState.

Definition numericCtrls : list Z := [0; 27; 28; 29; 30; 31; 127].

Definition _makeCtrlChar (ch : Z) : Z :=
  if (wchar "@" <=? ch) && (ch <=? wchar "~") then Z.land ch 31
  else if ch =? wchar " " then 0
  else if ch =? wchar "/" then 0x1F
  else if ch =? wchar "?" then 0x7F
  else if (wchar "2" <=? ch) && (ch <=? wchar "8") then
    default ch (numericCtrls !! Z.to_nat (ch - wchar "2"))
  else ch.

Definition _makeCharOutput (ch : Z) (t : TerminalInput) : list Z :=
  if negb (_leadingSurrogate t =? 0) && is_trailing_surrogate ch
  then [_leadingSurrogate t; ch] else [ch].

Definition _escapeOutput (charSequence : list Z) (altIsPressed : bool) (t : TerminalInput) : list Z :=
  if altIsPressed && GetInputMode InputMode.Ansi t then 0x1B :: charSequence else charSequence.

Definition _makeWin32Output (key : KEY_EVENT_RECORD) (t : TerminalInput) : list Z :=
  let kd := if bKeyDown key then 1 else 0 in
  let rc := u16 (wRepeatCount key) in
  let vk := u16 (wVirtualKeyCode key) in
  let sc := u16 (wVirtualScanCode key) in
  let uc := u16 (UnicodeChar key) in
  let cs := u16 (dwControlKeyState key) in
  _csi t ++ format_int vk ++ wstr ";" ++ format_int sc ++ wstr ";" ++ format_int uc ++ wstr ";"
    ++ format_int kd ++ wstr ";" ++ format_int cs ++ wstr ";" ++ format_int rc ++ wstr "_".

(** What [HandleKey] reads off the control key state. *)
Record KeyModifiers := mk_KeyModifiers {
  leftCtrlIsReallyPressed : bool;
  ctrlIsPressed : bool;
  ctrlIsReallyPressed : bool;
  shiftIsPressed : bool;
  altIsPressed : bool;
  altGrIsPressed : bool;
}.

Definition key_modifiers (controlKeyState : Z) (t : TerminalInput) : KeyModifiers :=
  let leftCtrl := IsAnyFlagSet controlKeyState LEFT_CTRL_PRESSED in
  let leftCtrlReally :=
    if AreAllFlagsSet controlKeyState (Z.lor LEFT_CTRL_PRESSED RIGHT_ALT_PRESSED) then
      let timeBetweenCtrlAlt :=
        if _lastRightAltTime t >? _lastLeftCtrlTime t then _lastRightAltTime t - _lastLeftCtrlTime t
        else _lastLeftCtrlTime t - _lastRightAltTime t in
      timeBetweenCtrlAlt >? 50
    else leftCtrl in
  let ctrl := IsAnyFlagSet controlKeyState CTRL_PRESSED in
  let alt := IsAnyFlagSet controlKeyState ALT_PRESSED in
  mk_KeyModifiers leftCtrlReally ctrl (leftCtrlReally || IsAnyFlagSet controlKeyState RIGHT_CTRL_PRESSED)
    (IsAnyFlagSet controlKeyState SHIFT_PRESSED) alt (alt && ctrl).

Definition key_combo (virtualKeyCode controlKeyState : Z) (m : KeyModifiers) : Z :=
  let enhancedReturnKey := IsAnyFlagSet controlKeyState ENHANCED_KEY && (virtualKeyCode =? VK_RETURN) in
  let keyCombo := SetFlagIf virtualKeyCode Ctrl (ctrlIsReallyPressed m) in
  let keyCombo := SetFlagIf keyCombo Alt (altIsPressed m) in
  let keyCombo := SetFlagIf keyCombo Shift (shiftIsPressed m) in
  SetFlagIf keyCombo Enhanced enhancedReturnKey.

(** A key with a character that is not in the map. *)
Definition key_from_char (unicodeChar controlKeyState : Z) (m : KeyModifiers) (t : TerminalInput) : list Z :=
  let bothCtrlsArePressed := AreAllFlagsSet controlKeyState CTRL_PRESSED in
  let rightAltIsPressed := IsAnyFlagSet controlKeyState RIGHT_ALT_PRESSED in
  let unicodeChar :=
    if altGrIsPressed m && (bothCtrlsArePressed || (rightAltIsPressed && leftCtrlIsReallyPressed m))
    then _makeCtrlChar unicodeChar else unicodeChar in
  let charSequence := _makeCharOutput unicodeChar t in
  let bothAltsArePressed := AreAllFlagsSet controlKeyState ALT_PRESSED in
  _escapeOutput charSequence (if altGrIsPressed m then bothAltsArePressed else altIsPressed m) t.

(** A key without a character: what the layout has for it without Ctrl and
    Alt. *)
Definition key_from_layout (sys : KeyboardSystem) (virtualKeyCode controlKeyState : Z) (m : KeyModifiers)
    (t : TerminalInput) : list Z :=
  let keyState := _getKeyboardState virtualKeyCode controlKeyState in
  let '(len, buffer) := ToUnicodeEx sys virtualKeyCode keyState in
  if (len <? 0) || ((len =? 2) && bool_decide (buffer !! 0%nat = buffer !! 1%nat)) then []
  else
    let '(len, buffer) := ToUnicodeEx sys virtualKeyCode (without_modifiers keyState) in
    if len <=? 0 then []
    else
      let charSequence := take (Z.to_nat len) buffer in
      let charSequence :=
        match charSequence with
        | [c] =>
            if ctrlIsReallyPressed m then
              let ch := _makeCtrlChar c in
              [if (ch >=? wchar " ") && (virtualKeyCode >=? wchar "2") && (virtualKeyCode <=? wchar "Z")
               then _makeCtrlChar virtualKeyCode else ch]
            else [c]
        | _ => charSequence
        end in
      _escapeOutput charSequence (altIsPressed m) t.

(** The part of a key press after the repeat test. *)
Definition key_press (sys : KeyboardSystem) (virtualKeyCode unicodeChar controlKeyState : Z) (t : TerminalInput)
    : list Z :=
  if (VK_SHIFT <=? virtualKeyCode) && (virtualKeyCode <=? VK_MENU) then []
  else
    let m := key_modifiers controlKeyState t in
    if (VK_NUMPAD0 <=? virtualKeyCode) && (virtualKeyCode <=? VK_NUMPAD9) && altIsPressed m
       && negb (ctrlIsPressed m) then []
    else
      match _keyMap t !! key_combo virtualKeyCode controlKeyState m with
      | Some sequence => sequence
      | None =>
          let ctrlSpaceKey := ctrlIsReallyPressed m && (virtualKeyCode =? VK_SPACE) in
          if negb (unicodeChar =? 0) && negb ctrlSpaceKey
          then key_from_char unicodeChar controlKeyState m t
          else if negb (altIsPressed m) && negb (ctrlIsPressed m) then []
          else key_from_layout sys virtualKeyCode controlKeyState m t
      end.

Definition key_release (virtualKeyCode unicodeChar controlKeyState : Z) (matchingLastKeyPress : bool)
    (t : TerminalInput) : TerminalInput * list Z :=
  (if matchingLastKeyPress then t <| _lastVirtualKeyCode := None |> else t,
   if IsAnyFlagSet controlKeyState NUMLOCK_ON && (virtualKeyCode =? VK_MENU) && negb (unicodeChar =? 0)
   then [unicodeChar] else []).

(** [None] is an event that was not handled, [Some] the text to send. *)
Definition HandleKey (sys : KeyboardSystem) (event : INPUT_RECORD) (t : TerminalInput)
    : TerminalInput * option (list Z) :=
  match event with
  | KeyEvent key =>
      if GetInputMode InputMode.Win32 t && negb (_forceDisableWin32InputMode t)
      then (t, Some (_makeWin32Output key t))
      else
        let t := _trackControlKeyState sys key t in
        let controlKeyState := _lastControlKeyState t in
        let virtualKeyCode := wVirtualKeyCode key in
        let unicodeChar := UnicodeChar key in
        let matchingLastKeyPress := bool_decide (_lastVirtualKeyCode t = Some virtualKeyCode) in
        if negb (bKeyDown key) then
          let '(t, out) := key_release virtualKeyCode unicodeChar controlKeyState matchingLastKeyPress t in
          (t, Some out)
        else if is_leading_surrogate unicodeChar then (t <| _leadingSurrogate := unicodeChar |>, Some [])
        else if (virtualKeyCode =? VK_PACKET) || (virtualKeyCode =? 0)
        then (t <| _leadingSurrogate := 0 |>, Some (_makeCharOutput unicodeChar t))
        else if matchingLastKeyPress && negb (GetInputMode InputMode.AutoRepeat t)
        then (t <| _leadingSurrogate := 0 |>, Some [])
        else
          let t := t <| _lastVirtualKeyCode := Some virtualKeyCode |> in
          (t <| _leadingSurrogate := 0 |>, Some (key_press sys virtualKeyCode unicodeChar controlKeyState t))
  | _ => (t, None)
  end.

(** ** The mouse *)

Definition s_MaxDefaultCoordinate : Z := 94.

Record MouseButtonState := mk_MouseButtonState {
  isLeftButtonDown : bool;
  isMiddleButtonDown : bool;
  isRightButtonDown : bool;
}.

Definition one_of (labels : list Z) (v : Z) : bool := existsb (Z.eqb v) labels.

Definition _isButtonMsg : Z -> bool := one_of
  [WM_LBUTTONDBLCLK; WM_LBUTTONDOWN; WM_LBUTTONUP; WM_MBUTTONUP; WM_RBUTTONUP; WM_RBUTTONDOWN;
   WM_RBUTTONDBLCLK; WM_MBUTTONDOWN; WM_MBUTTONDBLCLK; WM_MOUSEWHEEL; WM_MOUSEHWHEEL].
Definition _isHoverMsg (buttonCode : Z) : bool := buttonCode =? WM_MOUSEMOVE.
Definition _isWheelMsg : Z -> bool := one_of [WM_MOUSEWHEEL; WM_MOUSEHWHEEL].
Definition _isButtonUp : Z -> bool := one_of [WM_LBUTTONUP; WM_RBUTTONUP; WM_MBUTTONUP; WM_XBUTTONUP].

Definition s_GetPressedButton (state : MouseButtonState) : Z :=
  if isLeftButtonDown state then WM_LBUTTONDOWN
  else if isMiddleButtonDown state then WM_MBUTTONDOWN
  else if isRightButtonDown state then WM_RBUTTONDOWN
  else WM_LBUTTONUP.

(** The hover bit and the modifiers of both encodings. *)
Definition add_modifiers (xvalue : Z) (isHover : bool) (modifierKeyState : Z) : Z :=
  let xvalue := if isHover then xvalue + 0x20 else xvalue in
  let xvalue := UpdateFlag xvalue 0x04 (IsAnyFlagSet modifierKeyState SHIFT_PRESSED) in
  let xvalue := UpdateFlag xvalue 0x08 (IsAnyFlagSet modifierKeyState ALT_PRESSED) in
  UpdateFlag xvalue 0x10 (IsAnyFlagSet modifierKeyState CTRL_PRESSED).

Definition _windowsButtonToXEncoding (button : Z) (isHover : bool) (modifierKeyState delta : Z) : Z :=
  let xvalue :=
    if one_of [WM_LBUTTONDBLCLK; WM_LBUTTONDOWN] button then 0
    else if one_of [WM_LBUTTONUP; WM_MBUTTONUP; WM_RBUTTONUP] button then 3
    else if one_of [WM_RBUTTONDOWN; WM_RBUTTONDBLCLK] button then 2
    else if one_of [WM_MBUTTONDOWN; WM_MBUTTONDBLCLK] button then 1
    else if one_of [WM_MOUSEWHEEL; WM_MOUSEHWHEEL] button then (if delta >? 0 then 0x40 else 0x41)
    else 0 in
  u16 (0x20 + add_modifiers xvalue isHover modifierKeyState).

Definition _windowsButtonToSGREncoding (button : Z) (isHover : bool) (modifierKeyState delta : Z) : Z :=
  let xvalue :=
    if one_of [WM_LBUTTONDBLCLK; WM_LBUTTONDOWN; WM_LBUTTONUP] button then 0
    else if one_of [WM_RBUTTONUP; WM_RBUTTONDOWN; WM_RBUTTONDBLCLK] button then 2
    else if one_of [WM_MBUTTONUP; WM_MBUTTONDOWN; WM_MBUTTONDBLCLK] button then 1
    else if one_of [WM_MOUSEMOVE] button then 3
    else if one_of [WM_MOUSEWHEEL; WM_MOUSEHWHEEL] button then (if delta >? 0 then 0x40 else 0x41)
    else 0 in
  add_modifiers xvalue isHover modifierKeyState.

Definition _winToVTCoord (coord : Z * Z) : Z * Z := (fst coord + 1, snd coord + 1).
Definition _encodeDefaultCoordinate (sCoordinateValue : Z) : Z := u16 (sCoordinateValue + 32).

Definition encoded_sequence (position : Z * Z) (button : Z) (isHover : bool) (modifierKeyState delta : Z)
    (t : TerminalInput) : list Z :=
  let vtCoords := _winToVTCoord position in
  _csi t ++ [wchar "M"; _windowsButtonToXEncoding button isHover modifierKeyState delta;
             _encodeDefaultCoordinate (fst vtCoords); _encodeDefaultCoordinate (snd vtCoords)].

Definition _GenerateDefaultSequence (position : Z * Z) (button : Z) (isHover : bool) (modifierKeyState delta : Z)
    (t : TerminalInput) : option (list Z) :=
  if (fst position <=? s_MaxDefaultCoordinate) && (snd position <=? s_MaxDefaultCoordinate)
  then Some (encoded_sequence position button isHover modifierKeyState delta t) else None.

Definition _GenerateUtf8Sequence (position : Z * Z) (button : Z) (isHover : bool) (modifierKeyState delta : Z)
    (t : TerminalInput) : option (list Z) :=
  if (fst position <=? SHORT_MAX - 33) && (snd position <=? SHORT_MAX - 33)
  then Some (encoded_sequence position button isHover modifierKeyState delta t) else None.

Definition _GenerateSGRSequence (position : Z * Z) (button : Z) (isRelease isHover : bool)
    (modifierKeyState delta : Z) (t : TerminalInput) : option (list Z) :=
  let xbutton := _windowsButtonToSGREncoding button isHover modifierKeyState delta in
  Some (_csi t ++ wstr "<" ++ format_int xbutton ++ wstr ";" ++ format_int (fst position + 1) ++ wstr ";"
        ++ format_int (snd position + 1) ++ [if isRelease then wchar "m" else wchar "M"]).

Definition IsTrackingMouseInput (t : TerminalInput) : bool := modes_any (_inputMode t) trackingModes.

Definition ShouldSendAlternateScroll (button delta : Z) (t : TerminalInput) : bool :=
  inAlternateBuffer (_mouseInputState t) && GetInputMode InputMode.AlternateScroll t
  && (one_of [WM_MOUSEWHEEL; WM_MOUSEHWHEEL] button && negb (delta =? 0)).

(** [_keyMap.at] throws when the key is missing. *)
Definition _makeAlternateScrollOutput (delta : Z) (t : TerminalInput) : outcome (option (list Z)) :=
  match _keyMap t !! (if delta >? 0 then VK_UP else VK_DOWN) with
  | Some sequence => Done (Some sequence)
  | None => Throws
  end.

(** [Utils::Sign] *)
Definition Sign (val : Z) : Z := (if 0 <? val then 1 else 0) - (if val <? 0 then 1 else 0).

Definition set_delta (delta : Z) (t : TerminalInput) : TerminalInput :=
  t <| _mouseInputState := (_mouseInputState t) <| accumulatedDelta := delta |> |>.

(** The wheel: the accumulated delta after the event, and whether it falls
    short of a line. *)
Definition accumulate_wheel (button delta : Z) (t : TerminalInput) : TerminalInput * bool :=
  let t := if negb (Sign delta =? Sign (accumulatedDelta (_mouseInputState t))) then set_delta 0 t else t in
  if _isWheelMsg button then
    let t := set_delta (accumulatedDelta (_mouseInputState t) + delta) t in
    if Z.abs (accumulatedDelta (_mouseInputState t)) <? WHEEL_DELTA then (t, true) else (set_delta 0 t, false)
  else (t, false).

(** Whether a tracked event is sent. *)
Definition should_track (position : Z * Z) (button realButton : Z) (t : TerminalInput) : bool :=
  let isHover := _isHoverMsg button in
  let sameCoord := bool_decide (position = lastPos (_mouseInputState t))
                   && (lastButton (_mouseInputState t) =? button) in
  let physicalButtonPressed := negb (realButton =? WM_LBUTTONUP) in
  _isButtonMsg button
  || (isHover && GetInputMode InputMode.ButtonEventMouseTracking t && (negb sameCoord && physicalButtonPressed))
  || (isHover && GetInputMode InputMode.AnyEventMouseTracking t && negb sameCoord).

(** The sequence of a tracked event in the encoding that is set. *)
Definition track_event (position : Z * Z) (button realButton modifierKeyState delta : Z) (t : TerminalInput)
    : TerminalInput * option (list Z) :=
  let isHover := _isHoverMsg button in
  let physicalButtonPressed := negb (realButton =? WM_LBUTTONUP) in
  let t :=
    if modes_any (_inputMode t) [InputMode.ButtonEventMouseTracking; InputMode.AnyEventMouseTracking]
    then t <| _mouseInputState := (_mouseInputState t) <| lastPos := position |> <| lastButton := button |> |>
    else t in
  (t, if GetInputMode InputMode.Utf8MouseEncoding t
      then _GenerateUtf8Sequence position realButton isHover modifierKeyState delta t
      else if GetInputMode InputMode.SgrMouseEncoding t
      then _GenerateSGRSequence position (if physicalButtonPressed then realButton else button)
             (_isButtonUp button) isHover modifierKeyState delta t
      else _GenerateDefaultSequence position realButton isHover modifierKeyState delta t).

Definition HandleMouse (position : Z * Z) (button modifierKeyState delta : Z) (state : MouseButtonState)
    (t : TerminalInput) : outcome (TerminalInput * option (list Z)) :=
  let '(t, short) := accumulate_wheel button delta t in
  if short then
    Done (t, if IsTrackingMouseInput t || ShouldSendAlternateScroll button delta t then Some [] else None)
  else
    let realButton := if _isHoverMsg button then s_GetPressedButton state else button in
    if IsTrackingMouseInput t && should_track position button realButton t
    then Done (track_event position button realButton modifierKeyState delta t)
    else if ShouldSendAlternateScroll button delta t
    then let* out := _makeAlternateScrollOutput delta t in Done (t, out)
    else Done (t, None).
