(* ===== verification/InputFacts.v ===== *)
(** * The state of keyboard and mouse input

    The key map and the introducers are a cache of the modes, recomputed only
    when one of six modes changes.  This file shows that the cache is never
    stale, that the mouse modes exclude each other, and that no event throws,
    in every state that a sequence of public calls reaches. *)

From stdpp Require Import gmap.
From S2P Require Import Prelude InputRecords TerminalInput.
#[local] Open Scope Z_scope.

(** ** Sets of modes as bits *)

Lemma modes_of_bits positions n : Forall (Z.le 0) positions -> 0 <= n ->
  Z.testbit (modes_of positions) n = existsb (Z.eqb n) positions.
Proof.
  intros Hp Hn. unfold modes_of.
  assert (Hgen : forall acc, Z.testbit (fold_left (fun data pos => Z.lor data (Z.shiftl 1 pos)) positions acc) n
                 = Z.testbit acc n || existsb (Z.eqb n) positions).
  { induction Hp as [|p ps Hp0 Hp IH]; intros acc; cbn; [by rewrite orb_false_r|].
    rewrite IH, Z.lor_spec, Z.shiftl_1_l, Z.pow2_bits_eqb by done. rewrite (Z.eqb_sym n p). by rewrite orb_assoc. }
  by rewrite Hgen, Z.bits_0.
Qed.

Lemma land_pow2_test a p : 0 <= p -> negb (Z.land a (2 ^ p) =? 0) = Z.testbit a p.
Proof.
  intros Hp. destruct (Z.testbit a p) eqn:Ht.
  - apply negb_true_iff, Z.eqb_neq. intros H0. apply (f_equal (fun x => Z.testbit x p)) in H0.
    rewrite Z.land_spec, Z.pow2_bits_true, Ht, Z.bits_0 in H0 by done. done.
  - apply negb_false_iff, Z.eqb_eq, Z.bits_inj'. intros n Hn.
    rewrite Z.land_spec, Z.bits_0, Z.pow2_bits_eqb by done. destruct (Z.eqb_spec p n) as [->|]; [by rewrite Ht|].
    apply andb_false_r.
Qed.

Lemma modes_test_bit data pos : 0 <= pos -> modes_test data pos = Z.testbit data pos.
Proof. intros Hp. unfold modes_test, modes_of. cbn [fold_left]. rewrite Z.lor_0_l, Z.shiftl_1_l. by apply land_pow2_test. Qed.

Lemma testbit_above a k n : 0 <= a < 2 ^ k -> 0 <= k <= n -> Z.testbit a n = false.
Proof.
  intros Ha Hn. destruct (Z.eq_dec a 0) as [->|]; [apply Z.bits_0|].
  apply Z.bits_above_log2; [lia|]. apply Z.log2_lt_pow2; [lia|]. apply Z.lt_le_trans with (2 ^ k); [lia|].
  apply Z.pow_le_mono_r; lia.
Qed.

Lemma bits_bound a k : 0 <= k -> 0 <= a -> (forall n, k <= n -> Z.testbit a n = false) -> a < 2 ^ k.
Proof.
  intros Hk Ha Hb. apply Z.nle_gt. intros Hle. assert (Hp : 0 < 2 ^ k) by (apply Z.pow_pos_nonneg; lia).
  assert (Hl : k <= Z.log2 a) by (apply Z.log2_le_pow2; lia).
  specialize (Hb (Z.log2 a) Hl). rewrite Z.bit_log2 in Hb by lia. done.
Qed.

Lemma lor_bound a b k : 0 <= k -> 0 <= a < 2 ^ k -> 0 <= b < 2 ^ k -> 0 <= Z.lor a b < 2 ^ k.
Proof.
  intros Hk Ha Hb. assert (H0 : 0 <= Z.lor a b) by (apply Z.lor_nonneg; lia). split; [done|].
  apply bits_bound; [done..|]. intros n Hn. by rewrite Z.lor_spec, !(testbit_above _ k) by lia.
Qed.

Lemma ldiff_bound a b k : 0 <= k -> 0 <= a < 2 ^ k -> 0 <= Z.ldiff a b < 2 ^ k.
Proof.
  intros Hk Ha. assert (H0 : 0 <= Z.ldiff a b) by (apply Z.ldiff_nonneg; lia). split; [done|].
  apply bits_bound; [done..|]. intros n Hn. by rewrite Z.ldiff_spec, (testbit_above a k) by lia.
Qed.

(** ** The cache *)

Section Facts.
Variable keypadModeEnabled : bool.

(** What is derived from the modes. *)
Definition derived (t : TerminalInput) : KeyMap * list Z * list Z * list Z * list Z :=
  (_keyMap t, _csi t, _ss3 t, _focusInSequence t, _focusOutSequence t).

Definition coherent (t : TerminalInput) : Prop :=
  derived t = derived (_initKeyboardMap keypadModeEnabled t).

Definition map_modes : list Z :=
  [InputMode.LineFeed; InputMode.Ansi; InputMode.Keypad; InputMode.CursorKey; InputMode.BackarrowKey; InputMode.SendC1].

Lemma derived_modes t t' :
  (forall m, In m map_modes -> Z.testbit (_inputMode t) m = Z.testbit (_inputMode t') m) ->
  derived (_initKeyboardMap keypadModeEnabled t) = derived (_initKeyboardMap keypadModeEnabled t').
Proof.
  intros Hm. unfold _initKeyboardMap, derived.
  cbn [_keyMap _csi _ss3 _focusInSequence _focusOutSequence setter eta eta_TerminalInput].
  assert (Ht : forall m, In m map_modes -> modes_test (_inputMode t) m = modes_test (_inputMode t') m).
  { intros m Hin. rewrite !modes_test_bit; [by apply Hm|..]; cbn in Hin; unfold InputMode.LineFeed, InputMode.Ansi,
      InputMode.Keypad, InputMode.CursorKey, InputMode.BackarrowKey, InputMode.SendC1 in Hin; lia. }
  rewrite !Ht by (cbn; tauto). done.
Qed.

Lemma init_coherent t : coherent (_initKeyboardMap keypadModeEnabled t).
Proof. apply derived_modes. done. Qed.

(** A call that leaves the cache and the six modes alone. *)
Lemma coherent_frame t t' : coherent t -> derived t' = derived t ->
  (forall m, In m map_modes -> Z.testbit (_inputMode t') m = Z.testbit (_inputMode t) m) -> coherent t'.
Proof. unfold coherent. intros Hc -> Hm. rewrite Hc. symmetry. by apply derived_modes. Qed.

(** ** The invariant *)

(** At most one of the positions is set. *)
Definition exclusive (data : Z) (positions : list Z) : Prop :=
  forall m n, In m positions -> In n positions -> Z.testbit data m = true -> Z.testbit data n = true -> m = n.

Record input_ok (t : TerminalInput) : Prop := {
  ok_map : coherent t;
  ok_modes : 0 <= _inputMode t < 2 ^ 15;
  ok_tracking : exclusive (_inputMode t) trackingModes;
  ok_encoding : exclusive (_inputMode t) encodingModes;
  ok_surrogate : _leadingSurrogate t = 0 \/ is_leading_surrogate (_leadingSurrogate t) = true;
  ok_delta : Z.abs (accumulatedDelta (_mouseInputState t)) < WHEEL_DELTA;
}.

(** The public calls. *)
Inductive InputOp :=
| OpSetMode (mode : Z) (enabled : bool)
| OpReset
| OpForceDisable (b : bool)
| OpAlternate (b : bool)
| OpKey (sys : KeyboardSystem) (event : INPUT_RECORD)
| OpMouse (position : Z * Z) (button modifierKeyState delta : Z) (state : MouseButtonState).

Definition op_ok (op : InputOp) : Prop := match op with OpSetMode mode _ => 0 <= mode < 15 | _ => True end.

Definition run_op (op : InputOp) (t : TerminalInput) : outcome TerminalInput :=
  match op with
  | OpSetMode mode enabled => Done (SetInputMode keypadModeEnabled mode enabled t)
  | OpReset => Done (ResetInputModes keypadModeEnabled t)
  | OpForceDisable b => Done (ForceDisableWin32InputMode b t)
  | OpAlternate b => Done (if b then UseAlternateScreenBuffer t else UseMainScreenBuffer t)
  | OpKey sys event => Done (fst (HandleKey sys event t))
  | OpMouse position button modifierKeyState delta state =>
      let* r := HandleMouse position button modifierKeyState delta state t in Done (fst r)
  end.

Fixpoint run_input (ops : list InputOp) (t : TerminalInput) : outcome TerminalInput :=
  match ops with
  | [] => Done t
  | op :: ops => let* t := run_op op t in run_input ops t
  end.

(** ** Setting a mode *)

Definition is_tracking (mode : Z) : bool := existsb (Z.eqb mode) trackingModes.
Definition is_encoding (mode : Z) : bool := existsb (Z.eqb mode) encodingModes.

Lemma in_positions m ps : In m ps <-> existsb (Z.eqb m) ps = true.
Proof.
  rewrite existsb_exists. split; [intros Hi; exists m; by rewrite Z.eqb_refl|].
  intros (x & Hx & ->%Z.eqb_eq). done.
Qed.

Lemma set_bit data pos v n : 0 <= pos -> 0 <= n ->
  Z.testbit (modes_set data pos v) n = if n =? pos then v else Z.testbit data n.
Proof.
  intros Hp Hn. unfold modes_set. rewrite Z.lor_spec, Z.ldiff_spec.
  assert (Hb : Z.testbit (modes_of [pos]) n = (n =? pos)).
  { rewrite modes_of_bits by (repeat constructor; done). cbn. by rewrite orb_false_r. }
  rewrite Hb. destruct v.
  - rewrite Hb. destruct (n =? pos), (Z.testbit data n); done.
  - rewrite Z.bits_0. destruct (n =? pos), (Z.testbit data n); done.
Qed.

Lemma reset_bit data ps n : Forall (Z.le 0) ps -> 0 <= n ->
  Z.testbit (modes_reset data ps) n = Z.testbit data n && negb (existsb (Z.eqb n) ps).
Proof. intros Hp Hn. unfold modes_reset. by rewrite Z.ldiff_spec, modes_of_bits. Qed.

(** The modes after [SetInputMode]. *)
Definition modes_after (mode : Z) (enabled : bool) (data : Z) : Z :=
  let data := if is_tracking mode then modes_reset data trackingModes else data in
  let data := if is_encoding mode && enabled then modes_reset data encodingModes else data in
  modes_set data mode enabled.

Lemma set_mode_modes mode enabled t :
  _inputMode (SetInputMode keypadModeEnabled mode enabled t) = modes_after mode enabled (_inputMode t).
Proof.
  unfold SetInputMode, modes_after. fold (is_tracking mode). fold (is_encoding mode).
  destruct (is_tracking mode), (is_encoding mode && enabled), (modes_test keyMapModes mode); done.
Qed.

Lemma tracking_nonneg : Forall (Z.le 0) trackingModes.
Proof. by repeat constructor. Qed.
Lemma encoding_nonneg : Forall (Z.le 0) encodingModes.
Proof. by repeat constructor. Qed.

Lemma modes_after_bit mode enabled data n : 0 <= mode -> 0 <= n ->
  Z.testbit (modes_after mode enabled data) n =
  if n =? mode then enabled
  else Z.testbit data n && negb (is_tracking mode && is_tracking n)
       && negb (is_encoding mode && enabled && is_encoding n).
Proof.
  intros Hm Hn. unfold modes_after. rewrite set_bit by done. destruct (n =? mode); [done|].
  destruct (is_encoding mode && enabled); rewrite ?reset_bit by (done || apply encoding_nonneg);
    fold (is_encoding n); destruct (is_tracking mode); rewrite ?reset_bit by (done || apply tracking_nonneg);
    fold (is_tracking n); destruct (Z.testbit data n), (is_tracking n), (is_encoding n); done.
Qed.

Lemma modes_after_range mode enabled data : 0 <= mode < 15 -> 0 <= data < 2 ^ 15 ->
  0 <= modes_after mode enabled data < 2 ^ 15.
Proof.
  intros Hm Hd.
  assert (Hnn : 0 <= modes_after mode enabled data).
  { unfold modes_after, modes_set, modes_reset. apply Z.lor_nonneg. split; [|by destruct enabled; [apply Z.lor_nonneg; split; [done|apply Z.shiftl_nonneg; lia]|]].
    apply Z.ldiff_nonneg. left. destruct (is_tracking mode), (is_encoding mode && enabled);
      repeat (apply Z.ldiff_nonneg; left); lia. }
  split; [done|]. apply bits_bound; [lia|done|]. intros n Hn.
  rewrite modes_after_bit by lia. rewrite (testbit_above data 15 n) by lia.
  destruct (Z.eqb_spec n mode); [lia|done].
Qed.

(** A mode set among [ps], which excludes the others, or leaves them alone. *)
Lemma modes_after_exclusive mode enabled data ps : 0 <= mode -> Forall (Z.le 0) ps ->
  (forall n, In n ps -> n <> mode -> Z.testbit (modes_after mode enabled data) n = true ->
     Z.testbit data n = true /\ (In mode ps -> enabled = false)) ->
  exclusive data ps -> exclusive (modes_after mode enabled data) ps.
Proof.
  intros Hm Hps Hback Hex m n Hin Hjn Hbm Hbn.
  assert (Hon : Z.testbit (modes_after mode enabled data) mode = enabled)
    by (rewrite modes_after_bit, Z.eqb_refl; done).
  destruct (Z.eq_dec m mode) as [->|Hne], (Z.eq_dec n mode) as [->|Hne']; [done| | |].
  - destruct (Hback n Hjn Hne' Hbn) as [_ Hd]. rewrite Hon in Hbm. rewrite Hd in Hbm; done.
  - destruct (Hback m Hin Hne Hbm) as [_ Hd]. rewrite Hon in Hbn. rewrite Hd in Hbn; done.
  - apply (Hex m n Hin Hjn); [by apply Hback|by apply Hback].
Qed.

Lemma set_mode_derived mode enabled t : modes_test keyMapModes mode = false ->
  derived (SetInputMode keypadModeEnabled mode enabled t) = derived t.
Proof.
  intros Hk. unfold SetInputMode. rewrite Hk.
  destruct (existsb (Z.eqb mode) trackingModes), (existsb (Z.eqb mode) encodingModes && enabled); done.
Qed.

Lemma map_mode_range m : In m map_modes ->
  0 <= m < 8 /\ modes_test keyMapModes m = true /\ is_tracking m = false /\ is_encoding m = false.
Proof. intros Hin. repeat (destruct Hin as [<-|Hin]; [by vm_compute|]). done. Qed.

Lemma keymap_mode mode : 0 <= mode < 15 -> modes_test keyMapModes mode = true -> In mode map_modes.
Proof.
  intros Hm. rewrite modes_test_bit by lia. unfold keyMapModes. rewrite modes_of_bits; [by rewrite in_positions| |lia].
  by repeat constructor.
Qed.

Lemma set_mode_ok mode enabled t : 0 <= mode < 15 -> input_ok t ->
  input_ok (SetInputMode keypadModeEnabled mode enabled t).
Proof.
  intros Hm [Hmap Hmodes Htr Henc Hsur Hdelta].
  constructor; rewrite ?set_mode_modes; [|by apply modes_after_range|..].
  - destruct (modes_test keyMapModes mode) eqn:Hk.
    + unfold SetInputMode. rewrite Hk. apply init_coherent.
    + apply (coherent_frame t); [done|by apply set_mode_derived|]. intros m Hin. rewrite set_mode_modes.
      destruct (map_mode_range m Hin) as (Hr & Hmt & Ht & He). rewrite modes_after_bit by lia.
      assert (Hne : m <> mode) by congruence. rewrite (proj2 (Z.eqb_neq m mode) Hne).
      by rewrite Ht, He, !andb_false_r, !andb_true_r.
  - apply modes_after_exclusive; [lia|apply tracking_nonneg| |done]. intros n Hin Hne.
    rewrite modes_after_bit, (proj2 (Z.eqb_neq n mode) Hne), !andb_true_iff; [|lia|].
    2:{ apply (proj1 (Forall_forall (Z.le 0) trackingModes) tracking_nonneg n Hin). }
    intros ((Hb & Ht) & _). split; [done|]. intros Hmt. rewrite in_positions in Hin, Hmt.
    unfold is_tracking in Ht. by rewrite Hin, Hmt in Ht.
  - apply modes_after_exclusive; [lia|apply encoding_nonneg| |done]. intros n Hin Hne.
    rewrite modes_after_bit, (proj2 (Z.eqb_neq n mode) Hne), !andb_true_iff; [|lia|].
    2:{ apply (proj1 (Forall_forall (Z.le 0) encodingModes) encoding_nonneg n Hin). }
    intros ((Hb & _) & He). split; [done|]. intros Hmt. rewrite in_positions in Hin, Hmt.
    unfold is_encoding in He. rewrite Hin, Hmt in He. by destruct enabled.
  - unfold SetInputMode. destruct (existsb _ trackingModes), (existsb _ encodingModes && enabled), (modes_test _ _); done.
  - unfold SetInputMode. destruct (existsb _ trackingModes), (existsb _ encodingModes && enabled), (modes_test _ _); done.
Qed.

(** ** The map that the modes give *)

Definition csi_of (sendC1 : bool) : list Z := if sendC1 then [0x9B] else 0x1B :: wstr "[".
Definition ss3_of (sendC1 : bool) : list Z := if sendC1 then [0x8F] else 0x1B :: wstr "O".

Definition build_map (backarrow lineFeed sendC1 ansi cursorKey keypad : bool) : KeyMap :=
  let map := define_control_keys backarrow lineFeed (csi_of sendC1) ∅ in
  if ansi then define_ansi_keys cursorKey keypad (csi_of sendC1) (ss3_of sendC1) map
  else define_vt52_keys keypad map.

Lemma coherent_map t : coherent t ->
  let test := modes_test (_inputMode t) in
  _keyMap t = build_map (test InputMode.BackarrowKey) (test InputMode.LineFeed) (test InputMode.SendC1)
                (test InputMode.Ansi) (test InputMode.CursorKey) (keypadModeEnabled && test InputMode.Keypad) /\
  _csi t = csi_of (test InputMode.SendC1) /\ _ss3 t = ss3_of (test InputMode.SendC1) /\
  _focusInSequence t = _csi t ++ wstr "I" /\ _focusOutSequence t = _csi t ++ wstr "O".
Proof.
  intros Hc. cbv zeta. unfold coherent, derived, _initKeyboardMap in Hc.
  cbn [_keyMap _csi _ss3 _focusInSequence _focusOutSequence setter eta eta_TerminalInput] in Hc.
  injection Hc as -> -> -> -> ->. done.
Qed.

Lemma scroll_keys b1 b2 b3 b4 b5 b6 key : key = VK_UP \/ key = VK_DOWN ->
  bool_decide (is_Some (build_map b1 b2 b3 b4 b5 b6 !! key)) = true.
Proof. intros [-> | ->]; destruct b1, b2, b3, b4, b5, b6; vm_compute; reflexivity. Qed.

(** ** Events keep the invariant *)

Lemma input_ok_frame t t' : input_ok t -> derived t' = derived t -> _inputMode t' = _inputMode t ->
  (_leadingSurrogate t' = 0 \/ is_leading_surrogate (_leadingSurrogate t') = true) ->
  Z.abs (accumulatedDelta (_mouseInputState t')) < WHEEL_DELTA -> input_ok t'.
Proof.
  intros [Hmap Hmodes Htr Henc Hsur Hdelta] Hd Hi Hs Ha. constructor; rewrite ?Hi; try done.
  apply (coherent_frame t); [done..|]. intros m _. by rewrite Hi.
Qed.

Lemma track_control_frame sys key t :
  derived (_trackControlKeyState sys key t) = derived t /\
  _inputMode (_trackControlKeyState sys key t) = _inputMode t /\
  _leadingSurrogate (_trackControlKeyState sys key t) = _leadingSurrogate t /\
  _mouseInputState (_trackControlKeyState sys key t) = _mouseInputState t /\
  _lastVirtualKeyCode (_trackControlKeyState sys key t) = _lastVirtualKeyCode t.
Proof. unfold _trackControlKeyState. repeat case_match; done. Qed.

Lemma handle_key_ok sys event t : input_ok t -> input_ok (fst (HandleKey sys event t)).
Proof.
  intros Hok. destruct event as [key| | | |]; try done. unfold HandleKey.
  destruct (GetInputMode _ t && _); [done|].
  destruct (track_control_frame sys key t) as (Hd & Hi & Hl & Hm & _).
  set (t1 := _trackControlKeyState sys key t) in *. clearbody t1.
  assert (Hok1 : input_ok t1)
    by (apply (input_ok_frame t); rewrite ?Hl, ?Hm; try done; destruct Hok; done).
  destruct (negb (bKeyDown key)).
  { unfold key_release. apply (input_ok_frame t1); [done|..]; cbn [fst]; case_match; try done; apply Hok1. }
  destruct (is_leading_surrogate (UnicodeChar key)) eqn:Hlead;
    [|destruct ((wVirtualKeyCode key =? VK_PACKET) || _);
      [|destruct (bool_decide _ && _)]]; cbn [fst];
    (apply (input_ok_frame t1); [done|done|done|cbn; by auto|apply Hok1]).
Qed.

Lemma accumulate_wheel_frame button delta t : let t' := fst (accumulate_wheel button delta t) in
  derived t' = derived t /\ _inputMode t' = _inputMode t /\ _leadingSurrogate t' = _leadingSurrogate t /\
  (Z.abs (accumulatedDelta (_mouseInputState t)) < WHEEL_DELTA ->
   Z.abs (accumulatedDelta (_mouseInputState t')) < WHEEL_DELTA).
Proof.
  cbv zeta. unfold accumulate_wheel. set (t1 := if negb _ then set_delta 0 t else t).
  assert (H1 : derived t1 = derived t /\ _inputMode t1 = _inputMode t /\ _leadingSurrogate t1 = _leadingSurrogate t /\
            (Z.abs (accumulatedDelta (_mouseInputState t)) < WHEEL_DELTA ->
             Z.abs (accumulatedDelta (_mouseInputState t1)) < WHEEL_DELTA)) by (unfold t1; case_match; done).
  clearbody t1. destruct (_isWheelMsg button); [|done].
  destruct (Z.abs _ <? WHEEL_DELTA) eqn:Hlt; cbn [fst]; split_and!; try apply H1; intros _; [lia|done].
Qed.

(** A mouse event never throws: the keys that scroll are always in the map. *)
Lemma handle_mouse_ok position button modifierKeyState delta state t : input_ok t ->
  exists r, HandleMouse position button modifierKeyState delta state t = Done r /\ input_ok (fst r).
Proof.
  intros Hok. unfold HandleMouse.
  destruct (accumulate_wheel_frame button delta t) as (Hd & Hi & Hl & Ha).
  destruct (accumulate_wheel button delta t) as [t1 short]. cbn [fst] in *.
  assert (Hok1 : input_ok t1)
    by (apply (input_ok_frame t); rewrite ?Hl; try done; [apply Hok|apply Ha; apply Hok]).
  destruct short; [by eexists|].
  destruct (IsTrackingMouseInput t1 && _).
  { eexists. split; [done|]. unfold track_event. cbn [fst].
    apply (input_ok_frame t1); [done|..]; case_match; try done; apply Hok1. }
  destruct (ShouldSendAlternateScroll button delta t1); [|by eexists].
  unfold _makeAlternateScrollOutput. destruct (coherent_map t1 (ok_map _ Hok1)) as (-> & _).
  set (key := if delta >? 0 then VK_UP else VK_DOWN).
  assert (Hkey : key = VK_UP \/ key = VK_DOWN) by (unfold key; case_match; auto).
  assert (Hs := fun b1 b2 b3 b4 b5 b6 => bool_decide_eq_true_1 _ (scroll_keys b1 b2 b3 b4 b5 b6 key Hkey)).
  match goal with |- context [build_map ?a ?b ?c ?d ?e ?f !! _] => destruct (Hs a b c d e f) as [s ->] end.
  by eexists.
Qed.

Lemma new_input_ok : input_ok (new_TerminalInput keypadModeEnabled).
Proof.
  constructor; [apply init_coherent|by vm_compute|..].
  - intros m n Hm _ Hb. exfalso. repeat (destruct Hm as [<-|Hm]; [by vm_compute in Hb|]). done.
  - intros m n Hm _ Hb. exfalso. repeat (destruct Hm as [<-|Hm]; [by vm_compute in Hb|]). done.
  - by left.
  - by vm_compute.
Qed.

Lemma reset_ok t : input_ok t -> input_ok (ResetInputModes keypadModeEnabled t).
Proof.
  intros Hok. constructor; [apply init_coherent|by vm_compute|..]; [| |apply Hok|apply Hok];
    intros m n Hm _ Hb; exfalso; repeat (destruct Hm as [<-|Hm]; [by vm_compute in Hb|]); done.
Qed.

Lemma run_op_ok op t : op_ok op -> input_ok t -> exists t', run_op op t = Done t' /\ input_ok t'.
Proof.
  intros Hop Hok. destruct op as [mode enabled| |b|b|sys event|position button mods delta state]; cbn.
  - eexists. split; [done|]. by apply set_mode_ok.
  - eexists. split; [done|]. by apply reset_ok.
  - eexists. split; [done|]. apply (input_ok_frame t); try done; apply Hok.
  - eexists. split; [done|]. apply (input_ok_frame t); destruct b; try done; apply Hok.
  - eexists. split; [done|]. by apply handle_key_ok.
  - destruct (handle_mouse_ok position button mods delta state t Hok) as (r & -> & Hr). by eexists.
Qed.

Lemma run_input_ok ops t : Forall op_ok ops -> input_ok t -> exists t', run_input ops t = Done t' /\ input_ok t'.
Proof.
  intros Hops. revert t. induction Hops as [|op ops Hop Hops IH]; intros t Hok; [by eexists|].
  destruct (run_op_ok op t Hop Hok) as (t1 & Hr & Hok1). cbn. rewrite Hr. by apply IH.
Qed.

(** C19: in every state that a sequence of mode changes, resets, keys and
    mouse events leads to, the cached key map, introducers and focus
    sequences are those that the current modes give, at most one mouse
    tracking mode and at most one extended encoding is set, a stored
    surrogate is a leading one, and less than a line of wheel movement is
    pending.  No event throws on the way. *)
Theorem input_coherent ops : Forall op_ok ops ->
  exists t, run_input ops (new_TerminalInput keypadModeEnabled) = Done t /\ input_ok t.
Proof. intros Hops. apply run_input_ok; [done|apply new_input_ok]. Qed.
End Facts.
