(* ===== verification/InputRoundtrip.v ===== *)
(** * From an event to its text and back

    A terminal encodes keys and mouse events with [TerminalInput]; the
    console it hosts parses that text with the input engine.  Here the two
    are composed: the engine receives the event that was encoded. *)

From stdpp Require Import gmap.
From S2P Require Import Prelude VTTypes StateMachine ParserFacts ParserRoundtrip ParserStrings OutputEngine.
From S2P Require Import InputRecords InputEngine TerminalInput InputFacts.
#[local] Open Scope Z_scope.

(** ** Numbers *)

Lemma digits_fuel f g n acc : (0 < f)%nat -> (0 < g)%nat -> 0 <= n < 10 ^ Z.of_nat f -> n < 10 ^ Z.of_nat g ->
  digits_aux f n acc = decimal_aux g n acc.
Proof.
  revert g n acc. induction f as [|f IH]; intros g n acc Hf Hg Hn Hn'; [lia|].
  destruct g as [|g]; [lia|]. cbn [digits_aux decimal_aux]. destruct (n <? 10) eqn:Hlt; [done|].
  rewrite Nat2Z.inj_succ, Z.pow_succ_r in Hn, Hn' by lia.
  apply IH.
  - destruct f; [cbn in Hn; lia|lia].
  - destruct g; [cbn in Hn'; lia|lia].
  - split; [apply Z.div_pos; lia|apply Z.div_lt_upper_bound; lia].
  - apply Z.div_lt_upper_bound; lia.
Qed.

Lemma format_digits n : 0 <= n < 100000 -> format_int n = digits n.
Proof.
  intros Hn. unfold format_int, digits. rewrite (proj2 (Z.ltb_ge n 0)) by lia. symmetry.
  apply digits_fuel; [lia..| |]; change (10 ^ Z.of_nat 5) with 100000; change (10 ^ Z.of_nat 10) with 10000000000; lia.
Qed.

Lemma encode_plain_value v : 0 <= v < 100000 -> encode_value v = format_int v.
Proof. intros Hv. unfold encode_value. rewrite (proj2 (Z.ltb_ge v 0)) by lia. by rewrite format_digits. Qed.

(** Parameters without sub parameters. *)
Definition plain (ps : list Z) : ParamGroups := map (fun p => (p, [])) ps.

Fixpoint join_params (ps : list Z) : list Z :=
  match ps with [] => [] | [p] => format_int p | p :: ps => format_int p ++ wstr ";" ++ join_params ps end.

Definition value16 (v : Z) : Prop := 0 <= v <= 65535.

Lemma encode_plain ps : Forall value16 ps -> encode_groups (plain ps) = join_params ps.
Proof.
  intros Hps. induction Hps as [|p ps Hp Hps IH]; [done|].
  assert (He : encode_group (p, []) = format_int p).
  { unfold encode_group, encode_subs. cbn [fst snd map concat]. rewrite app_nil_r. apply encode_plain_value.
    unfold value16 in Hp. lia. }
  destruct ps as [|p' ps]; [exact He|].
  change (encode_groups (plain (p :: p' :: ps))) with (encode_group (p, []) ++ SEMI :: encode_groups (plain (p' :: ps))).
  by rewrite He, IH.
Qed.

Lemma plain16_ok ps : Forall value16 ps -> (length ps <= 32)%nat -> groups_ok (plain ps).
Proof.
  intros Hps Hl. split; [unfold plain; rewrite length_map; unfold MAX_PARAMETER_COUNT; lia|].
  unfold plain. apply Forall_map. eapply Forall_impl; [|exact Hps]. intros p Hp. cbn.
  split; [right; unfold MAX_PARAMETER_VALUE; unfold value16 in Hp; lia|]. split; [unfold MAX_SUBPARAMETER_COUNT; lia|constructor].
Qed.

Lemma plain_not_default ps : Forall value16 ps -> plain ps <> [(VTParameter_default, [])].
Proof.
  intros Hps Heq. destruct ps as [|p [|]]; [done| |done]. apply Forall_inv in Hps. injection Heq as ->.
  unfold value16, VTParameter_default in Hps. lia.
Qed.

Lemma plain_params ps : vp_params (params_of (plain ps)) = ps.
Proof. cbn. unfold plain. rewrite map_map. apply map_id. Qed.

Lemma no_marker : marker_ok [].
Proof. split; [cbn; lia|constructor]. Qed.

(** ** The console that receives the text *)

Section Host.
Context {D : Type} `{Disp : !IInteractDispatch D} `{Layout : !KeyboardLayout}.
Variable clock : nat -> Z.
Abbreviation E := (InputStateMachineEngine D).
Abbreviation SM := (StateMachine E Empty_set Empty_set).
Variable runCallback : Empty_set -> SM -> SM.
#[local] Existing Instance InputEngine.
#[local] Instance Eng : IStateMachineEngine E Empty_set Empty_set := InputEngine clock.
Abbreviation Process := (ProcessString runCallback).

(** Between two sequences. *)
Record host_ready (sm : SM) : Prop := {
  hr_state : _state sm = Ground;
  hr_ansi : _parserMode_Ansi sm = true;
  hr_input : _isEngineForInput sm = true;
  hr_cached : _cachedSequence sm = None;
  hr_callback : _onCsiCompleteCallback sm = None;
}.

(** The introducers the terminal sends are understood. *)
Definition c1_accepted (sendC1 : bool) (sm : SM) : Prop := sendC1 = true -> _parserMode_AcceptC1 sm = true.

Lemma csi_understood sendC1 sm : c1_accepted sendC1 sm -> csi_introducer (csi_of sendC1) sm.
Proof. destruct sendC1; [right; auto|by left]. Qed.

Lemma ss3_understood sendC1 sm : c1_accepted sendC1 sm -> ss3_introducer (ss3_of sendC1) sm.
Proof. destruct sendC1; [right; auto|by left]. Qed.

(** The machine after a dispatch that the engine accepted without requests. *)
Lemma after_dispatch text (call : E -> EngineResult Empty_set E bool) e' (sm sm' : SM) : host_ready sm ->
  at_dispatch text sm sm' -> call (_engine sm) = mkEngineResult e' (Some true) [] ->
  let smx := processString_tail ((safely call ;> _EnterGround ;> _ExecuteCsiCompleteCallback runCallback) sm') in
  host_ready smx /\ _engine smx = e' /\ _parserMode_AcceptC1 smx = _parserMode_AcceptC1 sm.
Proof.
  intros [H1 H2 H3 H4 H5] [A1 A2 A3 A4 A5 A6 A7] Hc. cbv zeta. unfold seq_step, safely, _SafeExecute, SafeExecute_with, engine_call.
  rewrite A1, Hc. unfold apply_requests. cbn [fst er_result er_requests er_engine fold_left].
  assert (Hcb : _onCsiCompleteCallback (_EnterGround (sm' <| _engine := e' |>)) = None)
    by (change (_onCsiCompleteCallback sm' = None); by rewrite A2).
  unfold _ExecuteCsiCompleteCallback. rewrite Hcb.
  assert (Htail : processString_tail (_EnterGround (sm' <| _engine := e' |>)) = _EnterGround (sm' <| _engine := e' |>)) by done.
  rewrite Htail. split_and!; [split; cbn; congruence|done|cbn; congruence].
Qed.

Lemma after_dispatch_plain text (call : E -> EngineResult Empty_set E bool) e' (sm sm' : SM) : host_ready sm ->
  at_dispatch text sm sm' -> call (_engine sm) = mkEngineResult e' (Some true) [] ->
  let smx := processString_tail ((safely call ;> _EnterGround) sm') in
  host_ready smx /\ _engine smx = e' /\ _parserMode_AcceptC1 smx = _parserMode_AcceptC1 sm.
Proof.
  intros Hr Ha Hc. pose proof (after_dispatch text call e' sm sm' Hr Ha Hc) as Hx. revert Hx. cbv zeta.
  destruct Ha as [A1 A2 A3 A4 A5 A6 A7], Hr as [H1 H2 H3 H4 H5].
  unfold seq_step, safely, _SafeExecute, SafeExecute_with, engine_call. rewrite A1, Hc.
  unfold apply_requests. cbn [fst er_result er_requests er_engine fold_left].
  assert (Hcb : _onCsiCompleteCallback (_EnterGround (sm' <| _engine := e' |>)) = None)
    by (change (_onCsiCompleteCallback sm' = None); by rewrite A2).
  unfold _ExecuteCsiCompleteCallback. by rewrite Hcb.
Qed.

(** A sequence that the engine handles. *)
Lemma csi_handled sendC1 marker ps f e' (sm : SM) : host_ready sm -> c1_accepted sendC1 sm -> marker_ok marker ->
  Forall value16 ps -> (length ps <= 32)%nat -> 0x40 <= f <= 0x7E ->
  input_CsiDispatch clock (VTID_FromString (marker ++ [f])) (params_of (plain ps)) (_engine sm)
  = mkEngineResult e' (Some true) [] ->
  let smx := Process (csi_of sendC1 ++ marker ++ join_params ps ++ [f]) sm in
  host_ready smx /\ _engine smx = e' /\ _parserMode_AcceptC1 smx = _parserMode_AcceptC1 sm.
Proof.
  intros Hr Hc Hm Hps Hl Hf Hd.
  destruct (csi_string runCallback (csi_of sendC1) marker (plain ps) [] f sm) as (sm' & Ha & Heq);
    try (apply Hr || done).
  - by apply csi_understood.
  - by apply plain16_ok.
  - by apply plain_not_default.
  - destruct Hm as [Hm _]. cbn. lia.
  - assert (Ht : csi_of sendC1 ++ marker ++ join_params ps ++ [f]
               = (csi_of sendC1 ++ marker ++ encode_groups (plain ps) ++ []) ++ [f])
      by (rewrite encode_plain by done; by rewrite app_nil_r, !app_assoc).
    rewrite Ht, Heq. by eapply after_dispatch.
Qed.

Lemma ss3_handled sendC1 f e' (sm : SM) : host_ready sm -> c1_accepted sendC1 sm -> 0x40 <= f <= 0x7E ->
  input_Ss3Dispatch f (VTParameters_plain []) (_engine sm) = mkEngineResult e' (Some true) [] ->
  let smx := Process (ss3_of sendC1 ++ [f]) sm in
  host_ready smx /\ _engine smx = e' /\ _parserMode_AcceptC1 smx = _parserMode_AcceptC1 sm.
Proof.
  intros Hr Hc Hf Hd.
  destruct (ss3_string runCallback (ss3_of sendC1) f sm) as (sm' & Ha & Heq); try (apply Hr || done).
  - by apply ss3_understood.
  - cbv zeta. rewrite Heq. by eapply after_dispatch_plain.
Qed.

(** ** Win32 input mode *)

Definition key_fits (key : KEY_EVENT_RECORD) : Prop :=
  value16 (wRepeatCount key) /\ value16 (wVirtualKeyCode key) /\ value16 (wVirtualScanCode key) /\
  value16 (UnicodeChar key) /\ value16 (dwControlKeyState key).

Lemma u16_value v : value16 v -> u16 v = v.
Proof. unfold value16. intros. apply u16_small. lia. Qed.

Lemma saturate_value w v : value16 v -> 16 <= w -> saturate_unsigned w v = v.
Proof.
  unfold value16, saturate_unsigned. intros Hv Hw. assert (2 ^ 16 <= 2 ^ w) by (apply Z.pow_le_mono_r; lia).
  change (2 ^ 16) with 65536 in *. lia.
Qed.

Lemma u32_value v : value16 v -> u32 v = v.
Proof. unfold value16. intros. apply u32_small. lia. Qed.

Definition win32_params (key : KEY_EVENT_RECORD) : list Z :=
  [wVirtualKeyCode key; wVirtualScanCode key; UnicodeChar key; if bKeyDown key then 1 else 0;
   dwControlKeyState key; wRepeatCount key].

Lemma win32_params_ok key : key_fits key -> Forall value16 (win32_params key).
Proof.
  intros (H1 & H2 & H3 & H4 & H5). unfold win32_params.
  repeat (apply Forall_cons; [done|]). apply Forall_cons; [destruct (bKeyDown key); done|].
  by repeat (apply Forall_cons; [done|]).
Qed.

Lemma win32_decoded key : key_fits key -> _GenerateWin32Key (params_of (plain (win32_params key))) = KeyEvent key.
Proof.
  intros (H1 & H2 & H3 & H4 & H5). unfold _GenerateWin32Key, param_at. rewrite plain_params.
  unfold win32_params. cbn [lookup list_lookup default Nat.pred].
  assert (Hv : forall v d, value16 v -> value_or v d = v)
    by (intros v d Hv; unfold value_or, value16 in *; by rewrite (proj2 (Z.ltb_ge v 0)) by lia).
  rewrite !Hv by (try done; destruct (bKeyDown key); done).
  rewrite !saturate_value by (done || lia). unfold SynthesizeKeyEvent. rewrite !u16_value, u32_value by done.
  destruct key as [[] rc vk sc uc cs]; done.
Qed.

Variable keypadModeEnabled : bool.

(** C25: in win32 input mode a key press or release is sent without loss.
    For every key record with 16-bit fields the text the terminal sends, in
    the seven or the eight bit form, makes the hosted console receive exactly
    that record, once, and the parser is ready for the next event. *)
Theorem win32_key_roundtrip sys t key (sm : SM) d' :
  coherent keypadModeEnabled t -> GetInputMode InputMode.Win32 t = true -> _forceDisableWin32InputMode t = false ->
  key_fits key -> host_ready sm -> c1_accepted (GetInputMode InputMode.SendC1 t) sm ->
  interact (WriteCtrlKey (KeyEvent key)) (_pDispatch (_engine sm)) = (d', true) ->
  exists text, HandleKey sys (KeyEvent key) t = (t, Some text) /\
    let sm' := Process text sm in
    host_ready sm' /\ _engine sm' = (_engine sm) <| _pDispatch := d' |> <| _encounteredWin32InputModeSequence := true |>.
Proof.
  intros Hco Hm Hf Hk Hr Hc Hd. exists (_makeWin32Output key t). split.
  { unfold HandleKey. by rewrite Hm, Hf. }
  destruct (coherent_map _ t Hco) as (_ & Hcsi & _). pose proof Hk as (K1 & K2 & K3 & K4 & K5).
  assert (Ht : _makeWin32Output key t
    = csi_of (GetInputMode InputMode.SendC1 t) ++ [] ++ join_params (win32_params key) ++ [wchar "_"]).
  { unfold _makeWin32Output. rewrite Hcsi, !u16_value by done. unfold win32_params. cbn [join_params app].
    rewrite <- !app_assoc. done. }
  rewrite Ht. cbv zeta.
  destruct (csi_handled (GetInputMode InputMode.SendC1 t) [] (win32_params key) (wchar "_")
    ((_engine sm) <| _pDispatch := d' |> <| _encounteredWin32InputModeSequence := true |>) sm) as (H1 & H2 & _);
    try done; [apply no_marker|by apply win32_params_ok|cbn; lia|].
  unfold input_CsiDispatch. change (VTID_FromString ([] ++ [wchar "_"])) with CsiInputCodes.Win32KeyboardInput.
  rewrite Z.eqb_refl, andb_false_r. cbn [negb andb].
  change (switch CsiInputCodes.Win32KeyboardInput ?c ?o) with (win32_key (D := D) (params_of (plain (win32_params key)))).
  unfold win32_key. rewrite win32_decoded by done.
  unfold mbind, Act_bind, interact_call, modify, mret, Act_ret. rewrite Hd. done.
Qed.
End Host.
