(* ===== verification/InputKeys.v ===== *)
(** * Function, cursor and editing keys

    The keys for which the terminal has a sequence and the console a virtual
    key: what is pressed on one side arrives on the other, with its
    modifiers. *)

From stdpp Require Import gmap.
From S2P Require Import Prelude VTTypes StateMachine ParserFacts ParserRoundtrip ParserStrings OutputEngine.
From S2P Require Import InputRecords InputEngine TerminalInput InputFacts InputRoundtrip.
#[local] Open Scope Z_scope.

(** ** The sequences *)

Inductive wire := WireCsi (ps : list Z) (f : Z) | WireSs3 (f : Z).

Definition wire_text (sendC1 : bool) (w : wire) : list Z :=
  match w with
  | WireCsi ps f => csi_of sendC1 ++ [] ++ join_params ps ++ [f]
  | WireSs3 f => ss3_of sendC1 ++ [f]
  end.

Definition cursor_finals : list (Z * Z) :=
  [(VK_UP, wchar "A"); (VK_DOWN, wchar "B"); (VK_RIGHT, wchar "C"); (VK_LEFT, wchar "D");
   (VK_HOME, wchar "H"); (VK_END, wchar "F")].
Definition function_finals : list (Z * Z) :=
  [(VK_F1, wchar "P"); (VK_F2, wchar "Q"); (VK_F3, wchar "R"); (VK_F4, wchar "S")].
Definition editing_params : list (Z * Z) :=
  [(VK_INSERT, 2); (VK_DELETE, 3); (VK_PRIOR, 5); (VK_NEXT, 6); (VK_F5, 15); (VK_F6, 17); (VK_F7, 18);
   (VK_F8, 19); (VK_F9, 20); (VK_F10, 21); (VK_F11, 23); (VK_F12, 24)].

Definition known_keys : list Z := map fst (cursor_finals ++ function_finals ++ editing_params).

(** The sequence of key [vk] with VT modifiers [m], in cursor key mode or not. *)
Definition key_wire (cursorKey : bool) (vk m : Z) : option wire :=
  match table_find cursor_finals vk, table_find function_finals vk, table_find editing_params vk with
  | Some f, _, _ => Some (if m =? 0 then (if cursorKey then WireSs3 f else WireCsi [] f) else WireCsi [1; m + 1] f)
  | _, Some f, _ => Some (if m =? 0 then WireSs3 f else WireCsi [1; m + 1] f)
  | _, _, Some p => Some (WireCsi (if m =? 0 then [p] else [p; m + 1]) (wchar "~"))
  | _, _, _ => None
  end.

(** The control key state the console reconstructs: an SS3 sequence does not
    tell that a key is an enhanced one. *)
Definition key_state (cursorKey : bool) (vk m : Z) : Z :=
  let enhanced := match table_find cursor_finals vk with
                  | Some _ => negb ((m =? 0) && cursorKey)
                  | None => existsb (Z.eqb vk) [VK_INSERT; VK_DELETE; VK_PRIOR; VK_NEXT]
                  end in
  SetFlagIf (_GetModifier (m + 1)) ENHANCED_KEY enhanced.

(** ** Both tables agree with the sequences *)

Definition bools : list bool := [false; true].

Definition map_agrees (b1 b2 sendC1 cursorKey keypad : bool) : bool :=
  let map := build_map b1 b2 sendC1 true cursorKey keypad in
  forallb (fun vk => forallb (fun m =>
      bool_decide (map !! (VTModifier m + vk) = wire_text sendC1 <$> key_wire cursorKey vk m)
      && bool_decide (is_Some (key_wire cursorKey vk m)))
    (seqZ 0 8)) known_keys.

Lemma maps_agree b1 b2 sendC1 cursorKey keypad : map_agrees b1 b2 sendC1 cursorKey keypad = true.
Proof. destruct b1, b2, sendC1, cursorKey, keypad; vm_compute; reflexivity. Qed.

Lemma forallb_In {A} (f : A -> bool) l x : forallb f l = true -> In x l -> f x = true.
Proof. intros Hf Hx. by apply (proj1 (forallb_forall f l) Hf). Qed.

Lemma In_seqZ m n : 0 <= m < n -> In m (seqZ 0 n).
Proof. intros Hm. apply list_elem_of_In, elem_of_seqZ. lia. Qed.

Lemma map_wire b1 b2 sendC1 cursorKey keypad vk m : In vk known_keys -> 0 <= m < 8 ->
  exists w, key_wire cursorKey vk m = Some w /\
    build_map b1 b2 sendC1 true cursorKey keypad !! (VTModifier m + vk) = Some (wire_text sendC1 w).
Proof.
  intros Hk Hm. pose proof (maps_agree b1 b2 sendC1 cursorKey keypad) as Ha.
  apply (forallb_In _ _ vk) in Ha; [|done]. apply (forallb_In _ _ m) in Ha; [|by apply In_seqZ].
  apply andb_true_iff in Ha as [H1 H2]. apply bool_decide_eq_true in H1, H2. destruct H2 as [w Hw].
  exists w. split; [done|]. by rewrite H1, Hw.
Qed.

(** What the engine makes of a sequence: the key and its modifiers. *)
Definition wire_key (w : wire) : option (Z * Z) :=
  match w with
  | WireSs3 f => (fun vk => (vk, 0)) <$> _GetSs3KeysVkey f
  | WireCsi ps f =>
      let parameters := params_of (plain ps) in
      if f =? wchar "~"
      then (fun vk => (vk, _GetGenericKeysModifierState parameters)) <$> _GetGenericVkey (as_enum (param_at parameters 0))
      else (fun vk => (vk, _GetCursorKeysModifierState parameters (VTID_FromString [f])))
             <$> _GetCursorKeysVkey (VTID_FromString [f])
  end.

Definition wire_ok (w : wire) : bool :=
  match w with
  | WireCsi ps f => forallb (fun p => (0 <=? p) && (p <=? 65535)) ps && (length ps <=? 32)%nat && (0x40 <=? f) && (f <=? 0x7E)
  | WireSs3 f => (0x40 <=? f) && (f <=? 0x7E)
  end.

Definition decoding_agrees (cursorKey : bool) : bool :=
  forallb (fun vk => forallb (fun m =>
      match key_wire cursorKey vk m with
      | Some w => bool_decide (wire_key w = Some (vk, key_state cursorKey vk m)) && wire_ok w
      | None => false
      end) (seqZ 0 8)) known_keys.

Lemma decodings_agree cursorKey : decoding_agrees cursorKey = true.
Proof. destruct cursorKey; vm_compute; reflexivity. Qed.

Lemma wire_decoded cursorKey vk m w : In vk known_keys -> 0 <= m < 8 -> key_wire cursorKey vk m = Some w ->
  wire_key w = Some (vk, key_state cursorKey vk m) /\ wire_ok w = true.
Proof.
  intros Hk Hm Hw. pose proof (decodings_agree cursorKey) as Ha.
  apply (forallb_In _ _ vk) in Ha; [|done]. apply (forallb_In _ _ m) in Ha; [|by apply In_seqZ].
  cbv beta in Ha. rewrite Hw in Ha. apply andb_true_iff in Ha as [H1 H2]. by apply bool_decide_eq_true in H1.
Qed.

(** ** The terminal's side *)

Definition vt_modifiers (controlKeyState : Z) : Z :=
  (if IsAnyFlagSet controlKeyState CTRL_PRESSED then 4 else 0) + (if IsAnyFlagSet controlKeyState ALT_PRESSED then 2 else 0)
  + (if IsAnyFlagSet controlKeyState SHIFT_PRESSED then 1 else 0).

Lemma vt_modifiers_range cs : 0 <= vt_modifiers cs < 8.
Proof. unfold vt_modifiers. repeat case_match; lia. Qed.

Definition combo_agrees : bool :=
  forallb (fun vk => forallb (fun c => forallb (fun a => forallb (fun s =>
    SetFlagIf (SetFlagIf (SetFlagIf vk Ctrl c) Alt a) Shift s
      =? VTModifier ((if c then 4 else 0) + (if a then 2 else 0) + (if s then 1 else 0)) + vk) bools) bools) bools) known_keys.

Lemma combos_agree vk (c a s : bool) : In vk known_keys ->
  SetFlagIf (SetFlagIf (SetFlagIf vk Ctrl c) Alt a) Shift s
  = VTModifier ((if c then 4 else 0) + (if a then 2 else 0) + (if s then 1 else 0)) + vk.
Proof.
  intros Hk. assert (Ha : combo_agrees = true) by by vm_compute. unfold combo_agrees in Ha.
  apply (forallb_In _ _ vk) in Ha; [|done]. cbn [forallb bools] in Ha. rewrite !andb_true_iff, !Z.eqb_eq in Ha.
  destruct c, a, s; tauto.
Qed.

Lemma known_key_plain vk : In vk known_keys ->
  (VK_SHIFT <=? vk) && (vk <=? VK_MENU) = false /\ (VK_NUMPAD0 <=? vk) && (vk <=? VK_NUMPAD9) = false /\
  (vk =? VK_RETURN) = false /\ (vk =? VK_PACKET) = false /\ (vk =? 0) = false.
Proof. intros Hk. repeat (destruct Hk as [<-|Hk]; [by vm_compute|]). done. Qed.

Lemma land_lor_any a f g : IsAnyFlagSet a (Z.lor f g) = IsAnyFlagSet a f || IsAnyFlagSet a g.
Proof.
  unfold IsAnyFlagSet. rewrite Z.land_lor_distr_r. rewrite <- negb_andb. f_equal.
  destruct (Z.eqb_spec (Z.lor (Z.land a f) (Z.land a g)) 0) as [Hz|Hz].
  - apply Z.lor_eq_0_iff in Hz as [-> ->]. done.
  - destruct (Z.eqb_spec (Z.land a f) 0) as [H1|]; [|done]. destruct (Z.eqb_spec (Z.land a g) 0) as [H2|]; [|done].
    by rewrite H1, H2 in Hz.
Qed.

(** No right Alt, so no AltGr: the modifiers are what the flags say. *)
Lemma plain_modifiers cs t : IsAnyFlagSet cs RIGHT_ALT_PRESSED = false ->
  let m := key_modifiers cs t in
  ctrlIsReallyPressed m = IsAnyFlagSet cs CTRL_PRESSED /\ altIsPressed m = IsAnyFlagSet cs ALT_PRESSED /\
  shiftIsPressed m = IsAnyFlagSet cs SHIFT_PRESSED.
Proof.
  intros Hr. cbv zeta. unfold key_modifiers. cbn [ctrlIsReallyPressed altIsPressed shiftIsPressed].
  assert (Ha : AreAllFlagsSet cs (Z.lor LEFT_CTRL_PRESSED RIGHT_ALT_PRESSED) = false).
  { unfold AreAllFlagsSet. apply Z.eqb_neq. intros Heq. apply (f_equal (fun x => Z.land x RIGHT_ALT_PRESSED)) in Heq.
    rewrite <- Z.land_assoc in Heq. change (Z.land (Z.lor LEFT_CTRL_PRESSED RIGHT_ALT_PRESSED) RIGHT_ALT_PRESSED)
      with RIGHT_ALT_PRESSED in Heq. unfold IsAnyFlagSet in Hr. apply negb_false_iff, Z.eqb_eq in Hr. by rewrite Hr in Heq. }
  rewrite Ha. split; [|done]. unfold CTRL_PRESSED. rewrite land_lor_any. apply orb_comm.
Qed.

(** A press of a known key: the map has the text. *)
Definition plain_press (key : KEY_EVENT_RECORD) (t : TerminalInput) : Prop :=
  bKeyDown key = true /\ In (wVirtualKeyCode key) known_keys /\
  is_leading_surrogate (UnicodeChar key) = false /\
  IsAnyFlagSet (dwControlKeyState key) RIGHT_ALT_PRESSED = false /\
  (GetInputMode InputMode.AutoRepeat t = true \/ _lastVirtualKeyCode t <> Some (wVirtualKeyCode key)).

Lemma tracked_plain sys key t : IsAnyFlagSet (dwControlKeyState key) RIGHT_ALT_PRESSED = false ->
  _lastControlKeyState (_trackControlKeyState sys key t) = dwControlKeyState key.
Proof.
  intros Hr. unfold _trackControlKeyState.
  assert (Hp : IsAnyFlagSet (Z.ldiff (dwControlKeyState key) (_lastControlKeyState t)) RIGHT_ALT_PRESSED = false).
  { unfold IsAnyFlagSet in *. apply negb_false_iff, Z.eqb_eq in Hr. apply negb_false_iff, Z.eqb_eq.
    rewrite Z.ldiff_land, Z.land_comm, Z.land_assoc, (Z.land_comm _ (dwControlKeyState key)), Hr. done. }
  rewrite Hp. cbn [andb ClearFlagIf]. repeat case_match; done.
Qed.

Lemma press_text keypadModeEnabled sys key t : coherent keypadModeEnabled t -> plain_press key t ->
  GetInputMode InputMode.Ansi t = true -> GetInputMode InputMode.Win32 t && negb (_forceDisableWin32InputMode t) = false ->
  exists w t', HandleKey sys (KeyEvent key) t = (t', Some (wire_text (GetInputMode InputMode.SendC1 t) w)) /\
    key_wire (GetInputMode InputMode.CursorKey t) (wVirtualKeyCode key) (vt_modifiers (dwControlKeyState key)) = Some w.
Proof.
  intros Hco (Hd & Hk & Hs & Hr & Hrep) Ha Hw. unfold HandleKey. rewrite Hw, Hd, Hs, (tracked_plain sys key t Hr).
  cbn [negb]. destruct (known_key_plain _ Hk) as (K1 & K2 & K3 & K4 & K5). rewrite K4, K5. cbn [orb].
  destruct (track_control_frame sys key t) as (Fd & Fi & _ & _ & Fl).
  set (t1 := _trackControlKeyState sys key t) in *. unfold GetInputMode at 1. rewrite Fl, Fi.
  assert (Hr' : bool_decide (_lastVirtualKeyCode t = Some (wVirtualKeyCode key))
                && negb (modes_test (_inputMode t) InputMode.AutoRepeat) = false).
  { destruct Hrep as [Hm|Hn]; [unfold GetInputMode in Hm; by rewrite Hm, andb_false_r|by rewrite bool_decide_eq_false_2]. }
  rewrite Hr'. set (t2 := t1 <| _lastVirtualKeyCode := Some (wVirtualKeyCode key) |>).
  assert (Hco2 : coherent keypadModeEnabled t2).
  { apply (coherent_frame _ t); [done|exact Fd|]. intros m _. change (_inputMode t2) with (_inputMode t1). by rewrite Fi. }
  destruct (coherent_map _ t2 Hco2) as (Hmap & _). change (_inputMode t2) with (_inputMode t1) in Hmap. rewrite Fi in Hmap.
  unfold GetInputMode in Ha. rewrite Ha in Hmap.
  edestruct (map_wire (modes_test (_inputMode t) InputMode.BackarrowKey) (modes_test (_inputMode t) InputMode.LineFeed)
    (modes_test (_inputMode t) InputMode.SendC1) (modes_test (_inputMode t) InputMode.CursorKey)
    (keypadModeEnabled && modes_test (_inputMode t) InputMode.Keypad) (wVirtualKeyCode key) (vt_modifiers (dwControlKeyState key)))
    as (w & Hkw & Hmw); [done|apply vt_modifiers_range|].
  exists w. eexists. split; [|exact Hkw]. f_equal. f_equal. unfold key_press. rewrite K1, K2. cbn [andb].
  destruct (plain_modifiers (dwControlKeyState key) t2 Hr) as (M1 & M2 & M3).
  unfold key_combo. rewrite K3, M1, M2, M3, andb_false_r. cbn [SetFlagIf].
  rewrite combos_agree by done. fold (vt_modifiers (dwControlKeyState key)). by rewrite Hmap, Hmw.
Qed.

(** ** The console's side *)

Section Host.
Context {D : Type} `{Disp : !IInteractDispatch D} `{Layout : !KeyboardLayout}.
Variable clock : nat -> Z.
Abbreviation E := (InputStateMachineEngine D).
Abbreviation SM := (StateMachine E Empty_set Empty_set).
Variable runCallback : Empty_set -> SM -> SM.
#[local] Instance Eng : IStateMachineEngine E Empty_set Empty_set := InputEngine clock.
Abbreviation Process := (ProcessString runCallback).

(** The records of a key press in its modifiers. *)
Definition key_records (vk state : Z) : list INPUT_RECORD :=
  _GenerateWrappedSequence (u16 (MapVirtualKeyW vk MAPVK_VK_TO_CHAR)) vk state.

Lemma write_key vk state e d' : interact (WriteInput (key_records vk state)) (_pDispatch e) = (d', true) ->
  (_WriteSingleKey_vk vk state ;; mret true : Act Empty_set E bool) e
  = mkEngineResult (e <| _pDispatch := d' |>) (Some true) [].
Proof.
  intros Hd. unfold _WriteSingleKey_vk, _WriteSingleKey, mbind, Act_bind, interact_call.
  fold (key_records vk state). by rewrite Hd.
Qed.

(** F3 also is the report of the cursor position; it is taken for the key
    unless a report is expected or the terminal uses win32 input mode. *)
Definition key_expected (vk : Z) (e : E) : Prop :=
  IsVtInputEnabled (_pDispatch e) = false /\
  (vk = VK_F3 -> _lookingForDSR e = false /\ _encounteredWin32InputModeSequence e = false).

Lemma csi_key f ps vk state e d' : wire_key (WireCsi ps f) = Some (vk, state) -> key_expected vk e ->
  interact (WriteInput (key_records vk state)) (_pDispatch e) = (d', true) ->
  input_CsiDispatch clock (VTID_FromString [f]) (params_of (plain ps)) e = mkEngineResult (e <| _pDispatch := d' |>) (Some true) [].
Proof.
  intros Hw [Hvt H3] Hd. pose proof (write_key vk state e d' Hd) as Hwk.
  unfold wire_key in Hw. destruct (Z.eqb_spec f (wchar "~")) as [->|Hne].
  - destruct (_GetGenericVkey _) as [vk'|] eqn:Hg; [|done]. injection Hw as -> Hst.
    unfold input_CsiDispatch. rewrite Hvt. cbn [andb].
    change (switch (VTID_FromString [wchar "~"]) ?c ?o) with (generic_key (params_of (plain ps)) ;; mret true : Act Empty_set E bool).
    unfold generic_key. by rewrite Hg, Hst.
  - unfold input_CsiDispatch. rewrite Hvt. cbn [andb]. revert Hw.
    generalize (VTID_FromString [f]). intros id Hw.
    destruct (_GetCursorKeysVkey id) as [vk'|] eqn:Hg; [|done]. injection Hw as -> Hst.
    assert (Hck : (cursor_key id (params_of (plain ps)) ;; mret true : Act Empty_set E bool) e
                  = mkEngineResult (e <| _pDispatch := d' |>) (Some true) [])
      by (unfold cursor_key; by rewrite Hg, Hst).
    unfold _GetCursorKeysVkey, table_find in Hg.
    destruct (List.find _ s_csiMap) as [[c vk'']|] eqn:Hfind; [|done]. cbn in Hg. injection Hg as ->.
    apply List.find_some in Hfind as [Hin Heq]. cbn in Heq. apply Z.eqb_eq in Heq. subst c.
    repeat (destruct Hin as [Hin|Hin]; [injection Hin as <- <-; try exact Hck|]); [|done].
    destruct (H3 eq_refl) as [Hl He].
    change (switch CsiInputCodes.CSI_F3 ?c ?o) with (f3_or_cursor_report (D := D) (params_of (plain ps))).
    unfold f3_or_cursor_report. by rewrite Hl, He.
Qed.

Lemma ss3_key f vk state e d' : wire_key (WireSs3 f) = Some (vk, state) -> key_expected vk e ->
  interact (WriteInput (key_records vk state)) (_pDispatch e) = (d', true) ->
  input_Ss3Dispatch f (VTParameters_plain []) e = mkEngineResult (e <| _pDispatch := d' |>) (Some true) [].
Proof.
  intros Hw [Hvt _] Hd. unfold wire_key in Hw. destruct (_GetSs3KeysVkey f) as [vk'|] eqn:Hg; [|done].
  injection Hw as -> <-. unfold input_Ss3Dispatch. rewrite Hvt, Hg. by apply write_key.
Qed.

Lemma wire_received sendC1 w vk state (sm : SM) d' : wire_key w = Some (vk, state) -> wire_ok w = true ->
  host_ready sm -> c1_accepted sendC1 sm -> key_expected vk (_engine sm) ->
  interact (WriteInput (key_records vk state)) (_pDispatch (_engine sm)) = (d', true) ->
  let sm' := Process (wire_text sendC1 w) sm in host_ready sm' /\ _engine sm' = (_engine sm) <| _pDispatch := d' |>.
Proof.
  intros Hw Hok Hr Hc He Hd. cbv zeta. destruct w as [ps f|f]; cbn [wire_text wire_ok] in *.
  - rewrite !andb_true_iff in Hok. destruct Hok as (((Hps & Hl) & Hf1) & Hf2).
    assert (Hv : Forall value16 ps).
    { apply Forall_forall. intros p Hp. apply (forallb_In _ _ p) in Hps; [|exact Hp]. cbv beta in Hps. unfold value16. lia. }
    apply Nat.leb_le in Hl.
    destruct (csi_handled clock runCallback sendC1 [] ps f ((_engine sm) <| _pDispatch := d' |>) sm) as (H1 & H2 & _);
      try done; [apply no_marker|lia|by apply (csi_key f ps vk state)].
  - destruct (ss3_handled clock runCallback sendC1 f ((_engine sm) <| _pDispatch := d' |>) sm) as (H1 & H2 & _);
      try done; [lia|by apply (ss3_key f vk state)].
Qed.

End Host.

(** The modifiers of the received key are those that were held. *)
Lemma key_state_flags cursorKey vk cs : In vk known_keys ->
  let state := key_state cursorKey vk (vt_modifiers cs) in
  IsAnyFlagSet state SHIFT_PRESSED = IsAnyFlagSet cs SHIFT_PRESSED /\
  IsAnyFlagSet state ALT_PRESSED = IsAnyFlagSet cs ALT_PRESSED /\
  IsAnyFlagSet state CTRL_PRESSED = IsAnyFlagSet cs CTRL_PRESSED.
Proof.
  intros Hk. cbv zeta. unfold vt_modifiers.
  destruct (IsAnyFlagSet cs SHIFT_PRESSED), (IsAnyFlagSet cs ALT_PRESSED), (IsAnyFlagSet cs CTRL_PRESSED);
    unfold key_state; destruct cursorKey;
    repeat (destruct Hk as [<-|Hk]; [by vm_compute|]); done.
Qed.
