(* ===== verification/InputMouse.v ===== *)
(** * Mouse events

    A mouse event in the SGR encoding: the console receives the position, the
    buttons that are down, the modifiers and the kind of the event that the
    terminal encoded.  Also the sequences that are passed on to an application
    which asked for them, and the theorems about input on concrete events. *)

From stdpp Require Import gmap.
From S2P Require Import Prelude VTTypes StateMachine ParserFacts ParserRoundtrip ParserStrings OutputEngine.
From S2P Require Import InputRecords InputEngine TerminalInput InputFacts InputRoundtrip InputKeys.
#[local] Open Scope Z_scope.

(** ** What an event means *)

(** The button an event is about; 3 is no button, 4 and 5 the wheel. *)
Definition button_code (button delta : Z) (state : MouseButtonState) : Z :=
  let realButton := if _isHoverMsg button then s_GetPressedButton state else button in
  if one_of [WM_LBUTTONDBLCLK; WM_LBUTTONDOWN] realButton then 0
  else if one_of [WM_MBUTTONDBLCLK; WM_MBUTTONDOWN; WM_MBUTTONUP] realButton then 1
  else if one_of [WM_RBUTTONDBLCLK; WM_RBUTTONDOWN; WM_RBUTTONUP] realButton then 2
  else if _isWheelMsg realButton then (if delta >? 0 then 4 else 5)
  else if _isHoverMsg button then 3 else 0.

Definition button_flag (code : Z) : Z :=
  default 0 ([FROM_LEFT_1ST_BUTTON_PRESSED; FROM_LEFT_2ND_BUTTON_PRESSED; RIGHTMOST_BUTTON_PRESSED] !! Z.to_nat code).

Definition wheel_word (code : Z) : Z :=
  if code =? 4 then SCROLL_DELTA_FORWARD else if code =? 5 then SCROLL_DELTA_BACKWARD else 0.

(** The buttons that are down after the event. *)
Definition held_after (code : Z) (release : bool) (held : Z) : Z :=
  if release then Z.ldiff held (button_flag code) else Z.lor held (button_flag code).

Definition sgr_modifiers (modifierKeyState : Z) : Z :=
  SetFlagIf (SetFlagIf (SetFlagIf 0 SHIFT_PRESSED (IsAnyFlagSet modifierKeyState SHIFT_PRESSED))
    LEFT_ALT_PRESSED (IsAnyFlagSet modifierKeyState ALT_PRESSED))
    LEFT_CTRL_PRESSED (IsAnyFlagSet modifierKeyState CTRL_PRESSED).

Definition event_flags (code : Z) (hover double : bool) : Z :=
  SetFlagIf (SetFlagIf (if (code =? 4) || (code =? 5) then MOUSE_WHEELED else 0) DOUBLE_CLICK double) MOUSE_MOVED hover.

(** ** The encoding *)

Definition sgr_base (code : Z) : Z := if code <? 4 then code else 0x40 + (code - 4).

Definition codes : list Z := [0; 1; 2; 3; 4; 5].

Lemma button_code_range button delta state : In (button_code button delta state) codes.
Proof. unfold button_code. repeat case_match; cbn; tauto. Qed.

Lemma sgr_encoding button delta state hover mods : _isHoverMsg button = hover -> _isButtonMsg button || hover = true ->
  let realButton := if hover then s_GetPressedButton state else button in
  _windowsButtonToSGREncoding (if negb (realButton =? WM_LBUTTONUP) then realButton else button) hover mods delta
  = add_modifiers (sgr_base (button_code button delta state)) hover mods.
Proof.
  intros Hh Hb. cbv zeta. unfold button_code. rewrite Hh. unfold _isHoverMsg in Hh. destruct hover.
  - apply Z.eqb_eq in Hh as ->. destruct state as [[] [] []]; cbn [s_GetPressedButton isLeftButtonDown
      isMiddleButtonDown isRightButtonDown]; reflexivity.
  - rewrite orb_false_r in Hb. unfold _isButtonMsg, one_of in Hb. apply existsb_exists in Hb as (x & Hin & ->%Z.eqb_eq).
    unfold _windowsButtonToSGREncoding.
    repeat (destruct Hin as [<-|Hin]; [cbn; try destruct (delta >? 0); reflexivity|]). done.
Qed.

(** What the engine reads off the encoded button. *)
Definition encoding_agrees : bool :=
  forallb (fun code => forallb (fun hover => forallb (fun s => forallb (fun a => forallb (fun c =>
    let x := UpdateFlag (UpdateFlag (UpdateFlag (if hover : bool then sgr_base code + 0x20 else sgr_base code) 0x04 s) 0x08 a) 0x10 c in
    (sgr_button_id x =? code) && Bool.eqb (IsAnyFlagSet x CsiMouseModifierCodes.Drag) hover
    && (_GetSGRMouseModifierState x =? SetFlagIf (SetFlagIf (SetFlagIf 0 SHIFT_PRESSED s) LEFT_ALT_PRESSED a) LEFT_CTRL_PRESSED c)
    && (0 <=? x) && (x <=? 65535))
  bools) bools) bools) bools) codes.

Lemma In_bools b : In b bools.
Proof. destruct b; cbn; tauto. Qed.

Lemma encoding_read code hover mods : In code codes -> let x := add_modifiers (sgr_base code) hover mods in
  sgr_button_id x = code /\ IsAnyFlagSet x CsiMouseModifierCodes.Drag = hover /\
  _GetSGRMouseModifierState x = sgr_modifiers mods /\ value16 x.
Proof.
  intros Hc. assert (Ha : encoding_agrees = true) by by vm_compute. cbv zeta. unfold add_modifiers, sgr_modifiers.
  generalize (IsAnyFlagSet mods SHIFT_PRESSED) as s, (IsAnyFlagSet mods ALT_PRESSED) as a, (IsAnyFlagSet mods CTRL_PRESSED) as c.
  intros s a c. unfold encoding_agrees in Ha.
  apply (forallb_In _ _ code) in Ha; [|done]. apply (forallb_In _ _ hover) in Ha; [|apply In_bools].
  apply (forallb_In _ _ s) in Ha; [|apply In_bools]. apply (forallb_In _ _ a) in Ha; [|apply In_bools].
  apply (forallb_In _ _ c) in Ha; [|apply In_bools]. cbv beta zeta in Ha.
  rewrite !andb_true_iff, !Z.eqb_eq, !Z.leb_le in Ha. destruct Ha as ((((H1 & H2) & H3) & H4) & H5).
  apply Bool.eqb_prop in H2. by split_and!.
Qed.

Lemma sgr_button_code code : In code codes ->
  sgr_button code = Some (button_flag code, wheel_word code, if (code =? 4) || (code =? 5) then MOUSE_WHEELED else 0).
Proof. intros Hc. repeat (destruct Hc as [<-|Hc]; [reflexivity|]). done. Qed.

(** ** The terminal's side *)

Lemma tracked_mouse keypadModeEnabled position button mods delta state t t' text :
  coherent keypadModeEnabled t -> IsTrackingMouseInput t = true ->
  GetInputMode InputMode.SgrMouseEncoding t = true -> GetInputMode InputMode.Utf8MouseEncoding t = false ->
  HandleMouse position button mods delta state t = Done (t', Some text) -> text <> [] ->
  _isButtonMsg button || _isHoverMsg button = true /\
  text = csi_of (GetInputMode InputMode.SendC1 t) ++ wstr "<" ++
    join_params [add_modifiers (sgr_base (button_code button delta state)) (_isHoverMsg button) mods;
                 fst position + 1; snd position + 1] ++ [if _isButtonUp button then wchar "m" else wchar "M"].
Proof.
  intros Hco Htr Hsgr Hutf. unfold HandleMouse.
  destruct (accumulate_wheel_frame button delta t) as (Fd & Fi & _).
  destruct (accumulate_wheel button delta t) as [t1 short]. cbn [fst] in *.
  assert (Hm : forall m, GetInputMode m t1 = GetInputMode m t) by (intros m; unfold GetInputMode; by rewrite Fi).
  assert (Htr1 : IsTrackingMouseInput t1 = true) by (unfold IsTrackingMouseInput; by rewrite Fi).
  rewrite Htr1. cbn [orb andb]. destruct short; [by intros [= <- <-]|].
  set (realButton := if _isHoverMsg button then s_GetPressedButton state else button).
  destruct (should_track position button realButton t1) eqn:Hs.
  - assert (Hb : _isButtonMsg button || _isHoverMsg button = true).
    { unfold should_track in Hs. destruct (_isButtonMsg button); [done|]. destruct (_isHoverMsg button); [done|done]. }
    unfold track_event. intros [= _ Ht] _. split; [done|]. revert Ht.
    set (t2 := if modes_any _ _ then _ else t1).
    assert (Hm2 : forall m, GetInputMode m t2 = GetInputMode m t) by (intros m; rewrite <- Hm; unfold t2; by case_match).
    assert (Hco2 : coherent keypadModeEnabled t2).
    { apply (coherent_frame _ t); [done|rewrite <- Fd; unfold t2; by case_match|].
      intros m _. rewrite <- Fi. unfold t2. by case_match. }
    destruct (coherent_map _ t2 Hco2) as (_ & Hcsi & _).
    rewrite !Hm2, Hutf, Hsgr. unfold _GenerateSGRSequence. rewrite Hcsi.
    change (modes_test (_inputMode t2) InputMode.SendC1) with (GetInputMode InputMode.SendC1 t2). rewrite Hm2.
    unfold realButton. rewrite (sgr_encoding button delta state (_isHoverMsg button)) by done.
    intros [= <-]. cbn [join_params]. by rewrite <- !app_assoc.
  - destruct (ShouldSendAlternateScroll button delta t1) eqn:Hal; [|done].
    unfold ShouldSendAlternateScroll in Hal. rewrite !andb_true_iff in Hal. destruct Hal as (_ & Hw & _).
    unfold should_track in Hs. rewrite !orb_false_iff in Hs. destruct Hs as ((Hbm & _) & _).
    unfold _isButtonMsg, one_of in Hbm, Hw. cbn [existsb] in Hbm, Hw.
    destruct (button =? WM_MOUSEWHEEL), (button =? WM_MOUSEHWHEEL); cbn in *; rewrite ?orb_true_r in Hbm; done.
Qed.

(** ** The console's side *)

Section Host.
Context {D : Type} `{Disp : !IInteractDispatch D} `{Layout : !KeyboardLayout}.
Variable clock : nat -> Z.
Abbreviation E := (InputStateMachineEngine D).
Abbreviation SM := (StateMachine E Empty_set Empty_set).
Variable runCallback : Empty_set -> SM -> SM.
#[local] Instance Eng : IStateMachineEngine E Empty_set Empty_set := InputEngine clock.
Abbreviation Process := (ProcessString runCallback).

(** The second click of a double click: a press of the same button at the
    same place soon after the first. *)
Definition double_click (code : Z) (position : Z * Z) (e : E) : bool :=
  match _lastMouseClickPos e, _lastMouseClickTime e, _lastMouseClickButton e with
  | Some pos, Some time, Some button =>
      bool_decide (position = pos) && (clock (clock_reads e) - time <? _doubleClickTime e) && (code =? button)
  | _, _, _ => false
  end.

(** The record for an event on [code] when [held] are the buttons that were
    down. *)
Definition mouse_record (code : Z) (release hover double : bool) (position : Z * Z) (mods held : Z) : INPUT_RECORD :=
  MouseEvent (mk_MouseEvent position (Z.lor (held_after code release held) (wheel_word code)) (sgr_modifiers mods)
    (event_flags code hover double)).

Definition held_ok (e : E) : Prop := 0 <= _mouseButtonState e < 65536.

(** The low word of a button state are the buttons, the high word the wheel. *)
Lemma low_high lo hi : 0 <= lo < 2 ^ 16 -> 0 <= hi < 2 ^ 32 -> Z.land hi 0xFFFF = 0 ->
  Z.land (Z.lor lo hi) 0xFFFF = lo /\ u32 (Z.lor lo hi) = Z.lor lo hi.
Proof.
  intros Hl Hh Hz. split.
  - rewrite Z.land_lor_distr_l, Hz, Z.lor_0_r. change 0xFFFF with (Z.ones 16). rewrite Z.land_ones by lia. by apply Z.mod_small.
  - apply u32_small. apply lor_bound; [lia| |done]. change (2 ^ 16) with 65536 in Hl. change (2 ^ 32) with 4294967296. lia.
Qed.

Lemma wheel_word_high code : 0 <= wheel_word code < 2 ^ 32 /\ Z.land (wheel_word code) 0xFFFF = 0.
Proof. unfold wheel_word. repeat case_match; by vm_compute. Qed.

Lemma button_flag_range code : 0 <= button_flag code < 8 /\ Z.land (wheel_word code) (button_flag code) = 0.
Proof.
  unfold button_flag, wheel_word. destruct (Z.to_nat code) as [|[|[|n]]]; cbn [lookup list_lookup default];
    repeat case_match; by vm_compute.
Qed.

Lemma held_after_range code release held : 0 <= held < 2 ^ 16 -> 0 <= held_after code release held < 2 ^ 16.
Proof.
  intros Hh. destruct (button_flag_range code) as [Hf _]. unfold held_after.
  destruct release; [by apply ldiff_bound|]. apply lor_bound; [done..|]. change (2 ^ 16) with 65536. lia.
Qed.

(** The engine's button state is what is held and the wheel. *)
Lemma button_state code (release : bool) held :
  (if release then Z.ldiff (Z.lor held (wheel_word code)) (button_flag code)
   else Z.lor (Z.lor held (wheel_word code)) (button_flag code))
  = Z.lor (held_after code release held) (wheel_word code).
Proof.
  destruct (button_flag_range code) as [_ Hd]. unfold held_after. destruct release.
  - apply Z.bits_inj'. intros n Hn. apply (f_equal (fun x => Z.testbit x n)) in Hd. rewrite Z.land_spec, Z.bits_0 in Hd.
    rewrite ?Z.lor_spec, ?Z.ldiff_spec, ?Z.lor_spec.
    destruct (Z.testbit held n), (Z.testbit (wheel_word code) n), (Z.testbit (button_flag code) n); done.
  - by rewrite <- !Z.lor_assoc, (Z.lor_comm (wheel_word code)).
Qed.

(** One event in the engine. *)
Lemma mouse_update id release x code position e : In code codes -> sgr_button_id x = code -> held_ok e ->
  id = (if (release : bool) then CsiInputCodes.MouseUp else CsiInputCodes.MouseDown) ->
  let double := negb release && double_click code position e in
  exists e', _UpdateSGRMouseButtonState clock id x position e
    = (e', Some (Z.lor (held_after code release (_mouseButtonState e)) (wheel_word code),
                 event_flags code (IsAnyFlagSet x CsiMouseModifierCodes.Drag) double)) /\
    _pDispatch e' = _pDispatch e /\ _mouseButtonState e' = held_after code release (_mouseButtonState e).
Proof.
  intros Hc Hx Hh Hid. cbv zeta. unfold _UpdateSGRMouseButtonState. rewrite Hx, (sgr_button_code code Hc).
  change (_mouseButtonState (e <| clock_reads := S (clock_reads e) |>)) with (_mouseButtonState e).
  pose proof (button_state code release (_mouseButtonState e)) as Hbs.
  destruct (wheel_word_high code) as [Hw1 Hw2].
  destruct (low_high (held_after code release (_mouseButtonState e)) (wheel_word code)) as [Hlow _];
    [by apply held_after_range|done..|].
  subst id. destruct release.
  - change (CsiInputCodes.MouseUp =? CsiInputCodes.MouseDown) with false. rewrite Z.eqb_refl, Hbs. cbn [negb andb].
    eexists. split; [done|]. split; [done|exact Hlow].
  - rewrite Z.eqb_refl, Hbs. cbn [negb andb].
    set (e1 := e <| clock_reads := S (clock_reads e) |>).
    assert (Ht : exists e2, track_click code (clock (clock_reads e)) position e1 = (e2, double_click code position e) /\
              _pDispatch e2 = _pDispatch e).
    { unfold track_click, double_click, e1. cbn [_lastMouseClickPos _lastMouseClickTime _lastMouseClickButton _doubleClickTime
        setter eta eta_InputEngine]. destruct (_lastMouseClickPos e), (_lastMouseClickTime e), (_lastMouseClickButton e);
        try (destruct (bool_decide _ && _ && _); [by eexists|]); destruct (_ || _ || _); by eexists. }
    destruct Ht as (e2 & -> & Hd). eexists. split; [done|]. split; [exact Hd|exact Hlow].
Qed.

Lemma saturate_short_value v : 0 <= v <= 32767 -> saturate_short v = v.
Proof. unfold saturate_short. lia. Qed.

Lemma write_mouse code release hover double position mods e d' : held_ok e ->
  0 <= fst position <= 32767 -> 0 <= snd position <= 32767 ->
  let record := mouse_record code release hover double position mods (_mouseButtonState e) in
  forall e', _pDispatch e' = _pDispatch e -> interact (WriteInput [record]) (_pDispatch e) = (d', true) ->
  _WriteMouseEvent position (Z.lor (held_after code release (_mouseButtonState e)) (wheel_word code))
    (sgr_modifiers mods) (event_flags code hover double) e'
  = mkEngineResult (e' <| _pDispatch := d' |>) (Some tt) [].
Proof.
  intros Hh Hx Hy record e' He Hd. unfold _WriteMouseEvent, SynthesizeMouseEvent, interact_call.
  destruct (wheel_word_high code) as [Hw1 Hw2].
  destruct (low_high (held_after code release (_mouseButtonState e)) (wheel_word code)) as [_ Hu];
    [by apply held_after_range|done..|]. rewrite Hu.
  assert (Hm : u32 (sgr_modifiers mods) = sgr_modifiers mods)
    by (unfold sgr_modifiers; repeat destruct (IsAnyFlagSet _ _); by vm_compute).
  assert (Hf : u32 (event_flags code hover double) = event_flags code hover double)
    by (unfold event_flags; destruct hover, double, ((code =? 4) || (code =? 5)); by vm_compute).
  rewrite Hm, Hf, !saturate_short_value by done. rewrite He. destruct position as [x y]. cbn [fst snd].
  change (MouseEvent _) with record. by rewrite Hd.
Qed.

(** C17: mouse events sent in the SGR encoding arrive.  Every
    press, release, move, drag and turn of the wheel that the terminal
    reports makes the hosted console receive one record with the position,
    the modifiers and the kind of the event, and with the buttons that are
    down: the engine keeps them from event to event, a press adds its button,
    a release removes it, and the wheel does not disturb them.  The encoding
    has no code for the horizontal wheel: the terminal reports its turns, and
    the console receives them, as turns of the vertical one ([button_code]).
    The console does not ask for VT input, and the position fits a short. *)
Theorem sgr_mouse_roundtrip keypadModeEnabled position button mods delta state t t' text (sm : SM) d' :
  let e := _engine sm in let code := button_code button delta state in let release := _isButtonUp button in
  coherent keypadModeEnabled t -> IsTrackingMouseInput t = true ->
  GetInputMode InputMode.SgrMouseEncoding t = true -> GetInputMode InputMode.Utf8MouseEncoding t = false ->
  HandleMouse position button mods delta state t = Done (t', Some text) -> text <> [] ->
  0 <= fst position <= 32767 -> 0 <= snd position <= 32767 ->
  host_ready sm -> c1_accepted (GetInputMode InputMode.SendC1 t) sm ->
  IsVtInputEnabled (_pDispatch e) = false -> held_ok e ->
  interact (WriteInput [mouse_record code release (_isHoverMsg button) (negb release && double_click code position e)
                          position mods (_mouseButtonState e)]) (_pDispatch e) = (d', true) ->
  let sm' := Process text sm in
  host_ready sm' /\ _pDispatch (_engine sm') = d' /\
  _mouseButtonState (_engine sm') = held_after code release (_mouseButtonState e).
Proof.
  intros e code release Hco Htr Hsgr Hutf Hhm Hne Hx Hy Hr Hc Hvt Hh Hd.
  destruct (tracked_mouse keypadModeEnabled position button mods delta state t t' text) as [Hb ->]; try done.
  assert (Hcode : In code codes) by apply button_code_range.
  destruct (encoding_read code (_isHoverMsg button) mods Hcode) as (Hid & Hdrag & Hmod & Hval).
  fold code. set (x := add_modifiers _ _ _) in *. cbv zeta.
  assert (Hmark : marker_ok (wstr "<")) by (split; [cbn; lia|by repeat constructor]).
  set (f := if _isButtonUp button then wchar "m" else wchar "M").
  assert (Hvt_id : VTID_FromString (wstr "<" ++ [f]) = if release then CsiInputCodes.MouseUp else CsiInputCodes.MouseDown)
    by (unfold f, release; destruct (_isButtonUp button); reflexivity).
  destruct (mouse_update (VTID_FromString (wstr "<" ++ [f])) release x code position e Hcode Hid Hh Hvt_id)
    as (e' & Hupd & He' & Hst).
  assert (Hps : Forall value16 [x; fst position + 1; snd position + 1])
    by (repeat (apply Forall_cons; [unfold value16 in *; lia|]); constructor).
  destruct (csi_handled clock runCallback (GetInputMode InputMode.SendC1 t) (wstr "<")
    [x; fst position + 1; snd position + 1] f (e' <| _pDispatch := d' |>) sm) as (H1 & H2 & _); try done.
  - cbn. lia.
  - unfold f. destruct (_isButtonUp button); by vm_compute.
  - unfold input_CsiDispatch. fold e. rewrite Hvt. cbn [andb].
    assert (Hsw : forall o, switch (VTID_FromString (wstr "<" ++ [f]))
       (csi_input_cases clock (VTID_FromString (wstr "<" ++ [f])) (params_of (plain [x; fst position + 1; snd position + 1]))) o
       = (mouse_sequence clock (VTID_FromString (wstr "<" ++ [f])) (params_of (plain [x; fst position + 1; snd position + 1]))
          ;; mret true)) by (intros o; unfold f; destruct (_isButtonUp button); reflexivity).
    rewrite Hsw. unfold mbind, Act_bind, mouse_sequence, param_at. rewrite plain_params.
    cbn [lookup list_lookup default Nat.pred]. unfold id.
    assert (Hvo : value_or x 0 = x) by (unfold value_or, value16 in *; by rewrite (proj2 (Z.ltb_ge x 0)) by lia).
    assert (Hp : forall v, 0 <= v -> as_VTInt (v + 1) - 1 = v)
      by (intros v Hv; unfold as_VTInt; rewrite (proj2 (Z.leb_gt (v + 1) 0)) by lia; lia).
    rewrite Hvo, !Hp by lia. rewrite <- surjective_pairing, Hupd, Hmod, Hdrag.
    by rewrite (write_mouse code release (_isHoverMsg button) _ position mods e d' Hh Hx Hy e' He' Hd).
  - split; [exact H1|]. split; [exact (f_equal _pDispatch H2)|exact (eq_trans (f_equal _mouseButtonState H2) Hst)].
Qed.
End Host.

(** * Sequences for an application that asked for them

    When the application has enabled VT input, the console does not decode
    the sequences of the terminal but passes them on.  Also on concrete
    input: the theorems on the input side with a console that records what it
    is told. *)


Section Pass.
Context {D : Type} `{Disp : !IInteractDispatch D} `{Layout : !KeyboardLayout}.
Variable clock : nat -> Z.
Abbreviation E := (InputStateMachineEngine D).
Abbreviation SM := (StateMachine E Empty_set Empty_set).
Variable runCallback : Empty_set -> SM -> SM.
#[local] Instance PassEng : IStateMachineEngine E Empty_set Empty_set := InputEngine clock.
Abbreviation Process := (ProcessString runCallback).

(** The sequences that are decoded in any case. *)
Definition always_decoded : list Z :=
  [CsiInputCodes.Win32KeyboardInput; CsiInputCodes.FocusIn; CsiInputCodes.FocusOut].

Lemma refused_when_raw id ps e : IsVtInputEnabled (_pDispatch e) = true -> ~ In id always_decoded ->
  input_CsiDispatch clock id ps e = mkEngineResult e (Some false) [].
Proof.
  intros Hvt Hid. unfold input_CsiDispatch. rewrite Hvt.
  assert (H : forall c, In c always_decoded -> (id =? c) = false).
  { intros c Hc. apply Z.eqb_neq. intros ->. done. }
  by rewrite !H by (cbn; tauto).
Qed.

(** A refused dispatch writes the run as it is. *)
Lemma flushed call text (sm : SM) d' : call (_engine sm) = mkEngineResult (_engine sm) (Some false) [] ->
  _cachedSequence sm = None -> _CurrentRun sm = text -> text <> [] ->
  interact (WriteStringRaw text) (_pDispatch (_engine sm)) = (d', true) ->
  safely call sm = sm <| _engine := (_engine sm) <| _pDispatch := d' |> |>.
Proof.
  intros Hc Hn Hrun Hne Hd. unfold safely, _SafeExecute, SafeExecute_with, engine_call. rewrite Hc.
  unfold apply_requests. cbn [er_result er_requests er_engine fold_left].
  assert (Hid : sm <| _engine := _engine sm |> = sm) by (by destruct sm). rewrite Hid.
  unfold FlushToTerminal, flushFuel. cbn [FlushToTerminal_fuel]. rewrite Hn.
  unfold SafeExecute_with, engine_call. rewrite Hrun.
  assert (Hp : ActionPassThroughString text (_engine sm)
               = mkEngineResult ((_engine sm) <| _pDispatch := d' |>) (Some true) []).
  { cbn. unfold input_PassThroughString. destruct text; [done|].
    unfold mbind, Act_bind, interact_call. by rewrite Hd. }
  by rewrite Hp.
Qed.

(** An application that has enabled VT input receives every control
    sequence of the terminal, other than win32 keys and focus changes, as the
    terminal sent it: the characters of the sequence, in its seven or eight
    bit form and with any marker, parameters and intermediates, are written
    once and unchanged, and nothing is decoded. *)
Theorem vt_input_passthrough intro marker gs inters f (sm : SM) d' :
  let text := (intro ++ marker ++ encode_groups gs ++ inters) ++ [f] in
  host_ready sm -> csi_introducer intro sm -> IsVtInputEnabled (_pDispatch (_engine sm)) = true ->
  marker_ok marker -> groups_ok gs -> gs <> [(VTParameter_default, [])] ->
  Forall (fun c => _isIntermediate c = true) inters ->
  (length marker + length inters <= 6)%nat -> 0x40 <= f <= 0x7E ->
  ~ In (VTID_FromString (marker ++ inters ++ [f])) always_decoded ->
  interact (WriteStringRaw text) (_pDispatch (_engine sm)) = (d', true) ->
  let sm' := Process text sm in host_ready sm' /\ _engine sm' = (_engine sm) <| _pDispatch := d' |>.
Proof.
  intros text Hr Hin Hvt Hm Hg Hn Hi Hl Hf Hid Hd. cbv zeta. pose proof Hr as [R1 R2 R3 R4 R5].
  destruct (csi_string runCallback intro marker gs inters f sm) as (sm1 & [A1 A2 A3 A4 A5 A6 A7] & Heq); try done.
  fold text in A7, Heq. rewrite Heq. unfold seq_step. rewrite (flushed _ text sm1 d').
  - assert (Hcb : _onCsiCompleteCallback (_EnterGround (sm1 <| _engine := (_engine sm1) <| _pDispatch := d' |> |>)) = None)
      by (change (_onCsiCompleteCallback sm1 = None); by rewrite A2).
    unfold _ExecuteCsiCompleteCallback. rewrite Hcb, A1.
    change (processString_tail (_EnterGround ?x)) with (_EnterGround x).
    split; [|done]. split; cbn; congruence.
  - rewrite A1. by apply refused_when_raw.
  - by rewrite A3.
  - done.
  - unfold text. by destruct (intro ++ _).
  - by rewrite A1.
Qed.
End Pass.

(** A character that is not on the keyboard, for which the system reports -1,
    is not recognised: the key 255 is pressed with Shift, Ctrl and Alt. *)
Lemma unmapped_character `{Layout : !KeyboardLayout} wch : VkKeyScanW wch = -1 ->
  _GenerateKeyFromChar wch = Some (255, Z.lor (Z.lor SHIFT_PRESSED LEFT_CTRL_PRESSED) LEFT_ALT_PRESSED).
Proof. intros Hk. unfold _GenerateKeyFromChar. by rewrite Hk. Qed.

(** ** On concrete input *)

(** A console that records what it is told, and whether it is in VT input
    mode. *)
Record Recorder := mk_Recorder { vt_input : bool; recorded : list InteractCall }.

#[export] Instance RecorderDispatch : IInteractDispatch Recorder := {|
  IsVtInputEnabled := vt_input;
  interact c d := (mk_Recorder (vt_input d) (recorded d ++ [c]), true);
|}.

(** A layout on which a key is its own scan code and character. *)
#[export] Instance SampleLayout : KeyboardLayout := {| MapVirtualKeyW vk _ := vk; VkKeyScanW wch := wch |}.

Definition sample_clock (n : nat) : Z := Z.of_nat n.
Definition sample_callback (cb : Empty_set) (sm : StateMachine (InputStateMachineEngine Recorder) Empty_set Empty_set) := sm.
Definition sample_system : KeyboardSystem := mk_KeyboardSystem (fun n => Z.of_nat n) (fun _ _ => (0, [])).

Definition sample_host (vt : bool) : StateMachine (InputStateMachineEngine Recorder) Empty_set Empty_set :=
  new_StateMachine (CB := Empty_set) (H := Empty_set) (new_InputEngine (mk_Recorder vt []) false 500) true.

Lemma sample_ready vt : host_ready (sample_host vt).
Proof. by split. Qed.

(** A terminal with the default modes, and with some more. *)
Definition sample_terminal (modes : list Z) : TerminalInput :=
  fold_left (fun t mode => SetInputMode true mode true t) modes (new_TerminalInput true).

Lemma sample_coherent modes : Forall (fun m => 0 <= m < 15) modes -> coherent true (sample_terminal modes).
Proof.
  intros Hm. unfold sample_terminal. apply (ok_map true). generalize (new_input_ok true).
  generalize (new_TerminalInput true). induction Hm as [|m modes Hm Hms IH]; intros t Ht; [done|]. cbn.
  by apply IH, set_mode_ok.
Qed.

(** A run of mode changes, a key and a turn of the wheel. *)
Lemma input_coherent_witness :
  let ops := [OpSetMode InputMode.SgrMouseEncoding true; OpSetMode InputMode.AnyEventMouseTracking true;
              OpKey sample_system (KeyEvent (mk_KeyEvent true 1 VK_UP 0 0 0));
              OpMouse (3, 4) WM_MOUSEWHEEL 0 50 (mk_MouseButtonState false false false)] in
  exists t, run_input true ops (new_TerminalInput true) = Done t /\ input_ok true t.
Proof. apply input_coherent. repeat constructor; vm_compute; done. Defined.

(** Ctrl+C in win32 input mode and with eight bit controls. *)
Lemma win32_key_roundtrip_witness :
  let t := sample_terminal [InputMode.SendC1; InputMode.Win32] in
  let key := mk_KeyEvent true 1 67 46 3 8 in
  exists text, HandleKey sample_system (KeyEvent key) t = (t, Some text) /\
    let sm' := ProcessString (Eng := InputEngine sample_clock) sample_callback text (sample_host false) in
    host_ready sm' /\ _engine sm' = (_engine (sample_host false))
       <| _pDispatch := mk_Recorder false [WriteCtrlKey (KeyEvent key)] |> <| _encounteredWin32InputModeSequence := true |>.
Proof.
  apply (win32_key_roundtrip sample_clock sample_callback true).
  - apply sample_coherent. repeat constructor; vm_compute; done.
  - by vm_compute.
  - by vm_compute.
  - repeat split; cbn; lia.
  - apply sample_ready.
  - done.
  - reflexivity.
Defined.


(** A press of the right button with Alt held. *)
Lemma sgr_mouse_roundtrip_witness :
  let t := sample_terminal [InputMode.SgrMouseEncoding; InputMode.DefaultMouseTracking] in
  let sm' := ProcessString (Eng := InputEngine sample_clock) sample_callback (0x1B :: wstr "[<10;8;3M") (sample_host false) in
  host_ready sm' /\
  _pDispatch (_engine sm') = mk_Recorder false
    [WriteInput [MouseEvent (mk_MouseEvent (7, 2) RIGHTMOST_BUTTON_PRESSED LEFT_ALT_PRESSED 0)]] /\
  _mouseButtonState (_engine sm') = RIGHTMOST_BUTTON_PRESSED.
Proof.
  apply (sgr_mouse_roundtrip sample_clock sample_callback true (7, 2) WM_RBUTTONDOWN LEFT_ALT_PRESSED 0
    (mk_MouseButtonState false false true) (sample_terminal [InputMode.SgrMouseEncoding; InputMode.DefaultMouseTracking])
    (sample_terminal [InputMode.SgrMouseEncoding; InputMode.DefaultMouseTracking])).
  - apply sample_coherent. repeat constructor; vm_compute; done.
  - by vm_compute.
  - by vm_compute.
  - by vm_compute.
  - by vm_compute.
  - done.
  - cbn; lia.
  - cbn; lia.
  - apply sample_ready.
  - done.
  - done.
  - by vm_compute.
  - reflexivity.
Defined.

(** The report of a mode, [CSI ? 25 ; 1 $ y], with VT input enabled. *)
Lemma vt_input_passthrough_witness :
  let text := (([0x9B] ++ wstr "?" ++ encode_groups [(25, []); (1, [])] ++ wstr "$") ++ wstr "y") in
  let sm' := ProcessString (Eng := InputEngine sample_clock) sample_callback text (sample_host true) in
  host_ready sm' /\ _engine sm' = (_engine (sample_host true)) <| _pDispatch := mk_Recorder true [WriteStringRaw text] |>.
Proof.
  apply (vt_input_passthrough sample_clock sample_callback [0x9B] (wstr "?") [(25, []); (1, [])] (wstr "$") (wchar "y")).
  - apply sample_ready.
  - by right.
  - done.
  - split; [cbn; lia|by repeat constructor].
  - split; [cbn; unfold MAX_PARAMETER_COUNT; lia|]. unfold param_value, MAX_PARAMETER_VALUE, MAX_SUBPARAMETER_COUNT.
    repeat constructor; cbn; lia.
  - done.
  - by repeat constructor.
  - cbn; lia.
  - by vm_compute.
  - vm_compute. intuition discriminate.
  - reflexivity.
Defined.
