(* ===== verification/Charsets.v ===== *)
(** * The character sets of the terminal

    [terminal/adapter/charsets.hpp]: the translation tables that the class
    [TerminalOutput] designates, one definition per table, and the identity of
    a table, by which the source compares them. *)

From S2P Require Import Prelude.
#[local] Open Scope Z_scope.

(** The constructor of the class template: the characters from [BaseChar] on,
    with replacements.  The tables are compile time constants, so an index
    outside the table, where [at] throws, would not compile. *)
Definition set_replacement (BaseChar : Z) (table : list Z) (replacement : Z * Z) : list Z :=
  <[Z.to_nat (fst replacement - BaseChar) := snd replacement]> table.

Definition CharSet (BaseChar : Z) (Size : nat) (replacements : list (Z * Z)) : list Z :=
  fold_left (set_replacement BaseChar) replacements (map (fun i => BaseChar + Z.of_nat i) (seq 0 Size)).

Definition AsciiBasedCharSet := CharSet 0x20 95.
Definition Latin1BasedCharSet94 := CharSet 0xa0 95.
Definition Latin1BasedCharSet96 := CharSet 0xa0 96.

(** The private use characters of the dynamically redefinable sets. *)
Definition DRCS_BASE_CHAR : Z := 0xEF20.

Module Charset.
Definition Ascii : list Z := AsciiBasedCharSet [].

Definition Latin1 : list Z := Latin1BasedCharSet96 [].

Definition Latin2 : list Z := Latin1BasedCharSet96 [
     (0xa1, 0x104); (0xa2, 0x2d8); (0xa3, 0x141); (0xa5, 0x13d); (0xa6, 0x15a); (0xa9, 0x160);
     (0xaa, 0x15e); (0xab, 0x164); (0xac, 0x179); (0xae, 0x17d); (0xaf, 0x17b); (0xb1, 0x105);
     (0xb2, 0x2db); (0xb3, 0x142); (0xb5, 0x13e); (0xb6, 0x15b); (0xb7, 0x2c7); (0xb9, 0x161);
     (0xba, 0x15f); (0xbb, 0x165); (0xbc, 0x17a); (0xbd, 0x2dd); (0xbe, 0x17e); (0xbf, 0x17c);
     (0xc0, 0x154); (0xc3, 0x102); (0xc5, 0x139); (0xc6, 0x106); (0xc8, 0x10c); (0xca, 0x118);
     (0xcc, 0x11a); (0xcf, 0x10e); (0xd0, 0x110); (0xd1, 0x143); (0xd2, 0x147); (0xd5, 0x150);
     (0xd8, 0x158); (0xd9, 0x16e); (0xdb, 0x170); (0xde, 0x162); (0xe0, 0x155); (0xe3, 0x103);
     (0xe5, 0x13a); (0xe6, 0x107); (0xe8, 0x10d); (0xea, 0x119); (0xec, 0x11b); (0xef, 0x10f);
     (0xf0, 0x111); (0xf1, 0x144); (0xf2, 0x148); (0xf5, 0x151); (0xf8, 0x159); (0xf9, 0x16f);
     (0xfb, 0x171); (0xfe, 0x163); (0xff, 0x2d9)].

Definition LatinCyrillic : list Z := Latin1BasedCharSet96 [
     (0xa1, 0x401); (0xa2, 0x402); (0xa3, 0x403); (0xa4, 0x404); (0xa5, 0x405); (0xa6, 0x406);
     (0xa7, 0x407); (0xa8, 0x408); (0xa9, 0x409); (0xaa, 0x40a); (0xab, 0x40b); (0xac, 0x40c);
     (0xae, 0x40e); (0xaf, 0x40f); (0xb0, 0x410); (0xb1, 0x411); (0xb2, 0x412); (0xb3, 0x413);
     (0xb4, 0x414); (0xb5, 0x415); (0xb6, 0x416); (0xb7, 0x417); (0xb8, 0x418); (0xb9, 0x419);
     (0xba, 0x41a); (0xbb, 0x41b); (0xbc, 0x41c); (0xbd, 0x41d); (0xbe, 0x41e); (0xbf, 0x41f);
     (0xc0, 0x420); (0xc1, 0x421); (0xc2, 0x422); (0xc3, 0x423); (0xc4, 0x424); (0xc5, 0x425);
     (0xc6, 0x426); (0xc7, 0x427); (0xc8, 0x428); (0xc9, 0x429); (0xca, 0x42a); (0xcb, 0x42b);
     (0xcc, 0x42c); (0xcd, 0x42d); (0xce, 0x42e); (0xcf, 0x42f); (0xd0, 0x430); (0xd1, 0x431);
     (0xd2, 0x432); (0xd3, 0x433); (0xd4, 0x434); (0xd5, 0x435); (0xd6, 0x436); (0xd7, 0x437);
     (0xd8, 0x438); (0xd9, 0x439); (0xda, 0x43a); (0xdb, 0x43b); (0xdc, 0x43c); (0xdd, 0x43d);
     (0xde, 0x43e); (0xdf, 0x43f); (0xe0, 0x440); (0xe1, 0x441); (0xe2, 0x442); (0xe3, 0x443);
     (0xe4, 0x444); (0xe5, 0x445); (0xe6, 0x446); (0xe7, 0x447); (0xe8, 0x448); (0xe9, 0x449);
     (0xea, 0x44a); (0xeb, 0x44b); (0xec, 0x44c); (0xed, 0x44d); (0xee, 0x44e); (0xef, 0x44f);
     (0xf0, 0x2116); (0xf1, 0x451); (0xf2, 0x452); (0xf3, 0x453); (0xf4, 0x454); (0xf5, 0x455);
     (0xf6, 0x456); (0xf7, 0x457); (0xf8, 0x458); (0xf9, 0x459); (0xfa, 0x45a); (0xfb, 0x45b);
     (0xfc, 0x45c); (0xfd, 0xa7); (0xfe, 0x45e); (0xff, 0x45f)].

Definition LatinGreek : list Z := Latin1BasedCharSet96 [
     (0xa1, 0x2018); (0xa2, 0x2019); (0xa4, 0x2426); (0xa5, 0x2426); (0xaa, 0x2426); (0xae, 0x2426);
     (0xaf, 0x2015); (0xb4, 0x384); (0xb5, 0x385); (0xb6, 0x386); (0xb8, 0x388); (0xb9, 0x389);
     (0xba, 0x38a); (0xbc, 0x38c); (0xbe, 0x38e); (0xbf, 0x38f); (0xc0, 0x390); (0xc1, 0x391);
     (0xc2, 0x392); (0xc3, 0x393); (0xc4, 0x394); (0xc5, 0x395); (0xc6, 0x396); (0xc7, 0x397);
     (0xc8, 0x398); (0xc9, 0x399); (0xca, 0x39a); (0xcb, 0x39b); (0xcc, 0x39c); (0xcd, 0x39d);
     (0xce, 0x39e); (0xcf, 0x39f); (0xd0, 0x3a0); (0xd1, 0x3a1); (0xd2, 0x2426); (0xd3, 0x3a3);
     (0xd4, 0x3a4); (0xd5, 0x3a5); (0xd6, 0x3a6); (0xd7, 0x3a7); (0xd8, 0x3a8); (0xd9, 0x3a9);
     (0xda, 0x3aa); (0xdb, 0x3ab); (0xdc, 0x3ac); (0xdd, 0x3ad); (0xde, 0x3ae); (0xdf, 0x3af);
     (0xe0, 0x3b0); (0xe1, 0x3b1); (0xe2, 0x3b2); (0xe3, 0x3b3); (0xe4, 0x3b4); (0xe5, 0x3b5);
     (0xe6, 0x3b6); (0xe7, 0x3b7); (0xe8, 0x3b8); (0xe9, 0x3b9); (0xea, 0x3ba); (0xeb, 0x3bb);
     (0xec, 0x3bc); (0xed, 0x3bd); (0xee, 0x3be); (0xef, 0x3bf); (0xf0, 0x3c0); (0xf1, 0x3c1);
     (0xf2, 0x3c2); (0xf3, 0x3c3); (0xf4, 0x3c4); (0xf5, 0x3c5); (0xf6, 0x3c6); (0xf7, 0x3c7);
     (0xf8, 0x3c8); (0xf9, 0x3c9); (0xfa, 0x3ca); (0xfb, 0x3cb); (0xfc, 0x3cc); (0xfd, 0x3cd);
     (0xfe, 0x3ce); (0xff, 0x2426)].

Definition LatinHebrew : list Z := Latin1BasedCharSet96 [
     (0xa1, 0x2426); (0xaa, 0xd7); (0xba, 0xf7); (0xbf, 0x2426); (0xc0, 0x2426); (0xc1, 0x2426);
     (0xc2, 0x2426); (0xc3, 0x2426); (0xc4, 0x2426); (0xc5, 0x2426); (0xc6, 0x2426); (0xc7, 0x2426);
     (0xc8, 0x2426); (0xc9, 0x2426); (0xca, 0x2426); (0xcb, 0x2426); (0xcc, 0x2426); (0xcd, 0x2426);
     (0xce, 0x2426); (0xcf, 0x2426); (0xd0, 0x2426); (0xd1, 0x2426); (0xd2, 0x2426); (0xd3, 0x2426);
     (0xd4, 0x2426); (0xd5, 0x2426); (0xd6, 0x2426); (0xd7, 0x2426); (0xd8, 0x2426); (0xd9, 0x2426);
     (0xda, 0x2426); (0xdb, 0x2426); (0xdc, 0x2426); (0xdd, 0x2426); (0xde, 0x2426); (0xdf, 0x2017);
     (0xe0, 0x5d0); (0xe1, 0x5d1); (0xe2, 0x5d2); (0xe3, 0x5d3); (0xe4, 0x5d4); (0xe5, 0x5d5);
     (0xe6, 0x5d6); (0xe7, 0x5d7); (0xe8, 0x5d8); (0xe9, 0x5d9); (0xea, 0x5da); (0xeb, 0x5db);
     (0xec, 0x5dc); (0xed, 0x5dd); (0xee, 0x5de); (0xef, 0x5df); (0xf0, 0x5e0); (0xf1, 0x5e1);
     (0xf2, 0x5e2); (0xf3, 0x5e3); (0xf4, 0x5e4); (0xf5, 0x5e5); (0xf6, 0x5e6); (0xf7, 0x5e7);
     (0xf8, 0x5e8); (0xf9, 0x5e9); (0xfa, 0x5ea); (0xfb, 0x2426); (0xfc, 0x2426); (0xfd, 0x200e);
     (0xfe, 0x200f); (0xff, 0x2426)].

Definition Latin5 : list Z := Latin1BasedCharSet96 [
     (0xd0, 0x11e); (0xdd, 0x130); (0xde, 0x15e); (0xf0, 0x11f); (0xfd, 0x131); (0xfe, 0x15f)].

Definition DecSupplemental : list Z := Latin1BasedCharSet94 [
     (0xa4, 0x2426); (0xa6, 0x2426); (0xa8, 0xa4); (0xac, 0x2426); (0xad, 0x2426); (0xae, 0x2426);
     (0xaf, 0x2426); (0xb4, 0x2426); (0xb8, 0x2426); (0xbe, 0x2426); (0xd0, 0x2426); (0xd7, 0x152);
     (0xdd, 0x178); (0xde, 0x2426); (0xf0, 0x2426); (0xf7, 0x153); (0xfd, 0xff); (0xfe, 0x2426)].

Definition DecSpecialGraphics : list Z := AsciiBasedCharSet [
     (0x5f, 0x20); (0x60, 0x2666); (0x61, 0x2592); (0x62, 0x2409); (0x63, 0x240c); (0x64, 0x240d);
     (0x65, 0x240a); (0x66, 0xb0); (0x67, 0xb1); (0x68, 0x2424); (0x69, 0x240b); (0x6a, 0x2518);
     (0x6b, 0x2510); (0x6c, 0x250c); (0x6d, 0x2514); (0x6e, 0x253c); (0x6f, 0x23ba); (0x70, 0x23bb);
     (0x71, 0x2500); (0x72, 0x23bc); (0x73, 0x23bd); (0x74, 0x251c); (0x75, 0x2524); (0x76, 0x2534);
     (0x77, 0x252c); (0x78, 0x2502); (0x79, 0x2264); (0x7a, 0x2265); (0x7b, 0x3c0); (0x7c, 0x2260);
     (0x7d, 0xa3); (0x7e, 0xb7)].

Definition DecCyrillic : list Z := Latin1BasedCharSet94 [
     (0xa1, 0x2426); (0xa2, 0x2426); (0xa3, 0x2426); (0xa4, 0x2426); (0xa5, 0x2426); (0xa6, 0x2426);
     (0xa7, 0x2426); (0xa8, 0x2426); (0xa9, 0x2426); (0xaa, 0x2426); (0xab, 0x2426); (0xac, 0x2426);
     (0xad, 0x2426); (0xae, 0x2426); (0xaf, 0x2426); (0xb0, 0x2426); (0xb1, 0x2426); (0xb2, 0x2426);
     (0xb3, 0x2426); (0xb4, 0x2426); (0xb5, 0x2426); (0xb6, 0x2426); (0xb7, 0x2426); (0xb8, 0x2426);
     (0xb9, 0x2426); (0xba, 0x2426); (0xbb, 0x2426); (0xbc, 0x2426); (0xbd, 0x2426); (0xbe, 0x2426);
     (0xbf, 0x2426); (0xc0, 0x44e); (0xc1, 0x430); (0xc2, 0x431); (0xc3, 0x446); (0xc4, 0x434);
     (0xc5, 0x435); (0xc6, 0x444); (0xc7, 0x433); (0xc8, 0x445); (0xc9, 0x438); (0xca, 0x439);
     (0xcb, 0x43a); (0xcc, 0x43b); (0xcd, 0x43c); (0xce, 0x43d); (0xcf, 0x43e); (0xd0, 0x43f);
     (0xd1, 0x44f); (0xd2, 0x440); (0xd3, 0x441); (0xd4, 0x442); (0xd5, 0x443); (0xd6, 0x436);
     (0xd7, 0x432); (0xd8, 0x44c); (0xd9, 0x44b); (0xda, 0x437); (0xdb, 0x448); (0xdc, 0x44d);
     (0xdd, 0x449); (0xde, 0x447); (0xdf, 0x44a); (0xe0, 0x42e); (0xe1, 0x410); (0xe2, 0x411);
     (0xe3, 0x426); (0xe4, 0x414); (0xe5, 0x415); (0xe6, 0x424); (0xe7, 0x413); (0xe8, 0x425);
     (0xe9, 0x418); (0xea, 0x419); (0xeb, 0x41a); (0xec, 0x41b); (0xed, 0x41c); (0xee, 0x41d);
     (0xef, 0x41e); (0xf0, 0x41f); (0xf1, 0x42f); (0xf2, 0x420); (0xf3, 0x421); (0xf4, 0x422);
     (0xf5, 0x423); (0xf6, 0x416); (0xf7, 0x412); (0xf8, 0x42c); (0xf9, 0x42b); (0xfa, 0x417);
     (0xfb, 0x428); (0xfc, 0x42d); (0xfd, 0x429); (0xfe, 0x427)].

Definition DecGreek : list Z := Latin1BasedCharSet94 [
     (0xa4, 0x2426); (0xa6, 0x2426); (0xa8, 0xa4); (0xac, 0x2426); (0xad, 0x2426); (0xae, 0x2426);
     (0xaf, 0x2426); (0xb4, 0x2426); (0xb8, 0x2426); (0xbe, 0x2426); (0xc0, 0x3ca); (0xc1, 0x391);
     (0xc2, 0x392); (0xc3, 0x393); (0xc4, 0x394); (0xc5, 0x395); (0xc6, 0x396); (0xc7, 0x397);
     (0xc8, 0x398); (0xc9, 0x399); (0xca, 0x39a); (0xcb, 0x39b); (0xcc, 0x39c); (0xcd, 0x39d);
     (0xce, 0x39e); (0xcf, 0x39f); (0xd0, 0x2426); (0xd1, 0x3a0); (0xd2, 0x3a1); (0xd3, 0x3a3);
     (0xd4, 0x3a4); (0xd5, 0x3a5); (0xd6, 0x3a6); (0xd7, 0x3a7); (0xd8, 0x3a8); (0xd9, 0x3a9);
     (0xda, 0x3ac); (0xdb, 0x3ad); (0xdc, 0x3ae); (0xdd, 0x3af); (0xde, 0x2426); (0xdf, 0x3cc);
     (0xe0, 0x3cb); (0xe1, 0x3b1); (0xe2, 0x3b2); (0xe3, 0x3b3); (0xe4, 0x3b4); (0xe5, 0x3b5);
     (0xe6, 0x3b6); (0xe7, 0x3b7); (0xe8, 0x3b8); (0xe9, 0x3b9); (0xea, 0x3ba); (0xeb, 0x3bb);
     (0xec, 0x3bc); (0xed, 0x3bd); (0xee, 0x3be); (0xef, 0x3bf); (0xf0, 0x2426); (0xf1, 0x3c0);
     (0xf2, 0x3c1); (0xf3, 0x3c3); (0xf4, 0x3c4); (0xf5, 0x3c5); (0xf6, 0x3c6); (0xf7, 0x3c7);
     (0xf8, 0x3c8); (0xf9, 0x3c9); (0xfa, 0x3c2); (0xfb, 0x3cd); (0xfc, 0x3ce); (0xfd, 0x384);
     (0xfe, 0x2426)].

Definition DecHebrew : list Z := Latin1BasedCharSet94 [
     (0xa4, 0x2426); (0xa6, 0x2426); (0xa8, 0xa4); (0xac, 0x2426); (0xad, 0x2426); (0xae, 0x2426);
     (0xaf, 0x2426); (0xb4, 0x2426); (0xb8, 0x2426); (0xbe, 0x2426); (0xc0, 0x2426); (0xc1, 0x2426);
     (0xc2, 0x2426); (0xc3, 0x2426); (0xc4, 0x2426); (0xc5, 0x2426); (0xc6, 0x2426); (0xc7, 0x2426);
     (0xc8, 0x2426); (0xc9, 0x2426); (0xca, 0x2426); (0xcb, 0x2426); (0xcc, 0x2426); (0xcd, 0x2426);
     (0xce, 0x2426); (0xcf, 0x2426); (0xd0, 0x2426); (0xd1, 0x2426); (0xd2, 0x2426); (0xd3, 0x2426);
     (0xd4, 0x2426); (0xd5, 0x2426); (0xd6, 0x2426); (0xd7, 0x2426); (0xd8, 0x2426); (0xd9, 0x2426);
     (0xda, 0x2426); (0xdb, 0x2426); (0xdc, 0x2426); (0xdd, 0x2426); (0xde, 0x2426); (0xdf, 0x2426);
     (0xe0, 0x5d0); (0xe1, 0x5d1); (0xe2, 0x5d2); (0xe3, 0x5d3); (0xe4, 0x5d4); (0xe5, 0x5d5);
     (0xe6, 0x5d6); (0xe7, 0x5d7); (0xe8, 0x5d8); (0xe9, 0x5d9); (0xea, 0x5da); (0xeb, 0x5db);
     (0xec, 0x5dc); (0xed, 0x5dd); (0xee, 0x5de); (0xef, 0x5df); (0xf0, 0x5e0); (0xf1, 0x5e1);
     (0xf2, 0x5e2); (0xf3, 0x5e3); (0xf4, 0x5e4); (0xf5, 0x5e5); (0xf6, 0x5e6); (0xf7, 0x5e7);
     (0xf8, 0x5e8); (0xf9, 0x5e9); (0xfa, 0x5ea); (0xfb, 0x2426); (0xfc, 0x2426); (0xfd, 0x2426);
     (0xfe, 0x2426)].

Definition DecTurkish : list Z := Latin1BasedCharSet94 [
     (0xa4, 0x2426); (0xa6, 0x2426); (0xa8, 0xa4); (0xac, 0x2426); (0xad, 0x2426); (0xae, 0x130);
     (0xaf, 0x2426); (0xb4, 0x2426); (0xb8, 0x2426); (0xbe, 0x131); (0xd0, 0x11e); (0xd7, 0x152);
     (0xdd, 0x178); (0xde, 0x15e); (0xf0, 0x11f); (0xf7, 0x153); (0xfd, 0xff); (0xfe, 0x15f)].

Definition BritishNrcs : list Z := AsciiBasedCharSet [
     (0x23, 0xa3)].

Definition DutchNrcs : list Z := AsciiBasedCharSet [
     (0x23, 0xa3); (0x40, 0xbe); (0x5b, 0x133); (0x5c, 0xbd); (0x5d, 0x7c); (0x7b, 0xa8);
     (0x7c, 0x192); (0x7d, 0xbc); (0x7e, 0xb4)].

Definition FinnishNrcs : list Z := AsciiBasedCharSet [
     (0x5b, 0xc4); (0x5c, 0xd6); (0x5d, 0xc5); (0x5e, 0xdc); (0x60, 0xe9); (0x7b, 0xe4);
     (0x7c, 0xf6); (0x7d, 0xe5); (0x7e, 0xfc)].

Definition FrenchNrcs : list Z := AsciiBasedCharSet [
     (0x23, 0xa3); (0x40, 0xe0); (0x5b, 0xb0); (0x5c, 0xe7); (0x5d, 0xa7); (0x7b, 0xe9);
     (0x7c, 0xf9); (0x7d, 0xe8); (0x7e, 0xa8)].

Definition FrenchNrcsIso : list Z := AsciiBasedCharSet [
     (0x23, 0xa3); (0x40, 0xe0); (0x5b, 0xb0); (0x5c, 0xe7); (0x5d, 0xa7); (0x60, 0xb5);
     (0x7b, 0xe9); (0x7c, 0xf9); (0x7d, 0xe8); (0x7e, 0xa8)].

Definition FrenchCanadianNrcs : list Z := AsciiBasedCharSet [
     (0x40, 0xe0); (0x5b, 0xe2); (0x5c, 0xe7); (0x5d, 0xea); (0x5e, 0xee); (0x60, 0xf4);
     (0x7b, 0xe9); (0x7c, 0xf9); (0x7d, 0xe8); (0x7e, 0xfb)].

Definition GermanNrcs : list Z := AsciiBasedCharSet [
     (0x40, 0xa7); (0x5b, 0xc4); (0x5c, 0xd6); (0x5d, 0xdc); (0x7b, 0xe4); (0x7c, 0xf6);
     (0x7d, 0xfc); (0x7e, 0xdf)].

Definition GreekNrcs : list Z := AsciiBasedCharSet [
     (0x40, 0x3ca); (0x41, 0x391); (0x42, 0x392); (0x43, 0x393); (0x44, 0x394); (0x45, 0x395);
     (0x46, 0x396); (0x47, 0x397); (0x48, 0x398); (0x49, 0x399); (0x4a, 0x39a); (0x4b, 0x39b);
     (0x4c, 0x39c); (0x4d, 0x39d); (0x4e, 0x39e); (0x4f, 0x39f); (0x50, 0x2426); (0x51, 0x3a0);
     (0x52, 0x3a1); (0x53, 0x3a3); (0x54, 0x3a4); (0x55, 0x3a5); (0x56, 0x3a6); (0x57, 0x3a7);
     (0x58, 0x3a8); (0x59, 0x3a9); (0x5a, 0x3ac); (0x5b, 0x3ad); (0x5c, 0x3ae); (0x5d, 0x3af);
     (0x5e, 0x2426); (0x5f, 0x3cc); (0x60, 0x3cb); (0x61, 0x3b1); (0x62, 0x3b2); (0x63, 0x3b3);
     (0x64, 0x3b4); (0x65, 0x3b5); (0x66, 0x3b6); (0x67, 0x3b7); (0x68, 0x3b8); (0x69, 0x3b9);
     (0x6a, 0x3ba); (0x6b, 0x3bb); (0x6c, 0x3bc); (0x6d, 0x3bd); (0x6e, 0x3be); (0x6f, 0x3bf);
     (0x70, 0x2426); (0x71, 0x3c0); (0x72, 0x3c1); (0x73, 0x3c3); (0x74, 0x3c4); (0x75, 0x3c5);
     (0x76, 0x3c6); (0x77, 0x3c7); (0x78, 0x3c8); (0x79, 0x3c9); (0x7a, 0x3c2); (0x7b, 0x3cd);
     (0x7c, 0x3ce); (0x7d, 0x384); (0x7e, 0x2426)].

Definition HebrewNrcs : list Z := AsciiBasedCharSet [
     (0x60, 0x5d0); (0x61, 0x5d1); (0x62, 0x5d2); (0x63, 0x5d3); (0x64, 0x5d4); (0x65, 0x5d5);
     (0x66, 0x5d6); (0x67, 0x5d7); (0x68, 0x5d8); (0x69, 0x5d9); (0x6a, 0x5da); (0x6b, 0x5db);
     (0x6c, 0x5dc); (0x6d, 0x5dd); (0x6e, 0x5de); (0x6f, 0x5df); (0x70, 0x5e0); (0x71, 0x5e1);
     (0x72, 0x5e2); (0x73, 0x5e3); (0x74, 0x5e4); (0x75, 0x5e5); (0x76, 0x5e6); (0x77, 0x5e7);
     (0x78, 0x5e8); (0x79, 0x5e9); (0x7a, 0x5ea)].

Definition ItalianNrcs : list Z := AsciiBasedCharSet [
     (0x23, 0xa3); (0x40, 0xa7); (0x5b, 0xb0); (0x5c, 0xe7); (0x5d, 0xe9); (0x60, 0xf9);
     (0x7b, 0xe0); (0x7c, 0xf2); (0x7d, 0xe8); (0x7e, 0xec)].

Definition NorwegianDanishNrcs : list Z := AsciiBasedCharSet [
     (0x40, 0xc4); (0x5b, 0xc6); (0x5c, 0xd8); (0x5d, 0xc5); (0x5e, 0xdc); (0x60, 0xe4);
     (0x7b, 0xe6); (0x7c, 0xf8); (0x7d, 0xe5); (0x7e, 0xfc)].

Definition NorwegianDanishNrcsIso : list Z := AsciiBasedCharSet [
     (0x5b, 0xc6); (0x5c, 0xd8); (0x5d, 0xc5); (0x7b, 0xe6); (0x7c, 0xf8); (0x7d, 0xe5)].

Definition PortugueseNrcs : list Z := AsciiBasedCharSet [
     (0x5b, 0xc3); (0x5c, 0xc7); (0x5d, 0xd5); (0x7b, 0xe3); (0x7c, 0xe7); (0x7d, 0xf5)].

Definition RussianNrcs : list Z := AsciiBasedCharSet [
     (0x60, 0x42e); (0x61, 0x410); (0x62, 0x411); (0x63, 0x426); (0x64, 0x414); (0x65, 0x415);
     (0x66, 0x424); (0x67, 0x413); (0x68, 0x425); (0x69, 0x418); (0x6a, 0x419); (0x6b, 0x41a);
     (0x6c, 0x41b); (0x6d, 0x41c); (0x6e, 0x41d); (0x6f, 0x41e); (0x70, 0x41f); (0x71, 0x42f);
     (0x72, 0x420); (0x73, 0x421); (0x74, 0x422); (0x75, 0x423); (0x76, 0x416); (0x77, 0x412);
     (0x78, 0x42c); (0x79, 0x42b); (0x7a, 0x417); (0x7b, 0x428); (0x7c, 0x42d); (0x7d, 0x429);
     (0x7e, 0x427)].

Definition SpanishNrcs : list Z := AsciiBasedCharSet [
     (0x23, 0xa3); (0x40, 0xa7); (0x5b, 0xa1); (0x5c, 0xd1); (0x5d, 0xbf); (0x7b, 0xb0);
     (0x7c, 0xf1); (0x7d, 0xe7)].

Definition SwedishNrcs : list Z := AsciiBasedCharSet [
     (0x40, 0xc9); (0x5b, 0xc4); (0x5c, 0xd6); (0x5d, 0xc5); (0x5e, 0xdc); (0x60, 0xe9);
     (0x7b, 0xe4); (0x7c, 0xf6); (0x7d, 0xe5); (0x7e, 0xfc)].

Definition SwissNrcs : list Z := AsciiBasedCharSet [
     (0x23, 0xf9); (0x40, 0xe0); (0x5b, 0xe9); (0x5c, 0xe7); (0x5d, 0xea); (0x5e, 0xee);
     (0x5f, 0xe8); (0x60, 0xf4); (0x7b, 0xe4); (0x7c, 0xf6); (0x7d, 0xfc); (0x7e, 0xfb)].

Definition TurkishNrcs : list Z := AsciiBasedCharSet [
     (0x21, 0x131); (0x26, 0x11f); (0x40, 0x130); (0x5b, 0x15e); (0x5c, 0xd6); (0x5d, 0xc7);
     (0x5e, 0xdc); (0x60, 0x11e); (0x7b, 0x15f); (0x7c, 0xf6); (0x7d, 0xe7); (0x7e, 0xfc)].

Definition Drcs94 : list Z := CharSet DRCS_BASE_CHAR 95 [
     (DRCS_BASE_CHAR, 0x20)].

Definition Drcs96 : list Z := CharSet DRCS_BASE_CHAR 96 [].
End Charset.

(** ** Identity

    A [std::wstring_view] of the source that holds a table is a pointer to one
    of the objects above, and [operator==] of a table compares the pointers:
    the object is represented by its name.  The empty view is [None]. *)
Inductive Table :=
| TAscii
| TLatin1
| TLatin2
| TLatinCyrillic
| TLatinGreek
| TLatinHebrew
| TLatin5
| TDecSupplemental
| TDecSpecialGraphics
| TDecCyrillic
| TDecGreek
| TDecHebrew
| TDecTurkish
| TBritishNrcs
| TDutchNrcs
| TFinnishNrcs
| TFrenchNrcs
| TFrenchNrcsIso
| TFrenchCanadianNrcs
| TGermanNrcs
| TGreekNrcs
| THebrewNrcs
| TItalianNrcs
| TNorwegianDanishNrcs
| TNorwegianDanishNrcsIso
| TPortugueseNrcs
| TRussianNrcs
| TSpanishNrcs
| TSwedishNrcs
| TSwissNrcs
| TTurkishNrcs
| TDrcs94
| TDrcs96.

#[export] Instance Table_eq_dec : EqDecision Table.
Proof. solve_decision. Defined.

Abbreviation View := (option Table).

Definition table_chars (t : Table) : list Z :=
  match t with
  | TAscii => Charset.Ascii
  | TLatin1 => Charset.Latin1
  | TLatin2 => Charset.Latin2
  | TLatinCyrillic => Charset.LatinCyrillic
  | TLatinGreek => Charset.LatinGreek
  | TLatinHebrew => Charset.LatinHebrew
  | TLatin5 => Charset.Latin5
  | TDecSupplemental => Charset.DecSupplemental
  | TDecSpecialGraphics => Charset.DecSpecialGraphics
  | TDecCyrillic => Charset.DecCyrillic
  | TDecGreek => Charset.DecGreek
  | TDecHebrew => Charset.DecHebrew
  | TDecTurkish => Charset.DecTurkish
  | TBritishNrcs => Charset.BritishNrcs
  | TDutchNrcs => Charset.DutchNrcs
  | TFinnishNrcs => Charset.FinnishNrcs
  | TFrenchNrcs => Charset.FrenchNrcs
  | TFrenchNrcsIso => Charset.FrenchNrcsIso
  | TFrenchCanadianNrcs => Charset.FrenchCanadianNrcs
  | TGermanNrcs => Charset.GermanNrcs
  | TGreekNrcs => Charset.GreekNrcs
  | THebrewNrcs => Charset.HebrewNrcs
  | TItalianNrcs => Charset.ItalianNrcs
  | TNorwegianDanishNrcs => Charset.NorwegianDanishNrcs
  | TNorwegianDanishNrcsIso => Charset.NorwegianDanishNrcsIso
  | TPortugueseNrcs => Charset.PortugueseNrcs
  | TRussianNrcs => Charset.RussianNrcs
  | TSpanishNrcs => Charset.SpanishNrcs
  | TSwedishNrcs => Charset.SwedishNrcs
  | TSwissNrcs => Charset.SwissNrcs
  | TTurkishNrcs => Charset.TurkishNrcs
  | TDrcs94 => Charset.Drcs94
  | TDrcs96 => Charset.Drcs96
  end.

(** What a view shows. *)
Definition view_chars (v : View) : list Z :=
  match v with
  | Some t => table_chars t
  | None => []
  end.

Definition view_size (v : View) : Z := Z.of_nat (length (view_chars v)).

(** [operator==] of a table and a view. *)
Definition is_table (t : Table) (v : View) : bool := bool_decide (v = Some t).

(** [data() == data()] of two views. *)
Definition same_data (v w : View) : bool := bool_decide (v = w).

(** ** The tables *)

Lemma length_CharSet base n rs : length (CharSet base n rs) = n.
Proof.
  unfold CharSet. assert (H : forall l, length (fold_left (set_replacement base) rs l) = length l).
  { induction rs as [|r rs IH]; intros l; [done|]. cbn. rewrite IH. apply length_insert. }
  rewrite H, length_map. apply length_seq.
Qed.

(** A table has 95 or 96 characters, and they are code units. *)
Lemma table_chars_size t : length (table_chars t) = 95%nat \/ length (table_chars t) = 96%nat.
Proof. destruct t; cbn [table_chars]; first [left; apply length_CharSet|right; apply length_CharSet]. Qed.

Lemma view_size_range v : 0 <= view_size v <= 96.
Proof. destruct v as [t|]; [|done]. unfold view_size. cbn. destruct (table_chars_size t) as [-> | ->]; lia. Qed.

Lemma table_chars_units t : Forall (fun c => 0 <= c < 2 ^ 16) (table_chars t).
Proof. destruct t; apply (bool_decide_unpack _); by vm_compute. Qed.

(** The two tables that need no translation where they belong. *)
Lemma ascii_identity i : (i < 95)%nat -> nth i (table_chars TAscii) 0 = 0x20 + Z.of_nat i.
Proof.
  intros Hi. cbn [table_chars]. unfold Charset.Ascii, AsciiBasedCharSet, CharSet. cbn [fold_left].
  rewrite (nth_indep _ 0 (0x20 + Z.of_nat 0)) by (by rewrite length_map, length_seq).
  rewrite (map_nth (fun i => 0x20 + Z.of_nat i)), seq_nth by done. lia.
Qed.

Lemma latin1_identity i : (i < 96)%nat -> nth i (table_chars TLatin1) 0 = 0xa0 + Z.of_nat i.
Proof.
  intros Hi. cbn [table_chars]. unfold Charset.Latin1, Latin1BasedCharSet96, CharSet. cbn [fold_left].
  rewrite (nth_indep _ 0 (0xa0 + Z.of_nat 0)) by (by rewrite length_map, length_seq).
  rewrite (map_nth (fun i => 0xa0 + Z.of_nat i)), seq_nth by done. lia.
Qed.
