(* ===== verification/TerminalOutput.v ===== *)
(** * Designation and invocation of character sets

    The class [TerminalOutput] of [terminal/adapter/terminalOutput.cpp], with
    [Print] and [PrintString] of [adaptDispatch.cpp], which it translates for.
    An access of [std::array::at] outside the array throws; the numbers of the
    four sets that the output engine passes are all inside. *)

From S2P Require Import Prelude VTTypes Charsets.
#[local] Open Scope Z_scope.

Definition VTID (s : string) : Z := VTID_FromString (wstr s).

Record TerminalOutput := mk_TerminalOutput {
  _upssId : Z;
  _upssTranslationTable : View;
  _gsetTranslationTables : list View;
  _gsetIds : list Z;
  _glSetNumber : nat;
  _grSetNumber : nat;
  _glTranslationTable : View;
  _grTranslationTable : View;
  _ssSetNumber : nat;
  _grTranslationEnabled : bool;
  _drcsId : Z;
  _drcsTranslationTable : View;
}.

#[export] Instance TerminalOutput_eta : Eta TerminalOutput := fun s =>
  mk_TerminalOutput (_upssId s) (_upssTranslationTable s) (_gsetTranslationTables s) (_gsetIds s)
    (_glSetNumber s) (_grSetNumber s) (_glTranslationTable s) (_grTranslationTable s) (_ssSetNumber s)
    (_grTranslationEnabled s) (_drcsId s) (_drcsTranslationTable s).

(** [std::array::at] and the assignment through it. *)
Definition array_at {A} (l : list A) (i : nat) : outcome A :=
  match l !! i with
  | Some x => Done x
  | None => Throws
  end.

Definition array_set {A} (l : list A) (i : nat) (x : A) : outcome (list A) :=
  if (i <? length l)%nat then Done (<[i := x]> l) else Throws.

(** ** Construction and reset *)

Definition new_TerminalOutput (grEnabled : bool) : TerminalOutput :=
  let upss := Some TLatin1 in
  let grTranslationTable := if grEnabled then upss else Some TAscii in
  let grId := if grEnabled then VTID "<" else VTID "B" in
  mk_TerminalOutput (VTID "A") upss [Some TAscii; Some TAscii; grTranslationTable; grTranslationTable]
    [VTID "B"; VTID "B"; grId; grId] 0 2 None None 0 grEnabled 0 None.

Definition SoftReset (s : TerminalOutput) : TerminalOutput := new_TerminalOutput (_grTranslationEnabled s).

Definition RestoreFrom (savedState s : TerminalOutput) : TerminalOutput :=
  savedState <| _grTranslationEnabled := _grTranslationEnabled s |>.

(** ** Invocation *)

Definition LockingShift (gsetNumber : nat) (s : TerminalOutput) : outcome TerminalOutput :=
  let* table := array_at (_gsetTranslationTables s) gsetNumber in
  Done (s <| _glSetNumber := gsetNumber |>
          <| _glTranslationTable := if is_table TAscii table then None else table |>).

Definition LockingShiftRight (gsetNumber : nat) (s : TerminalOutput) : outcome TerminalOutput :=
  let* table := array_at (_gsetTranslationTables s) gsetNumber in
  Done (s <| _grSetNumber := gsetNumber |>
          <| _grTranslationTable :=
               if is_table TLatin1 table || negb (_grTranslationEnabled s) then None else table |>).

Definition SingleShift (gsetNumber : nat) (s : TerminalOutput) : TerminalOutput :=
  s <| _ssSetNumber := gsetNumber |>.

(** The locking shifts are applied again when the sets have changed. *)
Definition reapply_shifts (s : TerminalOutput) : outcome TerminalOutput :=
  let* s := LockingShift (_glSetNumber s) s in
  LockingShiftRight (_grSetNumber s) s.

(** ** Designation *)

Fixpoint find_charset (charset : Z) (cases : list (list string * View)) : View :=
  match cases with
  | [] => None
  | (ids, table) :: cases =>
      if existsb (fun id => charset =? VTID id) ids then table else find_charset charset cases
  end.

Definition dquote : string := String (ascii_of_nat 34) EmptyString.

Definition _LookupTranslationTable94 (charset : Z) (s : TerminalOutput) : View :=
  if charset =? _drcsId s then _drcsTranslationTable s
  else find_charset charset
    [(["B"; "1"], Some TAscii);
     (["0"; "2"], Some TDecSpecialGraphics);
     (["<"], _upssTranslationTable s);
     (["A"], Some TBritishNrcs);
     (["4"], Some TDutchNrcs);
     (["5"; "C"], Some TFinnishNrcs);
     (["R"], Some TFrenchNrcs);
     (["f"], Some TFrenchNrcsIso);
     (["9"; "Q"], Some TFrenchCanadianNrcs);
     (["K"], Some TGermanNrcs);
     (["Y"], Some TItalianNrcs);
     (["6"; "E"], Some TNorwegianDanishNrcs);
     (["`"], Some TNorwegianDanishNrcsIso);
     (["Z"], Some TSpanishNrcs);
     (["7"; "H"], Some TSwedishNrcs);
     (["="], Some TSwissNrcs);
     (["&4"], Some TDecCyrillic);
     (["&5"], Some TRussianNrcs);
     ([(dquote ++ "?")%string], Some TDecGreek);
     ([(dquote ++ ">")%string], Some TGreekNrcs);
     ([(dquote ++ "4")%string], Some TDecHebrew);
     (["%="], Some THebrewNrcs);
     (["%0"], Some TDecTurkish);
     (["%2"], Some TTurkishNrcs);
     (["%5"], Some TDecSupplemental);
     (["%6"], Some TPortugueseNrcs)]%string.

Definition _LookupTranslationTable96 (charset : Z) (s : TerminalOutput) : View :=
  if charset =? _drcsId s then _drcsTranslationTable s
  else find_charset charset
    [(["A"], Some TLatin1);
     (["<"], _upssTranslationTable s);
     (["B"], Some TLatin2);
     (["L"], Some TLatinCyrillic);
     (["F"], Some TLatinGreek);
     (["H"], Some TLatinHebrew);
     (["M"], Some TLatin5)]%string.

Definition _SetTranslationTable (gsetNumber : nat) (translationTable : View) (s : TerminalOutput) : outcome TerminalOutput :=
  let* tables := array_set (_gsetTranslationTables s) gsetNumber translationTable in
  reapply_shifts (s <| _gsetTranslationTables := tables |>).

(** The common part of the two designations. *)
Definition designate (gsetNumber : nat) (charset : Z) (translationTable : View) (s : TerminalOutput) : outcome TerminalOutput :=
  match translationTable with
  | None => Done s
  | Some _ =>
      let* ids := array_set (_gsetIds s) gsetNumber charset in
      _SetTranslationTable gsetNumber translationTable (s <| _gsetIds := ids |>)
  end.

Definition Designate94Charset (gsetNumber : nat) (charset : Z) (s : TerminalOutput) : outcome TerminalOutput :=
  designate gsetNumber charset (_LookupTranslationTable94 charset s) s.

Definition Designate96Charset (gsetNumber : nat) (charset : Z) (s : TerminalOutput) : outcome TerminalOutput :=
  designate gsetNumber charset (_LookupTranslationTable96 charset s) s.

Definition AssignUserPreferenceCharset (charset : Z) (size96 : bool) (s : TerminalOutput) : outcome TerminalOutput :=
  match (if size96 then _LookupTranslationTable96 charset s else _LookupTranslationTable94 charset s) with
  | None => Done s
  | Some table =>
      reapply_shifts
        (s <| _upssId := charset |> <| _upssTranslationTable := Some table |>
           <| _gsetTranslationTables :=
                zip_with (fun id t => if id =? VTID "<" then Some table else t)
                  (_gsetIds s) (_gsetTranslationTables s) |>)
  end.

Definition EnableGrTranslation (enabled : bool) (s : TerminalOutput) : outcome TerminalOutput :=
  let defaultTranslationTable := if enabled then _upssTranslationTable s else Some TAscii in
  let defaultId := if enabled then VTID "<" else VTID "B" in
  let* tables := array_set (_gsetTranslationTables s) 2 defaultTranslationTable in
  let* tables := array_set tables 3 defaultTranslationTable in
  let* ids := array_set (_gsetIds s) 2 defaultId in
  let* ids := array_set ids 3 defaultId in
  reapply_shifts
    (s <| _grTranslationEnabled := enabled |> <| _gsetTranslationTables := tables |> <| _gsetIds := ids |>).

(** ** Dynamically redefinable sets *)

(** The table of one set when a new font takes the place of [oldTable]. *)
Definition replace_drcs (oldTable newTable : View) (gsetNumber : nat) (gsetTable : View) : View :=
  let gsetTable :=
    if is_table TDrcs94 gsetTable || is_table TDrcs96 gsetTable
    then if (gsetNumber <? 2)%nat then Some TAscii else Some TLatin1
    else gsetTable in
  if same_data gsetTable oldTable then newTable else gsetTable.

Definition _ReplaceDrcsTable (oldTable newTable : View) (s : TerminalOutput) : outcome TerminalOutput :=
  if same_data newTable oldTable then Done s
  else reapply_shifts
    (s <| _gsetTranslationTables := imap (replace_drcs oldTable newTable) (_gsetTranslationTables s) |>).

Definition SetDrcs94Designation (charset : Z) (s : TerminalOutput) : outcome TerminalOutput :=
  let* s := _ReplaceDrcsTable (_LookupTranslationTable94 charset s) (Some TDrcs94) s in
  Done (s <| _drcsId := charset |> <| _drcsTranslationTable := Some TDrcs94 |>).

Definition SetDrcs96Designation (charset : Z) (s : TerminalOutput) : outcome TerminalOutput :=
  let* s := _ReplaceDrcsTable (_LookupTranslationTable96 charset s) (Some TDrcs96) s in
  Done (s <| _drcsId := charset |> <| _drcsTranslationTable := Some TDrcs96 |>).

(** ** Queries *)

Definition charset_size (table : View) : Z := if view_size table =? 96 then 96 else 94.

Definition GetUserPreferenceCharsetId (s : TerminalOutput) : Z := _upssId s.
Definition GetUserPreferenceCharsetSize (s : TerminalOutput) : Z := charset_size (_upssTranslationTable s).
Definition GetCharsetId (gsetNumber : nat) (s : TerminalOutput) : outcome Z := array_at (_gsetIds s) gsetNumber.
Definition GetCharsetSize (gsetNumber : nat) (s : TerminalOutput) : outcome Z :=
  let* table := array_at (_gsetTranslationTables s) gsetNumber in Done (charset_size table).
Definition GetLeftSetNumber (s : TerminalOutput) : nat := _glSetNumber s.
Definition GetRightSetNumber (s : TerminalOutput) : nat := _grSetNumber s.
Definition IsSingleShiftPending (gsetNumber : nat) (s : TerminalOutput) : bool := Nat.eqb (_ssSetNumber s) gsetNumber.

Definition NeedToTranslate (s : TerminalOutput) : bool :=
  negb (bool_decide (_glTranslationTable s = None)) || negb (bool_decide (_grTranslationTable s = None))
  || negb (Nat.eqb (_ssSetNumber s) 0).

(** ** Translation *)

(** [wch - base < table.size()], with the difference an [unsigned int], and the
    character at that place. *)
Definition in_table (base wch : Z) (table : View) : bool := u32 (wch - base) <? view_size table.
Definition from_table (base wch : Z) (table : View) : Z := nth (Z.to_nat (u32 (wch - base))) (view_chars table) 0.

Definition TranslateKey (wch : Z) (s : TerminalOutput) : TerminalOutput * Z :=
  if Nat.eqb (_ssSetNumber s) 2 || Nat.eqb (_ssSetNumber s) 3 then
    let table := nth (_ssSetNumber s) (_gsetTranslationTables s) None in
    (s <| _ssSetNumber := 0%nat |>,
     if in_table 0x20 wch table then from_table 0x20 wch table
     else if in_table 0xA0 wch table then from_table 0xA0 wch table
     else wch)
  else
    (s,
     if in_table 0x20 wch (_glTranslationTable s) then from_table 0x20 wch (_glTranslationTable s)
     else if in_table 0xA0 wch (_grTranslationTable s) then from_table 0xA0 wch (_grTranslationTable s)
     else wch).

(** ** Printing

    [AdaptDispatch::Print] and [PrintString], up to the text that they pass to
    [_WriteToBuffer]. *)

Definition AdaptDispatch_Print (wchPrintable : Z) (s : TerminalOutput) : TerminalOutput * list (list Z) :=
  let '(s, wchTranslated) := TranslateKey wchPrintable s in
  (s, if wchTranslated =? DEL then [] else [[wchTranslated]]).

Fixpoint translate_string (string : list Z) (s : TerminalOutput) : TerminalOutput * list Z :=
  match string with
  | [] => (s, [])
  | wch :: string =>
      let '(s, c) := TranslateKey wch s in
      let '(s, buffer) := translate_string string s in
      (s, c :: buffer)
  end.

Definition AdaptDispatch_PrintString (string : list Z) (s : TerminalOutput) : TerminalOutput * list (list Z) :=
  if NeedToTranslate s then
    let '(s, buffer) := translate_string string s in (s, [buffer])
  else (s, [string]).
