(* ===== verification/CharsetFacts.v ===== *)
(** * Character sets: the tables in use are those that are invoked

    [TerminalOutput] keeps the tables of GL and GR beside the four sets, and
    leaves out the ones that change nothing.  Here: these are up to date in
    every reachable state, so that printing is the translation of the
    designated and invoked sets, read directly off the sets. *)

From S2P Require Import Prelude VTTypes Charsets TerminalOutput.
#[local] Open Scope Z_scope.

(** ** The translation that the sets denote *)

Definition gset (n : nat) (s : TerminalOutput) : View := nth n (_gsetTranslationTables s) None.

(** The character of a set at a code counted from [base], if it has one. *)
Definition graphic (base wch : Z) (set : View) : option Z :=
  if (base <=? wch) && (wch <? base + view_size set) then Some (nth (Z.to_nat (wch - base)) (view_chars set) 0)
  else None.

(** A single shift takes the character from its set, in either half of the
    code; otherwise the left half is GL, and the right half GR if it is
    translated at all. *)
Definition interpret (s : TerminalOutput) (wch : Z) : Z :=
  if (_ssSetNumber s =? 0)%nat then
    match graphic 0x20 wch (gset (_glSetNumber s) s) with
    | Some c => c
    | None =>
        if _grTranslationEnabled s then default wch (graphic 0xA0 wch (gset (_grSetNumber s) s)) else wch
    end
  else
    let set := gset (_ssSetNumber s) s in
    match graphic 0x20 wch set with
    | Some c => c
    | None => default wch (graphic 0xA0 wch set)
    end.

(** A single shift holds for one character. *)
Definition shifted_back (s : TerminalOutput) : TerminalOutput := s <| _ssSetNumber := 0%nat |>.

Fixpoint interpret_text (s : TerminalOutput) (text : list Z) : list Z :=
  match text with
  | [] => []
  | wch :: text => interpret s wch :: interpret_text (shifted_back s) text
  end.

(** ** The invariant *)

Definition gl_cache (s : TerminalOutput) : View :=
  let table := gset (_glSetNumber s) s in if is_table TAscii table then None else table.
Definition gr_cache (s : TerminalOutput) : View :=
  let table := gset (_grSetNumber s) s in
  if is_table TLatin1 table || negb (_grTranslationEnabled s) then None else table.

(** The arrays have four entries, the numbers are in range, and only G2 and G3
    can be pending. *)
Record sets_ok (s : TerminalOutput) : Prop := {
  ok_tables : length (_gsetTranslationTables s) = 4%nat;
  ok_ids : length (_gsetIds s) = 4%nat;
  ok_gl : (_glSetNumber s < 4)%nat;
  ok_gr : (_grSetNumber s < 4)%nat;
  ok_ss : In (_ssSetNumber s) [0; 2; 3]%nat;
}.

Record up_to_date (s : TerminalOutput) : Prop := {
  utd_sets : sets_ok s;
  utd_gl : _glTranslationTable s = gl_cache s;
  utd_gr : _grTranslationTable s = gr_cache s;
}.

Lemma array_at_gset s n : sets_ok s -> (n < 4)%nat -> array_at (_gsetTranslationTables s) n = Done (gset n s).
Proof.
  intros Hs Hn. unfold array_at, gset.
  destruct (lookup_lt_is_Some_2 (_gsetTranslationTables s) n) as [x Hx]; [rewrite (ok_tables s Hs); done|].
  rewrite Hx. f_equal. symmetry. by apply nth_lookup_Some.
Qed.

Lemma array_set_done {A} (l : list A) i x : (i < length l)%nat -> array_set l i x = Done (<[i := x]> l).
Proof. intros Hi. unfold array_set. by rewrite (proj2 (Nat.ltb_lt _ _) Hi). Qed.

(** Applying the shifts makes the tables up to date, whatever they were. *)
Lemma reapply_up_to_date s : sets_ok s -> exists s', reapply_shifts s = Done s' /\ up_to_date s'.
Proof.
  intros Hs. unfold reapply_shifts, LockingShift, LockingShiftRight. rewrite array_at_gset by (done || apply Hs).
  cbn [obind]. rewrite (array_at_gset _ (_grSetNumber s)); [|destruct Hs; by split|apply Hs].
  eexists. split; [reflexivity|]. split; [destruct Hs; by split|done|done].
Qed.

Lemma new_up_to_date b : up_to_date (new_TerminalOutput b).
Proof. split; [split|..]; destruct b; cbn; auto; lia. Qed.

Lemma LockingShift_ok n s : up_to_date s -> (n < 4)%nat -> exists s', LockingShift n s = Done s' /\ up_to_date s'.
Proof.
  intros [Hs Hgl Hgr] Hn. unfold LockingShift. rewrite array_at_gset by done. eexists. split; [reflexivity|].
  split; [destruct Hs; by split|done|done].
Qed.

Lemma LockingShiftRight_ok n s : up_to_date s -> (n < 4)%nat -> exists s', LockingShiftRight n s = Done s' /\ up_to_date s'.
Proof.
  intros [Hs Hgl Hgr] Hn. unfold LockingShiftRight. rewrite array_at_gset by done. eexists. split; [reflexivity|].
  split; [destruct Hs; by split|done|done].
Qed.

Lemma designate_ok n id v s : up_to_date s -> (n < 4)%nat -> exists s', designate n id v s = Done s' /\ up_to_date s'.
Proof.
  intros Hu Hn. pose proof (utd_sets s Hu) as [H1 H2 H3 H4 H5]. destruct v as [t|]; [|by eexists].
  cbn [designate]. rewrite array_set_done by (rewrite H2; done). cbn [obind].
  unfold _SetTranslationTable. rewrite array_set_done by (cbn; rewrite H1; done). cbn [obind].
  apply reapply_up_to_date. split; cbn; rewrite ?length_insert; done.
Qed.

Lemma assign_ok id b s : up_to_date s -> exists s', AssignUserPreferenceCharset id b s = Done s' /\ up_to_date s'.
Proof.
  intros Hu. pose proof (utd_sets s Hu) as [H1 H2 H3 H4 H5]. unfold AssignUserPreferenceCharset. destruct (if b then _ else _); [|by eexists].
  apply reapply_up_to_date. split; cbn; rewrite ?length_zip_with, ?H1, ?H2; done.
Qed.

Lemma enable_ok b s : up_to_date s -> exists s', EnableGrTranslation b s = Done s' /\ up_to_date s'.
Proof.
  intros Hu. pose proof (utd_sets s Hu) as [H1 H2 H3 H4 H5]. unfold EnableGrTranslation.
  repeat (rewrite array_set_done by (rewrite ?length_insert, ?H1, ?H2; lia); cbn [obind]).
  apply reapply_up_to_date. split; cbn; rewrite ?length_insert; done.
Qed.

Lemma replace_drcs_ok old new s : up_to_date s -> exists s', _ReplaceDrcsTable old new s = Done s' /\ up_to_date s'.
Proof.
  intros Hu. pose proof (utd_sets s Hu) as [H1 H2 H3 H4 H5]. unfold _ReplaceDrcsTable. step_if; [by eexists|].
  apply reapply_up_to_date. split; cbn; rewrite ?length_imap; done.
Qed.

Lemma restore_ok saved s : _grTranslationEnabled saved = _grTranslationEnabled s ->
  RestoreFrom saved s = saved.
Proof. intros Heq. unfold RestoreFrom. rewrite <- Heq. by destruct saved. Qed.

(** ** Translation *)

Definition unit16 (c : Z) : Prop := 0 <= c < 2 ^ 16.

(** The test and the access of the source, with its unsigned difference. *)
Lemma lookup_graphic base wch v : 0 <= base < 2 ^ 16 -> unit16 wch ->
  (if in_table base wch v then Some (from_table base wch v) else None) = graphic base wch v.
Proof.
  intros Hb Hw. unfold in_table, from_table, graphic, unit16 in *. pose proof (view_size_range v) as Hv.
  destruct (base <=? wch) eqn:Hc.
  - unfold u32. rewrite Z.mod_small by lia. cbn [andb].
    replace (wch <? base + view_size v) with (wch - base <? view_size v) by (apply eq_true_iff_eq; rewrite !Z.ltb_lt; lia).
    done.
  - cbn [andb]. unfold u32. rewrite <- (Z_mod_plus_full _ 1), Z.mod_small by lia.
    by rewrite (proj2 (Z.ltb_ge _ _)) by lia.
Qed.

Lemma lookup_default base wch v d : 0 <= base < 2 ^ 16 -> unit16 wch ->
  (if in_table base wch v then from_table base wch v else d) = default d (graphic base wch v).
Proof. intros Hb Hw. rewrite <- lookup_graphic by done. by destruct (in_table base wch v). Qed.

(** ASCII in GL and Latin-1 in GR change nothing. *)
Lemma graphic_ascii wch : default wch (graphic 0x20 wch (Some TAscii)) = wch.
Proof.
  unfold graphic. change (view_size (Some TAscii)) with 95. step_if; [|done].
  cbn [from_option view_chars id]. rewrite ascii_identity by lia. lia.
Qed.

Lemma graphic_latin1 wch : default wch (graphic 0xA0 wch (Some TLatin1)) = wch.
Proof.
  unfold graphic. change (view_size (Some TLatin1)) with 96. step_if; [|done].
  cbn [from_option view_chars id]. rewrite latin1_identity by lia. lia.
Qed.

Lemma graphic_none base wch : graphic base wch None = None.
Proof.
  unfold graphic. change (view_size None) with 0. step_if; [|done]. lia.
Qed.

(** The halves of the code do not overlap. *)
Lemma graphic_left_right wch v w c : graphic 0x20 wch v = Some c -> graphic 0xA0 wch w = None.
Proof.
  unfold graphic. pose proof (view_size_range v). destruct (_ && _) eqn:H1; [|done]. intros _.
  step_if; [|done]. lia.
Qed.

Lemma gr_translated s wch :
  default wch (graphic 0xA0 wch (gr_cache s))
  = if _grTranslationEnabled s then default wch (graphic 0xA0 wch (gset (_grSetNumber s) s)) else wch.
Proof.
  unfold gr_cache, is_table. case_bool_decide as Ht; cbn [orb].
  - rewrite graphic_none, Ht, graphic_latin1. by destruct (_grTranslationEnabled s).
  - destruct (_grTranslationEnabled s); [done|]. by rewrite graphic_none.
Qed.

Lemma gl_translated s wch :
  match graphic 0x20 wch (gl_cache s) with
  | Some c => c
  | None => default wch (graphic 0xA0 wch (gr_cache s))
  end
  = match graphic 0x20 wch (gset (_glSetNumber s) s) with
    | Some c => c
    | None => default wch (graphic 0xA0 wch (gr_cache s))
    end.
Proof.
  unfold gl_cache at 1, is_table. case_bool_decide as Ht; [|done].
  rewrite graphic_none, Ht. pose proof (graphic_ascii wch) as Ha.
  destruct (graphic 0x20 wch (Some TAscii)) as [c|] eqn:Hg; [|done].
  rewrite (graphic_left_right _ _ _ _ Hg). cbn in *. congruence.
Qed.

Lemma shifted_back_id s : _ssSetNumber s = 0%nat -> shifted_back s = s.
Proof. intros H. unfold shifted_back. destruct s. cbn in *. by subst. Qed.

Lemma match_default {A} (o : option A) d : match o with Some c => c | None => d end = default d o.
Proof. by destruct o. Qed.

Lemma TranslateKey_interpret wch s : up_to_date s -> unit16 wch ->
  TranslateKey wch s = (shifted_back s, interpret s wch).
Proof.
  intros [Hs Hgl Hgr] Hw. unfold TranslateKey, interpret. rewrite Hgl, Hgr, !lookup_default by done.
  destruct (ok_ss s Hs) as [Hss|[Hss|[Hss|[]]]]; rewrite <- Hss at 1; cbn [Nat.eqb orb].
  - rewrite <- Hss. cbn [Nat.eqb orb]. rewrite <- match_default, gl_translated, gr_translated.
    by rewrite shifted_back_id.
  - rewrite <- Hss. cbn [Nat.eqb orb]. by rewrite match_default.
  - rewrite <- Hss. cbn [Nat.eqb orb]. by rewrite match_default.
Qed.

Lemma shifted_up_to_date s : up_to_date s -> up_to_date (shifted_back s).
Proof. intros [[] Hgl Hgr]. split; [split; cbn; auto|done|done]. Qed.

Lemma translate_text text : forall s, up_to_date s -> Forall unit16 text ->
  translate_string text s = (match text with [] => s | _ => shifted_back s end, interpret_text s text).
Proof.
  induction text as [|wch text IH]; intros s Hu Ht; [done|]. inversion_clear Ht.
  cbn [translate_string interpret_text]. rewrite TranslateKey_interpret by done.
  rewrite IH by (try done; by apply shifted_up_to_date). by destruct text.
Qed.

(** ** Printing *)

(** Without need the text would be translated to itself. *)
Lemma NeedToTranslate_false s text : up_to_date s -> NeedToTranslate s = false -> Forall unit16 text ->
  translate_string text s = (s, text).
Proof.
  intros Hu Hn. unfold NeedToTranslate in Hn.
  destruct (bool_decide_reflect (_glTranslationTable s = None)) as [Hl|]; [|done].
  destruct (bool_decide_reflect (_grTranslationTable s = None)) as [Hr|]; [|done]. cbn [orb negb] in Hn.
  assert (Hss : _ssSetNumber s = 0%nat) by (apply Nat.eqb_eq; by destruct (_ssSetNumber s =? 0)%nat).
  induction 1 as [|wch text Hw _ IH]; [done|]. cbn [translate_string].
  assert (Ht : TranslateKey wch s = (s, wch)).
  { unfold TranslateKey. rewrite Hss, Hl, Hr, !lookup_default by done. by rewrite !graphic_none. }
  by rewrite Ht, IH.
Qed.

Lemma PrintString_interpret s text : up_to_date s -> Forall unit16 text ->
  AdaptDispatch_PrintString text s = (match text with [] => s | _ => shifted_back s end, [interpret_text s text]).
Proof.
  intros Hu Ht. unfold AdaptDispatch_PrintString. pose proof (translate_text text s Hu Ht) as Htr.
  destruct (NeedToTranslate s) eqn:Hn; [by rewrite Htr|].
  rewrite NeedToTranslate_false in Htr by done. by injection Htr as <- <-.
Qed.

(** Characters printed one by one. *)
Fixpoint print_each (text : list Z) (s : TerminalOutput) : TerminalOutput * list (list Z) :=
  match text with
  | [] => (s, [])
  | wch :: text =>
      let '(s, w) := AdaptDispatch_Print wch s in
      let '(s, ws) := print_each text s in (s, w ++ ws)
  end.

Lemma print_each_interpret text : forall s, up_to_date s -> Forall unit16 text ->
  concat (snd (print_each text s)) = List.filter (fun c => negb (c =? DEL)) (interpret_text s text).
Proof.
  induction text as [|wch text IH]; intros s Hu Ht; [done|]. inversion_clear Ht.
  cbn [print_each interpret_text List.filter]. unfold AdaptDispatch_Print. rewrite TranslateKey_interpret by done.
  specialize (IH (shifted_back s)). destruct (print_each text (shifted_back s)) as [s' ws]. cbn [snd] in *.
  rewrite concat_app, IH by (try done; by apply shifted_up_to_date). by destruct (interpret s wch =? DEL).
Qed.

(** ** Every use *)

Inductive SetOp :=
| OpDesignate94 (gsetNumber : nat) (charset : Z)
| OpDesignate96 (gsetNumber : nat) (charset : Z)
| OpLockingShift (gsetNumber : nat)
| OpLockingShiftRight (gsetNumber : nat)
| OpSingleShift (gsetNumber : nat)
| OpEnableGr (enabled : bool)
| OpAssign (charset : Z) (size96 : bool)
| OpDrcs94 (charset : Z)
| OpDrcs96 (charset : Z)
| OpSoftReset
| OpSave
| OpRestore
| OpPrint (wch : Z)
| OpPrintString (text : list Z).

(** The numbers that the output engine passes, and 16-bit characters. *)
Definition set_op_ok (op : SetOp) : Prop :=
  match op with
  | OpDesignate94 n _ | OpDesignate96 n _ | OpLockingShift n | OpLockingShiftRight n => (n < 4)%nat
  | OpSingleShift n => In n [2; 3]%nat
  | OpPrint wch => unit16 wch
  | OpPrintString text => Forall unit16 text
  | _ => True
  end.

(** The current state and the one saved with the cursor. *)
Definition run_set_op (op : SetOp) (st : TerminalOutput * TerminalOutput) : outcome (TerminalOutput * TerminalOutput) :=
  let '(s, saved) := st in
  let with_saved (r : outcome TerminalOutput) := let* s := r in Done (s, saved) in
  match op with
  | OpDesignate94 n id => with_saved (Designate94Charset n id s)
  | OpDesignate96 n id => with_saved (Designate96Charset n id s)
  | OpLockingShift n => with_saved (LockingShift n s)
  | OpLockingShiftRight n => with_saved (LockingShiftRight n s)
  | OpSingleShift n => Done (SingleShift n s, saved)
  | OpEnableGr b => with_saved (EnableGrTranslation b s)
  | OpAssign id b => with_saved (AssignUserPreferenceCharset id b s)
  | OpDrcs94 id => with_saved (SetDrcs94Designation id s)
  | OpDrcs96 id => with_saved (SetDrcs96Designation id s)
  | OpSoftReset => Done (SoftReset s, saved)
  | OpSave => Done (s, s)
  | OpRestore => Done (RestoreFrom saved s, saved)
  | OpPrint wch => Done (fst (AdaptDispatch_Print wch s), saved)
  | OpPrintString text => Done (fst (AdaptDispatch_PrintString text s), saved)
  end.

Fixpoint run_set_ops (ops : list SetOp) (st : TerminalOutput * TerminalOutput) : outcome (TerminalOutput * TerminalOutput) :=
  match ops with
  | [] => Done st
  | op :: ops => let* st := run_set_op op st in run_set_ops ops st
  end.

(** GR translation is as it was on saving whenever a state is restored. *)
Fixpoint restores_agree (ops : list SetOp) (st : TerminalOutput * TerminalOutput) : bool :=
  match ops with
  | [] => true
  | op :: ops =>
      match op with
      | OpRestore => Bool.eqb (_grTranslationEnabled (snd st)) (_grTranslationEnabled (fst st))
      | _ => true
      end
      && match run_set_op op st with Done st => restores_agree ops st | _ => true end
  end.

Lemma drcs_ok (f : outcome TerminalOutput) g : (exists s', f = Done s' /\ up_to_date s') ->
  (forall s', up_to_date s' -> up_to_date (g s')) ->
  exists s', (let* s := f in Done (g s)) = Done s' /\ up_to_date s'.
Proof. intros (s' & -> & Hu) Hg. eexists. split; [reflexivity|auto]. Qed.

Lemma run_set_op_ok op s saved : set_op_ok op -> up_to_date s -> up_to_date saved ->
  restores_agree [op] (s, saved) = true ->
  exists s' saved', run_set_op op (s, saved) = Done (s', saved') /\ up_to_date s' /\ up_to_date saved'.
Proof.
  intros Hop Hs Hv Hr.
  assert (Hw : forall f, (exists s', f = Done s' /\ up_to_date s') ->
    exists s' saved', (let* s := f in Done (s, saved)) = Done (s', saved') /\ up_to_date s' /\ up_to_date saved').
  { intros f (s' & -> & Hu). by exists s', saved. }
  destruct op; cbn [run_set_op set_op_ok] in *.
  - by apply Hw, designate_ok.
  - by apply Hw, designate_ok.
  - by apply Hw, LockingShift_ok.
  - by apply Hw, LockingShiftRight_ok.
  - exists (SingleShift gsetNumber s), saved. split_and!; [done| |done].
    destruct Hs as [[] Hgl Hgr]. split; [split; cbn; auto; tauto|done|done].
  - by apply Hw, enable_ok.
  - by apply Hw, assign_ok.
  - apply Hw, drcs_ok; [by apply replace_drcs_ok|]. intros s' [[] Hgl Hgr]. by split; [split|..].
  - apply Hw, drcs_ok; [by apply replace_drcs_ok|]. intros s' [[] Hgl Hgr]. by split; [split|..].
  - do 2 eexists. split_and!; [done|apply new_up_to_date|done].
  - by do 2 eexists.
  - cbn in Hr. apply andb_prop in Hr as [Hr%Bool.eqb_prop _]. rewrite restore_ok by done. by do 2 eexists.
  - do 2 eexists. split_and!; [done| |done]. unfold AdaptDispatch_Print. rewrite TranslateKey_interpret by done.
    by apply shifted_up_to_date.
  - do 2 eexists. split_and!; [done| |done]. rewrite PrintString_interpret by done. cbn [fst].
    destruct text; [done|by apply shifted_up_to_date].
Qed.

Lemma run_set_ops_ok ops : forall s saved, Forall set_op_ok ops -> up_to_date s -> up_to_date saved ->
  restores_agree ops (s, saved) = true ->
  exists s' saved', run_set_ops ops (s, saved) = Done (s', saved') /\ up_to_date s'.
Proof.
  induction ops as [|op ops IH]; intros s saved Ho Hs Hv Hr; [by do 2 eexists|]. inversion_clear Ho.
  destruct (run_set_op_ok op s saved) as (s1 & v1 & Hrun & Hs1 & Hv1); try done.
  { cbn [restores_agree] in *. apply andb_prop in Hr as [-> _]. by destruct (run_set_op op (s, saved)). }
  cbn [run_set_ops restores_agree] in *. rewrite Hrun in *. apply andb_prop in Hr as [_ Hr]. by apply IH.
Qed.

(** C35: printed text is translated by the sets that are designated and
    invoked.  After any sequence of designations, locking and single shifts,
    preferred and downloaded sets, resets, saves and restores, in which a state
    is restored only while GR is translated or not as it was on saving
    ([restores_agree]), none of which throws, a printed string reaches the buffer as the translation that the
    four sets denote, a pending single shift holding for its first character
    only; the short cut for text that needs no translation is invisible, and
    so is printing character by character, but for DEL. *)
Theorem charset_translation ops : Forall set_op_ok ops ->
  restores_agree ops (new_TerminalOutput false, new_TerminalOutput false) = true ->
  exists s saved, run_set_ops ops (new_TerminalOutput false, new_TerminalOutput false) = Done (s, saved) /\
    forall text, Forall unit16 text -> text <> [] ->
      AdaptDispatch_PrintString text s = (shifted_back s, [interpret_text s text]) /\
      concat (snd (print_each text s)) = List.filter (fun c => negb (c =? DEL)) (interpret_text s text).
Proof.
  intros Ho Hr. destruct (run_set_ops_ok ops _ _ Ho (new_up_to_date false) (new_up_to_date false) Hr)
    as (s & saved & Hrun & Hu).
  exists s, saved. split; [done|]. intros text Ht Hne. split; [|by apply print_each_interpret].
  rewrite PrintString_interpret by done. by destruct text.
Qed.

(** Line drawing after a designation, then a single shift to G2. *)
Definition sample_set_ops : list SetOp :=
  [OpDesignate94 0 (VTID "0"); OpSave; OpDesignate94 2 (VTID "K"); OpLockingShiftRight 3; OpSingleShift 2].

Lemma charset_translation_witness :
  exists s saved, run_set_ops sample_set_ops (new_TerminalOutput false, new_TerminalOutput false) = Done (s, saved) /\
    AdaptDispatch_PrintString (wstr "[qx") s = (shifted_back s, [[0xC4; 0x2500; 0x2502]]).
Proof.
  destruct (charset_translation sample_set_ops) as (s & saved & Hrun & Hp).
  - repeat constructor; cbn; lia || auto.
  - reflexivity.
  - exists s, saved. split; [exact Hrun|].
    destruct (Hp (wstr "[qx")) as [H _]; [repeat constructor; cbv; done|done|].
    rewrite H. vm_compute in Hrun. injection Hrun as <- <-. by vm_compute.
Defined.

(** A state that was saved while GR was translated brings its GR table back
    when GR is no longer translated. *)
Definition leaking_ops : list SetOp :=
  [OpEnableGr true; OpDesignate96 2 (VTID "L"); OpSave; OpEnableGr false; OpRestore].

Lemma restored_gr_leaks : exists s saved,
  run_set_ops leaking_ops (new_TerminalOutput false, new_TerminalOutput false) = Done (s, saved) /\
  _grTranslationEnabled s = false /\ AdaptDispatch_PrintString [0xE9] s = (s, [[0x449]]).
Proof. do 2 eexists. split; [vm_compute; reflexivity|]. by vm_compute. Qed.
