(* ===== verification/Cursor.v ===== *)
(** * The text cursor

    The class [Cursor] of [buffer/out/cursor.cpp].  A call of
    [TextBuffer::NotifyPaintFrame], which wakes the renderer, has no effect on
    the cursor and is left out; that a redraw was asked for while drawing is
    deferred is part of the state. *)

From S2P Require Import Prelude.
#[local] Open Scope Z_scope.

(** [til::point]. *)
Record point := mk_point { px : Z; py : Z }.

#[export] Instance point_eta : Eta point := fun p => mk_point (px p) (py p).

Definition point_eqb (p q : point) : bool := (px p =? px q) && (py p =? py q).

Inductive CursorType := Legacy | VerticalBar | Underscore | EmptyBox | FullBox | DoubleUnderscore.

Record Cursor := mk_Cursor {
  _cPosition : point;
  _fHasMoved : bool;
  _fIsVisible : bool;
  _fIsOn : bool;
  _fIsDouble : bool;
  _fBlinkingAllowed : bool;
  _fDelay : bool;
  _fIsConversionArea : bool;
  _fDelayedEolWrap : bool;
  _coordDelayedAt : point;
  _fDeferCursorRedraw : bool;
  _fHaveDeferredCursorRedraw : bool;
  _ulSize : Z;
  _cursorType : CursorType;
}.

#[export] Instance Cursor_eta : Eta Cursor := fun c =>
  mk_Cursor (_cPosition c) (_fHasMoved c) (_fIsVisible c) (_fIsOn c) (_fIsDouble c) (_fBlinkingAllowed c)
    (_fDelay c) (_fIsConversionArea c) (_fDelayedEolWrap c) (_coordDelayedAt c) (_fDeferCursorRedraw c)
    (_fHaveDeferredCursorRedraw c) (_ulSize c) (_cursorType c).

Definition new_Cursor (ulSize : Z) : Cursor :=
  mk_Cursor (mk_point 0 0) false true true false true false false false (mk_point 0 0) false false ulSize Legacy.

(** ** Queries *)

Definition GetPosition (c : Cursor) : point := _cPosition c.
Definition HasMoved (c : Cursor) : bool := _fHasMoved c.
Definition IsVisible (c : Cursor) : bool := _fIsVisible c.
Definition IsOn (c : Cursor) : bool := _fIsOn c.
Definition IsBlinkingAllowed (c : Cursor) : bool := _fBlinkingAllowed c.
Definition IsDouble (c : Cursor) : bool := _fIsDouble c.
Definition IsConversionArea (c : Cursor) : bool := _fIsConversionArea c.
Definition GetDelay (c : Cursor) : bool := _fDelay c.
Definition GetSize (c : Cursor) : Z := _ulSize c.
Definition GetDelayedAtPosition (c : Cursor) : point := _coordDelayedAt c.
Definition IsDelayedEOLWrap (c : Cursor) : bool := _fDelayedEolWrap c.
Definition IsDeferDrawing (c : Cursor) : bool := _fDeferCursorRedraw c.
Definition GetType (c : Cursor) : CursorType := _cursorType c.

(** ** Drawing *)

Definition _RedrawCursorAlways (c : Cursor) : Cursor := c.

Definition _RedrawCursor (c : Cursor) : Cursor :=
  if IsOn c && negb (IsConversionArea c) then
    if _fDeferCursorRedraw c then c <| _fHaveDeferredCursorRedraw := true |> else _RedrawCursorAlways c
  else c.

Definition StartDeferDrawing (c : Cursor) : Cursor := c <| _fDeferCursorRedraw := true |>.

Definition EndDeferDrawing (c : Cursor) : Cursor :=
  let c := if _fHaveDeferredCursorRedraw c then _RedrawCursorAlways c else c in
  c <| _fDeferCursorRedraw := false |>.

(** ** Properties *)

Definition SetHasMoved (fHasMoved : bool) (c : Cursor) : Cursor := c <| _fHasMoved := fHasMoved |>.
Definition SetIsVisible (fIsVisible : bool) (c : Cursor) : Cursor := _RedrawCursor (c <| _fIsVisible := fIsVisible |>).
Definition SetIsOn (fIsOn : bool) (c : Cursor) : Cursor := _RedrawCursorAlways (c <| _fIsOn := fIsOn |>).
Definition SetBlinkingAllowed (fBlinkingAllowed : bool) (c : Cursor) : Cursor :=
  _RedrawCursorAlways (c <| _fBlinkingAllowed := fBlinkingAllowed |> <| _fIsOn := true |>).
Definition SetIsDouble (fIsDouble : bool) (c : Cursor) : Cursor := _RedrawCursor (c <| _fIsDouble := fIsDouble |>).
Definition SetIsConversionArea (fIsConversionArea : bool) (c : Cursor) : Cursor :=
  _RedrawCursorAlways (c <| _fIsConversionArea := fIsConversionArea |>).
Definition SetDelay (fDelay : bool) (c : Cursor) : Cursor := c <| _fDelay := fDelay |>.
Definition SetSize (ulSize : Z) (c : Cursor) : Cursor := _RedrawCursor (c <| _ulSize := ulSize |>).
Definition SetStyle (ulSize : Z) (type : CursorType) (c : Cursor) : Cursor :=
  _RedrawCursor (c <| _ulSize := ulSize |> <| _cursorType := type |>).
Definition SetType (type : CursorType) (c : Cursor) : Cursor := c <| _cursorType := type |>.

(** ** The delayed wrap and the position *)

Definition DelayEOLWrap (c : Cursor) : Cursor := c <| _coordDelayedAt := _cPosition c |> <| _fDelayedEolWrap := true |>.
Definition ResetDelayEOLWrap (c : Cursor) : Cursor := c <| _coordDelayedAt := mk_point 0 0 |> <| _fDelayedEolWrap := false |>.

(** The four statements every change of position consists of. *)
Definition move_cursor (p : point) (c : Cursor) : Cursor :=
  ResetDelayEOLWrap (_RedrawCursor ((_RedrawCursor c) <| _cPosition := p |>)).

Definition SetPosition (cPosition : point) (c : Cursor) : Cursor := move_cursor cPosition c.
Definition SetXPosition (NewX : Z) (c : Cursor) : Cursor := move_cursor ((_cPosition c) <| px := NewX |>) c.
Definition SetYPosition (NewY : Z) (c : Cursor) : Cursor := move_cursor ((_cPosition c) <| py := NewY |>) c.
Definition IncrementXPosition (DeltaX : Z) (c : Cursor) : Cursor := SetXPosition (px (_cPosition c) + DeltaX) c.
Definition IncrementYPosition (DeltaY : Z) (c : Cursor) : Cursor := SetYPosition (py (_cPosition c) + DeltaY) c.
Definition DecrementXPosition (DeltaX : Z) (c : Cursor) : Cursor := SetXPosition (px (_cPosition c) - DeltaX) c.
Definition DecrementYPosition (DeltaY : Z) (c : Cursor) : Cursor := SetYPosition (py (_cPosition c) - DeltaY) c.

(** The position and the delayed wrap are not copied, nor is the size. *)
Definition CopyProperties (OtherCursor c : Cursor) : Cursor :=
  c <| _fHasMoved := _fHasMoved OtherCursor |> <| _fIsVisible := _fIsVisible OtherCursor |>
    <| _fIsOn := _fIsOn OtherCursor |> <| _fIsDouble := _fIsDouble OtherCursor |>
    <| _fBlinkingAllowed := _fBlinkingAllowed OtherCursor |> <| _fDelay := _fDelay OtherCursor |>
    <| _fIsConversionArea := _fIsConversionArea OtherCursor |>
    <| _fDeferCursorRedraw := _fDeferCursorRedraw OtherCursor |>
    <| _fHaveDeferredCursorRedraw := _fHaveDeferredCursorRedraw OtherCursor |>
    <| _cursorType := _cursorType OtherCursor |>.

(** ** What the calls leave *)

Lemma redraw_position c : _cPosition (_RedrawCursor c) = _cPosition c.
Proof. unfold _RedrawCursor. by repeat case_match. Qed.

Lemma SetPosition_position p c : _cPosition (SetPosition p c) = p.
Proof. unfold SetPosition, move_cursor, ResetDelayEOLWrap. cbn. by rewrite redraw_position. Qed.

Lemma SetPosition_wrap p c : IsDelayedEOLWrap (SetPosition p c) = false.
Proof. done. Qed.

Lemma SetXPosition_position n c : _cPosition (SetXPosition n c) = mk_point n (py (_cPosition c)).
Proof. unfold SetXPosition. exact (SetPosition_position _ c). Qed.
