(* ===== verification/Pages.v ===== *)
(** * Pages

    The classes [Page] and [PageManager] of [terminal/adapter/PageManager.cpp],
    over the text buffer as far as they use it: its size, cursor, current
    attributes, and the size changes and copies of [buffer/out/textBuffer.cpp].
    The contents of the rows are behind the interface [RowStorage], and the
    owner of the visible buffer behind [ITerminalApi]. *)

From S2P Require Import Prelude VTTypes TermDispatch TextAttribute Cursor.
#[local] Open Scope Z_scope.

(** [til::rect], with exclusive right and bottom. *)
Record rect := mk_rect { left : Z; top : Z; right : Z; bottom : Z }.

#[export] Instance rect_eta : Eta rect := fun r => mk_rect (left r) (top r) (right r) (bottom r).

Definition rect_width (r : rect) : Z := right r - left r.
Definition rect_height (r : rect) : Z := bottom r - top r.

(** ** The text buffer *)

(** What the rows of a buffer promise to their users: rows filled with
    blanks, the rendition of a line, and the copy of a row from another
    storage. *)
Class RowStorage (R : Type) := {
  new_rows : Z -> Z -> TextAttribute -> R;
  row_rendition : Z -> R -> LineRendition;
  copy_row : Z -> Z -> R -> R -> R;
}.

Section Buffer.
Context {R : Type} `{Rows : !RowStorage R}.

Record TextBuffer := mk_TextBuffer {
  _width : Z;
  _height : Z;
  _rows : R;
  _cursor : Cursor;
  _currentAttributes : TextAttribute;
}.

#[export] Instance TextBuffer_eta : Eta TextBuffer := fun b =>
  mk_TextBuffer (_width b) (_height b) (_rows b) (_cursor b) (_currentAttributes b).

Definition new_TextBuffer (width height : Z) (defaultAttributes : TextAttribute) (cursorSize : Z) : TextBuffer :=
  let width := Z.max width 1 in
  let height := Z.max height 1 in
  mk_TextBuffer width height (new_rows width height defaultAttributes) (new_Cursor cursorSize) defaultAttributes.

Definition IsDoubleWidthLine (row : Z) (b : TextBuffer) : bool :=
  match row_rendition row (_rows b) with
  | SingleWidth => false
  | _ => true
  end.

Definition GetLineWidth (row : Z) (b : TextBuffer) : Z :=
  let scale := if IsDoubleWidthLine row b then 1 else 0 in
  Z.shiftr (_width b) scale.

Definition ClampPositionWithinLine (position : point) (b : TextBuffer) : point :=
  let rightmostColumn := GetLineWidth (py position) b - 1 in
  mk_point (Z.min (px position) rightmostColumn) (py position).

(** Rows [srcRow], ... copied over [dstRow], ... of another storage. *)
Fixpoint copy_rows (count : nat) (srcRow dstRow : Z) (src dst : R) : R :=
  match count with
  | O => dst
  | S count => copy_rows count (srcRow + 1) (dstRow + 1) src (copy_row srcRow dstRow src dst)
  end.

Definition ResizeTraditional (width height : Z) (b : TextBuffer) : TextBuffer :=
  let width := Z.max width 1 in
  let height := Z.max height 1 in
  let newRows := _rows (new_TextBuffer width height (_currentAttributes b) 0) in
  let cursorRow := py (GetPosition (_cursor b)) in
  let copyableRows := Z.min (_height b) height in
  let srcRow := if cursorRow >=? height then cursorRow - height + 1 else 0 in
  b <| _rows := copy_rows (Z.to_nat copyableRows) srcRow 0 (_rows b) newRows |>
    <| _width := width |> <| _height := height |>.
End Buffer.
#[global] Arguments TextBuffer : clear implicits.

(** ** The owner of the visible buffer *)

(** [ITerminalApi::BufferState]; the buffer is a reference in the source. *)
Record BufferState (R : Type) := mk_BufferState { buffer : TextBuffer R; viewport : rect; isMainBuffer : bool }.
#[global] Arguments mk_BufferState {R} _ _ _.
#[global] Arguments buffer {R} _.
#[global] Arguments viewport {R} _.
#[global] Arguments isMainBuffer {R} _.

#[export] Instance BufferState_eta {R} : Eta (BufferState R) := fun s =>
  mk_BufferState (buffer s) (viewport s) (isMainBuffer s).

(** The methods without a result that leave the buffer as it is; the modes of
    the parser are reached through [GetStateMachine]. *)
Inductive ApiCall :=
| ReturnResponse (response : list Z)
| ReturnAnswerback
| ApiWarningBell
| ApiSetWindowTitle (title : list Z)
| SetCodePage (codepage : Z)
| SetParserAcceptC1 (enabled : bool)
| SetParserAnsi (enabled : bool).

Class ITerminalApi (A R : Type) := {
  GetBufferAndViewport : A -> BufferState R;
  SetVisibleBuffer : TextBuffer R -> A -> A;
  GetUserDefaultCursorStyle : A -> CursorType;
  GetInputCodePage : A -> Z;
  api_call : ApiCall -> A -> A;
}.

(** What is written through the reference is there, and nothing else is. *)
Class TerminalApiLaws (A R : Type) `{!ITerminalApi A R} := {
  get_set_buffer : forall b a,
    GetBufferAndViewport (SetVisibleBuffer b a) = (GetBufferAndViewport a) <| buffer := b |>;
  call_keeps_buffer : forall c a, GetBufferAndViewport (R := R) (api_call c a) = GetBufferAndViewport a;
}.

(** ** Pages *)

(** Where the buffer of a page is. *)
Inductive PageBuffer := VisibleBuffer | BackgroundBuffer (number : Z).

#[export] Instance PageBuffer_eq_dec : EqDecision PageBuffer.
Proof. solve_decision. Defined.

Record Page := mk_Page { page_buffer : PageBuffer; page_viewport : rect; page_number : Z }.

#[export] Instance Page_eta : Eta Page := fun p => mk_Page (page_buffer p) (page_viewport p) (page_number p).

Definition Top (p : Page) : Z := top (page_viewport p).
Definition Bottom (p : Page) : Z := bottom (page_viewport p).
Definition Height (p : Page) : Z := Bottom p - Top p.
Definition XPanOffset (p : Page) : Z := left (page_viewport p).
Definition YPanOffset (p : Page) : Z := 0.
Definition MoveViewportDown (p : Page) : Page :=
  p <| page_viewport := (page_viewport p) <| top := top (page_viewport p) + 1 |> <| bottom := bottom (page_viewport p) + 1 |> |>.

Definition MAX_PAGES : Z := 6.

Section Pages.
Context {A R : Type} `{Rows : !RowStorage R} `{Api : !ITerminalApi A R}.

Record PageManager := mk_PageManager {
  _activePageNumber : Z;
  _visiblePageNumber : Z;
  _buffers : list (option (TextBuffer R));
}.

#[export] Instance PageManager_eta : Eta PageManager := fun pm =>
  mk_PageManager (_activePageNumber pm) (_visiblePageNumber pm) (_buffers pm).

Definition new_PageManager : PageManager := mk_PageManager 1 1 (replicate 6 None).

Definition PageManager_Reset (pm : PageManager) : PageManager := new_PageManager.

Definition clampPage (pageNumber : Z) : Z := Z.min (Z.max pageNumber 1) MAX_PAGES.

(** A buffer is created on demand, and resized if the page has changed. *)
Definition _getBuffer (pageNumber width height : Z) (pm : PageManager) : PageManager * TextBuffer R :=
  let i := Z.to_nat (pageNumber - 1) in
  let b :=
    match nth i (_buffers pm) None with
    | None => new_TextBuffer width height TextAttribute_default 0
    | Some b =>
        if (_width b =? width) && (_height b =? height) then b else ResizeTraditional width height b
    end in
  (pm <| _buffers := <[i := Some b]> (_buffers pm) |>, b).

Definition Get (pageNumber : Z) (pm : PageManager) (a : A) : PageManager * Page :=
  let requestedPageNumber := clampPage pageNumber in
  let visible := GetBufferAndViewport (R := R) a in
  if negb (isMainBuffer visible) then (pm, mk_Page VisibleBuffer (viewport visible) 1)
  else if requestedPageNumber =? _visiblePageNumber pm then
    (pm, mk_Page VisibleBuffer (viewport visible) (_visiblePageNumber pm))
  else
    let width := rect_width (viewport visible) in
    let height := rect_height (viewport visible) in
    (fst (_getBuffer requestedPageNumber width height pm),
     mk_Page (BackgroundBuffer requestedPageNumber) (mk_rect 0 0 width height) requestedPageNumber).

Definition ActivePage (pm : PageManager) (a : A) : PageManager * Page := Get (_activePageNumber pm) pm a.
Definition VisiblePage (pm : PageManager) (a : A) : PageManager * Page := Get (_visiblePageNumber pm) pm a.

(** [Page::Buffer()], read and written. *)
Definition read_buffer (ref : PageBuffer) (pm : PageManager) (a : A) : TextBuffer R :=
  match ref with
  | VisibleBuffer => buffer (GetBufferAndViewport a)
  | BackgroundBuffer n =>
      default (new_TextBuffer 1 1 TextAttribute_default 0) (nth (Z.to_nat (n - 1)) (_buffers pm) None)
  end.

Definition write_buffer (ref : PageBuffer) (b : TextBuffer R) (pm : PageManager) (a : A) : PageManager * A :=
  match ref with
  | VisibleBuffer => (pm, SetVisibleBuffer b a)
  | BackgroundBuffer n => (pm <| _buffers := <[Z.to_nat (n - 1) := Some b]> (_buffers pm) |>, a)
  end.

(** The visible page is swapped out into its buffer, the new one in. *)
Definition swap_pages (newPageNumber : Z) (pm : PageManager) (a : A) : PageManager * A :=
  let visible := GetBufferAndViewport (R := R) a in
  let width := rect_width (viewport visible) in
  let height := rect_height (viewport visible) in
  let visibleTop := top (viewport visible) in
  let rows := Z.to_nat height in
  let '(pm, newBuffer) := _getBuffer newPageNumber width height pm in
  let '(pm, saveBuffer) := _getBuffer (_visiblePageNumber pm) width height pm in
  let saveBuffer := saveBuffer <| _rows := copy_rows rows visibleTop 0 (_rows (buffer visible)) (_rows saveBuffer) |> in
  let '(pm, a) := write_buffer (BackgroundBuffer (_visiblePageNumber pm)) saveBuffer pm a in
  let visibleBuffer :=
    (buffer visible) <| _rows := copy_rows rows 0 visibleTop (_rows newBuffer) (_rows (buffer visible)) |> in
  let '(pm, a) := write_buffer VisibleBuffer visibleBuffer pm a in
  (pm <| _visiblePageNumber := newPageNumber |>, a).

(** The attributes, the properties of the cursor and its position are carried
    to the new buffer. *)
Definition carry_cursor (oldRef newRef : PageBuffer) (oldTop newTop : Z) (pm : PageManager) (a : A) : PageManager * A :=
  let oldBuffer := read_buffer oldRef pm a in
  let newBuffer := read_buffer newRef pm a in
  let position := GetPosition (_cursor oldBuffer) in
  let position := position <| py := py position - oldTop + newTop |> in
  write_buffer newRef
    (newBuffer <| _currentAttributes := _currentAttributes oldBuffer |>
               <| _cursor := SetPosition position (CopyProperties (_cursor oldBuffer) (_cursor newBuffer)) |>) pm a.

Definition MoveTo (pageNumber : Z) (makeVisible : bool) (pm : PageManager) (a : A) : PageManager * A :=
  let visible := GetBufferAndViewport (R := R) a in
  if negb (isMainBuffer visible) then (pm, a)
  else
    let width := rect_width (viewport visible) in
    let height := rect_height (viewport visible) in
    let visibleTop := top (viewport visible) in
    let wasVisible := _activePageNumber pm =? _visiblePageNumber pm in
    let newPageNumber := clampPage pageNumber in
    let '(pm, a) :=
      if makeVisible && negb (_visiblePageNumber pm =? newPageNumber) then swap_pages newPageNumber pm a else (pm, a) in
    let isVisible := newPageNumber =? _visiblePageNumber pm in
    let '(pm, a) :=
      if negb wasVisible || negb isVisible then
        let pm := if wasVisible then pm else fst (_getBuffer (_activePageNumber pm) width height pm) in
        let pm := if isVisible then pm else fst (_getBuffer newPageNumber width height pm) in
        let oldRef := if wasVisible then VisibleBuffer else BackgroundBuffer (_activePageNumber pm) in
        let newRef := if isVisible then VisibleBuffer else BackgroundBuffer newPageNumber in
        let '(pm, a) :=
          if bool_decide (oldRef = newRef) then (pm, a)
          else carry_cursor oldRef newRef (if wasVisible then visibleTop else 0) (if isVisible then visibleTop else 0) pm a in
        if wasVisible && negb isVisible then
          let b := read_buffer VisibleBuffer pm a in
          write_buffer VisibleBuffer (b <| _cursor := SetIsVisible false (_cursor b) |>) pm a
        else (pm, a)
      else (pm, a) in
    (pm <| _activePageNumber := newPageNumber |>, a).

Definition MoveRelative (pageCount : Z) (makeVisible : bool) (pm : PageManager) (a : A) : PageManager * A :=
  MoveTo (_activePageNumber pm + pageCount) makeVisible pm a.

Definition MakeActivePageVisible (pm : PageManager) (a : A) : PageManager * A :=
  if _activePageNumber pm =? _visiblePageNumber pm then (pm, a) else MoveTo (_activePageNumber pm) true pm a.
End Pages.
#[global] Arguments PageManager : clear implicits.
