(* ===== verification/RenderSettings.v ===== *)
(** * Render settings

    The class [RenderSettings] of [renderer/base/RenderSettings.cpp]: the
    colour table with the aliases for its default colours, the render modes
    and the phases of blinking, and the colours that an attribute is drawn in.
    Waking the renderer is left out. *)

From S2P Require Import Prelude Colors TextAttribute TerminalInput.
#[local] Open Scope Z_scope.

(** [RenderSettings::Mode]. *)
Module RenderMode.
Definition BlinkAllowed : Z := 0.
Definition IndexedDistinguishableColors : Z := 1.
Definition AlwaysDistinguishableColors : Z := 2.
Definition IntenseIsBold : Z := 3.
Definition IntenseIsBright : Z := 4.
Definition ScreenReversed : Z := 5.
Definition SynchronizedOutput : Z := 6.
End RenderMode.

(** [ColorAlias]. *)
Module ColorAlias.
Definition DefaultForeground : Z := 0.
Definition DefaultBackground : Z := 1.
Definition FrameForeground : Z := 2.
Definition FrameBackground : Z := 3.
Definition ENUM_COUNT : Z := 4.
End ColorAlias.

(** Positions of the colour table. *)
Module TableIndex.
Definition DARK_BLACK : Z := 0.
Definition DARK_WHITE : Z := 7.
Definition DEFAULT_FOREGROUND : Z := 261.
Definition DEFAULT_BACKGROUND : Z := 262.
Definition FRAME_FOREGROUND : Z := 263.
Definition FRAME_BACKGROUND : Z := 264.
Definition CURSOR_COLOR : Z := 265.
Definition SELECTION_BACKGROUND : Z := 266.
End TableIndex.

Definition INVALID_COLOR : Z := 0xFFFFFFFF.

Record RenderSettings := mk_RenderSettings {
  _renderMode : Z;
  _colorTable : list Z;
  _colorAliasIndices : list Z;
  _defaultColorTable : list Z;
  _defaultColorAliasIndices : list Z;
  _blinkCycle : Z;
  _blinkIsInUse : bool;
  _blinkShouldBeFaint : bool;
}.

#[export] Instance RenderSettings_eta : Eta RenderSettings := fun r =>
  mk_RenderSettings (_renderMode r) (_colorTable r) (_colorAliasIndices r) (_defaultColorTable r) (_defaultColorAliasIndices r)
    (_blinkCycle r) (_blinkIsInUse r) (_blinkShouldBeFaint r).

(** ** The colour table *)

(** [std::array::at], read and written. *)
Definition array_at (l : list Z) (i : Z) : outcome Z :=
  match l !! Z.to_nat i with Some x => if i <? 0 then Throws else Done x | None => Throws end.
Definition array_put (l : list Z) (i x : Z) : outcome (list Z) :=
  if (0 <=? i) && (i <? Z.of_nat (length l)) then Done (<[Z.to_nat i := x]> l) else Throws.

Definition SetColorTableEntry (tableIndex color : Z) (r : RenderSettings) : outcome RenderSettings :=
  let* table := array_put (_colorTable r) tableIndex color in
  Done (r <| _colorTable := table |>).
Definition GetColorTableEntry (tableIndex : Z) (r : RenderSettings) : outcome Z := array_at (_colorTable r) tableIndex.

Definition SetColorAliasIndex (alias tableIndex : Z) (r : RenderSettings) : RenderSettings :=
  if tableIndex <? TABLE_SIZE then r <| _colorAliasIndices := <[Z.to_nat alias := tableIndex]> (_colorAliasIndices r) |> else r.
Definition GetColorAliasIndex (alias : Z) (r : RenderSettings) : Z := nth (Z.to_nat alias) (_colorAliasIndices r) 0.
Definition RestoreDefaultColorAliasIndex (alias : Z) (r : RenderSettings) : RenderSettings :=
  r <| _colorAliasIndices := <[Z.to_nat alias := nth (Z.to_nat alias) (_defaultColorAliasIndices r) 0]> (_colorAliasIndices r) |>.

Definition SetColorAlias (alias tableIndex color : Z) (r : RenderSettings) : outcome RenderSettings :=
  SetColorTableEntry tableIndex color (SetColorAliasIndex alias tableIndex r).
Definition GetColorAlias (alias : Z) (r : RenderSettings) : outcome Z := GetColorTableEntry (GetColorAliasIndex alias r) r.

Definition ResetColorTable (r : RenderSettings) : RenderSettings :=
  r <| _colorTable := InitializeColorTable (take 16 (_colorTable r)) ++ drop 16 (_colorTable r) |>.
Definition RestoreDefaultIndexed256ColorTable (r : RenderSettings) : RenderSettings :=
  r <| _colorTable := take 256 (_defaultColorTable r) ++ drop 256 (_colorTable r) |>.
Definition RestoreDefaultColorTableEntry (tableIndex : Z) (r : RenderSettings) : outcome RenderSettings :=
  let* color := array_at (_defaultColorTable r) tableIndex in
  SetColorTableEntry tableIndex color r.

(** ** Modes and defaults *)

Definition SaveDefaultSettings (r : RenderSettings) : RenderSettings :=
  r <| _defaultColorTable := _colorTable r |> <| _defaultColorAliasIndices := _colorAliasIndices r |>.
Definition RestoreDefaultSettings (r : RenderSettings) : RenderSettings :=
  r <| _colorTable := _defaultColorTable r |> <| _colorAliasIndices := _defaultColorAliasIndices r |>
    <| _renderMode := modes_reset (_renderMode r) [RenderMode.ScreenReversed; RenderMode.SynchronizedOutput] |>.

Definition SetRenderMode (mode : Z) (enabled : bool) (r : RenderSettings) : RenderSettings :=
  let r := r <| _renderMode := modes_set (_renderMode r) mode enabled |> in
  if (mode =? RenderMode.BlinkAllowed) && negb enabled then r <| _blinkShouldBeFaint := false |> else r.
Definition GetRenderMode (mode : Z) (r : RenderSettings) : bool := modes_test (_renderMode r) mode.

(** The arrays start out with what the memory holds. *)
Definition new_RenderSettings (garbage : nat -> Z) : outcome RenderSettings :=
  let memory := map garbage (seq 0 (Z.to_nat TABLE_SIZE)) in
  let r := mk_RenderSettings (modes_of [RenderMode.BlinkAllowed; RenderMode.IntenseIsBright]) (InitializeColorTable memory)
             (replicate (Z.to_nat ColorAlias.ENUM_COUNT) 0) [] [] 0 false false in
  let* r := SetColorTableEntry TableIndex.DEFAULT_FOREGROUND INVALID_COLOR r in
  let* r := SetColorTableEntry TableIndex.DEFAULT_BACKGROUND INVALID_COLOR r in
  let* r := SetColorTableEntry TableIndex.FRAME_FOREGROUND INVALID_COLOR r in
  let* r := SetColorTableEntry TableIndex.FRAME_BACKGROUND INVALID_COLOR r in
  let* r := SetColorTableEntry TableIndex.CURSOR_COLOR INVALID_COLOR r in
  let* r := SetColorTableEntry TableIndex.SELECTION_BACKGROUND INVALID_COLOR r in
  let r := SetColorAliasIndex ColorAlias.DefaultForeground TableIndex.DARK_WHITE r in
  let r := SetColorAliasIndex ColorAlias.DefaultBackground TableIndex.DARK_BLACK r in
  let r := SetColorAliasIndex ColorAlias.FrameForeground TableIndex.FRAME_FOREGROUND r in
  let r := SetColorAliasIndex ColorAlias.FrameBackground TableIndex.FRAME_BACKGROUND r in
  Done (SaveDefaultSettings r).

(** ** The colours of an attribute *)

Section Colours.
(** Whether the feature is compiled in, and [ColorFix::GetPerceivableColor],
    which computes in floating point. *)
Context (adjustIndistinguishableText : bool) (GetPerceivableColor : Z -> Z -> Z).

Definition swaps_colors (attr : TextAttribute) (r : RenderSettings) : bool :=
  xorb (IsReverseVideo attr) (GetRenderMode RenderMode.ScreenReversed r).

Definition GetAttributeColors (attr : TextAttribute) (r : RenderSettings) : RenderSettings * (Z * Z) :=
  let r := r <| _blinkIsInUse := _blinkIsInUse r || IsBlinking attr |> in
  let fgTextColor := _foreground attr in
  let bgTextColor := _background attr in
  let defaultFgIndex := GetColorAliasIndex ColorAlias.DefaultForeground r in
  let defaultBgIndex := GetColorAliasIndex ColorAlias.DefaultBackground r in
  let brightenFg := IsIntense attr && GetRenderMode RenderMode.IntenseIsBright r in
  let dimFg := IsFaint attr || (_blinkShouldBeFaint r && IsBlinking attr) in
  let fg := GetColor fgTextColor (_colorTable r) defaultFgIndex brightenFg in
  let bg := GetColor bgTextColor (_colorTable r) defaultBgIndex false in
  let fg := if dimFg then Z.land (Z.shiftr fg 1) 0x7F7F7F else fg in
  let '(fg, bg) := if swaps_colors attr r then (bg, fg) else (fg, bg) in
  let fg := if IsInvisible attr then bg else fg in
  let fg :=
    if adjustIndistinguishableText
       && modes_any (_renderMode r) [RenderMode.IndexedDistinguishableColors; RenderMode.AlwaysDistinguishableColors]
       && negb (fg =? bg)
       && (GetRenderMode RenderMode.AlwaysDistinguishableColors r || (IsDefaultOrLegacy fgTextColor && IsDefaultOrLegacy bgTextColor))
    then GetPerceivableColor fg bg else fg in
  (r, (fg, bg)).

Definition GetAttributeColorsWithAlpha (attr : TextAttribute) (r : RenderSettings) : RenderSettings * (Z * Z) :=
  let '(r, (fg, bg)) := GetAttributeColors attr r in
  let fg := Z.lor fg 0xFF000000 in
  let bg := if negb (BackgroundIsDefault attr) || swaps_colors attr r || IsInvisible attr then Z.lor bg 0xFF000000 else bg in
  (r, (fg, bg)).

Definition GetAttributeUnderlineColor (attr : TextAttribute) (r : RenderSettings) : RenderSettings * Z :=
  let '(r, (fg, bg)) := GetAttributeColors attr r in
  let ulTextColor := _underlineColor attr in
  if IsDefault ulTextColor then (r, fg)
  else
    let defaultUlIndex := GetColorAliasIndex ColorAlias.DefaultForeground r in
    let ul := GetColor ulTextColor (_colorTable r) defaultUlIndex true in
    let ul := if IsInvisible attr then bg else ul in
    let ul :=
      if adjustIndistinguishableText && negb (ul =? bg)
         && (GetRenderMode RenderMode.AlwaysDistinguishableColors r
             || (GetRenderMode RenderMode.IndexedDistinguishableColors r && IsDefaultOrLegacy ulTextColor && IsDefaultOrLegacy (_background attr)))
      then GetPerceivableColor ul bg else ul in
    (r, ul).
End Colours.

(** ** Blinking *)

(** Also whether everything is to be drawn again. *)
Definition ToggleBlinkRendition (r : RenderSettings) : RenderSettings * bool :=
  if GetRenderMode RenderMode.BlinkAllowed r then
    let cycle := (_blinkCycle r + 1) mod 4 in
    let r := r <| _blinkCycle := cycle |> <| _blinkShouldBeFaint := 2 <=? cycle |> in
    if _blinkIsInUse r && (cycle mod 2 =? 0) then (r <| _blinkIsInUse := false |>, true) else (r, false)
  else (r, false).
