(* ===== verification/Adapter.v ===== *)
(** * The terminal behind the output engine: cursor, margins, tabs, reports

    The part of the class [AdaptDispatch] of [terminal/adapter/adaptDispatch.cpp]
    that moves the cursor, keeps the scrolling margins, the tab stops, the saved
    cursor states and the character sets, and reports and restores the
    presentation state.  Coordinates are far below the limits of their 32-bit
    type: a parameter of a sequence is at most 65535. *)

From S2P Require Import Prelude VTTypes TermDispatch StateMachine TextAttribute SgrStack Graphics MacroBuffer TerminalInput TerminalOutput Cursor Pages RenderSettings.
#[local] Open Scope Z_scope.

Module AdaptMode.
Definition InsertReplace : Z := 0.
Definition Origin : Z := 1.
Definition Column : Z := 2.
Definition AllowDECCOLM : Z := 3.
Definition AllowDECSLRM : Z := 4.
Definition SixelDisplay : Z := 5.
Definition EraseColor : Z := 6.
Definition RectangularChangeExtent : Z := 7.
Definition PageCursorCoupling : Z := 8.
End AdaptMode.

Record CursorState := mk_CursorState {
  saved_Row : Z;
  saved_Column : Z;
  saved_Page : Z;
  IsDelayedEOLWrap_ : bool;
  IsOriginModeRelative : bool;
  saved_Attributes : TextAttribute;
  saved_TermOutput : TerminalOutput;
}.

#[export] Instance CursorState_eta : Eta CursorState := fun c =>
  mk_CursorState (saved_Row c) (saved_Column c) (saved_Page c) (IsDelayedEOLWrap_ c) (IsOriginModeRelative c)
    (saved_Attributes c) (saved_TermOutput c).

Definition new_CursorState : CursorState :=
  mk_CursorState 1 1 1 false false TextAttribute_default (new_TerminalOutput false).

(** [til::inclusive_rect]. *)
Abbreviation inclusive_rect := rect.

(** A row or a column of a cursor movement. *)
Record Offset := mk_Offset { Value : Z; IsAbsolute : bool }.
Definition Absolute (value : Z) : Offset := mk_Offset (value - 1) true.
Definition Forward (value : Z) : Offset := mk_Offset value false.
Definition Backward (value : Z) : Offset := mk_Offset (- value) false.
Definition Unchanged : Offset := Forward 0.

Definition clamp (v lo hi : Z) : Z := if v <? lo then lo else if hi <? v then hi else v.

Section Adapter.
Context {A R : Type} `{Rows : !RowStorage R} `{Api : !ITerminalApi A R}.

Record AdaptDispatch := mk_AdaptDispatch {
  _tabStopColumns : list bool;
  _initDefaultTabStops : bool;
  _api : A;
  _terminalInput : TerminalInput;
  _termOutput : TerminalOutput;
  _pages : PageManager R;
  _savedCursorState : CursorState * CursorState;
  _usingAltBuffer : bool;
  _scrollMargins : inclusive_rect;
  _modes : Z;
  _renditions : SgrStack;
  _optionalFeatures : list OptionalFeature;
  _macroBuffer : option MacroBuffer;
  _renderSettings : RenderSettings;
}.

#[export] Instance AdaptDispatch_eta : Eta AdaptDispatch := fun s =>
  mk_AdaptDispatch (_tabStopColumns s) (_initDefaultTabStops s) (_api s) (_terminalInput s) (_termOutput s) (_pages s)
    (_savedCursorState s) (_usingAltBuffer s) (_scrollMargins s) (_modes s) (_renditions s) (_optionalFeatures s)
    (_macroBuffer s) (_renderSettings s).

(** The render settings are shared with the renderer, which only reads them. *)
Definition new_AdaptDispatch (api : A) (terminalInput : TerminalInput) (renderSettings : RenderSettings) : AdaptDispatch :=
  mk_AdaptDispatch [] true api terminalInput (new_TerminalOutput false) new_PageManager
    (new_CursorState, new_CursorState) false (mk_rect 0 0 0 0) (modes_of [AdaptMode.PageCursorCoupling])
    new_SgrStack [ClipboardWrite] None renderSettings.

(** ** Access to the page *)

Definition active_page (s : AdaptDispatch) : AdaptDispatch * Page :=
  let '(pm, page) := ActivePage (_pages s) (_api s) in (s <| _pages := pm |>, page).

Definition Buffer (page : Page) (s : AdaptDispatch) : TextBuffer R := read_buffer (page_buffer page) (_pages s) (_api s).
Definition CursorOf (page : Page) (s : AdaptDispatch) : Cursor := _cursor (Buffer page s).
Definition Width (page : Page) (s : AdaptDispatch) : Z := _width (Buffer page s).
Definition AttributesOf (page : Page) (s : AdaptDispatch) : TextAttribute := _currentAttributes (Buffer page s).

Definition set_buffer (page : Page) (b : TextBuffer R) (s : AdaptDispatch) : AdaptDispatch :=
  let '(pm, a) := write_buffer (page_buffer page) b (_pages s) (_api s) in s <| _pages := pm |> <| _api := a |>.
Definition change_cursor (page : Page) (f : Cursor -> Cursor) (s : AdaptDispatch) : AdaptDispatch :=
  set_buffer page ((Buffer page s) <| _cursor := f (CursorOf page s) |>) s.
Definition SetAttributes (page : Page) (attr : TextAttribute) (s : AdaptDispatch) : AdaptDispatch :=
  set_buffer page ((Buffer page s) <| _currentAttributes := attr |>) s.

Definition test_mode (mode : Z) (s : AdaptDispatch) : bool := modes_test (_modes s) mode.
Definition set_mode (mode : Z) (enable : bool) (s : AdaptDispatch) : AdaptDispatch :=
  s <| _modes := modes_set (_modes s) mode enable |>.

(** ** Margins *)

Definition _GetVerticalMargins (page : Page) (absolute : bool) (s : AdaptDispatch) : AdaptDispatch * (Z * Z) :=
  let bottommostRow := Height page - 1 in
  let m := _scrollMargins s in
  let m := if top m >=? bottommostRow then m <| top := 0 |> <| bottom := 0 |> else m in
  let marginsSet := top m <? bottom m in
  let topMargin := if marginsSet then top m else 0 in
  let bottomMargin := if marginsSet then bottom m else bottommostRow in
  let bottomMargin := Z.min bottomMargin bottommostRow in
  (s <| _scrollMargins := m |>,
   if absolute then (topMargin + Top page, bottomMargin + Top page) else (topMargin, bottomMargin)).

Definition _GetHorizontalMargins (pageWidth : Z) (s : AdaptDispatch) : AdaptDispatch * (Z * Z) :=
  let rightmostColumn := pageWidth - 1 in
  let m := _scrollMargins s in
  let m := if left m >=? rightmostColumn then m <| left := 0 |> <| right := 0 |> else m in
  let marginsSet := left m <? right m in
  let leftMargin := if marginsSet then left m else 0 in
  let rightMargin := if marginsSet then right m else rightmostColumn in
  (s <| _scrollMargins := m |>, (leftMargin, Z.min rightMargin rightmostColumn)).

(** ** Cursor movement *)

Definition _ApplyCursorMovementFlags (c : Cursor) : Cursor := SetHasMoved true (SetIsOn true (SetDelay false c)).

(** The position that a movement leads to, within the margins where they
    apply. *)
Definition clamp_in_margins (start : point) (margins : Z * Z * (Z * Z)) (target : point) : point :=
  let '((topMargin, bottomMargin), (leftMargin, rightMargin)) := margins in
  let row := py target in
  let row :=
    if (px start >=? leftMargin) && (px start <=? rightMargin) then
      let row := if py start >=? topMargin then Z.max row topMargin else row in
      if py start <=? bottomMargin then Z.min row bottomMargin else row
    else row in
  let col := px target in
  let col :=
    if (row >=? topMargin) && (row <=? bottomMargin) then
      let col := if px start >=? leftMargin then Z.max col leftMargin else col in
      if px start <=? rightMargin then Z.min col rightMargin else col
    else col in
  mk_point col row.

Definition _CursorMovePosition (rowOffset colOffset : Offset) (clampInMargins : bool) (s : AdaptDispatch) : AdaptDispatch :=
  let '(s, page) := active_page s in
  let pageWidth := Width page s in
  let cursorPosition := GetPosition (CursorOf page s) in
  let '(s, (topMargin, bottomMargin)) := _GetVerticalMargins page true s in
  let '(s, (leftMargin, rightMargin)) := _GetHorizontalMargins pageWidth s in
  let origin := test_mode AdaptMode.Origin s in
  let row := if IsAbsolute rowOffset then (if origin then topMargin else Top page) else py cursorPosition in
  let col := if IsAbsolute colOffset then (if origin then leftMargin else 0) else px cursorPosition in
  let row := clamp (row + Value rowOffset) (Top page) (Bottom page - 1) in
  let col := clamp (col + Value colOffset) 0 (pageWidth - 1) in
  let target := mk_point col row in
  let target :=
    if clampInMargins || origin
    then clamp_in_margins cursorPosition ((topMargin, bottomMargin), (leftMargin, rightMargin)) target
    else target in
  change_cursor page
    (fun c => _ApplyCursorMovementFlags (SetPosition (ClampPositionWithinLine target (Buffer page s)) c)) s.

Definition AdaptDispatch_CursorUp (distance : Z) := _CursorMovePosition (Backward distance) Unchanged true.
Definition AdaptDispatch_CursorDown (distance : Z) := _CursorMovePosition (Forward distance) Unchanged true.
Definition AdaptDispatch_CursorForward (distance : Z) := _CursorMovePosition Unchanged (Forward distance) true.
Definition AdaptDispatch_CursorBackward (distance : Z) := _CursorMovePosition Unchanged (Backward distance) true.
Definition AdaptDispatch_CursorNextLine (distance : Z) := _CursorMovePosition (Forward distance) (Absolute 1) true.
Definition AdaptDispatch_CursorPrevLine (distance : Z) := _CursorMovePosition (Backward distance) (Absolute 1) true.
Definition AdaptDispatch_CursorHorizontalPositionAbsolute (column : Z) := _CursorMovePosition Unchanged (Absolute column) false.
Definition AdaptDispatch_VerticalLinePositionAbsolute (line : Z) := _CursorMovePosition (Absolute line) Unchanged false.
Definition AdaptDispatch_HorizontalPositionRelative (distance : Z) := _CursorMovePosition Unchanged (Forward distance) false.
Definition AdaptDispatch_VerticalPositionRelative (distance : Z) := _CursorMovePosition (Forward distance) Unchanged false.
Definition AdaptDispatch_CursorPosition (line column : Z) := _CursorMovePosition (Absolute line) (Absolute column) false.
Definition AdaptDispatch_CarriageReturn := _CursorMovePosition Unchanged (Absolute 1) true.

(** ** Pages *)

Definition move_page (f : bool -> PageManager R -> A -> PageManager R * A) (s : AdaptDispatch) : AdaptDispatch :=
  let '(pm, a) := f (test_mode AdaptMode.PageCursorCoupling s) (_pages s) (_api s) in
  s <| _pages := pm |> <| _api := a |>.

Definition AdaptDispatch_PagePositionAbsolute (page : Z) := move_page (MoveTo page).
Definition AdaptDispatch_PagePositionRelative (pageCount : Z) := move_page (MoveRelative pageCount).
Definition AdaptDispatch_PagePositionBack (pageCount : Z) := move_page (MoveRelative (- pageCount)).
Definition AdaptDispatch_NextPage (pageCount : Z) (s : AdaptDispatch) : AdaptDispatch :=
  AdaptDispatch_CursorPosition 1 1 (AdaptDispatch_PagePositionRelative pageCount s).
Definition AdaptDispatch_PrecedingPage (pageCount : Z) (s : AdaptDispatch) : AdaptDispatch :=
  AdaptDispatch_CursorPosition 1 1 (AdaptDispatch_PagePositionBack pageCount s).

(** ** Saved cursor states *)

Definition saved_state (s : AdaptDispatch) : CursorState :=
  if _usingAltBuffer s then snd (_savedCursorState s) else fst (_savedCursorState s).
Definition set_saved_state (c : CursorState) (s : AdaptDispatch) : AdaptDispatch :=
  s <| _savedCursorState :=
         if _usingAltBuffer s then (fst (_savedCursorState s), c) else (c, snd (_savedCursorState s)) |>.

(** The position relative to the page, or to the margins in origin mode. *)
Definition relative_position (page : Page) (s : AdaptDispatch) : AdaptDispatch * point :=
  let position := GetPosition (CursorOf page s) in
  let position := position <| py := py position - Top page |> in
  if test_mode AdaptMode.Origin s then
    let '(s, (leftMargin, _)) := _GetHorizontalMargins (Width page s) s in
    let '(s, (topMargin, _)) := _GetVerticalMargins page false s in
    (s, mk_point (px position - leftMargin) (py position - topMargin))
  else (s, position).

Definition AdaptDispatch_CursorSaveState (s : AdaptDispatch) : AdaptDispatch :=
  let '(s, page) := active_page s in
  let '(s, position) := relative_position page s in
  set_saved_state
    (mk_CursorState (py position + 1) (px position + 1) (page_number page)
       (IsDelayedEOLWrap (CursorOf page s)) (test_mode AdaptMode.Origin s)
       (AttributesOf page s) (_termOutput s)) s.

Definition AdaptDispatch_CursorRestoreState (s : AdaptDispatch) : AdaptDispatch :=
  let saved := saved_state s in
  let s := set_mode AdaptMode.Origin (IsOriginModeRelative saved) s in
  let s := AdaptDispatch_PagePositionAbsolute (saved_Page saved) s in
  let s := AdaptDispatch_CursorPosition (saved_Row saved) (saved_Column saved) s in
  let '(s, page) := active_page s in
  let s := if IsDelayedEOLWrap_ saved then change_cursor page DelayEOLWrap s else s in
  let s := SetAttributes page (saved_Attributes saved) s in
  s <| _termOutput := RestoreFrom (saved_TermOutput saved) (_termOutput s) |>.

(** ** Setting the margins *)

Definition _DoSetTopBottomScrollingMargins (topMargin bottomMargin : Z) (homeCursor : bool) (s : AdaptDispatch) : AdaptDispatch :=
  let '(s, page) := active_page s in
  let pageHeight := Height page in
  let actualTop := if topMargin =? 0 then 1 else topMargin in
  let actualBottom := if bottomMargin =? 0 then pageHeight else bottomMargin in
  if (actualTop <? actualBottom) && (actualBottom <=? pageHeight) then
    let '(actualTop, actualBottom) :=
      if (actualTop =? 1) && (actualBottom =? pageHeight) then (0, 0) else (actualTop - 1, actualBottom - 1) in
    let s := s <| _scrollMargins := (_scrollMargins s) <| top := actualTop |> <| bottom := actualBottom |> |> in
    if homeCursor then AdaptDispatch_CursorPosition 1 1 s else s
  else s.

Definition AdaptDispatch_SetTopBottomScrollingMargins (topMargin bottomMargin : Z) :=
  _DoSetTopBottomScrollingMargins topMargin bottomMargin true.

Definition _DoSetLeftRightScrollingMargins (leftMargin rightMargin : Z) (homeCursor : bool) (s : AdaptDispatch) : AdaptDispatch :=
  let '(s, page) := active_page s in
  let pageWidth := Width page s in
  let actualLeft := if leftMargin =? 0 then 1 else leftMargin in
  let actualRight := if rightMargin =? 0 then pageWidth else rightMargin in
  if (actualLeft <? actualRight) && (actualRight <=? pageWidth) then
    let '(actualLeft, actualRight) :=
      if (actualLeft =? 1) && (actualRight =? pageWidth) then (0, 0) else (actualLeft - 1, actualRight - 1) in
    let s := s <| _scrollMargins := (_scrollMargins s) <| left := actualLeft |> <| right := actualRight |> |> in
    if homeCursor then AdaptDispatch_CursorPosition 1 1 s else s
  else s.

Definition AdaptDispatch_SetLeftRightScrollingMargins (leftMargin rightMargin : Z) (s : AdaptDispatch) : AdaptDispatch :=
  if test_mode AdaptMode.AllowDECSLRM s then _DoSetLeftRightScrollingMargins leftMargin rightMargin true s
  else AdaptDispatch_CursorSaveState s.

(** ** Tab stops *)

(** The columns added by [resize], with a stop at every eighth if these are
    the defaults. *)
Definition _InitTabStopsForWidth (width : Z) (s : AdaptDispatch) : outcome AdaptDispatch :=
  if width <? 0 then Throws
  else
    let screenWidth := Z.to_nat width in
    let initialWidth := length (_tabStopColumns s) in
    if (initialWidth <? screenWidth)%nat then
      let columns := _tabStopColumns s ++ replicate (screenWidth - initialWidth) false in
      Done (s <| _tabStopColumns :=
        if _initDefaultTabStops s then
          imap (fun column b => if (8 <=? column)%nat && (column mod 8 =? 0)%nat && (initialWidth <=? column)%nat
                                then true else b) columns
        else columns |>)
    else Done s.

(** [_tabStopColumns.at(column) = value]. *)
Definition set_tab_stop (column : Z) (value : bool) (s : AdaptDispatch) : outcome AdaptDispatch :=
  if column <? 0 then Throws
  else let* columns := array_set (_tabStopColumns s) (Z.to_nat column) value in Done (s <| _tabStopColumns := columns |>).

(** [til::at(_tabStopColumns, column)]. *)
Definition is_tab_stop (column : Z) (columns : list bool) : outcome bool :=
  if column <? 0 then Undefined else deref columns (Z.to_nat column).

Definition AdaptDispatch_HorizontalTabSet (s : AdaptDispatch) : outcome AdaptDispatch :=
  let '(s, page) := active_page s in
  let column := px (GetPosition (CursorOf page s)) in
  let* s := _InitTabStopsForWidth (Width page s) s in
  set_tab_stop column true s.

Fixpoint forward_tab_loop (fuel : nat) (column maxColumn : Z) (tabs : Z) (columns : list bool) : outcome Z :=
  match fuel with
  | O => Done column
  | S fuel =>
      if (column <? maxColumn) && (0 <? tabs) then
        let* stop := is_tab_stop (column + 1) columns in
        forward_tab_loop fuel (column + 1) maxColumn (if stop : bool then tabs - 1 else tabs) columns
      else Done column
  end.

Fixpoint backwards_tab_loop (fuel : nat) (column minColumn : Z) (tabs : Z) (columns : list bool) : outcome Z :=
  match fuel with
  | O => Done column
  | S fuel =>
      if (column >? minColumn) && (0 <? tabs) then
        let* stop := is_tab_stop (column - 1) columns in
        backwards_tab_loop fuel (column - 1) minColumn (if stop : bool then tabs - 1 else tabs) columns
      else Done column
  end.

Definition AdaptDispatch_ForwardTab (numTabs : Z) (s : AdaptDispatch) : outcome AdaptDispatch :=
  let '(s, page) := active_page s in
  let column := px (GetPosition (CursorOf page s)) in
  let row := py (GetPosition (CursorOf page s)) in
  let width := GetLineWidth row (Buffer page s) in
  let '(s, (topMargin, bottomMargin)) := _GetVerticalMargins page true s in
  let '(s, (leftMargin, rightMargin)) := _GetHorizontalMargins width s in
  let clampToMargin := (row >=? topMargin) && (row <=? bottomMargin) && (column <=? rightMargin) in
  let maxColumn := if clampToMargin then rightMargin else width - 1 in
  let* s := _InitTabStopsForWidth width s in
  let* column := forward_tab_loop (Z.to_nat (maxColumn - column)) column maxColumn numTabs (_tabStopColumns s) in
  Done (change_cursor page
    (fun c =>
       let delayedWrapOriginallySet := IsDelayedEOLWrap c in
       let c := _ApplyCursorMovementFlags (SetXPosition column c) in
       if delayedWrapOriginallySet then DelayEOLWrap c else c) s).

Definition AdaptDispatch_BackwardsTab (numTabs : Z) (s : AdaptDispatch) : outcome AdaptDispatch :=
  let '(s, page) := active_page s in
  let column := px (GetPosition (CursorOf page s)) in
  let row := py (GetPosition (CursorOf page s)) in
  let width := GetLineWidth row (Buffer page s) in
  let '(s, (topMargin, bottomMargin)) := _GetVerticalMargins page true s in
  let '(s, (leftMargin, rightMargin)) := _GetHorizontalMargins width s in
  let clampToMargin := (row >=? topMargin) && (row <=? bottomMargin) && (column >=? leftMargin) in
  let minColumn := if clampToMargin then leftMargin else 0 in
  let* s := _InitTabStopsForWidth width s in
  let* column := backwards_tab_loop (Z.to_nat (column - minColumn)) column minColumn numTabs (_tabStopColumns s) in
  Done (change_cursor page (fun c => _ApplyCursorMovementFlags (SetXPosition column c)) s).

Definition _ClearSingleTabStop (s : AdaptDispatch) : outcome AdaptDispatch :=
  let '(s, page) := active_page s in
  let column := px (GetPosition (CursorOf page s)) in
  let* s := _InitTabStopsForWidth (Width page s) s in
  set_tab_stop column false s.

Definition _ClearAllTabStops (s : AdaptDispatch) : AdaptDispatch :=
  s <| _tabStopColumns := [] |> <| _initDefaultTabStops := false |>.

(** [TabClearType::ClearCurrentColumn] and [ClearAllColumns]. *)
Definition AdaptDispatch_TabClear (clearType : Z) (s : AdaptDispatch) : outcome AdaptDispatch :=
  if clearType =? 0 then _ClearSingleTabStop s
  else if clearType =? 3 then Done (_ClearAllTabStops s)
  else Done s.

(** [TabSetType::SetEvery8Columns]. *)
Definition AdaptDispatch_TabSet (setType : Z) (s : AdaptDispatch) : AdaptDispatch :=
  if value_or setType 5 =? 5 then s <| _tabStopColumns := [] |> <| _initDefaultTabStops := true |> else s.
End Adapter.
#[global] Arguments AdaptDispatch : clear implicits.
