(* ===== verification/AdapterReports.v ===== *)
(** * The terminal behind the output engine: requests and reports

    The methods of [AdaptDispatch] that answer the application: status,
    attributes, settings and the presentation state, with the string handlers
    that restore the latter; and the methods for the cursor style and the
    character sets. *)

From S2P Require Import Prelude VTTypes TermDispatch StateMachine TextAttribute SgrStack Graphics MacroBuffer TerminalInput TerminalOutput Cursor Pages RenderSettings Adapter.
#[local] Open Scope Z_scope.

(** [VTID::ToString]: the bytes up to the first zero. *)
Fixpoint id_chars (n : nat) (id : Z) : list Z :=
  match n with
  | O => []
  | S n => let c := Z.land id 0xFF in if c =? 0 then [] else c :: id_chars n (Z.shiftr id CHAR_BIT)
  end.

Definition VTID_ToString (id : Z) : list Z := id_chars 8 id.

(** [%04X]. *)
Definition hex_digit (d : Z) : Z := if d <? 10 then 0x30 + d else 0x41 + (d - 10).
Definition format_04X (n : Z) : list Z :=
  map (fun shift => hex_digit (Z.land (Z.shiftr n shift) 0xF)) [12; 8; 4; 0].

Module StatusType.
Definition OperatingStatus : Z := ANSIStandardStatus 5.
Definition CursorPositionReport : Z := ANSIStandardStatus 6.
Definition ExtendedCursorPositionReport : Z := DECPrivateStatus 6.
Definition PrinterStatus : Z := DECPrivateStatus 15.
Definition UserDefinedKeys : Z := DECPrivateStatus 25.
Definition KeyboardStatus : Z := DECPrivateStatus 26.
Definition LocatorStatus : Z := DECPrivateStatus 55.
Definition LocatorIdentity : Z := DECPrivateStatus 56.
Definition MacroSpaceReport : Z := DECPrivateStatus 62.
Definition MemoryChecksum : Z := DECPrivateStatus 63.
Definition DataIntegrity : Z := DECPrivateStatus 75.
Definition MultipleSessionStatus : Z := DECPrivateStatus 85.
End StatusType.

Section Reports.
Context {A R : Type} `{Rows : !RowStorage R} `{Api : !ITerminalApi A R}.
Variable keypadModeEnabled : bool.
Abbreviation S_ := (AdaptDispatch A R).

(** ** Responses *)

Definition call_api (c : ApiCall) (s : S_) : S_ := s <| _api := api_call (R := R) c (_api s) |>.
Definition sends_c1 (s : S_) : bool := GetInputMode InputMode.SendC1 (_terminalInput s).

Definition _ReturnCsiResponse (response : list Z) (s : S_) : S_ :=
  call_api (ReturnResponse ((if sends_c1 s then [0x9B] else [ESC; 0x5B]) ++ response)) s.
Definition _ReturnDcsResponse (response : list Z) (s : S_) : S_ :=
  call_api (ReturnResponse (dcs_response (sends_c1 s) response)) s.
Definition _ReturnOscResponse (response : list Z) (s : S_) : S_ :=
  call_api (ReturnResponse ((if sends_c1 s then [0x9D] else [ESC; 0x5D]) ++ response
                            ++ (if sends_c1 s then [0x9C] else [ESC; 0x5C]))) s.

Definition AdaptDispatch_EnquireAnswerback (s : S_) : S_ := call_api ReturnAnswerback s.
Definition AdaptDispatch_WarningBell (s : S_) : S_ := call_api ApiWarningBell s.
Definition AdaptDispatch_SetWindowTitle (title : list Z) (s : S_) : S_ := call_api (ApiSetWindowTitle title) s.

(** ** Status *)

(** The position counted from one, relative to the margins in origin mode. *)
Definition report_position (page : Page) (s : S_) : S_ * point :=
  let position := GetPosition (CursorOf page s) in
  let position := mk_point (px position + 1) (py position - Top page + 1) in
  if test_mode AdaptMode.Origin s then
    let '(s, (leftMargin, _)) := _GetHorizontalMargins (Width page s) s in
    let '(s, (topMargin, _)) := _GetVerticalMargins page false s in
    (s, mk_point (px position - leftMargin) (py position - topMargin))
  else (s, position).

Definition _DeviceStatusReport (parameters : list Z) (s : S_) : S_ := _ReturnCsiResponse (parameters ++ wstr "n") s.

Definition _CursorPositionReport (extendedReport : bool) (s : S_) : S_ :=
  let '(s, page) := active_page s in
  let '(s, position) := report_position page s in
  if extendedReport then
    _ReturnCsiResponse (wstr "?" ++ format_int (py position) ++ wstr ";" ++ format_int (px position) ++ wstr ";"
                        ++ format_int (page_number page) ++ wstr "R") s
  else _ReturnCsiResponse (format_int (py position) ++ wstr ";" ++ format_int (px position) ++ wstr "R") s.

Definition _MacroSpaceReport (s : S_) : S_ :=
  let spaceInBytes := match _macroBuffer s with Some m => GetSpaceAvailable m | None => MAX_SPACE end in
  _ReturnCsiResponse (format_int (spaceInBytes / 16) ++ wstr "*{") s.

Definition _MacroChecksumReport (id : Z) (s : S_) : S_ :=
  let checksum := match _macroBuffer s with Some m => CalculateChecksum m | None => 0 end in
  _ReturnDcsResponse (format_int (value_or id 0) ++ wstr "!~" ++ format_04X checksum) s.

Definition AdaptDispatch_DeviceStatusReport (statusType id : Z) (s : S_) : S_ :=
  if statusType =? StatusType.OperatingStatus then _DeviceStatusReport (wstr "0") s
  else if statusType =? StatusType.CursorPositionReport then _CursorPositionReport false s
  else if statusType =? StatusType.ExtendedCursorPositionReport then _CursorPositionReport true s
  else if statusType =? StatusType.PrinterStatus then _DeviceStatusReport (wstr "?13") s
  else if statusType =? StatusType.UserDefinedKeys then _DeviceStatusReport (wstr "?23") s
  else if statusType =? StatusType.KeyboardStatus then _DeviceStatusReport (wstr "?27;0;0;5") s
  else if statusType =? StatusType.LocatorStatus then _DeviceStatusReport (wstr "?53") s
  else if statusType =? StatusType.LocatorIdentity then _DeviceStatusReport (wstr "?57;0") s
  else if statusType =? StatusType.MacroSpaceReport then _MacroSpaceReport s
  else if statusType =? StatusType.MemoryChecksum then _MacroChecksumReport id s
  else if statusType =? StatusType.DataIntegrity then _DeviceStatusReport (wstr "?70") s
  else if statusType =? StatusType.MultipleSessionStatus then _DeviceStatusReport (wstr "?83") s
  else s.

Definition AdaptDispatch_DeviceAttributes (s : S_) : S_ :=
  if existsb (fun f => match f with ClipboardWrite => true | _ => false end) (_optionalFeatures s)
  then _ReturnCsiResponse (wstr "?61;4;6;7;14;21;22;23;24;28;32;42;52c") s
  else _ReturnCsiResponse (wstr "?61;4;6;7;14;21;22;23;24;28;32;42c") s.
Definition AdaptDispatch_SecondaryDeviceAttributes (s : S_) : S_ := _ReturnCsiResponse (wstr ">0;10;1c") s.
Definition AdaptDispatch_TertiaryDeviceAttributes (s : S_) : S_ := _ReturnDcsResponse (wstr "!|00000000") s.
Definition AdaptDispatch_Vt52DeviceAttributes (s : S_) : S_ := call_api (ReturnResponse (ESC :: wstr "/Z")) s.

(** [ReportingPermission::Unsolicited] and [Solicited]. *)
Definition AdaptDispatch_RequestTerminalParameters (permission : Z) (s : S_) : S_ :=
  if permission =? 0 then _ReturnCsiResponse (wstr "2;1;1;128;128;1;0x") s
  else if permission =? 1 then _ReturnCsiResponse (wstr "3;1;1;128;128;1;0x") s
  else s.

Definition AdaptDispatch_RequestDisplayedExtent (s : S_) : S_ :=
  let '(pm, page) := VisiblePage (_pages s) (_api s) in
  let s := s <| _pages := pm |> in
  let width := rect_width (page_viewport page) in
  let height := rect_height (page_viewport page) in
  let left := XPanOffset page + 1 in
  let top := YPanOffset page + 1 in
  _ReturnCsiResponse (format_int height ++ wstr ";" ++ format_int width ++ wstr ";" ++ format_int left ++ wstr ";"
                      ++ format_int top ++ wstr ";" ++ format_int (page_number page) ++ [0x22] ++ wstr "w") s.

(** ** Cursor style *)

Definition cursor_style (cursorStyle : Z) (s : S_) : option (CursorType * bool) :=
  if cursorStyle =? 0 then Some (GetUserDefaultCursorStyle (R := R) (_api s), true)
  else if cursorStyle =? 1 then Some (FullBox, true)
  else if cursorStyle =? 2 then Some (FullBox, false)
  else if cursorStyle =? 3 then Some (Underscore, true)
  else if cursorStyle =? 4 then Some (Underscore, false)
  else if cursorStyle =? 5 then Some (VerticalBar, true)
  else if cursorStyle =? 6 then Some (VerticalBar, false)
  else None.

Definition AdaptDispatch_SetCursorStyle (cursorStyle : Z) (s : S_) : S_ :=
  match cursor_style cursorStyle s with
  | None => s
  | Some (actualType, fEnableBlinking) =>
      let '(s, page) := active_page s in
      change_cursor page (fun c => SetBlinkingAllowed fEnableBlinking (SetType actualType c)) s
  end.

(** ** Character sets and C1 controls *)

Definition on_sets (f : TerminalOutput -> outcome TerminalOutput) (s : S_) : outcome S_ :=
  let* t := f (_termOutput s) in Done (s <| _termOutput := t |>).

Definition AdaptDispatch_Designate94Charset (gsetNumber charset : Z) : S_ -> outcome S_ :=
  on_sets (TerminalOutput.Designate94Charset (Z.to_nat gsetNumber) charset).
Definition AdaptDispatch_Designate96Charset (gsetNumber charset : Z) : S_ -> outcome S_ :=
  on_sets (TerminalOutput.Designate96Charset (Z.to_nat gsetNumber) charset).
Definition AdaptDispatch_LockingShift (gsetNumber : Z) : S_ -> outcome S_ :=
  on_sets (TerminalOutput.LockingShift (Z.to_nat gsetNumber)).
Definition AdaptDispatch_LockingShiftRight (gsetNumber : Z) : S_ -> outcome S_ :=
  on_sets (TerminalOutput.LockingShiftRight (Z.to_nat gsetNumber)).
Definition AdaptDispatch_SingleShift (gsetNumber : Z) (s : S_) : S_ :=
  s <| _termOutput := TerminalOutput.SingleShift (Z.to_nat gsetNumber) (_termOutput s) |>.

Definition AdaptDispatch_AcceptC1Controls (enabled : bool) (s : S_) : S_ := call_api (SetParserAcceptC1 enabled) s.

Definition CP_UTF8 : Z := 65001.

Definition AdaptDispatch_SendC1Controls (enabled : bool) (s : S_) : S_ :=
  let codepage := GetInputCodePage (R := R) (_api s) in
  if negb enabled || (codepage =? CP_UTF8) || (codepage =? 28591)
  then s <| _terminalInput := SetInputMode keypadModeEnabled InputMode.SendC1 enabled (_terminalInput s) |>
  else s.

Definition AdaptDispatch_DesignateCodingSystem (codingSystem : Z) (s : S_) : outcome S_ :=
  if codingSystem =? VTID "@" then
    on_sets (EnableGrTranslation true) (AdaptDispatch_AcceptC1Controls true (call_api (SetCodePage 28591) s))
  else if codingSystem =? VTID "G" then
    on_sets (EnableGrTranslation false) (AdaptDispatch_AcceptC1Controls false (call_api (SetCodePage CP_UTF8) s))
  else Done s.

Definition AdaptDispatch_AnnounceCodeStructure (ansiLevel : Z) (s : S_) : outcome S_ :=
  let level3 s :=
    let* s := AdaptDispatch_Designate94Charset 0 (VTID "B") s in
    AdaptDispatch_LockingShift 0 s in
  if (ansiLevel =? 1) || (ansiLevel =? 2) then
    let* s := AdaptDispatch_Designate96Charset 1 (VTID "A") s in
    let* s := AdaptDispatch_LockingShiftRight 1 s in
    level3 s
  else if ansiLevel =? 3 then level3 s
  else Done s.

Definition AdaptDispatch_SetAnsiMode (ansiMode : bool) (s : S_) : S_ :=
  let s := s <| _termOutput := TerminalOutput.SoftReset (_termOutput s) |> in
  let s := call_api (SetParserAnsi ansiMode) s in
  s <| _terminalInput := SetInputMode keypadModeEnabled InputMode.Ansi ansiMode (_terminalInput s) |>.

Definition AdaptDispatch_SetKeypadMode (fApplicationMode : bool) (s : S_) : S_ :=
  s <| _terminalInput := SetInputMode keypadModeEnabled InputMode.Keypad fApplicationMode (_terminalInput s) |>.

Definition AdaptDispatch_RequestUserPreferenceCharset (s : S_) : S_ :=
  let size := GetUserPreferenceCharsetSize (_termOutput s) in
  let id := GetUserPreferenceCharsetId (_termOutput s) in
  _ReturnDcsResponse (format_int (if size =? 96 then 1 else 0) ++ wstr "!u" ++ VTID_ToString id) s.

(** The handler of DECAUPSS: the state it keeps, and whether it goes on.
    [CharsetSize::Size94] is 0 and [Size96] is 1. *)
Definition AssignUserPreferenceCharset_step (charsetSize ch : Z) (idBuilder : VTIDBuilder) (s : S_)
    : outcome (VTIDBuilder * S_ * bool) :=
  if (ch >=? 0x20) && (ch <=? 0x2F) then Done (AddIntermediate ch idBuilder, s, true)
  else if (ch >=? 0x30) && (ch <=? 0x7E) then
    let id := Finalize ch idBuilder in
    let* s :=
      if charsetSize =? 0 then on_sets (TerminalOutput.AssignUserPreferenceCharset id false) s
      else if charsetSize =? 1 then on_sets (TerminalOutput.AssignUserPreferenceCharset id true) s
      else Done s in
    Done (idBuilder, s, false)
  else Done (idBuilder, s, true).

(** ** Settings *)

Definition _ReportDECSTBMSetting (s : S_) : S_ :=
  let '(s, page) := active_page s in
  let '(s, (marginTop, marginBottom)) := _GetVerticalMargins page false s in
  _ReturnDcsResponse (wstr "1$r" ++ format_int (marginTop + 1) ++ wstr ";" ++ format_int (marginBottom + 1) ++ wstr "r") s.

Definition _ReportDECSLRMSetting (s : S_) : S_ :=
  let '(s, page) := active_page s in
  let '(s, (marginLeft, marginRight)) := _GetHorizontalMargins (Width page s) s in
  _ReturnDcsResponse (wstr "1$r" ++ format_int (marginLeft + 1) ++ wstr ";" ++ format_int (marginRight + 1) ++ wstr "s") s.

Definition _ReportDECSCUSRSetting (s : S_) : S_ :=
  let '(s, page) := active_page s in
  let blinking := IsBlinkingAllowed (CursorOf page s) in
  _ReturnDcsResponse
    (match GetType (CursorOf page s) with
     | FullBox => if blinking then wstr "1$r1 q" else wstr "1$r2 q"
     | Underscore => if blinking then wstr "1$r3 q" else wstr "1$r4 q"
     | VerticalBar => if blinking then wstr "1$r5 q" else wstr "1$r6 q"
     | _ => wstr "1$r0 q"
     end) s.

Definition _ReportDECSACESetting (s : S_) : S_ :=
  _ReturnDcsResponse (if test_mode AdaptMode.RectangularChangeExtent s then wstr "1$r2*x" else wstr "1$r1*x") s.

Definition _ReportDECACSetting (itemNumber : Z) (s : S_) : S_ :=
  let report fgIndex bgIndex :=
    _ReturnDcsResponse (wstr "1$r" ++ format_int itemNumber ++ wstr ";" ++ format_int fgIndex ++ wstr ";"
                        ++ format_int bgIndex ++ wstr ",|") s in
  let alias i := GetColorAliasIndex i (_renderSettings s) in
  if itemNumber =? 1 then report (alias ColorAlias.DefaultForeground) (alias ColorAlias.DefaultBackground)
  else if itemNumber =? 2 then report (alias ColorAlias.FrameForeground) (alias ColorAlias.FrameBackground)
  else _ReturnDcsResponse (wstr "0$r") s.

(** What the handler of DECRQSS does at the end of the request. *)
Definition report_setting (report : SettingReport) (s : S_) : S_ :=
  let on_attributes (f : TextAttribute -> list Z) :=
    let '(s, page) := active_page s in _ReturnDcsResponse (f (AttributesOf page s)) s in
  match report with
  | ReportSGR => on_attributes _ReportSGRSetting
  | ReportDECSTBM => _ReportDECSTBMSetting s
  | ReportDECSLRM => _ReportDECSLRMSetting s
  | ReportDECSCUSR => _ReportDECSCUSRSetting s
  | ReportDECSCA => on_attributes _ReportDECSCASetting
  | ReportDECSACE => _ReportDECSACESetting s
  | ReportDECAC item => _ReportDECACSetting (as_VTInt item) s
  | ReportUnsupported => _ReturnDcsResponse (wstr "0$r") s
  end.

(** [ChangeExtent::Default], [Stream] and [Rectangle]. *)
Definition AdaptDispatch_SelectAttributeChangeExtent (changeExtent : Z) (s : S_) : S_ :=
  if (changeExtent =? 0) || (changeExtent =? 1) then set_mode AdaptMode.RectangularChangeExtent false s
  else if changeExtent =? 2 then set_mode AdaptMode.RectangularChangeExtent true s
  else s.
End Reports.
