(* ===== verification/AdapterColors.v ===== *)
(** * The terminal behind the output engine: colours

    The methods of [AdaptDispatch] that set, report and reset the colour
    table: entries (OSC 4 and 104), the dynamic colours of xterm (OSC 10, 11,
    12, 17 and their resets), the assignment of colours (DECAC), and the colour
    table report with the string handler that restores it (DECRQTSR and
    DECRSTS).  The renderer, which is told to draw again, is left out. *)

From S2P Require Import Prelude VTTypes StateMachine Colors TextAttribute Graphics TerminalInput Cursor Pages RenderSettings Adapter AdapterReports.
#[local] Open Scope Z_scope.

(** [DispatchTypes::ColorItem], [ColorModel] and [ReportFormat]. *)
Module ColorItem.
Definition NormalText : Z := 1.
Definition WindowFrame : Z := 2.
End ColorItem.
Module ColorModel.
Definition HLS : Z := 1.
Definition RGB : Z := 2.
End ColorModel.
Module ReportFormat.
Definition TerminalStateReport : Z := 1.
Definition ColorTableReport : Z := 2.
End ReportFormat.

(** The colour table index and the alias index of each resource from 10 on. *)
Definition XtermResourceColorTableMappings : list (Z * Z) :=
  [(TableIndex.DEFAULT_FOREGROUND, ColorAlias.DefaultForeground);
   (TableIndex.DEFAULT_BACKGROUND, ColorAlias.DefaultBackground);
   (TableIndex.CURSOR_COLOR, -1); (-1, -1); (-1, -1); (-1, -1); (-1, -1);
   (TableIndex.SELECTION_BACKGROUND, -1); (-1, -1); (-1, -1)].

Definition resource_mapping (resource : Z) : outcome (Z * Z) :=
  match XtermResourceColorTableMappings !! Z.to_nat (u64 (resource - 10)) with Some m => Done m | None => Throws end.

(** [{:04x}]. *)
Definition lower_digit (d : Z) : Z := if d <? 10 then 0x30 + d else 0x61 + (d - 10).
Definition format_04x (n : Z) : list Z :=
  map (fun shift => lower_digit (Z.land (Z.shiftr n shift) 0xF)) [12; 8; 4; 0].

(** [rgb:rrrr/gggg/bbbb], with each byte scaled up to sixteen bits. *)
Definition xterm_color (color : Z) : list Z :=
  let c := color_of_COLORREF color in
  wstr "rgb:" ++ format_04x (color_r c * 0x0101) ++ wstr "/" ++ format_04x (color_g c * 0x0101)
  ++ wstr "/" ++ format_04x (color_b c * 0x0101).

Section Colours.
(** [Utils::ColorToHLS] and [Utils::ColorFromHLS], which compute in floating
    point. *)
Context (ColorToHLS : color -> Z * Z * Z) (ColorFromHLS : Z -> Z -> Z -> color).
Context {A R : Type} `{Rows : !RowStorage R} `{Api : !ITerminalApi A R}.
Abbreviation S_ := (AdaptDispatch A R).

Definition on_settings (f : RenderSettings -> outcome RenderSettings) (s : S_) : outcome S_ :=
  let* r := f (_renderSettings s) in Done (s <| _renderSettings := r |>).

(** ** Entries *)

Definition AdaptDispatch_SetColorTableEntry (tableIndex color : Z) : S_ -> outcome S_ :=
  on_settings (SetColorTableEntry tableIndex color).

Definition AdaptDispatch_RequestColorTableEntry (tableIndex : Z) (s : S_) : outcome S_ :=
  let* color := GetColorTableEntry tableIndex (_renderSettings s) in
  Done (if negb (color =? INVALID_COLOR)
        then _ReturnOscResponse (wstr "4;" ++ format_int tableIndex ++ wstr ";" ++ xterm_color color) s
        else s).

Definition AdaptDispatch_ResetColorTable : S_ -> outcome S_ :=
  on_settings (fun r => Done (RestoreDefaultIndexed256ColorTable r)).
Definition AdaptDispatch_ResetColorTableEntry (tableIndex : Z) : S_ -> outcome S_ :=
  on_settings (RestoreDefaultColorTableEntry tableIndex).

(** ** Resources *)

Definition AdaptDispatch_SetXtermColorResource (resource color : Z) (s : S_) : outcome S_ :=
  let* (tableIndex, alias) := resource_mapping resource in
  if tableIndex >? 0 then
    let* s := on_settings (fun r => Done (if alias >=? 0 then SetColorAliasIndex alias tableIndex r else r)) s in
    AdaptDispatch_SetColorTableEntry tableIndex color s
  else Done s.

Definition AdaptDispatch_RequestXtermColorResource (resource : Z) (s : S_) : outcome S_ :=
  let* (tableIndex, alias) := resource_mapping resource in
  if tableIndex >? 0 then
    let finalColorIndex := if alias >=? 0 then GetColorAliasIndex alias (_renderSettings s) else tableIndex in
    let* color := GetColorTableEntry finalColorIndex (_renderSettings s) in
    Done (if negb (color =? INVALID_COLOR)
          then _ReturnOscResponse (format_int resource ++ wstr ";" ++ xterm_color color) s
          else s)
  else Done s.

Definition AdaptDispatch_ResetXtermColorResource (resource : Z) (s : S_) : outcome S_ :=
  let* (tableIndex, alias) := resource_mapping resource in
  if tableIndex >? 0 then
    let* s := on_settings (fun r => Done (if alias >=? 0 then RestoreDefaultColorAliasIndex alias r else r)) s in
    AdaptDispatch_ResetColorTableEntry tableIndex s
  else Done s.

Definition AdaptDispatch_AssignColor (item fgIndex bgIndex : Z) (s : S_) : S_ :=
  let assign fg bg :=
    s <| _renderSettings := SetColorAliasIndex bg bgIndex (SetColorAliasIndex fg fgIndex (_renderSettings s)) |> in
  if item =? ColorItem.NormalText then assign ColorAlias.DefaultForeground ColorAlias.DefaultBackground
  else if item =? ColorItem.WindowFrame then assign ColorAlias.FrameForeground ColorAlias.FrameBackground
  else s.

(** ** The colour table report *)

Definition report_entry (colorModel colorNumber color : Z) : option (list Z) :=
  let entry '(x, y, z) :=
    (if colorNumber >? 0 then wstr "/" else []) ++ format_int colorNumber ++ wstr ";" ++ format_int colorModel ++ wstr ";"
    ++ format_int x ++ wstr ";" ++ format_int y ++ wstr ";" ++ format_int z in
  if colorModel =? ColorModel.HLS then Some (entry (ColorToHLS (color_of_COLORREF color)))
  else if colorModel =? ColorModel.RGB then Some (entry (ColorToRGB100 (color_of_COLORREF color)))
  else None.

(** The loop over the table; without a response for a model that does not
    exist. *)
Fixpoint report_entries (n : nat) (colorModel colorNumber : Z) (r : RenderSettings) : outcome (option (list Z)) :=
  match n with
  | O => Done (Some [])
  | S n =>
      let* color := GetColorTableEntry colorNumber r in
      if negb (color =? INVALID_COLOR) then
        match report_entry colorModel colorNumber color with
        | Some text =>
            let* rest := report_entries n colorModel (colorNumber + 1) r in
            Done ((fun rest => text ++ rest) <$> rest)
        | None => Done None
        end
      else report_entries n colorModel (colorNumber + 1) r
  end.

Definition _ReportColorTable (colorModel : Z) (s : S_) : outcome S_ :=
  let* report := report_entries (Z.to_nat TABLE_SIZE) colorModel 0 (_renderSettings s) in
  Done (match report with
        | Some text => _ReturnDcsResponse (wstr "2$s" ++ text) s
        | None => s
        end).

(** [formatOption] is a parameter of the sequence, the model 0 if omitted. *)
Definition AdaptDispatch_RequestTerminalStateReport (format formatOption : Z) (s : S_) : outcome S_ :=
  if format =? ReportFormat.ColorTableReport then _ReportColorTable (value_or formatOption 0) s else Done s.

(** ** Restoring the colour table *)

(** The members of the handler: the number being read and those read before. *)
Record ColorTableHandler := mk_ColorTableHandler { ct_parameter : Z; ct_parameters : list Z }.

Definition restore_color (parameters : list Z) (s : S_) : outcome S_ :=
  let at_ i := match parameters !! i with Some p => p | None => VTParameter_default end in
  let colorNumber := value_or (at_ 0%nat) 0 in
  if colorNumber <? TABLE_SIZE then
    let colorModel := value_or (at_ 1%nat) 0 in
    let x := value_or (at_ 2%nat) 0 in
    let y := value_or (at_ 3%nat) 0 in
    let z := value_or (at_ 4%nat) 0 in
    if colorModel =? ColorModel.HLS then AdaptDispatch_SetColorTableEntry colorNumber (COLORREF_of_color (ColorFromHLS x y z)) s
    else if colorModel =? ColorModel.RGB then AdaptDispatch_SetColorTableEntry colorNumber (COLORREF_of_color (ColorFromRGB100 x y z)) s
    else Done s
  else Done s.

Definition _RestoreColorTable_step (ch : Z) (h : ColorTableHandler) (s : S_) : outcome (ColorTableHandler * S_ * bool) :=
  let more := negb (ch =? ESC) in
  if (0x30 <=? ch) && (ch <=? 0x39) then
    Done (mk_ColorTableHandler (Z.min (ct_parameter h * 10 + (ch - 0x30)) MAX_PARAMETER_VALUE) (ct_parameters h), s, more)
  else if ch =? 0x3B then
    Done (mk_ColorTableHandler 0 (if (length (ct_parameters h) <? 5)%nat then ct_parameters h ++ [ct_parameter h] else ct_parameters h), s, more)
  else if (ch =? 0x2F) || (ch =? ESC) then
    let* s := restore_color (ct_parameters h ++ [ct_parameter h]) s in
    Done (mk_ColorTableHandler 0 [], s, more)
  else Done (h, s, more).

Definition _RestoreColorTable : ColorTableHandler := mk_ColorTableHandler 0 [].

Definition AdaptDispatch_RestoreTerminalState (format : Z) : option ColorTableHandler :=
  if format =? ReportFormat.ColorTableReport then Some _RestoreColorTable else None.

(** The characters of a string, until the handler stops. *)
Fixpoint handle_colors (chars : list Z) (h : ColorTableHandler) (s : S_) : outcome (ColorTableHandler * S_) :=
  match chars with
  | [] => Done (h, s)
  | ch :: chars =>
      let* (h, s, more) := _RestoreColorTable_step ch h s in
      if more : bool then handle_colors chars h s else Done (h, s)
  end.
End Colours.
