(* ===== verification/ColorFacts.v ===== *)
(** * Colours are reported and restored

    What the reports of the colour table say, when they are sent back: the
    answer to a request for an entry or a resource sets it to the same colour,
    and the report of the whole table restores it up to the rounding to
    percentages. *)

From S2P Require Import Prelude VTTypes StringUtils TermDispatch StateMachine OutputEngine ParserFacts ParserRoundtrip OutputFacts Colors TextAttribute Graphics TerminalInput InputRoundtrip Cursor Pages RenderSettings Adapter AdapterReports AdapterColors.
#[local] Open Scope Z_scope.

(** ** Colours *)

Definition table_color (c : Z) : Prop := 0 <= c < 2 ^ 24.

(** The colour that a report in percentages stands for. *)
Definition in_percent (c : Z) : Z :=
  let '(x, y, z) := ColorToRGB100 (color_of_COLORREF c) in COLORREF_of_color (ColorFromRGB100 x y z).

Lemma percent_bounds v : 0 <= v < 256 -> 0 <= scale255To100 v <= 100.
Proof.
  intros Hv. unfold scale255To100, u8.
  assert (0 <= (v * 100 + 128) / 255 < 101) by (split; [apply Z.div_pos|apply Z.div_lt_upper_bound]; lia).
  rewrite Z.mod_small; lia.
Qed.

Lemma color_component v shift : 0 <= Z.land (Z.shiftr v shift) 0xFF < 256.
Proof. change 0xFF with (Z.ones 8). rewrite Z.land_ones by lia. apply Z.mod_pos_bound. lia. Qed.

Lemma component_r c : 0 <= color_r (color_of_COLORREF c) < 256.
Proof. pose proof (color_component (Z.lor c 0xFF000000) 0). by rewrite Z.shiftr_0_r in *. Qed.
Lemma component_g c : 0 <= color_g (color_of_COLORREF c) < 256.
Proof. apply color_component. Qed.
Lemma component_b c : 0 <= color_b (color_of_COLORREF c) < 256.
Proof. apply color_component. Qed.

Lemma percentages c : let '(x, y, z) := ColorToRGB100 (color_of_COLORREF c) in
  0 <= x <= 100 /\ 0 <= y <= 100 /\ 0 <= z <= 100.
Proof.
  exact (conj (percent_bounds _ (component_r c))
    (conj (percent_bounds _ (component_g c)) (percent_bounds _ (component_b c)))).
Qed.

(** The bytes of a colour. *)
Lemma color_bytes r g b : 0 <= r < 256 -> 0 <= g < 256 -> 0 <= b < 256 ->
  color_of_COLORREF (r + 256 * g + 65536 * b) = rgb r g b.
Proof.
  intros Hr Hg Hb. unfold color_of_COLORREF, rgb. set (c := r + 256 * g + 65536 * b).
  rewrite !Z.shiftr_lor, !Z.land_lor_distr_l, !Z.shiftr_div_pow2 by lia. change 0xFF with (Z.ones 8) at 1 3 5 7.
  rewrite !Z.land_ones by lia. change (Z.land _ 255) with 0 at 1. change (Z.land _ 255) with 0 at 1.
  change (Z.land _ 255) with 0 at 1. change (Z.land _ 255) with 255 at 1. rewrite !Z.lor_0_r.
  f_equal; unfold c.
  - symmetry. apply (Z.mod_unique _ _ (g + 256 * b)); lia.
  - symmetry. rewrite <- (Z.div_unique (r + 256 * g + 65536 * b) (2 ^ 8) (g + 256 * b) r) by lia.
    apply (Z.mod_unique _ _ b); lia.
  - rewrite <- (Z.div_unique (r + 256 * g + 65536 * b) (2 ^ 16) b (r + 256 * g)) by lia. apply Z.mod_small. lia.
  - rewrite (Z.div_small (r + 256 * g + 65536 * b)) by lia. done.
Qed.

Lemma color_parts c : table_color c ->
  exists r g b, c = r + 256 * g + 65536 * b /\ 0 <= r < 256 /\ 0 <= g < 256 /\ 0 <= b < 256.
Proof.
  unfold table_color. intros Hc. exists (c mod 256), (c / 256 mod 256), (c / 65536).
  pose proof (Z.div_mod c 256). pose proof (Z.div_mod (c / 256) 256). pose proof (Z.mod_pos_bound c 256).
  pose proof (Z.mod_pos_bound (c / 256) 256).
  replace (c / 65536) with (c / 256 / 256) by (rewrite Z.div_div; [done|lia..]). lia.
Qed.

(** The byte that a percentage of a byte stands for. *)
Definition byte_in_percent (v : Z) : Z := scale100To255 (scale255To100 v).

Lemma byte_in_percent_near v : 0 <= v < 256 ->
  Z.abs (byte_in_percent v - v) <= 1 /\ 0 <= byte_in_percent v < 256 /\
  byte_in_percent (byte_in_percent v) = byte_in_percent v.
Proof.
  intros Hv.
  assert (Hall : forallb (fun v => (Z.abs (byte_in_percent v - v) <=? 1) && (0 <=? byte_in_percent v) && (byte_in_percent v <? 256)
    && (byte_in_percent (byte_in_percent v) =? byte_in_percent v)) (seqZ 0 256) = true) by (vm_compute; reflexivity).
  rewrite forallb_forall in Hall. specialize (Hall v). rewrite <- list_elem_of_In, elem_of_seqZ in Hall.
  specialize (Hall ltac:(lia)). lia.
Qed.

Lemma in_percent_bytes r g b : 0 <= r < 256 -> 0 <= g < 256 -> 0 <= b < 256 ->
  in_percent (r + 256 * g + 65536 * b)
  = byte_in_percent r + 256 * byte_in_percent g + 65536 * byte_in_percent b.
Proof.
  intros Hr Hg Hb. unfold in_percent. rewrite color_bytes by done. cbn [ColorToRGB100 rgb color_r color_g color_b].
  assert (Hm : forall v, 0 <= v < 256 -> scale100To255 (Z.min (u32 (scale255To100 v)) 100) = byte_in_percent v).
  { intros v Hv. pose proof (percent_bounds v Hv). rewrite u32_small by lia. by rewrite Z.min_l by lia. }
  unfold ColorFromRGB100. rewrite !Hm by done.
  apply COLORREF_rgb; apply byte_in_percent_near; done.
Qed.

Lemma table_color_valid c : table_color c -> (c =? INVALID_COLOR) = false.
Proof. unfold table_color, INVALID_COLOR. lia. Qed.

(** ** The handler of the colour table report *)

Section Restore.
Context (ColorToHLS : color -> Z * Z * Z) (ColorFromHLS : Z -> Z -> Z -> color).
Context {A R : Type} `{Rows : !RowStorage R} `{Api : !ITerminalApi A R}.
Abbreviation S_ := (AdaptDispatch A R).
Implicit Types (s t : S_).
Abbreviation handle chars p ps s := (handle_colors ColorFromHLS chars (mk_ColorTableHandler p ps) s).

Lemma handle_digits ds : Forall is_digit ds -> forall p ps rest s,
  handle (ds ++ rest) p ps s = handle rest (accumulate p ds) ps s.
Proof.
  induction 1 as [|c ds Hc _ IH]; intros p ps rest s; [done|].
  cbn [app handle_colors]. unfold _RestoreColorTable_step. unfold is_digit in Hc. autounfold with chars in Hc.
  assert (Hd : (0x30 <=? c) && (c <=? 0x39) = true) by lia. rewrite Hd. unfold ESC.
  assert (He : negb (c =? 27) = true) by lia. rewrite He. cbn [obind ct_parameter ct_parameters]. rewrite IH.
  unfold accumulate. cbn [fold_left]. by rewrite AccumulateTo_min, Z.min_comm.
Qed.

Lemma handle_number n ps rest s : 0 <= n <= MAX_PARAMETER_VALUE ->
  handle (format_int n ++ rest) 0 ps s = handle rest n ps s.
Proof.
  intros Hn. rewrite format_digits by (unfold MAX_PARAMETER_VALUE in Hn; lia).
  rewrite handle_digits by (apply digits_digit; lia). by rewrite digits_accumulate.
Qed.

Lemma handle_semicolon p ps rest s : (length ps < 5)%nat ->
  handle (wstr ";" ++ rest) p ps s = handle rest 0 (ps ++ [p]) s.
Proof.
  intros Hl. change (wstr ";" ++ rest) with (0x3B :: rest). cbn [handle_colors]. unfold _RestoreColorTable_step.
  cbn [ct_parameter ct_parameters]. by rewrite (proj2 (Nat.ltb_lt _ _) Hl).
Qed.

(** The numbers of one entry of a report. *)
Lemma handle_entry k m x y z rest s :
  Forall (fun n => 0 <= n <= MAX_PARAMETER_VALUE) [k; m; x; y; z] ->
  handle (format_int k ++ wstr ";" ++ format_int m ++ wstr ";" ++ format_int x ++ wstr ";" ++ format_int y ++ wstr ";"
          ++ format_int z ++ rest) 0 [] s
  = handle rest z [k; m; x; y] s.
Proof.
  intros Hf. repeat (apply Forall_cons_1 in Hf as [? Hf]).
  do 4 (rewrite handle_number by done; rewrite handle_semicolon by (cbn; lia); cbn [app]).
  by rewrite handle_number.
Qed.

Lemma handle_slash p ps rest s :
  handle (wstr "/" ++ rest) p ps s = let* s := restore_color ColorFromHLS (ps ++ [p]) s in handle rest 0 [] s.
Proof.
  change (wstr "/" ++ rest) with (0x2F :: rest). cbn [handle_colors]. unfold _RestoreColorTable_step.
  cbn [ct_parameter ct_parameters]. by destruct (restore_color ColorFromHLS (ps ++ [p]) s).
Qed.

Lemma handle_end p ps s :
  handle [ESC] p ps s
  = let* s := restore_color ColorFromHLS (ps ++ [p]) s in Done (mk_ColorTableHandler 0 [], s).
Proof.
  cbn [handle_colors]. unfold _RestoreColorTable_step. cbn [ct_parameter ct_parameters].
  by destruct (restore_color ColorFromHLS (ps ++ [p]) s).
Qed.

(** ** The table *)

Definition table s : list Z := _colorTable (_renderSettings s).
Definition with_table (l : list Z) s : S_ := s <| _renderSettings := (_renderSettings s) <| _colorTable := l |> |>.

Lemma set_entry k c s : 0 <= k < Z.of_nat (length (table s)) ->
  AdaptDispatch_SetColorTableEntry k c s = Done (with_table (<[Z.to_nat k := c]> (table s)) s).
Proof.
  intros Hk. unfold AdaptDispatch_SetColorTableEntry, on_settings, SetColorTableEntry, array_put.
  assert (Hb : (0 <=? k) && (k <? Z.of_nat (length (_colorTable (_renderSettings s)))) = true) by (unfold table in Hk; lia).
  by rewrite Hb.
Qed.

Lemma restore_percent k c s : 0 <= k < TABLE_SIZE -> Z.of_nat (length (table s)) = TABLE_SIZE ->
  (let '(x, y, z) := ColorToRGB100 (color_of_COLORREF c) in
   restore_color ColorFromHLS ([k; ColorModel.RGB; x; y] ++ [z]) s)
  = Done (with_table (<[Z.to_nat k := in_percent c]> (table s)) s).
Proof.
  intros Hk Hl. unfold in_percent. destruct (ColorToRGB100 (color_of_COLORREF c)) as [[x y] z] eqn:E.
  assert (Hp : 0 <= x /\ 0 <= y /\ 0 <= z) by (pose proof (percentages c) as Hp; rewrite E in Hp; lia).
  assert (V : forall v, 0 <= v -> value_or v 0 = v) by (intros v Hv; unfold value_or; by rewrite (proj2 (Z.ltb_ge _ _))).
  unfold restore_color. cbn [app lookup list_lookup]. rewrite (V k), (V x), (V y), (V z) by lia.
  rewrite (proj2 (Z.ltb_lt k TABLE_SIZE)) by lia. apply set_entry. lia.
Qed.

Lemma restore_nothing s : restore_color ColorFromHLS [0] s = Done s.
Proof. done. Qed.

(** The entries from [k] on for [n], where they are set, in place of those of
    [dst]. *)
Definition restored (k n : nat) (src dst : list Z) : list Z :=
  imap (fun i old => match src !! i with
                     | Some c => if (k <=? i)%nat && (i <? k + n)%nat && negb (c =? INVALID_COLOR) then in_percent c else old
                     | None => old
                     end) dst.

Lemma restored_none k src dst : restored k 0 src dst = dst.
Proof.
  apply list_eq. intros i. unfold restored. rewrite list_lookup_imap. destruct (dst !! i) as [old|]; [|done].
  cbn [fmap option_fmap option_map].
  destruct (src !! i); [|done]. assert ((k <=? i)%nat && (i <? k + 0)%nat = false) as -> by (apply andb_false_iff; rewrite Nat.leb_gt, Nat.ltb_ge; lia).
  done.
Qed.

Lemma restored_step k n src dst c : src !! k = Some c -> (k < length dst)%nat ->
  restored k (S n) src dst
  = restored (S k) n src (if negb (c =? INVALID_COLOR) then <[k := in_percent c]> dst else dst).
Proof.
  intros Hc Hk. apply list_eq. intros i. unfold restored. rewrite !list_lookup_imap.
  destruct (decide (i = k)) as [->|Hne].
  - assert (H1 : (k <=? k)%nat && (k <? k + S n)%nat = true) by (apply andb_true_iff; rewrite Nat.leb_le, Nat.ltb_lt; lia).
    assert (H2 : (S k <=? k)%nat = false) by (apply Nat.leb_gt; lia).
    destruct (lookup_lt_is_Some_2 dst k Hk) as [old Ho]. rewrite Ho, Hc. cbn [fmap option_fmap option_map]. rewrite H1.
    destruct (c =? INVALID_COLOR); cbn [negb andb].
    + by rewrite Ho; cbn [fmap option_fmap option_map]; rewrite H2.
    + by rewrite list_lookup_insert_eq by done; cbn [fmap option_fmap option_map]; rewrite H2.
  - assert (H3 : (k <=? i)%nat && (i <? k + S n)%nat = (S k <=? i)%nat && (i <? S k + n)%nat).
    { apply eq_true_iff_eq. rewrite !andb_true_iff, !Nat.leb_le, !Nat.ltb_lt. lia. }
    rewrite H3. destruct (c =? INVALID_COLOR); cbn [negb]; [done|]. by rewrite list_lookup_insert_ne.
Qed.

Lemma length_restored k n src dst : length (restored k n src dst) = length dst.
Proof. apply length_imap. Qed.

Lemma get_entry s k c : table s !! k = Some c -> GetColorTableEntry (Z.of_nat k) (_renderSettings s) = Done c.
Proof.
  intros Hc. unfold GetColorTableEntry, array_at. rewrite Nat2Z.id. unfold table in Hc. rewrite Hc.
  by rewrite (proj2 (Z.ltb_ge _ _)) by lia.
Qed.

(** What the report has for an entry is read as its number, the model and the
    percentages. *)
Lemma handle_reported k c rest t text : 0 <= k < TABLE_SIZE -> Z.of_nat (length (table t)) = TABLE_SIZE ->
  report_entry ColorToHLS ColorModel.RGB k c = Some text ->
  exists z x y, restore_color ColorFromHLS ([k; ColorModel.RGB; x; y] ++ [z]) t
                = Done (with_table (<[Z.to_nat k := in_percent c]> (table t)) t) /\
    text = (if k >? 0 then wstr "/" else []) ++ drop (length (if k >? 0 then wstr "/" else [])) text /\
    handle (drop (length (if k >? 0 then wstr "/" else [])) text ++ rest) 0 [] t
    = handle rest z [k; ColorModel.RGB; x; y] t.
Proof.
  intros Hk Hl. unfold report_entry. cbn [Z.eqb ColorModel.RGB ColorModel.HLS].
  change (ColorModel.RGB =? ColorModel.HLS) with false. change (ColorModel.RGB =? ColorModel.RGB) with true. cbv iota.
  pose proof (percentages c) as Hp. pose proof (restore_percent k c t Hk Hl) as Hr.
  destruct (ColorToRGB100 (color_of_COLORREF c)) as [[x y] z]. intros Ht. apply (inj Some) in Ht. subst text. exists z, x, y.
  split; [exact Hr|]. set (sep := if k >? 0 then _ else _). rewrite drop_app_length. split; [done|].
  rewrite <- !app_assoc. apply handle_entry. unfold MAX_PARAMETER_VALUE, TABLE_SIZE, ColorModel.RGB in *.
  repeat constructor; lia.
Qed.

Lemma entries_restored s n k : (1 <= k)%nat -> (k + n = length (table s))%nat -> Z.of_nat (length (table s)) = TABLE_SIZE ->
  exists text, report_entries ColorToHLS n ColorModel.RGB (Z.of_nat k) (_renderSettings s) = Done (Some text) /\
    forall p ps t t1, restore_color ColorFromHLS (ps ++ [p]) t = Done t1 -> Z.of_nat (length (table t1)) = TABLE_SIZE ->
      handle (text ++ [ESC]) p ps t
      = Done (mk_ColorTableHandler 0 [], with_table (restored k n (table s) (table t1)) t1).
Proof.
  revert k. induction n as [|n IH]; intros k Hk Hn Hs; cbn [report_entries].
  { exists []. split; [done|]. intros p ps t t1 Hr Hl. cbn [app]. rewrite handle_end, Hr. cbn [obind].
    rewrite restored_none. by destruct t1 as [? ? ? ? ? ? ? ? ? ? ? ? ? []]. }
  destruct (lookup_lt_is_Some_2 (table s) k) as [c Hc]; [lia|]. rewrite (get_entry s k c Hc). cbn [obind].
  replace (Z.of_nat k + 1) with (Z.of_nat (S k)) by lia.
  destruct (IH (S k)) as (text & -> & Hrest); [lia..|]. cbn [obind].
  destruct (c =? INVALID_COLOR) eqn:Hi; cbn [negb].
  - exists text. split; [done|]. intros p ps t t1 Hr Hl. rewrite (Hrest p ps t t1 Hr Hl).
    rewrite (restored_step k n _ _ c Hc) by lia. by rewrite Hi.
  - destruct (report_entry ColorToHLS ColorModel.RGB (Z.of_nat k) c) as [entry|] eqn:He; [|done].
    eexists. split; [reflexivity|]. intros p ps t t1 Hr Hl.
    destruct (handle_reported (Z.of_nat k) c (text ++ [ESC]) t1 entry) as (z & x & y & Hset & Htext & Hbody); [lia|done|done|].
    assert (Hsep : (Z.of_nat k >? 0) = true) by lia. rewrite Hsep in *. rewrite Htext, <- !app_assoc, handle_slash, Hr.
    cbn [obind]. rewrite Hbody. rewrite (Hrest _ _ _ _ Hset) by (cbn; by rewrite length_insert).
    rewrite (restored_step k n _ _ c Hc) by lia. rewrite Hi. cbn [negb]. by rewrite Nat2Z.id.
Qed.
End Restore.

(** ** The round trips *)

Record settings_ok (r : RenderSettings) : Prop := {
  st_table : Z.of_nat (length (_colorTable r)) = TABLE_SIZE;
  st_aliases : Z.of_nat (length (_colorAliasIndices r)) = ColorAlias.ENUM_COUNT;
}.

(** Four digits for a byte scaled up are read as the byte. *)
Lemma scaled_byte v : 0 <= v < 256 ->
  Forall Colors.hex_digit (format_04x (v * 0x0101)) /\ length (format_04x (v * 0x0101)) = 4%nat /\
  component_value false (format_04x (v * 0x0101)) = v.
Proof.
  intros Hv.
  assert (Hall : forallb (fun v => forallb (fun c => match HexToUint c with Some _ => true | None => false end) (format_04x (v * 0x0101))
    && (component_value false (format_04x (v * 0x0101)) =? v)) (seqZ 0 256) = true) by (vm_compute; reflexivity).
  rewrite forallb_forall in Hall. specialize (Hall v). rewrite <- list_elem_of_In, elem_of_seqZ in Hall.
  specialize (Hall ltac:(lia)). apply andb_true_iff in Hall as [H1 H2]. split_and!; [|done|lia].
  apply Forall_forall. rewrite forallb_forall in H1. intros d Hd. specialize (H1 d Hd). unfold Colors.hex_digit. by destruct (HexToUint d).
Qed.

Lemma xterm_color_bytes r g b : 0 <= r < 256 -> 0 <= g < 256 -> 0 <= b < 256 ->
  xterm_color (r + 256 * g + 65536 * b)
  = wstr "rgb:" ++ format_04x (r * 0x0101) ++ wstr "/" ++ format_04x (g * 0x0101) ++ wstr "/" ++ format_04x (b * 0x0101).
Proof. intros Hr Hg Hb. unfold xterm_color. by rewrite color_bytes. Qed.

Lemma xterm_color_text c : table_color c -> Forall graphic (xterm_color c) /\ 0x3B ∉ xterm_color c.
Proof.
  intros (r & g & b & -> & Hr & Hg & Hb)%color_parts. rewrite xterm_color_bytes by done.
  assert (Hh : forall v, 0 <= v < 256 -> Forall (fun d => graphic d /\ d <> 0x3B) (format_04x (v * 0x0101))).
  { intros v Hv. destruct (scaled_byte v Hv) as (Hd & _). eapply Forall_impl; [|exact Hd]. apply hex_graphic. }
  assert (Ht : Forall (fun d => graphic d /\ d <> 0x3B)
    (wstr "rgb:" ++ format_04x (r * 0x0101) ++ wstr "/" ++ format_04x (g * 0x0101) ++ wstr "/" ++ format_04x (b * 0x0101))).
  { rewrite !Forall_app. split_and!; try (by apply Hh); repeat constructor; try discriminate;
      unfold graphic, wchar; cbn; lia. }
  split; [eapply Forall_impl; [|exact Ht]; by intros ? []|].
  intros Hin. rewrite Forall_forall in Ht. apply list_elem_of_In in Hin. by apply Ht in Hin as [_ ?].
Qed.

Lemma xterm_color_read c : table_color c -> osc_color (xterm_color c) = c.
Proof.
  intros (r & g & b & -> & Hr & Hg & Hb)%color_parts. rewrite xterm_color_bytes by done. unfold osc_color.
  destruct (scaled_byte r Hr) as (R1 & R2 & R3), (scaled_byte g Hg) as (G1 & G2 & G3), (scaled_byte b Hb) as (B1 & B2 & B3).
  rewrite bool_decide_eq_false_2 by done. unfold ColorFromXTermColor.
  rewrite rgb_spec_parsed by (try done; rewrite ?R2, ?G2, ?B2; first [lia|by left]). rewrite R3, G3, B3.
  by apply COLORREF_rgb.
Qed.

Section Reports.
Context {A R : Type} `{Rows : !RowStorage R} `{Api : !ITerminalApi A R}.
Abbreviation S_ := (AdaptDispatch A R).
Implicit Types (s t : S_).

Context {D CB H : Type} `{Disp : !ITermDispatch D CB H}.
Variable u8u16 : list Z -> option (list Z).
#[local] Instance OutColors : IStateMachineEngine (OutputStateMachineEngine D) CB H := OutputEngine u8u16.
Abbreviation SM := (StateMachine (OutputStateMachineEngine D) CB H).
Variable runCallback : CB -> SM -> SM.

(** The parser, given the text, is ready again and has made the calls. *)
Definition answer_received (text : list Z) (sm : SM) (cs : list Call) : Prop :=
  let sm1 := feed runCallback text sm in
  _state sm1 = Ground /\ _dispatch (_engine sm1) = run_calls cs (_dispatch (_engine sm)).

Lemma entry_received k c (sm : SM) : 0 <= k <= MAX_PARAMETER_VALUE -> table_color c -> ready sm ->
  answer_received ([ESC; 0x5D] ++ (wstr "4;" ++ format_int k ++ wstr ";" ++ xterm_color c) ++ [ESC; 0x5C]) sm
    [TermDispatch.SetColorTableEntry k c].
Proof.
  intros Hk (r & g & b & -> & Hr & Hg & Hb)%color_parts Hsm. rewrite format_digits by (unfold MAX_PARAMETER_VALUE in Hk; lia).
  destruct (scaled_byte r Hr) as (R1 & R2 & R3), (scaled_byte g Hg) as (G1 & G2 & G3), (scaled_byte b Hb) as (B1 & B2 & B3).
  set (e := (k, Some (format_04x (r * 0x0101), format_04x (g * 0x0101), format_04x (b * 0x0101))) : ColorEntry).
  assert (He : entry_ok e).
  { split; [done|]. unfold e. cbn [snd].
    do 3 (apply Forall_cons; [split; [done|rewrite ?R2, ?G2, ?B2; lia]|]). by constructor. }
  destruct (color_table_delivered u8u16 runCallback [e] [ESC; 0x5C] sm) as [H1 H2]; [done|by constructor|done|by right; left|].
  assert (Hc : map entry_call [e] = [TermDispatch.SetColorTableEntry k (r + 256 * g + 65536 * b)]).
  { cbn [map entry_call e fst snd]. by rewrite R3, G3, B3. }
  rewrite Hc in H2. rewrite xterm_color_bytes by done. unfold answer_received. cbv zeta.
  match type of H1 with _state (feed _ ?text _) = _ => match goal with |- _state (feed _ ?text' _) = _ /\ _ => replace text' with text end end;
    [by split|].
  unfold osc_text, osc_sequence. cbn [map entry_parts concat app join e fst]. unfold entry_spec. cbn [snd e].
  change (digits 4) with [0x34]. rewrite <- !app_assoc. reflexivity.
Qed.

(** The resources that have a colour. *)
Definition color_resources : list Z := [10; 11; 12; 17].

Lemma resource_received n c (sm : SM) : In n color_resources -> table_color c -> ready sm ->
  answer_received ([ESC; 0x5D] ++ (format_int n ++ wstr ";" ++ xterm_color c) ++ [ESC; 0x5C]) sm
    [TermDispatch.SetXtermColorResource n c].
Proof.
  intros Hn Hc Hsm. destruct (xterm_color_text c Hc) as [Hg Hs].
  assert (Hr : 0 <= n <= MAX_PARAMETER_VALUE) by (unfold MAX_PARAMETER_VALUE; destruct Hn as [<-|[<-|[<-|[<-|[]]]]]; lia).
  destruct (osc_received u8u16 runCallback n (xterm_color c) [ESC; 0x5C] sm Hsm Hr Hg) as [H1 H2]; [by right; left|].
  assert (Hcalls : osc_calls u8u16 n (xterm_color c) = [TermDispatch.SetXtermColorResource n c]).
  { assert (Hsplit : _GetOscSetColor (xterm_color c) = Some [c]).
    { unfold _GetOscSetColor. change (xterm_color c) with (join 0x3B [xterm_color c]) at 1.
      rewrite SplitString_join; [|done|by constructor]. cbn [map]. by rewrite xterm_color_read. }
    unfold osc_calls. rewrite Hsplit. unfold table_color in Hc.
    assert (Hcol : color_resource_calls n [c] = [TermDispatch.SetXtermColorResource n c]).
    { cbn [color_resource_calls]. unfold COLOR_INQUIRY_COLOR, OutputEngine.INVALID_COLOR.
      rewrite !(proj2 (Z.eqb_neq c _)) by lia. done. }
    rewrite Hcol. destruct Hn as [<-|[<-|[<-|[<-|[]]]]]; reflexivity. }
  rewrite Hcalls in H2. unfold answer_received. cbv zeta. unfold osc_text, osc_sequence in H1, H2.
  rewrite format_digits by (unfold MAX_PARAMETER_VALUE in Hr; lia). rewrite <- !app_assoc. by split.
Qed.

(** The answer to a request for an entry, and for a resource. *)
Lemma entry_answered k c s : 0 <= k < TABLE_SIZE -> settings_ok (_renderSettings s) -> table_color c -> sends_c1 s = false ->
  exists s1, AdaptDispatch_SetColorTableEntry k c s = Done s1 /\
    AdaptDispatch_RequestColorTableEntry k s1
    = Done (call_api (ReturnResponse ([ESC; 0x5D] ++ (wstr "4;" ++ format_int k ++ wstr ";" ++ xterm_color c) ++ [ESC; 0x5C])) s1).
Proof.
  intros Hk [Hl _] Hc Hs. eexists. rewrite set_entry by (unfold table; lia). split; [done|].
  unfold AdaptDispatch_RequestColorTableEntry. set (s1 := with_table _ s).
  assert (Hg : GetColorTableEntry k (_renderSettings s1) = Done c).
  { rewrite <- (Z2Nat.id k) at 1 by lia. apply get_entry. apply list_lookup_insert_eq. unfold table. lia. }
  rewrite Hg. cbn [obind]. rewrite table_color_valid by done. cbn [negb]. unfold _ReturnOscResponse.
  change (sends_c1 s1) with (sends_c1 s). by rewrite Hs.
Qed.

Lemma resource_answered n c s : In n color_resources -> settings_ok (_renderSettings s) -> table_color c -> sends_c1 s = false ->
  exists s1, AdaptDispatch_SetXtermColorResource n c s = Done s1 /\
    AdaptDispatch_RequestXtermColorResource n s1
    = Done (call_api (ReturnResponse ([ESC; 0x5D] ++ (format_int n ++ wstr ";" ++ xterm_color c) ++ [ESC; 0x5C])) s1).
Proof.
  intros Hn [Hl Ha] Hc Hs.
  assert (Hm : exists tableIndex alias, resource_mapping n = Done (tableIndex, alias) /\ 0 < tableIndex < TABLE_SIZE /\
                 -1 <= alias < ColorAlias.ENUM_COUNT).
  { destruct Hn as [<-|[<-|[<-|[<-|[]]]]]; do 2 eexists; (split; [reflexivity|]); vm_compute; split; split; congruence. }
  destruct Hm as (k & alias & Hm & Hk & Hal). unfold AdaptDispatch_SetXtermColorResource, AdaptDispatch_RequestXtermColorResource.
  rewrite Hm. cbn [obind]. assert ((k >? 0) = true) as -> by lia.
  set (r := if alias >=? 0 then SetColorAliasIndex alias k (_renderSettings s) else _renderSettings s).
  assert (Hr : _colorTable r = table s) by (unfold r, SetColorAliasIndex; by repeat step_if).
  unfold on_settings at 1. fold r. cbn [obind]. set (s0 := s <| _renderSettings := r |>).
  assert (Hl0 : length (table s0) = length (table s)) by (change (table s0) with (_colorTable r); by rewrite Hr).
  eexists. rewrite set_entry by (unfold table in *; lia). split; [done|]. set (s1 := with_table _ s0).
  assert (Hi : (if alias >=? 0 then GetColorAliasIndex alias (_renderSettings s1) else k) = k).
  { change (_renderSettings s1) with (r <| _colorTable := <[Z.to_nat k := c]> (table s0) |>). unfold r.
    destruct (Z.geb_spec alias 0); [|done]. unfold GetColorAliasIndex, SetColorAliasIndex. rewrite (proj2 (Z.ltb_lt _ _)) by lia.
    cbn. apply nth_lookup_Some. apply list_lookup_insert_eq. lia. }
  rewrite Hi. assert (Hg : GetColorTableEntry k (_renderSettings s1) = Done c).
  { rewrite <- (Z2Nat.id k) at 1 by lia. apply get_entry. apply list_lookup_insert_eq. unfold table in *. lia. }
  rewrite Hg. cbn [obind]. rewrite table_color_valid by done. cbn [negb]. unfold _ReturnOscResponse.
  change (sends_c1 s1) with (sends_c1 s). by rewrite Hs.
Qed.

(** C39: what a terminal answers about a colour sets that colour.  After an
    entry of the colour table (OSC 4), or one of the foreground, background,
    cursor and selection colours (OSC 10, 11, 12, 17), has been set to a
    colour, the answer to a request for it, received by the output parser and
    engine of a terminal, is exactly one call, which sets the same entry or
    resource to the same colour.  The colour is one of 24 bits; the answer is in
    seven bit controls, and the receiving parser is in ANSI mode and not in the
    middle of a string ([ready]). *)
Theorem color_report_roundtrip c s (sm : SM) :
  settings_ok (_renderSettings s) -> table_color c -> sends_c1 s = false -> ready sm ->
  (forall k, 0 <= k < TABLE_SIZE -> exists s1 text,
     AdaptDispatch_SetColorTableEntry k c s = Done s1 /\
     AdaptDispatch_RequestColorTableEntry k s1 = Done (call_api (ReturnResponse text) s1) /\
     answer_received text sm [TermDispatch.SetColorTableEntry k c]) /\
  (forall n, In n color_resources -> exists s1 text,
     AdaptDispatch_SetXtermColorResource n c s = Done s1 /\
     AdaptDispatch_RequestXtermColorResource n s1 = Done (call_api (ReturnResponse text) s1) /\
     answer_received text sm [TermDispatch.SetXtermColorResource n c]).
Proof.
  intros Hr Hc Hs Hsm. split.
  - intros k Hk. destruct (entry_answered k c s) as (s1 & H1 & H2); try done. exists s1. eexists.
    split; [exact H1|]. split; [exact H2|]. apply entry_received; [unfold TABLE_SIZE in Hk; unfold MAX_PARAMETER_VALUE; lia|done|done].
  - intros n Hn. destruct (resource_answered n c s) as (s1 & H1 & H2); try done. exists s1. eexists.
    split; [exact H1|]. split; [exact H2|]. by apply resource_received.
Qed.
End Reports.

Section Table.
Context (ColorToHLS : color -> Z * Z * Z) (ColorFromHLS : Z -> Z -> Z -> color).
Context {A R : Type} `{Rows : !RowStorage R} `{Api : !ITerminalApi A R}.
Implicit Types (s t : AdaptDispatch A R).

(** The colour [c'] is [c], but for the rounding of each component to the
    nearest percentage, and is not changed by another one. *)
Definition near_color (c c' : Z) : Prop :=
  (exists r g b r' g' b', c = r + 256 * g + 65536 * b /\ c' = r' + 256 * g' + 65536 * b' /\
     Forall (fun '(v, v') => 0 <= v < 256 /\ 0 <= v' < 256 /\ Z.abs (v' - v) <= 1) [(r, r'); (g, g'); (b, b')]) /\
  in_percent c' = c'.

Lemma in_percent_near c : table_color c -> near_color c (in_percent c).
Proof.
  intros (r & g & b & -> & Hr & Hg & Hb)%color_parts.
  destruct (byte_in_percent_near r Hr) as (R1 & R2 & R3), (byte_in_percent_near g Hg) as (G1 & G2 & G3),
    (byte_in_percent_near b Hb) as (B1 & B2 & B3).
  rewrite in_percent_bytes by done. split; [|by rewrite in_percent_bytes, R3, G3, B3].
  exists r, g, b. do 3 eexists. split; [done|]. split; [reflexivity|].
  do 3 (apply Forall_cons; [lia|]). by apply Forall_nil.
Qed.

(** The report of the colour table restores it.  A terminal answers
    DECRQTSR for the colour table in the RGB model with a text that, sent back
    as DECRSTS to a terminal, whatever its colours, sets every entry that has a
    colour to that colour, each component off by at most one of 255, for the
    report has percentages, and in such a way that it would be reported the
    same; every entry without a colour, and everything else, stays as it is. *)
Theorem color_table_restored s t : settings_ok (_renderSettings s) -> settings_ok (_renderSettings t) ->
  Forall (fun c => table_color c \/ c = INVALID_COLOR) (table s) ->
  exists text, AdaptDispatch_RequestTerminalStateReport ColorToHLS ReportFormat.ColorTableReport ColorModel.RGB s
               = Done (_ReturnDcsResponse (wstr "2$s" ++ text) s) /\
  exists h h' t', AdaptDispatch_RestoreTerminalState ReportFormat.ColorTableReport = Some h /\
    handle_colors ColorFromHLS (text ++ [ESC]) h t = Done (h', t') /\ t' = with_table (table t') t /\
    forall i c old, table s !! i = Some c -> table t !! i = Some old ->
      exists c', table t' !! i = Some c' /\ (if c =? INVALID_COLOR then c' = old else near_color c c').
Proof.
  intros [Hs _] [Ht _] Hcol. change (_colorTable (_renderSettings ?x)) with (table x) in Hs, Ht.
  destruct (lookup_lt_is_Some_2 (table s) 0) as [c0 Hc0]; [unfold TABLE_SIZE in Hs; lia|].
  assert (En : exists n, Z.to_nat TABLE_SIZE = S n) by (by exists 266%nat). destruct En as [n En].
  destruct (entries_restored ColorToHLS ColorFromHLS s n 1) as (text & Hrep & Hrest); [done|lia|done|].
  change (Z.of_nat 1) with 1 in Hrep. pose proof (get_entry s 0 c0 Hc0) as Hget. change (Z.of_nat 0) with 0 in Hget.
  assert (Hgoal : exists text0, report_entries ColorToHLS (Z.to_nat TABLE_SIZE) ColorModel.RGB 0 (_renderSettings s) = Done (Some text0) /\
    handle_colors ColorFromHLS (text0 ++ [ESC]) _RestoreColorTable t
    = Done (mk_ColorTableHandler 0 [], with_table (restored 0 (Z.to_nat TABLE_SIZE) (table s) (table t)) t)).
  { rewrite En. cbn [report_entries]. rewrite Hget. cbn [obind]. change (0 + 1) with 1. rewrite Hrep. cbn [obind].
    rewrite (restored_step _ _ _ _ c0 Hc0) by lia.
    destruct (c0 =? INVALID_COLOR) eqn:Hi; cbn [negb].
    - exists text. split; [done|]. by apply (Hrest 0 [] t t (restore_nothing ColorFromHLS t)).
    - destruct (report_entry ColorToHLS ColorModel.RGB 0 c0) as [entry|] eqn:He; [|done].
      eexists. split; [reflexivity|].
      destruct (handle_reported ColorToHLS ColorFromHLS 0 c0 (text ++ [ESC]) t entry) as (z & x & y & Hset & _ & Hbody);
        [unfold TABLE_SIZE; lia|done|done|].
      change (length ((if 0 >? 0 then wstr "/" else []) : list Z)) with 0%nat in Hbody. rewrite drop_0 in Hbody.
      cbn [fmap option_fmap option_map]. rewrite <- app_assoc. unfold _RestoreColorTable. rewrite Hbody.
      rewrite (Hrest _ _ _ _ Hset); [done|]. cbn. by rewrite length_insert. }
  destruct Hgoal as (text0 & Hr0 & Hh0). exists text0. split.
  { unfold AdaptDispatch_RequestTerminalStateReport, _ReportColorTable. cbn [Z.eqb ReportFormat.ColorTableReport].
    change (ReportFormat.ColorTableReport =? ReportFormat.ColorTableReport) with true. cbv iota.
    change (value_or ColorModel.RGB 0) with ColorModel.RGB. by rewrite Hr0. }
  do 3 eexists. split; [reflexivity|]. split; [exact Hh0|]. split; [done|]. intros i c old Hc Ho.
  change (table (with_table ?l t)) with l. unfold restored. rewrite list_lookup_imap, Ho. cbn [fmap option_fmap option_map]. rewrite Hc.
  assert (Hin : (0 <=? i)%nat && (i <? 0 + Z.to_nat TABLE_SIZE)%nat = true).
  { apply lookup_lt_Some in Hc. apply andb_true_iff. rewrite Nat.leb_le, Nat.ltb_lt. lia. }
  rewrite Hin. eexists. split; [reflexivity|]. destruct (c =? INVALID_COLOR) eqn:Hi; cbn [andb negb]; [done|].
  apply in_percent_near. rewrite Forall_forall in Hcol. destruct (Hcol c) as [?| ->]; [by apply list_elem_of_In, (list_elem_of_lookup_2 _ i)|done|done].
Qed.
End Table.
