(* ===== verification/Presentation.v ===== *)
(** * The presentation state

    DECRQPSR and DECRSPS of [AdaptDispatch]: the cursor information report and
    the tab stop report, and the string handlers that restore what was
    reported. *)

From S2P Require Import Prelude VTTypes TermDispatch StateMachine TextAttribute Graphics TerminalInput TerminalOutput Cursor Pages Adapter AdapterReports.
#[local] Open Scope Z_scope.

(** The fields of a cursor information report. *)
Module Field.
Definition Row : Z := 0.
Definition Column : Z := 1.
Definition Page : Z := 2.
Definition SGR : Z := 3.
Definition Attr : Z := 4.
Definition Flags : Z := 5.
Definition GL : Z := 6.
Definition GR : Z := 7.
Definition Sizes : Z := 8.
Definition G0 : Z := 9.
Definition G1 : Z := 10.
Definition G2 : Z := 11.
Definition G3 : Z := 12.
Definition numeric : Z := modes_of [Row; Column; Page; GL; GR].
Definition flags : Z := modes_of [SGR; Attr; Flags; Sizes].
Definition charset : Z := modes_of [G0; G1; G2; G3].
End Field.

(** The state of the handler. *)
Record State := mk_State {
  field : Z;
  value : Z;
  charsetId : VTIDBuilder;
  charset96 : list bool;
  row : Z;
  column : Z;
}.

#[export] Instance State_eta : Eta State := fun st =>
  mk_State (field st) (value st) (charsetId st) (charset96 st) (row st) (column st).

Definition new_State : State :=
  mk_State Field.Row 0 VTIDBuilder_Clear [false; false; false; false] VTParameter_default VTParameter_default.

Definition bit (flag : bool) (value : Z) : Z := if flag then value else 0.

(** The characters that stand for the flags of a report. *)
Definition rendition_flags (a : TextAttribute) : Z :=
  0x40 + bit (IsIntense a) 1 + bit (IsUnderlined a) 2 + bit (IsBlinking a) 4 + bit (IsReverseVideo a) 8
       + bit (IsInvisible a) 16.
Definition protection_flags (a : TextAttribute) : Z := if IsProtected a then 0x41 else 0x40.
Definition wrap_flags (origin : bool) (t : TerminalOutput) (delayedWrap : bool) : Z :=
  0x40 + bit origin 1 + bit (IsSingleShiftPending 2 t) 2 + bit (IsSingleShiftPending 3 t) 4 + bit delayedWrap 8.

Definition size_flags (t : TerminalOutput) : outcome Z :=
  let size96 n := let* size := GetCharsetSize n t in Done (size =? 96) in
  let* b0 := size96 0%nat in
  let* b1 := size96 1%nat in
  let* b2 := size96 2%nat in
  let* b3 := size96 3%nat in
  Done (0x40 + bit b0 1 + bit b1 2 + bit b2 4 + bit b3 8).

Definition charset_ids (t : TerminalOutput) : outcome (list Z) :=
  let* id0 := GetCharsetId 0 t in
  let* id1 := GetCharsetId 1 t in
  let* id2 := GetCharsetId 2 t in
  let* id3 := GetCharsetId 3 t in
  Done (VTID_ToString id0 ++ VTID_ToString id1 ++ VTID_ToString id2 ++ VTID_ToString id3).

Section Presentation.
Context {A R : Type} `{Rows : !RowStorage R} `{Api : !ITerminalApi A R}.
Abbreviation S_ := (AdaptDispatch A R).

(** ** Cursor information *)

(** The text of the report, between DCS and ST. *)
Definition cursor_information (page : Page) (position : point) (s : S_) : outcome (list Z) :=
  let a := AttributesOf page s in
  let t := _termOutput s in
  let* sizes := size_flags t in
  let* ids := charset_ids t in
  Done (wstr "1$u" ++ format_int (py position) ++ wstr ";" ++ format_int (px position) ++ wstr ";"
        ++ format_int (page_number page) ++ wstr ";" ++ [rendition_flags a] ++ wstr ";" ++ [protection_flags a]
        ++ wstr ";" ++ [wrap_flags (test_mode AdaptMode.Origin s) t (IsDelayedEOLWrap (CursorOf page s))] ++ wstr ";"
        ++ format_int (Z.of_nat (GetLeftSetNumber t)) ++ wstr ";" ++ format_int (Z.of_nat (GetRightSetNumber t))
        ++ wstr ";" ++ [sizes] ++ wstr ";" ++ ids).

Definition _ReportCursorInformation (s : S_) : outcome S_ :=
  let '(s, page) := active_page s in
  let '(s, position) := report_position page s in
  let* response := cursor_information page position s in
  Done (_ReturnDcsResponse response s).

(** A number ends with a semicolon or with the string. *)
Definition end_numeric (st : State) (s : S_) : outcome (State * S_) :=
  let* (st, s) :=
    if field st =? Field.Row then Done (st <| row := value st |>, s)
    else if field st =? Field.Column then Done (st <| column := value st |>, s)
    else if field st =? Field.Page then Done (st, AdaptDispatch_PagePositionAbsolute (value st) s)
    else if (field st =? Field.GL) && (value st <=? 3) then
      let* s := AdaptDispatch_LockingShift (value st) s in Done (st, s)
    else if (field st =? Field.GR) && (value st <=? 3) then
      let* s := AdaptDispatch_LockingShiftRight (value st) s in Done (st, s)
    else Done (st, s) in
  Done (st <| value := 0 |> <| field := field st + 1 |>, s).

Definition change_attributes (f : TextAttribute -> TextAttribute) (s : S_) : S_ :=
  let '(s, page) := active_page s in SetAttributes page (f (AttributesOf page s)) s.

Definition has_bit (value b : Z) : bool := negb (Z.land value b =? 0).

Definition rendition_from_flags (value : Z) (a : TextAttribute) : TextAttribute :=
  SetInvisible (has_bit value 16) (SetReverseVideo (has_bit value 8) (SetBlinking (has_bit value 4)
    (SetUnderlineStyle (if has_bit value 2 then UnderlineStyle.SinglyUnderlined else UnderlineStyle.NoUnderline)
      (SetIntense (has_bit value 1) a)))).

Definition apply_flags (st : State) (s : S_) : S_ :=
  let originMode := has_bit (value st) 1 in
  let ss2 := has_bit (value st) 2 in
  let ss3 := has_bit (value st) 4 in
  let delayedEOLWrap := has_bit (value st) 8 in
  let s := set_mode AdaptMode.Origin originMode s in
  let s := AdaptDispatch_CursorPosition (as_VTInt (row st)) (as_VTInt (column st)) s in
  let s := AdaptDispatch_SingleShift (if ss3 then 3 else if ss2 then 2 else 0) s in
  if delayedEOLWrap then let '(s, page) := active_page s in change_cursor page DelayEOLWrap s else s.

(** Only the first character of a flag field counts. *)
Definition start_flags (ch : Z) (st : State) (s : S_) : State * S_ :=
  let st := st <| value := ch |> in
  if field st =? Field.SGR then (st, change_attributes (rendition_from_flags (value st)) s)
  else if field st =? Field.Attr then (st, change_attributes (SetProtected (has_bit (value st) 1)) s)
  else if field st =? Field.Sizes then
    (st <| charset96 := [has_bit (value st) 1; has_bit (value st) 2; has_bit (value st) 4; has_bit (value st) 8] |>, s)
  else if field st =? Field.Flags then (st, apply_flags st s)
  else (st, s).

Definition end_charset (ch : Z) (st : State) (s : S_) : outcome (State * S_) :=
  let id := Finalize ch (charsetId st) in
  let gset := field st - Field.G0 in
  let* size96 := array_at (charset96 st) (Z.to_nat gset) in
  let* s := if size96 : bool then AdaptDispatch_Designate96Charset gset id s else AdaptDispatch_Designate94Charset gset id s in
  Done (st <| charsetId := VTIDBuilder_Clear |> <| field := field st + 1 |>, s).

(** The handler: its state, the terminal, and whether it goes on. *)
Definition _RestoreCursorInformation_step (ch : Z) (st : State) (s : S_) : outcome (State * S_ * bool) :=
  let* (st, s) :=
    if modes_test Field.numeric (field st) then
      if (ch >=? 0x30) && (ch <=? 0x39) then
        Done (st <| value := Z.min (value st * 10 + (ch - 0x30)) MAX_PARAMETER_VALUE |>, s)
      else if (ch =? 0x3B) || (ch =? ESC) then end_numeric st s
      else Done (st, s)
    else if modes_test Field.flags (field st) then
      if (ch >=? 0x40) && (ch <=? 0x7E) && (value st =? 0) then Done (start_flags ch st s)
      else if ch =? 0x3B then Done (st <| value := 0 |> <| field := field st + 1 |>, s)
      else Done (st, s)
    else if modes_test Field.charset (field st) then
      if (ch >=? 0x20) && (ch <=? 0x2F) then Done (st <| charsetId := AddIntermediate ch (charsetId st) |>, s)
      else if (ch >=? 0x30) && (ch <=? 0x7E) then end_charset ch st s
      else Done (st, s)
    else Done (st, s) in
  Done (st, s, negb (ch =? ESC)).

(** ** Tab stops *)

Fixpoint tab_stop_list (column : Z) (columns : list bool) (need_separator : bool) : list Z :=
  match columns with
  | [] => []
  | stop :: columns =>
      if stop : bool then
        (if need_separator then wstr "/" else []) ++ format_int (column + 1) ++ tab_stop_list (column + 1) columns true
      else tab_stop_list (column + 1) columns need_separator
  end.

Definition _ReportTabStops (s : S_) : outcome S_ :=
  let '(s, page) := active_page s in
  let width := Width page s in
  let* s := _InitTabStopsForWidth width s in
  Done (_ReturnDcsResponse (wstr "2$u" ++ tab_stop_list 0 (take (Z.to_nat width) (_tabStopColumns s)) false) s).

(** The preparation, which fixes the width, and the handler. *)
Definition _RestoreTabStops (s : S_) : outcome (Z * S_) :=
  let '(s, page) := active_page s in
  let width := Z.max (Width page s) 132 in
  let* s := _InitTabStopsForWidth width (_ClearAllTabStops s) in
  Done (width, s).

Definition _RestoreTabStops_step (width ch column : Z) (s : S_) : outcome (Z * S_ * bool) :=
  if (ch >=? 0x30) && (ch <=? 0x39) then
    Done (Z.min (column * 10 + (ch - 0x30)) MAX_PARAMETER_VALUE, s, true)
  else if (ch =? 0x2F) || (ch =? ESC) then
    let* s := if (1 <? column) && (column <=? width) then set_tab_stop (column - 1) true s else Done s in
    Done (0, s, negb (ch =? ESC))
  else Done (column, s, false).

(** ** The two requests *)

Definition AdaptDispatch_RequestPresentationStateReport (format : Z) (s : S_) : outcome S_ :=
  if format =? 1 then _ReportCursorInformation s
  else if format =? 2 then _ReportTabStops s
  else Done s.

(** A string handler with its own state. *)
Inductive PresentationHandler :=
| RestoringCursor (st : State)
| RestoringTabs (width column : Z).

Definition AdaptDispatch_RestorePresentationState (format : Z) (s : S_) : outcome (option PresentationHandler * S_) :=
  if format =? 1 then Done (Some (RestoringCursor new_State), s)
  else if format =? 2 then let* (width, s) := _RestoreTabStops s in Done (Some (RestoringTabs width 0), s)
  else Done (None, s).

Definition handler_step (ch : Z) (h : PresentationHandler) (s : S_) : outcome (PresentationHandler * S_ * bool) :=
  match h with
  | RestoringCursor st => let* (st, s, more) := _RestoreCursorInformation_step ch st s in Done (RestoringCursor st, s, more)
  | RestoringTabs width column =>
      let* (column, s, more) := _RestoreTabStops_step width ch column s in Done (RestoringTabs width column, s, more)
  end.

(** The characters of a string, until the handler stops. *)
Fixpoint handle_string (chars : list Z) (h : PresentationHandler) (s : S_) : outcome (PresentationHandler * S_) :=
  match chars with
  | [] => Done (h, s)
  | ch :: chars =>
      let* (h, s, more) := handler_step ch h s in
      if more : bool then handle_string chars h s else Done (h, s)
  end.
End Presentation.
