(* ===== verification/AdapterFacts.v ===== *)
(** * The cursor stays on its page

    Access to the active page, and the invariant that the operations of
    [Adapter.v] keep. *)

From S2P Require Import Prelude VTTypes TermDispatch StateMachine TextAttribute SgrStack Graphics TerminalInput TerminalOutput Cursor Pages Adapter.
#[local] Open Scope Z_scope.

Section Facts.
Context {A R : Type} `{Rows : !RowStorage R} `{Api : !ITerminalApi A R} `{Laws : !TerminalApiLaws A R}.
Abbreviation S_ := (AdaptDispatch A R).
Implicit Types (s : S_) (pm : PageManager R) (a : A) (page : Page).

(** ** Page buffers *)

Record pages_ok pm : Prop := {
  pages_six : length (_buffers pm) = 6%nat;
  pages_active : 1 <= _activePageNumber pm <= 6;
  pages_visible : 1 <= _visiblePageNumber pm <= 6;
}.

(** The view of the visible buffer is as wide as the buffer, and a double
    width line has a column. *)
Record view_ok (v : BufferState R) : Prop := {
  view_width : 2 <= _width (buffer v);
  view_full : rect_width (viewport v) = _width (buffer v);
  view_height : 1 <= rect_height (viewport v);
}.

Lemma clampPage_range n : 1 <= clampPage n <= 6.
Proof. unfold clampPage, MAX_PAGES. lia. Qed.

Lemma page_index n : 1 <= n <= 6 -> (Z.to_nat (n - 1) < 6)%nat.
Proof. lia. Qed.

Lemma getBuffer_spec n w h pm : pages_ok pm -> 1 <= n <= 6 -> 1 <= w -> 1 <= h ->
  exists b, _getBuffer n w h pm = (pm <| _buffers := <[Z.to_nat (n - 1) := Some b]> (_buffers pm) |>, b)
    /\ _width b = w /\ _height b = h.
Proof.
  intros Hp Hn Hw Hh. unfold _getBuffer. eexists. split; [reflexivity|].
  destruct (nth _ _ None) as [b|].
  - destruct ((_width b =? w) && (_height b =? h)) eqn:He; [lia|]. cbn. lia.
  - cbn. lia.
Qed.

(** A buffer of the right size is left alone. *)
Lemma getBuffer_present n w h pm b : pages_ok pm -> 1 <= n <= 6 ->
  nth (Z.to_nat (n - 1)) (_buffers pm) None = Some b -> _width b = w -> _height b = h ->
  _getBuffer n w h pm = (pm, b).
Proof.
  intros Hp Hn Hb <- <-. unfold _getBuffer. rewrite Hb, !Z.eqb_refl. cbn [andb].
  rewrite list_insert_id; [by destruct pm|].
  destruct (nth_lookup_or_length (_buffers pm) (Z.to_nat (n - 1)) None) as [Hl|Hl]; [by rewrite Hl, Hb|].
  rewrite (pages_six pm Hp) in Hl. lia.
Qed.

Lemma nth_insert_same {B} (l : list B) i z d : (i < length l)%nat -> nth i (<[i := z]> l) d = z.
Proof. intros Hi. apply nth_lookup_Some. by rewrite list_lookup_insert_eq. Qed.

Lemma set_buffers_ok pm bs : pages_ok pm -> length bs = 6%nat -> pages_ok (pm <| _buffers := bs |>).
Proof. intros [] Hl. by split. Qed.

(** ** The active page *)

(** Nothing is created or resized any more. *)
Definition settled s page : Prop := active_page s = (s, page).

Lemma Get_settled n pm a pm' page : pages_ok pm -> view_ok (GetBufferAndViewport a) -> Get n pm a = (pm', page) ->
  Get n pm' a = (pm', page) /\ pages_ok pm' /\ _activePageNumber pm' = _activePageNumber pm
  /\ _visiblePageNumber pm' = _visiblePageNumber pm.
Proof.
  intros Hp Hv. pose proof (clampPage_range n) as Hn. unfold Get.
  destruct (isMainBuffer _) eqn:Hm; cbn [negb].
  - destruct (clampPage n =? _visiblePageNumber pm) eqn:He.
    + intros [= <- <-]. by rewrite He.
    + destruct (getBuffer_spec (clampPage n) (rect_width (viewport (GetBufferAndViewport a)))
        (rect_height (viewport (GetBufferAndViewport a))) pm) as (b & Hb & Hbw & Hbh);
        [done|done|destruct Hv; lia|apply Hv|].
      rewrite Hb. cbn [fst]. intros [= <- <-].
      change (_visiblePageNumber (pm <| _buffers := _ |>)) with (_visiblePageNumber pm). rewrite He.
      assert (Hok : pages_ok (pm <| _buffers := <[Z.to_nat (clampPage n - 1) := Some b]> (_buffers pm) |>))
        by (apply set_buffers_ok; [done|rewrite length_insert; apply Hp]).
      rewrite (getBuffer_present _ _ _ _ b); try done.
      cbn. apply nth_insert_same. rewrite (pages_six pm Hp). lia.
  - by intros [= <- <-].
Qed.

Lemma active_settled s s' page : pages_ok (_pages s) -> view_ok (GetBufferAndViewport (_api s)) ->
  active_page s = (s', page) -> settled s' page /\ pages_ok (_pages s') /\ _api s' = _api s.
Proof.
  intros Hp Hv. unfold settled, active_page, ActivePage.
  destruct (Get (_activePageNumber (_pages s)) (_pages s) (_api s)) as [pm' p] eqn:Hg. intros [= <- <-].
  destruct (Get_settled _ _ _ _ _ Hp Hv Hg) as (H1 & H2 & H3 & _). cbn. rewrite H3, H1. done.
Qed.

(** The two kinds of active page. *)
Inductive page_kind s : Page -> Prop :=
| KindVisible n :
    (isMainBuffer (GetBufferAndViewport (R := R) (_api s)) = false /\ n = 1 \/
     isMainBuffer (GetBufferAndViewport (R := R) (_api s)) = true /\
       clampPage (_activePageNumber (_pages s)) = _visiblePageNumber (_pages s) /\ n = _visiblePageNumber (_pages s)) ->
    page_kind s (mk_Page VisibleBuffer (viewport (GetBufferAndViewport (R := R) (_api s))) n)
| KindBackground n b :
    isMainBuffer (GetBufferAndViewport (R := R) (_api s)) = true ->
    n = clampPage (_activePageNumber (_pages s)) -> n <> _visiblePageNumber (_pages s) ->
    nth (Z.to_nat (n - 1)) (_buffers (_pages s)) None = Some b ->
    _width b = rect_width (viewport (GetBufferAndViewport (R := R) (_api s))) ->
    _height b = rect_height (viewport (GetBufferAndViewport (R := R) (_api s))) ->
    page_kind s (mk_Page (BackgroundBuffer n) (mk_rect 0 0 (_width b) (_height b)) n).

Lemma settled_kind s page : pages_ok (_pages s) -> view_ok (GetBufferAndViewport (_api s)) ->
  settled s page <-> page_kind s page.
Proof.
  intros Hp Hv. unfold settled, active_page, ActivePage, Get.
  pose proof (clampPage_range (_activePageNumber (_pages s))) as Hn.
  set (n := clampPage (_activePageNumber (_pages s))) in *. set (v := GetBufferAndViewport (_api s)) in *.
  destruct (isMainBuffer v) eqn:Hm; cbn [negb].
  - destruct (n =? _visiblePageNumber (_pages s)) eqn:He.
    + split.
      * intros [= _ <-]. constructor. right. split_and!; [done|lia|done].
      * intros Hk. inversion Hk as [m [[Hc _]|(_ & _ & Hc)]|m b Hc1 Hc2 Hc3]; subst.
        -- change (GetBufferAndViewport (_api s)) with v in Hc. congruence.
        -- f_equal. by destruct s.
        -- fold n in Hc3. lia.
    + split.
      * destruct (getBuffer_spec n (rect_width (viewport v)) (rect_height (viewport v)) (_pages s))
          as (b & Hb & Hbw & Hbh); [done|done|destruct Hv; lia|apply Hv|].
        rewrite Hb. cbn [fst]. intros [= Heq <-]. rewrite <- Hbw, <- Hbh.
        constructor; try done; [lia|].
        assert (Heq' : _pages s = (_pages s) <| _buffers := <[Z.to_nat (n - 1) := Some b]> (_buffers (_pages s)) |>)
          by (rewrite <- Heq at 1; done).
        rewrite Heq'. cbn. apply nth_insert_same. rewrite (pages_six _ Hp). lia.
      * intros Hk. inversion Hk as [m [[Hc _]|(_ & Hc & _)]|m b Hc1 Hc2 Hc3 Hc4 Hc5 Hc6]; subst.
        -- change (GetBufferAndViewport (_api s)) with v in Hc. congruence.
        -- fold n in Hc. lia.
        -- fold n. fold n in Hc4. fold v in Hc5, Hc6. rewrite (getBuffer_present n _ _ _ b) by done.
           cbn [fst]. rewrite <- Hc5, <- Hc6. f_equal. by destruct s.
  - split.
    + intros [= _ <-]. constructor. by left.
    + intros Hk. inversion Hk as [m [[_ ->]|(Hc & _)]|m b Hc]; subst;
        try (change (GetBufferAndViewport (_api s)) with v in Hc; congruence).
      f_equal. by destruct s.
Qed.

(** The active page after a write to it. *)
Record written s page b s' : Prop := {
  wr_buffer : Buffer page s' = b;
  wr_settled : settled s' page;
  wr_pages : pages_ok (_pages s');
  wr_view : view_ok (GetBufferAndViewport (_api s'));
}.

Lemma set_buffer_written s page b : pages_ok (_pages s) -> view_ok (GetBufferAndViewport (_api s)) -> settled s page ->
  _width b = Width page s -> _height b = _height (Buffer page s) -> written s page b (set_buffer page b s).
Proof.
  intros Hp Hv Hs Hw Hh. apply settled_kind in Hs as Hk; [|done|done].
  inversion Hk as [n Hc|n b0 Hm Hn Hne Hb Hbw Hbh]; subst page; unfold set_buffer, Buffer, Width in *; cbn in *.
  - assert (Hv' : view_ok (GetBufferAndViewport (SetVisibleBuffer b (_api s)))).
    { rewrite get_set_buffer. destruct Hv. split; cbn; congruence. }
    split; cbn; [by rewrite get_set_buffer| |done|done].
    apply settled_kind; [done|done|].
    replace (viewport (GetBufferAndViewport (_api s))) with (viewport (GetBufferAndViewport (R := R) (SetVisibleBuffer b (_api s))))
      by (by rewrite get_set_buffer).
    constructor. cbn. by rewrite get_set_buffer.
  - pose proof (clampPage_range (_activePageNumber (_pages s))) as Hr. rewrite <- Hn in Hr.
    assert (Hi : nth (Z.to_nat (n - 1)) (<[Z.to_nat (n - 1) := Some b]> (_buffers (_pages s))) None = Some b)
      by (apply nth_insert_same; rewrite (pages_six _ Hp); lia).
    unfold Buffer in *. cbn in *. rewrite Hb in *. cbn in Hw, Hh.
    split; cbn; [by rewrite Hi| |apply set_buffers_ok; [done|rewrite length_insert; apply Hp]|done].
    apply settled_kind; [apply set_buffers_ok; [done|rewrite length_insert; apply Hp]|done|].
    rewrite <- Hw, <- Hh. constructor; cbn; try done; congruence.
Qed.
(** ** Geometry *)

Lemma settled_iff s page : settled s page <-> ActivePage (_pages s) (_api s) = (_pages s, page).
Proof.
  unfold settled, active_page. destruct (ActivePage (_pages s) (_api s)) as [pm p]. split.
  - intros [= H1 <-]. f_equal. change pm with (_pages (s <| _pages := pm |>)). by rewrite H1.
  - intros [= -> ->]. f_equal. by destruct s.
Qed.

(** The active page depends on the pages and the host only. *)
Lemma settled_frame s t page : settled s page -> _pages t = _pages s -> _api t = _api s -> settled t page.
Proof. rewrite !settled_iff. by intros H -> ->. Qed.

Lemma Buffer_frame s t page : _pages t = _pages s -> _api t = _api s -> Buffer page t = Buffer page s.
Proof. unfold Buffer. by intros -> ->. Qed.

Lemma page_geometry s page : pages_ok (_pages s) -> view_ok (GetBufferAndViewport (_api s)) -> settled s page ->
  2 <= Width page s /\ Top page < Bottom page.
Proof.
  intros Hp Hv Hs. apply settled_kind in Hs; [|done|done]. destruct Hv as [H1 H2 H3].
  inversion Hs as [n Hc|n b0 Hm Hn Hne Hb Hbw Hbh]; subst page; unfold Width, Buffer, Top, Bottom, rect_height in *; cbn.
  - lia.
  - rewrite Hb. cbn. rewrite Hbw, Hbh. unfold rect_width in *. lia.
Qed.

Lemma GetLineWidth_range y0 (b : TextBuffer R) : 2 <= _width b -> 1 <= GetLineWidth y0 b <= _width b.
Proof.
  intros Hw. unfold GetLineWidth. destruct (IsDoubleWidthLine y0 b).
  - rewrite Z.shiftr_div_pow2 by lia. change (2 ^ 1) with 2. split.
    + apply Z.div_le_lower_bound; lia.
    + apply Z.div_le_upper_bound; lia.
  - rewrite Z.shiftr_0_r. lia.
Qed.

(** ** Margins *)

Definition margins_ok (m : rect) : Prop := 0 <= top m /\ 0 <= left m.

(** The margins that a call returns, and what it leaves in the state. *)
Definition kept_rows (height : Z) (m : rect) : rect :=
  if top m >=? height - 1 then m <| top := 0 |> <| bottom := 0 |> else m.
Definition kept_columns (width : Z) (m : rect) : rect :=
  if left m >=? width - 1 then m <| left := 0 |> <| right := 0 |> else m.
Definition margin_rows (height : Z) (m : rect) : Z * Z :=
  let m := kept_rows height m in
  if top m <? bottom m then (top m, Z.min (bottom m) (height - 1)) else (0, Z.min (height - 1) (height - 1)).
Definition margin_columns (width : Z) (m : rect) : Z * Z :=
  let m := kept_columns width m in
  if left m <? right m then (left m, Z.min (right m) (width - 1)) else (0, Z.min (width - 1) (width - 1)).

Lemma GetVerticalMargins_eq page (absolute : bool) s :
  _GetVerticalMargins page absolute s =
  let '(t, b) := margin_rows (Height page) (_scrollMargins s) in
  (s <| _scrollMargins := kept_rows (Height page) (_scrollMargins s) |>,
   if absolute then (t + Top page, b + Top page) else (t, b)).
Proof. unfold _GetVerticalMargins, margin_rows. fold (kept_rows (Height page) (_scrollMargins s)). by destruct (_ <? _). Qed.

Lemma GetHorizontalMargins_eq width s :
  _GetHorizontalMargins width s =
  (s <| _scrollMargins := kept_columns width (_scrollMargins s) |>, margin_columns width (_scrollMargins s)).
Proof. unfold _GetHorizontalMargins, margin_columns. fold (kept_columns width (_scrollMargins s)). by destruct (_ <? _). Qed.

Lemma margin_rows_range height m : 1 <= height -> margins_ok m ->
  0 <= fst (margin_rows height m) <= snd (margin_rows height m) /\ snd (margin_rows height m) <= height - 1.
Proof.
  intros Hh [Ht Hl]. unfold margin_rows, kept_rows. destruct (top m >=? height - 1) eqn:H1; cbn [top bottom].
  - cbn. lia.
  - destruct (top m <? bottom m) eqn:H2; cbn [fst snd]; lia.
Qed.

Lemma margin_columns_range width m : 1 <= width -> margins_ok m ->
  0 <= fst (margin_columns width m) <= snd (margin_columns width m) /\ snd (margin_columns width m) <= width - 1.
Proof.
  intros Hh [Ht Hl]. unfold margin_columns, kept_columns. destruct (left m >=? width - 1) eqn:H1.
  - cbn. lia.
  - destruct (left m <? right m) eqn:H2; cbn [fst snd]; lia.
Qed.

Lemma kept_rows_ok height m : margins_ok m -> margins_ok (kept_rows height m).
Proof. intros [H1 H2]. unfold kept_rows. by destruct (_ >=? _). Qed.
Lemma kept_columns_ok width m : margins_ok m -> margins_ok (kept_columns width m).
Proof. intros [H1 H2]. unfold kept_columns. by destruct (_ >=? _). Qed.

(** ** The invariant *)

Definition on_page page (width : Z) (q : point) : Prop := 0 <= px q < width /\ Top page <= py q < Bottom page.

Definition cursor_on_page page s : Prop := on_page page (Width page s) (GetPosition (CursorOf page s)).

Record adapter_ok s : Prop := {
  ok_pages : pages_ok (_pages s);
  ok_view : view_ok (GetBufferAndViewport (_api s));
  ok_margins : margins_ok (_scrollMargins s);
  ok_cursor : exists page, settled s page /\ cursor_on_page page s;
}.

Lemma adapter_active s s' page : adapter_ok s -> active_page s = (s', page) ->
  s' = s /\ settled s page /\ cursor_on_page page s.
Proof. intros [Hp Hv Hm (page' & Hs & Hc)] Ha. unfold settled in *. rewrite Hs in Ha. by injection Ha as <- <-. Qed.

(** A state that differs in neither the pages nor the host. *)
Lemma adapter_frame s t : adapter_ok s -> _pages t = _pages s -> _api t = _api s -> margins_ok (_scrollMargins t) ->
  adapter_ok t.
Proof.
  intros [Hp Hv Hm (page & Hs & Hc)] E1 E2 Hm'. split; [by rewrite E1|by rewrite E2|done|].
  exists page. split; [by apply (settled_frame s)|].
  unfold cursor_on_page, CursorOf, Width in *. by rewrite (Buffer_frame s t).
Qed.

(** Writing a buffer of the same size with the cursor on the page. *)
Lemma adapter_set_buffer s page b : adapter_ok s -> settled s page ->
  _width b = Width page s -> _height b = _height (Buffer page s) ->
  on_page page (_width b) (GetPosition (_cursor b)) ->
  adapter_ok (set_buffer page b s) /\ settled (set_buffer page b s) page /\ Buffer page (set_buffer page b s) = b
  /\ _scrollMargins (set_buffer page b s) = _scrollMargins s.
Proof.
  intros [Hp Hv Hm Hc] Hs Hw Hh Ho. destruct (set_buffer_written s page b Hp Hv Hs Hw Hh) as [W1 W2 W3 W4].
  assert (Hms : _scrollMargins (set_buffer page b s) = _scrollMargins s)
    by (unfold set_buffer; by destruct (write_buffer _ _ _ _)).
  split_and!; [|done|done|done]. split; [done|done|by rewrite Hms|]. exists page. split; [done|].
  unfold cursor_on_page, CursorOf, Width. by rewrite W1.
Qed.

Lemma adapter_change_cursor s page f : adapter_ok s -> settled s page ->
  on_page page (Width page s) (GetPosition (f (CursorOf page s))) -> adapter_ok (change_cursor page f s).
Proof. intros Hok Hs Ho. unfold change_cursor. by apply adapter_set_buffer. Qed.
End Facts.

(** * Moving between pages

    The cursor and the attributes go along, and the cursor stays on the page. *)


Section Pages.
Context {A R : Type} `{Rows : !RowStorage R} `{Api : !ITerminalApi A R} `{Laws : !TerminalApiLaws A R}.
Abbreviation S_ := (AdaptDispatch A R).
Implicit Types (s : S_) (pm : PageManager R) (a : A) (page : Page).

(** The buffer of page [k], if it has the size of the view. *)
Definition page_at (k : Z) pm a (b : TextBuffer R) : Prop :=
  nth (Z.to_nat (k - 1)) (_buffers pm) None = Some b /\
  _width b = rect_width (viewport (GetBufferAndViewport (R := R) a)) /\
  _height b = rect_height (viewport (GetBufferAndViewport (R := R) a)).

(** The same buffer but for its rows. *)
Definition same_but_rows (b b' : TextBuffer R) : Prop :=
  _width b' = _width b /\ _height b' = _height b /\ _cursor b' = _cursor b /\ _currentAttributes b' = _currentAttributes b.

Lemma nth_insert_other {B} (l : list B) i j z d : i <> j -> nth j (<[i := z]> l) d = nth j l d.
Proof. intros Hij. rewrite !nth_lookup. by rewrite list_lookup_insert_ne. Qed.

Lemma index_ne n k : 1 <= n <= 6 -> 1 <= k <= 6 -> n <> k -> Z.to_nat (n - 1) <> Z.to_nat (k - 1).
Proof. lia. Qed.

(** Getting a buffer keeps the others, and the ones that fit. *)
Lemma getBuffer_keeps n k pm a b : pages_ok pm -> view_ok (GetBufferAndViewport a) -> 1 <= n <= 6 -> 1 <= k <= 6 ->
  page_at k pm a b ->
  let pm' := fst (_getBuffer n (rect_width (viewport (GetBufferAndViewport (R := R) a)))
                              (rect_height (viewport (GetBufferAndViewport (R := R) a))) pm) in
  page_at k pm' a b.
Proof.
  intros Hp Hv Hn Hk (H1 & H2 & H3). cbv zeta. destruct (Z.eq_dec n k) as [->|Hne].
  - rewrite (getBuffer_present k _ _ pm b) by done. done.
  - destruct (getBuffer_spec n (rect_width (viewport (GetBufferAndViewport (R := R) a)))
      (rect_height (viewport (GetBufferAndViewport (R := R) a))) pm Hp Hn) as (b' & -> & _); [destruct Hv; lia|apply Hv|].
    split_and!; [|done|done]. cbn. rewrite nth_insert_other by (by apply index_ne). done.
Qed.

Lemma getBuffer_gives n pm a : pages_ok pm -> view_ok (GetBufferAndViewport a) -> 1 <= n <= 6 ->
  let w := rect_width (viewport (GetBufferAndViewport (R := R) a)) in
  let h := rect_height (viewport (GetBufferAndViewport (R := R) a)) in
  let '(pm', b) := _getBuffer n w h pm in
  page_at n pm' a b /\ pages_ok pm' /\ _activePageNumber pm' = _activePageNumber pm
  /\ _visiblePageNumber pm' = _visiblePageNumber pm.
Proof.
  intros Hp Hv Hn. cbv zeta. destruct (getBuffer_spec n (rect_width (viewport (GetBufferAndViewport (R := R) a)))
    (rect_height (viewport (GetBufferAndViewport (R := R) a))) pm Hp Hn) as (b' & -> & Hw & Hh); [destruct Hv; lia|apply Hv|].
  split_and!; [split_and!; [|done|done]|apply set_buffers_ok; [done|rewrite length_insert; apply Hp]|done|done].
  cbn. apply nth_insert_same. rewrite (pages_six pm Hp). lia.
Qed.

(** ** The swap *)

Record swapped m pm a pm1 a1 : Prop := {
  sw_pages : pages_ok pm1;
  sw_active : _activePageNumber pm1 = _activePageNumber pm;
  sw_visible : _visiblePageNumber pm1 = m;
  sw_view : exists b', GetBufferAndViewport a1 = (GetBufferAndViewport a) <| buffer := b' |> /\
              same_but_rows (buffer (GetBufferAndViewport (R := R) a)) b';
  sw_kept : forall k b, 1 <= k <= 6 -> k <> _visiblePageNumber pm -> page_at k pm a b -> page_at k pm1 a1 b;
}.

Lemma swap_spec m pm a : pages_ok pm -> view_ok (GetBufferAndViewport a) -> 1 <= m <= 6 -> m <> _visiblePageNumber pm ->
  let '(pm1, a1) := swap_pages m pm a in swapped m pm a pm1 a1.
Proof.
  intros Hp Hv Hm Hne. unfold swap_pages.
  pose proof (getBuffer_gives m pm a Hp Hv Hm) as G1.
  pose proof (fun k b Hk Hb => getBuffer_keeps m k pm a b Hp Hv Hm Hk Hb) as K1. cbv zeta in G1, K1.
  destruct (_getBuffer m _ _ pm) as [pm' newBuffer]. destruct G1 as (_ & Hp' & Ha' & Hv'). cbn [fst] in K1.
  pose proof (pages_visible pm' Hp') as Hvis.
  pose proof (getBuffer_gives (_visiblePageNumber pm') pm' a Hp' Hv Hvis) as G2.
  pose proof (fun k b Hk Hb => getBuffer_keeps (_visiblePageNumber pm') k pm' a b Hp' Hv Hvis Hk Hb) as K2. cbv zeta in G2, K2.
  destruct (_getBuffer (_visiblePageNumber pm') _ _ pm') as [pm'' saveBuffer].
  destruct G2 as (_ & Hp'' & Ha'' & Hv''). cbn [fst] in K2. cbn.
  split; cbn.
  - destruct Hp'' as [L1 L2 L3]. split; cbn; [by rewrite length_insert|done|done].
  - congruence.
  - done.
  - eexists. split; [apply get_set_buffer|]. done.
  - intros k b Hk Hkv Hb. destruct (K2 k b Hk (K1 k b Hk Hb)) as (P1 & P2 & P3). unfold page_at. rewrite get_set_buffer.
    cbn. split_and!; [|done|done]. rewrite nth_insert_other; [done|]. apply index_ne; [congruence|done|congruence].
Qed.

(** ** The move *)

(** The relative position and the attributes on the active page. *)
Definition page_state page s : point * TextAttribute :=
  let q := GetPosition (CursorOf page s) in (mk_point (px q) (py q - Top page), AttributesOf page s).

Record moved s t : Prop := {
  mv_ok : adapter_ok t;
  mv_viewport : viewport (GetBufferAndViewport (R := R) (_api t)) = viewport (GetBufferAndViewport (R := R) (_api s));
  mv_main : isMainBuffer (GetBufferAndViewport (R := R) (_api t)) = isMainBuffer (GetBufferAndViewport (R := R) (_api s));
  mv_state : forall page page', settled s page -> settled t page' -> page_state page' t = page_state page s;
}.

Definition with_pages pm a s : S_ := s <| _pages := pm |> <| _api := a |>.

(** How to establish [moved]: the new active page and its buffer. *)
Lemma moved_intro s t page page' : adapter_ok s -> settled s page -> settled t page' ->
  pages_ok (_pages t) -> view_ok (GetBufferAndViewport (_api t)) -> _scrollMargins t = _scrollMargins s ->
  viewport (GetBufferAndViewport (R := R) (_api t)) = viewport (GetBufferAndViewport (R := R) (_api s)) ->
  isMainBuffer (GetBufferAndViewport (R := R) (_api t)) = isMainBuffer (GetBufferAndViewport (R := R) (_api s)) ->
  page_state page' t = page_state page s -> Width page' t = Width page s -> Height page' = Height page -> moved s t.
Proof.
  intros Hok Hs Ht Hp Hv Hm Hvp Hmain Hst Hw Hh. split; [|done|done|].
  - split; [done|done|rewrite Hm; apply Hok|]. exists page'. split; [done|].
    destruct (ok_cursor s Hok) as (p0 & Hs0 & [Hx Hy]). unfold settled in Hs, Hs0. rewrite Hs in Hs0. injection Hs0 as <-.
    unfold page_state in Hst. injection Hst as E1 E2 _. unfold cursor_on_page, on_page, Height in *. lia.
  - unfold settled in *. intros p p' Hsp Htp. rewrite Hs in Hsp. rewrite Ht in Htp. by injection Hsp as <-; injection Htp as <-.
Qed.
(** What the first part of a move leaves, whether pages were swapped or not. *)
Record ready pm a pm1 a1 : Prop := {
  rd_pages : pages_ok pm1;
  rd_active : _activePageNumber pm1 = _activePageNumber pm;
  rd_view : exists b', GetBufferAndViewport a1 = (GetBufferAndViewport a) <| buffer := b' |> /\
              same_but_rows (buffer (GetBufferAndViewport (R := R) a)) b';
  rd_kept : forall k b, 1 <= k <= 6 -> k <> _visiblePageNumber pm -> page_at k pm a b -> page_at k pm1 a1 b;
}.

Lemma ready_refl pm a : pages_ok pm -> ready pm a pm a.
Proof. intros Hp. split; [done|done| |done]. exists (buffer (GetBufferAndViewport a)). split; [by destruct (GetBufferAndViewport a)|done]. Qed.

Lemma swap_ready m pm a pm1 a1 : swapped m pm a pm1 a1 -> ready pm a pm1 a1.
Proof. intros []. by split. Qed.

Lemma ready_view_ok pm a pm1 a1 : ready pm a pm1 a1 -> view_ok (GetBufferAndViewport a) ->
  view_ok (GetBufferAndViewport a1) /\ viewport (GetBufferAndViewport (R := R) a1) = viewport (GetBufferAndViewport (R := R) a)
  /\ isMainBuffer (GetBufferAndViewport (R := R) a1) = isMainBuffer (GetBufferAndViewport (R := R) a)
  /\ same_but_rows (buffer (GetBufferAndViewport (R := R) a)) (buffer (GetBufferAndViewport (R := R) a1)).
Proof.
  intros [_ _ (b' & E & Hb) _] [H1 H2 H3]. rewrite E. split_and!; [|done|done|done].
  destruct Hb as (W & _). split; cbn; congruence.
Qed.

(** A page in the background that fits is settled when it is active. *)
Lemma background_settled s n b : pages_ok (_pages s) -> view_ok (GetBufferAndViewport (_api s)) ->
  isMainBuffer (GetBufferAndViewport (R := R) (_api s)) = true ->
  _activePageNumber (_pages s) = n -> n <> _visiblePageNumber (_pages s) -> page_at n (_pages s) (_api s) b ->
  settled s (mk_Page (BackgroundBuffer n) (mk_rect 0 0 (_width b) (_height b)) n)
  /\ Buffer (mk_Page (BackgroundBuffer n) (mk_rect 0 0 (_width b) (_height b)) n) s = b.
Proof.
  intros Hp Hv Hm <- Hne (H1 & H2 & H3). pose proof (pages_active _ Hp) as Hr.
  assert (Hcl : clampPage (_activePageNumber (_pages s)) = _activePageNumber (_pages s)) by (unfold clampPage, MAX_PAGES; lia).
  split; [apply settled_kind; [done|done|]; by constructor|]. unfold Buffer. cbn. by rewrite H1.
Qed.

Lemma visible_settled s : pages_ok (_pages s) -> view_ok (GetBufferAndViewport (_api s)) ->
  isMainBuffer (GetBufferAndViewport (R := R) (_api s)) = true ->
  _activePageNumber (_pages s) = _visiblePageNumber (_pages s) ->
  settled s (mk_Page VisibleBuffer (viewport (GetBufferAndViewport (R := R) (_api s))) (_visiblePageNumber (_pages s))).
Proof.
  intros Hp Hv Hm He. apply settled_kind; [done|done|]. constructor. right. split_and!; [done| |done].
  pose proof (pages_active _ Hp). unfold clampPage, MAX_PAGES. lia.
Qed.

(** The active page in the main buffer. *)
Lemma active_cases s page : adapter_ok s -> settled s page ->
  isMainBuffer (GetBufferAndViewport (R := R) (_api s)) = true ->
  (_activePageNumber (_pages s) = _visiblePageNumber (_pages s) /\
     page = mk_Page VisibleBuffer (viewport (GetBufferAndViewport (R := R) (_api s))) (_visiblePageNumber (_pages s))) \/
  (_activePageNumber (_pages s) <> _visiblePageNumber (_pages s) /\
     exists b, page_at (_activePageNumber (_pages s)) (_pages s) (_api s) b /\
       page = mk_Page (BackgroundBuffer (_activePageNumber (_pages s))) (mk_rect 0 0 (_width b) (_height b)) (_activePageNumber (_pages s))).
Proof.
  intros Hok Hs Hm. pose proof (pages_active _ (ok_pages s Hok)) as Hr.
  assert (Hcl : clampPage (_activePageNumber (_pages s)) = _activePageNumber (_pages s)) by (unfold clampPage, MAX_PAGES; lia).
  apply settled_kind in Hs; [|apply Hok|apply Hok].
  inversion Hs as [n [[Hc _]|(_ & Hc & ->)]|n b Hc1 Hc2 Hc3 Hc4 Hc5 Hc6]; subst page.
  - congruence.
  - left. split; [congruence|done].
  - right. rewrite Hcl in Hc2. subst n. split; [done|]. by exists b.
Qed.
Section Cases.
Variables (s : S_) (page : Page) (pm1 : PageManager R) (a1 : A) (new : Z).
Hypothesis Hok : adapter_ok s.
Hypothesis Hs : settled s page.
Hypothesis Hmain : isMainBuffer (GetBufferAndViewport (R := R) (_api s)) = true.
Hypothesis Hready : ready (_pages s) (_api s) pm1 a1.
Hypothesis Hnew : 1 <= new <= 6.

Let v := GetBufferAndViewport (R := R) (_api s).
(** A state with new pages and a new host. *)
Definition moved_to (pm : PageManager R) (a : A) (t : S_) : Prop :=
  _pages t = pm <| _activePageNumber := new |> /\ _api t = a /\ _scrollMargins t = _scrollMargins s.

Lemma set_active_ok pm : pages_ok pm -> pages_ok (pm <| _activePageNumber := new |>).
Proof. intros []. by split. Qed.

Lemma active_of pm (t : S_) : _pages t = pm <| _activePageNumber := new |> ->
  _activePageNumber (_pages t) = new /\ _visiblePageNumber (_pages t) = _visiblePageNumber pm /\ _buffers (_pages t) = _buffers pm.
Proof. by intros ->. Qed.

(** From the visible page to the visible page. *)
Lemma move_visible_visible t : _activePageNumber (_pages s) = _visiblePageNumber (_pages s) ->
  new = _visiblePageNumber pm1 -> moved_to pm1 a1 t -> moved s t.
Proof.
  intros Hwas His (T1 & T2 & T3).
  destruct (ready_view_ok _ _ _ _ Hready (ok_view s Hok)) as (Hv1 & Hvp & Hm & (W & Hh & Hc & Hat)).
  destruct (active_cases s page Hok Hs Hmain) as [(_ & Hpage)|[? _]]; [|done].
  destruct (active_of pm1 t T1) as (A1 & A2 & A3).
  assert (Hp : pages_ok (_pages t)) by (rewrite T1; apply set_active_ok, Hready).
  assert (Hset : settled t (mk_Page VisibleBuffer (viewport (GetBufferAndViewport (R := R) (_api t))) (_visiblePageNumber (_pages t)))).
  { apply visible_settled; [done|by rewrite T2|rewrite T2; congruence|congruence]. }
  apply (moved_intro s t page _ Hok Hs Hset); [done|by rewrite T2|done|by rewrite T2|by rewrite T2| | |].
  - rewrite Hpage. unfold page_state, CursorOf, AttributesOf, Buffer, Top. cbn [page_buffer page_viewport read_buffer].
    by rewrite T2, Hc, Hat, Hvp.
  - rewrite Hpage. unfold Width, Buffer. cbn [page_buffer read_buffer]. by rewrite T2.
  - rewrite Hpage. unfold Height, Top, Bottom. cbn [page_viewport]. by rewrite T2, Hvp.
Qed.
(** The state of a page whose buffer is known. *)
Lemma page_state_of p (t : S_) b : Buffer p t = b ->
  page_state p t = (mk_point (px (_cPosition (_cursor b))) (py (_cPosition (_cursor b)) - Top p), _currentAttributes b).
Proof. by intros <-. Qed.

(** A buffer that has received the cursor and the attributes of another. *)
Definition received (oldb b : TextBuffer R) (oldTop newTop : Z) : TextBuffer R :=
  let position := GetPosition (_cursor oldb) in
  b <| _currentAttributes := _currentAttributes oldb |>
    <| _cursor := SetPosition (position <| py := py position - oldTop + newTop |>) (CopyProperties (_cursor oldb) (_cursor b)) |>.

Lemma received_cursor oldb b oldTop newTop : _cPosition (_cursor (received oldb b oldTop newTop))
  = mk_point (px (_cPosition (_cursor oldb))) (py (_cPosition (_cursor oldb)) - oldTop + newTop).
Proof. exact (SetPosition_position _ _). Qed.

(** From a page in the background to the visible one. *)
Lemma move_background_visible t oldb : _activePageNumber (_pages s) <> _visiblePageNumber (_pages s) ->
  new = _visiblePageNumber pm1 -> page_at (_activePageNumber (_pages s)) (_pages s) (_api s) oldb ->
  moved_to pm1 (SetVisibleBuffer (received oldb (buffer (GetBufferAndViewport a1)) 0 (top (viewport v))) a1) t ->
  moved s t.
Proof.
  intros Hwas His Hb (T1 & T2 & T3). set (nb := received _ _ _ _) in T2.
  destruct (ready_view_ok _ _ _ _ Hready (ok_view s Hok)) as (Hv1 & Hvp & Hm & (W & Hh & Hc & Hat)).
  destruct (active_of pm1 t T1) as (A1 & A2 & A3).
  assert (Hp : pages_ok (_pages t)) by (rewrite T1; apply set_active_ok, Hready).
  assert (Hg : GetBufferAndViewport (R := R) (_api t) = (GetBufferAndViewport a1) <| buffer := nb |>)
    by (rewrite T2; apply get_set_buffer).
  assert (Hview : view_ok (GetBufferAndViewport (R := R) (_api t))) by (rewrite Hg; destruct Hv1; by split).
  assert (Hset : settled t (mk_Page VisibleBuffer (viewport v) (_visiblePageNumber (_pages t)))).
  { replace (viewport v) with (viewport (GetBufferAndViewport (R := R) (_api t))) by (rewrite Hg; exact Hvp).
    apply visible_settled; [done|done|rewrite Hg; exact (eq_trans Hm Hmain)|congruence]. }
  destruct (background_settled s _ oldb (ok_pages s Hok) (ok_view s Hok) Hmain eq_refl Hwas Hb) as [Hs0 Hbuf].
  apply (moved_intro s t _ _ Hok Hs0 Hset); [done|done|done|rewrite Hg; exact Hvp|rewrite Hg; exact Hm| | |].
  - rewrite (page_state_of _ s oldb Hbuf), (page_state_of _ t nb) by (unfold Buffer; cbn [page_buffer read_buffer]; by rewrite Hg).
    unfold nb. rewrite received_cursor. cbn [px py]. f_equal. f_equal. unfold Top. cbn [page_viewport top]. lia.
  - unfold Width. rewrite Hbuf. unfold Buffer. cbn [page_buffer read_buffer]. rewrite Hg. destruct Hb as (_ & Hbw & _).
    rewrite Hbw. change (_width (buffer (_ <| buffer := nb |>))) with (_width (buffer (GetBufferAndViewport (R := R) a1))).
    rewrite W. symmetry. apply Hok.
  - destruct Hb as (_ & _ & Hbh). unfold Height, Top, Bottom. cbn [page_viewport top bottom]. rewrite Hbh. unfold rect_height, v. lia.
Qed.

(** To a page in the background, from a buffer with the cursor. *)
Lemma move_to_background t pm2 oldb b oldTop : new <> _visiblePageNumber pm2 -> pages_ok pm2 ->
  page_at new pm2 a1 b -> Buffer page s = oldb -> oldTop = Top page ->
  _pages t = pm2 <| _buffers := <[Z.to_nat (new - 1) := Some (received oldb b oldTop 0)]> (_buffers pm2) |> <| _activePageNumber := new |> ->
  view_ok (GetBufferAndViewport (R := R) (_api t)) ->
  viewport (GetBufferAndViewport (R := R) (_api t)) = viewport v ->
  isMainBuffer (GetBufferAndViewport (R := R) (_api t)) = true ->
  _scrollMargins t = _scrollMargins s -> moved s t.
Proof.
  intros Hne Hp2 Hb Hold -> T1 Hview Hvp Hm T3. set (nb := received _ _ _ _) in T1.
  destruct (ready_view_ok _ _ _ _ Hready (ok_view s Hok)) as (Hv1 & Hvp1 & _ & (W & _)).
  destruct (active_of _ t T1) as (A1 & A2 & A3).
  assert (Hp : pages_ok (_pages t)).
  { rewrite T1. apply set_active_ok, set_buffers_ok; [done|]. rewrite length_insert. apply Hp2. }
  assert (Hat : page_at new (_pages t) (_api t) nb).
  { destruct Hb as (_ & B2 & B3). split_and!.
    - rewrite A3. apply nth_insert_same. rewrite (pages_six _ Hp2). lia.
    - rewrite Hvp. unfold v. rewrite <- Hvp1. exact B2.
    - rewrite Hvp. unfold v. rewrite <- Hvp1. exact B3. }
  destruct (background_settled t new nb Hp Hview Hm A1) as [Hset Hbuf]; [rewrite A2; exact Hne|exact Hat|].
  destruct Hat as (_ & B2 & B3).
  assert (Hdim : Width page s = rect_width (viewport v) /\ Height page = rect_height (viewport v)).
  { destruct (active_cases s page Hok Hs Hmain) as [(_ & ->)|(_ & b0 & (N1 & N2 & N3) & ->)]; unfold Width, Height, Top, Bottom, Buffer;
      cbn [page_viewport page_buffer top bottom read_buffer].
    - split; [symmetry; apply Hok|done].
    - rewrite N1. cbn [default from_option id]. unfold v. split; [done|lia]. }
  apply (moved_intro s t page _ Hok Hs Hset); [done|done|done|exact Hvp|by rewrite Hm, Hmain| | |].
  - rewrite (page_state_of page s oldb Hold), (page_state_of _ t nb Hbuf). unfold nb. rewrite received_cursor.
    cbn [px py]. f_equal. f_equal. unfold Top. cbn [page_viewport top]. lia.
  - unfold Width at 1. rewrite Hbuf, B2, Hvp. symmetry. apply Hdim.
  - unfold Height at 1, Top, Bottom. cbn [page_viewport top bottom]. rewrite B3, Hvp, (proj2 Hdim). lia.
Qed.
End Cases.
(** Staying on a page in the background. *)
Lemma move_same_background s page t b : adapter_ok s -> settled s page ->
  isMainBuffer (GetBufferAndViewport (R := R) (_api s)) = true ->
  _activePageNumber (_pages s) <> _visiblePageNumber (_pages s) ->
  page_at (_activePageNumber (_pages s)) (_pages s) (_api s) b ->
  pages_ok (_pages t) -> view_ok (GetBufferAndViewport (R := R) (_api t)) ->
  viewport (GetBufferAndViewport (R := R) (_api t)) = viewport (GetBufferAndViewport (R := R) (_api s)) ->
  isMainBuffer (GetBufferAndViewport (R := R) (_api t)) = true -> _scrollMargins t = _scrollMargins s ->
  _activePageNumber (_pages t) = _activePageNumber (_pages s) ->
  _activePageNumber (_pages t) <> _visiblePageNumber (_pages t) ->
  page_at (_activePageNumber (_pages s)) (_pages t) (_api t) b -> moved s t.
Proof.
  intros Hok Hs Hmain Hwas Hb Hp Hview Hvp Hm T3 A1 A2 Hbt.
  destruct (background_settled s _ b (ok_pages s Hok) (ok_view s Hok) Hmain eq_refl Hwas Hb) as [Hs0 Hbuf].
  destruct (background_settled t _ b Hp Hview Hm A1) as [Hset Hbuf']; [congruence|exact Hbt|].
  apply (moved_intro s t _ _ Hok Hs0 Hset); [done|done|done|done|by rewrite Hm, Hmain| | |done].
  - rewrite (page_state_of _ s b Hbuf), (page_state_of _ t b Hbuf'). done.
  - unfold Width. by rewrite Hbuf, Hbuf'.
Qed.

Lemma moved_refl s : adapter_ok s -> moved s s.
Proof. intros Hok. split; [done..|]. unfold settled. intros p p' H1 H2. rewrite H1 in H2. by injection H2 as <-. Qed.

(** The first part of a move. *)
Definition maybe_swap (makeVisible : bool) (new : Z) pm a : PageManager R * A :=
  if makeVisible && negb (_visiblePageNumber pm =? new) then swap_pages new pm a else (pm, a).

Lemma maybe_swap_ready makeVisible new pm a : pages_ok pm -> view_ok (GetBufferAndViewport a) -> 1 <= new <= 6 ->
  let '(pm1, a1) := maybe_swap makeVisible new pm a in ready pm a pm1 a1.
Proof.
  intros Hp Hv Hn. unfold maybe_swap. destruct (makeVisible && negb (_visiblePageNumber pm =? new)) eqn:Hc.
  - pose proof (swap_spec new pm a Hp Hv Hn) as Hsw. destruct (swap_pages new pm a). apply (swap_ready new), Hsw. lia.
  - by apply ready_refl.
Qed.
(** A buffer of a host whose view is unchanged. *)
Lemma page_at_view k pm a a1 b : viewport (GetBufferAndViewport (R := R) a1) = viewport (GetBufferAndViewport (R := R) a) ->
  page_at k pm a b -> page_at k pm a1 b.
Proof. unfold page_at. by intros ->. Qed.

(** Getting a buffer for the new page. *)
Lemma get_new_page new pm1 a1 (a : A) : pages_ok pm1 -> view_ok (GetBufferAndViewport a1) -> 1 <= new <= 6 ->
  viewport (GetBufferAndViewport (R := R) a1) = viewport (GetBufferAndViewport (R := R) a) ->
  exists pm2 b, _getBuffer new (rect_width (viewport (GetBufferAndViewport (R := R) a)))
    (rect_height (viewport (GetBufferAndViewport (R := R) a))) pm1 = (pm2, b) /\ page_at new pm2 a1 b /\ pages_ok pm2
    /\ _activePageNumber pm2 = _activePageNumber pm1 /\ _visiblePageNumber pm2 = _visiblePageNumber pm1
    /\ (forall k b', 1 <= k <= 6 -> page_at k pm1 a1 b' -> page_at k pm2 a1 b').
Proof.
  intros Hp Hv Hn <-. pose proof (getBuffer_gives new pm1 a1 Hp Hv Hn) as G.
  pose proof (fun k b' Hk => getBuffer_keeps new k pm1 a1 b' Hp Hv Hn Hk) as K. cbv zeta in G, K.
  destruct (_getBuffer new _ _ pm1) as [pm2 b]. destruct G as (G1 & G2 & G3 & G4). by exists pm2, b.
Qed.

Lemma hidden_view (a1 : A) (b : TextBuffer R) : view_ok (GetBufferAndViewport a1) ->
  _width b = _width (buffer (GetBufferAndViewport (R := R) a1)) ->
  view_ok (GetBufferAndViewport (R := R) (SetVisibleBuffer b a1)) /\
  viewport (GetBufferAndViewport (R := R) (SetVisibleBuffer b a1)) = viewport (GetBufferAndViewport (R := R) a1) /\
  isMainBuffer (GetBufferAndViewport (R := R) (SetVisibleBuffer b a1)) = isMainBuffer (GetBufferAndViewport (R := R) a1).
Proof. intros [H1 H2 H3] Hw. rewrite get_set_buffer. split_and!; [|done|done]. split; cbn; congruence. Qed.

Definition hide (b : TextBuffer R) : TextBuffer R := b <| _cursor := SetIsVisible false (_cursor b) |>.

(** A move, from the visible page. *)
Lemma MoveTo_from_visible n makeVisible s : adapter_ok s ->
  isMainBuffer (GetBufferAndViewport (R := R) (_api s)) = true ->
  _activePageNumber (_pages s) = _visiblePageNumber (_pages s) ->
  let '(pm, a) := MoveTo n makeVisible (_pages s) (_api s) in
  moved s (with_pages pm a s) /\ _activePageNumber pm = clampPage n.
Proof.
  intros Hok Hmain Hwas. destruct (ok_cursor s Hok) as (page & Hs & _). pose proof (clampPage_range n) as Hn.
  pose proof (maybe_swap_ready makeVisible (clampPage n) (_pages s) (_api s) (ok_pages s Hok) (ok_view s Hok) Hn) as Hr.
  unfold MoveTo. rewrite Hmain. cbn [negb]. rewrite (proj2 (Z.eqb_eq _ _) Hwas).
  fold (maybe_swap makeVisible (clampPage n) (_pages s) (_api s)).
  destruct (maybe_swap makeVisible (clampPage n) (_pages s) (_api s)) as [pm1 a1]. cbn [negb orb].
  destruct (ready_view_ok _ _ _ _ Hr (ok_view s Hok)) as (Hv1 & Hvp & Hm & (W & Hh & Hc & Hat)).
  destruct (clampPage n =? _visiblePageNumber pm1) eqn:His; cbn [negb andb].
  - split; [|done]. apply Z.eqb_eq in His. by apply (move_visible_visible s page pm1 a1 (clampPage n)).
  - apply Z.eqb_neq in His. rewrite bool_decide_eq_false_2 by done.
    destruct (get_new_page (clampPage n) pm1 a1 (_api s) (rd_pages _ _ _ _ Hr) Hv1 Hn Hvp)
      as (pm2 & b & Hg & Hb & Hp2 & A2 & V2 & K2).
    rewrite Hg. cbn [fst]. unfold carry_cursor. cbn [read_buffer write_buffer].
    rewrite (proj1 Hb). cbn [default from_option id].
    destruct (hidden_view a1 (hide (buffer (GetBufferAndViewport (R := R) a1))) Hv1 eq_refl)
      as (Hv3 & Hvp3 & Hm3).
    split; [|done].
    destruct (active_cases s page Hok Hs Hmain) as [(_ & Hpage)|[? _]]; [|done].
    apply (move_to_background s page pm1 a1 (clampPage n) Hok Hs Hmain Hr Hn _ pm2 (buffer (GetBufferAndViewport (_api s))) b (Top page)); try done.
    + congruence.
    + rewrite Hpage. done.
    + unfold received. cbn [_pages with_pages]. rewrite Hpage. unfold Top. cbn [page_viewport].
      rewrite <- Hc, <- Hat. done.
    + exact (eq_trans Hvp3 Hvp).
    + exact (eq_trans Hm3 (eq_trans Hm Hmain)).
Qed.
(** A move, from a page in the background. *)
Lemma MoveTo_from_background n makeVisible s : adapter_ok s ->
  isMainBuffer (GetBufferAndViewport (R := R) (_api s)) = true ->
  _activePageNumber (_pages s) <> _visiblePageNumber (_pages s) ->
  let '(pm, a) := MoveTo n makeVisible (_pages s) (_api s) in
  moved s (with_pages pm a s) /\ _activePageNumber pm = clampPage n.
Proof.
  intros Hok Hmain Hwas. destruct (ok_cursor s Hok) as (page & Hs & _). pose proof (clampPage_range n) as Hn.
  pose proof (maybe_swap_ready makeVisible (clampPage n) (_pages s) (_api s) (ok_pages s Hok) (ok_view s Hok) Hn) as Hr.
  unfold MoveTo. rewrite Hmain. cbn [negb]. rewrite (proj2 (Z.eqb_neq _ _) Hwas).
  fold (maybe_swap makeVisible (clampPage n) (_pages s) (_api s)).
  destruct (maybe_swap makeVisible (clampPage n) (_pages s) (_api s)) as [pm1 a1]. cbn [negb orb andb].
  destruct (ready_view_ok _ _ _ _ Hr (ok_view s Hok)) as (Hv1 & Hvp & Hm & (W & Hh & Hc & Hat)).
  destruct (active_cases s page Hok Hs Hmain) as [[? _]|(_ & oldb & Hb & Hpage)]; [done|].
  pose proof (pages_active _ (ok_pages s Hok)) as Hact.
  pose proof (rd_kept _ _ _ _ Hr _ oldb Hact Hwas Hb) as Hb1.
  pose proof Hb1 as (N1 & N2 & N3). rewrite Hvp in N2, N3. rewrite (rd_active _ _ _ _ Hr).
  rewrite (getBuffer_present _ _ _ pm1 oldb (rd_pages _ _ _ _ Hr) Hact N1 N2 N3). cbn [fst].
  destruct (clampPage n =? _visiblePageNumber pm1) eqn:His; cbn [negb].
  - apply Z.eqb_eq in His. rewrite (rd_active _ _ _ _ Hr), bool_decide_eq_false_2 by done.
    unfold carry_cursor. cbn [read_buffer write_buffer]. rewrite N1. cbn [default from_option id].
    split; [|done]. by eapply (move_background_visible s) with (oldb := oldb) (pm1 := pm1) (a1 := a1) (new := clampPage n).
  - apply Z.eqb_neq in His.
    destruct (get_new_page (clampPage n) pm1 a1 (_api s) (rd_pages _ _ _ _ Hr) Hv1 Hn Hvp)
      as (pm2 & b & Hg & Hb2 & Hp2 & A2 & V2 & K2).
    rewrite Hg. cbn [fst]. rewrite A2, (rd_active _ _ _ _ Hr). pose proof (K2 _ oldb Hact Hb1) as Ho2.
    case_bool_decide as Hsame.
    + injection Hsame as Hsame. split; [|done].
      apply (move_same_background s page _ oldb); try done.
      * by apply set_active_ok.
      * exact (eq_trans Hm Hmain).
      * cbn [with_pages _pages]. change (clampPage n <> _visiblePageNumber pm2). congruence.
    + unfold carry_cursor. cbn [read_buffer write_buffer]. rewrite (proj1 Hb2), (proj1 Ho2). cbn [default from_option id].
      split; [|done].
      destruct (background_settled s _ oldb (ok_pages s Hok) (ok_view s Hok) Hmain eq_refl Hwas Hb) as [_ Hbuf].
      rewrite <- Hpage in Hbuf.
      apply (move_to_background s page pm1 a1 (clampPage n) Hok Hs Hmain Hr Hn _ pm2 oldb b 0); try done.
      * congruence.
      * by rewrite Hpage.
      * exact (eq_trans Hm Hmain).
Qed.

Lemma MoveTo_moved n makeVisible s : adapter_ok s ->
  let '(pm, a) := MoveTo n makeVisible (_pages s) (_api s) in
  moved s (with_pages pm a s) /\
  (isMainBuffer (GetBufferAndViewport (R := R) (_api s)) = true -> _activePageNumber pm = clampPage n).
Proof.
  intros Hok. destruct (isMainBuffer (GetBufferAndViewport (R := R) (_api s))) eqn:Hmain.
  - destruct (Z.eq_dec (_activePageNumber (_pages s)) (_visiblePageNumber (_pages s))) as [He|He].
    + pose proof (MoveTo_from_visible n makeVisible s Hok Hmain He) as H. destruct (MoveTo _ _ _ _). by destruct H.
    + pose proof (MoveTo_from_background n makeVisible s Hok Hmain He) as H. destruct (MoveTo _ _ _ _). by destruct H.
  - unfold MoveTo. rewrite Hmain. cbn [negb]. split; [|done].
    replace (with_pages (_pages s) (_api s) s) with s by (by destruct s). by apply moved_refl.
Qed.
End Pages.
