(* ===== verification/AdapterMoves.v ===== *)
(** * Where the cursor goes

    Every movement keeps the cursor on the page; an absolute position inside
    the page, or inside the margins in origin mode, is reached exactly; what
    DECSC saves is what DECRC restores. *)

From S2P Require Import Prelude VTTypes TermDispatch StateMachine TextAttribute SgrStack Graphics TerminalInput Charsets TerminalOutput.
From S2P Require Import InputFacts Cursor Pages Adapter AdapterFacts.
#[local] Open Scope Z_scope.

Section Moves.
Context {A R : Type} `{Rows : !RowStorage R} `{Api : !ITerminalApi A R} `{Laws : !TerminalApiLaws A R}.
Abbreviation S_ := (AdaptDispatch A R).
Implicit Types (s t u : S_) (page : Page).

(** ** The target of a movement *)

Definition move_target page (width : Z) (m : rect) (origin : bool) (start : point) (ro co : Offset) (clampIn : bool) : point :=
  let '(t, b) := margin_rows (Height page) m in
  let rows := (t + Top page, b + Top page) in
  let columns := margin_columns width m in
  let row := if IsAbsolute ro then (if origin then fst rows else Top page) else py start in
  let col := if IsAbsolute co then (if origin then fst columns else 0) else px start in
  let q := mk_point (clamp (col + Value co) 0 (width - 1)) (clamp (row + Value ro) (Top page) (Bottom page - 1)) in
  if clampIn || origin then clamp_in_margins start (rows, columns) q else q.

Definition kept_margins page (width : Z) (m : rect) : rect := kept_columns width (kept_rows (Height page) m).

Lemma columns_of_kept_rows width height m : margin_columns width (kept_rows height m) = margin_columns width m.
Proof. unfold margin_columns, kept_columns, kept_rows. destruct (top m >=? height - 1); [|done]. cbn. by destruct (_ >=? _). Qed.

Lemma move_eq ro co clampIn s s1 page : active_page s = (s1, page) ->
  _CursorMovePosition ro co clampIn s =
  let width := Width page s1 in let m := _scrollMargins s1 in
  let q := move_target page width m (test_mode AdaptMode.Origin s1) (GetPosition (CursorOf page s1)) ro co clampIn in
  change_cursor page (fun c => _ApplyCursorMovementFlags (SetPosition (ClampPositionWithinLine q (Buffer page s1)) c))
    (s1 <| _scrollMargins := kept_margins page width m |>).
Proof.
  intros Ha. unfold _CursorMovePosition, move_target. rewrite Ha, GetVerticalMargins_eq.
  destruct (margin_rows (Height page) (_scrollMargins s1)) as [t b]. rewrite GetHorizontalMargins_eq.
  change (_scrollMargins (s1 <| _scrollMargins := ?m |>)) with m. rewrite columns_of_kept_rows.
  by destruct (margin_columns (Width page s1) (_scrollMargins s1)).
Qed.

Lemma clamp_range v lo hi : lo <= hi -> lo <= clamp v lo hi <= hi.
Proof. intros H. unfold clamp. repeat step_if; lia. Qed.

Lemma clamp_id v lo hi : lo <= v <= hi -> clamp v lo hi = v.
Proof. intros H. unfold clamp. repeat step_if; lia. Qed.

Lemma clamp_in_margins_range page width start rows columns q : on_page page width q ->
  Top page <= fst rows <= snd rows -> snd rows < Bottom page -> 0 <= fst columns <= snd columns -> snd columns < width ->
  on_page page width (clamp_in_margins start (rows, columns) q).
Proof.
  destruct rows as [t b], columns as [l r]. cbn [fst snd]. intros [Hx Hy] H1 H2 H3 H4.
  unfold clamp_in_margins, on_page. cbn [px py]. split; repeat step_if; lia.
Qed.

Lemma move_target_on_page page width m origin start ro co clampIn : 2 <= width -> Top page < Bottom page -> margins_ok m ->
  on_page page width (move_target page width m origin start ro co clampIn).
Proof.
  intros Hw Hh Hm. unfold move_target. pose proof (margin_rows_range (Height page) m) as Hr.
  pose proof (margin_columns_range width m) as Hc. destruct (margin_rows (Height page) m) as [t b]. cbn [fst snd] in *.
  assert (Hh' : Height page = Bottom page - Top page) by done.
  set (q := mk_point _ _).
  assert (Hq : on_page page width q).
  { split; cbn [px py q].
    - pose proof (clamp_range ((if IsAbsolute co then if origin then fst (margin_columns width m) else 0 else px start) + Value co) 0 (width - 1)). lia.
    - pose proof (clamp_range ((if IsAbsolute ro then if origin then t + Top page else Top page else py start) + Value ro) (Top page) (Bottom page - 1)). lia. }
  step_if; [|done]. specialize (Hr ltac:(lia) Hm). specialize (Hc ltac:(lia) Hm).
  apply clamp_in_margins_range; [done|cbn; lia|cbn; lia|lia|lia].
Qed.

Lemma clamped_on_page page (b : TextBuffer R) q : 2 <= _width b -> on_page page (_width b) q ->
  on_page page (_width b) (ClampPositionWithinLine q b).
Proof.
  intros Hw [Hx Hy]. pose proof (GetLineWidth_range (py q) b Hw). unfold ClampPositionWithinLine, on_page. cbn. lia.
Qed.

(** ** Movements keep the invariant *)

(** The state before the cursor is moved. *)
Lemma margins_frame s page m : adapter_ok s -> settled s page -> margins_ok m ->
  adapter_ok (s <| _scrollMargins := m |>) /\ settled (s <| _scrollMargins := m |>) page.
Proof. intros Hok Hs Hm. split; [by apply (adapter_frame s)|by apply (settled_frame s)]. Qed.

Lemma move_ok ro co clampIn s : adapter_ok s -> adapter_ok (_CursorMovePosition ro co clampIn s).
Proof.
  intros Hok. destruct (active_page s) as [s1 page] eqn:Ha. rewrite (move_eq _ _ _ _ _ _ Ha). cbv zeta.
  destruct (adapter_active _ _ _ Hok Ha) as (-> & Hs1 & Hc1). pose proof Hok as Hok1.
  destruct (page_geometry s page) as [Hw Hh]; [apply Hok1|apply Hok1|done|].
  destruct (margins_frame s page (kept_margins page (Width page s) (_scrollMargins s))) as [Hok2 Hs2];
    [done|done|apply kept_columns_ok, kept_rows_ok, Hok1|].
  apply adapter_change_cursor; [done|done|].
  change (GetPosition (_ApplyCursorMovementFlags ?c)) with (_cPosition c). rewrite SetPosition_position.
  apply (clamped_on_page page (Buffer page s)); [done|]. apply move_target_on_page; [done|done|apply Hok1].
Qed.

(** ** Reaching a position *)

(** The target of an absolute position, from anywhere. *)
Lemma position_target page width m (origin : bool) start q : on_page page width q ->
  (let '(t, b) := margin_rows (Height page) m in let '(l, r) := margin_columns width m in
   origin = true -> t + Top page <= py q <= b + Top page /\ l <= px q <= r) ->
  let '(t, _) := margin_rows (Height page) m in let '(l, _) := margin_columns width m in
  let base := if origin then mk_point l (t + Top page) else mk_point 0 (Top page) in
  move_target page width m origin start (Absolute (py q - py base + 1)) (Absolute (px q - px base + 1)) false = q.
Proof.
  intros [Hx Hy] Ho. unfold move_target. destruct (margin_rows (Height page) m) as [t b].
  destruct (margin_columns width m) as [l r]. cbn [fst snd IsAbsolute Value Absolute orb].
  destruct origin; cbn [px py].
  - specialize (Ho eq_refl). rewrite !clamp_id by lia. unfold clamp_in_margins. cbn [px py]. destruct q as [qx qy]. cbn in *.
    f_equal; repeat step_if; lia.
  - rewrite !clamp_id by lia. destruct q as [qx qy]. cbn. f_equal; lia.
Qed.
(** ** Saving and restoring *)

(** The upper left corner that positions count from. *)
Definition home page (width : Z) (m : rect) (origin : bool) : point :=
  if origin then mk_point (fst (margin_columns width m)) (fst (margin_rows (Height page) m) + Top page)
  else mk_point 0 (Top page).

(** In origin mode the cursor is inside the margins. *)
Definition inside page (width : Z) (m : rect) (q : point) : Prop :=
  fst (margin_rows (Height page) m) + Top page <= py q <= snd (margin_rows (Height page) m) + Top page /\
  fst (margin_columns width m) <= px q <= snd (margin_columns width m).

Lemma goto_exact page width m origin start q : on_page page width q -> (origin = true -> inside page width m q) ->
  let h := home page width m origin in
  move_target page width m origin start (Absolute (py q - py h + 1)) (Absolute (px q - px h + 1)) false = q.
Proof.
  intros Hq Ho. pose proof (position_target page width m origin start q Hq) as Ht. unfold inside in Ho. unfold home.
  destruct (margin_rows (Height page) m) as [t b], (margin_columns width m) as [l r]. cbn [fst snd] in *.
  destruct origin; apply Ht; intros; by apply Ho.
Qed.

Lemma relative_position_eq page s : settled s page ->
  let h := home page (Width page s) (_scrollMargins s) (test_mode AdaptMode.Origin s) in
  let q := GetPosition (CursorOf page s) in
  exists m, relative_position page s = (s <| _scrollMargins := m |>, mk_point (px q - px h) (py q - py h)).
Proof.
  intros Hs. cbv zeta. unfold relative_position, home. destruct (test_mode AdaptMode.Origin s) eqn:Ho.
  - rewrite GetHorizontalMargins_eq. destruct (margin_columns (Width page s) (_scrollMargins s)) as [l r] eqn:Hc.
    rewrite GetVerticalMargins_eq. change (_scrollMargins (s <| _scrollMargins := ?m |>)) with m.
    assert (Hk : margin_rows (Height page) (kept_columns (Width page s) (_scrollMargins s)) = margin_rows (Height page) (_scrollMargins s)).
    { unfold margin_rows, kept_rows, kept_columns. destruct (left _ >=? _); [|done]. cbn. by destruct (_ >=? _). }
    rewrite Hk. destruct (margin_rows (Height page) (_scrollMargins s)) as [t b]. eexists. f_equal.
    cbn. f_equal; lia.
  - exists (_scrollMargins s). f_equal; [by destruct s|]. rewrite Z.sub_0_r. by destruct (GetPosition (CursorOf page s)).
Qed.

Lemma saved_after_save s page : adapter_ok s -> settled s page ->
  let h := home page (Width page s) (_scrollMargins s) (test_mode AdaptMode.Origin s) in
  let q := GetPosition (CursorOf page s) in
  saved_state (AdaptDispatch_CursorSaveState s)
  = mk_CursorState (py q - py h + 1) (px q - px h + 1) (page_number page) (IsDelayedEOLWrap (CursorOf page s))
      (test_mode AdaptMode.Origin s) (AttributesOf page s) (_termOutput s).
Proof.
  intros Hok Hs. cbv zeta. unfold AdaptDispatch_CursorSaveState. rewrite Hs.
  destruct (relative_position_eq page s Hs) as (m & ->). cbn [px py].
  unfold saved_state, set_saved_state. cbn. by destruct (_usingAltBuffer s).
Qed.

(** The number of the active page. *)
Lemma settled_number s page : adapter_ok s -> settled s page ->
  page_number page = if isMainBuffer (GetBufferAndViewport (R := R) (_api s)) then _activePageNumber (_pages s) else 1.
Proof.
  intros Hok Hs. destruct (isMainBuffer _) eqn:Hm.
  - destruct (active_cases s page Hok Hs Hm) as [(He & ->)|(_ & b & _ & ->)]; [by rewrite He|done].
  - apply settled_kind in Hs; [|apply Hok|apply Hok]. inversion Hs as [n [[_ ->]|(Hc & _)]|n b Hc]; [done|congruence|congruence].
Qed.

(** The size of the active page. *)
Lemma settled_size s page : adapter_ok s -> settled s page ->
  Width page s = rect_width (viewport (GetBufferAndViewport (R := R) (_api s))) /\
  Height page = rect_height (viewport (GetBufferAndViewport (R := R) (_api s))).
Proof.
  intros Hok Hs. apply settled_kind in Hs; [|apply Hok|apply Hok].
  inversion Hs as [n Hc|n b Hm Hn Hne Hb Hbw Hbh]; unfold Width, Height, Top, Bottom, Buffer; cbn [page_viewport page_buffer top bottom read_buffer].
  - split; [symmetry; apply Hok|done].
  - rewrite Hb. cbn [default from_option id]. split; [done|lia].
Qed.
(** ** CUP, exactly *)

(** What a jump to a position leaves. *)
Record jumped s page (q : point) t : Prop := {
  jp_ok : adapter_ok t;
  jp_settled : settled t page;
  jp_buffer : Buffer page t
    = (Buffer page s) <| _cursor := _ApplyCursorMovementFlags (SetPosition (ClampPositionWithinLine q (Buffer page s)) (CursorOf page s)) |>;
  jp_modes : _modes t = _modes s;
  jp_output : _termOutput t = _termOutput s;
  jp_main : isMainBuffer (GetBufferAndViewport (R := R) (_api t)) = isMainBuffer (GetBufferAndViewport (R := R) (_api s));
}.

Lemma set_buffer_frame page b s : _modes (set_buffer page b s) = _modes s /\ _termOutput (set_buffer page b s) = _termOutput s
  /\ isMainBuffer (GetBufferAndViewport (R := R) (_api (set_buffer page b s))) = isMainBuffer (GetBufferAndViewport (R := R) (_api s))
  /\ _savedCursorState (set_buffer page b s) = _savedCursorState s /\ _usingAltBuffer (set_buffer page b s) = _usingAltBuffer s
  /\ _tabStopColumns (set_buffer page b s) = _tabStopColumns s.
Proof.
  unfold set_buffer. destruct (page_buffer page) as [|n]; cbn; [|done]. by rewrite get_set_buffer.
Qed.

Lemma cursor_position_exact s page q : adapter_ok s -> settled s page ->
  let width := Width page s in let m := _scrollMargins s in let origin := test_mode AdaptMode.Origin s in
  on_page page width q -> (origin = true -> inside page width m q) ->
  let h := home page width m origin in
  jumped s page q (AdaptDispatch_CursorPosition (py q - py h + 1) (px q - px h + 1) s).
Proof.
  intros Hok Hs width m origin Hq Ho h. unfold AdaptDispatch_CursorPosition. rewrite (move_eq _ _ _ _ s page Hs). cbv zeta.
  fold width m origin. rewrite (goto_exact page width m origin _ q Hq Ho).
  destruct (margins_frame s page (kept_margins page width m) Hok Hs) as [Hok2 Hs2];
    [apply kept_columns_ok, kept_rows_ok, Hok|].
  set (s2 := s <| _scrollMargins := _ |>) in *. unfold change_cursor.
  destruct (page_geometry s page (ok_pages s Hok) (ok_view s Hok) Hs) as [Hw _].
  match goal with |- jumped _ _ _ (set_buffer page ?b s2) => set (nb := b) end.
  destruct (adapter_set_buffer s2 page nb Hok2 Hs2) as (H1 & H2 & H3 & H4); [done|done| |].
  { change (GetPosition (_cursor nb)) with (_cPosition (SetPosition (ClampPositionWithinLine q (Buffer page s)) (CursorOf page s))).
    rewrite SetPosition_position. by apply (clamped_on_page page (Buffer page s)). }
  destruct (set_buffer_frame page nb s2) as (F1 & F2 & F3 & _).
  by split.
Qed.

(** ** DECSC and DECRC *)

(** [t] remembers the cursor state of [s], on a page of the same size with the
    same margins. *)
Record remembers s t : Prop := {
  rm_saved : saved_state t = saved_state (AdaptDispatch_CursorSaveState s);
  rm_main : isMainBuffer (GetBufferAndViewport (R := R) (_api t)) = isMainBuffer (GetBufferAndViewport (R := R) (_api s));
  rm_width : rect_width (viewport (GetBufferAndViewport (R := R) (_api t))) = rect_width (viewport (GetBufferAndViewport (R := R) (_api s)));
  rm_height : rect_height (viewport (GetBufferAndViewport (R := R) (_api t))) = rect_height (viewport (GetBufferAndViewport (R := R) (_api s)));
  rm_margins : _scrollMargins t = _scrollMargins s;
}.

Lemma modes_set_test data mode b : 0 <= mode -> modes_test (modes_set data mode b) mode = b.
Proof.
  intros Hm. rewrite modes_test_bit by done. unfold modes_set.
  rewrite Z.lor_spec, Z.ldiff_spec, modes_of_bits by (done || by repeat constructor). cbn [existsb]. rewrite Z.eqb_refl.
  cbn [orb negb]. rewrite andb_false_r. cbn [orb]. destruct b; [|apply Z.bits_0].
  rewrite modes_of_bits by (done || by repeat constructor). cbn [existsb]. by rewrite Z.eqb_refl.
Qed.

(** The corner that positions count from is the same on every page of a size. *)
Lemma home_relative p p' width m origin : Height p = Height p' ->
  px (home p width m origin) = px (home p' width m origin) /\
  py (home p width m origin) - Top p = py (home p' width m origin) - Top p'.
Proof. intros Hh. unfold home. rewrite Hh. destruct origin; cbn [px py]; lia. Qed.

Lemma inside_relative p p' width m q : Height p = Height p' -> inside p width m q ->
  inside p' width m (mk_point (px q) (py q - Top p + Top p')).
Proof. unfold inside. intros -> [H1 H2]. cbn [px py]. lia. Qed.

(** Moving to a page, as the invariant and the counts see it. *)
Lemma page_position_spec n t : adapter_ok t ->
  let u := AdaptDispatch_PagePositionAbsolute n t in
  moved t u /\ _modes u = _modes t /\ _termOutput u = _termOutput t /\ _scrollMargins u = _scrollMargins t /\
  (isMainBuffer (GetBufferAndViewport (R := R) (_api t)) = true -> _activePageNumber (_pages u) = clampPage n).
Proof.
  intros Hok. cbv zeta. unfold AdaptDispatch_PagePositionAbsolute, move_page.
  pose proof (MoveTo_moved n (test_mode AdaptMode.PageCursorCoupling t) t Hok) as Hm.
  destruct (MoveTo n _ (_pages t) (_api t)) as [pm a]. destruct Hm as [Hm Hn]. by split_and!.
Qed.

Lemma set_mode_keeps mode b t : adapter_ok t -> adapter_ok (set_mode mode b t).
Proof. intros Hok. apply (adapter_frame t); try done. apply Hok. Qed.

(** The place of a cursor, reached on another page of the same size. *)
Lemma place_reached s page t page' : adapter_ok s -> settled s page -> adapter_ok t -> settled t page' ->
  Width page' t = Width page s -> Height page' = Height page -> _scrollMargins t = _scrollMargins s ->
  test_mode AdaptMode.Origin t = test_mode AdaptMode.Origin s ->
  let q := GetPosition (CursorOf page s) in let origin := test_mode AdaptMode.Origin s in
  (origin = true -> inside page (Width page s) (_scrollMargins s) q) ->
  let h := home page (Width page s) (_scrollMargins s) origin in
  jumped t page' (mk_point (px q) (py q - Top page + Top page')) (AdaptDispatch_CursorPosition (py q - py h + 1) (px q - px h + 1) t).
Proof.
  intros Hok Hs Hokt Hst Hw Hh Hmg Hor q origin Hin h. set (q' := mk_point _ _).
  destruct (ok_cursor s Hok) as (p0 & Hs0 & Hc). unfold settled in Hs, Hs0. rewrite Hs in Hs0. injection Hs0 as <-.
  assert (Hon : on_page page' (Width page' t) q').
  { destruct Hc as [Hx Hy]. fold q in Hx, Hy. rewrite Hw. unfold on_page, q'. cbn [px py]. unfold Height in Hh. lia. }
  pose proof (cursor_position_exact t page' q' Hokt Hst Hon) as Hj. cbv zeta in Hj. rewrite Hor, Hw, Hmg in Hj.
  specialize (Hj ltac:(intros Ho; apply inside_relative; [done|by apply Hin])).
  destruct (home_relative page page' (Width page s) (_scrollMargins s) origin) as [E1 E2]; [done|]. fold h in E1, E2.
  replace (py q - py h + 1) with (py q' - py (home page' (Width page s) (_scrollMargins s) origin) + 1) by (unfold q'; cbn [py]; lia).
  replace (px q - px h + 1) with (px q' - px (home page' (Width page s) (_scrollMargins s) origin) + 1) by (unfold q'; cbn [px]; lia).
  exact Hj.
Qed.

(** The page and the place on it that a restore leads to. *)
Lemma restored_place s page t : adapter_ok s -> settled s page -> adapter_ok t -> remembers s t ->
  let q := GetPosition (CursorOf page s) in let origin := test_mode AdaptMode.Origin s in
  (origin = true -> inside page (Width page s) (_scrollMargins s) q) ->
  let h := home page (Width page s) (_scrollMargins s) origin in
  let t2 := AdaptDispatch_PagePositionAbsolute (page_number page) (set_mode AdaptMode.Origin origin t) in
  exists page', settled t2 page' /\ page_number page' = page_number page /\
    test_mode AdaptMode.Origin t2 = origin /\ _termOutput t2 = _termOutput t /\
    jumped t2 page' (mk_point (px q) (py q - Top page + Top page'))
      (AdaptDispatch_CursorPosition (py q - py h + 1) (px q - px h + 1) t2).
Proof.
  intros Hok Hs Hokt [R1 R2 R3 R4 R5] q origin Hin h t2. set (t1 := set_mode AdaptMode.Origin origin t) in t2.
  assert (Hok1 : adapter_ok t1) by (by apply set_mode_keeps).
  destruct (page_position_spec (page_number page) t1 Hok1) as (Hmv & M1 & M2 & M3 & M4). fold t2 in Hmv, M1, M2, M3, M4.
  pose proof (mv_ok _ _ Hmv) as Hok2. destruct (ok_cursor t2 Hok2) as (page' & Hs2 & _). exists page'.
  destruct (settled_size s page Hok Hs) as [W1 W2]. destruct (settled_size t2 page' Hok2 Hs2) as [W3 W4].
  rewrite (mv_viewport _ _ Hmv) in W3, W4. change (_api t1) with (_api t) in W3, W4.
  assert (Hw : Width page' t2 = Width page s) by congruence. assert (Hh : Height page' = Height page) by congruence.
  assert (Hor : test_mode AdaptMode.Origin t2 = origin).
  { unfold test_mode. rewrite M1. apply modes_set_test. done. }
  assert (Hmg : _scrollMargins t2 = _scrollMargins s) by (rewrite M3; exact R5).
  split_and!; [done| |done|done|].
  - rewrite (settled_number _ _ Hok2 Hs2), (settled_number _ _ Hok Hs), (mv_main _ _ Hmv).
    change (_api t1) with (_api t) in *. rewrite R2.
    destruct (isMainBuffer (GetBufferAndViewport (R := R) (_api s))) eqn:Hm; [|done].
    rewrite M4, (settled_number _ _ Hok Hs), Hm by exact R2. pose proof (pages_active _ (ok_pages s Hok)).
    unfold clampPage, MAX_PAGES. lia.
  - by apply place_reached.
Qed.

Lemma set_cursor_id (b : TextBuffer R) : b <| _cursor := _cursor b |> = b.
Proof. by destruct b. Qed.

(** The pending wrap of a restore. *)
Lemma wrap_applied t page (wrap : bool) : adapter_ok t -> settled t page ->
  let u := if wrap then change_cursor page DelayEOLWrap t else t in
  adapter_ok u /\ settled u page /\ _modes u = _modes t /\ _termOutput u = _termOutput t /\
  Buffer page u = (Buffer page t) <| _cursor := if wrap then DelayEOLWrap (CursorOf page t) else CursorOf page t |>.
Proof.
  intros Hok Hs. destruct (ok_cursor t Hok) as (p0 & Hs0 & Hc). unfold settled in Hs, Hs0. rewrite Hs in Hs0. injection Hs0 as <-.
  cbv zeta. destruct wrap; [|split_and!; try done; unfold CursorOf; by rewrite set_cursor_id].
  unfold change_cursor. set (b := _ <| _cursor := _ |>). destruct (adapter_set_buffer t page b Hok Hs) as (? & ? & ? & _); try done.
  destruct (set_buffer_frame page b t) as (F1 & F2 & _). by split_and!.
Qed.

(** The rest of a restore. *)
Lemma finish_restore t page (wrap : bool) attr : adapter_ok t -> settled t page ->
  let u := SetAttributes page attr (if wrap then change_cursor page DelayEOLWrap t else t) in
  adapter_ok u /\ settled u page /\ _modes u = _modes t /\ _termOutput u = _termOutput t /\
  Buffer page u = (Buffer page t) <| _cursor := if wrap then DelayEOLWrap (CursorOf page t) else CursorOf page t |>
                                  <| _currentAttributes := attr |>.
Proof.
  intros Hok Hs. destruct (wrap_applied t page wrap Hok Hs) as (Hok1 & Hs1 & F1 & F2 & Hb1).
  set (t1 := if wrap then change_cursor page DelayEOLWrap t else t) in *. unfold SetAttributes. set (b := _ <| _currentAttributes := _ |>).
  destruct (ok_cursor t1 Hok1) as (p0 & Hs0 & Hc1). unfold settled in Hs1, Hs0. rewrite Hs1 in Hs0. injection Hs0 as <-.
  destruct (adapter_set_buffer t1 page b Hok1 Hs1) as (G1 & G2 & G3 & _); [done|done|exact Hc1|].
  destruct (set_buffer_frame page b t1) as (E1 & E2 & _).
  split_and!; [done|done|congruence|congruence|]. rewrite G3. unfold b. by rewrite Hb1.
Qed.

(** The sets that are designated and invoked are those of [o]; whether GR is
    translated is not part of what is saved, and where it is the same, nothing
    differs. *)
Definition sets_restored (o now o' : TerminalOutput) : Prop :=
  _gsetTranslationTables o' = _gsetTranslationTables o /\ _gsetIds o' = _gsetIds o /\
  _glSetNumber o' = _glSetNumber o /\ _grSetNumber o' = _grSetNumber o /\ _ssSetNumber o' = _ssSetNumber o /\
  _grTranslationEnabled o' = _grTranslationEnabled now /\
  (_grTranslationEnabled now = _grTranslationEnabled o -> o' = o).

Lemma RestoreFrom_restored o now : sets_restored o now (RestoreFrom o now).
Proof.
  unfold sets_restored. split_and!; [done..|]. intros E. unfold RestoreFrom. rewrite E. by destruct o.
Qed.

(** C34: what DECSC saves, DECRC restores.  From a later state, on whatever
    page, in which the saved state has not been replaced, the same one of the
    two screen buffers is active, and the size of the page and the margins are
    those of the time of saving, the cursor returns to its page and to its
    place on it (within the line, should that have become double width), with
    its attributes, its pending wrap, the origin mode and the character sets,
    all but whether GR is translated.  In origin mode the cursor was inside
    the margins when it was saved. *)
Theorem cursor_restored s page t : adapter_ok s -> settled s page -> adapter_ok t -> remembers s t ->
  let q := GetPosition (CursorOf page s) in
  (test_mode AdaptMode.Origin s = true -> inside page (Width page s) (_scrollMargins s) q) ->
  let t' := AdaptDispatch_CursorRestoreState t in
  adapter_ok t' /\ exists page', settled t' page' /\ page_number page' = page_number page /\
    let q' := mk_point (px q) (py q - Top page + Top page') in
    GetPosition (CursorOf page' t') = ClampPositionWithinLine q' (Buffer page' t') /\
    IsDelayedEOLWrap (CursorOf page' t') = IsDelayedEOLWrap (CursorOf page s) /\
    AttributesOf page' t' = AttributesOf page s /\
    test_mode AdaptMode.Origin t' = test_mode AdaptMode.Origin s /\
    sets_restored (_termOutput s) (_termOutput t) (_termOutput t').
Proof.
  intros Hok Hs Hokt Hr q Hin t'. destruct (restored_place s page t Hok Hs Hokt Hr Hin) as (page' & Hs2 & Hnum & Hor & Hout & Hj).
  set (t2 := AdaptDispatch_PagePositionAbsolute _ _) in *. set (t3 := AdaptDispatch_CursorPosition _ _ t2) in *.
  destruct Hj as [J1 J2 J3 J4 J5 J6].
  destruct (finish_restore t3 page' (IsDelayedEOLWrap (CursorOf page s)) (AttributesOf page s) J1 J2) as (U1 & U2 & U3 & U4 & U5).
  set (u := SetAttributes page' _ _) in *. set (w := u <| _termOutput := RestoreFrom (_termOutput s) (_termOutput u) |>).
  assert (Hw : t' = w).
  { unfold t', AdaptDispatch_CursorRestoreState. rewrite (rm_saved _ _ Hr), (saved_after_save s page Hok Hs).
    cbn [IsOriginModeRelative saved_Page saved_Row saved_Column IsDelayedEOLWrap_ saved_Attributes saved_TermOutput].
    fold t2. fold t3. unfold settled in J2. by rewrite J2. }
  rewrite Hw. clearbody t'.
  assert (Hb : Buffer page' w = Buffer page' u) by done.
  split; [by apply (adapter_frame u); [done|done|done|apply U1]|]. exists page'.
  assert (Hpos : _cPosition (_cursor (Buffer page' w)) = ClampPositionWithinLine (mk_point (px q) (py q - Top page + Top page')) (Buffer page' t2)).
  { rewrite Hb, U5. unfold CursorOf. rewrite J3. by destruct (IsDelayedEOLWrap (_cursor (Buffer page s))); exact (SetPosition_position _ _). }
  cbv zeta. split_and!; [apply (settled_frame u w); [exact U2|reflexivity|reflexivity]|done| | | | |].
  - unfold GetPosition, CursorOf. rewrite Hpos. unfold ClampPositionWithinLine, GetLineWidth, IsDoubleWidthLine.
    rewrite Hb, U5, J3. done.
  - unfold CursorOf at 1. rewrite Hb, U5. unfold CursorOf. rewrite J3. cbn. by destruct (IsDelayedEOLWrap (_cursor (Buffer page s))).
  - unfold AttributesOf at 1. by rewrite Hb, U5.
  - unfold test_mode. change (_modes w) with (_modes u). rewrite U3, J4. exact Hor.
  - change (_termOutput w) with (RestoreFrom (_termOutput s) (_termOutput u)). rewrite U4, J5, Hout. apply RestoreFrom_restored.
Qed.
End Moves.
