(* ===== verification/CursorReport.v ===== *)
(** * Reports of the presentation state, read back

    The tab stop report restores the tab stops, and the cursor information
    report the cursor. *)

From S2P Require Import Prelude VTTypes TermDispatch StateMachine ParserRoundtrip TextAttribute Graphics TerminalInput InputRoundtrip Charsets TerminalOutput.
From S2P Require Import Cursor Pages Adapter AdapterFacts AdapterMoves AdapterReports Presentation.
#[local] Open Scope Z_scope.

Section Reports.
Context {A R : Type} `{Rows : !RowStorage R} `{Api : !ITerminalApi A R} `{Laws : !TerminalApiLaws A R}.
Abbreviation S_ := (AdaptDispatch A R).
Implicit Types (s t u : S_) (page : Page).

(** ** Tab stops *)

Lemma tab_digits ds : Forall is_digit ds -> forall width column rest s,
  handle_string (ds ++ rest) (RestoringTabs width column) s
  = handle_string rest (RestoringTabs width (accumulate column ds)) s.
Proof.
  induction 1 as [|c ds Hc _ IH]; intros width column rest s; [done|].
  cbn [app handle_string handler_step]. unfold _RestoreTabStops_step. unfold is_digit in Hc. autounfold with chars in Hc.
  rewrite (proj2 (andb_true_iff _ _)) by lia. cbn [obind]. rewrite IH. unfold accumulate. cbn [fold_left].
  rewrite AccumulateTo_min, Z.min_comm. done.
Qed.

(** The stop that a complete number sets. *)
Definition commit (width column : Z) (tabs : list bool) : list bool :=
  if (1 <? column) && (column <=? width) then <[Z.to_nat (column - 1) := true]> tabs else tabs.

Definition with_tabs (tabs : list bool) s : S_ := s <| _tabStopColumns := tabs |>.

Lemma tab_separator width column ch rest s tabs : Z.of_nat (length tabs) = width -> ch = 0x2F \/ ch = ESC ->
  handle_string (ch :: rest) (RestoringTabs width column) (with_tabs tabs s) =
  if ch =? ESC then Done (RestoringTabs width 0, with_tabs (commit width column tabs) s)
  else handle_string rest (RestoringTabs width 0) (with_tabs (commit width column tabs) s).
Proof.
  intros Hl Hch. cbn [handle_string handler_step]. unfold _RestoreTabStops_step, commit.
  assert (Hc : (ch >=? 0x30) && (ch <=? 0x39) = false) by (destruct Hch as [-> | ->]; done).
  assert (Hs : (ch =? 0x2F) || (ch =? ESC) = true) by (destruct Hch as [-> | ->]; done).
  rewrite Hc, Hs. destruct ((1 <? column) && (column <=? width)) eqn:Hr.
  - unfold set_tab_stop. rewrite (proj2 (Z.ltb_ge _ 0)) by lia. unfold array_set, with_tabs. cbn [_tabStopColumns].
    change (_tabStopColumns (s <| _tabStopColumns := tabs |>)) with tabs.
    rewrite (proj2 (Nat.ltb_lt _ _)) by lia. cbn [obind]. by destruct (ch =? ESC).
  - cbn [obind]. by destruct (ch =? ESC).
Qed.

(** The stops that the rest of a report sets. *)
Fixpoint mark (width column : Z) (columns tabs : list bool) : list bool :=
  match columns with
  | [] => tabs
  | stop :: columns => mark width (column + 1) columns (if stop : bool then commit width (column + 1) tabs else tabs)
  end.

Lemma length_commit width column tabs : length (commit width column tabs) = length tabs.
Proof. unfold commit. step_if; [apply length_insert|done]. Qed.

Lemma commit_zero width tabs : commit width 0 tabs = tabs.
Proof. done. Qed.

Lemma tab_report_read width columns : forall column pending (sep : bool) tabs s,
  0 <= column -> column + Z.of_nat (length columns) <= MAX_PARAMETER_VALUE ->
  Z.of_nat (length tabs) = width -> (sep = false -> pending = 0) ->
  exists h, handle_string (tab_stop_list column columns sep ++ [ESC]) (RestoringTabs width pending) (with_tabs tabs s)
    = Done (h, with_tabs (mark width column columns (commit width pending tabs)) s).
Proof.
  induction columns as [|stop columns IH]; intros column pending sep tabs s Hc Hmax Hl Hsep; cbn [tab_stop_list app mark length] in *.
  - rewrite tab_separator by auto. rewrite Z.eqb_refl. by eexists.
  - assert (Hn : 0 <= column + 1 <= MAX_PARAMETER_VALUE) by lia. destruct stop.
    + rewrite format_digits by (unfold MAX_PARAMETER_VALUE in Hn; lia). rewrite <- !app_assoc.
      assert (Hgo : exists h, handle_string (digits (column + 1) ++ tab_stop_list (column + 1) columns true ++ [ESC])
          (RestoringTabs width 0) (with_tabs (commit width pending tabs) s)
        = Done (h, with_tabs (mark width (column + 1) columns (commit width (column + 1) (commit width pending tabs))) s)).
      { rewrite tab_digits, digits_accumulate by (exact Hn || (apply digits_digit; lia)). apply IH; [lia|lia|by rewrite length_commit|done]. }
      destruct sep; [|rewrite (Hsep eq_refl) in Hgo |- *; exact Hgo].
      destruct Hgo as (h & Hgo). exists h. change (wstr "/") with [0x2F]. cbn [app].
      rewrite tab_separator by auto. exact Hgo.
    + apply IH; [lia|lia|done|done].
Qed.

Lemma nth_commit width column tabs k : Z.of_nat (length tabs) = width ->
  nth k (commit width column tabs) false = ((1 <? column) && (column <=? width) && (Z.of_nat k =? column - 1)) || nth k tabs false.
Proof.
  intros Hl. unfold commit. destruct ((1 <? column) && (column <=? width)) eqn:Hr; [|done]. cbn [andb].
  destruct (Z.eqb_spec (Z.of_nat k) (column - 1)) as [He|He].
  - replace k with (Z.to_nat (column - 1)) by lia. rewrite nth_insert_same by lia. done.
  - rewrite nth_insert_other by lia. done.
Qed.

Lemma nth_mark width columns : forall column tabs k, 0 <= column -> column + Z.of_nat (length columns) <= width ->
  Z.of_nat (length tabs) = width ->
  nth k (mark width column columns tabs) false
  = ((column <=? Z.of_nat k) && (1 <=? Z.of_nat k) && nth (k - Z.to_nat column) columns false) || nth k tabs false.
Proof.
  induction columns as [|stop columns IH]; intros column tabs k Hc Hw Hl; cbn [mark length] in *.
  - rewrite andb_comm. by destruct (k - Z.to_nat column)%nat.
  - rewrite IH by (try (destruct stop; rewrite ?length_commit); lia).
    assert (Htabs : nth k (if stop then commit width (column + 1) tabs else tabs) false
      = (stop && (1 <=? Z.of_nat k) && (Z.of_nat k =? column)) || nth k tabs false).
    { destruct stop; [|done]. rewrite nth_commit by done. f_equal. cbn [andb].
      destruct (Z.eqb_spec (Z.of_nat k) (column + 1 - 1)), (Z.eqb_spec (Z.of_nat k) column); try lia; rewrite ?andb_true_r, ?andb_false_r; lia. }
    rewrite Htabs. destruct (Z.lt_trichotomy (Z.of_nat k) column) as [Hk|[Hk|Hk]].
    + rewrite (proj2 (Z.leb_gt (column + 1) _)), (proj2 (Z.leb_gt column _)), (proj2 (Z.eqb_neq _ column)) by lia.
      by destruct stop, (1 <=? Z.of_nat k).
    + replace (k - Z.to_nat column)%nat with 0%nat by lia. rewrite (proj2 (Z.leb_gt (column + 1) _)) by lia.
      rewrite (proj2 (Z.eqb_eq _ _) Hk), (proj2 (Z.leb_le column _)) by lia. cbn [andb orb nth].
      by destruct stop, (1 <=? Z.of_nat k).
    + replace (k - Z.to_nat column)%nat with (S (k - Z.to_nat (column + 1))) by lia.
      rewrite (proj2 (Z.leb_le (column + 1) _)), (proj2 (Z.leb_le column _)), (proj2 (Z.eqb_neq _ column)) by lia.
      cbn [nth]. by destruct stop, (1 <=? Z.of_nat k).
Qed.

Lemma init_tabs width s : 0 <= width ->
  exists tabs, _InitTabStopsForWidth width s = Done (with_tabs tabs s) /\ (Z.to_nat width <= length tabs)%nat.
Proof.
  intros Hw. unfold _InitTabStopsForWidth. rewrite (proj2 (Z.ltb_ge _ 0)) by lia.
  destruct (length (_tabStopColumns s) <? Z.to_nat width)%nat eqn:Hl.
  - eexists. split; [reflexivity|]. destruct (_initDefaultTabStops s); rewrite ?length_imap, length_app, length_replicate; lia.
  - exists (_tabStopColumns s). split; [f_equal; by destruct s|]. apply Nat.ltb_ge in Hl. lia.
Qed.

Lemma init_cleared width s : 0 < width ->
  _InitTabStopsForWidth width (_ClearAllTabStops s)
  = Done (with_tabs (replicate (Z.to_nat width) false) (_ClearAllTabStops s)).
Proof.
  intros Hw. unfold _InitTabStopsForWidth. rewrite (proj2 (Z.ltb_ge _ 0)) by lia. cbn [_tabStopColumns _ClearAllTabStops].
  change (_tabStopColumns (_ClearAllTabStops s)) with (@nil bool). cbn [length app].
  rewrite (proj2 (Nat.ltb_lt _ _)) by lia. by rewrite Nat.sub_0_r.
Qed.

Lemma nth_replicate_false n k : nth k (replicate n false) false = false.
Proof. revert k. induction n as [|n IH]; intros [|k]; cbn; auto. Qed.

Lemma nth_take_false n (l : list bool) k : nth k (take n l) false = ((k <? n)%nat && nth k l false).
Proof.
  rewrite !nth_lookup. destruct (Nat.ltb_spec k n) as [Hk|Hk]; cbn [andb].
  - by rewrite lookup_take_lt.
  - by rewrite lookup_take_ge.
Qed.

(** The tab stop report restores the tab stops.  A terminal answers
    DECRQPSR with a text that, sent back as DECRSPS to a terminal of the same
    width with any tab stops, leaves exactly the stops of the first, up to the
    width and but for the first column, where a tab always stops. *)
Theorem tab_stops_restored s page t page' : adapter_ok s -> settled s page -> adapter_ok t -> settled t page' ->
  Width page' t = Width page s -> Width page s <= MAX_PARAMETER_VALUE ->
  exists s1 text, AdaptDispatch_RequestPresentationStateReport 2 s = Done s1 /\
    _api s1 = api_call (R := R) (ReturnResponse (dcs_response (sends_c1 s) (wstr "2$u" ++ text))) (_api s) /\
    exists h t0 h' t', AdaptDispatch_RestorePresentationState 2 t = Done (Some h, t0) /\
      handle_string (text ++ [ESC]) h t0 = Done (h', t') /\
      forall k, nth k (_tabStopColumns t') false
        = ((1 <=? k) && (k <? Z.to_nat (Width page s)))%nat && nth k (_tabStopColumns s1) false.
Proof.
  intros Hok Hs Hokt Ht Hw Hmax. destruct (page_geometry s page (ok_pages s Hok) (ok_view s Hok) Hs) as [Hw2 _].
  destruct (init_tabs (Width page s) s) as (tabs & Hi & Hl); [lia|]. set (width := Width page s) in *.
  set (cols := take (Z.to_nat width) tabs).
  assert (Hcols : length cols = Z.to_nat width) by (unfold cols; rewrite length_take; lia).
  exists (_ReturnDcsResponse (wstr "2$u" ++ tab_stop_list 0 cols false) (with_tabs tabs s)), (tab_stop_list 0 cols false).
  split_and!.
  - cbn [AdaptDispatch_RequestPresentationStateReport Z.eqb Pos.eqb]. unfold _ReportTabStops. rewrite Hs. fold width. rewrite Hi. done.
  - done.
  - set (W := Z.max width 132). set (t0 := with_tabs (replicate (Z.to_nat W) false) (_ClearAllTabStops t)).
    destruct (tab_report_read W cols 0 0 false (replicate (Z.to_nat W) false) (_ClearAllTabStops t)) as (h' & Hh);
      [done|rewrite Hcols; lia|rewrite length_replicate; lia|done|].
    do 4 eexists. split_and!; [|exact Hh|].
    + cbn [AdaptDispatch_RestorePresentationState Z.eqb Pos.eqb]. unfold _RestoreTabStops. rewrite Ht, Hw. fold width W.
      rewrite init_cleared by lia. done.
    + intros k. cbn [with_tabs _tabStopColumns]. change (_tabStopColumns (with_tabs ?l _)) with l.
      change (_tabStopColumns (_ReturnDcsResponse _ (with_tabs tabs s))) with tabs.
      rewrite commit_zero, nth_mark by (rewrite ?Hcols, ?length_replicate; lia).
      rewrite nth_replicate_false, orb_false_r, Nat.sub_0_r, (proj2 (Z.leb_le 0 _)) by lia. cbn [andb].
      unfold cols. rewrite nth_take_false, andb_assoc. f_equal. f_equal. destruct k; [done|]. apply Z.leb_le. lia.
Qed.
End Reports.

(** * The cursor information report, read back

    The fields of the report, the handler on each of them, and what it
    restores: the page and the place on it, the pending wrap, the origin mode,
    the renditions it covers, and the character sets. *)

From S2P Require Import AttributeFacts CharsetFacts.

(** ** Identifiers of character sets *)

Definition nonzero_byte (c : Z) : Prop := 0 < c < 256.

Lemma id_chars_le s : forall n, Forall nonzero_byte s -> (length s < n)%nat -> id_chars n (le_value s) = s.
Proof.
  induction s as [|c s IH]; intros [|n] Hs Hl; cbn [length] in Hl; try lia; [done|]. inversion_clear Hs as [|? ? Hc Hs'].
  cbn [id_chars le_value]. unfold nonzero_byte in Hc.
  assert (Hland : Z.land (c + 256 * le_value s) 0xFF = c).
  { change 0xFF with (Z.ones 8). rewrite Z.land_ones by lia. change (2 ^ 8) with 256.
    rewrite (Z.mul_comm 256), Z_mod_plus_full. apply Z.mod_small. lia. }
  assert (Hshift : Z.shiftr (c + 256 * le_value s) CHAR_BIT = le_value s).
  { unfold CHAR_BIT. rewrite Z.shiftr_div_pow2 by lia. change (2 ^ 8) with 256.
    rewrite (Z.mul_comm 256), Z.div_add by lia. rewrite Z.div_small by lia. lia. }
  rewrite Hland, Hshift, (proj2 (Z.eqb_neq _ _)) by lia. f_equal. apply IH; [done|lia].
Qed.

(** A designator: intermediates and a final character. *)
Record designator (id : Z) (inters : list Z) (f : Z) : Prop := {
  des_id : id = VTID_FromString (inters ++ [f]);
  des_inters : Forall (fun c => 0x20 <= c <= 0x2F) inters;
  des_final : 0x30 <= f <= 0x7E;
  des_short : (length inters <= 6)%nat;
}.

Lemma designator_bytes id inters f : designator id inters f -> Forall nonzero_byte (inters ++ [f]).
Proof.
  intros [_ H1 H2 _]. apply Forall_app. split; [|repeat constructor; unfold nonzero_byte; lia].
  eapply List.Forall_impl; [|exact H1]. intros c Hc. unfold nonzero_byte. cbn in Hc. lia.
Qed.

Lemma ToString_designator id inters f : designator id inters f -> VTID_ToString id = inters ++ [f].
Proof.
  intros Hd. pose proof (designator_bytes _ _ _ Hd) as Hb. destruct Hd as [-> H1 H2 H3]. unfold VTID_ToString.
  assert (Hl : (length (inters ++ [f]) <= 7)%nat) by (rewrite length_app; cbn; lia).
  rewrite VTID_FromString_le; [apply id_chars_le; [done|lia]| |done].
  eapply List.Forall_impl; [|exact Hb]. intros c Hc. unfold nonzero_byte in Hc. unfold byte. lia.
Qed.

(** ** Character sets *)

(** What the lookups depend on. *)
Definition same_fonts (o o' : TerminalOutput) : Prop :=
  _drcsId o' = _drcsId o /\ _drcsTranslationTable o' = _drcsTranslationTable o /\
  _upssTranslationTable o' = _upssTranslationTable o.

Lemma lookup94_fonts id o o' : same_fonts o o' -> _LookupTranslationTable94 id o' = _LookupTranslationTable94 id o.
Proof. intros (H1 & H2 & H3). unfold _LookupTranslationTable94. by rewrite H1, H2, H3. Qed.

Lemma lookup96_fonts id o o' : same_fonts o o' -> _LookupTranslationTable96 id o' = _LookupTranslationTable96 id o.
Proof. intros (H1 & H2 & H3). unfold _LookupTranslationTable96. by rewrite H1, H2, H3. Qed.

Definition lookup_sized (size96 : bool) (id : Z) (o : TerminalOutput) : View :=
  if size96 then _LookupTranslationTable96 id o else _LookupTranslationTable94 id o.

Lemma lookup_sized_fonts b id o o' : same_fonts o o' -> lookup_sized b id o' = lookup_sized b id o.
Proof. intros H. unfold lookup_sized. destruct b; [by apply lookup96_fonts|by apply lookup94_fonts]. Qed.

(** A designation, seen from the sets. *)
Record designated (n : nat) (id : Z) (table : View) (o o' : TerminalOutput) : Prop := {
  dg_tables : _gsetTranslationTables o' = <[n := table]> (_gsetTranslationTables o);
  dg_ids : _gsetIds o' = <[n := id]> (_gsetIds o);
  dg_numbers : _glSetNumber o' = _glSetNumber o /\ _grSetNumber o' = _grSetNumber o /\ _ssSetNumber o' = _ssSetNumber o;
  dg_fonts : same_fonts o o';
  dg_ok : up_to_date o';
}.

Lemma reapply_numbers o o' : sets_ok o -> reapply_shifts o = Done o' ->
  _gsetTranslationTables o' = _gsetTranslationTables o /\ _gsetIds o' = _gsetIds o /\ _glSetNumber o' = _glSetNumber o /\
  _grSetNumber o' = _grSetNumber o /\ _ssSetNumber o' = _ssSetNumber o /\ same_fonts o o'.
Proof.
  intros Hs. unfold reapply_shifts, LockingShift, LockingShiftRight. rewrite array_at_gset by (done || apply Hs). cbn [obind].
  rewrite (array_at_gset _ (_grSetNumber o)); [|destruct Hs; by split|apply Hs]. cbn [obind]. by intros [= <-].
Qed.

Lemma designate_spec n id t o : sets_ok o -> (n < 4)%nat ->
  exists o', designate n id (Some t) o = Done o' /\ designated n id (Some t) o o'.
Proof.
  intros Hs Hn. pose proof Hs as [H1 H2 H3 H4 H5]. cbn [designate]. rewrite array_set_done by (rewrite H2; done). cbn [obind].
  unfold _SetTranslationTable. rewrite array_set_done by (cbn; rewrite H1; done). cbn [obind].
  set (o1 := _ <| _gsetTranslationTables := _ |>).
  assert (Hs1 : sets_ok o1) by (split; cbn; rewrite ?length_insert; done).
  destruct (reapply_up_to_date o1 Hs1) as (o' & Hr & Hu). exists o'. split; [done|].
  destruct (reapply_numbers o1 o' Hs1 Hr) as (E1 & E2 & E3 & E4 & E5 & E6). by split.
Qed.

(** The two locking shifts. *)
Lemma shift_spec n o : sets_ok o -> (n < 4)%nat ->
  exists o', LockingShift n o = Done o' /\ sets_ok o' /\ _gsetTranslationTables o' = _gsetTranslationTables o /\
    _gsetIds o' = _gsetIds o /\ _glSetNumber o' = n /\ _grSetNumber o' = _grSetNumber o /\ _ssSetNumber o' = _ssSetNumber o /\ same_fonts o o'.
Proof.
  intros Hs Hn. unfold LockingShift. rewrite array_at_gset by done. eexists. split; [reflexivity|].
  destruct Hs. by split_and!.
Qed.

Lemma shift_right_spec n o : sets_ok o -> (n < 4)%nat ->
  exists o', LockingShiftRight n o = Done o' /\ sets_ok o' /\ _gsetTranslationTables o' = _gsetTranslationTables o /\
    _gsetIds o' = _gsetIds o /\ _glSetNumber o' = _glSetNumber o /\ _grSetNumber o' = n /\ _ssSetNumber o' = _ssSetNumber o /\ same_fonts o o'.
Proof.
  intros Hs Hn. unfold LockingShiftRight. rewrite array_at_gset by done. eexists. split; [reflexivity|].
  destruct Hs. by split_and!.
Qed.

(** The four designations of a report. *)
Lemma designate_all o : forall i0 i1 i2 i3 t0 t1 t2 t3, sets_ok o ->
  exists o1 o2 o3 o4,
    designated 0 i0 (Some t0) o o1 /\ designate 0 i0 (Some t0) o = Done o1 /\
    designated 1 i1 (Some t1) o1 o2 /\ designate 1 i1 (Some t1) o1 = Done o2 /\
    designated 2 i2 (Some t2) o2 o3 /\ designate 2 i2 (Some t2) o2 = Done o3 /\
    designated 3 i3 (Some t3) o3 o4 /\ designate 3 i3 (Some t3) o3 = Done o4 /\
    _gsetTranslationTables o4 = [Some t0; Some t1; Some t2; Some t3] /\ _gsetIds o4 = [i0; i1; i2; i3].
Proof.
  intros i0 i1 i2 i3 t0 t1 t2 t3 Hs.
  destruct (designate_spec 0 i0 t0 o Hs) as (o1 & E1 & D1); [lia|].
  destruct (designate_spec 1 i1 t1 o1 (utd_sets _ (dg_ok _ _ _ _ _ D1))) as (o2 & E2 & D2); [lia|].
  destruct (designate_spec 2 i2 t2 o2 (utd_sets _ (dg_ok _ _ _ _ _ D2))) as (o3 & E3 & D3); [lia|].
  destruct (designate_spec 3 i3 t3 o3 (utd_sets _ (dg_ok _ _ _ _ _ D3))) as (o4 & E4 & D4); [lia|].
  exists o1, o2, o3, o4. split_and!; try done.
  - rewrite (dg_tables _ _ _ _ _ D4), (dg_tables _ _ _ _ _ D3), (dg_tables _ _ _ _ _ D2), (dg_tables _ _ _ _ _ D1).
    pose proof (ok_tables o Hs) as Hl. by destruct (_gsetTranslationTables o) as [|? [|? [|? [|? []]]]].
  - rewrite (dg_ids _ _ _ _ _ D4), (dg_ids _ _ _ _ _ D3), (dg_ids _ _ _ _ _ D2), (dg_ids _ _ _ _ _ D1).
    pose proof (ok_ids o Hs) as Hl. by destruct (_gsetIds o) as [|? [|? [|? [|? []]]]].
Qed.

Section Handler.
Context {A R : Type} `{Rows : !RowStorage R} `{Api : !ITerminalApi A R} `{Laws : !TerminalApiLaws A R}.
Abbreviation S_ := (AdaptDispatch A R).
Implicit Types (s t u : S_) (page : Page) (st : State).
Abbreviation feed chars st s := (handle_string chars (RestoringCursor st) s).

(** ** The fields *)

Lemma report_cons c rest st s : feed (c :: rest) st s =
  let* (st, s, more) := _RestoreCursorInformation_step c st s in
  if more : bool then feed rest st s else Done (RestoringCursor st, s).
Proof. cbn [handle_string handler_step]. by destruct (_RestoreCursorInformation_step c st s) as [[[st' s'] more]| | |]. Qed.

Lemma feed_digits ds : Forall is_digit ds -> forall st rest s, modes_test Field.numeric (field st) = true ->
  feed (ds ++ rest) st s = feed rest (st <| value := accumulate (value st) ds |>) s.
Proof.
  induction 1 as [|c ds Hc _ IH]; intros st rest s Hf; [by destruct st|].
  cbn [app]. rewrite report_cons. unfold _RestoreCursorInformation_step. rewrite Hf.
  unfold is_digit in Hc. autounfold with chars in Hc. rewrite (proj2 (andb_true_iff _ _)) by lia. cbn [obind].
  assert (He : (c =? ESC) = false) by (unfold ESC; lia). rewrite He. cbn [negb]. rewrite IH by done.
  unfold accumulate. cbn [fold_left]. rewrite AccumulateTo_min, Z.min_comm. by destruct st.
Qed.

(** A number and its semicolon. *)
Lemma feed_number v st rest s : 0 <= v <= MAX_PARAMETER_VALUE -> value st = 0 -> modes_test Field.numeric (field st) = true ->
  feed (format_int v ++ wstr ";" ++ rest) st s = let* (st, s) := end_numeric (st <| value := v |>) s in feed rest st s.
Proof.
  intros Hv H0 Hf. rewrite format_digits by (unfold MAX_PARAMETER_VALUE in Hv; lia).
  rewrite feed_digits, H0, digits_accumulate by (try done; apply digits_digit; lia).
  change (wstr ";") with [0x3B]. cbn [app]. rewrite report_cons. unfold _RestoreCursorInformation_step.
  change (field (st <| value := v |>)) with (field st). rewrite Hf. cbn [Z.geb Z.leb Z.compare andb orb Z.eqb].
  change (0x3B =? ESC) with false. change ((0x3B >=? 0x30) && (0x3B <=? 0x39)) with false. change (0x3B =? 0x3B) with true.
  cbn [orb]. by destruct (end_numeric _ s) as [[st' s']| | |].
Qed.

(** A flag character and its semicolon. *)
Lemma feed_flags ch st rest s : 0x40 <= ch <= 0x7E -> value st = 0 -> modes_test Field.numeric (field st) = false ->
  modes_test Field.flags (field st) = true ->
  feed ([ch] ++ wstr ";" ++ rest) st s =
  let '(st1, s1) := start_flags ch st s in feed rest (st1 <| value := 0 |> <| field := field st1 + 1 |>) s1.
Proof.
  intros Hc H0 Hn Hf. change (wstr ";") with [0x3B]. cbn [app]. rewrite report_cons.
  unfold _RestoreCursorInformation_step. rewrite Hn, Hf, H0, (proj2 (andb_true_iff _ _)) by (split; [apply andb_true_iff; lia|done]).
  cbn [obind]. assert (He : (ch =? ESC) = false) by (unfold ESC; lia). rewrite He. cbn [negb].
  assert (Hfield : field (fst (start_flags ch st s)) = field st) by (unfold start_flags; cbn; by repeat case_match).
  assert (Hval : value (fst (start_flags ch st s)) = ch) by (unfold start_flags; cbn; by repeat case_match).
  destruct (start_flags ch st s) as [st1 s1]. cbn [fst obind] in *.
  rewrite report_cons. unfold _RestoreCursorInformation_step. rewrite Hfield, Hn, Hf, Hval.
  rewrite (proj2 (Z.eqb_neq ch 0)) by lia. rewrite andb_false_r. change (0x3B =? 0x3B) with true. cbn [obind].
  by change (0x3B =? ESC) with false.
Qed.

(** The designator of a set. *)
Lemma feed_charset id inters f st rest s : designator id inters f -> charsetId st = VTIDBuilder_Clear ->
  modes_test Field.numeric (field st) = false -> modes_test Field.flags (field st) = false ->
  modes_test Field.charset (field st) = true ->
  feed (VTID_ToString id ++ rest) st s =
  let* size96 := array_at (charset96 st) (Z.to_nat (field st - Field.G0)) in
  let* s := if size96 : bool then AdaptDispatch_Designate96Charset (field st - Field.G0) id s
            else AdaptDispatch_Designate94Charset (field st - Field.G0) id s in
  feed rest (st <| charsetId := VTIDBuilder_Clear |> <| field := field st + 1 |>) s.
Proof.
  intros Hd Hclear Hn Hf Hch. rewrite (ToString_designator _ _ _ Hd). destruct Hd as [-> Hi Hfin Hl].
  assert (Hgen : forall pre st, Forall (fun c => 0x20 <= c <= 0x2F) pre ->
     modes_test Field.numeric (field st) = false -> modes_test Field.flags (field st) = false ->
     modes_test Field.charset (field st) = true ->
     feed (pre ++ [f] ++ rest) st s
     = feed ([f] ++ rest) (st <| charsetId := fold_left (fun b c => AddIntermediate c b) pre (charsetId st) |>) s).
  { clear Hi Hclear Hn Hf Hch Hl st inters. intros pre. induction pre as [|c pre IH]; intros st Hp Hn Hf Hch; [by destruct st|].
    inversion_clear Hp as [|? ? Hc Hp']. cbn [app]. rewrite report_cons. unfold _RestoreCursorInformation_step.
    rewrite Hn, Hf, Hch, (proj2 (andb_true_iff _ _)) by lia. cbn [obind].
    assert (He : (c =? ESC) = false) by (unfold ESC; lia). rewrite He. cbn [negb fold_left]. rewrite IH by done. by destruct st. }
  rewrite <- app_assoc, (Hgen inters st Hi Hn Hf Hch), Hclear. clear Hgen.
  set (st' := st <| charsetId := _ |>). cbn [app]. rewrite report_cons. unfold _RestoreCursorInformation_step.
  change (field st') with (field st). rewrite Hn, Hf, Hch.
  assert (Hf1 : (f >=? 0x20) && (f <=? 0x2F) = false) by lia. assert (Hf2 : (f >=? 0x30) && (f <=? 0x7E) = true) by lia.
  rewrite Hf1, Hf2. assert (He : (f =? ESC) = false) by (unfold ESC; lia). rewrite He. unfold end_charset.
  change (charset96 st') with (charset96 st). change (field st') with (field st).
  change (charsetId st') with (fold_left (fun b c => AddIntermediate c b) inters VTIDBuilder_Clear).
  rewrite Finalize_FromString.
  - destruct (array_at _ _) as [b| | |]; cbn [obind]; try done.
    set (o := if b : bool then _ else _). by destruct o.
  - eapply List.Forall_impl; [|exact Hi]. intros c Hc. unfold byte. cbn in Hc. lia.
  - done.
  - unfold byte. lia.
Qed.
(** ** The fields of the sets *)

Definition with_sets (o : TerminalOutput) s : S_ := s <| _termOutput := o |>.

(** The characters for the sets in a report. *)
Definition set_fields (gl gr : nat) (sizes : Z) (ids : list Z) : list Z :=
  format_int (Z.of_nat gl) ++ wstr ";" ++ format_int (Z.of_nat gr) ++ wstr ";" ++ [sizes] ++ wstr ";" ++ ids.

Definition sized (t : Table) : bool := charset_size (Some t) =? 96.
Definition size_char (t0 t1 t2 t3 : Table) : Z :=
  0x40 + bit (sized t0) 1 + bit (sized t1) 2 + bit (sized t2) 4 + bit (sized t3) 8.

Lemma designate_sized n (b : bool) id s (tb : Table) : (n < 4)%nat -> lookup_sized b id (_termOutput s) = Some tb ->
  (if b then AdaptDispatch_Designate96Charset (Z.of_nat n) id s else AdaptDispatch_Designate94Charset (Z.of_nat n) id s)
  = let* o := designate n id (Some tb) (_termOutput s) in Done (with_sets o s).
Proof.
  intros Hn Hl. unfold AdaptDispatch_Designate96Charset, AdaptDispatch_Designate94Charset, on_sets,
    TerminalOutput.Designate96Charset, TerminalOutput.Designate94Charset. rewrite Nat2Z.id.
  unfold lookup_sized in Hl. destruct b; by rewrite Hl.
Qed.

Lemma size_char_bits (t0 t1 t2 t3 : Table) :
  [has_bit (size_char t0 t1 t2 t3) 1; has_bit (size_char t0 t1 t2 t3) 2; has_bit (size_char t0 t1 t2 t3) 4; has_bit (size_char t0 t1 t2 t3) 8]
  = [sized t0; sized t1; sized t2; sized t3] /\ 0x40 <= size_char t0 t1 t2 t3 <= 0x7E.
Proof. unfold size_char. destruct (sized t0), (sized t1), (sized t2), (sized t3); by vm_compute. Qed.

(** The handler in a given field, with no number pending. *)
Definition at_field (f : Z) (c96 : list bool) (r c : Z) : State := mk_State f 0 VTIDBuilder_Clear c96 r c.

Lemma feed_gl n c96 r c rest s o : (n < 4)%nat -> LockingShift n (_termOutput s) = Done o ->
  feed (format_int (Z.of_nat n) ++ wstr ";" ++ rest) (at_field Field.GL c96 r c) s
  = feed rest (at_field Field.GR c96 r c) (with_sets o s).
Proof.
  intros Hn Ho. rewrite feed_number by (try done; unfold MAX_PARAMETER_VALUE; lia). unfold end_numeric. cbn [field value at_field].
  change (value ((at_field Field.GL c96 r c) <| value := ?v |>)) with v.
  change (field ((at_field Field.GL c96 r c) <| value := _ |>)) with Field.GL.
  cbn [Field.GL Field.Row Field.Column Field.Page Z.eqb Pos.eqb andb]. rewrite (proj2 (Z.leb_le _ 3)) by lia.
  unfold AdaptDispatch_LockingShift, on_sets. rewrite Nat2Z.id, Ho. done.
Qed.

Lemma feed_gr n c96 r c rest s o : (n < 4)%nat -> LockingShiftRight n (_termOutput s) = Done o ->
  feed (format_int (Z.of_nat n) ++ wstr ";" ++ rest) (at_field Field.GR c96 r c) s
  = feed rest (at_field Field.Sizes c96 r c) (with_sets o s).
Proof.
  intros Hn Ho. rewrite feed_number by (try done; unfold MAX_PARAMETER_VALUE; lia). unfold end_numeric.
  change (value ((at_field Field.GR c96 r c) <| value := ?v |>)) with v.
  change (field ((at_field Field.GR c96 r c) <| value := _ |>)) with Field.GR.
  cbn [Field.GR Field.GL Field.Row Field.Column Field.Page Z.eqb Pos.eqb andb]. rewrite (proj2 (Z.leb_le _ 3)) by lia.
  unfold AdaptDispatch_LockingShiftRight, on_sets. rewrite Nat2Z.id, Ho. done.
Qed.

Lemma feed_sizes (t0 t1 t2 t3 : Table) c96 r c rest s :
  feed ([size_char t0 t1 t2 t3] ++ wstr ";" ++ rest) (at_field Field.Sizes c96 r c) s
  = feed rest (at_field Field.G0 [sized t0; sized t1; sized t2; sized t3] r c) s.
Proof.
  destruct (size_char_bits t0 t1 t2 t3) as [Hb Hr]. rewrite feed_flags by done.
  rewrite <- Hb. by destruct (at_field Field.Sizes c96 r c) eqn:E; injection E as <- <- <- <- <- <-.
Qed.

Lemma feed_gset n id p (tb : Table) c96 r c rest s o : (n < 4)%nat -> designator id (fst p) (snd p) ->
  nth n c96 false = sized tb -> length c96 = 4%nat -> lookup_sized (sized tb) id (_termOutput s) = Some tb ->
  designate n id (Some tb) (_termOutput s) = Done o ->
  feed (VTID_ToString id ++ rest) (at_field (Field.G0 + Z.of_nat n) c96 r c) s
  = feed rest (at_field (Field.G0 + Z.of_nat (S n)) c96 r c) (with_sets o s).
Proof.
  intros Hn Hd Hc Hl Hlook Ho.
  assert (Hfields : forall k, (k < 4)%nat -> modes_test Field.numeric (Field.G0 + Z.of_nat k) = false /\
    modes_test Field.flags (Field.G0 + Z.of_nat k) = false /\ modes_test Field.charset (Field.G0 + Z.of_nat k) = true)
    by (intros [|[|[|[|k]]]] Hk; try lia; by vm_compute).
  destruct (Hfields n Hn) as (F1 & F2 & F3). rewrite (feed_charset id (fst p) (snd p)) by done. cbn [field charset96 at_field].
  replace (Field.G0 + Z.of_nat n - Field.G0) with (Z.of_nat n) by lia. rewrite Nat2Z.id.
  assert (Hat : c96 !! n = Some (sized tb)).
  { destruct (lookup_lt_is_Some_2 c96 n) as [x Hx]; [lia|]. rewrite Hx. f_equal. rewrite <- Hc. symmetry. by apply nth_lookup_Some. }
  unfold array_at. rewrite Hat.
  cbn [obind]. rewrite (designate_sized n (sized tb) id s tb) by done. rewrite Ho. cbn [obind].
  unfold at_field. cbn. by rewrite Z.add_1_r, <- Z.add_succ_r, <- Nat2Z.inj_succ.
Qed.

Lemma feed_sets (o : TerminalOutput) i0 i1 i2 i3 p0 p1 p2 p3 (t0 t1 t2 t3 : Table) st s :
  sets_ok o -> _gsetTranslationTables o = [Some t0; Some t1; Some t2; Some t3] -> _gsetIds o = [i0; i1; i2; i3] ->
  designator i0 (fst p0) (snd p0) -> designator i1 (fst p1) (snd p1) -> designator i2 (fst p2) (snd p2) -> designator i3 (fst p3) (snd p3) ->
  lookup_sized (sized t0) i0 o = Some t0 -> lookup_sized (sized t1) i1 o = Some t1 ->
  lookup_sized (sized t2) i2 o = Some t2 -> lookup_sized (sized t3) i3 o = Some t3 ->
  sets_ok (_termOutput s) -> same_fonts o (_termOutput s) ->
  field st = Field.GL -> value st = 0 -> charsetId st = VTIDBuilder_Clear ->
  exists h o', feed (set_fields (_glSetNumber o) (_grSetNumber o) (size_char t0 t1 t2 t3)
                       (VTID_ToString i0 ++ VTID_ToString i1 ++ VTID_ToString i2 ++ VTID_ToString i3) ++ [ESC]) st s
      = Done (h, with_sets o' s) /\
    up_to_date o' /\ _gsetTranslationTables o' = _gsetTranslationTables o /\ _gsetIds o' = _gsetIds o /\
    _glSetNumber o' = _glSetNumber o /\ _grSetNumber o' = _grSetNumber o /\ _ssSetNumber o' = _ssSetNumber (_termOutput s).
Proof.
  intros Ho Htab Hids D0 D1 D2 D3 L0 L1 L2 L3 Hs Hf Hfield Hval Hid. unfold set_fields. rewrite <- !app_assoc.
  pose proof (ok_gl o Ho) as Hgl. pose proof (ok_gr o Ho) as Hgr.
  destruct (shift_spec (_glSetNumber o) (_termOutput s) Hs Hgl) as (oa & Ea & Sa & A1 & A2 & A3 & A4 & A5 & A6).
  destruct (shift_right_spec (_grSetNumber o) oa Sa Hgr) as (ob & Eb & Sb & B1 & B2 & B3 & B4 & B5 & B6).
  destruct (designate_all ob i0 i1 i2 i3 t0 t1 t2 t3 Sb) as (o1 & o2 & o3 & o4 & G1 & E1 & G2 & E2 & G3 & E3 & G4 & E4 & T4 & I4).
  assert (Hfb : same_fonts o ob) by (unfold same_fonts in *; intuition congruence).
  assert (F1 : same_fonts o o1) by (pose proof (dg_fonts _ _ _ _ _ G1); unfold same_fonts in *; intuition congruence).
  assert (F2 : same_fonts o o2) by (pose proof (dg_fonts _ _ _ _ _ G2); unfold same_fonts in *; intuition congruence).
  assert (F3 : same_fonts o o3) by (pose proof (dg_fonts _ _ _ _ _ G3); unfold same_fonts in *; intuition congruence).
  assert (Hst : st = at_field Field.GL (charset96 st) (row st) (column st)) by (destruct st; cbn in *; by subst).
  rewrite Hst, (feed_gl _ _ _ _ _ s oa Hgl Ea), (feed_gr _ _ _ _ _ (with_sets oa s) ob Hgr Eb), feed_sizes.
  set (c96 := [sized t0; sized t1; sized t2; sized t3]).
  change (with_sets ob (with_sets oa s)) with (with_sets ob s).
  rewrite (feed_gset 0 i0 p0 t0 c96 _ _ _ (with_sets ob s) o1), (feed_gset 1 i1 p1 t1 c96 _ _ _ (with_sets o1 s) o2),
    (feed_gset 2 i2 p2 t2 c96 _ _ _ (with_sets o2 s) o3), (feed_gset 3 i3 p3 t3 c96 _ _ _ (with_sets o3 s) o4);
    try done; try lia; try (change (_termOutput (with_sets ?x _)) with x; by rewrite (lookup_sized_fonts _ _ o)).
  rewrite report_cons. do 2 eexists. split; [reflexivity|].
  pose proof (dg_numbers _ _ _ _ _ G1) as (N1 & N2 & N3). pose proof (dg_numbers _ _ _ _ _ G2) as (N4 & N5 & N6).
  pose proof (dg_numbers _ _ _ _ _ G3) as (N7 & N8 & N9). destruct (dg_numbers _ _ _ _ _ G4) as (N10 & N11 & N12).
  split_and!; [apply G4|congruence..].
Qed.
End Handler.
