(* ===== verification/CursorRestore.v ===== *)
(** * The cursor information report restores the cursor

    DECCIR, the answer to DECRQPSR, sent back as DECRSPS: the fields before
    the character sets, and the round trip of the whole report. *)

From S2P Require Import Prelude VTTypes TermDispatch StateMachine ParserRoundtrip TextAttribute AttributeFacts Graphics TerminalInput InputFacts InputRoundtrip Charsets TerminalOutput CharsetFacts.
From S2P Require Import Cursor Pages Adapter AdapterFacts AdapterMoves AdapterReports Presentation CursorReport.
#[local] Open Scope Z_scope.

(** ** Renditions *)

(** The renditions that the report covers. *)
Record same_renditions (a a' : TextAttribute) : Prop := {
  sr_intense : IsIntense a' = IsIntense a;
  sr_underlined : IsUnderlined a' = IsUnderlined a;
  sr_blinking : IsBlinking a' = IsBlinking a;
  sr_reverse : IsReverseVideo a' = IsReverseVideo a;
  sr_invisible : IsInvisible a' = IsInvisible a;
  sr_protected : IsProtected a' = IsProtected a;
}.

Lemma rendition_flags_bits a :
  let v := rendition_flags a in
  has_bit v 1 = IsIntense a /\ has_bit v 2 = IsUnderlined a /\ has_bit v 4 = IsBlinking a /\
  has_bit v 8 = IsReverseVideo a /\ has_bit v 16 = IsInvisible a /\ 0x40 <= v <= 0x7E.
Proof.
  cbv zeta. unfold rendition_flags. destruct (IsIntense a), (IsUnderlined a), (IsBlinking a), (IsReverseVideo a), (IsInvisible a);
    by vm_compute.
Qed.

Lemma underlined_other a a' : (forall m, 6 <= m <= 8 -> Z.testbit (_attrs a) m = Z.testbit (_attrs a') m) ->
  IsUnderlined a = IsUnderlined a'.
Proof. intros H. unfold IsUnderlined. by rewrite (underline_other a a'). Qed.

#[local] Ltac attr_bits :=
  rewrite ?IsIntense_bit, ?IsBlinking_bit, ?IsReverseVideo_bit, ?IsInvisible_bit, ?IsProtected_bit;
  rewrite ?SetProtected_bit, ?SetInvisible_bit, ?SetReverseVideo_bit, ?SetBlinking_bit, ?underline_style_bit, ?SetIntense_bit by lia;
  cbn [Z.eqb Pos.eqb Z.leb Z.compare Pos.compare Pos.compare_cont andb].

Lemma renditions_read a b :
  same_renditions a (SetProtected (IsProtected a) (rendition_from_flags (rendition_flags a) b)).
Proof.
  destruct (rendition_flags_bits a) as (E1 & E2 & E3 & E4 & E5 & _). unfold rendition_from_flags. rewrite E1, E2, E3, E4, E5.
  set (style := if IsUnderlined a then _ else _).
  assert (Hst : 0 <= style < 8) by (unfold style; by step_if).
  split; try (by attr_bits).
  rewrite (underlined_other _ (SetUnderlineStyle style (SetIntense (IsIntense a) b))).
  - unfold IsUnderlined at 1. rewrite underline_set_get by done. unfold style. by destruct (IsUnderlined a).
  - intros m Hm. rewrite SetProtected_bit, SetInvisible_bit, SetReverseVideo_bit, SetBlinking_bit by lia.
    rewrite !(proj2 (Z.eqb_neq m _)) by lia. done.
Qed.

(** ** The fields before the sets *)

Section Restore.
Context {A R : Type} `{Rows : !RowStorage R} `{Api : !ITerminalApi A R} `{Laws : !TerminalApiLaws A R}.
Abbreviation S_ := (AdaptDispatch A R).
Implicit Types (s t u : S_) (page : Page) (st : State).
Abbreviation feed chars st s := (handle_string chars (RestoringCursor st) s).

Definition head_fields (r c n sgr attr flags : Z) : list Z :=
  format_int r ++ wstr ";" ++ format_int c ++ wstr ";" ++ format_int n ++ wstr ";" ++ [sgr] ++ wstr ";" ++ [attr]
  ++ wstr ";" ++ [flags] ++ wstr ";".

Definition after_head (r c n sgr attr flags : Z) t : S_ :=
  apply_flags ((at_field Field.Flags [false; false; false; false] r c) <| value := flags |>)
    (change_attributes (SetProtected (has_bit attr 1))
      (change_attributes (rendition_from_flags sgr) (AdaptDispatch_PagePositionAbsolute n t))).

(** Each field, in the state that the previous one leaves. *)
Lemma feed_row v c96 r c rest s : 0 <= v <= MAX_PARAMETER_VALUE ->
  feed (format_int v ++ wstr ";" ++ rest) (at_field Field.Row c96 r c) s = feed rest (at_field Field.Column c96 v c) s.
Proof. intros Hv. by rewrite feed_number. Qed.

Lemma feed_column v c96 r c rest s : 0 <= v <= MAX_PARAMETER_VALUE ->
  feed (format_int v ++ wstr ";" ++ rest) (at_field Field.Column c96 r c) s = feed rest (at_field Field.Page c96 r v) s.
Proof. intros Hv. by rewrite feed_number. Qed.

Lemma feed_page v c96 r c rest s : 0 <= v <= MAX_PARAMETER_VALUE ->
  feed (format_int v ++ wstr ";" ++ rest) (at_field Field.Page c96 r c) s
  = feed rest (at_field Field.SGR c96 r c) (AdaptDispatch_PagePositionAbsolute v s).
Proof. intros Hv. by rewrite feed_number. Qed.

Lemma feed_sgr ch c96 r c rest s : 0x40 <= ch <= 0x7E ->
  feed ([ch] ++ wstr ";" ++ rest) (at_field Field.SGR c96 r c) s
  = feed rest (at_field Field.Attr c96 r c) (change_attributes (rendition_from_flags ch) s).
Proof. intros Hv. by rewrite feed_flags. Qed.

Lemma feed_attr ch c96 r c rest s : 0x40 <= ch <= 0x7E ->
  feed ([ch] ++ wstr ";" ++ rest) (at_field Field.Attr c96 r c) s
  = feed rest (at_field Field.Flags c96 r c) (change_attributes (SetProtected (has_bit ch 1)) s).
Proof. intros Hv. by rewrite feed_flags. Qed.

Lemma feed_wrap ch c96 r c rest s : 0x40 <= ch <= 0x7E ->
  feed ([ch] ++ wstr ";" ++ rest) (at_field Field.Flags c96 r c) s
  = feed rest (at_field Field.GL c96 r c) (apply_flags ((at_field Field.Flags c96 r c) <| value := ch |>) s).
Proof. intros Hv. by rewrite feed_flags. Qed.

Lemma feed_head r c n sgr attr flags rest t :
  0 <= r <= MAX_PARAMETER_VALUE -> 0 <= c <= MAX_PARAMETER_VALUE -> 0 <= n <= MAX_PARAMETER_VALUE ->
  0x40 <= sgr <= 0x7E -> 0x40 <= attr <= 0x7E -> 0x40 <= flags <= 0x7E ->
  feed (head_fields r c n sgr attr flags ++ rest) new_State t
  = feed rest (at_field Field.GL [false; false; false; false] r c) (after_head r c n sgr attr flags t).
Proof.
  intros Hr Hc Hn H1 H2 H3. unfold head_fields. rewrite <- !app_assoc.
  change new_State with (at_field Field.Row [false; false; false; false] VTParameter_default VTParameter_default).
  by rewrite feed_row, feed_column, feed_page, feed_sgr, feed_attr, feed_wrap.
Qed.

(** ** What the fields leave *)

(** The state that the attributes and flags of a report do not touch. *)
Record same_setting s u : Prop := {
  ss_margins : _scrollMargins u = _scrollMargins s;
  ss_output : _termOutput u = _termOutput s;
  ss_modes : _modes u = _modes s;
}.

Lemma attributes_spec f t page : adapter_ok t -> settled t page ->
  let u := change_attributes f t in
  adapter_ok u /\ settled u page /\ same_setting t u /\
  Buffer page u = (Buffer page t) <| _currentAttributes := f (AttributesOf page t) |>.
Proof.
  intros Hok Hs. cbv zeta. unfold change_attributes, SetAttributes. rewrite Hs. set (b := _ <| _currentAttributes := _ |>).
  destruct (ok_cursor t Hok) as (p0 & Hs0 & Hc). unfold settled in Hs, Hs0. rewrite Hs in Hs0. injection Hs0 as <-.
  destruct (adapter_set_buffer t page b Hok Hs) as (H1 & H2 & H3 & H4); [done|done|exact Hc|].
  destruct (set_buffer_frame page b t) as (F1 & F2 & _). by split_and!.
Qed.

Lemma report_position_eq page s : settled s page ->
  let h := home page (Width page s) (_scrollMargins s) (test_mode AdaptMode.Origin s) in
  let q := GetPosition (CursorOf page s) in
  exists m, report_position page s = (s <| _scrollMargins := m |>, mk_point (px q - px h + 1) (py q - py h + 1)).
Proof.
  intros Hs. cbv zeta. destruct (relative_position_eq page s Hs) as (m & Hm). exists m.
  unfold relative_position, report_position in *. destruct (test_mode AdaptMode.Origin s).
  - destruct (_GetHorizontalMargins (Width page s) s) as [s1 [l r]]. destruct (_GetVerticalMargins page false s1) as [s2 [t0 b0]].
    pose proof (f_equal fst Hm) as H0. pose proof (f_equal (px ∘ snd) Hm) as H1. pose proof (f_equal (py ∘ snd) Hm) as H2.
    cbn in H0, H1, H2. rewrite H0. f_equal. cbn. f_equal; lia.
  - pose proof (f_equal fst Hm) as H0. pose proof (f_equal (px ∘ snd) Hm) as H1. pose proof (f_equal (py ∘ snd) Hm) as H2.
    cbn in H0, H1, H2. rewrite <- H0. f_equal. unfold home. cbn [px py]. f_equal; unfold GetPosition, CursorOf in *; lia.
Qed.

(** The position in a report is a parameter that can be read back. *)
Lemma reported_range s page : adapter_ok s -> settled s page ->
  Width page s <= MAX_PARAMETER_VALUE -> Height page <= MAX_PARAMETER_VALUE ->
  let q := GetPosition (CursorOf page s) in let origin := test_mode AdaptMode.Origin s in
  (origin = true -> inside page (Width page s) (_scrollMargins s) q) ->
  let h := home page (Width page s) (_scrollMargins s) origin in
  1 <= py q - py h + 1 <= MAX_PARAMETER_VALUE /\ 1 <= px q - px h + 1 <= MAX_PARAMETER_VALUE.
Proof.
  intros Hok Hs Hw Hh q origin Hin h. destruct (ok_cursor s Hok) as (p0 & Hs0 & Hc). unfold settled in Hs, Hs0.
  rewrite Hs in Hs0. injection Hs0 as <-. destruct Hc as [Hx Hy]. fold q in Hx, Hy.
  destruct (page_geometry s page (ok_pages s Hok) (ok_view s Hok) Hs) as [Hw2 Hh2].
  pose proof (margin_rows_range (Height page) (_scrollMargins s)) as Hmr. pose proof (margin_columns_range (Width page s) (_scrollMargins s)) as Hmc.
  unfold h, home, inside, Height in *. destruct origin; cbn [px py].
  - specialize (Hin eq_refl). specialize (Hmr ltac:(lia) (ok_margins s Hok)). specialize (Hmc ltac:(lia) (ok_margins s Hok)). lia.
  - lia.
Qed.

(** ** The round trip *)

(** A terminal with the same window: the size of its pages, and the margins. *)
Record same_window s t : Prop := {
  sw_main : isMainBuffer (GetBufferAndViewport (R := R) (_api t)) = isMainBuffer (GetBufferAndViewport (R := R) (_api s));
  sw_width : rect_width (viewport (GetBufferAndViewport (R := R) (_api t))) = rect_width (viewport (GetBufferAndViewport (R := R) (_api s)));
  sw_height : rect_height (viewport (GetBufferAndViewport (R := R) (_api t))) = rect_height (viewport (GetBufferAndViewport (R := R) (_api s)));
  sw_margins : _scrollMargins t = _scrollMargins s;
}.

(** A set that its identifier designates again. *)
Definition restorable_set (o : TerminalOutput) (n : nat) : Prop :=
  exists (tb : Table) id inters f, _gsetTranslationTables o !! n = Some (Some tb) /\ _gsetIds o !! n = Some id /\
    designator id inters f /\ lookup_sized (sized tb) id o = Some tb.

Record restorable_sets (o : TerminalOutput) : Prop := {
  rs_sets : sets_ok o;
  rs_each : forall n, (n < 4)%nat -> restorable_set o n;
}.

Lemma wrap_flags_bits origin o wrap :
  let v := wrap_flags origin o wrap in
  has_bit v 1 = origin /\ has_bit v 2 = IsSingleShiftPending 2 o /\ has_bit v 4 = IsSingleShiftPending 3 o /\
  has_bit v 8 = wrap /\ 0x40 <= v <= 0x7E.
Proof.
  cbv zeta. unfold wrap_flags. destruct origin, (IsSingleShiftPending 2 o), (IsSingleShiftPending 3 o), wrap; by vm_compute.
Qed.

(** The page that the report names, in another terminal. *)
Lemma page_restored s page t : adapter_ok s -> settled s page -> adapter_ok t -> same_window s t ->
  let u := AdaptDispatch_PagePositionAbsolute (page_number page) t in
  adapter_ok u /\ same_setting t u /\ exists page', settled u page' /\ page_number page' = page_number page /\
    Width page' u = Width page s /\ Height page' = Height page.
Proof.
  intros Hok Hs Hokt [R2 R3 R4 R5]. cbv zeta. set (u := AdaptDispatch_PagePositionAbsolute _ t).
  destruct (page_position_spec (page_number page) t Hokt) as (Hmv & M1 & M2 & M3 & M4). fold u in Hmv, M1, M2, M3, M4.
  pose proof (mv_ok _ _ Hmv) as Hok2. split_and!; [done|by split|].
  destruct (ok_cursor u Hok2) as (page' & Hs2 & _). exists page'.
  destruct (settled_size s page Hok Hs) as [W1 W2]. destruct (settled_size u page' Hok2 Hs2) as [W3 W4].
  rewrite (mv_viewport _ _ Hmv) in W3, W4. split_and!; [done| |congruence|congruence].
  rewrite (settled_number _ _ Hok2 Hs2), (settled_number _ _ Hok Hs), (mv_main _ _ Hmv), R2.
  destruct (isMainBuffer (GetBufferAndViewport (R := R) (_api s))) eqn:Hm; [|done].
  rewrite M4, (settled_number _ _ Hok Hs), Hm by exact R2. pose proof (pages_active _ (ok_pages s Hok)).
  unfold clampPage, MAX_PAGES. lia.
Qed.

(** What is restored, but for the character sets. *)
Record cursor_restored_to s page t page' : Prop := {
  cr_ok : adapter_ok t;
  cr_settled : settled t page';
  cr_number : page_number page' = page_number page;
  cr_position : GetPosition (CursorOf page' t)
    = ClampPositionWithinLine (mk_point (px (GetPosition (CursorOf page s))) (py (GetPosition (CursorOf page s)) - Top page + Top page'))
        (Buffer page' t);
  cr_wrap : IsDelayedEOLWrap (CursorOf page' t) = IsDelayedEOLWrap (CursorOf page s);
  cr_renditions : same_renditions (AttributesOf page s) (AttributesOf page' t);
  cr_origin : test_mode AdaptMode.Origin t = test_mode AdaptMode.Origin s;
}.

(** The flags move the cursor. *)
Lemma flags_applied s page t page' r c : adapter_ok s -> settled s page -> adapter_ok t -> settled t page' ->
  Width page' t = Width page s -> Height page' = Height page -> _scrollMargins t = _scrollMargins s ->
  page_number page' = page_number page -> same_renditions (AttributesOf page s) (AttributesOf page' t) ->
  let q := GetPosition (CursorOf page s) in let origin := test_mode AdaptMode.Origin s in
  (origin = true -> inside page (Width page s) (_scrollMargins s) q) ->
  let h := home page (Width page s) (_scrollMargins s) origin in
  sets_ok (_termOutput s) -> r = py q - py h + 1 -> c = px q - px h + 1 -> 1 <= r -> 1 <= c ->
  let flags := wrap_flags origin (_termOutput s) (IsDelayedEOLWrap (CursorOf page s)) in
  let st := (at_field Field.Flags [false; false; false; false] r c) <| value := flags |> in
  let u := apply_flags st t in
  cursor_restored_to s page u page' /\ _termOutput u = SingleShift (_ssSetNumber (_termOutput s)) (_termOutput t).
Proof.
  intros Hok Hs Hokt Hst Hw Hh Hmg Hnum Hattr q origin Hin h Hss Hr Hc Hr1 Hc1 flags st u.
  destruct (wrap_flags_bits origin (_termOutput s) (IsDelayedEOLWrap (CursorOf page s))) as (B1 & B2 & B3 & B4 & _). fold flags in B1, B2, B3, B4.
  unfold u, apply_flags. change (value st) with flags. rewrite B1, B2, B3, B4. change (row st) with r. change (column st) with c.
  assert (Hr' : as_VTInt r = r) by (unfold as_VTInt; step_if; lia). assert (Hc' : as_VTInt c = c) by (unfold as_VTInt; step_if; lia).
  rewrite Hr', Hc', Hr, Hc.
  set (t1 := set_mode AdaptMode.Origin origin t). assert (Hok1 : adapter_ok t1) by (by apply set_mode_keeps).
  assert (Hs1 : settled t1 page') by (by apply (settled_frame t)).
  assert (Hor : test_mode AdaptMode.Origin t1 = test_mode AdaptMode.Origin s) by (apply modes_set_test; done).
  set (t2 := AdaptDispatch_CursorPosition _ _ t1).
  assert (Hj : jumped t1 page' (mk_point (px q) (py q - Top page + Top page')) t2) by (by apply place_reached).
  destruct Hj as [J1 J2 J3 J4 J5 _]. clearbody t2.
  set (n := if IsSingleShiftPending 3 (_termOutput s) then 3 else _).
  set (t3 := AdaptDispatch_SingleShift n t2). assert (Hok3 : adapter_ok t3) by (apply (adapter_frame t2); try done; apply J1).
  assert (Hs3 : settled t3 page') by (by apply (settled_frame t2)).
  assert (Hn : Z.to_nat n = _ssSetNumber (_termOutput s))
    by (unfold n, IsSingleShiftPending; by destruct (ok_ss _ Hss) as [<-|[<-|[<-|[]]]]).
  pose proof (wrap_applied t3 page' (IsDelayedEOLWrap (CursorOf page s)) Hok3 Hs3) as (U1 & U2 & U3 & U4 & U5).
  unfold settled in Hs3. rewrite Hs3. set (w := if IsDelayedEOLWrap _ then _ else t3) in *.
  change (Buffer page' t3) with (Buffer page' t2) in U5. change (CursorOf page' t3) with (CursorOf page' t2) in U5.
  split; [split; [done|done|done|..]|].
  - unfold CursorOf at 1. unfold GetPosition. rewrite U5. unfold CursorOf. rewrite J3.
    transitivity (ClampPositionWithinLine (mk_point (px q) (py q - Top page + Top page')) (Buffer page' t1)); [|done].
    by destruct (IsDelayedEOLWrap (_cursor (Buffer page s))); exact (SetPosition_position _ _).
  - unfold CursorOf at 1. rewrite U5. unfold CursorOf. rewrite J3. cbn. by destruct (IsDelayedEOLWrap (_cursor (Buffer page s))).
  - unfold AttributesOf at 2. rewrite U5, J3. exact Hattr.
  - unfold test_mode. rewrite U3. change (_modes t3) with (_modes t2). rewrite J4. exact Hor.
  - rewrite U4. change (_termOutput t3) with (SingleShift (Z.to_nat n) (_termOutput t2)). by rewrite J5, Hn.
Qed.

(** The fields of the sets in a report. *)
Lemma restorable_shape (o : TerminalOutput) : restorable_sets o ->
  exists (t0 t1 t2 t3 : Table) i0 i1 i2 i3 p0 p1 p2 p3,
    _gsetTranslationTables o = [Some t0; Some t1; Some t2; Some t3] /\ _gsetIds o = [i0; i1; i2; i3] /\
    (designator i0 (fst p0) (snd p0) /\ designator i1 (fst p1) (snd p1) /\ designator i2 (fst p2) (snd p2) /\ designator i3 (fst p3) (snd p3)) /\
    lookup_sized (sized t0) i0 o = Some t0 /\ lookup_sized (sized t1) i1 o = Some t1 /\
    lookup_sized (sized t2) i2 o = Some t2 /\ lookup_sized (sized t3) i3 o = Some t3.
Proof.
  intros [Hok Heach]. pose proof (ok_tables o Hok) as H1. pose proof (ok_ids o Hok) as H2.
  destruct (Heach 0%nat) as (t0 & i0 & n0 & f0 & A0 & B0 & D0 & L0); [lia|]. destruct (Heach 1%nat) as (t1 & i1 & n1 & f1 & A1 & B1 & D1 & L1); [lia|].
  destruct (Heach 2%nat) as (t2 & i2 & n2 & f2 & A2 & B2 & D2 & L2); [lia|]. destruct (Heach 3%nat) as (t3 & i3 & n3 & f3 & A3 & B3 & D3 & L3); [lia|].
  exists t0, t1, t2, t3, i0, i1, i2, i3, (n0, f0), (n1, f1), (n2, f2), (n3, f3).
  destruct (_gsetTranslationTables o) as [|a [|b [|c [|d []]]]]; try done.
  destruct (_gsetIds o) as [|a' [|b' [|c' [|d' []]]]]; try done. cbn in *. simplify_eq. by split_and!.
Qed.

Lemma protection_flags_bits a : has_bit (protection_flags a) 1 = IsProtected a /\ 0x40 <= protection_flags a <= 0x7E.
Proof. unfold protection_flags. by destruct (IsProtected a). Qed.

(** The state before the sets are restored. *)
Lemma head_restored s page t : adapter_ok s -> settled s page -> adapter_ok t -> same_window s t ->
  Width page s <= MAX_PARAMETER_VALUE -> Height page <= MAX_PARAMETER_VALUE ->
  let q := GetPosition (CursorOf page s) in let origin := test_mode AdaptMode.Origin s in
  (origin = true -> inside page (Width page s) (_scrollMargins s) q) -> sets_ok (_termOutput s) ->
  let h := home page (Width page s) (_scrollMargins s) origin in
  let a := AttributesOf page s in
  let u := after_head (py q - py h + 1) (px q - px h + 1) (page_number page) (rendition_flags a) (protection_flags a)
    (wrap_flags origin (_termOutput s) (IsDelayedEOLWrap (CursorOf page s))) t in
  exists page', cursor_restored_to s page u page' /\ _termOutput u = SingleShift (_ssSetNumber (_termOutput s)) (_termOutput t).
Proof.
  intros Hok Hs Hokt Hw HW HH q origin Hin Hss h a u.
  destruct (page_restored s page t Hok Hs Hokt Hw) as (Hok1 & [M1 O1 _] & page' & Hs1 & Hnum & Ew & Eh).
  set (t1 := AdaptDispatch_PagePositionAbsolute _ t) in *.
  destruct (attributes_spec (rendition_from_flags (rendition_flags a)) t1 page' Hok1 Hs1) as (Hok2 & Hs2 & [M2 O2 _] & Hb2).
  set (t2 := change_attributes _ t1) in *.
  destruct (attributes_spec (SetProtected (has_bit (protection_flags a) 1)) t2 page' Hok2 Hs2) as (Hok3 & Hs3 & [M3 O3 _] & Hb3).
  set (t3 := change_attributes _ t2) in *. exists page'.
  destruct (reported_range s page Hok Hs HW HH Hin) as [[Hr _] [Hc _]].
  destruct (flags_applied s page t3 page' (py q - py h + 1) (px q - px h + 1) Hok Hs Hok3 Hs3) as (H1 & H2); try done.
  - unfold Width in *. rewrite Hb3, <- Ew. cbn. by rewrite Hb2.
  - rewrite M3, M2, M1. apply Hw.
  - assert (Ha : AttributesOf page' t3
      = SetProtected (has_bit (protection_flags a) 1) (rendition_from_flags (rendition_flags a) (AttributesOf page' t1)))
      by (unfold AttributesOf; rewrite Hb3; unfold AttributesOf; by rewrite Hb2).
    rewrite Ha, (proj1 (protection_flags_bits a)). apply renditions_read.
  - split; [done|]. transitivity (SingleShift (_ssSetNumber (_termOutput s)) (_termOutput t3)); [exact H2|congruence].
Qed.

End Restore.
