(* ===== verification/AdapterWitness.v ===== *)
(** * The cursor stays on its page

    The requests that move the cursor, the margins, the tab stops, the pages
    and the saved state, as steps of one transition system, and the invariant
    that every state reached keeps; then a terminal to evaluate, and the
    theorems about the terminal on it. *)

From S2P Require Import Prelude VTTypes TermDispatch StateMachine OutputWitness Colors TextAttribute Graphics TerminalInput Charsets TerminalOutput RenderSettings AdapterColors ColorFacts.
From S2P Require Import CharsetFacts Cursor Pages Adapter AdapterFacts AdapterMoves AdapterReports Presentation CursorReport.
#[local] Open Scope Z_scope.

(** The requests. *)
Inductive Request :=
| RqCursorUp (n : Z) | RqCursorDown (n : Z) | RqCursorForward (n : Z) | RqCursorBackward (n : Z)
| RqCursorNextLine (n : Z) | RqCursorPrevLine (n : Z)
| RqColumn (n : Z) | RqLine (n : Z) | RqColumnRelative (n : Z) | RqLineRelative (n : Z)
| RqPosition (line column : Z) | RqCarriageReturn
| RqPage (n : Z) | RqPageRelative (n : Z) | RqPageBack (n : Z) | RqNextPage (n : Z) | RqPrecedingPage (n : Z)
| RqSave | RqRestore
| RqTopBottom (t b : Z) | RqLeftRight (l r : Z)
| RqTabSet | RqForwardTab (n : Z) | RqBackwardsTab (n : Z) | RqTabClear (n : Z) | RqTabReset (n : Z)
| RqStatus (n id : Z) | RqExtent | RqCursorStyle (n : Z) | RqSetting (report : SettingReport) | RqTabReport.

Section Invariant.
Context {A R : Type} `{Rows : !RowStorage R} `{Api : !ITerminalApi A R} `{Laws : !TerminalApiLaws A R}.
Abbreviation S_ := (AdaptDispatch A R).
Implicit Types (s t u : S_) (page : Page).

Definition perform (rq : Request) (s : S_) : outcome S_ :=
  match rq with
  | RqCursorUp n => Done (AdaptDispatch_CursorUp n s)
  | RqCursorDown n => Done (AdaptDispatch_CursorDown n s)
  | RqCursorForward n => Done (AdaptDispatch_CursorForward n s)
  | RqCursorBackward n => Done (AdaptDispatch_CursorBackward n s)
  | RqCursorNextLine n => Done (AdaptDispatch_CursorNextLine n s)
  | RqCursorPrevLine n => Done (AdaptDispatch_CursorPrevLine n s)
  | RqColumn n => Done (AdaptDispatch_CursorHorizontalPositionAbsolute n s)
  | RqLine n => Done (AdaptDispatch_VerticalLinePositionAbsolute n s)
  | RqColumnRelative n => Done (AdaptDispatch_HorizontalPositionRelative n s)
  | RqLineRelative n => Done (AdaptDispatch_VerticalPositionRelative n s)
  | RqPosition l c => Done (AdaptDispatch_CursorPosition l c s)
  | RqCarriageReturn => Done (AdaptDispatch_CarriageReturn s)
  | RqPage n => Done (AdaptDispatch_PagePositionAbsolute n s)
  | RqPageRelative n => Done (AdaptDispatch_PagePositionRelative n s)
  | RqPageBack n => Done (AdaptDispatch_PagePositionBack n s)
  | RqNextPage n => Done (AdaptDispatch_NextPage n s)
  | RqPrecedingPage n => Done (AdaptDispatch_PrecedingPage n s)
  | RqSave => Done (AdaptDispatch_CursorSaveState s)
  | RqRestore => Done (AdaptDispatch_CursorRestoreState s)
  | RqTopBottom t b => Done (AdaptDispatch_SetTopBottomScrollingMargins t b s)
  | RqLeftRight l r => Done (AdaptDispatch_SetLeftRightScrollingMargins l r s)
  | RqTabSet => AdaptDispatch_HorizontalTabSet s
  | RqForwardTab n => AdaptDispatch_ForwardTab n s
  | RqBackwardsTab n => AdaptDispatch_BackwardsTab n s
  | RqTabClear n => AdaptDispatch_TabClear n s
  | RqTabReset n => Done (AdaptDispatch_TabSet n s)
  | RqStatus n id => Done (AdaptDispatch_DeviceStatusReport n id s)
  | RqExtent => Done (AdaptDispatch_RequestDisplayedExtent s)
  | RqCursorStyle n => Done (AdaptDispatch_SetCursorStyle n s)
  | RqSetting report => Done (report_setting report s)
  | RqTabReport => AdaptDispatch_RequestPresentationStateReport 2 s
  end.

(** The parameters that reach a request are not negative. *)
Definition request_ok (rq : Request) : Prop :=
  match rq with
  | RqTopBottom t _ => 0 <= t
  | RqLeftRight l _ => 0 <= l
  | _ => True
  end.

(** ** The pieces *)

(** Reports change neither the pages nor the buffer. *)
Lemma call_api_ok c s : adapter_ok s -> adapter_ok (call_api c s).
Proof.
  intros [Hp Hv Hm (page & Hs & Hc)]. unfold call_api.
  assert (Hb : forall p, Buffer p (s <| _api := api_call (R := R) c (_api s) |>) = Buffer p s).
  { intros p. unfold Buffer. destruct (page_buffer p); cbn; [by rewrite call_keeps_buffer|done]. }
  split; [done| |done|].
  - cbn. by rewrite call_keeps_buffer.
  - exists page. split; [|unfold cursor_on_page, CursorOf, Width in *; by rewrite Hb].
    rewrite settled_iff in *. cbn. unfold ActivePage, Get in *. by rewrite call_keeps_buffer.
Qed.

Lemma margins_keep s m : adapter_ok s -> margins_ok m -> adapter_ok (s <| _scrollMargins := m |>).
Proof. intros Hok Hm. by apply (adapter_frame s). Qed.

Lemma vertical_keeps page (abs : bool) s : adapter_ok s -> adapter_ok (fst (_GetVerticalMargins page abs s)).
Proof.
  intros Hok. rewrite GetVerticalMargins_eq. destruct (margin_rows _ _). apply margins_keep; [done|].
  apply kept_rows_ok, Hok.
Qed.

Lemma horizontal_keeps width s : adapter_ok s -> adapter_ok (fst (_GetHorizontalMargins width s)).
Proof. intros Hok. rewrite GetHorizontalMargins_eq. apply margins_keep; [done|]. apply kept_columns_ok, Hok. Qed.

Lemma active_keeps s : adapter_ok s -> adapter_ok (fst (active_page s)).
Proof. intros Hok. destruct (active_page s) as [s' page] eqn:Ha. by destruct (adapter_active _ _ _ Hok Ha) as (-> & _). Qed.

Lemma relative_keeps page s : adapter_ok s -> adapter_ok (fst (relative_position page s)).
Proof.
  intros Hok. unfold relative_position. destruct (test_mode _ s); [|done].
  pose proof (horizontal_keeps (Width page s) s Hok) as H1. destruct (_GetHorizontalMargins _ s) as [s1 [l r]]. cbn [fst] in H1.
  pose proof (vertical_keeps page false s1 H1) as H2. by destruct (_GetVerticalMargins page false s1) as [s2 [t0 b]].
Qed.

Lemma save_keeps s : adapter_ok s -> adapter_ok (AdaptDispatch_CursorSaveState s).
Proof.
  intros Hok. unfold AdaptDispatch_CursorSaveState. pose proof (active_keeps s Hok) as H1.
  destruct (active_page s) as [s1 page]. pose proof (relative_keeps page s1 H1) as H2.
  destruct (relative_position page s1) as [s2 q]. apply (adapter_frame s2); try done. apply H2.
Qed.

Lemma page_keeps n s : adapter_ok s -> adapter_ok (AdaptDispatch_PagePositionAbsolute n s).
Proof. intros Hok. apply (mv_ok s). by apply page_position_spec. Qed.

Lemma page_relative_keeps n s : adapter_ok s -> adapter_ok (AdaptDispatch_PagePositionRelative n s).
Proof. apply (page_keeps (_activePageNumber (_pages s) + n)). Qed.

Lemma page_back_keeps n s : adapter_ok s -> adapter_ok (AdaptDispatch_PagePositionBack n s).
Proof. apply (page_keeps (_activePageNumber (_pages s) + - n)). Qed.

Lemma restore_keeps s : adapter_ok s -> adapter_ok (AdaptDispatch_CursorRestoreState s).
Proof.
  intros Hok. unfold AdaptDispatch_CursorRestoreState. set (t1 := set_mode _ _ s).
  assert (H1 : adapter_ok t1) by (by apply set_mode_keeps).
  set (t2 := AdaptDispatch_PagePositionAbsolute _ t1). assert (H2 : adapter_ok t2) by (by apply page_keeps).
  set (t3 := AdaptDispatch_CursorPosition _ _ t2). assert (H3 : adapter_ok t3) by (by apply move_ok).
  destruct (active_page t3) as [t4 page] eqn:Ha. destruct (adapter_active _ _ _ H3 Ha) as (-> & Hs & _).
  destruct (finish_restore t3 page (IsDelayedEOLWrap_ (saved_state s)) (saved_Attributes (saved_state s)) H3 Hs) as (H4 & _).
  apply (adapter_frame (SetAttributes page (saved_Attributes (saved_state s))
    (if IsDelayedEOLWrap_ (saved_state s) then change_cursor page DelayEOLWrap t3 else t3))); try done. apply H4.
Qed.

(** ** Margins *)

Lemma top_bottom_keeps top_ bottom_ (homing : bool) s : adapter_ok s -> 0 <= top_ ->
  adapter_ok (_DoSetTopBottomScrollingMargins top_ bottom_ homing s).
Proof.
  intros Hok Ht. unfold _DoSetTopBottomScrollingMargins. pose proof (active_keeps s Hok) as H1.
  destruct (active_page s) as [s1 page]. cbn [fst] in H1. destruct (ok_margins s1 H1) as [_ Hl].
  destruct ((_ <? _) && _) eqn:Hr; [|done].
  assert (Htop : forall (t0 b0 : Z), 0 <= t0 -> adapter_ok (s1 <| _scrollMargins := (_scrollMargins s1) <| top := t0 |> <| bottom := b0 |> |>))
    by (intros t0 b0 H0; by apply margins_keep).
  match goal with |- context [if ?b then (0, 0) else _] => destruct b end.
  - destruct homing; [apply move_ok|]; by apply Htop.
  - assert (0 <= (if top_ =? 0 then 1 else top_) - 1) by (step_if; lia).
    destruct homing; [apply move_ok|]; by apply Htop.
Qed.

Lemma left_right_keeps left_ right_ (homing : bool) s : adapter_ok s -> 0 <= left_ ->
  adapter_ok (_DoSetLeftRightScrollingMargins left_ right_ homing s).
Proof.
  intros Hok Ht. unfold _DoSetLeftRightScrollingMargins. pose proof (active_keeps s Hok) as H1.
  destruct (active_page s) as [s1 page]. cbn [fst] in H1. destruct (ok_margins s1 H1) as [Hl _].
  destruct ((_ <? _) && _) eqn:Hr; [|done].
  assert (Hleft : forall l0 r0, 0 <= l0 -> adapter_ok (s1 <| _scrollMargins := (_scrollMargins s1) <| left := l0 |> <| right := r0 |> |>))
    by (intros l0 r0 H0; by apply margins_keep).
  match goal with |- context [if ?b then (0, 0) else _] => destruct b end.
  - destruct homing; [apply move_ok|]; by apply Hleft.
  - assert (0 <= (if left_ =? 0 then 1 else left_) - 1) by (step_if; lia).
    destruct homing; [apply move_ok|]; by apply Hleft.
Qed.

(** ** Tab stops *)

Lemma tabs_keep tabs s : adapter_ok s -> adapter_ok (with_tabs tabs s).
Proof. intros Hok. apply (adapter_frame s); try done. apply Hok. Qed.

Lemma is_tab_stop_in column (tabs : list bool) : 0 <= column < Z.of_nat (length tabs) ->
  exists b, is_tab_stop column tabs = Done b.
Proof.
  intros Hc. unfold is_tab_stop, deref. rewrite (proj2 (Z.ltb_ge _ _)) by lia.
  destruct (lookup_lt_is_Some_2 tabs (Z.to_nat column)) as [b Hb]; [lia|]. rewrite Hb. by exists b.
Qed.

Lemma forward_tab_range fuel : forall column maxColumn n (tabs : list bool), 0 <= column -> maxColumn < Z.of_nat (length tabs) ->
  exists c, forward_tab_loop fuel column maxColumn n tabs = Done c /\ column <= c <= Z.max column maxColumn.
Proof.
  induction fuel as [|fuel IH]; intros column maxColumn n tabs Hc Hm; cbn [forward_tab_loop]; [exists column; split; [done|lia]|].
  destruct (_ && _) eqn:Hg; [|exists column; split; [done|lia]].
  destruct (is_tab_stop_in (column + 1) tabs) as [b ->]; [lia|]. cbn [obind].
  destruct (IH (column + 1) maxColumn (if b then n - 1 else n) tabs) as (c & -> & Hr); [lia|lia|]. exists c. split; [done|lia].
Qed.

Lemma backwards_tab_range fuel : forall column minColumn n (tabs : list bool), 0 <= minColumn -> column <= Z.of_nat (length tabs) ->
  exists c, backwards_tab_loop fuel column minColumn n tabs = Done c /\ Z.min column minColumn <= c <= column.
Proof.
  induction fuel as [|fuel IH]; intros column minColumn n tabs Hc Hm; cbn [backwards_tab_loop]; [exists column; split; [done|lia]|].
  destruct (_ && _) eqn:Hg; [|exists column; split; [done|lia]].
  destruct (is_tab_stop_in (column - 1) tabs) as [b ->]; [lia|]. cbn [obind].
  destruct (IH (column - 1) minColumn (if b then n - 1 else n) tabs) as (c & -> & Hr); [lia|lia|]. exists c. split; [done|lia].
Qed.

(** The column of the cursor, with the stops made. *)
Lemma set_stop_keeps (b : bool) s s1 page : adapter_ok s -> active_page s = (s1, page) ->
  exists t, (let* u := _InitTabStopsForWidth (Width page s1) s1 in set_tab_stop (px (GetPosition (CursorOf page s1))) b u) = Done t
    /\ adapter_ok t.
Proof.
  intros Hok Ha. destruct (adapter_active _ _ _ Hok Ha) as (-> & Hs & [Hx _]).
  destruct (init_tabs (Width page s) s) as (tabs & -> & Hl); [lia|]. cbn [obind]. unfold set_tab_stop.
  rewrite (proj2 (Z.ltb_ge _ _)) by lia. change (_tabStopColumns (with_tabs tabs s)) with tabs.
  rewrite array_set_done by lia. cbn [obind]. eexists. split; [reflexivity|]. by apply (tabs_keep _ s).
Qed.

(** The margins of a tab, and the cursor after it. *)
Lemma tab_start page width s : adapter_ok s -> settled s page -> 1 <= width ->
  exists s0 s1 rows columns, _GetVerticalMargins page true s = (s0, rows) /\ _GetHorizontalMargins width s0 = (s1, columns) /\
    adapter_ok s1 /\ settled s1 page /\ Buffer page s1 = Buffer page s /\ 0 <= fst columns /\ snd columns <= width - 1.
Proof.
  intros Hok Hs Hw. rewrite GetVerticalMargins_eq. destruct (margin_rows _ _) as [t0 b0]. set (m1 := kept_rows _ _).
  exists (s <| _scrollMargins := m1 |>). rewrite GetHorizontalMargins_eq. change (_scrollMargins (s <| _scrollMargins := m1 |>)) with m1.
  assert (Hm1 : margins_ok m1) by apply kept_rows_ok, Hok.
  destruct (margin_columns_range width m1 Hw Hm1) as [Hc1 Hc2].
  do 3 eexists. split_and!; [reflexivity|reflexivity| | |done|lia|lia].
  - apply (adapter_frame s); try done. apply kept_columns_ok, Hm1.
  - by apply (settled_frame s).
Qed.

Lemma forward_tab_keeps n s : adapter_ok s -> exists t, AdaptDispatch_ForwardTab n s = Done t /\ adapter_ok t.
Proof.
  intros Hok. unfold AdaptDispatch_ForwardTab. destruct (active_page s) as [s0 page] eqn:Ha.
  destruct (adapter_active _ _ _ Hok Ha) as (-> & Hs & [Hx Hy]).
  destruct (page_geometry s page (ok_pages s Hok) (ok_view s Hok) Hs) as [Hw _].
  set (q := GetPosition (CursorOf page s)) in *. pose proof (GetLineWidth_range (py q) (Buffer page s) Hw) as Hl.
  destruct (tab_start page (GetLineWidth (py q) (Buffer page s)) s Hok Hs) as (s0 & s1 & [t0 b0] & [l r] & -> & -> & Hok1 & Hs1 & Hb & Hl0 & Hr0);
    [lia|]. cbn [fst snd] in Hl0, Hr0.
  destruct (init_tabs (GetLineWidth (py q) (Buffer page s)) s1) as (tabs & -> & Htabs); [lia|]. cbn [obind].
  set (maxColumn := if _ && _ then r else _). assert (Hmax : maxColumn <= GetLineWidth (py q) (Buffer page s) - 1) by (unfold maxColumn; step_if; lia).
  change (_tabStopColumns (with_tabs tabs s1)) with tabs.
  destruct (forward_tab_range (Z.to_nat (maxColumn - px q)) (px q) maxColumn n tabs) as (c & -> & Hc); [lia|lia|]. cbn [obind].
  eexists. split; [reflexivity|]. apply adapter_change_cursor; [by apply tabs_keep|by apply (settled_frame s1)|].
  set (c0 := CursorOf page (with_tabs tabs s1)). assert (Hc0 : c0 = CursorOf page s) by (unfold c0, CursorOf; by rewrite <- Hb).
  assert (Hpos : GetPosition (if IsDelayedEOLWrap c0 then DelayEOLWrap (_ApplyCursorMovementFlags (SetXPosition c c0))
     else _ApplyCursorMovementFlags (SetXPosition c c0)) = mk_point c (py q)).
  { rewrite Hc0. transitivity (_cPosition (SetXPosition c (CursorOf page s))); [by step_if|]. apply SetXPosition_position. }
  rewrite Hpos. replace (Width page (with_tabs tabs s1)) with (Width page s) by (unfold Width; by rewrite <- Hb).
  split; cbn [px py]; [|done]. unfold Width in *. lia.
Qed.

(** The guard of the backwards tab: the cursor is not beyond its line. *)
Definition within_line s : Prop := forall page, settled s page ->
  let q := GetPosition (CursorOf page s) in px q <= GetLineWidth (py q) (Buffer page s).

Lemma backwards_tab_keeps n s : adapter_ok s -> within_line s -> exists t, AdaptDispatch_BackwardsTab n s = Done t /\ adapter_ok t.
Proof.
  intros Hok Hin. unfold AdaptDispatch_BackwardsTab. destruct (active_page s) as [s0 page] eqn:Ha.
  destruct (adapter_active _ _ _ Hok Ha) as (-> & Hs & [Hx Hy]). specialize (Hin page Hs). cbv zeta in Hin.
  destruct (page_geometry s page (ok_pages s Hok) (ok_view s Hok) Hs) as [Hw _].
  set (q := GetPosition (CursorOf page s)) in *. pose proof (GetLineWidth_range (py q) (Buffer page s) Hw) as Hl.
  destruct (tab_start page (GetLineWidth (py q) (Buffer page s)) s Hok Hs) as (s0 & s1 & [t0 b0] & [l r] & -> & -> & Hok1 & Hs1 & Hb & Hl0 & Hr0);
    [lia|]. cbn [fst snd] in Hl0, Hr0.
  destruct (init_tabs (GetLineWidth (py q) (Buffer page s)) s1) as (tabs & -> & Htabs); [lia|]. cbn [obind].
  set (minColumn := if _ && _ then l else _). assert (Hmin : 0 <= minColumn) by (unfold minColumn; step_if; lia).
  change (_tabStopColumns (with_tabs tabs s1)) with tabs.
  destruct (backwards_tab_range (Z.to_nat (px q - minColumn)) (px q) minColumn n tabs) as (c & -> & Hc); [done|lia|]. cbn [obind].
  eexists. split; [reflexivity|]. apply adapter_change_cursor; [by apply tabs_keep|by apply (settled_frame s1)|].
  replace (CursorOf page (with_tabs tabs s1)) with (CursorOf page s) by (unfold CursorOf; by rewrite <- Hb).
  change (GetPosition (_ApplyCursorMovementFlags ?x)) with (_cPosition x). rewrite SetXPosition_position.
  replace (Width page (with_tabs tabs s1)) with (Width page s) by (unfold Width; by rewrite <- Hb).
  split; cbn [px py]; [lia|done].
Qed.

(** ** Reports *)

Lemma position_report_keeps page s : adapter_ok s -> adapter_ok (fst (report_position page s)).
Proof.
  intros Hok. unfold report_position. destruct (test_mode _ s); [|done].
  pose proof (horizontal_keeps (Width page s) s Hok) as H1. destruct (_GetHorizontalMargins _ s) as [s1 [l r]]. cbn [fst] in H1.
  pose proof (vertical_keeps page false s1 H1) as H2. by destruct (_GetVerticalMargins page false s1) as [s2 [t0 b]].
Qed.

Lemma cursor_report_keeps (extended : bool) s : adapter_ok s -> adapter_ok (_CursorPositionReport extended s).
Proof.
  intros Hok. unfold _CursorPositionReport. pose proof (active_keeps s Hok) as H1. destruct (active_page s) as [s1 page].
  pose proof (position_report_keeps page s1 H1) as H2. destruct (report_position page s1) as [s2 q].
  destruct extended; by apply call_api_ok.
Qed.

Lemma status_keeps n id s : adapter_ok s -> adapter_ok (AdaptDispatch_DeviceStatusReport n id s).
Proof.
  intros Hok. unfold AdaptDispatch_DeviceStatusReport, _DeviceStatusReport, _MacroSpaceReport, _MacroChecksumReport.
  repeat (step_if; [first [by apply cursor_report_keeps|by apply call_api_ok]|]). done.
Qed.

Lemma setting_keeps report s : adapter_ok s -> adapter_ok (report_setting report s).
Proof.
  intros Hok. unfold report_setting, _ReportDECSTBMSetting, _ReportDECSLRMSetting, _ReportDECSCUSRSetting, _ReportDECSACESetting, _ReportDECACSetting.
  pose proof (active_keeps s Hok) as H1. destruct (active_page s) as [s1 page]. cbn [fst] in H1.
  pose proof (vertical_keeps page false s1 H1) as H2. destruct (_GetVerticalMargins page false s1) as [s2 [t0 b]]. cbn [fst] in H2.
  pose proof (horizontal_keeps (Width page s1) s1 H1) as H3. destruct (_GetHorizontalMargins (Width page s1) s1) as [s3 [l r]]. cbn [fst] in H3.
  destruct report; try by apply call_api_ok. repeat step_if; by apply call_api_ok.
Qed.

(** The visible page needs no buffer of its own. *)
Lemma extent_keeps s : adapter_ok s -> adapter_ok (AdaptDispatch_RequestDisplayedExtent s).
Proof.
  intros Hok. unfold AdaptDispatch_RequestDisplayedExtent.
  assert (Hv : fst (VisiblePage (_pages s) (_api s)) = _pages s).
  { unfold VisiblePage, Get. pose proof (pages_visible _ (ok_pages s Hok)) as Hr.
    replace (clampPage (_visiblePageNumber (_pages s))) with (_visiblePageNumber (_pages s)) by (unfold clampPage, MAX_PAGES; lia).
    rewrite Z.eqb_refl. by destruct (negb _). }
  destruct (VisiblePage (_pages s) (_api s)) as [pm page]. cbn [fst] in Hv. subst pm.
  apply call_api_ok, (adapter_frame s); try done. apply Hok.
Qed.

Lemma style_keeps n s : adapter_ok s -> adapter_ok (AdaptDispatch_SetCursorStyle n s).
Proof.
  intros Hok. unfold AdaptDispatch_SetCursorStyle. destruct (cursor_style n s) as [[ty blink]|]; [|done].
  destruct (active_page s) as [s1 page] eqn:Ha. destruct (adapter_active _ _ _ Hok Ha) as (-> & Hs & Hc).
  by apply adapter_change_cursor.
Qed.

Lemma tab_report_keeps s : adapter_ok s -> exists t, AdaptDispatch_RequestPresentationStateReport 2 s = Done t /\ adapter_ok t.
Proof.
  intros Hok. unfold AdaptDispatch_RequestPresentationStateReport, _ReportTabStops. cbn [Z.eqb Pos.eqb].
  destruct (active_page s) as [s1 page] eqn:Ha. destruct (adapter_active _ _ _ Hok Ha) as (-> & Hs & [Hx _]).
  destruct (init_tabs (Width page s) s) as (tabs & -> & _); [lia|]. eexists. split; [reflexivity|].
  by apply call_api_ok, tabs_keep.
Qed.

(** ** Every request *)

Definition request_defined (rq : Request) s : Prop :=
  match rq with
  | RqBackwardsTab _ => within_line s
  | _ => True
  end.

Lemma perform_keeps rq s : adapter_ok s -> request_ok rq -> request_defined rq s ->
  exists t, perform rq s = Done t /\ adapter_ok t.
Proof.
  intros Hok Hrq Hd. destruct rq; cbn [perform request_ok request_defined] in *;
    try (eexists; split; [reflexivity|]; by apply move_ok).
  - eexists. split; [reflexivity|]. by apply page_keeps.
  - eexists. split; [reflexivity|]. by apply page_relative_keeps.
  - eexists. split; [reflexivity|]. by apply page_back_keeps.
  - eexists. split; [reflexivity|]. by apply move_ok, page_relative_keeps.
  - eexists. split; [reflexivity|]. by apply move_ok, page_back_keeps.
  - eexists. split; [reflexivity|]. by apply save_keeps.
  - eexists. split; [reflexivity|]. by apply restore_keeps.
  - eexists. split; [reflexivity|]. by apply top_bottom_keeps.
  - eexists. split; [reflexivity|]. unfold AdaptDispatch_SetLeftRightScrollingMargins.
    step_if; [by apply left_right_keeps|by apply save_keeps].
  - unfold AdaptDispatch_HorizontalTabSet. destruct (active_page s) as [s1 page] eqn:Ha. by apply (set_stop_keeps true s).
  - by apply forward_tab_keeps.
  - by apply backwards_tab_keeps.
  - unfold AdaptDispatch_TabClear. step_if; [|step_if; eexists; (split; [reflexivity|]); [|done]].
    + unfold _ClearSingleTabStop. destruct (active_page s) as [s1 page] eqn:Ha. by apply (set_stop_keeps false s).
    + apply (adapter_frame s); try done. apply Hok.
  - eexists. split; [reflexivity|]. unfold AdaptDispatch_TabSet. step_if; [|done]. apply (adapter_frame s); try done. apply Hok.
  - eexists. split; [reflexivity|]. by apply status_keeps.
  - eexists. split; [reflexivity|]. by apply extent_keeps.
  - eexists. split; [reflexivity|]. by apply style_keeps.
  - eexists. split; [reflexivity|]. by apply setting_keeps.
  - by apply tab_report_keeps.
Qed.

(** What a sequence of requests leads to. *)
Inductive reached (s : S_) : S_ -> Prop :=
| reached_start : reached s s
| reached_step t rq u : reached s t -> request_ok rq -> request_defined rq t -> perform rq t = Done u -> reached s u.

(** C6: the cursor stays on its page.  From a terminal whose cursor is on the
    active page, after any sequence of cursor movements, tabs, page changes,
    saved and restored cursors, margin changes and reports, the cursor is on
    the active page, the page exists with the size of the window, the six pages
    and their numbers are in range, and the next request is carried out too.
    The one request with a condition is the backwards tab, which needs the
    cursor to be within its line. *)
Theorem cursor_stays_on_page s t : adapter_ok s -> reached s t ->
  adapter_ok t /\ forall rq, request_ok rq -> request_defined rq t -> exists u, perform rq t = Done u /\ reached s u.
Proof.
  intros Hok Hr.
  assert (Ht : adapter_ok t).
  { induction Hr as [|t rq u _ IH Hrq Hd Hp]; [done|]. destruct (perform_keeps rq t IH Hrq Hd) as (u' & Hu & Hok'). congruence. }
  split; [done|]. intros rq Hrq Hd. destruct (perform_keeps rq t Ht Hrq Hd) as (u & Hu & _). exists u. split; [done|].
  by eapply reached_step.
Qed.

(** ** The backwards tab beyond its line *)

(** C40: with no margins, no tab stops made yet and the cursor beyond the end
    of its double width line, where a page change can leave it, a backwards tab
    by at least one stop reads the tab stops out of bounds. *)
Theorem backwards_tab_beyond_line n s page : settled s page -> 0 < n ->
  _tabStopColumns s = [] -> _scrollMargins s = mk_rect 0 0 0 0 ->
  let q := GetPosition (CursorOf page s) in
  0 <= GetLineWidth (py q) (Buffer page s) < px q ->
  AdaptDispatch_BackwardsTab n s = Undefined.
Proof.
  intros Hs Hn Htabs Hm q Hq. unfold AdaptDispatch_BackwardsTab. rewrite Hs. fold q. set (w := GetLineWidth (py q) (Buffer page s)) in *.
  rewrite GetVerticalMargins_eq. destruct (margin_rows _ _) as [t0 b0]. rewrite GetHorizontalMargins_eq.
  set (s1 := s <| _scrollMargins := _ |>).
  assert (Hcol : margin_columns w (_scrollMargins s1) = (0, w - 1)).
  { assert (Hm1 : _scrollMargins s1 = mk_rect 0 0 0 0) by (unfold s1; cbn; rewrite Hm; unfold kept_rows; by destruct (_ >=? _)).
    rewrite Hm1. unfold margin_columns, kept_columns. cbn [left right]. destruct (0 >=? w - 1); cbn; by rewrite Z.min_id. }
  rewrite Hcol. set (s2 := s1 <| _scrollMargins := _ |>).
  unfold _InitTabStopsForWidth. rewrite (proj2 (Z.ltb_ge _ _)) by lia. change (_tabStopColumns s2) with (_tabStopColumns s). rewrite Htabs.
  cbn [length app]. set (tabs := if (0 <? Z.to_nat w)%nat then _ else _).
  assert (Hi : exists l, tabs = Done (s2 <| _tabStopColumns := l |>) /\ length l = Z.to_nat w).
  { unfold tabs. destruct (0 <? Z.to_nat w)%nat eqn:H0.
    - eexists. split; [reflexivity|]. destruct (_initDefaultTabStops s2); rewrite ?length_imap, length_replicate; lia.
    - exists []. apply Nat.ltb_ge in H0. split; [|cbn; lia]. f_equal. rewrite <- Htabs. unfold s2, s1. by destruct s. }
  destruct Hi as (l & -> & Hl). cbn [obind]. change (_tabStopColumns (s2 <| _tabStopColumns := l |>)) with l.
  set (mn := if _ && _ then 0 else 0). replace mn with 0 by (unfold mn; by step_if).
  destruct (Z.to_nat (px q - 0)) as [|fuel] eqn:Hf; [lia|]. cbn [backwards_tab_loop].
  rewrite (proj2 (andb_true_iff _ _)) by lia. unfold is_tab_stop. rewrite (proj2 (Z.ltb_ge _ _)) by lia.
  unfold deref. by rewrite lookup_ge_None_2 by lia.
Qed.
End Invariant.

(** * A terminal to evaluate

    A host that keeps the visible buffer and records the calls made to it,
    with rows that know their rendition only: instances of the interfaces of
    the terminal, and states of it on which the theorems about the terminal
    are applied. *)

From S2P Require Import RenderSettings CursorRestore.

(** ** The host *)

#[local] Instance line_rows : RowStorage (list LineRendition) := {
  new_rows _ height _ := replicate (Z.to_nat height) SingleWidth;
  row_rendition y r := nth (Z.to_nat y) r SingleWidth;
  copy_row from to src dst := <[Z.to_nat to := nth (Z.to_nat from) src SingleWidth]> dst;
}.

Record Host := mk_Host { host_view : BufferState (list LineRendition); host_calls : list ApiCall }.

#[export] Instance Host_eta : Eta Host := fun h => mk_Host (host_view h) (host_calls h).

#[local] Instance host_api : ITerminalApi Host (list LineRendition) := {
  GetBufferAndViewport := host_view;
  SetVisibleBuffer b h := h <| host_view := (host_view h) <| buffer := b |> |>;
  GetUserDefaultCursorStyle _ := Underscore;
  GetInputCodePage _ := 65001;
  api_call c h := h <| host_calls := host_calls h ++ [c] |>;
}.

#[local] Instance host_laws : TerminalApiLaws Host (list LineRendition).
Proof. by split. Qed.

(** A window of ten columns and four rows, below two rows of scrollback. *)
Definition window : rect := mk_rect 0 2 10 6.
Definition first_host : Host :=
  mk_Host (mk_BufferState
    ((new_TextBuffer 10 6 TextAttribute_default 25) <| _cursor := SetPosition (mk_point 4 3) (new_Cursor 25) |>) window true) [].
Definition no_keys : TerminalInput :=
  mk_TerminalInput 0 None 0 0 0 ∅ [] [] 0 false [] [] (mk_MouseInputState false (-1, -1) 0 0).
Definition first_settings : RenderSettings :=
  match new_RenderSettings (fun _ => 0) with Done r => r | _ => mk_RenderSettings 0 [] [] [] [] 0 false false end.
Definition first_terminal : AdaptDispatch Host (list LineRendition) :=
  new_AdaptDispatch first_host no_keys first_settings.

(** The same, with margins and origin mode, and on the second page. *)
Definition set_up : AdaptDispatch Host (list LineRendition) :=
  AdaptDispatch_CursorPosition 2 3 (set_mode AdaptMode.Origin true (AdaptDispatch_SetTopBottomScrollingMargins 2 4 first_terminal)).
Definition elsewhere : AdaptDispatch Host (list LineRendition) :=
  AdaptDispatch_CursorPosition 1 9 (set_mode AdaptMode.Origin false (AdaptDispatch_PagePositionAbsolute 3 (AdaptDispatch_CursorSaveState set_up))).

Definition page1 : Page := mk_Page VisibleBuffer window 1.

Lemma first_ok : adapter_ok first_terminal.
Proof.
  split; [by split|by split|by split|]. exists page1. by split.
Qed.

Lemma set_up_ok : adapter_ok set_up.
Proof. apply move_ok, set_mode_keeps, top_bottom_keeps; [apply first_ok|done]. Qed.

Lemma elsewhere_ok : adapter_ok elsewhere.
Proof. apply move_ok, set_mode_keeps, page_keeps, save_keeps, set_up_ok. Qed.

Lemma cursor_restored_witness :
  let q := GetPosition (CursorOf page1 set_up) in q = mk_point 2 4 /\
  let t' := AdaptDispatch_CursorRestoreState elsewhere in
  adapter_ok t' /\ exists page', settled t' page' /\ page_number page' = page_number page1 /\
    let q' := mk_point (px q) (py q - Top page1 + Top page') in
    GetPosition (CursorOf page' t') = ClampPositionWithinLine q' (Buffer page' t') /\
    IsDelayedEOLWrap (CursorOf page' t') = IsDelayedEOLWrap (CursorOf page1 set_up) /\
    AttributesOf page' t' = AttributesOf page1 set_up /\
    test_mode AdaptMode.Origin t' = test_mode AdaptMode.Origin set_up /\
    sets_restored (_termOutput set_up) (_termOutput elsewhere) (_termOutput t').
Proof.
  split; [by vm_compute|]. apply (cursor_restored set_up page1 elsewhere).
  - exact set_up_ok.
  - vm_compute. reflexivity.
  - exact elsewhere_ok.
  - split; by vm_compute.
  - intros _. vm_compute. by split.
Defined.

Lemma tab_stops_restored_witness :
  exists s1 text, AdaptDispatch_RequestPresentationStateReport 2 first_terminal = Done s1 /\
    _api s1 = api_call (R := list LineRendition) (ReturnResponse (dcs_response (sends_c1 first_terminal) (wstr "2$u" ++ text))) (_api first_terminal) /\
    exists h t0 h' t', AdaptDispatch_RestorePresentationState 2 set_up = Done (Some h, t0) /\
      handle_string (text ++ [ESC]) h t0 = Done (h', t') /\
      forall k, nth k (_tabStopColumns t') false
        = ((1 <=? k) && (k <? Z.to_nat (Width page1 first_terminal)))%nat && nth k (_tabStopColumns s1) false.
Proof.
  apply (tab_stops_restored first_terminal page1 set_up page1).
  - exact first_ok.
  - vm_compute. reflexivity.
  - exact set_up_ok.
  - vm_compute. reflexivity.
  - by vm_compute.
  - by vm_compute.
Defined.

(** ** The sets of a new terminal *)

Lemma first_sets : restorable_sets (_termOutput first_terminal).
Proof.
  split; [apply new_up_to_date|]. intros n Hn. unfold restorable_set.
  destruct n as [|[|[|[|n]]]]; [..|lia]; do 2 eexists; exists [];
    exists 0x42; (split_and!; [vm_compute; reflexivity|vm_compute; reflexivity| |by vm_compute]);
    (split; [vm_compute; reflexivity|apply List.Forall_nil|lia|cbn; lia]).
Qed.


(** ** A sequence of requests *)

Definition third_page : AdaptDispatch Host (list LineRendition) := AdaptDispatch_NextPage 2 first_terminal.
Definition tabbed : AdaptDispatch Host (list LineRendition) :=
  match AdaptDispatch_ForwardTab 1 third_page with Done t => t | _ => third_page end.

Lemma tabbed_reached : reached first_terminal tabbed.
Proof.
  assert (H1 : reached first_terminal third_page)
    by exact (reached_step first_terminal first_terminal (RqNextPage 2) third_page (reached_start _) I I eq_refl).
  apply (reached_step first_terminal third_page (RqForwardTab 1) tabbed H1 I I). vm_compute. reflexivity.
Qed.

Lemma cursor_stays_on_page_witness : adapter_ok tabbed /\
  forall rq, request_ok rq -> request_defined rq tabbed -> exists u, perform rq tabbed = Done u /\ reached first_terminal u.
Proof. apply (cursor_stays_on_page first_terminal tabbed); [exact first_ok|exact tabbed_reached]. Defined.

(** A cursor that the second page brings beyond its double width line. *)
Definition beyond_line : AdaptDispatch Host (list LineRendition) :=
  AdaptDispatch_PagePositionAbsolute 2
    (AdaptDispatch_CursorPosition 1 10
      (first_terminal <| _pages := (_pages first_terminal) <| _buffers :=
         [None; Some ((new_TextBuffer 10 4 TextAttribute_default 25) <| _rows := replicate 4 DoubleWidth |>); None; None; None; None] |> |>)).

Lemma backwards_tab_beyond_line_witness :
  AdaptDispatch_BackwardsTab 1 beyond_line = Undefined.
Proof.
  apply (backwards_tab_beyond_line 1 beyond_line (mk_Page VisibleBuffer window 2)).
  - vm_compute. reflexivity.
  - done.
  - by vm_compute.
  - by vm_compute.
  - by vm_compute.
Defined.

(** ** Colours *)

Lemma first_settings_ok : settings_ok first_settings.
Proof. split; vm_compute; reflexivity. Qed.

Lemma color_report_roundtrip_witness :
  exists s1 text, AdaptDispatch_SetColorTableEntry 200 0x336699 first_terminal = Done s1 /\
    AdaptDispatch_RequestColorTableEntry 200 s1 = Done (call_api (ReturnResponse text) s1) /\
    answer_received ascii_u8u16 keep text terminal [TermDispatch.SetColorTableEntry 200 0x336699].
Proof.
  destruct (color_report_roundtrip ascii_u8u16 keep 0x336699 first_terminal terminal) as [H _].
  - exact first_settings_ok.
  - split; vm_compute; congruence.
  - vm_compute. reflexivity.
  - exact terminal_ready.
  - apply H. split; vm_compute; congruence.
Defined.

(** Conversions for the model that is not used here. *)
Definition no_hls (c : color) : Z * Z * Z := (0, 0, 0).
Definition no_color (h l s : Z) : color := rgb 0 0 0.

Definition recoloured : AdaptDispatch Host (list LineRendition) :=
  match AdaptDispatch_SetColorTableEntry 1 0x336699 first_terminal with Done s => s | _ => first_terminal end.

Lemma color_table_restored_witness :
  exists text, AdaptDispatch_RequestTerminalStateReport no_hls ReportFormat.ColorTableReport ColorModel.RGB recoloured
               = Done (_ReturnDcsResponse (wstr "2$s" ++ text) recoloured) /\
  exists h h' t', AdaptDispatch_RestoreTerminalState ReportFormat.ColorTableReport = Some h /\
    handle_colors no_color (text ++ [ESC]) h first_terminal = Done (h', t') /\
    exists c', table t' !! 1%nat = Some c' /\ near_color 0x336699 c'.
Proof.
  destruct (color_table_restored no_hls no_color recoloured first_terminal) as (text & H1 & h & h' & t' & H2 & H3 & _ & H4).
  - split; vm_compute; reflexivity.
  - exact first_settings_ok.
  - apply Forall_forall. intros c Hc.
    assert (Hall : forallb (fun c => ((0 <=? c) && (c <? 2 ^ 24)) || (c =? INVALID_COLOR)) (table recoloured) = true) by (vm_compute; reflexivity).
    rewrite forallb_forall in Hall. specialize (Hall c Hc). unfold table_color. lia.
  - exists text. split; [exact H1|]. exists h, h', t'. split; [exact H2|]. split; [exact H3|].
    exact (H4 1%nat 0x336699 _ ltac:(vm_compute; reflexivity) ltac:(vm_compute; reflexivity)).
Defined.
