(* ===== verification/Graphemes.v ===== *)
(** * Properties of code points

    The tables of [types/CodepointWidthDetector.cpp]: a trie in four stages
    that gives the width and the class of a code point, and the rules that
    join two classes to a grapheme cluster; with the lookups, which are in
    bounds for every code point; then the class [CodepointWidthDetector], which
    cuts text into clusters in one of three modes. *)

From S2P Require Import Prelude.
#[local] Open Scope Z_scope.

Definition s_stage0 : list Z := [
  0; 32; 64; 96; 128; 159; 191; 202; 202; 202; 202; 202; 202; 202; 202; 202; 202; 202; 202; 202; 216; 248; 266; 270;
  267; 264; 275; 307; 339; 339; 339; 367; 399; 423; 455; 487; 307; 307; 517; 307; 307; 307; 307; 307; 545; 566; 202; 202;
  598; 630; 307; 307; 307; 651; 683; 697; 307; 716; 746; 770; 802; 831; 863; 895; 202; 202; 202; 202; 202; 202; 202; 202;
  202; 202; 202; 202; 202; 202; 202; 202; 202; 202; 202; 202; 202; 202; 202; 202; 202; 202; 202; 202; 202; 202; 202; 927;
  202; 202; 202; 202; 202; 202; 202; 202; 202; 202; 202; 202; 202; 202; 202; 202; 202; 202; 202; 202; 202; 202; 202; 202;
  202; 202; 202; 202; 202; 202; 202; 927; 307; 307; 307; 307; 307; 307; 307; 307; 307; 307; 307; 307; 307; 307; 307; 307;
  307; 307; 307; 307; 307; 307; 307; 307; 307; 307; 307; 307; 307; 307; 307; 307; 307; 307; 307; 307; 307; 307; 307; 307;
  307; 307; 307; 307; 307; 307; 307; 307; 307; 307; 307; 307; 307; 307; 307; 307; 307; 307; 307; 307; 307; 307; 307; 307;
  307; 307; 307; 307; 307; 307; 307; 307; 307; 307; 307; 307; 307; 307; 307; 307; 307; 307; 307; 307; 307; 307; 307; 307;
  307; 307; 307; 307; 307; 307; 307; 307; 307; 307; 307; 307; 307; 307; 307; 307; 307; 307; 307; 307; 307; 307; 307; 307;
  307; 307; 307; 307; 307; 307; 307; 307; 307; 307; 307; 307; 307; 307; 307; 307; 307; 307; 307; 307; 307; 307; 307; 307;
  307; 307; 307; 307; 307; 307; 307; 307; 307; 307; 307; 307; 307; 307; 307; 307; 307; 307; 307; 307; 307; 307; 307; 307;
  307; 307; 307; 307; 307; 307; 307; 307; 307; 307; 307; 307; 307; 307; 307; 307; 307; 307; 307; 307; 307; 307; 307; 307;
  307; 307; 307; 307; 307; 307; 307; 307; 307; 307; 307; 307; 307; 307; 307; 307; 307; 307; 307; 307; 307; 307; 307; 307;
  307; 307; 307; 307; 307; 307; 307; 307; 307; 307; 307; 307; 307; 307; 307; 307; 307; 307; 307; 307; 307; 307; 307; 307;
  307; 307; 307; 307; 307; 307; 307; 307; 307; 307; 307; 307; 307; 307; 307; 307; 307; 307; 307; 307; 307; 307; 307; 307;
  307; 307; 307; 307; 307; 307; 307; 307; 307; 307; 307; 307; 307; 307; 307; 307; 307; 307; 307; 307; 307; 307; 307; 307;
  307; 307; 307; 307; 307; 307; 307; 307; 307; 307; 307; 307; 307; 307; 307; 307; 307; 307; 307; 307; 307; 307; 307; 307;
  307; 307; 307; 307; 307; 307; 307; 307; 307; 307; 307; 307; 307; 307; 307; 307; 959; 967; 307; 307; 307; 307; 307; 307;
  307; 307; 307; 307; 307; 307; 307; 307; 307; 307; 307; 307; 307; 307; 307; 307; 307; 307; 307; 307; 307; 307; 307; 307;
  339; 339; 339; 339; 339; 339; 339; 339; 339; 339; 339; 339; 339; 339; 339; 339; 339; 339; 339; 339; 339; 339; 339; 339;
  339; 339; 339; 339; 339; 339; 339; 999; 339; 339; 339; 339; 339; 339; 339; 339; 339; 339; 339; 339; 339; 339; 339; 339;
  339; 339; 339; 339; 339; 339; 339; 339; 339; 339; 339; 339; 339; 339; 339; 999
].

Definition s_stage1 : list Z := [
  0; 4; 12; 20; 28; 36; 42; 49; 42; 55; 42; 63; 71; 73; 79; 87; 95; 101; 109; 42; 42; 42; 115; 123;
  131; 138; 42; 145; 152; 159; 163; 170; 178; 184; 190; 197; 205; 213; 221; 229; 237; 245; 253; 261; 269; 277; 285; 293;
  301; 309; 317; 325; 333; 341; 349; 356; 363; 371; 373; 381; 386; 394; 402; 410; 413; 421; 429; 42; 437; 441; 445; 450;
  42; 42; 42; 42; 42; 458; 42; 42; 42; 42; 42; 42; 42; 42; 42; 42; 42; 42; 42; 42; 464; 471; 478; 486;
  493; 42; 501; 42; 507; 42; 42; 42; 515; 521; 529; 536; 544; 552; 560; 566; 573; 42; 42; 580; 42; 42; 42; 71;
  42; 42; 42; 42; 42; 42; 42; 42; 588; 596; 604; 610; 618; 626; 634; 642; 650; 658; 666; 42; 674; 42; 681; 688;
  42; 696; 700; 708; 42; 42; 716; 724; 732; 740; 748; 756; 764; 772; 780; 42; 42; 42; 42; 788; 42; 42; 42; 42;
  42; 42; 42; 796; 802; 42; 42; 42; 42; 42; 806; 42; 813; 42; 67; 42; 42; 821; 825; 833; 833; 833; 839; 845;
  853; 859; 833; 867; 833; 874; 878; 884; 891; 897; 833; 833; 833; 833; 833; 833; 833; 833; 833; 833; 833; 833; 833; 833;
  833; 833; 833; 833; 833; 833; 833; 833; 833; 833; 833; 833; 833; 833; 833; 833; 833; 833; 904; 912; 42; 42; 42; 42;
  42; 915; 923; 383; 42; 42; 42; 42; 931; 42; 939; 947; 955; 963; 971; 979; 984; 992; 1000; 1008; 42; 42; 42; 1015;
  1023; 1024; 1025; 1026; 1027; 1028; 1029; 1023; 1024; 1025; 1026; 1027; 1028; 1029; 1023; 1024; 1025; 1026; 1027; 1028; 1029; 1023; 1024; 1025;
  1026; 1027; 1028; 1029; 1023; 1024; 1025; 1026; 1027; 1028; 1029; 1023; 1024; 1025; 1026; 1027; 1028; 1036; 1044; 42; 42; 42; 42; 42;
  42; 42; 42; 42; 42; 42; 42; 42; 42; 42; 42; 42; 42; 42; 42; 42; 42; 42; 42; 42; 42; 42; 42; 42;
  42; 42; 42; 700; 700; 700; 700; 700; 700; 700; 700; 700; 700; 700; 700; 700; 700; 700; 700; 700; 700; 700; 700; 700;
  700; 700; 700; 700; 700; 700; 700; 700; 700; 700; 700; 833; 833; 833; 833; 833; 833; 833; 833; 1052; 42; 42; 42; 42;
  42; 42; 42; 42; 42; 42; 42; 1060; 1066; 42; 813; 853; 1074; 1079; 1083; 42; 42; 42; 42; 42; 42; 42; 1091; 42;
  42; 42; 1099; 42; 1104; 42; 42; 42; 42; 42; 42; 42; 42; 42; 42; 42; 42; 42; 42; 42; 42; 42; 42; 1112;
  42; 42; 497; 42; 42; 42; 42; 42; 42; 42; 42; 1120; 1125; 42; 42; 42; 42; 1131; 1137; 42; 167; 1145; 42; 1153;
  1161; 1169; 1177; 1185; 1193; 1201; 1209; 1212; 1220; 42; 1225; 1233; 1241; 1248; 1256; 1261; 1269; 1273; 1281; 42; 42; 1284; 1292; 1296;
  1304; 1307; 42; 1314; 42; 42; 42; 1320; 42; 42; 42; 1328; 1336; 42; 1342; 1350; 1358; 1366; 42; 42; 42; 42; 42; 1370;
  42; 1378; 42; 1385; 1393; 1400; 42; 42; 42; 42; 1403; 1411; 1419; 42; 42; 42; 42; 42; 42; 42; 42; 42; 42; 42;
  42; 42; 42; 42; 42; 529; 1427; 42; 42; 42; 42; 42; 42; 42; 42; 42; 42; 42; 42; 42; 42; 1432; 42; 42;
  42; 42; 42; 42; 42; 42; 42; 42; 42; 42; 42; 42; 42; 42; 42; 42; 42; 42; 42; 42; 42; 42; 42; 42;
  42; 1438; 1445; 42; 42; 42; 42; 42; 42; 42; 42; 1452; 42; 42; 42; 42; 42; 42; 42; 1459; 1466; 1470; 833; 833;
  833; 833; 833; 833; 833; 833; 833; 833; 833; 833; 833; 833; 833; 833; 833; 833; 833; 833; 833; 833; 833; 833; 833; 833;
  833; 833; 833; 833; 833; 1478; 833; 833; 833; 833; 833; 833; 833; 833; 833; 833; 833; 833; 833; 833; 833; 833; 833; 833;
  833; 1486; 1494; 42; 42; 42; 42; 42; 42; 42; 42; 42; 42; 42; 42; 42; 42; 42; 42; 42; 42; 42; 42; 42;
  42; 42; 42; 42; 42; 42; 42; 42; 42; 42; 1496; 833; 833; 833; 833; 1504; 1511; 833; 833; 833; 833; 833; 1517; 42;
  42; 42; 42; 42; 42; 42; 42; 42; 42; 42; 42; 42; 42; 42; 42; 42; 42; 42; 42; 1525; 42; 42; 42; 42;
  42; 42; 42; 42; 42; 42; 42; 42; 42; 42; 42; 42; 42; 42; 42; 42; 42; 42; 42; 42; 42; 42; 42; 42;
  1533; 1541; 42; 42; 42; 42; 42; 1545; 1553; 42; 42; 1561; 42; 42; 833; 1569; 42; 42; 42; 42; 42; 42; 42; 42;
  42; 42; 42; 42; 42; 42; 42; 42; 42; 42; 1577; 1585; 1593; 42; 42; 42; 42; 42; 42; 42; 42; 42; 42; 42;
  42; 42; 42; 42; 42; 42; 42; 42; 42; 42; 1601; 42; 1608; 42; 1445; 42; 42; 42; 42; 42; 1611; 1617; 42; 42;
  42; 42; 42; 42; 42; 1617; 42; 42; 42; 1623; 42; 42; 42; 42; 42; 42; 42; 42; 1629; 42; 1637; 42; 42; 42;
  42; 42; 42; 42; 42; 42; 42; 42; 42; 42; 42; 42; 42; 42; 42; 42; 42; 42; 42; 42; 42; 42; 42; 1645;
  1646; 1646; 1653; 1661; 1667; 1675; 1681; 1689; 1697; 1646; 1646; 1705; 1712; 1720; 1727; 1735; 1743; 1744; 1745; 1753; 1761; 1769; 1774; 1744;
  1782; 1744; 1790; 42; 1798; 42; 1806; 1814; 1821; 1828; 1646; 1836; 1844; 1744; 1744; 1646; 1852; 1860; 1868; 42; 42; 42; 42; 1646;
  1646; 1646; 1646; 1646; 1646; 1646; 1646; 1646; 1646; 1646; 1646; 1646; 1646; 1646; 1876; 833; 833; 833; 833; 833; 833; 833; 833; 833;
  833; 833; 833; 833; 833; 833; 833; 833; 833; 833; 833; 833; 833; 833; 833; 833; 833; 833; 833; 833; 833; 833; 834; 1884;
  71; 1892; 1892; 71; 71; 71; 1900; 1892; 1892; 1892; 1892; 1892; 1892; 1892; 1892; 1892; 1892; 1892; 1892; 1892; 1892; 1892; 1892; 1892;
  1892; 1892; 1892; 1892; 1892; 1892; 1892; 1892; 1892; 1892; 1892; 1892; 1892; 1892; 1892; 700; 700; 700; 700; 700; 700; 700; 700; 700;
  700; 700; 700; 700; 700; 700; 700; 700; 700; 700; 700; 700; 700; 700; 700; 700; 700; 700; 700; 700; 700; 700; 1908
].

Definition s_stage2 : list Z := [
  0; 0; 0; 0; 8; 8; 8; 8; 8; 8; 8; 9; 0; 0; 0; 0; 17; 24; 32; 34; 42; 8; 41; 48;
  54; 62; 64; 71; 76; 8; 74; 45; 78; 45; 83; 41; 91; 99; 52; 8; 78; 45; 8; 8; 8; 8; 8; 8;
  8; 8; 42; 107; 73; 8; 8; 8; 8; 76; 8; 76; 8; 8; 8; 114; 90; 121; 129; 8; 8; 8; 8; 137;
  137; 137; 137; 137; 137; 137; 137; 8; 8; 145; 146; 152; 40; 145; 146; 152; 40; 8; 8; 8; 8; 8; 8; 76;
  8; 146; 146; 146; 146; 146; 146; 76; 8; 8; 8; 8; 8; 160; 166; 8; 8; 8; 8; 8; 8; 173; 137; 137;
  137; 137; 175; 181; 8; 8; 8; 8; 8; 8; 8; 189; 8; 137; 197; 8; 8; 8; 8; 160; 137; 137; 8; 8;
  201; 8; 8; 168; 209; 216; 223; 8; 8; 229; 200; 8; 8; 8; 137; 137; 165; 8; 8; 8; 8; 8; 8; 168;
  137; 201; 8; 8; 8; 8; 8; 160; 164; 237; 8; 8; 168; 245; 249; 162; 8; 8; 8; 253; 8; 8; 8; 8;
  261; 137; 8; 8; 8; 8; 172; 137; 137; 268; 137; 137; 137; 273; 8; 277; 282; 282; 282; 282; 288; 295; 302; 173;
  282; 310; 8; 8; 282; 317; 8; 277; 282; 282; 325; 332; 338; 345; 352; 358; 366; 310; 8; 373; 375; 382; 8; 8;
  8; 8; 8; 8; 386; 393; 400; 200; 8; 8; 8; 404; 8; 382; 8; 277; 282; 282; 325; 412; 338; 420; 427; 8;
  8; 310; 8; 8; 434; 317; 8; 277; 282; 282; 325; 412; 442; 345; 352; 450; 366; 310; 8; 458; 8; 464; 8; 8;
  8; 8; 8; 8; 467; 475; 482; 358; 8; 8; 8; 8; 8; 490; 8; 277; 282; 282; 325; 282; 498; 505; 512; 518;
  526; 310; 8; 8; 8; 317; 8; 8; 8; 8; 8; 8; 530; 538; 545; 551; 8; 310; 8; 362; 8; 559; 8; 277;
  282; 282; 282; 282; 567; 574; 581; 358; 8; 310; 8; 8; 8; 317; 8; 8; 8; 8; 8; 8; 8; 588; 595; 603;
  8; 8; 611; 8; 8; 8; 8; 8; 8; 618; 165; 202; 138; 8; 8; 8; 8; 8; 8; 618; 163; 8; 138; 8;
  8; 8; 8; 8; 8; 166; 8; 8; 376; 589; 8; 8; 8; 8; 8; 8; 173; 296; 176; 169; 137; 173; 137; 137;
  137; 163; 375; 8; 8; 8; 8; 8; 8; 8; 169; 625; 633; 8; 8; 467; 638; 201; 8; 224; 8; 646; 237; 8;
  237; 8; 8; 8; 8; 654; 654; 654; 654; 654; 654; 654; 654; 662; 662; 662; 662; 662; 670; 670; 670; 670; 670; 670;
  670; 670; 8; 8; 8; 169; 8; 8; 8; 8; 678; 8; 8; 8; 684; 8; 8; 310; 8; 8; 8; 310; 8; 8;
  8; 8; 8; 8; 689; 297; 697; 295; 164; 237; 8; 8; 8; 8; 160; 8; 8; 8; 8; 8; 8; 518; 8; 8;
  8; 8; 200; 8; 8; 8; 8; 705; 712; 720; 727; 8; 8; 202; 735; 8; 8; 8; 8; 739; 138; 747; 298; 755;
  216; 8; 8; 8; 8; 8; 8; 137; 137; 138; 8; 8; 8; 8; 8; 8; 272; 8; 8; 8; 8; 8; 763; 769;
  473; 8; 8; 8; 8; 160; 164; 8; 274; 8; 8; 8; 777; 785; 8; 8; 8; 8; 791; 799; 559; 8; 8; 8;
  8; 807; 811; 779; 8; 8; 816; 137; 625; 395; 824; 166; 8; 832; 840; 845; 34; 853; 861; 867; 8; 874; 8; 8;
  882; 137; 44; 122; 37; 8; 8; 8; 8; 44; 8; 8; 137; 137; 137; 137; 201; 8; 890; 76; 115; 8; 897; 45;
  8; 874; 8; 8; 51; 96; 146; 38; 146; 40; 8; 76; 905; 911; 8; 918; 8; 40; 8; 8; 924; 8; 122; 8;
  8; 8; 64; 932; 927; 937; 104; 942; 125; 50; 8; 948; 46; 8; 956; 954; 8; 8; 954; 8; 43; 76; 43; 8;
  8; 122; 8; 8; 46; 964; 8; 972; 8; 8; 980; 8; 8; 8; 8; 8; 8; 981; 8; 8; 8; 989; 997; 1005;
  8; 8; 8; 8; 146; 146; 146; 146; 146; 146; 146; 146; 1013; 146; 146; 146; 146; 152; 146; 146; 8; 8; 8; 8;
  152; 1019; 1025; 50; 1031; 1038; 40; 8; 841; 122; 8; 1046; 1054; 1061; 1069; 1075; 1082; 1082; 1090; 1082; 1079; 1090; 1094; 1082;
  1102; 1105; 1082; 1083; 1113; 1119; 1127; 1131; 1129; 1139; 1082; 1143; 1144; 1150; 1152; 1157; 1109; 1154; 1163; 1169; 1177; 1139; 1185; 975;
  874; 1193; 916; 43; 1197; 1205; 1212; 8; 1220; 8; 78; 146; 8; 8; 1228; 8; 874; 8; 1193; 1236; 8; 8; 8; 8;
  8; 8; 915; 8; 1244; 8; 8; 1252; 8; 8; 8; 8; 1256; 40; 8; 8; 8; 8; 8; 202; 166; 8; 8; 8;
  8; 8; 8; 8; 202; 1264; 1264; 1264; 1270; 1264; 1264; 1264; 1264; 1264; 1264; 1274; 8; 1264; 1264; 1264; 1264; 1264; 1264; 1264;
  1264; 1282; 8; 8; 8; 1264; 1264; 1264; 1264; 1264; 1290; 1298; 1301; 1308; 1264; 1264; 1264; 1264; 1264; 1264; 1264; 1265; 1316; 1264;
  1264; 1264; 1264; 1324; 1264; 1264; 1264; 1264; 1264; 1308; 1264; 1265; 1264; 1264; 1264; 1264; 1264; 1264; 1282; 1332; 1264; 1264; 1264; 1265;
  1264; 1264; 1264; 1264; 146; 1264; 1264; 1264; 1264; 1264; 1264; 1299; 1339; 1264; 1264; 1264; 1264; 1273; 1264; 1264; 1264; 1264; 1264; 1264;
  1265; 8; 8; 8; 8; 8; 8; 8; 202; 816; 1347; 8; 8; 8; 168; 8; 8; 8; 8; 1353; 463; 8; 8; 1360;
  462; 8; 8; 1367; 8; 8; 8; 8; 8; 807; 603; 1375; 8; 8; 8; 137; 137; 166; 202; 8; 8; 8; 8; 168;
  1347; 8; 8; 202; 137; 559; 8; 654; 654; 654; 1383; 273; 8; 8; 8; 8; 8; 1388; 1394; 1401; 8; 8; 8; 237;
  8; 8; 8; 8; 8; 1408; 1415; 8; 463; 1422; 8; 8; 8; 8; 8; 462; 8; 8; 8; 8; 8; 8; 1430; 449;
  200; 8; 8; 8; 8; 1438; 1446; 8; 8; 8; 8; 470; 1454; 8; 8; 1462; 1463; 1463; 1467; 1463; 1463; 1463; 1462; 1463;
  1463; 1467; 1463; 1463; 1463; 1462; 1463; 1463; 1472; 8; 662; 662; 1480; 1487; 670; 670; 670; 670; 670; 1491; 8; 8; 8; 375;
  8; 8; 8; 8; 137; 137; 1264; 1330; 137; 137; 1264; 1264; 1269; 1264; 1265; 1274; 8; 8; 1264; 1264; 1264; 1264; 1331; 8;
  8; 8; 467; 8; 8; 8; 8; 1265; 8; 0; 1499; 8; 8; 8; 8; 8; 8; 8; 237; 8; 8; 8; 8; 201;
  8; 8; 8; 8; 8; 8; 168; 165; 1506; 170; 8; 8; 8; 8; 8; 728; 8; 8; 8; 8; 170; 8; 8; 8;
  8; 8; 162; 8; 8; 8; 8; 8; 1513; 8; 8; 8; 8; 8; 8; 8; 170; 1519; 8; 8; 8; 8; 8; 8;
  8; 1527; 8; 8; 8; 8; 8; 8; 137; 138; 8; 8; 8; 8; 8; 1535; 202; 274; 8; 8; 8; 8; 8; 1543;
  1550; 464; 231; 8; 8; 8; 8; 8; 8; 165; 8; 8; 8; 202; 622; 163; 8; 551; 8; 8; 8; 8; 8; 463;
  8; 274; 8; 8; 8; 8; 8; 1540; 296; 1558; 1565; 8; 8; 8; 8; 8; 8; 1573; 1580; 375; 200; 8; 8; 8;
  8; 8; 8; 8; 202; 755; 165; 8; 8; 559; 8; 8; 8; 8; 8; 8; 1588; 1596; 1600; 358; 8; 1606; 163; 163;
  8; 8; 8; 8; 8; 8; 8; 755; 1613; 1620; 1628; 8; 1635; 8; 8; 8; 8; 8; 8; 1370; 137; 1643; 8; 8;
  375; 8; 8; 8; 8; 8; 8; 755; 1651; 1658; 8; 8; 8; 8; 8; 8; 8; 358; 344; 1666; 201; 8; 8; 640;
  8; 8; 8; 8; 8; 8; 755; 1673; 201; 8; 8; 8; 8; 8; 8; 8; 1681; 1409; 8; 8; 8; 792; 1689; 164;
  8; 8; 8; 8; 8; 1573; 137; 548; 8; 8; 8; 8; 8; 8; 1697; 1704; 1712; 8; 8; 8; 8; 8; 8; 8;
  1542; 1718; 1726; 8; 8; 8; 173; 165; 8; 8; 8; 8; 160; 1734; 202; 8; 1408; 727; 8; 8; 8; 8; 1741; 1747;
  296; 166; 8; 8; 8; 8; 8; 358; 138; 1409; 8; 8; 172; 137; 137; 1755; 1762; 8; 8; 8; 8; 8; 8; 1769;
  1776; 1783; 8; 8; 8; 8; 8; 8; 8; 1791; 1799; 8; 8; 8; 8; 8; 8; 1807; 8; 1815; 8; 8; 8; 8;
  8; 591; 1823; 1831; 8; 8; 464; 8; 8; 8; 8; 167; 137; 1347; 8; 8; 8; 8; 8; 168; 137; 753; 8; 8;
  8; 8; 8; 8; 163; 8; 8; 8; 8; 8; 8; 138; 8; 8; 8; 8; 1836; 1843; 8; 8; 202; 602; 603; 603;
  603; 603; 603; 202; 165; 8; 8; 8; 8; 8; 1851; 8; 1859; 8; 1264; 1264; 1264; 1264; 1264; 1264; 1264; 8; 1264; 1264;
  1282; 8; 8; 8; 8; 1332; 1264; 1331; 8; 8; 8; 8; 8; 8; 1268; 1867; 1264; 1264; 1264; 1264; 1321; 8; 1874; 8;
  8; 1882; 8; 1278; 8; 1264; 1264; 1264; 1264; 1264; 1264; 1264; 1274; 8; 8; 8; 518; 164; 8; 8; 8; 137; 137; 137;
  137; 137; 1347; 137; 137; 138; 8; 8; 8; 8; 8; 8; 8; 468; 1538; 755; 137; 1890; 164; 8; 8; 8; 1519; 8;
  8; 401; 8; 8; 8; 8; 8; 8; 8; 1264; 1264; 1265; 8; 1264; 1264; 1265; 8; 137; 137; 137; 137; 137; 137; 138;
  160; 137; 137; 137; 137; 137; 163; 237; 8; 462; 8; 8; 160; 173; 137; 8; 8; 138; 137; 137; 1892; 179; 165; 8;
  8; 202; 8; 8; 8; 8; 8; 8; 375; 8; 8; 8; 8; 8; 170; 8; 8; 8; 8; 8; 168; 8; 8; 138;
  8; 8; 8; 8; 8; 170; 165; 8; 8; 8; 8; 8; 8; 1900; 1082; 1082; 1082; 1082; 1082; 1082; 1082; 1082; 1083; 1082;
  1082; 1082; 1082; 1082; 1082; 146; 1908; 146; 146; 146; 1916; 146; 146; 146; 146; 146; 1924; 1932; 1934; 146; 1942; 1949; 1954; 146;
  1957; 1082; 1082; 1082; 1082; 1962; 1968; 1968; 1968; 1976; 1082; 1264; 1984; 1264; 1299; 1990; 1995; 1264; 1998; 2006; 1082; 1092; 1082; 1082;
  1082; 1090; 1090; 1090; 1090; 2007; 1085; 2015; 1090; 1090; 1090; 1090; 1090; 1090; 1090; 2016; 1090; 1090; 1094; 1082; 1090; 1090; 1090; 1090;
  2022; 1094; 1082; 1090; 1090; 2029; 2037; 1090; 1090; 1090; 1090; 1090; 1090; 1090; 1091; 2045; 1090; 1090; 1090; 1090; 1090; 1090; 1090; 1090;
  2048; 1090; 1090; 1090; 1090; 1090; 1090; 1090; 2055; 913; 2063; 1090; 1090; 1090; 1082; 1082; 1128; 1082; 1082; 2001; 1082; 1900; 1082; 1082;
  1082; 1082; 1082; 1082; 1082; 1087; 1090; 1090; 8; 8; 8; 8; 8; 8; 1092; 1900; 2050; 1086; 1082; 2003; 1086; 1093; 8; 8;
  8; 8; 8; 8; 2071; 1082; 8; 8; 1244; 1082; 1090; 1094; 2007; 1082; 8; 2071; 8; 8; 8; 8; 8; 8; 1082; 8;
  2073; 8; 8; 8; 8; 1082; 8; 8; 8; 913; 1082; 1082; 8; 2081; 1090; 1090; 1090; 1090; 1090; 2086; 2090; 1090; 1090; 1090;
  1090; 1090; 1090; 1090; 1082; 1082; 1082; 1082; 1082; 1082; 1090; 1093; 1090; 1141; 1090; 1090; 1090; 1090; 1090; 1090; 1091; 1084; 1090; 2048;
  1090; 2006; 1090; 2007; 1082; 1082; 1082; 1082; 1082; 1082; 1082; 1113; 2098; 0; 0; 0; 137; 137; 137; 137; 0; 0; 0; 0;
  0; 0; 0; 0; 137; 137; 137; 137; 137; 137; 0; 0; 146; 146; 146; 146; 146; 146; 146; 2106
].

Definition s_stage3 : list Z := [
  65; 65; 65; 65; 65; 65; 65; 65; 64; 64; 64; 64; 64; 64; 64; 64; 65; 64; 192; 64; 64; 192; 64; 64;
  192; 76; 192; 64; 64; 65; 204; 64; 192; 192; 192; 192; 192; 64; 192; 192; 192; 192; 64; 64; 64; 64; 64; 64;
  192; 64; 64; 64; 64; 64; 192; 192; 64; 64; 64; 64; 192; 64; 192; 192; 192; 64; 192; 192; 64; 64; 64; 192;
  192; 192; 64; 192; 64; 192; 64; 64; 64; 64; 64; 64; 192; 192; 192; 64; 64; 64; 64; 192; 192; 192; 64; 192;
  64; 64; 64; 192; 192; 192; 192; 64; 192; 64; 64; 192; 64; 192; 64; 192; 64; 192; 64; 64; 64; 64; 192; 64;
  64; 192; 64; 64; 64; 64; 64; 64; 64; 192; 192; 192; 192; 64; 192; 64; 192; 2; 2; 2; 2; 2; 2; 2;
  2; 64; 192; 192; 192; 192; 192; 192; 192; 192; 64; 192; 192; 192; 192; 192; 64; 64; 64; 2; 2; 2; 2; 2;
  64; 64; 64; 64; 64; 64; 2; 2; 2; 2; 2; 2; 2; 64; 2; 2; 64; 2; 2; 64; 2; 4; 4; 4;
  4; 4; 4; 64; 64; 2; 2; 2; 64; 2; 64; 64; 64; 64; 64; 64; 64; 2; 2; 2; 2; 2; 4; 64;
  2; 2; 2; 2; 2; 64; 64; 2; 64; 2; 2; 2; 2; 64; 64; 64; 64; 64; 64; 64; 4; 64; 64; 64;
  64; 64; 2; 64; 64; 2; 2; 64; 2; 2; 2; 2; 2; 64; 2; 2; 2; 64; 64; 64; 64; 4; 4; 64;
  64; 64; 64; 64; 2; 2; 4; 2; 2; 2; 2; 2; 66; 64; 64; 64; 64; 64; 75; 75; 75; 75; 75; 75;
  75; 75; 2; 66; 2; 64; 66; 66; 2; 2; 2; 2; 2; 2; 2; 66; 66; 66; 66; 10; 66; 66; 64; 64;
  2; 2; 64; 64; 64; 64; 2; 66; 66; 64; 64; 64; 64; 75; 64; 75; 75; 75; 75; 75; 75; 64; 75; 64;
  64; 64; 75; 75; 64; 64; 2; 64; 66; 66; 2; 2; 2; 2; 64; 64; 66; 64; 64; 66; 66; 10; 64; 64;
  64; 64; 64; 64; 64; 66; 64; 64; 64; 64; 75; 75; 64; 75; 75; 64; 64; 64; 64; 64; 64; 2; 64; 2;
  2; 66; 64; 64; 64; 64; 2; 64; 66; 66; 2; 2; 64; 64; 64; 64; 2; 64; 64; 2; 2; 2; 64; 64;
  64; 2; 64; 64; 75; 64; 75; 75; 64; 75; 75; 75; 66; 2; 2; 2; 2; 2; 64; 2; 66; 64; 66; 66;
  10; 64; 64; 75; 2; 2; 2; 2; 2; 2; 75; 75; 64; 64; 2; 64; 66; 2; 64; 64; 64; 64; 64; 2;
  2; 66; 64; 75; 64; 64; 64; 64; 64; 64; 2; 64; 64; 64; 64; 64; 64; 66; 66; 2; 66; 66; 64; 64;
  64; 66; 66; 64; 66; 66; 66; 2; 64; 64; 2; 66; 66; 66; 2; 64; 64; 64; 75; 75; 64; 64; 2; 64;
  2; 2; 66; 66; 66; 66; 64; 2; 2; 64; 2; 2; 2; 10; 64; 64; 64; 64; 64; 2; 2; 64; 75; 75;
  75; 64; 64; 64; 64; 64; 2; 64; 66; 2; 66; 66; 66; 66; 66; 64; 2; 66; 64; 66; 66; 2; 2; 64;
  64; 64; 64; 64; 66; 66; 64; 2; 2; 66; 66; 64; 64; 64; 64; 75; 75; 75; 2; 2; 64; 66; 66; 2;
  2; 2; 2; 64; 66; 66; 64; 66; 66; 66; 10; 68; 64; 64; 2; 64; 64; 64; 64; 66; 66; 2; 2; 2;
  64; 2; 64; 66; 66; 66; 66; 66; 66; 66; 66; 64; 64; 66; 66; 64; 64; 64; 64; 2; 64; 66; 2; 2;
  2; 2; 66; 2; 2; 2; 2; 2; 2; 64; 2; 2; 66; 66; 2; 2; 64; 64; 64; 64; 2; 2; 64; 64;
  2; 64; 66; 2; 2; 64; 133; 133; 133; 133; 133; 133; 133; 133; 70; 70; 70; 70; 70; 70; 70; 70; 71; 71;
  71; 71; 71; 71; 71; 71; 64; 64; 2; 2; 2; 66; 64; 64; 2; 2; 66; 64; 64; 64; 64; 2; 2; 66;
  2; 66; 66; 66; 66; 66; 66; 2; 66; 2; 2; 2; 66; 66; 66; 66; 2; 66; 66; 66; 64; 64; 64; 64;
  66; 66; 2; 66; 66; 66; 66; 66; 2; 2; 2; 64; 64; 64; 64; 2; 66; 66; 2; 64; 64; 64; 64; 64;
  66; 2; 66; 2; 64; 2; 64; 64; 2; 2; 2; 66; 66; 66; 2; 2; 2; 2; 2; 64; 64; 64; 64; 2;
  66; 2; 2; 2; 66; 2; 66; 66; 66; 64; 66; 2; 2; 2; 2; 66; 66; 2; 2; 66; 2; 2; 2; 64;
  64; 64; 64; 64; 64; 2; 66; 2; 2; 66; 66; 66; 2; 66; 2; 64; 64; 64; 64; 66; 66; 66; 66; 2;
  2; 2; 2; 64; 2; 2; 2; 2; 64; 64; 64; 64; 2; 64; 64; 66; 64; 64; 64; 2; 2; 13; 2; 2;
  192; 64; 64; 192; 192; 192; 192; 64; 64; 192; 192; 64; 64; 65; 65; 2; 2; 2; 2; 2; 64; 192; 64; 192;
  192; 64; 192; 64; 64; 64; 192; 76; 64; 192; 64; 76; 64; 64; 64; 64; 64; 64; 2; 2; 2; 2; 2; 65;
  2; 2; 64; 64; 64; 192; 64; 192; 64; 64; 192; 204; 64; 64; 64; 192; 64; 192; 192; 192; 192; 204; 204; 204;
  204; 64; 64; 64; 64; 64; 64; 76; 76; 64; 64; 64; 64; 64; 192; 64; 192; 64; 64; 64; 192; 64; 64; 192;
  64; 64; 64; 192; 64; 64; 192; 192; 192; 192; 192; 64; 192; 64; 64; 64; 192; 64; 64; 64; 192; 192; 64; 64;
  192; 192; 192; 192; 64; 64; 140; 140; 64; 64; 64; 64; 76; 128; 128; 64; 64; 64; 64; 64; 76; 64; 64; 64;
  64; 64; 64; 64; 76; 64; 140; 140; 140; 140; 76; 76; 76; 140; 76; 76; 140; 64; 64; 64; 64; 76; 76; 76;
  64; 64; 64; 64; 64; 192; 192; 204; 192; 192; 192; 192; 192; 76; 76; 64; 64; 64; 64; 192; 192; 64; 64; 204;
  192; 64; 64; 64; 64; 192; 192; 64; 64; 192; 64; 64; 192; 192; 64; 64; 64; 76; 76; 140; 140; 64; 76; 76;
  76; 76; 76; 204; 192; 76; 204; 76; 76; 76; 76; 204; 204; 76; 76; 76; 64; 140; 140; 76; 76; 76; 76; 204;
  76; 204; 76; 76; 76; 76; 76; 76; 76; 76; 140; 140; 140; 140; 140; 140; 140; 140; 76; 76; 76; 76; 204; 204;
  76; 204; 204; 204; 76; 204; 204; 76; 204; 76; 76; 76; 76; 76; 76; 64; 64; 128; 128; 128; 128; 128; 128; 76;
  76; 76; 140; 76; 76; 76; 76; 76; 76; 204; 204; 76; 76; 140; 140; 76; 76; 76; 76; 76; 140; 140; 204; 204;
  204; 204; 204; 204; 140; 204; 204; 204; 204; 204; 204; 204; 204; 140; 140; 204; 140; 204; 204; 140; 204; 204; 140; 204;
  204; 76; 76; 76; 76; 76; 140; 64; 64; 76; 76; 76; 64; 76; 64; 76; 64; 140; 64; 64; 64; 64; 64; 64;
  64; 76; 64; 64; 76; 64; 64; 64; 64; 140; 64; 140; 64; 64; 64; 140; 140; 140; 64; 140; 64; 64; 64; 76;
  76; 76; 76; 76; 64; 64; 64; 64; 64; 140; 140; 140; 64; 64; 64; 64; 64; 64; 64; 140; 64; 64; 64; 64;
  64; 76; 76; 76; 64; 64; 64; 140; 140; 64; 64; 64; 64; 140; 192; 192; 128; 128; 128; 128; 128; 128; 128; 128;
  64; 128; 128; 128; 128; 128; 64; 64; 64; 64; 128; 128; 128; 128; 128; 128; 64; 64; 128; 128; 2; 2; 2; 2;
  130; 130; 140; 128; 128; 128; 128; 128; 128; 128; 140; 128; 64; 128; 128; 128; 128; 128; 128; 128; 64; 2; 2; 128;
  128; 128; 128; 128; 64; 64; 64; 64; 64; 128; 128; 128; 64; 64; 64; 64; 64; 64; 64; 128; 140; 128; 128; 128;
  128; 128; 128; 2; 2; 2; 2; 2; 2; 64; 64; 2; 64; 64; 64; 2; 64; 64; 64; 66; 66; 2; 2; 66;
  66; 64; 64; 64; 64; 64; 64; 66; 66; 66; 66; 2; 2; 64; 64; 133; 133; 133; 133; 133; 64; 64; 64; 2;
  66; 66; 2; 2; 66; 66; 2; 2; 66; 66; 64; 64; 64; 64; 64; 64; 64; 2; 2; 2; 2; 2; 2; 66;
  2; 2; 66; 66; 2; 2; 64; 64; 64; 64; 2; 66; 64; 64; 2; 64; 2; 2; 2; 64; 64; 2; 64; 64;
  64; 66; 2; 2; 66; 66; 64; 64; 64; 64; 64; 66; 2; 64; 2; 66; 66; 64; 66; 2; 64; 64; 136; 137;
  137; 137; 137; 137; 137; 137; 137; 136; 137; 137; 137; 137; 64; 64; 64; 64; 70; 70; 70; 70; 70; 70; 70; 64;
  64; 64; 71; 71; 71; 71; 71; 64; 64; 64; 64; 65; 2; 2; 2; 64; 192; 64; 64; 2; 2; 2; 64; 2;
  2; 64; 64; 64; 2; 2; 64; 64; 64; 2; 2; 2; 2; 64; 64; 66; 2; 66; 64; 64; 64; 64; 64; 2;
  64; 64; 2; 2; 64; 64; 64; 66; 66; 66; 2; 2; 2; 2; 66; 2; 2; 64; 64; 4; 64; 64; 66; 64;
  68; 68; 64; 64; 64; 64; 2; 2; 2; 2; 64; 66; 2; 64; 64; 64; 64; 66; 66; 66; 2; 2; 66; 66;
  2; 66; 2; 2; 64; 64; 64; 2; 2; 64; 66; 66; 2; 66; 66; 66; 66; 64; 64; 66; 66; 66; 64; 64;
  66; 66; 64; 64; 2; 2; 64; 66; 64; 64; 66; 64; 66; 66; 66; 64; 66; 66; 2; 66; 2; 68; 2; 64;
  64; 64; 64; 64; 2; 2; 64; 64; 64; 64; 64; 66; 66; 2; 2; 2; 66; 2; 64; 2; 66; 2; 66; 66;
  66; 66; 2; 66; 2; 2; 64; 64; 64; 64; 66; 66; 66; 66; 2; 2; 66; 2; 2; 2; 66; 66; 2; 66;
  2; 64; 64; 64; 2; 66; 2; 66; 66; 64; 64; 2; 2; 2; 2; 66; 2; 66; 66; 66; 66; 66; 66; 64;
  66; 64; 64; 2; 2; 66; 2; 68; 66; 68; 66; 2; 64; 64; 64; 64; 2; 2; 66; 66; 66; 66; 2; 64;
  64; 64; 66; 64; 64; 64; 2; 66; 68; 2; 2; 2; 2; 64; 64; 64; 64; 68; 68; 68; 68; 2; 2; 2;
  2; 2; 2; 64; 66; 2; 2; 2; 2; 2; 2; 66; 2; 2; 66; 2; 2; 64; 2; 2; 2; 2; 2; 2;
  64; 64; 2; 64; 2; 2; 64; 2; 2; 2; 2; 2; 2; 68; 2; 64; 64; 66; 66; 66; 66; 66; 64; 2;
  2; 64; 66; 66; 2; 66; 2; 64; 64; 64; 2; 2; 66; 66; 64; 2; 2; 68; 66; 64; 64; 64; 64; 2;
  2; 2; 64; 64; 64; 66; 66; 2; 66; 2; 64; 64; 64; 64; 64; 70; 64; 64; 64; 70; 70; 70; 64; 64;
  64; 64; 64; 128; 128; 128; 128; 2; 64; 64; 64; 130; 130; 64; 64; 64; 64; 64; 64; 128; 128; 128; 128; 64;
  128; 128; 64; 64; 128; 64; 64; 64; 64; 64; 128; 128; 128; 64; 64; 128; 64; 64; 2; 2; 2; 64; 64; 2;
  2; 2; 2; 2; 76; 76; 76; 76; 140; 76; 76; 76; 192; 192; 192; 64; 64; 76; 76; 76; 192; 192; 192; 192;
  192; 192; 64; 76; 192; 192; 64; 64; 76; 76; 76; 76; 204; 204; 192; 192; 192; 192; 192; 192; 204; 204; 192; 192;
  192; 192; 192; 192; 140; 192; 140; 140; 140; 140; 140; 140; 140; 192; 192; 192; 192; 192; 76; 76; 76; 76; 76; 76;
  67; 67; 67; 67; 67; 67; 67; 67; 128; 140; 140; 76; 76; 76; 76; 76; 128; 128; 140; 128; 128; 128; 128; 128;
  140; 140; 140; 140; 140; 140; 128; 76; 76; 76; 76; 76; 76; 76; 140; 140; 76; 76; 76; 76; 76; 76; 76; 140;
  140; 140; 140; 140; 140; 76; 140; 140; 140; 76; 76; 76; 76; 140; 76; 76; 76; 140; 76; 76; 76; 140; 140; 140;
  130; 130; 130; 130; 130; 140; 76; 140; 140; 140; 140; 140; 140; 76; 76; 140; 140; 140; 140; 140; 140; 64; 64; 76;
  76; 76; 140; 140; 140; 140; 76; 64; 64; 64; 64; 76; 76; 76; 76; 76; 76; 64; 64; 64; 64; 140; 140; 140;
  140; 64; 140; 140; 140; 140; 140; 140; 64; 140; 65; 2; 65; 65; 65; 65; 65; 65; 192; 192; 192; 192; 192; 192;
  64; 64
].

Definition s_joinRules : list (list Z) := [
  [63963087; 268435455; 63963087; 63962959; 12; 62964687; 63901647; 63913935; 63901647; 63913935; 51380175; 63963087; 63963087; 13631439; 0; 0];
  [63963087; 268435455; 63963087; 63963087; 12; 62964687; 63901647; 63913935; 63901647; 63913935; 51380175; 63963087; 63963087; 13631439; 0; 0]].

(** ** Lookups *)

(** An element of an array, by an index that is not checked. *)
Definition table_at (table : list Z) (i : Z) : outcome Z := if i <? 0 then Undefined else deref table (Z.to_nat i).

Definition ucdLookup (cp : Z) : outcome Z :=
  let* s0 := table_at s_stage0 (Z.shiftr cp 11) in
  let* s1 := table_at s_stage1 (s0 + Z.land (Z.shiftr cp 6) 31) in
  let* s2 := table_at s_stage2 (s1 + Z.land (Z.shiftr cp 3) 7) in
  table_at s_stage3 (s2 + Z.land (Z.shiftr cp 0) 7).

Definition ucdGraphemeJoins (state lead trail : Z) : outcome Z :=
  let l := Z.land lead 15 in
  let t := Z.land trail 15 in
  let* rules := if state <? 0 then Undefined else deref s_joinRules (Z.to_nat state) in
  let* rule := table_at rules l in
  Done (Z.land (Z.shiftr rule (t * 2)) 3).

Definition ucdGraphemeDone (state : Z) : bool := state =? 3.
Definition ucdToCharacterWidth (val : Z) : Z := Z.shiftr val 6.

(** ** Bounds *)

Definition code_point (cp : Z) : Prop := 0 <= cp <= 0x10FFFF.

Lemma table_at_spec table (P : Z -> bool) i : forallb P table = true -> 0 <= i < Z.of_nat (length table) ->
  exists v, table_at table i = Done v /\ P v = true.
Proof.
  intros Hall Hi. unfold table_at, deref. rewrite (proj2 (Z.ltb_ge _ _)) by lia.
  destruct (lookup_lt_is_Some_2 table (Z.to_nat i)) as [v Hv]; [lia|]. rewrite Hv. exists v. split; [done|].
  rewrite forallb_forall in Hall. apply Hall. apply list_elem_of_In. by eapply list_elem_of_lookup_2.
Qed.

Lemma land_below x n : 0 <= n -> 0 <= Z.land x (Z.ones n) < 2 ^ n.
Proof. intros Hn. rewrite Z.land_ones by lia. apply Z.mod_pos_bound. lia. Qed.

(** A value of the trie: a class below 14 and a width below 4. *)
Definition ucd_value (v : Z) : bool := (0 <=? v) && (v <? 256) && (Z.land v 15 <? 14).

Lemma ucdLookup_bounds cp : code_point cp -> exists v, ucdLookup cp = Done v /\ ucd_value v = true.
Proof.
  intros Hcp. unfold ucdLookup.
  assert (Hi0 : 0 <= Z.shiftr cp 11 < 544).
  { unfold code_point in Hcp. rewrite Z.shiftr_div_pow2 by lia. change (2 ^ 11) with 2048. split; [apply Z.div_pos; lia|].
    apply Z.div_lt_upper_bound; lia. }
  destruct (table_at_spec s_stage0 (fun v => (0 <=? v) && (v <=? 999)) (Z.shiftr cp 11)) as (s0 & -> & H0);
    [by vm_compute|exact Hi0|]. cbn [obind].
  pose proof (land_below (Z.shiftr cp 6) 5 ltac:(lia)) as Hl1. change (Z.ones 5) with 31 in Hl1. change (2 ^ 5) with 32 in Hl1.
  destruct (table_at_spec s_stage1 (fun v => (0 <=? v) && (v <=? 1908)) (s0 + Z.land (Z.shiftr cp 6) 31)) as (s1 & -> & H1);
    [by vm_compute|change (Z.of_nat (length s_stage1)) with 1031; lia|]. cbn [obind].
  pose proof (land_below (Z.shiftr cp 3) 3 ltac:(lia)) as Hl2. change (Z.ones 3) with 7 in Hl2. change (2 ^ 3) with 8 in Hl2.
  destruct (table_at_spec s_stage2 (fun v => (0 <=? v) && (v <=? 2106)) (s1 + Z.land (Z.shiftr cp 3) 7)) as (s2 & -> & H2);
    [by vm_compute|change (Z.of_nat (length s_stage2)) with 1916; lia|]. cbn [obind].
  pose proof (land_below (Z.shiftr cp 0) 3 ltac:(lia)) as Hl3. change (Z.ones 3) with 7 in Hl3. change (2 ^ 3) with 8 in Hl3.
  apply table_at_spec; [by vm_compute|change (Z.of_nat (length s_stage3)) with 2114; lia].
Qed.

(** A pair of classes joins in state 0 or 1, or does not: the automaton never
    leaves its two rows of rules. *)
Definition join_results : bool :=
  forallb (fun row => forallb (fun rule => forallb (fun t => existsb (Z.eqb (Z.land (Z.shiftr rule (t * 2)) 3)) [0; 1; 3])
    [0; 1; 2; 3; 4; 5; 6; 7; 8; 9; 10; 11; 12; 13; 14; 15]) row) s_joinRules.

Lemma ucdGraphemeJoins_bounds state lead trail : 0 <= state <= 1 ->
  exists st, ucdGraphemeJoins state lead trail = Done st /\ (ucdGraphemeDone st = true \/ 0 <= st <= 1).
Proof.
  intros Hs. unfold ucdGraphemeJoins. rewrite (proj2 (Z.ltb_ge _ _)) by lia.
  assert (Hj : join_results = true) by (by vm_compute).
  assert (Hrow : exists row, deref s_joinRules (Z.to_nat state) = Done row /\ length row = 16%nat /\ In row s_joinRules).
  { assert (state = 0 \/ state = 1) as [-> | ->] by lia; eexists; (split; [reflexivity|]); (split; [done|]); [by left|right; by left]. }
  destruct Hrow as (row & -> & Hlen & Hin). cbn [obind].
  pose proof (land_below lead 4 ltac:(lia)) as Hl. change (Z.ones 4) with 15 in Hl. change (2 ^ 4) with 16 in Hl.
  pose proof (land_below trail 4 ltac:(lia)) as Ht. change (Z.ones 4) with 15 in Ht. change (2 ^ 4) with 16 in Ht.
  unfold join_results in Hj. rewrite forallb_forall in Hj. specialize (Hj row Hin). cbv beta in Hj.
  destruct (table_at_spec row _ (Z.land lead 15) Hj) as (rule & -> & Hr); [lia|]. cbn [obind].
  eexists. split; [reflexivity|]. rewrite forallb_forall in Hr. specialize (Hr (Z.land trail 15)).
  assert (Hin' : In (Z.land trail 15) [0; 1; 2; 3; 4; 5; 6; 7; 8; 9; 10; 11; 12; 13; 14; 15]) by (cbn; lia).
  specialize (Hr Hin'). cbn [existsb] in Hr. unfold ucdGraphemeDone.
  destruct (Z.eqb_spec (Z.land (Z.shiftr rule (Z.land trail 15 * 2)) 3) 3); [by left|]. right. cbn in Hr. lia.
Qed.

Lemma ucd_width v : ucd_value v = true -> 0 <= ucdToCharacterWidth v <= 3.
Proof.
  intros Hv. unfold ucd_value in Hv. unfold ucdToCharacterWidth. rewrite Z.shiftr_div_pow2 by lia. change (2 ^ 6) with 64.
  split; [apply Z.div_pos; lia|]. apply Z.lt_succ_r, Z.div_lt_upper_bound; lia.
Qed.

(** * Grapheme clusters and their widths

    The class [CodepointWidthDetector] of [types/CodepointWidthDetector.cpp].
    A string is a list of UTF-16 code units; a pointer into it is the number
    of the string it points into and an index, and the state a caller keeps
    between calls may point into another string than the one passed.  The
    function that asks the renderer for the width of an ambiguous glyph is a
    parameter; it is allowed to throw. *)


Inductive TextMeasurementMode := ModeGraphemes | ModeWcswidth | ModeConsole.

Record GraphemeState := mk_GraphemeState {
  gs_beg : option (nat * nat);
  gs_len : nat;
  gs_width : Z;
  _state : Z;
  _last : Z;
}.

Definition new_GraphemeState : GraphemeState := mk_GraphemeState None 0 0 0 0.

#[export] Instance GraphemeState_eta : Eta GraphemeState := fun s =>
  mk_GraphemeState (gs_beg s) (gs_len s) (gs_width s) (_state s) (_last s).

(** A string and the number that tells it from other strings. *)
Record wview := mk_wview { wv_id : nat; wv_chars : list Z }.

(** ** Decoding *)

Definition is_surrogate (c : Z) : bool := Z.land c 0xF800 =? 0xD800.

Definition combine_surrogates (c1 c2 : Z) : Z := Z.shiftl c1 10 - 0x35FDC00 + c2.

(** The next code point and the index past it; [it] is before the end. *)
Definition utf16NextOrFFFD (it : nat) (str : list Z) : outcome (nat * Z) :=
  let* c := deref str it in
  let it := S it in
  if is_surrogate c then
    if (Z.land c 0x400 =? 0) && (it <? length str)%nat then
      let* c2 := deref str it in
      if Z.land c2 0xFC00 =? 0xDC00 then Done (S it, combine_surrogates c c2) else Done (it, 0xFFFD)
    else Done (it, 0xFFFD)
  else Done (it, c).

(** The preceding code point and its index; [it] is past the start. *)
Definition utf16PrevOrFFFD (it : nat) (str : list Z) : outcome (nat * Z) :=
  let it := Nat.pred it in
  let* c := deref str it in
  if is_surrogate c then
    if negb (Z.land c 0x400 =? 0) && negb (it =? 0)%nat then
      let* c1 := deref str (Nat.pred it) in
      if Z.land c1 0xFC00 =? 0xD800 then Done (Nat.pred it, combine_surrogates c1 c) else Done (it, 0xFFFD)
    else Done (it, 0xFFFD)
  else Done (it, c).

(** A pointer as an index into [str], or [reset] if it points elsewhere. *)
Definition resetIfOutOfRange (str : wview) (reset : nat) (ptr : option (nat * nat)) : nat :=
  match ptr with
  | Some (id, i) => if (id =? wv_id str)%nat && (i <=? length (wv_chars str))%nat then i else reset
  | None => reset
  end.

Definition cluster_end_ptr (s : GraphemeState) : option (nat * nat) :=
  match gs_beg s with
  | Some (id, i) => Some (id, (i + gs_len s)%nat)
  | None => None
  end.

(** ** The detector *)

Record CodepointWidthDetector := mk_Detector {
  _fallbackCache : list (Z * Z);
  _mode : TextMeasurementMode;
  _ambiguousWidth : Z;
}.

#[export] Instance CodepointWidthDetector_eta : Eta CodepointWidthDetector := fun d =>
  mk_Detector (_fallbackCache d) (_mode d) (_ambiguousWidth d).

Definition new_CodepointWidthDetector : CodepointWidthDetector := mk_Detector [] ModeGraphemes 1.

Section Detector.

(** [_pfnFallbackMethod]: not set, or a function of the glyph that may throw. *)
Variable _pfnFallbackMethod : option (list Z -> option bool).

Definition GetMode (d : CodepointWidthDetector) : TextMeasurementMode := _mode d.
Definition Detector_Reset (mode : TextMeasurementMode) (d : CodepointWidthDetector) : CodepointWidthDetector :=
  d <| _mode := mode |> <| _fallbackCache := [] |>.

Definition cache_find (cp : Z) (cache : list (Z * Z)) : option Z :=
  match find (fun entry => fst entry =? cp) cache with Some (_, w) => Some w | None => None end.
Definition cache_insert (cp w : Z) (cache : list (Z * Z)) : list (Z * Z) :=
  (cp, w) :: filter (fun entry => negb (fst entry =? cp) = true) cache.

(** A code point in UTF-16. *)
Definition encode_utf16 (codepoint : Z) : list Z :=
  if codepoint <=? 0xFFFF then [codepoint]
  else [u16 (Z.shiftr codepoint 10 + 0xD7C0); u16 (Z.lor (Z.land codepoint 0x3FF) 0xDC00)].

Definition _checkFallbackViaCache (codepoint : Z) (d : CodepointWidthDetector) : CodepointWidthDetector * Z :=
  match _pfnFallbackMethod with
  | None => (d, 1)
  | Some f =>
      match cache_find codepoint (_fallbackCache d) with
      | Some w => (d, w)
      | None =>
          match f (encode_utf16 codepoint) with
          | None => (d, 1)
          | Some wide =>
              let width := if wide : bool then 2 else 1 in
              (d <| _fallbackCache := cache_insert codepoint width (_fallbackCache d) |>, width)
          end
      end
  end.

(** The width of a code point, by its entry in the tables. *)
Definition width_of (d : CodepointWidthDetector) (val : Z) : Z :=
  let w := ucdToCharacterWidth val in if w =? 3 then _ambiguousWidth d else w.

Definition cluster_width (d : CodepointWidthDetector) (val cp : Z) : Z :=
  if cp =? 0xFE0F then 2 else width_of d val.

(** ** Graphemes *)

(** The loop from [fetchNext] on: the end of the cluster, its width, the state
    and the last entry.  There is a code point to fetch. *)
Fixpoint fetch_next (fuel : nat) (d : CodepointWidthDetector) (str : list Z) (clusterEnd : nat) (width state lead : Z)
    : outcome (nat * Z * Z * Z) :=
  match fuel with
  | O => Undefined
  | S fuel =>
      let* (clusterEndNext, cp) := utf16NextOrFFFD clusterEnd str in
      let* trail := ucdLookup cp in
      let* state := ucdGraphemeJoins state lead trail in
      if ucdGraphemeDone state then Done (clusterEnd, width, Z.lnot 0, 0)
      else
        let width := width + cluster_width d trail cp in
        if (length str <=? clusterEndNext)%nat then Done (clusterEndNext, width, state, trail)
        else fetch_next fuel d str clusterEndNext width state trail
  end.

(** The cluster from an index on, or its continuation. *)
Definition next_run (d : CodepointWidthDetector) (s : GraphemeState) (str : list Z) (clusterBeg : nat)
    : outcome (nat * Z * Z * Z) :=
  if negb (_state s =? 0) then fetch_next (length str) d str clusterBeg (gs_width s) (Z.lnot (_state s)) (_last s)
  else
    let* (clusterEnd, cp) := utf16NextOrFFFD clusterBeg str in
    let* lead := ucdLookup cp in
    let width := cluster_width d lead cp in
    if (length str <=? clusterEnd)%nat then Done (clusterEnd, width, 0, lead)
    else fetch_next (length str) d str clusterEnd width 0 lead.

Definition _graphemeNext (d : CodepointWidthDetector) (s : GraphemeState) (v : wview) : outcome (GraphemeState * bool) :=
  let str := wv_chars v in
  let clusterBeg := resetIfOutOfRange v 0 (cluster_end_ptr s) in
  if (clusterBeg <? length str)%nat then
    let* (clusterEnd, width, state, lead) := next_run d s str clusterBeg in
    let width := if width >? 2 then 2 else width in
    Done (mk_GraphemeState (Some (wv_id v, clusterBeg)) (clusterEnd - clusterBeg) width (Z.lnot state) lead,
          (clusterEnd <? length str)%nat)
  else Done (s, false).

Fixpoint fetch_prev (fuel : nat) (d : CodepointWidthDetector) (str : list Z) (clusterBeg : nat) (width state trail : Z)
    : outcome (nat * Z * Z * Z) :=
  match fuel with
  | O => Undefined
  | S fuel =>
      let* (clusterBegNext, cp) := utf16PrevOrFFFD clusterBeg str in
      let* lead := ucdLookup cp in
      let* state := ucdGraphemeJoins state lead trail in
      if ucdGraphemeDone state then Done (clusterBeg, width, Z.lnot 0, 0)
      else
        let width := width + cluster_width d lead cp in
        if (clusterBegNext <=? 0)%nat then Done (clusterBegNext, width, state, lead)
        else fetch_prev fuel d str clusterBegNext width state lead
  end.

Definition prev_run (d : CodepointWidthDetector) (s : GraphemeState) (str : list Z) (clusterEnd : nat)
    : outcome (nat * Z * Z * Z) :=
  if negb (_state s =? 0) then fetch_prev (length str) d str clusterEnd (gs_width s) (Z.lnot (_state s)) (_last s)
  else
    let* (clusterBeg, cp) := utf16PrevOrFFFD clusterEnd str in
    let* trail := ucdLookup cp in
    let width := cluster_width d trail cp in
    if (clusterBeg <=? 0)%nat then Done (clusterBeg, width, 0, trail)
    else fetch_prev (length str) d str clusterBeg width 0 trail.

Definition _graphemePrev (d : CodepointWidthDetector) (s : GraphemeState) (v : wview) : outcome (GraphemeState * bool) :=
  let str := wv_chars v in
  let clusterEnd := resetIfOutOfRange v (length str) (gs_beg s) in
  if (0 <? clusterEnd)%nat then
    let* (clusterBeg, width, state, trail) := prev_run d s str clusterEnd in
    let width := if width >? 2 then 2 else width in
    Done (mk_GraphemeState (Some (wv_id v, clusterBeg)) (clusterEnd - clusterBeg) width (Z.lnot state) trail,
          (0 <? clusterBeg)%nat)
  else Done (s, false).

(** ** The behaviour of [wcswidth] *)

Fixpoint wcswidth_loop (fuel : nat) (d : CodepointWidthDetector) (str : list Z) (clusterEnd : nat) (width state : Z)
    : outcome (nat * Z * Z) :=
  match fuel with
  | O => Undefined
  | S fuel =>
      let* (clusterEndNext, cp) := utf16NextOrFFFD clusterEnd str in
      let* val := ucdLookup cp in
      let w := width_of d val in
      if negb (state =? 0) && negb (w =? 0) then Done (clusterEnd, width, 0)
      else if (length str <=? clusterEndNext)%nat then Done (clusterEndNext, width + w, 1)
      else wcswidth_loop fuel d str clusterEndNext (width + w) 1
  end.

Definition _graphemeNextWcswidth (d : CodepointWidthDetector) (s : GraphemeState) (v : wview)
    : outcome (GraphemeState * bool) :=
  let str := wv_chars v in
  let clusterBeg := resetIfOutOfRange v 0 (cluster_end_ptr s) in
  if (length str <=? clusterBeg)%nat then Done (s, false)
  else
    let width := if _state s =? 0 then 0 else gs_width s in
    let* (clusterEnd, width, state) := wcswidth_loop (length str) d str clusterBeg width (_state s) in
    Done (mk_GraphemeState (Some (wv_id v, clusterBeg)) (clusterEnd - clusterBeg) width state (_last s),
          (clusterEnd <? length str)%nat).

Fixpoint wcswidth_prev_loop (fuel : nat) (d : CodepointWidthDetector) (str : list Z) (clusterBeg : nat) (width : Z)
    : outcome (nat * Z * Z) :=
  match fuel with
  | O => Undefined
  | S fuel =>
      let* (clusterBeg, cp) := utf16PrevOrFFFD clusterBeg str in
      let* val := ucdLookup cp in
      let width := width + width_of d val in
      let hasWidth := negb (width =? 0) in
      let atEnd := (clusterBeg <=? 0)%nat in
      if hasWidth || atEnd then Done (clusterBeg, width, if hasWidth && atEnd then 1 else 0)
      else wcswidth_prev_loop fuel d str clusterBeg width
  end.

Definition _graphemePrevWcswidth (d : CodepointWidthDetector) (s : GraphemeState) (v : wview)
    : outcome (GraphemeState * bool) :=
  let str := wv_chars v in
  let clusterEnd := resetIfOutOfRange v (length str) (gs_beg s) in
  if (clusterEnd <=? 0)%nat then Done (s, false)
  else
    let* (clusterBeg, width, delayedCompletion) :=
      if _state s =? 0 then wcswidth_prev_loop (length str) d str clusterEnd 0 else Done (clusterEnd, gs_width s, 0) in
    Done (mk_GraphemeState (Some (wv_id v, clusterBeg)) (clusterEnd - clusterBeg) width delayedCompletion (_last s),
          (0 <? clusterBeg)%nat).

(** ** The behaviour of the old console *)

(** The width of one code point; ambiguous ones are asked for. *)
Definition console_width (d : CodepointWidthDetector) (cp : Z) : outcome (CodepointWidthDetector * Z) :=
  let* val := ucdLookup cp in
  let width := ucdToCharacterWidth val in
  Done (if width =? 3 then _checkFallbackViaCache cp d else (d, width)).

Definition _graphemeNextConsole (d : CodepointWidthDetector) (s : GraphemeState) (v : wview)
    : outcome (CodepointWidthDetector * GraphemeState * bool) :=
  let str := wv_chars v in
  let clusterBeg := resetIfOutOfRange v 0 (cluster_end_ptr s) in
  if (length str <=? clusterBeg)%nat then Done (d, s, false)
  else
    let* (d, clusterEnd, width, delayedCompletion) :=
      if _state s =? 0 then
        let* (clusterEnd, cp) := utf16NextOrFFFD clusterBeg str in
        let* (d, width) := console_width d cp in
        Done (d, clusterEnd, width, if (length str <=? clusterEnd)%nat then 1 else 0)
      else Done (d, clusterBeg, gs_width s, 0) in
    Done (d, mk_GraphemeState (Some (wv_id v, clusterBeg)) (clusterEnd - clusterBeg) width delayedCompletion (_last s),
          delayedCompletion =? 0).

Definition _graphemePrevConsole (d : CodepointWidthDetector) (s : GraphemeState) (v : wview)
    : outcome (CodepointWidthDetector * GraphemeState * bool) :=
  let str := wv_chars v in
  let clusterEnd := resetIfOutOfRange v (length str) (gs_beg s) in
  if (clusterEnd <=? 0)%nat then Done (d, s, false)
  else
    let* (d, clusterBeg, width, delayedCompletion) :=
      if _state s =? 0 then
        let* (clusterBeg, cp) := utf16PrevOrFFFD clusterEnd str in
        let* (d, width) := console_width d cp in
        Done (d, clusterBeg, width, if (clusterBeg <=? 0)%nat then 1 else 0)
      else Done (d, clusterEnd, gs_width s, 0) in
    Done (d, mk_GraphemeState (Some (wv_id v, clusterBeg)) (clusterEnd - clusterBeg) width delayedCompletion (_last s),
          delayedCompletion =? 0).

(** ** The three modes *)

Definition keep_detector (d : CodepointWidthDetector) (r : outcome (GraphemeState * bool))
    : outcome (CodepointWidthDetector * GraphemeState * bool) :=
  let* (s, more) := r in Done (d, s, more).

Definition GraphemeNext (d : CodepointWidthDetector) (s : GraphemeState) (v : wview)
    : outcome (CodepointWidthDetector * GraphemeState * bool) :=
  match _mode d with
  | ModeGraphemes => keep_detector d (_graphemeNext d s v)
  | ModeWcswidth => keep_detector d (_graphemeNextWcswidth d s v)
  | ModeConsole => _graphemeNextConsole d s v
  end.

Definition GraphemePrev (d : CodepointWidthDetector) (s : GraphemeState) (v : wview)
    : outcome (CodepointWidthDetector * GraphemeState * bool) :=
  match _mode d with
  | ModeGraphemes => keep_detector d (_graphemePrev d s v)
  | ModeWcswidth => keep_detector d (_graphemePrevWcswidth d s v)
  | ModeConsole => _graphemePrevConsole d s v
  end.
End Detector.
