(* ===== verification/GraphemeFacts.v ===== *)
(** * What the clustering promises

    Every call stays inside its string and the tables; clusters follow each
    other without gaps, have a width of at most two columns, and the calls
    reach the end of the string; a cluster can go on in a second string. *)

From S2P Require Import Prelude Graphemes.
#[local] Open Scope Z_scope.

Definition unit16 (c : Z) : Prop := 0 <= c <= 0xFFFF.

(** ** Decoding *)

(** A property of all code units, by evaluation. *)
Definition bytes256 : list Z := map Z.of_nat (seq 0 256).

Lemma all_units (P : Z -> bool) c : forallb (fun hi => forallb (fun lo => P (256 * hi + lo)) bytes256) bytes256 = true ->
  unit16 c -> P c = true.
Proof.
  intros Hall Hc. unfold unit16 in Hc.
  assert (Hin : forall x, 0 <= x < 256 -> In x bytes256).
  { intros x Hx. unfold bytes256. rewrite <- (Z2Nat.id x) by lia. apply in_map, in_seq. lia. }
  pose proof (Z.div_mod c 256 ltac:(lia)) as Hd. pose proof (Z.mod_pos_bound c 256 ltac:(lia)) as Hm.
  rewrite forallb_forall in Hall. specialize (Hall (c / 256) (Hin (c / 256) ltac:(lia))). rewrite forallb_forall in Hall.
  specialize (Hall (c mod 256) (Hin _ Hm)). by rewrite <- Hd in Hall.
Qed.

Lemma lead_surrogate_range c : unit16 c -> is_surrogate c = true -> Z.land c 0x400 = 0 -> 0xD800 <= c <= 0xDBFF.
Proof.
  intros Hc Hs Hl.
  pose proof (all_units (fun c => negb (is_surrogate c && (Z.land c 0x400 =? 0)) || ((0xD800 <=? c) && (c <=? 0xDBFF))) c) as H.
  specialize (H ltac:(by vm_compute) Hc). cbv beta in H. rewrite Hs, Hl in H. cbn in H. lia.
Qed.

Lemma trail_surrogate_range c : unit16 c -> Z.land c 0xFC00 = 0xDC00 -> 0xDC00 <= c <= 0xDFFF.
Proof.
  intros Hc Hs.
  pose proof (all_units (fun c => negb (Z.land c 0xFC00 =? 0xDC00) || ((0xDC00 <=? c) && (c <=? 0xDFFF))) c) as H.
  specialize (H ltac:(by vm_compute) Hc). cbv beta in H. rewrite Hs in H. cbn in H. lia.
Qed.

Lemma combined_range c1 c2 : 0xD800 <= c1 <= 0xDBFF -> 0xDC00 <= c2 <= 0xDFFF -> code_point (combine_surrogates c1 c2).
Proof. intros H1 H2. unfold combine_surrogates, code_point. rewrite Z.shiftl_mul_pow2 by lia. change (2 ^ 10) with 1024. lia. Qed.

Lemma deref_in {B} (l : list B) i : (i < length l)%nat -> exists x, deref l i = Done x /\ l !! i = Some x.
Proof. intros Hi. destruct (lookup_lt_is_Some_2 l i Hi) as [x Hx]. exists x. unfold deref. by rewrite Hx. Qed.

Lemma unit_at (str : list Z) i c : Forall unit16 str -> str !! i = Some c -> unit16 c.
Proof. intros H. apply Forall_lookup_1. exact H. Qed.

Lemma utf16Next_spec it str : Forall unit16 str -> (it < length str)%nat ->
  exists n cp, utf16NextOrFFFD it str = Done (n, cp) /\ (it < n <= length str)%nat /\ code_point cp.
Proof.
  intros Hu Hi. unfold utf16NextOrFFFD. destruct (deref_in str it Hi) as (c & -> & Hc). cbn [obind].
  pose proof (unit_at _ _ _ Hu Hc) as Huc. destruct (is_surrogate c) eqn:Hs.
  - destruct ((Z.land c 0x400 =? 0) && (S it <? length str)%nat) eqn:Hl.
    + apply andb_true_iff in Hl as [Hl0 Hl1]. apply Z.eqb_eq in Hl0. apply Nat.ltb_lt in Hl1. destruct (deref_in str (S it)) as (c2 & -> & Hc2); [lia|]. cbn [obind].
      destruct (Z.eqb_spec (Z.land c2 0xFC00) 0xDC00) as [Ht|Ht].
      * do 2 eexists. split; [reflexivity|]. split; [lia|].
        apply combined_range; [by apply lead_surrogate_range|].
        apply trail_surrogate_range; [by apply (unit_at str (S it))|done].
      * do 2 eexists. split; [reflexivity|]. split; [lia|]. by unfold code_point.
    + do 2 eexists. split; [reflexivity|]. split; [lia|]. by unfold code_point.
  - do 2 eexists. split; [reflexivity|]. split; [lia|]. unfold code_point, unit16 in *. lia.
Qed.

(** ** The detector *)

Record detector_ok (d : CodepointWidthDetector) : Prop := {
  do_ambiguous : 1 <= _ambiguousWidth d <= 2;
  do_cache : Forall (fun entry => 1 <= snd entry <= 2) (_fallbackCache d);
}.

(** What a state can be between calls in a mode. *)
Definition mode_state (m : TextMeasurementMode) (st : Z) : Prop :=
  match m with
  | ModeGraphemes => st = 0 \/ st = -1 \/ st = -2
  | _ => st = 0 \/ st = 1
  end.

Record state_ok (d : CodepointWidthDetector) (s : GraphemeState) : Prop := {
  so_state : mode_state (_mode d) (_state s);
  so_width : 0 <= gs_width s <= 2;
}.

Lemma new_state_ok d : state_ok d new_GraphemeState.
Proof. split; cbn; [|lia]. by destruct (_mode d); left. Qed.

Lemma width_of_range d val : detector_ok d -> ucd_value val = true -> 0 <= width_of d val <= 2.
Proof.
  intros [Ha _] Hv. pose proof (ucd_width val Hv). unfold width_of. destruct (Z.eqb_spec (ucdToCharacterWidth val) 3); lia.
Qed.

Lemma cluster_width_range d val cp : detector_ok d -> ucd_value val = true -> 0 <= cluster_width d val cp <= 2.
Proof. intros Hd Hv. unfold cluster_width. step_if; [lia|]. by apply width_of_range. Qed.

(** ** Graphemes *)

Lemma fetch_next_spec d str : Forall unit16 str -> detector_ok d -> forall fuel e w st lead,
  (e < length str)%nat -> (length str - e <= fuel)%nat -> 0 <= st <= 1 -> 0 <= w ->
  exists e' w' st' l', fetch_next fuel d str e w st lead = Done (e', w', st', l') /\ (e <= e' <= length str)%nat /\ 0 <= w' /\
    ((e' < length str)%nat /\ st' = Z.lnot 0 \/ e' = length str /\ 0 <= st' <= 1).
Proof.
  intros Hu Hd fuel. induction fuel as [|fuel IH]; intros e w st lead He Hf Hst Hw; [lia|]. cbn [fetch_next].
  destruct (utf16Next_spec e str Hu He) as (n & cp & -> & Hn & Hcp). cbn [obind].
  destruct (ucdLookup_bounds cp Hcp) as (v & -> & Hv). cbn [obind].
  destruct (ucdGraphemeJoins_bounds st lead v Hst) as (st2 & -> & Hst2). cbn [obind].
  destruct (ucdGraphemeDone st2) eqn:Hdone.
  - do 4 eexists. split; [reflexivity|]. split; [lia|]. split; [done|]. by left.
  - destruct Hst2 as [?|Hst2]; [done|]. pose proof (cluster_width_range d v cp Hd Hv) as Hcw.
    destruct (Nat.leb_spec (length str) n) as [Hend|Hend].
    + do 4 eexists. split; [reflexivity|]. split; [lia|]. split; [lia|]. right. split; [lia|done].
    + destruct (IH n (w + cluster_width d v cp) st2 v) as (e' & w' & st' & l' & -> & H1 & H2 & H3); [lia|lia|done|lia|].
      do 4 eexists. split; [reflexivity|]. split; [lia|]. by split.
Qed.

(** One call: the cluster starts where the last one ended. *)
Record next_cluster (d : CodepointWidthDetector) (s : GraphemeState) (v : wview) (p : nat) (d' : CodepointWidthDetector)
    (s' : GraphemeState) (more : bool) : Prop := {
  nc_beg : gs_beg s' = Some (wv_id v, p);
  nc_range : (p + gs_len s' <= length (wv_chars v))%nat;
  nc_progress : _state s = 0 -> (0 < gs_len s')%nat;
  nc_state : state_ok d' s';
  nc_done : if more then _state s' = 0 else (p + gs_len s' = length (wv_chars v))%nat \/ _mode d = ModeConsole;
  nc_detector : detector_ok d' /\ _mode d' = _mode d;
}.

Lemma clamp_width w : 0 <= w -> 0 <= (if w >? 2 then 2 else w) <= 2.
Proof. intros H. destruct (Z.gtb_spec w 2); lia. Qed.

Lemma graphemeNext_spec d s v p : detector_ok d -> _mode d = ModeGraphemes -> state_ok d s -> Forall unit16 (wv_chars v) ->
  resetIfOutOfRange v 0 (cluster_end_ptr s) = p -> (p < length (wv_chars v))%nat ->
  exists s' more, _graphemeNext d s v = Done (s', more) /\ next_cluster d s v p d s' more /\
    more = (p + gs_len s' <? length (wv_chars v))%nat.
Proof.
  intros Hd Hm [Hst Hw] Hu Hp Hlt. unfold _graphemeNext. rewrite Hp, (proj2 (Nat.ltb_lt _ _)) by done. rewrite Hm in Hst. cbn in Hst.
  set (str := wv_chars v) in *.
  assert (Hrun : exists e w st l, next_run d s str p = Done (e, w, st, l) /\
    (p <= e <= length str)%nat /\ 0 <= w /\ (_state s = 0 -> (p < e)%nat) /\
    ((e < length str)%nat /\ st = Z.lnot 0 \/ e = length str /\ 0 <= st <= 1)).
  { unfold next_run. destruct (Z.eqb_spec (_state s) 0) as [H0|H0]; cbn [negb].
    - destruct (utf16Next_spec p str Hu Hlt) as (n & cp & -> & Hn & Hcp). cbn [obind].
      destruct (ucdLookup_bounds cp Hcp) as (val & -> & Hv). cbn [obind].
      pose proof (cluster_width_range d val cp Hd Hv) as Hcw. destruct (Nat.leb_spec (length str) n) as [Hend|Hend].
      + do 4 eexists. split; [reflexivity|]. split_and!; [lia|lia|lia|lia|]. right. split; lia.
      + destruct (fetch_next_spec d str Hu Hd (length str) n (cluster_width d val cp) 0 val) as (e & w & st & l & -> & H1 & H2 & H3);
          [lia|lia|lia|lia|]. do 4 eexists. split; [reflexivity|]. split_and!; [lia|lia|done|lia|done].
    - destruct (fetch_next_spec d str Hu Hd (length str) p (gs_width s) (Z.lnot (_state s)) (_last s)) as (e & w & st & l & -> & H1 & H2 & H3);
        [lia|lia| |lia|].
      { destruct Hst as [?|[->| ->]]; [done|by vm_compute|by vm_compute]. }
      do 4 eexists. split; [reflexivity|]. split_and!; [lia|lia|done|done|done]. }
  destruct Hrun as (e & w & st & l & -> & He & Hw' & Hprog & Hcase). cbn [obind].
  do 2 eexists. split; [reflexivity|]. pose proof (clamp_width w Hw') as Hcl.
  split; [split; cbn [gs_beg gs_len _state gs_width]|].
  - done.
  - fold str. lia.
  - intros H0. specialize (Hprog H0). lia.
  - split; [rewrite Hm; cbn [mode_state _state]|exact Hcl]. unfold Z.lnot in *. destruct Hcase as [[_ ->]|[_ Hc]]; lia.
  - fold str. destruct (Nat.ltb_spec e (length str)); [|left; lia]. destruct Hcase as [[_ ->]|[-> _]]; [done|lia].
  - done.
  - fold str. cbn [gs_len]. by replace (p + (e - p))%nat with e by lia.
Qed.

(** ** The other modes *)

Lemma wcswidth_spec d str : Forall unit16 str -> detector_ok d -> forall fuel e w st,
  (e < length str)%nat -> (length str - e <= fuel)%nat -> (st = 0 /\ w = 0 \/ st = 1 /\ 0 <= w <= 2) ->
  exists e' w' st', wcswidth_loop fuel d str e w st = Done (e', w', st') /\ (e <= e' <= length str)%nat /\ 0 <= w' <= 2 /\
    (st = 0 -> (e < e')%nat) /\ ((e' < length str)%nat /\ st' = 0 \/ e' = length str /\ st' = 1).
Proof.
  intros Hu Hd fuel. induction fuel as [|fuel IH]; intros e w st He Hf Hst; [lia|]. cbn [wcswidth_loop].
  destruct (utf16Next_spec e str Hu He) as (n & cp & -> & Hn & Hcp). cbn [obind].
  destruct (ucdLookup_bounds cp Hcp) as (v & -> & Hv). cbn [obind]. pose proof (width_of_range d v Hd Hv) as Hw.
  destruct (negb (st =? 0) && negb (width_of d v =? 0)) eqn:Hb.
  - do 3 eexists. split; [reflexivity|]. split_and!; lia.
  - assert (Hnew : 0 <= w + width_of d v <= 2) by lia. destruct (Nat.leb_spec (length str) n) as [Hend|Hend].
    + do 3 eexists. split; [reflexivity|]. split_and!; lia.
    + destruct (IH n (w + width_of d v) 1) as (e' & w' & st' & -> & H1 & H2 & H3 & H4); [lia|lia|by right|].
      do 3 eexists. split; [reflexivity|]. split_and!; first [lia|done].
Qed.

Section Modes.
Context (fallback : option (list Z -> option bool)).

Lemma fallback_spec cp d : detector_ok d -> let '(d', w) := _checkFallbackViaCache fallback cp d in
  detector_ok d' /\ 1 <= w <= 2 /\ _mode d' = _mode d.
Proof.
  intros Hd. pose proof Hd as [Ha Hc]. unfold _checkFallbackViaCache. destruct fallback as [f|]; [|split_and!; try done; lia].
  unfold cache_find. destruct (find _ (_fallbackCache d)) as [[k w]|] eqn:Hf.
  - split; [done|]. split; [|done]. apply find_some in Hf as [Hin _]. rewrite List.Forall_forall in Hc. exact (Hc _ Hin).
  - destruct (f (encode_utf16 cp)) as [wide|]; [|split_and!; try done; lia]. split; [|split; [destruct wide; lia|done]].
    split; [done|]. cbn. unfold cache_insert. constructor; [cbn; destruct wide; lia|]. rewrite Forall_forall in *. intros x Hx. apply Hc. rewrite <- list_elem_of_In in *. by apply list_elem_of_filter in Hx as [_ ?].
Qed.

Lemma console_width_spec d cp : detector_ok d -> code_point cp ->
  exists d' w, console_width fallback d cp = Done (d', w) /\ detector_ok d' /\ 0 <= w <= 2 /\ _mode d' = _mode d.
Proof.
  intros Hd Hcp. unfold console_width. destruct (ucdLookup_bounds cp Hcp) as (v & -> & Hv). cbn [obind].
  pose proof (ucd_width v Hv). destruct (Z.eqb_spec (ucdToCharacterWidth v) 3).
  - pose proof (fallback_spec cp d Hd) as Hf. destruct (_checkFallbackViaCache fallback cp d) as [d' w].
    exists d', w. split; [done|]. split; [apply Hf|]. split; [lia|apply Hf].
  - do 2 eexists. split; [reflexivity|]. split; [done|]. split; [lia|done].
Qed.

(** Every call of [GraphemeNext]. *)
Lemma GraphemeNext_spec d s v p : detector_ok d -> state_ok d s -> Forall unit16 (wv_chars v) ->
  resetIfOutOfRange v 0 (cluster_end_ptr s) = p -> (p < length (wv_chars v))%nat ->
  exists d' s' more, GraphemeNext fallback d s v = Done (d', s', more) /\ next_cluster d s v p d' s' more /\
    (_state s = 0 -> more = (p + gs_len s' <? length (wv_chars v))%nat).
Proof.
  intros Hd Hs Hu Hp Hlt. unfold GraphemeNext. destruct (_mode d) eqn:Hm.
  - destruct (graphemeNext_spec d s v p Hd Hm Hs Hu Hp Hlt) as (s' & more & -> & Hn & He).
    exists d, s', more. split; [done|]. split; [done|]. intros _. exact He.
  - destruct Hs as [Hst Hw]. rewrite Hm in Hst. cbn in Hst. unfold _graphemeNextWcswidth. rewrite Hp, (proj2 (Nat.leb_gt _ _)) by done.
    destruct (wcswidth_spec d (wv_chars v) Hu Hd (length (wv_chars v)) p (if _state s =? 0 then 0 else gs_width s) (_state s))
      as (e & w & st & -> & H1 & H2 & H3 & H4); [done|lia|destruct Hst as [-> | ->]; [by left|right; cbn; lia]|]. cbn [obind keep_detector].
    do 3 eexists. split; [reflexivity|]. split; [split; cbn [gs_beg gs_len _state gs_width]; [done|lia|lia| | |done]|cbn [gs_len]; intros _; by replace (p + (e - p))%nat with e by lia].
    + split; cbn [_state gs_width]; [|lia]. rewrite Hm. cbn. lia.
    + destruct (Nat.ltb_spec e (length (wv_chars v))); [lia|left; lia].
  - destruct Hs as [Hst Hw]. rewrite Hm in Hst. cbn in Hst. unfold _graphemeNextConsole. rewrite Hp, (proj2 (Nat.leb_gt _ _)) by done.
    destruct (Z.eqb_spec (_state s) 0) as [H0|H0].
    + destruct (utf16Next_spec p (wv_chars v) Hu Hlt) as (n & cp & -> & Hn & Hcp). cbn [obind].
      destruct (console_width_spec d cp Hd Hcp) as (d' & w & -> & Hd' & Hw' & Hm'). cbn [obind].
      do 3 eexists. split; [reflexivity|].
      split; [split; cbn [gs_beg gs_len _state gs_width]; [done|lia|lia| | |by split]|].
      * split; cbn [_state gs_width]; [|lia]. rewrite Hm', Hm. cbn. destruct (Nat.leb_spec (length (wv_chars v)) n); [by right|by left].
      * destruct (Nat.leb_spec (length (wv_chars v)) n); cbn; [left; lia|done].
      * intros _. cbn [gs_len]. replace (p + (n - p))%nat with n by lia. rewrite Nat.ltb_antisym. by destruct (Nat.leb_spec (length (wv_chars v)) n).
    + cbn [obind]. do 3 eexists. split; [reflexivity|]. split; [|lia].
      split; cbn [gs_beg gs_len _state gs_width]; [done|lia|lia| |done|done]. split; cbn [_state gs_width]; [|lia]. rewrite Hm. by left.
Qed.

(** ** Segmentation *)

(** The clusters of a string, by calling until the end is reached. *)
Fixpoint segment (fuel : nat) (d : CodepointWidthDetector) (s : GraphemeState) (v : wview)
    : outcome (CodepointWidthDetector * list (nat * Z)) :=
  match fuel with
  | O => Undefined
  | S fuel =>
      let* (d, s, more) := GraphemeNext fallback d s v in
      if more : bool then
        let* (d, clusters) := segment fuel d s v in Done (d, (gs_len s, gs_width s) :: clusters)
      else Done (d, [(gs_len s, gs_width s)])
  end.

Definition cluster_ok (c : nat * Z) : Prop := (0 < fst c)%nat /\ 0 <= snd c <= 2.

Lemma segment_spec fuel v : Forall unit16 (wv_chars v) -> forall d s p, detector_ok d -> state_ok d s -> _state s = 0 ->
  resetIfOutOfRange v 0 (cluster_end_ptr s) = p -> (p < length (wv_chars v))%nat -> (length (wv_chars v) - p <= fuel)%nat ->
  exists d' cs, segment fuel d s v = Done (d', cs) /\ detector_ok d' /\ Forall cluster_ok cs /\
    (sum_list (map fst cs) = length (wv_chars v) - p)%nat.
Proof.
  intros Hu. induction fuel as [|fuel IH]; intros d s p Hd Hs H0 Hp Hlt Hf; [lia|]. cbn [segment].
  destruct (GraphemeNext_spec d s v p Hd Hs Hu Hp Hlt) as (d1 & s1 & more & -> & [N1 N2 N3 N4 N5 [N6 N7]] & Hmore). cbn [obind].
  specialize (Hmore H0). specialize (N3 H0). destruct more.
  - symmetry in Hmore. apply Nat.ltb_lt in Hmore.
    assert (Hp1 : resetIfOutOfRange v 0 (cluster_end_ptr s1) = (p + gs_len s1)%nat).
    { unfold cluster_end_ptr. rewrite N1. cbn. rewrite Nat.eqb_refl. cbn [andb]. by rewrite (proj2 (Nat.leb_le _ _)) by lia. }
    destruct (IH d1 s1 (p + gs_len s1)%nat N6 N4 N5 Hp1) as (d2 & cs & -> & Hd2 & Hcs & Hsum); [lia|lia|]. cbn [obind].
    do 2 eexists. split; [reflexivity|]. split; [done|]. split; [constructor; [|done]|cbn; lia]. split; [done|]. apply N4.
  - symmetry in Hmore. apply Nat.ltb_ge in Hmore. do 2 eexists. split; [reflexivity|]. split; [done|].
    split; [repeat constructor; [done|apply N4..]|cbn; lia].
Qed.

(** C22: in each of its three modes, and whatever the renderer answers for
    ambiguous glyphs, the detector cuts every non-empty UTF-16 string, well
    formed or not, into consecutive non-empty clusters that cover it, each at
    most two columns wide; no call leaves its string or the tables, and the
    calls come to an end. *)
Theorem graphemes_partition d v : detector_ok d -> Forall unit16 (wv_chars v) -> wv_chars v <> [] ->
  exists d' cs, segment (length (wv_chars v)) d new_GraphemeState v = Done (d', cs) /\ detector_ok d' /\
    Forall cluster_ok cs /\ sum_list (map fst cs) = length (wv_chars v).
Proof.
  intros Hd Hu Hne. assert (Hl : (0 < length (wv_chars v))%nat) by (destruct (wv_chars v); [done|cbn; lia]).
  destruct (segment_spec (length (wv_chars v)) v Hu d new_GraphemeState 0 Hd (new_state_ok d)) as (d' & cs & H1 & H2 & H3 & H4);
    [done|done|done|lia|]. exists d', cs. split_and!; try done. lia.
Qed.
End Modes.

(** ** A witness *)

(** A letter with an accent, a lone surrogate and a wide pair, in the mode of
    the old console with a renderer that throws. *)
Definition mixed_text : wview := mk_wview 0 [0x65; 0x301; 0xD800; 0xD83D; 0xDE00].

Lemma graphemes_partition_witness : exists d' cs,
  segment (Some (fun _ => None)) 5 (new_CodepointWidthDetector <| _mode := ModeConsole |>) new_GraphemeState mixed_text = Done (d', cs) /\
  detector_ok d' /\ Forall cluster_ok cs /\ sum_list (map fst cs) = 5%nat.
Proof.
  apply (graphemes_partition (Some (fun _ => None)) (new_CodepointWidthDetector <| _mode := ModeConsole |>) mixed_text);
    [split; cbn; [lia|constructor]|cbn; unfold unit16; repeat (constructor; [lia|]); constructor|done].
Defined.

(** * A cluster across two strings

    A caller that has reached the end of one string goes on with the next one
    and the same state.  What it finds is what one string would have given. *)


Section Join.
Context (d : CodepointWidthDetector).
Implicit Types (a b str : list Z).

(** A surrogate pair is not cut by the boundary. *)
Definition whole_pairs a b : Prop := forall c1 c2, a !! Nat.pred (length a) = Some c1 -> b !! 0%nat = Some c2 ->
  is_surrogate c1 = true -> Z.land c1 0x400 = 0 -> Z.land c2 0xFC00 <> 0xDC00.

Lemma deref_app_l {B} (l k : list B) i : (i < length l)%nat -> deref (l ++ k) i = deref l i.
Proof. intros Hi. unfold deref. by rewrite lookup_app_l. Qed.

Lemma deref_app_r {B} (l k : list B) i : deref (l ++ k) (length l + i) = deref k i.
Proof. unfold deref. rewrite lookup_app_r by lia. by replace (length l + i - length l)%nat with i by lia. Qed.

(** Decoding in front of the boundary, and behind it. *)
Lemma utf16Next_app_l it a b : whole_pairs a b -> (it < length a)%nat -> utf16NextOrFFFD it (a ++ b) = utf16NextOrFFFD it a.
Proof.
  intros Hw Hi. unfold utf16NextOrFFFD. rewrite deref_app_l by done. destruct (deref_in a it Hi) as (c & -> & Hc). cbn [obind].
  destruct (is_surrogate c) eqn:Hs; [|done]. destruct (Z.eqb_spec (Z.land c 0x400) 0) as [Hl|Hl]; cbn [andb]; [|done].
  rewrite length_app. destruct (Nat.ltb_spec (S it) (length a)) as [Hlt|Hge].
  - rewrite (proj2 (Nat.ltb_lt _ _)) by lia. by rewrite deref_app_l.
  - assert (He : S it = length a) by lia. destruct (Nat.ltb_spec (S it) (length a + length b)) as [Hlt2|Hge2]; [|done].
    replace (S it) with (length a + 0)%nat by lia. rewrite deref_app_r. destruct b as [|c2 b]; [cbn in Hlt2; lia|]. cbn [obind deref lookup list_lookup].
    assert (Hlast : a !! Nat.pred (length a) = Some c) by (by rewrite <- He).
    by rewrite (proj2 (Z.eqb_neq _ _)) by (by apply (Hw c c2)).
Qed.

Lemma utf16Next_app_r it a b : utf16NextOrFFFD (length a + it) (a ++ b)
  = let* (n, cp) := utf16NextOrFFFD it b in Done ((length a + n)%nat, cp).
Proof.
  unfold utf16NextOrFFFD. rewrite deref_app_r. destruct (deref b it) as [c| | |]; cbn [obind]; try done.
  replace (S (length a + it)) with (length a + S it)%nat by lia. rewrite length_app, deref_app_r.
  replace (length a + S it <? length a + length b)%nat with (S it <? length b)%nat
    by (destruct (Nat.ltb_spec (S it) (length b)), (Nat.ltb_spec (length a + S it) (length a + length b)); lia).
  destruct (is_surrogate c); [|done]. destruct (_ && _); [|done]. destruct (deref b (S it)) as [c2| | |]; cbn [obind]; try done.
  destruct (_ =? _); cbn [obind]; [|done]. by replace (S (length a + S it)) with (length a + S (S it))%nat by lia.
Qed.

Definition shift_end (k : nat) (r : outcome (nat * Z * Z * Z)) : outcome (nat * Z * Z * Z) :=
  let* (e, w, st, l) := r in Done ((k + e)%nat, w, st, l).

(** A loop behind the boundary. *)
Lemma fetch_app_r a b : forall fuel e w st lead,
  fetch_next fuel d (a ++ b) (length a + e) w st lead = shift_end (length a) (fetch_next fuel d b e w st lead).
Proof.
  induction fuel as [|fuel IH]; intros e w st lead; [done|]. cbn [fetch_next]. rewrite utf16Next_app_r.
  destruct (utf16NextOrFFFD e b) as [[n cp]| | |]; cbn [obind shift_end]; try done.
  destruct (ucdLookup cp) as [v| | |]; cbn [obind shift_end]; try done.
  destruct (ucdGraphemeJoins st lead v) as [st2| | |]; cbn [obind shift_end]; try done.
  destruct (ucdGraphemeDone st2); [done|]. rewrite length_app.
  replace (length a + length b <=? length a + n)%nat with (length b <=? n)%nat
    by (destruct (Nat.leb_spec (length b) n), (Nat.leb_spec (length a + length b) (length a + n)); lia).
  destruct (length b <=? n)%nat; [done|]. apply IH.
Qed.

(** The loop does not depend on spare fuel. *)
Lemma fetch_fuel str : Forall unit16 str -> forall fuel fuel' e w st lead, (length str - e <= fuel)%nat -> (length str - e <= fuel')%nat ->
  (e < length str)%nat -> fetch_next fuel d str e w st lead = fetch_next fuel' d str e w st lead.
Proof.
  intros Hu. induction fuel as [|fuel IH]; intros [|fuel'] e w st lead H1 H2 He; try lia. cbn [fetch_next].
  destruct (utf16Next_spec e str Hu He) as (n & cp & -> & Hn & Hcp). cbn [obind].
  destruct (ucdLookup cp) as [v| | |]; cbn [obind]; try done. destruct (ucdGraphemeJoins st lead v) as [st2| | |]; cbn [obind]; try done.
  destruct (ucdGraphemeDone st2); [done|]. destruct (Nat.leb_spec (length str) n); [done|]. apply IH; lia.
Qed.

(** A loop in front of the boundary stops there, or goes on behind it. *)
Lemma fetch_app_l a b : Forall unit16 a -> Forall unit16 b -> whole_pairs a b -> b <> [] -> forall fuel fuel' e w st lead,
  (e < length a)%nat -> (length (a ++ b) - e <= fuel)%nat -> (length a - e <= fuel')%nat ->
  fetch_next fuel d (a ++ b) e w st lead =
  let* (e', w', st', l') := fetch_next fuel' d a e w st lead in
  if (e' <? length a)%nat then Done (e', w', st', l')
  else shift_end (length a) (fetch_next (length b) d b 0 w' st' l').
Proof.
  intros Ha Hb Hw Hne. assert (Hlb : (0 < length b)%nat) by (destruct b; [done|cbn; lia]).
  assert (Hab : Forall unit16 (a ++ b)) by (by apply Forall_app).
  induction fuel as [|fuel IH]; intros [|fuel'] e w st lead He H1 H2; rewrite ?length_app in H1; try lia. cbn [fetch_next].
  rewrite utf16Next_app_l by done. destruct (utf16Next_spec e a Ha He) as (n & cp & -> & Hn & Hcp). cbn [obind].
  destruct (ucdLookup cp) as [v| | |]; cbn [obind]; try done. destruct (ucdGraphemeJoins st lead v) as [st2| | |]; cbn [obind]; try done.
  destruct (ucdGraphemeDone st2); [cbn [obind]; by rewrite (proj2 (Nat.ltb_lt _ _))|].
  rewrite (proj2 (Nat.leb_gt (length (a ++ b)) n)) by (rewrite length_app; lia).
  destruct (Nat.leb_spec (length a) n) as [Hend|Hend]; cbn [obind].
  - assert (n = length a) as -> by lia. rewrite (proj2 (Nat.ltb_ge _ _)) by lia.
    rewrite (fetch_fuel _ Hab fuel (length b)) by (rewrite ?length_app; lia).
    rewrite <- (fetch_app_r a b (length b) 0). by rewrite Nat.add_0_r.
  - apply IH; rewrite ?length_app; lia.
Qed.

Lemma clamp_twice x y : 0 <= y -> (if (if x >? 2 then 2 else x) + y >? 2 then 2 else (if x >? 2 then 2 else x) + y) = (if x + y >? 2 then 2 else x + y).
Proof. intros Hy. destruct (Z.gtb_spec x 2), (Z.gtb_spec (x + y) 2); try destruct (Z.gtb_spec (2 + y) 2); try destruct (Z.gtb_spec (x + y) 2); lia. Qed.

(** The width only accumulates. *)
Lemma fetch_width str : forall fuel e w st lead x, fetch_next fuel d str e (w + x) st lead
  = let* (e', w', st', l') := fetch_next fuel d str e w st lead in Done (e', w' + x, st', l').
Proof.
  induction fuel as [|fuel IH]; intros e w st lead x; [done|]. cbn [fetch_next].
  destruct (utf16NextOrFFFD e str) as [[n cp]| | |]; cbn [obind]; try done.
  destruct (ucdLookup cp) as [v| | |]; cbn [obind]; try done. destruct (ucdGraphemeJoins st lead v) as [st2| | |]; cbn [obind]; try done.
  destruct (ucdGraphemeDone st2); [done|]. replace (w + x + cluster_width d v cp) with (w + cluster_width d v cp + x) by lia.
  destruct (length str <=? n)%nat; [done|]. apply IH.
Qed.

(** ** The theorem *)

Context (fallback : option (list Z -> option bool)).

(** Clustering does not depend on how the text is cut into strings.  If
    the first string ends within a cluster, going on with the second string
    and the state gives the rest of the cluster, the width, the state and the
    answer that the detector gives for the two strings in one, as long as the
    cut is not inside a surrogate pair. *)
Theorem cluster_across_strings a b i j k s1 s2 more : detector_ok d -> _mode d = ModeGraphemes ->
  Forall unit16 a -> Forall unit16 b -> a <> [] -> b <> [] -> whole_pairs a b -> i <> j ->
  GraphemeNext fallback d new_GraphemeState (mk_wview i a) = Done (d, s1, false) ->
  GraphemeNext fallback d s1 (mk_wview j b) = Done (d, s2, more) ->
  GraphemeNext fallback d new_GraphemeState (mk_wview k (a ++ b))
  = Done (d, mk_GraphemeState (Some (k, 0%nat)) (length a + gs_len s2) (gs_width s2) (_state s2) (_last s2), more).
Proof.
  intros Hd Hm Ha Hb Hna Hnb Hw Hij. unfold GraphemeNext. rewrite Hm. unfold _graphemeNext. cbn [resetIfOutOfRange cluster_end_ptr gs_beg new_GraphemeState wv_chars wv_id].
  assert (Hla : (0 < length a)%nat) by (destruct a; [done|cbn; lia]). assert (Hlb : (0 < length b)%nat) by (destruct b; [done|cbn; lia]).
  rewrite length_app, !(proj2 (Nat.ltb_lt 0 _)) by lia.
  assert (Hrun : exists e w st l, next_run d new_GraphemeState a 0 = Done (e, w, st, l) /\ (e <= length a)%nat /\ (e = length a -> 0 <= st <= 1) /\
    next_run d new_GraphemeState (a ++ b) 0 = if (e <? length a)%nat then Done (e, w, st, l)
      else shift_end (length a) (fetch_next (length b) d b 0 w st l)).
  { unfold next_run. cbn [_state new_GraphemeState negb Z.eqb]. rewrite utf16Next_app_l by done.
    destruct (utf16Next_spec 0 a Ha Hla) as (n & cp & -> & Hn & Hcp). cbn [obind].
    destruct (ucdLookup_bounds cp Hcp) as (v & -> & Hv). cbn [obind]. rewrite (proj2 (Nat.leb_gt (length (a ++ b)) n)) by (rewrite length_app; lia).
    pose proof (cluster_width_range d v cp Hd Hv) as Hcw. destruct (Nat.leb_spec (length a) n) as [Hend|Hend].
    - assert (n = length a) as -> by lia. do 4 eexists. split; [reflexivity|]. split; [lia|]. split; [lia|].
      rewrite Nat.ltb_irrefl, <- (fetch_app_r a b (length b) 0), Nat.add_0_r.
      apply fetch_fuel; rewrite ?length_app; [by apply Forall_app|lia..].
    - destruct (fetch_next_spec d a Ha Hd (length a) n (cluster_width d v cp) 0 v) as (e & w & st & l & He & H1 & H2 & H3); [lia..|].
      exists e, w, st, l. split; [done|]. split; [lia|]. split; [lia|].
      rewrite (fetch_app_l a b Ha Hb Hw Hnb (length (a ++ b)) (length a)) by (rewrite ?length_app; lia). by rewrite He. }
  destruct Hrun as (e & w & st & l & -> & He & Hst & ->). cbn [obind keep_detector]. intros [= <- Hfalse]. apply Nat.ltb_ge in Hfalse.
  assert (e = length a) as -> by lia. specialize (Hst eq_refl). rewrite Nat.ltb_irrefl.
  cbn [resetIfOutOfRange cluster_end_ptr gs_beg gs_len wv_chars wv_id]. rewrite (proj2 (Nat.eqb_neq i j)) by done. cbn [andb].
  rewrite (proj2 (Nat.ltb_lt 0 _)) by lia. unfold next_run. cbn [_state gs_width _last].
  rewrite (proj2 (Z.eqb_neq (Z.lnot st) 0)) by (unfold Z.lnot; lia). cbn [negb]. rewrite Z.lnot_involutive.
  destruct (fetch_next_spec d b Hb Hd (length b) 0 0 st l) as (e2 & w2 & st2 & l2 & Hf & H1 & H2 & H3); [lia..|].
  set (cw := if w >? 2 then 2 else w). rewrite <- (Z.add_0_l cw) at 1. rewrite <- (Z.add_0_l w) at 1. rewrite !fetch_width, Hf. cbn [obind shift_end].
  intros [= <- <-]. cbn [gs_len gs_width _state _last keep_detector obind]. rewrite !Nat.sub_0_r.
  assert (Hwidth : (if w2 + w >? 2 then 2 else w2 + w) = (if w2 + cw >? 2 then 2 else w2 + cw)).
  { unfold cw. rewrite (Z.add_comm w2 w), (Z.add_comm w2 _). symmetry. by apply clamp_twice. }
  assert (Hmore : (length a + e2 <? length a + length b)%nat = (e2 <? length b)%nat)
    by (destruct (Nat.ltb_spec (length a + e2) (length a + length b)), (Nat.ltb_spec e2 (length b)); lia).
  by rewrite Hwidth, Hmore.
Qed.
End Join.

(** A letter whose accent comes with the next string. *)
Lemma cluster_across_strings_witness :
  GraphemeNext None new_CodepointWidthDetector new_GraphemeState (mk_wview 2 ([0x65] ++ [0x301; 0x66]))
  = Done (new_CodepointWidthDetector, mk_GraphemeState (Some (2%nat, 0%nat)) 2 1 0 0, true).
Proof.
  refine (cluster_across_strings new_CodepointWidthDetector None [0x65] [0x301; 0x66] 0 1 2
    _ (mk_GraphemeState (Some (1%nat, 0%nat)) 1 1 0 0) true _ _ _ _ _ _ _ _ _ _);
    [split; cbn; [lia|constructor]|reflexivity|unfold unit16; repeat (constructor; [lia|]); constructor..|done|done| |done|vm_compute; reflexivity|vm_compute; reflexivity].
  intros c1 c2 [= <-] [= <-]. vm_compute. congruence.
Defined.
