(* ===== verification/Row.v ===== *)
(** * A row of the text buffer

    The class [ROW] of [buffer/out/Row.cpp], with [CharToColumnMapper] and the
    write helper.  A row keeps its text in one piece and, for every column,
    the offset in the text at which the glyph of the column starts; the
    highest bit of the offset marks the columns of a wide glyph other than its
    first.  Columns and offsets are 16 bits wide and wrap.  An access outside
    of a row's storage is [Undefined].

    The storage [TextBuffer] hands out is rounded up to 16 bytes, and the
    vector code of [_init] relies on it: [_charsBuffer] and
    [_charOffsetsBuffer] are the whole allocations, and [_chars] and
    [_charOffsets] the parts of them in use.  The contents of fresh heap
    memory are a parameter.  Image slices are left out. *)

From S2P Require Import Prelude TermDispatch Colors TextAttribute Rle Graphemes.
#[local] Open Scope Z_scope.

Inductive DbcsAttribute := DbcsSingle | DbcsLeading | DbcsTrailing.
Inductive DelimiterClass := ControlChar | DelimiterChar | RegularChar.
Inductive MarkCategory := MarkDefault | MarkError | MarkWarning | MarkSuccess | MarkPrompt.

Record ScrollbarData := mk_ScrollbarData {
  category : MarkCategory;
  mark_color : option color;
  exitCode : option Z;
}.

#[export] Instance ScrollbarData_eta : Eta ScrollbarData := fun s =>
  mk_ScrollbarData (category s) (mark_color s) (exitCode s).

#[export] Instance TextAttribute_inhabited : Inhabited TextAttribute := populate TextAttribute_default.

Record ROW := mk_ROW {
  _charsBuffer : list Z;
  _charsHeap : option (list Z);
  _charOffsetsBuffer : list Z;
  _attr : basic_rle TextAttribute;
  _columnCount : Z;
  _lineRendition : LineRendition;
  _wrapForced : bool;
  _doubleBytePadded : bool;
  _promptData : option ScrollbarData;
}.

#[export] Instance ROW_eta : Eta ROW := fun r =>
  mk_ROW (_charsBuffer r) (_charsHeap r) (_charOffsetsBuffer r) (_attr r) (_columnCount r) (_lineRendition r)
    (_wrapForced r) (_doubleBytePadded r) (_promptData r).

Definition CharOffsetsTrailer : Z := 0x8000.
Definition CharOffsetsMask : Z := 0x7fff.

Definition CalculateCharsBufferSize (columns : Z) : Z := Z.land (columns * 2 + 16) (Z.lnot 15).
Definition CalculateCharOffsetsBufferSize (columns : Z) : Z := Z.land (columns * 2 + 16) (Z.lnot 15).

(** ** Memory *)

(** Writing consecutive elements from an index on. *)
Definition store (l : list Z) (i : Z) (xs : list Z) : outcome (list Z) :=
  if (0 <=? i) && (i + Z.of_nat (length xs) <=? Z.of_nat (length l)) then
    let n := Z.to_nat i in Done (take n l ++ xs ++ drop (n + length xs) l)
  else Undefined.

(** Reading consecutive elements. *)
Definition fetch (l : list Z) (i count : Z) : outcome (list Z) :=
  if (0 <=? i) && (0 <=? count) && (i + count <=? Z.of_nat (length l)) then Done (substr (Z.to_nat i) (Z.to_nat count) l) else Undefined.

Definition element (l : list Z) (i : Z) : outcome Z := if i <? 0 then Undefined else deref l (Z.to_nat i).

(** What the loops of [fill_small], [fill_n_small] and [iota_n] write. *)
Definition fill_n (count val : Z) : list Z := repeat val (Z.to_nat count).
Definition iota_n (count val : Z) : list Z := map (fun k => u16 (val + Z.of_nat k)) (seq 0 (Z.to_nat count)).

Definition clamp (value lo hi : Z) : Z := if value <? lo then lo else if value >? hi then hi else value.

(** The spans [_chars] and [_charOffsets]. *)
Definition _chars (r : ROW) : list Z :=
  match _charsHeap r with Some heap => heap | None => take (Z.to_nat (_columnCount r)) (_charsBuffer r) end.
Definition _charOffsets (r : ROW) : list Z := take (S (Z.to_nat (_columnCount r))) (_charOffsetsBuffer r).

Definition with_chars (l : list Z) (r : ROW) : ROW :=
  match _charsHeap r with
  | Some _ => r <| _charsHeap := Some l |>
  | None => r <| _charsBuffer := l ++ drop (length l) (_charsBuffer r) |>
  end.
Definition with_offsets (l : list Z) (r : ROW) : ROW :=
  r <| _charOffsetsBuffer := l ++ drop (length l) (_charOffsetsBuffer r) |>.

Definition store_chars (i : Z) (xs : list Z) (r : ROW) : outcome ROW :=
  let* l := store (_chars r) i xs in Done (with_chars l r).
Definition store_offsets (i : Z) (xs : list Z) (r : ROW) : outcome ROW :=
  let* l := store (_charOffsets r) i xs in Done (with_offsets l r).

(** ** Columns *)

Definition _clampedColumn (r : ROW) (v : Z) : Z := u16 (clamp v 0 (_columnCount r - 1)).
Definition _clampedColumnInclusive (r : ROW) (v : Z) : Z := u16 (clamp v 0 (_columnCount r)).

Definition _charSize (r : ROW) : outcome Z := element (_charOffsets r) (_columnCount r).
Definition _uncheckedChar (r : ROW) (off : Z) : outcome Z := element (_chars r) off.
Definition _uncheckedCharOffset (r : ROW) (col : Z) : outcome Z :=
  let* o := element (_charOffsets r) col in Done (Z.land o CharOffsetsMask).
Definition is_trailer (o : Z) : bool := negb (Z.land o CharOffsetsTrailer =? 0).
Definition _uncheckedIsTrailer (r : ROW) (col : Z) : outcome bool :=
  let* o := element (_charOffsets r) col in Done (is_trailer o).

(** A search that goes below the first column leaves the storage. *)
Fixpoint adjust_backward (offsets : list Z) (column : nat) : outcome nat :=
  let* o := deref offsets column in
  if is_trailer o then match column with O => Undefined | S column => adjust_backward offsets column end
  else Done column.

Fixpoint adjust_forward (fuel : nat) (offsets : list Z) (column : nat) : outcome nat :=
  let* o := deref offsets column in
  if is_trailer o then match fuel with O => Undefined | S fuel => adjust_forward fuel offsets (S column) end
  else Done column.

Definition _adjustBackward (r : ROW) (column : Z) : outcome Z :=
  let* c := adjust_backward (_charOffsets r) (Z.to_nat column) in Done (Z.of_nat c).
Definition _adjustForward (r : ROW) (column : Z) : outcome Z :=
  let* c := adjust_forward (length (_charOffsets r)) (_charOffsets r) (Z.to_nat column) in Done (Z.of_nat c).

Definition NavigateToPrevious (r : ROW) (column : Z) : outcome Z := _adjustBackward r (_clampedColumn r (column - 1)).
Definition NavigateToNext (r : ROW) (column : Z) : outcome Z := _adjustForward r (_clampedColumnInclusive r (column + 1)).
Definition AdjustToGlyphStart (r : ROW) (column : Z) : outcome Z := _adjustBackward r (_clampedColumn r column).
Definition AdjustToGlyphEnd (r : ROW) (column : Z) : outcome Z := _adjustForward r (_clampedColumnInclusive r column).

(** ** Members *)

Definition SetWrapForced (wrap : bool) (r : ROW) : ROW := r <| _wrapForced := wrap |>.
Definition WasWrapForced (r : ROW) : bool := _wrapForced r.
Definition SetDoubleBytePadded (padded : bool) (r : ROW) : ROW := r <| _doubleBytePadded := padded |>.
Definition WasDoubleBytePadded (r : ROW) : bool := _doubleBytePadded r.
Definition SetLineRendition (rendition : LineRendition) (r : ROW) : ROW := r <| _lineRendition := rendition |>.
Definition GetLineRendition (r : ROW) : LineRendition := _lineRendition r.

Definition GetReadableColumnCount (r : ROW) : Z :=
  match _lineRendition r with
  | SingleWidth => _columnCount r - Z.b2z (_doubleBytePadded r)
  | _ => Z.shiftr (_columnCount r - Z.shiftl (Z.b2z (_doubleBytePadded r)) 1) 1
  end.

Definition Row_size (r : ROW) : Z := _columnCount r.

Definition GetAttrByColumn (r : ROW) (column : Z) : outcome TextAttribute := rle_at 16 (_attr r) (_clampedColumn r column).
Definition GetHyperlinks (r : ROW) : list Z :=
  map (fun run => _hyperlinkId (value run)) (filter (fun run => IsHyperlink (value run) = true) (_runs (_attr r))).
Definition SetAttrToEnd (columnBegin : Z) (attr : TextAttribute) (r : ROW) : outcome ROW :=
  let* a := replace_value 16 (_attr r) (_clampedColumnInclusive r columnBegin) (rle_size (_attr r)) attr in Done (r <| _attr := a |>).
Definition ReplaceAttributes (beginIndex endIndex : Z) (newAttr : TextAttribute) (r : ROW) : outcome ROW :=
  let* a := replace_value 16 (_attr r) (_clampedColumnInclusive r beginIndex) (_clampedColumnInclusive r endIndex) newAttr in
  Done (r <| _attr := a |>).

Definition GetScrollbarData (r : ROW) : option ScrollbarData := _promptData r.
Definition SetScrollbarData (data : option ScrollbarData) (r : ROW) : ROW := r <| _promptData := data |>.
Definition StartPrompt (r : ROW) : ROW :=
  match _promptData r with
  | Some _ => r
  | None => r <| _promptData := Some (mk_ScrollbarData MarkPrompt None None) |>
  end.
Definition EndOutput (error : option Z) (r : ROW) : ROW :=
  match _promptData r with
  | None => r
  | Some data =>
      let data := data <| exitCode := error |> in
      r <| _promptData := Some match error with
                               | Some e => data <| category := if e =? 0 then MarkSuccess else MarkError |>
                               | None => data
                               end |>
  end.

(** ** Initialisation *)

(** The instructions the machine has. *)
Inductive ISA := AVX2 | SSE2 | NEON.

Definition whitespaceData (lanes : Z) : list Z := fill_n lanes 0x20.
Definition offsetsData (lanes : Z) : list Z := iota_n lanes 0.
(** [_mm_add_epi16], [_mm256_add_epi16] and [vaddq_u16] of a constant. *)
Definition add_lanes (n : Z) (v : list Z) : list Z := map (fun x => u16 (x + n)) v.

(** A loop that writes a vector to both buffers and goes on while the next
    position is below [limit]. *)
Fixpoint init_loop (fuel : nat) (lanes limit pos : Z) (offsets : list Z) (bufs : list Z * list Z) : outcome (list Z * list Z) :=
  match fuel with
  | O => Undefined
  | S fuel =>
      let* chars := store (fst bufs) pos (whitespaceData lanes) in
      let* charOffsets := store (snd bufs) pos offsets in
      let pos := pos + lanes in
      if pos <? limit then init_loop fuel lanes limit pos (add_lanes lanes offsets) (chars, charOffsets)
      else Done (chars, charOffsets)
  end.

Definition init_avx2 (columnCount : Z) (bufs : list Z * list Z) : outcome (list Z * list Z) :=
  let tailColumnOffset := u16 (Z.land (columnCount - 8) (Z.lnot 7)) in
  let* bufs :=
    if 0 <? tailColumnOffset then init_loop (S (Z.to_nat columnCount)) 16 tailColumnOffset 0 (offsetsData 16) bufs
    else Done bufs in
  let* chars := store (fst bufs) tailColumnOffset (whitespaceData 16) in
  let* charOffsets := store (snd bufs) tailColumnOffset (add_lanes tailColumnOffset (offsetsData 16)) in
  Done (chars, charOffsets).

(** SSE2 and NEON: [while (chars <= charsEnd)]. *)
Definition init_8 (columnCount : Z) (bufs : list Z * list Z) : outcome (list Z * list Z) :=
  init_loop (S (Z.to_nat columnCount)) 8 (columnCount + 1) 0 (offsetsData 8) bufs.

Definition _init (isa : ISA) (r : ROW) : outcome ROW :=
  let bufs := (_charsBuffer r, _charOffsetsBuffer r) in
  let* (chars, charOffsets) :=
    match isa with
    | AVX2 => if _columnCount r >=? 15 then init_avx2 (_columnCount r) bufs else init_8 (_columnCount r) bufs
    | SSE2 | NEON => init_8 (_columnCount r) bufs
    end in
  Done (r <| _charsBuffer := chars |> <| _charOffsetsBuffer := charOffsets |>).

(** What the function is meant to do: the code after the [#error]. *)
Definition init_plain (r : ROW) : outcome ROW :=
  let* chars := store (_charsBuffer r) 0 (fill_n (_columnCount r) 0x20) in
  let* charOffsets := store (_charOffsetsBuffer r) 0 (iota_n (_columnCount r + 1) 0) in
  Done (r <| _charsBuffer := chars |> <| _charOffsetsBuffer := charOffsets |>).

Definition new_ROW (isa : ISA) (charsBuffer charOffsetsBuffer : list Z) (rowWidth : Z) (fillAttribute : TextAttribute) : outcome ROW :=
  _init isa (mk_ROW charsBuffer None charOffsetsBuffer (rle_of_value rowWidth fillAttribute) rowWidth SingleWidth false false None).

(** [unsafe_shrink_to_size(1)] keeps the first run, and the total. *)
Definition Row_Reset (isa : ISA) (attr : TextAttribute) (r : ROW) : outcome ROW :=
  let* _ := deref (_runs (_attr r)) 0 in
  _init isa
    (r <| _charsHeap := None |>
       <| _attr := mk_rle [mk_run attr (_columnCount r)] (_total_length (_attr r)) |>
       <| _lineRendition := SingleWidth |>
       <| _wrapForced := false |>
       <| _doubleBytePadded := false |>
       <| _promptData := None |>).

(** ** Reading text *)

Definition GetText (r : ROW) : outcome (list Z) :=
  let* o := element (_charOffsets r) (GetReadableColumnCount r) in
  fetch (_chars r) 0 (Z.land o CharOffsetsMask).

Definition GetText_range (r : ROW) (columnBegin columnEnd : Z) : outcome (list Z) :=
  let columns := GetReadableColumnCount r in
  let colBeg := clamp columnBegin 0 columns in
  let colEnd := clamp columnEnd colBeg columns in
  let* chBeg := _uncheckedCharOffset r colBeg in
  let* chEnd := _uncheckedCharOffset r colEnd in
  fetch (_chars r) chBeg (chEnd - chBeg).

Fixpoint skip_spaces (text : list Z) : nat :=
  match text with
  | c :: text => if c =? 0x20 then S (skip_spaces text) else 0
  | [] => 0
  end.

Definition GetLastNonSpaceColumn (r : ROW) : outcome Z :=
  let* text := GetText r in Done (GetReadableColumnCount r - Z.of_nat (skip_spaces (rev text))).

Definition MeasureLeft (r : ROW) : outcome Z := let* text := GetText r in Done (Z.of_nat (skip_spaces text)).

Definition MeasureRight (r : ROW) : outcome Z :=
  if _wrapForced r then Done (if _doubleBytePadded r then u16 (_columnCount r - 1) else _columnCount r)
  else GetLastNonSpaceColumn r.

Definition ContainsText (r : ROW) : outcome bool :=
  let* text := GetText r in Done (existsb (fun c => negb (c =? 0x20)) text).

Definition GlyphAt (r : ROW) (column : Z) : outcome (list Z) :=
  let col := _clampedColumn r column in
  let* beg := _uncheckedCharOffset r col in
  let* col := _adjustForward r (col + 1) in
  let* end_ := _uncheckedCharOffset r col in
  fetch (_chars r) beg (end_ - beg).

Definition DbcsAttrAt (r : ROW) (column : Z) : outcome DbcsAttribute :=
  let col := _clampedColumn r column in
  let* trailing := _uncheckedIsTrailer r col in
  if trailing : bool then Done DbcsTrailing
  else
    let* leading := _uncheckedIsTrailer r (col + 1) in
    Done (if leading : bool then DbcsLeading else DbcsSingle).

Definition DelimiterClassAt (r : ROW) (column : Z) (wordDelimiters : list Z) : outcome DelimiterClass :=
  let col := _clampedColumn r column in
  let* off := _uncheckedCharOffset r col in
  let* glyph := _uncheckedChar r off in
  Done (if glyph <=? 0x20 then ControlChar
        else if existsb (Z.eqb glyph) wordDelimiters then DelimiterChar else RegularChar).

(** ** From offsets to columns *)

Record CharToColumnMapper := mk_Mapper {
  mapper_offsets : list Z;
  _charsLength : Z;
  _currentColumn : nat;
  mapper_columnCount : nat;
}.

#[export] Instance CharToColumnMapper_eta : Eta CharToColumnMapper := fun m =>
  mk_Mapper (mapper_offsets m) (_charsLength m) (_currentColumn m) (mapper_columnCount m).

Fixpoint mapper_forward (fuel : nat) (offsets : list Z) (target : Z) (col : nat) : outcome nat :=
  let* currentOffset := deref offsets col in
  if target >? Z.land currentOffset CharOffsetsMask then
    match fuel with O => Undefined | S fuel => mapper_forward fuel offsets target (S col) end
  else Done col.

Fixpoint mapper_backward (offsets : list Z) (target : Z) (col : nat) : outcome nat :=
  let* currentOffset := deref offsets col in
  if target <? currentOffset then match col with O => Undefined | S col => mapper_backward offsets target col end
  else Done col.

Definition GetLeadingColumnAt (targetOffset : Z) (m : CharToColumnMapper) : outcome (CharToColumnMapper * nat) :=
  let target := clamp targetOffset 0 (_charsLength m) in
  let* col := mapper_forward (length (mapper_offsets m)) (mapper_offsets m) target (_currentColumn m) in
  let* col := mapper_backward (mapper_offsets m) target col in
  Done (m <| _currentColumn := col |>, col).

Fixpoint last_column (fuel : nat) (offsets : list Z) (col : nat) : outcome nat :=
  let* o := deref offsets (S col) in
  if is_trailer o then match fuel with O => Undefined | S fuel => last_column fuel offsets (S col) end
  else Done col.

Definition GetTrailingColumnAt (offset : Z) (m : CharToColumnMapper) : outcome (CharToColumnMapper * nat) :=
  let* (m, col) := GetLeadingColumnAt offset m in
  if (col <? mapper_columnCount m)%nat then
    let* col := last_column (length (mapper_offsets m)) (mapper_offsets m) col in Done (m, col)
  else Done (m, col).

Definition _createCharToColumnMapper (r : ROW) (offset : Z) : outcome CharToColumnMapper :=
  let* charsSize := _charSize r in
  Done (mk_Mapper (_charOffsets r) charsSize (Z.to_nat (clamp offset 0 (_columnCount r))) (Z.to_nat (_columnCount r))).

Definition GetLeadingColumnAtCharOffset (r : ROW) (offset : Z) : outcome nat :=
  let* m := _createCharToColumnMapper r offset in
  let* (_, col) := GetLeadingColumnAt offset m in Done col.
Definition GetTrailingColumnAtCharOffset (r : ROW) (offset : Z) : outcome nat :=
  let* m := _createCharToColumnMapper r offset in
  let* (_, col) := GetTrailingColumnAt offset m in Done col.
