(* ===== verification/RowWrite.v ===== *)
(** * Writing into a row

    The class [ROW::WriteHelper] of [buffer/out/Row.cpp] and the operations of
    [ROW] on top of it.  A helper holds the row it writes to.  An operation
    that throws resets the row first; its result says whether it threw. *)

From S2P Require Import Prelude TermDispatch Colors TextAttribute Rle Graphemes Row.
#[local] Open Scope Z_scope.

Record WriteHelper := mk_WriteHelper {
  h_row : ROW;
  h_chars : list Z;
  colBeg : Z;
  colLimit : Z;
  colEnd : Z;
  colBegDirty : Z;
  colEndDirty : Z;
  chBeg : Z;
  chBegDirty : Z;
  leadingSpaces : Z;
  charsConsumed : Z;
}.

#[export] Instance WriteHelper_eta : Eta WriteHelper := fun h =>
  mk_WriteHelper (h_row h) (h_chars h) (colBeg h) (colLimit h) (colEnd h) (colBegDirty h) (colEndDirty h) (chBeg h)
    (chBegDirty h) (leadingSpaces h) (charsConsumed h).

Definition new_WriteHelper (r : ROW) (columnBegin columnLimit : Z) (chars : list Z) : outcome WriteHelper :=
  let colBeg := _clampedColumnInclusive r columnBegin in
  let colLimit := _clampedColumnInclusive r columnLimit in
  let* chBegDirty := _uncheckedCharOffset r colBeg in
  let* colBegDirty := _adjustBackward r colBeg in
  let leadingSpaces := u16 (colBeg - colBegDirty) in
  let chBeg := u16 (chBegDirty + leadingSpaces) in
  Done (mk_WriteHelper r chars colBeg colLimit colBeg colBegDirty 0 chBeg chBegDirty leadingSpaces 0).

Definition IsValid (h : WriteHelper) : bool :=
  (colBeg h <? colLimit h) && match h_chars h with [] => false | _ => true end.

(** The offsets of a glyph that starts at [ch] in the text: one entry, and
    entries with the trailer bit up to [colEndNew]. *)
Definition write_glyph (ch colEndNew : Z) (h : WriteHelper) : outcome WriteHelper :=
  let count := Z.max 0 (colEndNew - (colEnd h + 1)) in
  let* r := store_offsets (colEnd h) (u16 ch :: fill_n count (u16 (Z.lor ch CharOffsetsTrailer))) (h_row h) in
  Done (h <| h_row := r |> <| colEnd := u16 (colEnd h + 1 + count) |>).

Definition Helper_ReplaceCharacters (width : Z) (h : WriteHelper) : outcome WriteHelper :=
  let colEndNew := u16 (colEnd h + width) in
  if colEndNew >? colLimit h then Done (h <| colEndDirty := colLimit h |>)
  else
    let* h := write_glyph (chBeg h) colEndNew h in
    Done (h <| colEndDirty := colEnd h |> <| charsConsumed := Z.of_nat (length (h_chars h)) |>).

(** The end of [ReplaceText]: at [ch] in the text everything was written, or
    the glyph there does not fit. *)
Definition text_written (ch : Z) (h : WriteHelper) : WriteHelper :=
  h <| colEndDirty := colEnd h |> <| charsConsumed := ch - chBeg h |>.
Definition text_limited (ch : Z) (h : WriteHelper) : WriteHelper :=
  h <| colEndDirty := colLimit h |> <| charsConsumed := ch - chBeg h |>.

(** The start of the glyph in front of a column. *)
Fixpoint previous_glyph (offsets : list Z) (col : nat) : outcome nat :=
  match col with
  | O => Done O
  | S col => let* o := deref offsets col in if is_trailer o then previous_glyph offsets col else Done col
  end.

(** The number of the caller's text among strings, and that of the row's. *)
Definition text_id : nat := 1.
Definition row_id : nat := 0.

Section Writing.
(** The function that measures ambiguous glyphs, the contents of fresh heap
    memory, and the machine. *)
Context (fallback : option (list Z -> option bool)) (garbage : nat -> Z) (isa : ISA).

(** The loop over the clusters of the text. *)
Fixpoint clusters_loop (fuel : nat) (d : CodepointWidthDetector) (state : GraphemeState) (ch : Z) (it : nat) (h : WriteHelper)
    : outcome (CodepointWidthDetector * WriteHelper) :=
  match fuel with
  | O => Undefined
  | S fuel =>
      let* (d, state, _) := GraphemeNext fallback d state (mk_wview text_id (h_chars h)) in
      let width := Z.max 1 (gs_width state) in
      let colEndNew := u16 (colEnd h + width) in
      if colEndNew >? colLimit h then Done (d, text_limited ch h)
      else
        let* h := write_glyph ch colEndNew h in
        let ch := ch + Z.of_nat (gs_len state) in
        let it := (it + gs_len state)%nat in
        if (it =? length (h_chars h))%nat then Done (d, text_written ch h) else clusters_loop fuel d state ch it h
  end.

Definition rest_of_text (d : CodepointWidthDetector) (ch : Z) (it : nat) (h : WriteHelper)
    : outcome (CodepointWidthDetector * WriteHelper) :=
  if (it =? length (h_chars h))%nat then Done (d, text_written ch h)
  else clusters_loop (length (h_chars h)) d (new_GraphemeState <| gs_beg := Some (text_id, it) |>) ch it h.

(** The text may continue the glyph in front of it. *)
Definition join_previous (d : CodepointWidthDetector) (ch : Z) (h : WriteHelper) : outcome (CodepointWidthDetector * WriteHelper) :=
  let* colPrev := previous_glyph (_charOffsets (h_row h)) (Z.to_nat (colBeg h)) in
  let colPrev := Z.of_nat colPrev in
  let* chPrev := _uncheckedCharOffset (h_row h) colPrev in
  let* charsPrev := fetch (_chars (h_row h)) chPrev (ch - chPrev) in
  let* (d, state, _) := GraphemeNext fallback d new_GraphemeState (mk_wview row_id charsPrev) in
  let* (d, state, _) := GraphemeNext fallback d state (mk_wview text_id (h_chars h)) in
  if (0 <? gs_len state)%nat then
    let h := h <| colBegDirty := colPrev |> <| colEnd := colPrev |> in
    let width := Z.max 1 (gs_width state) in
    let colEndNew := u16 (colEnd h + width) in
    if colEndNew >? colLimit h then Done (d, text_limited ch h)
    else
      let* h := write_glyph chPrev colEndNew h in
      rest_of_text d (ch + Z.of_nat (gs_len state)) (gs_len state) h
  else rest_of_text d ch 0 h.

Definition _replaceTextUnicode (d : CodepointWidthDetector) (ch : Z) (it : nat) (h : WriteHelper)
    : outcome (CodepointWidthDetector * WriteHelper) :=
  if (it =? 0)%nat then join_previous d ch h
  else rest_of_text d (ch - 1) (Nat.pred it) (h <| colEnd := u16 (colEnd h - 1) |>).

(** The fast pass for ASCII; [rest] are the characters it may still look at. *)
Fixpoint ascii_loop (d : CodepointWidthDetector) (rest : list Z) (ch : Z) (it : nat) (h : WriteHelper)
    : outcome (CodepointWidthDetector * WriteHelper) :=
  match rest with
  | [] => Done (d, text_written ch h)
  | c :: rest =>
      if c >=? 0x80 then _replaceTextUnicode d ch it h
      else
        let* r := store_offsets (colEnd h) [u16 ch] (h_row h) in
        ascii_loop d rest (ch + 1) (S it) (h <| h_row := r |> <| colEnd := u16 (colEnd h + 1) |>)
  end.

Definition Helper_ReplaceText (d : CodepointWidthDetector) (h : WriteHelper) : outcome (CodepointWidthDetector * WriteHelper) :=
  ascii_loop d (take (Z.to_nat (colLimit h - colBeg h)) (h_chars h)) (chBeg h) 0 h.

Definition copied_offset (offset ch : Z) : Z :=
  let off := Z.land ch CharOffsetsMask in
  let trailer := Z.land ch CharOffsetsTrailer in
  Z.lor (u16 (off + offset)) trailer.
Definition _copyOffsets (src : list Z) (size offset : Z) : list Z := map (copied_offset offset) (take (Z.to_nat size) src).

Definition Helper_CopyTextFrom (charOffsets : list Z) (h : WriteHelper) : outcome WriteHelper :=
  let* last := let n := Z.of_nat (length charOffsets) - 1 in if n >? 0xFFFF then FailFast else Done n in
  let colEndDirtyInput := Z.min (u16 (colLimit h - colBeg h)) last in
  let* colEndInput := adjust_backward charOffsets (Z.to_nat colEndDirtyInput) in
  let colEndInput := Z.of_nat colEndInput in
  let* baseOffset := element charOffsets 0 in
  let* endOffset := element charOffsets colEndInput in
  let inToOutOffset := u16 (chBeg h - baseOffset) in
  let* r := store_offsets (colEnd h) (_copyOffsets charOffsets colEndInput inToOutOffset) (h_row h) in
  Done (h <| h_row := r |>
          <| colEnd := u16 (colEnd h + colEndInput) |>
          <| colEndDirty := u16 (colBeg h + colEndDirtyInput) |>
          <| charsConsumed := endOffset - baseOffset |>).

(** The text behind the write moves, in place or to a larger allocation, which
    may throw.  The copy of [std::copy_n] is one of [memmove]. *)
Definition move_text (chBegDirty chEndDirty chEndDirtyOld currentLength newLength : Z) (r : ROW) : outcome (ROW * bool) :=
  let capacity := Z.of_nat (length (_chars r)) in
  if newLength <=? capacity then
    let* tail := fetch (_chars r) chEndDirtyOld (currentLength - chEndDirtyOld) in
    let* r := store_chars chEndDirty tail r in Done (r, false)
  else
    let minCapacity := Z.min 0xFFFF (capacity + Z.shiftr capacity 1) in
    let newCapacity := Z.max newLength minCapacity in
    if newCapacity >? 0xFFFF then Done (r, true)
    else
      let* head := fetch (_chars r) 0 chBegDirty in
      let* tail := fetch (_chars r) chEndDirtyOld (currentLength - chEndDirtyOld) in
      let* chars := store (map garbage (seq 0 (Z.to_nat newCapacity))) 0 head in
      let* chars := store chars chEndDirty tail in
      Done (r <| _charsHeap := Some chars |>, false).

(** Makes room for, or takes away, the difference between the old and the new
    text. *)
Definition _resizeChars (colEndDirty chBegDirty chEndDirty chEndDirtyOld : Z) (r : ROW) : outcome (ROW * bool) :=
  let diff := u64 (chEndDirty - chEndDirtyOld) in
  let* currentLength := _charSize r in
  let newLength := u64 (currentLength + diff) in
  let* (r, threw) := move_text chBegDirty chEndDirty chEndDirtyOld currentLength newLength r in
  if threw : bool then Done (r, true)
  else
    let* r := store_offsets colEndDirty (map (fun o => u16 (o + diff)) (drop (Z.to_nat colEndDirty) (_charOffsets r))) r in
    Done (r, false).

(** Spaces and their offsets, if there are to be any. *)
Definition put_spaces (n ch col v : Z) (r : ROW) : outcome ROW :=
  if n =? 0 then Done r
  else
    let* r := store_chars ch (fill_n n 0x20) r in
    store_offsets col (iota_n n v) r.

Definition Finish (h : WriteHelper) : outcome (WriteHelper * bool) :=
  let* endDirty := _adjustForward (h_row h) (colEndDirty h) in
  let trailingSpaces := u16 (endDirty - colEnd h) in
  let* chEndDirtyOld := _uncheckedCharOffset (h_row h) endDirty in
  let chEndDirty := chBegDirty h + charsConsumed h + leadingSpaces h + trailingSpaces in
  let h := h <| colEndDirty := endDirty |> in
  let* (r, threw) :=
    if chEndDirty =? chEndDirtyOld then Done (h_row h, false)
    else _resizeChars endDirty (chBegDirty h) chEndDirty chEndDirtyOld (h_row h) in
  if threw : bool then Done (h <| h_row := r |>, true)
  else
    let* consumed := fetch (h_chars h) 0 (charsConsumed h) in
    let* r := store_chars (chBeg h) consumed r in
    let* r := put_spaces (leadingSpaces h) (chBegDirty h) (colBegDirty h) (chBegDirty h) r in
    let* r := put_spaces trailingSpaces (chBeg h + charsConsumed h) (colEnd h) (u16 (chBeg h + charsConsumed h)) r in
    let r := if endDirty =? _columnCount r then SetDoubleBytePadded (colEnd h <? _columnCount r) r else r in
    Done (h <| h_row := r |>, false).

(** The handler of the exceptions. *)
Definition recover (r : ROW) : outcome (ROW * bool) :=
  let* r := Row_Reset isa TextAttribute_default r in Done (r, true).

Definition ReplaceCharacters (columnBegin width : Z) (chars : list Z) (r : ROW) : outcome (ROW * bool) :=
  let* h := new_WriteHelper r columnBegin (_columnCount r) chars in
  if negb (IsValid h) then Done (r, false)
  else
    let* h := Helper_ReplaceCharacters width h in
    let* (h, threw) := Finish h in
    if threw : bool then recover (h_row h) else Done (h_row h, false).

Definition ClearCell (column : Z) (r : ROW) : outcome (ROW * bool) := ReplaceCharacters column 1 [0x20] r.

Record RowWriteState := mk_RowWriteState {
  rw_text : list Z;
  rw_columnBegin : Z;
  rw_columnLimit : Z;
  rw_columnEnd : Z;
  rw_columnBeginDirty : Z;
  rw_columnEndDirty : Z;
}.

#[local] Instance RowWriteState_eta : Eta RowWriteState := fun s =>
  mk_RowWriteState (rw_text s) (rw_columnBegin s) (rw_columnLimit s) (rw_columnEnd s) (rw_columnBeginDirty s) (rw_columnEndDirty s).

Definition ReplaceText (d : CodepointWidthDetector) (state : RowWriteState) (r : ROW)
    : outcome (CodepointWidthDetector * RowWriteState * (ROW * bool)) :=
  let* h := new_WriteHelper r (rw_columnBegin state) (rw_columnLimit state) (rw_text state) in
  if negb (IsValid h) then
    Done (d, state <| rw_columnEnd := colBeg h |> <| rw_columnBeginDirty := colBeg h |> <| rw_columnEndDirty := colBeg h |>, (r, false))
  else
    let* (d, h) := Helper_ReplaceText d h in
    let* (h, threw) := Finish h in
    if threw : bool then let* res := recover (h_row h) in Done (d, state, res)
    else
      let text := drop (Z.to_nat (charsConsumed h)) (rw_text state) in
      Done (d, state <| rw_text := text |>
                     <| rw_columnEnd := match text with [] => colEnd h | _ => colLimit h end |>
                     <| rw_columnBeginDirty := colBegDirty h |>
                     <| rw_columnEndDirty := colEndDirty h |>, (h_row h, false)).

Record RowCopyTextFromState := mk_RowCopyState {
  rc_source : ROW;
  rc_columnBegin : Z;
  rc_columnLimit : Z;
  rc_sourceColumnBegin : Z;
  rc_sourceColumnLimit : Z;
  rc_columnEnd : Z;
  rc_columnBeginDirty : Z;
  rc_columnEndDirty : Z;
  rc_sourceColumnEnd : Z;
}.

#[local] Instance RowCopyTextFromState_eta : Eta RowCopyTextFromState := fun s =>
  mk_RowCopyState (rc_source s) (rc_columnBegin s) (rc_columnLimit s) (rc_sourceColumnBegin s) (rc_sourceColumnLimit s)
    (rc_columnEnd s) (rc_columnBeginDirty s) (rc_columnEndDirty s) (rc_sourceColumnEnd s).

(** The part of the source to copy: its offsets and its text. *)
Definition source_part (source : ROW) (sourceColBeg sourceColLimit : Z) : outcome (list Z * list Z) :=
  if sourceColBeg <? sourceColLimit then
    let* charOffsets := fetch (_charOffsets source) sourceColBeg (sourceColLimit - sourceColBeg + 1) in
    let* beg := element charOffsets 0 in
    let* end_ := element charOffsets (Z.of_nat (length charOffsets) - 1) in
    let beg := Z.land beg CharOffsetsMask in
    let end_ := Z.land end_ CharOffsetsMask in
    let* chars := fetch (_chars source) beg (end_ - beg) in
    Done (charOffsets, chars)
  else Done ([], []).

Definition starts_with_trailer (charOffsets : list Z) : bool :=
  match charOffsets with o :: _ => is_trailer o | [] => false end.

(** [aliased] says that the source is the row itself. *)
Definition CopyTextFrom (aliased : bool) (state : RowCopyTextFromState) (r : ROW)
    : outcome (RowCopyTextFromState * (ROW * bool)) :=
  let source := rc_source state in
  let sourceColBeg := _clampedColumnInclusive source (rc_sourceColumnBegin state) in
  let sourceColLimit := _clampedColumnInclusive source (rc_sourceColumnLimit state) in
  let* (charOffsets, chars) := source_part source sourceColBeg sourceColLimit in
  let* h := new_WriteHelper r (rc_columnBegin state) (rc_columnLimit state) chars in
  if negb (IsValid h) || aliased || (length charOffsets <? 2)%nat || starts_with_trailer charOffsets then
    Done (state <| rc_columnEnd := colBeg h |>
                <| rc_columnBeginDirty := colBeg h |>
                <| rc_columnEndDirty := colBeg h |>
                <| rc_sourceColumnEnd := _columnCount source |>, (r, false))
  else
    let* h := Helper_CopyTextFrom charOffsets h in
    let* (h, threw) := Finish h in
    if threw : bool then let* res := recover (h_row h) in Done (state, res)
    else
      Done (state <| rc_columnEnd := if charsConsumed h =? Z.of_nat (length chars) then colEnd h else colLimit h |>
                  <| rc_columnBeginDirty := colBegDirty h |>
                  <| rc_columnEndDirty := colEndDirty h |>
                  <| rc_sourceColumnEnd := sourceColBeg + colEnd h - colBeg h |>, (h_row h, false)).

Definition CoordTypeMax : Z := 0x7FFFFFFF.

Definition CopyFrom (source r : ROW) : outcome (ROW * bool) :=
  let r := r <| _lineRendition := _lineRendition source |> <| _wrapForced := _wrapForced source |> in
  let* (_, (r, threw)) := CopyTextFrom false
    (mk_RowCopyState source 0 CoordTypeMax 0 (GetReadableColumnCount source) 0 0 0 0) r in
  if threw : bool then Done (r, true)
  else
    let* a := resize_trailing_extent 16 (_attr source) (_columnCount r) in
    Done (r <| _attr := a |>, false).
End Writing.
