(* ===== verification/RowFacts.v ===== *)
(** * The glyphs of a row

    What a row of the text buffer stands for: a list of glyphs, each with its
    text and its width in columns.  The offsets of a row are a function of
    this list, and the searches in them have their meaning on it. *)

From S2P Require Import Prelude TermDispatch TextAttribute Rle Graphemes GraphemeFacts Row.
#[local] Open Scope Z_scope.

Definition glyph : Type := list Z * nat.
Implicit Types (gs pre suf : list glyph).

Definition text gs : list Z := concat (map fst gs).
Definition cols gs : nat := sum_list (map snd gs).
Definition zlen {A} (l : list A) : Z := Z.of_nat (length l).

(** One or two columns, and text that is not empty. *)
Record glyph_ok (g : glyph) : Prop := {
  go_text : fst g <> [];
  go_units : Forall unit16 (fst g);
  go_width : (1 <= snd g <= 2)%nat;
}.

(** The offsets of glyphs whose text starts at [base]. *)
Fixpoint marks (base : Z) gs : list Z :=
  match gs with
  | [] => []
  | (t, w) :: gs => base :: repeat (base + CharOffsetsTrailer) (Nat.pred w) ++ marks (base + zlen t) gs
  end.
Definition marks_end (base : Z) gs : list Z := marks base gs ++ [base + zlen (text gs)].
Definition offsets gs : list Z := marks_end 0 gs.

Definition spaces (n : nat) : list glyph := repeat ([0x20], 1%nat) n.

(** The glyphs that end at or before a column, and those that start at or
    after it. *)
Fixpoint before gs (c : nat) : list glyph :=
  match gs with
  | [] => []
  | g :: gs => if (snd g <=? c)%nat then g :: before gs (c - snd g) else []
  end.
Fixpoint after gs (c : nat) : list glyph :=
  match gs with
  | [] => []
  | g :: gs' => match c with O => gs | _ => after gs' (c - snd g) end
  end.

(** ** Lists of glyphs *)

Lemma nonempty_length {A} (k : list A) : k <> [] -> (0 < length k)%nat.
Proof. destruct k; [done|cbn; lia]. Qed.

Lemma text_app gs1 gs2 : text (gs1 ++ gs2) = text gs1 ++ text gs2.
Proof. unfold text. by rewrite map_app, concat_app. Qed.

Lemma cols_app gs1 gs2 : cols (gs1 ++ gs2) = (cols gs1 + cols gs2)%nat.
Proof. unfold cols. induction gs1 as [|g gs1 IH]; [done|]. cbn in *. lia. Qed.

Lemma cols_cons g gs : cols (g :: gs) = (snd g + cols gs)%nat.
Proof. done. Qed.

Lemma text_cons g gs : text (g :: gs) = fst g ++ text gs.
Proof. done. Qed.

Lemma zlen_app {A} (l k : list A) : zlen (l ++ k) = zlen l + zlen k.
Proof. unfold zlen. rewrite length_app. lia. Qed.

Lemma marks_app gs1 : forall base gs2, marks base (gs1 ++ gs2) = marks base gs1 ++ marks (base + zlen (text gs1)) gs2.
Proof.
  induction gs1 as [|[t w] gs1 IH]; intros base gs2; [cbn; by rewrite Z.add_0_r|].
  cbn [app marks]. rewrite IH, text_cons, zlen_app. cbn [fst]. rewrite <- app_assoc, Z.add_assoc. done.
Qed.

Lemma length_marks gs base : Forall glyph_ok gs -> length (marks base gs) = cols gs.
Proof.
  intros Hok. revert base. induction Hok as [|[t w] gs [_ _ Hw] _ IH]; intros base; [done|]. cbn [marks length snd] in *.
  rewrite length_app, repeat_length, IH, cols_cons. cbn [snd]. lia.
Qed.

Lemma length_marks_end gs base : Forall glyph_ok gs -> length (marks_end base gs) = S (cols gs).
Proof. intros Hok. unfold marks_end. rewrite length_app, length_marks by done. cbn. lia. Qed.

Lemma marks_end_app gs1 gs2 base : marks_end base (gs1 ++ gs2) = marks base gs1 ++ marks_end (base + zlen (text gs1)) gs2.
Proof. unfold marks_end. rewrite marks_app, text_app, zlen_app, <- app_assoc. by rewrite Z.add_assoc. Qed.

Lemma marks_end_head gs base : exists l, marks_end base gs = base :: l.
Proof. destruct gs as [|[t w] gs]; unfold marks_end; cbn; [by rewrite Z.add_0_r; eexists|by eexists]. Qed.

Lemma text_spaces n : text (spaces n) = repeat 0x20 n.
Proof. induction n as [|n IH]; [done|]. unfold spaces in *. cbn [repeat]. rewrite text_cons, IH. done. Qed.

Lemma cols_spaces n : cols (spaces n) = n.
Proof. induction n as [|n IH]; [done|]. unfold spaces in *. cbn [repeat]. rewrite cols_cons, IH. done. Qed.

Lemma space_ok : glyph_ok ([0x20], 1%nat).
Proof. split; cbn; [done|by repeat constructor|lia]. Qed.

Lemma spaces_ok n : Forall glyph_ok (spaces n).
Proof. induction n as [|n IH]; constructor; [apply space_ok|done]. Qed.

Lemma iota_cons n v : 0 <= v < 65536 -> iota_n (Z.of_nat (S n)) v = v :: iota_n (Z.of_nat n) (v + 1).
Proof.
  intros Hv. unfold iota_n. rewrite !Nat2Z.id. cbn [seq map]. rewrite Z.add_0_r, u16_small by lia. f_equal.
  rewrite <- seq_shift, map_map. apply map_ext. intros k. f_equal. lia.
Qed.

Lemma marks_spaces n : forall base, 0 <= base -> base + Z.of_nat n <= 65536 -> marks base (spaces n) = iota_n (Z.of_nat n) base.
Proof.
  induction n as [|n IH]; intros base H0 Hb; [done|]. rewrite iota_cons by lia. unfold spaces in *. cbn [repeat marks Nat.pred app].
  f_equal. apply IH; lia.
Qed.

(** ** Cutting at a column *)

(** A column is between two glyphs, or in the middle of a wide one. *)
Inductive cut gs (c : nat) : Prop :=
| cut_between pre suf : gs = pre ++ suf -> cols pre = c -> cut gs c
| cut_within pre t suf : gs = pre ++ (t, 2%nat) :: suf -> c = S (cols pre) -> cut gs c.

Lemma cut_at gs c : Forall glyph_ok gs -> (c <= cols gs)%nat -> cut gs c.
Proof.
  intros Hok. revert c. induction Hok as [|[t w] gs [_ _ Hw] _ IH]; intros c Hc.
  - exact (cut_between [] c [] [] eq_refl ltac:(cbn in *; lia)).
  - rewrite cols_cons in Hc. cbn [snd] in *. destruct (Nat.leb_spec w c) as [Hle|Hlt].
    + destruct (IH (c - w)%nat ltac:(lia)) as [pre suf -> Hp|pre t' suf -> Hp].
      * apply (cut_between _ _ ((t, w) :: pre) suf); [done|]. rewrite cols_cons. cbn. lia.
      * apply (cut_within _ _ ((t, w) :: pre) t' suf); [done|]. rewrite cols_cons. cbn. lia.
    + destruct c as [|c]; [by apply (cut_between _ _ [] ((t, w) :: gs))|].
      assert (w = 2%nat) as -> by lia. apply (cut_within _ _ [] t gs); [done|]. cbn. lia.
Qed.

Lemma after_zero gs : after gs 0 = gs.
Proof. by destruct gs. Qed.

Lemma before_between pre suf : Forall glyph_ok suf -> before (pre ++ suf) (cols pre) = pre.
Proof.
  intros Hs. induction pre as [|g pre IH]; cbn [app].
  - destruct Hs as [|[t w] suf [_ _ Hw]]; [done|]. cbn in *. by destruct (Nat.leb_spec w 0); [lia|].
  - cbn [before]. rewrite cols_cons. rewrite (proj2 (Nat.leb_le _ _)) by lia.
    replace (snd g + cols pre - snd g)%nat with (cols pre) by lia. by rewrite IH.
Qed.

Lemma after_between pre suf : Forall glyph_ok pre -> after (pre ++ suf) (cols pre) = suf.
Proof.
  intros Hp. induction Hp as [|[t w] pre [_ _ Hw] _ IH]; cbn [app]; [apply after_zero|].
  cbn [after]. rewrite cols_cons. cbn [snd] in *. replace (w + cols pre)%nat with (S (Nat.pred w + cols pre)) by lia. cbv match.
  replace (S (Nat.pred w + cols pre) - w)%nat with (cols pre) by lia. done.
Qed.

Lemma before_within pre t suf : before (pre ++ (t, 2%nat) :: suf) (S (cols pre)) = pre.
Proof.
  induction pre as [|g pre IH]; cbn [app]; [done|]. cbn [before]. rewrite cols_cons. rewrite (proj2 (Nat.leb_le _ _)) by lia.
  replace (S (snd g + cols pre) - snd g)%nat with (S (cols pre)) by lia. by rewrite IH.
Qed.

Lemma after_within pre t suf : after (pre ++ (t, 2%nat) :: suf) (S (cols pre)) = suf.
Proof.
  induction pre as [|g pre IH]; cbn [app]; [cbn; apply after_zero|]. cbn [after]. rewrite cols_cons.
  replace (S (snd g + cols pre) - snd g)%nat with (S (cols pre)) by lia. done.
Qed.

Ltac split_ok H := apply Forall_app in H as [? ?].

(** ** Offsets *)

Lemma trailer_bit o : is_trailer o = Z.testbit o 15.
Proof.
  unfold is_trailer, CharOffsetsTrailer. assert (Hl : Z.land o 0x8000 = if Z.testbit o 15 then 0x8000 else 0).
  { apply Z.bits_inj'. intros i Hi. rewrite Z.land_spec. change 0x8000 with (2 ^ 15). rewrite Z.pow2_bits_eqb by lia.
    destruct (Z.eqb_spec 15 i) as [<-|Hne]; [rewrite andb_true_r; by destruct (Z.testbit o 15)|].
    rewrite andb_false_r. destruct (Z.testbit o 15); [|by rewrite Z.bits_0]. rewrite Z.pow2_bits_eqb by lia. by rewrite (proj2 (Z.eqb_neq _ _)). }
  rewrite Hl. by destruct (Z.testbit o 15).
Qed.

Lemma low_offset x : 0 <= x < 0x8000 -> is_trailer x = false /\ Z.land x CharOffsetsMask = x.
Proof.
  intros Hx. split.
  - rewrite trailer_bit, Z.testbit_odd, Z.shiftr_div_pow2, Z.div_small by lia. done.
  - unfold CharOffsetsMask. change 0x7fff with (Z.ones 15). rewrite Z.land_ones by lia. by apply Z.mod_small.
Qed.

Lemma high_offset x : 0 <= x < 0x8000 -> is_trailer (x + CharOffsetsTrailer) = true /\ Z.land (x + CharOffsetsTrailer) CharOffsetsMask = x.
Proof.
  intros Hx. unfold CharOffsetsTrailer. split.
  - rewrite trailer_bit, Z.testbit_odd, Z.shiftr_div_pow2 by lia. change 0x8000 with (1 * 2 ^ 15). by rewrite Z.div_add, Z.div_small by lia.
  - unfold CharOffsetsMask. change 0x7fff with (Z.ones 15). rewrite Z.land_ones by lia. change 0x8000 with (1 * 2 ^ 15).
    rewrite Z.mod_add by lia. by apply Z.mod_small.
Qed.

Lemma land_trailer o : Z.land o CharOffsetsTrailer = if is_trailer o then CharOffsetsTrailer else 0.
Proof.
  unfold is_trailer. destruct (Z.eqb_spec (Z.land o CharOffsetsTrailer) 0) as [->|Hne]; cbn [negb]; [done|].
  assert (Ht : Z.testbit o 15 = true) by (rewrite <- trailer_bit; unfold is_trailer; by rewrite (proj2 (Z.eqb_neq _ _))).
  apply Z.bits_inj'. intros i Hi. rewrite Z.land_spec. unfold CharOffsetsTrailer. change 0x8000 with (2 ^ 15). rewrite Z.pow2_bits_eqb by lia.
  destruct (Z.eqb_spec 15 i) as [<-|]; [by rewrite Ht|apply andb_false_r].
Qed.

Lemma lor_trailer x : 0 <= x < 0x8000 -> Z.lor x CharOffsetsTrailer = x + CharOffsetsTrailer.
Proof.
  intros Hx. rewrite <- Z.lxor_lor, <- Z.add_nocarry_lxor; [done|rewrite land_trailer; by rewrite (proj1 (low_offset x Hx))..].
Qed.

Lemma high_lor x : 0 <= x < 0x8000 -> u16 (Z.lor x CharOffsetsTrailer) = x + CharOffsetsTrailer.
Proof. intros Hx. rewrite lor_trailer by done. apply u16_small. unfold CharOffsetsTrailer. lia. Qed.

Lemma offset_between pre suf : Forall glyph_ok pre -> offsets (pre ++ suf) !! cols pre = Some (zlen (text pre)).
Proof.
  intros Hp. unfold offsets. rewrite marks_end_app, lookup_app_r by (by rewrite length_marks).
  rewrite length_marks, Nat.sub_diag by done. destruct (marks_end_head suf (0 + zlen (text pre))) as [l ->]. done.
Qed.

Lemma offset_within pre t suf : Forall glyph_ok pre ->
  offsets (pre ++ (t, 2%nat) :: suf) !! S (cols pre) = Some (zlen (text pre) + CharOffsetsTrailer).
Proof.
  intros Hp. unfold offsets. rewrite marks_end_app, lookup_app_r by (rewrite length_marks by done; lia).
  rewrite length_marks by done. replace (S (cols pre) - cols pre)%nat with 1%nat by lia. done.
Qed.

(** The searches find the start of the glyph at a column, and the first start
    of a glyph from a column on. *)
Section Searches.
Context gs (Hok : Forall glyph_ok gs) (Hsmall : zlen (text gs) < 0x8000).

Lemma prefix_small pre suf : gs = pre ++ suf -> 0 <= zlen (text pre) < 0x8000.
Proof. intros ->. rewrite text_app, zlen_app in Hsmall. unfold zlen in *. lia. Qed.

Lemma offset_masked c : (c <= cols gs)%nat -> exists o, offsets gs !! c = Some o /\ Z.land o CharOffsetsMask = zlen (text (before gs c)) /\
  is_trailer o = negb (cols (before gs c) =? c)%nat.
Proof using Hok Hsmall.
  intros Hc. destruct (cut_at gs c Hok Hc) as [pre suf E <-|pre t suf E ->]; pose proof (prefix_small _ _ E) as Hs;
    pose proof Hok as Hok'; rewrite E in Hok' |- *; split_ok Hok'.
  - rewrite offset_between, before_between by done. eexists. split; [done|]. rewrite Nat.eqb_refl. by destruct (low_offset _ Hs).
  - rewrite offset_within, before_within by done. eexists. split; [done|]. rewrite (proj2 (Nat.eqb_neq _ _)) by lia. by destruct (high_offset _ Hs).
Qed.

Lemma backward_found c : (c <= cols gs)%nat -> adjust_backward (offsets gs) c = Done (cols (before gs c)).
Proof using Hok Hsmall.
  intros Hc. destruct (cut_at gs c Hok Hc) as [pre suf E <-|pre t suf E ->]; pose proof (prefix_small _ _ E) as Hs;
    pose proof Hok as Hok'; rewrite E in Hok' |- *; split_ok Hok'.
  - rewrite before_between by done. destruct (cols pre) as [|c'] eqn:Hp; cbn [adjust_backward]; rewrite <- Hp; unfold deref; rewrite offset_between by done;
      cbn [obind]; by rewrite (proj1 (low_offset _ Hs)).
  - rewrite before_within. cbn [adjust_backward]. unfold deref at 1. rewrite offset_within by done. cbn [obind]. rewrite (proj1 (high_offset _ Hs)).
    destruct (cols pre) as [|c'] eqn:Hp; cbn [adjust_backward]; rewrite <- Hp; unfold deref; rewrite offset_between by done;
      cbn [obind]; by rewrite (proj1 (low_offset _ Hs)).
Qed.

Lemma forward_found fuel c : (c <= cols gs)%nat -> (0 < fuel)%nat -> adjust_forward fuel (offsets gs) c = Done (cols gs - cols (after gs c))%nat.
Proof using Hok Hsmall.
  intros Hc Hf. destruct fuel as [|fuel]; [lia|].
  destruct (cut_at gs c Hok Hc) as [pre suf E <-|pre t suf E ->]; pose proof (prefix_small _ _ E) as Hs;
    pose proof Hok as Hok'; rewrite E in Hok' |- *; split_ok Hok'.
  - rewrite after_between, cols_app by done. cbn [adjust_forward]. unfold deref. rewrite offset_between by done.
    cbn [obind]. rewrite (proj1 (low_offset _ Hs)). f_equal. lia.
  - rewrite after_within, cols_app, cols_cons. cbn [adjust_forward snd]. unfold deref at 1. rewrite offset_within by done. cbn [obind].
    rewrite (proj1 (high_offset _ Hs)). replace (cols pre + (2 + cols suf) - cols suf)%nat with (S (S (cols pre))) by lia.
    assert (E2 : gs = (pre ++ [(t, 2%nat)]) ++ suf) by (by rewrite E, <- app_assoc). pose proof (prefix_small _ _ E2) as Hs2.
    assert (Hc2 : cols (pre ++ [(t, 2%nat)]) = S (S (cols pre))) by (rewrite cols_app; cbn; lia).
    assert (Hp2 : Forall glyph_ok (pre ++ [(t, 2%nat)])) by (apply Forall_app; split; [done|]; constructor; [by inversion H0|done]).
    assert (Ho : offsets (pre ++ (t, 2%nat) :: suf) !! S (S (cols pre)) = Some (zlen (text (pre ++ [(t, 2%nat)])))).
    { rewrite <- E, E2, <- Hc2. by apply offset_between. }
    destruct fuel; cbn [adjust_forward]; unfold deref; rewrite Ho; cbn [obind]; by rewrite (proj1 (low_offset _ Hs2)).
Qed.
End Searches.

(** * The invariant of a row

    The storage of a row, its initialisation by vector instructions, and what
    it means that a row holds a list of glyphs. *)

Implicit Types (r : ROW).

(** ** Memory *)

Lemma zlen_nonneg {A} (l : list A) : 0 <= zlen l.
Proof. unfold zlen. lia. Qed.

Lemma store_mid i (A W Y B : list Z) : i = zlen A -> length Y = length W -> store (A ++ Y ++ B) i W = Done (A ++ W ++ B).
Proof.
  intros -> HY. unfold store, zlen. rewrite !length_app, HY. rewrite (proj2 (Z.leb_le 0 _)), (proj2 (Z.leb_le _ _)) by lia. cbn [andb].
  rewrite Nat2Z.id, take_app_length. do 3 f_equal. rewrite app_assoc, <- HY, <- length_app. apply drop_app_length.
Qed.

Lemma store_app i (L R W L' : list Z) : store L i W = Done L' -> store (L ++ R) i W = Done (L' ++ R).
Proof.
  unfold store. destruct (Z.leb_spec 0 i); [|done]. destruct (Z.leb_spec (i + Z.of_nat (length W)) (Z.of_nat (length L))); [|done]. cbn [andb].
  intros [= <-]. rewrite length_app, (proj2 (Z.leb_le _ _)) by lia. cbn [andb].
  rewrite take_app_le, drop_app_le by lia. by rewrite <- !app_assoc.
Qed.

Lemma store_length i (L W L' : list Z) : store L i W = Done L' -> length L' = length L.
Proof.
  unfold store. destruct (Z.leb_spec 0 i); [|done]. destruct (Z.leb_spec (i + Z.of_nat (length W)) (Z.of_nat (length L))); [|done]. cbn [andb].
  intros [= <-]. rewrite !length_app, length_take, length_drop. lia.
Qed.

Lemma fetch_mid i n (A X B : list Z) : i = zlen A -> n = zlen X -> fetch (A ++ X ++ B) i n = Done X.
Proof.
  intros -> ->. unfold fetch, zlen, substr. rewrite !length_app. rewrite !(proj2 (Z.leb_le _ _)) by lia. cbn [andb].
  by rewrite !Nat2Z.id, drop_app_length, take_app_length.
Qed.

Lemma element_lookup (l : list Z) c x : l !! c = Some x -> element l (Z.of_nat c) = Done x.
Proof. intros Hl. unfold element, deref. rewrite (proj2 (Z.ltb_ge _ _)) by lia. by rewrite Nat2Z.id, Hl. Qed.

Lemma length_fill n v : length (fill_n (Z.of_nat n) v) = n.
Proof. unfold fill_n. by rewrite repeat_length, Nat2Z.id. Qed.

Lemma length_iota n v : length (iota_n (Z.of_nat n) v) = n.
Proof. unfold iota_n. by rewrite length_map, length_seq, Nat2Z.id. Qed.

(** ** Storage *)

Definition aligned_size (columns : Z) : Z := 8 * (columns / 8 + 1).

Lemma align_down x k : 0 <= k -> Z.land x (Z.lnot (2 ^ k - 1)) = 2 ^ k * (x / 2 ^ k).
Proof.
  intros Hk. rewrite <- Z.ldiff_land. replace (2 ^ k - 1) with (Z.ones k) by (rewrite Z.ones_equiv; lia). rewrite Z.ldiff_ones_r by lia.
  rewrite Z.shiftl_mul_pow2, Z.shiftr_div_pow2 by lia. lia.
Qed.

Lemma aligned_bytes columns : CalculateCharsBufferSize columns = 2 * aligned_size columns /\ CalculateCharOffsetsBufferSize columns = 2 * aligned_size columns.
Proof.
  assert (Hb : Z.land (columns * 2 + 16) (Z.lnot 15) = 2 * aligned_size columns).
  { change 15 with (2 ^ 4 - 1). rewrite align_down by lia. change (2 ^ 4) with 16. unfold aligned_size.
    replace (columns * 2 + 16) with ((columns + 8) * 2) by lia. change 16 with (8 * 2). rewrite Z.div_mul_cancel_r by lia.
    replace (columns + 8) with (columns + 1 * 8) by lia. rewrite Z.div_add by lia. lia. }
  by split.
Qed.

(** What [TextBuffer] provides. *)
Record storage_ok (r : ROW) : Prop := {
  so_columns : 0 < _columnCount r < 0x8000;
  so_chars : 2 * zlen (_charsBuffer r) = CalculateCharsBufferSize (_columnCount r);
  so_offsets : 2 * zlen (_charOffsetsBuffer r) = CalculateCharOffsetsBufferSize (_columnCount r);
  so_runs : _runs (_attr r) <> [];
  so_total : _total_length (_attr r) = _columnCount r;
}.

(** The text and the offsets may differ, nothing else. *)
Record same_members (r r' : ROW) : Prop := {
  sm_columns : _columnCount r' = _columnCount r;
  sm_attr : _attr r' = _attr r;
  sm_rendition : _lineRendition r' = _lineRendition r;
  sm_wrap : _wrapForced r' = _wrapForced r;
  sm_padded : _doubleBytePadded r' = _doubleBytePadded r;
  sm_prompt : _promptData r' = _promptData r;
}.

Lemma same_members_refl r : same_members r r.
Proof. by split. Qed.

Lemma same_members_trans r1 r2 r3 : same_members r1 r2 -> same_members r2 r3 -> same_members r1 r3.
Proof. intros [] []. split; congruence. Qed.

Section Storage.
Context r (Hs : storage_ok r).

Lemma buffer_lengths : zlen (_charsBuffer r) = aligned_size (_columnCount r) /\ zlen (_charOffsetsBuffer r) = aligned_size (_columnCount r).
Proof using Hs. destruct Hs, (aligned_bytes (_columnCount r)). lia. Qed.

Lemma aligned_above : _columnCount r < aligned_size (_columnCount r).
Proof using Hs. destruct Hs. unfold aligned_size. pose proof (Z.mul_succ_div_gt (_columnCount r) 8). lia. Qed.

Lemma length_offsets_span : length (_charOffsets r) = S (Z.to_nat (_columnCount r)).
Proof using Hs.
  destruct buffer_lengths as [_ Hl]. pose proof aligned_above. unfold _charOffsets. rewrite length_take. unfold zlen in *. destruct Hs. lia.
Qed.

Lemma store_offsets_ok i W L : store (_charOffsets r) i W = Done L -> exists r', store_offsets i W r = Done r' /\
  _charOffsets r' = L /\ _chars r' = _chars r /\ storage_ok r' /\ same_members r r' /\ _charsHeap r' = _charsHeap r /\ _charsBuffer r' = _charsBuffer r.
Proof using Hs.
  intros HL. unfold store_offsets. rewrite HL. cbn [obind]. eexists. split; [reflexivity|]. pose proof (store_length _ _ _ _ HL) as Hlen.
  rewrite length_offsets_span in Hlen. unfold with_offsets, _charOffsets. cbn. rewrite <- Hlen, take_app_length.
  destruct buffer_lengths as [_ Hl]. pose proof aligned_above.
  split_and!; [done|done| |by split|done|done]. destruct Hs. split; cbn; try done. unfold zlen in *. rewrite length_app, length_drop. lia.
Qed.

Lemma store_chars_ok i W L : store (_chars r) i W = Done L -> exists r', store_chars i W r = Done r' /\
  _chars r' = L /\ _charOffsets r' = _charOffsets r /\ storage_ok r' /\ same_members r r'.
Proof using Hs.
  intros HL. unfold store_chars. rewrite HL. cbn [obind]. eexists. split; [reflexivity|]. pose proof (store_length _ _ _ _ HL) as Hlen.
  unfold _chars, with_chars in *. destruct (_charsHeap r) eqn:Hh; cbn.
  - split_and!; [done|done| |by split]. by destruct Hs; split.
  - rewrite Hh. destruct buffer_lengths as [Hl _]. pose proof aligned_above. rewrite length_take in Hlen. unfold zlen in *. destruct Hs.
    split_and!; [|done| |by split].
    + apply take_app_length'. lia.
    + split; cbn; try done. unfold zlen in *. rewrite length_app, length_drop. lia.
Qed.
End Storage.
