(* ===== verification/RowInit.v ===== *)
(** * The initialisation of a row

    The AVX2, SSE2 and NEON code of [ROW::_init] against the plain loops. *)

From S2P Require Import Prelude TermDispatch TextAttribute Rle Graphemes GraphemeFacts Row RowFacts.
#[local] Open Scope Z_scope.
Implicit Types (r : ROW) (gs : list glyph).

(** ** Buffers that are filled up to a position *)

Section Filled.
Context (value_at : nat -> Z).
Definition vector (pos lanes : nat) : list Z := map value_at (seq pos lanes).
Definition filled (n : nat) (l : list Z) : list Z := vector 0 n ++ drop n l.

Lemma length_vector pos lanes : length (vector pos lanes) = lanes.
Proof. unfold vector. by rewrite length_map, length_seq. Qed.

Lemma vector_app pos a b : vector pos (a + b) = vector pos a ++ vector (pos + a) b.
Proof. unfold vector. by rewrite seq_app, map_app. Qed.

(** A write may overlap what is filled already. *)
Lemma store_filled t m p l : (t <= p <= t + m)%nat -> (t + m <= length l)%nat ->
  store (filled p l) (Z.of_nat t) (vector t m) = Done (filled (t + m) l).
Proof.
  intros Ht Hl. unfold filled. replace p with (t + (p - t))%nat at 1 by lia. rewrite vector_app, <- app_assoc.
  replace (drop p l) with (take (t + m - p) (drop p l) ++ drop (t + m) l)
    by (replace (drop (t + m) l) with (drop (t + m - p) (drop p l)) by (rewrite drop_drop; f_equal; lia); apply take_drop).
  rewrite (app_assoc (vector _ (p - t))), store_mid; [|unfold zlen; by rewrite length_vector|].
  - by rewrite vector_app, <- app_assoc.
  - rewrite length_app, !length_vector, length_take, length_drop. lia.
Qed.
End Filled.

Definition space_at (_ : nat) : Z := 0x20.
Definition offset_at (k : nat) : Z := u16 (0 + Z.of_nat k).

Lemma whitespace_vector pos lanes : whitespaceData (Z.of_nat lanes) = vector space_at pos lanes.
Proof.
  unfold whitespaceData, fill_n, vector, space_at. rewrite Nat2Z.id. revert pos.
  induction lanes as [|n IH]; intros pos; cbn; [done|]. f_equal. apply IH.
Qed.

Lemma offsets_vector n : iota_n (Z.of_nat n) 0 = vector offset_at 0 n.
Proof. unfold iota_n. by rewrite Nat2Z.id. Qed.

Lemma add_vector d pos lanes : add_lanes (Z.of_nat d) (vector offset_at pos lanes) = vector offset_at (pos + d) lanes.
Proof.
  unfold add_lanes, vector. rewrite map_map. revert pos. induction lanes as [|n IH]; intros pos; cbn [seq map]; [done|]. f_equal; [|apply IH].
  unfold offset_at, u16. rewrite Z.add_mod_idemp_l by lia. f_equal. lia.
Qed.

(** ** The loops *)

Definition filled_pair (n : nat) (c o : list Z) : list Z * list Z := (filled space_at n c, filled offset_at n o).

Lemma filled_zero f l : filled f 0 l = l.
Proof. unfold filled. cbn. by rewrite drop_0. Qed.

Lemma init_loop_spec lanes limit c o : (0 < lanes)%nat -> length c = length o -> (forall k, (k * lanes < limit)%nat -> (k * lanes + lanes <= length c)%nat) ->
  forall fuel k, (k * lanes < limit)%nat -> (limit <= k * lanes + fuel)%nat -> exists k', (limit <= k' * lanes < limit + lanes)%nat /\ (k' * lanes <= length c)%nat /\
  init_loop fuel (Z.of_nat lanes) (Z.of_nat limit) (Z.of_nat (k * lanes)) (vector offset_at (k * lanes) lanes) (filled_pair (k * lanes) c o)
  = Done (filled_pair (k' * lanes) c o).
Proof.
  intros Hl Hco Hroom. induction fuel as [|fuel IH]; intros k Hk Hf; [lia|]. cbn [init_loop filled_pair fst snd].
  pose proof (Hroom k Hk) as Hr. rewrite (whitespace_vector (k * lanes)), !store_filled by lia. cbn [obind].
  rewrite <- Nat2Z.inj_add. replace (k * lanes + lanes)%nat with (S k * lanes)%nat in * by lia.
  destruct (Z.ltb_spec (Z.of_nat (S k * lanes)) (Z.of_nat limit)) as [Hlt|Hge].
  - rewrite add_vector. replace (k * lanes + lanes)%nat with (S k * lanes)%nat by lia. apply IH; lia.
  - exists (S k). split; [lia|]. split; [lia|done].
Qed.

Section Init.
Context r (Hs : storage_ok r).
Definition padded : nat := Z.to_nat (aligned_size (_columnCount r)).

Lemma padded_buffers : length (_charsBuffer r) = padded /\ length (_charOffsetsBuffer r) = padded /\ Z.of_nat padded = aligned_size (_columnCount r).
Proof using Hs.
  destruct (buffer_lengths r Hs) as [H1 H2]. pose proof (aligned_above r Hs). destruct Hs. unfold padded, zlen in *. lia.
Qed.

Lemma filled_all f l : length l = padded -> filled f padded l = vector f 0 padded.
Proof. intros Hl. unfold filled. rewrite drop_ge by lia. apply app_nil_r. Qed.

Definition all_filled : list Z * list Z := (vector space_at 0 padded, vector offset_at 0 padded).

Lemma init_8_spec : init_8 (_columnCount r) ((_charsBuffer r), (_charOffsetsBuffer r)) = Done all_filled.
Proof using Hs.
  destruct padded_buffers as (H1 & H2 & H3). destruct (so_columns _ Hs) as [Hc1 Hc2].
  assert (HN : Z.of_nat padded = 8 * ((_columnCount r) / 8 + 1)) by done. pose proof (Z.div_mod (_columnCount r) 8 ltac:(lia)). pose proof (Z.mod_pos_bound (_columnCount r) 8 ltac:(lia)).
  destruct (init_loop_spec 8 (S (Z.to_nat (_columnCount r))) (_charsBuffer r) (_charOffsetsBuffer r)) with (fuel := S (Z.to_nat (_columnCount r))) (k := 0%nat) as (k' & Hk1 & Hk2 & Hrun); [lia|lia|lia|lia|lia|].
  unfold init_8, offsetsData. change 8 with (Z.of_nat 8) at 1 2. rewrite offsets_vector. replace ((_columnCount r) + 1) with (Z.of_nat (S (Z.to_nat (_columnCount r)))) by lia.
  cbn [Nat.mul] in Hrun. unfold filled_pair at 1 in Hrun. rewrite !filled_zero in Hrun. change (Z.of_nat 0) with 0 in Hrun. rewrite Hrun.
  assert (Hkn : (k' * 8)%nat = padded) by lia. unfold filled_pair, all_filled. by rewrite Hkn, !filled_all.
Qed.

Lemma tail_offset : 15 <= (_columnCount r) -> u16 (Z.land ((_columnCount r) - 8) (Z.lnot 7)) = Z.of_nat (padded - 16) /\ (16 <= padded)%nat.
Proof using Hs.
  intros H15. destruct (so_columns _ Hs) as [Hc1 Hc2]. destruct padded_buffers as (H1 & H2 & H3). unfold aligned_size in H3.
  change 7 with (2 ^ 3 - 1). rewrite align_down by lia. change (2 ^ 3) with 8.
  assert (Hd : ((_columnCount r) - 8) / 8 = (_columnCount r) / 8 - 1) by (replace ((_columnCount r) - 8) with ((_columnCount r) + (-1) * 8) by lia; rewrite Z.div_add; lia).
  assert (1 <= (_columnCount r) / 8) by (apply Z.div_le_lower_bound; lia). pose proof (Z.div_mod (_columnCount r) 8 ltac:(lia)). pose proof (Z.mod_pos_bound (_columnCount r) 8 ltac:(lia)).
  rewrite Hd, u16_small by lia. lia.
Qed.

Lemma init_avx2_spec : 15 <= (_columnCount r) -> init_avx2 (_columnCount r) ((_charsBuffer r), (_charOffsetsBuffer r)) = Done all_filled.
Proof using Hs.
  intros H15. destruct (tail_offset H15) as [Ht H16]. destruct padded_buffers as (H1 & H2 & H3). destruct (so_columns _ Hs) as [Hc1 Hc2].
  unfold init_avx2. rewrite Ht.
  assert (Hloop : exists p, (padded - 16 <= p <= padded)%nat /\
    (if 0 <? Z.of_nat (padded - 16) then init_loop (S (Z.to_nat (_columnCount r))) 16 (Z.of_nat (padded - 16)) 0 (offsetsData 16) ((_charsBuffer r), (_charOffsetsBuffer r)) else Done ((_charsBuffer r), (_charOffsetsBuffer r)))
    = Done (filled_pair p (_charsBuffer r) (_charOffsetsBuffer r))).
  { destruct (Z.ltb_spec 0 (Z.of_nat (padded - 16))) as [Hpos|Hzero].
    - destruct (init_loop_spec 16 (padded - 16) (_charsBuffer r) (_charOffsetsBuffer r)) with (fuel := S (Z.to_nat (_columnCount r))) (k := 0%nat) as (k' & Hk1 & Hk2 & Hrun);
        [lia|lia|lia|lia|unfold aligned_size in H3; pose proof (Z.div_mod (_columnCount r) 8 ltac:(lia)); pose proof (Z.mod_pos_bound (_columnCount r) 8 ltac:(lia)); lia|].
      exists (k' * 16)%nat. split; [lia|]. unfold offsetsData. change 16 with (Z.of_nat 16) at 1 2. rewrite offsets_vector.
      cbn [Nat.mul] in Hrun. unfold filled_pair at 1 in Hrun. rewrite !filled_zero in Hrun. exact Hrun.
    - exists 0%nat. split; [lia|]. unfold filled_pair. by rewrite !filled_zero. }
  destruct Hloop as (p & Hp & ->). cbn [obind filled_pair fst snd]. change 16 with (Z.of_nat 16) at 1.
  unfold offsetsData. change 16 with (Z.of_nat 16) at 1. rewrite (whitespace_vector (padded - 16)), offsets_vector, add_vector. cbn [Nat.add].
  rewrite !store_filled by lia. cbn [obind]. replace (padded - 16 + 16)%nat with padded by lia. by rewrite !filled_all.
Qed.

Lemma init_all isa : _init isa r = Done (r <| _charsBuffer := vector space_at 0 padded |> <| _charOffsetsBuffer := vector offset_at 0 padded |>).
Proof using Hs.
  unfold _init. destruct isa; [destruct (Z.geb_spec (_columnCount r) 15); [rewrite init_avx2_spec by lia|rewrite init_8_spec]|rewrite init_8_spec..]; done.
Qed.

Lemma take_vector f n : (n <= padded)%nat -> take n (vector f 0 padded) = vector f 0 n.
Proof. intros Hn. unfold vector. rewrite firstn_map, take_seq. do 2 f_equal. lia. Qed.

Lemma aligned_columns : (S (Z.to_nat (_columnCount r)) <= padded)%nat.
Proof using Hs. pose proof (aligned_above r Hs). destruct padded_buffers as (_ & _ & ?). destruct Hs. lia. Qed.
End Init.

(** C36: whatever the processor, the vector code leaves in the columns of a
    row exactly what the plain loops would leave, spaces and ascending
    offsets, for every width and whatever the memory held; it writes up to
    the end of the aligned storage and never beyond. *)
Theorem row_init_vectorised isa r : storage_ok r -> exists r1 r2, _init isa r = Done r1 /\ init_plain r = Done r2 /\
  _charOffsets r1 = _charOffsets r2 /\ take (Z.to_nat (_columnCount r)) (_charsBuffer r1) = take (Z.to_nat (_columnCount r)) (_charsBuffer r2).
Proof.
  intros Hs. pose proof (aligned_columns r Hs) as Ha. destruct (padded_buffers r Hs) as (H1 & H2 & _). destruct (so_columns _ Hs) as [Hc _].
  eexists _, _. split; [by apply init_all|]. unfold init_plain.
  replace (_columnCount r) with (Z.of_nat (Z.to_nat (_columnCount r))) at 1 by lia.
  replace (_columnCount r + 1) with (Z.of_nat (S (Z.to_nat (_columnCount r)))) by lia.
  rewrite offsets_vector. change (fill_n (Z.of_nat (Z.to_nat (_columnCount r))) 0x20) with (whitespaceData (Z.of_nat (Z.to_nat (_columnCount r)))).
  rewrite (whitespace_vector 0), <- (filled_zero space_at (_charsBuffer r)), <- (filled_zero offset_at (_charOffsetsBuffer r)).
  change 0 with (Z.of_nat 0). rewrite !store_filled by lia. cbn [obind]. split; [reflexivity|]. unfold _charOffsets.
  cbn [_charOffsetsBuffer _charsBuffer _columnCount setter ROW_eta Nat.add]. unfold filled. rewrite !take_vector by lia.
  by rewrite !take_app_length' by (by rewrite length_vector).
Qed.
