(* ===== verification/RowFinish.v ===== *)
(** * The end of a write

    A row holds a list of glyphs; [WriteHelper::Finish] makes it hold the
    glyphs in front of the write, the new ones, and those behind it. *)

From S2P Require Import Prelude TermDispatch TextAttribute Rle Graphemes GraphemeFacts Row RowWrite RowFacts RowInit.
#[local] Open Scope Z_scope.
Implicit Types (r : ROW) (gs front suf : list glyph) (h : WriteHelper).

Record holds r gs : Prop := {
  ho_storage : storage_ok r;
  ho_glyphs : Forall glyph_ok gs;
  ho_cols : Z.of_nat (cols gs) = _columnCount r;
  ho_offsets : _charOffsets r = offsets gs;
  ho_chars : exists junk, _chars r = text gs ++ junk;
  ho_small : zlen (text gs) < 0x8000;
}.

(** A fresh row holds spaces. *)
Lemma init_holds isa r : storage_ok r -> _charsHeap r = None -> exists r', _init isa r = Done r' /\
  holds r' (spaces (Z.to_nat (_columnCount r))) /\ same_members r r' /\ _charsHeap r' = None.
Proof.
  intros Hs Hh. pose proof (so_columns _ Hs) as Hc. pose proof (aligned_columns r Hs). destruct (padded_buffers r Hs) as (H1 & H2 & H3).
  rewrite init_all by done. eexists. split; [reflexivity|]. split; [|by split].
  set (n := Z.to_nat (_columnCount r)). assert (Hcn : _columnCount r = Z.of_nat n) by lia.
  split; cbn.
  - destruct Hs. destruct (aligned_bytes (_columnCount r)). split; cbn; try done; unfold zlen; rewrite length_vector; lia.
  - apply spaces_ok.
  - rewrite cols_spaces. lia.
  - unfold _charOffsets. cbn [_columnCount _charOffsetsBuffer setter ROW_eta]. rewrite take_vector by done. fold n.
    unfold offsets, marks_end. rewrite marks_spaces, text_spaces by lia. unfold zlen. rewrite repeat_length, offsets_vector, Z.add_0_l.
    replace (S n) with (n + 1)%nat by lia. rewrite vector_app. f_equal. cbn. unfold offset_at. rewrite u16_small by lia. f_equal.
  - exists []. unfold _chars. cbn. rewrite Hh, take_vector by lia. fold n. rewrite text_spaces, app_nil_r.
    pose proof (whitespace_vector 0 n) as Hw. rewrite <- Hw. unfold whitespaceData, fill_n. by rewrite Nat2Z.id.
  - rewrite text_spaces. unfold zlen. rewrite repeat_length. lia.
Qed.

Lemma reset_holds isa attr r : storage_ok r -> exists r', Row_Reset isa attr r = Done r' /\ holds r' (spaces (Z.to_nat (_columnCount r))).
Proof.
  intros Hs. unfold Row_Reset. pose proof (so_runs _ Hs) as Hr. destruct (_runs (_attr r)) as [|run runs] eqn:E; [done|]. cbn [deref lookup list_lookup obind].
  match goal with |- context [_init isa ?x] => assert (Hs' : storage_ok x) by (destruct Hs; by split);
    destruct (init_holds isa x Hs' eq_refl) as (r' & H1 & H2 & _) end. by exists r'.
Qed.

Lemma holds_padded b r gs : holds r gs -> holds (SetDoubleBytePadded b r) gs.
Proof. intros [Hs ? ? ? ? ?]. split; try done. by destruct Hs; split. Qed.

Lemma zlen_repeat {A} (x : A) n : zlen (repeat x n) = Z.of_nat n.
Proof. unfold zlen. by rewrite repeat_length. Qed.

(** ** Wrapping arithmetic *)

Lemma u16_add_u64 o x : u16 (o + u64 x) = u16 (o + x).
Proof.
  unfold u16, u64. rewrite (Z.mod_eq x (2 ^ 64)) by lia. replace (o + (x - 2 ^ 64 * (x / 2 ^ 64))) with (o + x + (- (2 ^ 48 * (x / 2 ^ 64))) * 2 ^ 16) by lia.
  by rewrite Z.mod_add by lia.
Qed.

Lemma u64_add_u64 a b : 0 <= a + b < 2 ^ 64 -> u64 (a + u64 b) = a + b.
Proof. intros H. unfold u64. rewrite Z.add_mod_idemp_r by lia. by apply Z.mod_small. Qed.

Lemma shift_marks gs b n : 0 <= b -> 0 <= n -> b + zlen (text gs) < 0x8000 -> n + zlen (text gs) < 0x8000 ->
  map (fun o => u16 (o + u64 (n - b))) (marks_end b gs) = marks_end n gs.
Proof.
  assert (Hone : forall x b n, 0 <= x -> 0 <= n -> n + x < 65536 -> u16 (b + x + u64 (n - b)) = n + x).
  { intros x b' n' ? ? ?. rewrite u16_add_u64. replace (b' + x + (n' - b')) with (n' + x) by lia. apply u16_small. lia. }
  assert (Hdiff : forall k, u64 (n + k - (b + k)) = u64 (n - b)) by (intros; f_equal; lia).
  intros Hb Hn. generalize (Hdiff 0). rewrite !Z.add_0_r. set (d := u64 (n - b)) in *. intros _.
  assert (Hbn : forall x, 0 <= x -> n + x < 65536 -> u16 (b + x + d) = n + x) by (intros; apply Hone; lia). clearbody d. clear Hone Hdiff.
  revert b n Hb Hn Hbn. induction gs as [|[t w] gs IH]; intros b n Hb Hn Hbn Hb2 Hn2.
  - cbn. f_equal. apply Hbn; [apply zlen_nonneg|]. unfold zlen in *. cbn in *. lia.
  - rewrite text_cons, zlen_app in *. cbn [fst] in *. pose proof (zlen_nonneg t). pose proof (zlen_nonneg (text gs)).
    unfold marks_end in *. cbn [marks app map]. f_equal; [specialize (Hbn 0); rewrite !Z.add_0_r in Hbn; apply Hbn; lia|].
    rewrite <- app_assoc, map_app. rewrite <- app_assoc. f_equal.
    + rewrite map_repeat. f_equal. apply Hbn; unfold CharOffsetsTrailer; lia.
    + rewrite text_cons, zlen_app, !Z.add_assoc. cbn [fst]. apply IH; try lia. intros x Hx Hlt. replace (b + zlen t + x) with (b + (zlen t + x)) by lia. rewrite Hbn; lia.
Qed.

(** ** Making room *)

Section Room.
Context (garbage : nat -> Z).

Lemma length_garbage n : length (map garbage (seq 0 n)) = n.
Proof. by rewrite length_map, length_seq. Qed.

(** A list with a prefix and a part at a given place. *)
Lemma split_three (l : list Z) a q t : (a + q + t <= length l)%nat -> exists X Q Y Z, l = X ++ Q ++ Y ++ Z /\ length X = a /\ length Q = q /\ length Y = t.
Proof.
  intros Hl. exists (take a l), (take q (drop a l)), (take t (drop (a + q) l)), (drop (a + q + t) l). split.
  - rewrite <- (take_drop a l) at 1. f_equal. rewrite <- (take_drop q (drop a l)) at 1. f_equal. rewrite drop_drop.
    rewrite <- (take_drop t (drop (a + q) l)) at 1. f_equal. by rewrite drop_drop.
  - rewrite !length_take, !length_drop. lia.
Qed.

(** The text in front and the text behind are kept, with [q] characters
    between them. *)
Lemma move_text_spec r A M T junk q : storage_ok r -> _chars r = A ++ M ++ T ++ junk -> zlen A + Z.of_nat q + zlen T < 0x8000 ->
  exists r' Q junk', move_text garbage (zlen A) (zlen A + Z.of_nat q) (zlen (A ++ M)) (zlen (A ++ M) + zlen T) (zlen A + Z.of_nat q + zlen T) r
    = Done (r', false) /\ _chars r' = A ++ Q ++ T ++ junk' /\ length Q = q /\ _charOffsets r' = _charOffsets r /\ storage_ok r' /\ same_members r r'.
Proof.
  intros Hs Hch Hnew. unfold move_text. replace (zlen (A ++ M) + zlen T - zlen (A ++ M)) with (zlen T) by lia.
  assert (Htail : fetch (_chars r) (zlen (A ++ M)) (zlen T) = Done T) by (rewrite Hch, app_assoc; by apply fetch_mid).
  assert (Hhead : fetch (_chars r) 0 (zlen A) = Done A) by (rewrite Hch; by apply (fetch_mid 0 (zlen A) [])).
  rewrite Htail, Hhead. cbn [obind]. destruct (Z.leb_spec (zlen A + Z.of_nat q + zlen T) (Z.of_nat (length (_chars r)))) as [Hfit|Hbig].
  - destruct (split_three (_chars r) (length A) q (length T)) as (A' & Q & Y & Z' & Hl & HlA & HlQ & HlY); [unfold zlen in *; lia|].
    assert (A' = A) as -> by (rewrite Hch in Hl; by apply app_inj_1 in Hl as [<- _]).
    destruct (store_chars_ok r Hs (zlen A + Z.of_nat q) T (A ++ Q ++ T ++ Z')) as (r1 & -> & H1 & H2 & H3 & H4).
    { rewrite Hl, !(app_assoc A Q). apply store_mid; [|done]. rewrite zlen_app. unfold zlen in *. lia. }
    by exists r1, Q, Z'.
  - rewrite Z.gtb_ltb, (proj2 (Z.ltb_ge _ _)) by lia.
    match goal with |- context [seq 0 ?n] => set (cap := n) end.
    destruct (split_three (map garbage (seq 0 cap)) (length A) q (length T)) as (A' & Q & Y & Z' & -> & HlA & HlQ & HlY);
      [rewrite length_garbage; unfold cap, zlen in *; lia|].
    pose proof (store_mid 0 [] A A' (Q ++ Y ++ Z') eq_refl HlA) as Hst. cbn [app] in Hst. rewrite Hst. cbn [obind].
    rewrite !(app_assoc A Q), store_mid by (rewrite ?zlen_app; unfold zlen in *; lia). cbn [obind].
    eexists _, Q, Z'. split; [reflexivity|]. unfold _chars. cbn. split_and!; [by rewrite <- app_assoc|done|done|by destruct Hs; split|by split].
Qed.

Lemma char_size r X base suf : storage_ok r -> _charOffsets r = X ++ marks_end base suf -> _charSize r = Done (base + zlen (text suf)).
Proof.
  intros Hs Hof. unfold _charSize. pose proof (f_equal (@length Z) Hof) as Hl. rewrite (length_offsets_span r Hs) in Hl.
  rewrite Hof. unfold marks_end in *. rewrite !length_app in Hl. cbn in Hl. destruct Hs.
  replace (_columnCount r) with (Z.of_nat (length (X ++ marks base suf))) by (rewrite length_app; lia).
  apply element_lookup. rewrite app_assoc. apply list_lookup_middle. done.
Qed.

Lemma resize_spec r X A M junk suf q : storage_ok r -> _chars r = A ++ M ++ text suf ++ junk -> _charOffsets r = X ++ marks_end (zlen (A ++ M)) suf ->
  zlen (A ++ M) + zlen (text suf) < 0x8000 -> zlen A + Z.of_nat q + zlen (text suf) < 0x8000 ->
  exists r' Q junk', _resizeChars garbage (zlen X) (zlen A) (zlen A + Z.of_nat q) (zlen (A ++ M)) r = Done (r', false) /\
    _chars r' = A ++ Q ++ text suf ++ junk' /\ length Q = q /\ _charOffsets r' = X ++ marks_end (zlen A + Z.of_nat q) suf /\
    storage_ok r' /\ same_members r r'.
Proof.
  intros Hs Hch Hof Hold Hnew. unfold _resizeChars. pose proof (zlen_nonneg A). pose proof (zlen_nonneg (text suf)). pose proof (zlen_nonneg (A ++ M)).
  rewrite (char_size r X (zlen (A ++ M)) suf Hs Hof). cbn [obind]. rewrite u64_add_u64 by lia.
  replace (zlen (A ++ M) + zlen (text suf) + (zlen A + Z.of_nat q - zlen (A ++ M))) with (zlen A + Z.of_nat q + zlen (text suf)) by lia.
  destruct (move_text_spec r A M (text suf) junk q Hs Hch Hnew) as (r1 & Q & junk' & -> & K1 & K2 & K3 & K4 & K5). cbn [obind].
  rewrite K3, Hof. replace (Z.to_nat (zlen X)) with (length X) by (unfold zlen; lia). rewrite drop_app_length, shift_marks by lia.
  destruct (store_offsets_ok r1 K4 (zlen X) (marks_end (zlen A + Z.of_nat q) suf) (X ++ marks_end (zlen A + Z.of_nat q) suf)) as (r2 & -> & G1 & G2 & G3 & G4 & G5 & G6).
  { rewrite K3, Hof. rewrite <- (app_nil_r (marks_end (zlen (A ++ M)) suf)), <- (app_nil_r (X ++ marks_end (zlen A + Z.of_nat q) suf)), <- app_assoc.
    apply store_mid; [done|]. rewrite <- (shift_marks suf (zlen (A ++ M)) (zlen A + Z.of_nat q)) by lia. by rewrite length_map. }
  cbn [obind]. exists r2, Q, junk'. split; [done|]. rewrite G2, K1. split_and!; try done. by apply (same_members_trans r r1 r2).
Qed.

(** The same, when there may be nothing to do. *)
Lemma make_room r X A M junk suf q : storage_ok r -> _chars r = A ++ M ++ text suf ++ junk -> _charOffsets r = X ++ marks_end (zlen (A ++ M)) suf ->
  zlen (A ++ M) + zlen (text suf) < 0x8000 -> zlen A + Z.of_nat q + zlen (text suf) < 0x8000 ->
  exists r' Q junk', (if zlen A + Z.of_nat q =? zlen (A ++ M) then Done (r, false)
    else _resizeChars garbage (zlen X) (zlen A) (zlen A + Z.of_nat q) (zlen (A ++ M)) r) = Done (r', false) /\
    _chars r' = A ++ Q ++ text suf ++ junk' /\ length Q = q /\ _charOffsets r' = X ++ marks_end (zlen A + Z.of_nat q) suf /\
    storage_ok r' /\ same_members r r'.
Proof.
  intros Hs Hch Hof Hold Hnew. destruct (Z.eqb_spec (zlen A + Z.of_nat q) (zlen (A ++ M))) as [He|Hne]; [|by apply (resize_spec r X A M junk)].
  exists r, M, junk. rewrite He. split_and!; try done. rewrite zlen_app in He. unfold zlen in *. lia.
Qed.
End Room.

(** ** Finishing *)

Lemma forward_ext l1 l2 fuel : forall c, (forall i, (c <= i)%nat -> l1 !! i = l2 !! i) -> adjust_forward fuel l1 c = adjust_forward fuel l2 c.
Proof.
  induction fuel as [|fuel IH]; intros c Heq; cbn [adjust_forward]; unfold deref; rewrite Heq by lia; destruct (l2 !! c); cbn [obind]; try done.
  destruct (is_trailer z); [|done]. apply IH. intros i Hi. apply Heq. lia.
Qed.

Lemma after_split gs D : Forall glyph_ok gs -> (D <= cols gs)%nat -> exists pre, gs = pre ++ after gs D /\ (D <= cols pre <= S D)%nat.
Proof.
  intros Hok Hc. destruct (cut_at gs D Hok Hc) as [pre suf -> <-|pre t suf -> ->].
  - apply Forall_app in Hok as [Hp _]. exists pre. rewrite after_between by done. split; [done|lia].
  - exists (pre ++ [(t, 2%nat)]). rewrite after_within, <- app_assoc. split; [done|]. rewrite cols_app. cbn. lia.
Qed.

Lemma store_nil l i l' : store l i [] = Done l' -> l' = l.
Proof. unfold store. destruct (_ && _); [|done]. intros [= <-]. cbn. rewrite Nat.add_0_r. apply take_drop. Qed.

Lemma put_spaces_ok r n col v A Q B P P' E : storage_ok r -> _chars r = A ++ Q ++ B -> length Q = n -> _charOffsets r = P ++ E ->
  store P col (iota_n (Z.of_nat n) v) = Done P' -> exists r', put_spaces (Z.of_nat n) (zlen A) col v r = Done r' /\
    _chars r' = A ++ repeat 0x20 n ++ B /\ _charOffsets r' = P' ++ E /\ storage_ok r' /\ same_members r r'.
Proof.
  intros Hs Hch HQ Hof HP. unfold put_spaces. destruct (Z.eqb_spec (Z.of_nat n) 0) as [H0|Hn].
  - assert (n = 0%nat) as -> by lia. apply store_nil in HP. apply length_zero_iff_nil in HQ. subst. exists r. by split_and!.
  - destruct (store_chars_ok r Hs (zlen A) (fill_n (Z.of_nat n) 0x20) (A ++ repeat 0x20 n ++ B)) as (r1 & -> & K1 & K2 & K3 & K4).
    { rewrite Hch. unfold fill_n. rewrite Nat2Z.id. apply store_mid; [done|]. by rewrite repeat_length. }
    cbn [obind]. destruct (store_offsets_ok r1 K3 col (iota_n (Z.of_nat n) v) (P' ++ E)) as (r2 & -> & G1 & G2 & G3 & G4 & _).
    { rewrite K2, Hof. by apply store_app. }
    exists r2. rewrite G2. split_and!; try done. by apply (same_members_trans r r1 r2).
Qed.

(** The three writes into the gap between the text in front and the text
    behind. *)
Lemma fill_gap r A Q B C P P' R E L k col : storage_ok r -> _chars r = A ++ Q ++ B -> length Q = (L + length C + k)%nat ->
  _charOffsets r = (P ++ R) ++ E -> length R = k -> store P col (iota_n (Z.of_nat L) (zlen A)) = Done P' ->
  zlen (A ++ repeat 0x20 L ++ C) < 65536 ->
  exists r', (let* r := store_chars (zlen A + Z.of_nat L) C r in
              let* r := put_spaces (Z.of_nat L) (zlen A) col (zlen A) r in
              put_spaces (Z.of_nat k) (zlen A + Z.of_nat L + zlen C) (zlen P') (u16 (zlen A + Z.of_nat L + zlen C)) r) = Done r' /\
    _chars r' = (A ++ repeat 0x20 L ++ C) ++ repeat 0x20 k ++ B /\
    _charOffsets r' = (P' ++ iota_n (Z.of_nat k) (zlen (A ++ repeat 0x20 L ++ C))) ++ E /\ storage_ok r' /\ same_members r r'.
Proof.
  intros Hs Hch HQ Hof HR HP Hsmall.
  destruct (split_three Q L (length C) k) as (Q1 & Q2 & Q3 & Q4 & -> & HQ1 & HQ2 & HQ3); [lia|].
  assert (Q4 = []) as -> by (apply length_zero_iff_nil; rewrite !length_app in HQ; lia). rewrite app_nil_r in *.
  destruct (store_chars_ok r Hs (zlen A + Z.of_nat L) C (A ++ Q1 ++ C ++ Q3 ++ B)) as (r2 & -> & G1 & G2 & G3 & G4).
  { rewrite Hch, <- !app_assoc, !(app_assoc A Q1). apply store_mid; [|done]. rewrite zlen_app. unfold zlen. lia. }
  cbn [obind]. rewrite Hof, <- app_assoc in G2.
  destruct (put_spaces_ok r2 L col (zlen A) A Q1 _ P P' _ G3 G1 HQ1 G2 HP) as (r3 & -> & E1 & E2 & E3 & E4). cbn [obind].
  set (F := A ++ repeat 0x20 L ++ C) in *. assert (HF : zlen A + Z.of_nat L + zlen C = zlen F) by (unfold F; rewrite !zlen_app, zlen_repeat; lia).
  pose proof (zlen_nonneg F). rewrite HF, u16_small by lia.
  replace (A ++ repeat 0x20 L ++ C ++ Q3 ++ B) with (F ++ Q3 ++ B) in E1 by (unfold F; by rewrite <- !app_assoc). rewrite app_assoc in E2.
  destruct (put_spaces_ok r3 k (zlen P') (zlen F) F Q3 _ (P' ++ R) (P' ++ iota_n (Z.of_nat k) (zlen F)) _ E3 E1 HQ3 E2) as (r4 & Hr4 & D1 & D2 & D3 & D4).
  { pose proof (store_mid (zlen P') P' (iota_n (Z.of_nat k) (zlen F)) R []) as Hst. rewrite !app_nil_r in Hst. apply Hst; [done|]. by rewrite length_iota. }
  exists r4. split; [done|]. split_and!; try done. exact (same_members_trans _ _ _ G4 (same_members_trans _ _ _ E4 D4)).
Qed.

(** What a write has done before it finishes: the new [front] of the row has
    its offsets, but for those of the leading spaces; the old offsets are
    there from column [D] on; the text is still the old one. *)
Record ready h gs front (D : nat) : Prop := {
  rd_storage : storage_ok (h_row h);
  rd_cols : Z.of_nat (cols gs) = _columnCount (h_row h);
  rd_chars : exists junk, _chars (h_row h) = text gs ++ junk;
  rd_front : Forall glyph_ok front;
  rd_end : colEnd h = Z.of_nat (cols front);
  rd_offsets : exists P R, _charOffsets (h_row h) = P ++ R /\ drop (D - cols front) R = drop D (offsets gs) /\
    store P (colBegDirty h) (iota_n (leadingSpaces h) (chBegDirty h)) = Done (marks 0 front);
  rd_dirty : colEndDirty h = Z.of_nat D;
  rd_range : (cols front <= D <= cols gs)%nat;
  rd_text : exists A M, text gs = A ++ M ++ text (after gs D) /\ chBegDirty h = zlen A /\
    text front = A ++ repeat 0x20 (Z.to_nat (leadingSpaces h)) ++ take (Z.to_nat (charsConsumed h)) (h_chars h);
  rd_lead : 0 <= leadingSpaces h;
  rd_begin : chBeg h = chBegDirty h + leadingSpaces h;
  rd_consumed : 0 <= charsConsumed h <= zlen (h_chars h);
}.

(** The glyphs of the row after the write. *)
Definition result gs front (D : nat) : list glyph := front ++ spaces (cols gs - cols (after gs D) - cols front) ++ after gs D.

(** A row whose text and offsets are in three parts. *)
Lemma parts_hold r front k suf n junk : storage_ok r -> Forall glyph_ok front -> Forall glyph_ok suf ->
  Z.of_nat (cols front + k + cols suf) = _columnCount r -> _chars r = text front ++ repeat 0x20 k ++ text suf ++ junk ->
  _charOffsets r = (marks 0 front ++ iota_n (Z.of_nat k) (zlen (text front))) ++ marks_end n suf -> n = zlen (text front) + Z.of_nat k ->
  zlen (text front) + Z.of_nat k + zlen (text suf) < 0x8000 -> holds r (front ++ spaces k ++ suf).
Proof.
  intros Hs Hf Hsuf Hcols Hch Hof -> Hsmall. pose proof (zlen_nonneg (text front)). pose proof (zlen_nonneg (text suf)). split; [done| | | | |].
  - by repeat apply Forall_app_2; [|apply spaces_ok|].
  - rewrite !cols_app, cols_spaces. lia.
  - rewrite Hof. unfold offsets. rewrite !marks_end_app, Z.add_0_l, <- app_assoc. by rewrite marks_spaces, text_spaces, zlen_repeat by lia.
  - exists junk. rewrite Hch, !text_app, text_spaces. by rewrite <- !app_assoc.
  - rewrite !text_app, !zlen_app, text_spaces, zlen_repeat. lia.
Qed.

Section Finish.
Context (garbage : nat -> Z) (gs : list glyph) (Hok : Forall glyph_ok gs) (Hsmall : zlen (text gs) < 0x8000).
Context h front D (Hr : ready h gs front D) (Hnew : zlen (text (result gs front D)) < 0x8000).

Lemma offsets_behind i : (D <= i)%nat -> _charOffsets (h_row h) !! i = offsets gs !! i.
Proof using Hr.
  intros Hi. destruct (rd_offsets _ _ _ _ Hr) as (P & R & -> & HR & HP). apply store_length in HP. rewrite length_marks in HP by apply Hr.
  pose proof (rd_range _ _ _ _ Hr). rewrite lookup_app_r by lia. pose proof (f_equal (fun k => k !! (i - D)%nat) HR) as Hi'. cbn beta in Hi'.
  rewrite !lookup_drop in Hi'. replace (D - cols front + (i - D))%nat with (i - length P)%nat in Hi' by lia. by replace (D + (i - D))%nat with i in Hi' by lia.
Qed.

Lemma end_found pre : gs = pre ++ after gs D -> _adjustForward (h_row h) (colEndDirty h) = Done (Z.of_nat (cols pre)) /\
  _uncheckedCharOffset (h_row h) (Z.of_nat (cols pre)) = Done (zlen (text pre)).
Proof using Hok Hsmall Hr.
  intros Hpre. pose proof (rd_range _ _ _ _ Hr) as HD. pose proof (f_equal cols Hpre) as Hc. rewrite cols_app in Hc.
  pose proof Hok as Hok'. rewrite Hpre in Hok'. apply Forall_app in Hok' as [Hp _].
  assert (Hge : (D <= cols pre)%nat).
  { destruct (after_split gs D Hok ltac:(lia)) as (pre' & Hpre' & Hd). rewrite Hpre in Hpre' at 1. apply app_inv_tail in Hpre' as <-. lia. }
  split.
  - unfold _adjustForward. rewrite (rd_dirty _ _ _ _ Hr), Nat2Z.id. rewrite (forward_ext _ (offsets gs)) by apply offsets_behind.
    rewrite (forward_found gs Hok Hsmall) by (rewrite ?length_offsets_span by apply Hr; lia). cbn [obind]. do 2 f_equal. lia.
  - unfold _uncheckedCharOffset. rewrite (element_lookup _ (cols pre) (zlen (text pre))).
    + cbn [obind]. by rewrite (proj2 (low_offset _ (prefix_small gs Hok Hsmall _ _ Hpre))).
    + rewrite offsets_behind by done. rewrite Hpre at 1. by apply offset_between.
Qed.

Lemma Finish_spec : exists h', Finish garbage h = Done (h', false) /\ holds (h_row h') (result gs front D) /\
  h' = h <| h_row := h_row h' |> <| colEndDirty := Z.of_nat (cols gs - cols (after gs D)) |>.
Proof using Hok Hsmall Hr Hnew.
  pose proof (rd_range _ _ _ _ Hr) as HD. destruct (after_split gs D Hok ltac:(lia)) as (pre & Hpre & Hpc).
  destruct (end_found pre Hpre) as [Hfwd Hoff]. pose proof (f_equal cols Hpre) as Hc. rewrite cols_app in Hc.
  destruct Hr as [Hs Hcols [junk Hch] Hfront Hend [P [R0 (HofP & HR0 & HP)]] Hdirty _ [A [M (Htg & HchA & Htf)]] Hlead Hbeg Hcons].
  unfold result in *. set (suf := after gs D) in *. set (e := cols front) in *.
  replace (cols gs - cols suf - e)%nat with (cols pre - e)%nat in * by lia. set (k := (cols pre - e)%nat) in *.
  pose proof Hok as Hok'. rewrite Hpre in Hok'. apply Forall_app in Hok' as [Hp Hsuf]. pose proof (so_columns _ Hs) as Hcc.
  assert (HAM : A ++ M = text pre). { rewrite Hpre, text_app, app_assoc in Htg. by apply app_inv_tail in Htg. }
  set (L := Z.to_nat (leadingSpaces h)) in *. assert (HL : leadingSpaces h = Z.of_nat L) by lia.
  set (C := take (Z.to_nat (charsConsumed h)) (h_chars h)) in *.
  assert (HC : charsConsumed h = zlen C) by (unfold C, zlen in *; rewrite length_take; lia).
  set (F := A ++ repeat 0x20 L ++ C) in *. set (q := (L + length C + k)%nat). assert (Hq : Z.of_nat q = Z.of_nat L + zlen C + Z.of_nat k) by (unfold q, zlen; lia).
  rewrite !text_app, !zlen_app, text_spaces, Htf, zlen_repeat in Hnew.
  assert (HF : zlen F = zlen A + Z.of_nat L + zlen C) by (unfold F; rewrite !zlen_app, zlen_repeat; lia). pose proof (zlen_nonneg (text suf)). pose proof (zlen_nonneg F).
  assert (HlP : length P = e) by (apply store_length in HP; by rewrite length_marks in HP).
  assert (HdR : drop k R0 = marks_end (zlen (A ++ M)) suf).
  { replace k with (D - e + (cols pre - D))%nat by lia. rewrite <- drop_drop, HR0, drop_drop, Hpre. unfold offsets.
    rewrite marks_end_app, HAM. replace (D + (cols pre - D))%nat with (length (marks 0 pre)) by (rewrite length_marks; [lia|done]). apply drop_app_length. }
  set (R := take k R0). assert (HlR : length R = k).
  { pose proof (f_equal (@length Z) HdR) as Hl. rewrite length_drop, length_marks_end in Hl by done. unfold R. rewrite length_take. lia. }
  assert (Hofs : _charOffsets (h_row h) = (P ++ R) ++ marks_end (zlen (A ++ M)) suf) by (rewrite HofP, <- app_assoc, <- HdR; unfold R; by rewrite take_drop).
  assert (Hold : zlen (A ++ M) + zlen (text suf) < 0x8000) by (rewrite HAM; rewrite Hpre, text_app, zlen_app in Hsmall; done).
  rewrite Htg, <- !app_assoc in Hch.
  destruct (make_room garbage (h_row h) (P ++ R) A M junk suf q Hs Hch Hofs Hold) as (r1 & Q & junk' & Hroom & K1 & K2 & K3 & K4 & K5); [lia|].
  rewrite HchA, HL in HP. destruct (fill_gap r1 A Q _ C P _ R _ L k _ K4 K1 K2 K3 HlR HP) as (r4 & Hgap & D1 & D2 & D3 & D4); [fold F; lia|].
  pose proof (same_members_trans _ _ _ K5 D4) as Hm. fold F in D1, D2.
  exists (h <| h_row := if Z.of_nat (cols pre) =? _columnCount r4 then SetDoubleBytePadded (Z.of_nat e <? _columnCount r4) r4 else r4 |>
            <| colEndDirty := Z.of_nat (cols pre) |>).
  replace (cols gs - cols suf)%nat with (cols pre) by lia. split; [|split; [|done]].
  - unfold Finish. rewrite Hfwd. cbn [obind]. rewrite Hoff. cbn [obind]. rewrite Hend, (u16_small (Z.of_nat (cols pre) - Z.of_nat e)) by lia.
    replace (Z.of_nat (cols pre) - Z.of_nat e) with (Z.of_nat k) by lia.
    replace (chBegDirty h + charsConsumed h + leadingSpaces h + Z.of_nat k) with (zlen A + Z.of_nat q) by lia.
    cbn [h_row chBegDirty setter WriteHelper_eta h_chars charsConsumed chBeg leadingSpaces colBegDirty colEnd].
    assert (HX : zlen (P ++ R) = Z.of_nat (cols pre)) by (unfold zlen; rewrite length_app; lia). rewrite HX in Hroom.
    rewrite Hbeg, HchA, <- HAM, Hroom, HC, HL, Hend. cbn [obind].
    assert (Hfetch : fetch (h_chars h) 0 (zlen C) = Done C).
    { rewrite <- HC, <- (take_drop (Z.to_nat (charsConsumed h)) (h_chars h)). by apply (fetch_mid 0 _ []). }
    rewrite Hfetch. cbn [obind]. replace (zlen (marks 0 front)) with (Z.of_nat e) in Hgap by (unfold zlen; by rewrite length_marks).
    destruct (store_chars _ C r1) as [r2| | |]; cbn [obind] in *; try done. destruct (put_spaces (Z.of_nat L) _ _ _ r2) as [r3| | |]; cbn [obind] in *; try done.
    by rewrite Hgap.
  - cbn [h_row setter WriteHelper_eta].
    assert (Hh : holds r4 (front ++ spaces k ++ suf)) by (apply (parts_hold r4 front k suf (zlen A + Z.of_nat q) junk'); rewrite ?Htf, ?(sm_columns _ _ Hm); try done; lia).
    by destruct (Z.of_nat (cols pre) =? _columnCount r4); [apply holds_padded|].
Qed.
End Finish.
