(* ===== verification/RowWrites.v ===== *)
(** * The writers of a row

    The three ways to fill a row come down to one: they give new glyphs their
    offsets from a column on, and finish. *)

From S2P Require Import Prelude TermDispatch TextAttribute Rle Graphemes GraphemeFacts Row RowWrite RowFacts RowInit RowFinish.
#[local] Open Scope Z_scope.
Implicit Types (r : ROW) (gs ng bs : list glyph) (h : WriteHelper).

(** ** Before and after *)

Lemma before_split gs b : Forall glyph_ok gs -> (b <= cols gs)%nat -> exists rest, gs = before gs b ++ rest /\ (cols (before gs b) <= b <= S (cols (before gs b)))%nat.
Proof.
  intros Hok Hb. destruct (cut_at gs b Hok Hb) as [pre suf -> <-|pre t suf -> ->].
  - apply Forall_app in Hok as [_ Hs]. exists suf. rewrite before_between by done. split; [done|lia].
  - exists ((t, 2%nat) :: suf). rewrite before_within. split; [done|lia].
Qed.

Lemma cols_positive gs : Forall glyph_ok gs -> gs <> [] -> (0 < cols gs)%nat.
Proof. intros [|g gs' [_ _ Hw] _]; [done|]. rewrite cols_cons. lia. Qed.

Lemma before_after gs b D : Forall glyph_ok gs -> (b <= cols gs)%nat -> (D <= cols gs)%nat -> (b <= cols gs - cols (after gs D))%nat ->
  exists M, gs = before gs b ++ M ++ after gs D.
Proof.
  intros Hok Hb HD Hle. destruct (before_split gs b Hok Hb) as (rest & Hr & Hbc). destruct (after_split gs D Hok HD) as (pre & Hpre & _).
  pose proof (f_equal cols Hpre) as Hc. rewrite cols_app in Hc. rewrite Hr in Hpre at 1.
  apply app_eq_app in Hpre as (l & [[Hb1 Hb2]|[Hb1 Hb2]]).
  - assert (l = []) as ->.
    { pose proof (f_equal cols Hb1) as Hc1. rewrite cols_app in Hc1. destruct l as [|g l]; [done|].
      pose proof Hok as Hok'. rewrite Hr, Hb1 in Hok'. apply Forall_app in Hok' as [Hok' _]. apply Forall_app in Hok' as [_ Hl].
      pose proof (cols_positive _ Hl ltac:(done)). lia. }
    exists []. cbn [app] in *. by rewrite Hb2.
  - exists l. by rewrite <- Hb2.
Qed.

Lemma after_mono gs c c' : Forall glyph_ok gs -> (c <= c' <= cols gs)%nat -> (cols (after gs c') <= cols (after gs c))%nat.
Proof.
  intros Hok Hc. destruct (after_split gs c Hok ltac:(lia)) as (p1 & H1 & Hp1). destruct (after_split gs c' Hok ltac:(lia)) as (p2 & H2 & Hp2).
  pose proof (f_equal cols H1) as E1. pose proof (f_equal cols H2) as E2. rewrite cols_app in E1, E2.
  destruct (Nat.eq_dec c c') as [->|Hne]; [done|]. lia.
Qed.

Lemma after_cols gs c : Forall glyph_ok gs -> (c <= cols gs)%nat -> (c <= cols gs - cols (after gs c) <= S c)%nat.
Proof.
  intros Hok Hc. destruct (after_split gs c Hok Hc) as (p & Hp & Hr). pose proof (f_equal cols Hp) as E. rewrite cols_app in E. lia.
Qed.

Lemma before_prefix gs : forall m n, (m <= n)%nat -> exists k, before gs n = before gs m ++ k.
Proof.
  induction gs as [|g gs IH]; intros m n Hmn; cbn [before]; [by exists []|]. destruct (Nat.leb_spec (snd g) m) as [Hm|Hm].
  - rewrite (proj2 (Nat.leb_le _ _)) by lia. destruct (IH (m - snd g)%nat (n - snd g)%nat ltac:(lia)) as [k ->]. by exists k.
  - by eexists.
Qed.

(** ** The start of a write *)

Definition column r (v : Z) : nat := Z.to_nat (clamp v 0 (_columnCount r)).
Definition lead gs (b : nat) : nat := b - cols (before gs b).

Definition started r gs (b l : nat) (chars : list Z) : WriteHelper :=
  mk_WriteHelper r chars (Z.of_nat b) (Z.of_nat l) (Z.of_nat b) (Z.of_nat (cols (before gs b))) 0
    (zlen (text (before gs b)) + Z.of_nat (lead gs b)) (zlen (text (before gs b))) (Z.of_nat (lead gs b)) 0.

Lemma column_clamped r gs v : holds r gs -> _clampedColumnInclusive r v = Z.of_nat (column r v) /\ (column r v <= cols gs)%nat.
Proof.
  intros [Hs _ Hc _ _ _]. destruct (so_columns _ Hs). unfold _clampedColumnInclusive, column, clamp.
  destruct (Z.ltb_spec v 0); [|destruct (Z.gtb_spec v (_columnCount r))]; rewrite u16_small by lia; lia.
Qed.

Lemma helper_started r gs columnBegin columnLimit chars : holds r gs ->
  new_WriteHelper r columnBegin columnLimit chars = Done (started r gs (column r columnBegin) (column r columnLimit) chars).
Proof.
  intros Hh. destruct (column_clamped r gs columnBegin Hh) as [Hb Hbc]. destruct (column_clamped r gs columnLimit Hh) as [Hl _].
  destruct Hh as [Hs Hok Hc Hof _ Hsmall]. destruct (so_columns _ Hs). unfold new_WriteHelper. rewrite Hb, Hl. set (b := column r columnBegin) in *.
  destruct (before_split gs b Hok Hbc) as (rest & Hr & Hbb). pose proof (prefix_small gs Hok Hsmall _ _ Hr) as Hp.
  destruct (offset_masked gs Hok Hsmall b Hbc) as (o & Ho & Hmask & _). unfold _uncheckedCharOffset.
  rewrite (element_lookup _ b o) by (by rewrite Hof). cbn [obind]. rewrite Hmask.
  unfold _adjustBackward. rewrite Nat2Z.id, Hof, (backward_found gs Hok Hsmall) by done. cbn [obind].
  rewrite (u16_small (Z.of_nat b - _)), u16_small by lia. unfold started, lead.
  by replace (Z.of_nat b - Z.of_nat (cols (before gs b))) with (Z.of_nat (b - cols (before gs b))) by lia.
Qed.

Lemma before_ok gs b : Forall glyph_ok gs -> Forall glyph_ok (before gs b).
Proof.
  intros Hok. revert b. induction Hok as [|g gs Hg _ IH]; intros b; cbn [before]; [done|]. destruct (_ <=? _)%nat; [by constructor|done].
Qed.

Lemma after_ok gs b : Forall glyph_ok gs -> Forall glyph_ok (after gs b).
Proof.
  intros Hok. revert b. induction Hok as [|g gs Hg Hgs IH]; intros b; cbn [after]; [done|]. destruct b; [by constructor|apply IH].
Qed.

(** ** A glyph's offsets *)

Lemma write_glyph_spec h n X R ch (t : list Z) w : storage_ok (h_row h) -> Z.of_nat n = _columnCount (h_row h) ->
  _charOffsets (h_row h) = X ++ R -> colEnd h = zlen X -> (1 <= w <= 2)%nat -> (length X + w <= n)%nat -> 0 <= ch < 0x8000 ->
  exists h', write_glyph ch (zlen X + Z.of_nat w) h = Done h' /\ h' = h <| h_row := h_row h' |> <| colEnd := zlen X + Z.of_nat w |> /\
    _charOffsets (h_row h') = (X ++ marks ch [(t, w)]) ++ drop w R /\ _chars (h_row h') = _chars (h_row h) /\
    storage_ok (h_row h') /\ same_members (h_row h) (h_row h').
Proof.
  intros Hs Hc Hof Hend Hw Hfit Hch. pose proof (so_columns _ Hs) as Hcc. pose proof (length_offsets_span _ Hs) as Hlen. rewrite Hof, length_app in Hlen. unfold write_glyph. rewrite Hend.
  replace (Z.max 0 (zlen X + Z.of_nat w - (zlen X + 1))) with (Z.of_nat (Nat.pred w)) by lia.
  assert (HW : u16 ch :: fill_n (Z.of_nat (Nat.pred w)) (u16 (Z.lor ch CharOffsetsTrailer)) = marks ch [(t, w)]).
  { rewrite u16_small, high_lor by lia. cbn [marks]. rewrite app_nil_r. unfold fill_n. by rewrite Nat2Z.id. }
  rewrite HW. assert (HlW : length (marks ch [(t, w)]) = w) by (rewrite <- HW; cbn [length]; rewrite length_fill; lia).
  destruct (store_offsets_ok _ Hs (zlen X) (marks ch [(t, w)]) ((X ++ marks ch [(t, w)]) ++ drop w R)) as (r' & -> & K1 & K2 & K3 & K4 & _).
  { rewrite Hof, <- app_assoc. rewrite <- (take_drop w R) at 1. apply store_mid; [done|]. rewrite HlW, length_take. lia. }
  cbn [obind]. eexists. split; [reflexivity|]. cbn. replace (zlen X + 1 + Z.of_nat (Nat.pred w)) with (zlen X + Z.of_nat w) by lia.
  rewrite u16_small by (unfold zlen in *; lia). done.
Qed.

(** ** Writing glyph by glyph *)

Section Writing.
Context r gs (Hh : holds r gs) (b l : nat) (chars : list Z).
Context (Hbl : (b < l <= cols gs)%nat) (Hroom : zlen (text gs) + zlen chars + Z.of_nat (cols gs) < 0x8000) (Hunits : Forall unit16 chars).

(** What is in front of the new glyphs: the glyphs [bs], whose offsets are [P]
    up to the leading spaces, and the part [pt] of the first new glyph's text
    that is there already. *)
Record base bs (P pt : list Z) (dirty : nat) : Prop := {
  ba_glyphs : Forall glyph_ok bs;
  ba_length : length P = cols bs;
  ba_text : text bs ++ pt = text (before gs b) ++ repeat 0x20 (lead gs b);
  ba_store : forall ng, Forall glyph_ok ng -> pt = [] \/ ng <> [] ->
    store (P ++ marks (zlen (text bs)) ng) (Z.of_nat dirty) (iota_n (Z.of_nat (lead gs b)) (zlen (text (before gs b)))) = Done (marks 0 (bs ++ ng));
  ba_kept : exists kept cut new, gs = kept ++ cut /\ bs = kept ++ new /\ dirty = cols kept;
}.

(** The entries of the last [k] columns, at most one, may be stale. *)
Record writing h bs P pt dirty ng (it k : nat) : Prop := {
  wr_base : base bs P pt dirty;
  wr_helper : h = (started r gs b l chars) <| h_row := h_row h |> <| colEnd := Z.of_nat (cols (bs ++ ng)) |> <| colBegDirty := Z.of_nat dirty |>;
  wr_storage : storage_ok (h_row h);
  wr_same : same_members r (h_row h);
  wr_chars : _chars (h_row h) = _chars r;
  wr_offsets : exists R, _charOffsets (h_row h) = (P ++ marks (zlen (text bs)) ng) ++ R /\ drop k R = drop (cols (bs ++ ng) + k) (offsets gs);
  wr_stale : (k <= 1)%nat;
  wr_glyphs : Forall glyph_ok ng;
  wr_text : text ng = pt ++ take it chars;
  wr_it : (it <= length chars)%nat;
  wr_limit : (cols (bs ++ ng) + k <= l)%nat;
  wr_reach : (b <= cols gs - cols (after gs (cols (bs ++ ng))))%nat;
  wr_lead : (lead gs b <= cols (bs ++ ng))%nat;
  wr_started : pt = [] \/ ng <> [];
}.

Lemma front_text h bs P pt dirty ng it k : writing h bs P pt dirty ng it k ->
  text (bs ++ ng) = text (before gs b) ++ repeat 0x20 (lead gs b) ++ take it chars.
Proof using. intros Hw. rewrite text_app, (wr_text _ _ _ _ _ _ _ _ Hw), app_assoc, (ba_text _ _ _ _ (wr_base _ _ _ _ _ _ _ _ Hw)). by rewrite <- app_assoc. Qed.

(** The text of the row stays below the limit. *)
Lemma room_left h bs P pt dirty ng it k D : writing h bs P pt dirty ng it k -> (cols (bs ++ ng) + k <= D <= cols gs)%nat -> zlen (text (result gs (bs ++ ng) D)) < 0x8000.
Proof using Hh Hroom Hbl.
  intros Hw HD. destruct Hh as [_ Hok _ _ _ _]. pose proof (wr_lead _ _ _ _ _ _ _ _ Hw). pose proof (wr_reach _ _ _ _ _ _ _ _ Hw).
  pose proof (after_mono gs (cols (bs ++ ng)) D Hok ltac:(lia)). destruct (before_after gs b D Hok ltac:(lia) ltac:(lia) ltac:(lia)) as (M & Hg).
  unfold result. rewrite !text_app, !zlen_app, <- zlen_app, <- text_app, (front_text _ _ _ _ _ _ _ _ Hw), !zlen_app, text_spaces, !zlen_repeat.
  pose proof (f_equal (fun l => zlen (text l)) Hg) as Hz. cbn beta in Hz. rewrite !text_app, !zlen_app in Hz. pose proof (zlen_nonneg (text M)). pose proof (after_cols gs D Hok ltac:(lia)).
  assert (zlen (take it chars) <= zlen chars) by (unfold zlen; rewrite length_take; lia). lia.
Qed.

Lemma writing_ready h bs P pt dirty ng it k D : writing h bs P pt dirty ng it k -> (cols (bs ++ ng) + k <= D <= cols gs)%nat ->
  ready (h <| colEndDirty := Z.of_nat D |> <| charsConsumed := Z.of_nat it |>) gs (bs ++ ng) D.
Proof using Hh Hbl.
  intros Hw HD. pose proof Hw as [Hb Heq Hs Hsame Hch [R [Hof HR]] Hk Hg Ht Hit Hl Hre Hle Hst]. destruct Hh as [_ Hok Hc _ [junk Hj] _].
  pose proof (after_mono gs (cols (bs ++ ng)) D Hok ltac:(lia)). destruct (before_after gs b D Hok ltac:(lia) ltac:(lia) ltac:(lia)) as (M & HM).
  rewrite Heq. split; cbn [h_row h_chars colEnd colBegDirty colEndDirty chBeg chBegDirty leadingSpaces charsConsumed started setter WriteHelper_eta]; try done.
  - by rewrite (sm_columns _ _ Hsame).
  - exists junk. by rewrite Hch.
  - apply Forall_app_2; [apply Hb|done].
  - exists (P ++ marks (zlen (text bs)) ng), R. split; [done|]. split; [|by apply Hb].
    replace (D - cols (bs ++ ng))%nat with (k + (D - cols (bs ++ ng) - k))%nat by lia. rewrite <- drop_drop, HR, drop_drop. f_equal. lia.
  - lia.
  - exists (text (before gs b)), (text M). split; [rewrite HM at 1; by rewrite !text_app|]. split; [done|]. rewrite !Nat2Z.id. by apply (front_text h bs P pt dirty ng it k).
  - lia.
  - unfold zlen. lia.
Qed.

Lemma writing_finish garbage h bs P pt dirty ng it k D : writing h bs P pt dirty ng it k -> (cols (bs ++ ng) + k <= D <= cols gs)%nat ->
  exists h', Finish garbage (h <| colEndDirty := Z.of_nat D |> <| charsConsumed := Z.of_nat it |>) = Done (h', false) /\
    holds (h_row h') (result gs (bs ++ ng) D) /\ colEnd h' = Z.of_nat (cols (bs ++ ng)) /\ colLimit h' = Z.of_nat l /\
    colBegDirty h' = Z.of_nat dirty /\ charsConsumed h' = Z.of_nat it /\ colEndDirty h' = Z.of_nat (cols gs - cols (after gs D)) /\ colBeg h' = Z.of_nat b.
Proof using Hh Hroom Hbl.
  intros Hw HD. pose proof Hh as [_ Hok _ _ _ Hsm].
  destruct (Finish_spec garbage gs Hok Hsm _ _ _ (writing_ready _ _ _ _ _ _ _ _ _ Hw HD) (room_left _ _ _ _ _ _ _ _ _ Hw HD)) as (h' & HF & Hho & Heq).
  exists h'. rewrite (wr_helper _ _ _ _ _ _ _ _ Hw) in Heq. split; [done|]. split; [done|]. rewrite Heq. by cbn.
Qed.

(** One more glyph. *)
Lemma writing_step h bs P pt dirty ng it k n w : writing h bs P pt dirty ng it k -> (0 < n)%nat -> (it + n <= length chars)%nat -> (1 <= w <= 2)%nat ->
  (cols (bs ++ ng) + w <= l)%nat -> exists h', write_glyph (chBeg h + Z.of_nat it) (colEnd h + Z.of_nat w) h = Done h' /\
    writing h' bs P pt dirty (ng ++ [(substr it n chars, w)]) (it + n) 0.
Proof using Hh Hroom Hbl Hunits.
  intros Hw Hn Hin Hww Hfit. pose proof Hw as [Hb Heq Hs Hsame Hch [R [Hof HR]] Hk Hg Ht Hit Hl Hre Hle Hst]. pose proof Hh as [_ Hok Hc _ _ Hsm].
  set (X := P ++ marks (zlen (text bs)) ng) in *. assert (HlX : length X = cols (bs ++ ng)).
  { unfold X. rewrite length_app, length_marks, (ba_length _ _ _ _ Hb), cols_app; done. }
  pose proof (room_left _ _ _ _ _ _ _ _ (cols (bs ++ ng) + k) Hw ltac:(lia)) as Hnew. unfold result in Hnew. rewrite text_app, zlen_app in Hnew.
  pose proof (zlen_nonneg (text (bs ++ ng))) as H0. 
  match type of Hnew with _ + zlen ?t < _ => pose proof (zlen_nonneg t) as H1 end.
  assert (Hchv : chBeg h + Z.of_nat it = zlen (text bs) + zlen (text ng)).
  { pose proof (f_equal zlen (front_text _ _ _ _ _ _ _ _ Hw)) as Hz. rewrite text_app, !zlen_app, zlen_repeat in Hz. rewrite Heq. cbn.
    rewrite Hz. unfold zlen. rewrite length_take. lia. }
  rewrite text_app, zlen_app in H0, Hnew. rewrite Hchv.
  assert (Hce : colEnd h = Z.of_nat (cols (bs ++ ng))) by (by rewrite Heq). rewrite Hce.
  destruct (write_glyph_spec h (cols gs) X R (zlen (text bs) + zlen (text ng)) (substr it n chars) w Hs) as (h' & Hrun & Heq' & K1 & K2 & K3 & K4);
    try done; try lia; [by rewrite (sm_columns _ _ Hsame)|rewrite Hce; unfold zlen; by rewrite HlX|].
  replace (zlen X) with (Z.of_nat (cols (bs ++ ng))) in * by (unfold zlen; by rewrite HlX).
  exists h'. split; [done|].
  assert (Hgl : glyph_ok (substr it n chars, w)).
  { split; cbn [fst snd]; [|by apply Forall_take, Forall_drop|done]. intros E. apply (f_equal length) in E. unfold substr in E. rewrite length_take, length_drop in E. cbn in E. lia. }
  assert (Hcols : cols (bs ++ ng ++ [(substr it n chars, w)]) = (cols (bs ++ ng) + w)%nat) by (rewrite app_assoc, (cols_app (bs ++ ng)); cbn; lia).
  pose proof (after_mono gs (cols (bs ++ ng)) (cols (bs ++ ng) + w) Hok ltac:(lia)).
  split; rewrite ?Hcols; try done; try lia.
  - rewrite Heq', Heq. cbn. by rewrite Nat2Z.inj_add.
  - by apply (same_members_trans _ (h_row h)).
  - by rewrite K2.
  - exists (drop w R). split; [rewrite K1; unfold X; by rewrite marks_app, <- !app_assoc|]. rewrite drop_0, Nat.add_0_r.
    replace w with (k + (w - k))%nat at 1 by lia. rewrite <- drop_drop, HR, drop_drop. f_equal. lia.
  - by apply Forall_app_2; [|constructor].
  - rewrite text_app, Ht, <- app_assoc. f_equal. unfold substr. cbn. rewrite app_nil_r. apply take_take_drop.
  - right. by destruct ng.
Qed.

(** ** The usual start *)

Definition plain_base : list glyph := before gs b ++ spaces (lead gs b).

Lemma cols_plain : cols plain_base = b.
Proof using Hh Hbl.
  destruct Hh as [_ Hok _ _ _ _]. destruct (before_split gs b Hok ltac:(lia)) as (rest & _ & Hc).
  unfold plain_base, lead. rewrite cols_app, cols_spaces. lia.
Qed.

Lemma base_plain : base plain_base (take b (offsets gs)) [] (cols (before gs b)).
Proof using Hh Hbl Hroom.
  pose proof cols_plain as Hcp. destruct Hh as [Hs Hok Hc _ _ Hsm]. destruct (before_split gs b Hok ltac:(lia)) as (rest & Hr & Hb).
  pose proof (prefix_small gs Hok Hsm _ _ Hr) as Hp. pose proof (before_ok gs b Hok) as Hbo. pose proof (so_columns _ Hs).
  assert (Hlb : length (take b (offsets gs)) = b) by (unfold offsets; rewrite length_take, length_marks_end by done; lia).
  split; [by apply Forall_app_2; [|apply spaces_ok]|by rewrite Hcp|unfold plain_base; by rewrite text_app, text_spaces, app_nil_r| |by exists (before gs b), rest, (spaces (lead gs b))].
  intros ng Hng _. set (A := marks 0 (before gs b)). assert (HA : length A = cols (before gs b)) by (by apply length_marks).
  assert (Htake : take b (offsets gs) = A ++ drop (length A) (take b (offsets gs))).
  { assert (HtA : take (length A) (take b (offsets gs)) = A).
    { rewrite take_take, Nat.min_l by lia. rewrite Hr at 1. unfold offsets. by rewrite marks_end_app, take_app_length. }
    rewrite <- HtA at 1. symmetry. apply take_drop. }
  rewrite Htake, <- app_assoc. unfold plain_base. rewrite <- app_assoc, !marks_app, marks_spaces by (unfold lead in *; lia).
  fold A.
  rewrite (store_mid _ A (iota_n (Z.of_nat (lead gs b)) (zlen (text (before gs b))))).
  - rewrite !text_app, !zlen_app. done.
  - unfold zlen. by rewrite HA.
  - rewrite length_drop, length_iota, Hlb, HA. unfold lead. done.
Qed.

Lemma writing_start : writing (started r gs b l chars) plain_base (take b (offsets gs)) [] (cols (before gs b)) [] 0 0.
Proof using Hh Hbl Hroom.
  pose proof cols_plain as Hcp. pose proof Hh as [Hs Hok Hc Hof _ Hsm].
  pose proof (after_cols gs b Hok ltac:(lia)). split; rewrite ?app_nil_r, ?Hcp; try done; try lia.
  - apply base_plain.
  - cbn [h_row started]. exists (drop b (offsets gs)). cbn [marks]. by rewrite take_drop, drop_0, Nat.add_0_r.
  - unfold lead. lia.
  - by left.
Qed.
End Writing.
