(* ===== verification/RowTheorems.v ===== *)
(** * Writing text into a row

    [ROW::ReplaceText]: the fast pass for ASCII, the clusters of other text,
    and the cluster that continues the glyph in front of the cursor. *)

From S2P Require Import Prelude TermDispatch TextAttribute Rle Graphemes GraphemeFacts Row RowWrite RowFacts RowInit RowFinish RowWrites.
#[local] Open Scope Z_scope.
Implicit Types (r : ROW) (gs ng bs : list glyph) (h : WriteHelper) (d : CodepointWidthDetector).

Section Text.
Context (fallback : option (list Z -> option bool)).
Context r gs (Hh : holds r gs) (b l : nat) (chars : list Z).
Context (Hbl : (b < l <= cols gs)%nat) (Hroom : zlen (text gs) + zlen chars + Z.of_nat (cols gs) < 0x8000) (Hunits : Forall unit16 chars).

(** All of the text was written, or it ended one column short of the limit in
    front of a wide glyph. *)
Definition stopped (e it D : nat) : Prop :=
  it = length chars /\ D = e \/ (it <= length chars)%nat /\ D = l /\ (l <= S e)%nat.

(** The helper that a writer leaves for [Finish]. *)
Record written (res : WriteHelper) bs P pt dirty ng (it D : nat) : Prop := {
  wn_writing : exists h k, writing r gs b l chars h bs P pt dirty ng it k /\ (cols (bs ++ ng) + k <= D)%nat /\
    res = h <| colEndDirty := Z.of_nat D |> <| charsConsumed := Z.of_nat it |>;
  wn_stopped : stopped (cols (bs ++ ng)) it D;
}.

Lemma offset_of_it h bs P pt dirty ng it k : writing r gs b l chars h bs P pt dirty ng it k -> chBeg h + Z.of_nat it - chBeg h = Z.of_nat it.
Proof. lia. Qed.

Lemma col_fields h bs P pt dirty ng it k : writing r gs b l chars h bs P pt dirty ng it k ->
  colEnd h = Z.of_nat (cols (bs ++ ng)) /\ colLimit h = Z.of_nat l /\ h_chars h = chars /\ (cols (bs ++ ng) <= l)%nat /\ Z.of_nat l < 0x8000.
Proof using Hh Hbl.
  intros Hw. rewrite (wr_helper _ _ _ _ _ _ _ _ _ _ _ _ _ Hw). cbn. pose proof (wr_limit _ _ _ _ _ _ _ _ _ _ _ _ _ Hw).
  destruct Hh as [Hs _ Hc _ _ _]. destruct (so_columns _ Hs). split_and!; done || lia.
Qed.

(** A glyph of some width either fits or ends the write. *)
Lemma place_width h bs P pt dirty ng it k width : writing r gs b l chars h bs P pt dirty ng it k -> 0 <= width <= 2 ->
  exists w, Z.max 1 width = Z.of_nat w /\ (1 <= w <= 2)%nat /\ u16 (colEnd h + Z.max 1 width) = colEnd h + Z.of_nat w /\
    (colEnd h + Z.of_nat w >? colLimit h) = negb (cols (bs ++ ng) + w <=? l)%nat.
Proof using Hh Hbl.
  intros Hw Hwd. destruct (col_fields _ _ _ _ _ _ _ _ Hw) as (He & Hl & _ & Hb). exists (Z.to_nat (Z.max 1 width)). rewrite He, Hl.
  rewrite u16_small by lia. split_and!; try lia. rewrite Z.gtb_ltb. destruct (Nat.leb_spec (cols (bs ++ ng) + Z.to_nat (Z.max 1 width)) l); cbn; [apply Z.ltb_ge|apply Z.ltb_lt]; lia.
Qed.

Lemma clusters_written bs P pt dirty : forall fuel d s h ng it k, writing r gs b l chars h bs P pt dirty ng it k -> detector_ok d -> state_ok d s -> _state s = 0 ->
  resetIfOutOfRange (mk_wview text_id chars) 0 (cluster_end_ptr s) = it -> (it < length chars)%nat -> (length chars - it <= fuel)%nat ->
  exists d' res ng' it' D, clusters_loop fallback fuel d s (chBeg h + Z.of_nat it) it h = Done (d', res) /\ detector_ok d' /\
    written res bs P pt dirty (ng ++ ng') it' D.
Proof using Hh Hbl Hroom Hunits.
  induction fuel as [|fuel IH]; intros d s h ng it k Hw Hd Hs H0 Hp Hlt Hf; [lia|]. cbn [clusters_loop].
  destruct (col_fields _ _ _ _ _ _ _ _ Hw) as (He & Hl & Hcs & Hb). rewrite Hcs.
  destruct (GraphemeNext_spec fallback d s (mk_wview text_id chars) it Hd Hs Hunits Hp Hlt) as (d1 & s1 & more & -> & [N1 N2 N3 N4 N5 [N6 N7]] & Hmore). cbn [obind wv_chars wv_id] in *.
  specialize (N3 H0). specialize (Hmore H0).
  destruct (place_width _ _ _ _ _ _ _ _ (gs_width s1) Hw) as (w & Hwm & Hwr & -> & ->); [apply N4|].
  destruct (Nat.leb_spec (cols (bs ++ ng) + w) l) as [Hfit|Hover]; cbn [negb].
  - destruct (writing_step r gs Hh b l chars Hbl Hroom Hunits _ _ _ _ _ _ _ _ (gs_len s1) w Hw N3 N2 Hwr Hfit) as (h' & -> & Hw'). cbn [obind].
    destruct (col_fields _ _ _ _ _ _ _ _ Hw') as (He' & Hl' & -> & _).
    assert (Hch : chBeg h' = chBeg h) by (rewrite (wr_helper _ _ _ _ _ _ _ _ _ _ _ _ _ Hw), (wr_helper _ _ _ _ _ _ _ _ _ _ _ _ _ Hw'); done).
    replace (chBeg h + Z.of_nat it + Z.of_nat (gs_len s1)) with (chBeg h' + Z.of_nat (it + gs_len s1)) by lia.
    destruct (Nat.eqb_spec (it + gs_len s1) (length chars)) as [Hend|Hgo].
    + exists d1, (text_written (chBeg h' + Z.of_nat (it + gs_len s1)) h'), [(substr it (gs_len s1) chars, w)], (it + gs_len s1)%nat,
        (cols (bs ++ ng ++ [(substr it (gs_len s1) chars, w)])). split; [done|]. split; [done|]. split; [exists h', 0%nat; split; [exact Hw'|]; split; [lia|]|left; done].
      unfold text_written. by rewrite He', (offset_of_it _ _ _ _ _ _ _ _ Hw').
    + assert (more = true) as -> by (rewrite Hmore; apply Nat.ltb_lt; lia).
      assert (Hp1 : resetIfOutOfRange (mk_wview text_id chars) 0 (cluster_end_ptr s1) = (it + gs_len s1)%nat).
      { unfold cluster_end_ptr. rewrite N1. cbn. by rewrite (proj2 (Nat.leb_le _ _)) by lia. }
      destruct (IH d1 s1 h' _ _ _ Hw' N6 N4 N5 Hp1) as (d2 & res & ng' & it' & D & -> & Hd2 & Hres); [lia|lia|].
      rewrite <- app_assoc in Hres. by exists d2, res, ((substr it (gs_len s1) chars, w) :: ng'), it', D.
  - exists d1, (text_limited (chBeg h + Z.of_nat it) h), [], it, l. rewrite app_nil_r. split; [done|]. split; [done|].
    split; [exists h, k; split; [done|]; split; [apply Hw|]; unfold text_limited; by rewrite Hl, (offset_of_it _ _ _ _ _ _ _ _ Hw)|].
    right. split; [lia|]. split; [done|]. pose proof (wr_limit _ _ _ _ _ _ _ _ _ _ _ _ _ Hw). lia.
Qed.

Lemma rest_written bs P pt dirty d h ng it k : writing r gs b l chars h bs P pt dirty ng it k -> k = 0%nat \/ (it < length chars)%nat -> detector_ok d ->
  exists d' res ng' it' D, rest_of_text fallback d (chBeg h + Z.of_nat it) it h = Done (d', res) /\ detector_ok d' /\
    written res bs P pt dirty (ng ++ ng') it' D.
Proof using Hh Hbl Hroom Hunits.
  intros Hw Hk Hd. unfold rest_of_text. destruct (col_fields _ _ _ _ _ _ _ _ Hw) as (He & Hl & -> & Hb). pose proof (wr_it _ _ _ _ _ _ _ _ _ _ _ _ _ Hw) as Hit.
  destruct (Nat.eqb_spec it (length chars)) as [Hend|Hgo].
  - exists d, (text_written (chBeg h + Z.of_nat it) h), [], it, (cols (bs ++ ng)). rewrite app_nil_r. split; [done|]. split; [done|].
    split; [exists h, k; split; [done|]; split; [lia|]; unfold text_written; by rewrite He, (offset_of_it _ _ _ _ _ _ _ _ Hw)|by left].
  - apply (clusters_written _ _ _ _ _ _ _ _ _ _ k); try done; try lia; [destruct (new_state_ok d); by split|].
    unfold cluster_end_ptr. cbn. rewrite Nat.add_0_r. by rewrite (proj2 (Nat.leb_le _ _)) by lia.
Qed.

(** ** Joining the glyph in front *)

Lemma before_snoc pre (t : list Z) w suf : Forall glyph_ok suf -> before (pre ++ (t, w) :: suf) (cols pre + w) = pre ++ [(t, w)].
Proof.
  intros Hs. pose proof (before_between (pre ++ [(t, w)]) suf Hs) as Hb. rewrite <- app_assoc, cols_app in Hb.
  cbn [app] in Hb. rewrite cols_cons in Hb. cbn [snd cols map sum_list] in Hb. by rewrite Nat.add_0_r in Hb.
Qed.

(** The glyph in front of a column, or around it. *)
Lemma glyph_before : (0 < b)%nat -> exists pre t w suf, gs = pre ++ (t, w) :: suf /\ previous_glyph (offsets gs) b = Done (cols pre) /\
  (before gs b = pre ++ [(t, w)] /\ lead gs b = 0%nat /\ b = (cols pre + w)%nat \/ before gs b = pre /\ lead gs b = 1%nat /\ b = S (cols pre) /\ w = 2%nat).
Proof using Hh Hbl.
  intros Hpos. destruct Hh as [_ Hok _ _ _ Hsm]. destruct b as [|c] eqn:Hb; [lia|]. cbn [previous_glyph].
  destruct (cut_at gs c Hok ltac:(lia)) as [pre suf E <-|pre t suf E ->]; pose proof (prefix_small gs Hok Hsm _ _ E) as Hp;
    pose proof Hok as Hok'; rewrite E in Hok'; apply Forall_app in Hok' as [Hpo Hso].
  - destruct suf as [|[t w] suf]; [rewrite E, app_nil_r in Hbl; lia|]. exists pre, t, w, suf. split; [done|]. split.
    { unfold deref. rewrite E, offset_between by done. cbn [obind]. by rewrite (proj1 (low_offset _ Hp)). }
    apply Forall_cons_1 in Hso as [[_ _ Hw] Hso]. cbn in Hw. assert (w = 1%nat \/ w = 2%nat) as [-> | ->] by lia.
    + left. assert (Hbe : before gs (S (cols pre)) = pre ++ [(t, 1%nat)]).
      { rewrite E. replace (S (cols pre)) with (cols pre + 1)%nat by lia. by apply before_snoc. }
      split; [done|]. unfold lead. rewrite Hbe, cols_app. cbn. lia.
    + right. assert (Hbe : before gs (S (cols pre)) = pre) by (rewrite E; apply before_within). unfold lead. rewrite Hbe. split_and!; lia || done.
  - exists pre, t, 2%nat, suf. split; [done|]. split.
    { unfold deref at 1. rewrite E, offset_within by done. cbn [obind]. rewrite (proj1 (high_offset _ Hp)). cbn [previous_glyph].
      unfold deref. rewrite offset_between by done. cbn [obind]. by rewrite (proj1 (low_offset _ Hp)). }
    left. assert (Hbe : before gs (S (S (cols pre))) = pre ++ [(t, 2%nat)]).
    { apply Forall_cons_1 in Hso as [_ Hso]. rewrite E. replace (S (S (cols pre))) with (cols pre + 2)%nat by lia. by apply before_snoc. }
    split; [done|]. unfold lead. rewrite Hbe, cols_app. cbn. lia.
Qed.

(** The text of the glyph that is in front of the new text then. *)
Definition kept_text (t : list Z) : list Z := if (lead gs b =? 0)%nat then t else [0x20].

Lemma base_join pre t w suf : gs = pre ++ (t, w) :: suf ->
  (before gs b = pre ++ [(t, w)] /\ lead gs b = 0%nat /\ b = (cols pre + w)%nat \/ before gs b = pre /\ lead gs b = 1%nat /\ b = S (cols pre) /\ w = 2%nat) ->
  base gs b pre (marks 0 pre) (kept_text t) (cols pre) /\ kept_text t <> [] /\ Forall unit16 (kept_text t) /\
  fetch (_chars r) (zlen (text pre)) (zlen (text (before gs b)) + Z.of_nat (lead gs b) - zlen (text pre)) = Done (take (length (kept_text t)) t).
Proof using Hh Hbl.
  intros E Hcase. destruct Hh as [_ Hok _ _ [junk Hj] Hsm]. pose proof (prefix_small gs Hok Hsm _ _ E) as Hp.
  pose proof Hok as Hok'. rewrite E in Hok'. apply Forall_app in Hok' as [Hpo Hso]. apply Forall_cons_1 in Hso as [[Ht Hu _] _]. cbn [fst] in *.
  rewrite E, text_app, text_cons in Hj. cbn [fst] in Hj. rewrite <- !app_assoc in Hj. unfold kept_text.
  destruct Hcase as [(Hb & Hl & Hbc)|(Hb & Hl & Hbc & ->)]; rewrite Hl; cbn [Nat.eqb].
  - split_and!; [|done|done|].
    + split; [done|by apply length_marks| | |by exists pre, ((t, w) :: suf), []; rewrite app_nil_r].
      * rewrite Hl, Hb, text_app. cbn [repeat text map concat fst]. by rewrite !app_nil_r.
      * intros ng Hng _. rewrite Hl. change (iota_n (Z.of_nat 0) (zlen (text (before gs b)))) with (@nil Z). unfold store. rewrite Nat2Z.id, length_app, length_marks by done.
        rewrite (proj2 (Z.leb_le 0 _)), (proj2 (Z.leb_le _ _)) by (cbn [length]; lia). cbn [andb app length]. rewrite Nat.add_0_r, take_drop. by rewrite marks_app.
    + rewrite Hj, Hb, text_app, zlen_app. cbn [text map concat fst]. rewrite app_nil_r, firstn_all. apply fetch_mid; [done|]. lia.
  - split_and!; [|done|by repeat constructor|].
    + split; [done|by apply length_marks|by rewrite Hl, Hb| |by exists pre, ((t, 2%nat) :: suf), []; rewrite app_nil_r].
      intros ng Hng [Hx|Hne]; [done|]. rewrite Hl, Hb. destruct ng as [|[t' w'] ng]; [done|]. cbn [marks app].
      rewrite iota_cons by lia. cbn [iota_n seq map Z.to_nat Z.of_nat]. rewrite marks_app, Z.add_0_l. cbn [marks].
      pose proof (store_mid (Z.of_nat (cols pre)) (marks 0 pre) [zlen (text pre)] [zlen (text pre)]
        (repeat (zlen (text pre) + CharOffsetsTrailer) (Nat.pred w') ++ marks (zlen (text pre) + zlen t') ng)) as Hst.
      cbn [app] in Hst. apply Hst; [unfold zlen; by rewrite length_marks|done].
    + rewrite Hj, Hb. destruct t as [|c t]; [done|]. cbn [length take app]. apply (fetch_mid _ _ _ [c]); [done|]. unfold zlen. cbn [length]. lia.
Qed.

Lemma next_of_empty d s i : GraphemeNext fallback d s (mk_wview i []) = Done (d, s, false).
Proof.
  unfold GraphemeNext, _graphemeNext, _graphemeNextWcswidth, _graphemeNextConsole. cbn [wv_chars length].
  destruct (_mode d); [rewrite (proj2 (Nat.ltb_ge _ 0)) by lia|rewrite (proj2 (Nat.leb_le 0 _)) by lia..]; done.
Qed.

Lemma before_zero : Forall glyph_ok gs -> before gs 0 = [].
Proof. intros [|[t w] gs' [_ _ Hw] _]; [done|]. cbn in *. by destruct w; [lia|]. Qed.

(** The first glyph after a join. *)
Lemma writing_join pre t w suf n w' : gs = pre ++ (t, w) :: suf ->
  (before gs b = pre ++ [(t, w)] /\ lead gs b = 0%nat /\ b = (cols pre + w)%nat \/ before gs b = pre /\ lead gs b = 1%nat /\ b = S (cols pre) /\ w = 2%nat) ->
  (0 < n <= length chars)%nat -> (1 <= w' <= 2)%nat ->
  let h := (started r gs b l chars) <| colBegDirty := Z.of_nat (cols pre) |> <| colEnd := Z.of_nat (cols pre) |> in
  (cols pre + w' <= l)%nat /\ exists h', write_glyph (zlen (text pre)) (Z.of_nat (cols pre) + Z.of_nat w') h = Done h' /\
    writing r gs b l chars h' pre (marks 0 pre) (kept_text t) (cols pre) [(kept_text t ++ take n chars, w')] n 0.
Proof using Hh Hbl Hroom Hunits.
  intros E Hcase Hn Hw' h. destruct (base_join pre t w suf E Hcase) as (Hbase & Hk & Hku & _). pose proof Hh as [Hs Hok Hc Hof _ Hsm].
  pose proof (prefix_small gs Hok Hsm _ _ E) as Hp. pose proof Hok as Hok'. rewrite E in Hok'. apply Forall_app in Hok' as [Hpo Hso].
  pose proof (f_equal cols E) as Hcg. rewrite cols_app, cols_cons in Hcg. cbn [snd] in Hcg. pose proof (Forall_cons_1 _ _ _ Hso) as [[_ _ Hww] Hso']. cbn [snd] in Hww.
  assert (HX : length (marks 0 pre) = cols pre) by (by apply length_marks). assert (Hfit : (cols pre + w' <= l)%nat) by lia. split; [done|].
  assert (Hofs : _charOffsets (h_row h) = marks 0 pre ++ drop (length (marks 0 pre)) (offsets gs)).
  { cbn. rewrite Hof, E. unfold offsets. by rewrite marks_end_app, drop_app_length. }
  assert (Hend : colEnd h = zlen (marks 0 pre)) by (unfold zlen; by rewrite HX).
  destruct (write_glyph_spec h (cols gs) (marks 0 pre) _ (zlen (text pre)) (kept_text t ++ take n chars) w' Hs Hc Hofs Hend Hw') as (h' & Hrun & Heq & K1 & K2 & K3 & K4);
    [lia|lia|]. rewrite HX in *. unfold zlen at 2 in Hrun. rewrite HX in Hrun. exists h'. split; [done|].
  assert (Hcols : cols (@app glyph pre [(kept_text t ++ take n chars, w')]) = (cols pre + w')%nat) by (rewrite cols_app; cbn; lia).
  assert (Hreach : (b <= cols gs - cols (after gs (S (cols pre))))%nat).
  { pose proof (after_cols gs (S (cols pre)) Hok ltac:(lia)). destruct Hcase as [(_ & _ & ->)|(_ & _ & -> & _)]; [|lia].
    assert (w = 1%nat \/ w = 2%nat) as [-> | ->] by lia; [lia|]. rewrite E at 2. rewrite after_within. lia. }
  pose proof (after_mono gs (S (cols pre)) (cols pre + w') Hok ltac:(lia)).
  split; rewrite ?Hcols; try done; try lia.
  - rewrite Heq. unfold zlen, h. rewrite HX. cbn. by rewrite Nat2Z.inj_add.
  - exists (drop w' (drop (cols pre) (offsets gs))). split; [done|]. by rewrite drop_0, drop_drop, Nat.add_0_r.
  - constructor; [|done]. split; cbn [fst snd]; [by destruct (kept_text t)|by apply Forall_app_2; [|apply Forall_take]|done].
  - cbn. by rewrite app_nil_r.
  - right. done.
Qed.

(** At the start of the row there is no glyph in front. *)
Lemma join_at_start d : b = 0%nat -> detector_ok d -> chars <> [] -> exists d' res bs P pt dirty ng it D,
  join_previous fallback d (chBeg (started r gs b l chars)) (started r gs b l chars) = Done (d', res) /\ detector_ok d' /\ written res bs P pt dirty ng it D.
Proof using Hh Hbl Hroom Hunits.
  intros Hb0 Hd Hne. pose proof Hh as [Hs Hok Hc Hof [junk Hj] Hsm]. assert (Hlc : (0 < length chars)%nat) by (by apply nonempty_length).
  unfold join_previous. change (h_row (started r gs b l chars)) with r. change (h_chars (started r gs b l chars)) with chars.
  change (colBeg (started r gs b l chars)) with (Z.of_nat b). rewrite Nat2Z.id, Hof.
  assert (Hbe : before gs b = []) by (rewrite Hb0; by apply before_zero). assert (Hpg : previous_glyph (offsets gs) b = Done 0%nat) by (by rewrite Hb0).
  assert (Hcb : chBeg (started r gs b l chars) = 0) by (cbn; unfold lead; rewrite Hbe, Hb0; done). rewrite Hpg, Hcb. cbn [obind Z.of_nat].
  unfold _uncheckedCharOffset. destruct (marks_end_head gs 0) as [os Hos]. rewrite Hof. rewrite (element_lookup _ 0 0) by (unfold offsets; by rewrite Hos).
  cbn [obind]. change (Z.land 0 CharOffsetsMask) with 0. assert (Hf0 : fetch (_chars r) 0 (0 - 0) = Done []) by (by apply (fetch_mid 0 0 [] [])).
  rewrite Hf0. cbn [obind]. rewrite next_of_empty. cbn [obind].
  destruct (GraphemeNext_spec fallback d new_GraphemeState (mk_wview text_id chars) 0 Hd (new_state_ok d) Hunits eq_refl Hlc) as (d1 & s1 & more & -> & [N1 N2 N3 N4 N5 [N6 N7]] & _).
  cbn [obind wv_chars] in *. specialize (N3 eq_refl). rewrite (proj2 (Nat.ltb_lt 0 _)) by done.
  assert (Hid : (started r gs b l chars) <| colBegDirty := Z.of_nat 0 |> <| colEnd := Z.of_nat 0 |> = started r gs b l chars) by (unfold started; rewrite Hbe, Hb0; done).
  rewrite Hid. pose proof (writing_start r gs Hh b l chars Hbl Hroom) as Hw.
  destruct (place_width _ _ _ _ _ _ _ _ (gs_width s1) Hw) as (w & Hwm & Hwr & -> & ->); [apply N4|].
  destruct (Nat.leb_spec (cols (plain_base gs b ++ []) + w) l) as [Hfit|Hover]; cbn [negb].
  - destruct (writing_step r gs Hh b l chars Hbl Hroom Hunits _ _ _ _ _ _ _ _ (gs_len s1) w Hw N3 N2 Hwr Hfit) as (h' & Hrun & Hw').
    rewrite Hcb in Hrun. change (0 + Z.of_nat 0) with 0 in Hrun. rewrite Hrun. cbn [obind].
    assert (Hch : chBeg h' = 0) by (rewrite (wr_helper _ _ _ _ _ _ _ _ _ _ _ _ _ Hw'); exact Hcb).
    destruct (rest_written _ _ _ _ d1 h' _ _ _ Hw' (or_introl eq_refl) N6) as (d2 & res & ng' & it' & D & Hrest & Hd2 & Hres). rewrite Hch in Hrest. cbn [Nat.add] in Hrest.
    rewrite Hrest. by do 9 eexists.
  - exists d1. do 8 eexists. split; [reflexivity|]. split; [done|]. split; [exists (started r gs b l chars), 0%nat; split; [exact Hw|]; split; [apply Hw|]|].
    + unfold text_limited. by rewrite Hcb.
    + right. split; [lia|]. split; [done|]. rewrite app_nil_r, (cols_plain r gs Hh b l Hbl) in *. lia.
Qed.

Lemma join_written d : detector_ok d -> chars <> [] -> exists d' res bs P pt dirty ng it D,
  join_previous fallback d (chBeg (started r gs b l chars)) (started r gs b l chars) = Done (d', res) /\ detector_ok d' /\ written res bs P pt dirty ng it D.
Proof using Hh Hbl Hroom Hunits.
  intros Hd Hne. destruct (Nat.eq_dec b 0%nat) as [Hb0|Hb0]; [by apply join_at_start|].
  pose proof Hh as [Hs Hok Hc Hof [junk Hj] Hsm]. assert (Hlc : (0 < length chars)%nat) by (by apply nonempty_length).
  unfold join_previous. change (h_row (started r gs b l chars)) with r. change (h_chars (started r gs b l chars)) with chars.
  change (colBeg (started r gs b l chars)) with (Z.of_nat b). rewrite Nat2Z.id, Hof.
  destruct (glyph_before ltac:(lia)) as (pre & t & w & suf & E & -> & Hcase). cbn [obind].
  destruct (base_join pre t w suf E Hcase) as (Hbase & Hk & Hku & Hfetch). pose proof (prefix_small gs Hok Hsm _ _ E) as Hp.
  pose proof Hok as Hok'. rewrite E in Hok'. apply Forall_app in Hok' as [Hpo Hso]. apply Forall_cons_1 in Hso as [[Ht Hu _] _]. cbn [fst] in *.
  unfold _uncheckedCharOffset. rewrite (element_lookup _ (cols pre) (zlen (text pre))) by (rewrite Hof, E; by apply offset_between). cbn [obind].
  rewrite (proj2 (low_offset _ Hp)). cbn [started chBeg]. rewrite Hfetch. cbn [obind]. set (cp := take (length (kept_text t)) t).
  assert (Hcp : (0 < length cp)%nat) by (unfold cp; rewrite length_take; pose proof (nonempty_length _ Ht); pose proof (nonempty_length _ Hk); lia).
  destruct (GraphemeNext_spec fallback d new_GraphemeState (mk_wview row_id cp) 0 Hd (new_state_ok d)) as (d1 & s1 & m1 & -> & N & _);
    [by apply Forall_take|done|done|]. cbn [obind]. destruct N as [N1 _ _ N4 _ [N6 N7]].
  assert (Hp1 : resetIfOutOfRange (mk_wview text_id chars) 0 (cluster_end_ptr s1) = 0%nat) by (unfold cluster_end_ptr; by rewrite N1).
  destruct (GraphemeNext_spec fallback d1 s1 (mk_wview text_id chars) 0 N6 N4 Hunits Hp1 Hlc) as (d2 & s2 & m2 & -> & [_ M2 _ M4 _ [M6 _]] & _). cbn [obind wv_chars] in *.
  destruct (Nat.ltb_spec 0 (gs_len s2)) as [Hpos|Hzero].
  - set (w' := Z.to_nat (Z.max 1 (gs_width s2))). destruct M4 as [_ Mw]. destruct (so_columns _ Hs).
    destruct (writing_join pre t w suf (gs_len s2) w' E Hcase) as (Hfit & h' & Hrun & Hw'); [lia|lia|].
    cbn [colEnd colLimit setter WriteHelper_eta started]. rewrite u16_small by lia. replace (Z.max 1 (gs_width s2)) with (Z.of_nat w') by lia.
    rewrite Z.gtb_ltb, (proj2 (Z.ltb_ge _ _)) by lia. rewrite Hrun. cbn [obind].
    assert (Hch : chBeg h' = zlen (text (before gs b)) + Z.of_nat (lead gs b)) by (by rewrite (wr_helper _ _ _ _ _ _ _ _ _ _ _ _ _ Hw')).
    destruct (rest_written _ _ _ _ d2 h' _ _ _ Hw' (or_introl eq_refl) M6) as (d3 & res & ng' & it' & D & Hrest & Hd3 & Hres). rewrite Hch in Hrest. rewrite Hrest. by do 9 eexists.
  - destruct (rest_written _ _ _ _ d2 _ _ _ _ (writing_start r gs Hh b l chars Hbl Hroom) (or_introl eq_refl) M6) as (d3 & res & ng' & it' & D & Hrest & Hd3 & Hres).
    cbn [started chBeg Z.of_nat] in Hrest. rewrite Z.add_0_r in Hrest. rewrite Hrest. by do 9 eexists.
Qed.

(** ** ASCII *)

Lemma ascii_glyph h ng it c : writing r gs b l chars h (plain_base gs b) (take b (offsets gs)) [] (cols (before gs b)) ng it 0 ->
  chars !! it = Some c -> (cols (plain_base gs b ++ ng) < l)%nat ->
  exists r', store_offsets (colEnd h) [u16 (chBeg h + Z.of_nat it)] (h_row h) = Done r' /\
    writing r gs b l chars (h <| h_row := r' |> <| colEnd := u16 (colEnd h + 1) |>) (plain_base gs b) (take b (offsets gs)) [] (cols (before gs b))
      (ng ++ [([c], 1%nat)]) (S it) 0.
Proof using Hh Hbl Hroom Hunits.
  intros Hw Hc Hlt. pose proof (lookup_lt_Some _ _ _ Hc) as Hit. destruct (col_fields _ _ _ _ _ _ _ _ Hw) as (He & Hl & Hcs & Hb & Hl8).
  destruct (writing_step r gs Hh b l chars Hbl Hroom Hunits _ _ _ _ _ _ _ _ 1 1 Hw) as (h' & Hrun & Hw'); [lia..|].
  unfold write_glyph in Hrun. rewrite (Z.max_l 0) in Hrun by lia. cbn [fill_n Z.to_nat repeat] in Hrun.
  destruct (store_offsets _ _ _) as [r'| | |]; try done. exists r'. split; [done|]. cbn [obind] in Hrun. injection Hrun as Hrun. rewrite Z.add_0_r in Hrun.
  rewrite Hrun. replace (S it) with (it + 1)%nat by lia. replace [c] with (substr it 1 chars); [done|].
  unfold substr. rewrite (drop_S _ _ _ Hc). done.
Qed.


(** The glyphs of the fast pass. *)
Definition narrow_glyphs (t : list Z) : list glyph := map (fun c => ([c], 1%nat)) t.

Lemma cols_narrow t : cols (narrow_glyphs t) = length t.
Proof. induction t as [|c t IH]; [done|]. cbn [narrow_glyphs map]. rewrite cols_cons. cbn [snd length]. unfold narrow_glyphs in IH. lia. Qed.

Lemma narrow_snoc t c : narrow_glyphs (t ++ [c]) = narrow_glyphs t ++ [([c], 1%nat)].
Proof. unfold narrow_glyphs. by rewrite map_app. Qed.

Definition ascii_writing h (it : nat) : Prop :=
  writing r gs b l chars h (plain_base gs b) (take b (offsets gs)) [] (cols (before gs b)) (narrow_glyphs (take it chars)) it 0.

Lemma ascii_step h it c : ascii_writing h it -> chars !! it = Some c -> (b + it < l)%nat ->
  exists r', store_offsets (colEnd h) [u16 (chBeg h + Z.of_nat it)] (h_row h) = Done r' /\
    ascii_writing (h <| h_row := r' |> <| colEnd := u16 (colEnd h + 1) |>) (S it).
Proof using Hh Hbl Hroom Hunits.
  intros Hw Hc Hlt. pose proof (lookup_lt_Some _ _ _ Hc).
  destruct (ascii_glyph h _ it c Hw Hc) as (r' & Hrun & Hw').
  - rewrite cols_app, (cols_plain r gs Hh b l Hbl), cols_narrow, length_take. lia.
  - exists r'. split; [done|]. unfold ascii_writing. by rewrite (take_S_r _ _ _ Hc), narrow_snoc.
Qed.

(** Backing up by one character leaves its offset behind. *)
Lemma ascii_back h j : ascii_writing h (S j) -> (S j <= length chars)%nat ->
  writing r gs b l chars (h <| colEnd := u16 (colEnd h - 1) |>) (plain_base gs b) (take b (offsets gs)) [] (cols (before gs b)) (narrow_glyphs (take j chars)) j 1.
Proof using Hh Hbl Hroom Hunits.
  intros Hw Hj. destruct (lookup_lt_is_Some_2 chars j ltac:(lia)) as [c Hc]. unfold ascii_writing in Hw.
  rewrite (take_S_r _ _ _ Hc), narrow_snoc in Hw.
  destruct (col_fields _ _ _ _ _ _ _ _ Hw) as (He & Hl & Hcs & Hb & Hl8). pose proof Hw as [Hba Heq Hs Hsame Hch [R [Hof HR]] _ Hg Ht Hit Hlim _ _ _].
  pose proof (cols_plain r gs Hh b l Hbl) as Hcp. pose proof Hh as [_ Hok _ _ _ _].
  assert (Hcols : forall ng, cols (plain_base gs b ++ ng) = (b + cols ng)%nat) by (intros; by rewrite cols_app, Hcp).
  assert (Hlen : cols (narrow_glyphs (take j chars)) = j) by (rewrite cols_narrow, length_take; lia).
  rewrite Hcols, cols_app, Hlen in He, Hb, Heq, HR, Hlim. change (cols [([c], 1%nat)]) with 1%nat in He, Hb, Heq, HR, Hlim. pose proof (after_cols gs (b + j) Hok ltac:(lia)).
  split; rewrite ?Hcols, ?Hlen; try done; try lia.
  - rewrite He, u16_small by lia. rewrite Heq. by replace (Z.of_nat (b + (j + 1)) - 1) with (Z.of_nat (b + j)) by lia.
  - cbn [h_row setter WriteHelper_eta]. rewrite Hof, marks_app. cbn [marks Nat.pred repeat app]. eexists (_ :: R). split; [by rewrite <- !app_assoc|].
    rewrite drop_0 in HR. cbn [skipn]. rewrite HR. by replace (b + (j + 1) + 0)%nat with (b + j + 1)%nat by lia.
  - apply Forall_app in Hg. apply Hg.
  - unfold narrow_glyphs, text. rewrite map_map. cbn [fst]. clear. induction (take j chars) as [|x k IH]; [done|]. cbn in *. by rewrite IH.
  - unfold lead. lia.
  - by left.
Qed.

Lemma ascii_written d : detector_ok d -> chars <> [] -> forall rest h it, ascii_writing h it -> (it = 0%nat -> h = started r gs b l chars) ->
  take (l - b) chars = take it chars ++ rest -> (it <= l - b)%nat -> (it <= length chars)%nat -> exists d' res bs P pt dirty ng it' D,
  ascii_loop fallback d rest (chBeg h + Z.of_nat it) it h = Done (d', res) /\ detector_ok d' /\ written res bs P pt dirty ng it' D.
Proof using Hh Hbl Hroom Hunits.
  intros Hd Hne. induction rest as [|c rest IH]; intros h it Hw Hfirst Htake Hil Hic; cbn [ascii_loop];
    destruct (col_fields _ _ _ _ _ _ _ _ Hw) as (He & Hl & Hcs & Hb & Hl8); pose proof (f_equal length Htake) as Hlen; rewrite length_app, !length_take in Hlen; cbn in Hlen.
  - assert (Hcols : cols (plain_base gs b ++ narrow_glyphs (take it chars)) = (b + it)%nat).
    { rewrite cols_app, (cols_plain r gs Hh b l Hbl), cols_narrow, length_take. lia. }
    exists d, (text_written (chBeg h + Z.of_nat it) h). exists (plain_base gs b), (take b (offsets gs)), [], (cols (before gs b)), (narrow_glyphs (take it chars)), it, (b + it)%nat.
    split; [done|]. split; [done|]. split.
    + exists h, 0%nat. split; [exact Hw|]. split; [lia|]. unfold text_written. by rewrite He, Hcols, (offset_of_it _ _ _ _ _ _ _ _ Hw).
    + rewrite Hcols. unfold stopped. lia.
  - assert (Hc : chars !! it = Some c).
    { pose proof (f_equal (fun k => k !! it) Htake) as Hi. cbn beta in Hi. rewrite lookup_take_lt in Hi by lia. rewrite Hi, lookup_app_r by (rewrite length_take; lia).
      rewrite length_take. by replace (it - it `min` length chars)%nat with 0%nat by lia. }
    pose proof (lookup_lt_Some _ _ _ Hc). destruct (c >=? 0x80).
    + unfold _replaceTextUnicode. destruct (Nat.eqb_spec it 0) as [->|Hit].
      * rewrite (Hfirst eq_refl), Z.add_0_r. by apply join_written.
      * destruct it as [|j]; [done|]. cbn [Nat.pred]. pose proof (ascii_back h j Hw ltac:(lia)) as Hwb.
        destruct (rest_written _ _ _ _ d _ _ _ _ Hwb ltac:(right; lia) Hd) as (d' & res & ng' & it' & D & Hrest & Hd' & Hres).
        cbn [chBeg setter WriteHelper_eta] in Hrest. replace (chBeg h + Z.of_nat (S j) - 1) with (chBeg h + Z.of_nat j) by lia. rewrite Hrest. by do 9 eexists.
    + destruct (ascii_step h it c Hw Hc ltac:(lia)) as (r' & -> & Hw'). cbn [obind].
      replace (chBeg h + Z.of_nat it + 1) with (chBeg h + Z.of_nat (S it)) by lia.
      destruct (IH _ (S it) Hw' ltac:(done)) as (d' & res & bs & P & pt & dirty & ng & it' & D & Hrun & Hd' & Hres); [|lia|lia|].
      * rewrite (take_S_r _ _ _ Hc), <- app_assoc. done.
      * cbn [chBeg setter WriteHelper_eta] in Hrun. rewrite Hrun. by do 9 eexists.
Qed.
End Text.

(** * What the operations of a row do

    Each write of a row is the replacement of glyphs in the list the row
    stands for. *)



Section Operations.
Context (fallback : option (list Z -> option bool)) (garbage : nat -> Z) (isa : ISA).

(** The glyphs from column [b] on are replaced by [ng]; glyphs that are cut at
    [b] or at [D] turn into spaces. *)
Definition overwrite gs (b : nat) ng (D : nat) : list glyph := result gs (plain_base gs b ++ ng) D.

(** Enough room for the text and the spaces, whatever happens. *)
Definition has_room gs (chars : list Z) : Prop := zlen (text gs) + zlen chars + Z.of_nat (cols gs) < 0x8000.

Lemma started_valid r gs b l chars : IsValid (started r gs b l chars) = (b <? l)%nat && negb (length chars =? 0)%nat.
Proof.
  unfold IsValid. cbn [colBeg colLimit h_chars started]. f_equal; [|by destruct chars].
  destruct (Nat.ltb_spec b l), (Z.ltb_spec (Z.of_nat b) (Z.of_nat l)); lia || done.
Qed.

(** ** Text *)

(** C4: writing text at a column.  The row afterwards holds the glyphs that
    were in front of the dirty range, new glyphs, spaces and the glyphs that
    were behind it; the new text follows the old one exactly, spaces standing
    for the half of a wide glyph that was cut.  The state tells how much of
    the text was consumed, where the write ended and which columns changed;
    text is left over only when the limit is reached, or one column short of
    it. *)
Theorem row_text_written d state r gs (b := column r (rw_columnBegin state)) (l := column r (rw_columnLimit state)) (t := rw_text state) :
  holds r gs -> detector_ok d -> Forall unit16 t -> has_room gs t -> (b < l)%nat -> t <> [] ->
  exists d' state' r' kept cut new it D, ReplaceText fallback garbage isa d state r = Done (d', state', (r', false)) /\ detector_ok d' /\
    gs = kept ++ cut /\ holds r' (result gs (kept ++ new) D) /\
    text (kept ++ new) = text (before gs b) ++ repeat 0x20 (lead gs b) ++ take it t /\
    (it = length t /\ D = cols (kept ++ new) \/ (it <= length t)%nat /\ D = l /\ (cols (kept ++ new) <= l <= S (cols (kept ++ new)))%nat) /\
    rw_text state' = drop it t /\
    rw_columnEnd state' = Z.of_nat (if (it =? length t)%nat then cols (kept ++ new) else l) /\
    rw_columnBeginDirty state' = Z.of_nat (cols kept) /\ rw_columnEndDirty state' = Z.of_nat (cols gs - cols (after gs D)).
Proof.
  intros Hh Hd Hu Hroom Hbl Hne. pose proof (proj2 (column_clamped r gs (rw_columnLimit state) Hh)) as Hl. fold l in Hl.
  unfold ReplaceText. rewrite (helper_started r gs) by done. cbn [obind]. fold b l t. rewrite started_valid.
  pose proof (nonempty_length _ Hne). rewrite (proj2 (Nat.ltb_lt b l)), (proj2 (Nat.eqb_neq (length t) 0)) by lia. cbn [andb negb].
  unfold Helper_ReplaceText. cbn [colLimit colBeg h_chars started]. replace (Z.to_nat (Z.of_nat l - Z.of_nat b)) with (l - b)%nat by lia.
  destruct (ascii_written fallback r gs Hh b l t (conj Hbl Hl) Hroom Hu d Hd Hne (take (l - b) t) (started r gs b l t) 0) as
    (d' & res & bs & P & pt & dirty & ng & it & D & Hrun & Hd' & [(h & k & Hw & HkD & ->) Hstop]); [|done|done|lia|lia|].
  { apply (writing_start r gs Hh b l t (conj Hbl Hl) Hroom). }
  rewrite Z.add_0_r in Hrun. unfold ascii_loop in Hrun |- *. rewrite Hrun. cbn [obind].
  pose proof (wr_limit _ _ _ _ _ _ _ _ _ _ _ _ _ Hw) as Hlim. pose proof (wr_it _ _ _ _ _ _ _ _ _ _ _ _ _ Hw) as Hit.
  assert (HDl : (D <= l)%nat) by (destruct Hstop as [[_ ->]|(_ & -> & _)]; lia).
  destruct (writing_finish r gs Hh b l t (conj Hbl Hl) Hroom garbage _ _ _ _ _ _ _ _ D Hw ltac:(lia)) as (h' & -> & Hho & F1 & F2 & F3 & F4 & F5 & _). cbn [obind].
  destruct (ba_kept _ _ _ _ _ _ (wr_base _ _ _ _ _ _ _ _ _ _ _ _ _ Hw)) as (kept & cut & new & Hgs & Hbs & Hdirty).
  pose proof (front_text _ _ _ _ _ _ _ _ _ _ _ _ _ Hw) as Hft. rewrite Hbs, <- app_assoc in *.
  exists d'. do 2 eexists. exists kept, cut, (new ++ ng), it, D. split; [reflexivity|]. split; [done|]. split; [done|]. split; [done|]. split; [done|].
  split; [destruct Hstop as [[-> ->]|(H1 & -> & H2)]; [by left|right; lia]|].
  cbn [rw_text rw_columnEnd rw_columnBeginDirty rw_columnEndDirty setter RowWriteState_eta]. fold t. rewrite F4, Nat2Z.id, F1, F2, F3, F5, Hdirty. split; [done|]. split; [|done].
  destruct (Nat.eqb_spec it (length t)) as [->|Hlt]; [by rewrite drop_all|]. destruct (drop it t) as [|x k'] eqn:Hdr; [|done].
  apply (f_equal length) in Hdr. rewrite length_drop in Hdr. cbn in Hdr. lia.
Qed.

(** ** Single glyphs *)

(** Writing one glyph of one or two columns replaces what is in these
    columns; a wide glyph that does not fit in the last column leaves a space
    there.  Halves of wide glyphs that are cut turn into spaces. *)
Theorem row_glyph_written columnBegin w chars r gs (b := column r columnBegin) :
  holds r gs -> (1 <= w <= 2)%nat -> Forall unit16 chars -> has_room gs chars -> chars <> [] -> (b < cols gs)%nat ->
  exists r', ReplaceCharacters garbage isa columnBegin (Z.of_nat w) chars r = Done (r', false) /\
    holds r' (if (b + w <=? cols gs)%nat then overwrite gs b [(chars, w)] (b + w) else overwrite gs b [] (cols gs)).
Proof.
  intros Hh Hw Hu Hroom Hne Hb. pose proof Hh as [Hs Hok Hc _ _ _]. destruct (so_columns _ Hs).
  assert (Hl : column r (_columnCount r) = cols gs).
  { unfold column, clamp. rewrite (proj2 (Z.ltb_ge _ _)), Z.gtb_ltb, (proj2 (Z.ltb_ge _ _)) by lia. lia. }
  unfold ReplaceCharacters. rewrite (helper_started r gs) by done. cbn [obind]. fold b. rewrite Hl, started_valid.
  pose proof (nonempty_length _ Hne). rewrite (proj2 (Nat.ltb_lt b _)), (proj2 (Nat.eqb_neq (length chars) 0)) by lia. cbn [andb negb].
  pose proof (conj Hb (Nat.le_refl (cols gs))) as Hbl. pose proof (writing_start r gs Hh b (cols gs) chars Hbl Hroom) as Hstart.
  pose proof (cols_plain r gs Hh b (cols gs) Hbl) as Hcp. unfold Helper_ReplaceCharacters. cbn [colEnd colLimit chBeg started].
  rewrite u16_small by lia. rewrite <- Nat2Z.inj_add, Z.gtb_ltb. destruct (Nat.leb_spec (b + w) (cols gs)) as [Hfit|Hover].
  - rewrite (proj2 (Z.ltb_ge _ _)) by lia.
    destruct (writing_step r gs Hh b (cols gs) chars Hbl Hroom Hu _ _ _ _ _ _ _ _ (length chars) w Hstart) as (h' & Hrun & Hw'); [lia|lia|done|rewrite app_nil_r, Hcp; lia|].
    cbn [chBeg colEnd started] in Hrun. rewrite Z.add_0_r, <- Nat2Z.inj_add in Hrun. rewrite Hrun. cbn [obind app Nat.add] in *.
    assert (Hsub : substr 0 (length chars) chars = chars) by (unfold substr; rewrite drop_0; apply firstn_all). rewrite Hsub in Hw'.
    destruct (col_fields _ gs Hh b (cols gs) chars Hbl _ _ _ _ _ _ _ _ Hw') as (He & _ & -> & _).
    assert (Hcols : cols (@app glyph (plain_base gs b) [(chars, w)]) = (b + w)%nat) by (rewrite cols_app, Hcp; cbn; lia). rewrite He, Hcols.
    destruct (writing_finish r gs Hh b (cols gs) chars Hbl Hroom garbage _ _ _ _ _ _ _ _ (b + w) Hw' ltac:(rewrite Hcols; lia)) as (h2 & -> & Hho & _). cbn [obind].
    by eexists.
  - rewrite (proj2 (Z.ltb_lt _ _)) by lia. cbn [obind].
    destruct (writing_finish r gs Hh b (cols gs) chars Hbl Hroom garbage _ _ _ _ _ _ _ _ (cols gs) Hstart ltac:(rewrite app_nil_r, Hcp; lia)) as (h2 & HF & Hho & _).
    lazymatch type of HF with ?L = _ => change L with (Finish garbage ((started r gs b (cols gs) chars) <| colEndDirty := Z.of_nat (cols gs) |>)) in HF end.
    rewrite HF. cbn [obind]. rewrite app_nil_r in Hho. unfold overwrite. rewrite app_nil_r. by eexists.
Qed.
End Operations.
