(* ===== verification/RowCopy.v ===== *)
(** * Copying text from row to row

    [ROW::CopyTextFrom] moves whole glyphs with their offsets. *)

From S2P Require Import Prelude TermDispatch TextAttribute Rle Graphemes GraphemeFacts Row RowWrite RowFacts RowInit RowFinish RowWrites RowTheorems.
#[local] Open Scope Z_scope.
Implicit Types (r src : ROW) (gs sgs ng : list glyph) (h : WriteHelper).

(** ** Offsets in a part of a row *)

Lemma before_app pre suf c : Forall glyph_ok pre -> before (pre ++ suf) (cols pre + c) = pre ++ before suf c.
Proof.
  intros Hp. induction Hp as [|g pre _ _ IH]; [done|]. cbn [app before]. rewrite cols_cons, (proj2 (Nat.leb_le _ _)) by lia.
  replace (snd g + cols pre + c - snd g)%nat with (cols pre + c)%nat by lia. by rewrite IH.
Qed.

Lemma backward_ext l1 l2 : forall c, (forall i, (i <= c)%nat -> l1 !! i = l2 !! i) -> adjust_backward l1 c = adjust_backward l2 c.
Proof.
  induction c as [|c IH]; intros Heq; cbn [adjust_backward]; unfold deref; rewrite Heq by lia; destruct (l2 !! _); cbn [obind]; try done.
  destruct (is_trailer z); [|done]. apply IH. intros i Hi. apply Heq. lia.
Qed.

Lemma backward_shift A x B : is_trailer x = false -> forall c j, adjust_backward (A ++ x :: B) (length A + c) = Done j ->
  exists k, j = (length A + k)%nat /\ adjust_backward (x :: B) c = Done k.
Proof.
  intros Hx. assert (Hz : forall l i o, l !! i = Some o -> is_trailer o = false -> adjust_backward l i = Done i).
  { intros l [|i] o Hi Ho; cbn [adjust_backward]; unfold deref; rewrite Hi; cbn [obind]; by rewrite Ho. }
  induction c as [|c IH]; intros j.
  - rewrite Nat.add_0_r, (Hz _ _ x) by (done || by apply list_lookup_middle). intros [= <-]. exists 0%nat. split; [lia|]. by apply (Hz _ _ x).
  - assert (Ho : (A ++ x :: B) !! S (length A + c) = (x :: B) !! S c) by (rewrite lookup_app_r by lia; f_equal; lia).
    rewrite <- plus_n_Sm. cbn [adjust_backward]. unfold deref. rewrite Ho. destruct ((x :: B) !! S c) as [o|]; cbn [obind]; [|done].
    destruct (is_trailer o); [apply IH|]. intros [= <-]. exists (S c). split; [lia|done].
Qed.

Lemma take_marks_end pre suf base : Forall glyph_ok pre -> take (cols pre) (marks_end base (pre ++ suf)) = marks base pre.
Proof. intros Hp. rewrite marks_end_app. rewrite <- (length_marks pre base Hp). apply take_app_length. Qed.

(** The copies of the offsets are those of the glyphs in their new place. *)
Lemma copied_marks gs from to : 0 <= from -> 0 <= to -> from + zlen (text gs) < 0x8000 -> to + zlen (text gs) < 0x8000 -> Forall glyph_ok gs ->
  map (copied_offset (u16 (to - from))) (marks from gs) = marks to gs.
Proof.
  intros Hf Ht Hfs Hts Hok. assert (Hone : forall x, 0 <= x <= zlen (text gs) -> copied_offset (u16 (to - from)) (from + x) = to + x /\
    copied_offset (u16 (to - from)) (from + x + CharOffsetsTrailer) = to + x + CharOffsetsTrailer).
  { intros x Hx. unfold copied_offset. destruct (low_offset (from + x) ltac:(lia)) as [L1 L2]. destruct (high_offset (from + x) ltac:(lia)) as [H1 H2].
    rewrite L2, H2. assert (Hu : u16 (from + x + u16 (to - from)) = to + x).
    { unfold u16. rewrite Z.add_mod_idemp_r by lia. rewrite Z.mod_small by lia. lia. }
    rewrite Hu, !land_trailer, L1, H1. split; [apply Z.lor_0_r|]. apply lor_trailer. lia. }
  assert (Hgo : forall k rest, Forall glyph_ok rest -> 0 <= k -> k + zlen (text rest) <= zlen (text gs) ->
    map (copied_offset (u16 (to - from))) (marks (from + k) rest) = marks (to + k) rest).
  { intros k rest Hr. revert k. induction Hr as [|[t w] rest _ _ IH]; intros k Hk Hle; [done|]. rewrite text_cons, zlen_app in Hle. cbn [fst] in Hle.
    pose proof (zlen_nonneg t). pose proof (zlen_nonneg (text rest)). destruct (Hone k ltac:(lia)) as [E1 E2].
    cbn [marks map]. rewrite map_app, map_repeat, E1, E2. do 2 f_equal. rewrite <- !Z.add_assoc. apply IH; lia. }
  specialize (Hgo 0 gs Hok). rewrite !Z.add_0_r in Hgo. apply Hgo; lia.
Qed.

(** ** Many glyphs at once *)

Lemma writing_many r gs b l chars ng it : holds r gs -> (b < l <= cols gs)%nat -> has_room gs chars -> Forall glyph_ok ng -> (b + cols ng <= l)%nat ->
  text ng = take it chars -> (it <= length chars)%nat ->
  exists r', store_offsets (Z.of_nat b) (marks (zlen (text (before gs b)) + Z.of_nat (lead gs b)) ng) r = Done r' /\
    writing r gs b l chars ((started r gs b l chars) <| h_row := r' |> <| colEnd := Z.of_nat (b + cols ng) |>)
      (plain_base gs b) (take b (offsets gs)) [] (cols (before gs b)) ng it 0.
Proof.
  intros Hh Hbl Hroom Hng Hfit Ht Hit. pose proof Hh as [Hs Hok Hc Hof _ _]. pose proof (cols_plain r gs Hh b l Hbl) as Hcp.
  assert (Hpt : zlen (text (plain_base gs b)) = zlen (text (before gs b)) + Z.of_nat (lead gs b)) by (unfold plain_base; by rewrite text_app, zlen_app, text_spaces, zlen_repeat).
  assert (Hlo : length (offsets gs) = S (cols gs)) by (unfold offsets; by apply length_marks_end).
  assert (Hlt : length (take b (offsets gs)) = b) by (rewrite length_take; lia). rewrite <- Hpt.
  destruct (store_offsets_ok r Hs (Z.of_nat b) (marks (zlen (text (plain_base gs b))) ng)
    ((take b (offsets gs) ++ marks (zlen (text (plain_base gs b))) ng) ++ drop (cols ng) (drop b (offsets gs)))) as (r' & -> & K1 & K2 & K3 & K4 & _).
  { rewrite Hof, <- (take_drop b (offsets gs)) at 1. rewrite <- (take_drop (cols ng) (drop b (offsets gs))) at 1. rewrite <- app_assoc. apply store_mid.
    - unfold zlen. by rewrite Hlt.
    - rewrite length_marks, length_take, length_drop by done. lia. }
  exists r'. split; [done|]. assert (Hcols : cols (plain_base gs b ++ ng) = (b + cols ng)%nat) by (by rewrite cols_app, Hcp).
  pose proof (after_cols gs (b + cols ng) Hok ltac:(lia)).
  split; rewrite ?Hcols; cbn [h_row setter WriteHelper_eta]; try done; try lia.
  - by apply (base_plain r gs Hh b l chars).
  - rewrite K1. eexists. split; [reflexivity|]. rewrite drop_0, drop_drop. f_equal. lia.
  - unfold lead. lia.
  - by left.
Qed.

(** ** The source *)

Section Source.
Context src sgs (Hsrc : holds src sgs) (sb sl : nat) (Hsb : cols (before sgs sb) = sb) (Hsl : (sb < sl <= cols sgs)%nat).
Definition from_column : list glyph := after sgs sb.
Definition base_offset : Z := zlen (text (before sgs sb)).

Lemma source_split : sgs = before sgs sb ++ from_column /\ Forall glyph_ok (before sgs sb) /\ Forall glyph_ok from_column /\ base_offset + zlen (text from_column) < 0x8000.
Proof using Hsrc Hsb Hsl.
  pose proof Hsrc as [_ Hok _ _ _ Hsm]. destruct (before_split sgs sb Hok ltac:(lia)) as (rest & Hr & _). pose proof Hok as Hok'. rewrite Hr in Hok'.
  apply Forall_app in Hok' as [Hb Hrest]. pose proof (after_between (before sgs sb) rest Hb) as Ha. rewrite <- Hr, Hsb in Ha. fold from_column in Ha.
  rewrite Ha. split_and!; try done. unfold base_offset. rewrite Hr, text_app, zlen_app in Hsm. done.
Qed.

Lemma tail_before c : before sgs (sb + c) = before sgs sb ++ before from_column c.
Proof using Hsrc Hsb Hsl.
  destruct source_split as (E & Hb & _ & _). pose proof (before_app (before sgs sb) from_column c Hb) as X. by rewrite <- E, Hsb in X.
Qed.

(** The offsets from the column on. *)
Lemma tail_offsets : offsets sgs = marks 0 (before sgs sb) ++ marks_end base_offset from_column /\ length (marks 0 (before sgs sb)) = sb.
Proof using Hsrc Hsb Hsl.
  destruct source_split as (E & Hb & _ & _). rewrite length_marks, Hsb by done. split; [|done]. rewrite E at 1. unfold offsets. by rewrite marks_end_app.
Qed.

Definition part_offsets : list Z := take (S (sl - sb)) (marks_end base_offset from_column).
Definition part_text : list Z := text (before from_column (sl - sb)).

Lemma length_part : length part_offsets = S (sl - sb).
Proof using Hsrc Hsb Hsl.
  destruct source_split as (E & Hb & Ht & _). pose proof (f_equal cols E) as Hc. rewrite cols_app, Hsb in Hc.
  unfold part_offsets. rewrite length_take, length_marks_end by done. lia.
Qed.

(** The entry of a column of the part. *)
Lemma part_entry c : (c <= sl - sb)%nat -> exists o, part_offsets !! c = Some o /\ Z.land o CharOffsetsMask = base_offset + zlen (text (before from_column c)) /\
  is_trailer o = negb (cols (before from_column c) =? c)%nat.
Proof using Hsrc Hsb Hsl.
  intros Hc. pose proof Hsrc as [_ Hok _ _ _ Hsm]. destruct (offset_masked sgs Hok Hsm (sb + c) ltac:(lia)) as (o & Ho & Hm & Ht).
  destruct tail_offsets as [E Hl]. rewrite E, lookup_app_r, Hl in Ho by lia. replace (sb + c - sb)%nat with c in Ho by lia.
  rewrite tail_before, text_app, zlen_app in Hm. rewrite tail_before, cols_app, Hsb in Ht. exists o. split; [unfold part_offsets; by rewrite lookup_take_lt by lia|]. split; [done|].
  rewrite Ht. f_equal. destruct (Nat.eqb_spec (sb + cols (before from_column c)) (sb + c)), (Nat.eqb_spec (cols (before from_column c)) c); lia.
Qed.

Lemma source_part_spec : source_part src (Z.of_nat sb) (Z.of_nat sl) = Done (part_offsets, part_text).
Proof using Hsrc Hsb Hsl.
  pose proof Hsrc as [_ Hok _ Hof [junk Hj] Hsm]. destruct source_split as (E & Hb & Ht & Hs8). destruct tail_offsets as [Eo Hl]. pose proof length_part as Hlp.
  unfold source_part. rewrite (proj2 (Z.ltb_lt _ _)) by lia.
  assert (Hf : fetch (_charOffsets src) (Z.of_nat sb) (Z.of_nat sl - Z.of_nat sb + 1) = Done part_offsets).
  { rewrite Hof, Eo. rewrite <- (take_drop (S (sl - sb)) (marks_end base_offset from_column)). apply fetch_mid; unfold zlen; [by rewrite Hl|]. fold part_offsets. rewrite Hlp. lia. }
  rewrite Hf. cbn [obind]. destruct (part_entry 0 ltac:(lia)) as (o0 & Ho0 & Hm0 & _). destruct (part_entry (sl - sb) ltac:(lia)) as (o1 & Ho1 & Hm1 & _).
  change 0 with (Z.of_nat 0) at 1. rewrite (element_lookup _ _ _ Ho0). cbn [obind].
  replace (Z.of_nat (length part_offsets) - 1) with (Z.of_nat (sl - sb)) by lia. rewrite (element_lookup _ _ _ Ho1). cbn [obind]. rewrite Hm0, Hm1.
  assert (H0 : before from_column 0 = []) by (destruct Ht as [|[t w] k [_ _ Hw] _]; [done|]; cbn in *; by destruct w; [lia|]).
  rewrite H0. cbn [text map concat]. change (zlen (A:=Z) []) with 0. rewrite Z.add_0_r.
  assert (Hfc : fetch (_chars src) base_offset (base_offset + zlen (text (before from_column (sl - sb))) - base_offset) = Done part_text).
  { destruct (before_split from_column (sl - sb) Ht) as (rest & Hr & _). { pose proof (f_equal cols E) as Hc. rewrite cols_app, Hsb in Hc. lia. }
    rewrite Hj, E, text_app. rewrite Hr, text_app, <- !app_assoc. apply fetch_mid; [done|]. unfold part_text. rewrite <- Hr. lia. }
  by rewrite Hfc.
Qed.

(** The whole glyphs in the first columns of the part. *)
Lemma part_glyphs m : (m <= sl - sb)%nat -> exists rest, from_column = before from_column m ++ rest /\ Forall glyph_ok (before from_column m) /\
  (cols (before from_column m) <= m)%nat /\ adjust_backward part_offsets m = Done (cols (before from_column m)) /\
  part_offsets !! 0%nat = Some base_offset /\ part_offsets !! cols (before from_column m) = Some (base_offset + zlen (text (before from_column m))) /\
  take (cols (before from_column m)) part_offsets = marks base_offset (before from_column m).
Proof using Hsrc Hsb Hsl.
  intros Hm. pose proof Hsrc as [_ Hok _ _ _ Hsm]. destruct source_split as (E & Hb & Ht & Hs8). destruct tail_offsets as [Eo Hl].
  pose proof (f_equal cols E) as Hc. rewrite cols_app, Hsb in Hc. destruct (before_split from_column m Ht ltac:(lia)) as (rest & Hr & Hbm).
  set (ng := before from_column m) in *. assert (Hng : Forall glyph_ok ng) by (by apply before_ok).
  destruct (marks_end_head from_column base_offset) as [B HB]. exists rest. split; [done|]. split; [done|]. split; [lia|].
  assert (Hpre : forall i, (i <= m)%nat -> part_offsets !! i = marks_end base_offset from_column !! i) by (intros; unfold part_offsets; by rewrite lookup_take_lt by lia).
  split_and!.
  - rewrite (backward_ext _ (marks_end base_offset from_column)) by done. pose proof (backward_found sgs Hok Hsm (sb + m) ltac:(lia)) as Hback.
    rewrite tail_before, cols_app, Hsb, Eo, HB in Hback. fold ng in Hback.
    generalize (marks 0 (before sgs sb)) Hl Hback. intros A <- HA. apply backward_shift in HA as (k & Hk & Hrun); [|apply (low_offset base_offset); unfold base_offset, zlen in *; lia].
    rewrite HB, Hrun. f_equal. lia.
  - by rewrite Hpre, HB by lia.
  - rewrite Hpre by lia. rewrite Hr, marks_end_app. destruct (marks_end_head rest (base_offset + zlen (text ng))) as [k ->].
    rewrite lookup_app_r, length_marks, Nat.sub_diag by (done || by rewrite length_marks). done.
  - unfold part_offsets. rewrite take_take, Nat.min_l by lia. rewrite Hr. by apply take_marks_end.
Qed.
End Source.

(** ** Copying *)

(** The helper after the copy of the offsets. *)
Lemma helper_copied r gs src sgs b l sb sl (m := Nat.min (l - b) (sl - sb)) (available := part_text sgs sb sl) (ng := before (from_column sgs sb) m) :
  holds r gs -> holds src sgs -> cols (before sgs sb) = sb -> (b < l <= cols gs)%nat -> (sb < sl <= cols sgs)%nat -> has_room gs available ->
  exists h, Helper_CopyTextFrom (part_offsets sgs sb sl) (started r gs b l available)
      = Done (h <| colEndDirty := Z.of_nat (b + m) |> <| charsConsumed := Z.of_nat (length (text ng)) |>) /\
    writing r gs b l available h (plain_base gs b) (take b (offsets gs)) [] (cols (before gs b)) ng (length (text ng)) 0.
Proof.
  intros Hh Hsrc Hsb Hbl Hsl Hroom. pose proof Hh as [Hs Hok Hc _ _ Hsm]. pose proof Hsrc as [Hss _ Hsc _ _ _]. destruct (so_columns _ Hs), (so_columns _ Hss).
  destruct (part_glyphs src sgs Hsrc sb sl Hsb Hsl m ltac:(lia)) as (rest & Hr & Hng & Hcm & Hback & He0 & Hej & Htake).
  fold ng in Hr, Hng, Hcm, Hback, Hej, Htake. destruct (source_split src sgs Hsrc sb sl Hsb Hsl) as (_ & _ & _ & Hs8).
  rewrite Hr, text_app, zlen_app in Hs8. pose proof (zlen_nonneg (text rest)). pose proof (zlen_nonneg (text ng)).
  assert (Hb0 : 0 <= base_offset sgs sb) by apply zlen_nonneg. destruct (before_prefix (from_column sgs sb) m (sl - sb) ltac:(lia)) as [k Hk].
  assert (Hav : available = text ng ++ text k) by (unfold available, part_text; by rewrite Hk, text_app).
  destruct (before_split gs b Hok ltac:(lia)) as (rb & Hrb & Hbb). pose proof (prefix_small gs Hok Hsm _ _ Hrb) as Hpb.
  assert (Hle : zlen (text (before gs b)) <= zlen (text gs)) by (rewrite Hrb at 2; rewrite text_app, zlen_app; pose proof (zlen_nonneg (text rb)); lia).
  unfold has_room in Hroom. pose proof Hroom as Hroom'. rewrite Hav, zlen_app in Hroom'. pose proof (zlen_nonneg (text k)).
  destruct (writing_many r gs b l available ng (length (text ng)) Hh Hbl Hroom Hng) as (r' & Hstore & Hw); [lia|by rewrite Hav, take_app_length|rewrite Hav, length_app; lia|].
  eexists. split; [|exact Hw]. unfold Helper_CopyTextFrom. rewrite (length_part src sgs Hsrc sb sl Hsb Hsl).
  replace (Z.of_nat (S (sl - sb)) - 1) with (Z.of_nat (sl - sb)) by lia. rewrite Z.gtb_ltb, (proj2 (Z.ltb_ge _ _)) by lia. cbn [obind colLimit colBeg started].
  rewrite u16_small by lia. replace (Z.min (Z.of_nat l - Z.of_nat b) (Z.of_nat (sl - sb))) with (Z.of_nat m) by lia. rewrite Nat2Z.id, Hback. cbn [obind].
  change 0 with (Z.of_nat 0) at 1. rewrite (element_lookup _ _ _ He0). cbn [obind]. rewrite (element_lookup _ _ _ Hej). cbn [obind chBeg colEnd h_row started].
  unfold _copyOffsets. rewrite Nat2Z.id, Htake, copied_marks by (done || unfold lead; lia). rewrite Hstore. cbn [obind].
  rewrite !u16_small by lia. rewrite <- !Nat2Z.inj_add. replace (base_offset sgs sb + zlen (text ng) - base_offset sgs sb) with (zlen (text ng)) by lia. done.
Qed.

Section Copy.
Context (garbage : nat -> Z) (isa : ISA).

(** C11: copying text from another row moves the whole glyphs of the source
    range that fit, in place of what was in these columns; a glyph that is cut
    by the end of the range or by the limit becomes a space.  The state tells
    where the copy ended in both rows. *)
Theorem row_copied state r gs sgs (src := rc_source state) (b := column r (rc_columnBegin state)) (l := column r (rc_columnLimit state))
    (sb := column src (rc_sourceColumnBegin state)) (sl := column src (rc_sourceColumnLimit state)) (m := Nat.min (l - b) (sl - sb))
    (available := text (before (after sgs sb) (sl - sb))) (ng := before (after sgs sb) m) :
  holds r gs -> holds src sgs -> cols (before sgs sb) = sb -> (b < l)%nat -> (sb < sl)%nat -> available <> [] -> has_room gs available ->
  exists state' r', CopyTextFrom garbage isa false state r = Done (state', (r', false)) /\ holds r' (overwrite gs b ng (b + m)) /\
    rc_columnEnd state' = Z.of_nat (if (length (text ng) =? length available)%nat then b + cols ng else l) /\
    rc_sourceColumnEnd state' = Z.of_nat (sb + cols ng) /\
    rc_columnBeginDirty state' = Z.of_nat (cols (before gs b)) /\ rc_columnEndDirty state' = Z.of_nat (cols gs - cols (after gs (b + m))).
Proof.
  intros Hh Hsrc Hsb Hbl Hsl Hne Hroom. pose proof (column_clamped r gs (rc_columnLimit state) Hh) as [_ Hl]. fold l in Hl.
  pose proof (column_clamped src sgs (rc_sourceColumnBegin state) Hsrc) as [Csb _]. pose proof (column_clamped src sgs (rc_sourceColumnLimit state) Hsrc) as [Csl Hslc]. fold sb sl in Csb, Csl, Hslc.
  pose proof (conj Hbl Hl) as Hbl2. pose proof (conj Hsl Hslc) as Hsl2. destruct (part_glyphs src sgs Hsrc sb sl Hsb Hsl2 m ltac:(lia)) as (_ & _ & _ & Hcm & _ & He0 & _).
  destruct (source_split src sgs Hsrc sb sl Hsb Hsl2) as (_ & _ & _ & Hs8).
  unfold CopyTextFrom. fold src. rewrite Csb, Csl, (source_part_spec src sgs Hsrc sb sl Hsb Hsl2). cbn [obind].
  rewrite (helper_started r gs) by done. cbn [obind]. fold b l. rewrite started_valid, (length_part src sgs Hsrc sb sl Hsb Hsl2).
  pose proof (nonempty_length _ Hne) as Hpos. change available with (part_text sgs sb sl) in *.
  rewrite (proj2 (Nat.ltb_lt b l)), (proj2 (Nat.eqb_neq (length (part_text sgs sb sl)) 0)), (proj2 (Nat.ltb_ge _ 2)) by lia.
  assert (Hst : starts_with_trailer (part_offsets sgs sb sl) = false).
  { destruct (part_offsets sgs sb sl) as [|x k]; [done|]. injection He0 as ->. apply (low_offset (base_offset sgs sb)). unfold base_offset, zlen in *. lia. }
  rewrite Hst. cbn [negb andb orb].
  destruct (helper_copied r gs src sgs b l sb sl Hh Hsrc Hsb Hbl2 Hsl2 Hroom) as (h & -> & Hw). cbn [obind]. fold m in Hw |- *.
  change (from_column sgs sb) with (after sgs sb) in *. fold ng in Hcm, Hw |- *. pose proof (cols_plain r gs Hh b l Hbl2) as Hcp.
  assert (Hcols : cols (plain_base gs b ++ ng) = (b + cols ng)%nat) by (by rewrite cols_app, Hcp).
  destruct (writing_finish r gs Hh b l _ Hbl2 Hroom garbage _ _ _ _ _ _ _ _ (b + m) Hw ltac:(rewrite Hcols; lia)) as (h' & -> & Hho & F1 & F2 & F3 & F4 & F5 & F6). cbn [obind].
  do 2 eexists. split; [reflexivity|]. split; [done|]. cbn [rc_columnEnd rc_sourceColumnEnd rc_columnBeginDirty rc_columnEndDirty setter RowCopyTextFromState_eta].
  rewrite F1, F2, F3, F4, F5, F6, Hcols. split; [|split; [lia|done]].
  destruct (Nat.eqb_spec (length (text ng)) (length (part_text sgs sb sl))), (Z.eqb_spec (Z.of_nat (length (text ng))) (Z.of_nat (length (part_text sgs sb sl)))); done || lia.
Qed.
End Copy.

(** * What a write of a row leaves alone

    The writes of a row change its text and nothing else, and copying a whole
    row makes the target hold what the source holds. *)



Lemma obind_inv {A B} (x : outcome A) (f : A -> outcome B) y : obind x f = Done y -> exists a, x = Done a /\ f a = Done y.
Proof. destruct x; [by eauto|done..]. Qed.

(** Takes a chain of successful calls apart. *)
Ltac inv_done :=
  repeat match goal with
  | H : obind _ (fun x => _) = Done _ |- _ => apply obind_inv in H; let E := fresh "E" in destruct H as (? & E & H); cbv beta in H
  | H : context [let '(_, _) := ?p in _] |- _ => is_var p; destruct p; cbv beta iota in H
  | H : Done _ = Done _ |- _ => injection H as H; subst
  end.

(** Everything but the text, the offsets and the padding. *)
Record keeps r r' : Prop := {
  ke_columns : _columnCount r' = _columnCount r;
  ke_attr : _attr r' = _attr r;
  ke_rendition : _lineRendition r' = _lineRendition r;
  ke_wrap : _wrapForced r' = _wrapForced r;
  ke_prompt : _promptData r' = _promptData r;
}.

Lemma keeps_refl r : keeps r r.
Proof. by split. Qed.

Lemma keeps_trans r1 r2 r3 : keeps r1 r2 -> keeps r2 r3 -> keeps r1 r3.
Proof. intros [] []. split; congruence. Qed.

Lemma store_offsets_keeps i xs r r' : store_offsets i xs r = Done r' -> keeps r r' /\ _doubleBytePadded r' = _doubleBytePadded r.
Proof. unfold store_offsets. intros H. inv_done. by repeat split. Qed.

Lemma store_chars_keeps i xs r r' : store_chars i xs r = Done r' -> keeps r r' /\ _doubleBytePadded r' = _doubleBytePadded r.
Proof. unfold store_chars, with_chars. intros H. inv_done. by destruct (_charsHeap r). Qed.

Lemma put_spaces_keeps n ch col v r r' : put_spaces n ch col v r = Done r' -> keeps r r' /\ _doubleBytePadded r' = _doubleBytePadded r.
Proof.
  unfold put_spaces. destruct (n =? 0); [intros [= ->]; split; [apply keeps_refl|done]|]. intros H. inv_done.
  apply store_chars_keeps in E as [K1 P1]. apply store_offsets_keeps in H as [K2 P2]. split; [by eapply keeps_trans|congruence].
Qed.

Section Frame.
Context (garbage : nat -> Z) (isa : ISA).

Lemma move_text_keeps a b c d e r r' : move_text garbage a b c d e r = Done (r', false) -> keeps r r' /\ _doubleBytePadded r' = _doubleBytePadded r.
Proof.
  unfold move_text. destruct (e <=? _).
  - intros H. inv_done. by apply store_chars_keeps in E0.
  - destruct (_ >? 0xFFFF); [intros [=]|]. intros H. inv_done. by repeat split.
Qed.

Lemma resize_keeps a b c d r r' : _resizeChars garbage a b c d r = Done (r', false) -> keeps r r' /\ _doubleBytePadded r' = _doubleBytePadded r.
Proof.
  unfold _resizeChars. intros H. inv_done. destruct b0; [done|]. inv_done. apply move_text_keeps in E0 as [K1 P1]. apply store_offsets_keeps in E1 as [K2 P2].
  split; [by eapply keeps_trans|congruence].
Qed.

(** The padding is known after a write that reaches the last column. *)
Lemma Finish_keeps h h' : Finish garbage h = Done (h', false) -> keeps (h_row h) (h_row h') /\ colEnd h' = colEnd h /\
  _doubleBytePadded (h_row h') = (if colEndDirty h' =? _columnCount (h_row h) then colEnd h <? _columnCount (h_row h) else _doubleBytePadded (h_row h)).
Proof.
  unfold Finish. intros H. inv_done. destruct b; [done|]. inv_done.
  assert (K0 : keeps (h_row h) r /\ _doubleBytePadded r = _doubleBytePadded (h_row h)).
  { cbn [h_row setter WriteHelper_eta] in E1. destruct (_ =? x0); [injection E1 as ->; split; [apply keeps_refl|done]|by apply resize_keeps in E1]. }
  apply store_chars_keeps in E3. apply put_spaces_keeps in E4, E5. destruct K0 as [K0 P0], E3 as [K3 P3], E4 as [K4 P4], E5 as [K5 P5].
  pose proof (keeps_trans _ _ _ (keeps_trans _ _ _ K0 K3) (keeps_trans _ _ _ K4 K5)) as K. cbn [h_row colEnd colEndDirty setter WriteHelper_eta] in *.
  rewrite (ke_columns _ _ K). split; [|split; [done|]]; destruct (_ =? _columnCount _); try done; [|cbn; congruence]. by destruct K; split.
Qed.

Lemma Finish_begins h h' : Finish garbage h = Done (h', false) -> colBeg h' = colBeg h.
Proof. unfold Finish. intros H. inv_done. destruct b; [done|]. inv_done. done. Qed.

Lemma copy_text_keeps state r state' r' (b := _clampedColumnInclusive r (rc_columnBegin state))
    (sb := _clampedColumnInclusive (rc_source state) (rc_sourceColumnBegin state)) :
  CopyTextFrom garbage isa false state r = Done (state', (r', false)) -> keeps r r' /\
  (rc_columnEndDirty state' = b \/ _doubleBytePadded r' =
    if rc_columnEndDirty state' =? _columnCount r then rc_sourceColumnEnd state' - sb + b <? _columnCount r else _doubleBytePadded r).
Proof.
  unfold CopyTextFrom. intros H. apply obind_inv in H as ([offs chars] & E & H). apply obind_inv in H as (h & Eh & H).
  assert (Hh : h_row h = r /\ colBeg h = b) by (unfold new_WriteHelper in Eh; inv_done; done). destruct Hh as [Hh Hb].
  destruct (negb _ || false || _ || _); [injection H as <- <-; split; [apply keeps_refl|by left]|].
  apply obind_inv in H as (h1 & E1 & H). assert (K1 : keeps r (h_row h1) /\ colBeg h1 = b /\ _doubleBytePadded (h_row h1) = _doubleBytePadded r).
  { unfold Helper_CopyTextFrom in E1. apply obind_inv in E1 as (last & _ & E1). inv_done. cbn [h_row colBeg setter WriteHelper_eta].
    lazymatch goal with Hs : store_offsets _ _ _ = _ |- _ => apply store_offsets_keeps in Hs as [? ?] end. done. }
  destruct K1 as (K1 & Hb1 & Hp1). apply obind_inv in H as ([h2 threw] & E2 & H).
  destruct threw; [apply obind_inv in H as ([? t] & Er & H); unfold recover in Er; apply obind_inv in Er as (? & _ & Er); injection Er as _ <-; done|].
  pose proof (Finish_begins _ _ E2) as Hb2. apply Finish_keeps in E2 as (K2 & Hc & Hp). injection H as <- <-. split; [by eapply keeps_trans|]. right. cbn.
  rewrite (ke_columns _ _ K1), Hp1 in Hp. rewrite Hp, Hc, Hb2, Hb1. fold sb. destruct (colEndDirty h2 =? _); [|done]. f_equal. lia.
Qed.

(** ** Whole rows *)

(** A line as it is on the screen: single width, no padding behind it. *)
Record plain_line r gs : Prop := {
  pl_holds : holds r gs;
  pl_single : _lineRendition r = SingleWidth;
  pl_padded : _doubleBytePadded r = false;
}.

Lemma holds_members r r' gs : _charsBuffer r' = _charsBuffer r -> _charsHeap r' = _charsHeap r -> _charOffsetsBuffer r' = _charOffsetsBuffer r ->
  _columnCount r' = _columnCount r -> _runs (_attr r') <> [] -> _total_length (_attr r') = _columnCount r' -> holds r gs -> holds r' gs.
Proof.
  intros H1 H2 H3 H4 H5 H6 [[] ? ? Ho Hc ?]. split; [split|..]; try congruence.
  - unfold _charOffsets in *. congruence.
  - unfold _chars in *. by rewrite H1, H2, H4.
Qed.

Lemma after_all gs : Forall glyph_ok gs -> after gs (cols gs) = [].
Proof. intros H. pose proof (after_between gs [] H) as E. by rewrite app_nil_r in E. Qed.

Lemma before_all gs : before gs (cols gs) = gs.
Proof. pose proof (before_between gs [] ltac:(constructor)) as E. by rewrite app_nil_r in E. Qed.

Lemma before_none gs : Forall glyph_ok gs -> before gs 0 = [].
Proof. intros [|[t w] k [_ _ Hw] _]; [done|]. cbn in *. by destruct w; [lia|]. Qed.

Lemma overwrite_all gs sgs : Forall glyph_ok gs -> cols sgs = cols gs -> overwrite gs 0 sgs (cols sgs) = sgs.
Proof.
  intros Hg Hc. unfold overwrite, result, plain_base, lead. rewrite before_none, Hc, after_all by done.
  change (@app glyph (@app glyph [] (spaces (0 - cols []))) sgs) with sgs. rewrite Hc. change (cols []) with 0%nat.
  rewrite Nat.sub_0_r, Nat.sub_diag. apply app_nil_r.
Qed.

Lemma column_full r gs v : holds r gs -> _columnCount r <= v -> column r v = cols gs.
Proof.
  intros [[] _ Hc _ _ _] Hv. unfold column, clamp. destruct (Z.ltb_spec v 0), (Z.gtb_spec v (_columnCount r)); lia.
Qed.

Lemma text_nonempty gs : Forall glyph_ok gs -> (0 < cols gs)%nat -> text gs <> [].
Proof. intros [|[t w] k [Ht _ _] _]; [cbn; lia|]. rewrite text_cons. cbn in *. by destruct t. Qed.

(** Copying a line over a row of the same width: the row is that line. *)
Lemma line_copied src sgs r gs : plain_line src sgs -> holds r gs -> _columnCount r = _columnCount src -> has_room gs (text sgs) ->
  exists r', CopyFrom garbage isa src r = Done (r', false) /\ plain_line r' sgs /\ _attr r' = _attr src /\ _wrapForced r' = _wrapForced src /\ _promptData r' = _promptData r.
Proof.
  intros [Hsrc Hsingle Hpad] Hr Hw Hroom. pose proof Hsrc as [[Hsw _ _ Hruns Htot] Hsok Hsc _ _ _]. pose proof Hr as [_ Hok Hc _ _ _].
  set (r0 := r <| _lineRendition := _lineRendition src |> <| _wrapForced := _wrapForced src |>).
  assert (Hr0 : holds r0 gs) by (destruct (ho_storage _ _ Hr); by apply (holds_members r)).
  assert (Hread : GetReadableColumnCount src = _columnCount src) by (unfold GetReadableColumnCount; rewrite Hsingle, Hpad; cbn; lia).
  set (state := mk_RowCopyState src 0 CoordTypeMax 0 (GetReadableColumnCount src) 0 0 0 0).
  assert (H0 : forall x, column x 0 = 0%nat) by (intros; unfold column, clamp; cbn; destruct (0 >? _columnCount x) eqn:E; [|done]; apply Z.gtb_lt in E; lia).
  assert (Hcols : cols gs = cols sgs) by lia.
  assert (HcR : column r0 CoordTypeMax = cols gs) by (apply column_full; [done|]; change (_columnCount r0) with (_columnCount r); unfold CoordTypeMax; lia).
  assert (HcS : column src (GetReadableColumnCount src) = cols sgs) by (apply column_full; [done|lia]).
  destruct (row_copied garbage isa state r0 gs sgs Hr0 Hsrc) as (state' & r' & Hrun & Hho & _ & Hse & _ & Hde);
    cbn [rc_source rc_columnBegin rc_columnLimit rc_sourceColumnBegin rc_sourceColumnLimit state] in *;
    rewrite ?H0, ?HcR, ?HcS, ?Nat.sub_0_r, ?Hcols, ?Nat.min_id, ?after_zero, ?before_all in *;
    [by rewrite before_none|lia|lia|apply text_nonempty; [done|lia]|done|].
  unfold CopyFrom. fold r0. fold state. rewrite Hrun. cbn [obind]. apply copy_text_keeps in Hrun as [K Hp].
  cbn [Nat.add] in *. rewrite <- Hcols, after_all in Hde by done. change (cols []) with 0%nat in Hde. rewrite Nat.sub_0_r, Hcols in Hde.
  unfold resize_trailing_extent. rewrite Htot, (ke_columns _ _ K). change (_columnCount r0) with (_columnCount r) in *. rewrite Hw.
  rewrite (proj2 (Z.eqb_neq _ 0)), (proj2 (Z.ltb_ge _ _)), Z.gtb_ltb, (proj2 (Z.ltb_ge _ _)) by lia. cbn [obind]. eexists. split; [reflexivity|].
  rewrite overwrite_all in Hho by done. pose proof K as [Kc _ Kr Kw Kp]. change (_columnCount r0) with (_columnCount r) in Kc.
  assert (Hz : forall x k, holds x k -> _clampedColumnInclusive x 0 = 0) by (intros x k Hx; rewrite (proj1 (column_clamped x k 0 Hx)), H0; done).
  cbn [rc_source rc_columnBegin rc_sourceColumnBegin state] in Hp. rewrite (Hz _ _ Hr0), (Hz _ _ Hsrc), Hse, Hde, Hc, Z.eqb_refl, Z.sub_0_r, Z.add_0_r, Z.ltb_irrefl in Hp.
  destruct Hp as [Hp|Hp]; [lia|]. split; [|by split_and!; cbn; rewrite <- ?Htot; try done; destruct (_attr src)].
  split; [|by rewrite <- Hsingle|done]. apply (holds_members r'); try done. cbn. congruence.
Qed.
End Frame.
