(* ===== verification/RowWitness.v ===== *)
(** * Reading a row

    What the observers of a row return, in terms of its glyphs, and the
    translation from offsets in the text back to columns; then the theorems
    about rows on concrete input, and behaviours that look unintended. *)

From S2P Require Import Prelude TermDispatch TextAttribute Rle Graphemes GraphemeFacts Row RowWrite RowFacts RowInit RowFinish RowWrites.
#[local] Open Scope Z_scope.
Implicit Types (r : ROW) (gs pre suf : list glyph).

(** ** Around a glyph *)

Section Around.
Context r pre (t : list Z) (w : nat) suf (Hh : holds r (pre ++ (t, w) :: suf)).

Lemma around_ok : Forall glyph_ok pre /\ Forall glyph_ok suf /\ t <> [] /\ (1 <= w <= 2)%nat /\ (cols pre + w <= cols (pre ++ (t, w) :: suf))%nat.
Proof using Hh.
  destruct Hh as [_ Hok _ _ _ _]. apply Forall_app in Hok as [Hp Hs]. apply Forall_cons_1 in Hs as [[Ht _ Hw] Hs]. rewrite cols_app, cols_cons. cbn in *.
  split_and!; done || lia.
Qed.

(** In front of and behind a column of the glyph. *)
Lemma around_before c : (cols pre <= c < cols pre + w)%nat -> before (pre ++ (t, w) :: suf) c = pre.
Proof using Hh.
  intros Hc. destruct around_ok as (Hp & Hs & Ht & Hw & _). pose proof Hh as [_ Hok _ _ _ _]. apply Forall_app in Hok as [_ Hso].
  destruct (Nat.eq_dec c (cols pre)) as [->|Hne]; [by apply before_between|]. assert (w = 2%nat) as -> by lia. assert (c = S (cols pre)) as -> by lia. apply before_within.
Qed.

Lemma around_after c : (cols pre < c <= cols pre + w)%nat -> after (pre ++ (t, w) :: suf) c = suf.
Proof using Hh.
  intros Hc. destruct around_ok as (Hp & Hs & Ht & Hw & _). pose proof Hh as [_ Hok _ _ _ _]. apply Forall_app in Hok as [_ Hso]. apply Forall_cons_1 in Hso as [Hg _].
  destruct (Nat.eq_dec c (cols pre + w)%nat) as [->|Hne].
  - pose proof (after_between (pre ++ [(t, w)]) suf ltac:(apply Forall_app_2; [done|by constructor])) as Ha. rewrite <- app_assoc, cols_app in Ha.
    change (cols [(t, w)]) with (w + 0)%nat in Ha. by rewrite Nat.add_0_r in Ha.
  - assert (w = 2%nat) as -> by lia. assert (c = S (cols pre)) as -> by lia. apply after_within.
Qed.

Lemma clamped_in c : (c < cols (pre ++ (t, w) :: suf))%nat -> _clampedColumn r (Z.of_nat c) = Z.of_nat c.
Proof using Hh.
  intros Hc. destruct Hh as [Hs _ Hcc _ _ _]. destruct (so_columns _ Hs). unfold _clampedColumn, clamp.
  rewrite (proj2 (Z.ltb_ge _ _)), Z.gtb_ltb, (proj2 (Z.ltb_ge _ _)), u16_small by lia. done.
Qed.

Lemma clamped_inclusive c : (c <= cols (pre ++ (t, w) :: suf))%nat -> _clampedColumnInclusive r (Z.of_nat c) = Z.of_nat c.
Proof using Hh.
  intros Hc. destruct Hh as [Hs _ Hcc _ _ _]. destruct (so_columns _ Hs). unfold _clampedColumnInclusive, clamp.
  rewrite (proj2 (Z.ltb_ge _ _)), Z.gtb_ltb, (proj2 (Z.ltb_ge _ _)), u16_small by lia. done.
Qed.

Lemma to_start c : (cols pre <= c < cols pre + w)%nat -> _adjustBackward r (Z.of_nat c) = Done (Z.of_nat (cols pre)).
Proof using Hh.
  intros Hc. destruct around_ok as (_ & _ & _ & _ & Hle). pose proof Hh as [_ Hok _ Hof _ Hsm]. unfold _adjustBackward.
  by rewrite Nat2Z.id, Hof, (backward_found _ Hok Hsm) by lia; rewrite around_before by lia.
Qed.

Lemma to_end c : (cols pre < c <= cols pre + w)%nat -> _adjustForward r (Z.of_nat c) = Done (Z.of_nat (cols pre + w)).
Proof using Hh.
  intros Hc. destruct around_ok as (_ & _ & _ & _ & Hle). pose proof Hh as [Hs Hok _ Hof _ Hsm]. unfold _adjustForward.
  rewrite Nat2Z.id, (length_offsets_span _ Hs), Hof, (forward_found _ Hok Hsm), around_after by lia. cbn [obind]. do 2 f_equal. rewrite cols_app, cols_cons. cbn. lia.
Qed.

Lemma offset_in c : (cols pre <= c < cols pre + w)%nat -> _uncheckedCharOffset r (Z.of_nat c) = Done (zlen (text pre)).
Proof using Hh.
  intros Hc. destruct around_ok as (_ & _ & _ & _ & Hle). pose proof Hh as [_ Hok _ Hof _ Hsm]. destruct (offset_masked _ Hok Hsm c ltac:(lia)) as (o & Ho & Hm & _).
  unfold _uncheckedCharOffset. rewrite Hof, (element_lookup _ _ _ Ho). cbn [obind]. by rewrite Hm, around_before.
Qed.

Lemma trailer_in c : (cols pre <= c < cols pre + w)%nat -> _uncheckedIsTrailer r (Z.of_nat c) = Done (negb (c =? cols pre)%nat).
Proof using Hh.
  intros Hc. destruct around_ok as (_ & _ & _ & _ & Hle). pose proof Hh as [_ Hok _ Hof _ Hsm]. destruct (offset_masked _ Hok Hsm c ltac:(lia)) as (o & Ho & _ & Ht).
  unfold _uncheckedIsTrailer. rewrite Hof, (element_lookup _ _ _ Ho). cbn [obind]. by rewrite Ht, around_before, Nat.eqb_sym.
Qed.

Lemma end_offset : _uncheckedCharOffset r (Z.of_nat (cols pre + w)) = Done (zlen (text pre) + zlen t) /\ _uncheckedIsTrailer r (Z.of_nat (cols pre + w)) = Done false.
Proof using Hh.
  destruct around_ok as (Hp & Hs & _ & Hw & Hle). pose proof Hh as [_ Hok _ Hof _ Hsm]. destruct (offset_masked _ Hok Hsm (cols pre + w) ltac:(lia)) as (o & Ho & Hm & Ht).
  unfold _uncheckedCharOffset, _uncheckedIsTrailer. rewrite Hof, (element_lookup _ _ _ Ho). cbn [obind]. rewrite Hm, Ht.
  assert (Hb : before (pre ++ (t, w) :: suf) (cols pre + w) = pre ++ [(t, w)]).
  { pose proof (before_between (pre ++ [(t, w)]) suf Hs) as Hb. rewrite <- app_assoc, cols_app in Hb. change (cols [(t, w)]) with (w + 0)%nat in Hb. by rewrite Nat.add_0_r in Hb. }
  rewrite Hb, text_app, zlen_app, cols_app. cbn [text map concat fst]. rewrite app_nil_r. change (cols [(t, w)]) with (w + 0)%nat. rewrite Nat.add_0_r, Nat.eqb_refl. done.
Qed.
End Around.

(** In every column of a glyph the row answers with the text of this
    glyph, whether the column is its first or second half, and its first
    column; moving to the next or previous position and adjusting to the end
    of a glyph go to the ends of this glyph. *)
Theorem row_observed r pre t w suf c (first := Z.of_nat (cols pre)) (next := Z.of_nat (cols pre + w)) :
  holds r (pre ++ (t, w) :: suf) -> (cols pre <= c < cols pre + w)%nat ->
  GlyphAt r (Z.of_nat c) = Done t /\
  DbcsAttrAt r (Z.of_nat c) = Done (if (c =? cols pre)%nat then if (w =? 1)%nat then DbcsSingle else DbcsLeading else DbcsTrailing) /\
  AdjustToGlyphStart r (Z.of_nat c) = Done first /\ AdjustToGlyphEnd r (Z.of_nat (S c)) = Done next /\
  NavigateToNext r (Z.of_nat c) = Done next /\ NavigateToPrevious r next = Done first.
Proof.
  intros Hh Hc. destruct (around_ok r pre t w suf Hh) as (Hp & Hs & Ht & Hw & Hle). destruct (end_offset r pre t w suf Hh) as [He1 He2].
  assert (Hsc : Z.of_nat c + 1 = Z.of_nat (S c)) by lia. split_and!.
  - unfold GlyphAt. rewrite (clamped_in r pre t w suf Hh), (offset_in r pre t w suf Hh), Hsc, (to_end r pre t w suf Hh) by lia. cbn [obind]. rewrite He1. cbn [obind].
    destruct Hh as [_ _ _ _ [junk ->] _]. rewrite text_app, text_cons. cbn [fst]. rewrite <- !app_assoc. apply fetch_mid; lia.
  - unfold DbcsAttrAt. rewrite (clamped_in r pre t w suf Hh), (trailer_in r pre t w suf Hh) by lia. cbn [obind]. destruct (Nat.eqb_spec c (cols pre)) as [->|Hne]; cbn [negb]; [|done].
    destruct (Nat.eqb_spec w 1) as [->|Hw2]; replace (Z.of_nat (cols pre) + 1) with (Z.of_nat (cols pre + 1)) by lia; [by rewrite He2|].
    rewrite (trailer_in r pre t w suf Hh) by lia. cbn [obind]. by rewrite (proj2 (Nat.eqb_neq _ _)) by lia.
  - unfold AdjustToGlyphStart. rewrite (clamped_in r pre t w suf Hh) by lia. by apply (to_start r pre t w suf Hh).
  - unfold AdjustToGlyphEnd. rewrite (clamped_inclusive r pre t w suf Hh) by lia. apply (to_end r pre t w suf Hh). lia.
  - unfold NavigateToNext. rewrite Hsc, (clamped_inclusive r pre t w suf Hh) by lia. apply (to_end r pre t w suf Hh). lia.
  - unfold NavigateToPrevious. replace (next - 1) with (Z.of_nat (cols pre + w - 1)) by (unfold next; lia). rewrite (clamped_in r pre t w suf Hh) by lia.
    apply (to_start r pre t w suf Hh). lia.
Qed.

(** ** From offsets to columns *)

Lemma nonempty_text k : Forall glyph_ok k -> k <> [] -> 0 < zlen (text k).
Proof. intros [|g k' [Ht _ _] _]; [done|]. intros _. rewrite text_cons, zlen_app. pose proof (nonempty_length _ Ht). pose proof (zlen_nonneg (text k')). unfold zlen in *. lia. Qed.

Lemma backward_maps offs target p : (exists o, offs !! p = Some o /\ o <= target) -> forall c, (p <= c)%nat ->
  (forall i, (p < i <= c)%nat -> exists o, offs !! i = Some o /\ target < o) -> mapper_backward offs target c = Done p.
Proof.
  intros (o & Ho & Hle). induction c as [|c IH]; intros Hc Hall; cbn [mapper_backward]; unfold deref.
  - assert (p = 0%nat) as -> by lia. rewrite Ho. cbn [obind]. by rewrite (proj2 (Z.ltb_ge _ _)).
  - destruct (Nat.eq_dec p (S c)) as [->|Hne]; [rewrite Ho; cbn [obind]; by rewrite (proj2 (Z.ltb_ge _ _))|].
    destruct (Hall (S c) ltac:(lia)) as (o' & -> & Hlt). cbn [obind]. rewrite (proj2 (Z.ltb_lt _ _)) by done. apply IH; [lia|]. intros i Hi. apply Hall. lia.
Qed.

(** The trailer bit of a column, by index. *)
Lemma trailer_deref r c x : _uncheckedIsTrailer r (Z.of_nat c) = Done x -> exists o, deref (_charOffsets r) c = Done o /\ is_trailer o = x.
Proof.
  unfold _uncheckedIsTrailer, element. rewrite (proj2 (Z.ltb_ge _ _)), Nat2Z.id by lia. destruct (deref (_charOffsets r) c) as [o| | |]; cbn [obind]; try done.
  intros [= <-]. by exists o.
Qed.

Section Mapper.
Context gs (Hok : Forall glyph_ok gs) (Hsm : zlen (text gs) < 0x8000).

(** The column a search from the left ends in is not in front of the glyph. *)
Lemma masked_reaches pre suf c target : gs = pre ++ suf -> zlen (text pre) <= target -> (c <= cols gs)%nat ->
  target <= zlen (text (before gs c)) -> (cols pre <= c)%nat.
Proof using Hok.
  intros E Ht Hc Hm. destruct (before_split gs c Hok Hc) as (rest & Hr & Hb). rewrite E in Hr at 1. apply app_eq_app in Hr as (k & [[H1 H2]|[H1 H2]]).
  - destruct k as [|g k]; [rewrite app_nil_r in H1; rewrite H1; lia|]. rewrite H1, text_app, zlen_app in Ht.
    assert (Hko : Forall glyph_ok (g :: k)) by (pose proof Hok as Hok'; rewrite E, H1 in Hok'; apply Forall_app in Hok' as [Hok' _]; by apply Forall_app in Hok' as [_ ?]).
    pose proof (nonempty_text _ Hko ltac:(done)). lia.
  - rewrite H1, cols_app in Hb. lia.
Qed.

Lemma forward_maps target : target <= zlen (text gs) -> forall fuel c, (c <= cols gs)%nat -> (cols gs - c <= fuel)%nat ->
  exists c', mapper_forward fuel (offsets gs) target c = Done c' /\ (c' <= cols gs)%nat /\ target <= zlen (text (before gs c')).
Proof using Hok Hsm.
  intros Ht. assert (Hend : before gs (cols gs) = gs) by (pose proof (before_between gs [] ltac:(constructor)) as H; by rewrite app_nil_r in H).
  induction fuel as [|fuel IH]; intros c Hc Hf; cbn [mapper_forward]; destruct (offset_masked gs Hok Hsm c Hc) as (o & Ho & Hm & _); unfold deref; rewrite Ho; cbn [obind]; rewrite Hm, Z.gtb_ltb.
  - assert (c = cols gs) as -> by lia. rewrite Hend, (proj2 (Z.ltb_ge _ _)) by lia. exists (cols gs). by rewrite Hend.
  - destruct (Z.ltb_spec (zlen (text (before gs c))) target) as [Hlt|Hge]; [|by exists c].
    apply IH; [|lia]. destruct (Nat.eq_dec c (cols gs)) as [->|]; [rewrite Hend in Hlt; lia|lia].
Qed.

Lemma leading_found pre suf target m : gs = pre ++ suf -> mapper_offsets m = offsets gs -> _charsLength m = zlen (text gs) -> (_currentColumn m <= cols gs)%nat ->
  zlen (text pre) <= clamp target 0 (zlen (text gs)) -> (forall t w k, suf = (t, w) :: k -> clamp target 0 (zlen (text gs)) < zlen (text pre) + zlen t) ->
  GetLeadingColumnAt target m = Done (m <| _currentColumn := cols pre |>, cols pre).
Proof using Hok Hsm.
  intros E Hof Hlen Hcur Hlo Hhi. unfold GetLeadingColumnAt. rewrite Hof, Hlen. set (tg := clamp target 0 (zlen (text gs))) in *.
  assert (Htg : tg <= zlen (text gs)) by (unfold tg, clamp; pose proof (zlen_nonneg (text gs)); destruct (Z.ltb_spec target 0); [lia|]; destruct (Z.gtb_spec target (zlen (text gs))); lia).
  destruct (forward_maps tg Htg (length (offsets gs)) (_currentColumn m) Hcur) as (c & -> & Hc & Hm); [unfold offsets; rewrite length_marks_end by done; lia|]. cbn [obind].
  rewrite (backward_maps _ _ (cols pre)); [done| |by apply (masked_reaches pre suf c tg)|].
  - exists (zlen (text pre)). split; [|done]. rewrite E. apply offset_between. pose proof Hok as Hok'. rewrite E in Hok'. by apply Forall_app in Hok' as [? _].
  - intros i Hi. pose proof Hok as Hok'. rewrite E in Hok'. apply Forall_app in Hok' as [Hpo Hso].
    destruct suf as [|[t w] k]; [rewrite app_nil_r in E; subst pre; lia|]. specialize (Hhi t w k eq_refl).
    destruct (cut_at gs i Hok ltac:(lia)) as [p s E2 Hp|p t2 s E2 Hp]; pose proof (prefix_small gs Hok Hsm _ _ E2) as Hps.
    + exists (zlen (text p)). pose proof Hok as Hok2. rewrite E2 in Hok2. apply Forall_app in Hok2 as [Hp2 _]. split; [rewrite E2, <- Hp; by apply offset_between|].
      rewrite E in E2. apply app_eq_app in E2 as (l & [[H1 H2]|[H1 H2]]); [rewrite H1, cols_app in Hi; lia|].
      destruct l as [|g l]; [rewrite app_nil_r in H1; subst p; lia|]. injection H2 as <- _. rewrite H1, text_app, zlen_app, text_cons, zlen_app. cbn [fst].
      pose proof (zlen_nonneg (text l)). lia.
    + exists (zlen (text p) + CharOffsetsTrailer). pose proof Hok as Hok2. rewrite E2 in Hok2. apply Forall_app in Hok2 as [Hp2 _]. split; [rewrite E2, Hp; by apply offset_within|].
      unfold CharOffsetsTrailer. lia.
Qed.
End Mapper.

Lemma mapper_created r gs o : holds r gs -> _createCharToColumnMapper r o =
  Done (mk_Mapper (offsets gs) (zlen (text gs)) (Z.to_nat (clamp o 0 (_columnCount r))) (cols gs)) /\ (Z.to_nat (clamp o 0 (_columnCount r)) <= cols gs)%nat.
Proof.
  intros [Hst Hok Hc Hof _ Hsm]. destruct (so_columns _ Hst). unfold _createCharToColumnMapper, _charSize. split.
  - rewrite <- Hc, Hof, (element_lookup _ (cols gs) (zlen (text gs))), Nat2Z.id; [done|]. pose proof (offset_between gs [] Hok) as X. by rewrite app_nil_r in X.
  - unfold clamp. destruct (Z.ltb_spec o 0); [lia|]. destruct (Z.gtb_spec o (_columnCount r)); lia.
Qed.

(** From an offset in the text to the columns of the glyph it is in, for
    every offset within a glyph, its first column and its last; offsets from
    the end of the text on give the column behind the row. *)
Theorem row_offsets_mapped r pre t w suf o : holds r (pre ++ (t, w) :: suf) -> zlen (text pre) <= o < zlen (text pre) + zlen t ->
  GetLeadingColumnAtCharOffset r o = Done (cols pre) /\ GetTrailingColumnAtCharOffset r o = Done (cols pre + w - 1)%nat /\
  (forall o', zlen (text (pre ++ (t, w) :: suf)) <= o' -> GetLeadingColumnAtCharOffset r o' = Done (cols (pre ++ (t, w) :: suf))).
Proof.
  intros Hh Ho. pose proof (around_ok r pre t w suf Hh) as (Hp & Hs & Ht & Hw & Hle). destruct (end_offset r pre t w suf Hh) as [_ He].
  pose proof (trailer_in r pre t w suf Hh) as Htr. set (gs := pre ++ (t, w) :: suf) in *. pose proof Hh as [Hst Hok Hc Hof _ Hsm].
  assert (Htot : zlen (text gs) = zlen (text pre) + zlen t + zlen (text suf)) by (unfold gs; rewrite text_app, text_cons, !zlen_app; cbn; lia).
  pose proof (zlen_nonneg (text suf)). pose proof (zlen_nonneg (text pre)).
  assert (Hclamp : clamp o 0 (zlen (text gs)) = o) by (unfold clamp; by rewrite (proj2 (Z.ltb_ge _ _)), Z.gtb_ltb, (proj2 (Z.ltb_ge _ _)) by lia).
  destruct (mapper_created r gs o Hh) as [Hm Hcur]. set (m := mk_Mapper _ _ _ _) in Hm.
  assert (Hlead : GetLeadingColumnAt o m = Done (m <| _currentColumn := cols pre |>, cols pre)).
  { apply (leading_found gs Hok Hsm pre ((t, w) :: suf)); try done; [rewrite Hclamp; lia|]. intros t' w' k [= <- <- <-]. rewrite Hclamp. lia. }
  unfold GetLeadingColumnAtCharOffset, GetTrailingColumnAtCharOffset. rewrite Hm. cbn [obind]. rewrite Hlead. cbn [obind]. split; [done|]. split.
  - unfold GetTrailingColumnAt. rewrite Hlead. cbn [obind mapper_columnCount mapper_offsets setter CharToColumnMapper_eta m]. rewrite (proj2 (Nat.ltb_lt _ _)) by lia.
    apply trailer_deref in He as (oe & He & Hte). rewrite Hof in He. unfold offsets at 1. rewrite length_marks_end by done.
    assert (w = 1%nat \/ w = 2%nat) as [-> | ->] by lia; cbn [last_column].
    + replace (S (cols pre)) with (cols pre + 1)%nat by lia. rewrite He. cbn [obind]. rewrite Hte. cbn [obind]. do 2 f_equal. lia.
    + specialize (Htr (S (cols pre)) ltac:(lia)). apply trailer_deref in Htr as (o1 & Ho1 & Ht1). rewrite Hof in Ho1. rewrite Ho1. cbn [obind]. rewrite Ht1.
      rewrite (proj2 (Nat.eqb_neq _ _)) by lia. cbn [negb]. destruct (cols gs) as [|n]; [lia|]. cbn [last_column].
      replace (S (S (cols pre))) with (cols pre + 2)%nat by lia. rewrite He. cbn [obind]. rewrite Hte. cbn [obind]. do 2 f_equal. lia.
  - intros o' Ho'. destruct (mapper_created r gs o' Hh) as [-> Hcur']. cbn [obind].
    assert (Hcl : clamp o' 0 (zlen (text gs)) = zlen (text gs)).
    { unfold clamp. rewrite (proj2 (Z.ltb_ge _ _)) by lia. destruct (Z.gtb_spec o' (zlen (text gs))); lia. }
    rewrite (leading_found gs Hok Hsm gs []); [done|by rewrite app_nil_r|done|done|done|by rewrite Hcl|done].
Qed.

(** ** The text of a row *)

(** The text of a row is that of its glyphs up to the readable width; the
    text of a range of columns is that of the glyphs that end in it, from the
    glyph around its first column on.  A row of a single column is left out:
    with a double width rendition its readable width can be negative. *)
Theorem row_text_read r gs : holds r gs -> 2 <= _columnCount r -> GetText r = Done (text (before gs (Z.to_nat (GetReadableColumnCount r)))) /\
  (forall b e, (b <= e <= Z.to_nat (GetReadableColumnCount r))%nat -> exists mid, before gs e = before gs b ++ mid /\
    GetText_range r (Z.of_nat b) (Z.of_nat e) = Done (text mid)) /\
  ContainsText r = Done (existsb (fun c => negb (c =? 0x20)) (text (before gs (Z.to_nat (GetReadableColumnCount r))))).
Proof.
  intros Hh H2. pose proof Hh as [Hs Hok Hc Hof [junk Hj] Hsm]. destruct (so_columns _ Hs).
  assert (Hrc : 0 <= GetReadableColumnCount r <= _columnCount r).
  { assert (Hhalf : forall x, 0 <= x <= _columnCount r -> 0 <= Z.shiftr x 1 <= _columnCount r).
    { intros x Hx. rewrite Z.shiftr_div_pow2 by lia. change (2 ^ 1) with 2. pose proof (Z.div_mod x 2 ltac:(lia)). pose proof (Z.mod_pos_bound x 2 ltac:(lia)). lia. }
    unfold GetReadableColumnCount. destruct (_lineRendition r), (_doubleBytePadded r); cbn [Z.b2z]; try apply Hhalf; change (Z.shiftl 1 1) with 2; change (Z.shiftl 0 1) with 0; lia. }
  set (n := Z.to_nat (GetReadableColumnCount r)). assert (Hn : GetReadableColumnCount r = Z.of_nat n) by lia.
  assert (Hget : GetText r = Done (text (before gs n))).
  { unfold GetText. destruct (offset_masked gs Hok Hsm n ltac:(lia)) as (o & Ho & Hm & _). rewrite Hn, Hof, (element_lookup _ _ _ Ho). cbn [obind]. rewrite Hm, Hj.
    destruct (before_split gs n Hok ltac:(lia)) as (rest & Hr & _). rewrite Hr at 1. rewrite text_app, <- app_assoc. by apply (fetch_mid 0 _ []). }
  split; [done|]. split; [|unfold ContainsText; by rewrite Hget].
  intros b e Hbe. destruct (before_prefix gs b e ltac:(lia)) as [mid Hmid]. exists mid. split; [done|].
  destruct (before_split gs e Hok ltac:(lia)) as (rest & Hr & _). unfold GetText_range. rewrite Hn.
  assert (Hcl : forall v lo, (lo <= v <= n)%nat -> clamp (Z.of_nat v) (Z.of_nat lo) (Z.of_nat n) = Z.of_nat v).
  { intros v lo Hv. unfold clamp. by rewrite (proj2 (Z.ltb_ge _ _)), Z.gtb_ltb, (proj2 (Z.ltb_ge _ _)) by lia. }
  change 0 with (Z.of_nat 0) at 1. rewrite !Hcl by lia. change 0 with (Z.of_nat 0). rewrite ?Hcl by lia.
  destruct (offset_masked gs Hok Hsm b ltac:(lia)) as (ob & Hob & Hmb & _). destruct (offset_masked gs Hok Hsm e ltac:(lia)) as (oe & Hoe & Hme & _).
  unfold _uncheckedCharOffset. rewrite Hof, (element_lookup _ _ _ Hob), (element_lookup _ _ _ Hoe). cbn [obind]. rewrite Hmb, Hme, Hj, Hmid, text_app, zlen_app.
  rewrite Hr at 1. rewrite Hmid, !text_app, <- !app_assoc. apply fetch_mid; lia.
Qed.

(** * Rows on concrete input

    A row of ten columns, the theorems on it, and three behaviours that look
    unintended. *)

From S2P Require Import RowTheorems RowCopy.

Definition blank_row : ROW :=
  mk_ROW (repeat 0x20 16) None (map Z.of_nat (seq 0 16)) (mk_rle [mk_run TextAttribute_default 10] 10) 10 SingleWidth false false None.

(** A wide glyph between two letters. *)
Definition cat_glyphs : list glyph := [([0x61], 1%nat); ([0x732B], 2%nat); ([0x62], 1%nat)] ++ spaces 6.
Definition cat_row : ROW :=
  mk_ROW ([0x61; 0x732B; 0x62] ++ repeat 0x20 13) None ([0; 1; 0x8001; 2; 3; 4; 5; 6; 7; 8; 9] ++ repeat 0 5)
    (mk_rle [mk_run TextAttribute_default 10] 10) 10 SingleWidth false false None.

Definition heap_byte (_ : nat) : Z := 0.

Lemma blank_holds : holds blank_row (spaces 10).
Proof. split; [split; [cbn; lia|done|done|done|done]|apply spaces_ok|done|done|by exists []|done]. Qed.

Lemma cat_holds : holds cat_row cat_glyphs.
Proof.
  split; [split; [cbn; lia|done|done|done|done]| |done|done|by exists [0x20]|done]. apply Forall_app. split; [|apply spaces_ok].
  repeat constructor; cbn; unfold unit16; done || lia.
Qed.

Lemma plain_detector : detector_ok new_CodepointWidthDetector.
Proof. split; cbn; [lia|constructor]. Qed.

Lemma row_init_vectorised_witness : exists r1 r2, _init AVX2 blank_row = Done r1 /\ init_plain blank_row = Done r2 /\
  _charOffsets r1 = _charOffsets r2 /\ take 10 (_charsBuffer r1) = take 10 (_charsBuffer r2).
Proof. exact (row_init_vectorised AVX2 blank_row (ho_storage _ _ blank_holds)). Defined.

(** An accent for the letter in front, and a letter over the second half of
    the wide glyph. *)
Lemma row_text_written_witness : exists d' state' r' kept cut new it D,
  ReplaceText None heap_byte SSE2 new_CodepointWidthDetector (mk_RowWriteState [0x301; 0x63] 2 10 0 0 0) cat_row = Done (d', state', (r', false)) /\
  detector_ok d' /\ cat_glyphs = kept ++ cut /\ holds r' (result cat_glyphs (kept ++ new) D) /\
  text (kept ++ new) = [0x61] ++ [0x20] ++ take it [0x301; 0x63] /\
  (it = 2%nat /\ D = cols (kept ++ new) \/ (it <= 2)%nat /\ D = 10%nat /\ (cols (kept ++ new) <= 10 <= S (cols (kept ++ new)))%nat) /\
  rw_text state' = drop it [0x301; 0x63] /\ rw_columnEnd state' = Z.of_nat (if (it =? 2)%nat then cols (kept ++ new) else 10) /\
  rw_columnBeginDirty state' = Z.of_nat (cols kept) /\ rw_columnEndDirty state' = Z.of_nat (10 - cols (after cat_glyphs D)).
Proof.
  apply (row_text_written None heap_byte SSE2 new_CodepointWidthDetector (mk_RowWriteState [0x301; 0x63] 2 10 0 0 0) cat_row cat_glyphs cat_holds plain_detector);
    [repeat constructor; lia|done|vm_compute; lia|done].
Defined.

Lemma row_glyph_written_witness : exists r', ReplaceCharacters heap_byte AVX2 9 2 [0x732B] blank_row = Done (r', false) /\ holds r' (spaces 10).
Proof.
  destruct (row_glyph_written heap_byte AVX2 9 2 [0x732B] blank_row (spaces 10) blank_holds) as (r' & H1 & H2);
    [lia|repeat constructor; lia|done|done|vm_compute; lia|]. exists r'. split; [exact H1|exact H2].
Defined.

Lemma row_copied_witness : exists state' r',
  CopyTextFrom heap_byte NEON false (mk_RowCopyState cat_row 7 CoordTypeMax 1 CoordTypeMax 0 0 0 0) blank_row = Done (state', (r', false)) /\
  holds r' (spaces 7 ++ [([0x732B], 2%nat); ([0x62], 1%nat)]) /\ rc_sourceColumnEnd state' = 4.
Proof.
  destruct (row_copied heap_byte NEON (mk_RowCopyState cat_row 7 CoordTypeMax 1 CoordTypeMax 0 0 0 0) blank_row (spaces 10) cat_glyphs blank_holds cat_holds)
    as (state' & r' & H1 & H2 & _ & H3 & _); [done|vm_compute; lia|vm_compute; lia|done|done|].
  exists state', r'. split; [exact H1|]. split; [exact H2|exact H3].
Defined.

Lemma row_observed_witness : GlyphAt cat_row 2 = Done [0x732B] /\ DbcsAttrAt cat_row 2 = Done DbcsTrailing /\ AdjustToGlyphStart cat_row 2 = Done 1.
Proof.
  destruct (row_observed cat_row [([0x61], 1%nat)] [0x732B] 2 (([0x62], 1%nat) :: spaces 6) 2 cat_holds) as (H1 & H2 & H3 & _); [cbn; lia|].
  split; [exact H1|]. split; [exact H2|exact H3].
Defined.

Lemma row_offsets_mapped_witness : GetLeadingColumnAtCharOffset cat_row 1 = Done 1%nat /\ GetTrailingColumnAtCharOffset cat_row 1 = Done 2%nat.
Proof.
  destruct (row_offsets_mapped cat_row [([0x61], 1%nat)] [0x732B] 2 (([0x62], 1%nat) :: spaces 6) 1 cat_holds) as (H1 & H2 & _); [vm_compute; done|]. by split.
Defined.

Lemma row_text_read_witness : GetText cat_row = Done ([0x61; 0x732B; 0x62] ++ repeat 0x20 6).
Proof. destruct (row_text_read cat_row cat_glyphs cat_holds) as (H1 & _); [cbn; lia|]. exact H1. Defined.

(** ** Behaviours worth knowing *)

(** An offset has fifteen bits beside the trailer bit, but nothing stops
    the text of a row from growing beyond them: the write of a glyph of 32768
    code units, a letter with its marks, succeeds, and asking for a glyph of
    the row then runs past its end. *)
Theorem row_text_overflows (marked := 0x61 :: repeat 0x301 (Z.to_nat 0x7FFF)) :
  (let* (r, threw) := ReplaceCharacters heap_byte AVX2 0 1 marked blank_row in Done threw) = Done false /\
  (let* (r, threw) := ReplaceCharacters heap_byte AVX2 0 1 marked blank_row in GlyphAt r 9) = Undefined.
Proof. split; vm_compute; reflexivity. Qed.

(** The fast pass for ASCII stops at the limit without looking at what
    follows: a mark that belongs to the letter in the last column is left over
    for the next row, though there is room for it. *)
Theorem mark_cut_at_limit :
  (let* (_, state, (r, _)) := ReplaceText None heap_byte AVX2 new_CodepointWidthDetector (mk_RowWriteState [0x61; 0x301] 9 10 0 0 0) blank_row in
   Done (rw_text state, rw_columnEnd state)) = Done ([0x301], 10) /\
  (let* (_, state, (r, _)) := ReplaceText None heap_byte AVX2 new_CodepointWidthDetector (mk_RowWriteState [0x61; 0x301] 8 10 0 0 0) blank_row in
   Done (rw_text state, rw_columnEnd state)) = Done ([], 9).
Proof. split; vm_compute; reflexivity. Qed.

(** A mark written over the second half of a wide glyph joins the glyph,
    but the space for the half that was cut replaces the glyph's text. *)
Theorem joined_glyph_lost :
  (let* (_, _, (r, _)) := ReplaceText None heap_byte AVX2 new_CodepointWidthDetector (mk_RowWriteState [0x301] 2 10 0 0 0) cat_row in GlyphAt r 2)
  = Done [0x20; 0x301].
Proof. vm_compute. reflexivity. Qed.
