(* ===== verification/Hash.v ===== *)
(** * Hashing

    [til::hasher] of [inc/til/hash.h], for 64-bit and 32-bit processors.  The
    data are bytes, and a pointer into them is an offset; a read that leaves
    the data is [Undefined]. *)

From S2P Require Import Prelude.
#[local] Open Scope Z_scope.

(** ** Reading *)

(** The value of bytes, the lowest first. *)
Fixpoint little_endian (bytes : list Z) : Z :=
  match bytes with
  | [] => 0
  | b :: bytes => b + 256 * little_endian bytes
  end.

Definition read_bytes (data : list Z) (p : Z) (count : nat) : outcome Z :=
  if (0 <=? p) && (p + Z.of_nat count <=? Z.of_nat (length data)) then Done (little_endian (take count (drop (Z.to_nat p) data)))
  else Undefined.

Definition byte_of (data : list Z) (p : Z) : outcome Z := read_bytes data p 1.

(** ** 64 bits *)

Definition _wyr3 (data : list Z) (p k : Z) : outcome Z :=
  let* b0 := byte_of data p in
  let* b1 := byte_of data (p + Z.shiftr k 1) in
  let* b2 := byte_of data (p + (k - 1)) in
  Done (Z.lor (Z.lor (Z.shiftl b0 16) (Z.shiftl b1 8)) b2).
Definition _wyr4 (data : list Z) (p : Z) : outcome Z := read_bytes data p 4.
Definition _wyr8 (data : list Z) (p : Z) : outcome Z := read_bytes data p 8.

Definition _wymix (lhs rhs : Z) : Z := Z.lxor (u64 (lhs * rhs)) (Z.shiftr (lhs * rhs) 64).

Definition s0 : Z := 0xa0761d6478bd642f.
Definition s1 : Z := 0xe7037ed1a0b428db.
Definition s2 : Z := 0x8ebc6af09c88c6e3.
Definition s3 : Z := 0x589965cc75374cc3.

(** One round: the mix of two words with a seed. *)
Definition wyround (data : list Z) (p secret seed : Z) : outcome Z :=
  let* x := _wyr8 data p in
  let* y := _wyr8 data (p + 8) in
  Done (_wymix (Z.lxor x secret) (Z.lxor y seed)).

(** The [do] loop: 48 bytes at a time. *)
Fixpoint wide_loop (fuel : nat) (data : list Z) (p i seed seed1 seed2 : Z) : outcome (Z * Z * Z) :=
  match fuel with
  | O => Undefined
  | S fuel =>
      let* seed := wyround data p s1 seed in
      let* seed1 := wyround data (p + 16) s2 seed1 in
      let* seed2 := wyround data (p + 32) s3 seed2 in
      let p := p + 48 in
      let i := i - 48 in
      if i >? 48 then wide_loop fuel data p i seed seed1 seed2
      else Done (p, i, Z.lxor seed (Z.lxor seed1 seed2))
  end.

(** The [while] loop: 16 bytes at a time. *)
Fixpoint narrow_loop (fuel : nat) (data : list Z) (p i seed : Z) : outcome (Z * Z * Z) :=
  if i >? 16 then
    match fuel with
    | O => Undefined
    | S fuel =>
        let* seed := wyround data p s1 seed in
        narrow_loop fuel data (p + 16) (i - 16) seed
    end
  else Done (p, i, seed).

(** The two words that are left, and the seed. *)
Definition wytail (data : list Z) (seed : Z) : outcome (Z * Z * Z) :=
  let len := Z.of_nat (length data) in
  let fuel := length data in
  if len <=? 16 then
    if len >=? 4 then
      let step := Z.shiftl (Z.shiftr len 3) 2 in
      let* a0 := _wyr4 data 0 in
      let* a1 := _wyr4 data step in
      let* b0 := _wyr4 data (len - 4) in
      let* b1 := _wyr4 data (len - 4 - step) in
      Done (Z.lor (Z.shiftl a0 32) a1, Z.lor (Z.shiftl b0 32) b1, seed)
    else if len >? 0 then
      let* a := _wyr3 data 0 len in
      Done (a, 0, seed)
    else Done (0, 0, seed)
  else
    let* (p, i, seed) := if len >? 48 then wide_loop fuel data 0 len seed seed seed else Done (0, len, seed) in
    let* (p, i, seed) := narrow_loop fuel data p i seed in
    let* a := _wyr8 data (p + i - 16) in
    let* b := _wyr8 data (p + i - 8) in
    Done (a, b, seed).

Definition _wyhash (data : list Z) (seed : Z) : outcome Z :=
  let* (a, b, seed) := wytail data (Z.lxor seed s0) in
  Done (_wymix (Z.lxor s1 (Z.of_nat (length data))) (_wymix (Z.lxor a s1) (Z.lxor b seed))).

(** ** 32 bits *)

Definition _wyr32 (data : list Z) (p : Z) : outcome Z := read_bytes data p 4.

Definition _wymix32 (a b : Z) : Z * Z :=
  let c := u64 (Z.lxor a 0x53c5ca59 * Z.lxor b 0x74743c1b) in
  (u32 c, u32 (Z.shiftr c 32)).

Fixpoint loop32 (fuel : nat) (data : list Z) (p i seed see1 : Z) : outcome (Z * Z * Z * Z) :=
  if i >? 8 then
    match fuel with
    | O => Undefined
    | S fuel =>
        let* x := _wyr32 data p in
        let* y := _wyr32 data (p + 4) in
        let '(seed, see1) := _wymix32 (Z.lxor seed x) (Z.lxor see1 y) in
        loop32 fuel data (p + 8) (i - 8) seed see1
    end
  else Done (p, i, seed, see1).

Definition _wyhash32 (data : list Z) (seed : Z) : outcome Z :=
  let len := u32 (Z.of_nat (length data)) in
  let '(seed, see1) := _wymix32 (u32 seed) len in
  let* (p, i, seed, see1) := loop32 (length data) data 0 len seed see1 in
  let* (seed, see1) :=
    if i >=? 4 then
      let* x := _wyr32 data p in
      let* y := _wyr32 data (p + i - 4) in
      Done (Z.lxor seed x, Z.lxor see1 y)
    else if i =? 0 then Done (seed, see1)
    else
      let* x := _wyr3 data p i in
      Done (Z.lxor seed x, see1) in
  let '(seed, see1) := _wymix32 seed see1 in
  let '(seed, see1) := _wymix32 seed see1 in
  Done (Z.lxor seed see1).

(** ** Strings *)

(** The bytes of a string, and its hash: [hasher::write] and [finalize]. *)
Definition wide_bytes (text : list Z) : list Z := concat (map (fun c => [Z.land c 0xFF; Z.shiftr c 8]) text).
Definition hash_wstring (text : list Z) : outcome Z := _wyhash (wide_bytes text) 0.

(** ** Every read stays inside the data *)

Definition is_byte (b : Z) : Prop := 0 <= b < 256.

Lemma little_endian_bound bytes : Forall is_byte bytes -> 0 <= little_endian bytes < 256 ^ Z.of_nat (length bytes).
Proof.
  induction 1 as [|b bytes Hb _ IH]; [cbn; lia|]. cbn [little_endian length]. unfold is_byte in Hb. rewrite Nat2Z.inj_succ, Z.pow_succ_r by lia. lia.
Qed.

Section Reads.
Context (data : list Z) (Hd : Forall is_byte data).

Lemma read_ok p n : 0 <= p -> p + Z.of_nat n <= Z.of_nat (length data) -> exists x, read_bytes data p n = Done x /\ 0 <= x < 256 ^ Z.of_nat n.
Proof using Hd.
  intros H0 H1. unfold read_bytes. rewrite (proj2 (Z.leb_le _ _)), (proj2 (Z.leb_le _ _)) by lia. eexists. split; [reflexivity|].
  pose proof (little_endian_bound (take n (drop (Z.to_nat p) data))) as Hb. rewrite length_take, length_drop, Nat.min_l in Hb by lia. apply Hb. by apply Forall_take, Forall_drop.
Qed.

Lemma wyr8_ok p : 0 <= p -> p + 8 <= Z.of_nat (length data) -> exists x, _wyr8 data p = Done x /\ 0 <= x < 2 ^ 64.
Proof using Hd. intros. destruct (read_ok p 8) as (x & E & ?); [lia..|]. by exists x. Qed.

Lemma wyr4_ok p : 0 <= p -> p + 4 <= Z.of_nat (length data) -> exists x, _wyr4 data p = Done x /\ 0 <= x < 2 ^ 32.
Proof using Hd. intros. destruct (read_ok p 4) as (x & E & ?); [lia..|]. by exists x. Qed.

Lemma bits_below x n : 0 <= n -> 0 <= x -> Z.log2 x < n -> x < 2 ^ n.
Proof. intros. destruct (Z.eq_dec x 0) as [->|]; [lia|]. apply Z.log2_lt_pow2; lia. Qed.

Lemma log2_below x n : 0 < n -> 0 <= x < 2 ^ n -> Z.log2 x < n.
Proof. intros. destruct (Z.eq_dec x 0) as [->|]; [done|]. apply Z.log2_lt_pow2; lia. Qed.

Lemma lxor_word n x y : 0 < n -> 0 <= x < 2 ^ n -> 0 <= y < 2 ^ n -> 0 <= Z.lxor x y < 2 ^ n.
Proof.
  intros Hn Hx Hy. assert (0 <= Z.lxor x y) by (apply Z.lxor_nonneg; lia). split; [done|]. apply bits_below; [lia|done|].
  pose proof (Z.log2_lxor x y ltac:(lia) ltac:(lia)). pose proof (log2_below x n Hn Hx). pose proof (log2_below y n Hn Hy). lia.
Qed.

Lemma lor_word n x y : 0 < n -> 0 <= x < 2 ^ n -> 0 <= y < 2 ^ n -> 0 <= Z.lor x y < 2 ^ n.
Proof.
  intros Hn Hx Hy. assert (0 <= Z.lor x y) by (apply Z.lor_nonneg; lia). split; [done|]. apply bits_below; [lia|done|].
  rewrite Z.log2_lor by lia. pose proof (log2_below x n Hn Hx). pose proof (log2_below y n Hn Hy). lia.
Qed.

Lemma wymix_word x y : 0 <= x < 2 ^ 64 -> 0 <= y < 2 ^ 64 -> 0 <= _wymix x y < 2 ^ 64.
Proof.
  intros. apply lxor_word; [lia|unfold u64; apply Z.mod_pos_bound; lia|]. rewrite Z.shiftr_div_pow2 by lia.
  split; [apply Z.div_pos; nia|apply Z.div_lt_upper_bound; nia].
Qed.

Lemma wyround_ok p secret seed : 0 <= p -> p + 16 <= Z.of_nat (length data) -> 0 <= secret < 2 ^ 64 -> 0 <= seed < 2 ^ 64 ->
  exists x, wyround data p secret seed = Done x /\ 0 <= x < 2 ^ 64.
Proof using Hd.
  intros. unfold wyround. destruct (wyr8_ok p) as (x & -> & ?); [lia..|]. destruct (wyr8_ok (p + 8)) as (y & -> & ?); [lia..|]. cbn [obind].
  eexists. split; [reflexivity|]. apply wymix_word; by apply lxor_word.
Qed.

#[local] Abbreviation len := (Z.of_nat (length data)).

Lemma wide_loop_ok fuel : forall p i seed seed1 seed2, 0 <= p -> 48 < i -> p + i = len -> i <= 48 * Z.of_nat fuel ->
  0 <= seed < 2 ^ 64 -> 0 <= seed1 < 2 ^ 64 -> 0 <= seed2 < 2 ^ 64 ->
  exists p' i' x, wide_loop fuel data p i seed seed1 seed2 = Done (p', i', x) /\ p <= p' /\ 0 < i' <= 48 /\ p' + i' = len /\ 0 <= x < 2 ^ 64 /\ 48 <= p'.
Proof using Hd.
  induction fuel as [|fuel IH]; intros p i seed seed1 seed2 Hp Hi Hl Hf Hs Hs1 Hs2; [lia|]. cbn [wide_loop].
  destruct (wyround_ok p s1 seed) as (x & -> & ?); [lia|lia|by vm_compute|done|]. destruct (wyround_ok (p + 16) s2 seed1) as (y & -> & ?); [lia|lia|by vm_compute|done|].
  destruct (wyround_ok (p + 32) s3 seed2) as (z & -> & ?); [lia|lia|by vm_compute|done|]. cbn [obind]. destruct (Z.gtb_spec (i - 48) 48).
  - destruct (IH (p + 48) (i - 48) x y z) as (p' & i' & v & -> & ?); [lia..|done|done|done|]. exists p', i', v. split; [done|]. lia.
  - pose proof (lxor_word 64 y z ltac:(lia) ltac:(done) ltac:(done)). pose proof (lxor_word 64 x (Z.lxor y z) ltac:(lia) ltac:(done) ltac:(done)).
    do 3 eexists. split; [reflexivity|]. lia.
Qed.

Lemma narrow_loop_ok fuel : forall p i seed, 0 <= p -> 0 < i -> p + i = len -> i <= 16 * Z.of_nat fuel + 16 -> 0 <= seed < 2 ^ 64 ->
  exists p' i' x, narrow_loop fuel data p i seed = Done (p', i', x) /\ p <= p' /\ 0 < i' <= 16 /\ p' + i' = len /\ 0 <= x < 2 ^ 64.
Proof using Hd.
  induction fuel as [|fuel IH]; intros p i seed Hp Hi Hl Hf Hs; cbn [narrow_loop]; destruct (Z.gtb_spec i 16); try lia.
  - do 3 eexists. split; [reflexivity|]. lia.
  - destruct (wyround_ok p s1 seed) as (x & -> & ?); [lia|lia|by vm_compute|done|]. cbn [obind].
    destruct (IH (p + 16) (i - 16) x) as (p' & i' & v & -> & ?); [lia..|]. exists p', i', v. split; [done|]. lia.
  - do 3 eexists. split; [reflexivity|]. lia.
Qed.

Lemma wyr3_ok p k : 0 <= p -> 0 < k <= 3 -> p + k <= len -> exists x, _wyr3 data p k = Done x /\ 0 <= x < 2 ^ 24.
Proof using Hd.
  intros Hp Hk Hl. unfold _wyr3, byte_of. assert (0 <= Z.shiftr k 1 <= k - 1) by (rewrite Z.shiftr_div_pow2 by lia; change (2 ^ 1) with 2; Z.to_euclidean_division_equations; lia).
  destruct (read_ok p 1) as (x & -> & ?); [lia..|]. destruct (read_ok (p + Z.shiftr k 1) 1) as (y & -> & ?); [lia..|].
  destruct (read_ok (p + (k - 1)) 1) as (z & -> & ?); [lia..|]. cbn [obind]. eexists. split; [reflexivity|].
  rewrite !Z.shiftl_mul_pow2 by lia. apply lor_word; [lia| |lia]. apply lor_word; lia.
Qed.

Lemma shifted_word x y : 0 <= x < 2 ^ 32 -> 0 <= y < 2 ^ 32 -> 0 <= Z.lor (Z.shiftl x 32) y < 2 ^ 64.
Proof. intros. rewrite Z.shiftl_mul_pow2 by lia. apply lor_word; lia. Qed.

Lemma wytail_ok seed : 0 <= seed < 2 ^ 64 -> exists a b x, wytail data seed = Done (a, b, x) /\ 0 <= a < 2 ^ 64 /\ 0 <= b < 2 ^ 64 /\ 0 <= x < 2 ^ 64.
Proof using Hd.
  intros Hs. unfold wytail. destruct (Z.leb_spec len 16).
  - destruct (Z.geb_spec len 4).
    + assert (Hst : 0 <= Z.shiftl (Z.shiftr len 3) 2 <= len - 4).
      { rewrite Z.shiftl_mul_pow2, Z.shiftr_div_pow2 by lia. change (2 ^ 3) with 8. change (2 ^ 2) with 4. Z.to_euclidean_division_equations. lia. }
      destruct (wyr4_ok 0) as (a0 & -> & ?); [lia..|]. destruct (wyr4_ok (Z.shiftl (Z.shiftr len 3) 2)) as (a1 & -> & ?); [lia..|].
      destruct (wyr4_ok (len - 4)) as (b0 & -> & ?); [lia..|]. destruct (wyr4_ok (len - 4 - Z.shiftl (Z.shiftr len 3) 2)) as (b1 & -> & ?); [lia..|].
      cbn [obind]. do 3 eexists. split; [reflexivity|]. split; [by apply shifted_word|]. split; [by apply shifted_word|done].
    + destruct (Z.gtb_spec len 0).
      * destruct (wyr3_ok 0 len) as (a & -> & ?); [lia..|]. cbn [obind]. do 3 eexists. split; [reflexivity|]. lia.
      * do 3 eexists. split; [reflexivity|]. lia.
  - assert (Hw : exists p i x, (if len >? 48 then wide_loop (length data) data 0 len seed seed seed else Done (0, len, seed)) = Done (p, i, x) /\
      0 <= p /\ 0 < i /\ p + i = len /\ 0 <= x < 2 ^ 64).
    { destruct (Z.gtb_spec len 48); [|do 3 eexists; split; [reflexivity|lia]].
      destruct (wide_loop_ok (length data) 0 len seed seed seed) as (p & i & x & -> & ?); [lia..|]. do 3 eexists. split; [reflexivity|]. lia. }
    destruct Hw as (p & i & x & -> & Hp & Hi & Hl & Hx). cbn [obind]. destruct (narrow_loop_ok (length data) p i x) as (p' & i' & x' & -> & ?); [lia..|]. cbn [obind].
    destruct (wyr8_ok (p' + i' - 16)) as (a & -> & ?); [lia..|]. destruct (wyr8_ok (p' + i' - 8)) as (b & -> & ?); [lia..|]. cbn [obind].
    do 3 eexists. split; [reflexivity|]. lia.
Qed.

Lemma loop32_ok fuel : forall p i seed see1, 0 <= p -> 0 <= i -> p + i <= len -> i <= 8 * Z.of_nat fuel + 8 ->
  exists p' i' x y, loop32 fuel data p i seed see1 = Done (p', i', x, y) /\ 0 <= p' /\ 0 <= i' <= 8 /\ p' + i' <= len.
Proof using Hd.
  induction fuel as [|fuel IH]; intros p i seed see1 Hp Hi Hl Hf; cbn [loop32]; destruct (Z.gtb_spec i 8); try lia.
  - do 4 eexists. split; [reflexivity|]. lia.
  - unfold _wyr32. destruct (read_ok p 4) as (x & -> & ?); [lia..|]. destruct (read_ok (p + 4) 4) as (y & -> & ?); [lia..|]. cbn [obind]. destruct (_wymix32 _ _) as [s s']. apply IH; lia.
  - do 4 eexists. split; [reflexivity|]. lia.
Qed.
End Reads.

(** C37: hashing reads only inside the data it is given, whatever their
    length, on 64-bit and on 32-bit processors, and the result fits the
    processor's word. *)
Theorem hash_stays_inside data seed : Forall is_byte data -> 0 <= seed < 2 ^ 64 -> Z.of_nat (length data) < 2 ^ 64 ->
  (exists x, _wyhash data seed = Done x /\ 0 <= x < 2 ^ 64) /\ (exists x, _wyhash32 data seed = Done x /\ 0 <= x < 2 ^ 32).
Proof.
  intros Hd Hs Hlen. split.
  - unfold _wyhash. destruct (wytail_ok data Hd (Z.lxor seed s0)) as (a & b & x & -> & Ha & Hb & Hx); [by apply lxor_word|]. cbn [obind].
    eexists. split; [reflexivity|]. apply wymix_word; [apply lxor_word; [lia|by vm_compute|lia]|]. apply wymix_word; apply lxor_word; done.
  - unfold _wyhash32. set (len := u32 (Z.of_nat (length data))). destruct (_wymix32 (u32 seed) len) as [x y].
    assert (Hlen32 : 0 <= len <= Z.of_nat (length data)).
    { unfold len, u32. split; [apply Z.mod_pos_bound; lia|apply Z.mod_le; lia]. }
    destruct (loop32_ok data Hd (length data) 0 len x y) as (p & i & x' & y' & -> & Hp & Hi & Hl); [lia..|]. cbn [obind].
    assert (Hmid : exists u v, (if i >=? 4 then let* s := _wyr32 data p in let* t := _wyr32 data (p + i - 4) in Done (Z.lxor x' s, Z.lxor y' t)
      else if i =? 0 then Done (x', y') else let* s := _wyr3 data p i in Done (Z.lxor x' s, y')) = Done (u, v)).
    { unfold _wyr32. destruct (Z.geb_spec i 4).
      - destruct (read_ok data Hd p 4) as (s & -> & ?); [lia..|]. destruct (read_ok data Hd (p + i - 4) 4) as (t & -> & ?); [lia..|]. by do 2 eexists.
      - destruct (Z.eqb_spec i 0); [by do 2 eexists|]. destruct (wyr3_ok data Hd p i) as (s & -> & ?); [lia..|]. by do 2 eexists. }
    destruct Hmid as (u & v & ->). cbn [obind]. destruct (_wymix32 u v) as [u' v']. unfold _wymix32. eexists. split; [reflexivity|].
    apply lxor_word; [lia|unfold u32; apply Z.mod_pos_bound; lia..].
Qed.

(** The hash of a short and of a long text. *)
Lemma hash_stays_inside_witness : (exists x, hash_wstring (repeat 0x61 60) = Done x) /\ (exists x, _wyhash32 [1; 2; 3] 0 = Done x).
Proof.
  split.
  - destruct (hash_stays_inside (wide_bytes (repeat 0x61 60)) 0) as [(x & E & _) _]; [apply Forall_forall; intros b Hb; vm_compute in Hb; unfold is_byte; repeat destruct Hb as [<-|Hb]; (lia || done)|lia|vm_compute; done|].
    by exists x.
  - destruct (hash_stays_inside [1; 2; 3] 0) as [_ (x & E & _)]; [repeat constructor; unfold is_byte; lia|lia|done|]. by exists x.
Defined.
