(* ===== verification/Geometry.v ===== *)
(** * Points, rectangles and viewports

    The structures of [inc/til/point.h] and [inc/til/rect.h], and the class
    [Viewport] of [types/viewport.cpp].  The arithmetic of [til] throws when
    the result is not a [CoordType]; that of [Viewport] is plain, and its
    coordinates are taken to be far from the limits of a [CoordType].
    [std::clamp] with a lower bound above the upper one, and the division by
    a width of zero, are [Undefined]. *)

From S2P Require Import Prelude TermDispatch TextAttribute Cursor Pages Row.
#[local] Open Scope Z_scope.

(** ** Checked arithmetic *)

(** [details::extract] of a [CheckedNumeric]. *)
Definition extract (z : Z) : outcome Z := if (- 2 ^ 31 <=? z) && (z <? 2 ^ 31) then Done z else Throws.

(** ** Points *)

Definition point_ltb (p q : point) : bool := (py p <? py q) || ((py p =? py q) && (px p <? px q)).
Definition point_leb (p q : point) : bool := (py p <? py q) || ((py p =? py q) && (px p <=? px q)).
Definition point_gtb (p q : point) : bool := (py p >? py q) || ((py p =? py q) && (px p >? px q)).
Definition point_geb (p q : point) : bool := (py p >? py q) || ((py p =? py q) && (px p >=? px q)).

Definition point_combine (op : Z -> Z -> Z) (p q : point) : outcome point :=
  let* x := extract (op (px p) (px q)) in
  let* y := extract (op (py p) (py q)) in
  Done (mk_point x y).
Definition point_add : point -> point -> outcome point := point_combine Z.add.
Definition point_sub : point -> point -> outcome point := point_combine Z.sub.
Definition point_mul : point -> point -> outcome point := point_combine Z.mul.

(** [CheckDiv] is not valid for a divisor of zero. *)
Definition check_div (a b : Z) : outcome Z := if b =? 0 then Throws else extract (Z.quot a b).
Definition point_div (p q : point) : outcome point :=
  let* x := check_div (px p) (px q) in
  let* y := check_div (py p) (py q) in
  Done (mk_point x y).

Record point_span := mk_span { span_start : point; span_end : point }.

(** The calls of a loop over the rows [ay] to [by]. *)
Definition span_rows (w ax ay bx by_ : Z) : list (Z * Z * Z) :=
  map (fun k => let y := ay + Z.of_nat k in (y, if y =? ay then ax else 0, if y =? by_ then bx else w))
    (seq 0 (Z.to_nat (by_ - ay + 1))).

Definition iterate_rows (width : Z) (s : point_span) : list (Z * Z * Z) :=
  let w := width - 1 in
  span_rows w (clamp (px (span_start s)) 0 w) (py (span_start s)) (clamp (px (span_end s)) 0 w) (py (span_end s)).

Definition iterate_rows_exclusive (width : Z) (s : point_span) : list (Z * Z * Z) :=
  let w := width in
  let ax := clamp (px (span_start s)) 0 w in
  let ay := py (span_start s) in
  let bx := clamp (px (span_end s)) 0 w in
  let by_ := py (span_end s) in
  let '(ax, ay) := if ax =? w then (0, ay + 1) else (ax, ay) in
  let '(bx, by_) := if bx =? 0 then (w, by_ - 1) else (bx, by_) in
  span_rows w ax ay bx by_.

(** ** Rectangles with exclusive ends *)

Definition rect_bool (r : rect) : bool := (left r >=? 0) && (top r >=? 0) && (right r >? left r) && (bottom r >? top r).
Definition rect_empty (r : rect) : bool := negb (rect_bool r).
Definition rect_default : rect := mk_rect 0 0 0 0.
Definition rect_eqb (r s : rect) : bool := (left r =? left s) && (top r =? top s) && (right r =? right s) && (bottom r =? bottom s).

Definition rect_contains (r : rect) (pt : point) : bool :=
  (px pt >=? left r) && (px pt <? right r) && (py pt >=? top r) && (py pt <? bottom r).
Definition rect_contains_rect (r rc : rect) : bool :=
  (left rc >=? left r) && (top rc >=? top r) && (right rc <=? right r) && (bottom rc <=? bottom r).

Definition rect_or (r other : rect) : rect :=
  if rect_empty r && rect_empty other then rect_default
  else if rect_empty r then other
  else if rect_empty other then r
  else mk_rect (Z.min (left r) (left other)) (Z.min (top r) (top other)) (Z.max (right r) (right other)) (Z.max (bottom r) (bottom other)).

Definition rect_and (r other : rect) : rect :=
  let l := Z.max (left r) (left other) in
  let r' := Z.min (right r) (right other) in
  if l >=? r' then rect_default
  else
    let t := Z.max (top r) (top other) in
    let b := Z.min (bottom r) (bottom other) in
    if t >=? b then rect_default else mk_rect l t r' b.

Definition rect_sub (r other : rect) : list rect :=
  let intersect := rect_and r other in
  if rect_empty intersect then [r]
  else if rect_eqb r intersect then []
  else filter (fun x => rect_bool x = true)
    [mk_rect (left r) (top r) (right r) (top intersect);
     mk_rect (left r) (bottom intersect) (right r) (bottom r);
     mk_rect (left r) (top intersect) (left intersect) (bottom intersect);
     mk_rect (right intersect) (top intersect) (right r) (bottom intersect)].

Definition rect_combine (op : Z -> Z -> Z) (r : rect) (x y : Z) : outcome rect :=
  let* l := extract (op (left r) x) in
  let* t := extract (op (top r) y) in
  let* r' := extract (op (right r) x) in
  let* b := extract (op (bottom r) y) in
  Done (mk_rect l t r' b).
Definition rect_add_point (r : rect) (p : point) : outcome rect := rect_combine Z.add r (px p) (py p).
Definition rect_sub_point (r : rect) (p : point) : outcome rect := rect_combine Z.sub r (px p) (py p).
Definition to_origin (r : rect) (origin : point) : outcome rect := rect_combine Z.sub r (px origin) (py origin).
Definition scale_up (r : rect) (w h : Z) : outcome rect := rect_combine Z.mul r w h.

Definition ceil_div (a b : Z) : Z := if a =? 0 then 0 else Z.quot (a - 1) b + 1.
Definition scale_down (r : rect) (w h : Z) : outcome rect :=
  if (left r <? 0) || (top r <? 0) || (right r <? 0) || (bottom r <? 0) || (w <=? 0) || (h <=? 0) then Throws
  else Done (mk_rect (Z.quot (left r) w) (Z.quot (top r) h) (ceil_div (right r) w) (ceil_div (bottom r) h)).

(** [index_of] computes in checked 32-bit arithmetic, [point_at] takes the
    width and the area as [size_t], which cannot be negative. *)
Definition index_of (r : rect) (pt : point) : outcome Z :=
  if negb (rect_contains r pt) then Throws
  else
    let* rows := extract (py pt - top r) in
    let* width := extract (right r - left r) in
    let* rows := extract (rows * width) in
    let* at_x := extract (rows + px pt) in
    extract (at_x - left r).

Definition as_size (z : Z) : outcome Z := if (0 <=? z) && (z <? 2 ^ 64) then Done z else Throws.
Definition point_at (r : rect) (index : Z) : outcome point :=
  let* w := extract (right r - left r) in
  let* width := as_size w in
  let* h := extract (bottom r - top r) in
  let* area := extract (h * width) in
  let* area := as_size area in
  if index >=? area then Throws
  else Done (mk_point (left r + index mod width) (top r + index / width)).

(** [_rectangle_const_iterator::operator++]. *)
Definition rect_next (r : rect) (current : point) : outcome point :=
  let* nextX := extract (px current + 1) in
  if nextX >=? right r then
    let* nextY := extract (py current + 1) in
    Done (mk_point (left r) nextY)
  else Done (mk_point nextX (py current)).
Definition rect_begin (r : rect) : point := mk_point (left r) (top r).
Definition rect_end (r : rect) : point := mk_point (left r) (bottom r).

(** The points a loop from the beginning to the end visits. *)
Fixpoint rect_loop (fuel : nat) (r : rect) (current : point) : outcome (list point) :=
  if point_eqb current (rect_end r) then Done []
  else match fuel with
  | O => Undefined
  | S fuel =>
      let* next := rect_next r current in
      let* rest := rect_loop fuel r next in
      Done (current :: rest)
  end.

(** ** Viewports *)

(** [_sr], a [til::inclusive_rect]. *)
Record Viewport := mk_Viewport { sr_left : Z; sr_top : Z; sr_right : Z; sr_bottom : Z }.

Definition Viewport_Empty : Viewport := mk_Viewport 0 0 (-1) (-1).
Definition FromInclusive (l t r b : Z) : Viewport := mk_Viewport l t r b.
Definition FromExclusive (sr : rect) : Viewport := FromInclusive (left sr) (top sr) (right sr - 1) (bottom sr - 1).
Definition FromDimensions (origin : point) (width height : Z) : Viewport :=
  mk_Viewport (px origin) (py origin) (px origin + width - 1) (py origin + height - 1).

Module View.
Definition Left (v : Viewport) : Z := sr_left v.
Definition RightInclusive (v : Viewport) : Z := sr_right v.
Definition RightExclusive (v : Viewport) : Z := sr_right v + 1.
Definition Top (v : Viewport) : Z := sr_top v.
Definition BottomInclusive (v : Viewport) : Z := sr_bottom v.
Definition BottomExclusive (v : Viewport) : Z := sr_bottom v + 1.
Definition Height (v : Viewport) : Z := BottomExclusive v - Top v.
Definition Width (v : Viewport) : Z := RightExclusive v - Left v.
Definition Origin (v : Viewport) : point := mk_point (Left v) (Top v).
Definition BottomRightInclusive (v : Viewport) : point := mk_point (RightInclusive v) (BottomInclusive v).
Definition BottomRightExclusive (v : Viewport) : point := mk_point (RightExclusive v) (BottomExclusive v).
Definition BottomInclusiveRightExclusive (v : Viewport) : point := mk_point (RightExclusive v) (BottomInclusive v).
Definition EndExclusive (v : Viewport) : point := mk_point (Left v) (BottomExclusive v).

(** [inclusive_rect::operator bool]. *)
Definition IsValid (v : Viewport) : bool := (sr_left v >=? 0) && (sr_top v >=? 0) && (sr_right v >=? sr_left v) && (sr_bottom v >=? sr_top v).
Definition eqb (v w : Viewport) : bool :=
  (sr_left v =? sr_left w) && (sr_top v =? sr_top w) && (sr_right v =? sr_right w) && (sr_bottom v =? sr_bottom w).

Definition IsInBounds (v : Viewport) (pos : point) (allowEndExclusive : bool) : bool :=
  (allowEndExclusive && point_eqb pos (EndExclusive v)) ||
  ((px pos >=? Left v) && (px pos <? RightExclusive v) && (py pos >=? Top v) && (py pos <? BottomExclusive v)).
Definition ViewportIsInBounds (v other : Viewport) : bool :=
  (Left other >=? Left v) && (Left other <=? RightInclusive v) &&
  (RightInclusive other >=? Left v) && (RightInclusive other <=? RightInclusive v) &&
  (Top other >=? Top v) && (Top other <=? BottomInclusive other) &&
  (BottomInclusive other >=? Top v) && (BottomInclusive other <=? BottomInclusive v).
Definition IsInExclusiveBounds (v : Viewport) (pos : point) : bool :=
  (px pos >=? Left v) && (px pos <=? RightExclusive v) && (py pos >=? Top v) && (py pos <=? BottomInclusive v).

Definition ToExclusive (v : Viewport) : rect := mk_rect (Left v) (Top v) (RightExclusive v) (BottomExclusive v).
Definition ToInclusive (v : Viewport) : Viewport := mk_Viewport (Left v) (Top v) (RightInclusive v) (BottomInclusive v).

Definition Clamp (v : Viewport) (pos : point) : outcome point :=
  if negb (IsValid v) then Throws
  else Done (mk_point (clamp (px pos) (Left v) (RightInclusive v)) (clamp (py pos) (Top v) (BottomInclusive v))).
Definition ViewportClamp (v other : Viewport) : Viewport := FromExclusive (rect_and (ToExclusive v) (ToExclusive other)).

Definition CompareInBounds (v : Viewport) (first second : point) : Z :=
  (py first - py second) * Width v + (px first - px second).
Definition CompareInExclusiveBounds (v : Viewport) (first second : point) : Z :=
  (py first - py second) * Width v + (px first - px second).

(** The walk over [w] columns up to the offset [max]. *)
Definition walk (v : Viewport) (w max : Z) (pos : point) (delta : Z) : outcome (bool * point) :=
  let off := w * (py pos - sr_top v) + (px pos - sr_left v) + delta in
  if (max <? 0) || (w =? 0) then Undefined
  else
    let offClamped := clamp off 0 max in
    Done (off =? offClamped, mk_point (Z.rem offClamped w + sr_left v) (Z.quot offClamped w + sr_top v)).
Definition WalkInBounds (v : Viewport) (pos : point) (delta : Z) (allowEndExclusive : bool) : outcome (bool * point) :=
  let w := Z.max 0 (sr_right v - sr_left v + 1) in
  let h := Z.max 0 (sr_bottom v - sr_top v + 1) in
  walk v w (w * h - if allowEndExclusive then 0 else 1) pos delta.
Definition WalkInExclusiveBounds (v : Viewport) (pos : point) (delta : Z) : outcome (bool * point) :=
  let w := Z.max 0 (sr_right v - sr_left v + 2) in
  let h := Z.max 0 (sr_bottom v - sr_top v + 1) in
  walk v w (w * h) pos delta.
Definition IncrementInBounds (v : Viewport) (pos : point) (allow : bool) : outcome (bool * point) := WalkInBounds v pos 1 allow.
Definition DecrementInBounds (v : Viewport) (pos : point) (allow : bool) : outcome (bool * point) := WalkInBounds v pos (-1) allow.
Definition IncrementInExclusiveBounds (v : Viewport) (pos : point) : outcome (bool * point) := WalkInExclusiveBounds v pos 1.
Definition DecrementInExclusiveBounds (v : Viewport) (pos : point) : outcome (bool * point) := WalkInExclusiveBounds v pos (-1).

Definition GetWalkOrigin (v : Viewport) (delta : Z) : point :=
  mk_point (if delta >=? 0 then Left v else RightInclusive v) (if delta >=? 0 then Top v else BottomInclusive v).
Definition DetermineWalkDirection (source target : Viewport) : Z := if point_ltb (Origin target) (Origin source) then 1 else -1.

Definition TrimToViewport (v : Viewport) (r : rect) : bool * rect :=
  let r := mk_rect (Z.max (left r) (Left v)) (Z.max (top r) (Top v)) (Z.min (right r) (RightExclusive v)) (Z.min (bottom r) (BottomExclusive v)) in
  ((left r <? right r) && (top r <? bottom r), r).

Definition ConvertRectToOrigin (v : Viewport) (r : rect) : rect :=
  mk_rect (left r - Left v) (top r - Top v) (right r - Left v) (bottom r - Top v).
Definition ConvertPointToOrigin (v : Viewport) (p : point) : point := mk_point (px p - Left v) (py p - Top v).
Definition ConvertPointFromOrigin (v : Viewport) (p : point) : point := mk_point (px p + Left v) (py p + Top v).
Definition ConvertToOrigin (v other : Viewport) : Viewport :=
  mk_Viewport (sr_left other - Left v) (sr_top other - Top v) (sr_right other - Left v) (sr_bottom other - Top v).
Definition ConvertFromOrigin (v other : Viewport) : Viewport :=
  mk_Viewport (sr_left other + Left v) (sr_top other + Top v) (sr_right other + Left v) (sr_bottom other + Top v).
Definition ToOrigin (v : Viewport) : Viewport := ConvertToOrigin v v.
Definition Offset (original : Viewport) (delta : point) : Viewport :=
  mk_Viewport (sr_left original + px delta) (sr_top original + py delta) (sr_right original + px delta) (sr_bottom original + py delta).

Definition Union (lhs rhs : Viewport) : Viewport :=
  if negb (IsValid lhs) && negb (IsValid rhs) then Viewport_Empty
  else if negb (IsValid lhs) then rhs
  else if negb (IsValid rhs) then lhs
  else mk_Viewport (Z.min (Left lhs) (Left rhs)) (Z.min (Top lhs) (Top rhs))
         (Z.max (RightInclusive lhs) (RightInclusive rhs)) (Z.max (BottomInclusive lhs) (BottomInclusive rhs)).

Definition Intersect (lhs rhs : Viewport) : Viewport :=
  let intersection := mk_Viewport (Z.max (Left lhs) (Left rhs)) (Z.max (Top lhs) (Top rhs))
    (Z.min (RightInclusive lhs) (RightInclusive rhs)) (Z.min (BottomInclusive lhs) (BottomInclusive rhs)) in
  if negb (IsValid intersection) then Viewport_Empty else intersection.

Definition Subtract (original removeMe : Viewport) : list Viewport :=
  let intersection := Intersect original removeMe in
  if negb (IsValid original) then []
  else if negb (IsValid intersection) then [original]
  else if eqb original intersection then []
  else filter (fun x => IsValid x = true)
    [mk_Viewport (Left original) (Top original) (RightInclusive original) (Top intersection - 1);
     mk_Viewport (Left original) (BottomExclusive intersection) (RightInclusive original) (BottomInclusive original);
     mk_Viewport (Left original) (Top intersection) (Left intersection - 1) (BottomInclusive intersection);
     mk_Viewport (RightExclusive intersection) (Top intersection) (RightInclusive original) (BottomInclusive intersection)].
End View.

(** * What the geometry computes

    A subtraction covers every remaining cell once, a walk moves through the
    cells in reading order, a loop over a rectangle visits its cells in the
    order of their indices, and scaling down finds the cells that are
    touched. *)

From Stdlib Require Import ZifyBool.
Import View.
Implicit Types (v o : Viewport) (p q : point).

(** ** Subtraction *)

Definition inside v p : bool := IsInBounds v p false.

(** How many of the viewports a cell is in. *)
Definition covered (vs : list Viewport) p : Z := foldr (fun v n => Z.b2z (inside v p) + n) 0 vs.

Lemma inside_bounds v p : inside v p = (sr_left v <=? px p) && (px p <=? sr_right v) && (sr_top v <=? py p) && (py p <=? sr_bottom v).
Proof. unfold inside, IsInBounds, Left, Top, RightExclusive, BottomExclusive. cbn [andb orb]. lia. Qed.

Lemma valid_bounds v : IsValid v = true <-> 0 <= sr_left v /\ 0 <= sr_top v /\ sr_left v <= sr_right v /\ sr_top v <= sr_bottom v.
Proof. unfold IsValid. lia. Qed.

(** A viewport without area has no cells, so it can be left out. *)
Lemma covered_valid vs p : Forall (fun v => 0 <= sr_left v /\ 0 <= sr_top v) vs -> covered (filter (fun x => IsValid x = true) vs) p = covered vs p.
Proof.
  induction 1 as [|v vs [Hl Ht] _ IH]; [done|]. rewrite filter_cons. change (covered (v :: vs) p) with (Z.b2z (inside v p) + covered vs p). rewrite <- IH.
  destruct (decide (IsValid v = true)) as [|Hv]; [done|]. assert (inside v p = false) as ->; [|done]. rewrite inside_bounds. unfold IsValid in Hv. lia.
Qed.

Lemma valid_kept vs : Forall (fun v => IsValid v = true) (filter (fun x => IsValid x = true) vs).
Proof. induction vs as [|v vs IH]; [done|]. rewrite filter_cons. destruct (decide (IsValid v = true)); [by constructor|done]. Qed.

(** The columns on both sides of a bound, and the rows. *)
Lemma split_bounds x l r l' r' : l <= r -> Z.max l l' <= Z.min r r' ->
  let a1 := l <=? x in let a2 := x <=? r in let a3 := l' <=? x in let a4 := x <=? r' in
  (x <=? Z.max l l' - 1) = negb (a1 && a3) /\ (Z.min r r' + 1 <=? x) = negb (a2 && a4) /\
  (Z.max l l' <=? x) = a1 && a3 /\ (x <=? Z.min r r') = a2 && a4 /\ (a1 || a2) && (a3 || a4) && (a1 || a4) && (a3 || a2) = true.
Proof. intros ?? a1 a2 a3 a4. subst a1 a2 a3 a4. split_and!; lia. Qed.

Lemma four_parts l t r b l' t' r' b' p (il := Z.max l l') (it := Z.max t t') (ir := Z.min r r') (ib := Z.min b b') :
  l <= r -> t <= b -> il <= ir -> it <= ib ->
  covered [mk_Viewport l t r (it - 1); mk_Viewport l (ib + 1) r b; mk_Viewport l it (il - 1) ib; mk_Viewport (ir + 1) it r ib] p
  = Z.b2z (inside (mk_Viewport l t r b) p && negb (inside (mk_Viewport l' t' r' b') p)).
Proof.
  intros. cbn [covered foldr]. rewrite !inside_bounds. cbn [sr_left sr_top sr_right sr_bottom]. subst il it ir ib.
  destruct (split_bounds (px p) l r l' r') as (A1 & A2 & A3 & A4 & A); [done..|]. destruct (split_bounds (py p) t b t' b') as (B1 & B2 & B3 & B4 & B); [done..|].
  rewrite A1, A2, B1, B2, B3, B4. clear A1 A2 A3 A4 B1 B2 B3 B4.
  destruct (l <=? px p), (px p <=? r), (l' <=? px p), (px p <=? r'); try discriminate A;
    destruct (t <=? py p), (py p <=? b), (t' <=? py p), (py p <=? b'); try discriminate B; reflexivity.
Qed.

Lemma intersect_cases o v : IsValid o = true ->
  (IsValid (Intersect o v) = false /\ (Z.min (sr_right o) (sr_right v) < Z.max (sr_left o) (sr_left v) \/ Z.min (sr_bottom o) (sr_bottom v) < Z.max (sr_top o) (sr_top v))) \/
  (Intersect o v = mk_Viewport (Z.max (sr_left o) (sr_left v)) (Z.max (sr_top o) (sr_top v)) (Z.min (sr_right o) (sr_right v)) (Z.min (sr_bottom o) (sr_bottom v)) /\
   IsValid (Intersect o v) = true).
Proof.
  rewrite valid_bounds. intros Ho. unfold Intersect, Left, Top, RightInclusive, BottomInclusive. set (i := mk_Viewport _ _ _ _).
  destruct (IsValid i) eqn:E; cbn [negb]; [by right|]. left. split; [done|]. unfold IsValid in E. cbn in E. lia.
Qed.

(** The class and the rectangles of [til] subtract alike. *)
Lemma subtractions_agree o v : IsValid o = true -> Subtract o v = map FromExclusive (rect_sub (ToExclusive o) (ToExclusive v)).
Proof.
  intros Ho. pose proof (intersect_cases o v Ho) as Hi. unfold Subtract. rewrite Ho. cbn [negb]. apply valid_bounds in Ho.
  unfold rect_sub, rect_and, ToExclusive, Left, Top, RightExclusive, BottomExclusive in *. cbn [left top right bottom].
  destruct Hi as [[-> Hi]|[Hi Hv]].
  - cbn [negb]. destruct (Z.geb_spec (Z.max (sr_left o) (sr_left v)) (Z.min (sr_right o + 1) (sr_right v + 1))).
    + cbn. destruct o. cbn. unfold FromExclusive, FromInclusive. cbn. repeat f_equal; lia.
    + destruct (Z.geb_spec (Z.max (sr_top o) (sr_top v)) (Z.min (sr_bottom o + 1) (sr_bottom v + 1))); [|lia].
      cbn. destruct o. cbn. unfold FromExclusive, FromInclusive. cbn. repeat f_equal; lia.
  - rewrite Hv. apply valid_bounds in Hv. rewrite Hi in *. cbn [negb sr_left sr_top sr_right sr_bottom] in *.
    destruct (Z.geb_spec (Z.max (sr_left o) (sr_left v)) (Z.min (sr_right o + 1) (sr_right v + 1))); [lia|].
    destruct (Z.geb_spec (Z.max (sr_top o) (sr_top v)) (Z.min (sr_bottom o + 1) (sr_bottom v + 1))); [lia|].
    unfold rect_empty, rect_bool at 1, eqb, rect_eqb, RightInclusive, BottomInclusive. cbn [left top right bottom sr_left sr_top sr_right sr_bottom].
    rewrite (proj2 (Z.geb_le _ 0)), (proj2 (Z.geb_le _ 0)), (proj2 (Z.gtb_lt _ _)), (proj2 (Z.gtb_lt _ _)) by lia. cbn [andb negb].
    replace (sr_right o + 1 =? _) with (sr_right o =? Z.min (sr_right o) (sr_right v)) by lia.
    replace (sr_bottom o + 1 =? _) with (sr_bottom o =? Z.min (sr_bottom o) (sr_bottom v)) by lia.
    destruct (_ && _); [done|].
    assert (Hf : forall rs, filter (fun x => IsValid x = true) (map FromExclusive rs) = map FromExclusive (filter (fun x => rect_bool x = true) rs)).
    { induction rs as [|r rs IH]; [done|]. cbn [map]. rewrite !filter_cons, IH. assert (IsValid (FromExclusive r) = rect_bool r) as ->; [|by destruct (decide (rect_bool r = true))].
      unfold IsValid, rect_bool, FromExclusive, FromInclusive. cbn. lia. }
    rewrite <- Hf. f_equal. unfold FromExclusive, FromInclusive. cbn. repeat f_equal; lia.
Qed.

(** C28: taking one viewport out of another leaves viewports that have area,
    do not overlap, and together hold exactly the cells of the first that are
    not in the second. *)
Theorem viewport_subtract_exact o v p : IsValid o = true ->
  Forall (fun x => IsValid x = true) (Subtract o v) /\ covered (Subtract o v) p = Z.b2z (inside o p && negb (inside v p)).
Proof.
  intros Ho. pose proof (proj1 (valid_bounds o) Ho) as Hb. unfold Subtract. rewrite Ho. cbn [negb]. destruct (intersect_cases o v Ho) as [[-> Hi]|[Hi Hv]]; cbn [negb].
  - split; [by repeat constructor|]. cbn [covered foldr]. rewrite Z.add_0_r. destruct (inside v p) eqn:E, (inside o p) eqn:F; try done. rewrite inside_bounds in E, F. exfalso. lia.
  - rewrite Hv. pose proof (proj1 (valid_bounds _) Hv) as Hvb. rewrite Hi in *. cbn [sr_left sr_top sr_right sr_bottom negb] in *. destruct (eqb o _) eqn:E.
    + split; [constructor|]. cbn [covered foldr]. unfold eqb in E. cbn in E. destruct (inside v p) eqn:V, (inside o p) eqn:F; try done. rewrite inside_bounds in V, F. exfalso. lia.
    + split; [apply valid_kept|]. unfold Left, Top, RightInclusive, BottomInclusive, RightExclusive, BottomExclusive. cbn [sr_left sr_top sr_right sr_bottom].
      rewrite covered_valid by (repeat constructor; cbn; lia). rewrite four_parts by lia. by destruct o, v.
Qed.

(** ** Walking *)

(** The distance of a cell from the origin, over rows of [w] columns. *)
Definition offset_in v (w : Z) p : Z := w * (py p - sr_top v) + (px p - sr_left v).

Lemma walk_moves v w max p d : 0 < w -> 0 <= max -> exists q, walk v w max p d = Done (offset_in v w p + d =? offset_in v w q, q) /\
  offset_in v w q = clamp (offset_in v w p + d) 0 max /\ sr_left v <= px q < sr_left v + w.
Proof.
  intros Hw Hm. unfold walk. rewrite (proj2 (Z.ltb_ge _ 0)), (proj2 (Z.eqb_neq _ 0)) by lia. cbn [orb]. fold (offset_in v w p). set (c := clamp _ _ _).
  assert (Hc : 0 <= c <= max) by (unfold c, clamp; destruct (Z.ltb_spec (offset_in v w p + d) 0), (Z.gtb_spec (offset_in v w p + d) max); lia).
  pose proof (Z.quot_rem c w ltac:(lia)). pose proof (Z.rem_bound_pos c w ltac:(lia) Hw). pose proof (Z.quot_pos c w ltac:(lia) Hw).
  eexists. assert (Ho : offset_in v w (mk_point (Z.rem c w + sr_left v) (Z.quot c w + sr_top v)) = c) by (unfold offset_in; cbn; lia).
  split; [|split; [exact Ho|cbn; lia]]. by rewrite Ho.
Qed.

(** A cell is known by its distance. *)
Lemma offset_injective v w p q : sr_left v <= px p < sr_left v + w -> sr_left v <= px q < sr_left v + w -> offset_in v w p = offset_in v w q -> p = q.
Proof.
  unfold offset_in. destruct p as [x1 y1], q as [x2 y2]. cbn. intros H1 H2 E.
  assert (y1 = y2) as ->; [|f_equal; lia]. assert (w * (y1 - y2) = x2 - x1) by lia. assert (- w < w * (y1 - y2) < w) by lia. nia.
Qed.

Lemma bounds_offset v p allow (w := Width v) : IsValid v = true -> sr_left v <= px p < sr_left v + w ->
  IsInBounds v p allow = true <-> 0 <= offset_in v w p <= w * Height v - (if allow then 0 else 1).
Proof.
  rewrite valid_bounds. unfold w, IsInBounds, point_eqb, EndExclusive, offset_in, Width, Height, Left, Top, RightExclusive, BottomExclusive. cbn.
  intros Hv Hx. set (W := sr_right v + 1 - sr_left v). set (y := py p - sr_top v). set (H := sr_bottom v + 1 - sr_top v).
  assert (0 < W /\ 0 < H) by lia. destruct allow; cbn [andb orb].
  - split; [intros [?|?]%orb_prop; nia|]. intros. destruct (Z.lt_trichotomy y H) as [|[|]]; [|assert (px p = sr_left v) by nia; lia|nia].
    assert (0 <= y) by nia. lia.
  - split; [intros; nia|]. intros. assert (0 <= y < H) by nia. lia.
Qed.

Lemma in_bounds_columns v p allow : IsValid v = true -> IsInBounds v p allow = true -> sr_left v <= px p < sr_left v + Width v.
Proof.
  rewrite valid_bounds. unfold IsInBounds, point_eqb, EndExclusive, Width, Left, Top, RightExclusive, BottomExclusive. cbn. destruct allow; lia.
Qed.

(** C27: a walk through a viewport moves in reading order by as many cells as
    asked for, stops at the first and the last cell, never leaves the
    viewport, and tells whether it went the whole way; a walk that did is
    undone by the same walk back. *)
Theorem viewport_walk v p (d : Z) (allow : bool) (last := Width v * Height v - (if allow then 0 else 1)) (at_ := CompareInBounds v p (Origin v)) :
  IsValid v = true -> IsInBounds v p allow = true -> exists ok q, WalkInBounds v p d allow = Done (ok, q) /\ IsInBounds v q allow = true /\
    CompareInBounds v q p = clamp (at_ + d) 0 last - at_ /\ ok = (CompareInBounds v q p =? d) /\
    (ok = true -> WalkInBounds v q (- d) allow = Done (true, p)).
Proof.
  intros Hv Hp. pose proof (in_bounds_columns _ _ _ Hv Hp) as Hx. pose proof (proj1 (bounds_offset _ _ _ Hv Hx) Hp) as Ho. pose proof (proj1 (valid_bounds v) Hv) as Hb.
  assert (Hw : 0 < Width v /\ 0 < Height v) by (unfold Width, Height, RightExclusive, BottomExclusive, Left, Top; lia).
  assert (Hat : at_ = offset_in v (Width v) p) by (unfold at_, CompareInBounds, offset_in, Origin; cbn; unfold Left, Top; lia).
  assert (Hcmp : forall q, CompareInBounds v q p = offset_in v (Width v) q - offset_in v (Width v) p) by (intros; unfold CompareInBounds, offset_in; lia).
  assert (Hrun : forall q e, WalkInBounds v q e allow = walk v (Width v) last q e).
  { intros. unfold WalkInBounds, last. rewrite !Z.max_r by lia. unfold Width, Height, RightExclusive, BottomExclusive, Left, Top. f_equal; try lia. }
  assert (Hl : 0 <= last) by (unfold last; destruct allow; nia). rewrite Hat. rewrite Hrun. destruct (walk_moves v (Width v) last p d) as (q & -> & Hq & Hxq); [lia..|].
  do 2 eexists. split; [reflexivity|]. split; [|split; [rewrite Hcmp, Hq; lia|split; [rewrite Hcmp; lia|]]].
  { apply (bounds_offset _ _ _ Hv Hxq). rewrite Hq. fold last. unfold clamp. destruct (Z.ltb_spec (offset_in v (Width v) p + d) 0), (Z.gtb_spec (offset_in v (Width v) p + d) last); lia. }
  intros Hok%Z.eqb_eq. rewrite Hrun. destruct (walk_moves v (Width v) last q (- d)) as (p' & -> & Hp' & Hxp); [lia..|].
  assert (offset_in v (Width v) p' = offset_in v (Width v) p) as E.
  { rewrite Hp', <- Hok. unfold clamp. destruct (Z.ltb_spec (offset_in v (Width v) p + d + - d) 0), (Z.gtb_spec (offset_in v (Width v) p + d + - d) last); unfold last in *; lia. }
  rewrite (offset_injective _ _ _ _ Hxp Hx E). do 2 f_equal. apply Z.eqb_eq. lia.
Qed.

(** The bound of the walk with exclusive ends is one too far: the walk from
    the last position succeeds and leaves the bounds. *)
Theorem exclusive_walk_leaves (v := mk_Viewport 0 0 9 4) (last := BottomInclusiveRightExclusive v) :
  IsInExclusiveBounds v last = true /\ IncrementInExclusiveBounds v last = Done (true, mk_point 0 5) /\ IsInExclusiveBounds v (mk_point 0 5) = false.
Proof. by split_and!. Qed.

(** ** The cells of a rectangle *)

(** A rectangle with area whose cells can be counted in a [CoordType]. *)
Record countable (r : rect) : Prop := {
  co_left : 0 <= left r;
  co_top : 0 <= top r;
  co_width : left r < right r;
  co_height : top r < bottom r;
  co_area : (bottom r - top r) * (right r - left r) + right r < 2 ^ 31;
  co_bottom : bottom r < 2 ^ 31;
}.

Lemma extract_small z : 0 <= z < 2 ^ 31 -> extract z = Done z.
Proof. intros. unfold extract. by rewrite (proj2 (Z.leb_le _ _)), (proj2 (Z.ltb_lt _ _)) by lia. Qed.

Section Cells.
Context (r : rect) (Hr : countable r).
#[local] Abbreviation w := (right r - left r).
#[local] Abbreviation h := (bottom r - top r).

(** The cell with an index. *)
Definition cell (i : Z) : point := mk_point (left r + i mod w) (top r + i / w).

Lemma point_at_cell i : 0 <= i < h * w -> point_at r i = Done (cell i).
Proof using Hr.
  intros Hi. destruct Hr. unfold point_at, as_size. assert (0 <= h * w) by nia. rewrite (extract_small w) by nia. cbn [obind].
  rewrite (proj2 (Z.leb_le 0 w)), (proj2 (Z.ltb_lt w _)) by lia. cbn [andb obind]. rewrite (extract_small h) by nia. cbn [obind].
  rewrite (extract_small (h * w)) by lia. cbn [obind]. rewrite (proj2 (Z.leb_le 0 _)), (proj2 (Z.ltb_lt (h * w) _)) by lia. cbn [andb obind].
  by rewrite Z.geb_leb, (proj2 (Z.leb_gt _ _)) by lia.
Qed.

Lemma cell_contained i : 0 <= i < h * w -> rect_contains r (cell i) = true.
Proof using Hr.
  intros Hi. destruct Hr. pose proof (Z.mod_pos_bound i w ltac:(lia)). assert (0 <= i / w < h) by (split; [apply Z.div_pos; lia|apply Z.div_lt_upper_bound; lia]).
  unfold rect_contains, cell. cbn. lia.
Qed.

Lemma index_of_cell i : 0 <= i < h * w -> index_of r (cell i) = Done i.
Proof using Hr.
  intros Hi. unfold index_of. rewrite cell_contained by done. cbn [negb]. destruct Hr. pose proof (Z.mod_pos_bound i w ltac:(lia)). pose proof (Z.div_mod i w ltac:(lia)).
  assert (0 <= i / w < h) by (split; [apply Z.div_pos; lia|apply Z.div_lt_upper_bound; lia]). unfold cell. cbn [px py].
  replace (top r + i / w - top r) with (i / w) by lia. rewrite (extract_small (i / w)), (extract_small w) by nia. cbn [obind].
  rewrite (extract_small (i / w * w)) by nia. cbn [obind]. rewrite (extract_small (_ + _)) by lia. cbn [obind]. rewrite extract_small by lia. f_equal. lia.
Qed.

Lemma cell_of p : rect_contains r p = true -> exists i, 0 <= i < h * w /\ p = cell i.
Proof using Hr.
  unfold rect_contains. intros Hp. destruct Hr, p as [x y]. cbn in Hp. exists (x - left r + (y - top r) * w). split; [nia|]. unfold cell.
  rewrite Z.mod_add, Z.div_add, Z.mod_small, Z.div_small by lia. f_equal; lia.
Qed.

Lemma next_cell i : 0 <= i < h * w -> rect_next r (cell i) = Done (cell (i + 1)).
Proof using Hr.
  intros Hi. destruct Hr. pose proof (Z.mod_pos_bound i w ltac:(lia)). pose proof (Z.div_mod i w ltac:(lia)).
  assert (0 <= i / w < h) by (split; [apply Z.div_pos; lia|apply Z.div_lt_upper_bound; lia]). unfold rect_next, cell. cbn [px py].
  rewrite (extract_small (_ + _ + 1)) by nia. cbn [obind]. destruct (Z.geb_spec (left r + i mod w + 1) (right r)).
  - rewrite extract_small by lia. cbn [obind]. assert (Hn : i + 1 = (i / w + 1) * w) by lia. rewrite Hn, Z.mod_mul, Z.div_mul by lia. do 2 f_equal; lia.
  - assert (Hn : i + 1 = i mod w + 1 + i / w * w) by lia. rewrite Hn, Z.mod_add, Z.div_add, (Z.mod_small (_ + 1)), (Z.div_small (_ + 1)) by lia. do 2 f_equal; lia.
Qed.

Lemma end_cell i : 0 <= i <= h * w -> point_eqb (cell i) (rect_end r) = (i =? h * w).
Proof using Hr.
  intros Hi. destruct Hr. unfold point_eqb, rect_end, cell. cbn [px py]. destruct (Z.eqb_spec i (h * w)) as [->|].
  - rewrite Z.mod_mul, Z.div_mul by lia. lia.
  - assert (i / w < h) by (apply Z.div_lt_upper_bound; lia). lia.
Qed.
End Cells.

(** A loop over a rectangle visits every cell of it once, in the order
    of the indices; the index of a cell and the cell at an index are inverse
    to each other. *)
Theorem rect_iterated r (n := (bottom r - top r) * (right r - left r)) : countable r ->
  exists cells, rect_loop (Z.to_nat n) r (rect_begin r) = Done cells /\ Z.of_nat (length cells) = n /\
    (forall i p, cells !! i = Some p -> point_at r (Z.of_nat i) = Done p /\ index_of r p = Done (Z.of_nat i)) /\
    (forall p, rect_contains r p = true <-> p ∈ cells).
Proof.
  intros Hr. pose proof Hr as []. assert (Hn : 0 < n) by nia.
  assert (Hloop : forall k i, (i + k = Z.to_nat n)%nat -> rect_loop k r (cell r (Z.of_nat i)) = Done (map (fun j => cell r (Z.of_nat j)) (seq i k))).
  { induction k as [|k IH]; intros i Hi; cbn [rect_loop seq map]; rewrite end_cell by (done || unfold n in *; lia); fold n.
    - by rewrite (proj2 (Z.eqb_eq _ _)) by lia.
    - rewrite (proj2 (Z.eqb_neq _ _)) by lia. rewrite next_cell by (done || unfold n in *; lia). cbn [obind]. replace (Z.of_nat i + 1) with (Z.of_nat (S i)) by lia.
      by rewrite IH by lia. }
  assert (rect_begin r = cell r (Z.of_nat 0)) as ->.
  { unfold rect_begin, cell. change (Z.of_nat 0) with 0. rewrite Z.mod_0_l, Z.div_0_l by lia. f_equal; lia. }
  eexists. split; [apply Hloop; lia|]. split; [rewrite length_map, length_seq; lia|]. split.
  - intros i p. rewrite list_lookup_fmap. destruct (seq 0 (Z.to_nat n) !! i) eqn:E; [|done]. apply lookup_seq in E as [-> Hlt]. intros [= <-].
    split; [apply point_at_cell|apply index_of_cell]; done || unfold n in *; lia.
  - intros p. rewrite list_elem_of_fmap. split.
    + intros (i & Hi & ->)%(cell_of r Hr). exists (Z.to_nat i). split; [f_equal; lia|]. apply elem_of_seq. unfold n. lia.
    + intros (i & -> & Hi%elem_of_seq). apply cell_contained; [done|]. unfold n in *. lia.
Qed.

(** A rectangle without columns has no cells, and still a loop over it visits
    one position for each of its rows. *)
Theorem empty_rect_iterated (r := mk_rect 3 0 3 2) :
  rect_loop 2 r (rect_begin r) = Done [mk_point 3 0; mk_point 3 1] /\ rect_contains r (mk_point 3 0) = false.
Proof. done. Qed.

(** ** Scaling *)

Lemma ceil_div_above a b x : 0 <= a -> 0 < b -> 0 <= x -> x < ceil_div a b <-> x * b < a.
Proof.
  intros Ha Hb Hx. unfold ceil_div. destruct (Z.eqb_spec a 0) as [->|]; [nia|]. rewrite Z.quot_div_nonneg by lia.
  pose proof (Z.div_mod (a - 1) b ltac:(lia)). pose proof (Z.mod_pos_bound (a - 1) b Hb). nia.
Qed.

(** One direction: the cells whose pixels reach into an interval. *)
Lemma scaled_interval lo hi b x : 0 <= lo -> lo < hi -> 0 < b -> 0 <= x ->
  (Z.quot lo b <= x < ceil_div hi b) <-> exists k, lo <= k < hi /\ k / b = x.
Proof.
  intros Hl Hh Hb Hx. rewrite ceil_div_above, Z.quot_div_nonneg by lia. split.
  - intros [H1 H2]. exists (Z.max lo (x * b)). split; [lia|]. destruct (Z.le_gt_cases lo (x * b)).
    + rewrite Z.max_r, Z.div_mul by lia. done.
    + rewrite Z.max_l by lia. apply Z.le_antisymm; [done|]. apply Z.div_le_lower_bound; lia.
  - intros (k & Hk & <-). split; [apply Z.div_le_mono; lia|]. pose proof (Z.mul_div_le k b Hb). lia.
Qed.

(** Scaling a rectangle of pixels down gives exactly the cells that one
    of its pixels falls into, and undoes scaling up. *)
Theorem scale_down_exact r w h x y : rect_bool r = true -> 0 < w -> 0 < h -> 0 <= x -> 0 <= y ->
  exists s, scale_down r w h = Done s /\
    (rect_contains s (mk_point x y) = true <-> exists p, rect_contains r p = true /\ px p / w = x /\ py p / h = y) /\
    (forall up, scale_up r w h = Done up -> scale_down up w h = Done r).
Proof.
  unfold rect_bool. intros Hr Hw Hh Hx Hy. unfold scale_down at 1. replace (_ || _) with false by lia. eexists. split; [reflexivity|]. split.
  - pose proof (scaled_interval (left r) (right r) w x ltac:(lia) ltac:(lia) Hw Hx) as Ix. pose proof (scaled_interval (top r) (bottom r) h y ltac:(lia) ltac:(lia) Hh Hy) as Iy.
    unfold rect_contains at 1. cbn [left top right bottom px py]. split.
    + intros Hc. destruct (proj1 Ix ltac:(lia)) as (i & Hi & Ei). destruct (proj1 Iy ltac:(lia)) as (j & Hj & Ej).
      exists (mk_point i j). split; [unfold rect_contains; cbn; lia|done].
    + intros ([i j] & Hc & Ei & Ej). unfold rect_contains in Hc. cbn in Hc, Ei, Ej.
      assert (Z.quot (left r) w <= x < ceil_div (right r) w) by (apply Ix; exists i; lia).
      assert (Z.quot (top r) h <= y < ceil_div (bottom r) h) by (apply Iy; exists j; lia). lia.
  - intros up. unfold scale_up, rect_combine, extract. repeat (case_match; cbn [obind]; try done). intros [= <-]. unfold scale_down. cbn [left top right bottom].
    assert (forall a b, 0 <= a -> 0 < b -> ceil_div (a * b) b = a) as Hc.
    { intros a b Ha Hb. unfold ceil_div. destruct (Z.eqb_spec (a * b) 0); [nia|]. rewrite Z.quot_div_nonneg by nia.
      replace (a * b - 1) with (b - 1 + (a - 1) * b) by lia. rewrite Z.div_add, Z.div_small by lia. lia. }
    replace (_ || _) with false by nia. rewrite !Hc, !Z.quot_mul by lia. by destruct r.
Qed.

(** ** On concrete input *)

Lemma viewport_subtract_exact_witness : covered (Subtract (mk_Viewport 0 0 9 9) (mk_Viewport 2 2 4 20)) (mk_point 3 1) = 1 /\
  covered (Subtract (mk_Viewport 0 0 9 9) (mk_Viewport 2 2 4 20)) (mk_point 3 5) = 0.
Proof.
  split; [exact (proj2 (viewport_subtract_exact (mk_Viewport 0 0 9 9) (mk_Viewport 2 2 4 20) (mk_point 3 1) eq_refl))|].
  exact (proj2 (viewport_subtract_exact (mk_Viewport 0 0 9 9) (mk_Viewport 2 2 4 20) (mk_point 3 5) eq_refl)).
Defined.

Lemma viewport_walk_witness : exists ok q, WalkInBounds (mk_Viewport 0 0 9 9) (mk_point 9 3) 1 false = Done (ok, q) /\ q = mk_point 0 4.
Proof.
  destruct (viewport_walk (mk_Viewport 0 0 9 9) (mk_point 9 3) 1 false eq_refl eq_refl) as (ok & q & E & _). exists ok, q. split; [exact E|]. injection E as _ <-. reflexivity.
Defined.

Lemma rect_iterated_witness : exists cells, rect_loop 6 (mk_rect 2 1 5 3) (mk_point 2 1) = Done cells /\ mk_point 4 2 ∈ cells.
Proof.
  destruct (rect_iterated (mk_rect 2 1 5 3)) as (cells & E & _ & _ & H); [split; cbn; lia|]. exists cells. split; [exact E|]. apply H. reflexivity.
Defined.

Lemma scale_down_exact_witness : exists s, scale_down (mk_rect 17 24 31 38) 5 10 = Done s /\ rect_contains s (mk_point 6 3) = true.
Proof.
  destruct (scale_down_exact (mk_rect 17 24 31 38) 5 10 6 3) as (s & E & H & _); [reflexivity|lia|lia|lia|lia|]. exists s. split; [exact E|]. apply H. exists (mk_point 30 37). split_and!; reflexivity.
Defined.
