(* ===== verification/TextBuffer.v ===== *)
(** * The text buffer

    The class [TextBuffer] of [buffer/out/textBuffer.cpp]: the storage of the
    rows, which is reserved as a whole and constructed on demand, the circular
    order of the rows on top of it, and the operations on rows.  [_rows] are
    the rows that are constructed, in the order of memory; the first of them
    is the scratchpad, and the watermark of the source is their number.  A
    reference to a row is its number.

    An exception ends an operation and loses the buffer.  Redrawing, image
    slices and failing allocations are left out, and coordinates are taken to
    be far from the limits of a [CoordType]. *)

From S2P Require Import Prelude StringUtils TermDispatch TextAttribute Rle Cursor Pages Graphemes Row RowWrite Hash Geometry.
#[local] Open Scope Z_scope.

Record TextBuffer := mk_TextBuffer {
  _rows : list ROW;
  _initialAttributes : TextAttribute;
  _currentAttributes : TextAttribute;
  _width : Z;
  _height : Z;
  _firstRow : Z;
  _lastMutationId : Z;
  _cursor : Cursor;
  _hyperlinkMap : list (Z * list Z);
  _hyperlinkCustomIdMap : list (list Z * Z);
  _currentHyperlinkId : Z;
}.

#[export] Instance TextBuffer_eta : Eta TextBuffer := fun b =>
  mk_TextBuffer (_rows b) (_initialAttributes b) (_currentAttributes b) (_width b) (_height b) (_firstRow b) (_lastMutationId b)
    (_cursor b) (_hyperlinkMap b) (_hyperlinkCustomIdMap b) (_currentHyperlinkId b).

#[export] Instance LineRendition_eq_dec : EqDecision LineRendition.
Proof. solve_decision. Defined.

Definition narrow_u16 (z : Z) : outcome Z := if (0 <=? z) && (z <? 65536) then Done z else Throws.

(** [std::to_wstring] of a [size_t], which has at most twenty digits. *)
Fixpoint decimal_digits (fuel : nat) (n : Z) (acc : list Z) : list Z :=
  match fuel with
  | O => acc
  | S fuel =>
      let acc := wchar "0" + n mod 10 :: acc in
      if n <? 10 then acc else decimal_digits fuel (n / 10) acc
  end.
Definition to_wstring (n : Z) : list Z := decimal_digits 20 n [].

Section Buffer.
Context (fallback : option (list Z -> option bool)) (garbage : nat -> Z) (isa : ISA).

(** ** Storage *)

(** The constructor, with [_reserve]. *)
Definition new_TextBuffer (width height : Z) (defaultAttributes : TextAttribute) (cursorSize lastMutationId : Z) : outcome TextBuffer :=
  let* w := narrow_u16 (Z.max width 1) in
  let* h := narrow_u16 (Z.max height 1) in
  Done (mk_TextBuffer [] defaultAttributes defaultAttributes w h 0 lastMutationId (new_Cursor cursorSize) [] [] 1).

(** The number of rows there is memory for. *)
Definition capacity (b : TextBuffer) : Z := _height b + 1.
Definition watermark (b : TextBuffer) : Z := Z.of_nat (length (_rows b)).
Definition _commitReadAheadRowCount : Z := 128.

(** Memory that was just committed is zero. *)
Definition construct_row (b : TextBuffer) : outcome ROW :=
  let zeros bytes := repeat 0 (Z.to_nat (bytes / 2)) in
  new_ROW isa (zeros (CalculateCharsBufferSize (_width b))) (zeros (CalculateCharOffsetsBufferSize (_width b))) (_width b) (_initialAttributes b).

Fixpoint _construct (count : nat) (b : TextBuffer) : outcome TextBuffer :=
  match count with
  | O => Done b
  | S count =>
      let* r := construct_row b in
      _construct count (b <| _rows := _rows b ++ [r] |>)
  end.

Definition _commit (row : Z) (b : TextBuffer) : outcome TextBuffer :=
  let remaining := capacity b - watermark b in
  let minimum := row + 1 - watermark b in
  let ideal := minimum + _commitReadAheadRowCount in
  _construct (Z.to_nat (Z.min remaining ideal)) b.

Definition _decommit (b : TextBuffer) : TextBuffer := b <| _rows := [] |>.

Definition _getRowByOffsetDirect (offset : Z) (b : TextBuffer) : outcome (TextBuffer * nat) :=
  if (offset <? 0) || (offset >=? capacity b) then Throws
  else
    let* b := if offset >=? watermark b then _commit offset b else Done b in
    Done (b, Z.to_nat offset).

Definition _getRow (y : Z) (b : TextBuffer) : outcome (TextBuffer * nat) :=
  let offset := Z.rem (_firstRow b + y) (_height b) in
  let offset := if offset <? 0 then offset + _height b else offset in
  _getRowByOffsetDirect (offset + 1) b.

Definition _estimateOffsetOfLastCommittedRow (b : TextBuffer) : Z := Z.max 0 (watermark b - 2).

(** A row that is only read. *)
Definition GetRowByOffset (index : Z) (b : TextBuffer) : outcome (TextBuffer * ROW) :=
  let* (b, i) := _getRow index b in
  let* r := deref (_rows b) i in
  Done (b, r).

Definition GetMutableRowByOffset (index : Z) (b : TextBuffer) : outcome (TextBuffer * nat) :=
  _getRow index (b <| _lastMutationId := u64 (_lastMutationId b + 1) |>).

Definition set_row (i : nat) (r : ROW) (b : TextBuffer) : TextBuffer := b <| _rows := <[i := r]> (_rows b) |>.

(** A change of a row in place. *)
Definition update_row (index : Z) (f : ROW -> outcome ROW) (b : TextBuffer) : outcome TextBuffer :=
  let* (b, i) := GetMutableRowByOffset index b in
  let* r := deref (_rows b) i in
  let* r := f r in
  Done (set_row i r b).

Definition GetScratchpadRow (attributes : TextAttribute) (b : TextBuffer) : outcome (TextBuffer * nat) :=
  let* (b, i) := _getRowByOffsetDirect 0 b in
  let* r := deref (_rows b) i in
  let* r := Row_Reset isa attributes r in
  Done (set_row i r b, i).

(** A row operation that reports an exception. *)
Definition or_throw {A} (res : A * bool) : outcome A := if snd res then Throws else Done (fst res).

(** ** Queries *)

Definition TotalRowCount (b : TextBuffer) : Z := _height b.
Definition GetFirstRowIndex (b : TextBuffer) : Z := _firstRow b.
Definition GetSize (b : TextBuffer) : Viewport := FromDimensions (mk_point 0 0) (_width b) (_height b).
Definition GetCursor (b : TextBuffer) : Cursor := _cursor b.
Definition GetCurrentAttributes (b : TextBuffer) : TextAttribute := _currentAttributes b.
Definition SetCurrentAttributes (a : TextAttribute) (b : TextBuffer) : TextBuffer := b <| _currentAttributes := a |>.
Definition GetLastMutationId (b : TextBuffer) : Z := _lastMutationId b.
Definition CopyProperties (OtherBuffer b : TextBuffer) : TextBuffer := b <| _cursor := Cursor.CopyProperties (_cursor OtherBuffer) (_cursor b) |>.

Definition GetLineRendition (row : Z) (b : TextBuffer) : outcome (TextBuffer * LineRendition) :=
  let* (b, r) := GetRowByOffset row b in
  Done (b, Row.GetLineRendition r).
Definition IsDoubleWidthLine (row : Z) (b : TextBuffer) : outcome (TextBuffer * bool) :=
  let* (b, rendition) := GetLineRendition row b in
  Done (b, match rendition with SingleWidth => false | _ => true end).
Definition line_scale (row : Z) (b : TextBuffer) : outcome (TextBuffer * Z) :=
  let* (b, double) := IsDoubleWidthLine row b in
  Done (b, if double : bool then 1 else 0).
Definition GetLineWidth (row : Z) (b : TextBuffer) : outcome (TextBuffer * Z) :=
  let* (b, scale) := line_scale row b in
  Done (b, Z.shiftr (View.Width (GetSize b)) scale).
Definition ClampPositionWithinLine (position : point) (b : TextBuffer) : outcome (TextBuffer * point) :=
  let* (b, w) := GetLineWidth (py position) b in
  Done (b, mk_point (Z.min (px position) (w - 1)) (py position)).
Definition ScreenToBufferPosition (position : point) (b : TextBuffer) : outcome (TextBuffer * point) :=
  let* (b, scale) := line_scale (py position) b in
  Done (b, mk_point (Z.shiftr (px position) scale) (py position)).
Definition BufferToScreenPosition (position : point) (b : TextBuffer) : outcome (TextBuffer * point) :=
  let* (b, scale) := line_scale (py position) b in
  Done (b, mk_point (Z.shiftl (px position) scale) (py position)).

(** Searching upwards for a row with text. *)
Fixpoint last_text_loop (fuel : nat) (viewportTop : Z) (p : point) (b : TextBuffer) : outcome (TextBuffer * point) :=
  if (px p <? 0) && (py p >? viewportTop) then
    match fuel with
    | O => Undefined
    | S fuel =>
        let y := py p - 1 in
        let* (b, r) := GetRowByOffset y b in
        let* x := MeasureRight r in
        last_text_loop fuel viewportTop (mk_point (x - 1) y) b
    end
  else Done (b, p).

Definition GetLastNonSpaceCharacter (viewOptional : option Viewport) (b : TextBuffer) : outcome (TextBuffer * point) :=
  let viewport := default (GetSize b) viewOptional in
  let y := Z.min (View.BottomInclusive viewport) (_estimateOffsetOfLastCommittedRow b) in
  let* (b, r) := GetRowByOffset y b in
  let* x := MeasureRight r in
  let* (b, p) := last_text_loop (Z.to_nat (y - View.Top viewport)) (View.Top viewport) (mk_point (x - 1) y) b in
  Done (b, mk_point (Z.max (px p) 0) (Z.max (py p) 0)).

(** ** Text *)

Definition buffer_GraphemeNext (d : CodepointWidthDetector) (chars : list Z) (position : nat) : outcome (CodepointWidthDetector * Z) :=
  let* (d, state, _) := GraphemeNext fallback d (new_GraphemeState <| gs_beg := Some (text_id, position) |>) (mk_wview text_id chars) in
  Done (d, Z.of_nat position + Z.of_nat (gs_len state)).
Definition buffer_GraphemePrev (d : CodepointWidthDetector) (chars : list Z) (position : nat) : outcome (CodepointWidthDetector * Z) :=
  let* (d, state, _) := GraphemePrev fallback d (new_GraphemeState <| gs_beg := Some (text_id, position) |>) (mk_wview text_id chars) in
  Done (d, Z.of_nat position - Z.of_nat (gs_len state)).

Fixpoint ascii_prefix (chars : list Z) : nat :=
  match chars with
  | c :: chars => if c <? 0x80 then S (ascii_prefix chars) else O
  | [] => O
  end.

Fixpoint fit_loop (fuel : nat) (d : CodepointWidthDetector) (state : GraphemeState) (chars : list Z) (columnLimit : Z) (dist : nat) (col : Z)
    : outcome (CodepointWidthDetector * nat * Z) :=
  if (dist <? length chars)%nat then
    match fuel with
    | O => Undefined
    | S fuel =>
        let* (d, state, _) := GraphemeNext fallback d state (mk_wview text_id chars) in
        let col := col + gs_width state in
        if col >? columnLimit then Done (d, dist, col)
        else fit_loop fuel d state chars columnLimit (dist + gs_len state) col
    end
  else Done (d, dist, col).

Definition FitTextIntoColumns (d : CodepointWidthDetector) (chars : list Z) (columnLimit : Z) : outcome (CodepointWidthDetector * nat * Z) :=
  let columnLimit := Z.max 0 columnLimit in
  let asciiEnd := Nat.min (length chars) (Z.to_nat columnLimit) in
  let dist := ascii_prefix (take asciiEnd chars) in
  if (dist =? asciiEnd)%nat then Done (d, dist, Z.of_nat dist)
  else
    let dist := if (dist =? 0)%nat then dist else (dist - 1)%nat in
    fit_loop (length chars) d (new_GraphemeState <| gs_beg := Some (text_id, dist) |>) chars columnLimit dist (Z.of_nat dist).

Definition Replace (d : CodepointWidthDetector) (row : Z) (attributes : TextAttribute) (state : RowWriteState) (b : TextBuffer)
    : outcome (CodepointWidthDetector * RowWriteState * TextBuffer) :=
  let* (b, i) := GetMutableRowByOffset row b in
  let* r := deref (_rows b) i in
  let* (d, state, res) := ReplaceText fallback garbage isa d state r in
  let* r := or_throw res in
  let* r := ReplaceAttributes (rw_columnBegin state) (rw_columnEnd state) attributes r in
  Done (d, state, set_row i r b).

Definition Insert (d : CodepointWidthDetector) (row : Z) (attributes : TextAttribute) (state : RowWriteState) (b : TextBuffer)
    : outcome (CodepointWidthDetector * RowWriteState * TextBuffer) :=
  let* (b, i) := GetMutableRowByOffset row b in
  let* (b, s) := GetScratchpadRow (_currentAttributes b) b in
  let* r := deref (_rows b) i in
  let* scratch := deref (_rows b) s in
  let* res := CopyFrom garbage isa r scratch in
  let* scratch := or_throw res in
  let* (d, state, res) := ReplaceText fallback garbage isa d state r in
  let* r := or_throw res in
  let* r := ReplaceAttributes (rw_columnBegin state) (rw_columnEnd state) attributes r in
  let* restoreText := GetText_range scratch (rw_columnBegin state) (rw_columnLimit state) in
  let restoreState := mk_RowWriteState restoreText (rw_columnEnd state) (rw_columnLimit state) 0 0 0 in
  let* (d, restoreState, res) := ReplaceText fallback garbage isa d restoreState r in
  let* r := or_throw res in
  let copyAmount := rw_columnEnd restoreState - rw_columnBegin restoreState in
  let* r :=
    if copyAmount >? 0 then
      let* from := narrow_u16 (rw_columnBegin state) in
      let* upto := narrow_u16 (rw_columnBegin state + copyAmount) in
      let* restoreAttr := rle_slice 16 (_attr scratch) from upto in
      let* from := narrow_u16 (rw_columnBegin restoreState) in
      let* upto := narrow_u16 (rw_columnEnd restoreState) in
      let* a := replace_rle 16 (_attr r) from upto restoreAttr in
      Done (r <| _attr := a |>)
    else Done r in
  Done (d, state, set_row i r (set_row s scratch b)).

(** Copies of [fill] next to each other; [None] when the fuel is used up. *)
Fixpoint fill_loop (fuel : nat) (d : CodepointWidthDetector) (fill : list Z) (right columnEnd : Z) (scratchpad : ROW)
    : outcome (option (CodepointWidthDetector * ROW)) :=
  if columnEnd <? right then
    match fuel with
    | O => Done None
    | S fuel =>
        let* (d, state, res) := ReplaceText fallback garbage isa d (mk_RowWriteState fill columnEnd right 0 0 0) scratchpad in
        let* scratchpad := or_throw res in
        fill_loop fuel d fill right (rw_columnEnd state) scratchpad
    end
  else Done (Some (d, scratchpad)).

(** The rows from [y] on are given copies of the scratchpad. *)
Fixpoint fill_rows (count : nat) (y left right : Z) (scratchpad : ROW) (attributes : TextAttribute) (b : TextBuffer) : outcome TextBuffer :=
  match count with
  | O => Done b
  | S count =>
      let* b := update_row y (fun r =>
        let* (_, res) := CopyTextFrom garbage isa false (mk_RowCopyState scratchpad left right left CoordTypeMax 0 0 0 0) r in
        let* r := or_throw res in
        ReplaceAttributes left right attributes r) b in
      fill_rows count (y + 1) left right scratchpad attributes b
  end.

Definition FillRect (fuel : nat) (d : CodepointWidthDetector) (r : rect) (fill : list Z) (attributes : TextAttribute) (b : TextBuffer)
    : outcome (option (CodepointWidthDetector * TextBuffer)) :=
  if rect_empty r || (length fill =? 0)%nat then Done (Some (d, b))
  else
    let* (b, s) := GetScratchpadRow attributes b in
    let* scratchpad := deref (_rows b) s in
    let* filled :=
      if bool_decide (fill = [0x20]) then Done (Some (d, scratchpad))
      else fill_loop fuel d fill (right r) (left r) scratchpad in
    match filled with
    | None => Done None
    | Some (d, scratchpad) =>
        let* b := fill_rows (Z.to_nat (bottom r - top r)) (top r) (left r) (right r) scratchpad attributes (set_row s scratchpad b) in
        Done (Some (d, b))
    end.

(** ** Hyperlinks *)

Definition AddHyperlinkToMap (uri : list Z) (id : Z) (b : TextBuffer) : TextBuffer :=
  b <| _hyperlinkMap := (id, uri) :: filter (fun kv => fst kv <> id) (_hyperlinkMap b) |>.

Definition GetHyperlinkUriFromId (id : Z) (b : TextBuffer) : outcome (list Z) :=
  match List.find (fun kv => fst kv =? id) (_hyperlinkMap b) with
  | Some (_, uri) => Done uri
  | None => Throws
  end.

(** The pair with an identifier: the first one, in the order of the map. *)
Definition remove_custom (id : Z) : list (list Z * Z) -> list (list Z * Z) :=
  fix go l := match l with
  | [] => []
  | kv :: l => if snd kv =? id then l else kv :: go l
  end.

Definition RemoveHyperlinkFromMap (id : Z) (b : TextBuffer) : TextBuffer :=
  b <| _hyperlinkMap := filter (fun kv => fst kv <> id) (_hyperlinkMap b) |>
    <| _hyperlinkCustomIdMap := remove_custom id (_hyperlinkCustomIdMap b) |>.

Definition GetHyperlinkId (uri id : list Z) (b : TextBuffer) : outcome (TextBuffer * Z) :=
  let current := _currentHyperlinkId b in
  let* (b, numericId) :=
    match id with
    | [] => Done (b <| _currentHyperlinkId := u16 (current + 1) |>, current)
    | _ =>
        let* h := hash_wstring uri in
        let newId := id ++ wstr "%" ++ to_wstring h in
        match List.find (fun kv => bool_decide (fst kv = newId)) (_hyperlinkCustomIdMap b) with
        | Some (_, known) => Done (b, known)
        | None => Done (b <| _hyperlinkCustomIdMap := _hyperlinkCustomIdMap b ++ [(newId, current)] |> <| _currentHyperlinkId := u16 (current + 1) |>, current)
        end
    end in
  let b := if _currentHyperlinkId b =? 0 then b <| _currentHyperlinkId := u16 (_currentHyperlinkId b + 1) |> else b in
  Done (b, numericId).

Definition GetCustomIdFromId (id : Z) (b : TextBuffer) : list Z :=
  match List.find (fun kv => snd kv =? id) (_hyperlinkCustomIdMap b) with
  | Some (custom, _) => custom
  | None => []
  end.

Definition CopyHyperlinkMaps (other b : TextBuffer) : TextBuffer :=
  b <| _hyperlinkMap := _hyperlinkMap other |> <| _hyperlinkCustomIdMap := _hyperlinkCustomIdMap other |>
    <| _currentHyperlinkId := _currentHyperlinkId other |>.

(** The references that are left after the rows [i], ... *)
Fixpoint prune_loop (count : nat) (i : Z) (refs : list Z) (b : TextBuffer) : outcome (TextBuffer * list Z) :=
  match count with
  | O => Done (b, refs)
  | S count =>
      let* (b, r) := GetRowByOffset i b in
      let refs := filter (fun id => id ∉ GetHyperlinks r) refs in
      match refs with
      | [] => Done (b, [])
      | _ => prune_loop count (i + 1) refs b
      end
  end.

Definition _PruneHyperlinks (b : TextBuffer) : outcome TextBuffer :=
  let* (b, r) := GetRowByOffset 0 b in
  match GetHyperlinks r with
  | [] => Done b
  | hyperlinks =>
      let* (b, refs) := prune_loop (Z.to_nat (TotalRowCount b - 1)) 1 (remove_dups hyperlinks) b in
      Done (foldr RemoveHyperlinkFromMap b refs)
  end.

(** ** The circular order *)

Definition IncrementCircularBuffer (fillAttributes : TextAttribute) (b : TextBuffer) : outcome TextBuffer :=
  let* b := _PruneHyperlinks b in
  let* b := update_row 0 (Row_Reset isa fillAttributes) b in
  let first := _firstRow b + 1 in
  Done (b <| _firstRow := if first >=? View.Height (GetSize b) then 0 else first |>).

(** The copy of a row onto itself copies no text. *)
Definition copy_from (aliased : bool) (source r : ROW) : outcome (ROW * bool) :=
  if aliased then
    let* a := resize_trailing_extent 16 (_attr source) (_columnCount r) in
    Done (r <| _attr := a |>, false)
  else CopyFrom garbage isa source r.

(** [CopyRow] inside of one buffer, and into another one. *)
Definition CopyRow (srcRowIndex dstRowIndex : Z) (b : TextBuffer) : outcome TextBuffer :=
  let* (b, d) := GetMutableRowByOffset dstRowIndex b in
  let* (b, s) := _getRow srcRowIndex b in
  let* dstRow := deref (_rows b) d in
  let* srcRow := deref (_rows b) s in
  let* res := copy_from (s =? d)%nat srcRow dstRow in
  let* r := or_throw res in
  Done (set_row d r b).

Definition CopyRowTo (srcRowIndex dstRowIndex : Z) (b dstBuffer : TextBuffer) : outcome (TextBuffer * TextBuffer) :=
  let* (dstBuffer, d) := GetMutableRowByOffset dstRowIndex dstBuffer in
  let* (b, srcRow) := GetRowByOffset srcRowIndex b in
  let* dstRow := deref (_rows dstBuffer) d in
  let* res := CopyFrom garbage isa srcRow dstRow in
  let* r := or_throw res in
  Done (b, set_row d r dstBuffer).

Fixpoint scroll_loop (count : nat) (y step delta : Z) (b : TextBuffer) : outcome TextBuffer :=
  match count with
  | O => Done b
  | S count =>
      let* b := CopyRow y (y + delta) b in
      scroll_loop count (y + step) step delta b
  end.

Definition ScrollRows (firstRow size delta : Z) (b : TextBuffer) : outcome TextBuffer :=
  if delta =? 0 then Done b
  else
    let size := Z.max 0 size in
    if delta <? 0 then scroll_loop (Z.to_nat size) firstRow 1 delta b
    else scroll_loop (Z.to_nat size) (firstRow + size - 1) (-1) delta b.

Definition Reset (b : TextBuffer) : TextBuffer := (_decommit b) <| _initialAttributes := _currentAttributes b |>.

(** ** Marks *)

(** The rows [y], ..., [count] of them. *)
Fixpoint update_rows (count : nat) (y : Z) (f : ROW -> outcome ROW) (b : TextBuffer) : outcome TextBuffer :=
  match count with
  | O => Done b
  | S count =>
      let* b := update_row y f b in
      update_rows count (y + 1) f b
  end.

Definition clear_marks (r : ROW) : ROW :=
  (SetScrollbarData None r) <| _attr := mk_rle (map (fun run => run <| value := SetMarkAttributes Mark_None (value run) |>) (_runs (_attr r))) (_total_length (_attr r)) |>.

Definition ClearMarksInRange (start end_ : point) (b : TextBuffer) : outcome TextBuffer :=
  let top := clamp (Z.min (py start) (py end_)) 0 (_height b - 1) in
  let bottom := clamp (Z.max (py start) (py end_)) 0 (_estimateOffsetOfLastCommittedRow b) in
  update_rows (Z.to_nat (bottom - top + 1)) top (fun r => Done (clear_marks r)) b.

Definition ClearAllMarks (b : TextBuffer) : outcome TextBuffer :=
  ClearMarksInRange (mk_point 0 0) (mk_point (_width b - 1) (_height b - 1)) b.

Fixpoint mark_rows_loop (count : nat) (y : Z) (b : TextBuffer) : outcome (TextBuffer * list (Z * ScrollbarData)) :=
  match count with
  | O => Done (b, [])
  | S count =>
      let* (b, r) := GetRowByOffset y b in
      let* (b, marks) := mark_rows_loop count (y + 1) b in
      Done (b, match GetScrollbarData r with Some data => (y, data) :: marks | None => marks end)
  end.

Definition GetMarkRows (b : TextBuffer) : outcome (TextBuffer * list (Z * ScrollbarData)) :=
  mark_rows_loop (Z.to_nat (_estimateOffsetOfLastCommittedRow b + 1)) 0 b.

(** ** Rows as a whole *)

Definition SetWrapForced (y : Z) (wrap : bool) (b : TextBuffer) : outcome TextBuffer := update_row y (fun r => Done (Row.SetWrapForced wrap r)) b.

Definition ResetLineRenditionRange (startRow endRow : Z) (b : TextBuffer) : outcome TextBuffer :=
  update_rows (Z.to_nat (endRow - startRow)) startRow (fun r => Done (Row.SetLineRendition SingleWidth r)) b.

Definition SetCurrentLineRendition (d : CodepointWidthDetector) (lineRendition : LineRendition) (fillAttributes : TextAttribute) (b : TextBuffer)
    : outcome (option (CodepointWidthDetector * TextBuffer)) :=
  let cursorPosition := GetPosition (_cursor b) in
  let rowIndex := py cursorPosition in
  let* (b, i) := GetMutableRowByOffset rowIndex b in
  let* r := deref (_rows b) i in
  if bool_decide (Row.GetLineRendition r = lineRendition) then Done (Some (d, b))
  else
    let b := set_row i (Row.SetWrapForced false (Row.SetLineRendition lineRendition r)) b in
    if bool_decide (lineRendition = SingleWidth) then Done (Some (d, b))
    else
      let* (b, fillOffset) := GetLineWidth rowIndex b in
      let* filled := FillRect 0 d (mk_rect fillOffset rowIndex CoordTypeMax (rowIndex + 1)) [0x20] fillAttributes b in
      match filled with
      | None => Done None
      | Some (d, b) =>
          let* (b, p) := ClampPositionWithinLine cursorPosition b in
          Done (Some (d, b <| _cursor := SetPosition p (_cursor b) |>))
      end.

Definition ClearScrollback (newFirstRow rowsToKeep : Z) (b : TextBuffer) : outcome TextBuffer :=
  if newFirstRow <=? 0 then Done b
  else if rowsToKeep <=? 0 then Done (_decommit b)
  else
    let* b := ClearMarksInRange (mk_point 0 0) (mk_point (_width b) (Z.max 0 (newFirstRow - 1))) b in
    let startAbsolute := _firstRow b + newFirstRow in
    let b := b <| _firstRow := 0 |> in
    let* b := ScrollRows startAbsolute rowsToKeep (- startAbsolute) b in
    let end_ := _estimateOffsetOfLastCommittedRow b in
    update_rows (Z.to_nat (end_ - rowsToKeep + 1)) rowsToKeep (Row_Reset isa (_initialAttributes b)) b.

Fixpoint resize_loop (count : nat) (srcRow dstRow : Z) (b newBuffer : TextBuffer) : outcome (TextBuffer * TextBuffer) :=
  match count with
  | O => Done (b, newBuffer)
  | S count =>
      let* (b, newBuffer) := CopyRowTo srcRow dstRow b newBuffer in
      resize_loop count (srcRow + 1) (dstRow + 1) b newBuffer
  end.

Definition ResizeTraditional (width height : Z) (b : TextBuffer) : outcome TextBuffer :=
  let width := Z.max width 1 in
  let height := Z.max height 1 in
  let* newBuffer := new_TextBuffer width height (_currentAttributes b) 0 0 in
  let cursorRow := py (GetPosition (_cursor b)) in
  let srcRow := if cursorRow >=? height then cursorRow - height + 1 else 0 in
  let* (b, newBuffer) := resize_loop (Z.to_nat (Z.min (_height b) height)) srcRow 0 b newBuffer in
  Done (b <| _rows := _rows newBuffer |> <| _initialAttributes := _initialAttributes newBuffer |>
          <| _width := _width newBuffer |> <| _height := _height newBuffer |> <| _firstRow := 0 |>).

(** ** Moving a cursor through the text *)

Fixpoint navigate_left (distance : nat) (x y : Z) (row : ROW) (b : TextBuffer) : outcome (TextBuffer * point) :=
  match distance with
  | O => Done (b, mk_point x y)
  | S distance =>
      if x >? 0 then let* x := NavigateToPrevious row x in navigate_left distance x y row b
      else if y <=? 0 then Done (b, mk_point x y)
      else
        let* (b, row) := GetRowByOffset (y - 1) b in
        navigate_left distance (GetReadableColumnCount row - 1) (y - 1) row b
  end.

Fixpoint navigate_right (distance : nat) (maxY x y rowWidth : Z) (row : ROW) (b : TextBuffer) : outcome (TextBuffer * point) :=
  match distance with
  | O => Done (b, mk_point x y)
  | S distance =>
      if x <? rowWidth then let* x := NavigateToNext row x in navigate_right distance maxY x y rowWidth row b
      else if y >=? maxY then Done (b, mk_point x y)
      else
        let* (b, row) := GetRowByOffset (y + 1) b in
        navigate_right distance maxY 0 (y + 1) (GetReadableColumnCount row) row b
  end.

Definition NavigateCursor (position : point) (distance : Z) (b : TextBuffer) : outcome (TextBuffer * point) :=
  let maxY := _height b - 1 in
  let x := clamp (px position) 0 (_width b - 1) in
  let y := clamp (py position) 0 maxY in
  let* (b, row) := GetRowByOffset y b in
  if distance <? 0 then navigate_left (Z.to_nat (- distance)) x y row b
  else navigate_right (Z.to_nat distance) maxY x y (GetReadableColumnCount row) row b.
End Buffer.
