(* ===== verification/TextBufferFacts.v ===== *)
(** * Rows in the storage of the text buffer

    Rows are constructed on demand; whoever reads a row cannot tell whether
    it was constructed before.  [slot b i] is the row at the number [i] in
    memory, as it is or as it will be constructed, and [row_at b y] the row at
    the position [y] of the circular order. *)

From S2P Require Import Prelude TermDispatch TextAttribute Rle Cursor Pages Graphemes GraphemeFacts Row RowWrite RowFacts RowInit RowFinish RowWrites RowTheorems RowCopy Hash Geometry TextBuffer.
#[local] Open Scope Z_scope.
Implicit Types (b : TextBuffer) (r : ROW) (i j : nat) (y : Z).

Lemma repeat_lookup {A} (x : A) n : forall i, (i < n)%nat -> repeat x n !! i = Some x.
Proof. induction n as [|n IH]; intros [|i] Hi; cbn; try lia; [done|]. apply IH. lia. Qed.

Lemma multiple_small h k d : h * k = d -> - h < d < h -> d = 0.
Proof. intros <- Hd. destruct (Z.lt_trichotomy k 0) as [|[->|]]; [nia|lia|nia]. Qed.

Section Storage.
Context (isa : ISA).

(** A row that was just constructed. *)
Definition fresh b : ROW := match construct_row isa b with Done r => r | _ => mk_ROW [] None [] rle_default 0 SingleWidth false false None end.

(** A row of the buffer's width. *)
Definition row_ok b r : Prop := storage_ok r /\ _columnCount r = _width b.

Record buffer_ok b : Prop := {
  bo_width : 0 < _width b < 0x8000;
  bo_height : 0 < _height b < 65536;
  bo_first : 0 <= _firstRow b < _height b;
  bo_capacity : watermark b <= capacity b;
  bo_rows : Forall (row_ok b) (_rows b);
}.

Lemma fresh_ok b : 0 < _width b < 0x8000 -> construct_row isa b = Done (fresh b) /\ row_ok b (fresh b) /\
  plain_line (fresh b) (spaces (Z.to_nat (_width b))) /\ _attr (fresh b) = mk_rle [mk_run (_initialAttributes b) (_width b)] (_width b) /\
  _wrapForced (fresh b) = false /\ _promptData (fresh b) = None.
Proof.
  intros Hw. unfold fresh, construct_row, new_ROW. set (r := mk_ROW _ _ _ _ _ _ _ _ _).
  assert (Hr : rle_of_value (_width b) (_initialAttributes b) = mk_rle [mk_run (_initialAttributes b) (_width b)] (_width b)).
  { unfold rle_of_value. by rewrite (proj2 (Z.eqb_neq _ 0)) by lia. }
  assert (Hs : storage_ok r).
  { assert (Hz : forall bytes, bytes = 2 * aligned_size (_width b) -> 2 * zlen (repeat 0 (Z.to_nat (bytes / 2))) = bytes).
    { intros bytes ->. pose proof (Z.div_pos (_width b) 8 ltac:(lia) ltac:(lia)). rewrite zlen_repeat, (Z.mul_comm 2 (aligned_size _)), Z.div_mul by lia. unfold aligned_size. lia. }
    destruct (aligned_bytes (_width b)) as [Hb1 Hb2]. split; [done|apply Hz, Hb1|apply Hz, Hb2|unfold r; cbn [_attr]; by rewrite Hr|unfold r; cbn [_attr]; by rewrite Hr]. }
  destruct (init_holds isa r Hs eq_refl) as (r' & -> & Hh & [? Ha ? ? ? ?] & _). cbn [_columnCount r] in *. split; [done|]. cbn in Ha. rewrite Hr in Ha.
  split; [by destruct Hh; split|]. split; [by split|]. done.
Qed.

(** The row with a number. *)
Definition slot b i : ROW := default (fresh b) (_rows b !! i).

Lemma slot_row_ok b i : buffer_ok b -> row_ok b (slot b i).
Proof.
  intros [Hw _ _ _ Hr]. unfold slot. destruct (_rows b !! i) eqn:E; cbn; [by eapply Forall_lookup_1|]. by apply fresh_ok.
Qed.

(** What does not change when rows do. *)
Definition shape b := (_width b, _height b, _firstRow b, _initialAttributes b, _currentAttributes b).

(** The buffer after a change of its rows. *)
Record becomes b (f : nat -> ROW) b' : Prop := {
  be_ok : buffer_ok b';
  be_shape : shape b' = shape b;
  be_links : (_hyperlinkMap b', _hyperlinkCustomIdMap b') = (_hyperlinkMap b, _hyperlinkCustomIdMap b);
  be_slots : forall i, slot b' i = f i;
  be_grows : watermark b <= watermark b';
  be_cursor : _cursor b' = _cursor b;
}.

Lemma fresh_shape b b' : shape b' = shape b -> fresh b' = fresh b.
Proof. unfold shape, fresh, construct_row. by intros [= -> _ _ -> _]. Qed.

Lemma row_ok_shape b b' r : shape b' = shape b -> row_ok b r -> row_ok b' r.
Proof. unfold shape, row_ok. by intros [= -> _ _ _ _]. Qed.

Lemma becomes_refl b : buffer_ok b -> becomes b (slot b) b.
Proof. by split. Qed.

Lemma becomes_trans b f b1 g b2 : becomes b f b1 -> becomes b1 g b2 -> becomes b g b2.
Proof. intros [] []. split; try done; try congruence. lia. Qed.

(** ** Construction *)

Lemma construct_spec n : forall b, 0 < _width b < 0x8000 -> _construct isa n b = Done (b <| _rows := _rows b ++ repeat (fresh b) n |>).
Proof.
  induction n as [|n IH]; intros b Hw; cbn [_construct repeat].
  - rewrite app_nil_r. by destruct b.
  - rewrite (proj1 (fresh_ok b Hw)). cbn [obind]. rewrite IH by done. change (fresh (b <| _rows := _rows b ++ [fresh b] |>)) with (fresh b). cbn [_rows setter TextBuffer_eta]. by rewrite <- app_assoc.
Qed.

(** More rows that nobody can tell from rows that are not there yet. *)
Lemma extended b n : buffer_ok b -> watermark b + Z.of_nat n <= capacity b -> becomes b (slot b) (b <| _rows := _rows b ++ repeat (fresh b) n |>).
Proof.
  intros [Hw Hh Hf Hc Hr] Hn. unfold watermark in *. split.
  - split; try done; unfold watermark, capacity in *; cbn; [rewrite length_app, repeat_length; lia|]. apply Forall_app. split; [done|].
    apply Forall_lookup. intros i x Hx. apply list_elem_of_lookup_2 in Hx. apply list_elem_of_In, repeat_spec in Hx as ->. apply (fresh_ok b Hw).
  - done.
  - done.
  - intros i. unfold slot. change (fresh (b <| _rows := _rows b ++ repeat (fresh b) n |>)) with (fresh b). cbn [_rows setter TextBuffer_eta]. destruct (decide (i < length (_rows b))%nat).
    + by rewrite lookup_app_l.
    + rewrite lookup_app_r, (lookup_ge_None_2 (_rows b)) by lia. cbn. destruct (repeat _ _ !! _) eqn:E; [|done]. cbn.
      apply list_elem_of_lookup_2, list_elem_of_In, repeat_spec in E. done.
  - unfold watermark. cbn. rewrite length_app. lia.
  - done.
Qed.

(** A row by its number. *)
Lemma direct_ok b i : buffer_ok b -> Z.of_nat i < capacity b -> exists b', _getRowByOffsetDirect isa (Z.of_nat i) b = Done (b', i) /\
  becomes b (slot b) b' /\ _rows b' !! i = Some (slot b i).
Proof.
  intros Hb Hi. pose proof Hb as [Hw Hh Hf Hc Hr]. unfold _getRowByOffsetDirect. rewrite (proj2 (Z.ltb_ge _ 0)), Z.geb_leb, (proj2 (Z.leb_gt _ _)) by lia. cbn [orb].
  rewrite Nat2Z.id, Z.geb_leb. destruct (Z.leb_spec (watermark b) (Z.of_nat i)) as [Hge|Hlt].
  - unfold _commit. rewrite construct_spec by done. cbn [obind]. eexists. split; [reflexivity|]. set (n := Z.to_nat _).
    assert (Hn : watermark b + Z.of_nat n <= capacity b /\ Z.of_nat i < watermark b + Z.of_nat n) by (unfold n, _commitReadAheadRowCount; lia).
    split; [apply extended; [done|lia]|]. cbn. unfold slot, watermark in *. rewrite lookup_app_r, (lookup_ge_None_2 (_rows b)) by lia. cbn.
    apply repeat_lookup. lia.
  - cbn [obind]. exists b. split; [done|]. split; [by apply becomes_refl|]. unfold slot, watermark in *.
    destruct (lookup_lt_is_Some_2 (_rows b) i) as [x ->]; [lia|done].
Qed.

(** ** The circular order *)

Definition phys b y : nat := S (Z.to_nat ((_firstRow b + y) mod _height b)).
Definition row_at b y : ROW := slot b (phys b y).

Lemma phys_shape b b' y : shape b' = shape b -> phys b' y = phys b y.
Proof. unfold shape, phys. by intros [= _ -> -> _ _]. Qed.

Lemma phys_bound b y : 0 < _height b -> (0 < phys b y)%nat /\ Z.of_nat (phys b y) < capacity b.
Proof. intros Hh. unfold phys, capacity. pose proof (Z.mod_pos_bound (_firstRow b + y) (_height b) Hh). lia. Qed.

Lemma phys_injective b y z : buffer_ok b -> 0 <= y < _height b -> 0 <= z < _height b -> phys b y = phys b z -> y = z.
Proof.
  intros [_ Hh Hf _ _] Hy Hz E. unfold phys in E. pose proof (Z.mod_pos_bound (_firstRow b + y) (_height b) ltac:(lia)). pose proof (Z.mod_pos_bound (_firstRow b + z) (_height b) ltac:(lia)).
  assert (Hm : (_firstRow b + y) mod _height b = (_firstRow b + z) mod _height b) by lia.
  pose proof (Z.div_mod (_firstRow b + y) (_height b) ltac:(lia)). pose proof (Z.div_mod (_firstRow b + z) (_height b) ltac:(lia)).
  rewrite Hm in *. revert H1 H2. generalize ((_firstRow b + y) / _height b), ((_firstRow b + z) / _height b), ((_firstRow b + z) mod _height b). intros q1 q2 m H1 H2.
  assert (y - z = 0); [|lia]. apply (multiple_small (_height b) (q1 - q2)); lia.
Qed.

Lemma get_row_ok b y : buffer_ok b -> exists b', _getRow isa y b = Done (b', phys b y) /\ becomes b (slot b) b' /\ _rows b' !! phys b y = Some (row_at b y).
Proof.
  intros Hb. pose proof Hb as [Hw Hh Hf Hc Hr]. unfold _getRow. set (o := if _ <? 0 then _ else _).
  assert (Ho : o + 1 = Z.of_nat (phys b y)).
  { unfold o, phys. pose proof (Z.mod_pos_bound (_firstRow b + y) (_height b) ltac:(lia)). pose proof (Z.rem_bound_abs (_firstRow b + y) (_height b) ltac:(lia)).
    pose proof (Z.quot_rem (_firstRow b + y) (_height b) ltac:(lia)) as Hq. pose proof (Z.div_mod (_firstRow b + y) (_height b) ltac:(lia)) as Hd.
    set (m := (_firstRow b + y) mod _height b) in *. set (e := Z.rem (_firstRow b + y) (_height b)) in *. set (q := (_firstRow b + y) / _height b) in *. set (t := Z.quot _ _) in *.
    destruct (Z.ltb_spec e 0).
    - assert (m - (e + _height b) = 0); [|lia]. apply (multiple_small (_height b) (t - q - 1)); lia.
    - assert (m - e = 0); [|lia]. apply (multiple_small (_height b) (t - q)); lia. }
  rewrite Ho. destruct (phys_bound b y ltac:(lia)). by apply direct_ok.
Qed.

Lemma row_at_becomes b f b' y : becomes b f b' -> row_at b' y = f (phys b y).
Proof. intros [_ Hs _ Hf _]. unfold row_at. by rewrite (phys_shape b b'), Hf. Qed.

(** ** Reading and changing a row *)

Definition upd (f : nat -> ROW) i r : nat -> ROW := fun j => if (j =? i)%nat then r else f j.

Lemma upd_same f i r : upd f i r i = r.
Proof. unfold upd. by rewrite Nat.eqb_refl. Qed.

Lemma upd_other f i r j : j <> i -> upd f i r j = f j.
Proof. intros H. unfold upd. by rewrite (proj2 (Nat.eqb_neq _ _)). Qed.

Lemma set_row_ok b i r : buffer_ok b -> (i < length (_rows b))%nat -> row_ok b r -> becomes b (upd (slot b) i r) (set_row i r b).
Proof.
  intros [Hw Hh Hf Hc Hr] Hi Hok. unfold set_row. split; try done.
  - split; try done; unfold watermark, capacity in *; cbn; [by rewrite length_insert|]. by apply Forall_insert.
  - intros j. unfold slot, upd. change (fresh (b <| _rows := <[i:=r]> (_rows b) |>)) with (fresh b). cbn [_rows setter TextBuffer_eta]. destruct (Nat.eqb_spec j i) as [->|].
    + by rewrite list_lookup_insert_eq.
    + by rewrite list_lookup_insert_ne.
  - unfold watermark. cbn. rewrite length_insert. lia.
Qed.

Lemma mutated b n : buffer_ok b -> becomes b (slot b) (b <| _lastMutationId := n |>).
Proof. intros []. by split. Qed.

Lemma mutable_row_ok b y : buffer_ok b -> exists b', GetMutableRowByOffset isa y b = Done (b', phys b y) /\ becomes b (slot b) b' /\ _rows b' !! phys b y = Some (row_at b y).
Proof.
  intros Hb. unfold GetMutableRowByOffset. pose proof (mutated b (u64 (_lastMutationId b + 1)) Hb) as Hm.
  destruct (get_row_ok _ y (be_ok _ _ _ Hm)) as (b' & -> & Hbe & Hl). exists b'. split; [done|]. split; [|done]. by eapply becomes_trans.
Qed.

Lemma read_row_ok b y : buffer_ok b -> exists b', GetRowByOffset isa y b = Done (b', row_at b y) /\ becomes b (slot b) b'.
Proof.
  intros Hb. unfold GetRowByOffset. destruct (get_row_ok b y Hb) as (b' & -> & Hbe & Hl). cbn [obind]. unfold deref. rewrite Hl. cbn [obind]. by exists b'.
Qed.

Lemma update_row_ok b y f r : buffer_ok b -> f (row_at b y) = Done r -> row_ok b r -> exists b', update_row isa y f b = Done b' /\ becomes b (upd (slot b) (phys b y) r) b'.
Proof.
  intros Hb Hf Hr. unfold update_row. destruct (mutable_row_ok b y Hb) as (b' & -> & Hbe & Hl). cbn [obind]. unfold deref. rewrite Hl. cbn [obind]. rewrite Hf. cbn [obind].
  eexists. split; [reflexivity|]. pose proof Hbe as [Hok' Hsh _ Hsl _]. pose proof (set_row_ok b' (phys b y) r Hok') as Hset.
  specialize (Hset ltac:(by apply lookup_lt_Some in Hl) ltac:(by eapply row_ok_shape)). pose proof (becomes_trans _ _ _ _ _ Hbe Hset) as [? ? ? Hs ?]. split; try done.
  intros j. rewrite Hs. unfold upd. destruct (j =? _)%nat; [done|apply Hsl].
Qed.

(** The numbers of the rows [y], ... *)
Definition numbers b y n : list nat := map (fun k => phys b (y + Z.of_nat k)) (seq 0 n).

Lemma numbers_cons b y n : numbers b y (S n) = phys b y :: numbers b (y + 1) n.
Proof. unfold numbers. cbn [seq map]. rewrite Z.add_0_r. f_equal. rewrite <- seq_shift, map_map. apply map_ext. intros k. f_equal. lia. Qed.

Lemma elem_numbers b y n j : j ∈ numbers b y n <-> exists k, (k < n)%nat /\ j = phys b (y + Z.of_nat k).
Proof.
  unfold numbers. rewrite list_elem_of_fmap. split; intros (k & H1 & H2).
  - apply elem_of_seq in H2. exists k. split; [lia|done].
  - exists k. split; [done|]. apply elem_of_seq. lia.
Qed.

(** The same change of several rows. *)
Lemma update_rows_ok f g n : forall b y, buffer_ok b -> 0 <= y -> y + Z.of_nat n <= _height b -> (forall k (r := row_at b (y + Z.of_nat k)), (k < n)%nat -> f r = Done (g r) /\ row_ok b (g r)) ->
  exists b', update_rows isa n y f b = Done b' /\ becomes b (fun j => if decide (j ∈ numbers b y n) then g (slot b j) else slot b j) b'.
Proof.
  induction n as [|n IH]; intros b y Hb Hy Hn Hf; cbn [update_rows].
  - exists b. split; [done|]. by split.
  - destruct (Hf 0%nat ltac:(lia)) as [Hg Hgo]. rewrite Z.add_0_r in Hg, Hgo. destruct (update_row_ok b y f _ Hb Hg Hgo) as (b1 & -> & Hb1). cbn [obind]. pose proof Hb1 as [Hok1 Hsh1 _ Hsl1 _].
    assert (Hh1 : _height b1 = _height b) by (unfold shape in Hsh1; congruence).
    destruct (IH b1 (y + 1)) as (b2 & -> & Hb2); [done|lia|rewrite Hh1; lia| |].
    { intros k r Hk. assert (r = row_at b (y + Z.of_nat (S k))) as ->.
      { unfold r. rewrite (row_at_becomes b _ b1 _ Hb1), upd_other; [unfold row_at; do 2 f_equal; lia|]. intros E. apply (phys_injective b) in E; [lia|done|lia|lia]. }
      destruct (Hf (S k) ltac:(lia)). split; [done|]. by apply (row_ok_shape b). }
    exists b2. split; [done|]. eapply becomes_trans in Hb2; [|exact Hb1]. destruct Hb2 as [? ? ? Hsl2 ?]. split; try done. intros j. rewrite Hsl2, Hsl1.
    assert (Hnum : numbers b1 (y + 1) n = numbers b (y + 1) n) by (unfold numbers; apply map_ext; intros; by apply phys_shape). rewrite Hnum, numbers_cons.
    assert (Hnot : phys b y ∉ numbers b (y + 1) n).
    { rewrite elem_numbers. intros (k & Hk & E). apply (phys_injective b) in E; [lia|done|lia|lia]. }
    unfold upd. destruct (Nat.eqb_spec j (phys b y)) as [->|Hne].
    + rewrite decide_False by done. by rewrite decide_True by apply list_elem_of_here.
    + destruct (decide (j ∈ numbers b (y + 1) n)).
      * by rewrite decide_True by (by apply list_elem_of_further).
      * rewrite decide_False; [done|]. by intros [?|?]%elem_of_cons.
Qed.
End Storage.
