(* ===== verification/TextBufferTheorems.v ===== *)
(** * Scrolling in the text buffer

    The buffer as a list of lines: what moving rows, advancing the circular
    order and dropping the scrollback do to it. *)

From S2P Require Import Prelude TermDispatch TextAttribute Rle Cursor Pages Graphemes GraphemeFacts Row RowWrite RowFacts RowInit RowFinish RowWrites RowTheorems RowCopy Hash Geometry TextBuffer TextBufferFacts.
#[local] Open Scope Z_scope.
Implicit Types (b : TextBuffer) (r : ROW) (i j : nat) (y : Z) (gs : list glyph).

Section Scrolling.
Context (garbage : nat -> Z) (isa : ISA).
#[local] Abbreviation slot := (TextBufferFacts.slot isa).
#[local] Abbreviation row_at := (TextBufferFacts.row_at isa).
#[local] Abbreviation becomes := (TextBufferFacts.becomes isa).

(** ** Copying a row *)

(** The row shows the line [gs] with the attributes and the wrap of [src]. *)
Record copy_of src gs r : Prop := {
  cf_line : plain_line r gs;
  cf_attr : _attr r = _attr src;
  cf_wrap : _wrapForced r = _wrapForced src;
}.

Lemma copy_of_self r gs : plain_line r gs -> copy_of r gs r.
Proof using. by split. Qed.

Lemma copy_row_ok b s d sgs gs : buffer_ok b -> plain_line (row_at b s) sgs -> holds (row_at b d) gs -> has_room gs (text sgs) ->
  exists b' r', CopyRow garbage isa s d b = Done b' /\ becomes b (upd (slot b) (phys b d) r') b' /\ copy_of (row_at b s) sgs r' /\ _promptData r' = _promptData (row_at b d) /\
    2 <= watermark b'.
Proof.
  intros Hb Hs Hd Hroom. unfold CopyRow. destruct (mutable_row_ok isa b d Hb) as (b1 & -> & Hb1 & Hl1). cbn [obind]. pose proof Hb1 as [Hok1 Hsh1 _ Hsl1 _].
  destruct (get_row_ok isa b1 s Hok1) as (b2 & -> & Hb2 & Hl2). cbn [obind]. pose proof (becomes_trans isa _ _ _ _ _ Hb1 Hb2) as Hb12. pose proof Hb12 as [Hok2 Hsh2 _ Hsl2 _].
  rewrite (phys_shape b b1), (row_at_becomes isa b (slot b)) in Hl2 by done. rewrite (phys_shape b b1) by done. change (slot b (phys b s)) with (row_at b s) in Hl2.
  assert (Hd2 : _rows b2 !! phys b d = Some (row_at b d)).
  { pose proof (Hsl2 (phys b d)) as E. rewrite Hsl1 in E. unfold TextBufferFacts.slot in E at 1. destruct (_rows b2 !! phys b d) eqn:F; [by cbn in E; subst|].
    apply lookup_ge_None in F. apply lookup_lt_Some in Hl1. destruct Hb2 as [_ _ _ _ Hg]. unfold watermark in Hg. lia. }
  unfold deref. rewrite Hd2, Hl2. cbn [obind].
  assert (Hcols : _columnCount (row_at b d) = _columnCount (row_at b s)).
  { unfold TextBufferFacts.row_at. by rewrite (proj2 (slot_row_ok isa b (phys b d) Hb)), (proj2 (slot_row_ok isa b (phys b s) Hb)). }
  assert (Hcopy : exists r', copy_from garbage isa (phys b s =? phys b d)%nat (row_at b s) (row_at b d) = Done (r', false) /\ copy_of (row_at b s) sgs r' /\ _promptData r' = _promptData (row_at b d)).
  { unfold copy_from. destruct (Nat.eqb_spec (phys b s) (phys b d)) as [E|].
    - unfold TextBufferFacts.row_at in *. rewrite <- E in *. pose proof (slot_row_ok isa b (phys b s) Hb) as [[Hw _ _ Hr Ht] _]. unfold resize_trailing_extent.
      rewrite Ht, (proj2 (Z.eqb_neq _ 0)), (proj2 (Z.ltb_ge _ _)), Z.gtb_ltb, (proj2 (Z.ltb_ge _ _)) by lia. cbn [obind]. eexists. split; [reflexivity|]. split; [|done].
      destruct Hs as [Hh Hsi Hp]. split; [split; [|done|done]|cbn; rewrite <- Ht; by destruct (_attr _)|done].
      apply (holds_members (slot b (phys b s))); done.
    - destruct (line_copied garbage isa (row_at b s) sgs (row_at b d) gs Hs Hd Hcols Hroom) as (r' & -> & Hpl & Ha & Hwr & Hpr). exists r'. split; [done|]. by split. }
  destruct Hcopy as (r' & -> & Hcf & Hpr). cbn [obind or_throw snd fst]. eexists _, r'. split; [reflexivity|].
  assert (Hwm : 2 <= watermark (set_row (phys b d) r' b2)).
  { unfold watermark, set_row. cbn. rewrite length_insert. apply lookup_lt_Some in Hd2. unfold phys in Hd2. lia. }
  split; [|done].
  assert (Hrok : row_ok b2 r').
  { destruct Hcf as [[Hh _ _] _ _]. apply (row_ok_shape b b2); [done|]. split; [by destruct Hh|]. destruct Hs as [[_ _ Hc1 _ _ _] _ _], Hh as [_ _ Hc2 _ _ _].
    rewrite <- Hc2, Hc1. apply (slot_row_ok isa b (phys b s) Hb). }
  pose proof (set_row_ok isa b2 (phys b d) r' Hok2 ltac:(by apply lookup_lt_Some in Hd2) Hrok) as Hset. pose proof (becomes_trans isa _ _ _ _ _ Hb12 Hset) as [? ? ? Hs' ?].
  split; try done. intros j. rewrite Hs'. unfold upd. destruct (j =? _)%nat; [done|]. by rewrite Hsl2, Hsl1.
Qed.

(** ** Copying a range of rows *)

(** Every row but the scratchpad holds a line, and there is room to write any
    of them over any other. *)
Record lines b (line : nat -> list glyph) : Prop := {
  li_plain : forall i, (0 < i)%nat -> plain_line (slot b i) (line i);
  li_room : forall i j, (0 < i)%nat -> (0 < j)%nat -> has_room (line i) (text (line j));
}.

(** The rows a loop reads and writes; none is read after it was written. *)
Lemma scroll_loop_ok n : forall b line y step delta (src := fun k => phys b (y + Z.of_nat k * step)) (dst := fun k => phys b (y + Z.of_nat k * step + delta)),
  buffer_ok b -> lines b line -> (forall i k, (i < k < n)%nat -> dst i <> src k /\ dst i <> dst k) ->
  exists b' line', scroll_loop garbage isa n y step delta b = Done b' /\ buffer_ok b' /\ shape b' = shape b /\ lines b' line' /\
    (forall k, (k < n)%nat -> line' (dst k) = line (src k) /\ copy_of (slot b (src k)) (line (src k)) (slot b' (dst k)) /\ _promptData (slot b' (dst k)) = _promptData (slot b (dst k))) /\
    (forall j, (forall k, (k < n)%nat -> j <> dst k) -> slot b' j = slot b j /\ line' j = line j) /\ watermark b <= watermark b' /\
    (n <> 0%nat -> 2 <= watermark b') /\ _cursor b' = _cursor b.
Proof.
  induction n as [|n IH]; intros b line y step delta src dst Hb Hl Hord; cbn [scroll_loop].
  - exists b, line. split_and!; try done. intros. lia.
  - pose proof Hl as [Hpl Hroom]. assert (Hs0 : src 0%nat = phys b y) by (unfold src; f_equal; lia). assert (Hd0 : dst 0%nat = phys b (y + delta)) by (unfold dst; f_equal; lia).
    destruct (copy_row_ok b y (y + delta) (line (src 0%nat)) (line (dst 0%nat))) as (b1 & r1 & -> & Hb1 & Hcf & Hpr & Hwm); [done|rewrite Hs0; apply Hpl; unfold phys; lia|rewrite Hd0; apply Hpl; unfold phys; lia|rewrite Hs0, Hd0; apply Hroom; unfold phys; lia|].
    cbn [obind]. pose proof Hb1 as [Hok1 Hsh1 _ Hsl1 Hg1]. set (line1 := fun j => if (j =? phys b (y + delta))%nat then line (src 0%nat) else line j).
    assert (Hph : forall z, phys b1 z = phys b z) by (intros; by apply phys_shape).
    assert (Hl1 : lines b1 line1).
    { split.
      - intros i Hi. rewrite Hsl1. unfold upd, line1. destruct (i =? _)%nat; [apply Hcf|by apply Hpl].
      - intros i j Hi Hj. unfold line1. rewrite Hs0. destruct (i =? _)%nat, (j =? _)%nat; apply Hroom; (done || unfold phys; lia). }
    assert (Hsrc1 : forall k, phys b1 (y + step + Z.of_nat k * step) = src (S k)) by (intros; rewrite Hph; unfold src; f_equal; lia).
    assert (Hdst1 : forall k, phys b1 (y + step + Z.of_nat k * step + delta) = dst (S k)) by (intros; rewrite Hph; unfold dst; f_equal; lia).
    destruct (IH b1 line1 (y + step) step delta Hok1 Hl1) as (b' & line' & Hrun & Hok & Hsh & Hl' & Hcop & Hoth & Hg & _ & Hcur).
    { intros i k Hik. rewrite !Hdst1, Hsrc1. apply Hord. lia. }
    exists b', line'. split; [done|]. split; [done|]. split; [congruence|]. split; [done|].
    assert (Hfirst : slot b' (dst 0%nat) = r1 /\ line' (dst 0%nat) = line (src 0%nat)).
    { destruct (Hoth (dst 0%nat)) as [-> ->]; [intros k Hk; rewrite Hdst1; apply (Hord 0%nat (S k)); lia|]. rewrite Hsl1, Hd0, upd_same. unfold line1. by rewrite Nat.eqb_refl. }
    split_and!.
    + intros [|k] Hk.
      * destruct Hfirst as [-> ->]. split; [done|]. rewrite Hs0, Hd0 in *. done.
      * destruct (Hcop k ltac:(lia)) as (E & Hc & Hp). rewrite Hdst1, Hsrc1 in *. destruct (Hord 0%nat (S k) ltac:(lia)) as [Hns Hnd]. rewrite Hd0 in Hns, Hnd.
        rewrite !Hsl1, !upd_other in * by done. unfold line1 in *. rewrite (proj2 (Nat.eqb_neq _ _)) in * by done. done.
    + intros j Hj. destruct (Hoth j) as [-> ->]; [intros k Hk; rewrite Hdst1; apply Hj; lia|]. specialize (Hj 0%nat ltac:(lia)). rewrite Hd0 in Hj.
      rewrite Hsl1, upd_other by done. unfold line1. by rewrite (proj2 (Nat.eqb_neq _ _)) by done.
    + lia.
    + lia.
    + rewrite Hcur. apply (TextBufferFacts.be_cursor _ _ _ _ Hb1).
Qed.

(** Moving rows, with everything else about the buffer. *)
Lemma scrolled_rows b line firstRow size delta (h := _height b) :
  buffer_ok b -> lines b line -> 0 <= firstRow -> 0 <= size -> firstRow + size <= h -> 0 <= firstRow + delta -> firstRow + size + delta <= h ->
  exists b' line', ScrollRows garbage isa firstRow size delta b = Done b' /\ buffer_ok b' /\ shape b' = shape b /\ _cursor b' = _cursor b /\ lines b' line' /\
    forall y (inside := (firstRow + delta <=? y) && (y <? firstRow + size + delta)) (z := if inside then y - delta else y), 0 <= y < h ->
      copy_of (row_at b z) (line (phys b z)) (row_at b' y) /\ _promptData (row_at b' y) = _promptData (row_at b y) /\ line' (phys b y) = line (phys b z) /\
      (inside = false -> row_at b' y = row_at b y).
Proof.
  intros Hb Hl Hf Hs Hfs Hfd Hfsd. unfold ScrollRows. destruct (Z.eqb_spec delta 0) as [->|Hd].
  { exists b, line. do 5 (split; [done|]). intros y Hy. replace (if _ && _ then y - 0 else y) with y by (destruct (_ && _); lia). split_and!; try done. apply copy_of_self, Hl. unfold phys. lia. }
  rewrite Z.max_r by done. set (up := delta <? 0). set (y0 := if up then firstRow else firstRow + size - 1). set (step := if up then 1 else -1).
  assert (Hrun : (if up then scroll_loop garbage isa (Z.to_nat size) firstRow 1 delta b else scroll_loop garbage isa (Z.to_nat size) (firstRow + size - 1) (-1) delta b)
    = scroll_loop garbage isa (Z.to_nat size) y0 step delta b) by (unfold y0, step; by destruct up).
  assert (Hin : forall k, (k < Z.to_nat size)%nat -> firstRow <= y0 + Z.of_nat k * step < firstRow + size) by (intros; unfold y0, step; destruct up; lia).
  destruct (scroll_loop_ok (Z.to_nat size) b line y0 step delta Hb Hl) as (b' & line' & Hr & Hok & Hsh & Hl' & Hcop & Hoth & _ & _ & Hcur).
  { intros i k Hik. pose proof (Hin i ltac:(lia)). pose proof (Hin k ltac:(lia)). split; intros E; (apply (phys_injective b) in E; [|done|lia|lia]);
      unfold y0, step, up in *; destruct (Z.ltb_spec delta 0); lia. }
  exists b', line'. split; [by rewrite <- Hr, <- Hrun|]. do 4 (split; [done|]). intros y Hy. unfold TextBufferFacts.row_at. rewrite (phys_shape b b') by done.
  destruct ((firstRow + delta <=? y) && (y <? firstRow + size + delta)) eqn:E.
  - apply andb_prop in E as [E1%Z.leb_le E2%Z.ltb_lt]. set (k := Z.to_nat (if up then y - delta - firstRow else firstRow + size - 1 - (y - delta))).
    assert (Hk : y0 + Z.of_nat k * step = y - delta /\ (k < Z.to_nat size)%nat) by (unfold k, y0, step; destruct up; lia). destruct Hk as [Hk1 Hk2].
    destruct (Hcop k Hk2) as (Hli & Hc & Hp). rewrite Hk1 in Hli, Hc, Hp. replace (y - delta + delta) with y in Hli, Hc, Hp by lia. done.
  - destruct (Hoth (phys b y)) as [-> ->]; [|split_and!; [apply copy_of_self, Hl; unfold phys; lia|done..]].
    intros k Hk Ep. apply (phys_injective b) in Ep; [|done|lia|pose proof (Hin k Hk); lia]. pose proof (Hin k Hk). lia.
Qed.

(** C5: moving rows up or down moves their lines, attributes and wrap marks
    exactly, though the rows they move from and those they move to overlap,
    and wherever the circular order starts; all other rows stay as they are.
    The marks of the scroll bar do not move.  Every row of the buffer is of
    single width and not padded for a wide glyph that did not fit, and the text
    of any row fits into any other ([lines]). *)
Theorem scroll_rows_exact b line firstRow size delta (h := _height b) :
  buffer_ok b -> lines b line -> 0 <= firstRow -> 0 <= size -> firstRow + size <= h -> 0 <= firstRow + delta -> firstRow + size + delta <= h ->
  exists b', ScrollRows garbage isa firstRow size delta b = Done b' /\ buffer_ok b' /\
    forall y (z := if (firstRow + delta <=? y) && (y <? firstRow + size + delta) then y - delta else y), 0 <= y < h ->
      copy_of (row_at b z) (line (phys b z)) (row_at b' y) /\ _promptData (row_at b' y) = _promptData (row_at b y).
Proof.
  intros Hb Hl Hf Hs Hfs Hfd Hfsd. destruct (scrolled_rows b line firstRow size delta) as (b' & line' & -> & Hok & _ & _ & _ & Hrows); try done.
  exists b'. split; [done|]. split; [done|]. intros y z Hy. by destruct (Hrows y Hy) as (? & ? & _).
Qed.

(** ** Advancing the circular order *)

(** A row without text, with one attribute. *)
Record blank (w : Z) (a : TextAttribute) r : Prop := {
  bl_line : plain_line r (spaces (Z.to_nat w));
  bl_attr : _attr r = mk_rle [mk_run a w] w;
  bl_wrap : _wrapForced r = false;
  bl_prompt : _promptData r = None;
}.

Lemma reset_blank b a r : row_ok b r -> exists r', Row_Reset isa a r = Done r' /\ blank (_width b) a r' /\ row_ok b r'.
Proof using.
  intros [Hs Hc]. unfold Row_Reset. pose proof Hs as [Hw _ _ Hr Ht]. destruct (_runs (_attr r)) as [|run runs] eqn:E; [done|]. cbn [deref lookup list_lookup obind].
  match goal with |- context [_init isa ?x] => assert (Hs' : storage_ok x) by (destruct Hs; by split);
    destruct (init_holds isa x Hs' eq_refl) as (r' & H1 & H2 & [K1 K2 K3 K4 K5 K6] & _) end. exists r'. split; [done|].
  cbn in K1, K2, K3, K4, K5, K6, H2. rewrite Ht in K2. rewrite Hc in *. split; [|split; [by destruct H2|done]]. split; [by split|done|done|done].
Qed.

(** The references of the rows that are not in the rows [i], ... *)
Lemma prune_loop_ok n : forall b y0 refs, buffer_ok b -> exists b' refs', prune_loop isa n y0 refs b = Done (b', refs') /\ becomes b (slot b) b' /\
  forall id, id ∈ refs' <-> id ∈ refs /\ forall k, (k < n)%nat -> id ∉ GetHyperlinks (row_at b (y0 + Z.of_nat k)).
Proof using.
  clear garbage. induction n as [|n IH]; intros b y0 refs Hb; cbn [prune_loop].
  - exists b, refs. split; [done|]. split; [by apply becomes_refl|]. intros id. split; [|by intros [? _]]. intros H. split; [done|]. intros. lia.
  - destruct (read_row_ok isa b y0 Hb) as (b1 & -> & Hb1). cbn [obind]. pose proof Hb1 as [Hok1 _ _ _ _]. set (left := filter _ refs).
    assert (Hleft : forall id, id ∈ left <-> id ∈ refs /\ id ∉ GetHyperlinks (row_at b y0)).
    { intros id. unfold left. rewrite list_elem_of_filter. tauto. }
    assert (Hstep : forall id, (forall k, (k < S n)%nat -> id ∉ GetHyperlinks (row_at b (y0 + Z.of_nat k))) <->
      (id ∉ GetHyperlinks (row_at b y0)) /\ forall k, (k < n)%nat -> id ∉ GetHyperlinks (row_at b (y0 + 1 + Z.of_nat k))).
    { intros id. split.
      - intros H. split; [specialize (H 0%nat ltac:(lia)); by rewrite Z.add_0_r in H|]. intros k Hk. specialize (H (S k) ltac:(lia)). by replace (y0 + 1 + Z.of_nat k) with (y0 + Z.of_nat (S k)) by lia.
      - intros [H1 H2] [|k] Hk; [by rewrite Z.add_0_r|]. specialize (H2 k ltac:(lia)). by replace (y0 + Z.of_nat (S k)) with (y0 + 1 + Z.of_nat k) by lia. }
    destruct left as [|x rest] eqn:El.
    + exists b1, []. split; [done|]. split; [done|]. intros id. rewrite Hstep. split; [by intros ?%not_elem_of_nil|]. intros (H1 & H2 & _). by apply Hleft.
    + destruct (IH b1 (y0 + 1) (x :: rest) Hok1) as (b2 & refs' & -> & Hb2 & Hrefs). exists b2, refs'. split; [done|].
      split; [destruct Hb1 as [? ? ? Hs1 ?], Hb2 as [? ? ? Hs2 ?]; split; try done; try congruence; try lia; intros; by rewrite Hs2, Hs1|].
      intros id. rewrite Hrefs, Hleft, Hstep. assert (Heq : forall z, row_at b1 z = row_at b z) by (intros; by rewrite (row_at_becomes isa b (slot b)) by done).
      setoid_rewrite Heq. tauto.
Qed.

(** A link that only the first row refers to. *)
Definition dead_link b id : Prop := id ∈ GetHyperlinks (row_at b 0) /\ forall y, 1 <= y < _height b -> id ∉ GetHyperlinks (row_at b y).

Lemma find_filter id (l : list (Z * list Z)) id' : List.find (fun kv => fst kv =? id) (filter (fun kv => fst kv <> id') l) =
  if id =? id' then None else List.find (fun kv => fst kv =? id) l.
Proof using.
  induction l as [|[k v] l IH]; [by destruct (id =? id')|]. rewrite filter_cons. cbn [fst]. destruct (decide (k <> id')) as [Hk|Hk]; cbn [List.find fst].
  - rewrite IH. destruct (Z.eqb_spec k id), (Z.eqb_spec id id'); done || congruence.
  - rewrite IH. assert (k = id') as -> by (destruct (Z.eq_dec k id'); [done|by contradiction Hk]). rewrite (Z.eqb_sym id' id). by destruct (id =? id').
Qed.

Lemma removed_links refs : forall b, let b' := foldr RemoveHyperlinkFromMap b refs in
  _rows b' = _rows b /\ shape b' = shape b /\ _cursor b' = _cursor b /\ forall id, GetHyperlinkUriFromId id b' = if bool_decide (id ∈ refs) then Throws else GetHyperlinkUriFromId id b.
Proof using.
  induction refs as [|x refs IH]; intros b b'; [done|]. destruct (IH b) as (H1 & H2 & H4 & H3). subst b'. cbn [foldr]. split; [done|]. split; [done|]. split; [done|]. intros id.
  unfold GetHyperlinkUriFromId in *. cbn [RemoveHyperlinkFromMap _hyperlinkMap setter TextBuffer_eta]. rewrite find_filter. destruct (Z.eqb_spec id x) as [->|Hne].
  - by rewrite bool_decide_true by apply list_elem_of_here.
  - rewrite H3. destruct (decide (id ∈ refs)).
    + by rewrite !bool_decide_true by (done || by apply list_elem_of_further).
    + rewrite !bool_decide_false; [done|by intros [?|?]%elem_of_cons|done].
Qed.

Lemma rows_shape_ok b c : _rows c = _rows b -> shape c = shape b -> buffer_ok b -> buffer_ok c /\ forall i, slot c i = slot b i.
Proof using.
  intros Hr Hs [Hw Hh Hf Hc Ho]. pose proof (fresh_shape isa b c Hs) as Hfr. assert (E : _width c = _width b /\ _height c = _height b /\ _firstRow c = _firstRow b) by (unfold shape in Hs; split_and!; congruence).
  destruct E as (E1 & E2 & E3). split.
  - split; unfold watermark, capacity in *; rewrite ?E1, ?E2, ?E3, ?Hr; try done. eapply Forall_impl; [|exact Ho]. intros r. by apply row_ok_shape.
  - intros i. unfold TextBufferFacts.slot. by rewrite Hr, Hfr.
Qed.

Lemma prune_ok b : buffer_ok b -> exists b', _PruneHyperlinks isa b = Done b' /\ buffer_ok b' /\ shape b' = shape b /\ (forall i, slot b' i = slot b i) /\
  (forall id, (dead_link b id -> GetHyperlinkUriFromId id b' = Throws) /\ (~ dead_link b id -> GetHyperlinkUriFromId id b' = GetHyperlinkUriFromId id b)) /\ _cursor b' = _cursor b.
Proof using.
  intros Hb. unfold _PruneHyperlinks. destruct (read_row_ok isa b 0 Hb) as (b1 & -> & Hb1). cbn [obind]. pose proof Hb1 as [Hok1 Hsh1 Hli1 Hsl1 _].
  assert (Huri : forall b2 id, _hyperlinkMap b2 = _hyperlinkMap b -> GetHyperlinkUriFromId id b2 = GetHyperlinkUriFromId id b) by (intros b2 id E; unfold GetHyperlinkUriFromId; by rewrite E).
  destruct (GetHyperlinks (row_at b 0)) as [|x links] eqn:El.
  - exists b1. split; [done|]. split; [done|]. split; [done|]. split; [done|]. split; [|apply (TextBufferFacts.be_cursor _ _ _ _ Hb1)]. intros id. split; [|intros _; apply Huri; congruence]. intros [H _]. rewrite El in H. by apply not_elem_of_nil in H.
  - assert (Hh1 : _height b1 = _height b) by (unfold shape in Hsh1; congruence). unfold TotalRowCount. rewrite Hh1.
    destruct (prune_loop_ok (Z.to_nat (_height b - 1)) b1 1 (remove_dups (x :: links)) Hok1) as (b2 & refs & -> & Hb2 & Hrefs). cbn [obind].
    pose proof Hb2 as [Hok2 Hsh2 Hli2 Hsl2 _]. destruct (removed_links refs b2) as (Hr & Hs & Hcu & Hl). eexists. split; [reflexivity|].
    destruct (rows_shape_ok b2 _ Hr Hs Hok2) as [Hok Hsl]. split; [done|]. split; [congruence|]. split; [intros; by rewrite Hsl, Hsl2, Hsl1|].
    assert (Hdead : forall id, id ∈ refs <-> dead_link b id).
    { intros id. rewrite Hrefs, elem_of_remove_dups, <- El. unfold dead_link. assert (Heq : forall z, row_at b1 z = row_at b z) by (intros; by rewrite (row_at_becomes isa b (slot b)) by done).
      split; intros [H1 H2]; (split; [done|]).
      - intros y Hy. specialize (H2 (Z.to_nat (y - 1)) ltac:(lia)). rewrite Heq in H2. by replace (1 + Z.of_nat (Z.to_nat (y - 1))) with y in H2 by lia.
      - intros k Hk. rewrite Heq. apply H2. lia. }
    split; [|rewrite Hcu, (TextBufferFacts.be_cursor _ _ _ _ Hb2); apply (TextBufferFacts.be_cursor _ _ _ _ Hb1)]. intros id. rewrite Hl, <- Hdead. split; intros H; [by rewrite bool_decide_true|]. rewrite bool_decide_false by done. apply Huri. congruence.
Qed.

(** Advancing the circular order, with everything else about the buffer. *)
Lemma incremented b a (h := _height b) : buffer_ok b ->
  exists b', IncrementCircularBuffer isa a b = Done b' /\ buffer_ok b' /\ (forall y, 0 <= y < h - 1 -> row_at b' y = row_at b (y + 1)) /\ blank (_width b) a (row_at b' (h - 1)) /\
    (forall id, (dead_link b id -> GetHyperlinkUriFromId id b' = Throws) /\ (~ dead_link b id -> GetHyperlinkUriFromId id b' = GetHyperlinkUriFromId id b)) /\
    (_width b', _height b', _currentAttributes b', _cursor b') = (_width b, h, _currentAttributes b, _cursor b).
Proof using.
  intros Hb. unfold IncrementCircularBuffer. destruct (prune_ok b Hb) as (b1 & -> & Hok1 & Hsh1 & Hsl1 & Hlinks & Hcur1). cbn [obind].
  destruct (reset_blank b1 a (row_at b1 0) (slot_row_ok isa b1 _ Hok1)) as (r & Hrun & Hbl & Hrok). destruct (update_row_ok isa b1 0 _ r Hok1 Hrun Hrok) as (b2 & -> & Hb2). cbn [obind].
  pose proof Hb2 as [Hok2 Hsh2 Hli2 Hsl2 _]. eexists. split; [reflexivity|]. pose proof Hok2 as [Hw2 Hh2 Hf2 Hc2 Hr2].
  assert (E : _width b2 = _width b /\ _height b2 = h /\ _firstRow b2 = _firstRow b /\ _width b1 = _width b) by (unfold shape in *; unfold h; split_and!; congruence). destruct E as (E1 & E2 & E3 & E4).
  assert (Hheight : View.Height (GetSize b2) = h) by (unfold View.Height, View.BottomExclusive, View.Top, GetSize, FromDimensions; cbn; lia). rewrite Hheight.
  set (first := if _ >=? h then 0 else _). assert (Hfirst : first = (_firstRow b + 1) mod h /\ 0 <= first < h).
  { unfold first. rewrite E3 in *. destruct (Z.geb_spec (_firstRow b + 1) h); [|rewrite Z.mod_small; lia]. assert (_firstRow b + 1 = h) as -> by lia. rewrite Z.mod_same; lia. }
  destruct Hfirst as [Hfirst Hrange]. set (b3 := b2 <| _firstRow := first |>).
  assert (Hph : forall y, phys b3 y = phys b (y + 1)).
  { intros y. unfold phys. cbn [_firstRow _height b3 setter TextBuffer_eta]. rewrite E2, Hfirst, Z.add_mod_idemp_l by lia. fold h. do 3 f_equal. lia. }
  assert (Hsl3 : forall i, slot b3 i = slot b2 i) by done.
  split; [split; [done|done|change (_firstRow b3) with first; change (_height b3) with (_height b2); lia|done|done]|]. assert (Hp0 : phys b1 0 = phys b 0) by (by apply phys_shape). split_and!.
  - intros y Hy. unfold TextBufferFacts.row_at. rewrite Hph, Hsl3, Hsl2, Hp0, upd_other, Hsl1; [done|]. intros Ep. apply (phys_injective b) in Ep; [lia|done|fold h; lia|fold h; lia].
  - unfold TextBufferFacts.row_at. rewrite Hph, Hsl3, Hsl2, Hp0. replace (phys b (h - 1 + 1)) with (phys b 0); [rewrite upd_same; by rewrite <- E4|].
    unfold phys. fold h. replace (_firstRow b + (h - 1 + 1)) with (_firstRow b + 0 + 1 * h) by lia. by rewrite Z.mod_add by lia.
  - intros id. destruct (Hlinks id) as [H1 H2]. assert (Hu : GetHyperlinkUriFromId id b3 = GetHyperlinkUriFromId id b1).
    { unfold GetHyperlinkUriFromId. cbn [_hyperlinkMap b3 setter TextBuffer_eta]. injection Hli2 as -> _. done. }
    rewrite Hu. done.
  - cbn. rewrite (TextBufferFacts.be_cursor _ _ _ _ Hb2), Hcur1. unfold shape in *. unfold h. congruence.
Qed.

(** C16: advancing the circular buffer is dropping the first line of the list
    of lines and adding a blank one at its end; nothing is copied.  The map
    of hyperlinks loses exactly the links that only the dropped line used. *)
Theorem buffer_increment b a (h := _height b) : buffer_ok b ->
  exists b', IncrementCircularBuffer isa a b = Done b' /\ buffer_ok b' /\ (forall y, 0 <= y < h - 1 -> row_at b' y = row_at b (y + 1)) /\ blank (_width b) a (row_at b' (h - 1)) /\
    forall id, (dead_link b id -> GetHyperlinkUriFromId id b' = Throws) /\ (~ dead_link b id -> GetHyperlinkUriFromId id b' = GetHyperlinkUriFromId id b).
Proof using.
  intros Hb. destruct (incremented b a Hb) as (b' & -> & ? & ? & ? & ? & _). by exists b'.
Qed.

(** ** Dropping the scrollback *)

Lemma clear_marks_ok b r : row_ok b r -> row_ok b (clear_marks r).
Proof using. intros [[Hw H1 H2 H3 H4] Hc]. split; [|done]. split; try done. cbn. by destruct (_runs (_attr r)). Qed.

Lemma clear_marks_line r gs : plain_line r gs -> plain_line (clear_marks r) gs.
Proof using.
  intros [Hh Hs Hp]. split; [|done|done]. pose proof (ho_storage _ _ Hh) as []. apply (holds_members r); try done. cbn. by destruct (_runs (_attr r)).
Qed.

Lemma cleared_marks b line start end_ : buffer_ok b -> lines b line -> py start = 0 -> 0 <= py end_ < _height b ->
  exists b', ClearMarksInRange isa start end_ b = Done b' /\ buffer_ok b' /\ shape b' = shape b /\ lines b' line /\
    forall y, py end_ < y < _height b -> row_at b' y = row_at b y.
Proof using.
  intros Hb [Hpl Hroom] Hs He. unfold ClearMarksInRange. rewrite Hs, Z.min_l, Z.max_r by lia. set (est := _estimateOffsetOfLastCommittedRow b).
  assert (Hc : clamp 0 0 (_height b - 1) = 0) by (unfold clamp; destruct (Z.ltb_spec 0 0), (Z.gtb_spec 0 (_height b - 1)); lia). rewrite Hc.
  assert (Hn : 0 <= clamp (py end_) 0 est <= py end_).
  { assert (0 <= est) by (unfold est, _estimateOffsetOfLastCommittedRow; lia). unfold clamp. destruct (Z.ltb_spec (py end_) 0), (Z.gtb_spec (py end_) est); lia. }
  set (n := Z.to_nat (clamp (py end_) 0 est - 0 + 1)). destruct (update_rows_ok isa (fun r => Done (clear_marks r)) clear_marks n b 0) as (b' & -> & [Hok Hsh _ Hsl _]); [done|lia|lia|intros k r _; split; [done|by apply clear_marks_ok, slot_row_ok]|].
  exists b'. split; [done|]. split; [done|]. split; [done|]. split.
  - split; [|done]. intros i Hi. rewrite Hsl. destruct (decide _); [apply clear_marks_line|]; by apply Hpl.
  - intros y Hy. unfold TextBufferFacts.row_at. rewrite (phys_shape b b'), Hsl by done. rewrite decide_False; [done|]. rewrite elem_numbers. intros (k & Hk & E).
    apply (phys_injective b) in E; [lia|done|lia|lia].
Qed.

(** Clearing the rows from a position on, as far as they are constructed. *)
Lemma cleared_rows b keep (a := _initialAttributes b) (n := Z.to_nat (_estimateOffsetOfLastCommittedRow b - keep + 1)) : buffer_ok b -> _firstRow b = 0 -> 2 <= watermark b -> 0 <= keep <= _height b ->
  exists b', update_rows isa n keep (Row_Reset isa a) b = Done b' /\ buffer_ok b' /\ shape b' = shape b /\
    (forall y, 0 <= y < keep -> row_at b' y = row_at b y) /\ forall y, keep <= y < _height b -> blank (_width b) a (row_at b' y).
Proof using.
  intros Hb Hf Hwm Hk. pose proof Hb as [Hw Hh _ Hc _]. set (reset := fun r => match Row_Reset isa a r with Done r' => r' | _ => r end).
  assert (Hest : _estimateOffsetOfLastCommittedRow b = watermark b - 2) by (unfold _estimateOffsetOfLastCommittedRow; lia). unfold capacity in Hc.
  destruct (update_rows_ok isa (Row_Reset isa a) reset n b keep) as (b' & -> & [Hok Hsh _ Hsl _]); [done|lia|lia| |].
  { intros k r _. unfold reset. destruct (reset_blank b a r (slot_row_ok isa b _ Hb)) as (r' & -> & _ & ?). done. }
  assert (Hph : forall y, 0 <= y < _height b -> phys b y = S (Z.to_nat y)) by (intros; unfold phys; rewrite Hf, Z.mod_small by lia; f_equal).
  exists b'. split; [done|]. split; [done|]. split; [done|]. split; intros y Hy; unfold TextBufferFacts.row_at; rewrite (phys_shape b b'), Hsl by done.
  - rewrite decide_False; [done|]. rewrite elem_numbers. intros (k & Hk' & E). apply (phys_injective b) in E; [lia|done|lia|lia].
  - destruct (decide (phys b y ∈ numbers b keep n)) as [|Hnot].
    + destruct (reset_blank b a (slot b (phys b y)) (slot_row_ok isa b _ Hb)) as (r' & E & Hbl & _). unfold reset. by rewrite E.
    + assert (Hge : (length (_rows b) <= phys b y)%nat).
      { destruct (decide (phys b y < length (_rows b))%nat) as [Hlt|]; [|lia]. exfalso. apply Hnot, elem_numbers. rewrite Hph in Hlt by lia. unfold watermark in *.
        exists (Z.to_nat (y - keep)). split; [lia|]. f_equal. lia. }
      unfold TextBufferFacts.slot. rewrite lookup_ge_None_2 by done. cbn. destruct (fresh_ok isa b Hw) as (_ & _ & H1 & H2 & H3 & H4). by split.
Qed.

(** C26: dropping the scrollback keeps the rows it is asked to keep, with
    their lines, attributes and wrap marks, as the first rows of the buffer,
    and blanks all others, provided the kept rows do not run past the end of
    the storage, and that every row of the buffer is of single width and not
    padded for a wide glyph that did not fit, with room for the text of any
    other ([lines]). *)
Theorem scrollback_cleared b line newFirstRow rowsToKeep (h := _height b) : buffer_ok b -> lines b line ->
  0 < newFirstRow -> 0 < rowsToKeep -> newFirstRow + rowsToKeep <= h -> (_firstRow b + newFirstRow) mod h + rowsToKeep <= h ->
  exists b', ClearScrollback garbage isa newFirstRow rowsToKeep b = Done b' /\ buffer_ok b' /\
    (forall y, 0 <= y < rowsToKeep -> copy_of (row_at b (newFirstRow + y)) (line (phys b (newFirstRow + y))) (row_at b' y)) /\
    forall y, rowsToKeep <= y < h -> blank (_width b) (_initialAttributes b) (row_at b' y).
Proof.
  intros Hb Hl Hn Hk Hnk Hwrap. pose proof Hb as [Hw Hh Hf _ _]. unfold ClearScrollback. rewrite (proj2 (Z.leb_gt _ 0)), (proj2 (Z.leb_gt rowsToKeep 0)), Z.max_r by lia.
  destruct (cleared_marks b line (mk_point 0 0) (mk_point (_width b) (newFirstRow - 1)) Hb Hl eq_refl) as (b1 & -> & Hok1 & Hsh1 & Hl1 & Hrow1); [cbn; fold h; lia|]. cbn [obind py] in *.
  assert (E1 : _width b1 = _width b /\ _height b1 = h /\ _firstRow b1 = _firstRow b /\ _initialAttributes b1 = _initialAttributes b) by (unfold shape in Hsh1; unfold h; split_and!; congruence).
  destruct E1 as (Ew1 & Eh1 & Ef1 & Ei1). rewrite Ef1. set (start := _firstRow b + newFirstRow) in *. set (b2 := b1 <| _firstRow := 0 |>).
  assert (Hok2 : buffer_ok b2) by (destruct Hok1; split; try done; change (_firstRow b2) with 0; change (_height b2) with (_height b1); lia).
  assert (Hph2 : forall y, phys b2 y = S (Z.to_nat (y mod h))) by (intros y; unfold phys; change (_firstRow b2) with 0; change (_height b2) with (_height b1); by rewrite Eh1).
  assert (Hl2 : lines b2 line) by (destruct Hl1; by split).
  unfold ScrollRows. rewrite (proj2 (Z.eqb_neq _ 0)), (proj2 (Z.ltb_lt _ 0)), Z.max_r by lia.
  assert (Hsrc : forall k, (k < Z.to_nat rowsToKeep)%nat -> (start + Z.of_nat k * 1) mod h = start mod h + Z.of_nat k).
  { intros k Hk'. replace (start + Z.of_nat k * 1) with (start + Z.of_nat k) by lia. rewrite <- Z.add_mod_idemp_l by lia. apply Z.mod_small. pose proof (Z.mod_pos_bound start h). lia. }
  assert (Hdst : forall k, (k < Z.to_nat rowsToKeep)%nat -> (start + Z.of_nat k * 1 + - start) mod h = Z.of_nat k).
  { intros k Hk'. replace (start + Z.of_nat k * 1 + - start) with (Z.of_nat k) by lia. apply Z.mod_small. lia. }
  destruct (scroll_loop_ok (Z.to_nat rowsToKeep) b2 line start 1 (- start) Hok2 Hl2) as (b3 & line3 & -> & Hok3 & Hsh3 & _ & Hcop & _ & _ & Hwm & _).
  { intros i k Hik. rewrite !Hph2, !Hdst, Hsrc by lia. pose proof (Z.mod_pos_bound start h ltac:(lia)). split; lia. }
  cbn [obind]. assert (E3 : _width b3 = _width b /\ _height b3 = h /\ _firstRow b3 = 0 /\ _initialAttributes b3 = _initialAttributes b).
  { unfold shape in Hsh3. injection Hsh3 as -> -> -> -> _. done. }
  destruct E3 as (Ew3 & Eh3 & Ef3 & Ei3). destruct (cleared_rows b3 rowsToKeep Hok3 Ef3) as (b4 & Hrun & Hok4 & _ & Hkept & Hblank); [apply Hwm; lia|lia|].
  exists b4. split; [exact Hrun|]. split; [done|]. split.
  - intros y Hy. rewrite Hkept by lia. destruct (Hcop (Z.to_nat y) ltac:(lia)) as (_ & Hc & _). rewrite !Hph2, Hdst, Hsrc in Hc by lia.
    unfold TextBufferFacts.row_at at 2. rewrite (phys_shape b2 b3), Hph2, Z.mod_small by (done || lia). replace (Z.of_nat (Z.to_nat y)) with y in Hc by lia.
    assert (Hpy : S (Z.to_nat (start mod h + y)) = phys b (newFirstRow + y)).
    { specialize (Hsrc (Z.to_nat y) ltac:(lia)). unfold phys. fold h. rewrite Z2Nat.id in Hsrc by lia. rewrite <- Hsrc. do 3 f_equal. unfold start. lia. }
    rewrite Hpy in Hc. change (slot b2 (phys b (newFirstRow + y))) with (slot b1 (phys b (newFirstRow + y))) in Hc.
    specialize (Hrow1 (newFirstRow + y) ltac:(fold h; lia)). unfold TextBufferFacts.row_at in Hrow1. rewrite (phys_shape b b1) in Hrow1 by done. rewrite Hrow1 in Hc. exact Hc.
  - intros y Hy. rewrite <- Ew3, <- Ei3. apply Hblank. lia.
Qed.
End Scrolling.

(** * Erasing in the text buffer

    Filling a rectangle with spaces, which is what all erasing comes to:
    the rows of the buffer, their text and their attributes together. *)

From S2P Require Import RleFacts RleRefine.


(** ** Spaces *)

Lemma after_spaces n : forall k, (k <= n)%nat -> after (spaces n) k = spaces (n - k).
Proof. induction n as [|n IH]; intros [|k] Hk; try done; try lia. cbn. rewrite Nat.sub_0_r. apply IH. lia. Qed.

Lemma before_spaces n : forall k, (k <= n)%nat -> before (spaces n) k = spaces k.
Proof. induction n as [|n IH]; intros [|k] Hk; try done; try lia. cbn. rewrite Nat.sub_0_r. f_equal. apply IH. lia. Qed.

(** ** One row *)

(** What is neither text nor attributes. *)
Definition flags r := (_columnCount r, _lineRendition r, _wrapForced r, _promptData r).

(** The row holds the glyphs [gs] with the attributes [l]. *)
Definition shows r gs (l : list TextAttribute) : Prop := holds r gs /\ represents 16 (_attr r) l.

Section Erase.
Context (fallback : option (list Z -> option bool)) (garbage : nat -> Z) (isa : ISA).

Lemma column_inside r gs (c : nat) : holds r gs -> (c <= cols gs)%nat -> column r (Z.of_nat c) = c.
Proof.
  intros [_ _ Hc _ _ _] H. unfold column, clamp. destruct (Z.ltb_spec (Z.of_nat c) 0), (Z.gtb_spec (Z.of_nat c) (_columnCount r)); lia.
Qed.

Lemma attributes_replaced r gs l (from upto : nat) a : shows r gs l -> (from < upto <= cols gs)%nat -> exists r', ReplaceAttributes (Z.of_nat from) (Z.of_nat upto) a r = Done r' /\
  shows r' gs (take from l ++ replicate (upto - from) a ++ drop upto l) /\ flags r' = flags r.
Proof.
  intros [Hh Hr] Hfu. pose proof Hh as [Hs _ Hc _ _ _]. pose proof Hs as [Hw _ _ _ Ht]. pose proof (represents_length 16 _ _ Hr) as Hlen. rewrite Ht in Hlen.
  unfold ReplaceAttributes. rewrite !(proj1 (column_clamped r gs _ Hh)), !(column_inside r gs) by (done || lia).
  assert (Hop : op_ok 16 (OpReplaceValue (Z.of_nat from) (Z.of_nat upto) a) l) by (cbn; lia).
  pose proof (replace_value_agree 16 _ _ _ _ a Hr Hop) as Hag. cbn [list_exec] in Hag. unfold list_replace in Hag.
  rewrite Z.min_l, Z.gtb_ltb, (proj2 (Z.ltb_ge _ _)), !Nat2Z.id in Hag by lia. replace (Z.to_nat (Z.of_nat upto - Z.of_nat from)) with (upto - from)%nat in Hag by lia.
  inversion Hag as [rl l' Hrep E1 E2| |]; subst. cbn [obind]. eexists. split; [reflexivity|]. split; [|done]. split; [|done].
  pose proof (represents_length 16 _ _ Hrep) as Hlen'. rewrite !length_app, length_replicate, length_take, length_drop in Hlen'.
  apply (holds_members r); try done; cbn; [|lia]. intros E. destruct Hrep as (_ & _ & Hv). rewrite E in Hv. apply (f_equal length) in Hv.
  rewrite !length_app, length_replicate in Hv. cbn in Hv. lia.
Qed.

(** What [FillRect] does with each row. *)
Definition fill_row (scratchpad : ROW) (left right : Z) (attributes : TextAttribute) (r : ROW) : outcome ROW :=
  let* (_, res) := CopyTextFrom garbage isa false (mk_RowCopyState scratchpad left right left CoordTypeMax 0 0 0 0) r in
  let* r := or_throw res in
  ReplaceAttributes left right attributes r.

Lemma row_erased scratchpad r gs l (from upto : nat) a : shows r gs l -> holds scratchpad (spaces (cols gs)) -> (from < upto <= cols gs)%nat ->
  has_room gs (repeat 0x20 (cols gs - from)) -> exists r', fill_row scratchpad (Z.of_nat from) (Z.of_nat upto) a r = Done r' /\
    shows r' (overwrite gs from (spaces (upto - from)) upto) (take from l ++ replicate (upto - from) a ++ drop upto l) /\ flags r' = flags r.
Proof.
  intros [Hh Hr] Hsp Hfu Hroom. pose proof Hh as [Hs Hok Hc _ _ _]. unfold fill_row. set (state := mk_RowCopyState _ _ _ _ _ _ _ _ _).
  assert (Hcs : cols (spaces (cols gs)) = cols gs) by apply cols_spaces. pose proof Hsp as [Hss _ Hsc _ _ _]. rewrite Hcs in Hsc.
  assert (HcS : column scratchpad CoordTypeMax = cols gs) by (rewrite (column_full scratchpad _ _ Hsp), Hcs; [done|]; destruct (so_columns _ Hss); unfold CoordTypeMax; lia).
  destruct (row_copied garbage isa state r gs (spaces (cols gs)) Hh Hsp) as (state' & r' & Hrun & Hho & _);
    cbn [rc_source rc_columnBegin rc_columnLimit rc_sourceColumnBegin rc_sourceColumnLimit state] in *;
    rewrite ?HcS, ?(column_inside r gs), ?(column_inside scratchpad (spaces (cols gs))) in * by (done || rewrite ?Hcs; lia);
    rewrite ?after_spaces, ?before_spaces, ?cols_spaces, ?text_spaces, ?Nat.min_l in * by lia; try done; try lia.
  { intros E. apply (f_equal length) in E. rewrite repeat_length in E. cbn in E. lia. }
  rewrite Hrun. cbn [obind or_throw snd fst]. apply copy_text_keeps in Hrun as [K _].
  assert (Hm : (from + (upto - from))%nat = upto) by lia. rewrite ?Hm in Hho.
  assert (Hcols' : cols (overwrite gs from (spaces (upto - from)) upto) = cols gs).
  { destruct Hho as [_ _ Hc' _ _ _]. rewrite (ke_columns _ _ K) in Hc'. lia. }
  destruct (attributes_replaced r' (overwrite gs from (spaces (upto - from)) upto) l from upto a) as (r2 & -> & Hsh & Hcc); [|lia|].
  - split; [done|]. by rewrite (ke_attr _ _ K).
  - exists r2. split; [done|]. split; [done|]. rewrite Hcc. unfold flags. by destruct K as [-> _ -> -> ->].
Qed.

Lemma fill_rows_update n : forall y left right scratchpad a b, fill_rows garbage isa n y left right scratchpad a b = update_rows isa n y (fill_row scratchpad left right a) b.
Proof. induction n as [|n IH]; intros; [done|]. cbn [fill_rows update_rows]. fold (fill_row scratchpad left right a). unfold fill_row at 1. destruct (update_row _ _ _ _); [apply IH|done..]. Qed.

#[local] Abbreviation slot := (TextBufferFacts.slot isa).
#[local] Abbreviation row_at := (TextBufferFacts.row_at isa).
#[local] Abbreviation becomes := (TextBufferFacts.becomes isa).

Lemma scratchpad_ok b a : buffer_ok b -> exists b' r, GetScratchpadRow isa a b = Done (b', 0%nat) /\ becomes b (upd (slot b) 0 r) b' /\ _rows b' !! 0%nat = Some r /\
  blank (_width b) a r /\ row_ok b r.
Proof.
  intros Hb. pose proof Hb as [_ Hh _ _ _]. unfold GetScratchpadRow. destruct (direct_ok isa b 0 Hb ltac:(unfold capacity; lia)) as (b1 & E & Hb1 & Hl). change (Z.of_nat 0) with 0 in E.
  rewrite E. cbn [obind]. unfold deref. rewrite Hl. cbn [obind]. destruct (reset_blank isa b a (slot b 0) (slot_row_ok isa b 0 Hb)) as (r & -> & Hbl & Hr). cbn [obind].
  pose proof Hb1 as [Hok1 Hsh1 _ Hsl1 _]. pose proof (set_row_ok isa b1 0 r Hok1 ltac:(by apply lookup_lt_Some in Hl) ltac:(by apply (row_ok_shape b))) as Hset.
  do 2 eexists. split; [reflexivity|]. pose proof (becomes_trans isa _ _ _ _ _ Hb1 Hset) as [? ? ? Hs ?]. split; [|split; [|done]].
  - split; try done. intros j. rewrite Hs. unfold upd. destruct (j =? 0)%nat; [done|apply Hsl1].
  - cbn. apply list_lookup_insert_eq. by apply lookup_lt_Some in Hl.
Qed.

(** Filling a rectangle with spaces erases exactly its columns in exactly its
    rows: text and attributes to the left, to the right and in the other rows
    are as before, except that a wide glyph that is cut in half leaves a
    space. *)
Lemma rect_erased b (gs : Z -> list glyph) (l : Z -> list TextAttribute) fuel d left top right bottom a (L := Z.to_nat left) (R := Z.to_nat right) :
  buffer_ok b -> 0 <= left < right -> right <= _width b -> 0 <= top < bottom -> bottom <= _height b ->
  (forall y, top <= y < bottom -> shows (row_at b y) (gs y) (l y) /\ has_room (gs y) (repeat 0x20 (Z.to_nat (_width b) - L))) ->
  exists b', FillRect fallback garbage isa fuel d (mk_rect left top right bottom) [0x20] a b = Done (Some (d, b')) /\ buffer_ok b' /\ shape b' = shape b /\ _cursor b' = _cursor b /\
    (forall y, top <= y < bottom -> shows (row_at b' y) (overwrite (gs y) L (spaces (R - L)) R) (take L (l y) ++ replicate (R - L) a ++ drop R (l y)) /\ flags (row_at b' y) = flags (row_at b y)) /\
    (forall y, 0 <= y < _height b -> ~ (top <= y < bottom) -> row_at b' y = row_at b y).
Proof.
  intros Hb Hlr Hrw Htb Hbh Hrows. unfold FillRect. assert (Hne : rect_empty (mk_rect left top right bottom) = false).
  { unfold rect_empty, rect_bool. cbn [Pages.left Pages.top Pages.right Pages.bottom]. by rewrite !Z.geb_leb, !Z.gtb_ltb, !(proj2 (Z.leb_le _ _)), !(proj2 (Z.ltb_lt _ _)) by lia. }
  rewrite Hne. cbn [orb length Nat.eqb]. destruct (scratchpad_ok b a Hb) as (b1 & sp & -> & Hb1 & Hl1 & Hbl & Hsp). cbn [obind]. unfold deref. rewrite Hl1. cbn [obind].
  rewrite bool_decide_true by done. cbn [obind Pages.left Pages.top Pages.right Pages.bottom]. pose proof Hb1 as [Hok1 Hsh1 _ Hsl1 _].
  assert (Hset : set_row 0 sp b1 = b1) by (unfold set_row; rewrite list_insert_id by done; by destruct b1). rewrite Hset, fill_rows_update.
  assert (E1 : _width b1 = _width b /\ _height b1 = _height b) by (unfold shape in Hsh1; split; congruence). destruct E1 as [Ew1 Eh1].
  assert (Hrow1 : forall y, row_at b1 y = row_at b y) by (intros y; rewrite (row_at_becomes isa b _ b1 y Hb1); by rewrite upd_other by (unfold phys; lia)).
  assert (Hrun : forall y, top <= y < bottom -> exists r', fill_row sp left right a (row_at b y) = Done r' /\
    shows r' (overwrite (gs y) L (spaces (R - L)) R) (take L (l y) ++ replicate (R - L) a ++ drop R (l y)) /\ flags r' = flags (row_at b y)).
  { intros y Hy. destruct (Hrows y Hy) as [Hsh Hroom]. pose proof Hsh as [[_ _ Hc _ _ _] _]. pose proof (proj2 (slot_row_ok isa b (phys b y) Hb)) as Hw. fold (row_at b y) in Hw.
    assert (Hcols : cols (gs y) = Z.to_nat (_width b)) by lia. replace left with (Z.of_nat L) by lia. replace right with (Z.of_nat R) by lia.
    apply (row_erased sp); [done|rewrite Hcols; apply Hbl|lia|by rewrite Hcols]. }
  set (g := fun r => match fill_row sp left right a r with Done r' => r' | _ => r end).
  destruct (update_rows_ok isa (fill_row sp left right a) g (Z.to_nat (bottom - top)) b1 top) as (b2 & -> & [Hok2 Hsh2 _ Hsl2 _ Hcu2]); [done|lia|lia| |].
  { intros k r Hk. unfold r. rewrite Hrow1. destruct (Hrun (top + Z.of_nat k) ltac:(lia)) as (r' & E & [Hh _] & Hc). unfold g. rewrite E. split; [done|].
    apply (row_ok_shape b); [done|]. split; [apply Hh|]. injection Hc as -> _ _ _. apply (slot_row_ok isa b _ Hb). }
  cbn [obind]. exists b2. split; [done|]. split; [done|]. split; [congruence|]. split; [rewrite Hcu2; apply (TextBufferFacts.be_cursor _ _ _ _ Hb1)|]. assert (Hnum : forall y, row_at b2 y = if decide (phys b1 y ∈ numbers b1 top (Z.to_nat (bottom - top))) then g (row_at b y) else row_at b y).
  { intros y. unfold TextBufferFacts.row_at at 1. rewrite (phys_shape b1 b2), Hsl2 by done. change (slot b1 (phys b1 y)) with (row_at b1 y). by rewrite Hrow1. }
  split; intros y Hy; [|intros Hout]; rewrite Hnum.
  - rewrite decide_True by (apply elem_numbers; exists (Z.to_nat (y - top)); split; [lia|f_equal; lia]). destruct (Hrun y Hy) as (r' & E & Hsh & Hfl). unfold g. by rewrite E.
  - rewrite decide_False; [done|]. rewrite elem_numbers. intros (k & Hk & E). apply (phys_injective b1) in E; [lia|done|lia|lia].
Qed.
End Erase.
