(* ===== verification/TextBufferWitness.v ===== *)
(** * The text buffer on concrete input

    A buffer of three rows, the theorems on it, and behaviours of the buffer
    that look unintended. *)

From S2P Require Import Prelude TermDispatch TextAttribute Rle RleFacts RleRefine Cursor Pages Graphemes GraphemeFacts Row RowWrite RowFacts RowInit RowFinish RowWrites RowTheorems RowCopy RowWitness Hash Geometry TextBuffer TextBufferFacts TextBufferTheorems.
#[local] Open Scope Z_scope.

(** The second of three rows, in the circular order, has text. *)
Definition small_buffer : TextBuffer :=
  mk_TextBuffer [blank_row; cat_row] TextAttribute_default TextAttribute_default 10 3 2 0 (new_Cursor 25) [(7, [0x75])] [] 8.
Definition small_lines (i : nat) : list glyph := if (i =? 1)%nat then cat_glyphs else spaces 10.

Lemma small_ok : buffer_ok small_buffer.
Proof. split; try (cbn; lia); [unfold watermark, capacity; cbn; lia|]. repeat constructor; apply blank_holds || apply cat_holds. Qed.

Lemma small_lines_ok : lines AVX2 small_buffer small_lines.
Proof.
  split.
  - intros [|[|i]] Hi; [lia|split; [apply cat_holds|done|done]|]. change (slot AVX2 small_buffer (S (S i))) with (fresh AVX2 small_buffer).
    exact (proj1 (proj2 (proj2 (fresh_ok AVX2 small_buffer ltac:(cbn; lia))))).
  - intros i j _ _. unfold small_lines. destruct (i =? 1)%nat, (j =? 1)%nat; done.
Qed.

Lemma scroll_rows_exact_witness : exists b', ScrollRows heap_byte AVX2 1 2 (-1) small_buffer = Done b' /\ plain_line (row_at AVX2 b' 0) cat_glyphs.
Proof.
  destruct (scroll_rows_exact heap_byte AVX2 small_buffer small_lines 1 2 (-1) small_ok small_lines_ok) as (b' & E & _ & H); try (cbn; lia).
  exists b'. split; [exact E|]. destruct (H 0 ltac:(cbn; lia)) as [[Hl _ _] _]. exact Hl.
Defined.

Lemma buffer_increment_witness : exists b', IncrementCircularBuffer AVX2 TextAttribute_default small_buffer = Done b' /\ row_at AVX2 b' 0 = cat_row /\
  GetHyperlinkUriFromId 7 b' = Done [0x75].
Proof.
  destruct (buffer_increment AVX2 small_buffer TextAttribute_default small_ok) as (b' & E & _ & H & _ & Hl). exists b'. split; [exact E|]. split; [apply (H 0); cbn; lia|].
  destruct (Hl 7) as [_ Hk]. apply Hk. intros [Hin _]. vm_compute in Hin. by apply not_elem_of_nil in Hin.
Defined.

Lemma scrollback_cleared_witness : exists b', ClearScrollback heap_byte AVX2 1 2 small_buffer = Done b' /\ plain_line (row_at AVX2 b' 0) cat_glyphs /\
  blank 10 TextAttribute_default (row_at AVX2 b' 2).
Proof.
  destruct (scrollback_cleared heap_byte AVX2 small_buffer small_lines 1 2 small_ok small_lines_ok) as (b' & E & _ & H1 & H2); try (cbn; lia); [by vm_compute|].
  exists b'. split; [exact E|]. split; [apply (H1 0); lia|]. apply (H2 2). cbn. lia.
Defined.

Lemma cat_attributes : represents 16 (_attr (row_at AVX2 small_buffer 1)) (replicate 10 TextAttribute_default).
Proof. split_and!; [repeat constructor; cbn; lia|repeat constructor; cbn; lia|done]. Qed.

(** ** Behaviours that look unintended *)

Definition detector : CodepointWidthDetector := new_CodepointWidthDetector.
Definition write_line (y : Z) (t : list Z) (b : TextBuffer) : outcome TextBuffer :=
  let* (_, _, b) := Replace None heap_byte AVX2 detector y TextAttribute_default (mk_RowWriteState t 0 10 0 0 0) b in Done b.
Fixpoint first_characters (count : nat) (y : Z) (b : TextBuffer) : outcome (list (list Z)) :=
  match count with
  | O => Done []
  | S count =>
      let* (b, r) := GetRowByOffset AVX2 y b in
      let* t := GetText r in
      let* rest := first_characters count (y + 1) b in
      Done (take 1 t :: rest)
  end.
Fixpoint write_lines (y : Z) (ts : list (list Z)) (b : TextBuffer) : outcome TextBuffer :=
  match ts with
  | [] => Done b
  | t :: ts => let* b := write_line y t b in write_lines (y + 1) ts b
  end.

(** Six lines A to F, and one more, G, which moves A out of the buffer. *)
Definition rotated_buffer : outcome TextBuffer :=
  let* b := new_TextBuffer 10 6 TextAttribute_default 25 0 in
  let* b := write_lines 0 [wstr "A"; wstr "B"; wstr "C"; wstr "D"; wstr "E"; wstr "F"] b in
  let* b := IncrementCircularBuffer AVX2 TextAttribute_default b in
  write_line 5 (wstr "G") b.

(** When the rows to keep run past the end of the storage, dropping the
    scrollback overwrites one of them before it is copied: of the lines E, F
    and G of a buffer, the first two are kept and the third is replaced by
    the first. *)
Theorem scrollback_overwrites_kept_rows :
  (let* b := rotated_buffer in first_characters 6 0 b) = Done [wstr "B"; wstr "C"; wstr "D"; wstr "E"; wstr "F"; wstr "G"] /\
  (let* b := rotated_buffer in let* b := ClearScrollback heap_byte AVX2 3 3 b in first_characters 3 0 b) = Done [wstr "E"; wstr "F"; wstr "E"].
Proof. split; vm_compute; reflexivity. Qed.

(** A line that ends with the padding of a wide glyph that did not fit: the
    copy of the row leaves what was in the last column. *)
Theorem padded_row_copied_stale :
  (let* b := new_TextBuffer 10 2 TextAttribute_default 25 0 in
   let* b := write_lines 0 [wstr "xxxxxxxxxx"; wstr "aaaaaaaaa" ++ [0x732B]] b in
   let* (b, r) := GetRowByOffset AVX2 1 b in
   let* b := CopyRow heap_byte AVX2 1 0 b in
   let* (b, r') := GetRowByOffset AVX2 0 b in
   Done (_chars r, _chars r')) = Done (wstr "aaaaaaaaa ", wstr "aaaaaaaaax").
Proof. vm_compute. reflexivity. Qed.

(** Filling with a mark that combines gains no column after the first, as each
    mark joins the ones before it: after a hundred iterations for ten columns
    the loop is still at its second column, and the text of the scratchpad
    row grows with every one. *)
Theorem fill_with_mark_stuck :
  (let* b := new_TextBuffer 10 2 TextAttribute_default 25 0 in
   let* filled := FillRect None heap_byte AVX2 100 detector (mk_rect 0 0 10 1) [0x301] TextAttribute_default b in
   Done (match filled with None => true | Some _ => false end)) = Done true.
Proof. vm_compute. reflexivity. Qed.

(** Text that has no width takes no column when it is measured, and one when
    it is written; a glyph that does not fit is counted. *)
Theorem fit_differs_from_row :
  (let* (_, dist, columns) := FitTextIntoColumns None detector [0x200B] 10 in Done (dist, columns)) = Done (1%nat, 0) /\
  (let* (_, state, _) := ReplaceText None heap_byte AVX2 detector (mk_RowWriteState [0x200B] 0 10 0 0 0) blank_row in Done (rw_columnEnd state)) = Done 1 /\
  (let* (_, dist, columns) := FitTextIntoColumns None detector [0x732B] 1 in Done (dist, columns)) = Done (0%nat, 2).
Proof. split_and!; vm_compute; reflexivity. Qed.

Fixpoint advance (count : nat) (b : TextBuffer) : outcome TextBuffer :=
  match count with
  | O => Done b
  | S count => let* b := IncrementCircularBuffer AVX2 TextAttribute_default b in advance count b
  end.

(** The number of constructed rows is taken for a position of the circular
    order: after a reset, text behind it is not found. *)
Theorem last_text_missed :
  (let* b := new_TextBuffer 10 140 TextAttribute_default 25 0 in
   let* b := advance 10 b in
   let* b := write_line 135 (wstr "x") (Reset b) in
   let* (_, p) := GetLastNonSpaceCharacter AVX2 None b in
   Done p) = Done (mk_point 0 0).
Proof. vm_compute. reflexivity. Qed.
