(* ===== verification/Cells.v ===== *)
(** * Cells

    The classes [OutputCellView], [OutputCell] and [OutputCellIterator] of
    [buffer/out], which describe text to write cell by cell, the class
    [TextBufferCellIterator], which reads the cells of a buffer, and the
    methods that write cells, [ROW::WriteCells] and [TextBuffer::WriteLine]
    and [Write].  Redrawing is left out. *)

From S2P Require Import Prelude TermDispatch TextAttribute Rle Cursor Pages Graphemes TerminalInput Row RowWrite Hash Geometry TextBuffer.
#[local] Open Scope Z_scope.

Inductive TextAttributeBehavior := Stored | Current | StoredOnly.

#[export] Instance TextAttributeBehavior_eq_dec : EqDecision TextAttributeBehavior.
Proof. solve_decision. Defined.

(** A cell that is looked at, and one that owns its text. *)
Record OutputCellView := mk_OutputCellView { cv_chars : list Z; cv_dbcsAttr : DbcsAttribute; cv_textAttr : TextAttribute; cv_behavior : TextAttributeBehavior }.
Record OutputCell := mk_OutputCell { oc_text : list Z; oc_dbcsAttribute : DbcsAttribute; oc_textAttribute : TextAttribute; oc_behavior : TextAttributeBehavior }.

#[export] Instance DbcsAttribute_eq_dec : EqDecision DbcsAttribute.
Proof. solve_decision. Defined.

Definition Columns (v : OutputCellView) : Z := match cv_dbcsAttr v with DbcsLeading => 2 | _ => 1 end.
Definition view_eqb (v w : OutputCellView) : bool :=
  bool_decide (cv_chars v = cv_chars w) && bool_decide (cv_dbcsAttr v = cv_dbcsAttr w) && bool_decide (cv_textAttr v = cv_textAttr w) &&
  bool_decide (cv_behavior v = cv_behavior w).

Definition InvalidTextAttribute : TextAttribute := TextAttribute_rgb 0xFFFFFFFF 0xFFFFFFFF 0xFFFFFFFF.

Definition OutputCell_of_view (v : OutputCellView) : OutputCell := mk_OutputCell (cv_chars v) (cv_dbcsAttr v) (cv_textAttr v) (cv_behavior v).
Definition OutputCell_with_attribute (charData : list Z) (dbcs : DbcsAttribute) (a : TextAttribute) : outcome OutputCell :=
  match charData with [] => Throws | _ => Done (mk_OutputCell charData dbcs a Stored) end.
Definition OutputCell_with_behavior (charData : list Z) (dbcs : DbcsAttribute) (behavior : TextAttributeBehavior) : outcome OutputCell :=
  match charData with
  | [] => Throws
  | _ => if bool_decide (behavior = Stored) then Throws else Done (mk_OutputCell charData dbcs InvalidTextAttribute behavior)
  end.
Definition OutputCell_TextAttr (c : OutputCell) : outcome TextAttribute :=
  if bool_decide (oc_behavior c = Current) then Throws else Done (oc_textAttribute c).

(** ** Cells to write *)

(** The character and the attribute of a cell in the console API. *)
Record CHAR_INFO := mk_CHAR_INFO { UnicodeChar : Z; Attributes : Z }.
Definition COMMON_LVB_LEADING_BYTE : Z := 0x100.
Definition COMMON_LVB_TRAILING_BYTE : Z := 0x200.
Definition COMMON_LVB_SBCSDBCS : Z := 0x300.

(** The mode of an iterator with the run that it goes through. *)
Inductive CellRun :=
| Loose (text : list Z)
| LooseTextOnly (text : list Z)
| Fill
| LegacyAttr (legacyAttrs : list Z)
| CharInfo (charInfos : list CHAR_INFO)
| CellMode (cells : list OutputCell).

Record OutputCellIterator := mk_OutputCellIterator {
  it_run : CellRun;
  it_currentView : OutputCellView;
  it_attr : TextAttribute;
  it_pos : nat;
  it_distance : nat;
  it_fillLimit : nat;
}.

#[export] Instance OutputCellIterator_eta : Eta OutputCellIterator := fun i =>
  mk_OutputCellIterator (it_run i) (it_currentView i) (it_attr i) (it_pos i) (it_distance i) (it_fillLimit i).

(** [til::utf16_next]: the first code point, or U+FFFD for half of a pair. *)
Definition utf16_next (wstr : list Z) : list Z :=
  match wstr with
  | [] => [0xFFFD]
  | wch :: rest =>
      if is_surrogate wch then
        match rest with
        | wch2 :: _ => if is_leading_surrogate wch && (Z.land wch2 0xFC00 =? 0xDC00) then [wch; wch2] else [0xFFFD]
        | [] => [0xFFFD]
        end
      else [wch]
  end.

Section Cells.
Context (fallback : option (list Z -> option bool)) (garbage : nat -> Z) (isa : ISA) (legacy : LegacyDefaults).

Definition IsGlyphFullWidth (d : CodepointWidthDetector) (glyph : list Z) : outcome (CodepointWidthDetector * bool) :=
  let* (d, state, _) := GraphemeNext fallback d new_GraphemeState (mk_wview text_id glyph) in
  Done (d, gs_width state =? 2).
Definition IsCharFullWidth (d : CodepointWidthDetector) (wch : Z) : outcome (CodepointWidthDetector * bool) :=
  if wch <? 0x80 then Done (d, false) else IsGlyphFullWidth d [wch].

Definition leading_or_single (wide : bool) : DbcsAttribute := if wide then DbcsLeading else DbcsSingle.

Definition s_GenerateView (d : CodepointWidthDetector) (view : list Z) (attr : TextAttribute) (behavior : TextAttributeBehavior)
    : outcome (CodepointWidthDetector * OutputCellView) :=
  let glyph := utf16_next view in
  let* (d, wide) := IsGlyphFullWidth d glyph in
  Done (d, mk_OutputCellView glyph (leading_or_single wide) attr behavior).
Definition view_of_char (d : CodepointWidthDetector) (wch : Z) (attr : TextAttribute) (behavior : TextAttributeBehavior)
    : outcome (CodepointWidthDetector * OutputCellView) :=
  let* (d, wide) := IsCharFullWidth d wch in
  Done (d, mk_OutputCellView [wch] (leading_or_single wide) attr behavior).
Definition view_of_attr (attr : TextAttribute) : OutputCellView := mk_OutputCellView [] DbcsSingle attr StoredOnly.
Definition s_GenerateViewLegacyAttr (legacyAttr : Z) : OutputCellView :=
  view_of_attr (TextAttribute_legacy legacy (Z.ldiff legacyAttr COMMON_LVB_SBCSDBCS)).
Definition view_of_charInfo (c : CHAR_INFO) : OutputCellView :=
  let dbcsAttr :=
    if negb (Z.land (Attributes c) COMMON_LVB_LEADING_BYTE =? 0) then DbcsLeading
    else if negb (Z.land (Attributes c) COMMON_LVB_TRAILING_BYTE =? 0) then DbcsTrailing else DbcsSingle in
  mk_OutputCellView [UnicodeChar c] dbcsAttr (TextAttribute_legacy legacy (Attributes c)) Stored.
Definition view_of_cell (c : OutputCell) : outcome OutputCellView :=
  let* a := OutputCell_TextAttr c in
  Done (mk_OutputCellView (oc_text c) (oc_dbcsAttribute c) a (oc_behavior c)).

(** The constructors. *)
Definition fill_char (d : CodepointWidthDetector) (wch : Z) (fillLimit : nat) : outcome (CodepointWidthDetector * OutputCellIterator) :=
  let* (d, v) := view_of_char d wch InvalidTextAttribute Current in
  Done (d, mk_OutputCellIterator Fill v InvalidTextAttribute 0 0 fillLimit).
Definition fill_attr (attr : TextAttribute) (fillLimit : nat) : OutputCellIterator :=
  mk_OutputCellIterator Fill (view_of_attr attr) InvalidTextAttribute 0 0 fillLimit.
Definition fill_char_attr (d : CodepointWidthDetector) (wch : Z) (attr : TextAttribute) (fillLimit : nat)
    : outcome (CodepointWidthDetector * OutputCellIterator) :=
  let* (d, v) := view_of_char d wch attr Stored in
  Done (d, mk_OutputCellIterator Fill v InvalidTextAttribute 0 0 fillLimit).
Definition fill_charInfo (c : CHAR_INFO) (fillLimit : nat) : OutputCellIterator :=
  mk_OutputCellIterator Fill (view_of_charInfo c) InvalidTextAttribute 0 0 fillLimit.
Definition over_text (d : CodepointWidthDetector) (utf16Text : list Z) : outcome (CodepointWidthDetector * OutputCellIterator) :=
  let* (d, v) := s_GenerateView d utf16Text InvalidTextAttribute Current in
  Done (d, mk_OutputCellIterator (LooseTextOnly utf16Text) v InvalidTextAttribute 0 0 0).
Definition over_text_attr (d : CodepointWidthDetector) (utf16Text : list Z) (attribute : TextAttribute) (fillLimit : nat)
    : outcome (CodepointWidthDetector * OutputCellIterator) :=
  let* (d, v) := s_GenerateView d utf16Text attribute Stored in
  Done (d, mk_OutputCellIterator (Loose utf16Text) v attribute 0 0 fillLimit).
Definition over_legacyAttrs (legacyAttrs : list Z) : outcome OutputCellIterator :=
  let* a := deref legacyAttrs 0 in
  Done (mk_OutputCellIterator (LegacyAttr legacyAttrs) (s_GenerateViewLegacyAttr a) InvalidTextAttribute 0 0 0).
Definition over_charInfos (charInfos : list CHAR_INFO) : outcome OutputCellIterator :=
  let* c := deref charInfos 0 in
  Done (mk_OutputCellIterator (CharInfo charInfos) (view_of_charInfo c) InvalidTextAttribute 0 0 0).
Definition over_cells (cells : list OutputCell) : outcome OutputCellIterator :=
  let* c := deref cells 0 in
  let* v := view_of_cell c in
  Done (mk_OutputCellIterator (CellMode cells) v InvalidTextAttribute 0 0 0).

Definition it_valid (it : OutputCellIterator) : bool :=
  match it_run it with
  | Loose text | LooseTextOnly text => (it_pos it <? length text)%nat
  | Fill => if (0 <? it_fillLimit it)%nat then (it_pos it <? it_fillLimit it)%nat else true
  | CellMode cells => (it_pos it <? length cells)%nat
  | CharInfo charInfos => (it_pos it <? length charInfos)%nat
  | LegacyAttr legacyAttrs => (it_pos it <? length legacyAttrs)%nat
  end.
Definition Position (it : OutputCellIterator) : nat := it_pos it.
Definition GetCellDistance (it other : OutputCellIterator) : Z := Z.of_nat (it_distance it) - Z.of_nat (it_distance other).
Definition GetInputDistance (it other : OutputCellIterator) : Z := Z.of_nat (it_pos it) - Z.of_nat (it_pos other).

Definition with_half (half : DbcsAttribute) (v : OutputCellView) : OutputCellView :=
  mk_OutputCellView (cv_chars v) half (cv_textAttr v) (cv_behavior v).
Definition _TryMoveTrailing (it : OutputCellIterator) : OutputCellIterator * bool :=
  match cv_dbcsAttr (it_currentView it) with
  | DbcsLeading => (it <| it_currentView := with_half DbcsTrailing (it_currentView it) |>, true)
  | _ => (it, false)
  end.

(** The step over a text, whose cells are as long as their glyphs. *)
Definition next_in_text (d : CodepointWidthDetector) (text : list Z) (attr : TextAttribute) (behavior : TextAttributeBehavior) (it : OutputCellIterator)
    : outcome (CodepointWidthDetector * OutputCellIterator) :=
  let '(it, moved) := _TryMoveTrailing it in
  if moved : bool then Done (d, it)
  else
    let it := it <| it_pos := (it_pos it + length (cv_chars (it_currentView it)))%nat |> in
    if it_valid it then
      let* (d, v) := s_GenerateView d (drop (it_pos it) text) attr behavior in
      Done (d, it <| it_currentView := v |>)
    else Done (d, it).

(** The step to the next element of a run. *)
Definition next_element {X} (d : CodepointWidthDetector) (run : list X) (view : X -> outcome OutputCellView) (it : OutputCellIterator)
    : outcome (CodepointWidthDetector * OutputCellIterator) :=
  let it := it <| it_pos := S (it_pos it) |> in
  if it_valid it then
    let* x := deref run (it_pos it) in
    let* v := view x in
    Done (d, it <| it_currentView := v |>)
  else Done (d, it).

Definition it_next (d : CodepointWidthDetector) (it : OutputCellIterator) : outcome (CodepointWidthDetector * OutputCellIterator) :=
  let it := it <| it_distance := S (it_distance it) |> in
  match it_run it with
  | Loose text => next_in_text d text (it_attr it) Stored it
  | LooseTextOnly text => next_in_text d text InvalidTextAttribute Current it
  | Fill =>
      let '(it, moved) := _TryMoveTrailing it in
      if moved : bool then Done (d, it)
      else
        let v := it_currentView it in
        let it := match cv_dbcsAttr v with DbcsTrailing => it <| it_currentView := with_half DbcsLeading v |> | _ => it end in
        Done (d, if (0 <? it_fillLimit it)%nat then it <| it_pos := S (it_pos it) |> else it)
  | CellMode cells => next_element d cells view_of_cell it
  | CharInfo charInfos => next_element d charInfos (fun c => Done (view_of_charInfo c)) it
  | LegacyAttr legacyAttrs => next_element d legacyAttrs (fun a => Done (s_GenerateViewLegacyAttr a)) it
  end.

(** ** Writing cells into a row *)

(** The colour that is collected over several cells. *)
Record ColorRun := mk_ColorRun { cr_color : TextAttribute; cr_uses : Z; cr_starts : Z }.

Definition commit_color (run : ColorRun) (index : Z) (r : ROW) : outcome ROW :=
  let* a := replace_value 16 (_attr r) (cr_starts run) index (cr_color run) in
  Done (r <| _attr := a |>).

Definition write_color (view : OutputCellView) (index : Z) (run : ColorRun) (r : ROW) : outcome (ColorRun * ROW) :=
  if bool_decide (cv_behavior view = Current) then Done (run, r)
  else if bool_decide (cr_color run = cv_textAttr view) then Done (mk_ColorRun (cr_color run) (u16 (cr_uses run + 1)) (cr_starts run), r)
  else
    let* r := commit_color run index r in
    Done (mk_ColorRun (cv_textAttr view) 1 index, r).

(** The text of a cell; whether the iterator goes on. *)
Definition write_text (it : OutputCellIterator) (index finalColumnInRow : Z) (r : ROW) : outcome (ROW * bool) :=
  let view := it_currentView it in
  let chars := cv_chars view in
  match cv_dbcsAttr view with
  | DbcsLeading =>
      if index =? finalColumnInRow then
        let* res := ClearCell garbage isa index r in
        let* r := or_throw res in
        Done (SetDoubleBytePadded true r, false)
      else
        let* res := ReplaceCharacters garbage isa index 2 chars r in
        let* r := or_throw res in
        Done (r, true)
  | DbcsTrailing =>
      let* res :=
        if index =? 0 then ClearCell garbage isa index r
        else if (Position it =? 0)%nat then ReplaceCharacters garbage isa (index - 1) 2 chars r
        else Done (r, false) in
      let* r := or_throw res in
      Done (r, true)
  | DbcsSingle =>
      let* res := ReplaceCharacters garbage isa index 1 chars r in
      let* r := or_throw res in
      Done (r, true)
  end.

Definition write_cell (d : CodepointWidthDetector) (it : OutputCellIterator) (index finalColumnInRow : Z) (wrap : option bool) (r : ROW)
    : outcome (CodepointWidthDetector * OutputCellIterator * ROW) :=
  if bool_decide (cv_behavior (it_currentView it) = StoredOnly) then
    let* (d, it) := it_next d it in
    Done (d, it, r)
  else
    let* (r, goes_on) := write_text it index finalColumnInRow r in
    let* (d, it) := if goes_on : bool then it_next d it else Done (d, it) in
    let r := match wrap with Some w => if index =? finalColumnInRow then Row.SetWrapForced w r else r | None => r end in
    Done (d, it, r).

(** [count] is the number of columns up to the final one. *)
Fixpoint cells_loop (count : nat) (d : CodepointWidthDetector) (it : OutputCellIterator) (index finalColumnInRow : Z) (wrap : option bool) (run : ColorRun) (r : ROW)
    : outcome (CodepointWidthDetector * OutputCellIterator * Z * ColorRun * ROW) :=
  match count with
  | O => Done (d, it, index, run, r)
  | S count =>
      if it_valid it then
        let* (run, r) := write_color (it_currentView it) index run r in
        let* (d, it, r) := write_cell d it index finalColumnInRow wrap r in
        cells_loop count d it (u16 (index + 1)) finalColumnInRow wrap run r
      else Done (d, it, index, run, r)
  end.

Definition WriteCells (d : CodepointWidthDetector) (it : OutputCellIterator) (columnBegin : Z) (wrap : option bool) (limitRight : option Z) (r : ROW)
    : outcome (CodepointWidthDetector * OutputCellIterator * ROW) :=
  if (columnBegin >=? Row_size r) || (default 0 limitRight >=? Row_size r) then Throws
  else
    let finalColumnInRow := u16 (default (Row_size r - 1) limitRight) in
    let colorStarts := u16 columnBegin in
    let* (d, it, index, run, r) :=
      cells_loop (Z.to_nat (finalColumnInRow + 1 - colorStarts)) d it colorStarts finalColumnInRow wrap
        (mk_ColorRun (cv_textAttr (it_currentView it)) 0 colorStarts) r in
    let* r := if cr_uses run =? 0 then Done r else commit_color run index r in
    Done (d, it, r).

(** ** Writing cells into the buffer *)

Definition WriteLine (d : CodepointWidthDetector) (givenIt : OutputCellIterator) (target : point) (wrap : option bool) (limitRight : option Z) (b : TextBuffer)
    : outcome (CodepointWidthDetector * OutputCellIterator * TextBuffer) :=
  if negb (View.IsInBounds (GetSize b) target false) then Done (d, givenIt, b)
  else
    let* (b, i) := GetMutableRowByOffset isa (py target) b in
    let* r := deref (_rows b) i in
    let* (d, newIt, r) := WriteCells d givenIt (px target) wrap limitRight r in
    Done (d, newIt, set_row i r b).

(** [count] is the number of rows from the target on. *)
Fixpoint write_lines (count : nat) (d : CodepointWidthDetector) (it : OutputCellIterator) (lineTarget : point) (wrap : option bool) (b : TextBuffer)
    : outcome (CodepointWidthDetector * OutputCellIterator * TextBuffer) :=
  if it_valid it && View.IsInBounds (GetSize b) lineTarget false then
    match count with
    | O => Undefined
    | S count =>
        let* (d, it, b) := WriteLine d it lineTarget wrap None b in
        write_lines count d it (mk_point 0 (py lineTarget + 1)) wrap b
    end
  else Done (d, it, b).
Definition Write (d : CodepointWidthDetector) (givenIt : OutputCellIterator) (target : point) (wrap : option bool) (b : TextBuffer) :=
  write_lines (Z.to_nat (_height b - py target)) d givenIt target wrap b.

(** ** Cells of a buffer *)

(** The row is a number of the storage. *)
Record TextBufferCellIterator := mk_TextBufferCellIterator {
  ci_pos : point;
  ci_pRow : nat;
  ci_bounds : Viewport;
  ci_exceeded : bool;
  ci_view : OutputCellView;
  ci_attrIter : rle_iterator;
}.

#[export] Instance TextBufferCellIterator_eta : Eta TextBufferCellIterator := fun i =>
  mk_TextBufferCellIterator (ci_pos i) (ci_pRow i) (ci_bounds i) (ci_exceeded i) (ci_view i) (ci_attrIter i).

Definition generate_view (r : ROW) (x : Z) (attrIter : rle_iterator) : outcome OutputCellView :=
  let* chars := GlyphAt r x in
  let* dbcsAttr := DbcsAttrAt r x in
  let* attr := iter_deref (_runs (_attr r)) attrIter in
  Done (mk_OutputCellView chars dbcsAttr attr Stored).
Definition attr_iterator (r : ROW) (x : Z) : outcome rle_iterator := iter_advance 16 (_runs (_attr r)) iter_begin x.
Definition _GenerateView (b : TextBuffer) (it : TextBufferCellIterator) : outcome TextBufferCellIterator :=
  let* r := deref (_rows b) (ci_pRow it) in
  let* v := generate_view r (px (ci_pos it)) (ci_attrIter it) in
  Done (it <| ci_view := v |>).

Definition new_TextBufferCellIterator (pos : point) (limits : Viewport) (b : TextBuffer) : outcome (TextBuffer * TextBufferCellIterator) :=
  let* (b, i) := _getRow isa (py pos) b in
  let* r := deref (_rows b) i in
  if negb (View.ViewportIsInBounds (GetSize b) limits) then Throws
  else if negb (View.IsInBounds limits pos false) then Throws
  else
    let* attrIter := attr_iterator r (px pos) in
    let* it := _GenerateView b (mk_TextBufferCellIterator pos i limits false (mk_OutputCellView [] DbcsSingle TextAttribute_default Stored) attrIter) in
    Done (b, it).
Definition GetCellDataAt (at_ : point) (b : TextBuffer) : outcome (TextBuffer * TextBufferCellIterator) := new_TextBufferCellIterator at_ (GetSize b) b.

Definition ci_valid (it : TextBufferCellIterator) : bool := negb (ci_exceeded it) && View.IsInBounds (ci_bounds it) (ci_pos it) false.
Definition ci_eqb (it other : TextBufferCellIterator) : bool :=
  point_eqb (ci_pos it) (ci_pos other) && Bool.eqb (ci_exceeded it) (ci_exceeded other) && View.eqb (ci_bounds it) (ci_bounds other) &&
  (ci_pRow it =? ci_pRow other)%nat && iter_eqb (ci_attrIter it) (ci_attrIter other).

Definition _SetPos (newPos : point) (b : TextBuffer) (it : TextBufferCellIterator) : outcome (TextBuffer * TextBufferCellIterator) :=
  let* (b, it) :=
    if py newPos =? py (ci_pos it) then Done (b, it)
    else
      let* (b, i) := _getRow isa (py newPos) b in
      Done (b, it <| ci_pRow := i |> <| ci_attrIter := iter_begin |> <| ci_pos := mk_point 0 (py (ci_pos it)) |>) in
  let* r := deref (_rows b) (ci_pRow it) in
  let* attrIter :=
    if px newPos =? px (ci_pos it) then Done (ci_attrIter it)
    else iter_advance 16 (_runs (_attr r)) (ci_attrIter it) (px newPos - px (ci_pos it)) in
  let* it := _GenerateView b (it <| ci_attrIter := attrIter |> <| ci_pos := newPos |>) in
  Done (b, it).

(** The position after some steps, and whether they led past the end. *)
Fixpoint step_forward (move : nat) (bounds : Viewport) (x y : Z) (exceeded : bool) : Z * Z * bool :=
  match move with
  | O => (x, y, exceeded)
  | S move =>
      if x =? View.RightInclusive bounds then
        if y + 1 >? View.BottomInclusive bounds then (View.Left bounds, View.Top bounds, true)
        else step_forward move bounds (View.Left bounds) (y + 1) exceeded
      else step_forward move bounds (x + 1) y false
  end.

Definition cell_forward (move : nat) (b : TextBuffer) (it : TextBufferCellIterator) : outcome (TextBuffer * TextBufferCellIterator) :=
  let '(newX, newY, exceeded) := step_forward move (ci_bounds it) (px (ci_pos it)) (py (ci_pos it)) (ci_exceeded it) in
  let it := it <| ci_exceeded := exceeded |> in
  if exceeded : bool then Done (b, it)
  else if newY =? py (ci_pos it) then
    let* r := deref (_rows b) (ci_pRow it) in
    let* attrIter := iter_advance 16 (_runs (_attr r)) (ci_attrIter it) (newX - px (ci_pos it)) in
    let* v := generate_view r newX attrIter in
    Done (b, it <| ci_attrIter := attrIter |> <| ci_view := v |> <| ci_pos := mk_point newX newY |>)
  else
    let* (b, i) := _getRow isa newY b in
    let* r := deref (_rows b) i in
    let* attrIter := attr_iterator r newX in
    let* it := _GenerateView b (it <| ci_pRow := i |> <| ci_attrIter := attrIter |> <| ci_pos := mk_point newX newY |>) in
    Done (b, it).

Fixpoint step_backward (move : nat) (bounds : Viewport) (pos : point) (exceeded : bool) : outcome (point * bool) :=
  match move with
  | O => Done (pos, exceeded)
  | S move =>
      if exceeded then Done (pos, exceeded)
      else
        let* (ok, pos) := View.DecrementInBounds bounds pos false in
        step_backward move bounds pos (negb ok)
  end.
Definition cell_backward (move : nat) (b : TextBuffer) (it : TextBufferCellIterator) : outcome (TextBuffer * TextBufferCellIterator) :=
  let* (newPos, exceeded) := step_backward move (ci_bounds it) (ci_pos it) (ci_exceeded it) in
  let* (b, it) := _SetPos newPos b (it <| ci_exceeded := exceeded |>) in
  let* it := _GenerateView b it in
  Done (b, it).

Definition cell_add (movement : Z) (b : TextBuffer) (it : TextBufferCellIterator) : outcome (TextBuffer * TextBufferCellIterator) :=
  if movement <? 0 then cell_backward (Z.to_nat (- movement)) b it else cell_forward (Z.to_nat movement) b it.
Definition cell_sub (movement : Z) (b : TextBuffer) (it : TextBufferCellIterator) : outcome (TextBuffer * TextBufferCellIterator) :=
  if movement <? 0 then cell_forward (Z.to_nat (- movement)) b it else cell_backward (Z.to_nat movement) b it.
Definition cell_difference (it other : TextBufferCellIterator) : Z := View.CompareInBounds (ci_bounds it) (ci_pos it) (ci_pos other).
End Cells.
