(* ===== verification/Editing.v ===== *)
(** * The terminal behind the output engine: erasing, scrolling, areas

    The methods of [AdaptDispatch] of [terminal/adapter/adaptDispatch.cpp] that
    change the text of a page: erasing, scrolling, inserting and deleting, the
    operations on rectangular areas, line feeds and the reports of checksums.
    The rows behind the pages are here those of [TextBuffer.v].  Image slices,
    redrawing and notifications of accessibility tools are left out. *)

From S2P Require Import Prelude VTTypes TermDispatch StateMachine TextAttribute SgrStack Graphics MacroBuffer TerminalInput TerminalOutput.
From S2P Require Import Rle Cursor Pages Adapter AdapterReports Graphemes Row RowWrite Hash Geometry TextBuffer Cells.
#[local] Open Scope Z_scope.

(** What the program runs on: the renderer that measures ambiguous glyphs, the
    contents of fresh memory, the instruction set, and the legacy colours. *)
Class Machine := {
  m_fallback : option (list Z -> option bool);
  m_garbage : nat -> Z;
  m_isa : ISA;
  m_legacy : LegacyDefaults;
}.

(** ** The storage of the pages *)

(** The rows of a page are a text buffer whose size, cursor and attributes are
    those of the page. *)
Definition text_buffer_of (p : Pages.TextBuffer TextBuffer) : TextBuffer :=
  (Pages._rows p) <| _width := Pages._width p |> <| _height := Pages._height p |>
                  <| _cursor := Pages._cursor p |> <| _currentAttributes := Pages._currentAttributes p |>.
Definition page_buffer_from (b : TextBuffer) : Pages.TextBuffer TextBuffer :=
  Pages.mk_TextBuffer (_width b) (_height b) b (_cursor b) (_currentAttributes b).

(** The interface of [Pages.v]; a copy that throws leaves the target as it
    is. *)
#[export] Instance buffer_rows `{!Machine} : RowStorage TextBuffer := {
  new_rows width height attributes := mk_TextBuffer [] attributes attributes width height 0 0 (new_Cursor 0) [] [] 1;
  row_rendition y b := match GetLineRendition m_isa y b with Done (_, rendition) => rendition | _ => SingleWidth end;
  copy_row from to src dst := match CopyRowTo m_garbage m_isa from to src dst with Done (_, dst) => dst | _ => dst end;
}.

(** ** What the host offers beyond [ITerminalApi] of [Pages.v] *)

Inductive SystemMode := AutoWrap | LineFeedMode | BracketedPaste.

Class IScreenApi (A : Type) := {
  GetSystemMode : SystemMode -> A -> bool;
  SetViewportPosition : point -> A -> A;
  NotifyBufferRotation : Z -> A -> A;
  GetOutputCodePage : A -> Z;
}.

(** A position inside of the buffer is taken over; a rotation is only told. *)
Class ScreenApiLaws (A : Type) `{!ITerminalApi A TextBuffer} `{!IScreenApi A} := {
  moved_viewport : forall p a (v := GetBufferAndViewport (R := TextBuffer) a),
    0 <= px p <= Pages._width (buffer v) - rect_width (viewport v) -> 0 <= py p <= Pages._height (buffer v) - rect_height (viewport v) ->
    isMainBuffer v = true ->
    GetBufferAndViewport (R := TextBuffer) (SetViewportPosition p a) =
      v <| viewport := mk_rect (px p) (py p) (px p + rect_width (viewport v)) (py p + rect_height (viewport v)) |>;
  rotation_told : forall n a, GetBufferAndViewport (R := TextBuffer) (NotifyBufferRotation n a) = GetBufferAndViewport a;
}.

(** [EraseType]. *)
Module EraseType.
Definition ToEnd : Z := 0.
Definition FromBeginning : Z := 1.
Definition All : Z := 2.
Definition Scrollback : Z := 3.
End EraseType.

Record ChangeOps := mk_ChangeOps {
  andAttrMask : Z;
  xorAttrMask : Z;
  op_foreground : option TextColor;
  op_background : option TextColor;
  op_underlineColor : option TextColor;
}.

(** A fill that comes to an end, as one with spaces does. *)
Definition ended {X} (o : outcome (option X)) : outcome X :=
  let* filled := o in
  match filled with Some x => Done x | None => Undefined end.

Definition whitespace : list Z := [0x20].

Section Editing.
Context `{!Machine} {A : Type} `{Api : !ITerminalApi A TextBuffer} `{Screen : !IScreenApi A}.
Abbreviation S_ := (AdaptDispatch A TextBuffer).

(** ** Access to the buffer of a page *)

Definition text_buffer (page : Page) (s : S_) : TextBuffer := text_buffer_of (Buffer page s).
Definition put_buffer (page : Page) (b : TextBuffer) (s : S_) : S_ := set_buffer page (page_buffer_from b) s.
Definition on_buffer (page : Page) (f : TextBuffer -> outcome TextBuffer) (s : S_) : outcome S_ :=
  let* b := f (text_buffer page s) in
  Done (put_buffer page b s).
Definition ask_buffer {X} (page : Page) (f : TextBuffer -> outcome (TextBuffer * X)) (s : S_) : outcome (S_ * X) :=
  let* (b, x) := f (text_buffer page s) in
  Done (put_buffer page b s, x).

Definition line_width (page : Page) (row : Z) (s : S_) : outcome (S_ * Z) := ask_buffer page (GetLineWidth m_isa row) s.

(** ** Filling *)

Definition _GetEraseAttributes (page : Page) (s : S_) : TextAttribute :=
  if test_mode AdaptMode.EraseColor s then TextAttribute_default else SetStandardErase (AttributesOf page s).

(** [None] when the fuel is used up. *)
Definition _FillRect (fuel : nat) (d : CodepointWidthDetector) (page : Page) (fillRect : rect) (fillChar : list Z) (fillAttrs : TextAttribute) (s : S_)
    : outcome (option (CodepointWidthDetector * S_)) :=
  let* filled := FillRect m_fallback m_garbage m_isa fuel d fillRect fillChar fillAttrs (text_buffer page s) in
  Done (match filled with Some (d, b) => Some (d, put_buffer page b s) | None => None end).

(** Spaces need no measuring. *)
Definition erase_rect (page : Page) (r : rect) (attrs : TextAttribute) (s : S_) : outcome S_ :=
  let* (_, s) := ended (_FillRect 0 new_CodepointWidthDetector page r whitespace attrs s) in
  Done s.

(** ** Scrolling *)

(** A cell of a page is read, and one is written; the text of an existing cell
    needs no measuring. *)
Definition read_cell (page : Page) (p : point) (s : S_) : outcome (S_ * OutputCell) :=
  ask_buffer page (fun b => let* (b, it) := GetCellDataAt m_isa p b in Done (b, OutputCell_of_view (ci_view it))) s.
Definition put_cell (page : Page) (cell : OutputCell) (p : point) (s : S_) : outcome S_ :=
  let* it := over_cells [cell] in
  let* (_, _, b) := WriteLine m_fallback m_garbage m_isa m_legacy new_CodepointWidthDetector it p None None (text_buffer page s) in
  Done (put_buffer page b s).

(** Cell by cell; the fuel is the number of cells. *)
Fixpoint move_cells (fuel : nat) (page : Page) (srcView dstView : Viewport) (walkDirection : Z) (srcPos dstPos : point) (s : S_) : outcome S_ :=
  match fuel with
  | O => Undefined
  | S fuel =>
      let* (s, current) := read_cell page srcPos s in
      let* s := put_cell page current dstPos s in
      let* (_, srcPos) := View.WalkInBounds srcView srcPos walkDirection false in
      let* (more, dstPos) := View.WalkInBounds dstView dstPos walkDirection false in
      if more : bool then move_cells fuel page srcView dstView walkDirection srcPos dstPos s else Done s
  end.

Definition cell_count (v : Viewport) : nat := Z.to_nat (View.Width v * View.Height v).

Definition _ScrollRectVertically (page : Page) (scrollRect : rect) (delta : Z) (s : S_) : outcome S_ :=
  let absoluteDelta := Z.min (Z.abs delta) (rect_height scrollRect) in
  let* s :=
    if absoluteDelta <? rect_height scrollRect then
      let top := if delta >? 0 then top scrollRect else top scrollRect + absoluteDelta in
      let width := rect_width scrollRect in
      let height := rect_height scrollRect - absoluteDelta in
      let actualDelta := if delta >? 0 then absoluteDelta else - absoluteDelta in
      if width =? Adapter.Width page s then on_buffer page (ScrollRows m_garbage m_isa top height actualDelta) s
      else
        let srcView := FromDimensions (mk_point (left scrollRect) top) width height in
        let dstView := FromDimensions (mk_point (left scrollRect) (top + actualDelta)) width height in
        let walkDirection := View.DetermineWalkDirection srcView dstView in
        move_cells (cell_count dstView) page srcView dstView walkDirection
          (View.GetWalkOrigin srcView walkDirection) (View.GetWalkOrigin dstView walkDirection) s
    else Done s in
  let eraseTop := if delta >? 0 then top scrollRect else bottom scrollRect - absoluteDelta in
  let eraseRect := mk_rect (left scrollRect) eraseTop (right scrollRect) (eraseTop + absoluteDelta) in
  let* s := erase_rect page eraseRect (_GetEraseAttributes page s) s in
  on_buffer page (ResetLineRenditionRange m_isa (top eraseRect) (bottom eraseRect)) s.

(** The next cell is read before the current one is written. *)
Fixpoint shift_cells (fuel : nat) (page : Page) (source target : Viewport) (walkDirection : Z) (sourcePos targetPos : point) (next : OutputCell) (s : S_) : outcome S_ :=
  match fuel with
  | O => Undefined
  | S fuel =>
      let current := next in
      let* (_, sourcePos) := View.WalkInBounds source sourcePos walkDirection false in
      let* (s, next) := read_cell page sourcePos s in
      let* s := put_cell page current targetPos s in
      let* (more, targetPos) := View.WalkInBounds target targetPos walkDirection false in
      if more : bool then shift_cells fuel page source target walkDirection sourcePos targetPos next s else Done s
  end.

Definition _ScrollRectHorizontally (page : Page) (scrollRect : rect) (delta : Z) (s : S_) : outcome S_ :=
  let absoluteDelta := Z.min (Z.abs delta) (rect_width scrollRect) in
  let* s :=
    if absoluteDelta <? rect_width scrollRect then
      let left := if delta >? 0 then left scrollRect else left scrollRect + absoluteDelta in
      let width := rect_width scrollRect - absoluteDelta in
      let height := rect_height scrollRect in
      let actualDelta := if delta >? 0 then absoluteDelta else - absoluteDelta in
      let source := FromDimensions (mk_point left (top scrollRect)) width height in
      let target := View.Offset source (mk_point actualDelta 0) in
      let walkDirection := View.DetermineWalkDirection source target in
      let sourcePos := View.GetWalkOrigin source walkDirection in
      let* (s, next) := read_cell page sourcePos s in
      shift_cells (cell_count target) page source target walkDirection sourcePos (View.GetWalkOrigin target walkDirection) next s
    else Done s in
  let eraseLeft := if delta >? 0 then left scrollRect else right scrollRect - absoluteDelta in
  erase_rect page (mk_rect eraseLeft (top scrollRect) (eraseLeft + absoluteDelta) (bottom scrollRect)) (_GetEraseAttributes page s) s.

Definition _ScrollMovement (delta : Z) (s : S_) : outcome S_ :=
  let '(s, page) := active_page s in
  let '(s, (topMargin, bottomMargin)) := _GetVerticalMargins page true s in
  let '(s, (leftMargin, rightMargin)) := _GetHorizontalMargins (Adapter.Width page s) s in
  _ScrollRectVertically page (mk_rect leftMargin topMargin (rightMargin + 1) (bottomMargin + 1)) delta s.
Definition AdaptDispatch_ScrollUp (uiDistance : Z) : S_ -> outcome S_ := _ScrollMovement (- uiDistance).
Definition AdaptDispatch_ScrollDown (uiDistance : Z) : S_ -> outcome S_ := _ScrollMovement uiDistance.

(** ** Inserting and deleting *)

Definition _InsertDeleteCharacterHelper (delta : Z) (s : S_) : outcome S_ :=
  let '(s, page) := active_page s in
  let row := py (GetPosition (CursorOf page s)) in
  let col := px (GetPosition (CursorOf page s)) in
  let* (s, lineWidth) := line_width page row s in
  let '(s, (topMargin, bottomMargin)) := _GetVerticalMargins page true s in
  let '(s, (leftMargin, rightMargin)) :=
    if (row >=? topMargin) && (row <=? bottomMargin) then _GetHorizontalMargins lineWidth s else (s, (0, lineWidth - 1)) in
  if (col >=? leftMargin) && (col <=? rightMargin) then
    let* s := _ScrollRectHorizontally page (mk_rect col row (rightMargin + 1) (row + 1)) delta s in
    Done (change_cursor page ResetDelayEOLWrap s)
  else Done s.
Definition AdaptDispatch_InsertCharacter (count : Z) : S_ -> outcome S_ := _InsertDeleteCharacterHelper count.
Definition AdaptDispatch_DeleteCharacter (count : Z) : S_ -> outcome S_ := _InsertDeleteCharacterHelper (- count).

Definition _InsertDeleteLineHelper (delta : Z) (s : S_) : outcome S_ :=
  let '(s, page) := active_page s in
  let col := px (GetPosition (CursorOf page s)) in
  let row := py (GetPosition (CursorOf page s)) in
  let '(s, (topMargin, bottomMargin)) := _GetVerticalMargins page true s in
  let '(s, (leftMargin, rightMargin)) := _GetHorizontalMargins (Adapter.Width page s) s in
  if (row >=? topMargin) && (row <=? bottomMargin) && (col >=? leftMargin) && (col <=? rightMargin) then
    let* s := _ScrollRectVertically page (mk_rect leftMargin row (rightMargin + 1) (bottomMargin + 1)) delta s in
    Done (change_cursor page (fun c => _ApplyCursorMovementFlags (SetXPosition leftMargin c)) s)
  else Done s.
Definition AdaptDispatch_InsertLine (distance : Z) : S_ -> outcome S_ := _InsertDeleteLineHelper distance.
Definition AdaptDispatch_DeleteLine (distance : Z) : S_ -> outcome S_ := _InsertDeleteLineHelper (- distance).

Definition _InsertDeleteColumnHelper (delta : Z) (s : S_) : outcome S_ :=
  let '(s, page) := active_page s in
  let col := px (GetPosition (CursorOf page s)) in
  let row := py (GetPosition (CursorOf page s)) in
  let '(s, (topMargin, bottomMargin)) := _GetVerticalMargins page true s in
  let '(s, (leftMargin, rightMargin)) := _GetHorizontalMargins (Adapter.Width page s) s in
  if (row >=? topMargin) && (row <=? bottomMargin) && (col >=? leftMargin) && (col <=? rightMargin) then
    _ScrollRectHorizontally page (mk_rect col topMargin (rightMargin + 1) (bottomMargin + 1)) delta s
  else Done s.
Definition AdaptDispatch_InsertColumn (distance : Z) : S_ -> outcome S_ := _InsertDeleteColumnHelper distance.
Definition AdaptDispatch_DeleteColumn (distance : Z) : S_ -> outcome S_ := _InsertDeleteColumnHelper (- distance).

(** ** Erasing *)

Definition AdaptDispatch_EraseCharacters (numChars : Z) (s : S_) : outcome S_ :=
  let '(s, page) := active_page s in
  let row := py (GetPosition (CursorOf page s)) in
  let startCol := px (GetPosition (CursorOf page s)) in
  let* (s, lineWidth) := line_width page row s in
  let endCol := Z.min (startCol + numChars) lineWidth in
  let s := change_cursor page ResetDelayEOLWrap s in
  erase_rect page (mk_rect startCol row endCol (row + 1)) (_GetEraseAttributes page s) s.

Definition _EraseScrollback (s : S_) : outcome S_ :=
  let '(pm, page) := VisiblePage (_pages s) (_api s) in
  let s := s <| _pages := pm |> in
  let row := py (GetPosition (CursorOf page s)) in
  let* s := on_buffer page (ClearScrollback m_garbage m_isa (Top page) (Height page)) s in
  let s := s <| _api := SetViewportPosition (mk_point (XPanOffset page) 0) (_api s) |> in
  Done (change_cursor page (fun c => SetHasMoved true (SetYPosition (row - Top page) c)) s).

(** [count] rows are rotated out of the buffer, with the default attributes. *)
Fixpoint rotate_buffer (count : nat) (b : TextBuffer) : outcome TextBuffer :=
  match count with
  | O => Done b
  | S count =>
      let* b := IncrementCircularBuffer m_isa TextAttribute_default b in
      rotate_buffer count b
  end.

Definition _EraseAll (s : S_) : outcome S_ :=
  let '(s, page) := active_page s in
  let pageWidth := Adapter.Width page s in
  let pageHeight := Height page in
  let bufferHeight := Pages._height (Buffer page s) in
  let row := py (GetPosition (CursorOf page s)) - Top page in
  let* (s, lastChar) := ask_buffer page (GetLastNonSpaceCharacter m_isa None) s in
  let newPageTop := if point_eqb lastChar (mk_point 0 0) then 0 else py lastChar + 1 in
  let newPageBottom := newPageTop + pageHeight in
  let delta := newPageBottom - bufferHeight in
  let* (s, newPageTop, newPageBottom) :=
    if delta >? 0 then
      let* s := on_buffer page (rotate_buffer (Z.to_nat delta)) s in
      Done (s <| _api := NotifyBufferRotation delta (_api s) |>, newPageTop - delta, newPageBottom - delta)
    else Done (s, newPageTop, newPageBottom) in
  let s :=
    if newPageTop =? Top page then s
    else s <| _api := SetViewportPosition (mk_point (XPanOffset page) newPageTop) (_api s) |> in
  let s := change_cursor page (fun c => SetHasMoved true (SetYPosition (row + newPageTop) c)) s in
  let* s := erase_rect page (mk_rect 0 newPageTop pageWidth newPageBottom) (_GetEraseAttributes page s) s in
  on_buffer page (ResetLineRenditionRange m_isa newPageTop newPageBottom) s.

Definition AdaptDispatch_EraseInDisplay (eraseType : Z) (s : S_) : outcome S_ :=
  if eraseType >? EraseType.Scrollback then Done s
  else if eraseType =? EraseType.Scrollback then _EraseScrollback s
  else if eraseType =? EraseType.All then _EraseAll s
  else
    let '(s, page) := active_page s in
    let pageWidth := Adapter.Width page s in
    let row := py (GetPosition (CursorOf page s)) in
    let col := px (GetPosition (CursorOf page s)) in
    let s := change_cursor page ResetDelayEOLWrap s in
    let eraseAttributes := _GetEraseAttributes page s in
    if eraseType =? EraseType.FromBeginning then
      let* s := on_buffer page (ResetLineRenditionRange m_isa (Top page) row) s in
      let* s := erase_rect page (mk_rect 0 (Top page) pageWidth row) eraseAttributes s in
      erase_rect page (mk_rect 0 row (col + 1) (row + 1)) eraseAttributes s
    else if eraseType =? EraseType.ToEnd then
      let* s := on_buffer page (ResetLineRenditionRange m_isa (if col >? 0 then row + 1 else row) (Bottom page)) s in
      let* s := erase_rect page (mk_rect col row pageWidth (row + 1)) eraseAttributes s in
      erase_rect page (mk_rect 0 (row + 1) pageWidth (Bottom page)) eraseAttributes s
    else Done s.

Definition AdaptDispatch_EraseInLine (eraseType : Z) (s : S_) : outcome S_ :=
  let '(s, page) := active_page s in
  let row := py (GetPosition (CursorOf page s)) in
  let col := px (GetPosition (CursorOf page s)) in
  let s := change_cursor page ResetDelayEOLWrap s in
  let eraseAttributes := _GetEraseAttributes page s in
  if eraseType =? EraseType.FromBeginning then erase_rect page (mk_rect 0 row (col + 1) (row + 1)) eraseAttributes s
  else if eraseType =? EraseType.ToEnd then
    let* (s, lineWidth) := line_width page row s in
    erase_rect page (mk_rect col row lineWidth (row + 1)) eraseAttributes s
  else if eraseType =? EraseType.All then
    let* (s, lineWidth) := line_width page row s in
    erase_rect page (mk_rect 0 row lineWidth (row + 1)) eraseAttributes s
  else Done s.

(** ** Selective erasing *)

(** The columns from [col] on. *)
Fixpoint selective_columns (count : nat) (col : Z) (r : ROW) : outcome ROW :=
  match count with
  | O => Done r
  | S count =>
      let* attr := GetAttrByColumn r col in
      let* r :=
        if IsProtected attr then Done r
        else let* res := ClearCell m_garbage m_isa col r in or_throw res in
      selective_columns count (col + 1) r
  end.

Definition _SelectiveEraseRect (page : Page) (eraseRect : rect) (s : S_) : outcome S_ :=
  if rect_bool eraseRect then
    on_buffer page (update_rows m_isa (Z.to_nat (rect_height eraseRect)) (top eraseRect)
      (selective_columns (Z.to_nat (rect_width eraseRect)) (left eraseRect))) s
  else Done s.

Definition AdaptDispatch_SelectiveEraseInDisplay (eraseType : Z) (s : S_) : outcome S_ :=
  let '(s, page) := active_page s in
  let pageWidth := Adapter.Width page s in
  let row := py (GetPosition (CursorOf page s)) in
  let col := px (GetPosition (CursorOf page s)) in
  let s := change_cursor page ResetDelayEOLWrap s in
  if eraseType =? EraseType.FromBeginning then
    let* s := _SelectiveEraseRect page (mk_rect 0 (Top page) pageWidth row) s in
    _SelectiveEraseRect page (mk_rect 0 row (col + 1) (row + 1)) s
  else if eraseType =? EraseType.ToEnd then
    let* s := _SelectiveEraseRect page (mk_rect col row pageWidth (row + 1)) s in
    _SelectiveEraseRect page (mk_rect 0 (row + 1) pageWidth (Bottom page)) s
  else if eraseType =? EraseType.All then _SelectiveEraseRect page (mk_rect 0 (Top page) pageWidth (Bottom page)) s
  else Done s.

Definition AdaptDispatch_SelectiveEraseInLine (eraseType : Z) (s : S_) : outcome S_ :=
  let '(s, page) := active_page s in
  let row := py (GetPosition (CursorOf page s)) in
  let col := px (GetPosition (CursorOf page s)) in
  let s := change_cursor page ResetDelayEOLWrap s in
  if eraseType =? EraseType.FromBeginning then _SelectiveEraseRect page (mk_rect 0 row (col + 1) (row + 1)) s
  else if eraseType =? EraseType.ToEnd then
    let* (s, lineWidth) := line_width page row s in
    _SelectiveEraseRect page (mk_rect col row lineWidth (row + 1)) s
  else if eraseType =? EraseType.All then
    let* (s, lineWidth) := line_width page row s in
    _SelectiveEraseRect page (mk_rect 0 row lineWidth (row + 1)) s
  else Done s.
End Editing.
