(* ===== verification/Areas.v ===== *)
(** * The terminal behind the output engine: rectangular areas

    The methods of [AdaptDispatch] of [terminal/adapter/adaptDispatch.cpp] for
    rectangular areas: changing and reversing attributes, copying, filling,
    erasing and checksums; and those for line renditions and the alignment
    pattern. *)

From S2P Require Import Prelude VTTypes TermDispatch StateMachine TextAttribute SgrStack Graphics MacroBuffer TerminalInput TerminalOutput.
From S2P Require Import Rle Cursor Pages RenderSettings Adapter AdapterReports Graphemes Row RowWrite Hash Geometry TextBuffer Cells Editing.
#[local] Open Scope Z_scope.

(** The change of one cell. *)
Definition change_attribute (changeOps : ChangeOps) (attr : TextAttribute) : TextAttribute :=
  let characterAttributes := Z.lxor (Z.land (_attrs attr) (andAttrMask changeOps)) (xorAttrMask changeOps) in
  let attr := SetCharacterAttributes characterAttributes attr in
  let attr := match op_foreground changeOps with Some c => SetForeground c attr | None => attr end in
  let attr := match op_background changeOps with Some c => SetBackground c attr | None => attr end in
  match op_underlineColor changeOps with Some c => SetUnderlineColor c attr | None => attr end.

Fixpoint change_columns (count : nat) (col : Z) (changeOps : ChangeOps) (r : ROW) : outcome ROW :=
  match count with
  | O => Done r
  | S count =>
      let* attr := GetAttrByColumn r col in
      let* r := ReplaceAttributes col (col + 1) (change_attribute changeOps attr) r in
      change_columns count (col + 1) changeOps r
  end.

(** The changes that stand for a list of graphic renditions. *)
Definition change_ops (attrs : VTParameters) : ChangeOps :=
  let allAttrsOff := _ApplyGraphicsOptions attrs TextAttribute_default in
  let allAttrsOn := _ApplyGraphicsOptions attrs (SetCharacterAttributes CharacterAttributes.All (TextAttribute_rgb 0 0 0)) in
  let orAttrMask := _attrs allAttrsOff in
  let andAttrMask := _attrs allAttrsOn in
  let changed off on := if negb (IsDefault off) || IsDefault on then Some off else None in
  mk_ChangeOps (Z.ldiff andAttrMask orAttrMask) orAttrMask
    (changed (_foreground allAttrsOff) (_foreground allAttrsOn))
    (changed (_background allAttrsOff) (_background allAttrsOn))
    (changed (_underlineColor allAttrsOff) (_underlineColor allAttrsOn)).

(** The bits that a list of graphic renditions reverses. *)
Definition all_renditions : Z :=
  Z.lor (Z.ldiff CharacterAttributes.Rendition CharacterAttributes.UnderlineStyle) (Z.shiftl UnderlineStyle.SinglyUnderlined UNDERLINE_STYLE_SHIFT).
Fixpoint reverse_loop (fuel i : nat) (attrs : VTParameters) (reverseMask : Z) : Z :=
  match fuel with
  | O => reverseMask
  | S fuel =>
      if (i <? params_size attrs)%nat then
        if value_or (param_at attrs i) 0 =? 0 then reverse_loop fuel (S i) attrs (Z.lxor reverseMask all_renditions)
        else
          let '(n, allAttrsOff) := _ApplyGraphicsOption attrs i TextAttribute_default in
          reverse_loop fuel (i + n) attrs (Z.lxor reverseMask (_attrs allAttrsOff))
      else reverseMask
  end.
Definition reverse_mask (attrs : VTParameters) : Z :=
  if params_empty attrs then CharacterAttributes.Normal else reverse_loop (params_size attrs) 0 attrs CharacterAttributes.Normal.

(** What a cell adds to a checksum, which counts down. *)
Definition color_index (color : TextColor) (defaultIndex : Z) : Z := if TextColor_IsLegacy color then GetIndex color else defaultIndex.
Definition cell_checksum (defaultFgIndex defaultBgIndex : Z) (cell : OutputCellView) (checksum : Z) : Z :=
  let checksum := fold_left (fun c ch => u16 (c - (if ch =? 0x2426 then 0x1B else ch))) (cv_chars cell) checksum in
  let attr := cv_textAttr cell in
  let checksum := u16 (checksum - (if IsProtected attr then 0x04 else 0)) in
  let checksum := u16 (checksum - (if IsInvisible attr then 0x08 else 0)) in
  let checksum := u16 (checksum - (if IsUnderlined attr then 0x10 else 0)) in
  let checksum := u16 (checksum - (if IsReverseVideo attr then 0x20 else 0)) in
  let checksum := u16 (checksum - (if IsBlinking attr then 0x40 else 0)) in
  let checksum := u16 (checksum - (if IsIntense attr then 0x80 else 0)) in
  let checksum := u16 (checksum - u16 (Z.shiftl (color_index (_foreground attr) defaultFgIndex) 4)) in
  u16 (checksum - u16 (color_index (_background attr) defaultBgIndex)).

Section Areas.
Context `{!Machine} {A : Type} `{Api : !ITerminalApi A TextBuffer} `{Screen : !IScreenApi A}.
Abbreviation S_ := (AdaptDispatch A TextBuffer).

Definition _CalculateRectArea (page : Page) (top left bottom right : Z) (s : S_) : S_ * rect :=
  let pageWidth := Adapter.Width page s in
  let pageHeight := Height page in
  let '(s, (topMargin, bottomMargin)) := _GetVerticalMargins page false s in
  let '(s, (leftMargin, rightMargin)) := _GetHorizontalMargins pageWidth s in
  let origin := test_mode AdaptMode.Origin s in
  let yOffset := if origin then topMargin else 0 in
  let yMaximum := if origin then bottomMargin + 1 else pageHeight in
  let xOffset := if origin then leftMargin else 0 in
  let xMaximum := if origin then rightMargin + 1 else pageWidth in
  let fillLeft := left + xOffset in
  let fillTop := top + yOffset in
  let fillRight := if right =? 0 then xMaximum else right + xOffset in
  let fillBottom := if bottom =? 0 then yMaximum else bottom + yOffset in
  let fillLeft := Z.min fillLeft xMaximum - 1 in
  let fillRight := Z.min fillRight xMaximum - 1 in
  let fillTop := Z.min fillTop yMaximum - 1 + Top page in
  let fillBottom := Z.min fillBottom yMaximum - 1 + Top page in
  (s, mk_rect fillLeft fillTop (fillRight + 1) (fillBottom + 1)).

(** ** Attributes *)

Definition _ChangeRectAttributes (page : Page) (changeRect : rect) (changeOps : ChangeOps) (s : S_) : outcome S_ :=
  if rect_bool changeRect then
    on_buffer page (update_rows m_isa (Z.to_nat (rect_height changeRect)) (Pages.top changeRect)
      (change_columns (Z.to_nat (rect_width changeRect)) (Pages.left changeRect) changeOps)) s
  else Done s.

(** [til::rect] from an origin and a size. *)
Definition rect_of_size (x y width height : Z) : rect := mk_rect x y (x + width) (y + height).

Definition _ChangeRectOrStreamAttributes (changeArea : rect) (changeOps : ChangeOps) (s : S_) : outcome S_ :=
  let '(s, page) := active_page s in
  let '(s, changeRect) := _CalculateRectArea page (top changeArea) (left changeArea) (bottom changeArea) (right changeArea) s in
  let lineCount := rect_height changeRect in
  if test_mode AdaptMode.RectangularChangeExtent s || (lineCount =? 1) then _ChangeRectAttributes page changeRect changeOps s
  else if (lineCount >? 1) && (right changeRect >? left changeRect) then
    let pageWidth := Adapter.Width page s in
    let* s := _ChangeRectAttributes page (rect_of_size (left changeRect) (top changeRect) (pageWidth - left changeRect) 1) changeOps s in
    let* s := _ChangeRectAttributes page (rect_of_size 0 (top changeRect + 1) pageWidth (lineCount - 2)) changeOps s in
    _ChangeRectAttributes page (rect_of_size 0 (bottom changeRect - 1) (right changeRect) 1) changeOps s
  else Done s.

Definition AdaptDispatch_ChangeAttributesRectangularArea (top left bottom right : Z) (attrs : VTParameters) (s : S_) : outcome S_ :=
  _ChangeRectOrStreamAttributes (mk_rect left top right bottom) (change_ops attrs) s.

Definition AdaptDispatch_ReverseAttributesRectangularArea (top left bottom right : Z) (attrs : VTParameters) (s : S_) : outcome S_ :=
  let reverseMask := reverse_mask attrs in
  if reverseMask =? CharacterAttributes.Normal then Done s
  else _ChangeRectOrStreamAttributes (mk_rect left top right bottom) (mk_ChangeOps CharacterAttributes.All reverseMask None None None) s.

(** ** Copying *)

(** Cells off the end of a double width line are not copied. *)
Fixpoint copy_cells (fuel : nat) (src dst : Page) (srcView dstView : Viewport) (walkDirection : Z) (srcPos dstPos : point) (next : OutputCell) (s : S_) : outcome S_ :=
  match fuel with
  | O => Undefined
  | S fuel =>
      let current := next in
      let currentSrcPos := srcPos in
      let* (_, srcPos) := View.WalkInBounds srcView srcPos walkDirection false in
      let* (s, next) := read_cell src srcPos s in
      let* (s, lineWidth) := line_width src (py currentSrcPos) s in
      let* s := if px currentSrcPos <? lineWidth then put_cell dst current dstPos s else Done s in
      let* (more, dstPos) := View.WalkInBounds dstView dstPos walkDirection false in
      if more : bool then copy_cells fuel src dst srcView dstView walkDirection srcPos dstPos next s else Done s
  end.

Definition get_page (number : Z) (s : S_) : S_ * Page :=
  let '(pm, page) := Get number (_pages s) (_api s) in (s <| _pages := pm |>, page).

Definition AdaptDispatch_CopyRectangularArea (top left bottom right page dstTop dstLeft dstPage : Z) (s : S_) : outcome S_ :=
  let '(s, src) := get_page page s in
  let '(s, dst) := get_page dstPage s in
  let '(s, srcRect) := _CalculateRectArea src top left bottom right s in
  let dstBottom := dstTop + rect_height srcRect - 1 in
  let dstRight := dstLeft + rect_width srcRect - 1 in
  let '(s, dstRect) := _CalculateRectArea dst dstTop dstLeft dstBottom dstRight s in
  let origin (r : rect) := mk_point (Pages.left r) (Pages.top r) in
  if rect_bool dstRect && (negb (point_eqb (origin dstRect) (origin srcRect)) || negb (page_number src =? page_number dst)) then
    let srcView := FromDimensions (origin srcRect) (rect_width dstRect) (rect_height dstRect) in
    let dstView := FromDimensions (origin dstRect) (rect_width dstRect) (rect_height dstRect) in
    let walkDirection := View.DetermineWalkDirection srcView dstView in
    let srcPos := View.GetWalkOrigin srcView walkDirection in
    let* (s, next) := read_cell src srcPos s in
    copy_cells (cell_count dstView) src dst srcView dstView walkDirection srcPos (View.GetWalkOrigin dstView walkDirection) next s
  else Done s.

(** ** Filling and erasing *)

Definition CP_UTF8 : Z := 65001.

Definition AdaptDispatch_FillRectangularArea (fuel : nat) (d : CodepointWidthDetector) (ch : Z) (top left bottom right : Z) (s : S_)
    : outcome (option (CodepointWidthDetector * S_)) :=
  let '(s, page) := active_page s in
  let '(s, fillRect) := _CalculateRectArea page top left bottom right s in
  let charValue := if value_or ch 0 =? 0 then 32 else value_or ch 0 in
  let glChar := (charValue >=? 32) && (charValue <=? 126) in
  let grChar := (charValue >=? 160) && (charValue <=? 255) in
  let unicodeChar := (charValue >=? 256) && (charValue <=? 65535) && (GetOutputCodePage (_api s) =? CP_UTF8) in
  if glChar || grChar || unicodeChar then
    let '(output, fillChar) := TranslateKey (u16 charValue) (_termOutput s) in
    let s := s <| _termOutput := output |> in
    _FillRect fuel d page fillRect [fillChar] (AttributesOf page s) s
  else Done (Some (d, s)).

Definition AdaptDispatch_EraseRectangularArea (top left bottom right : Z) (s : S_) : outcome S_ :=
  let '(s, page) := active_page s in
  let '(s, eraseRect) := _CalculateRectArea page top left bottom right s in
  erase_rect page eraseRect (_GetEraseAttributes page s) s.

Definition AdaptDispatch_SelectiveEraseRectangularArea (top left bottom right : Z) (s : S_) : outcome S_ :=
  let '(s, page) := active_page s in
  let '(s, eraseRect) := _CalculateRectArea page top left bottom right s in
  _SelectiveEraseRect page eraseRect s.

(** ** Checksums *)

Fixpoint checksum_columns (count : nat) (page : Page) (col row fg bg checksum : Z) (s : S_) : outcome (S_ * Z) :=
  match count with
  | O => Done (s, checksum)
  | S count =>
      let* (s, it) := ask_buffer page (GetCellDataAt m_isa (mk_point col row)) s in
      checksum_columns count page (col + 1) row fg bg (cell_checksum fg bg (ci_view it) checksum) s
  end.
Fixpoint checksum_rows (count columns : nat) (page : Page) (col row fg bg checksum : Z) (s : S_) : outcome (S_ * Z) :=
  match count with
  | O => Done (s, checksum)
  | S count =>
      let* (s, checksum) := checksum_columns columns page col row fg bg checksum s in
      checksum_rows count columns page col (row + 1) fg bg checksum s
  end.

(** [enabled] is the compile time switch of the feature. *)
Definition AdaptDispatch_RequestChecksumRectangularArea (enabled : bool) (id page top left bottom right : Z) (s : S_) : outcome S_ :=
  let* (s, checksum) :=
    if enabled && existsb (fun f => match f with ChecksumReport => true | _ => false end) (_optionalFeatures s) && negb (page =? 0) then
      let alias i := GetColorAliasIndex i (_renderSettings s) in
      let fg := if alias ColorAlias.DefaultForeground <? 16 then alias ColorAlias.DefaultForeground else 7 in
      let bg := if alias ColorAlias.DefaultBackground <? 16 then alias ColorAlias.DefaultBackground else 0 in
      let '(s, target) := get_page page s in
      let '(s, eraseRect) := _CalculateRectArea target top left bottom right s in
      checksum_rows (Z.to_nat (rect_height eraseRect)) (Z.to_nat (rect_width eraseRect)) target (Pages.left eraseRect) (Pages.top eraseRect) fg bg 0 s
    else Done (s, 0) in
  Done (_ReturnDcsResponse (format_int id ++ wstr "!~" ++ format_04X checksum) s).

(** ** Line renditions, and the alignment pattern *)

Definition AdaptDispatch_SetLineRendition (rendition : LineRendition) (s : S_) : outcome S_ :=
  if test_mode AdaptMode.AllowDECSLRM s then Done s
  else
    let '(s, page) := active_page s in
    let* (_, b) := ended (SetCurrentLineRendition m_fallback m_garbage m_isa new_CodepointWidthDetector rendition (_GetEraseAttributes page s) (text_buffer page s)) in
    Done (change_cursor page ResetDelayEOLWrap (put_buffer page b s)).

Definition AdaptDispatch_ScreenAlignmentPattern (fuel : nat) (d : CodepointWidthDetector) (s : S_) : outcome (option (CodepointWidthDetector * S_)) :=
  let '(s, page) := active_page s in
  let* filled := _FillRect fuel d page (mk_rect 0 (Top page) (Adapter.Width page s) (Bottom page)) [wchar "E"] TextAttribute_default s in
  match filled with
  | None => Done None
  | Some (d, s) =>
      let* s := on_buffer page (ResetLineRenditionRange m_isa (Top page) (Bottom page)) s in
      let s := SetAttributes page (SetStandardErase (AttributesOf page s)) s in
      let s := set_mode AdaptMode.AllowDECSLRM false (set_mode AdaptMode.Origin false s) in
      let s := _DoSetTopBottomScrollingMargins 0 0 false s in
      let s := _DoSetLeftRightScrollingMargins 0 0 false s in
      Done (Some (d, AdaptDispatch_CursorPosition 1 1 s))
  end.
End Areas.
