(* ===== verification/Printing.v ===== *)
(** * The terminal behind the output engine: line feeds and text

    The methods of [AdaptDispatch] of [terminal/adapter/adaptDispatch.cpp] that
    write text at the cursor, wrap it at the end of a line, and move the
    cursor to the next or the previous line or column, scrolling where the
    page ends. *)

From S2P Require Import Prelude VTTypes TermDispatch StateMachine TextAttribute SgrStack Graphics MacroBuffer TerminalInput TerminalOutput.
From S2P Require Import Rle Cursor Pages Adapter AdapterReports Graphemes Row RowWrite Hash Geometry TextBuffer Cells Editing.
#[local] Open Scope Z_scope.

Section Printing.
Context `{!Machine} {A : Type} `{Api : !ITerminalApi A TextBuffer} `{Screen : !IScreenApi A}.
Abbreviation S_ := (AdaptDispatch A TextBuffer).

(** ** Line feeds *)

Definition reset_row (row : Z) (attributes : TextAttribute) (b : TextBuffer) : outcome TextBuffer :=
  update_row m_isa row (Row_Reset m_isa attributes) b.

(** The scrolling of a line feed at the bottom margin: the state, the new
    position, and whether the viewport has moved. *)
Definition scroll_line_feed (page : Page) (topMargin bottomMargin leftMargin rightMargin : Z) (newPosition : point) (s : S_) : outcome (S_ * point * bool) :=
  let pageWidth := Adapter.Width page s in
  let bufferHeight := Pages._height (Buffer page s) in
  if (topMargin >? Top page) || (leftMargin >? 0) || (rightMargin <? pageWidth - 1) then
    let* s := _ScrollRectVertically page (mk_rect leftMargin topMargin (rightMargin + 1) (bottomMargin + 1)) (-1) s in
    Done (s, newPosition, false)
  else if Bottom page <? bufferHeight then
    let s := s <| _api := SetViewportPosition (mk_point (XPanOffset page) (Top page + 1)) (_api s) |> in
    let newPosition := mk_point (px newPosition) (py newPosition + 1) in
    let* s :=
      if bottomMargin <? Bottom page - 1 then _ScrollRectVertically page (mk_rect 0 (bottomMargin + 1) pageWidth (Bottom page + 1)) 1 s
      else on_buffer page (reset_row (py newPosition) (_GetEraseAttributes page s)) s in
    Done (s, newPosition, true)
  else
    let* s := on_buffer page (IncrementCircularBuffer m_isa (_GetEraseAttributes page s)) s in
    let s := s <| _api := NotifyBufferRotation 1 (_api s) |> in
    let s := change_cursor page (SetIsOn false) s in
    let* s := if bottomMargin <? Bottom page - 1 then _ScrollRectVertically page (mk_rect 0 bottomMargin pageWidth bufferHeight) 1 s else Done s in
    Done (s, newPosition, false).

Definition _DoLineFeed (page : Page) (withReturn wrapForced : bool) (s : S_) : outcome (S_ * bool) :=
  let pageWidth := Adapter.Width page s in
  let '(s, (topMargin, bottomMargin)) := _GetVerticalMargins page true s in
  let '(s, (leftMargin, rightMargin)) := _GetHorizontalMargins pageWidth s in
  let currentPosition := GetPosition (CursorOf page s) in
  let* s := on_buffer page (TextBuffer.SetWrapForced m_isa (py currentPosition) wrapForced) s in
  let newX :=
    if withReturn then
      let clampToMargin := (py currentPosition >=? topMargin) && (py currentPosition <=? bottomMargin) && (px currentPosition >=? leftMargin) in
      if clampToMargin then leftMargin else 0
    else px currentPosition in
  let newPosition := mk_point newX (py currentPosition) in
  let* (s, newPosition, viewportMoved) :=
    if negb (py currentPosition =? bottomMargin) || (newX <? leftMargin) || (newX >? rightMargin) then
      let newPosition := mk_point newX (Z.min (py currentPosition + 1) (Bottom page - 1)) in
      let* (s, newPosition) := ask_buffer page (ClampPositionWithinLine m_isa newPosition) s in
      Done (s, newPosition, false)
    else scroll_line_feed page topMargin bottomMargin leftMargin rightMargin newPosition s in
  Done (change_cursor page (fun c => _ApplyCursorMovementFlags (SetPosition newPosition c)) s, viewportMoved).

Definition AdaptDispatch_LineFeed (lineFeedType : LineFeedType) (s : S_) : outcome S_ :=
  let '(s, page) := active_page s in
  let withReturn :=
    match lineFeedType with
    | DependsOnMode => GetSystemMode LineFeedMode (_api s)
    | WithoutReturn => false
    | WithReturn => true
    end in
  let* (s, _) := _DoLineFeed page withReturn false s in
  Done s.

Definition AdaptDispatch_ReverseLineFeed (s : S_) : outcome S_ :=
  let '(s, page) := active_page s in
  let cursorPosition := GetPosition (CursorOf page s) in
  let '(s, (leftMargin, rightMargin)) := _GetHorizontalMargins (Adapter.Width page s) s in
  let '(s, (topMargin, bottomMargin)) := _GetVerticalMargins page true s in
  if (py cursorPosition =? topMargin) && (px cursorPosition >=? leftMargin) && (px cursorPosition <=? rightMargin) then
    _ScrollRectVertically page (mk_rect leftMargin topMargin (rightMargin + 1) (bottomMargin + 1)) 1 s
  else if py cursorPosition >? Top page then
    let* (s, p) := ask_buffer page (ClampPositionWithinLine m_isa (mk_point (px cursorPosition) (py cursorPosition - 1))) s in
    Done (change_cursor page (fun c => _ApplyCursorMovementFlags (SetPosition p c)) s)
  else Done s.

Definition AdaptDispatch_BackIndex (s : S_) : outcome S_ :=
  let '(s, page) := active_page s in
  let cursorPosition := GetPosition (CursorOf page s) in
  let '(s, (leftMargin, rightMargin)) := _GetHorizontalMargins (Adapter.Width page s) s in
  let '(s, (topMargin, bottomMargin)) := _GetVerticalMargins page true s in
  if (px cursorPosition =? leftMargin) && (py cursorPosition >=? topMargin) && (py cursorPosition <=? bottomMargin) then
    _ScrollRectHorizontally page (mk_rect leftMargin topMargin (rightMargin + 1) (bottomMargin + 1)) 1 s
  else if px cursorPosition >? 0 then
    Done (change_cursor page (fun c => _ApplyCursorMovementFlags (SetXPosition (px cursorPosition - 1) c)) s)
  else Done s.

Definition AdaptDispatch_ForwardIndex (s : S_) : outcome S_ :=
  let '(s, page) := active_page s in
  let cursorPosition := GetPosition (CursorOf page s) in
  let '(s, (leftMargin, rightMargin)) := _GetHorizontalMargins (Adapter.Width page s) s in
  let '(s, (topMargin, bottomMargin)) := _GetVerticalMargins page true s in
  if (px cursorPosition =? rightMargin) && (py cursorPosition >=? topMargin) && (py cursorPosition <=? bottomMargin) then
    _ScrollRectHorizontally page (mk_rect leftMargin topMargin (rightMargin + 1) (bottomMargin + 1)) (-1) s
  else
    let* (s, lineWidth) := line_width page (py cursorPosition) s in
    if px cursorPosition <? lineWidth - 1 then
      Done (change_cursor page (fun c => _ApplyCursorMovementFlags (SetXPosition (px cursorPosition + 1) c)) s)
    else Done s.

(** ** Text *)

(** What [_WriteToBuffer] keeps between two turns of its loop. *)
Record WriteLoop := mk_WriteLoop {
  wl_page : Page;
  wl_cursorPosition : point;
  wl_topMargin : Z;
  wl_bottomMargin : Z;
  wl_text : list Z;
  wl_columnLimit : Z;
}.

(** A wrap that was put off until there is more text. *)
Definition delayed_wrap (rightMargin : Z) (w : WriteLoop) (s : S_) : outcome (S_ * WriteLoop) :=
  let delayedCursorPosition := GetDelayedAtPosition (CursorOf (wl_page w) s) in
  let s := change_cursor (wl_page w) ResetDelayEOLWrap s in
  if point_eqb delayedCursorPosition (wl_cursorPosition w) then
    let* (s, moved) := _DoLineFeed (wl_page w) true true s in
    let '(s, page, (topMargin, bottomMargin)) :=
      if moved : bool then
        let page := MoveViewportDown (wl_page w) in
        let '(s, margins) := _GetVerticalMargins page true s in (s, page, margins)
      else (s, wl_page w, (wl_topMargin w, wl_bottomMargin w)) in
    let cursorPosition := GetPosition (CursorOf page s) in
    let* (s, lineWidth) := line_width page (py cursorPosition) s in
    let lineWidth :=
      if (py cursorPosition >=? topMargin) && (py cursorPosition <=? bottomMargin) then Z.min lineWidth (rightMargin + 1) else lineWidth in
    Done (s, mk_WriteLoop page cursorPosition topMargin bottomMargin (wl_text w) lineWidth)
  else Done (s, w).

(** One turn of the loop. *)
Definition write_turn (wrapAtEOL : bool) (rightMargin : Z) (d : CodepointWidthDetector) (w : WriteLoop) (s : S_) : outcome (CodepointWidthDetector * WriteLoop * S_) :=
  let* (s, w) := if IsDelayedEOLWrap (CursorOf (wl_page w) s) && wrapAtEOL then delayed_wrap rightMargin w s else Done (s, w) in
  let page := wl_page w in
  let columnBegin := px (wl_cursorPosition w) in
  let y := py (wl_cursorPosition w) in
  let state := mk_RowWriteState (wl_text w) columnBegin (wl_columnLimit w) 0 0 0 in
  let write := if test_mode AdaptMode.InsertReplace s then Insert else Replace in
  let* (d, state, b) := write m_fallback m_garbage m_isa d y (AttributesOf page s) state (text_buffer page s) in
  let s := put_buffer page b s in
  let isWrapping := rw_columnEnd state >=? rw_columnLimit state in
  let x := if isWrapping then rw_columnLimit state - 1 else rw_columnEnd state in
  let s := change_cursor page (SetPosition (mk_point x y)) s in
  let* (d, text, s) :=
    if isWrapping then
      let stuck := (length (rw_text state) =? length (wl_text w))%nat && ((columnBegin =? 0) || negb wrapAtEOL) in
      let* (d, text) :=
        if stuck then
          let* (d, n) := buffer_GraphemeNext m_fallback d (rw_text state) 0 in
          Done (d, drop (Z.to_nat n) (rw_text state))
        else Done (d, rw_text state) in
      Done (d, text, if wrapAtEOL then change_cursor page DelayEOLWrap s else s)
    else Done (d, rw_text state, s) in
  Done (d, mk_WriteLoop page (mk_point x y) (wl_topMargin w) (wl_bottomMargin w) text (wl_columnLimit w), s).

(** [None] when the fuel is used up. *)
Fixpoint write_loop (fuel : nat) (wrapAtEOL : bool) (rightMargin : Z) (d : CodepointWidthDetector) (w : WriteLoop) (s : S_)
    : outcome (option (CodepointWidthDetector * WriteLoop * S_)) :=
  match wl_text w with
  | [] => Done (Some (d, w, s))
  | _ =>
      match fuel with
      | O => Done None
      | S fuel =>
          let* (d, w, s) := write_turn wrapAtEOL rightMargin d w s in
          write_loop fuel wrapAtEOL rightMargin d w s
      end
  end.

Definition _WriteToBuffer (fuel : nat) (d : CodepointWidthDetector) (string : list Z) (s : S_) : outcome (option (CodepointWidthDetector * S_)) :=
  let '(s, page) := active_page s in
  let cursorPosition := GetPosition (CursorOf page s) in
  let wrapAtEOL := GetSystemMode AutoWrap (_api s) in
  let '(s, (topMargin, bottomMargin)) := _GetVerticalMargins page true s in
  let '(s, (leftMargin, rightMargin)) := _GetHorizontalMargins (Adapter.Width page s) s in
  let* (s, lineWidth) := line_width page (py cursorPosition) s in
  let lineWidth :=
    if (px cursorPosition <=? rightMargin) && (py cursorPosition >=? topMargin) && (py cursorPosition <=? bottomMargin)
    then Z.min lineWidth (rightMargin + 1) else lineWidth in
  let s := change_cursor page (SetIsOn false) s in
  let* written := write_loop fuel wrapAtEOL rightMargin d (mk_WriteLoop page cursorPosition topMargin bottomMargin string lineWidth) s in
  match written with
  | None => Done None
  | Some (d, w, s) => Done (Some (d, change_cursor (wl_page w) _ApplyCursorMovementFlags s))
  end.
End Printing.
