(* ===== verification/Modes.v ===== *)
(** * The terminal behind the output engine: modes and resets

    The methods of [AdaptDispatch] that set, reset and report the modes of the
    terminal, which are spread over the terminal itself, the host, the parser,
    the encoder of the input, the cursor and the render settings; the soft and
    the hard reset; window manipulations, hyperlinks and the clipboard.  The
    parser of sixel images, the soft font and the redrawing are left out. *)

From S2P Require Import Prelude VTTypes StateMachine TextAttribute SgrStack Graphics MacroBuffer TerminalInput TerminalOutput RenderSettings.
From S2P Require Import Graphemes Row RowWrite Hash Geometry Cursor Pages Adapter AdapterReports TextBuffer Editing.
#[local] Open Scope Z_scope.

(** [DispatchTypes::ModeParams]; a private mode has a flag. *)
Module ModeParams.
Definition Private (n : Z) : Z := Z.lor n (Z.shiftl 1 24).
Definition IRM_InsertReplaceMode : Z := 4.
Definition LNM_LineFeedNewLineMode : Z := 20.
Definition DECCKM_CursorKeysMode : Z := Private 1.
Definition DECANM_AnsiMode : Z := Private 2.
Definition DECCOLM_SetNumberOfColumns : Z := Private 3.
Definition DECSCNM_ScreenMode : Z := Private 5.
Definition DECOM_OriginMode : Z := Private 6.
Definition DECAWM_AutoWrapMode : Z := Private 7.
Definition DECARM_AutoRepeatMode : Z := Private 8.
Definition ATT610_StartCursorBlink : Z := Private 12.
Definition DECTCEM_TextCursorEnableMode : Z := Private 25.
Definition XTERM_EnableDECCOLMSupport : Z := Private 40.
Definition DECPCCM_PageCursorCouplingMode : Z := Private 64.
Definition DECNKM_NumericKeypadMode : Z := Private 66.
Definition DECBKM_BackarrowKeyMode : Z := Private 67.
Definition DECLRMM_LeftRightMarginMode : Z := Private 69.
Definition DECSDM_SixelDisplayMode : Z := Private 80.
Definition DECECM_EraseColorMode : Z := Private 117.
Definition VT200_MOUSE_MODE : Z := Private 1000.
Definition BUTTON_EVENT_MOUSE_MODE : Z := Private 1002.
Definition ANY_EVENT_MOUSE_MODE : Z := Private 1003.
Definition FOCUS_EVENT_MODE : Z := Private 1004.
Definition UTF8_EXTENDED_MODE : Z := Private 1005.
Definition SGR_EXTENDED_MODE : Z := Private 1006.
Definition ALTERNATE_SCROLL : Z := Private 1007.
Definition ASB_AlternateScreenBuffer : Z := Private 1049.
Definition XTERM_BracketedPasteMode : Z := Private 2004.
Definition SO_SynchronizedOutput : Z := Private 2026.
Definition GCM_GraphemeClusterMode : Z := Private 2027.
Definition W32IM_Win32InputMode : Z := Private 9001.
End ModeParams.

(** [DispatchTypes::ModeResponses]. *)
Module ModeResponses.
Definition DECRPM_Unsupported : Z := 0.
Definition DECRPM_Enabled : Z := 1.
Definition DECRPM_Disabled : Z := 2.
Definition DECRPM_PermanentlyEnabled : Z := 3.
Definition DECRPM_PermanentlyDisabled : Z := 4.
End ModeResponses.

Module WindowManipulationType.
Definition DeIconifyWindow : Z := 1.
Definition IconifyWindow : Z := 2.
Definition RefreshWindow : Z := 7.
Definition ResizeWindowInCharacters : Z := 8.
Definition ReportTextSizeInPixels : Z := 14.
Definition ReportCharacterCellSize : Z := 16.
Definition ReportTextSizeInCharacters : Z := 18.
End WindowManipulationType.

Definition mapTemp (b : bool) : Z := if b then ModeResponses.DECRPM_Enabled else ModeResponses.DECRPM_Disabled.
Definition mapPerm (b : bool) : Z := if b then ModeResponses.DECRPM_PermanentlyEnabled else ModeResponses.DECRPM_PermanentlyDisabled.

Definition s_sDECCOLMSetColumns : Z := 132.
Definition s_sDECCOLMResetColumns : Z := 80.

(** [SixelParser::CellSizeForLevel] for the default level: width and height. *)
Definition CellSizeForLevel : Z * Z := (10, 20).

(** ** What the host offers beyond [IScreenApi] of [Editing.v] *)

Inductive HostCall :=
| HostInjectSequence (type : InjectionType)
| HostResetCodePage
| HostShowWindow (showOrHide : bool)
| HostCopyToClipboard (content : list Z).

Class IModeApi (A : Type) := {
  SetSystemMode : SystemMode -> bool -> A -> A;
  GetParserAnsi : A -> bool;
  ResizeWindow : Z -> Z -> A -> A;
  UseAlternateBuffer : TextAttribute -> A -> A;
  UseMainBuffer : A -> A;
  host_call : HostCall -> A -> A;
}.

Section Modes.
Context `{!Machine} {A : Type} `{Api : !ITerminalApi A TextBuffer} `{Screen : !IScreenApi A} `{Host : !IModeApi A}.
Variable keypadModeEnabled : bool.
(** The mode of [CodepointWidthDetector::Singleton]. *)
Variable measurementMode : TextMeasurementMode.
Abbreviation S_ := (AdaptDispatch A TextBuffer).

Definition on_host (f : A -> A) (s : S_) : S_ := s <| _api := f (_api s) |>.
Definition inject (type : InjectionType) : S_ -> S_ := on_host (host_call (HostInjectSequence type)).
Definition set_input_mode (mode : Z) (enable : bool) (s : S_) : S_ :=
  s <| _terminalInput := SetInputMode keypadModeEnabled mode enable (_terminalInput s) |>.
Definition input_mode (mode : Z) (s : S_) : bool := GetInputMode mode (_terminalInput s).
Definition set_system_mode (mode : SystemMode) (enable : bool) : S_ -> S_ := on_host (SetSystemMode mode enable).
Definition system_mode (mode : SystemMode) (s : S_) : bool := GetSystemMode mode (_api s).
Definition set_render_mode (mode : Z) (enable : bool) (s : S_) : S_ :=
  s <| _renderSettings := SetRenderMode mode enable (_renderSettings s) |>.
Definition render_mode (mode : Z) (s : S_) : bool := GetRenderMode mode (_renderSettings s).

(** Something is done to the cursor of the active page. *)
Definition on_active_cursor (f : Cursor -> Cursor) (s : S_) : S_ :=
  let '(s, page) := active_page s in change_cursor page f s.
Definition active_cursor (s : S_) : Cursor := let '(s, page) := active_page s in CursorOf page s.

(** ** Setting and resetting *)

Definition _SetColumnMode (enable : bool) (s : S_) : outcome S_ :=
  if test_mode AdaptMode.AllowDECCOLM s then
    let '(pm, page) := VisiblePage (_pages s) (_api s) in
    let s := s <| _pages := pm |> in
    let pageHeight := Height page in
    let pageWidth := if enable then s_sDECCOLMSetColumns else s_sDECCOLMResetColumns in
    let s := on_host (ResizeWindow pageWidth pageHeight) s in
    let s := set_mode AdaptMode.Column enable s in
    let s := set_mode AdaptMode.AllowDECSLRM false (set_mode AdaptMode.Origin false s) in
    let s := AdaptDispatch_CursorPosition 1 1 s in
    let* s := AdaptDispatch_EraseInDisplay EraseType.All s in
    let s := _DoSetTopBottomScrollingMargins 0 0 false s in
    Done (_DoSetLeftRightScrollingMargins 0 0 false s)
  else Done s.

Definition _SetAlternateScreenBufferMode (enable : bool) (s : S_) : S_ :=
  if enable then
    let s := AdaptDispatch_CursorSaveState s in
    let '(s, page) := active_page s in
    let s := on_host (UseAlternateBuffer (_GetEraseAttributes page s)) s in
    s <| _usingAltBuffer := true |>
  else
    let s := on_host UseMainBuffer s in
    let s := s <| _usingAltBuffer := false |> in
    AdaptDispatch_CursorRestoreState s.

Definition _SetLineFeedMode (enable : bool) (s : S_) : S_ :=
  if Bool.eqb (system_mode LineFeedMode s) (input_mode InputMode.LineFeed s)
  then set_input_mode InputMode.LineFeed enable (set_system_mode LineFeedMode enable s)
  else s.

Definition _SetLeftRightMarginMode (enable : bool) (s : S_) : outcome S_ :=
  let s := set_mode AdaptMode.AllowDECSLRM enable s in
  let s := _DoSetLeftRightScrollingMargins 0 0 false s in
  if enable then
    let '(s, page) := active_page s in
    on_buffer page (ResetLineRenditionRange m_isa (Top page) (Bottom page)) s
  else Done s.

Definition _ModeParamsHelper (param : Z) (enable : bool) (s : S_) : outcome S_ :=
  if param =? ModeParams.IRM_InsertReplaceMode then Done (set_mode AdaptMode.InsertReplace enable s)
  else if param =? ModeParams.LNM_LineFeedNewLineMode then Done (_SetLineFeedMode enable s)
  else if param =? ModeParams.DECCKM_CursorKeysMode then Done (set_input_mode InputMode.CursorKey enable s)
  else if param =? ModeParams.DECANM_AnsiMode then Done (AdaptDispatch_SetAnsiMode keypadModeEnabled enable s)
  else if param =? ModeParams.DECCOLM_SetNumberOfColumns then _SetColumnMode enable s
  else if param =? ModeParams.DECSCNM_ScreenMode then Done (set_render_mode RenderMode.ScreenReversed enable s)
  else if param =? ModeParams.DECOM_OriginMode then
    Done (AdaptDispatch_CursorPosition 1 1 (set_mode AdaptMode.Origin enable s))
  else if param =? ModeParams.DECAWM_AutoWrapMode then
    let s := set_system_mode AutoWrap enable s in
    Done (if enable then s else on_active_cursor ResetDelayEOLWrap s)
  else if param =? ModeParams.DECARM_AutoRepeatMode then Done (set_input_mode InputMode.AutoRepeat enable s)
  else if param =? ModeParams.ATT610_StartCursorBlink then Done (on_active_cursor (SetBlinkingAllowed enable) s)
  else if param =? ModeParams.DECTCEM_TextCursorEnableMode then Done (on_active_cursor (SetIsVisible enable) s)
  else if param =? ModeParams.XTERM_EnableDECCOLMSupport then Done (set_mode AdaptMode.AllowDECCOLM enable s)
  else if param =? ModeParams.DECPCCM_PageCursorCouplingMode then
    let s := set_mode AdaptMode.PageCursorCoupling enable s in
    Done (if enable then let '(pm, a) := MakeActivePageVisible (_pages s) (_api s) in s <| _pages := pm |> <| _api := a |> else s)
  else if param =? ModeParams.DECNKM_NumericKeypadMode then Done (set_input_mode InputMode.Keypad enable s)
  else if param =? ModeParams.DECBKM_BackarrowKeyMode then Done (set_input_mode InputMode.BackarrowKey enable s)
  else if param =? ModeParams.DECLRMM_LeftRightMarginMode then _SetLeftRightMarginMode enable s
  else if param =? ModeParams.DECSDM_SixelDisplayMode then Done (set_mode AdaptMode.SixelDisplay enable s)
  else if param =? ModeParams.DECECM_EraseColorMode then Done (set_mode AdaptMode.EraseColor enable s)
  else if param =? ModeParams.VT200_MOUSE_MODE then Done (set_input_mode InputMode.DefaultMouseTracking enable s)
  else if param =? ModeParams.BUTTON_EVENT_MOUSE_MODE then Done (set_input_mode InputMode.ButtonEventMouseTracking enable s)
  else if param =? ModeParams.ANY_EVENT_MOUSE_MODE then Done (set_input_mode InputMode.AnyEventMouseTracking enable s)
  else if param =? ModeParams.UTF8_EXTENDED_MODE then Done (set_input_mode InputMode.Utf8MouseEncoding enable s)
  else if param =? ModeParams.SGR_EXTENDED_MODE then Done (set_input_mode InputMode.SgrMouseEncoding enable s)
  else if param =? ModeParams.FOCUS_EVENT_MODE then
    let s := set_input_mode InputMode.FocusEvent enable s in
    Done (if enable then s else inject DECSET_FOCUS s)
  else if param =? ModeParams.ALTERNATE_SCROLL then Done (set_input_mode InputMode.AlternateScroll enable s)
  else if param =? ModeParams.ASB_AlternateScreenBuffer then Done (_SetAlternateScreenBufferMode enable s)
  else if param =? ModeParams.XTERM_BracketedPasteMode then Done (set_system_mode BracketedPaste enable s)
  else if param =? ModeParams.SO_SynchronizedOutput then Done (set_render_mode RenderMode.SynchronizedOutput enable s)
  else if param =? ModeParams.GCM_GraphemeClusterMode then Done s
  else if param =? ModeParams.W32IM_Win32InputMode then
    let s := set_input_mode InputMode.Win32 enable s in
    Done (if enable then s else inject W32IM s)
  else Done s.

Definition AdaptDispatch_SetMode (param : Z) : S_ -> outcome S_ := _ModeParamsHelper param true.
Definition AdaptDispatch_ResetMode (param : Z) : S_ -> outcome S_ := _ModeParamsHelper param false.

(** ** Reporting *)

Definition mode_state (param : Z) (s : S_) : Z :=
  if param =? ModeParams.IRM_InsertReplaceMode then mapTemp (test_mode AdaptMode.InsertReplace s)
  else if param =? ModeParams.LNM_LineFeedNewLineMode then
    if Bool.eqb (system_mode LineFeedMode s) (input_mode InputMode.LineFeed s)
    then mapTemp (input_mode InputMode.LineFeed s) else ModeResponses.DECRPM_Unsupported
  else if param =? ModeParams.DECCKM_CursorKeysMode then mapTemp (input_mode InputMode.CursorKey s)
  else if param =? ModeParams.DECANM_AnsiMode then mapTemp (GetParserAnsi (_api s))
  else if param =? ModeParams.DECCOLM_SetNumberOfColumns then mapTemp (test_mode AdaptMode.Column s)
  else if param =? ModeParams.DECSCNM_ScreenMode then mapTemp (render_mode RenderMode.ScreenReversed s)
  else if param =? ModeParams.DECOM_OriginMode then mapTemp (test_mode AdaptMode.Origin s)
  else if param =? ModeParams.DECAWM_AutoWrapMode then mapTemp (system_mode AutoWrap s)
  else if param =? ModeParams.DECARM_AutoRepeatMode then mapTemp (input_mode InputMode.AutoRepeat s)
  else if param =? ModeParams.ATT610_StartCursorBlink then mapTemp (IsBlinkingAllowed (active_cursor s))
  else if param =? ModeParams.DECTCEM_TextCursorEnableMode then mapTemp (IsVisible (active_cursor s))
  else if param =? ModeParams.XTERM_EnableDECCOLMSupport then mapTemp (test_mode AdaptMode.AllowDECCOLM s)
  else if param =? ModeParams.DECPCCM_PageCursorCouplingMode then mapTemp (test_mode AdaptMode.PageCursorCoupling s)
  else if param =? ModeParams.DECNKM_NumericKeypadMode then mapTemp (input_mode InputMode.Keypad s)
  else if param =? ModeParams.DECBKM_BackarrowKeyMode then mapTemp (input_mode InputMode.BackarrowKey s)
  else if param =? ModeParams.DECLRMM_LeftRightMarginMode then mapTemp (test_mode AdaptMode.AllowDECSLRM s)
  else if param =? ModeParams.DECSDM_SixelDisplayMode then mapTemp (test_mode AdaptMode.SixelDisplay s)
  else if param =? ModeParams.DECECM_EraseColorMode then mapTemp (test_mode AdaptMode.EraseColor s)
  else if param =? ModeParams.VT200_MOUSE_MODE then mapTemp (input_mode InputMode.DefaultMouseTracking s)
  else if param =? ModeParams.BUTTON_EVENT_MOUSE_MODE then mapTemp (input_mode InputMode.ButtonEventMouseTracking s)
  else if param =? ModeParams.ANY_EVENT_MOUSE_MODE then mapTemp (input_mode InputMode.AnyEventMouseTracking s)
  else if param =? ModeParams.UTF8_EXTENDED_MODE then mapTemp (input_mode InputMode.Utf8MouseEncoding s)
  else if param =? ModeParams.SGR_EXTENDED_MODE then mapTemp (input_mode InputMode.SgrMouseEncoding s)
  else if param =? ModeParams.FOCUS_EVENT_MODE then mapTemp (input_mode InputMode.FocusEvent s)
  else if param =? ModeParams.ALTERNATE_SCROLL then mapTemp (input_mode InputMode.AlternateScroll s)
  else if param =? ModeParams.ASB_AlternateScreenBuffer then mapTemp (_usingAltBuffer s)
  else if param =? ModeParams.XTERM_BracketedPasteMode then mapTemp (system_mode BracketedPaste s)
  else if param =? ModeParams.SO_SynchronizedOutput then mapTemp (render_mode RenderMode.SynchronizedOutput s)
  else if param =? ModeParams.GCM_GraphemeClusterMode then
    mapPerm (match measurementMode with ModeGraphemes => true | _ => false end)
  else if param =? ModeParams.W32IM_Win32InputMode then mapTemp (input_mode InputMode.Win32 s)
  else ModeResponses.DECRPM_Unsupported.

(** The two modes of the cursor are asked of the active page, which may be
    created for it. *)
Definition AdaptDispatch_RequestMode (param : Z) (s : S_) : S_ :=
  let state := mode_state param s in
  let s := if (param =? ModeParams.ATT610_StartCursorBlink) || (param =? ModeParams.DECTCEM_TextCursorEnableMode)
           then fst (active_page s) else s in
  let '(prefix, mode) := if param >=? ModeParams.Private 0 then (wstr "?", param - ModeParams.Private 0) else ([], param) in
  _ReturnCsiResponse (prefix ++ format_int mode ++ wstr ";" ++ format_int state ++ wstr "$y") s.

(** ** Resets *)

(** SGR and DECSCA without parameters on the attributes of the active page. *)
Definition normal_rendition (s : S_) : S_ :=
  let '(s, page) := active_page s in
  let g := mk_GraphicsState (AttributesOf page s) (_renditions s) in
  let s := SetAttributes page (Attributes (AdaptDispatch_SetGraphicsRendition (VTParameters_plain []) g)) s in
  let '(s, page) := active_page s in
  let g := mk_GraphicsState (AttributesOf page s) (_renditions s) in
  SetAttributes page (Attributes (AdaptDispatch_SetCharacterProtectionAttribute (VTParameters_plain []) g)) s.

Definition AdaptDispatch_SoftReset (s : S_) : S_ :=
  let s := on_active_cursor (SetIsVisible true) s in
  let s := s <| _modes := modes_reset (_modes s) [AdaptMode.InsertReplace; AdaptMode.Origin; AdaptMode.AllowDECSLRM] |> in
  let s := set_system_mode AutoWrap true s in
  let s := set_input_mode InputMode.CursorKey false s in
  let s := set_input_mode InputMode.Keypad false s in
  let s := _DoSetTopBottomScrollingMargins 0 0 false s in
  let s := _DoSetLeftRightScrollingMargins 0 0 false s in
  let s := s <| _termOutput := TerminalOutput.SoftReset (_termOutput s) |> in
  let s := normal_rendition s in
  let saved := new_CursorState <| saved_TermOutput := _termOutput s |> in
  s <| _savedCursorState := (saved, saved) |>.

(** [ClearMacrosIfInUse] empties the macro buffer before it is released, for the
    sake of a macro of it that may be running; here nothing else refers to it. *)
Definition AdaptDispatch_HardReset (s : S_) : outcome S_ :=
  let s := if _usingAltBuffer s then (on_host UseMainBuffer s) <| _usingAltBuffer := false |> else s in
  let s := s <| _pages := PageManager_Reset (_pages s) |> in
  let s := s <| _termOutput := new_TerminalOutput false |> in
  let s := on_host (host_call HostResetCodePage) s in
  let s := AdaptDispatch_AcceptC1Controls false s in
  let s := AdaptDispatch_SendC1Controls keypadModeEnabled false s in
  let s := AdaptDispatch_SoftReset s in
  let* s := AdaptDispatch_EraseInDisplay EraseType.All s in
  let* s := AdaptDispatch_EraseInDisplay EraseType.Scrollback s in
  let s := s <| _renderSettings := RestoreDefaultSettings (_renderSettings s) |> in
  let s := AdaptDispatch_CursorPosition 1 1 s in
  let s := if input_mode InputMode.LineFeed s then set_system_mode LineFeedMode false s else s in
  let s := s <| _terminalInput := ResetInputModes keypadModeEnabled (_terminalInput s) |> in
  let s := set_system_mode BracketedPaste false s in
  let s := on_active_cursor (SetBlinkingAllowed true) s in
  let s := AdaptDispatch_TabSet 5 s in
  let s := s <| _modes := modes_of [AdaptMode.PageCursorCoupling] |> in
  let s := s <| _macroBuffer := None |> in
  Done (inject RIS s).

(** ** The window, hyperlinks and the clipboard *)

Definition visible_size (s : S_) : S_ * (Z * Z) :=
  let '(pm, page) := VisiblePage (_pages s) (_api s) in
  let s := s <| _pages := pm |> in
  (s, (Adapter.Width page s, Height page)).

Definition AdaptDispatch_WindowManipulation (function parameter1 parameter2 : Z) (s : S_) : S_ :=
  let reportSize (width height : Z) (s : S_) :=
    _ReturnCsiResponse (format_int (function - 10) ++ wstr ";" ++ format_int height ++ wstr ";" ++ format_int width ++ wstr "t") s in
  if function =? WindowManipulationType.DeIconifyWindow then on_host (host_call (HostShowWindow true)) s
  else if function =? WindowManipulationType.IconifyWindow then on_host (host_call (HostShowWindow false)) s
  else if function =? WindowManipulationType.RefreshWindow then
    let '(pm, _) := VisiblePage (_pages s) (_api s) in s <| _pages := pm |>
  else if function =? WindowManipulationType.ResizeWindowInCharacters then
    on_host (ResizeWindow (value_or parameter2 0) (value_or parameter1 0)) s
  else if function =? WindowManipulationType.ReportTextSizeInCharacters then
    let '(s, (width, height)) := visible_size s in reportSize width height s
  else if function =? WindowManipulationType.ReportTextSizeInPixels then
    let '(s, (width, height)) := visible_size s in
    reportSize (width * fst CellSizeForLevel) (height * snd CellSizeForLevel) s
  else if function =? WindowManipulationType.ReportCharacterCellSize then
    reportSize (fst CellSizeForLevel) (snd CellSizeForLevel) s
  else s.

Definition AdaptDispatch_AddHyperlink (uri params : list Z) (s : S_) : outcome S_ :=
  let '(s, page) := active_page s in
  let attr := AttributesOf page s in
  let* (s, id) := ask_buffer page (GetHyperlinkId uri params) s in
  let s := SetAttributes page (SetHyperlinkId id attr) s in
  on_buffer page (fun b => Done (AddHyperlinkToMap uri id b)) s.

Definition AdaptDispatch_EndHyperlink (s : S_) : S_ :=
  let '(s, page) := active_page s in
  SetAttributes page (SetHyperlinkId 0 (AttributesOf page s)) s.

Definition AdaptDispatch_SetClipboard (content : list Z) : S_ -> S_ := on_host (host_call (HostCopyToClipboard content)).
End Modes.
