(* ===== verification/EditingFacts.v ===== *)
(** * Editing pages of rows

    The pages of [Pages.v] over the rows of [TextBuffer.v]: what writing the
    buffer of a page back changes, and what erasing and scrolling a part of a
    page do to its rows. *)

From S2P Require Import Prelude VTTypes TermDispatch TextAttribute SgrStack Graphics TerminalInput TerminalOutput.
From S2P Require Import Rle RleFacts RleRefine Cursor Pages Adapter AdapterFacts AdapterMoves Graphemes GraphemeFacts Row RowWrite RowFacts RowInit RowFinish RowWrites RowTheorems RowCopy.
From S2P Require Import Hash Geometry TextBuffer TextBufferFacts TextBufferTheorems Cells Editing Areas.
#[local] Open Scope Z_scope.

Section Facts.
Context `{!Machine} {A : Type} `{Api : !ITerminalApi A TextBuffer} `{Laws : !TerminalApiLaws A TextBuffer} `{Screen : !IScreenApi A}.
Abbreviation S_ := (AdaptDispatch A TextBuffer).
Implicit Types (s t : S_) (page : Page) (b : TextBuffer) (y : Z).

(** ** The buffer of a page *)

Definition row_of page s y : ROW := row_at m_isa (text_buffer page s) y.

(** The active page lies in a buffer that is well formed. *)
Record screen_ok s page : Prop := {
  sc_adapter : adapter_ok s;
  sc_settled : settled s page;
  sc_buffer : buffer_ok (text_buffer page s);
  sc_top : 0 <= Top page;
  sc_bottom : Bottom page <= _height (text_buffer page s);
}.

(** Everything about a buffer but its rows. *)
Definition frame b := (_width b, _height b, _currentAttributes b, _cursor b).

(** A change of the rows of the page only. *)
Record rewritten s page t : Prop := {
  re_screen : screen_ok t page;
  re_frame : frame (text_buffer page t) = frame (text_buffer page s);
  re_modes : _modes t = _modes s;
  re_margins : _scrollMargins t = _scrollMargins s;
}.

Lemma frame_shape b b' : shape b' = shape b -> _cursor b' = _cursor b -> frame b' = frame b.
Proof using. unfold shape, frame. intros [= -> -> _ _ ->] ->. done. Qed.

Lemma put_rewritten s page b : screen_ok s page -> buffer_ok b -> frame b = frame (text_buffer page s) ->
  rewritten s page (put_buffer page b s) /\ text_buffer page (put_buffer page b s) = b.
Proof using Laws.
  intros [Hok Hs Hb Ht Hbo] Hb' Hf. unfold frame in Hf. injection Hf as Hw Hh Ha Hc. unfold put_buffer.
  destruct (adapter_active s s page Hok Hs) as (_ & _ & Hcur).
  destruct (adapter_set_buffer s page (page_buffer_from b) Hok Hs) as (Hok' & Hs' & Hbuf & Hm); [done|done| |].
  { cbn. rewrite Hw, Hc. exact Hcur. }
  assert (E : text_buffer page (set_buffer page (page_buffer_from b) s) = b) by (unfold text_buffer; rewrite Hbuf; by destruct b).
  split; [|done]. split; [split; try done; rewrite E; [done|rewrite Hh; exact Hbo]|rewrite E; unfold frame; by rewrite Hw, Hh, Ha, Hc|apply set_buffer_frame|done].
Qed.

Lemma rewritten_refl s page : screen_ok s page -> rewritten s page s.
Proof using. by split. Qed.

Lemma rewritten_trans s page t u : rewritten s page t -> rewritten t page u -> rewritten s page u.
Proof using. intros [] []. split; congruence. Qed.

Lemma rewritten_size s page t : rewritten s page t -> _width (text_buffer page t) = _width (text_buffer page s) /\ _height (text_buffer page t) = _height (text_buffer page s).
Proof using. intros [_ E _ _]. split; [exact (f_equal (fun x => fst (fst (fst x))) E)|exact (f_equal (fun x => snd (fst (fst x))) E)]. Qed.

(** A change of the buffer of the page. *)
Lemma on_buffer_ok s page f b : screen_ok s page -> f (text_buffer page s) = Done b -> buffer_ok b -> frame b = frame (text_buffer page s) ->
  exists t, on_buffer page f s = Done t /\ rewritten s page t /\ text_buffer page t = b.
Proof using Laws.
  intros Hs Hf Hb Hfr. unfold on_buffer. rewrite Hf. cbn [obind]. eexists. split; [reflexivity|]. by apply put_rewritten.
Qed.

Lemma margins_rewritten s page m : screen_ok s page -> margins_ok m -> screen_ok (s <| _scrollMargins := m |>) page /\ text_buffer page (s <| _scrollMargins := m |>) = text_buffer page s.
Proof using.
  intros [Hok Hs Hb Ht Hbo] Hm. assert (E : text_buffer page (s <| _scrollMargins := m |>) = text_buffer page s) by done.
  split; [|done]. split; try done; [by apply (adapter_frame s)|by apply (settled_frame s)].
Qed.

(** The same change of the rows from [T] to [B]. *)
Lemma update_rows_spec s page (f : ROW -> outcome ROW) (g : ROW -> ROW) T B (b := text_buffer page s) : screen_ok s page -> 0 <= T -> B <= _height b ->
  (forall y, T <= y < B -> f (row_of page s y) = Done (g (row_of page s y)) /\ row_ok b (g (row_of page s y))) ->
  exists t, on_buffer page (update_rows m_isa (Z.to_nat (B - T)) T f) s = Done t /\ rewritten s page t /\
    forall y, 0 <= y < _height b -> row_of page t y = if (T <=? y) && (y <? B) then g (row_of page s y) else row_of page s y.
Proof using Laws.
  intros Hsc HT HB Hf. pose proof Hsc as [_ _ Hok _ _]. set (n := Z.to_nat (B - T)).
  destruct (decide (T <= B)) as [HTB|HTB].
  - destruct (update_rows_ok m_isa f g n b T Hok) as (b' & E & Hbe); [lia|lia|intros k r Hk; apply Hf; lia|].
    destruct (on_buffer_ok s page (update_rows m_isa n T f) b' Hsc E (be_ok _ _ _ _ Hbe)) as (t & -> & Hrw & Htb); [by apply frame_shape; [apply (be_shape _ _ _ _ Hbe)|apply (TextBufferFacts.be_cursor _ _ _ _ Hbe)]|].
    exists t. split; [done|]. split; [done|]. intros y Hy. unfold row_of. rewrite Htb, (row_at_becomes m_isa b _ b' y Hbe). fold b.
    destruct (decide (T <= y < B)) as [Hin|Hout].
    + rewrite decide_True by (apply elem_numbers; exists (Z.to_nat (y - T)); split; [lia|f_equal; lia]). by replace ((T <=? y) && (y <? B)) with true by lia.
    + rewrite decide_False by (rewrite elem_numbers; intros (i & Hi & Ep); apply (phys_injective b) in Ep; [lia|done|lia|lia]). by replace ((T <=? y) && (y <? B)) with false by lia.
  - assert (n = 0%nat) as -> by lia. destruct (on_buffer_ok s page (update_rows m_isa 0 T f) b Hsc) as (t & -> & Hrw & Htb); [done..|]. exists t. split; [done|]. split; [done|].
    intros y Hy. replace ((T <=? y) && (y <? B)) with false by lia. unfold row_of. by rewrite Htb.
Qed.

(** ** What the rows show *)

(** The rows show the glyphs [gs] with the attributes [l], and there is room
    for as much again. *)
Definition displays s page (gs : Z -> list glyph) (l : Z -> list TextAttribute) : Prop :=
  forall y, 0 <= y < _height (text_buffer page s) ->
    shows (row_of page s y) (gs y) (l y) /\ has_room (gs y) (repeat 0x20 (Z.to_nat (_width (text_buffer page s)))).

(** The rows of a rectangle after it was erased. *)
Definition erased_glyphs (r : rect) (gs : list glyph) : list glyph :=
  overwrite gs (Z.to_nat (left r)) (spaces (Z.to_nat (right r) - Z.to_nat (left r))) (Z.to_nat (right r)).
Definition erased_attributes (r : rect) (a : TextAttribute) (l : list TextAttribute) : list TextAttribute :=
  take (Z.to_nat (left r)) l ++ replicate (Z.to_nat (right r) - Z.to_nat (left r)) a ++ drop (Z.to_nat (right r)) l.

(** A rectangle of cells of a buffer. *)
Definition in_buffer b (r : rect) : Prop := 0 <= left r /\ right r <= _width b /\ 0 <= top r /\ bottom r <= _height b.

Lemma erase_rect_spec s page gs l r a : screen_ok s page -> displays s page gs l -> in_buffer (text_buffer page s) r -> rect_bool r = true ->
  exists t, erase_rect page r a s = Done t /\ rewritten s page t /\
    (forall y, top r <= y < bottom r -> shows (row_of page t y) (erased_glyphs r (gs y)) (erased_attributes r a (l y)) /\ flags (row_of page t y) = flags (row_of page s y)) /\
    (forall y, 0 <= y < _height (text_buffer page s) -> ~ (top r <= y < bottom r) -> row_of page t y = row_of page s y).
Proof using Laws.
  intros Hs Hd (Hl & Hr & Ht & Hbo) Hb. unfold rect_bool in Hb. pose proof Hs as [_ _ Hok _ _].
  destruct (rect_erased m_fallback m_garbage m_isa (text_buffer page s) gs l 0 new_CodepointWidthDetector (left r) (top r) (right r) (bottom r) a Hok) as (b & E & Hb' & Hsh & Hcu & Hin & Hout); try lia.
  { intros y Hy. destruct (Hd y ltac:(lia)) as [H1 H2]. split; [done|]. unfold has_room in *. rewrite !zlen_repeat in *. lia. }
  unfold erase_rect, _FillRect. replace (mk_rect (left r) (top r) (right r) (bottom r)) with r in E by (by destruct r). unfold whitespace. rewrite E. cbn [obind ended].
  eexists. split; [reflexivity|]. destruct (put_rewritten s page b Hs Hb' (frame_shape _ _ Hsh Hcu)) as [Hrw Htb]. split; [done|]. unfold row_of. rewrite Htb. split; [exact Hin|exact Hout].
Qed.

Lemma erase_rect_empty s page r a : screen_ok s page -> rect_bool r = false ->
  exists t, erase_rect page r a s = Done t /\ rewritten s page t /\ text_buffer page t = text_buffer page s.
Proof using Laws.
  intros Hs Hr. unfold erase_rect, _FillRect, FillRect, rect_empty. rewrite Hr. cbn [negb orb obind ended]. eexists. split; [reflexivity|].
  apply put_rewritten; [done|apply Hs|done].
Qed.
End Facts.
