(* ===== verification/AreaFacts.v ===== *)
(** * Changing the attributes of an area

    DECCARA computes two masks and three colours from a list of graphic
    renditions and applies these to every cell, instead of the list itself.
    The effect of any list of renditions is such a change, so that the masks
    can be read off the effect on two attributes.  Then where a rectangular
    area is, and what erasing it and changing its attributes do. *)

From S2P Require Import Prelude VTTypes TermDispatch TextAttribute SgrStack Graphics.
From S2P Require Import Rle RleFacts RleRefine Cursor Pages Adapter Graphemes Row RowWrite RowFacts RowInit RowCopy Hash Geometry TextBuffer TextBufferFacts TextBufferTheorems Cells Editing Areas.
#[local] Open Scope Z_scope.

(** ** Changes by masks *)

Definition with_color (c : option TextColor) (old : TextColor) : TextColor := default old c.

(** The bits of [m] are kept, those of [o] are set, and some colours are
    replaced. *)
Definition masked (m o : Z) (fg bg ul : option TextColor) (a : TextAttribute) : TextAttribute :=
  a <| _attrs := Z.lor (Z.land (_attrs a) m) o |>
    <| _foreground := with_color fg (_foreground a) |>
    <| _background := with_color bg (_background a) |>
    <| _underlineColor := with_color ul (_underlineColor a) |>.

Definition uniform (f : TextAttribute -> TextAttribute) : Prop := exists m o fg bg ul, forall a, f a = masked m o fg bg ul a.

Lemma masked_id a : masked (-1) 0 None None None a = a.
Proof. unfold masked, with_color. cbn. rewrite Z.land_m1_r, Z.lor_0_r. by destruct a. Qed.

Lemma uniform_id : uniform (fun a => a).
Proof. exists (-1), 0, None, None, None. intros a. by rewrite masked_id. Qed.

Lemma with_color_twice c c' old : with_color c' (with_color c old) = with_color (match c' with Some _ => c' | None => c end) old.
Proof. by destruct c'. Qed.

Lemma uniform_comp f g : uniform f -> uniform g -> uniform (fun a => g (f a)).
Proof.
  intros (m & o & fg & bg & ul & Hf) (m' & o' & fg' & bg' & ul' & Hg). do 5 eexists. intros a. rewrite Hg, Hf. unfold masked. cbn. rewrite !with_color_twice.
  rewrite Z.land_lor_distr_l, <- Z.land_assoc, <- Z.lor_assoc. reflexivity.
Qed.

(** The setters. *)
Lemma uniform_flag flag b : uniform (set_flag flag b).
Proof.
  exists (if b then -1 else Z.lnot flag), (if b then flag else 0), None, None, None. intros a. unfold set_flag, masked, update_flag, with_color. destruct b; cbn.
  - rewrite Z.land_m1_r. by destruct a.
  - rewrite Z.lor_0_r, Z.ldiff_land. by destruct a.
Qed.

Lemma uniform_underline style : uniform (SetUnderlineStyle style).
Proof.
  exists (Z.lnot CharacterAttributes.UnderlineStyle), (u16 (Z.shiftl style UNDERLINE_STYLE_SHIFT)), None, None, None. intros a. unfold SetUnderlineStyle, masked, with_color. cbn.
  rewrite Z.ldiff_land. by destruct a.
Qed.

Lemma uniform_renditions : uniform SetDefaultRenditionAttributes.
Proof.
  exists (Z.lnot CharacterAttributes.Rendition), 0, None, None, None. intros a. unfold SetDefaultRenditionAttributes, masked, with_color. cbn. rewrite Z.ldiff_land, Z.lor_0_r. by destruct a.
Qed.

Lemma uniform_foreground c : uniform (SetForeground c).
Proof. exists (-1), 0, (Some c), None, None. intros a. unfold SetForeground, masked, with_color. cbn. rewrite Z.land_m1_r, Z.lor_0_r. by destruct a. Qed.

Lemma uniform_background c : uniform (SetBackground c).
Proof. exists (-1), 0, None, (Some c), None. intros a. unfold SetBackground, masked, with_color. cbn. rewrite Z.land_m1_r, Z.lor_0_r. by destruct a. Qed.

Lemma uniform_underline_color c : uniform (SetUnderlineColor c).
Proof. exists (-1), 0, None, None, (Some c). intros a. unfold SetUnderlineColor, masked, with_color. cbn. rewrite Z.land_m1_r, Z.lor_0_r. by destruct a. Qed.

Create HintDb uniform.
#[export] Hint Resolve uniform_id uniform_flag uniform_underline uniform_renditions uniform_foreground uniform_background uniform_underline_color : uniform.

(** One setter, or several after each other. *)
Ltac uniform :=
  repeat match goal with
  | |- uniform (fun a => SetDefaultRenditionAttributes (@?f a)) => apply (uniform_comp f SetDefaultRenditionAttributes); [|by auto with uniform]
  | |- uniform (fun a => SetDefaultUnderlineColor (@?f a)) => apply (uniform_comp f (SetUnderlineColor TextColor_default)); [|by auto with uniform]
  | |- uniform (fun a => SetDefaultBackground (@?f a)) => apply (uniform_comp f (SetBackground TextColor_default)); [|by auto with uniform]
  | |- uniform (fun a => SetFaint ?b (@?f a)) => apply (uniform_comp f (set_flag CharacterAttributes.Faint b)); [|by auto with uniform]
  end;
  first [ apply uniform_id | apply uniform_flag | apply uniform_underline | apply uniform_foreground | apply uniform_background | apply uniform_underline_color ].

(** ** Renditions *)

Lemma graphics_cases_uniform : Forall (fun c => uniform (snd c)) graphics_cases.
Proof. unfold graphics_cases. repeat constructor; cbn [snd]; uniform. Qed.

Lemma switch_uniform opt cases : Forall (fun c => uniform (snd c)) cases -> uniform (graphics_switch opt cases).
Proof.
  induction 1 as [|[labels f] cases Hf _ IH]; [apply uniform_id|]. cbn [graphics_switch]. by destruct (existsb _ labels).
Qed.

Lemma rgb_helper options isForeground : exists n f, uniform f /\ forall a, _SetRgbColorsHelper options a isForeground = (n, f a).
Proof.
  unfold _SetRgbColorsHelper. destruct (_ =? GraphicsOptions.RGBColorOrFaint).
  - exists 4%nat. destruct (_ && _); [|by exists (fun a => a); auto with uniform]. unfold SetColor_ground. destruct isForeground; eexists; (split; [|reflexivity]); uniform.
  - destruct (_ =? GraphicsOptions.BlinkOrXterm256Index); [exists 2%nat|by exists 1%nat, (fun a => a); auto with uniform].
    destruct (_ <=? 255); [|by exists (fun a => a); auto with uniform]. destruct isForeground; eexists; (split; [|reflexivity]); uniform.
Qed.

Lemma sub_params_uniform option subParams : uniform (_ApplyGraphicsOptionWithSubParams option subParams).
Proof.
  unfold _ApplyGraphicsOptionWithSubParams, _SetUnderlineStyleHelper, _SetRgbColorsHelperFromSubParams, applyColor.
  repeat match goal with |- uniform (fun a => if ?c then _ else _) => destruct c end; uniform.
Qed.

Lemma option_uniform options i : exists n f, uniform f /\ forall a, _ApplyGraphicsOption options i a = (n, f a).
Proof.
  unfold _ApplyGraphicsOption. destruct (hasSubParamsFor options i).
  - exists 1%nat. eexists. split; [apply sub_params_uniform|done].
  - destruct (_ =? GraphicsOptions.ForegroundExtended); [|destruct (_ =? GraphicsOptions.BackgroundExtended)].
    + destruct (rgb_helper (params_subspan options (i + 1)) true) as (n & f & Hf & E). exists (S n), f. split; [done|]. intros a. by rewrite E.
    + destruct (rgb_helper (params_subspan options (i + 1)) false) as (n & f & Hf & E). exists (S n), f. split; [done|]. intros a. by rewrite E.
    + exists 1%nat. eexists. split; [apply switch_uniform, graphics_cases_uniform|done].
Qed.

Lemma graphics_loop_uniform fuel : forall i options, uniform (apply_graphics_loop fuel i options).
Proof.
  induction fuel as [|fuel IH]; intros i options; [apply uniform_id|]. cbn [apply_graphics_loop]. destruct (i <? _)%nat; [|apply uniform_id].
  destruct (option_uniform options i) as (n & f & Hf & E). destruct (uniform_comp f _ Hf (IH (i + n)%nat options)) as (m & o & fg & bg & ul & H).
  exists m, o, fg, bg, ul. intros a. rewrite E. apply H.
Qed.

(** The masks and colours are read off two attributes. *)
Lemma probed_color (c : option TextColor) (off := with_color c TextColor_default) (on := with_color c (TextColor_rgb 0)) :
  (if negb (IsDefault off) || IsDefault on then Some off else None) = c.
Proof. subst off on. destruct c as [c|]; cbn; [|done]. by destruct (IsDefault c). Qed.

Lemma probed_bits x m o : 0 <= x < 2 ^ 16 ->
  Z.lxor (Z.land x (Z.ldiff (Z.lor (Z.land CharacterAttributes.All m) o) o)) o = Z.lor (Z.land x m) o.
Proof.
  intros Hx. apply Z.bits_inj'. intros n Hn. rewrite Z.lxor_spec, Z.lor_spec, !Z.land_spec, Z.ldiff_spec, Z.lor_spec, Z.land_spec.
  destruct (Z.ltb_spec n 16) as [Hlt|Hge].
  - change CharacterAttributes.All with (Z.ones 16). rewrite Z.ones_spec_low by lia. by destruct (Z.testbit x n), (Z.testbit m n), (Z.testbit o n).
  - assert (Hb : Z.testbit x n = false). { destruct (Z.eq_dec x 0) as [->|]; [apply Z.testbit_0_l|]. apply Z.bits_above_log2; [lia|]. apply Z.log2_lt_pow2; [lia|]. pose proof (Z.pow_le_mono_r 2 16 n). lia. }
    rewrite Hb. by destruct (Z.testbit o n).
Qed.

Lemma masks_exact attrs a : 0 <= _attrs a < 2 ^ 16 -> change_attribute (change_ops attrs) a = _ApplyGraphicsOptions attrs a.
Proof.
  intros Ha. destruct (graphics_loop_uniform (params_size attrs) 0 attrs) as (m & o & fg & bg & ul & H). unfold change_ops, _ApplyGraphicsOptions. rewrite !H.
  unfold masked. cbn [_attrs _foreground _background _underlineColor setter TextAttribute_eta TextAttribute_default TextAttribute_rgb SetCharacterAttributes].
  unfold change_attribute. cbn [andAttrMask xorAttrMask op_foreground op_background op_underlineColor].
  rewrite !probed_color, Z.land_0_l, Z.lor_0_l, probed_bits by done. unfold SetCharacterAttributes, SetForeground, SetBackground, SetUnderlineColor, with_color.
  by destruct fg, bg, ul, a.
Qed.

(** * Rectangular areas of a page

    Where the area that a sequence names is on the page, and what erasing it
    and changing its attributes do to the rows. *)

From S2P Require Import TerminalInput TerminalOutput.
From S2P Require Import AdapterFacts AdapterMoves GraphemeFacts RowFinish RowWrites RowTheorems.
From S2P Require Import EditingFacts.

(** ** Where an area is *)

(** A coordinate of the area from [first] to [last], counted from 1 at [x0]; a
    first coordinate beyond [x1] counts as the last one, and the last
    coordinate may be left open with 0. *)
Definition in_range (x0 x1 first last x : Z) : Prop := Z.min first (x1 - x0) <= x - x0 + 1 /\ x < x1 /\ (last = 0 \/ x - x0 + 1 <= last).

Section Areas.
Context `{!Machine} {A : Type} `{Api : !ITerminalApi A TextBuffer} `{Laws : !TerminalApiLaws A TextBuffer} `{Screen : !IScreenApi A}.
Abbreviation S_ := (AdaptDispatch A TextBuffer).
Implicit Types (s t : S_) (page : Page) (y : Z).

(** The columns and rows that coordinates refer to: the whole page, or the
    part between the margins in origin mode. *)
Definition column_extent page s : Z * Z :=
  let '(lo, hi) := margin_columns (Adapter.Width page s) (_scrollMargins s) in
  if test_mode AdaptMode.Origin s then (lo, hi + 1) else (0, Adapter.Width page s).
Definition row_extent page s : Z * Z :=
  let '(lo, hi) := margin_rows (Height page) (_scrollMargins s) in
  if test_mode AdaptMode.Origin s then (Top page + lo, Top page + hi + 1) else (Top page, Bottom page).

Definition in_area page s (top left bottom right : Z) (p : point) : Prop :=
  in_range (fst (column_extent page s)) (snd (column_extent page s)) left right (px p) /\
  in_range (fst (row_extent page s)) (snd (row_extent page s)) top bottom (py p).

Lemma extents_range s page : screen_ok s page ->
  0 <= fst (column_extent page s) < snd (column_extent page s) /\ snd (column_extent page s) <= _width (text_buffer page s) /\
  Top page <= fst (row_extent page s) < snd (row_extent page s) /\ snd (row_extent page s) <= Bottom page.
Proof using.
  intros [[Hp Hv Hm _] Hs _ _ _]. destruct (page_geometry s page Hp Hv Hs) as [Hw Ht]. unfold column_extent, row_extent. change (_width (text_buffer page s)) with (Adapter.Width page s).
  assert (Hw1 : 1 <= Adapter.Width page s) by lia. pose proof (margin_columns_range _ _ Hw1 Hm) as Hc. pose proof (margin_rows_range (Height page) (_scrollMargins s) ltac:(unfold Height; lia) Hm) as Hr.
  unfold Height in *. destruct (margin_columns _ _) as [x0 x1], (margin_rows _ _) as [y0 y1]. cbn [fst snd] in *. destruct (test_mode _ s); cbn [fst snd]; lia.
Qed.

Lemma area_spec s page top left bottom right : screen_ok s page -> 1 <= top -> 1 <= left -> 0 <= bottom -> 0 <= right ->
  exists m r, _CalculateRectArea page top left bottom right s = (s <| _scrollMargins := m |>, r) /\ margins_ok m /\ in_buffer (text_buffer page s) r /\
    (forall p, rect_contains r p = true <-> in_area page s top left bottom right p).
Proof using.
  intros Hsc Ht Hl Hb Hr. pose proof (extents_range s page Hsc) as (Hx & Hxw & Hy & Hyb). pose proof Hsc as [[_ _ Hm _] _ _ H0 Hh].
  unfold _CalculateRectArea. rewrite GetVerticalMargins_eq. unfold in_area. revert Hx Hxw Hy Hyb. unfold column_extent, row_extent.
  destruct (margin_rows _ _) as [y0 y1]. rewrite GetHorizontalMargins_eq. cbn [_scrollMargins setter AdaptDispatch_eta]. rewrite columns_of_kept_rows.
  destruct (margin_columns _ _) as [x0 x1]. change (test_mode AdaptMode.Origin (s <| _scrollMargins := _ |> <| _scrollMargins := _ |>)) with (test_mode AdaptMode.Origin s).
  intros Hx Hxw Hy Hyb. do 2 eexists. split; [reflexivity|]. split; [by apply kept_columns_ok, kept_rows_ok|].
  unfold in_buffer, rect_contains, in_range, Height in *. cbn [Pages.left Pages.top Pages.right Pages.bottom]. destruct (test_mode _ s); cbn [fst snd] in *.
  - split; [destruct (Z.eqb_spec right 0), (Z.eqb_spec bottom 0); lia|]. intros [x y]. cbn [px py]. destruct (Z.eqb_spec right 0), (Z.eqb_spec bottom 0); lia.
  - split; [destruct (Z.eqb_spec right 0), (Z.eqb_spec bottom 0); lia|]. intros [x y]. cbn [px py]. destruct (Z.eqb_spec right 0), (Z.eqb_spec bottom 0); lia.
Qed.

(** ** Erasing an area *)

(** C14: DECERA erases exactly the area that it names, clipped to the page or
    to the margins: in its rows the columns of the area become spaces with the
    attributes for erasing, and wide glyphs cut by an edge become spaces; the
    other rows, the cursor and the modes stay as they are. *)
Theorem area_erased s page gs l top left bottom right : screen_ok s page -> displays s page gs l -> 1 <= top -> 1 <= left -> 0 <= bottom -> 0 <= right ->
  exists t r, AdaptDispatch_EraseRectangularArea top left bottom right s = Done t /\ screen_ok t page /\ frame (text_buffer page t) = frame (text_buffer page s) /\ _modes t = _modes s /\
    (forall p, rect_contains r p = true <-> in_area page s top left bottom right p) /\
    forall y, 0 <= y < _height (text_buffer page s) ->
      if rect_bool r && (Pages.top r <=? y) && (y <? Pages.bottom r)
      then shows (row_of page t y) (erased_glyphs r (gs y)) (erased_attributes r (_GetEraseAttributes page s) (l y)) /\ flags (row_of page t y) = flags (row_of page s y)
      else row_of page t y = row_of page s y.
Proof.
  intros Hsc Hd Ht Hl Hb Hr. destruct (area_spec s page top left bottom right Hsc Ht Hl Hb Hr) as (m & r & E & Hm & Hin & Hcells).
  unfold AdaptDispatch_EraseRectangularArea. pose proof (sc_settled _ _ Hsc) as Hs. unfold settled in Hs. rewrite Hs, E.
  destruct (margins_rewritten s page m Hsc Hm) as [Hsc' Hbuf]. set (s1 := s <| _scrollMargins := m |>) in *. change (_GetEraseAttributes page s1) with (_GetEraseAttributes page s).
  destruct (rect_bool r) eqn:Hrb.
  - destruct (erase_rect_spec s1 page gs l r (_GetEraseAttributes page s) Hsc') as (t & -> & [H1 H2 H3 H4] & Hrows & Hothers); [done..|].
    exists t, r. do 5 (split; [done|]). intros y Hy. rewrite Hrb. cbn [andb]. destruct (Z.leb_spec (Pages.top r) y), (Z.ltb_spec y (Pages.bottom r)); cbn [andb]; [by apply Hrows|apply Hothers; [done|lia]..].
  - destruct (erase_rect_empty s1 page r (_GetEraseAttributes page s) Hsc' Hrb) as (t & -> & [H1 H2 H3 H4] & Htb). exists t, r. do 5 (split; [done|]). intros y Hy. rewrite Hrb. cbn [andb]. unfold row_of. by rewrite Htb.
Qed.

(** ** Changing the attributes of an area *)

Lemma attribute_at r gs l c a : shows r gs l -> l !! c = Some a -> GetAttrByColumn r (Z.of_nat c) = Done a.
Proof using.
  intros [Hh Hr] Hl. pose proof Hr as (Hwf & _ & Hv). pose proof Hh as [Hs _ Hc _ _ _]. pose proof Hs as [Hw _ _ _ Ht]. pose proof (lookup_lt_Some _ _ _ Hl) as Hlt.
  pose proof (represents_length 16 _ _ Hr) as Hlen. rewrite Ht in Hlen.
  unfold GetAttrByColumn. assert (E : _clampedColumn r (Z.of_nat c) = Z.of_nat c).
  { unfold _clampedColumn, clamp. destruct (Z.ltb_spec (Z.of_nat c) 0), (Z.gtb_spec (Z.of_nat c) (_columnCount r - 1)); try lia. unfold u16. apply Z.mod_small. lia. }
  rewrite E, rle_at_values by (done || lia). by rewrite Hv, Nat2Z.id, Hl.
Qed.

(** One row: the attributes of [n] columns are changed one after the other. *)
Definition changed (f : TextAttribute -> TextAttribute) (from n : nat) (l : list TextAttribute) : list TextAttribute :=
  take from l ++ map f (take n (drop from l)) ++ drop (from + n) l.

Lemma changed_zero f from l : changed f from 0 l = l.
Proof using. unfold changed. rewrite take_0, Nat.add_0_r. apply take_drop. Qed.

Lemma changed_step f from n l a : l !! from = Some a -> changed f (S from) n (take from l ++ replicate (S from - from) (f a) ++ drop (S from) l) = changed f from (S n) l.
Proof using.
  intros Ha. pose proof (lookup_lt_Some _ _ _ Ha) as Hlt. replace (S from - from)%nat with 1%nat by lia. cbn [replicate]. unfold changed. rewrite (drop_S l a from Ha).
  assert (Hlen : length (take from l) = from) by (rewrite length_take; lia). set (p := take from l) in *. set (q := drop (S from) l).
  assert (E : p ++ [f a] ++ q = (p ++ [f a]) ++ q) by (by rewrite <- app_assoc). rewrite E.
  assert (Hl1 : length (p ++ [f a]) = S from) by (rewrite length_app, Hlen; cbn; lia).
  rewrite <- Hl1 at 1. rewrite take_app_length, <- Hl1 at 1. rewrite drop_app_length. rewrite drop_app, Hl1, (drop_ge (p ++ [f a])) by lia. cbn [firstn map]. rewrite <- app_assoc. cbn [app].
  do 3 f_equal. replace (S from + n - S from)%nat with n by lia. unfold q. rewrite drop_drop. f_equal. lia.
Qed.

Lemma changed_lookup f from n l x : changed f from n l !! x = (if (from <=? x)%nat && (x <? from + n)%nat then f else fun a => a) <$> l !! x.
Proof using.
  unfold changed. destruct (Nat.leb_spec from x) as [Hge|Hlt]; cbn [andb].
  - destruct (decide (from <= length l)%nat) as [Hin|Hout].
    + rewrite lookup_app_r, length_take_le by (rewrite ?length_take; lia). destruct (Nat.ltb_spec x (from + n)).
      * destruct (decide (x < length l)%nat) as [Hx|Hx].
        -- rewrite lookup_app_l by (rewrite length_map, length_take, length_drop; lia). rewrite (list_lookup_fmap f), lookup_take_lt, lookup_drop by lia. do 2 f_equal. lia.
        -- rewrite lookup_app_r by (rewrite length_map, length_take, length_drop; lia). rewrite length_map, length_take, length_drop, lookup_drop, !lookup_ge_None_2 by lia. done.
      * rewrite lookup_app_r by (rewrite length_map, length_take; lia). rewrite length_map, length_take, length_drop, lookup_drop.
        destruct (decide (x < length l)%nat); [|rewrite !lookup_ge_None_2 by lia; done]. rewrite option_fmap_id. f_equal. lia.
    + rewrite !lookup_ge_None_2; [by destruct (_ <? _)%nat|lia|]. rewrite !length_app, length_take, length_map, length_take, !length_drop. lia.
  - rewrite option_fmap_id. destruct (decide (x < length l)%nat) as [Hx|Hx].
    + rewrite lookup_app_l by (rewrite length_take; lia). by rewrite lookup_take_lt.
    + rewrite !lookup_ge_None_2; [done|lia|]. rewrite !length_app, length_take, length_map, length_take, !length_drop. lia.
Qed.

Lemma change_columns_ok ops n : forall (from : nat) r gs l, shows r gs l -> (from + n <= cols gs)%nat ->
  exists r', change_columns n (Z.of_nat from) ops r = Done r' /\ shows r' gs (changed (change_attribute ops) from n l) /\ flags r' = flags r.
Proof using.
  induction n as [|n IH]; intros from r gs l Hsh Hn; cbn [change_columns].
  - exists r. rewrite changed_zero. done.
  - pose proof Hsh as [[[Hw _ _ _ Ht] _ Hc _ _ _] Hr]. pose proof (represents_length 16 _ _ Hr) as Hlen. rewrite Ht in Hlen.
    destruct (lookup_lt_is_Some_2 l from) as [a Ha]; [lia|]. rewrite (attribute_at r gs l from a) by done. cbn [obind]. replace (Z.of_nat from + 1) with (Z.of_nat (S from)) by lia.
    destruct (attributes_replaced r gs l from (S from) (change_attribute ops a) Hsh) as (r1 & -> & Hsh1 & Hf1); [lia|]. cbn [obind].
    destruct (IH (S from) r1 gs _ Hsh1) as (r2 & -> & Hsh2 & Hf2); [lia|]. exists r2. split; [done|]. split; [by rewrite changed_step in Hsh2|congruence].
Qed.

(** The attributes of a rectangle. *)
Lemma change_rect_spec s page gs l r ops : screen_ok s page -> displays s page gs l -> in_buffer (text_buffer page s) r ->
  exists t l', _ChangeRectAttributes page r ops s = Done t /\ rewritten s page t /\ displays t page gs l' /\
    (forall y, 0 <= y < _height (text_buffer page s) -> flags (row_of page t y) = flags (row_of page s y)) /\
    forall y (x : nat), 0 <= y < _height (text_buffer page s) ->
      l' y !! x = (if rect_contains r (mk_point (Z.of_nat x) y) then change_attribute ops else fun a => a) <$> l y !! x.
Proof using Laws.
  intros Hsc Hd (Hl & Hr & Ht & Hb). unfold _ChangeRectAttributes. destruct (rect_bool r) eqn:Hrb.
  2:{ exists s, l. split; [done|]. split; [by apply rewritten_refl|]. do 2 (split; [done|]). intros y x Hy. unfold rect_bool in Hrb. unfold rect_contains. cbn [px py].
      replace ((Z.of_nat x >=? left r) && (Z.of_nat x <? right r) && (y >=? top r) && (y <? bottom r)) with false by lia. by rewrite option_fmap_id. }
  unfold rect_bool in Hrb. pose proof Hsc as [_ _ Hok _ _]. set (b := text_buffer page s) in *. set (L := Z.to_nat (left r)). set (n := Z.to_nat (rect_width r)).
  unfold rect_width, rect_height in *. set (f := change_columns n (left r) ops). set (g := fun r0 => match f r0 with Done r1 => r1 | _ => r0 end).
  assert (Hrun : forall y, top r <= y < bottom r -> exists r', f (row_at m_isa b y) = Done r' /\ shows r' (gs y) (changed (change_attribute ops) L n (l y)) /\ flags r' = flags (row_at m_isa b y)).
  { intros y Hy. destruct (Hd y ltac:(fold b; lia)) as [Hsh _]. unfold f. replace (left r) with (Z.of_nat L) by lia. apply change_columns_ok; [done|].
    pose proof Hsh as [[_ _ Hc _ _ _] _]. pose proof (proj2 (slot_row_ok m_isa b (phys b y) Hok)) as Hcw. change (slot m_isa b (phys b y)) with (row_of page s y) in Hcw. unfold L, n. lia. }
  destruct (update_rows_spec s page f g (top r) (bottom r) Hsc) as (t & -> & Hrw & Hrows); [lia|fold b; lia| |].
  { intros y Hy. destruct (Hrun y Hy) as (r' & E & [Hh _] & Hf). unfold g. change (row_of page s y) with (row_at m_isa b y). rewrite E. split; [done|]. split; [apply Hh|].
    injection Hf as -> _ _ _. apply (slot_row_ok m_isa b _ Hok). }
  exists t, (fun y => if (top r <=? y) && (y <? bottom r) then changed (change_attribute ops) L n (l y) else l y). split; [done|]. split; [done|].
  assert (Hsize : frame (text_buffer page t) = frame b) by apply Hrw. assert (Hh : _height (text_buffer page t) = _height b /\ _width (text_buffer page t) = _width b) by (split; [exact (f_equal (fun x => snd (fst (fst x))) Hsize)|exact (f_equal (fun x => fst (fst (fst x))) Hsize)]).
  destruct Hh as [Hh Hw]. split; [|split].
  - intros y Hy. rewrite Hh in Hy. rewrite Hw. destruct (Hd y Hy) as [Hsh Hroom]. split; [|done]. rewrite Hrows by done. destruct (Z.leb_spec (top r) y), (Z.ltb_spec y (bottom r)); cbn [andb]; try done.
    destruct (Hrun y ltac:(lia)) as (r' & E' & Hs' & _). unfold g. change (row_of page s y) with (row_at m_isa b y). by rewrite E'.
  - intros y Hy. rewrite Hrows by done. destruct (Z.leb_spec (top r) y), (Z.ltb_spec y (bottom r)); cbn [andb]; try done.
    destruct (Hrun y ltac:(lia)) as (r' & E' & _ & Hf). unfold g. change (row_of page s y) with (row_at m_isa b y). by rewrite E'.
  - intros y x Hy. unfold rect_contains. cbn [px py]. destruct (Z.leb_spec (top r) y), (Z.ltb_spec y (bottom r)); cbn [andb].
    + rewrite changed_lookup. replace ((Z.of_nat x >=? left r) && (Z.of_nat x <? right r) && (y >=? top r) && true) with ((L <=? x)%nat && (x <? L + n)%nat); [done|].
      unfold L, n. destruct (Nat.leb_spec (Z.to_nat (left r)) x), (Nat.ltb_spec x (Z.to_nat (left r) + Z.to_nat (right r - left r))); lia.
    + rewrite andb_false_r. by rewrite option_fmap_id.
    + replace (y >=? top r) with false by lia. rewrite andb_false_r. cbn [andb]. by rewrite option_fmap_id.
    + rewrite andb_false_r. by rewrite option_fmap_id.
Qed.

(** The cells that a change of attributes concerns: those of the rectangle, or
    the stream of cells from its first to its last one. *)
Definition concerns (rectangular : bool) (r : rect) (p : point) : bool :=
  (left r <? right r) && (top r <=? py p) && (py p <? bottom r) &&
  (if rectangular then (left r <=? px p) && (px p <? right r)
   else ((top r <? py p) || (left r <=? px p)) && ((py p <? bottom r - 1) || (px p <? right r))).

(** Several changes of different cells are one change. *)
Lemma change_area_spec s page gs l r ops : screen_ok s page -> displays s page gs l -> in_buffer (text_buffer page s) r ->
  let rectangular := test_mode AdaptMode.RectangularChangeExtent s in
  let lineCount := rect_height r in
  exists t l',
    (if rectangular || (lineCount =? 1) then _ChangeRectAttributes page r ops s
     else if (lineCount >? 1) && (right r >? left r) then
       let pageWidth := Adapter.Width page s in
       let* s := _ChangeRectAttributes page (rect_of_size (left r) (top r) (pageWidth - left r) 1) ops s in
       let* s := _ChangeRectAttributes page (rect_of_size 0 (top r + 1) pageWidth (lineCount - 2)) ops s in
       _ChangeRectAttributes page (rect_of_size 0 (bottom r - 1) (right r) 1) ops s
     else Done s) = Done t /\
    rewritten s page t /\ displays t page gs l' /\
    (forall y, 0 <= y < _height (text_buffer page s) -> flags (row_of page t y) = flags (row_of page s y)) /\
    forall y (x : nat), 0 <= y < _height (text_buffer page s) -> Z.of_nat x < _width (text_buffer page s) ->
      l' y !! x = (if concerns rectangular r (mk_point (Z.of_nat x) y) then change_attribute ops else fun a => a) <$> l y !! x.
Proof using Laws.
  intros Hsc Hd (Hl & Hr & Ht & Hb) rectangular lineCount. change (Adapter.Width page s) with (_width (text_buffer page s)). subst lineCount. unfold rect_height, concerns. cbn [px py].
  destruct (rectangular || (bottom r - top r =? 1)) eqn:Hone.
  - destruct (change_rect_spec s page gs l r ops Hsc Hd) as (t & l' & -> & Hrw & Hd' & Hfl & Hl'); [by split_and!|]. exists t, l'. do 4 (split; [done|]). intros y x Hy Hx. rewrite Hl' by done.
    do 2 f_equal. unfold rect_contains. cbn [px py]. match goal with |- (if ?c then _ else _) = (if ?d then _ else _) => replace d with c; [done|] end. destruct rectangular; cbn [orb] in Hone; lia.
  - destruct rectangular; [done|]. cbn [orb] in Hone. destruct ((bottom r - top r >? 1) && (right r >? left r)) eqn:Hmore.
    2:{ exists s, l. split; [done|]. split; [by apply rewritten_refl|]. do 2 (split; [done|]). intros y x Hy Hx.
        match goal with |- context [if ?c then change_attribute ops else _] => replace c with false by (cbv iota; lia) end. by rewrite option_fmap_id. }
    cbv zeta. destruct (change_rect_spec s page gs l (rect_of_size (left r) (top r) (_width (text_buffer page s) - left r) 1) ops Hsc Hd) as (t1 & l1 & -> & Hrw1 & Hd1 & Hfl1 & Hl1); [unfold in_buffer, rect_of_size; cbn [Pages.left Pages.top Pages.right Pages.bottom]; lia|]. cbn [obind].
    destruct (rewritten_size _ _ _ Hrw1) as [Ew1 Eh1]. pose proof Hrw1 as [Hsc1 _ _ _].
    destruct (change_rect_spec t1 page gs l1 (rect_of_size 0 (top r + 1) (_width (text_buffer page s)) (bottom r - top r - 2)) ops Hsc1 Hd1) as (t2 & l2 & -> & Hrw2 & Hd2 & Hfl2 & Hl2); [unfold in_buffer, rect_of_size; rewrite Ew1, Eh1; cbn [Pages.left Pages.top Pages.right Pages.bottom]; lia|]. cbn [obind].
    destruct (rewritten_size _ _ _ Hrw2) as [Ew2 Eh2]. pose proof Hrw2 as [Hsc2 _ _ _].
    destruct (change_rect_spec t2 page gs l2 (rect_of_size 0 (bottom r - 1) (right r) 1) ops Hsc2 Hd2) as (t3 & l3 & -> & Hrw3 & Hd3 & Hfl3 & Hl3); [unfold in_buffer, rect_of_size; rewrite Ew2, Eh2, Ew1, Eh1; cbn [Pages.left Pages.top Pages.right Pages.bottom]; lia|].
    exists t3, l3. split; [done|]. split; [eapply rewritten_trans; [exact Hrw1|]; by eapply rewritten_trans|]. split; [done|]. rewrite Eh2, Eh1 in Hfl3, Hl3. rewrite Eh1 in Hfl2, Hl2. split; [intros y Hy; by rewrite Hfl3, Hfl2, Hfl1|].
    intros y x Hy Hx. rewrite Hl3, Hl2, Hl1 by done. unfold rect_contains, rect_of_size. cbn [px py Pages.left Pages.top Pages.right Pages.bottom].
    destruct (l y !! x) as [a|]; [|done]. cbn [fmap option_fmap option_map]. f_equal.
    repeat match goal with |- context [if ?c then change_attribute ops else _] => let E := fresh in destruct c eqn:E end; try done; exfalso; lia.
Qed.

(** C15: DECCARA changes the attributes of exactly the cells that it names, of
    the rectangle or of the stream of cells between its corners, in the same
    way as SGR with the same parameters would change them; the text and the
    other rows stay as they are. *)
Theorem area_attributes_changed s page gs l top left bottom right attrs : screen_ok s page -> displays s page gs l -> 1 <= top -> 1 <= left -> 0 <= bottom -> 0 <= right ->
  (forall y a, a ∈ l y -> 0 <= _attrs a < 2 ^ 16) ->
  exists t r l', AdaptDispatch_ChangeAttributesRectangularArea top left bottom right attrs s = Done t /\ screen_ok t page /\ frame (text_buffer page t) = frame (text_buffer page s) /\
    (forall p, rect_contains r p = true <-> in_area page s top left bottom right p) /\ displays t page gs l' /\
    (forall y, 0 <= y < _height (text_buffer page s) -> flags (row_of page t y) = flags (row_of page s y)) /\
    forall y (x : nat) a, 0 <= y < _height (text_buffer page s) -> l y !! x = Some a ->
      l' y !! x = Some (if concerns (test_mode AdaptMode.RectangularChangeExtent s) r (mk_point (Z.of_nat x) y) then _ApplyGraphicsOptions attrs a else a).
Proof.
  intros Hsc Hd Ht Hl Hb Hr H16. destruct (area_spec s page top left bottom right Hsc Ht Hl Hb Hr) as (m & r & E & Hm & Hin & Hcells).
  unfold AdaptDispatch_ChangeAttributesRectangularArea, _ChangeRectOrStreamAttributes. cbn [Pages.top Pages.left Pages.bottom Pages.right].
  pose proof (sc_settled _ _ Hsc) as Hs. unfold settled in Hs. rewrite Hs, E. destruct (margins_rewritten s page m Hsc Hm) as [Hsc' Hbuf].
  destruct (change_area_spec _ page gs l r (change_ops attrs) Hsc' Hd Hin) as (t & l' & Hrun & [H1 H2 H3 H4] & Hd' & Hfl & Hl'). exists t, r, l'. split; [exact Hrun|]. do 5 (split; [done|]).
  intros y x a Hy Ha. assert (Hx : Z.of_nat x < _width (text_buffer page s)).
  { destruct (Hd y Hy) as [[_ Hrep] _]. pose proof (represents_length 16 _ _ Hrep) as Hlen.
    pose proof (slot_row_ok m_isa (text_buffer page s) (phys (text_buffer page s) y) (sc_buffer _ _ Hsc)) as [[_ _ _ _ Htot] Hcw].
    change (slot m_isa (text_buffer page s) (phys (text_buffer page s) y)) with (row_of page s y) in *. apply lookup_lt_Some in Ha. lia. }
  rewrite (Hl' y x Hy Hx), Ha.
  cbn. change (test_mode AdaptMode.RectangularChangeExtent (s <| _scrollMargins := m |>)) with (test_mode AdaptMode.RectangularChangeExtent s).
  destruct (concerns _ _ _); [|done]. f_equal. apply masks_exact. apply (H16 y). by eapply list_elem_of_lookup_2.
Qed.
End Areas.
