(* ===== verification/ScrollFacts.v ===== *)
(** * Scrolling a page

    What scrolling the full width of a part of a page does to its rows, and
    the operations that do so: inserting and deleting lines, and line feeds
    at the bottom of the page. *)

From S2P Require Import Prelude VTTypes TermDispatch TextAttribute SgrStack Graphics TerminalInput TerminalOutput.
From S2P Require Import Rle RleFacts RleRefine Cursor Pages Adapter AdapterFacts AdapterMoves Graphemes GraphemeFacts Row RowWrite RowFacts RowInit RowFinish RowWrites RowTheorems RowCopy.
From S2P Require Import Hash Geometry TextBuffer TextBufferFacts TextBufferTheorems Cells Editing Areas EditingFacts Printing.
#[local] Open Scope Z_scope.

Section Scrolling.
Context `{!Machine} {A : Type} `{Api : !ITerminalApi A TextBuffer} `{Laws : !TerminalApiLaws A TextBuffer} `{Screen : !IScreenApi A} `{ScreenLaws : !ScreenApiLaws A}.
Abbreviation S_ := (AdaptDispatch A TextBuffer).
Implicit Types (s t : S_) (page : Page) (y : Z) (b : TextBuffer).

(** Every row is a plain line with attributes, and there is room to write any
    line or blanks over it. *)
Record scrollable b (line : nat -> list glyph) : Prop := {
  sb_lines : lines m_isa b line;
  sb_attributes : forall y, 0 <= y < _height b -> exists l, represents 16 (_attr (row_at m_isa b y)) l;
  sb_room : forall y, 0 <= y < _height b -> has_room (line (phys b y)) (repeat 0x20 (Z.to_nat (_width b)));
}.

(** A row of spaces. *)
Record wiped (w : Z) (a : TextAttribute) (r : ROW) : Prop := {
  wi_shows : shows r (spaces (Z.to_nat w)) (replicate (Z.to_nat w) a);
  wi_single : _lineRendition r = SingleWidth;
}.

Lemma scrollable_displays s page line : screen_ok s page -> scrollable (text_buffer page s) line ->
  exists l, displays s page (fun y => line (phys (text_buffer page s) y)) l.
Proof using.
  intros Hsc [[Hpl _] Ha Hr]. set (b := text_buffer page s) in *.
  exists (fun y => runs_values (_runs (_attr (row_at m_isa b y)))). intros y Hy. destruct (Ha y Hy) as (l & Hl). pose proof Hl as (_ & _ & Hv).
  split; [split|by apply Hr]; [apply Hpl; unfold phys; lia|]. change (row_of page s y) with (row_at m_isa b y). by rewrite Hv.
Qed.

(** The rows from [T] to [B] after they were moved by [delta]. *)
Definition scrolled_row s page (line : nat -> list glyph) T B delta t y : Prop :=
  if (T <=? y) && (y <? B) then
    if (T <=? y - delta) && (y - delta <? B)
    then copy_of (row_of page s (y - delta)) (line (phys (text_buffer page s) (y - delta))) (row_of page t y)
    else wiped (_width (text_buffer page s)) (_GetEraseAttributes page s) (row_of page t y)
  else row_of page t y = row_of page s y.

(** The move itself. *)
Lemma moved_rows s page line T B delta (n := Z.min (Z.abs delta) (B - T)) : screen_ok s page -> scrollable (text_buffer page s) line -> 0 <= T < B -> B <= _height (text_buffer page s) ->
  exists t line', (if n <? B - T
      then on_buffer page (ScrollRows m_garbage m_isa (if delta >? 0 then T else T + n) (B - T - n) (if delta >? 0 then n else - n)) s else Done s) = Done t /\
    rewritten s page t /\ scrollable (text_buffer page t) line' /\
    forall y, 0 <= y < _height (text_buffer page s) ->
      (T <= y < B -> T <= y - delta < B -> copy_of (row_of page s (y - delta)) (line (phys (text_buffer page s) (y - delta))) (row_of page t y)) /\
      (~ (T <= y < B) -> row_of page t y = row_of page s y).
Proof using Laws.
  intros Hsc Hsb HT HB. set (b := text_buffer page s) in *. destruct (Z.ltb_spec n (B - T)) as [Hn|Hn].
  2:{ exists s, line. split; [done|]. split; [by apply rewritten_refl|]. split; [done|]. intros y Hy. split; [intros; lia|done]. }
  pose proof Hsb as [Hl Ha Hr]. pose proof Hsc as [_ _ Hok _ _].
  destruct (scrolled_rows m_garbage m_isa b line (if delta >? 0 then T else T + n) (B - T - n) (if delta >? 0 then n else - n) Hok Hl) as (b' & line' & E & Hok' & Hsh & Hcu & Hl' & Hrows);
    try (destruct (Z.gtb_spec delta 0); lia).
  destruct (on_buffer_ok s page (ScrollRows m_garbage m_isa (if delta >? 0 then T else T + n) (B - T - n) (if delta >? 0 then n else - n)) b' Hsc E Hok' (frame_shape _ _ Hsh Hcu)) as (t & -> & Hrw & Htb).
  exists t, line'. split; [done|]. split; [done|]. unfold row_of. rewrite Htb. fold b.
  assert (Hsize : _width b' = _width b /\ _height b' = _height b) by (unfold shape in Hsh; split; congruence). destruct Hsize as [Hw Hh].
  split; [split; [done| |]|].
  - intros y Hy. rewrite Hh in Hy. destruct (Hrows y Hy) as ([_ -> _] & _). apply Ha. destruct (_ && _) eqn:Ein; destruct (Z.gtb_spec delta 0); lia.
  - intros y Hy. rewrite Hh in Hy. rewrite Hw, (phys_shape b b') by done. destruct (Hrows y Hy) as (_ & _ & -> & _). apply Hr. destruct (_ && _) eqn:Ein; destruct (Z.gtb_spec delta 0); lia.
  - intros y Hy. destruct (Hrows y Hy) as (Hc & _ & _ & Heq). split.
    + intros H1 H2. replace ((_ <=? y) && (y <? _)) with true in Hc by (destruct (Z.gtb_spec delta 0); lia). replace (y - delta) with (y - (if delta >? 0 then n else - n)) by (destruct (Z.gtb_spec delta 0); lia). done.
    + intros Hout. apply Heq. destruct (Z.gtb_spec delta 0); lia.
Qed.

(** Rows that are erased over their full width and become single width. *)
Lemma single_width r gs l : shows r gs l -> shows (Row.SetLineRendition SingleWidth r) gs l.
Proof using. intros [Hh Hr]. split; [|done]. pose proof (ho_storage _ _ Hh) as []. by apply (holds_members r). Qed.

Lemma wiped_rows s page gs l E n a (w := _width (text_buffer page s)) (h := _height (text_buffer page s)) : screen_ok s page -> displays s page gs l -> 0 <= E -> 0 <= n -> E + n <= h ->
  exists t, (let* s := erase_rect page (mk_rect 0 E w (E + n)) a s in on_buffer page (ResetLineRenditionRange m_isa E (E + n)) s) = Done t /\ rewritten s page t /\
    forall y, 0 <= y < h -> if (E <=? y) && (y <? E + n) then wiped w a (row_of page t y) else row_of page t y = row_of page s y.
Proof using Laws.
  intros Hsc Hd HE Hn Hh. pose proof Hsc as [_ _ [Hw _ _ _ _] _ _]. fold w in Hw.
  assert (Hers : exists t, erase_rect page (mk_rect 0 E w (E + n)) a s = Done t /\ rewritten s page t /\
    forall y, 0 <= y < h -> if (E <=? y) && (y <? E + n) then shows (row_of page t y) (spaces (Z.to_nat w)) (replicate (Z.to_nat w) a) else row_of page t y = row_of page s y).
  { destruct (rect_bool (mk_rect 0 E w (E + n))) eqn:Hrb; unfold rect_bool in Hrb; cbn [Pages.left Pages.top Pages.right Pages.bottom] in Hrb.
    - destruct (erase_rect_spec s page gs l (mk_rect 0 E w (E + n)) a Hsc Hd) as (t & -> & Hrw & Hin & Hout); [unfold in_buffer; cbn [Pages.left Pages.top Pages.right Pages.bottom]; fold w h; lia|unfold rect_bool; cbn [Pages.left Pages.top Pages.right Pages.bottom]; lia|].
      cbn [Pages.left Pages.top Pages.right Pages.bottom] in *. exists t. split; [done|]. split; [done|]. intros y Hy. destruct (Z.leb_spec E y), (Z.ltb_spec y (E + n)); cbn [andb]; try (apply Hout; [done|lia]).
      destruct (Hin y ltac:(lia)) as [Hsh _]. destruct (Hd y Hy) as [[[_ Hok Hc _ _ _] Hr] _]. pose proof (represents_length 16 _ _ Hr) as Hlen.
      pose proof (slot_row_ok m_isa (text_buffer page s) (phys (text_buffer page s) y) (sc_buffer _ _ Hsc)) as [[_ _ _ _ Htot] Hcw]. change (slot m_isa (text_buffer page s) (phys (text_buffer page s) y)) with (row_of page s y) in *.
      fold w in Hcw. unfold erased_glyphs, erased_attributes in Hsh. cbn [Pages.left Pages.right] in Hsh. rewrite Nat.sub_0_r, take_0, drop_ge, app_nil_r in Hsh by lia. cbn [app] in Hsh.
      assert (Hcs : cols (spaces (Z.to_nat w)) = Z.to_nat w) by apply cols_spaces. rewrite <- Hcs in Hsh at 2. rewrite overwrite_all in Hsh by (done || rewrite Hcs; lia). done.
    - destruct (erase_rect_empty s page (mk_rect 0 E w (E + n)) a Hsc) as (t & -> & Hrw & Htb); [unfold rect_bool; cbn [Pages.left Pages.top Pages.right Pages.bottom]; lia|].
      exists t. split; [done|]. split; [done|]. intros y Hy. replace ((E <=? y) && (y <? E + n)) with false by lia. unfold row_of. by rewrite Htb. }
  destruct Hers as (t1 & -> & Hrw1 & Hrows1). cbn [obind]. destruct (rewritten_size _ _ _ Hrw1) as [Hw1 Hh1]. fold w in Hw1. fold h in Hh1. pose proof Hrw1 as [Hsc1 _ _ _].
  destruct (update_rows_spec t1 page (fun r => Done (Row.SetLineRendition SingleWidth r)) (Row.SetLineRendition SingleWidth) E (E + n) Hsc1) as (t & Hrun & Hrw & Hrows); [done|rewrite Hh1; lia| |].
  { intros y Hy. split; [done|]. destruct (slot_row_ok m_isa (text_buffer page t1) (phys (text_buffer page t1) y) (sc_buffer _ _ Hsc1)) as [[] Hc]. split; [by split|done]. }
  exists t. split; [exact Hrun|]. split; [by eapply rewritten_trans|]. intros y Hy. rewrite Hrows by (rewrite Hh1; lia). specialize (Hrows1 y Hy). destruct ((E <=? y) && (y <? E + n)); [|done].
  split; [by apply single_width|done].
Qed.

Lemma region_scrolled s page line T B delta : screen_ok s page -> scrollable (text_buffer page s) line -> 0 <= T < B -> B <= _height (text_buffer page s) ->
  exists t, _ScrollRectVertically page (mk_rect 0 T (Adapter.Width page s) B) delta s = Done t /\ rewritten s page t /\
    forall y, 0 <= y < _height (text_buffer page s) -> scrolled_row s page line T B delta t y.
Proof using Laws.
  intros Hsc Hsb HT HB. unfold _ScrollRectVertically, rect_height, rect_width. cbn [Pages.left Pages.top Pages.right Pages.bottom]. rewrite Z.sub_0_r, Z.eqb_refl.
  destruct (moved_rows s page line T B delta Hsc Hsb HT HB) as (t1 & line1 & -> & Hrw1 & Hsb1 & Hrows1). cbn [obind].
  set (n := Z.min (Z.abs delta) (B - T)). set (E := if delta >? 0 then T else B - n). set (w := _width (text_buffer page s)) in *. set (h := _height (text_buffer page s)) in *.
  change (Adapter.Width page s) with w. destruct (rewritten_size _ _ _ Hrw1) as [Hw1 Hh1]. fold w in Hw1. fold h in Hh1. pose proof Hrw1 as [Hsc1 Hfr1 Hmo1 Hma1].
  destruct (scrollable_displays t1 page line1 Hsc1 Hsb1) as (l1 & Hd1).
  assert (Ha : _GetEraseAttributes page t1 = _GetEraseAttributes page s).
  { unfold _GetEraseAttributes, test_mode. rewrite Hmo1. change (AttributesOf page t1) with (_currentAttributes (text_buffer page t1)). change (AttributesOf page s) with (_currentAttributes (text_buffer page s)).
    by rewrite (f_equal (fun x => snd (fst x)) Hfr1 : _currentAttributes _ = _currentAttributes _). }
  rewrite Ha. set (a := _GetEraseAttributes page s). assert (HE : 0 <= E /\ E + n <= h) by (unfold E; destruct (Z.gtb_spec delta 0); lia).
  destruct (wiped_rows t1 page _ l1 E n a Hsc1 Hd1) as (t & Hrun & Hrw & Hrows); [lia|lia|rewrite Hh1; lia|]. rewrite Hw1, Hh1 in *.
  exists t. split; [exact Hrun|]. split; [by eapply rewritten_trans|]. intros y Hy. specialize (Hrows y Hy). destruct (Hrows1 y Hy) as [Hmoved Hsame]. unfold scrolled_row. fold w a.
  destruct (decide (T <= y < B)) as [Hin|Hout].
  - replace ((T <=? y) && (y <? B)) with true by lia. destruct (decide (T <= y - delta < B)) as [Hin'|Hout'].
    + replace ((T <=? y - delta) && (y - delta <? B)) with true by lia. replace ((E <=? y) && (y <? E + n)) with false in Hrows by (unfold E; destruct (Z.gtb_spec delta 0); lia). rewrite Hrows. by apply Hmoved.
    + replace ((T <=? y - delta) && (y - delta <? B)) with false by lia. by replace ((E <=? y) && (y <? E + n)) with true in Hrows by (unfold E; destruct (Z.gtb_spec delta 0); lia).
  - replace ((T <=? y) && (y <? B)) with false by lia. replace ((E <=? y) && (y <? E + n)) with false in Hrows by (unfold E; destruct (Z.gtb_spec delta 0); lia). rewrite Hrows. by apply Hsame.
Qed.

(** ** Inserting and deleting lines *)

(** The cursor is moved about the page, and nothing else. *)
Lemma cursor_changed s page f : screen_ok s page -> on_page page (Adapter.Width page s) (GetPosition (f (CursorOf page s))) ->
  screen_ok (change_cursor page f s) page /\ _modes (change_cursor page f s) = _modes s /\ text_buffer page (change_cursor page f s) = (text_buffer page s) <| _cursor := f (CursorOf page s) |>.
Proof using Laws.
  intros [Hok Hs Hb Ht Hbo] Hf. unfold change_cursor. set (b := (Buffer page s) <| Pages._cursor := f (CursorOf page s) |>).
  destruct (adapter_set_buffer s page b Hok Hs) as (H1 & H2 & H3 & _); [done..|].
  assert (E : text_buffer page (set_buffer page b s) = (text_buffer page s) <| _cursor := f (CursorOf page s) |>) by (unfold text_buffer; by rewrite H3).
  split; [split; try done; rewrite E; [|exact Hbo]|split; [apply set_buffer_frame|done]]. destruct Hb as [K1 K2 K3 K4 K5]. by split.
Qed.

(** C13: IL and DL with the cursor between the top and the bottom margin, on a
    page without left and right margins: the rows from that of the cursor to
    the bottom margin move down or up by the given count, with their text,
    attributes and wrap marks, the rows that come free are blank and of single
    width in the attributes for erasing, every other row of the buffer stays
    as it is, and the cursor goes to the first column of its row.  Outside of
    the margins nothing happens.  Every row is of single width, not padded for
    a wide glyph that did not fit, and has room for the text of any other
    ([scrollable]). *)
Theorem lines_moved s page line (insert : bool) n (rows := margin_rows (Height page) (_scrollMargins s)) (here := GetPosition (CursorOf page s)) : screen_ok s page -> scrollable (text_buffer page s) line ->
  margin_columns (Adapter.Width page s) (_scrollMargins s) = (0, Adapter.Width page s - 1) ->
  exists t, (if insert then AdaptDispatch_InsertLine n s else AdaptDispatch_DeleteLine n s) = Done t /\ screen_ok t page /\ _modes t = _modes s /\
    if (Top page + fst rows <=? py here) && (py here <=? Top page + snd rows)
    then GetPosition (CursorOf page t) = mk_point 0 (py here) /\
      forall y, 0 <= y < _height (text_buffer page s) -> scrolled_row s page line (py here) (Top page + snd rows + 1) (if insert then n else - n) t y
    else text_buffer page t = text_buffer page s.
Proof using Laws.
  intros Hsc Hsb Hcols. pose proof Hsc as [Hok Hs Hb Htop Hbot]. destruct (adapter_active s s page Hok Hs) as (_ & _ & Hx & Hy). pose proof Hok as [Hp Hv Hm _].
  set (delta := if insert then n else - n). assert (E : (if insert then AdaptDispatch_InsertLine n s else AdaptDispatch_DeleteLine n s) = _InsertDeleteLineHelper delta s) by (by destruct insert). rewrite E. clear E.
  pose proof (margin_rows_range (Height page) (_scrollMargins s) ltac:(unfold Height; lia) Hm) as Hr. unfold _InsertDeleteLineHelper. pose proof Hs as Hs'. unfold settled in Hs'. rewrite Hs', GetVerticalMargins_eq. fold rows in Hr |- *. destruct rows as [r0 r1]. cbn [fst snd] in *.
  rewrite GetHorizontalMargins_eq. cbn [_scrollMargins setter AdaptDispatch_eta]. rewrite columns_of_kept_rows.
  set (m := kept_columns _ _). change (Adapter.Width page (s <| _scrollMargins := _ |>)) with (Adapter.Width page s). rewrite Hcols. fold here. fold here in Hx, Hy.
  destruct (margins_rewritten s page m Hsc) as [Hsc1 Hbuf]; [by apply kept_columns_ok, kept_rows_ok|].
  change (s <| _scrollMargins := kept_rows (Height page) (_scrollMargins s) |> <| _scrollMargins := m |>) with (s <| _scrollMargins := m |>). set (s1 := s <| _scrollMargins := m |>) in *.
  replace ((py here >=? r0 + Top page) && (py here <=? r1 + Top page) && (px here >=? 0) && (px here <=? Adapter.Width page s - 1)) with ((Top page + r0 <=? py here) && (py here <=? Top page + r1)) by lia.
  destruct ((Top page + r0 <=? py here) && (py here <=? Top page + r1)) eqn:Hin; [|by exists s1].
  destruct (region_scrolled s1 page line (py here) (Top page + r1 + 1) delta Hsc1) as (t & Hrun & Hrw & Hrows); [done|lia|unfold Height in *; rewrite Hbuf; lia|].
  replace (Adapter.Width page s - 1 + 1) with (Adapter.Width page s1) by (change (Adapter.Width page s1) with (Adapter.Width page s); lia). replace (r1 + Top page + 1) with (Top page + r1 + 1) by lia. rewrite Hrun. cbn [obind].
  pose proof Hrw as [Hsct Hfr Hmo _]. set (g := fun c => _ApplyCursorMovementFlags (SetXPosition 0 c)).
  assert (Hpos : GetPosition (g (CursorOf page t)) = mk_point 0 (py here)).
  { change (CursorOf page t) with (_cursor (text_buffer page t)). rewrite (f_equal snd Hfr : _cursor _ = _cursor _). change (_cursor (text_buffer page s1)) with (CursorOf page s). exact (SetXPosition_position 0 (CursorOf page s)). }
  destruct (cursor_changed t page g Hsct) as (H1 & H2 & H3); [rewrite Hpos; unfold on_page; cbn [px py]; destruct (rewritten_size _ _ _ Hrw) as [Hw _]; change (Adapter.Width page t) with (_width (text_buffer page t)); rewrite Hw; change (_width (text_buffer page s1)) with (Adapter.Width page s); lia|].
  exists (change_cursor page g t). split; [done|]. split; [done|]. split; [by rewrite H2|]. split.
  - change (CursorOf page (change_cursor page g t)) with (_cursor (text_buffer page (change_cursor page g t))). by rewrite H3.
  - intros y Hy'. specialize (Hrows y Hy'). unfold scrolled_row, row_of in *. rewrite H3. exact Hrows.
Qed.
End Scrolling.

(** * Line feeds at the bottom of the page

    A page without margins scrolls in one of two ways: while there are rows
    below it in the buffer it moves down, and at the end of the buffer the
    circular order of the rows advances.  Seen from the page both are the
    same. *)


Section LineFeeds.
Context `{!Machine} {A : Type} `{Api : !ITerminalApi A TextBuffer} `{Laws : !TerminalApiLaws A TextBuffer} `{Screen : !IScreenApi A} `{ScreenLaws : !ScreenApiLaws A}.
Abbreviation S_ := (AdaptDispatch A TextBuffer).
Implicit Types (s t : S_) (page : Page) (y : Z) (b : TextBuffer).

(** The invariant of the terminal less the place of the cursor, which lags
    behind while the page moves. *)
Record live s page : Prop := {
  lv_pages : pages_ok (_pages s);
  lv_view : view_ok (GetBufferAndViewport (_api s));
  lv_margins : margins_ok (_scrollMargins s);
  lv_settled : settled s page;
}.

Lemma screen_live s page : screen_ok s page -> live s page.
Proof using. intros [[Hp Hv Hm _] Hs _ _ _]. by split. Qed.

Lemma live_screen s page : live s page -> buffer_ok (text_buffer page s) -> 0 <= Top page -> Bottom page <= _height (text_buffer page s) ->
  on_page page (Adapter.Width page s) (GetPosition (CursorOf page s)) -> screen_ok s page.
Proof using. intros [Hp Hv Hm Hs] Hb Ht Hbo Hc. split; try done. split; try done. by exists page. Qed.

Lemma live_set_buffer s page p : live s page -> Pages._width p = Adapter.Width page s -> Pages._height p = Pages._height (Buffer page s) ->
  live (set_buffer page p s) page /\ Buffer page (set_buffer page p s) = p.
Proof using Laws.
  intros [Hp Hv Hm Hs] Hw Hh. destruct (set_buffer_written s page p Hp Hv Hs Hw Hh) as [W1 W2 W3 W4]. split; [|done]. split; try done.
  unfold set_buffer. by destruct (write_buffer _ _ _ _).
Qed.

Lemma live_put s page b : live s page -> _width b = Adapter.Width page s -> _height b = _height (text_buffer page s) ->
  live (put_buffer page b s) page /\ text_buffer page (put_buffer page b s) = b.
Proof using Laws.
  intros Hl Hw Hh. destruct (live_set_buffer s page (page_buffer_from b) Hl Hw Hh) as [H1 H2]. split; [done|]. unfold text_buffer, put_buffer. rewrite H2. by destruct b.
Qed.

Lemma live_cursor s page f : live s page -> live (change_cursor page f s) page /\ text_buffer page (change_cursor page f s) = (text_buffer page s) <| _cursor := f (CursorOf page s) |>.
Proof using Laws.
  intros Hl. unfold change_cursor. destruct (live_set_buffer s page ((Buffer page s) <| Pages._cursor := f (CursorOf page s) |>) Hl) as [H1 H2]; [done..|]. split; [done|]. unfold text_buffer. by rewrite H2.
Qed.

(** A page moves down only if it is the visible one. *)
Lemma panned s page (s' := s <| _api := SetViewportPosition (mk_point (XPanOffset page) (Top page + 1)) (_api s) |>) : live s page -> isMainBuffer (GetBufferAndViewport (R := TextBuffer) (_api s)) = true ->
  XPanOffset page = 0 -> 0 <= Top page -> Bottom page < _height (text_buffer page s) ->
  live s' (MoveViewportDown page) /\ text_buffer page s' = text_buffer page s.
Proof using ScreenLaws.
  intros [Hp Hv Hm Hs] Hmain Hx Ht Hbo. pose proof Hs as Hk. apply settled_kind in Hk; [|done|done].
  inversion Hk as [n Hc|n b0 Hm0 Hn Hne Hb Hbw Hbh]; subst page.
  2:{ exfalso. unfold text_buffer, Buffer in Hbo. cbn in Hbo. rewrite Hb in Hbo. cbn in Hbo. lia. }
  unfold XPanOffset, Top, Bottom in *. cbn [page_viewport] in *. set (v := GetBufferAndViewport (_api s)) in *.
  assert (E : GetBufferAndViewport (R := TextBuffer) (_api s') = v <| viewport := mk_rect (left (viewport v)) (top (viewport v) + 1) (right (viewport v)) (bottom (viewport v) + 1) |>).
  { cbn [_api s' setter AdaptDispatch_eta]. rewrite moved_viewport; cbn [px py]; fold v.
    - unfold rect_width, rect_height. replace (left (viewport v) + (right (viewport v) - left (viewport v))) with (right (viewport v)) by lia.
      by replace (top (viewport v) + 1 + (bottom (viewport v) - top (viewport v))) with (bottom (viewport v) + 1) by lia.
    - rewrite (view_full _ Hv). lia.
    - change (_height (text_buffer _ s)) with (Pages._height (buffer v)) in Hbo. unfold rect_height. lia.
    - done. }
  split; [|unfold text_buffer, Buffer; cbn [page_buffer read_buffer]; by rewrite E].
  assert (Hv' : view_ok (GetBufferAndViewport (R := TextBuffer) (_api s'))).
  { rewrite E. destruct Hv as [H1 H2 H3]. split; cbn; unfold rect_width, rect_height in *; cbn; lia. }
  split; [done|done|done|]. apply settled_kind; [done|done|].
  replace (MoveViewportDown _) with (mk_Page VisibleBuffer (viewport (GetBufferAndViewport (R := TextBuffer) (_api s'))) n); [|rewrite E; reflexivity].
  constructor. rewrite E. exact Hc.
Qed.

(** ** The scrolling *)

(** The rows before and after, of which those of the page move up by one. *)
Record fed (rows : Z -> ROW) s page (moved : bool) t (page' : Page) : Prop := {
  fe_page : page' = if moved then MoveViewportDown page else page;
  fe_live : live t page';
  fe_buffer : buffer_ok (text_buffer page' t);
  fe_size : (_width (text_buffer page' t), _height (text_buffer page' t)) = (_width (text_buffer page s), _height (text_buffer page s));
  fe_rows : forall y, Top page <= y < Bottom page - 1 -> row_of page' t (y - Top page + Top page') = rows (y + 1);
  fe_last : blank (_width (text_buffer page s)) (_GetEraseAttributes page s) (row_of page' t (Bottom page' - 1));
  fe_above : forall y, 0 <= y < Top page' -> row_of page' t y = rows (y + (if moved then 0 else 1));
}.

Lemma scrolled_by_feed s page x : live s page -> buffer_ok (text_buffer page s) -> 0 <= Top page < Bottom page -> Bottom page <= _height (text_buffer page s) ->
  (Bottom page < _height (text_buffer page s) -> isMainBuffer (GetBufferAndViewport (R := TextBuffer) (_api s)) = true /\ XPanOffset page = 0) ->
  exists t page' (moved := Bottom page <? _height (text_buffer page s)), scroll_line_feed page (Top page) (Bottom page - 1) 0 (Adapter.Width page s - 1) (mk_point x (Bottom page - 1)) s = Done (t, mk_point x (Bottom page' - 1), moved) /\
    fed (row_of page s) s page moved t page'.
Proof using Laws ScreenLaws.
  intros Hl Hb HT HB Hpan. unfold scroll_line_feed. rewrite Z.gtb_ltb, !Z.ltb_irrefl. cbn [orb Z.gtb Z.compare].
  change (Pages._height (Buffer page s)) with (_height (text_buffer page s)). set (h := _height (text_buffer page s)) in *. destruct (Z.ltb_spec (Bottom page) h) as [Hlt|Hge].
  - destruct (Hpan Hlt) as [Hmain Hx]. destruct (panned s page Hl Hmain Hx ltac:(lia) Hlt) as [Hl1 Htb1]. set (s1 := s <| _api := _ |>) in *. set (page' := MoveViewportDown page) in *.
    cbn [px py]. change (_GetEraseAttributes page s1) with (if test_mode AdaptMode.EraseColor s then TextAttribute_default else SetStandardErase (_currentAttributes (text_buffer page s1))).
    rewrite Htb1. fold (_GetEraseAttributes page s). change (if test_mode AdaptMode.EraseColor s then _ else _) with (_GetEraseAttributes page s). set (a := _GetEraseAttributes page s).
    unfold on_buffer, reset_row. rewrite Htb1. replace (Bottom page - 1 + 1) with (Bottom page) by lia.
    destruct (reset_blank m_isa (text_buffer page s) a (row_of page s (Bottom page)) (slot_row_ok m_isa _ _ Hb)) as (r & Hrun & Hbl & Hrok).
    destruct (update_row_ok m_isa (text_buffer page s) (Bottom page) _ r Hb Hrun Hrok) as (b' & -> & Hbe). cbn [obind].
    pose proof (be_shape _ _ _ _ Hbe) as Hsh. assert (Hsize : _width b' = _width (text_buffer page s) /\ _height b' = h) by (unfold shape in Hsh; unfold h; split; congruence). destruct Hsize as [Hw Hh].
    destruct (live_put s1 page' b' Hl1) as [Hl2 Htb2]; [change (Adapter.Width page' s1) with (_width (text_buffer page s1)); by rewrite Htb1|change (text_buffer page' s1) with (text_buffer page s1); rewrite Htb1; done|].
    exists (put_buffer page b' s1), page'. split; [do 4 f_equal; unfold page', Bottom; cbn; lia|]. change (put_buffer page b' s1) with (put_buffer page' b' s1) in *.
    assert (Hr : forall y, 0 <= y < h -> row_of page' (put_buffer page' b' s1) y = if y =? Bottom page then r else row_of page s y).
    { intros y Hy. unfold row_of. rewrite Htb2, (row_at_becomes m_isa _ _ _ y Hbe). unfold upd. destruct (Z.eqb_spec y (Bottom page)) as [->|Hne]; [by rewrite Nat.eqb_refl|].
      destruct (Nat.eqb_spec (phys (text_buffer page s) y) (phys (text_buffer page s) (Bottom page))) as [E|]; [|done]. apply phys_injective in E; [lia|done|fold h; lia|fold h; lia]. }
    assert (Htop : Top page' = Top page + 1 /\ Bottom page' = Bottom page + 1) by done. destruct Htop as [Ht' Hb'].
    split; [done|done|by rewrite Htb2; destruct Hbe|by rewrite Htb2, Hw, Hh| | |]; clearbody page'.
    + intros y Hy. rewrite Ht', Hr by lia. replace (y - Top page + (Top page + 1)) with (y + 1) by lia. by rewrite (proj2 (Z.eqb_neq _ _)) by lia.
    + rewrite Hb', Hr by lia. replace (Bottom page + 1 - 1) with (Bottom page) by lia. by rewrite Z.eqb_refl.
    + intros y Hy. rewrite Z.add_0_r, Hr by lia. by rewrite (proj2 (Z.eqb_neq _ _)) by lia.
  - assert (Hbh : Bottom page = h) by lia. set (a := _GetEraseAttributes page s). destruct (incremented m_isa (text_buffer page s) a Hb) as (b' & E & Hok & Hrows & Hbl & _ & Hfr). fold h in Hrows, Hbl.
    injection Hfr as Hw Hh _ Hcu. unfold on_buffer. rewrite E. cbn [obind]. destruct (live_put s page b' Hl Hw Hh) as [Hl1 Htb1]. set (s1 := put_buffer page b' s) in *.
    assert (Hapi : GetBufferAndViewport (R := TextBuffer) (NotifyBufferRotation 1 (_api s1)) = GetBufferAndViewport (_api s1)) by apply rotation_told.
    set (s2 := s1 <| _api := NotifyBufferRotation 1 (_api s1) |>). assert (Hl2 : live s2 page /\ text_buffer page s2 = b').
    { destruct Hl1 as [Hp Hv Hm Hs]. split; [split; [done|cbn; by rewrite Hapi|done|]|]; [|unfold text_buffer, Buffer, read_buffer in *; cbn; rewrite Hapi; done].
      apply settled_iff. apply settled_iff in Hs. unfold ActivePage, Get in *. cbn. rewrite Hapi. exact Hs. }
    destruct Hl2 as [Hl2 Htb2]. destruct (live_cursor s2 page (SetIsOn false) Hl2) as [Hl3 Htb3]. cbn [obind].
    exists (change_cursor page (SetIsOn false) s2), page. split; [done|]. assert (Hr : forall y, row_of page (change_cursor page (SetIsOn false) s2) y = row_at m_isa b' y) by (intros y; unfold row_of; by rewrite Htb3, Htb2).
    split; [done|done| | | | |].
    + rewrite Htb3, Htb2. destruct Hok as [K1 K2 K3 K4 K5]. by split.
    + rewrite Htb3, Htb2. cbn. by rewrite Hw, Hh.
    + intros y Hy. rewrite Hr. replace (y - Top page + Top page) with y by lia. rewrite Hrows by lia. done.
    + rewrite Hr, Hbh. exact Hbl.
    + intros y Hy. rewrite Hr. apply Hrows. lia.
Qed.

(** ** The line feed *)

Lemma change_cursor_buffer page page' f s : page_buffer page' = page_buffer page -> change_cursor page f s = change_cursor page' f s.
Proof using. intros E. unfold change_cursor, set_buffer, CursorOf, Buffer. by rewrite E. Qed.

(** C12: a line feed in the last row of a page without margins, whether asked
    for or forced by a long line, scrolls the page: each of its rows shows
    what the next one showed, the last row is blank in the attributes for
    erasing, the row left behind says whether the line goes on, and the cursor
    stays in the last row, in its column or the first.  While the buffer has
    rows below the page, the page moves down and all rows above it are kept;
    at the end of the buffer the first row is lost and the others move up. *)
Theorem line_feed_scrolls s page (withReturn wrapForced : bool) (here := GetPosition (CursorOf page s)) (moved := Bottom page <? _height (text_buffer page s)) (page' := if moved then MoveViewportDown page else page)
    (rows := fun y => if y =? py here then Row.SetWrapForced wrapForced (row_of page s y) else row_of page s y) : screen_ok s page ->
  margin_rows (Height page) (_scrollMargins s) = (0, Height page - 1) -> margin_columns (Adapter.Width page s) (_scrollMargins s) = (0, Adapter.Width page s - 1) -> py here = Bottom page - 1 ->
  (moved = true -> isMainBuffer (GetBufferAndViewport (R := TextBuffer) (_api s)) = true /\ XPanOffset page = 0) ->
  exists t, _DoLineFeed page withReturn wrapForced s = Done (t, moved) /\ screen_ok t page' /\
    GetPosition (CursorOf page' t) = mk_point (if withReturn then 0 else px here) (Bottom page' - 1) /\
    (forall k, 0 <= k < Height page - 1 -> row_of page' t (Top page' + k) = rows (Top page + k + 1)) /\
    blank (_width (text_buffer page s)) (_GetEraseAttributes page s) (row_of page' t (Bottom page' - 1)) /\
    (forall y, 0 <= y < Top page' -> row_of page' t y = rows (y + if moved then 0 else 1)).
Proof using Laws ScreenLaws.
  intros Hsc Hrm Hcm Hpy Hpan. pose proof Hsc as [Hok Hs Hb Htop Hbot]. destruct (adapter_active s s page Hok Hs) as (_ & _ & Hx & Hy). fold here in Hx, Hy. pose proof Hok as [_ _ Hm _]. pose proof (screen_live s page Hsc) as Hl.
  unfold _DoLineFeed. rewrite GetVerticalMargins_eq, Hrm, GetHorizontalMargins_eq. cbn [_scrollMargins setter AdaptDispatch_eta]. rewrite columns_of_kept_rows, Hcm.
  set (m := kept_columns _ _). change (s <| _scrollMargins := kept_rows (Height page) (_scrollMargins s) |> <| _scrollMargins := m |>) with (s <| _scrollMargins := m |>).
  assert (Hm' : margins_ok m) by (by apply kept_columns_ok, kept_rows_ok). destruct (margins_rewritten s page m Hsc Hm') as [Hsc1 Hbuf]. set (s1 := s <| _scrollMargins := m |>) in *. change (GetPosition (CursorOf page s1)) with here.
  pose proof (screen_live s1 page Hsc1) as Hl1. set (w := Adapter.Width page s) in *. set (b := text_buffer page s) in *.
  (* the mark of the line *)
  assert (Hrok : row_ok b (Row.SetWrapForced wrapForced (row_of page s (py here)))) by (destruct (slot_row_ok m_isa b (phys b (py here)) Hb) as [[] Hc]; split; [by split|done]).
  destruct (update_row_ok m_isa b (py here) (fun r => Done (Row.SetWrapForced wrapForced r)) _ Hb eq_refl Hrok) as (b1 & E1 & Hbe). unfold on_buffer at 1. rewrite Hbuf. fold b. unfold TextBuffer.SetWrapForced. rewrite E1. cbn [obind].
  pose proof (be_shape _ _ _ _ Hbe) as Hsh. assert (Hsize : _width b1 = _width b /\ _height b1 = _height b) by (unfold shape in Hsh; split; congruence). destruct Hsize as [Hw Hh].
  destruct (live_put s1 page b1 Hl1 Hw) as [Hl2 Htb2]; [by rewrite Hh|]. set (s2 := put_buffer page b1 s1) in *.
  assert (Hrows : forall y, 0 <= y < _height b -> row_of page s2 y = rows y).
  { intros y Hy'. unfold row_of, rows. rewrite Htb2, (row_at_becomes m_isa _ _ _ y Hbe). unfold upd. destruct (Z.eqb_spec y (py here)) as [->|Hne]; [by rewrite Nat.eqb_refl|].
    destruct (Nat.eqb_spec (phys b y) (phys b (py here))) as [E|]; [|done]. apply phys_injective in E; [lia|done|lia|lia]. }
  (* the scrolling *)
  assert (Hnx : (if withReturn then if (py here >=? 0 + Top page) && (py here <=? Height page - 1 + Top page) && (px here >=? 0) then 0 else 0 else px here) = if withReturn then 0 else px here) by (destruct withReturn; [by destruct (_ && _)|done]).
  rewrite Hnx. set (x := if withReturn then 0 else px here). assert (Hxr : 0 <= x < w) by (unfold x; destruct withReturn; lia).
  replace (Height page - 1 + Top page) with (Bottom page - 1) by (unfold Height; lia). rewrite Z.add_0_l.
  replace (negb (py here =? Bottom page - 1) || (x <? 0) || (x >? w - 1)) with false by (rewrite Hpy, Z.eqb_refl; destruct (Z.ltb_spec x 0), (Z.gtb_spec x (w - 1)); lia).
  assert (Hapi : isMainBuffer (GetBufferAndViewport (R := TextBuffer) (_api s2)) = isMainBuffer (GetBufferAndViewport (R := TextBuffer) (_api s))).
  { unfold s2, put_buffer, set_buffer. destruct (page_buffer page); cbn; [by rewrite get_set_buffer|done]. }
  assert (Hh2 : _height (text_buffer page s2) = _height b) by (by rewrite Htb2). assert (Hw2 : Adapter.Width page s2 = w) by (change (Adapter.Width page s2) with (_width (text_buffer page s2)); by rewrite Htb2).
  destruct (scrolled_by_feed s2 page x Hl2) as (t & pg & Hrun & Hfed); [rewrite Htb2; by destruct Hbe|lia|lia|rewrite Hh2, Hapi; intros Hlt; apply Hpan; unfold moved; lia|].
  rewrite Hpy. rewrite Hw2, Hh2 in *. fold moved in Hrun, Hfed. rewrite Hrun. cbn [obind]. pose proof Hfed as [Hpg Hlt Hbt Hsz Hin Hlast Habove]. assert (pg = page') as -> by exact Hpg. clear Hpg.
  set (g := fun c => _ApplyCursorMovementFlags (SetPosition (mk_point x (Bottom page' - 1)) c)).
  rewrite (change_cursor_buffer page page') by (unfold page'; by destruct moved). destruct (live_cursor t page' g Hlt) as [Hl3 Htb3].
  assert (Hpos : GetPosition (CursorOf page' (change_cursor page' g t)) = mk_point x (Bottom page' - 1)).
  { change (CursorOf page' (change_cursor page' g t)) with (_cursor (text_buffer page' (change_cursor page' g t))). rewrite Htb3. exact (SetPosition_position _ (CursorOf page' t)). }
  rewrite Htb2, Hw, Hh in Hsz. rewrite Htb2, Hw in Hlast. pose proof (f_equal fst Hsz : _width (text_buffer page' t) = _width b) as Hwt. pose proof (f_equal snd Hsz : _height (text_buffer page' t) = _height b) as Hht.
  assert (Hr3 : forall y, row_of page' (change_cursor page' g t) y = row_of page' t y) by (intros y; unfold row_of; by rewrite Htb3).
  assert (Hext : Top page < Bottom page /\ Top page' = Top page + (if moved then 1 else 0) /\ Bottom page' = Bottom page + (if moved then 1 else 0) /\ (moved = true -> Bottom page < _height b)).
  { split; [lia|]. unfold page', moved, Top, Bottom. destruct (Z.ltb_spec (bottom (page_viewport page)) (_height b)); cbn; split_and!; try lia; try done. }
  destruct Hext as (Hne & Ht' & Hb' & Hmv). exists (change_cursor page' g t). split; [done|]. split; [|split; [done|]; split_and!].
  - apply live_screen; [done|rewrite Htb3; destruct Hbt as [K1 K2 K3 K4 K5]; by split|destruct moved; lia|rewrite Htb3; change (_height (_ <| _cursor := _ |>)) with (_height (text_buffer page' t)); rewrite Hht; destruct moved; [specialize (Hmv eq_refl)|]; lia|].
    rewrite Hpos. unfold on_page. cbn [px py]. change (Adapter.Width page' (change_cursor page' g t)) with (_width (text_buffer page' (change_cursor page' g t))). rewrite Htb3. change (_width (_ <| _cursor := _ |>)) with (_width (text_buffer page' t)). rewrite Hwt. change (_width b) with w. destruct moved; lia.
  - intros k Hk. unfold Height in Hk. rewrite Hr3. specialize (Hin (Top page + k) ltac:(lia)). replace (Top page + k - Top page + Top page') with (Top page' + k) in Hin by lia. rewrite Hin. apply Hrows. lia.
  - rewrite Hr3. assert (Ha : _GetEraseAttributes page s2 = _GetEraseAttributes page s).
    { unfold _GetEraseAttributes, test_mode. unfold s2 at 1, put_buffer at 1. rewrite (proj1 (set_buffer_frame page _ s1)). change (AttributesOf page s2) with (_currentAttributes (text_buffer page s2)).
      rewrite Htb2. change (AttributesOf page s) with (_currentAttributes b). unfold shape in Hsh. by replace (_currentAttributes b1) with (_currentAttributes b) by congruence. }
    by rewrite <- Ha.
  - intros y Hy'. rewrite Hr3, Habove by done. apply Hrows. destruct moved; [specialize (Hmv eq_refl)|]; lia.
Qed.
End LineFeeds.
