(* ===== verification/ModeFacts.v ===== *)
(** * Modes are kept and reported

    The modes of a terminal are kept in six places.  What SM, RM, DECSET and
    DECRST set is what DECRQM reports, and setting one mode leaves the others
    alone, but for the few that depend on one another. *)

From S2P Require Import Prelude VTTypes TermDispatch StateMachine TextAttribute TerminalInput InputFacts RenderSettings.
From S2P Require Import Graphemes Row RowWrite Hash Geometry Cursor Pages Adapter AdapterFacts AdapterMoves AdapterReports.
From S2P Require Import TextBuffer TextBufferFacts Editing Modes EditingFacts ScrollFacts.
#[local] Open Scope Z_scope.

#[export] Instance SystemMode_eq_dec : EqDecision SystemMode.
Proof. solve_decision. Defined.

(** ** What the host promises *)

(** A mode of the system or of the parser is what was set last, and nothing
    else touches it; setting a mode and the other calls leave the buffer. *)
Class ModeApiLaws (A : Type) `{!ITerminalApi A TextBuffer} `{!IScreenApi A} `{!IModeApi A} := {
  system_set : forall m m' b a, GetSystemMode m (SetSystemMode m' b a) = if decide (m = m') then b else GetSystemMode m a;
  system_buffer : forall m b a, GetSystemMode m (SetVisibleBuffer b a) = GetSystemMode m a;
  system_call : forall m c a, GetSystemMode m (api_call c a) = GetSystemMode m a;
  system_alternate : forall m attrs a, GetSystemMode m (UseAlternateBuffer attrs a) = GetSystemMode m a;
  system_main : forall m a, GetSystemMode m (UseMainBuffer a) = GetSystemMode m a;
  system_host : forall m c a, GetSystemMode m (host_call c a) = GetSystemMode m a;
  ansi_set : forall b a, GetParserAnsi (api_call (SetParserAnsi b) a) = b;
  ansi_buffer : forall b a, GetParserAnsi (SetVisibleBuffer b a) = GetParserAnsi a;
  ansi_system : forall m b a, GetParserAnsi (SetSystemMode m b a) = GetParserAnsi a;
  ansi_alternate : forall attrs a, GetParserAnsi (UseAlternateBuffer attrs a) = GetParserAnsi a;
  ansi_main : forall a, GetParserAnsi (UseMainBuffer a) = GetParserAnsi a;
  ansi_host : forall c a, GetParserAnsi (host_call c a) = GetParserAnsi a;
  view_system : forall m b a, GetBufferAndViewport (R := TextBuffer) (SetSystemMode m b a) = GetBufferAndViewport a;
  view_host : forall c a, GetBufferAndViewport (R := TextBuffer) (host_call c a) = GetBufferAndViewport a;
}.

(** ** Where a mode is kept *)

Inductive Source :=
| InMode (m : Z) | InInput (m : Z) | InRender (m : Z) | InSystem (m : SystemMode)
| InParser | InBlink | InVisible | InAlternate.

#[export] Instance Source_eq_dec : EqDecision Source.
Proof. solve_decision. Defined.

Definition source_ok (x : Source) : Prop :=
  match x with InMode m | InInput m | InRender m => 0 <= m | _ => True end.

(** The reports of the cursor depend on the page. *)
Definition on_cursor (x : Source) : bool := match x with InBlink | InVisible => true | _ => false end.

Definition sources (p : Z) : list Source :=
  if p =? ModeParams.IRM_InsertReplaceMode then [InMode AdaptMode.InsertReplace]
  else if p =? ModeParams.LNM_LineFeedNewLineMode then [InInput InputMode.LineFeed; InSystem LineFeedMode]
  else if p =? ModeParams.DECCKM_CursorKeysMode then [InInput InputMode.CursorKey]
  else if p =? ModeParams.DECANM_AnsiMode then [InParser]
  else if p =? ModeParams.DECCOLM_SetNumberOfColumns then [InMode AdaptMode.Column]
  else if p =? ModeParams.DECSCNM_ScreenMode then [InRender RenderMode.ScreenReversed]
  else if p =? ModeParams.DECOM_OriginMode then [InMode AdaptMode.Origin]
  else if p =? ModeParams.DECAWM_AutoWrapMode then [InSystem AutoWrap]
  else if p =? ModeParams.DECARM_AutoRepeatMode then [InInput InputMode.AutoRepeat]
  else if p =? ModeParams.ATT610_StartCursorBlink then [InBlink]
  else if p =? ModeParams.DECTCEM_TextCursorEnableMode then [InVisible]
  else if p =? ModeParams.XTERM_EnableDECCOLMSupport then [InMode AdaptMode.AllowDECCOLM]
  else if p =? ModeParams.DECPCCM_PageCursorCouplingMode then [InMode AdaptMode.PageCursorCoupling]
  else if p =? ModeParams.DECNKM_NumericKeypadMode then [InInput InputMode.Keypad]
  else if p =? ModeParams.DECBKM_BackarrowKeyMode then [InInput InputMode.BackarrowKey]
  else if p =? ModeParams.DECLRMM_LeftRightMarginMode then [InMode AdaptMode.AllowDECSLRM]
  else if p =? ModeParams.DECSDM_SixelDisplayMode then [InMode AdaptMode.SixelDisplay]
  else if p =? ModeParams.DECECM_EraseColorMode then [InMode AdaptMode.EraseColor]
  else if p =? ModeParams.VT200_MOUSE_MODE then [InInput InputMode.DefaultMouseTracking]
  else if p =? ModeParams.BUTTON_EVENT_MOUSE_MODE then [InInput InputMode.ButtonEventMouseTracking]
  else if p =? ModeParams.ANY_EVENT_MOUSE_MODE then [InInput InputMode.AnyEventMouseTracking]
  else if p =? ModeParams.UTF8_EXTENDED_MODE then [InInput InputMode.Utf8MouseEncoding]
  else if p =? ModeParams.SGR_EXTENDED_MODE then [InInput InputMode.SgrMouseEncoding]
  else if p =? ModeParams.FOCUS_EVENT_MODE then [InInput InputMode.FocusEvent]
  else if p =? ModeParams.ALTERNATE_SCROLL then [InInput InputMode.AlternateScroll]
  else if p =? ModeParams.ASB_AlternateScreenBuffer then [InAlternate]
  else if p =? ModeParams.XTERM_BracketedPasteMode then [InSystem BracketedPaste]
  else if p =? ModeParams.SO_SynchronizedOutput then [InRender RenderMode.SynchronizedOutput]
  else if p =? ModeParams.W32IM_Win32InputMode then [InInput InputMode.Win32]
  else [].

(** Every mode that is kept somewhere but the number of columns, and all of
    them. *)
Definition settable_modes : list Z :=
  [ModeParams.IRM_InsertReplaceMode; ModeParams.LNM_LineFeedNewLineMode; ModeParams.DECCKM_CursorKeysMode;
   ModeParams.DECANM_AnsiMode; ModeParams.DECSCNM_ScreenMode; ModeParams.DECOM_OriginMode; ModeParams.DECAWM_AutoWrapMode;
   ModeParams.DECARM_AutoRepeatMode; ModeParams.ATT610_StartCursorBlink; ModeParams.DECTCEM_TextCursorEnableMode;
   ModeParams.XTERM_EnableDECCOLMSupport; ModeParams.DECPCCM_PageCursorCouplingMode; ModeParams.DECNKM_NumericKeypadMode;
   ModeParams.DECBKM_BackarrowKeyMode; ModeParams.DECLRMM_LeftRightMarginMode; ModeParams.DECSDM_SixelDisplayMode;
   ModeParams.DECECM_EraseColorMode; ModeParams.VT200_MOUSE_MODE; ModeParams.BUTTON_EVENT_MOUSE_MODE;
   ModeParams.ANY_EVENT_MOUSE_MODE; ModeParams.UTF8_EXTENDED_MODE; ModeParams.SGR_EXTENDED_MODE; ModeParams.FOCUS_EVENT_MODE;
   ModeParams.ALTERNATE_SCROLL; ModeParams.ASB_AlternateScreenBuffer; ModeParams.XTERM_BracketedPasteMode;
   ModeParams.SO_SynchronizedOutput; ModeParams.W32IM_Win32InputMode].
Definition known_modes : list Z := ModeParams.DECCOLM_SetNumberOfColumns :: settable_modes.

(** What setting a mode clears besides, and what it may change: one tracking
    mode and one encoding at most are set; another page or buffer has another
    cursor, leaving the alternate buffer restores the origin mode, and the
    encoder of the input follows the mode of the parser. *)
Definition clears (p : Z) (b : bool) : list Source :=
  match sources p with
  | [InInput m] =>
      if existsb (Z.eqb m) trackingModes then map InInput (filter (fun n => n <> m) trackingModes)
      else if existsb (Z.eqb m) encodingModes && b then map InInput (filter (fun n => n <> m) encodingModes)
      else []
  | _ => []
  end.
Definition blurs (p : Z) (b : bool) : list Source :=
  if p =? ModeParams.DECANM_AnsiMode then [InInput InputMode.Ansi]
  else if p =? ModeParams.DECPCCM_PageCursorCouplingMode then [InBlink; InVisible]
  else if p =? ModeParams.ASB_AlternateScreenBuffer then InBlink :: InVisible :: (if b then [] else [InMode AdaptMode.Origin])
  else [].

Section Facts.
Context `{!Machine} {A : Type} `{Api : !ITerminalApi A TextBuffer} `{Screen : !IScreenApi A} `{Host : !IModeApi A}.
Context `{Laws : !TerminalApiLaws A TextBuffer} `{ModeLaws : !ModeApiLaws A}.
Variable keypadModeEnabled : bool.
Variable measurementMode : TextMeasurementMode.
Abbreviation S_ := (AdaptDispatch A TextBuffer).
Implicit Types (s t u : S_) (page : Page) (x : Source).

Definition read (x : Source) (s : S_) : bool :=
  match x with
  | InMode m => test_mode m s
  | InInput m => input_mode m s
  | InRender m => render_mode m s
  | InSystem m => system_mode m s
  | InParser => GetParserAnsi (_api s)
  | InBlink => IsBlinkingAllowed (active_cursor s)
  | InVisible => IsVisible (active_cursor s)
  | InAlternate => _usingAltBuffer s
  end.

(** The system mode and the input mode of LNM are the same. *)
Definition in_sync s : Prop := system_mode LineFeedMode s = input_mode InputMode.LineFeed s.

(** A report in terms of where the mode is kept. *)
Lemma state_read p s : In p known_modes -> p <> ModeParams.LNM_LineFeedNewLineMode ->
  exists x, sources p = [x] /\ mode_state measurementMode p s = mapTemp (read x s).
Proof.
  intros Hp Hne. repeat (destruct Hp as [<-|Hp]; [first [done|eexists; split; reflexivity]|]).
  destruct Hp.
Qed.

Lemma state_line_feed s : mode_state measurementMode ModeParams.LNM_LineFeedNewLineMode s
  = if Bool.eqb (read (InSystem LineFeedMode) s) (read (InInput InputMode.LineFeed) s)
    then mapTemp (read (InInput InputMode.LineFeed) s) else ModeResponses.DECRPM_Unsupported.
Proof. done. Qed.

(** ** Effects *)

(** Everything but the pages. *)
Record same_flags s t : Prop := {
  sf_modes : _modes t = _modes s;
  sf_input : _terminalInput t = _terminalInput s;
  sf_render : _renderSettings t = _renderSettings s;
  sf_alternate : _usingAltBuffer t = _usingAltBuffer s;
  sf_system : forall m, GetSystemMode m (_api t) = GetSystemMode m (_api s);
  sf_parser : GetParserAnsi (_api t) = GetParserAnsi (_api s);
}.

Lemma same_flags_refl s : same_flags s s.
Proof. done. Qed.

Lemma same_flags_trans s t u : same_flags s t -> same_flags t u -> same_flags s u.
Proof. intros [] []. split; congruence. Qed.

Lemma same_read s t x : same_flags s t -> on_cursor x = false -> read x t = read x s.
Proof.
  intros [] Hx. destruct x; try done; cbn; unfold test_mode, input_mode, render_mode, system_mode; congruence.
Qed.

Lemma active_same s : same_flags s (fst (active_page s)).
Proof. unfold active_page. by destruct (ActivePage (_pages s) (_api s)). Qed.

Lemma set_buffer_same page b s : same_flags s (set_buffer page b s).
Proof.
  unfold set_buffer. destruct (page_buffer page) as [|n]; cbn; [|done].
  split; try done; cbn; [intros m; apply system_buffer|apply ansi_buffer].
Qed.

Lemma margins_same m s : same_flags s (s <| _scrollMargins := m |>).
Proof. done. Qed.

Lemma position_same ro co b s : same_flags s (_CursorMovePosition ro co b s).
Proof.
  destruct (active_page s) as [s1 page] eqn:Ha. rewrite (move_eq _ _ _ _ _ _ Ha). cbv zeta.
  pose proof (active_same s) as H1. rewrite Ha in H1. unfold change_cursor.
  eapply same_flags_trans; [exact H1|]. eapply same_flags_trans; [apply margins_same|apply set_buffer_same].
Qed.

Lemma write_same ref b (pm : PageManager TextBuffer) a pm' a' : write_buffer ref b pm a = (pm', a') ->
  (forall m, GetSystemMode m a' = GetSystemMode m a) /\ GetParserAnsi a' = GetParserAnsi a.
Proof.
  destruct ref; intros [= <- <-]; [|done]. split; [intros m; apply system_buffer|apply ansi_buffer].
Qed.

Lemma swap_same n (pm : PageManager TextBuffer) a pm' a' : swap_pages n pm a = (pm', a') ->
  (forall m, GetSystemMode m a' = GetSystemMode m a) /\ GetParserAnsi a' = GetParserAnsi a.
Proof.
  unfold swap_pages. cbv zeta. destruct (_getBuffer n _ _ pm) as [pm1 b1]. destruct (_getBuffer _ _ _ pm1) as [pm2 b2].
  destruct (write_buffer (BackgroundBuffer _) _ pm2 a) as [pm3 a3] eqn:E3. destruct (write_buffer VisibleBuffer _ pm3 a3) as [pm4 a4] eqn:E4.
  apply write_same in E3 as [S3 P3], E4 as [S4 P4]. intros [= <- <-]. split; [intros m; by rewrite S4, S3|by rewrite P4, P3].
Qed.

Lemma MoveTo_same n makeVisible (pm : PageManager TextBuffer) a pm' a' : MoveTo n makeVisible pm a = (pm', a') ->
  (forall m, GetSystemMode m a' = GetSystemMode m a) /\ GetParserAnsi a' = GetParserAnsi a.
Proof.
  unfold MoveTo, carry_cursor. cbv zeta. intros HM. repeat case_match; simplify_eq;
    repeat match goal with
    | E : write_buffer _ _ _ _ = _ |- _ => apply write_same in E as [? ?]
    | E : swap_pages _ _ _ = _ |- _ => apply swap_same in E as [? ?]
    end; split; congruence.
Qed.

(** ** The cursor of the active page *)

Lemma redraw_flags c : IsVisible (_RedrawCursor c) = IsVisible c /\ IsBlinkingAllowed (_RedrawCursor c) = IsBlinkingAllowed c /\
  GetPosition (_RedrawCursor c) = GetPosition c.
Proof. unfold _RedrawCursor. by repeat step_if. Qed.

Lemma position_flags q c : IsVisible (SetPosition q c) = IsVisible c /\ IsBlinkingAllowed (SetPosition q c) = IsBlinkingAllowed c.
Proof. unfold SetPosition, move_cursor, _RedrawCursor. by repeat step_if. Qed.

Lemma active_cursor_view s t : _pages t = _pages s ->
  GetBufferAndViewport (R := TextBuffer) (_api t) = GetBufferAndViewport (_api s) -> active_cursor t = active_cursor s.
Proof.
  intros Hp Hv. unfold active_cursor, active_page, ActivePage, Get, CursorOf, Buffer. rewrite Hp, Hv.
  destruct (negb _); cbn [read_buffer page_buffer]; [by cbn; rewrite Hv|]. destruct (_ =? _); [by cbn; rewrite Hv|done].
Qed.

Lemma active_cursor_settled s page : settled s page -> active_cursor s = CursorOf page s.
Proof. intros Hs. unfold active_cursor, settled in *. by rewrite Hs. Qed.

Lemma page_cursor_changed s page f : adapter_ok s -> settled s page ->
  on_page page (Adapter.Width page s) (GetPosition (f (CursorOf page s))) ->
  active_cursor (change_cursor page f s) = f (CursorOf page s).
Proof.
  intros Hok Hs Ho. unfold change_cursor. destruct (adapter_set_buffer s page ((Buffer page s) <| Pages._cursor := f (CursorOf page s) |>) Hok Hs) as (_ & H2 & H3 & _); [done|done|done|].
  rewrite (active_cursor_settled _ _ H2). unfold CursorOf at 1. by rewrite H3.
Qed.

Lemma active_changed s f : adapter_ok s -> (forall c, GetPosition (f c) = GetPosition c) ->
  active_cursor (on_active_cursor f s) = f (active_cursor s).
Proof.
  intros Hok Hf. destruct (ok_cursor s Hok) as (page & Hs & Hc). rewrite (active_cursor_settled s page Hs).
  unfold on_active_cursor. unfold settled in Hs. rewrite Hs. apply page_cursor_changed; [done|done|]. by rewrite Hf.
Qed.

Lemma active_change_same f s : same_flags s (on_active_cursor f s).
Proof.
  unfold on_active_cursor. destruct (active_page s) as [s1 page] eqn:Ha. pose proof (active_same s) as H1. rewrite Ha in H1.
  eapply same_flags_trans; [exact H1|]. apply set_buffer_same.
Qed.

(** ** One place is written *)

Record effect (p : Z) (b : bool) s t : Prop := {
  ef_set : forall x, In x (sources p) -> read x t = b;
  ef_clear : forall x, In x (clears p b) -> read x t = false;
  ef_keep : forall x, source_ok x -> ~ In x (sources p) -> ~ In x (clears p b) -> ~ In x (blurs p b) -> read x t = read x s;
}.

Lemma effect_one p y b s t : sources p = [y] -> clears p b = [] ->
  read y t = b -> (forall x, source_ok x -> x <> y -> ~ In x (blurs p b) -> read x t = read x s) -> effect p b s t.
Proof.
  intros Hs Hc Hy Hx. split; rewrite ?Hs, ?Hc.
  - intros x [<-|[]]. done.
  - intros x [].
  - intros x Hok Hn _ Hb. apply Hx; [done| |done]. intros ->. apply Hn. by left.
Qed.

(** The case of a change that the cursor of the active page does not feel. *)
Lemma effect_flags p y b s t u : sources p = [y] -> clears p b = [] -> on_cursor y = false ->
  same_flags t u -> (In InBlink (blurs p b) /\ In InVisible (blurs p b) \/ forall x, on_cursor x = true -> read x u = read x s) ->
  read y t = b -> (forall x, source_ok x -> x <> y -> on_cursor x = false -> ~ In x (blurs p b) -> read x t = read x s) -> effect p b s u.
Proof.
  intros Hs Hc Hoy Hsf Hcur Hy Hx. apply (effect_one p y); [done|done|by rewrite (same_read t)|].
  intros x Hok Hne Hb. destruct (on_cursor x) eqn:Ho; [|rewrite (same_read t u) by done; by apply Hx].
  destruct Hcur as [[H1 H2]|Hcur]; [by destruct x|by apply Hcur].
Qed.

Lemma read_mode m b s x : 0 <= m -> source_ok x -> read x (set_mode m b s) = if decide (x = InMode m) then b else read x s.
Proof.
  intros Hm Hx. pose proof (active_cursor_view s (set_mode m b s) eq_refl eq_refl) as Hc.
  destruct x as [n| | | | | | |]; [|rewrite decide_False by done; cbn; by rewrite ?Hc..].
  cbn in *. unfold test_mode, set_mode. cbn. rewrite !modes_test_bit, set_bit by done.
  destruct (Z.eqb_spec n m) as [->|]; [by rewrite decide_True|by rewrite decide_False by congruence].
Qed.

Lemma read_input m b s x : 0 <= m -> source_ok x -> read x (set_input_mode keypadModeEnabled m b s) =
  match x with
  | InInput n => if n =? m then b else read x s && negb (is_tracking m && is_tracking n) && negb (is_encoding m && b && is_encoding n)
  | _ => read x s
  end.
Proof.
  intros Hm Hx. pose proof (active_cursor_view s (set_input_mode keypadModeEnabled m b s) eq_refl eq_refl) as Hcur.
  destruct x as [|n| | | | | |]; try (cbn; by rewrite ?Hcur). clear Hcur. cbn in *. unfold input_mode, GetInputMode, set_input_mode. cbn. rewrite set_mode_modes, !modes_test_bit by done. by apply modes_after_bit.
Qed.

Lemma effect_input p m b s t : sources p = [InInput m] -> 0 <= m ->
  (forall x, source_ok x -> read x t = read x (set_input_mode keypadModeEnabled m b s)) -> effect p b s t.
Proof.
  intros Hs Hm Ht. unfold clears, blurs in *. split.
  - rewrite Hs. intros x [<-|[]]. rewrite Ht, read_input by done. by rewrite Z.eqb_refl.
  - unfold clears. rewrite Hs. fold (is_tracking m) (is_encoding m). intros x Hx.
    destruct (is_tracking m) eqn:Htr; [|destruct (is_encoding m && b) eqn:Hen; [|done]].
    all: apply in_map_iff in Hx as (n & <- & Hn); apply list_elem_of_In, list_elem_of_filter in Hn as [Hne Hn]; apply list_elem_of_In in Hn.
    + assert (Hn0 : 0 <= n) by (pose proof tracking_nonneg as Hf; rewrite Forall_forall in Hf; by apply Hf).
      rewrite Ht, read_input by done. rewrite (proj2 (Z.eqb_neq n m)) by done. apply in_positions in Hn. unfold is_tracking in Htr |- *.
      rewrite Htr, Hn. cbn. by rewrite andb_false_r.
    + assert (Hn0 : 0 <= n) by (pose proof encoding_nonneg as Hf; rewrite Forall_forall in Hf; by apply Hf).
      rewrite Ht, read_input by done. rewrite (proj2 (Z.eqb_neq n m)) by done. apply in_positions in Hn. fold (is_encoding n) in Hn.
      rewrite Hen, Hn. cbn. by rewrite andb_false_r.
  - intros x Hx Hn Hc _. rewrite Ht, read_input by done. rewrite Hs in Hn. unfold clears in Hc. rewrite Hs in Hc.
    fold (is_tracking m) (is_encoding m) in Hc. destruct x as [|n| | | | | |]; try done.
    assert (Hne : n <> m) by (intros ->; apply Hn; by left). rewrite (proj2 (Z.eqb_neq n m)) by done.
    assert (Hmem : forall l, ~ In (InInput n) (map InInput (filter (fun n => n <> m) l)) -> existsb (Z.eqb n) l = false).
    { intros l Hl. apply not_true_iff_false. intros Hin. apply in_positions in Hin. apply Hl, in_map_iff. exists n. split; [done|].
      apply list_elem_of_In, list_elem_of_filter. split; [done|]. by apply list_elem_of_In. }
    destruct (is_tracking m) eqn:Htr.
    + apply Hmem in Hc. fold (is_tracking n) in Hc. rewrite Hc. cbn [andb negb].
      assert (is_encoding m = false) as -> by (unfold is_tracking, is_encoding in *; apply in_positions in Htr; by repeat (destruct Htr as [<-|Htr]; [done|])).
      cbn. by rewrite !andb_true_r.
    + destruct (is_encoding m && b) eqn:Hen; cbn [andb negb]; [|by rewrite !andb_true_r]. apply Hmem in Hc. fold (is_encoding n) in Hc.
      rewrite Hc. cbn [negb]. by rewrite !andb_true_r.
Qed.

Lemma read_render m b s x : 0 <= m -> source_ok x ->
  read x (set_render_mode m b s) = if decide (x = InRender m) then b else read x s.
Proof.
  intros Hm Hx. pose proof (active_cursor_view s (set_render_mode m b s) eq_refl eq_refl) as Hc.
  destruct x as [| |n| | | | |]; try (rewrite decide_False by done; cbn; by rewrite ?Hc).
  cbn in *. unfold render_mode, GetRenderMode, set_render_mode, SetRenderMode. cbn.
  assert (He : _renderMode (if (m =? RenderMode.BlinkAllowed) && negb b
      then (_renderSettings s) <| _renderMode := modes_set (_renderMode (_renderSettings s)) m b |> <| _blinkShouldBeFaint := false |>
      else (_renderSettings s) <| _renderMode := modes_set (_renderMode (_renderSettings s)) m b |>)
    = modes_set (_renderMode (_renderSettings s)) m b) by (by step_if).
  rewrite He, !modes_test_bit, set_bit by done.
  destruct (Z.eqb_spec n m) as [->|]; [by rewrite decide_True|by rewrite decide_False by congruence].
Qed.

Lemma read_system m b s x : read x (set_system_mode m b s) = if decide (x = InSystem m) then b else read x s.
Proof.
  pose proof (active_cursor_view s (set_system_mode m b s) eq_refl (view_system _ _ _)) as Hc.
  destruct x as [| | |n| | | |]; try (rewrite decide_False by done; cbn; by rewrite ?Hc, ?ansi_system).
  cbn. unfold system_mode, set_system_mode, on_host. cbn. rewrite system_set.
  destruct (decide (n = m)) as [->|]; [by rewrite decide_True|by rewrite decide_False by congruence].
Qed.

Lemma read_inject ty s x : read x (inject ty s) = read x s.
Proof.
  pose proof (active_cursor_view s (inject ty s) eq_refl (view_host _ _)) as Hc.
  destruct x; cbn; rewrite ?Hc, ?ansi_host; try done. unfold system_mode, inject, on_host. cbn. apply system_host.
Qed.

(** A host with the same buffer. *)
Lemma host_ok f s : GetBufferAndViewport (R := TextBuffer) (f (_api s)) = GetBufferAndViewport (_api s) ->
  adapter_ok s -> adapter_ok (on_host f s).
Proof.
  intros Hv [Hp Hvi Hm (page & Hs & Hc)].
  assert (Hb : forall q, Buffer q (on_host f s) = Buffer q s).
  { intros q. unfold Buffer, on_host. cbn. by destruct (page_buffer q); cbn; rewrite ?Hv. }
  split; [done|by cbn; rewrite Hv|done|]. exists page. split.
  - apply settled_iff in Hs. apply settled_iff. unfold ActivePage, Get in *. cbn. by rewrite Hv.
  - unfold cursor_on_page, CursorOf, Adapter.Width in *. by rewrite Hb.
Qed.

(** ** The handlers that do more *)

Lemma line_feed_effect b s : in_sync s ->
  effect ModeParams.LNM_LineFeedNewLineMode b s (_SetLineFeedMode keypadModeEnabled b s).
Proof.
  intros Hy. unfold _SetLineFeedMode, in_sync in *. rewrite Hy, eqb_reflx. split.
  - intros x [<-|[<-|[]]]; rewrite read_input by done; [done|]. rewrite read_system. by rewrite decide_True.
  - intros x [].
  - intros x Hx Hn _ _. assert (H1 : x <> InInput InputMode.LineFeed) by (intros ->; apply Hn; by left).
    assert (H2 : x <> InSystem LineFeedMode) by (intros ->; apply Hn; right; by left).
    rewrite read_input, read_system, decide_False by done. destruct x as [|n| | | | | |]; try done.
    rewrite (proj2 (Z.eqb_neq n _)) by congruence. cbn. by rewrite !andb_true_r.
Qed.

Lemma ansi_effect b s :
  effect ModeParams.DECANM_AnsiMode b s (AdaptDispatch_SetAnsiMode keypadModeEnabled b s).
Proof.
  set (u := call_api (SetParserAnsi b) (s <| _termOutput := TerminalOutput.SoftReset (_termOutput s) |>)).
  change (AdaptDispatch_SetAnsiMode keypadModeEnabled b s) with (set_input_mode keypadModeEnabled InputMode.Ansi b u).
  apply (effect_one _ InParser); [done|done| |].
  - rewrite read_input by done. apply ansi_set.
  - intros x Hx Hne Hb. rewrite read_input by done.
    assert (Hu : read x u = read x s).
    { pose proof (active_cursor_view s u eq_refl (call_keeps_buffer _ _)) as Hc.
      destruct x; cbn; rewrite ?Hc; try done. apply system_call. }
    destruct x as [|n| | | | | |]; try done. rewrite (proj2 (Z.eqb_neq n _)) by (intros ->; apply Hb; by left).
    rewrite Hu. cbn. by rewrite !andb_true_r.
Qed.

Lemma origin_effect b s page : adapter_ok s -> settled s page ->
  effect ModeParams.DECOM_OriginMode b s (AdaptDispatch_CursorPosition 1 1 (set_mode AdaptMode.Origin b s)).
Proof.
  intros Hok Hs. set (s1 := set_mode AdaptMode.Origin b s). assert (Hok1 : adapter_ok s1) by (by apply set_mode_keeps).
  assert (Hs1 : settled s1 page) by (by apply (settled_frame s)).
  apply (effect_flags _ (InMode AdaptMode.Origin) b s s1); [done|done|done|apply position_same| | |].
  - right. assert (Hk : let c := active_cursor s in let c' := active_cursor (AdaptDispatch_CursorPosition 1 1 s1) in
      IsVisible c' = IsVisible c /\ IsBlinkingAllowed c' = IsBlinkingAllowed c).
    { cbv zeta. unfold AdaptDispatch_CursorPosition. rewrite (move_eq _ _ _ _ _ _ Hs1). cbv zeta.
      set (q := move_target _ _ _ _ _ _ _ _). set (s2 := s1 <| _scrollMargins := _ |>).
      destruct (adapter_active s1 s1 page Hok1 Hs1) as (_ & _ & Hc). destruct (page_geometry s1 page) as (Hg1 & Hg2); [apply Hok1|apply Hok1|done|].
      destruct (margins_frame s1 page (kept_margins page (Adapter.Width page s1) (_scrollMargins s1)) Hok1 Hs1) as [Hok2 Hs2];
        [apply kept_columns_ok, kept_rows_ok, Hok1|].
      rewrite page_cursor_changed; [|done|done|].
      - rewrite (active_cursor_settled s page Hs). change (CursorOf page s2) with (CursorOf page s).
        destruct (position_flags (Pages.ClampPositionWithinLine q (Buffer page s1)) (CursorOf page s)) as [<- <-]. by split.
      - change (GetPosition (_ApplyCursorMovementFlags ?c)) with (_cPosition c). rewrite SetPosition_position.
        apply (clamped_on_page page (Buffer page s1)); [done|]. apply move_target_on_page; [done|done|apply Hok1]. }
    intros x Hx. destruct Hk as [H1 H2]. by destruct x.
  - unfold s1. rewrite read_mode by done. by rewrite decide_True.
  - intros x Hx Hne _ _. unfold s1. rewrite read_mode by done. by rewrite decide_False.
Qed.

Lemma wrap_effect b s : adapter_ok s ->
  let t := set_system_mode AutoWrap b s in
  effect ModeParams.DECAWM_AutoWrapMode b s (if b then t else on_active_cursor ResetDelayEOLWrap t).
Proof.
  intros Hok t.
  assert (Ht : forall x, x <> InSystem AutoWrap -> read x t = read x s) by (intros x Hx; unfold t; rewrite read_system; by rewrite decide_False).
  assert (Hy : read (InSystem AutoWrap) t = b) by (unfold t; rewrite read_system; by rewrite decide_True).
  destruct b; [apply (effect_one _ (InSystem AutoWrap)); [done|done|done|intros; by apply Ht]|].
  apply (effect_flags _ (InSystem AutoWrap) false s t); [done|done|done|apply active_change_same| |done|intros; by apply Ht].
  right. intros x Hx. rewrite <- Ht by (by destruct x).
  pose proof (active_changed t ResetDelayEOLWrap) as Hc. destruct x; try done; cbn; (rewrite Hc; [done| |done]);
    apply host_ok; try done; apply view_system.
Qed.

Lemma cursor_effect p y f b s : adapter_ok s -> sources p = [y] -> clears p b = [] -> (forall c, GetPosition (f c) = GetPosition c) ->
  on_cursor y = true ->
  (forall c, (IsBlinkingAllowed (f c), IsVisible (f c))
    = (if decide (y = InBlink) then b else IsBlinkingAllowed c, if decide (y = InVisible) then b else IsVisible c)) ->
  effect p b s (on_active_cursor f s).
Proof.
  intros Hok Hs Hc Hp Hy Hf. pose proof (active_changed s f Hok Hp) as Ha. specialize (Hf (active_cursor s)). injection Hf as Hf1 Hf2.
  apply (effect_one p y); [done|done| |].
  - destruct y; try done; cbn; rewrite Ha; [by rewrite Hf1, decide_True|by rewrite Hf2, decide_True].
  - intros x Hx Hne _. destruct (on_cursor x) eqn:Ho; [|by apply same_read; [apply active_change_same|]].
    destruct x; try done; cbn; rewrite Ha; [by rewrite Hf1, decide_False|by rewrite Hf2, decide_False].
Qed.

Lemma coupling_effect b s :
  let t := set_mode AdaptMode.PageCursorCoupling b s in
  effect ModeParams.DECPCCM_PageCursorCouplingMode b s
    (if b then let '(pm, a) := MakeActivePageVisible (_pages t) (_api t) in t <| _pages := pm |> <| _api := a |> else t).
Proof.
  intros t.
  assert (Hsf : same_flags t (if b then let '(pm, a) := MakeActivePageVisible (_pages t) (_api t) in t <| _pages := pm |> <| _api := a |> else t)).
  { destruct b; [|done]. unfold MakeActivePageVisible. destruct (_ =? _); [done|].
    destruct (MoveTo _ true (_pages t) (_api t)) as [pm a] eqn:E. apply MoveTo_same in E as [H1 H2]. by split. }
  apply (effect_flags _ (InMode AdaptMode.PageCursorCoupling) b s t); [done|done|done|exact Hsf| | |].
  - left. split; [by left|right; by left].
  - unfold t. rewrite read_mode by done. by rewrite decide_True.
  - intros x Hx Hne _ _. unfold t. rewrite read_mode by done. by rewrite decide_False.
Qed.

Lemma left_right_screen s page : screen_ok s page -> exists m,
  _DoSetLeftRightScrollingMargins 0 0 false s = s <| _scrollMargins := m |> /\ margins_ok m.
Proof.
  intros [Hok Hs _ _ _]. unfold _DoSetLeftRightScrollingMargins. unfold settled in Hs. rewrite Hs. cbn [Z.eqb].
  destruct (ok_margins s Hok) as [Ht Hl].
  destruct ((1 <? Adapter.Width page s) && (Adapter.Width page s <=? Adapter.Width page s));
    [|exists (_scrollMargins s); split; [by destruct s|done]].
  rewrite !Z.eqb_refl. cbn [andb]. eexists. split; [reflexivity|]. by split.
Qed.

Lemma margin_mode_effect b s page : screen_ok s page ->
  exists t, _SetLeftRightMarginMode b s = Done t /\ effect ModeParams.DECLRMM_LeftRightMarginMode b s t.
Proof.
  intros Hsc. set (s1 := set_mode AdaptMode.AllowDECSLRM b s).
  assert (Hsc1 : screen_ok s1 page).
  { destruct Hsc as [Hok Hs Hb Ht Hbo]. split; [by apply set_mode_keeps|by apply (settled_frame s)|exact Hb|done|exact Hbo]. }
  destruct (left_right_screen s1 page Hsc1) as (m & Hm & Hmo). destruct (margins_rewritten s1 page m Hsc1 Hmo) as [Hsc2 Hb2].
  unfold _SetLeftRightMarginMode. fold s1. rewrite Hm. set (s2 := s1 <| _scrollMargins := m |>) in *.
  assert (Hgen : forall u, same_flags s2 u -> active_cursor u = active_cursor s -> effect ModeParams.DECLRMM_LeftRightMarginMode b s u).
  { intros u Hsf Hc. apply (effect_flags _ (InMode AdaptMode.AllowDECSLRM) b s s1); [done|done|done| | | |].
    - eapply same_flags_trans; [apply (margins_same m)|exact Hsf].
    - right. intros x Hx. destruct x; try done; cbn; by rewrite Hc.
    - unfold s1. rewrite read_mode by done. by rewrite decide_True.
    - intros x Hx Hne _ _. unfold s1. rewrite read_mode by done. by rewrite decide_False. }
  destruct b; [|exists s2; split; [done|]; apply Hgen; [done|by apply active_cursor_view]].
  pose proof (sc_settled _ _ Hsc2) as Hs2. pose proof Hs2 as Ha. unfold settled in Ha. rewrite Ha.
  destruct (update_rows_spec s2 page (fun r => Done (Row.SetLineRendition SingleWidth r)) (Row.SetLineRendition SingleWidth) (Top page) (Bottom page) Hsc2)
    as (t & Hrun & Hrw & _); [apply Hsc2|apply Hsc2| |].
  { intros y Hy. split; [done|]. destruct (slot_row_ok m_isa (text_buffer page s2) (phys (text_buffer page s2) y) (sc_buffer _ _ Hsc2)) as [[] Hc]. split; [by split|done]. }
  exists t. split; [exact Hrun|]. apply Hgen.
  - unfold on_buffer in Hrun. destruct (update_rows _ _ _ _ _) as [b'| | |]; try done. injection Hrun as <-. apply set_buffer_same.
  - rewrite (active_cursor_settled t page (sc_settled _ _ (re_screen _ _ _ Hrw))), (active_cursor_settled s page (sc_settled _ _ Hsc)).
    pose proof (re_frame _ _ _ Hrw) as Hf. rewrite Hb2 in Hf. by injection Hf.
Qed.

Lemma saved_same s : same_flags s (AdaptDispatch_CursorSaveState s).
Proof.
  unfold AdaptDispatch_CursorSaveState. destruct (active_page s) as [s1 page] eqn:Ha. pose proof (active_same s) as H1. rewrite Ha in H1.
  unfold relative_position. eapply same_flags_trans; [exact H1|].
  destruct (test_mode AdaptMode.Origin s1); [|done]. rewrite GetHorizontalMargins_eq. destruct (margin_columns _ _).
  rewrite GetVerticalMargins_eq. by destruct (margin_rows _ _).
Qed.

Lemma restored_same s : exists b, same_flags (set_mode AdaptMode.Origin b s) (AdaptDispatch_CursorRestoreState s).
Proof.
  unfold AdaptDispatch_CursorRestoreState. set (saved := saved_state s). exists (IsOriginModeRelative saved).
  set (s1 := set_mode _ _ s). set (s2 := AdaptDispatch_PagePositionAbsolute _ s1).
  assert (H2 : same_flags s1 s2).
  { unfold s2, AdaptDispatch_PagePositionAbsolute, move_page. destruct (MoveTo _ _ (_pages s1) (_api s1)) as [pm a] eqn:E.
    apply MoveTo_same in E as [? ?]. by split. }
  set (s3 := AdaptDispatch_CursorPosition _ _ s2). pose proof (position_same _ _ _ s2 : same_flags s2 s3) as H3.
  destruct (active_page s3) as [s4 page] eqn:Ha. pose proof (active_same s3) as H4. rewrite Ha in H4.
  set (s5 := if IsDelayedEOLWrap_ saved then _ else s4).
  assert (H5 : same_flags s4 s5) by (unfold s5, change_cursor; step_if; [apply set_buffer_same|done]).
  pose proof (set_buffer_same page ((Buffer page s5) <| Pages._currentAttributes := saved_Attributes saved |>) s5) as H6.
  fold (SetAttributes page (saved_Attributes saved) s5) in H6.
  eapply same_flags_trans; [exact H2|]. eapply same_flags_trans; [exact H3|]. eapply same_flags_trans; [exact H4|].
  eapply same_flags_trans; [exact H5|]. eapply same_flags_trans; [exact H6|done].
Qed.

Lemma alternate_effect b s : effect ModeParams.ASB_AlternateScreenBuffer b s (_SetAlternateScreenBufferMode b s).
Proof.
  assert (Hcur : In InBlink (blurs ModeParams.ASB_AlternateScreenBuffer b) /\ In InVisible (blurs ModeParams.ASB_AlternateScreenBuffer b))
    by (split; [by left|right; by left]).
  destruct b; unfold _SetAlternateScreenBufferMode.
  - pose proof (saved_same s) as H1. destruct (active_page (AdaptDispatch_CursorSaveState s)) as [s2 page] eqn:Ha.
    pose proof (active_same (AdaptDispatch_CursorSaveState s)) as H2. rewrite Ha in H2.
    assert (H3 : same_flags s s2) by (by eapply same_flags_trans).
    set (a := _GetEraseAttributes page s2). set (s3 := on_host _ s2).
    assert (H4 : same_flags s s3).
    { eapply same_flags_trans; [exact H3|]. split; try done; [intros m; apply system_alternate|apply ansi_alternate]. }
    apply (effect_flags _ InAlternate true s (s3 <| _usingAltBuffer := true |>)); [done|done|done|done|by left|done|].
    intros x Hx Hne Ho _. rewrite <- (same_read s s3 x H4 Ho). by destruct x.
  - set (s1 := (on_host UseMainBuffer s) <| _usingAltBuffer := false |>). destruct (restored_same s1) as [origin H1].
    apply (effect_flags _ InAlternate false s (set_mode AdaptMode.Origin origin s1)); [done|done|done|exact H1|by left|done|].
    intros x Hx Hne Ho Hb. rewrite read_mode by done. rewrite decide_False by (intros ->; apply Hb; by right; right; left).
    destruct x; try done; cbn; [apply system_main|apply ansi_main].
Qed.

(** ** Every mode *)

Ltac in_place tac := eexists; split; [reflexivity|]; tac.
Ltac plain_mode m := in_place ltac:(apply (effect_one _ (InMode m));
  [done|done|rewrite read_mode by done; by rewrite decide_True|intros; rewrite read_mode by done; by rewrite decide_False]).
Ltac plain_render m := in_place ltac:(apply (effect_one _ (InRender m));
  [done|done|rewrite read_render by done; by rewrite decide_True|intros; rewrite read_render by done; by rewrite decide_False]).
Ltac plain_input m := in_place ltac:(apply (effect_input _ m); [done|done|done]).
Ltac told_input m := in_place ltac:(apply (effect_input _ m);
  [done|done|intros x Hx; match goal with |- context [if ?b then _ else _] => destruct b end; [done|apply read_inject]]).

Lemma helper_effect p b s page : In p settable_modes -> screen_ok s page ->
  (p = ModeParams.LNM_LineFeedNewLineMode -> in_sync s) ->
  exists t, _ModeParamsHelper keypadModeEnabled p b s = Done t /\ effect p b s t.
Proof.
  intros Hp Hsc Hy. pose proof (sc_adapter _ _ Hsc) as Hok. pose proof (sc_settled _ _ Hsc) as Hs.
  destruct Hp as [<-|Hp]; [plain_mode AdaptMode.InsertReplace|].
  destruct Hp as [<-|Hp]; [in_place ltac:(by apply line_feed_effect, Hy)|].
  destruct Hp as [<-|Hp]; [plain_input InputMode.CursorKey|].
  destruct Hp as [<-|Hp]; [in_place ltac:(apply ansi_effect)|].
  destruct Hp as [<-|Hp]; [plain_render RenderMode.ScreenReversed|].
  destruct Hp as [<-|Hp]; [in_place ltac:(by apply (origin_effect b s page))|].
  destruct Hp as [<-|Hp]; [in_place ltac:(by apply wrap_effect)|].
  destruct Hp as [<-|Hp]; [plain_input InputMode.AutoRepeat|].
  destruct Hp as [<-|Hp]; [in_place ltac:(by apply (cursor_effect _ InBlink))|].
  destruct Hp as [<-|Hp]; [in_place ltac:(apply (cursor_effect _ InVisible); try done; intros c; unfold SetIsVisible, _RedrawCursor; by repeat step_if)|].
  destruct Hp as [<-|Hp]; [plain_mode AdaptMode.AllowDECCOLM|].
  destruct Hp as [<-|Hp]; [in_place ltac:(apply coupling_effect)|].
  destruct Hp as [<-|Hp]; [plain_input InputMode.Keypad|].
  destruct Hp as [<-|Hp]; [plain_input InputMode.BackarrowKey|].
  destruct Hp as [<-|Hp]; [exact (margin_mode_effect b s page Hsc)|].
  destruct Hp as [<-|Hp]; [plain_mode AdaptMode.SixelDisplay|].
  destruct Hp as [<-|Hp]; [plain_mode AdaptMode.EraseColor|].
  destruct Hp as [<-|Hp]; [plain_input InputMode.DefaultMouseTracking|].
  destruct Hp as [<-|Hp]; [plain_input InputMode.ButtonEventMouseTracking|].
  destruct Hp as [<-|Hp]; [plain_input InputMode.AnyEventMouseTracking|].
  destruct Hp as [<-|Hp]; [plain_input InputMode.Utf8MouseEncoding|].
  destruct Hp as [<-|Hp]; [plain_input InputMode.SgrMouseEncoding|].
  destruct Hp as [<-|Hp]; [told_input InputMode.FocusEvent|].
  destruct Hp as [<-|Hp]; [plain_input InputMode.AlternateScroll|].
  destruct Hp as [<-|Hp]; [in_place ltac:(apply alternate_effect)|].
  destruct Hp as [<-|Hp].
  { in_place ltac:(apply (effect_one _ (InSystem BracketedPaste)); [done|done|rewrite read_system; by rewrite decide_True|intros; rewrite read_system; by rewrite decide_False]). }
  destruct Hp as [<-|Hp]; [plain_render RenderMode.SynchronizedOutput|].
  destruct Hp as [<-|[]]. told_input InputMode.Win32.
Qed.

(** Whether one of the places of a mode is among some. *)
Definition meets (l : list Source) (q : Z) : bool :=
  existsb (fun x => existsb (fun y => bool_decide (x = y)) l) (sources q).

Lemma meets_false l q x : meets l q = false -> In x (sources q) -> ~ In x l.
Proof.
  unfold meets. intros Hm Hx Hl. apply not_true_iff_false in Hm. apply Hm, existsb_exists. exists x.
  split; [done|]. apply existsb_exists. exists x. split; [done|by apply bool_decide_eq_true_2].
Qed.

(** Two modes are kept in different places. *)
Lemma sources_apart p q : In p known_modes -> In q known_modes -> q <> p -> meets (sources p) q = false.
Proof.
  intros Hp Hq Hne.
  assert (Hall : forallb (fun p => forallb (fun q => (q =? p) || negb (meets (sources p) q)) known_modes) known_modes = true)
    by (vm_compute; reflexivity).
  rewrite forallb_forall in Hall. specialize (Hall p Hp). rewrite forallb_forall in Hall. specialize (Hall q Hq).
  rewrite (proj2 (Z.eqb_neq q p) Hne) in Hall. by apply negb_true_iff in Hall.
Qed.

Lemma sources_ok q x : In q known_modes -> In x (sources q) -> source_ok x.
Proof. intros Hq. repeat (destruct Hq as [<-|Hq]; [intros Hx; by repeat (destruct Hx as [<-|Hx]; [done|])|]). destruct Hq. Qed.

(** The numbers of a mode in a report. *)
Definition mode_name (p : Z) : list Z :=
  if p >=? ModeParams.Private 0 then wstr "?" ++ format_int (p - ModeParams.Private 0) else format_int p.

Lemma request_text p t : _api (AdaptDispatch_RequestMode measurementMode p t)
  = api_call (R := TextBuffer) (ReturnResponse ((if sends_c1 t then [0x9B] else [ESC; 0x5B]) ++ mode_name p ++ wstr ";"
      ++ format_int (mode_state measurementMode p t) ++ wstr "$y")) (_api t).
Proof.
  unfold AdaptDispatch_RequestMode, mode_name. set (st := mode_state _ p t). clearbody st.
  set (u := if _ || _ then _ else t). assert (Hu : _api u = _api t /\ sends_c1 u = sends_c1 t).
  { unfold u. step_if; [|done]. unfold active_page. by destruct (ActivePage _ _). }
  clearbody u. destruct Hu as [<- <-]. destruct (p >=? ModeParams.Private 0); [|done].
  unfold _ReturnCsiResponse, call_api. cbn [_api setter AdaptDispatch_eta]. by rewrite <- !app_assoc.
Qed.

Lemma state_set p b s t : In p settable_modes -> effect p b s t -> mode_state measurementMode p t = mapTemp b.
Proof.
  intros Hp He. destruct (Z.eq_dec p ModeParams.LNM_LineFeedNewLineMode) as [->|Hne].
  - rewrite state_line_feed, !(ef_set _ _ _ _ He) by (by repeat first [left; reflexivity|right]). by rewrite eqb_reflx.
  - destruct (state_read p t) as (x & Hx & ->); [by right|done|]. rewrite (ef_set _ _ _ _ He); [done|]. rewrite Hx. by left.
Qed.

Lemma state_other p q b s t : In p settable_modes -> In q known_modes -> q <> p -> effect p b s t -> meets (blurs p b) q = false ->
  mode_state measurementMode q t = if meets (clears p b) q then mapTemp false else mode_state measurementMode q s.
Proof.
  intros Hp Hq Hne He Hb. assert (Hp' : In p known_modes) by (by right).
  pose proof (sources_apart p q Hp' Hq Hne) as Hap.
  assert (Hkeep : meets (clears p b) q = false -> forall x, In x (sources q) -> read x t = read x s).
  { intros Hc x Hx. apply (ef_keep _ _ _ _ He); [by apply (sources_ok q)|by apply (meets_false _ q)..]. }
  destruct (Z.eq_dec q ModeParams.LNM_LineFeedNewLineMode) as [->|Hl].
  - assert (Hc : meets (clears p b) ModeParams.LNM_LineFeedNewLineMode = false).
    { repeat (destruct Hp as [<-|Hp]; [by destruct b|]). destruct Hp. }
    rewrite Hc, !state_line_feed. by rewrite !(Hkeep Hc) by (by repeat first [left; reflexivity|right]).
  - destruct (state_read q t) as (x & Hx & ->); [done|done|]. destruct (state_read q s) as (x' & Hx' & ->); [done|done|].
    rewrite Hx in Hx'. injection Hx' as <-. destruct (meets (clears p b) q) eqn:Hc.
    + f_equal. apply (ef_clear _ _ _ _ He). unfold meets in Hc. rewrite Hx in Hc. cbn [existsb] in Hc. rewrite orb_false_r in Hc.
      apply existsb_exists in Hc as (y & Hy & Hxy). apply bool_decide_eq_true_1 in Hxy. by subst y.
    + f_equal. apply Hkeep; [done|]. rewrite Hx. by left.
Qed.

(** C38: a mode that is set or reset is reported so, and no other mode with
    it.  For each of the modes of the terminal, wherever it is kept, SM, RM,
    DECSET and DECRST are carried out, and DECRQM is answered with 1 or 2
    accordingly; every other mode is reported as before.  But setting or
    resetting a mouse tracking mode resets the other two, and setting a mouse
    encoding resets the other; and nothing is said about the modes of the
    cursor when the page of the cursor or the screen buffer changes (DECPCCM,
    1049), nor about the origin mode on return from the alternate screen
    buffer, which restores it.  The number of columns (DECCOLM) and the mode of
    grapheme clusters, which is permanent, are not among the modes that are
    set here, and LNM is set only while the mode of the system and that of the
    input agree.  The terminal has a well formed buffer with the cursor on its
    page ([screen_ok]), and the host keeps the modes it is told to
    ([TerminalApiLaws], [ModeApiLaws]). *)
Theorem modes_reported p (b : bool) s page : In p settable_modes -> screen_ok s page ->
  (p = ModeParams.LNM_LineFeedNewLineMode -> in_sync s) ->
  exists t, (if b then AdaptDispatch_SetMode keypadModeEnabled p s else AdaptDispatch_ResetMode keypadModeEnabled p s) = Done t /\
    _api (AdaptDispatch_RequestMode measurementMode p t)
    = api_call (R := TextBuffer) (ReturnResponse ((if sends_c1 t then [0x9B] else [ESC; 0x5B]) ++ mode_name p ++ wstr ";"
        ++ (if b then wstr "1" else wstr "2") ++ wstr "$y")) (_api t) /\
    forall q, In q known_modes -> q <> p -> meets (blurs p b) q = false ->
      mode_state measurementMode q t
      = if meets (clears p b) q then ModeResponses.DECRPM_Disabled else mode_state measurementMode q s.
Proof.
  intros Hp Hsc Hy. destruct (helper_effect p b s page Hp Hsc Hy) as (t & Ht & He). exists t. split; [by destruct b|]. split.
  - rewrite request_text, (state_set p b s t Hp He). by destruct b.
  - intros q Hq Hne Hb. by apply (state_other p q b s t).
Qed.
End Facts.
