(* ===== verification/EditingWitness.v ===== *)
(** * A terminal with text to evaluate

    A host that keeps the visible buffer, with the rows of the text buffer:
    instances of the interfaces of the terminal, and a page with a line of
    text on which the theorems about erasing, scrolling and areas are
    applied. *)

From S2P Require Import Prelude VTTypes TermDispatch StateMachine TextAttribute SgrStack Graphics MacroBuffer TerminalInput TerminalOutput AdapterWitness.
From S2P Require Import Rle RleFacts RleRefine Cursor Pages Adapter AdapterFacts AdapterMoves Graphemes GraphemeFacts Row RowWrite RowFacts RowInit RowFinish RowWrites RowTheorems RowCopy RowWitness.
From S2P Require Import Hash Geometry TextBuffer TextBufferFacts TextBufferTheorems Cells Editing Areas EditingFacts AreaFacts Printing ScrollFacts RenderSettings AdapterReports Modes ModeFacts.
#[local] Open Scope Z_scope.

(** ** The host *)

#[local] Instance machine : Machine := {| m_fallback := None; m_garbage := heap_byte; m_isa := AVX2; m_legacy := initial_LegacyDefaults |}.

Record Console := mk_Console {
  con_view : BufferState TextBuffer;
  con_calls : list ApiCall;
  con_autoWrap : bool;
  con_lineFeed : bool;
  con_bracketedPaste : bool;
  con_ansi : bool;
}.

#[export] Instance Console_eta : Eta Console := fun h =>
  mk_Console (con_view h) (con_calls h) (con_autoWrap h) (con_lineFeed h) (con_bracketedPaste h) (con_ansi h).

#[local] Instance console_api : ITerminalApi Console TextBuffer := {
  GetBufferAndViewport := con_view;
  SetVisibleBuffer b h := h <| con_view := (con_view h) <| buffer := b |> |>;
  GetUserDefaultCursorStyle _ := Underscore;
  GetInputCodePage _ := 65001;
  api_call c h :=
    let h := h <| con_calls := con_calls h ++ [c] |> in
    match c with SetParserAnsi b => h <| con_ansi := b |> | _ => h end;
}.

#[local] Instance console_screen : IScreenApi Console := {
  GetSystemMode m h := match m with AutoWrap => con_autoWrap h | LineFeedMode => con_lineFeed h | BracketedPaste => con_bracketedPaste h end;
  SetViewportPosition p h :=
    let v := viewport (con_view h) in
    h <| con_view := (con_view h) <| viewport := mk_rect (px p) (py p) (px p + rect_width v) (py p + rect_height v) |> |>;
  NotifyBufferRotation _ h := h;
  GetOutputCodePage _ := 65001;
}.

#[local] Instance console_modes : IModeApi Console := {
  SetSystemMode m b h :=
    match m with
    | AutoWrap => h <| con_autoWrap := b |>
    | LineFeedMode => h <| con_lineFeed := b |>
    | BracketedPaste => h <| con_bracketedPaste := b |>
    end;
  GetParserAnsi := con_ansi;
  ResizeWindow _ _ h := h;
  UseAlternateBuffer _ h := h <| con_view := (con_view h) <| isMainBuffer := false |> |>;
  UseMainBuffer h := h <| con_view := (con_view h) <| isMainBuffer := true |> |>;
  host_call _ h := h;
}.

#[local] Instance console_laws : TerminalApiLaws Console TextBuffer.
Proof. split; [done|]. by intros []. Qed.
#[local] Instance console_screen_laws : ScreenApiLaws Console.
Proof. by split. Qed.
#[local] Instance console_mode_laws : ModeApiLaws Console.
Proof. split; try done; [by intros [] []|by intros [] []|by intros []|by intros []]. Qed.

(** ** The page *)

(** Ten columns and six rows in circular order; the third has text. *)
Definition page_rows : TextBuffer :=
  mk_TextBuffer [blank_row; cat_row] TextAttribute_default TextAttribute_default 10 6 4 0 (new_Cursor 25) [] [] 8.
Definition rows_with (c : Cursor) : TextBuffer := page_rows <| _cursor := c |>.
Definition cursor_at (p : point) : Cursor := SetPosition p (new_Cursor 25).
Definition console (view : rect) (p : point) : AdaptDispatch Console TextBuffer :=
  new_AdaptDispatch (mk_Console (mk_BufferState (page_buffer_from (rows_with (cursor_at p))) view true) [] true false false true) no_keys first_settings.
Definition console_page (view : rect) : Page := mk_Page VisibleBuffer view 1.

Definition page_glyphs (y : Z) : list glyph := if y =? 2 then cat_glyphs else spaces 10.
Definition page_attributes (y : Z) : list TextAttribute := replicate 10 TextAttribute_default.
Definition page_lines (i : nat) : list glyph := if (i =? 1)%nat then cat_glyphs else spaces 10.

Lemma page_rows_ok c : buffer_ok (rows_with c).
Proof. split; try (cbn; lia); [unfold watermark, capacity; cbn; lia|]. repeat constructor; apply blank_holds || apply cat_holds. Qed.

Lemma console_ok view p : 0 <= top view < bottom view -> bottom view <= 6 -> left view = 0 -> right view = 10 -> 0 <= px p < 10 -> top view <= py p < bottom view ->
  screen_ok (console view p) (console_page view).
Proof.
  intros Ht Hb Hl Hr Hx Hy. split; [split; [by split| |by split|]| |apply page_rows_ok|exact (proj1 Ht)|exact Hb].
  - split; cbn; unfold rect_width, rect_height; lia.
  - exists (console_page view). split; [done|]. unfold cursor_on_page, on_page.
    change (GetPosition (CursorOf (console_page view) (console view p))) with (_cPosition (SetPosition p (new_Cursor 25))). rewrite SetPosition_position. by split.
  - done.
Qed.

Lemma slot_shows c i : (0 < i)%nat -> plain_line (slot AVX2 (rows_with c) i) (page_lines i) /\
  represents 16 (_attr (slot AVX2 (rows_with c) i)) (replicate 10 TextAttribute_default).
Proof.
  assert (Hr : represents 16 (mk_rle [mk_run TextAttribute_default 10] 10) (replicate 10 TextAttribute_default)) by (split_and!; [repeat constructor; cbn; lia|repeat constructor; cbn; lia|done]).
  intros Hi. destruct i as [|[|i]]; [lia|split; [split; [apply cat_holds|done|done]|exact Hr]|]. change (slot AVX2 (rows_with c) (S (S i))) with (fresh AVX2 (rows_with c)).
  assert (Hw : 0 < 10 < 0x8000) by lia. destruct (fresh_ok AVX2 (rows_with c) Hw) as (_ & _ & Hp & Ha & _). split; [exact Hp|]. rewrite Ha. exact Hr.
Qed.

Lemma console_displays view p : displays (console view p) (console_page view) page_glyphs page_attributes.
Proof.
  intros y Hy. destruct (slot_shows (cursor_at p) (phys page_rows y) ltac:(unfold phys; lia)) as [[Hh _ _] Hr].
  assert (E : page_lines (phys page_rows y) = page_glyphs y).
  { change (0 <= y < 6) in Hy. assert (Hc : y = 0 \/ y = 1 \/ y = 2 \/ y = 3 \/ y = 4 \/ y = 5) by lia. by repeat (destruct Hc as [->|Hc]); subst. }
  rewrite E in Hh. split; [by split|]. unfold page_glyphs. by destruct (y =? 2).
Qed.

Lemma console_scrollable view p : scrollable (text_buffer (console_page view) (console view p)) page_lines.
Proof.
  assert (Hroom : forall i, has_room (page_lines i) (repeat 0x20 10)) by (intros i; unfold page_lines; by destruct (i =? 1)%nat).
  split; [split|intros y _; eexists; exact (proj2 (slot_shows (cursor_at p) (phys page_rows y) ltac:(unfold phys; lia)))|intros y _; apply Hroom].
  - intros i Hi. exact (proj1 (slot_shows (cursor_at p) i Hi)).
  - intros i j _ _. unfold page_lines. by destruct (i =? 1)%nat, (j =? 1)%nat.
Qed.

(** ** The theorems *)

Definition window_below : rect := mk_rect 0 2 10 6.
Definition window_above : rect := mk_rect 0 1 10 4.

Lemma below_columns : column_extent (console_page window_below) (console window_below (mk_point 0 4)) = (0, 10).
Proof. reflexivity. Qed.
Lemma below_rows : row_extent (console_page window_below) (console window_below (mk_point 0 4)) = (2, 6).
Proof. reflexivity. Qed.

Lemma only_row r : (forall x y, rect_contains r (mk_point x y) = true <-> (2 <= x < 5 /\ y = 2)) -> r = mk_rect 2 2 5 3.
Proof.
  intros H. pose proof (proj2 (H 2 2) ltac:(lia)) as H0. pose proof (proj2 (H 4 2) ltac:(lia)) as H1. pose proof (proj1 (H 1 2)) as H2. pose proof (proj1 (H 5 2)) as H3. pose proof (proj1 (H 2 1)) as H4. pose proof (proj1 (H 2 3)) as H5.
  unfold rect_contains in *. cbn [px py] in *. destruct r as [l t r b]. cbn [left top right bottom] in *. f_equal; lia.
Qed.

(** Columns 3 to 5 of the first row of the window: half of the wide glyph, a
    letter and a space. *)
Lemma area_erased_witness : exists t, AdaptDispatch_EraseRectangularArea 1 3 1 5 (console window_below (mk_point 0 4)) = Done t /\
  holds (row_of (console_page window_below) t 2) ([([0x61], 1%nat)] ++ spaces 9) /\
  row_of (console_page window_below) t 3 = row_of (console_page window_below) (console window_below (mk_point 0 4)) 3.
Proof.
  destruct (area_erased (console window_below (mk_point 0 4)) (console_page window_below) page_glyphs page_attributes 1 3 1 5) as (t & r & E & _ & _ & _ & Hr & H);
    [apply console_ok; cbn; lia|apply console_displays|lia..|]. exists t. split; [exact E|].
  assert (Hrect : forall x y, rect_contains r (mk_point x y) = true <-> (2 <= x < 5 /\ y = 2)) by (intros x y; rewrite Hr; unfold in_area, in_range; rewrite below_columns, below_rows; cbn [fst snd px py]; lia).
  assert (Er : r = mk_rect 2 2 5 3) by exact (only_row r Hrect).
  subst r. split; [exact (proj1 (proj1 (H 2 ltac:(cbn; lia))))|exact (H 3 ltac:(cbn; lia))].
Defined.

(** DECCARA with bold for the same columns. *)
Lemma area_attributes_changed_witness : exists t l', AdaptDispatch_ChangeAttributesRectangularArea 1 3 1 5 (VTParameters_plain [1]) (console window_below (mk_point 0 4)) = Done t /\
  displays t (console_page window_below) page_glyphs l' /\ l' 2 !! 1%nat = Some TextAttribute_default /\ l' 2 !! 3%nat = Some (SetIntense true TextAttribute_default).
Proof.
  destruct (area_attributes_changed (console window_below (mk_point 0 4)) (console_page window_below) page_glyphs page_attributes 1 3 1 5 (VTParameters_plain [1])) as (t & r & l' & E & _ & _ & Hr & Hd & _ & H);
    [apply console_ok; cbn; lia|apply console_displays|lia..| |].
  { intros y a Ha. unfold page_attributes in Ha. apply elem_of_replicate in Ha as [-> _]. vm_compute. by split. }
  exists t, l'. split; [exact E|]. split; [exact Hd|].
  assert (Hrect : forall x y, rect_contains r (mk_point x y) = true <-> (2 <= x < 5 /\ y = 2)) by (intros x y; rewrite Hr; unfold in_area, in_range; rewrite below_columns, below_rows; cbn [fst snd px py]; lia).
  rewrite (only_row r Hrect) in H. split; [exact (H 2 1%nat _ ltac:(cbn; lia) eq_refl)|exact (H 2 3%nat _ ltac:(cbn; lia) eq_refl)].
Defined.

(** One line is inserted in the row of the text. *)
Lemma lines_moved_witness : exists t, AdaptDispatch_InsertLine 1 (console window_below (mk_point 4 2)) = Done t /\
  GetPosition (CursorOf (console_page window_below) t) = mk_point 0 2 /\ holds (row_of (console_page window_below) t 3) cat_glyphs /\
  holds (row_of (console_page window_below) t 2) (spaces 10).
Proof.
  destruct (lines_moved (console window_below (mk_point 4 2)) (console_page window_below) page_lines true 1) as (t & E & _ & _ & Hp & H);
    [apply console_ok; cbn; lia|apply console_scrollable|reflexivity|]. exists t. split; [exact E|]. split; [exact Hp|].
  split; [exact (pl_holds _ _ (cf_line _ _ _ (H 3 ltac:(cbn; lia))))|exact (proj1 (wi_shows _ _ _ (H 2 ltac:(cbn; lia))))].
Defined.

(** Line feeds with room below the window, and without. *)
Lemma line_feed_scrolls_witness :
  (exists t, _DoLineFeed (console_page window_above) true false (console window_above (mk_point 4 3)) = Done (t, true) /\
     holds (row_of (MoveViewportDown (console_page window_above)) t 2) cat_glyphs) /\
  (exists t, _DoLineFeed (console_page window_below) false true (console window_below (mk_point 4 5)) = Done (t, false) /\
     GetPosition (CursorOf (console_page window_below) t) = mk_point 4 5 /\ holds (row_of (console_page window_below) t 1) cat_glyphs).
Proof.
  split.
  - destruct (line_feed_scrolls (console window_above (mk_point 4 3)) (console_page window_above) true false) as (t & E & _ & _ & Hk & _ & _);
      [apply console_ok; cbn; lia|reflexivity..|by split|]. exists t. split; [exact E|].
    pose proof (Hk 0 ltac:(vm_compute; by split)) as H. change (row_of (MoveViewportDown (console_page window_above)) t 2 = cat_row) in H. rewrite H. apply cat_holds.
  - destruct (line_feed_scrolls (console window_below (mk_point 4 5)) (console_page window_below) false true) as (t & E & _ & Hp & _ & _ & Hk);
      [apply console_ok; cbn; lia|reflexivity..|done|]. exists t. split; [exact E|]. split; [exact Hp|].
    pose proof (Hk 1 ltac:(vm_compute; by split)) as H. change (row_of (console_page window_below) t 1 = cat_row) in H. rewrite H. apply cat_holds.
Defined.

(** The tracking of all mouse movements is set. *)
Lemma modes_reported_witness : let s := console window_below (mk_point 4 2) in
  exists t, AdaptDispatch_SetMode false ModeParams.ANY_EVENT_MOUSE_MODE s = Done t /\
    _api (AdaptDispatch_RequestMode ModeGraphemes ModeParams.ANY_EVENT_MOUSE_MODE t)
    = api_call (R := TextBuffer) (ReturnResponse (ESC :: wstr "[?1003;1$y")) (_api t) /\
    mode_state ModeGraphemes ModeParams.VT200_MOUSE_MODE t = ModeResponses.DECRPM_Disabled /\
    mode_state ModeGraphemes ModeParams.DECAWM_AutoWrapMode t = ModeResponses.DECRPM_Enabled.
Proof.
  destruct (modes_reported false ModeGraphemes ModeParams.ANY_EVENT_MOUSE_MODE true (console window_below (mk_point 4 2)) (console_page window_below))
    as (t & E & Hr & Hq); [do 19 right; by left|apply console_ok; cbn; lia|discriminate|].
  exists t. split; [exact E|]. split.
  - rewrite Hr. assert (Hc : sends_c1 t = false) by (injection E as <-; vm_compute; reflexivity). by rewrite Hc.
  - split; [rewrite (Hq ModeParams.VT200_MOUSE_MODE)|rewrite (Hq ModeParams.DECAWM_AutoWrapMode)];
      first [done|by vm_compute|by (repeat first [left; reflexivity|right])].
Defined.
